(* ===== verification/_CoqProject ===== *)
-Q . S2P
Prelude.v
Bytes.v
Kernel.v
Lock.v
SpinProtocol.v
Str.v
Pmem.v
Vm.v
Sched.v
Virtio.v
Buf.v
Bitmap.v
MmapPool.v
Uvm.v
Clone.v
Teardown.v
Inode.v
Dir.v
Path.v
Link.v
Destroy.v
Append.v
Unlink.v
Create.v
Remove.v
File.v
Open.v
Proc.v
Reap.v
Fork.v
Syscall.v
SysFile.v
Print.v
Trap.v
KernelTrap.v
UserTrap.v
Types.v
FsTypes.v
KernelTypes.v
Mkfs.v
