(* ===== verification/Prelude.v ===== *)
(** * WHUOS: a verification development of the teaching kernel

    The program is the RISC-V kernel under src/whu-oslab-lab/code (kernel/, include/) with
    its image builder (mkfs/).  The development is a shallow embedding: every function of
    the C sources is a Rocq function over an explicit machine state, and the theorems are
    about those functions.

    ** The model

    - Prelude.v (this file): machine integers as [Z] with their wrap-around written out, the
      state-and-error monad [M], loops, the tactics ([mrun], [run], [zbool], [zdecide],
      [zdiv]) and the facts on integers and lists that all files share.
    - Bytes.v: bytes, little-endian integers, byte-addressed physical memory.
    - Kernel.v: the C structures of include/ as records, the global variables as the fields of
      one state [kstate], and [K], the monad over it.  Pointers into the fixed tables of
      the kernel are indices, NULL is [None] where the code tests for it; page tables,
      trapframes, free lists and user pages live in the byte memory.

    An operation returns [Ok] with a result and a state, or [Panic] (the kernel's own panic),
    [Fault] (an access the C code has no behaviour for), [Hang] (a loop that cannot be left)
    or [NoFuel] (the model's bound on a loop).  A theorem that says what an operation does
    says it with [Ok], so that the absence of panics, faults and of the end of the fuel is
    part of it.

    ** Files, sources and theorems

    - Lock.v (kernel/lib/spinlock.c, kernel/proc/cpu.c): interrupt nesting and locks as one
      hart runs them.  SpinProtocol.v: the same code as atomic steps of any number of harts,
      an inductive step relation: mutual exclusion and the absence of spurious panics by rule
      induction, progress, and that the sequential operations of Lock.v are runs of it.
    - Str.v (kernel/lib/str.c): memory and string routines; [memmove] on overlapping ranges.
    - Print.v (kernel/lib/print.c, kernel/dev/uart.c): printf down to the bytes the UART sends.
    - Pmem.v (kernel/mem/pmem.c): the page allocator, its invariant and its refinement of a
      pair of lists of free pages.
    - Vm.v (kernel/mem/kvm.c): Sv39 tables; walking, mapping and unmapping refine the finite
      map from addresses to entries.  MmapPool.v (kernel/mem/mmap.c): the pool of region nodes.
      Uvm.v (kernel/mem/uvm.c): copies between kernel and user memory, heap, mmap, copy and
      destruction of address spaces.  Clone.v: fork's copy of an address space gives the new
      table its own pages with the same bytes and permissions.  Teardown.v: destroying an
      address space returns every table and every page it owned to its pool, each once.
    - Sched.v, Proc.v (kernel/proc/proc.c): sleep, wakeup, scheduler; allocation, fork, wait,
      exit.  The context switch is the interface [Switch].  Reap.v: [proc_wait] hands over the
      exit code of a child and releases it; every page it held returns to its pool, once.
      Fork.v: [proc_fork] end to end, and what it does when there is no slot or no memory.
    - Virtio.v (kernel/dev/virtio.c): the disk driver over the interface [Device]; its theorems
      discharge the interface [BlockDevice] that the file system is proved against.
    - Buf.v (kernel/fs/buf.c): the LRU ring of buffers; coherence of cache and disk, and the
      frames [fs_step] in which all file-system code above it is stated.
    - Bitmap.v, Inode.v, Dir.v (kernel/fs/bitmap.c, inode.c, dir.c): allocation bits, the block
      map with its indirect blocks, reading and writing of file data, directories as finite
      maps from names to numbers, the taking apart of paths.
    - Path.v: the walk of [search_inode] through locks, inode cache and buffer cache refines
      the walk over the abstract directory tree on the disk, with an exact account of
      references.  Link.v: [path_link] adds one name and one link to that tree or leaves it as
      it was.  Unlink.v: [path_unlink] of a file with further links takes both away, and undoes
      [path_link].  Append.v: [inode_write_data] that takes new direct blocks from the bitmap, and
      that a full disk makes it overwrite the super block.  Destroy.v: the end of an inode without links frees exactly the blocks its
      direct and indirect addresses lead to.  Create.v: [path_create_inode] of a file adds one
      inode and one name to tree and bitmaps, or leaves them.  Remove.v: [path_unlink] of the
      last name removes the file, and undoes the creation.
    - File.v (kernel/fs/file.c, fs.c): open files, seeking and writing.  Open.v: opening a file
      by its path and closing it again.
    - Syscall.v, SysFile.v (kernel/syscall/): argument fetching, dispatch, the system calls
      and exec.
    - Trap.v (kernel/trap/, kernel/dev/timer.c, plic.c, kernel/boot/): trap handlers, timer,
      interrupt controller, boot.  KernelTrap.v: a timer tick taken in the kernel, and the panics
      of the other traps.  UserTrap.v: a system call from the trap of the user program
      to its return, for brk and for a number outside the table.
    - Types.v, FsTypes.v, KernelTypes.v: the C types of the global tables as an invariant of the
      state, a judgement with one rule per construct of the monad and one lemma per operation,
      and type preservation: no entry into the kernel leads from a typed state to an untyped one,
      so every reachable state is typed.
    - Mkfs.v (mkfs/mkfs.c): the image builder; the empty image is read back with the kernel's
      own definitions, and its block allocator agrees with the kernel's.

    The components are stacked as the code calls them: traps over system calls over files,
    paths, inodes, buffers, driver; system calls over address spaces over page tables over the
    page allocator; all of them over locks.  The lemmas named [..._run] of a file give the
    result of running an operation and are what the files above it use.

    ** Fuel and bounds

    Loops over a fixed table are recursion over the list of its indices.  A loop the source
    bounds by a size has that size as fuel: [dir_fuel] (entries of a directory), [block_fuel]
    (blocks a read touches), the length of the path in [search_inode] (each turn consumes a
    character), the number of pages of a range; that it is enough is part of each theorem.
    The endless loops of the scheduler and of [proc_wait] take a number of rounds as an
    argument.  Integers wrap where the C types do; where a theorem excludes wrapping it has a
    hypothesis for it.

    ** What is assumed of code that is not in the sources

    [Device] (the virtio device answers a published request), [Switch] (the return from a
    context switch), the read and write functions of character devices and the registers of
    the interrupt controller are arguments; every theorem over them has a witness with a
    concrete instance.

    ** Not modelled

    The assembly (entry.S, trap.S, trampoline.S, swtch.S): its effects are the interface
    [Switch] and the jump record of Trap.v.  User programs and the test snippets: they only
    issue calls.  Compiler builtins, memory barriers and the relaxed memory order: the
    atomic steps of SpinProtocol.v are sequentially consistent.  Accessors of riscv.h that no
    modelled function calls.  src/ref_project: a copy of another kernel, kept for
    comparison, which this one does not build.

    ** Modelled without theorems of their own

    Creation and unlinking of directories (the theorems on paths are for files), growth of a
    file through its indirect blocks ([locate_block] does not write a new entry of an indirect
    block to the disk), and exec are definitions that are covered by type preservation only. *)

From stdpp Require Export gmap strings list fin_maps.

#[export] Set Default Goal Selector "!".
#[global] Open Scope Z_scope.

(** ** Machine integers

    A C integer of width [w] is a [Z]; the unsigned conversions of the source
    (implicit or by cast) are written out. *)

Definition u8 (x : Z) : Z := x mod 2^8.
Definition u16 (x : Z) : Z := x mod 2^16.
Definition u32 (x : Z) : Z := x mod 2^32.
Definition u64 (x : Z) : Z := x mod 2^64.

(** Conversion to a signed 32-bit [int]. *)
Definition i32 (x : Z) : Z := (x + 2^31) mod 2^32 - 2^31.

(** ** Outcomes of running kernel code

    [Panic] is a call of the kernel's [panic] (which never returns), [Fault] a
    C operation without defined behaviour (a null or out-of-range access),
    [Hang] a loop the source can never leave, [NoFuel] the end of the fuel a
    definition was given for a loop. *)

Inductive outcome (A : Type) : Type :=
  | Ok (a : A)
  | Panic (msg : string)
  | Fault (why : string)
  | Hang
  | NoFuel.

Arguments Ok {A} _.
Arguments Panic {A} _.
Arguments Fault {A} _.
Arguments Hang {A}.
Arguments NoFuel {A}.

(** The state-and-error monad every operation of the kernel is written in. *)
Definition M (S A : Type) : Type := S → outcome (A * S).

#[export] Instance M_ret S : MRet (M S) := λ A a s, Ok (a, s).

#[export] Instance M_bind S : MBind (M S) := λ A B k m s,
  match m s with
  | Ok (a, s') => k a s'
  | Panic e => Panic e
  | Fault e => Fault e
  | Hang => Hang
  | NoFuel => NoFuel
  end.

Definition panic {S A} (msg : string) : M S A := λ _, Panic msg.
Definition fault {S A} (why : string) : M S A := λ _, Fault why.
Definition hang {S A} : M S A := λ _, Hang.
Definition no_fuel {S A} : M S A := λ _, NoFuel.
Definition gets {S A} (f : S → A) : M S A := λ s, Ok (f s, s).
Definition modify {S} (f : S → S) : M S unit := λ s, Ok (tt, f s).

(** [assert(condition, warning)] of kernel/lib/print.c. *)
Definition kassert {S} (c : bool) (warning : string) : M S unit :=
  if c then mret tt else panic warning.

(** A pointer or array access that must succeed. *)
Definition deref {S A} (why : string) (o : option A) : M S A :=
  match o with Some a => mret a | None => fault why end.

(** [for (x in l) body], run to the end. *)
Fixpoint for_each {S A} (l : list A) (body : A → M S unit) : M S unit :=
  match l with
  | [] => mret tt
  | x :: l => body x;; for_each l body
  end.

(** [for (x in l) body], where the body may [return] out of the function. *)
Fixpoint for_return {S A B} (l : list A) (body : A → M S (option B)) :
    M S (option B) :=
  match l with
  | [] => mret None
  | x :: l =>
      r ← body x;
      match r with Some b => mret (Some b) | None => for_return l body end
  end.

(** ** Tactics *)

(** Rewrite Boolean integer comparisons to propositions. *)
Ltac zbool :=
  repeat match goal with
    | H : (_ =? _)%Z = true |- _ => apply Z.eqb_eq in H
    | H : (_ =? _)%Z = false |- _ => apply Z.eqb_neq in H
    | H : (_ <? _)%Z = true |- _ => apply Z.ltb_lt in H
    | H : (_ <? _)%Z = false |- _ => apply Z.ltb_ge in H
    | H : (_ <=? _)%Z = true |- _ => apply Z.leb_le in H
    | H : (_ <=? _)%Z = false |- _ => apply Z.leb_gt in H
    | H : (_ && _)%bool = true |- _ => apply andb_true_iff in H as [? ?]
    | H : (_ && _)%bool = false |- _ => apply andb_false_iff in H
    | H : (_ || _)%bool = false |- _ => apply orb_false_iff in H as [? ?]
    | H : (_ || _)%bool = true |- _ => apply orb_true_iff in H
    | H : negb _ = true |- _ => apply negb_true_iff in H
    | H : negb _ = false |- _ => apply negb_false_iff in H
    end.

(** Decide a Boolean integer test in the goal by arithmetic. *)
Ltac zdecide :=
  repeat match goal with
    | |- context [(?a =? ?b)%Z] =>
        first [ rewrite (proj2 (Z.eqb_eq a b)) by lia
              | rewrite (proj2 (Z.eqb_neq a b)) by lia ]
    | |- context [(?a <? ?b)%Z] =>
        first [ rewrite (proj2 (Z.ltb_lt a b)) by lia
              | rewrite (proj2 (Z.ltb_ge a b)) by lia ]
    | |- context [(?a <=? ?b)%Z] =>
        first [ rewrite (proj2 (Z.leb_le a b)) by lia
              | rewrite (proj2 (Z.leb_gt a b)) by lia ]
    end; simpl.

(** Linear arithmetic with divisions and remainders by constants. *)
Ltac zdiv := Z.to_euclidean_division_equations; lia.

(** ** Running monadic code *)

Lemma bind_ok {S A B} (m : M S A) (k : A → M S B) s a s' :
  m s = Ok (a, s') → (m ≫= k) s = k a s'.
Proof. intros H. unfold mbind, M_bind. by rewrite H. Qed.

Lemma bind_panic {S A B} (m : M S A) (k : A → M S B) s e :
  m s = Panic e → (m ≫= k) s = Panic e.
Proof. intros H. unfold mbind, M_bind. by rewrite H. Qed.

Lemma bind_inv {S A B} (m : M S A) (k : A → M S B) s b s2 :
  (m ≫= k) s = Ok (b, s2) →
  ∃ a s1, m s = Ok (a, s1) ∧ k a s1 = Ok (b, s2).
Proof.
  unfold mbind, M_bind. destruct (m s) as [[a s1]| | | |]; intros H; try done.
  by exists a, s1.
Qed.

Lemma bind_assoc {S A B C} (m : M S A) (f : A → M S B) (g : B → M S C) s :
  ((m ≫= f) ≫= g) s = (m ≫= (λ x, f x ≫= g)) s.
Proof. unfold mbind, M_bind. by destruct (m s) as [[a s1]| | | |]. Qed.

(** Run three commands whose joint effect is known. *)
Lemma seq3_ok {S A B} (m1 m2 : M S unit) (m3 : M S A) (k : A → M S B) s a s' :
  (m1;; m2;; m3) s = Ok (a, s') → (m1;; m2;; m3 ≫= k) s = k a s'.
Proof.
  unfold mbind, M_bind. destruct (m1 s) as [[? s1]| | | |]; try done.
  destruct (m2 s1) as [[? s2]| | | |]; try done. by intros ->.
Qed.

Lemma for_each_app {S A} (l1 l2 : list A) (f : A → M S unit) s :
  for_each (l1 ++ l2) f s = (for_each l1 f;; for_each l2 f) s.
Proof.
  revert s. induction l1 as [|x l1 IH]; intros s; [done|].
  simpl. rewrite bind_assoc. unfold mbind, M_bind.
  destruct (f x s) as [[[] s1]| | | |]; try reflexivity. apply IH.
Qed.

(** Loop rule: an invariant indexed by the elements already visited. *)
Lemma for_each_inv {S A} (I : list A → S → Prop) (f : A → M S unit) (l : list A) s :
  I [] s →
  (∀ pre x post s1, l = pre ++ x :: post → I pre s1 →
     ∃ s2, f x s1 = Ok (tt, s2) ∧ I (pre ++ [x]) s2) →
  ∃ s', for_each l f s = Ok (tt, s') ∧ I l s'.
Proof.
  intros H0 Hstep.
  assert (∀ post pre s1, l = pre ++ post → I pre s1 →
    ∃ s', for_each post f s1 = Ok (tt, s') ∧ I l s') as Hgen.
  { induction post as [|x post IH]; intros pre s1 Hl HI.
    - rewrite app_nil_r in Hl. subst. by exists s1.
    - destruct (Hstep pre x post s1 Hl HI) as (s2 & Hf & HI2).
      simpl. rewrite (bind_ok _ _ _ _ _ Hf).
      apply (IH (pre ++ [x])); [by rewrite <- app_assoc|done]. }
  by apply (Hgen l []).
Qed.

(** The same for a counting loop [for (i = 0; i < n; i++)]. *)
Lemma for_seq_inv {S} (I : nat → S → Prop) (f : nat → M S unit) n s :
  I O s →
  (∀ i s1, (i < n)%nat → I i s1 → ∃ s2, f i s1 = Ok (tt, s2) ∧ I (Datatypes.S i) s2) →
  ∃ s', for_each (seq 0 n) f s = Ok (tt, s') ∧ I n s'.
Proof.
  intros H0 Hstep.
  destruct (for_each_inv (λ pre s1, I (length pre) s1) f (seq 0 n) s) as (s' & Hr & HI).
  - done.
  - intros pre i post s1 Hl HI.
    assert (seq 0 n !! length pre = Some i) as [-> Hi]%lookup_seq
      by (rewrite Hl; by apply list_lookup_middle).
    rewrite length_app, Nat.add_1_r. by apply Hstep.
  - rewrite length_seq in HI. by exists s'.
Qed.

Lemma bind_ret {S A B} (a : A) (k : A → M S B) s : (mret a ≫= k) s = k a s.
Proof. done. Qed.

Lemma bind_gets {S A B} (f : S → A) (k : A → M S B) s : (gets f ≫= k) s = k (f s) s.
Proof. done. Qed.

Lemma bind_modify {S B} (f : S → S) (k : unit → M S B) s : (modify f ≫= k) s = k tt (f s).
Proof. done. Qed.

Lemma bind_panics {S A B} e (k : A → M S B) s : (panic e ≫= k) s = Panic e.
Proof. done. Qed.

Lemma bind_faults {S A B} e (k : A → M S B) s : (fault e ≫= k) s = Fault e.
Proof. done. Qed.

Lemma bind_deref {S A B} w a (k : A → M S B) s : (deref w (Some a) ≫= k) s = k a s.
Proof. done. Qed.

Lemma bind_assert {S B} (c : bool) w (k : unit → M S B) s :
  (kassert c w ≫= k) s = if c then k tt s else Panic w.
Proof. by destruct c. Qed.

Lemma bind_if {S A B} (b : bool) (m1 m2 : M S A) (k : A → M S B) s :
  ((if b then m1 else m2) ≫= k) s = if b then (m1 ≫= k) s else (m2 ≫= k) s.
Proof. by destruct b. Qed.

Lemma run_if {S A} (b : bool) (m1 m2 : M S A) s :
  (if b then m1 else m2) s = if b then m1 s else m2 s.
Proof. by destruct b. Qed.

Lemma run_gets {S A} (f : S → A) s : gets f s = Ok (f s, s).
Proof. done. Qed.

Lemma run_modify {S} (f : S → S) s : modify f s = Ok (tt, f s).
Proof. done. Qed.

Lemma run_ret {S A} (a : A) (s : S) : mret (M := M S) a s = Ok (a, s).
Proof. done. Qed.

#[export] Hint Rewrite @bind_ret @bind_gets @bind_modify @bind_panics @bind_faults @bind_deref
  @bind_assert @bind_if @bind_assoc @run_if @run_gets @run_modify @run_ret : mrun.

(** Run the commands whose effect is known. *)
Ltac mrun := autorewrite with mrun; cbv beta.

(** One symbolic step: rewrite with a known run of the first command. *)
Ltac run H := rewrite (bind_ok _ _ _ _ _ H).

(** ** Facts on machine integers *)

Lemma u32_small x : 0 ≤ x < 2^32 → u32 x = x.
Proof. apply Z.mod_small. Qed.

Lemma u64_small x : 0 ≤ x < 2^64 → u64 x = x.
Proof. apply Z.mod_small. Qed.

Lemma u16_small x : 0 ≤ x < 2^16 → u16 x = x.
Proof. apply Z.mod_small. Qed.

Lemma u8_small x : 0 ≤ x < 2^8 → u8 x = x.
Proof. apply Z.mod_small. Qed.

Lemma u32_range x : 0 ≤ u32 x < 2^32.
Proof. by apply Z.mod_pos_bound. Qed.

Lemma u64_range x : 0 ≤ u64 x < 2^64.
Proof. by apply Z.mod_pos_bound. Qed.

Lemma u8_range x : 0 ≤ u8 x < 2^8.
Proof. by apply Z.mod_pos_bound. Qed.

Lemma testbit_small n k i : 0 ≤ n < 2^k → 0 ≤ k ≤ i → Z.testbit n i = false.
Proof.
  intros Hn Hi. rewrite <- (Z.mod_small n (2^k)) by lia.
  apply Z.mod_pow2_bits_high. lia.
Qed.

(** ** Facts on lists *)

Lemma alter_insert {A} (f : A → A) (l : list A) i x :
  l !! i = Some x → alter f i l = <[i := f x]> l.
Proof.
  revert i. induction l as [|y l IH]; intros [|i] H; simplify_eq/=; [done|]. f_equal. by apply IH.
Qed.

Lemma alter_alter {A} (f g : A → A) (l : list A) i : alter f i (alter g i l) = alter (λ x, f (g x)) i l.
Proof. revert i. induction l as [|y l IH]; intros [|i]; simpl; [done..|]. f_equal. apply IH. Qed.

(** The indices before and after [k]. *)
Lemma seq_split n k : (k < n)%nat → seq 0 n = seq 0 k ++ k :: seq (S k) (n - S k).
Proof.
  intros H. replace n with (k + S (n - S k))%nat at 1 by lia. by rewrite seq_app.
Qed.

(** ** Searching loops *)

Lemma for_return_none {S A R} (body : A → M S (option R)) l s :
  (∀ x, x ∈ l → body x s = Ok (None, s)) → for_return l body s = Ok (None, s).
Proof.
  induction l as [|x l IH]; intros H; [done|]. simpl. run (H x ltac:(set_solver)).
  apply IH. intros y Hy. apply H. by right.
Qed.

Lemma for_return_some {S A R} (body : A → M S (option R)) pre x post s r s' :
  (∀ y, y ∈ pre → body y s = Ok (None, s)) → body x s = Ok (Some r, s') →
  for_return (pre ++ x :: post) body s = Ok (Some r, s').
Proof.
  induction pre as [|y pre IH]; intros H Hx; simpl; [by run Hx|].
  run (H y ltac:(set_solver)). apply IH; [|done]. intros z Hz. apply H. by right.
Qed.

Create HintDb kernel.
#[export] Hint Resolve u8_range u32_range u64_range : kernel.
