(* ===== verification/Bytes.v ===== *)
(** * Bytes, little-endian integers and physical memory

    The kernel reads and writes structures byte-wise ([memmove] of an inode into
    a block, page-table entries in physical pages, the free list stored in the
    free pages).  This file holds the byte-level vocabulary: little-endian
    encoding of integers, slices of byte arrays, and byte-addressed physical
    memory with 64-bit loads and stores. *)

From S2P Require Import Prelude.

(** ** Little-endian integers *)

Fixpoint le_bytes (n : nat) (v : Z) : list Z :=
  match n with
  | O => []
  | S n => v mod 256 :: le_bytes n (v / 256)
  end.

Fixpoint le_val (l : list Z) : Z :=
  match l with
  | [] => 0
  | b :: l => b + 256 * le_val l
  end.

Definition byte_ok (b : Z) : Prop := 0 ≤ b < 256.

(** ** Slices of byte arrays *)

(** [n] bytes of [l] starting at [off]. *)
Definition slice (off n : nat) (l : list Z) : list Z := take n (drop off l).

(** [l] with the bytes [new] written at [off]: [memmove(l + off, new, |new|)]. *)
Definition splice (off : nat) (new l : list Z) : list Z :=
  take off l ++ new ++ drop (off + length new) l.

(** ** Physical memory *)

Abbreviation mem := (gmap Z Z).

Definition load8 (m : mem) (a : Z) : Z := default 0 (m !! a).
Definition store8 (m : mem) (a v : Z) : mem := <[a := u8 v]> m.

Fixpoint load_bytes (m : mem) (a : Z) (n : nat) : list Z :=
  match n with
  | O => []
  | S n => load8 m a :: load_bytes m (a + 1) n
  end.

Fixpoint store_bytes (m : mem) (a : Z) (l : list Z) : mem :=
  match l with
  | [] => m
  | b :: l => store_bytes (<[a := b]> m) (a + 1) l
  end.

Definition load64 (m : mem) (a : Z) : Z := le_val (load_bytes m a 8).
Definition store64 (m : mem) (a v : Z) : mem := store_bytes m a (le_bytes 8 v).

(** ** Lemmas: little-endian integers *)

Lemma length_le_bytes n v : length (le_bytes n v) = n.
Proof. revert v. induction n as [|n IH]; intros v; simpl; [done|by rewrite IH]. Qed.

Lemma le_bytes_ok n v : Forall byte_ok (le_bytes n v).
Proof.
  revert v. induction n as [|n IH]; intros v; simpl; constructor; [|done].
  by apply Z.mod_pos_bound.
Qed.

Lemma le_val_range l : Forall byte_ok l → 0 ≤ le_val l < 2^(8 * Z.of_nat (length l)).
Proof.
  induction 1 as [|b l Hb _ IH]; simpl; [lia|]. unfold byte_ok in Hb.
  replace (8 * Z.of_nat (S (length l))) with (8 + 8 * Z.of_nat (length l)) by lia.
  rewrite Z.pow_add_r by lia. lia.
Qed.

Lemma le_val_bytes n v : 0 ≤ v < 2^(8 * Z.of_nat n) → le_val (le_bytes n v) = v.
Proof.
  revert v. induction n as [|n IH]; intros v Hv; simpl.
  - rewrite Z.mul_0_r in Hv. simpl in Hv. lia.
  - rewrite IH; [pose proof (Z.div_mod v 256); lia|].
    replace (8 * Z.of_nat (S n)) with (8 + 8 * Z.of_nat n) in Hv by lia.
    rewrite Z.pow_add_r in Hv by lia.
    split; [apply Z.div_pos; lia|apply Z.div_lt_upper_bound; lia].
Qed.

Lemma le_bytes_val l : Forall byte_ok l → le_bytes (length l) (le_val l) = l.
Proof.
  induction 1 as [|b l Hb _ IH]; simpl; [done|]. unfold byte_ok in Hb.
  rewrite (Z.add_comm b), Z.mul_comm, Z.add_mod, Z.mod_mul, Z.add_0_l by lia.
  rewrite Z.mod_mod, Z.mod_small by lia.
  rewrite Z.div_add_l, (Z.div_small b) by lia. by rewrite Z.add_0_r, IH.
Qed.

(** ** Lemmas: slices *)

Lemma length_slice off n l : (off + n ≤ length l)%nat → length (slice off n l) = n.
Proof. intros H. unfold slice. rewrite length_take, length_drop. lia. Qed.

Lemma length_splice off new l :
  (off + length new ≤ length l)%nat → length (splice off new l) = length l.
Proof.
  intros H. unfold splice.
  rewrite !length_app, length_take, length_drop. lia.
Qed.

Lemma lookup_splice off new l i :
  (off + length new ≤ length l)%nat →
  splice off new l !! i =
    if decide (off ≤ i < off + length new)%nat then new !! (i - off)%nat else l !! i.
Proof.
  intros H. unfold splice. case_decide as Hd.
  - rewrite lookup_app_r by (rewrite length_take; lia).
    rewrite length_take, lookup_app_l by lia. f_equal. lia.
  - destruct (decide (i < off)%nat).
    + rewrite lookup_app_l by (rewrite length_take; lia).
      by rewrite lookup_take_lt by lia.
    + rewrite lookup_app_r by (rewrite length_take; lia).
      rewrite lookup_app_r by (rewrite length_take; lia).
      rewrite lookup_drop, length_take. f_equal. lia.
Qed.

Lemma lookup_slice off n l i :
  slice off n l !! i = if decide (i < n)%nat then l !! (off + i)%nat else None.
Proof.
  unfold slice. case_decide.
  - by rewrite lookup_take_lt, lookup_drop by lia.
  - by rewrite lookup_take_ge by lia.
Qed.

Lemma slice_splice off new l :
  (off + length new ≤ length l)%nat → slice off (length new) (splice off new l) = new.
Proof.
  intros H. apply list_eq. intros i. rewrite lookup_slice, lookup_splice by done.
  case_decide.
  - rewrite decide_True by lia. f_equal. lia.
  - symmetry. apply lookup_ge_None. lia.
Qed.

Lemma slice_splice_disjoint off new off' n l :
  (off + length new ≤ length l)%nat →
  (off' + n ≤ off ∨ off + length new ≤ off')%nat →
  slice off' n (splice off new l) = slice off' n l.
Proof.
  intros H Hd. apply list_eq. intros i. rewrite !lookup_slice, lookup_splice by done.
  case_decide; [|done]. by rewrite decide_False by lia.
Qed.

Lemma splice_splice off new new' l :
  length new = length new' → (off + length new ≤ length l)%nat →
  splice off new' (splice off new l) = splice off new' l.
Proof.
  intros He H. apply list_eq. intros i.
  rewrite !lookup_splice; rewrite ?length_splice; try lia.
  case_decide; [done|]. by rewrite decide_False by lia.
Qed.

Lemma splice_ok off new l :
  Forall byte_ok new → Forall byte_ok l → Forall byte_ok (splice off new l).
Proof.
  intros Hn Hl. unfold splice. rewrite !Forall_app.
  split_and!; [by apply Forall_take|done|by apply Forall_drop].
Qed.

Lemma slice_ok off n l : Forall byte_ok l → Forall byte_ok (slice off n l).
Proof. intros Hl. by apply Forall_take, Forall_drop. Qed.

(** ** Lemmas: memory *)

Lemma length_load_bytes m a n : length (load_bytes m a n) = n.
Proof. revert a. induction n as [|n IH]; intros a; simpl; [done|by rewrite IH]. Qed.

Lemma lookup_load_bytes m a n i :
  (i < n)%nat → load_bytes m a n !! i = Some (load8 m (a + Z.of_nat i)).
Proof.
  revert a i. induction n as [|n IH]; intros a i Hi; [lia|].
  destruct i as [|i]; simpl; [by rewrite Z.add_0_r|].
  rewrite IH by lia. f_equal. f_equal. lia.
Qed.

Lemma load8_insert_eq m a v : load8 (<[a := v]> m) a = v.
Proof. unfold load8. by rewrite lookup_insert_eq. Qed.

Lemma load8_insert_ne m a b v : a ≠ b → load8 (<[a := v]> m) b = load8 m b.
Proof. intros H. unfold load8. by rewrite lookup_insert_ne. Qed.

Lemma load8_store_bytes_out m a l b :
  b < a ∨ a + Z.of_nat (length l) ≤ b → load8 (store_bytes m a l) b = load8 m b.
Proof.
  revert m a. induction l as [|x l IH]; intros m a Hb; simpl in *; [done|].
  rewrite IH by lia. apply load8_insert_ne. lia.
Qed.

Lemma load8_store_bytes_in m a l i x :
  l !! i = Some x → load8 (store_bytes m a l) (a + Z.of_nat i) = x.
Proof.
  revert m a i. induction l as [|y l IH]; intros m a i Hi; [done|]. simpl.
  destruct i as [|i]; simpl in Hi.
  - simplify_eq. rewrite load8_store_bytes_out by lia.
    rewrite Z.add_0_r. apply load8_insert_eq.
  - replace (a + Z.of_nat (S i)) with (a + 1 + Z.of_nat i) by lia. by apply IH.
Qed.

Lemma load_bytes_ext m m' a n :
  (∀ b, a ≤ b < a + Z.of_nat n → load8 m' b = load8 m b) →
  load_bytes m' a n = load_bytes m a n.
Proof.
  revert a. induction n as [|n IH]; intros a H; simpl; [done|].
  rewrite H by lia. f_equal. apply IH. intros b Hb. apply H. lia.
Qed.

Lemma load_store_bytes m a l : load_bytes (store_bytes m a l) a (length l) = l.
Proof.
  apply list_eq. intros i. destruct (decide (i < length l)%nat) as [Hi|Hi].
  - rewrite lookup_load_bytes by done.
    destruct (l !! i) as [x|] eqn:Hx; [|apply lookup_ge_None in Hx; lia].
    f_equal. by apply load8_store_bytes_in.
  - rewrite !lookup_ge_None_2; [done|lia|rewrite length_load_bytes; lia].
Qed.

Lemma load_store_bytes_out m a l b n :
  b + Z.of_nat n ≤ a ∨ a + Z.of_nat (length l) ≤ b →
  load_bytes (store_bytes m a l) b n = load_bytes m b n.
Proof.
  intros H. apply load_bytes_ext. intros c Hc. apply load8_store_bytes_out. lia.
Qed.

Lemma load64_store64_eq m a v : 0 ≤ v < 2^64 → load64 (store64 m a v) a = v.
Proof.
  intros Hv. unfold load64, store64.
  rewrite <- (length_le_bytes 8 v) at 2. rewrite load_store_bytes.
  by apply le_val_bytes.
Qed.

Lemma load64_store64_ne m a b v :
  b + 8 ≤ a ∨ a + 8 ≤ b → load64 (store64 m a v) b = load64 m b.
Proof.
  intros H. unfold load64, store64. rewrite load_store_bytes_out; [done|].
  rewrite length_le_bytes. lia.
Qed.

Lemma load64_ext m m' a :
  (∀ b, a ≤ b < a + 8 → load8 m' b = load8 m b) → load64 m' a = load64 m a.
Proof. intros H. unfold load64. f_equal. apply load_bytes_ext. intros. apply H. lia. Qed.

Lemma load8_store64_out m a v b : b < a ∨ a + 8 ≤ b → load8 (store64 m a v) b = load8 m b.
Proof. intros H. apply load8_store_bytes_out. rewrite length_le_bytes. lia. Qed.

#[export] Hint Rewrite length_le_bytes length_load_bytes : kernel.
#[export] Hint Resolve le_bytes_ok splice_ok slice_ok : kernel.
