(* ===== verification/Kernel.v ===== *)
(** * The kernel's data model

    The C structures of include/ and the global variables of kernel/, as
    records.  Pointers into the kernel's fixed tables are indices ([option nat]
    where the code tests for NULL); physical pages, page tables and trap frames
    live in the byte-addressed memory [k_mem] and are [Z] addresses.  The state
    is the one the executing hart sees. *)

From S2P Require Import Prelude Bytes.

(** ** Constants (include/common.h, include/riscv.h, include/memlayout.h) *)

Definition NCPU : Z := 2.
Definition NPROC : nat := 64.
Definition BLOCK_SIZE : Z := 1024.
Definition PGSIZE : Z := 4096.

Definition KERNEL_BASE : Z := 0x80000000.
Definition PHYSTOP : Z := KERNEL_BASE + 128 * 1024 * 1024.
Definition UART_BASE : Z := 0x10000000.
Definition VIRTIO0 : Z := 0x10001000.
Definition PLIC_BASE : Z := 0x0c000000.
Definition MAXVA : Z := Z.shiftl 1 (9 + 9 + 9 + 12 - 1).
Definition TRAMPOLINE : Z := MAXVA - PGSIZE.
Definition TRAPFRAME : Z := TRAMPOLINE - PGSIZE.
Definition KSTACK (p : Z) : Z := TRAPFRAME - (p + 1) * 2 * PGSIZE.
Definition KERNEL_PAGES : Z := 1024.

Definition PG_ROUND_UP (sz : Z) : Z := Z.land (u64 (sz + PGSIZE - 1)) (Z.lnot (PGSIZE - 1)).
Definition PG_ROUND_DOWN (a : Z) : Z := Z.land a (Z.lnot (PGSIZE - 1)).

(** ** Locks (include/lib/lock.h)

    Every spinlock of the kernel has an identity, which stands for its address. *)

Inductive lockid :=
  | LkKernRegion | LkUserRegion | LkMmapList | LkBufCache | LkBuf (i : nat)
  | LkIcache | LkInode (i : nat) | LkFtable | LkPid | LkWait | LkProc (i : nat)
  | LkTimer | LkVdisk | LkPrint.

#[export] Instance lockid_eq_dec : EqDecision lockid.
Proof. solve_decision. Defined.

Definition lockid_code (l : lockid) : nat * nat :=
  match l with
  | LkKernRegion => (0, 0) | LkUserRegion => (1, 0) | LkMmapList => (2, 0)
  | LkBufCache => (3, 0) | LkBuf i => (4, i) | LkIcache => (5, 0)
  | LkInode i => (6, i) | LkFtable => (7, 0) | LkPid => (8, 0) | LkWait => (9, 0)
  | LkProc i => (10, i) | LkTimer => (11, 0) | LkVdisk => (12, 0) | LkPrint => (13, 0)
  end%nat.

Definition lockid_decode (c : nat * nat) : option lockid :=
  match c with
  | (0, _) => Some LkKernRegion | (1, _) => Some LkUserRegion
  | (2, _) => Some LkMmapList | (3, _) => Some LkBufCache | (4, i) => Some (LkBuf i)
  | (5, _) => Some LkIcache | (6, i) => Some (LkInode i) | (7, _) => Some LkFtable
  | (8, _) => Some LkPid | (9, _) => Some LkWait | (10, i) => Some (LkProc i)
  | (11, _) => Some LkTimer | (12, _) => Some LkVdisk | (13, _) => Some LkPrint
  | _ => None
  end%nat.

#[export] Instance lockid_countable : Countable lockid.
Proof. refine (inj_countable lockid_code lockid_decode _). by intros []. Defined.

Record spinlock := mk_spinlock { locked : Z; lk_name : string; lk_cpuid : Z }.

(** A lock in the zero-initialised data segment. *)
Definition zero_lock : spinlock := mk_spinlock 0 "" 0.

(** ** Processors (include/proc/cpu.h, include/proc/proc.h) *)

Record context := mk_context { ctx_ra : Z; ctx_sp : Z; ctx_s : list Z }.

Record csrs := mk_csrs {
  csr_spp : bool; csr_sepc : Z; csr_scause : Z; csr_stval : Z;
  csr_stvec : Z; csr_satp : Z; csr_sip : Z }.

(** The executing hart: its id (register tp), its interrupt-enable bit
    (sstatus.SIE), its entry [cpus[r_tp()]] and its control registers. *)
Record hart := mk_hart {
  h_id : Z; h_sie : bool; h_noff : Z; h_origin : bool; h_proc : option nat;
  h_ctx : context; h_csr : csrs }.

(** ** Physical and virtual memory *)

(** [alloc_region_t] of kernel/mem/pmem.c; [list_head] is [list_head.next]. *)
Record alloc_region := mk_region {
  r_begin : Z; r_end : Z; r_allocable : Z; r_list_head : Z }.

(** Addresses the linker script and the assembly files provide. *)
Record symbols := mk_symbols {
  ALLOC_BEGIN : Z; etext : Z; trampoline : Z; user_vector : Z; user_return : Z;
  kernel_vector : Z; fork_return_addr : Z; proc_forkret_addr : Z;
  trap_user_handler_addr : Z }.

(** [mmap_region_t] and its wrapper [mmap_region_node_t] (kernel/mem/mmap.c). *)
Record mmap_node := mk_mmap_node {
  mm_begin : Z; mm_npages : Z; mm_next : option nat; mn_next : option nat }.

Record mmap_pool := mk_mmap_pool { mp_nodes : list mmap_node; mp_head : nat }.

(** ** File system (include/fs/) *)

Record super_block := mk_super_block {
  magic : Z; block_size : Z; inode_bitmap_start : Z; inode_start : Z;
  data_bitmap_start : Z; data_start : Z; inode_blocks : Z; data_blocks : Z;
  total_blocks : Z }.

(** A [buf_node_t*]: NULL, the list head, or an element of [buf_cache]. *)
Inductive nptr := PNull | PHead | PNode (i : nat).

#[export] Instance nptr_eq_dec : EqDecision nptr.
Proof. solve_decision. Defined.

Record buf_links := mk_links { bl_next : nptr; bl_prev : nptr }.

Record buf := mk_buf { block_num : Z; data : list Z; buf_ref : Z; disk : bool }.

Record buf_node := mk_buf_node { bn_buf : buf; bn_links : buf_links }.

Record inode := mk_inode {
  i_type : Z; i_major : Z; i_minor : Z; i_nlink : Z; i_size : Z; i_addrs : list Z;
  inode_num : Z; i_ref : Z; i_valid : bool }.

Record dirent := mk_dirent { d_inode_num : Z; d_name : list Z }.

Record file := mk_file {
  f_type : Z; f_readable : bool; f_writable : bool; f_ref : Z; f_major : Z;
  f_offset : Z; f_ip : option nat }.

(** [dev_t]: the read and write entries of a device, by identity; [None] is NULL. *)
Record dev := mk_dev { dev_read : option nat; dev_write : option nat }.

(** ** Processes (include/proc/proc.h) *)

Inductive proc_state := UNUSED | RUNNABLE | RUNNING | SLEEPING | ZOMBIE.

#[export] Instance proc_state_eq_dec : EqDecision proc_state.
Proof. solve_decision. Defined.

(** A [void* sleep_space]: the address of the object slept on. [&sys_timer] and
    [&sys_timer.ticks] are the same address. *)
Inductive chan := ChNull | ChProc (i : nat) | ChTimer | ChBuf (i : nat) | ChDiskFree.

#[export] Instance chan_eq_dec : EqDecision chan.
Proof. solve_decision. Defined.

Record proc := mk_proc {
  pid : Z; state : proc_state; parent : option nat; exit_state : Z;
  sleep_space : chan; pgtbl : Z; heap_top : Z; ustack_base : Z; ustack_pages : Z;
  p_mmap : option nat; tf : Z; kstack : Z; p_ctx : context; cwd : option nat;
  filelist : list (option nat) }.

(** ** Devices (include/dev/virtio.h, kernel/dev/virtio.c)

    A bus address the disk is given: the request header, a local variable of
    [virtio_disk_rw], together with its contents; the data of a buffer; the
    status byte of a request. *)
Inductive dma_addr :=
  | DNull | DHdr (pa type reserved sector : Z) | DData (i : nat) | DStatus (i : nat).

Record VRingDesc := mk_desc { vd_addr : dma_addr; vd_len : Z; vd_flags : Z; vd_next : Z }.

(** [struct disk], less its lock: the descriptor table, the available ring
    ([avail[1]] and [avail[2..]]), the used ring, and the driver's book-keeping
    ([info] holds the buffer and the status byte of a request). *)
Record vdisk := mk_vdisk {
  vd_desc : list VRingDesc; vd_avail_idx : Z; vd_avail : list Z;
  vd_used_ring_idx : Z; vd_used : list Z;
  vd_free : list bool; vd_used_idx : Z; vd_info : list (option nat * Z) }.

(** The 16550 UART: characters received and not yet read, characters sent. *)
Record uart := mk_uart { uart_rx : list Z; uart_tx : list Z }.

(** ** The global state *)

#[local] Set Primitive Projections.

Record kstate := mk_kstate {
  k_hart : hart;
  k_locks : gmap lockid spinlock;
  k_log : list (string * list Z);
  k_syms : symbols;
  k_mem : mem;
  k_kern : alloc_region;
  k_user : alloc_region;
  k_kpgtbl : Z;
  k_mmap : mmap_pool;
  k_disk : gmap Z (list Z);
  k_bufs : list buf_node;
  k_head_buf : buf_links;
  k_sb : super_block;
  k_icache : list inode;
  k_ftable : list file;
  k_devlist : list dev;
  k_procs : list proc;
  k_proczero : option nat;
  k_global_pid : Z;
  k_ticks : Z;
  k_vdisk : vdisk;
  k_uart : uart;
  k_first : bool
}.

#[local] Unset Primitive Projections.

Definition set_hart (v : hart) (s : kstate) : kstate :=
  {| k_hart := v; k_locks := k_locks s; k_log := k_log s; k_syms := k_syms s; k_mem
     := k_mem s; k_kern := k_kern s; k_user := k_user s; k_kpgtbl := k_kpgtbl s;
     k_mmap := k_mmap s; k_disk := k_disk s; k_bufs := k_bufs s; k_head_buf :=
     k_head_buf s; k_sb := k_sb s; k_icache := k_icache s; k_ftable := k_ftable s;
     k_devlist := k_devlist s; k_procs := k_procs s; k_proczero := k_proczero s;
     k_global_pid := k_global_pid s; k_ticks := k_ticks s; k_vdisk := k_vdisk s;
     k_uart := k_uart s; k_first := k_first s |}.
Definition set_locks (v : gmap lockid spinlock) (s : kstate) : kstate :=
  {| k_hart := k_hart s; k_locks := v; k_log := k_log s; k_syms := k_syms s; k_mem
     := k_mem s; k_kern := k_kern s; k_user := k_user s; k_kpgtbl := k_kpgtbl s;
     k_mmap := k_mmap s; k_disk := k_disk s; k_bufs := k_bufs s; k_head_buf :=
     k_head_buf s; k_sb := k_sb s; k_icache := k_icache s; k_ftable := k_ftable s;
     k_devlist := k_devlist s; k_procs := k_procs s; k_proczero := k_proczero s;
     k_global_pid := k_global_pid s; k_ticks := k_ticks s; k_vdisk := k_vdisk s;
     k_uart := k_uart s; k_first := k_first s |}.
Definition set_log (v : list (string * list Z)) (s : kstate) : kstate :=
  {| k_hart := k_hart s; k_locks := k_locks s; k_log := v; k_syms := k_syms s; k_mem
     := k_mem s; k_kern := k_kern s; k_user := k_user s; k_kpgtbl := k_kpgtbl s;
     k_mmap := k_mmap s; k_disk := k_disk s; k_bufs := k_bufs s; k_head_buf :=
     k_head_buf s; k_sb := k_sb s; k_icache := k_icache s; k_ftable := k_ftable s;
     k_devlist := k_devlist s; k_procs := k_procs s; k_proczero := k_proczero s;
     k_global_pid := k_global_pid s; k_ticks := k_ticks s; k_vdisk := k_vdisk s;
     k_uart := k_uart s; k_first := k_first s |}.
Definition set_syms (v : symbols) (s : kstate) : kstate :=
  {| k_hart := k_hart s; k_locks := k_locks s; k_log := k_log s; k_syms := v; k_mem
     := k_mem s; k_kern := k_kern s; k_user := k_user s; k_kpgtbl := k_kpgtbl s;
     k_mmap := k_mmap s; k_disk := k_disk s; k_bufs := k_bufs s; k_head_buf :=
     k_head_buf s; k_sb := k_sb s; k_icache := k_icache s; k_ftable := k_ftable s;
     k_devlist := k_devlist s; k_procs := k_procs s; k_proczero := k_proczero s;
     k_global_pid := k_global_pid s; k_ticks := k_ticks s; k_vdisk := k_vdisk s;
     k_uart := k_uart s; k_first := k_first s |}.
Definition set_mem (v : mem) (s : kstate) : kstate :=
  {| k_hart := k_hart s; k_locks := k_locks s; k_log := k_log s; k_syms := k_syms s;
     k_mem := v; k_kern := k_kern s; k_user := k_user s; k_kpgtbl := k_kpgtbl s;
     k_mmap := k_mmap s; k_disk := k_disk s; k_bufs := k_bufs s; k_head_buf :=
     k_head_buf s; k_sb := k_sb s; k_icache := k_icache s; k_ftable := k_ftable s;
     k_devlist := k_devlist s; k_procs := k_procs s; k_proczero := k_proczero s;
     k_global_pid := k_global_pid s; k_ticks := k_ticks s; k_vdisk := k_vdisk s;
     k_uart := k_uart s; k_first := k_first s |}.
Definition set_kern (v : alloc_region) (s : kstate) : kstate :=
  {| k_hart := k_hart s; k_locks := k_locks s; k_log := k_log s; k_syms := k_syms s;
     k_mem := k_mem s; k_kern := v; k_user := k_user s; k_kpgtbl := k_kpgtbl s;
     k_mmap := k_mmap s; k_disk := k_disk s; k_bufs := k_bufs s; k_head_buf :=
     k_head_buf s; k_sb := k_sb s; k_icache := k_icache s; k_ftable := k_ftable s;
     k_devlist := k_devlist s; k_procs := k_procs s; k_proczero := k_proczero s;
     k_global_pid := k_global_pid s; k_ticks := k_ticks s; k_vdisk := k_vdisk s;
     k_uart := k_uart s; k_first := k_first s |}.
Definition set_user (v : alloc_region) (s : kstate) : kstate :=
  {| k_hart := k_hart s; k_locks := k_locks s; k_log := k_log s; k_syms := k_syms s;
     k_mem := k_mem s; k_kern := k_kern s; k_user := v; k_kpgtbl := k_kpgtbl s;
     k_mmap := k_mmap s; k_disk := k_disk s; k_bufs := k_bufs s; k_head_buf :=
     k_head_buf s; k_sb := k_sb s; k_icache := k_icache s; k_ftable := k_ftable s;
     k_devlist := k_devlist s; k_procs := k_procs s; k_proczero := k_proczero s;
     k_global_pid := k_global_pid s; k_ticks := k_ticks s; k_vdisk := k_vdisk s;
     k_uart := k_uart s; k_first := k_first s |}.
Definition set_kpgtbl (v : Z) (s : kstate) : kstate :=
  {| k_hart := k_hart s; k_locks := k_locks s; k_log := k_log s; k_syms := k_syms s;
     k_mem := k_mem s; k_kern := k_kern s; k_user := k_user s; k_kpgtbl := v; k_mmap
     := k_mmap s; k_disk := k_disk s; k_bufs := k_bufs s; k_head_buf := k_head_buf
     s; k_sb := k_sb s; k_icache := k_icache s; k_ftable := k_ftable s; k_devlist :=
     k_devlist s; k_procs := k_procs s; k_proczero := k_proczero s; k_global_pid :=
     k_global_pid s; k_ticks := k_ticks s; k_vdisk := k_vdisk s; k_uart := k_uart s;
     k_first := k_first s |}.
Definition set_mmap (v : mmap_pool) (s : kstate) : kstate :=
  {| k_hart := k_hart s; k_locks := k_locks s; k_log := k_log s; k_syms := k_syms s;
     k_mem := k_mem s; k_kern := k_kern s; k_user := k_user s; k_kpgtbl := k_kpgtbl
     s; k_mmap := v; k_disk := k_disk s; k_bufs := k_bufs s; k_head_buf :=
     k_head_buf s; k_sb := k_sb s; k_icache := k_icache s; k_ftable := k_ftable s;
     k_devlist := k_devlist s; k_procs := k_procs s; k_proczero := k_proczero s;
     k_global_pid := k_global_pid s; k_ticks := k_ticks s; k_vdisk := k_vdisk s;
     k_uart := k_uart s; k_first := k_first s |}.
Definition set_disk (v : gmap Z (list Z)) (s : kstate) : kstate :=
  {| k_hart := k_hart s; k_locks := k_locks s; k_log := k_log s; k_syms := k_syms s;
     k_mem := k_mem s; k_kern := k_kern s; k_user := k_user s; k_kpgtbl := k_kpgtbl
     s; k_mmap := k_mmap s; k_disk := v; k_bufs := k_bufs s; k_head_buf :=
     k_head_buf s; k_sb := k_sb s; k_icache := k_icache s; k_ftable := k_ftable s;
     k_devlist := k_devlist s; k_procs := k_procs s; k_proczero := k_proczero s;
     k_global_pid := k_global_pid s; k_ticks := k_ticks s; k_vdisk := k_vdisk s;
     k_uart := k_uart s; k_first := k_first s |}.
Definition set_bufs (v : list buf_node) (s : kstate) : kstate :=
  {| k_hart := k_hart s; k_locks := k_locks s; k_log := k_log s; k_syms := k_syms s;
     k_mem := k_mem s; k_kern := k_kern s; k_user := k_user s; k_kpgtbl := k_kpgtbl
     s; k_mmap := k_mmap s; k_disk := k_disk s; k_bufs := v; k_head_buf :=
     k_head_buf s; k_sb := k_sb s; k_icache := k_icache s; k_ftable := k_ftable s;
     k_devlist := k_devlist s; k_procs := k_procs s; k_proczero := k_proczero s;
     k_global_pid := k_global_pid s; k_ticks := k_ticks s; k_vdisk := k_vdisk s;
     k_uart := k_uart s; k_first := k_first s |}.
Definition set_head_buf (v : buf_links) (s : kstate) : kstate :=
  {| k_hart := k_hart s; k_locks := k_locks s; k_log := k_log s; k_syms := k_syms s;
     k_mem := k_mem s; k_kern := k_kern s; k_user := k_user s; k_kpgtbl := k_kpgtbl
     s; k_mmap := k_mmap s; k_disk := k_disk s; k_bufs := k_bufs s; k_head_buf := v;
     k_sb := k_sb s; k_icache := k_icache s; k_ftable := k_ftable s; k_devlist :=
     k_devlist s; k_procs := k_procs s; k_proczero := k_proczero s; k_global_pid :=
     k_global_pid s; k_ticks := k_ticks s; k_vdisk := k_vdisk s; k_uart := k_uart s;
     k_first := k_first s |}.
Definition set_sb (v : super_block) (s : kstate) : kstate :=
  {| k_hart := k_hart s; k_locks := k_locks s; k_log := k_log s; k_syms := k_syms s;
     k_mem := k_mem s; k_kern := k_kern s; k_user := k_user s; k_kpgtbl := k_kpgtbl
     s; k_mmap := k_mmap s; k_disk := k_disk s; k_bufs := k_bufs s; k_head_buf :=
     k_head_buf s; k_sb := v; k_icache := k_icache s; k_ftable := k_ftable s;
     k_devlist := k_devlist s; k_procs := k_procs s; k_proczero := k_proczero s;
     k_global_pid := k_global_pid s; k_ticks := k_ticks s; k_vdisk := k_vdisk s;
     k_uart := k_uart s; k_first := k_first s |}.
Definition set_icache (v : list inode) (s : kstate) : kstate :=
  {| k_hart := k_hart s; k_locks := k_locks s; k_log := k_log s; k_syms := k_syms s;
     k_mem := k_mem s; k_kern := k_kern s; k_user := k_user s; k_kpgtbl := k_kpgtbl
     s; k_mmap := k_mmap s; k_disk := k_disk s; k_bufs := k_bufs s; k_head_buf :=
     k_head_buf s; k_sb := k_sb s; k_icache := v; k_ftable := k_ftable s; k_devlist
     := k_devlist s; k_procs := k_procs s; k_proczero := k_proczero s; k_global_pid
     := k_global_pid s; k_ticks := k_ticks s; k_vdisk := k_vdisk s; k_uart := k_uart
     s; k_first := k_first s |}.
Definition set_ftable (v : list file) (s : kstate) : kstate :=
  {| k_hart := k_hart s; k_locks := k_locks s; k_log := k_log s; k_syms := k_syms s;
     k_mem := k_mem s; k_kern := k_kern s; k_user := k_user s; k_kpgtbl := k_kpgtbl
     s; k_mmap := k_mmap s; k_disk := k_disk s; k_bufs := k_bufs s; k_head_buf :=
     k_head_buf s; k_sb := k_sb s; k_icache := k_icache s; k_ftable := v; k_devlist
     := k_devlist s; k_procs := k_procs s; k_proczero := k_proczero s; k_global_pid
     := k_global_pid s; k_ticks := k_ticks s; k_vdisk := k_vdisk s; k_uart := k_uart
     s; k_first := k_first s |}.
Definition set_devlist (v : list dev) (s : kstate) : kstate :=
  {| k_hart := k_hart s; k_locks := k_locks s; k_log := k_log s; k_syms := k_syms s;
     k_mem := k_mem s; k_kern := k_kern s; k_user := k_user s; k_kpgtbl := k_kpgtbl
     s; k_mmap := k_mmap s; k_disk := k_disk s; k_bufs := k_bufs s; k_head_buf :=
     k_head_buf s; k_sb := k_sb s; k_icache := k_icache s; k_ftable := k_ftable s;
     k_devlist := v; k_procs := k_procs s; k_proczero := k_proczero s; k_global_pid
     := k_global_pid s; k_ticks := k_ticks s; k_vdisk := k_vdisk s; k_uart := k_uart
     s; k_first := k_first s |}.
Definition set_procs (v : list proc) (s : kstate) : kstate :=
  {| k_hart := k_hart s; k_locks := k_locks s; k_log := k_log s; k_syms := k_syms s;
     k_mem := k_mem s; k_kern := k_kern s; k_user := k_user s; k_kpgtbl := k_kpgtbl
     s; k_mmap := k_mmap s; k_disk := k_disk s; k_bufs := k_bufs s; k_head_buf :=
     k_head_buf s; k_sb := k_sb s; k_icache := k_icache s; k_ftable := k_ftable s;
     k_devlist := k_devlist s; k_procs := v; k_proczero := k_proczero s;
     k_global_pid := k_global_pid s; k_ticks := k_ticks s; k_vdisk := k_vdisk s;
     k_uart := k_uart s; k_first := k_first s |}.
Definition set_proczero (v : option nat) (s : kstate) : kstate :=
  {| k_hart := k_hart s; k_locks := k_locks s; k_log := k_log s; k_syms := k_syms s;
     k_mem := k_mem s; k_kern := k_kern s; k_user := k_user s; k_kpgtbl := k_kpgtbl
     s; k_mmap := k_mmap s; k_disk := k_disk s; k_bufs := k_bufs s; k_head_buf :=
     k_head_buf s; k_sb := k_sb s; k_icache := k_icache s; k_ftable := k_ftable s;
     k_devlist := k_devlist s; k_procs := k_procs s; k_proczero := v; k_global_pid
     := k_global_pid s; k_ticks := k_ticks s; k_vdisk := k_vdisk s; k_uart := k_uart
     s; k_first := k_first s |}.
Definition set_global_pid (v : Z) (s : kstate) : kstate :=
  {| k_hart := k_hart s; k_locks := k_locks s; k_log := k_log s; k_syms := k_syms s;
     k_mem := k_mem s; k_kern := k_kern s; k_user := k_user s; k_kpgtbl := k_kpgtbl
     s; k_mmap := k_mmap s; k_disk := k_disk s; k_bufs := k_bufs s; k_head_buf :=
     k_head_buf s; k_sb := k_sb s; k_icache := k_icache s; k_ftable := k_ftable s;
     k_devlist := k_devlist s; k_procs := k_procs s; k_proczero := k_proczero s;
     k_global_pid := v; k_ticks := k_ticks s; k_vdisk := k_vdisk s; k_uart := k_uart
     s; k_first := k_first s |}.
Definition set_ticks (v : Z) (s : kstate) : kstate :=
  {| k_hart := k_hart s; k_locks := k_locks s; k_log := k_log s; k_syms := k_syms s;
     k_mem := k_mem s; k_kern := k_kern s; k_user := k_user s; k_kpgtbl := k_kpgtbl
     s; k_mmap := k_mmap s; k_disk := k_disk s; k_bufs := k_bufs s; k_head_buf :=
     k_head_buf s; k_sb := k_sb s; k_icache := k_icache s; k_ftable := k_ftable s;
     k_devlist := k_devlist s; k_procs := k_procs s; k_proczero := k_proczero s;
     k_global_pid := k_global_pid s; k_ticks := v; k_vdisk := k_vdisk s; k_uart :=
     k_uart s; k_first := k_first s |}.
Definition set_vdisk (v : vdisk) (s : kstate) : kstate :=
  {| k_hart := k_hart s; k_locks := k_locks s; k_log := k_log s; k_syms := k_syms s;
     k_mem := k_mem s; k_kern := k_kern s; k_user := k_user s; k_kpgtbl := k_kpgtbl
     s; k_mmap := k_mmap s; k_disk := k_disk s; k_bufs := k_bufs s; k_head_buf :=
     k_head_buf s; k_sb := k_sb s; k_icache := k_icache s; k_ftable := k_ftable s;
     k_devlist := k_devlist s; k_procs := k_procs s; k_proczero := k_proczero s;
     k_global_pid := k_global_pid s; k_ticks := k_ticks s; k_vdisk := v; k_uart :=
     k_uart s; k_first := k_first s |}.
Definition set_uart (v : uart) (s : kstate) : kstate :=
  {| k_hart := k_hart s; k_locks := k_locks s; k_log := k_log s; k_syms := k_syms s;
     k_mem := k_mem s; k_kern := k_kern s; k_user := k_user s; k_kpgtbl := k_kpgtbl
     s; k_mmap := k_mmap s; k_disk := k_disk s; k_bufs := k_bufs s; k_head_buf :=
     k_head_buf s; k_sb := k_sb s; k_icache := k_icache s; k_ftable := k_ftable s;
     k_devlist := k_devlist s; k_procs := k_procs s; k_proczero := k_proczero s;
     k_global_pid := k_global_pid s; k_ticks := k_ticks s; k_vdisk := k_vdisk s;
     k_uart := v; k_first := k_first s |}.
Definition set_first (v : bool) (s : kstate) : kstate :=
  {| k_hart := k_hart s; k_locks := k_locks s; k_log := k_log s; k_syms := k_syms s;
     k_mem := k_mem s; k_kern := k_kern s; k_user := k_user s; k_kpgtbl := k_kpgtbl
     s; k_mmap := k_mmap s; k_disk := k_disk s; k_bufs := k_bufs s; k_head_buf :=
     k_head_buf s; k_sb := k_sb s; k_icache := k_icache s; k_ftable := k_ftable s;
     k_devlist := k_devlist s; k_procs := k_procs s; k_proczero := k_proczero s;
     k_global_pid := k_global_pid s; k_ticks := k_ticks s; k_vdisk := k_vdisk s;
     k_uart := k_uart s; k_first := v |}.

(** The monad of kernel code. *)
Abbreviation K := (M kstate).

(** A call of [printf]: the format string and its integer arguments reach the
    console. *)
Definition printf (fmt : string) (args : list Z) : K unit :=
  modify (λ s, set_log (k_log s ++ [(fmt, args)]) s).

(** ** Page arithmetic *)

Lemma PG_ROUND_DOWN_spec a : PG_ROUND_DOWN a = a - a mod PGSIZE.
Proof.
  unfold PG_ROUND_DOWN, PGSIZE. change (4096 - 1) with (Z.ones 12).
  change (Z.land a (Z.lnot (Z.ones 12))) with (Z.land a (Z.lnot (Z.ones 12))).
  rewrite <- Z.ldiff_land, Z.ldiff_ones_r by lia.
  rewrite Z.shiftr_div_pow2, Z.shiftl_mul_pow2 by lia. change (2^12) with 4096.
  pose proof (Z.div_mod a 4096). lia.
Qed.

Lemma PG_ROUND_DOWN_range a :
  PG_ROUND_DOWN a ≤ a < PG_ROUND_DOWN a + PGSIZE.
Proof.
  rewrite PG_ROUND_DOWN_spec. unfold PGSIZE.
  pose proof (Z.mod_pos_bound a 4096). lia.
Qed.

Lemma PG_ROUND_DOWN_aligned a : PG_ROUND_DOWN a mod PGSIZE = 0.
Proof.
  rewrite PG_ROUND_DOWN_spec. unfold PGSIZE.
  rewrite Zminus_mod_idemp_r, Z.sub_diag. done.
Qed.

Lemma PG_ROUND_DOWN_id a : a mod PGSIZE = 0 → PG_ROUND_DOWN a = a.
Proof. intros H. rewrite PG_ROUND_DOWN_spec, H. lia. Qed.

Lemma PG_ROUND_UP_id a : 0 ≤ a < 2^64 - PGSIZE → a mod PGSIZE = 0 → PG_ROUND_UP a = a.
Proof.
  intros Ha H. unfold PG_ROUND_UP, PGSIZE in *. rewrite u64_small by lia.
  change (Z.land (a + 4096 - 1) (Z.lnot (4096 - 1))) with (PG_ROUND_DOWN (a + 4096 - 1)).
  rewrite PG_ROUND_DOWN_spec. unfold PGSIZE.
  replace (a + 4096 - 1) with (4095 + a) by lia.
  rewrite <- Z.add_mod_idemp_r, H by lia. change ((4095 + 0) mod 4096) with 4095. lia.
Qed.

Lemma PG_ROUND_UP_spec a :
  0 ≤ a < 2^64 - PGSIZE →
  PG_ROUND_UP a mod PGSIZE = 0 ∧ a ≤ PG_ROUND_UP a < a + PGSIZE.
Proof.
  intros Ha. unfold PG_ROUND_UP, PGSIZE in *. rewrite u64_small by lia.
  change (Z.land (a + 4096 - 1) (Z.lnot (4096 - 1))) with (PG_ROUND_DOWN (a + 4096 - 1)).
  split; [apply PG_ROUND_DOWN_aligned|].
  pose proof (PG_ROUND_DOWN_range (a + 4096 - 1)) as H. unfold PGSIZE in H. lia.
Qed.

(** ** The zero-initialised data segment

    The state in which the kernel's C code starts: every global is zero.  [syms]
    are the link-time addresses. *)

Definition zero_context : context := mk_context 0 0 (replicate 12 0).
Definition zero_csrs : csrs := mk_csrs true 0 0 0 0 0 0.
Definition zero_hart (id : Z) : hart := mk_hart id false 0 false None zero_context zero_csrs.
Definition zero_region : alloc_region := mk_region 0 0 0 0.
Definition zero_buf_node : buf_node :=
  mk_buf_node (mk_buf 0 (replicate (Z.to_nat BLOCK_SIZE) 0) 0 false) (mk_links PNull PNull).
Definition zero_inode : inode := mk_inode 0 0 0 0 0 (replicate 13 0) 0 0 false.
Definition zero_file : file := mk_file 0 false false 0 0 0 None.
Definition zero_proc : proc :=
  mk_proc 0 UNUSED None 0 ChNull 0 0 0 0 None 0 0 zero_context None (replicate 16 None).

Definition zero_vdisk : vdisk :=
  mk_vdisk (replicate 8 (mk_desc DNull 0 0 0)) 0 (replicate 8 0) 0 (replicate 8 0)
    (replicate 8 false) 0 (replicate 8 (None, 0)).

Definition zero_state (syms : symbols) : kstate := {|
  k_hart := zero_hart 0; k_locks := ∅; k_log := []; k_syms := syms; k_mem := ∅;
  k_kern := zero_region; k_user := zero_region; k_kpgtbl := 0;
  k_mmap := mk_mmap_pool (replicate 256 (mk_mmap_node 0 0 None None)) 0;
  k_disk := ∅; k_bufs := replicate 64 zero_buf_node; k_head_buf := mk_links PNull PNull;
  k_sb := mk_super_block 0 0 0 0 0 0 0 0 0; k_icache := replicate 32 zero_inode;
  k_ftable := replicate 32 zero_file; k_devlist := replicate 10 (mk_dev None None);
  k_procs := replicate NPROC zero_proc; k_proczero := None; k_global_pid := 1;
  k_ticks := 0; k_vdisk := zero_vdisk; k_uart := mk_uart [] []; k_first := true |}.

(** Addresses of an image that leaves [n] user pages. *)
Definition image_syms (n : Z) : symbols :=
  mk_symbols (0x88000000 - (KERNEL_PAGES + n) * PGSIZE) 0x80008000 0x80007000 0x80007000
    0x80007090 0x80006000 0x80002000 0x80002100 0x80003000.
