(* ===== verification/Lock.v ===== *)
(** * Interrupt nesting and spinlocks (kernel/lib/spinlock.c, kernel/proc/cpu.c)

    The operations as the executing hart runs them: [push_off]/[pop_off] with the
    nesting counter [noff] and the saved interrupt state [origin], and
    [spinlock_acquire]/[spinlock_release] with their panics.  A lock that is held
    by another hart is waited for by spinning, which is [Hang] for a single
    hart; the interleaved behaviour of several harts is in SpinProtocol.v. *)

From S2P Require Import Prelude Bytes Kernel.

(** ** Operations *)

Definition intr_get : K bool := gets (λ s, h_sie (k_hart s)).

Definition set_sie (b : bool) (h : hart) : hart :=
  mk_hart (h_id h) b (h_noff h) (h_origin h) (h_proc h) (h_ctx h) (h_csr h).

Definition intr_on : K unit := modify (λ s, set_hart (set_sie true (k_hart s)) s).
Definition intr_off : K unit := modify (λ s, set_hart (set_sie false (k_hart s)) s).

Definition set_noff (n : Z) (h : hart) : hart :=
  mk_hart (h_id h) (h_sie h) n (h_origin h) (h_proc h) (h_ctx h) (h_csr h).
Definition set_origin (b : bool) (h : hart) : hart :=
  mk_hart (h_id h) (h_sie h) (h_noff h) b (h_proc h) (h_ctx h) (h_csr h).
Definition set_hproc (p : option nat) (h : hart) : hart :=
  mk_hart (h_id h) (h_sie h) (h_noff h) (h_origin h) p (h_ctx h) (h_csr h).

Definition mycpuid : K Z := gets (λ s, h_id (k_hart s)).
Definition mycpu : K hart := gets (λ s, k_hart s).

Definition push_off : K unit :=
  old ← intr_get;
  intr_off;;
  c ← mycpu;
  (if h_noff c =? 0 then modify (λ s, set_hart (set_origin old (k_hart s)) s)
   else mret tt);;
  modify (λ s, set_hart (set_noff (h_noff (k_hart s) + 1) (k_hart s)) s).

Definition pop_off : K unit :=
  on ← intr_get;
  (if on : bool then panic "pop_off - interruptible" else mret tt);;
  c ← mycpu;
  (if h_noff c <? 1 then panic "pop_off" else mret tt);;
  modify (λ s, set_hart (set_noff (h_noff (k_hart s) - 1) (k_hart s)) s);;
  c ← mycpu;
  if (h_noff c =? 0) && h_origin c then intr_on else mret tt.

Definition cpu_init : K unit :=
  modify (λ s, set_hart (set_origin false (set_noff 0 (k_hart s))) s).

(** The index in [procs] of the running process. *)
Definition myproc : K (option nat) :=
  push_off;;
  c ← mycpu;
  pop_off;;
  mret (h_proc c).

Definition get_lock (lk : lockid) (s : kstate) : spinlock :=
  default zero_lock (k_locks s !! lk).

Definition put_lock (lk : lockid) (l : spinlock) : K unit :=
  modify (λ s, set_locks (<[lk := l]> (k_locks s)) s).

Definition spinlock_holding (lk : lockid) : K bool :=
  l ← gets (get_lock lk);
  id ← mycpuid;
  mret (negb (locked l =? 0) && (lk_cpuid l =? id)).

Definition spinlock_init (lk : lockid) (name : string) : K unit :=
  put_lock lk (mk_spinlock 0 name (-1)).

Definition spinlock_acquire (lk : lockid) : K unit :=
  push_off;;
  h ← spinlock_holding lk;
  (if h : bool then panic "double acquire detected" else mret tt);;
  l ← gets (get_lock lk);
  (if locked l =? 0 then put_lock lk (mk_spinlock 1 (lk_name l) (lk_cpuid l))
   else hang);;
  id ← mycpuid;
  l ← gets (get_lock lk);
  put_lock lk (mk_spinlock (locked l) (lk_name l) id).

Definition spinlock_release (lk : lockid) : K unit :=
  h ← spinlock_holding lk;
  (if h : bool then mret tt else panic "release");;
  l ← gets (get_lock lk);
  put_lock lk (mk_spinlock (locked l) (lk_name l) (-1));;
  l ← gets (get_lock lk);
  put_lock lk (mk_spinlock 0 (lk_name l) (lk_cpuid l));;
  pop_off.

(** ** The effect of a critical section on the hart and the locks *)

Definition hart_push (h : hart) : hart :=
  set_noff (h_noff h + 1)
    (set_origin (if h_noff h =? 0 then h_sie h else h_origin h) (set_sie false h)).

Definition hart_pop (h : hart) : hart :=
  set_sie ((h_noff h - 1 =? 0) && h_origin h) (set_noff (h_noff h - 1) h).

(** The hart is between two critical sections, or inside one: the state that
    [push_off] saves and [pop_off] restores agrees with the interrupt bit. *)
Definition hart_stable (h : hart) : Prop :=
  (0 < h_noff h ∧ h_sie h = false) ∨ (h_noff h = 0 ∧ h_origin h = h_sie h).

(** The lock was initialised and nobody holds it. *)
Definition lock_idle (lk : lockid) (s : kstate) : Prop :=
  ∃ name, k_locks s !! lk = Some (mk_spinlock 0 name (-1)).

(** This hart holds the lock. *)
Definition lock_held (lk : lockid) (s : kstate) : Prop :=
  ∃ name, k_locks s !! lk = Some (mk_spinlock 1 name (h_id (k_hart s))).

Definition acq (lk : lockid) (s : kstate) : kstate :=
  set_locks (<[lk := mk_spinlock 1 (lk_name (get_lock lk s)) (h_id (k_hart s))]> (k_locks s))
    (set_hart (hart_push (k_hart s)) s).

Definition rel (lk : lockid) (s : kstate) : kstate :=
  set_locks (<[lk := mk_spinlock 0 (lk_name (get_lock lk s)) (-1)]> (k_locks s))
    (set_hart (hart_pop (k_hart s)) s).

(** Nothing the lock discipline tracks has changed. *)
Definition same_sync (s s' : kstate) : Prop :=
  k_hart s' = k_hart s ∧ k_locks s' = k_locks s.

(** ** Lemmas *)

Lemma push_off_run s : push_off s = Ok (tt, set_hart (hart_push (k_hart s)) s).
Proof.
  unfold push_off, hart_push, intr_get, intr_off, mycpu. mrun. simpl.
  by destruct (h_noff (k_hart s) =? 0).
Qed.

Lemma pop_off_run s :
  h_sie (k_hart s) = false → 0 < h_noff (k_hart s) →
  pop_off s = Ok (tt, set_hart (hart_pop (k_hart s)) s).
Proof.
  intros Hs Hn.
  unfold pop_off, hart_pop, intr_get, intr_on, mycpu. mrun.
  rewrite Hs. zdecide. unfold set_noff, set_sie; simpl.
  destruct ((h_noff (k_hart s) - 1 =? 0) && h_origin (k_hart s)); simpl; [done|].
  by rewrite <- Hs at 1.
Qed.

Lemma hart_pop_push h : hart_stable h → hart_pop (hart_push h) = h.
Proof.
  intros Hst. destruct h as [id sie n o p c csr]. unfold hart_pop, hart_push, hart_stable in *.
  simpl in *. replace (n + 1 - 1) with n by lia. unfold set_noff, set_sie, set_origin; simpl.
  destruct Hst as [[Hn ->]|[-> ->]]; simpl; [|done].
  destruct (n =? 0) eqn:E; zbool; [lia|done].
Qed.

(** After one balanced [push_off]/[pop_off] the hart is stable, whatever [origin]
    held before. *)
Lemma hart_pop_push_stable h :
  0 ≤ h_noff h → (0 < h_noff h → h_sie h = false) → hart_stable (hart_pop (hart_push h)).
Proof.
  intros Hn Hs. destruct h as [id sie n o p c csr].
  unfold hart_pop, hart_push, hart_stable in *. simpl in *.
  replace (n + 1 - 1) with n by lia.
  destruct (n =? 0) eqn:E; zbool; simpl; [|left; lia]. by right.
Qed.

Lemma hart_push_stable h : 0 ≤ h_noff h → hart_stable (hart_push h).
Proof. intros Hn. left. simpl. split; [lia|done]. Qed.

Lemma hart_stable_noff h : hart_stable h → 0 ≤ h_noff h.
Proof. intros [[? _]|[? _]]; lia. Qed.

Lemma spinlock_holding_run lk s :
  spinlock_holding lk s =
    Ok (negb (locked (get_lock lk s) =? 0) && (lk_cpuid (get_lock lk s) =? h_id (k_hart s)), s).
Proof. done. Qed.

Lemma get_lock_insert lk l ls s : get_lock lk (set_locks (<[lk := l]> ls) s) = l.
Proof. unfold get_lock; simpl. by rewrite lookup_insert_eq. Qed.

Lemma acquire_run lk s :
  locked (get_lock lk s) = 0 → spinlock_acquire lk s = Ok (tt, acq lk s).
Proof.
  intros Hl. unfold spinlock_acquire. run (push_off_run s).
  unfold spinlock_holding, mycpuid, put_lock. mrun.
  change (get_lock lk (set_hart (hart_push (k_hart s)) s)) with (get_lock lk s).
  rewrite Hl, get_lock_insert. unfold acq; simpl. by rewrite insert_insert_eq.
Qed.

(** Acquiring a lock this hart already holds panics. *)
Lemma acquire_held lk s :
  locked (get_lock lk s) ≠ 0 → lk_cpuid (get_lock lk s) = h_id (k_hart s) →
  spinlock_acquire lk s = Panic "double acquire detected".
Proof.
  intros Hl Hc. unfold spinlock_acquire. run (push_off_run s).
  unfold spinlock_holding, mycpuid. mrun.
  change (get_lock lk (set_hart (hart_push (k_hart s)) s)) with (get_lock lk s).
  simpl. by rewrite Hc, Z.eqb_refl, (proj2 (Z.eqb_neq _ _) Hl).
Qed.

Lemma release_run lk s :
  lock_held lk s → h_sie (k_hart s) = false → 0 < h_noff (k_hart s) →
  spinlock_release lk s = Ok (tt, rel lk s).
Proof.
  intros [nm Hl] Hs Hn. unfold spinlock_release, rel.
  assert (get_lock lk s = mk_spinlock 1 nm (h_id (k_hart s))) as Hg
    by (unfold get_lock; by rewrite Hl).
  unfold spinlock_holding, mycpuid, put_lock. mrun.
  rewrite !Hg, get_lock_insert. simpl. rewrite Z.eqb_refl, pop_off_run by done.
  simpl. by rewrite insert_insert_eq.
Qed.

Lemma release_not_held lk s :
  locked (get_lock lk s) = 0 ∨ lk_cpuid (get_lock lk s) ≠ h_id (k_hart s) →
  spinlock_release lk s = Panic "release".
Proof.
  intros H. unfold spinlock_release, spinlock_holding, mycpuid. mrun.
  destruct H as [H|H]; [by rewrite H|].
  by rewrite (proj2 (Z.eqb_neq _ _) H), andb_false_r.
Qed.

Lemma lock_idle_unlocked lk s : lock_idle lk s → locked (get_lock lk s) = 0.
Proof. intros [nm H]. unfold get_lock. by rewrite H. Qed.

Lemma acq_held lk s : lock_held lk (acq lk s).
Proof. exists (lk_name (get_lock lk s)). simpl. by rewrite lookup_insert_eq. Qed.

Lemma acq_locks lk s l :
  k_locks s !! lk = Some l →
  k_locks (acq lk s) = <[lk := mk_spinlock 1 (lk_name l) (h_id (k_hart s))]> (k_locks s).
Proof. intros H. unfold acq, get_lock. by rewrite H. Qed.

Lemma acq_sie lk s : h_sie (k_hart (acq lk s)) = false.
Proof. done. Qed.

Lemma acq_noff lk s : h_noff (k_hart (acq lk s)) = h_noff (k_hart s) + 1.
Proof. done. Qed.

Lemma acq_stable lk s : 0 ≤ h_noff (k_hart s) → hart_stable (k_hart (acq lk s)).
Proof. intros. by apply hart_push_stable. Qed.

Lemma acq_idle lk lk' s : lk ≠ lk' → lock_idle lk' s → lock_idle lk' (acq lk s).
Proof. intros Hne [nm H]. exists nm. simpl. by rewrite lookup_insert_ne. Qed.

Lemma rel_acq lk s : hart_stable (k_hart s) → lock_idle lk s → rel lk (acq lk s) = s.
Proof.
  intros Hst [nm Hl]. unfold rel, acq.
  assert (get_lock lk s = mk_spinlock 0 nm (-1)) as Hg by (unfold get_lock; by rewrite Hl).
  rewrite get_lock_insert; simpl.
  rewrite insert_insert_eq, hart_pop_push by done. rewrite Hg; simpl.
  rewrite insert_id by done. done.
Qed.

(** Leaving the section after a body that kept the hart and the locks. *)
Lemma rel_after lk s s1 :
  hart_stable (k_hart s) → lock_idle lk s → same_sync (acq lk s) s1 →
  rel lk s1 = set_hart (k_hart s) (set_locks (k_locks s) s1).
Proof.
  intros Hst [nm Hl] [Hh Hk]. unfold rel, get_lock. rewrite Hh, Hk.
  change (k_hart (acq lk s)) with (hart_push (k_hart s)).
  change (k_locks (acq lk s)) with
    (<[lk := mk_spinlock 1 (lk_name (get_lock lk s)) (h_id (k_hart s))]> (k_locks s)).
  rewrite lookup_insert_eq, insert_insert_eq, hart_pop_push by done.
  unfold get_lock; rewrite Hl; cbn [default lk_name]. by rewrite insert_id.
Qed.

Lemma release_after lk s s1 :
  hart_stable (k_hart s) → lock_idle lk s → same_sync (acq lk s) s1 →
  spinlock_release lk s1 = Ok (tt, set_hart (k_hart s) (set_locks (k_locks s) s1)).
Proof.
  intros Hst Hid Hsy. pose proof (hart_stable_noff _ Hst). destruct (acq_held lk s) as [nm Hl].
  destruct Hsy as [Hh Hk]. rewrite release_run.
  - f_equal. f_equal. by apply rel_after.
  - exists nm. by rewrite Hk, Hh.
  - by rewrite Hh.
  - rewrite Hh, acq_noff. lia.
Qed.

Lemma release_bind {A} lk s s1 (k : unit → K A) :
  hart_stable (k_hart s) → lock_idle lk s → same_sync (acq lk s) s1 →
  (spinlock_release lk ≫= k) s1 = k tt (set_hart (k_hart s) (set_locks (k_locks s) s1)).
Proof. intros Hst Hid Hsy. by rewrite (bind_ok _ _ _ _ _ (release_after lk s s1 Hst Hid Hsy)). Qed.

(** [acquire; update; release] with an update that does not touch the hart or
    the locks. *)
Lemma critical_update lk (f : kstate → kstate) s :
  hart_stable (k_hart s) → lock_idle lk s →
  same_sync (acq lk s) (f (acq lk s)) →
  (spinlock_acquire lk;; modify f;; spinlock_release lk) s =
    Ok (tt, set_hart (k_hart s) (set_locks (k_locks s) (f (acq lk s)))).
Proof.
  intros Hst Hid Hsy.
  run (acquire_run lk s (lock_idle_unlocked _ _ Hid)).
  change (spinlock_release lk (f (acq lk s)) =
    Ok (tt, set_hart (k_hart s) (set_locks (k_locks s) (f (acq lk s))))).
  by apply release_after.
Qed.

Lemma myproc_run s :
  hart_stable (k_hart s) → myproc s = Ok (h_proc (k_hart s), s).
Proof.
  intros Hst. unfold myproc. run (push_off_run s).
  unfold mycpu. mrun. pose proof (hart_stable_noff _ Hst).
  rewrite (bind_ok _ _ _ tt (set_hart (hart_pop (hart_push (k_hart s))) s)).
  - mrun. by rewrite hart_pop_push.
  - rewrite pop_off_run; [done|done|simpl; lia].
Qed.

#[export] Hint Resolve acq_stable acq_idle acq_held hart_stable_noff lock_idle_unlocked : kernel.
