(* ===== verification/SpinProtocol.v ===== *)
(** * Spinlocks under interleaving (kernel/lib/spinlock.c on several harts)

    [spinlock_acquire] and [spinlock_release] broken into the accesses they make
    to the shared lock word, one step per access, for any number of harts that
    interleave.  The reads of [spinlock_holding] ([lk->locked], then
    [lk->cpuid]) are two steps, the atomic swap is one. *)

From S2P Require Import Prelude Bytes Kernel Lock.

(** ** The protocol *)

(** Where a hart is in the two functions. *)
Inductive pc :=
  | Out            (* outside the lock's functions *)
  | AcqLocked      (* acquire: about to read lk->locked in spinlock_holding *)
  | AcqCpuid       (* acquire: locked was set, about to read lk->cpuid *)
  | AcqSwap        (* acquire: about to swap 1 into lk->locked *)
  | AcqOwn         (* acquire: swap returned 0, about to store lk->cpuid *)
  | Crit           (* acquire has returned *)
  | RelLocked      (* release: about to read lk->locked *)
  | RelCpuid       (* release: locked was set, about to read lk->cpuid *)
  | RelOwn         (* release: about to store -1 to lk->cpuid *)
  | RelSwap        (* release: about to store 0 to lk->locked *)
  | Dead.          (* one of the two panics *)

Record word := mk_word { w_locked : Z; w_cpuid : Z; w_pcs : list pc }.

Definition w_goto (i : nat) (p : pc) (w : word) : word :=
  mk_word (w_locked w) (w_cpuid w) (<[i := p]> (w_pcs w)).

Definition w_init (n : nat) : word := mk_word 0 (-1) (replicate n Out).

Inductive step : word → word → Prop :=
  | s_enter w i : w_pcs w !! i = Some Out → step w (w_goto i AcqLocked w)
  | s_acq_locked w i :
      w_pcs w !! i = Some AcqLocked →
      step w (w_goto i (if w_locked w =? 0 then AcqSwap else AcqCpuid) w)
  | s_acq_cpuid w i :
      w_pcs w !! i = Some AcqCpuid →
      step w (w_goto i (if w_cpuid w =? Z.of_nat i then Dead else AcqSwap) w)
  | s_acq_swap w i :
      w_pcs w !! i = Some AcqSwap →
      step w (w_goto i (if w_locked w =? 0 then AcqOwn else AcqSwap)
                (mk_word 1 (w_cpuid w) (w_pcs w)))
  | s_acq_own w i :
      w_pcs w !! i = Some AcqOwn →
      step w (w_goto i Crit (mk_word (w_locked w) (Z.of_nat i) (w_pcs w)))
  | s_leave w i : w_pcs w !! i = Some Crit → step w (w_goto i RelLocked w)
  | s_rel_locked w i :
      w_pcs w !! i = Some RelLocked →
      step w (w_goto i (if w_locked w =? 0 then Dead else RelCpuid) w)
  | s_rel_cpuid w i :
      w_pcs w !! i = Some RelCpuid →
      step w (w_goto i (if w_cpuid w =? Z.of_nat i then RelOwn else Dead) w)
  | s_rel_own w i :
      w_pcs w !! i = Some RelOwn →
      step w (w_goto i RelSwap (mk_word (w_locked w) (-1) (w_pcs w)))
  | s_rel_swap w i :
      w_pcs w !! i = Some RelSwap →
      step w (w_goto i Out (mk_word 0 (w_cpuid w) (w_pcs w))).

(** ** The invariant *)

(** The hart's swap succeeded and its release is not complete. *)
Definition inside (p : pc) : bool :=
  match p with
  | AcqOwn | Crit | RelLocked | RelCpuid | RelOwn | RelSwap => true
  | _ => false
  end.

(** The hart's id is in lk->cpuid. *)
Definition owns (p : pc) : bool :=
  match p with Crit | RelLocked | RelCpuid | RelOwn => true | _ => false end.

Record spin_inv (w : word) : Prop := {
  si_excl i j p q : w_pcs w !! i = Some p → w_pcs w !! j = Some q →
    inside p = true → inside q = true → i = j;
  si_locked i p : w_pcs w !! i = Some p → inside p = true → w_locked w = 1;
  si_owner i p : w_pcs w !! i = Some p → owns p = true → w_cpuid w = Z.of_nat i;
  si_other i p : w_pcs w !! i = Some p → owns p = false → w_cpuid w ≠ Z.of_nat i;
  si_alive i : w_pcs w !! i ≠ Some Dead }.

(** ** Preservation *)

Lemma spin_inv_init n : spin_inv (w_init n).
Proof.
  split; simpl; intros i; intros;
    repeat match goal with H : replicate _ _ !! _ = Some _ |- _ =>
      apply lookup_replicate in H as [-> _] end; try done.
  - lia.
  - intros [[=] _]%lookup_replicate.
Qed.

(** Moving hart [i] keeps the invariant when its new position agrees with the
    new lock word and the other harts still agree with it. *)
Lemma spin_inv_move w i p q l c :
  spin_inv w → w_pcs w !! i = Some p → q ≠ Dead →
  (inside q = true → l = 1 ∧ ∀ j r, j ≠ i → w_pcs w !! j = Some r → inside r = false) →
  (∀ j r, j ≠ i → w_pcs w !! j = Some r → inside r = true → l = 1) →
  (owns q = true → c = Z.of_nat i) → (owns q = false → c ≠ Z.of_nat i) →
  (∀ j r, j ≠ i → w_pcs w !! j = Some r → owns r = true → c = Z.of_nat j) →
  (∀ j r, j ≠ i → w_pcs w !! j = Some r → owns r = false → c ≠ Z.of_nat j) →
  spin_inv (mk_word l c (<[i := q]> (w_pcs w))).
Proof.
  intros [Ex Lo Ow Ot Al] Hi Hd Hin Hlk Ho1 Ho2 Ho3 Ho4.
  assert (i < length (w_pcs w))%nat as Hlen by (by eapply lookup_lt_Some).
  split; simpl.
  - intros a b pa pb Ha Hb Ia Ib. destruct (decide (a = i)) as [->|Na], (decide (b = i)) as [->|Nb].
    + done.
    + rewrite list_lookup_insert_eq in Ha by done. rewrite list_lookup_insert_ne in Hb by done.
      simplify_eq. destruct (Hin Ia) as [_ H]. rewrite (H b pb) in Ib by done. done.
    + rewrite list_lookup_insert_eq in Hb by done. rewrite list_lookup_insert_ne in Ha by done.
      simplify_eq. destruct (Hin Ib) as [_ H]. rewrite (H a pa) in Ia by done. done.
    + rewrite list_lookup_insert_ne in Ha, Hb by done. by eapply Ex.
  - intros a pa Ha Ia. destruct (decide (a = i)) as [->|Na].
    + rewrite list_lookup_insert_eq in Ha by done. simplify_eq. by apply Hin.
    + rewrite list_lookup_insert_ne in Ha by done. by eapply Hlk.
  - intros a pa Ha Ia. destruct (decide (a = i)) as [->|Na].
    + rewrite list_lookup_insert_eq in Ha by done. simplify_eq. by apply Ho1.
    + rewrite list_lookup_insert_ne in Ha by done. by eapply Ho3.
  - intros a pa Ha Ia. destruct (decide (a = i)) as [->|Na].
    + rewrite list_lookup_insert_eq in Ha by done. simplify_eq. by apply Ho2.
    + rewrite list_lookup_insert_ne in Ha by done. by eapply Ho4.
  - intros a Ha. destruct (decide (a = i)) as [->|Na].
    + rewrite list_lookup_insert_eq in Ha by done. simplify_eq.
    + rewrite list_lookup_insert_ne in Ha by done. by eapply Al.
Qed.

(** While a hart is inside, every other one is outside and does not own. *)
Lemma spin_inv_alone w i p j r :
  spin_inv w → w_pcs w !! i = Some p → inside p = true → j ≠ i →
  w_pcs w !! j = Some r → inside r = false ∧ owns r = false.
Proof.
  intros [Ex _ _ _ _] Hi Hp Hj Hr.
  assert (inside r = false).
  { destruct (inside r) eqn:E; [|done]. destruct Hj. by eapply Ex. }
  split; [done|by destruct r].
Qed.

Lemma spin_step_inv w w' : spin_inv w → step w w' → spin_inv w'.
Proof.
  intros I Hs. pose proof I as [Ex Lo Ow Ot Al].
  destruct Hs as [w i Hi|w i Hi|w i Hi|w i Hi|w i Hi|w i Hi|w i Hi|w i Hi|w i Hi|w i Hi];
    unfold w_goto; simpl.
  all: pose proof (Ow i _ Hi) as Ho; pose proof (Ot i _ Hi) as Hn; pose proof (Lo i _ Hi) as Hl;
    simpl in Ho, Hn, Hl.
  all: assert (∀ j r, j ≠ i → w_pcs w !! j = Some r → inside r = true → w_locked w = 1) as Lo'
    by (intros j r _ Hj; by apply (Lo j r)).
  all: repeat match goal with |- context [if (?a =? ?b) then _ else _] =>
      destruct (a =? b) eqn:?; zbool end.
  all: try (exfalso; first [by apply Hn | rewrite Hl in *; done | by rewrite Ho in * ]).
  all: pose proof (λ j r, spin_inv_alone w i _ j r I Hi) as Alone.
  all: eapply spin_inv_move; try eassumption; try done; simpl; intros;
    try (by eauto); try lia; try congruence.
  all: try (split; [by auto|]; intros j r Hj Hr).
  all: match goal with
    | Hj : ?j ≠ _, Hr : w_pcs _ !! ?j = Some ?r |- _ =>
        first [ destruct (Alone j r eq_refl Hj Hr); congruence
              | destruct (inside r) eqn:E; [specialize (Lo j r Hr E); lia|done] ]
    end.
Qed.

Lemma spin_reach_inv n w : rtc step (w_init n) w → spin_inv w.
Proof.
  intros Hr. pose proof (spin_inv_init n) as HI. induction Hr as [|x y z Hxy _ IH]; [done|].
  apply IH. by eapply spin_step_inv.
Qed.

(** ** The protocol and the sequential operations *)

(** The shared word of lock [lk], seen next to the positions of the harts. *)
Definition word_of (lk : lockid) (s : kstate) (pcs : list pc) : word :=
  mk_word (locked (get_lock lk s)) (lk_cpuid (get_lock lk s)) pcs.

Lemma acquire_inv lk s s' :
  spinlock_acquire lk s = Ok (tt, s') → locked (get_lock lk s) = 0 ∧ s' = acq lk s.
Proof.
  intros H. destruct (decide (locked (get_lock lk s) = 0)) as [E|E].
  - rewrite acquire_run in H by done. by simplify_eq.
  - exfalso. revert H. unfold spinlock_acquire. run (push_off_run s).
    unfold spinlock_holding, mycpuid, put_lock. mrun.
    change (get_lock lk (set_hart (hart_push (k_hart s)) s)) with (get_lock lk s).
    apply Z.eqb_neq in E. rewrite E. simpl.
    by destruct (lk_cpuid (get_lock lk s) =? h_id (k_hart s)).
Qed.

Lemma release_inv lk s s' :
  spinlock_release lk s = Ok (tt, s') →
  locked (get_lock lk s) ≠ 0 ∧ lk_cpuid (get_lock lk s) = h_id (k_hart s) ∧
  get_lock lk s' = mk_spinlock 0 (lk_name (get_lock lk s)) (-1).
Proof.
  unfold spinlock_release, spinlock_holding, mycpuid, put_lock. mrun. rewrite get_lock_insert.
  destruct (locked (get_lock lk s) =? 0) eqn:E1; [done|].
  destruct (lk_cpuid (get_lock lk s) =? h_id (k_hart s)) eqn:E2; [|done]. cbn [negb andb locked lk_name lk_cpuid]. zbool.
  intros H. split; [done|]. split; [done|].
  assert (k_locks s' = <[lk := mk_spinlock 0 (lk_name (get_lock lk s)) (-1)]> (k_locks s)) as Hk.
  { revert H. unfold pop_off, intr_get, intr_on, mycpu. mrun. simpl.
    destruct (h_sie _); [done|]. destruct (_ <? _); [done|].
    rewrite insert_insert_eq. by destruct (_ && _); intros; simplify_eq. }
  unfold get_lock at 1. by rewrite Hk, lookup_insert_eq.
Qed.

Lemma acquire_steps lk s s' pcs i :
  h_id (k_hart s) = Z.of_nat i → pcs !! i = Some Out →
  spinlock_acquire lk s = Ok (tt, s') →
  rtc step (word_of lk s pcs) (word_of lk s' (<[i := Crit]> pcs)).
Proof.
  intros Hid Hi [Hl ->]%acquire_inv.
  assert (i < length pcs)%nat as Hlen by (by eapply lookup_lt_Some).
  unfold word_of, acq. rewrite get_lock_insert, Hl; simpl. rewrite Hid.
  eapply rtc_l; [apply (s_enter _ i); by simpl|].
  eapply rtc_l; [apply (s_acq_locked _ i); simpl; by rewrite list_lookup_insert_eq|].
  eapply rtc_l; [apply (s_acq_swap _ i); simpl; by rewrite list_lookup_insert_eq
    by (by rewrite !length_insert)|].
  eapply rtc_l; [apply (s_acq_own _ i); simpl; by rewrite list_lookup_insert_eq
    by (by rewrite !length_insert)|].
  unfold w_goto; simpl. by rewrite !list_insert_insert_eq.
Qed.

Lemma release_steps lk s s' pcs i :
  h_id (k_hart s) = Z.of_nat i → pcs !! i = Some Crit →
  spinlock_release lk s = Ok (tt, s') →
  rtc step (word_of lk s pcs) (word_of lk s' (<[i := Out]> pcs)).
Proof.
  intros Hid Hi (Hl & Hc & Hl')%release_inv. apply Z.eqb_neq in Hl.
  assert (i < length pcs)%nat as Hlen by (by eapply lookup_lt_Some).
  unfold word_of. rewrite Hl', Hc, Hid; simpl.
  eapply rtc_l; [apply (s_leave _ i); by simpl|].
  eapply rtc_l; [apply (s_rel_locked _ i); simpl; by rewrite list_lookup_insert_eq|].
  unfold w_goto; simpl. rewrite Hl.
  eapply rtc_l; [apply (s_rel_cpuid _ i); simpl; by rewrite list_lookup_insert_eq
    by (by rewrite !length_insert)|].
  unfold w_goto; simpl. rewrite Z.eqb_refl.
  eapply rtc_l; [apply (s_rel_own _ i); simpl; by rewrite list_lookup_insert_eq
    by (by rewrite !length_insert)|].
  eapply rtc_l; [apply (s_rel_swap _ i); simpl; by rewrite list_lookup_insert_eq
    by (by rewrite !length_insert)|].
  unfold w_goto; simpl. by rewrite !list_insert_insert_eq.
Qed.

(** ** Progress *)

(** A taken lock has somebody inside. *)
Definition spin_busy (w : word) : Prop :=
  w_locked w ≠ 0 → ∃ i p, w_pcs w !! i = Some p ∧ inside p = true.

(** Moving hart [i] keeps the insider when [i] was outside, or stays inside. *)
Lemma spin_busy_move w i p q l c :
  spin_busy w → w_pcs w !! i = Some p → (l ≠ 0 → w_locked w ≠ 0 ∨ inside q = true) →
  (inside p = true → inside q = true ∨ l = 0) → spin_busy (mk_word l c (<[i := q]> (w_pcs w))).
Proof.
  intros HB Hi Hl Hpq Hne. simpl in *. assert (i < length (w_pcs w))%nat as Hlen by (by eapply lookup_lt_Some).
  destruct (inside q) eqn:Eq.
  - exists i, q. split; [by apply list_lookup_insert_eq|done].
  - destruct (Hl Hne) as [Hw|]; [|done]. destruct (HB Hw) as (j & r & Hj & Hr). exists j, r. split; [|done].
    rewrite list_lookup_insert_ne; [done|]. intros ->. simplify_eq. by destruct (Hpq Hr).
Qed.

Lemma spin_busy_step w w' : spin_inv w → spin_busy w → step w w' → spin_busy w'.
Proof.
  intros HI HB Hs. pose proof (si_owner _ HI) as Ow. pose proof (si_locked _ HI) as Lo.
  destruct Hs as [w i Hi|w i Hi|w i Hi|w i Hi|w i Hi|w i Hi|w i Hi|w i Hi|w i Hi|w i Hi];
    unfold w_goto; simpl; specialize (Ow i _ Hi); specialize (Lo i _ Hi); simpl in Ow, Lo.
  all: eapply spin_busy_move; [exact HB|exact Hi| |]; simpl; try (by auto); intros.
  all: try (rewrite Lo by done; by left).
  all: try (rewrite Ow, Z.eqb_refl by done; by left).
  destruct (w_locked w =? 0) eqn:E; zbool; [by right|by left].
Qed.

Lemma spin_reach_busy n w : rtc step (w_init n) w → spin_busy w.
Proof.
  intros Hr. assert (spin_inv (w_init n) ∧ spin_busy (w_init n)) as [HI HB] by (split; [apply spin_inv_init|by intros []]).
  revert HI HB. induction Hr as [|x y z Hxy _ IH]; intros HI HB; [done|].
  apply IH; [by eapply spin_step_inv|by eapply spin_busy_step].
Qed.

(** One step of hart [i], on a word given by its parts. *)
Ltac hart_step rule i :=
  eapply bsteps_l; [apply (rule _ i); simpl; by rewrite ?list_lookup_insert_eq by (by rewrite ?length_insert)|];
  unfold w_goto; cbn [w_locked w_cpuid w_pcs]; rewrite ?list_insert_insert_eq.

(** The insider leaves within six steps of its own and frees the lock. *)
Lemma leave_steps w i p :
  spin_inv w → w_pcs w !! i = Some p → inside p = true →
  ∃ c, bsteps step 6 w (mk_word 0 c (<[i := Out]> (w_pcs w))).
Proof.
  intros HI Hi Hp. pose proof (si_locked _ HI i p Hi Hp) as Hl. pose proof (si_owner _ HI i p Hi) as Ho.
  assert (i < length (w_pcs w))%nat as Hlen by (by eapply lookup_lt_Some).
  destruct w as [l c pcs]. simpl in *. subst l.
  assert (∀ c, bsteps step 1 (mk_word 1 c (<[i := RelSwap]> pcs)) (mk_word 0 c (<[i := Out]> pcs))) as H1.
  { intros c0. hart_step s_rel_swap i. apply bsteps_refl. }
  assert (∀ c, bsteps step 2 (mk_word 1 c (<[i := RelOwn]> pcs)) (mk_word 0 (-1) (<[i := Out]> pcs))) as H2.
  { intros c0. hart_step s_rel_own i. apply H1. }
  assert (bsteps step 3 (mk_word 1 (Z.of_nat i) (<[i := RelCpuid]> pcs)) (mk_word 0 (-1) (<[i := Out]> pcs))) as H3.
  { hart_step s_rel_cpuid i. rewrite Z.eqb_refl. apply H2. }
  assert (bsteps step 4 (mk_word 1 (Z.of_nat i) (<[i := RelLocked]> pcs)) (mk_word 0 (-1) (<[i := Out]> pcs))) as H4.
  { hart_step s_rel_locked i. apply H3. }
  assert (bsteps step 5 (mk_word 1 (Z.of_nat i) (<[i := Crit]> pcs)) (mk_word 0 (-1) (<[i := Out]> pcs))) as H5.
  { hart_step s_leave i. apply H4. }
  assert (∀ c, bsteps step 6 (mk_word 1 c (<[i := AcqOwn]> pcs)) (mk_word 0 (-1) (<[i := Out]> pcs))) as H6.
  { intros c0. hart_step s_acq_own i. apply H5. }
  assert (∀ n c' w', (n ≤ 6)%nat → bsteps step n (mk_word 1 c (<[i := p]> pcs)) (mk_word 0 c' w') →
    bsteps step 6 (mk_word 1 c pcs) (mk_word 0 c' w')) as Hfin.
  { intros n c' w' Hn Hs. rewrite list_insert_id in Hs by done. by eapply bsteps_weaken. }
  destruct p; try done; try rewrite Ho in * by done; eexists; (eapply Hfin; [|eauto; apply H1]; lia).
Qed.

(** With the lock free, a hart on its way in needs at most four steps of its own. *)
Lemma enter_steps w i p :
  spin_inv w → w_pcs w !! i = Some p → inside p = false → w_locked w = 0 →
  ∃ w', bsteps step 4 w w' ∧ w_pcs w' !! i = Some Crit.
Proof.
  intros HI Hi Hp Hl. assert (i < length (w_pcs w))%nat as Hlen by (by eapply lookup_lt_Some).
  assert (p ≠ Dead) as Hd by (intros ->; by apply (si_alive _ HI i)).
  pose proof (si_other _ HI i p Hi) as Ho. destruct w as [l c pcs]. simpl in *. subst l.
  exists (mk_word 1 (Z.of_nat i) (<[i := Crit]> pcs)). split; [|simpl; by apply list_lookup_insert_eq].
  assert (∀ c, bsteps step 1 (mk_word 1 c (<[i := AcqOwn]> pcs)) (mk_word 1 (Z.of_nat i) (<[i := Crit]> pcs))) as H1.
  { intros c0. hart_step s_acq_own i. apply bsteps_refl. }
  assert (bsteps step 2 (mk_word 0 c (<[i := AcqSwap]> pcs)) (mk_word 1 (Z.of_nat i) (<[i := Crit]> pcs))) as H2.
  { hart_step s_acq_swap i. apply H1. }
  assert (bsteps step 3 (mk_word 0 c (<[i := AcqLocked]> pcs)) (mk_word 1 (Z.of_nat i) (<[i := Crit]> pcs))) as H3.
  { hart_step s_acq_locked i. apply H2. }
  assert (∀ n w', (n ≤ 4)%nat → bsteps step n (mk_word 0 c (<[i := p]> pcs)) w' → bsteps step 4 (mk_word 0 c pcs) w') as Hfin.
  { intros n w' Hn Hs. rewrite list_insert_id in Hs by done. by eapply bsteps_weaken. }
  destruct p; try done.
  - eapply bsteps_l; [by apply (s_enter _ i)|apply H3].
  - eapply (Hfin 3%nat); [lia|exact H3].
  - eapply (Hfin 3%nat); [lia|]. hart_step s_acq_cpuid i. rewrite (proj2 (Z.eqb_neq _ _)) by (by apply Ho). apply H2.
  - eapply (Hfin 2%nat); [lia|exact H2].
Qed.

(** ** Claims *)

(** C4: mutual exclusion.  However [n] harts interleave their calls of
    [spinlock_acquire] and [spinlock_release], at most one of them is between the
    successful swap of acquire and the end of release. *)
Theorem spinlock_mutual_exclusion (n : nat) (w : word) (i j : nat) (p q : pc) :
  rtc step (w_init n) w → w_pcs w !! i = Some p → w_pcs w !! j = Some q →
  inside p = true → inside q = true → i = j.
Proof. intros H. by apply (si_excl _ (spin_reach_inv n w H)). Qed.

Lemma spinlock_mutual_exclusion_witness :
  ∃ w, rtc step (w_init 2) w ∧ w_pcs w !! 1%nat = Some Crit ∧ (1 = 1)%nat.
Proof.
  set (w := mk_word 1 1 [Out; Crit]).
  assert (rtc step (w_init 2) w) as Hr.
  { eapply rtc_l; [by apply (s_enter _ 1)|]. eapply rtc_l; [by apply (s_acq_locked _ 1)|].
    eapply rtc_l; [by apply (s_acq_swap _ 1)|]. eapply rtc_l; [by apply (s_acq_own _ 1)|].
    apply rtc_refl. }
  exists w. split; [exact Hr|]. split; [reflexivity|].
  apply (spinlock_mutual_exclusion 2 w 1 1 Crit Crit Hr); reflexivity.
Defined.

(** C5: no hart that pairs its calls reaches the panics of the two functions
    ("double acquire detected", "release"), although [spinlock_holding] reads
    [locked] and [cpuid] in two separate accesses. *)
Theorem spinlock_no_spurious_panic (n : nat) (w : word) (i : nat) :
  rtc step (w_init n) w → w_pcs w !! i ≠ Some Dead.
Proof. intros H. apply (si_alive _ (spin_reach_inv n w H)). Qed.

Lemma spinlock_no_spurious_panic_witness :
  ∃ w, rtc step (w_init 2) w ∧ w_pcs w !! 0%nat ≠ Some Dead.
Proof.
  set (w := mk_word 1 1 [AcqCpuid; Crit]).
  assert (rtc step (w_init 2) w) as Hr.
  { eapply rtc_l; [by apply (s_enter _ 1)|]. eapply rtc_l; [by apply (s_acq_locked _ 1)|].
    eapply rtc_l; [by apply (s_acq_swap _ 1)|]. eapply rtc_l; [by apply (s_acq_own _ 1)|].
    eapply rtc_l; [by apply (s_enter _ 0)|]. eapply rtc_l; [by apply (s_acq_locked _ 0)|].
    apply rtc_refl. }
  exists w. split; [exact Hr|]. apply (spinlock_no_spurious_panic 2 w 0 Hr).
Defined.

(** C6: the sequential operations are runs of the protocol: a successful
    [spinlock_acquire] of hart [i] takes the lock word from where it is to the state
    after the protocol steps up to the critical section, and a successful
    [spinlock_release] takes it back out. *)
Theorem spinlock_refines_protocol (lk : lockid) (s s' : kstate) (pcs : list pc) (i : nat) :
  h_id (k_hart s) = Z.of_nat i →
  (pcs !! i = Some Out → spinlock_acquire lk s = Ok (tt, s') →
     rtc step (word_of lk s pcs) (word_of lk s' (<[i := Crit]> pcs))) ∧
  (pcs !! i = Some Crit → spinlock_release lk s = Ok (tt, s') →
     rtc step (word_of lk s pcs) (word_of lk s' (<[i := Out]> pcs))).
Proof. intros Hid. split; intros; [by apply acquire_steps|by apply release_steps]. Qed.

Lemma spinlock_refines_protocol_witness :
  let s := zero_state (image_syms 3) in
  rtc step (word_of LkWait s [Out]) (word_of LkWait (acq LkWait s) [Crit]).
Proof.
  apply (proj1 (spinlock_refines_protocol LkWait (zero_state (image_syms 3))
    (acq LkWait (zero_state (image_syms 3))) [Out] 0 eq_refl)); reflexivity.
Defined.

(** C7: progress.  In every reachable state every hart can be scheduled into the critical
    section, and ten steps are enough: at most six for whoever is inside to complete its
    release, at most four for the hart to enter. No state of the protocol is a deadlock. *)
Theorem spinlock_progress (n : nat) (w : word) (i : nat) :
  rtc step (w_init n) w → (i < length (w_pcs w))%nat →
  ∃ w', bsteps step 10 w w' ∧ w_pcs w' !! i = Some Crit.
Proof.
  intros Hr Hi. pose proof (spin_reach_inv n w Hr) as HI. pose proof (spin_reach_busy n w Hr) as HB.
  assert (∃ w1, bsteps step 6 w w1 ∧ w_locked w1 = 0 ∧ length (w_pcs w1) = length (w_pcs w)) as (w1 & H1 & Hl & Hlen).
  { destruct (decide (w_locked w = 0)) as [E|E]; [exists w; by split; [apply bsteps_refl|]|].
    destruct (HB E) as (j & p & Hj & Hp). destruct (leave_steps w j p HI Hj Hp) as [c Hc].
    eexists. split; [exact Hc|]. split; [done|]. simpl. by rewrite length_insert. }
  assert (spin_inv w1) as HI1 by (eapply (spin_reach_inv n); etrans; [exact Hr|apply rtc_bsteps; eauto]).
  destruct (lookup_lt_is_Some_2 (w_pcs w1) i) as [p Hp]; [lia|].
  assert (inside p = false) as Hin by (destruct (inside p) eqn:E; [specialize (si_locked _ HI1 i p Hp E); lia|done]).
  destruct (enter_steps w1 i p HI1 Hp Hin Hl) as (w2 & H2 & Hc). exists w2. split; [|done].
  by apply (bsteps_trans 6 4 w w1 w2).
Qed.

Lemma spinlock_progress_witness :
  ∃ w w', rtc step (w_init 2) w ∧ w_pcs w !! 1%nat = Some Crit ∧ bsteps step 10 w w' ∧ w_pcs w' !! 0%nat = Some Crit.
Proof.
  set (w := mk_word 1 1 [Out; Crit]).
  assert (rtc step (w_init 2) w) as Hr.
  { eapply rtc_l; [by apply (s_enter _ 1)|]. eapply rtc_l; [by apply (s_acq_locked _ 1)|].
    eapply rtc_l; [by apply (s_acq_swap _ 1)|]. eapply rtc_l; [by apply (s_acq_own _ 1)|].
    apply rtc_refl. }
  destruct (spinlock_progress 2 w 0 Hr) as (w' & Hs & Hc); [simpl; lia|].
  exists w, w'. split; [exact Hr|]. split; [reflexivity|]. split; [exact Hs|exact Hc].
Defined.
