(* ===== verification/Str.v ===== *)
(** * Memory and string routines (kernel/lib/str.c)

    The [mem*] routines work on the byte-addressed memory, so that overlapping
    ranges are real.  The string routines work on character arrays: a pointer is
    the list of bytes from it to the end of its array, and reading or writing
    past the end gives [None]. *)

From S2P Require Import Prelude Bytes Kernel.

(** ** Operations *)

Fixpoint memset_loop (m : mem) (dst c : Z) (n : nat) : mem :=
  match n with
  | O => m
  | S n => memset_loop (store8 m dst c) (dst + 1) c n
  end.

Definition memset (m : mem) (dst c n : Z) : mem := memset_loop m dst c (Z.to_nat (u32 n)).

Fixpoint memcmp_loop (m : mem) (s1 s2 : Z) (n : nat) : Z :=
  match n with
  | O => 0
  | S n =>
      if load8 m s1 =? load8 m s2 then memcmp_loop m (s1 + 1) (s2 + 1) n
      else load8 m s1 - load8 m s2
  end.

Definition memcmp (m : mem) (v1 v2 n : Z) : Z := memcmp_loop m v1 v2 (Z.to_nat (u32 n)).

(** [while(n-- > 0) *d++ = *s++;] *)
Fixpoint copy_forward (m : mem) (d s : Z) (n : nat) : mem :=
  match n with
  | O => m
  | S n => copy_forward (<[d := load8 m s]> m) (d + 1) (s + 1) n
  end.

(** [while(n-- > 0) *--d = *--s;] *)
Fixpoint copy_backward (m : mem) (d s : Z) (n : nat) : mem :=
  match n with
  | O => m
  | S n => copy_backward (<[d - 1 := load8 m (s - 1)]> m) (d - 1) (s - 1) n
  end.

Definition memmove (m : mem) (dst src n : Z) : mem :=
  let n := u32 n in
  if n =? 0 then m
  else if (src <? dst) && (dst <? src + n)
  then copy_backward m (dst + n) (src + n) (Z.to_nat n)
  else copy_forward m dst src (Z.to_nat n).

Definition memcpy (m : mem) (dst src n : Z) : mem := memmove m dst src n.

Fixpoint strncmp (p q : list Z) (n : nat) : option Z :=
  match n with
  | O => Some 0
  | S n =>
      match p, q with
      | a :: p, b :: q =>
          if negb (a =? 0) && (a =? b) then strncmp p q n else Some (u8 a - u8 b)
      | _, _ => None
      end
  end.

(** [while(n-- > 0) *s++ = 0;] *)
Fixpoint zero_fill (s : list Z) (n : nat) : option (list Z) :=
  match n, s with
  | O, _ => Some s
  | S n, _ :: s => s' ← zero_fill s n; Some (0 :: s')
  | S _, [] => None
  end.

Fixpoint strncpy (s t : list Z) (n : nat) : option (list Z) :=
  match n with
  | O => Some s
  | S n =>
      match s, t with
      | _ :: s, b :: t =>
          if b =? 0 then s' ← zero_fill s n; Some (b :: s')
          else s' ← strncpy s t n; Some (b :: s')
      | _, _ => None
      end
  end.

(** [while(--n > 0 && ( *s++ = *t++) != 0); *s = 0;] with [n > 0]. *)
Fixpoint safestrcpy_loop (s t : list Z) (n : nat) : option (list Z) :=
  match n, s with
  | O, _ => None
  | _, [] => None
  | S O, _ :: s => Some (0 :: s)
  | S n, c :: s =>
      match t with
      | [] => None
      | b :: t =>
          if b =? 0 then match s with [] => None | _ :: s => Some (b :: 0 :: s) end
          else s' ← safestrcpy_loop s t n; Some (b :: s')
      end
  end.

Definition safestrcpy (s t : list Z) (n : Z) : option (list Z) :=
  if n <=? 0 then Some s else safestrcpy_loop s t (Z.to_nat n).

Fixpoint strlen (s : list Z) : option Z :=
  match s with
  | [] => None
  | c :: s => if c =? 0 then Some 0 else n ← strlen s; Some (n + 1)
  end.

(** ** Reference definitions *)

(** The C string an array holds, cut at [n] characters. *)
Fixpoint cstr (n : nat) (l : list Z) : list Z :=
  match n, l with
  | S n, c :: l => if c =? 0 then [] else c :: cstr n l
  | _, _ => []
  end.

(** ** Lemmas *)

Lemma memset_loop_bytes m dst c n :
  memset_loop m dst c n = store_bytes m dst (replicate n (u8 c)).
Proof. revert m dst. induction n as [|n IH]; intros m dst; simpl; [done|apply IH]. Qed.

Lemma memset_bytes m dst c n :
  0 ≤ n < 2^32 → memset m dst c n = store_bytes m dst (replicate (Z.to_nat n) (u8 c)).
Proof. intros Hn. unfold memset. rewrite u32_small by done. apply memset_loop_bytes. Qed.

Lemma load8_copy_forward m d s n a :
  ¬ (s < d < s + Z.of_nat n) →
  load8 (copy_forward m d s n) a =
    if decide (d ≤ a < d + Z.of_nat n) then load8 m (s + (a - d)) else load8 m a.
Proof.
  revert m d s. induction n as [|n IH]; intros m d s Hn; simpl.
  - by rewrite decide_False by lia.
  - rewrite IH by lia. destruct (decide (a = d)) as [->|].
    + rewrite decide_False, decide_True, load8_insert_eq by lia. f_equal. lia.
    + repeat case_decide; try lia.
      * rewrite load8_insert_ne by lia. f_equal. lia.
      * by rewrite load8_insert_ne by lia.
Qed.

Lemma load8_copy_backward m d s n a :
  s ≤ d →
  load8 (copy_backward m d s n) a =
    if decide (d - Z.of_nat n ≤ a < d) then load8 m (s + (a - d)) else load8 m a.
Proof.
  revert m d s. induction n as [|n IH]; intros m d s Hn; simpl.
  - by rewrite decide_False by lia.
  - rewrite IH by lia. destruct (decide (a = d - 1)) as [->|].
    + rewrite decide_False, decide_True, load8_insert_eq by lia. f_equal. lia.
    + repeat case_decide; try lia.
      * rewrite load8_insert_ne by lia. f_equal. lia.
      * by rewrite load8_insert_ne by lia.
Qed.

Lemma load8_memmove m dst src n a :
  0 ≤ n < 2^32 →
  load8 (memmove m dst src n) a =
    if decide (dst ≤ a < dst + n) then load8 m (src + (a - dst)) else load8 m a.
Proof.
  intros Hn. unfold memmove. rewrite u32_small by done. destruct (n =? 0) eqn:E0; zbool.
  { by rewrite decide_False by lia. }
  destruct (_ && _) eqn:E; zbool.
  - rewrite load8_copy_backward, Z2Nat.id by lia.
    repeat case_decide; try lia; try done. f_equal. lia.
  - rewrite load8_copy_forward by (rewrite Z2Nat.id; lia). by rewrite Z2Nat.id by lia.
Qed.

Lemma load_bytes_memmove m dst src n :
  0 ≤ n < 2^32 →
  load_bytes (memmove m dst src n) dst (Z.to_nat n) = load_bytes m src (Z.to_nat n).
Proof.
  intros Hn. apply list_eq. intros i. destruct (decide (i < Z.to_nat n)%nat) as [Hi|Hi].
  - rewrite !lookup_load_bytes, load8_memmove, decide_True by lia. do 2 f_equal. lia.
  - rewrite !lookup_ge_None_2; [done|rewrite length_load_bytes; lia..].
Qed.

Lemma cstr_length n l : (length (cstr n l) ≤ n)%nat.
Proof.
  revert l. induction n as [|n IH]; intros [|c l]; simpl; try lia.
  destruct (c =? 0); simpl; [lia|]. specialize (IH l). lia.
Qed.

(** [strncmp] decides equality of the strings. *)
Lemma strncmp_eq p q n r :
  Forall byte_ok p → Forall byte_ok q →
  strncmp p q n = Some r → (r = 0 ↔ cstr n p = cstr n q).
Proof.
  intros Hp. revert q n. induction Hp as [|a p Ha Hp IH]; intros [|b q] [|n] Hq H;
    simpl in *; simplify_eq; try done.
  inversion Hq as [|? ? Hb Hq']; subst. unfold byte_ok in *.
  destruct (a =? 0) eqn:Ea; simpl in H; zbool.
  - simplify_eq. rewrite !u8_small by lia. destruct (b =? 0) eqn:Eb; zbool.
    + subst. split; [done|lia].
    + split; [lia|done].
  - destruct (a =? b) eqn:Eab; zbool.
    + subst. rewrite (proj2 (Z.eqb_neq b 0)) by done. rewrite (IH q n Hq' H).
      split; [by intros ->|by intros [=]].
    + simplify_eq. rewrite !u8_small by lia. destruct (b =? 0) eqn:Eb; zbool.
      * split; [lia|done].
      * split; [lia|intros [=]; lia].
Qed.

(** [strncmp] stays inside the arrays when the first has [n] bytes or a NUL, and the
    second [n] bytes. *)
Lemma strncmp_total p q n :
  (n ≤ length p)%nat ∨ 0 ∈ p → (n ≤ length q)%nat → is_Some (strncmp p q n).
Proof.
  revert p q. induction n as [|n IH]; intros [|a p] [|b q] Hp Hq; simpl in *; try lia; eauto.
  - destruct Hp as [Hp|Hp]; [lia|by apply elem_of_nil in Hp].
  - destruct (negb (a =? 0) && (a =? b)) eqn:E; [|eauto]. zbool. apply IH; [|lia].
    destruct Hp as [Hp|Hp]; [left; lia|right]. apply elem_of_cons in Hp as [?|?]; [congruence|done].
Qed.

Lemma zero_fill_spec s n :
  (n ≤ length s)%nat → zero_fill s n = Some (replicate n 0 ++ drop n s).
Proof.
  revert s. induction n as [|n IH]; intros [|c s] Hl; simpl in *; try lia; try done.
  by rewrite IH by lia.
Qed.

(** [strncpy] writes the string, then NULs up to [n]. *)
Lemma strncpy_spec s t n :
  (n ≤ length s)%nat → (n ≤ length t)%nat ∨ 0 ∈ t →
  strncpy s t n = Some (cstr n t ++ replicate (n - length (cstr n t)) 0 ++ drop n s).
Proof.
  revert s t. induction n as [|n IH]; intros [|c s] [|b t] Hs Ht; simpl in *; try lia; try done.
  - destruct Ht as [Ht|Ht]; [lia|by apply elem_of_nil in Ht].
  - destruct (b =? 0) eqn:Eb; zbool.
    + subst. simpl. by rewrite zero_fill_spec by lia.
    + rewrite IH; simpl; [done|lia|]. destruct Ht as [Ht|Ht]; [left; lia|right].
      apply elem_of_cons in Ht as [?|?]; [lia|done].
Qed.

Lemma strlen_spec s n :
  strlen s = Some n → 0 ≤ n < Z.of_nat (length s) ∧ n = Z.of_nat (length (cstr (length s) s)).
Proof.
  revert n. induction s as [|c s IH]; intros n H; simpl in *; [done|].
  destruct (c =? 0); [simplify_eq; simpl; lia|].
  destruct (strlen s) as [k|] eqn:E; simpl in H; simplify_eq.
  destruct (IH k eq_refl). simpl. lia.
Qed.

(** ** Claims *)

(** [memmove] copies correctly also when the ranges overlap: afterwards every
    byte of the destination holds what the corresponding source byte held before
    the call, and every other byte is unchanged. *)
Theorem memmove_correct (m : mem) (dst src n a : Z) :
  0 ≤ n < 2^32 →
  load8 (memmove m dst src n) a =
    if decide (dst ≤ a < dst + n) then load8 m (src + (a - dst)) else load8 m a.
Proof. apply load8_memmove. Qed.

Lemma memmove_correct_witness :
  load8 (memmove (store_bytes ∅ 100 [1; 2; 3; 4]) 102 100 4) 104 = 3.
Proof.
  rewrite (memmove_correct (store_bytes ∅ 100 [1; 2; 3; 4]) 102 100 4 104) by lia. reflexivity.
Defined.

(** on arrays of at least [n] bytes, [strncmp] stays in bounds and returns 0
    exactly when the two C strings agree on their first [n] characters. *)
Theorem strncmp_decides (p q : list Z) (n : nat) :
  Forall byte_ok p → Forall byte_ok q → (n ≤ length p)%nat → (n ≤ length q)%nat →
  ∃ r, strncmp p q n = Some r ∧ (r = 0 ↔ cstr n p = cstr n q).
Proof.
  intros Hp Hq Lp Lq. destruct (strncmp_total p q n (or_introl Lp) Lq) as [r Hr].
  exists r. split; [done|by eapply strncmp_eq].
Qed.

Lemma strncmp_decides_witness :
  ∃ r, strncmp [97; 98; 0; 7] [97; 98; 0; 9] 4 = Some r ∧
    (r = 0 ↔ cstr 4 [97; 98; 0; 7] = cstr 4 [97; 98; 0; 9]).
Proof.
  apply (strncmp_decides [97; 98; 0; 7] [97; 98; 0; 9] 4);
    [repeat constructor; unfold byte_ok; lia..|simpl; lia|simpl; lia].
Defined.
