(* ===== verification/Pmem.v ===== *)
(** * Physical page allocator (kernel/mem/pmem.c)

    Two regions, for the kernel and for user pages; the free pages of a region
    form a linked list whose links are stored in the first eight bytes of the
    pages themselves. *)

From S2P Require Import Prelude Bytes Kernel Lock.

(** ** Operations *)

(** [&kern_region] or [&user_region]. *)
Definition get_region (in_kernel : bool) (s : kstate) : alloc_region :=
  if in_kernel then k_kern s else k_user s.

Definition put_region (in_kernel : bool) (r : alloc_region) (s : kstate) : kstate :=
  if in_kernel then set_kern r s else set_user r s.

Definition region_lock (in_kernel : bool) : lockid :=
  if in_kernel then LkKernRegion else LkUserRegion.

Definition page_bad (r : alloc_region) (pa : Z) : bool :=
  negb (pa mod PGSIZE =? 0) || (pa <? r_begin r) || (r_end r <=? pa).

Definition region_free_page (k : bool) (pa : Z) : K unit :=
  r ← gets (get_region k);
  (if page_bad r pa then panic "region_free_page: bad page" else mret tt);;
  spinlock_acquire (region_lock k);;
  modify (λ s, set_mem (store64 (k_mem s) pa (r_list_head (get_region k s))) s);;
  modify (λ s, let r := get_region k s in
    put_region k (mk_region (r_begin r) (r_end r) (u32 (r_allocable r + 1)) pa) s);;
  spinlock_release (region_lock k).

Definition region_alloc_page (k : bool) : K Z :=
  spinlock_acquire (region_lock k);;
  n ← gets (λ s, r_list_head (get_region k s));
  pa ← (if n =? 0 then mret 0
        else
          modify (λ s, let r := get_region k s in
            put_region k (mk_region (r_begin r) (r_end r) (u32 (r_allocable r - 1))
              (load64 (k_mem s) n)) s);;
          mret n);
  spinlock_release (region_lock k);;
  mret pa.

Definition init_region (k : bool) (b e : Z) (name : string) : K unit :=
  modify (put_region k (mk_region b e 0 0));;
  spinlock_init (region_lock k) name.

(** The loop of [freerange_region] from page [p]. *)
Fixpoint freerange_from (fuel : nat) (k : bool) (p pa_end : Z) : K unit :=
  match fuel with
  | O => no_fuel
  | S fuel =>
      if u64 (p + PGSIZE) <=? pa_end then
        region_free_page k p;; freerange_from fuel k (u64 (p + PGSIZE)) pa_end
      else mret tt
  end.

Definition freerange_region (k : bool) (pa_start pa_end : Z) : K unit :=
  freerange_from (S (Z.to_nat ((pa_end - pa_start) / PGSIZE))) k (PG_ROUND_UP pa_start) pa_end.

Definition pmem_init : K unit :=
  a ← gets (λ s, ALLOC_BEGIN (k_syms s));
  let b := 0x88000000 in
  (if b <=? a then panic "pmem_init: bad ALLOC range" else mret tt);;
  let total_bytes := u64 (b - a) in
  (if negb (total_bytes mod PGSIZE =? 0)
   then panic "pmem_init: ALLOC range not page-aligned" else mret tt);;
  let total_pages := total_bytes / PGSIZE in
  (if total_pages <? KERNEL_PAGES
   then panic "pmem_init: ALLOC range too small for kernel pages" else mret tt);;
  let kern_bytes := u64 (KERNEL_PAGES * PGSIZE) in
  let mid := u64 (a + kern_bytes) in
  init_region true a mid "pmem_k";;
  init_region false mid b "pmem_u";;
  rk ← gets (get_region true);
  freerange_region true (r_begin rk) (r_end rk);;
  ru ← gets (get_region false);
  freerange_region false (r_begin ru) (r_end ru).

Definition pmem_alloc (in_kernel : bool) : K Z := region_alloc_page in_kernel.

Definition pmem_free (page : Z) (in_kernel : bool) : K unit :=
  r ← gets (get_region in_kernel);
  (if page_bad r page then panic "pmem_free: invalid page or wrong region" else mret tt);;
  region_free_page in_kernel page.

(** ** Abstract view: the free pages of each region *)

(** [l] lists the free pages reachable from [head] through memory. *)
Fixpoint free_list (m : mem) (head : Z) (l : list Z) : Prop :=
  match l with
  | [] => head = 0
  | p :: l => head = p ∧ free_list m (load64 m p) l
  end.

Definition page_in (r : alloc_region) (p : Z) : Prop :=
  p mod PGSIZE = 0 ∧ r_begin r ≤ p < r_end r.

Record region_ok (m : mem) (r : alloc_region) (l : list Z) : Prop := {
  ro_list : free_list m (r_list_head r) l;
  ro_nodup : NoDup l;
  ro_pages : Forall (page_in r) l;
  ro_count : r_allocable r = Z.of_nat (length l);
  ro_bounds : 0 < r_begin r ∧ r_begin r ≤ r_end r ≤ PHYSTOP }.

(** The allocator with [kl] free in the kernel region and [ul] in the user region. *)
Record pmem_ok (s : kstate) (kl ul : list Z) : Prop := {
  po_kern : region_ok (k_mem s) (k_kern s) kl;
  po_user : region_ok (k_mem s) (k_user s) ul;
  po_sep : r_end (k_kern s) ≤ r_begin (k_user s) }.

Definition pick {A} (k : bool) (a b : A) : A := if k then a else b.

(** The locks of the allocator are free and the hart is in a consistent state. *)
Record pmem_sync (s : kstate) : Prop := {
  ps_hart : hart_stable (k_hart s);
  ps_kern : lock_idle LkKernRegion s;
  ps_user : lock_idle LkUserRegion s }.

(** Pages [p, p + PGSIZE, ...], [n] of them, the last one first: the order
    [freerange_region] leaves them in. *)
Fixpoint pages_down (p : Z) (n : nat) : list Z :=
  match n with
  | O => []
  | S n => p + Z.of_nat n * PGSIZE :: pages_down p n
  end.

(** ** Lemmas: memory and the free list *)

Lemma page_aligned_apart p q : p mod PGSIZE = 0 → q mod PGSIZE = 0 → p ≠ q →
  p + PGSIZE ≤ q ∨ q + PGSIZE ≤ p.
Proof. unfold PGSIZE. intros Hp Hq Hne. pose proof (Z.div_mod p 4096). pose proof (Z.div_mod q 4096). lia. Qed.

Lemma free_list_ext m m' head l :
  (∀ p, p ∈ l → load64 m' p = load64 m p) → free_list m head l → free_list m' head l.
Proof.
  revert head. induction l as [|p l IH]; intros head H; simpl; [done|].
  intros [-> Hl]. split; [done|]. rewrite H by left. apply IH; [|done].
  intros q Hq. apply H. by right.
Qed.

Lemma region_ok_ext m m' r l :
  (∀ p, p ∈ l → load64 m' p = load64 m p) → region_ok m r l → region_ok m' r l.
Proof. intros H []. split; try done. by eapply free_list_ext. Qed.

(** A store inside a page that is not free does not disturb the free list. *)
Lemma region_ok_store m r l q a v :
  region_ok m r l → q mod PGSIZE = 0 → q ∉ l → q ≤ a ≤ q + PGSIZE - 8 →
  region_ok (store64 m a v) r l.
Proof.
  intros Hr Hq Hni Ha. apply region_ok_ext with m; [|done].
  intros p Hp. apply load64_store64_ne.
  pose proof (ro_pages _ _ _ Hr) as HF. rewrite Forall_forall in HF.
  destruct (HF p Hp) as [Hal _]. unfold PGSIZE in *.
  assert (p ≠ q) by (intros ->; done).
  pose proof (page_aligned_apart p q Hal Hq ltac:(done)). unfold PGSIZE in *. lia.
Qed.

Lemma pages_down_elem p n q :
  q ∈ pages_down p n ↔ ∃ i, (i < n)%nat ∧ q = p + Z.of_nat i * PGSIZE.
Proof.
  induction n as [|n IH]; simpl.
  - split; [by intros ?%elem_of_nil|]. intros (i & Hi & _). lia.
  - rewrite elem_of_cons, IH. split.
    + intros [->|(i & Hi & ->)]; [by exists n; split; [lia|]|exists i; split; [lia|done]].
    + intros (i & Hi & ->). destruct (decide (i = n)) as [->|]; [by left|].
      right. exists i. split; [lia|done].
Qed.

Lemma pages_down_length p n : length (pages_down p n) = n.
Proof. induction n; simpl; lia. Qed.

Lemma pages_down_NoDup p n : NoDup (pages_down p n).
Proof.
  induction n as [|n IH]; simpl; constructor; [|done].
  rewrite pages_down_elem. intros (i & Hi & He). unfold PGSIZE in He. lia.
Qed.

(** ** Lemmas: runs of the operations *)

Lemma pmem_sync_lock k s : pmem_sync s → hart_stable (k_hart s) ∧ lock_idle (region_lock k) s.
Proof. intros []. split; [done|by destruct k]. Qed.

Lemma region_alloc_run k s :
  pmem_sync s →
  region_alloc_page k s =
    let r := get_region k s in let n := r_list_head r in
    if n =? 0 then Ok (0, s)
    else Ok (n, put_region k (mk_region (r_begin r) (r_end r) (u32 (r_allocable r - 1))
      (load64 (k_mem s) n)) s).
Proof.
  intros Hs. destruct (pmem_sync_lock k s Hs) as [Hst Hid]. unfold region_alloc_page.
  run (acquire_run _ s (lock_idle_unlocked _ _ Hid)). mrun.
  assert (get_region k (acq (region_lock k) s) = get_region k s) as Hg by (by destruct k).
  rewrite Hg. cbv zeta.
  destruct (r_list_head (get_region k s) =? 0) eqn:E.
  - erewrite bind_ok; [|by apply release_after]. by destruct s.
  - erewrite bind_ok; [|apply release_after; [done..|by destruct k]].
    mrun. by destruct k.
Qed.

Lemma region_free_run k pa s :
  pmem_sync s → page_in (get_region k s) pa →
  region_free_page k pa s =
    let r := get_region k s in
    Ok (tt, put_region k (mk_region (r_begin r) (r_end r) (u32 (r_allocable r + 1)) pa)
      (set_mem (store64 (k_mem s) pa (r_list_head r)) s)).
Proof.
  intros Hs [Hal Hb]. destruct (pmem_sync_lock k s Hs) as [Hst Hid].
  unfold region_free_page, page_bad. mrun. rewrite Hal. zdecide.
  run (acquire_run _ s (lock_idle_unlocked _ _ Hid)). mrun.
  erewrite release_after; [|done..|by destruct k]. by destruct k.
Qed.

(** ** Allocation and release against the abstract view *)

Lemma pmem_alloc_none k s kl ul :
  pmem_sync s → pmem_ok s kl ul → pick k kl ul = [] → pmem_alloc k s = Ok (0, s).
Proof.
  intros Hs [Hk Hu _] He. unfold pmem_alloc. rewrite region_alloc_run by done. cbv zeta.
  destruct k; simpl in *; subst; [pose proof (ro_list _ _ _ Hk) as H|pose proof (ro_list _ _ _ Hu) as H];
    simpl in H; by rewrite H.
Qed.

Lemma pages_bound l b :
  0 ≤ b → NoDup l → (∀ p, p ∈ l → p mod PGSIZE = 0 ∧ 0 ≤ p < b * PGSIZE) →
  Z.of_nat (length l) ≤ b.
Proof.
  intros Hb Hnd Hin.
  assert (NoDup ((λ p, p / PGSIZE) <$> l)) as Hnd'.
  { apply NoDup_fmap_2_strong; [|done]. intros x y Hx Hy He.
    destruct (Hin x Hx) as [? _], (Hin y Hy) as [? _]. unfold PGSIZE in *.
    pose proof (Z.div_mod x 4096). pose proof (Z.div_mod y 4096). lia. }
  assert (length ((λ p, (p / PGSIZE)%Z) <$> l) ≤ length (seqZ 0 b))%nat as Hle.
  { apply submseteq_length, NoDup_submseteq; [done|]. intros x Hx.
    apply list_elem_of_fmap in Hx as (p & -> & Hp). destruct (Hin p Hp) as [_ Hr].
    apply elem_of_seqZ. unfold PGSIZE in *. split; [apply Z.div_pos; lia|].
    apply Z.div_lt_upper_bound; lia. }
  rewrite length_fmap, length_seqZ in Hle. lia.
Qed.

Lemma region_count_bound m r l : region_ok m r l → Z.of_nat (length l) ≤ 2^20.
Proof.
  intros [_ Hnd HF _ Hb]. apply pages_bound; [done|done|].
  intros p Hp. rewrite Forall_forall in HF. destruct (HF p Hp) as [? ?].
  unfold PHYSTOP, KERNEL_BASE, PGSIZE in *. lia.
Qed.

Lemma region_ok_pop m r p l :
  region_ok m r (p :: l) →
  region_ok m (mk_region (r_begin r) (r_end r) (u32 (r_allocable r - 1)) (load64 m p)) l.
Proof.
  intros Hr. pose proof (region_count_bound _ _ _ Hr) as Hn.
  destruct Hr as [[_ Hl] [_ Hnd]%NoDup_cons HF Hc Hb]. simpl in *. split; simpl; try done.
  - by inversion HF.
  - rewrite Hc, u32_small by lia. lia.
Qed.

Lemma region_ok_push m r p l :
  region_ok m r l → page_in r p → p ∉ l →
  region_ok (store64 m p (r_list_head r))
    (mk_region (r_begin r) (r_end r) (u32 (r_allocable r + 1)) p) (p :: l).
Proof.
  intros Hr Hp Hni. pose proof (region_count_bound _ _ _ Hr) as Hn.
  pose proof (region_ok_store m r l p p (r_list_head r) Hr (proj1 Hp) Hni
    ltac:(unfold PGSIZE; lia)) as Hr'.
  assert (0 ≤ r_list_head r < 2^64) as Hh.
  { destruct Hr as [Hl _ HF _ Hb]. destruct l as [|q l]; simpl in Hl; [lia|].
    destruct Hl as [-> _]. inversion HF as [|? ? [_ ?] _]; subst.
    unfold PHYSTOP, KERNEL_BASE in Hb. lia. }
  destruct Hr as [Hl Hnd HF Hc Hb]. split; simpl.
  - split; [done|]. rewrite load64_store64_eq by done. apply Hr'.
  - by constructor.
  - by constructor.
  - rewrite Hc, u32_small by lia. lia.
  - done.
Qed.

(** The page of a region is not free in the other one. *)
Lemma page_in_other s kl ul k p :
  pmem_ok s kl ul → page_in (get_region k s) p → p ∉ pick (negb k) kl ul.
Proof.
  intros [Hk Hu Hsep] [_ Hp] Hin.
  destruct k; simpl in *;
    [pose proof (ro_pages _ _ _ Hu) as HF|pose proof (ro_pages _ _ _ Hk) as HF];
    rewrite Forall_forall in HF; destruct (HF p Hin) as [_ ?]; lia.
Qed.

Lemma pmem_alloc_some k s kl ul p l :
  pmem_sync s → pmem_ok s kl ul → pick k kl ul = p :: l →
  ∃ r, pmem_alloc k s = Ok (p, put_region k r s) ∧
    r_begin r = r_begin (get_region k s) ∧ r_end r = r_end (get_region k s) ∧
    page_in r p ∧ (p ∉ l) ∧
    pmem_ok (put_region k r s) (pick k l kl) (pick k ul l).
Proof.
  intros Hs Hp He. unfold pmem_alloc. rewrite region_alloc_run by done. cbv zeta.
  assert (region_ok (k_mem s) (get_region k s) (p :: l)) as Hr.
  { rewrite <- He. destruct Hp. by destruct k. }
  pose proof (ro_list _ _ _ Hr) as [Hh _]. pose proof (ro_pages _ _ _ Hr) as HF.
  inversion HF as [|? ? Hpi _]; subst x l0. pose proof (ro_nodup _ _ _ Hr) as [Hni _]%NoDup_cons.
  pose proof (ro_bounds _ _ _ Hr) as Hb. pose proof Hpi as [_ Hrng].
  rewrite Hh. zdecide. eexists. split; [done|].
  split_and!; [done..|].
  pose proof (region_ok_pop _ _ _ _ Hr) as Hpop. destruct Hp as [Hk Hu Hsep].
  by destruct k; split.
Qed.

(** Region [k] after page [p] was pushed on its free list. *)
Definition pushed (k : bool) (p : Z) (s : kstate) : kstate :=
  let r := get_region k s in
  put_region k (mk_region (r_begin r) (r_end r) (u32 (r_allocable r + 1)) p)
    (set_mem (store64 (k_mem s) p (r_list_head r)) s).

Lemma pmem_ok_push k s kl ul p :
  pmem_ok s kl ul → page_in (get_region k s) p → p ∉ pick k kl ul →
  pmem_ok (pushed k p s) (if k then p :: kl else kl) (if k then ul else p :: ul).
Proof.
  intros Hp Hin Hni. pose proof (page_in_other _ _ _ _ _ Hp Hin) as Hno.
  destruct Hp as [Hk Hu Hsep].
  destruct k; simpl in *; split; simpl; try done.
  - by apply region_ok_push.
  - apply (region_ok_store _ _ _ p); [done|apply Hin|done|unfold PGSIZE; lia].
  - apply (region_ok_store _ _ _ p); [done|apply Hin|done|unfold PGSIZE; lia].
  - by apply region_ok_push.
Qed.

Lemma pmem_free_some k s p :
  pmem_sync s → page_in (get_region k s) p → pmem_free p k s = Ok (tt, pushed k p s).
Proof.
  intros Hs Hin. unfold pmem_free, page_bad. pose proof Hin as [Hal Hrng].
  mrun. rewrite Hal. zdecide. by rewrite region_free_run by done.
Qed.

Lemma pushed_sync k p s : pmem_sync s → pmem_sync (pushed k p s).
Proof. intros [? [??] [??]]. destruct k; split; first [done|by eexists]. Qed.

Lemma pushed_bounds k p s :
  r_begin (get_region k (pushed k p s)) = r_begin (get_region k s) ∧
  r_end (get_region k (pushed k p s)) = r_end (get_region k s).
Proof. by destruct k. Qed.

Lemma pmem_free_bad k s p :
  ¬ page_in (get_region k s) p →
  pmem_free p k s = Panic "pmem_free: invalid page or wrong region".
Proof.
  intros Hn. unfold pmem_free, page_bad. mrun.
  destruct (_ || _) eqn:E; [done|]. zbool. destruct Hn. by split; [|lia].
Qed.

(** ** Initialisation *)

(** [freerange_region] turns a region whose first [i] pages are free into one
    with [i + n] free pages. *)
Lemma freerange_run k n : ∀ i s kl ul fuel,
  let b := r_begin (get_region k s) in
  pmem_sync s → pmem_ok s kl ul → b mod PGSIZE = 0 →
  r_end (get_region k s) = b + Z.of_nat (i + n) * PGSIZE →
  pick k kl ul = pages_down b i → (n < fuel)%nat →
  ∃ s', freerange_from fuel k (b + Z.of_nat i * PGSIZE) (r_end (get_region k s)) s = Ok (tt, s') ∧
    pmem_sync s' ∧ r_begin (get_region k s') = b ∧ k_syms s' = k_syms s ∧
    get_region (negb k) s' = get_region (negb k) s ∧
    pmem_ok s' (if k then pages_down b (i + n) else kl) (if k then ul else pages_down b (i + n)).
Proof.
  induction n as [|n IH]; intros i s kl ul fuel b Hs Hp Hb He Hl Hf;
    (destruct fuel as [|fuel]; [lia|]); simpl freerange_from; mrun.
  all: assert (0 < b ∧ b ≤ r_end (get_region k s) ≤ PHYSTOP) as Hbd
    by (unfold b; destruct Hp as [Hk Hu _]; by destruct k; [apply Hk|apply Hu]).
  all: unfold PHYSTOP, KERNEL_BASE, PGSIZE in *; rewrite u64_small by lia.
  - zdecide. exists s. rewrite Nat.add_0_r in *. subst. split_and!; try done.
    destruct k; simpl in *; by subst.
  - zdecide.
    set (p := b + Z.of_nat i * 4096). assert (page_in (get_region k s) p) as Hin.
    { unfold p. split; [|lia]. unfold PGSIZE.
      rewrite Z.mod_add by lia. done. }
    assert (p ∉ pick k kl ul) as Hni.
    { rewrite Hl, pages_down_elem. intros (j & Hj & Hpj). unfold p, PGSIZE in Hpj. lia. }
    run (eq_trans (region_free_run k p s Hs Hin) eq_refl).
    change (put_region k _ _) with (pushed k p s).
    destruct (pushed_bounds k p s) as [Hpb Hpe].
    destruct (IH (S i) (pushed k p s) (if k then p :: kl else kl) (if k then ul else p :: ul) fuel)
      as (s' & Hrun & Hs' & Hb' & Hy' & Ho' & Hok').
    + by apply pushed_sync.
    + by apply pmem_ok_push.
    + by rewrite Hpb.
    + rewrite Hpb, Hpe, He. fold b. f_equal. lia.
    + rewrite Hpb. fold b. simpl. fold p. destruct k; simpl in *; by rewrite Hl.
    + lia.
    + rewrite Hpb, Hpe in *. fold b in Hrun, Hb', Hok'. exists s'.
      replace (p + 4096) with (b + Z.of_nat (S i) * 4096) by (unfold p; lia).
      replace (i + S n)%nat with (S i + n)%nat by lia. rewrite Hrun.
      split_and!; try done.
      * rewrite Hy'. by destruct k.
      * rewrite Ho'. by destruct k.
      * by destruct k.
Qed.

(** The state once both regions are initialised, before any page is freed. *)
Definition regions_set (a mid : Z) (s : kstate) : kstate :=
  set_user (mk_region mid 0x88000000 0 0)
    (set_kern (mk_region a mid 0 0)
      (set_locks (<[LkUserRegion := mk_spinlock 0 "pmem_u" (-1)]>
        (<[LkKernRegion := mk_spinlock 0 "pmem_k" (-1)]> (k_locks s))) s)).

Lemma regions_set_ok a mid s :
  0 < a → a ≤ mid ≤ 0x88000000 → hart_stable (k_hart s) →
  pmem_sync (regions_set a mid s) ∧ pmem_ok (regions_set a mid s) [] [].
Proof.
  intros Ha Hm Hst. split; split; simpl; try done.
  - exists "pmem_k". simpl. by rewrite lookup_insert_ne, lookup_insert_eq.
  - exists "pmem_u". simpl. by rewrite lookup_insert_eq.
  - split; simpl; try done; try constructor; unfold PHYSTOP, KERNEL_BASE; lia.
  - split; simpl; try done; try constructor; unfold PHYSTOP, KERNEL_BASE; lia.
Qed.

Lemma pmem_init_run s nu :
  let a := ALLOC_BEGIN (k_syms s) in
  hart_stable (k_hart s) → 0 < a → a = 0x88000000 - (KERNEL_PAGES + Z.of_nat nu) * PGSIZE →
  ∃ s', pmem_init s = Ok (tt, s') ∧ pmem_sync s' ∧ k_syms s' = k_syms s ∧
    r_begin (k_user s') = a + KERNEL_PAGES * PGSIZE ∧
    pmem_ok s' (pages_down a (Z.to_nat KERNEL_PAGES))
      (pages_down (a + KERNEL_PAGES * PGSIZE) nu).
Proof.
  intros a Hst Ha He. unfold pmem_init, init_region, spinlock_init, put_lock. mrun. fold a.
  set (mid := a + KERNEL_PAGES * PGSIZE).
  assert (∃ nk, Z.to_nat KERNEL_PAGES = nk ∧ Z.of_nat nk = 1024) as (nk & -> & Hnk) by eauto.
  unfold KERNEL_PAGES, PGSIZE in *.
  rewrite !(u64_small (0x88000000 - a)) by lia. change (u64 (1024 * 4096)) with 4194304.
  rewrite (u64_small (a + 4194304)) by lia.
  replace (0x88000000 - a) with ((1024 + Z.of_nat nu) * 4096) by lia.
  rewrite Z.mod_mul, Z.div_mul by lia. zdecide.
  replace (a + 4194304) with mid by (unfold mid; lia).
  change (set_locks _ _) with (regions_set a mid s).
  destruct (regions_set_ok a mid s Ha ltac:(unfold mid; lia) Hst) as [Hs0 Hp0].
  assert (a mod 4096 = 0) as Ham.
  { replace a with ((557056 - (1024 + Z.of_nat nu)) * 4096) by lia. by apply Z.mod_mul. }
  assert (mid mod 4096 = 0) as Hmm by (unfold mid; by rewrite Z.mod_add).
  unfold freerange_region. rewrite PG_ROUND_UP_id by (unfold PGSIZE; simpl; lia).
  destruct (freerange_run true nk 0 (regions_set a mid s) [] []
    (S (Z.to_nat ((mid - a) / PGSIZE)))) as (s1 & Hr1 & Hs1 & Hb1 & Hy1 & Hu1 & Hok1); [done|done|done|..].
  { simpl. unfold mid, PGSIZE. lia. }
  { done. }
  { unfold mid, PGSIZE. rewrite Z.add_simpl_l, Z.div_mul by lia. lia. }
  simpl r_begin in *. simpl r_end in *. rewrite Z.add_0_r in Hr1. simpl negb in Hu1.
  rewrite (bind_ok _ _ _ _ _ Hr1). mrun. rewrite Hu1. simpl r_begin. simpl r_end.
  rewrite PG_ROUND_UP_id by (unfold PGSIZE; lia).
  destruct (freerange_run false nu 0 s1 (pages_down a nk) []
    (S (Z.to_nat ((0x88000000 - mid) / PGSIZE)))) as (s2 & Hr2 & Hs2 & Hb2 & Hy2 & Hk2 & Hok2).
  { done. }
  { done. }
  { by rewrite Hu1. }
  { rewrite Hu1; simpl. unfold mid, PGSIZE. lia. }
  { done. }
  { unfold PGSIZE. replace (0x88000000 - mid) with (Z.of_nat nu * 4096) by (unfold mid; lia).
    rewrite Z.div_mul by lia. lia. }
  rewrite Hu1 in *. simpl in *. rewrite Z.add_0_r in Hr2.
  exists s2. split_and!; try done. by rewrite Hy2, Hy1.
Qed.

(** ** The allocator's contract *)

(** C1: [pmem_init] on a page-aligned range of at least [KERNEL_PAGES] pages
    succeeds and leaves every page of the range free, exactly once: the first
    [KERNEL_PAGES] pages in the kernel region and the other [nu] pages in the user
    region. *)
Theorem pmem_init_establishes (s : kstate) (nu : nat) :
  let a := ALLOC_BEGIN (k_syms s) in
  hart_stable (k_hart s) → 0 < a → a = 0x88000000 - (KERNEL_PAGES + Z.of_nat nu) * PGSIZE →
  ∃ s', pmem_init s = Ok (tt, s') ∧ pmem_sync s' ∧ k_syms s' = k_syms s ∧
    r_begin (k_user s') = a + KERNEL_PAGES * PGSIZE ∧
    pmem_ok s' (pages_down a (Z.to_nat KERNEL_PAGES))
      (pages_down (a + KERNEL_PAGES * PGSIZE) nu).
Proof. apply pmem_init_run. Qed.

Lemma pmem_init_establishes_witness :
  ∃ s', pmem_init (zero_state (image_syms 3)) = Ok (tt, s') ∧ pmem_sync s' ∧
    k_syms s' = image_syms 3 ∧ r_begin (k_user s') = 0x87bfd000 + KERNEL_PAGES * PGSIZE ∧
    pmem_ok s' (pages_down 0x87bfd000 (Z.to_nat KERNEL_PAGES))
      (pages_down (0x87bfd000 + KERNEL_PAGES * PGSIZE) 3).
Proof.
  apply (pmem_init_establishes (zero_state (image_syms 3)) 3);
    [by right|done|done].
Defined.

(** C2: [pmem_alloc] refines the abstract pool: with no free page in the region it
    returns 0 and changes nothing; otherwise it returns the first free page, which
    is page-aligned, inside the region and non-null, and removes exactly that page
    from the pool of that region; the other region and all of memory are
    untouched. *)
Theorem pmem_alloc_correct (k : bool) (s : kstate) (kl ul : list Z) :
  pmem_sync s → pmem_ok s kl ul →
  match pick k kl ul with
  | [] => pmem_alloc k s = Ok (0, s)
  | p :: l => ∃ r, pmem_alloc k s = Ok (p, put_region k r s) ∧ page_in r p ∧ p ≠ 0 ∧
      (p ∉ l) ∧ pmem_ok (put_region k r s) (pick k l kl) (pick k ul l)
  end.
Proof.
  intros Hs Hp. destruct (pick k kl ul) as [|p l] eqn:E; [by eapply pmem_alloc_none|].
  destruct (pmem_alloc_some k s kl ul p l Hs Hp E) as (r & Hr & Hb & He & Hin & Hni & Hok).
  exists r. split_and!; try done. destruct Hin as [_ Hin].
  assert (0 < r_begin (get_region k s)) by
    (destruct Hp as [Hk Hu _]; destruct k; [apply Hk|apply Hu]). lia.
Qed.

Lemma pmem_alloc_correct_witness :
  ∃ s kl ul, pmem_sync s ∧ pmem_ok s kl ul ∧
  match pick false kl ul with
  | [] => pmem_alloc false s = Ok (0, s)
  | p :: l => ∃ r, pmem_alloc false s = Ok (p, put_region false r s) ∧ page_in r p ∧ p ≠ 0 ∧
      (p ∉ l) ∧ pmem_ok (put_region false r s) (pick false l kl) (pick false ul l)
  end.
Proof.
  destruct (pmem_init_run (zero_state (image_syms 3)) 3 ltac:(by right) eq_refl eq_refl)
    as (s & _ & Hs & _ & _ & Hp).
  eexists s, _, _. split; [exact Hs|]. split; [exact Hp|].
  apply (pmem_alloc_correct false s _ _ Hs Hp).
Defined.

(** C3: [pmem_free] of an aligned page of the region that is not free puts exactly
    that page back in the pool of that region; any other argument (misaligned, or
    outside the region) panics. *)
Theorem pmem_free_correct (k : bool) (s : kstate) (kl ul : list Z) (p : Z) :
  pmem_sync s → pmem_ok s kl ul → (p ∉ pick k kl ul) →
  (page_in (get_region k s) p →
     pmem_free p k s = Ok (tt, pushed k p s) ∧ pmem_sync (pushed k p s) ∧
     pmem_ok (pushed k p s) (if k then p :: kl else kl) (if k then ul else p :: ul)) ∧
  (¬ page_in (get_region k s) p →
     pmem_free p k s = Panic "pmem_free: invalid page or wrong region").
Proof.
  intros Hs Hp Hni. split; intros Hin.
  - split; [by apply pmem_free_some|]. split; [by apply pushed_sync|by apply pmem_ok_push].
  - by apply pmem_free_bad.
Qed.

Lemma pmem_free_correct_witness :
  ∃ s kl ul, (0x87bfd000 ∉ kl) ∧ pmem_sync s ∧ pmem_ok s kl ul ∧
  (page_in (get_region true s) 0x87bfd000 →
     pmem_free 0x87bfd000 true s = Ok (tt, pushed true 0x87bfd000 s) ∧
     pmem_sync (pushed true 0x87bfd000 s) ∧
     pmem_ok (pushed true 0x87bfd000 s) (0x87bfd000 :: kl) ul) ∧
  (¬ page_in (get_region true s) 0x87bfd000 →
     pmem_free 0x87bfd000 true s = Panic "pmem_free: invalid page or wrong region").
Proof.
  assert (hart_stable (k_hart (zero_state (image_syms 3)))) as Hst by (by right).
  destruct (regions_set_ok 0x87bfd000 0x87ffd000 (zero_state (image_syms 3))
    ltac:(done) ltac:(done) Hst) as [Hs Hp].
  eexists _, [], []. split; [by apply not_elem_of_nil|]. split; [exact Hs|]. split; [exact Hp|].
  apply (pmem_free_correct true _ [] [] 0x87bfd000 Hs Hp). by apply not_elem_of_nil.
Defined.
