(* ===== verification/Vm.v ===== *)
(** * Page tables (kernel/mem/kvm.c, include/mem/vmem.h)

    SV39 page tables in physical memory: the walk [vm_getpte] with allocation of
    intermediate tables, mapping, unmapping and the kernel's own table. *)

From S2P Require Import Prelude Bytes Kernel Lock Str Pmem.

(** ** Constants and conversions (include/mem/vmem.h) *)

Definition VA_SHIFT (level : Z) : Z := 12 + 9 * level.
Definition VA_TO_VPN (va level : Z) : Z := Z.land (Z.shiftr va (VA_SHIFT level)) 0x1FF.
Definition PA_TO_PTE (pa : Z) : Z := u64 (Z.shiftl (Z.shiftr pa 12) 10).
Definition PTE_TO_PA (pte : Z) : Z := u64 (Z.shiftl (Z.shiftr pte 10) 12).

Definition PTE_V : Z := 1.
Definition PTE_R : Z := 2.
Definition PTE_W : Z := 4.
Definition PTE_X : Z := 8.
Definition PTE_U : Z := 16.

(** The entry points to a next-level table. *)
Definition PTE_CHECK (pte : Z) : bool := Z.land pte (Z.lor (Z.lor PTE_R PTE_W) PTE_X) =? 0.
Definition PTE_FLAGS (pte : Z) : Z := Z.land pte 0x3FF.
Definition VA_MAX : Z := Z.shiftl 1 38.
Definition MAKE_SATP (pagetable : Z) : Z := Z.lor (Z.shiftl 8 60) (Z.shiftr pagetable 12).

(** [pte & PTE_V] as a condition. *)
Definition pte_valid (pte : Z) : bool := negb (Z.land pte PTE_V =? 0).

(** ** Operations *)

Definition read64 (a : Z) : K Z := gets (λ s, load64 (k_mem s) a).
Definition write64 (a v : Z) : K unit := modify (λ s, set_mem (store64 (k_mem s) a v) s).

Definition alloc_pgtbl : K Z :=
  p ← pmem_alloc true;
  if p =? 0 then mret 0
  else modify (λ s, set_mem (memset (k_mem s) p 0 PGSIZE) s);; mret p.

(** The loop [for (level = 2; level > 0; level--)] of [vm_getpte] and the address
    of the level-0 entry; 0 is NULL. *)
Fixpoint vm_walk (level : nat) (pgtbl va : Z) (alloc : bool) : K Z :=
  match level with
  | O => mret (pgtbl + 8 * VA_TO_VPN va 0)
  | S l =>
      let pte := pgtbl + 8 * VA_TO_VPN va (Z.of_nat level) in
      e ← read64 pte;
      if pte_valid e then vm_walk l (PTE_TO_PA e) va alloc
      else if negb alloc then mret 0
      else
        new ← alloc_pgtbl;
        if new =? 0 then mret 0
        else write64 pte (Z.lor (PA_TO_PTE new) PTE_V);; vm_walk l new va alloc
  end.

Definition vm_getpte (pgtbl va : Z) (alloc : bool) : K Z :=
  if VA_MAX <=? va then panic "vm_getpte: va >= VA_MAX" else vm_walk 2 pgtbl va alloc.

Fixpoint vm_map_loop (fuel : nat) (pgtbl a last pa perm : Z) : K unit :=
  match fuel with
  | O => no_fuel
  | S fuel =>
      pte ← vm_getpte pgtbl a true;
      (if pte =? 0 then panic "vm_mappages: out of memory" else mret tt);;
      write64 pte (Z.lor (Z.lor (PA_TO_PTE pa) perm) PTE_V);;
      if a =? last then mret tt
      else vm_map_loop fuel pgtbl (u64 (a + PGSIZE)) last (u64 (pa + PGSIZE)) perm
  end.

Definition vm_mappages (pgtbl va pa len perm : Z) : K unit :=
  (if len =? 0 then panic "vm_mappages: len == 0" else mret tt);;
  let a := PG_ROUND_DOWN va in
  let last := PG_ROUND_DOWN (u64 (va + len - 1)) in
  vm_map_loop (S (Z.to_nat (u64 (last - a) / PGSIZE))) pgtbl a last pa perm.

Fixpoint vm_unmap_loop (fuel : nat) (pgtbl a end_ : Z) (freeit : bool) : K unit :=
  match fuel with
  | O => no_fuel
  | S fuel =>
      if a <? end_ then
        pte ← vm_getpte pgtbl a false;
        (if pte =? 0 then panic "vm_unmappages: walk" else mret tt);;
        e ← read64 pte;
        (if pte_valid e then mret tt else panic "vm_unmappages: not mapped");;
        (if PTE_FLAGS e =? PTE_V then panic "vm_unmappages: not a leaf" else mret tt);;
        (if freeit then
           let pa := PTE_TO_PA e in
           begin ← gets (λ s, ALLOC_BEGIN (k_syms s));
           let kern_end := u64 (begin + KERNEL_PAGES * PGSIZE) in
           pmem_free pa ((begin <=? pa) && (pa <? kern_end))
         else mret tt);;
        write64 pte 0;;
        vm_unmap_loop fuel pgtbl (u64 (a + PGSIZE)) end_ freeit
      else mret tt
  end.

Definition vm_unmappages (pgtbl va len : Z) (freeit : bool) : K unit :=
  (if va mod PGSIZE =? 0 then mret tt else panic "vm_unmappages: not aligned");;
  vm_unmap_loop (S (Z.to_nat ((len + PGSIZE - 1) / PGSIZE))) pgtbl va (u64 (va + len)) freeit.

Definition kvm_init : K unit :=
  kp ← alloc_pgtbl;
  modify (set_kpgtbl kp);;
  (if kp =? 0 then panic "kvm_init: alloc failed" else mret tt);;
  vm_mappages kp UART_BASE UART_BASE PGSIZE (Z.lor PTE_R PTE_W);;
  vm_mappages kp VIRTIO0 VIRTIO0 PGSIZE (Z.lor PTE_R PTE_W);;
  vm_mappages kp PLIC_BASE PLIC_BASE 0x400000 (Z.lor PTE_R PTE_W);;
  syms ← gets k_syms;
  vm_mappages kp KERNEL_BASE KERNEL_BASE (u64 (etext syms - KERNEL_BASE)) (Z.lor PTE_R PTE_X);;
  vm_mappages kp (etext syms) (etext syms) (u64 (PHYSTOP - etext syms)) (Z.lor PTE_R PTE_W);;
  vm_mappages kp TRAMPOLINE (trampoline syms) PGSIZE (Z.lor PTE_R PTE_X);;
  pa ← pmem_alloc true;
  (if pa =? 0 then panic "kvm_init: kstack alloc failed" else mret tt);;
  vm_mappages kp (KSTACK 0) pa PGSIZE (Z.lor PTE_R PTE_W).

Definition kvm_get_kernel_pgtbl : K Z := gets k_kpgtbl.

Definition set_satp (v : Z) (h : hart) : hart :=
  let c := h_csr h in
  mk_hart (h_id h) (h_sie h) (h_noff h) (h_origin h) (h_proc h) (h_ctx h)
    (mk_csrs (csr_spp c) (csr_sepc c) (csr_scause c) (csr_stval c) (csr_stvec c) v (csr_sip c)).

Definition kvm_inithart : K unit :=
  kp ← kvm_get_kernel_pgtbl;
  modify (λ s, set_hart (set_satp (MAKE_SATP kp) (k_hart s)) s).

Definition vm_print (pgtbl : Z) : K unit :=
  for_each (seqZ 0 512) (λ i,
    pte ← read64 (pgtbl + 8 * i);
    if pte_valid pte then printf "pte[%d]=%016lx" [i; pte] else mret tt).

(** ** Abstract view *)

(** The table pages, by the path of indices that leads to them: [[]] is the root,
    [[i]] the level-1 table of entry [i], [[i; j]] a level-0 table. *)
Abbreviation ptmap := (gmap (list Z) Z).

Definition table_page (p : Z) : Prop := p mod PGSIZE = 0 ∧ 0 < p < 2^56.

Definition vpn_ok (i : Z) : Prop := 0 ≤ i < 512.

Record pt_ok (m : mem) (root : Z) (pg : ptmap) : Prop := {
  pt_root : pg !! [] = Some root;
  pt_page π p : pg !! π = Some p → table_page p ∧ (length π ≤ 2)%nat ∧ Forall vpn_ok π;
  pt_prefix π i q : pg !! (π ++ [i]) = Some q → is_Some (pg !! π);
  pt_inj π π' p : pg !! π = Some p → pg !! π' = Some p → π = π';
  pt_entry π p i : pg !! π = Some p → (length π < 2)%nat → vpn_ok i →
    match pg !! (π ++ [i]) with
    | Some q => load64 m (p + 8 * i) = Z.lor (PA_TO_PTE q) PTE_V
    | None => pte_valid (load64 m (p + 8 * i)) = false
    end }.

(** The path of the level-0 table that covers [va]. *)
Definition va_path (va : Z) : list Z := [VA_TO_VPN va 2; VA_TO_VPN va 1].

(** The level-0 entry of [va]; 0 when a table on the way is missing. *)
Definition lookup_pte (m : mem) (pg : ptmap) (va : Z) : Z :=
  match pg !! va_path va with
  | Some p => load64 m (p + 8 * VA_TO_VPN va 0)
  | None => 0
  end.

(** A page table at [root] beside the allocator: no table page is free. *)
Record vm_ok (s : kstate) (root : Z) (pg : ptmap) (kl ul : list Z) : Prop := {
  vo_pt : pt_ok (k_mem s) root pg;
  vo_pmem : pmem_ok s kl ul;
  vo_sync : pmem_sync s;
  vo_disj π p : pg !! π = Some p → (p ∉ kl) ∧ (p ∉ ul) }.

(** ** Lemmas: entries *)

Lemma VA_TO_VPN_range va l : vpn_ok (VA_TO_VPN va l).
Proof.
  unfold VA_TO_VPN. change 0x1FF with (Z.ones 9). rewrite Z.land_ones by lia.
  by apply Z.mod_pos_bound.
Qed.

Lemma PA_TO_PTE_spec q : table_page q → PA_TO_PTE q = q / 4 ∧ 0 ≤ q / 4 < 2^54 ∧ (q / 4) mod 1024 = 0.
Proof.
  intros [Ha Hr]. unfold PA_TO_PTE, PGSIZE in *.
  rewrite Z.shiftr_div_pow2, Z.shiftl_mul_pow2 by lia.
  change (2^12) with 4096. change (2^10) with 1024.
  assert (q / 4 = q / 4096 * 1024) as He by zdiv.
  rewrite <- He. rewrite u64_small by zdiv.
  split; [done|]. split; [zdiv|]. rewrite He. by apply Z.mod_mul.
Qed.

(** An entry made of a page and flag bits gives both back. *)
Lemma lor_flags a f : 0 ≤ f < 1024 → a mod 1024 = 0 → Z.lor a f = a + f.
Proof.
  intros Hf Ha. symmetry. rewrite Z.add_nocarry_lxor, Z.lxor_lor; [done|..].
  all: apply Z.bits_inj_0; intros n; rewrite Z.land_spec.
  all: destruct (decide (n < 0)); [by rewrite Z.testbit_neg_r by lia|].
  all: destruct (decide (n < 10)).
  all: try (rewrite (testbit_small f 10 n) by lia; apply andb_false_r).
  all: replace a with (a / 1024 * 2^10) by (pose proof (Z.div_mod a 1024); lia).
  all: by rewrite Z.mul_pow2_bits_low by lia.
Qed.

Lemma pte_roundtrip q f :
  table_page q → 0 ≤ f < 1024 →
  let e := Z.lor (PA_TO_PTE q) f in
  PTE_TO_PA e = q ∧ PTE_FLAGS e = f ∧ 0 ≤ e < 2^64.
Proof.
  intros Hq Hf. destruct (PA_TO_PTE_spec q Hq) as (He & Hr & Hm). cbv zeta.
  rewrite He, lor_flags by done. destruct Hq as [Ha Hb]. unfold PGSIZE in *.
  split_and!; [| |zdiv..].
  - unfold PTE_TO_PA. rewrite Z.shiftr_div_pow2, Z.shiftl_mul_pow2 by lia.
    change (2^12) with 4096. change (2^10) with 1024.
    rewrite u64_small; zdiv.
  - unfold PTE_FLAGS. change 0x3FF with (Z.ones 10). rewrite Z.land_ones by lia.
    change (2^10) with 1024. rewrite Z.add_mod, Hm, Z.add_0_l, Z.mod_mod, Z.mod_small by lia. done.
Qed.

Lemma pte_valid_odd e : pte_valid e = Z.odd e.
Proof.
  unfold pte_valid, PTE_V. change 1 with (Z.ones 1). rewrite Z.land_ones, Z.pow_1_r by lia.
  rewrite Zmod_odd. by destruct (Z.odd e).
Qed.

Lemma pte_valid_lor q f : Z.odd f = true → pte_valid (Z.lor (PA_TO_PTE q) f) = true.
Proof.
  intros Hf. rewrite pte_valid_odd, <- Z.bit0_odd, Z.lor_spec, !Z.bit0_odd, Hf.
  apply orb_true_r.
Qed.

Lemma memset_page_out m u v b : ¬ (u ≤ b < u + PGSIZE) → load8 (memset m u v PGSIZE) b = load8 m b.
Proof.
  intros Hb. rewrite memset_bytes by (unfold PGSIZE; lia). apply load8_store_bytes_out.
  rewrite length_replicate. unfold PGSIZE in *. lia.
Qed.

Lemma load64_zero_page m p a :
  0 ≤ p → p ≤ a ≤ p + PGSIZE - 8 → load64 (memset m p 0 PGSIZE) a = 0.
Proof.
  intros Hp Ha. unfold PGSIZE in *. rewrite memset_bytes by lia.
  assert (load_bytes (store_bytes m p (replicate (Z.to_nat 4096) (u8 0))) a 8 = replicate 8 0) as H.
  { apply list_eq. intros i. destruct (decide (i < 8)%nat).
    - rewrite lookup_load_bytes, lookup_replicate_2 by done. f_equal.
      replace (a + Z.of_nat i) with (p + Z.of_nat (Z.to_nat (a + Z.of_nat i - p))) by lia.
      apply load8_store_bytes_in. apply lookup_replicate_2. lia.
    - rewrite !lookup_ge_None_2; rewrite ?length_load_bytes, ?length_replicate; try lia; done. }
  unfold load64. by rewrite H.
Qed.

Lemma load64_memset_out m p a :
  a + 8 ≤ p ∨ p + PGSIZE ≤ a → load64 (memset m p 0 PGSIZE) a = load64 m a.
Proof.
  intros Ha. unfold PGSIZE in *. rewrite memset_bytes by lia. unfold load64.
  rewrite load_store_bytes_out; [done|]. rewrite length_replicate. lia.
Qed.

(** ** Lemmas: walks over a well-formed table *)

Lemma vpn_slot p i : vpn_ok i → p ≤ p + 8 * i ≤ p + PGSIZE - 8.
Proof. unfold vpn_ok, PGSIZE. lia. Qed.

(** Slots of different pages, or different slots of a page, do not overlap. *)
Lemma slots_apart p q i j :
  table_page p → table_page q → vpn_ok i → vpn_ok j → (p ≠ q ∨ i ≠ j) →
  p + 8 * i + 8 ≤ q + 8 * j ∨ q + 8 * j + 8 ≤ p + 8 * i.
Proof.
  intros [Hp _] [Hq _] Hi Hj Hne. unfold vpn_ok in *.
  destruct (decide (p = q)) as [->|Hpq]; [lia|].
  pose proof (page_aligned_apart p q Hp Hq Hpq). unfold PGSIZE in *. lia.
Qed.

(** What the walk without allocation returns. *)
Lemma vm_getpte_lookup s root pg va :
  pt_ok (k_mem s) root pg → va < VA_MAX →
  vm_getpte root va false s =
    Ok (match pg !! va_path va with Some p => p + 8 * VA_TO_VPN va 0 | None => 0 end, s).
Proof.
  intros Hpt Hva. unfold vm_getpte. zdecide. unfold read64. mrun.
  pose proof (pt_entry _ _ _ Hpt [] root (VA_TO_VPN va 2) (pt_root _ _ _ Hpt)
    ltac:(simpl; lia) (VA_TO_VPN_range va 2)) as E2. simpl app in E2.
  change (Z.of_nat 2) with 2. change (Z.of_nat 1) with 1. unfold va_path.
  destruct (pg !! [VA_TO_VPN va 2]) as [p1|] eqn:H1.
  - rewrite E2, pte_valid_lor by done.
    destruct (pt_page _ _ _ Hpt _ _ H1) as [Hp1 _].
    destruct (pte_roundtrip p1 PTE_V Hp1 ltac:(unfold PTE_V; lia)) as [-> _]. mrun.
    pose proof (pt_entry _ _ _ Hpt _ p1 (VA_TO_VPN va 1) H1
      ltac:(simpl; lia) (VA_TO_VPN_range va 1)) as E1. simpl app in E1.
    destruct (pg !! [VA_TO_VPN va 2; VA_TO_VPN va 1]) as [p0|] eqn:H0.
    + rewrite E1, pte_valid_lor by done.
      destruct (pt_page _ _ _ Hpt _ _ H0) as [Hp0 _].
      by destruct (pte_roundtrip p0 PTE_V Hp0 ltac:(unfold PTE_V; lia)) as [-> _].
    + by rewrite E1.
  - rewrite E2. simpl. destruct (pg !! [VA_TO_VPN va 2; VA_TO_VPN va 1]) as [p0|] eqn:H0; [|done].
    destruct (pt_prefix _ _ _ Hpt [VA_TO_VPN va 2] (VA_TO_VPN va 1) p0 H0) as [x Hx]. congruence.
Qed.

(** Equal paths and equal last index mean the same page. *)
Lemma va_same_page va va' :
  0 ≤ va < VA_MAX → 0 ≤ va' < VA_MAX →
  va_path va = va_path va' → VA_TO_VPN va 0 = VA_TO_VPN va' 0 →
  va / PGSIZE = va' / PGSIZE.
Proof.
  unfold va_path, VA_TO_VPN, VA_SHIFT, VA_MAX, PGSIZE. intros Hv Hv' [= H2 H1] H0.
  change 0x1FF with (Z.ones 9) in *. change (Z.shiftl 1 38) with (2^38) in *.
  rewrite !Z.land_ones, !Z.shiftr_div_pow2 in * by lia.
  change (2 ^ (12 + 9 * 2)) with 1073741824 in *. change (2 ^ (12 + 9 * 1)) with 2097152 in *.
  change (2 ^ (12 + 9 * 0)) with 4096 in *. change (2^9) with 512 in *. change (2^38) with 274877906944 in *.
  zdiv.
Qed.

Lemma va_page_eq va va' :
  0 ≤ va → 0 ≤ va' → va / PGSIZE = va' / PGSIZE →
  va_path va = va_path va' ∧ VA_TO_VPN va 0 = VA_TO_VPN va' 0.
Proof.
  unfold va_path, VA_TO_VPN, VA_SHIFT, PGSIZE. intros Hv Hv' He.
  change 0x1FF with (Z.ones 9). rewrite !Z.land_ones, !Z.shiftr_div_pow2 by lia.
  change (2 ^ (12 + 9 * 2)) with (4096 * (512 * 512)). change (2 ^ (12 + 9 * 1)) with (4096 * 512).
  change (2 ^ (12 + 9 * 0)) with 4096. rewrite <- !Z.div_div by lia. by rewrite He.
Qed.

(** ** Lemmas: writing entries *)

Lemma leaf_store m root pg π p i v :
  pt_ok m root pg → pg !! π = Some p → length π = 2%nat → vpn_ok i →
  pt_ok (store64 m (p + 8 * i) v) root pg.
Proof.
  intros Hpt Hp Hl Hi. destruct (pt_page _ _ _ Hpt _ _ Hp) as [Htp _].
  split; [apply (pt_root _ _ _ Hpt)|apply (pt_page _ _ _ Hpt)|apply (pt_prefix _ _ _ Hpt)|
    apply (pt_inj _ _ _ Hpt)|].
  - intros ρ q j Hq Hlen Hj. destruct (pt_page _ _ _ Hpt _ _ Hq) as [Htq _].
    rewrite load64_store64_ne; [by apply (pt_entry _ _ _ Hpt ρ q j)|].
    apply slots_apart; try done. left. intros ->.
    pose proof (pt_inj _ _ _ Hpt _ _ _ Hp Hq). subst. lia.
Qed.

Lemma lookup_pte_store m root pg va va' p v :
  pt_ok m root pg → 0 ≤ va < VA_MAX → 0 ≤ va' < VA_MAX →
  pg !! va_path va = Some p → 0 ≤ v < 2^64 →
  lookup_pte (store64 m (p + 8 * VA_TO_VPN va 0) v) pg va' =
    if decide (va' / PGSIZE = va / PGSIZE) then v else lookup_pte m pg va'.
Proof.
  intros Hpt Hva Hva' Hp Hv. unfold lookup_pte. case_decide as Hd.
  - destruct (va_page_eq va' va ltac:(lia) ltac:(lia) Hd) as [-> ->].
    rewrite Hp. by rewrite load64_store64_eq.
  - destruct (pg !! va_path va') as [q|] eqn:Hq; [|done].
    destruct (pt_page _ _ _ Hpt _ _ Hp) as [Htp _], (pt_page _ _ _ Hpt _ _ Hq) as [Htq _].
    apply load64_store64_ne, slots_apart; auto using VA_TO_VPN_range.
    destruct (decide (q = p)) as [->|]; [right|by left]. intros He.
    destruct Hd. apply va_same_page; [done..| |done].
    by apply (pt_inj _ _ _ Hpt _ _ _ Hq Hp).
Qed.

(** A fresh zeroed page [q] becomes the child [i] of an inner table. *)
Lemma table_insert m root pg π p i q :
  pt_ok m root pg → pg !! π = Some p → (length π < 2)%nat → vpn_ok i →
  pg !! (π ++ [i]) = None → table_page q → (∀ ρ x, pg !! ρ = Some x → x ≠ q) →
  pt_ok (store64 (memset m q 0 PGSIZE) (p + 8 * i) (Z.lor (PA_TO_PTE q) PTE_V)) root
    (<[π ++ [i] := q]> pg).
Proof.
  intros Hpt Hp Hl Hi Hn Hq Hfr. set (m' := store64 _ _ _).
  destruct (pt_page _ _ _ Hpt _ _ Hp) as (Htp & _ & HF).
  assert (∀ ρ x j, pg !! ρ = Some x → vpn_ok j → (ρ ≠ π ∨ j ≠ i) →
    load64 m' (x + 8 * j) = load64 m (x + 8 * j)) as Hkeep.
  { intros ρ x j Hx Hj Hne. destruct (pt_page _ _ _ Hpt _ _ Hx) as (Htx & _ & _).
    unfold m'. rewrite load64_store64_ne.
    - apply load64_memset_out. pose proof (vpn_slot x j Hj). destruct Htx as [Hxa _], Hq as [Hqa _].
      pose proof (page_aligned_apart x q Hxa Hqa (Hfr _ _ Hx)). unfold PGSIZE in *. lia.
    - apply slots_apart; try done. destruct (decide (x = p)) as [->|]; [|by left].
      right. intros ->. destruct Hne as [Hne|Hne]; [|done].
      by pose proof (pt_inj _ _ _ Hpt _ _ _ Hx Hp). }
  assert (∀ ρ j, pg !! ((π ++ [i]) ++ ρ ++ [j]) = None) as Hnone.
  { intros ρ. induction ρ as [|y ρ IH] using rev_ind; intros j.
    - apply eq_None_not_Some. intros [x Hx]. simpl in Hx.
      apply (pt_prefix _ _ _ Hpt) in Hx as [? Hx]. by rewrite Hn in Hx.
    - apply eq_None_not_Some. intros [x Hx]. rewrite app_assoc in Hx.
      apply (pt_prefix _ _ _ Hpt) in Hx as [? Hx]. by rewrite IH in Hx. }
  split.
  - rewrite lookup_insert_ne by (by destruct π). apply Hpt.
  - intros ρ x. rewrite lookup_insert. case_decide as Hd.
    + intros [= <-]. subst ρ. split; [done|]. rewrite length_app; simpl. split; [lia|].
      rewrite Forall_app, Forall_singleton. done.
    + apply (pt_page _ _ _ Hpt).
  - intros ρ j x. rewrite lookup_insert. case_decide as Hd.
    + apply app_inj_tail in Hd as [<- <-]. intros _. rewrite lookup_insert_ne by (intros He;
        apply (f_equal length) in He; rewrite length_app in He; simpl in He; lia). by exists p.
    + intros Hx. apply (pt_prefix _ _ _ Hpt) in Hx as [y Hy].
      rewrite lookup_insert. case_decide; eauto.
  - intros ρ ρ' x. rewrite !lookup_insert. repeat case_decide; intros; simplify_eq; try done.
    + by destruct (Hfr ρ' x).
    + by destruct (Hfr ρ x).
    + by apply (pt_inj _ _ _ Hpt _ _ x).
  - intros ρ x j. rewrite lookup_insert. case_decide as Hd.
    + intros [= <-] Hlen Hj. subst ρ.
      rewrite lookup_insert_ne by (intros He; apply (f_equal length) in He;
        rewrite !length_app in He; simpl in He; lia).
      pose proof (Hnone [] j) as Hz. simpl in Hz. rewrite Hz.
      unfold m'. rewrite load64_store64_ne; [|apply slots_apart; try done; left; apply not_eq_sym; by eapply Hfr].
      by rewrite load64_zero_page by (pose proof (vpn_slot q j Hj); destruct Hq; lia).
    + intros Hx Hlen Hj. rewrite lookup_insert. case_decide as He.
      * apply app_inj_tail in He as [<- <-]. rewrite Hp in Hx. simplify_eq.
        unfold m'. apply load64_store64_eq. by destruct (pte_roundtrip q PTE_V Hq ltac:(unfold PTE_V; lia)) as (_ & _ & ?).
      * rewrite (Hkeep ρ x j Hx Hj); [by apply (pt_entry _ _ _ Hpt)|].
        destruct (decide (ρ = π)) as [->|]; [right|by left]. intros ->. done.
Qed.

(** No entry of any address changes by adding that table. *)
Lemma lookup_pte_insert m root pg π p i q va :
  pt_ok m root pg → pg !! π = Some p → (length π < 2)%nat → vpn_ok i →
  pg !! (π ++ [i]) = None → table_page q → (∀ ρ x, pg !! ρ = Some x → x ≠ q) →
  lookup_pte (store64 (memset m q 0 PGSIZE) (p + 8 * i) (Z.lor (PA_TO_PTE q) PTE_V))
    (<[π ++ [i] := q]> pg) va = lookup_pte m pg va.
Proof.
  intros Hpt Hp Hl Hi Hn Hq Hfr. unfold lookup_pte.
  destruct (pt_page _ _ _ Hpt _ _ Hp) as (Htp & _ & _).
  pose proof (VA_TO_VPN_range va 0) as Hv. pose proof (vpn_slot q _ Hv) as Hs.
  rewrite lookup_insert. case_decide as Hd.
  - rewrite <- Hd, Hn. rewrite load64_store64_ne; [|apply slots_apart; try done; left; apply not_eq_sym; by eapply Hfr].
    apply load64_zero_page; [destruct Hq; lia|done].
  - destruct (pg !! va_path va) as [x|] eqn:Hx; [|done].
    destruct (pt_page _ _ _ Hpt _ _ Hx) as (Htx & _ & _).
    rewrite load64_store64_ne.
    + apply load64_memset_out. pose proof (vpn_slot x _ Hv). destruct Htx as [Hxa _], Hq as [Hqa _].
      pose proof (page_aligned_apart x q Hxa Hqa (Hfr _ _ Hx)). unfold PGSIZE in *. lia.
    + apply slots_apart; try done. left. intros ->.
      pose proof (pt_inj _ _ _ Hpt _ _ _ Hx Hp). subst π. simpl in Hl. lia.
Qed.

(** ** Lemmas: walks that allocate *)

Lemma lor_range n a b : 0 ≤ n → 0 ≤ a < 2^n → 0 ≤ b < 2^n → 0 ≤ Z.lor a b < 2^n.
Proof.
  intros Hn Ha Hb.
  assert (Z.lor a b = Z.lor a b mod 2^n) as He.
  { apply Z.bits_inj'. intros i Hi. destruct (decide (i < n)).
    - by rewrite Z.mod_pow2_bits_low by lia.
    - rewrite Z.mod_pow2_bits_high by lia. rewrite Z.lor_spec.
      by rewrite (testbit_small a n), (testbit_small b n) by lia. }
  rewrite He. apply Z.mod_pos_bound. by apply Z.pow_pos_nonneg.
Qed.

Lemma pmem_ok_mem s m' kl ul :
  (∀ p, p ∈ kl ++ ul → load64 m' p = load64 (k_mem s) p) →
  pmem_ok s kl ul → pmem_ok (set_mem m' s) kl ul.
Proof.
  intros H [Hk Hu Hs]. split; [..|done].
  - eapply region_ok_ext; [|done]. intros p Hp. apply H. set_solver.
  - eapply region_ok_ext; [|done]. intros p Hp. apply H. set_solver.
Qed.

Lemma pmem_page_aligned s kl ul p : pmem_ok s kl ul → p ∈ kl ++ ul → p mod PGSIZE = 0.
Proof.
  intros [Hk Hu _] [H|H]%elem_of_app.
  - pose proof (ro_pages _ _ _ Hk) as HF. rewrite Forall_forall in HF. by apply (HF p).
  - pose proof (ro_pages _ _ _ Hu) as HF. rewrite Forall_forall in HF. by apply (HF p).
Qed.

(** Memory outside the table pages is as before. *)
Definition mem_outside (pg : ptmap) (m m' : mem) : Prop :=
  ∀ a, (∀ π p, pg !! π = Some p → ¬ (p ≤ a < p + PGSIZE)) → load8 m' a = load8 m a.

(** The step only changed memory and the kernel page pool. *)
Definition vm_frame (s s' : kstate) : Prop :=
  s' = set_mem (k_mem s') (set_kern (k_kern s') s).

Lemma vm_frame_refl s : vm_frame s s.
Proof. by destruct s. Qed.

Lemma vm_frame_set s m1 m2 r : vm_frame s (set_mem m2 (set_mem m1 (set_kern r s))).
Proof. done. Qed.

Lemma vm_frame_set1 s m r : vm_frame s (set_mem m (set_kern r s)).
Proof. done. Qed.

Lemma vm_frame_trans s1 s2 s3 : vm_frame s1 s2 → vm_frame s2 s3 → vm_frame s1 s3.
Proof. unfold vm_frame. intros H1 H2. rewrite H2, H1. done. Qed.

Lemma mem_outside_trans pg pg' m1 m2 m3 :
  pg ⊆ pg' → mem_outside pg m1 m2 → mem_outside pg' m2 m3 → mem_outside pg' m1 m3.
Proof.
  intros Hs H1 H2 a Ha. rewrite (H2 a Ha). apply H1. intros π p Hp.
  apply (Ha π). by eapply lookup_weaken.
Qed.

(** [alloc_pgtbl] takes the first free kernel page and clears it. *)
Lemma alloc_pgtbl_run s q l ul :
  pmem_sync s → pmem_ok s (q :: l) ul →
  ∃ r, let s1 := set_mem (memset (k_mem s) q 0 PGSIZE) (set_kern r s) in
    alloc_pgtbl s = Ok (q, s1) ∧ pmem_sync s1 ∧ pmem_ok s1 l ul ∧ table_page q ∧
    (q ∉ l) ∧ (q ∉ ul).
Proof.
  intros Hsy Hpm.
  destruct (pmem_alloc_some true s (q :: l) ul q l Hsy Hpm eq_refl)
    as (r & Hr & Hb & He & Hin & Hni & Hok). simpl put_region in *. simpl pick in Hok.
  assert (table_page q) as Hq.
  { destruct Hin as [Ha Hrng]. pose proof (ro_bounds _ _ _ (po_kern _ _ _ Hpm)).
    simpl in Hb, He. unfold PHYSTOP, KERNEL_BASE in *. split; [done|lia]. }
  assert (q ∉ ul) as Hnu by (by apply (page_in_other _ _ _ true q Hok Hin)).
  exists r. cbv zeta. split; [|split; [|split; [|done]]].
  - unfold alloc_pgtbl. run Hr. mrun.
    by rewrite (proj2 (Z.eqb_neq q 0)) by (destruct Hq; lia).
  - destruct Hsy as [? [??] [??]]. split; [done|by eexists..].
  - apply (pmem_ok_mem (set_kern r s)); [|done]. intros y Hy.
    assert (y ≠ q) as Hyq by (intros ->; by apply elem_of_app in Hy as [Hy|Hy]).
    pose proof (page_aligned_apart y q (pmem_page_aligned _ _ _ _ Hok Hy) (proj1 Hq) Hyq).
    apply load64_memset_out. unfold PGSIZE in *. lia.
Qed.

(** One missing table is allocated, cleared and linked. *)
Lemma walk_child s root pg q l ul π p i (k : Z → K Z) :
  vm_ok s root pg (q :: l) ul → pg !! π = Some p → (length π < 2)%nat → vpn_ok i →
  pg !! (π ++ [i]) = None →
  ∃ s1, (new ← alloc_pgtbl;
         if new =? 0 then mret 0
         else write64 (p + 8 * i) (Z.lor (PA_TO_PTE new) PTE_V);; k new) s = k q s1 ∧
    vm_ok s1 root (<[π ++ [i] := q]> pg) l ul ∧
    (∀ va, lookup_pte (k_mem s1) (<[π ++ [i] := q]> pg) va = lookup_pte (k_mem s) pg va) ∧
    vm_frame s s1 ∧ mem_outside (<[π ++ [i] := q]> pg) (k_mem s) (k_mem s1).
Proof.
  intros [Hpt Hpm Hsy Hdj] Hp Hl Hi Hn.
  destruct (alloc_pgtbl_run s q l ul Hsy Hpm) as (r & Hr & Hsy1 & Hpm1 & Hq & Hnl & Hnu).
  assert (∀ ρ x, pg !! ρ = Some x → x ≠ q) as Hfr.
  { intros ρ x Hx ->. destruct (Hdj ρ q Hx) as [Hk _]. apply Hk. by left. }
  run Hr. unfold write64. mrun. rewrite (proj2 (Z.eqb_neq q 0)) by (destruct Hq; lia).
  eexists. split; [reflexivity|]. simpl k_mem.
  destruct (pt_page _ _ _ Hpt _ _ Hp) as (Htp & _ & _). pose proof (vpn_slot p i Hi) as Hsl.
  split; [|split; [|split]].
  - split.
    + by apply table_insert.
    + apply pmem_ok_mem; [|done]. intros y Hy. simpl k_mem.
      assert (y ≠ p) as Hyp.
      { intros ->. destruct (Hdj π p Hp) as [Hpk Hpu].
        apply elem_of_app in Hy as [Hy|Hy]; [apply Hpk; by right|done]. }
      pose proof (page_aligned_apart y p (pmem_page_aligned _ _ _ _ Hpm1 Hy) (proj1 Htp) Hyp).
      apply load64_store64_ne. unfold PGSIZE in *. lia.
    + destruct Hsy as [? [??] [??]]. split; [done|by eexists..].
    + intros ρ x. rewrite lookup_insert. case_decide.
      * by intros [= <-].
      * intros Hx. destruct (Hdj ρ x Hx) as [Hxk Hxu]. split; [|done].
        intros Hxl. apply Hxk. by right.
  - intros va. by apply (lookup_pte_insert _ root).
  - apply vm_frame_set.
  - intros a Ha. assert (¬ (p ≤ a < p + PGSIZE)) as H1.
    { apply (Ha π). rewrite lookup_insert_ne; [done|]. intros Hx.
      apply (f_equal length) in Hx. rewrite length_app in Hx. simpl in Hx. lia. }
    assert (¬ (q ≤ a < q + PGSIZE)) as H2 by (apply (Ha (π ++ [i])); by rewrite lookup_insert_eq).
    rewrite load8_store64_out by lia. unfold PGSIZE in *. rewrite memset_bytes by lia.
    rewrite load8_store_bytes_out; [done|]. rewrite length_replicate. lia.
Qed.

Lemma elem_of_suffix (l1 l2 : list Z) x : x ∈ l1 → l1 `suffix_of` l2 → x ∈ l2.
Proof. intros Hx [l ->]. apply elem_of_app. by right. Qed.

(** The table grew by at most [n] pages; no entry of any address changed. *)
Record vm_grow (n : nat) (s : kstate) (pg : ptmap) (kl : list Z)
    (s1 : kstate) (pg1 : ptmap) (kl1 : list Z) : Prop := {
  vg_sub : pg ⊆ pg1;
  vg_pool : (length kl ≤ length kl1 + n)%nat;
  vg_suffix : kl1 `suffix_of` kl;
  vg_from π q : pg1 !! π = Some q → pg !! π = Some q ∨ q ∈ kl;
  vg_look va : lookup_pte (k_mem s1) pg1 va = lookup_pte (k_mem s) pg va;
  vg_frame : vm_frame s s1;
  vg_mem : mem_outside pg1 (k_mem s) (k_mem s1) }.

Lemma vm_grow_refl n s pg kl : vm_grow n s pg kl s pg kl.
Proof. split; [done|lia|done|auto|done|apply vm_frame_refl|done]. Qed.

Lemma vm_grow_trans n1 n2 s1 pg1 kl1 s2 pg2 kl2 s3 pg3 kl3 :
  vm_grow n1 s1 pg1 kl1 s2 pg2 kl2 → vm_grow n2 s2 pg2 kl2 s3 pg3 kl3 →
  vm_grow (n1 + n2) s1 pg1 kl1 s3 pg3 kl3.
Proof.
  intros [S1 P1 U1 O1 L1 F1 M1] [S2 P2 U2 O2 L2 F2 M2]. split; [by etrans|lia|by etrans|..].
  - intros π q [Hq|Hq]%O2; [by apply O1|right]. by eapply elem_of_suffix.
  - intros va. by rewrite L2.
  - by eapply vm_frame_trans.
  - by eapply mem_outside_trans.
Qed.

Lemma walk_step s root pg kl ul π p lvl va :
  vm_ok s root pg kl ul → pg !! π = Some p → (length π < 2)%nat → (1 ≤ length kl)%nat →
  ∃ s1 pg1 kl1 q,
    vm_walk (S lvl) p va true s = vm_walk lvl q va true s1 ∧
    pg1 !! (π ++ [VA_TO_VPN va (Z.of_nat (S lvl))]) = Some q ∧
    vm_ok s1 root pg1 kl1 ul ∧ vm_grow 1 s pg kl s1 pg1 kl1.
Proof.
  intros Hok Hp Hl Hk. set (i := VA_TO_VPN va (Z.of_nat (S lvl))).
  assert (vpn_ok i) as Hi by apply VA_TO_VPN_range.
  pose proof (pt_entry _ _ _ (vo_pt _ _ _ _ _ Hok) π p i Hp Hl Hi) as He.
  destruct (pg !! (π ++ [i])) as [q|] eqn:Hq.
  - exists s, pg, kl, q. split; [|by auto using vm_grow_refl].
    simpl. unfold read64. mrun. fold i. rewrite He, pte_valid_lor by done.
    destruct (pt_page _ _ _ (vo_pt _ _ _ _ _ Hok) _ _ Hq) as [Htq _].
    by destruct (pte_roundtrip q PTE_V Htq ltac:(unfold PTE_V; lia)) as [-> _].
  - destruct kl as [|q l]; [simpl in Hk; lia|].
    destruct (walk_child s root pg q l ul π p i (λ new, vm_walk lvl new va true) Hok Hp Hl Hi Hq)
      as (s1 & Hrun & Hok1 & Hlook & Hfr & Hmem).
    exists s1, (<[π ++ [i] := q]> pg), l, q. split; [|split; [by rewrite lookup_insert_eq|split; [done|]]].
    + cbn [vm_walk]. unfold read64 at 1. rewrite bind_gets. fold i. rewrite He.
      cbn [negb]. exact Hrun.
    + split; [by apply insert_subseteq|simpl; lia|by apply suffix_cons_r| |done..].
      intros ρ x. rewrite lookup_insert. case_decide; [intros [= ->]; right; by left|by left].
Qed.

Lemma vm_getpte_alloc s root pg kl ul va :
  vm_ok s root pg kl ul → va < VA_MAX → (2 ≤ length kl)%nat →
  ∃ s1 pg1 kl1 p, vm_getpte root va true s = Ok (p + 8 * VA_TO_VPN va 0, s1) ∧
    pg1 !! va_path va = Some p ∧ vm_ok s1 root pg1 kl1 ul ∧ vm_grow 2 s pg kl s1 pg1 kl1.
Proof.
  intros Hok Hva Hk. unfold vm_getpte. rewrite (proj2 (Z.leb_gt VA_MAX va)) by lia.
  destruct (walk_step s root pg kl ul [] root 1 va Hok (pt_root _ _ _ (vo_pt _ _ _ _ _ Hok))
    ltac:(simpl; lia) ltac:(lia)) as (s1 & pg1 & kl1 & q1 & -> & Hq1 & Hok1 & Hg1).
  pose proof (vg_pool _ _ _ _ _ _ _ Hg1) as Hp1.
  destruct (walk_step s1 root pg1 kl1 ul _ q1 0 va Hok1 Hq1 ltac:(simpl; lia) ltac:(lia))
    as (s2 & pg2 & kl2 & q2 & -> & Hq2 & Hok2 & Hg2).
  exists s2, pg2, kl2, q2. split; [done|]. split; [exact Hq2|]. split; [done|].
  by apply (vm_grow_trans 1 1 _ _ _ _ _ _ _ _ _ Hg1 Hg2).
Qed.

(** Writing the entry of a mapped slot keeps the invariant. *)
Lemma vm_ok_write s root pg kl ul va p v :
  vm_ok s root pg kl ul → pg !! va_path va = Some p →
  vm_ok (set_mem (store64 (k_mem s) (p + 8 * VA_TO_VPN va 0) v) s) root pg kl ul.
Proof.
  intros [Hpt Hpm Hsy Hdj] Hp. pose proof (VA_TO_VPN_range va 0) as Hi.
  pose proof (vpn_slot p _ Hi) as Hsl. destruct (pt_page _ _ _ Hpt _ _ Hp) as (Htp & _ & _).
  split; [by apply (leaf_store _ _ _ (va_path va))| | |done].
  - apply pmem_ok_mem; [|done]. intros y Hy.
    assert (y ≠ p) as Hyp. { intros ->. by apply elem_of_app in Hy as [Hy|Hy]; destruct (Hdj _ p Hp). }
    pose proof (page_aligned_apart y p (pmem_page_aligned _ _ _ _ Hpm Hy) (proj1 Htp) Hyp).
    apply load64_store64_ne. unfold PGSIZE in *. lia.
  - destruct Hsy as [? [??] [??]]. split; [done|by eexists..].
Qed.

(** The entry [vm_mappages] writes. *)
Definition leaf_pte (pa perm : Z) : Z := Z.lor (Z.lor (PA_TO_PTE pa) perm) PTE_V.

Lemma leaf_pte_range pa perm : 0 ≤ perm < 1024 → 0 ≤ leaf_pte pa perm < 2^64.
Proof.
  intros Hp. unfold leaf_pte, PTE_V. apply lor_range; [lia| |lia].
  apply lor_range; [lia|apply u64_range|lia].
Qed.

(** The result of mapping: relative to [s], exactly the pages of [a, a + n*PGSIZE)
    have new entries. *)
Record vm_mapped (s : kstate) (pg : ptmap) (kl : list Z) (s1 : kstate) (pg1 : ptmap)
    (kl1 : list Z) (a pa perm : Z) (n : nat) : Prop := {
  vm_sub : pg ⊆ pg1;
  vm_suffix : kl1 `suffix_of` kl;
  vm_from π q : pg1 !! π = Some q → pg !! π = Some q ∨ q ∈ kl;
  vm_look va : 0 ≤ va < VA_MAX → lookup_pte (k_mem s1) pg1 va =
    if decide (a ≤ va < a + Z.of_nat n * PGSIZE)
    then leaf_pte (pa + (va / PGSIZE * PGSIZE - a)) perm
    else lookup_pte (k_mem s) pg va;
  vm_fr : vm_frame s s1;
  vm_mem : mem_outside pg1 (k_mem s) (k_mem s1) }.

Lemma vm_map_loop_run n : ∀ s root pg kl ul a pa perm fuel,
  vm_ok s root pg kl ul → a mod PGSIZE = 0 → 0 ≤ a → a + Z.of_nat (S n) * PGSIZE ≤ VA_MAX →
  0 ≤ pa → pa + Z.of_nat (S n) * PGSIZE ≤ 2^56 → 0 ≤ perm < 1024 →
  (2 * S n ≤ length kl)%nat → (n < fuel)%nat →
  ∃ s1 pg1 kl1,
    vm_map_loop fuel root a (a + Z.of_nat n * PGSIZE) pa perm s = Ok (tt, s1) ∧
    vm_ok s1 root pg1 kl1 ul ∧ (length kl ≤ length kl1 + 2 * S n)%nat ∧
    vm_mapped s pg kl s1 pg1 kl1 a pa perm (S n).
Proof.
  induction n as [|n IH]; intros s root pg kl ul a pa perm fuel Hok Ha Ha0 Hmax Hpa Hpm Hpf Hk Hf;
    (destruct fuel as [|fuel]; [lia|]); simpl vm_map_loop.
  all: assert (a < VA_MAX) as Hlt by (unfold PGSIZE in *; lia).
  all: destruct (vm_getpte_alloc s root pg kl ul a Hok Hlt ltac:(lia))
    as (s1 & pg1 & kl1 & p & Hrun & Hp & Hok1 & [Gs Gp Gu Go Gl Gf Gm]); run Hrun; unfold write64; mrun.
  all: pose proof (vo_pt _ _ _ _ _ Hok1) as Hpt1;
    destruct (pt_page _ _ _ Hpt1 _ _ Hp) as ((Hpal & Hp0) & _ & _);
    pose proof (VA_TO_VPN_range a 0) as Hvr; unfold vpn_ok in Hvr;
    rewrite (proj2 (Z.eqb_neq (p + 8 * VA_TO_VPN a 0) 0)) by lia.
  all: pose proof (leaf_pte_range pa perm Hpf) as Hlr; fold (leaf_pte pa perm);
    set (s2 := set_mem (store64 (k_mem s1) (p + 8 * VA_TO_VPN a 0) (leaf_pte pa perm)) s1).
  all: assert (vm_ok s2 root pg1 kl1 ul) as Hok2 by (by apply vm_ok_write).
  all: assert (vm_mapped s pg kl s2 pg1 kl1 a pa perm 1) as H1.
  1, 3: split; [done..| | |].
  1, 4: intros va Hva; unfold s2; simpl k_mem;
    rewrite (lookup_pte_store _ root _ a va) by (unfold VA_MAX in *; first [done|lia]);
    rewrite Gl; repeat case_decide; try done; unfold PGSIZE in *;
    [f_equal; zdiv|exfalso; zdiv|exfalso; zdiv].
  1, 3: unfold s2; rewrite Gf; done.
  1, 2: intros b Hb; unfold s2; simpl k_mem; rewrite load8_store64_out;
    [by apply Gm|pose proof (Hb _ _ Hp); unfold PGSIZE in *; lia].
  - rewrite Z.mul_0_l, Z.add_0_r, Z.eqb_refl. exists s2, pg1, kl1. split; [done|].
    split; [done|]. split; [lia|done].
  - rewrite (proj2 (Z.eqb_neq _ _)) by (unfold PGSIZE; lia).
    unfold PGSIZE, VA_MAX in *. change (Z.shiftl 1 38) with (2^38) in *. rewrite !u64_small by lia.
    destruct (IH s2 root pg1 kl1 ul (a + 4096) (pa + 4096) perm fuel)
      as (s3 & pg3 & kl3 & Hr3 & Hok3 & Hl3 & [Ms Mu Mo Ml Mf Mm]); try done; try lia.
    { rewrite <- Z.add_mod_idemp_l, Ha by lia. done. }
    replace (a + Z.of_nat (S n) * 4096) with (a + 4096 + Z.of_nat n * 4096) by lia.
    exists s3, pg3, kl3. split; [done|]. split; [done|]. split; [lia|].
    destruct H1 as [Ns Nu No Nl Nf Nm]. split.
    + by etrans.
    + by etrans.
    + intros ρ q [Hq|Hq]%Mo; [by apply No|right]. by eapply elem_of_suffix.
    + intros va Hva. rewrite Ml, Nl by done. unfold PGSIZE. repeat case_decide; try done; try lia.
      f_equal. lia.
    + by eapply vm_frame_trans.
    + by eapply mem_outside_trans.
Qed.

(** ** Lemmas: unmapping *)

Lemma pt_ok_ext m m' root pg :
  (∀ π p b, pg !! π = Some p → p ≤ b < p + PGSIZE → load8 m' b = load8 m b) →
  pt_ok m root pg → pt_ok m' root pg ∧ ∀ va, lookup_pte m' pg va = lookup_pte m pg va.
Proof.
  intros Hm Hpt.
  assert (∀ π p i, pg !! π = Some p → vpn_ok i → load64 m' (p + 8 * i) = load64 m (p + 8 * i)) as H64.
  { intros π p i Hp Hi. apply load64_ext. intros b Hb. apply (Hm π p b Hp).
    unfold vpn_ok, PGSIZE in *. lia. }
  split.
  - split; [apply (pt_root _ _ _ Hpt)|apply (pt_page _ _ _ Hpt)|apply (pt_prefix _ _ _ Hpt)|
      apply (pt_inj _ _ _ Hpt)|].
    intros π p i Hp Hl Hi. rewrite (H64 π p i Hp Hi). by apply (pt_entry _ _ _ Hpt).
  - intros va. unfold lookup_pte. destruct (pg !! va_path va) as [p|] eqn:Hp; [|done].
    apply (H64 _ _ _ Hp (VA_TO_VPN_range va 0)).
Qed.

(** Page [t] is no table of [pg] and in no free list. *)
Definition page_apart (pg : ptmap) (kl ul : list Z) (t : Z) : Prop :=
  t mod PGSIZE = 0 ∧ t ∉ kl ∧ t ∉ ul ∧ ∀ π, pg !! π ≠ Some t.

(** A change that spares the tables and the free pages. *)
Lemma vm_ok_ext s s' root pg kl ul :
  vm_ok s root pg kl ul → k_kern s' = k_kern s → k_user s' = k_user s → pmem_sync s' →
  (∀ q b, (∃ π, pg !! π = Some q) ∨ q ∈ kl ++ ul → q ≤ b < q + PGSIZE → load8 (k_mem s') b = load8 (k_mem s) b) →
  vm_ok s' root pg kl ul ∧ ∀ va, lookup_pte (k_mem s') pg va = lookup_pte (k_mem s) pg va.
Proof.
  intros [Hpt Hpm Hsy Hd] Ek Eu Hsy' Hm.
  destruct (pt_ok_ext (k_mem s) (k_mem s') root pg) as [Hpt' Hlk]; [|done|].
  { intros π q b Hq. apply Hm. left. by exists π. }
  split; [|done]. split; [done| |done|done].
  assert (pmem_ok (set_mem (k_mem s') s) kl ul) as [Hk Hu Hs].
  { apply pmem_ok_mem; [|done]. intros q Hq. apply load64_ext. intros b Hb. apply (Hm q b); [by right|unfold PGSIZE; lia]. }
  split; rewrite ?Ek, ?Eu; done.
Qed.

Lemma vm_ok_page s root pg kl ul t m' :
  vm_ok s root pg kl ul → page_apart pg kl ul t →
  (∀ b, ¬ (t ≤ b < t + PGSIZE) → load8 m' b = load8 (k_mem s) b) →
  vm_ok (set_mem m' s) root pg kl ul ∧ ∀ va, lookup_pte m' pg va = lookup_pte (k_mem s) pg va.
Proof.
  intros Hok (Hal & Hk & Hu & Hp) Hm. apply (vm_ok_ext s (set_mem m' s)); try done; [by destruct Hok as [_ _ [] _]|].
  intros q b Hq Hb. apply Hm. assert (q mod PGSIZE = 0 ∧ q ≠ t) as [Hqa Hne].
  { destruct Hq as [[π Hq]|Hq].
    - destruct (pt_page _ _ _ (vo_pt _ _ _ _ _ Hok) _ _ Hq) as ([Hqa _] & _). split; [done|]. intros ->. by apply (Hp π).
    - split; [by eapply pmem_page_aligned; [apply Hok|]|]. intros ->. by apply elem_of_app in Hq as [?|?]. }
  destruct (page_aligned_apart q t Hqa Hal Hne); lia.
Qed.

(** Freeing a page beside a page table. *)
Lemma vm_ok_push k s root pg kl ul pa :
  vm_ok s root pg kl ul → page_in (get_region k s) pa → pa ∉ pick k kl ul →
  (∀ π p, pg !! π = Some p → p ≠ pa) →
  vm_ok (pushed k pa s) root pg (if k then pa :: kl else kl) (if k then ul else pa :: ul) ∧
  ∀ va, lookup_pte (k_mem (pushed k pa s)) pg va = lookup_pte (k_mem s) pg va.
Proof.
  intros [Hpt Hpm Hsy Hdj] Hin Hni Hnt.
  destruct (pt_ok_ext (k_mem s) (k_mem (pushed k pa s)) root pg) as [Hpt' Hlook]; [|done|].
  { intros π p b Hp Hb. destruct (pt_page _ _ _ Hpt _ _ Hp) as ([Hpa _] & _).
    pose proof (page_aligned_apart p pa Hpa (proj1 Hin) (Hnt _ _ Hp)).
    destruct k; simpl; apply load8_store64_out; unfold PGSIZE in *; lia. }
  split; [|done]. split; [done|by apply pmem_ok_push|by apply pushed_sync|].
  intros π p Hp. destruct (Hdj π p Hp) as [Hk Hu]. destruct k; rewrite ?not_elem_of_cons; by repeat split; try eapply Hnt.
Qed.

(** A change outside memory, the pools and the locks. *)
Lemma vm_ok_frame s s' root pg kl ul :
  vm_ok s root pg kl ul → k_mem s' = k_mem s → k_kern s' = k_kern s → k_user s' = k_user s →
  k_locks s' = k_locks s → hart_stable (k_hart s') → vm_ok s' root pg kl ul.
Proof.
  intros Hok Em Ek Eu El Hst. apply (vm_ok_ext s s'); try done; [|intros; by rewrite Em].
  destruct Hok as [_ _ [_ Hlk Hlu] _]. split; [done|unfold lock_idle in *; by rewrite El..].
Qed.

(** The page an address is mapped to. *)
Definition mapped_pa (m : mem) (pg : ptmap) (va : Z) : Z := PTE_TO_PA (lookup_pte m pg va).

(** What [vm_unmappages] requires of one page. *)
Definition unmappable (s : kstate) (pg : ptmap) (va : Z) : Prop :=
  pte_valid (lookup_pte (k_mem s) pg va) = true ∧ PTE_FLAGS (lookup_pte (k_mem s) pg va) ≠ PTE_V.

(** Page [pa] can be returned to the user pool: it is a page of the region that
    is neither free nor a table. *)
Definition releasable (s : kstate) (pg : ptmap) (ul : list Z) (pa : Z) : Prop :=
  page_in (k_user s) pa ∧ (pa ∉ ul) ∧ ∀ π p, pg !! π = Some p → p ≠ pa.

(** The test of [vm_unmappages] that tells the two pools apart. *)
Definition in_kernel_pool (s : kstate) (pa : Z) : bool :=
  (ALLOC_BEGIN (k_syms s) <=? pa) && (pa <? u64 (ALLOC_BEGIN (k_syms s) + KERNEL_PAGES * PGSIZE)).

(** One turn of the loop of [vm_unmappages]; a page that is freed goes to pool [k]. *)
Lemma unmap_one k s root pg kl ul a freeit :
  vm_ok s root pg kl ul → 0 ≤ a < VA_MAX → unmappable s pg a →
  (freeit = true → let pa := mapped_pa (k_mem s) pg a in
     in_kernel_pool s pa = k ∧ page_in (get_region k s) pa ∧ (pa ∉ pick k kl ul) ∧ ∀ π p, pg !! π = Some p → p ≠ pa) →
  ∃ p s1, pg !! va_path a = Some p ∧
    (∀ c : K unit, (pte ← vm_getpte root a false;
      (if pte =? 0 then panic "vm_unmappages: walk" else mret tt);;
      e ← read64 pte;
      (if pte_valid e then mret tt else panic "vm_unmappages: not mapped");;
      (if PTE_FLAGS e =? PTE_V then panic "vm_unmappages: not a leaf" else mret tt);;
      (if freeit then
         let pa := PTE_TO_PA e in
         begin ← gets (λ s, ALLOC_BEGIN (k_syms s));
         let kern_end := u64 (begin + KERNEL_PAGES * PGSIZE) in
         pmem_free pa ((begin <=? pa) && (pa <? kern_end))
       else mret tt);;
      write64 pte 0;; c) s = c s1) ∧
    s1 = set_mem (store64 (k_mem (if freeit then pushed k (mapped_pa (k_mem s) pg a) s else s))
           (p + 8 * VA_TO_VPN a 0) 0)
         (if freeit then pushed k (mapped_pa (k_mem s) pg a) s else s) ∧
    vm_ok s1 root pg (if freeit && k then mapped_pa (k_mem s) pg a :: kl else kl)
      (if freeit && negb k then mapped_pa (k_mem s) pg a :: ul else ul) ∧
    (∀ va, 0 ≤ va < VA_MAX → lookup_pte (k_mem s1) pg va =
       if decide (va / PGSIZE = a / PGSIZE) then 0 else lookup_pte (k_mem s) pg va).
Proof.
  intros Hok Ha [Hv Hf] Hfree. pose proof (vo_pt _ _ _ _ _ Hok) as Hpt.
  pose proof (vm_getpte_lookup s root pg a Hpt ltac:(lia)) as Hget.
  unfold mapped_pa in *. unfold lookup_pte at 1 in Hv. unfold lookup_pte at 1 in Hf.
  destruct (pg !! va_path a) as [p|] eqn:Hp; [|by rewrite pte_valid_odd in Hv].
  destruct (pt_page _ _ _ Hpt _ _ Hp) as ((_ & Hp0) & _). pose proof (VA_TO_VPN_range a 0) as Hvr.
  unfold vpn_ok in Hvr.
  assert (lookup_pte (k_mem s) pg a = load64 (k_mem s) (p + 8 * VA_TO_VPN a 0)) as Hl
    by (unfold lookup_pte; by rewrite Hp).
  eexists p, _. split; [done|]. split; [|split; [reflexivity|]].
  - intros c. run Hget. unfold read64, write64. mrun.
    rewrite (proj2 (Z.eqb_neq _ 0)) by lia. rewrite Hv, (proj2 (Z.eqb_neq _ _) Hf), Hl.
    destruct freeit; [|done]. destruct (Hfree eq_refl) as (Hpool & Hin & Hni & Hnt). rewrite Hl in *.
    unfold in_kernel_pool in Hpool. rewrite Hpool.
    rewrite (bind_ok _ _ _ _ _ (pmem_free_some k s _ (vo_sync _ _ _ _ _ Hok) Hin)). done.
  - destruct freeit.
    + destruct (Hfree eq_refl) as (_ & Hin & Hni & Hnt).
      destruct (vm_ok_push k s root pg kl ul _ Hok Hin Hni Hnt) as [Hok1 Hlook].
      split; [destruct k; by apply vm_ok_write|]. intros va Hva. simpl k_mem at 1.
      rewrite (lookup_pte_store _ root _ a va) by first [done|apply Hok1].
      by rewrite Hlook.
    + split; [by apply vm_ok_write|]. intros va Hva. simpl k_mem at 1.
      by rewrite (lookup_pte_store _ root _ a va).
Qed.

(** The pages behind [n] consecutive mappings from [a], the last one first. *)
Fixpoint mapped_down (m : mem) (pg : ptmap) (a : Z) (n : nat) : list Z :=
  match n with
  | O => []
  | S n => mapped_pa m pg (a + Z.of_nat n * PGSIZE) :: mapped_down m pg a n
  end.

Lemma mapped_down_suffix m pg a i n :
  (i ≤ n)%nat → ∃ l, mapped_down m pg a n = l ++ mapped_down m pg a i.
Proof.
  induction 1 as [|n _ [l IH]]; [by exists []|]. simpl. rewrite IH. by eexists (_ :: l).
Qed.

Definition freed_pages (freeit : bool) (m : mem) (pg : ptmap) (a : Z) (n : nat) : list Z :=
  if freeit then mapped_down m pg a n else [].

(** Relative to [s0], the first [i] pages from [a] are unmapped. *)
Record vm_unmapped (s0 : kstate) (root : Z) (pg : ptmap) (kl ul : list Z) (a : Z) (freeit : bool)
    (i : nat) (s : kstate) : Prop := {
  vu_ok : vm_ok s root pg kl (freed_pages freeit (k_mem s0) pg a i ++ ul);
  vu_look va : 0 ≤ va < VA_MAX → lookup_pte (k_mem s) pg va =
    if decide (a ≤ va < a + Z.of_nat i * PGSIZE) then 0 else lookup_pte (k_mem s0) pg va;
  vu_syms : k_syms s = k_syms s0;
  vu_begin : r_begin (k_user s) = r_begin (k_user s0);
  vu_end : r_end (k_user s) = r_end (k_user s0) }.

Lemma vm_unmap_step s0 root pg kl ul a freeit N i s :
  vm_unmapped s0 root pg kl ul a freeit i s → (i < N)%nat →
  a mod PGSIZE = 0 → 0 ≤ a → a + Z.of_nat N * PGSIZE ≤ VA_MAX →
  u64 (ALLOC_BEGIN (k_syms s0) + KERNEL_PAGES * PGSIZE) ≤ r_begin (k_user s0) →
  (∀ j, (j < N)%nat → unmappable s0 pg (a + Z.of_nat j * PGSIZE)) →
  (freeit = true → NoDup (mapped_down (k_mem s0) pg a N) ∧
     ∀ j, (j < N)%nat → releasable s0 pg ul (mapped_pa (k_mem s0) pg (a + Z.of_nat j * PGSIZE))) →
  ∃ s1, vm_unmapped s0 root pg kl ul a freeit (S i) s1 ∧
    ∀ fuel, vm_unmap_loop (S fuel) root (a + Z.of_nat i * PGSIZE) (a + Z.of_nat N * PGSIZE) freeit s =
      vm_unmap_loop fuel root (a + Z.of_nat (S i) * PGSIZE) (a + Z.of_nat N * PGSIZE) freeit s1.
Proof.
  intros [Uok Ul Us Ub Ue] Hi Ha Ha0 Hmax Hk Hun Hfr. set (x := a + Z.of_nat i * PGSIZE).
  assert (0 ≤ x < VA_MAX) as Hx by (unfold x, PGSIZE in *; lia).
  assert (lookup_pte (k_mem s) pg x = lookup_pte (k_mem s0) pg x) as Hlx.
  { rewrite Ul by done. rewrite decide_False by (unfold x; lia). done. }
  destruct (unmap_one false s root pg kl _ x freeit Uok Hx) as (p & s1 & Hp & Hrun & Hs1 & Hok1 & Hl1).
  - unfold unmappable. rewrite Hlx. by apply Hun.
  - intros ->. destruct (Hfr eq_refl) as [Hnd Hrel]. destruct (Hrel i Hi) as ([Hal Hrg] & Hni & Hnt).
    unfold mapped_pa. rewrite Hlx. fold x in Hni, Hnt, Hal, Hrg. cbv zeta. fold (mapped_pa (k_mem s0) pg x).
    split; [|split; [|split; [|done]]].
    + unfold in_kernel_pool. rewrite Us. apply andb_false_iff. right. apply Z.ltb_ge. lia.
    + split; [done|]. simpl get_region. by rewrite Ub, Ue.
    + destruct (mapped_down_suffix (k_mem s0) pg a (S i) N Hi) as [l Hl]. rewrite Hl in Hnd.
      apply NoDup_app in Hnd as (_ & _ & Hnd). simpl in Hnd. apply NoDup_cons in Hnd as [Hnd _].
      simpl. by rewrite not_elem_of_app.
  - exists s1. split.
    + split.
      * unfold mapped_pa in Hok1. rewrite Hlx in Hok1. by destruct freeit.
      * intros va Hva. rewrite Hl1, Ul by done. unfold x, PGSIZE in *.
        repeat case_decide; try done; exfalso; zdiv.
      * rewrite Hs1. by destruct freeit.
      * rewrite Hs1. by destruct freeit.
      * rewrite Hs1. by destruct freeit.
    + intros fuel. cbn [vm_unmap_loop].
      rewrite (proj2 (Z.ltb_lt _ _)) by (unfold x, PGSIZE in *; lia).
      etransitivity; [apply (Hrun (vm_unmap_loop fuel root (u64 (x + PGSIZE)) _ freeit))|].
      f_equal. unfold x, PGSIZE, VA_MAX in *. change (Z.shiftl 1 38) with (2^38) in *.
      rewrite u64_small by lia. lia.
Qed.

Lemma vm_unmap_loop_run s0 root pg kl ul a freeit N :
  a mod PGSIZE = 0 → 0 ≤ a → a + Z.of_nat N * PGSIZE ≤ VA_MAX →
  u64 (ALLOC_BEGIN (k_syms s0) + KERNEL_PAGES * PGSIZE) ≤ r_begin (k_user s0) →
  (∀ j, (j < N)%nat → unmappable s0 pg (a + Z.of_nat j * PGSIZE)) →
  (freeit = true → NoDup (mapped_down (k_mem s0) pg a N) ∧
     ∀ j, (j < N)%nat → releasable s0 pg ul (mapped_pa (k_mem s0) pg (a + Z.of_nat j * PGSIZE))) →
  ∀ n i s, (i + n)%nat = N → vm_unmapped s0 root pg kl ul a freeit i s →
  ∃ s1, vm_unmap_loop (S n) root (a + Z.of_nat i * PGSIZE) (a + Z.of_nat N * PGSIZE) freeit s = Ok (tt, s1) ∧
    vm_unmapped s0 root pg kl ul a freeit N s1.
Proof.
  intros Ha Ha0 Hmax Hk Hun Hfr. induction n as [|n IH]; intros i s HN HU.
  - replace i with N in * by lia. exists s. split; [|done].
    simpl. rewrite Z.ltb_irrefl. done.
  - destruct (vm_unmap_step s0 root pg kl ul a freeit N i s HU) as (s1 & HU1 & Hstep); try done; [lia|].
    destruct (IH (S i) s1) as (s2 & Hr & HU2); [lia|done|]. exists s2. by rewrite Hstep.
Qed.

Lemma vm_unmapped_0 s root pg kl ul a freeit :
  vm_ok s root pg kl ul → vm_unmapped s root pg kl ul a freeit 0 s.
Proof.
  intros Hok. split; try done.
  - by destruct freeit.
  - intros va Hva. rewrite decide_False by lia. done.
Qed.

Lemma vm_unmappages_run (s : kstate) (root : Z) (pg : ptmap) (kl ul : list Z)
    (a : Z) (freeit : bool) (N : nat) :
  vm_ok s root pg kl ul → a mod PGSIZE = 0 → 0 ≤ a → a + Z.of_nat N * PGSIZE ≤ VA_MAX →
  u64 (ALLOC_BEGIN (k_syms s) + KERNEL_PAGES * PGSIZE) ≤ r_begin (k_user s) →
  (∀ j, (j < N)%nat → unmappable s pg (a + Z.of_nat j * PGSIZE)) →
  (freeit = true → NoDup (mapped_down (k_mem s) pg a N) ∧
     ∀ j, (j < N)%nat → releasable s pg ul (mapped_pa (k_mem s) pg (a + Z.of_nat j * PGSIZE))) →
  ∃ s1, vm_unmappages root a (Z.of_nat N * PGSIZE) freeit s = Ok (tt, s1) ∧
    vm_unmapped s root pg kl ul a freeit N s1.
Proof.
  intros Hok Ha Ha0 Hmax Hk Hun Hfr. unfold vm_unmappages. mrun.
  rewrite Ha, Z.eqb_refl.
  unfold VA_MAX in Hmax. change (Z.shiftl 1 38) with (2^38) in Hmax.
  rewrite u64_small by (unfold PGSIZE in *; lia).
  destruct (vm_unmap_loop_run s root pg kl ul a freeit N Ha Ha0 Hmax Hk Hun Hfr N 0 s eq_refl
    (vm_unmapped_0 _ _ _ _ _ _ _ Hok)) as (s1 & Hr & HU).
  exists s1. split; [|done]. rewrite Z.add_0_r in Hr. rewrite <- Hr. do 2 f_equal.
  unfold PGSIZE. zdiv.
Qed.

(** ** A fresh table *)

Lemma pt_ok_root m q :
  table_page q → (∀ i, vpn_ok i → pte_valid (load64 m (q + 8 * i)) = false) → pt_ok m q {[ [] := q ]}.
Proof.
  intros Hq Hz. split.
  - by rewrite lookup_singleton_eq.
  - intros π p [<- <-]%lookup_singleton_Some. split; [done|]. split; [simpl; lia|constructor].
  - intros π i x [Hx _]%lookup_singleton_Some. by destruct π.
  - by intros π π' p [<- _]%lookup_singleton_Some [<- _]%lookup_singleton_Some.
  - intros π p i [<- <-]%lookup_singleton_Some _ Hi. rewrite lookup_singleton_ne by done. by apply Hz.
Qed.

Lemma same_page_lookup (m : mem) (g : ptmap) v va :
  v mod PGSIZE = 0 → 0 ≤ v → v ≤ va < v + PGSIZE → lookup_pte m g va = lookup_pte m g v.
Proof.
  intros Hv H0 Hva. unfold lookup_pte. destruct (va_page_eq va v) as [-> ->]; [lia|lia|unfold PGSIZE in *; zdiv|done].
Qed.

(** ** A table with one page *)

Section one_page.
  Context (root t1 t2 va pa perm : Z).

(** The tables [root], [t1], [t2] with the page of [va] mapped to [pa]. *)
Definition one_page (m : mem) : mem :=
  store64 (store64 (memset (store64 (memset m t1 0 PGSIZE) (root + 8 * VA_TO_VPN va 2) (Z.lor (PA_TO_PTE t1) PTE_V))
    t2 0 PGSIZE) (t1 + 8 * VA_TO_VPN va 1) (Z.lor (PA_TO_PTE t2) PTE_V)) (t2 + 8 * VA_TO_VPN va 0) (leaf_pte pa perm).

Definition one_pg : ptmap := <[va_path va := t2]> (<[[VA_TO_VPN va 2] := t1]> {[ [] := root ]}).

Lemma one_pg_page π q : one_pg !! π = Some q → π = [] ∧ q = root ∨ π ≠ [] ∧ (q = t1 ∨ q = t2).
Proof.
  unfold one_pg. intros [[<- <-]|[_ Hp]]%lookup_insert_Some; [by right; split; [|right]|].
  apply lookup_insert_Some in Hp as [[<- <-]|[_ Hp]]; [by right; split; [|left]|]. apply lookup_singleton_Some in Hp as [<- <-]. tauto.
Qed.

Lemma one_pg_leaf π q : one_pg !! π = Some q → length π = 2%nat → π = va_path va ∧ q = t2.
Proof.
  unfold one_pg. intros [[<- <-]|[_ Hp]]%lookup_insert_Some Hl; [done|].
  apply lookup_insert_Some in Hp as [[<- _]|[_ Hp]]; [done|]. apply lookup_singleton_Some in Hp as [<- _]. done.
Qed.

Lemma one_page_out m b :
  (∀ t, t = root ∨ t = t1 ∨ t = t2 → ¬ (t ≤ b < t + PGSIZE)) → load8 (one_page m) b = load8 m b.
Proof.
  intros Hb. pose proof (Hb root ltac:(tauto)). pose proof (Hb t1 ltac:(tauto)). pose proof (Hb t2 ltac:(tauto)).
  pose proof (VA_TO_VPN_range va 0). pose proof (VA_TO_VPN_range va 1). pose proof (VA_TO_VPN_range va 2). unfold vpn_ok, PGSIZE in *.
  unfold one_page. rewrite !load8_store64_out, memset_page_out by (unfold PGSIZE; lia).
  by rewrite load8_store64_out, memset_page_out by (unfold PGSIZE; lia).
Qed.

Context (Hroot : table_page root) (Ht1 : table_page t1) (Ht2 : table_page t2).
Context (H1 : root ≠ t1) (H2 : root ≠ t2) (H12 : t1 ≠ t2) (Hperm : 0 ≤ perm < 1024).

Lemma one_page_ok m : (∀ i, vpn_ok i → load64 m (root + 8 * i) = 0) → pt_ok (one_page m) root one_pg.
Proof.
  intros Hm. pose proof (VA_TO_VPN_range va) as Hv. unfold one_page, one_pg, va_path.
  apply (leaf_store _ _ _ (va_path va)); [|by rewrite lookup_insert_eq|done|done].
  eapply (table_insert _ root (<[[VA_TO_VPN va 2] := t1]> {[ [] := root ]}) [VA_TO_VPN va 2] t1 (VA_TO_VPN va 1) t2);
    [|by rewrite lookup_insert_eq|simpl; lia|done| |done|].
  - eapply (table_insert m root {[ [] := root ]} [] root (VA_TO_VPN va 2) t1);
      [|by rewrite lookup_singleton_eq|simpl; lia|done|by rewrite lookup_singleton_ne|done|].
    + apply pt_ok_root; [done|]. intros i Hi. by rewrite Hm.
    + by intros ρ x [_ <-]%lookup_singleton_Some.
  - rewrite lookup_insert_ne by done. by rewrite lookup_singleton_ne.
  - intros ρ x [[_ <-]|[_ [_ <-]%lookup_singleton_Some]]%lookup_insert_Some; done.
Qed.

Lemma one_page_lookup m : lookup_pte (one_page m) one_pg va = leaf_pte pa perm.
Proof. unfold lookup_pte, one_pg, one_page. rewrite lookup_insert_eq. rewrite load64_store64_eq; [done|]. by apply leaf_pte_range. Qed.

(** All other entries of the level-0 table are empty. *)
Lemma one_page_slot m k : vpn_ok k → k ≠ VA_TO_VPN va 0 → load64 (one_page m) (t2 + 8 * k) = 0.
Proof.
  intros Hk Hne. pose proof (VA_TO_VPN_range va) as Hv. unfold one_page.
  rewrite load64_store64_ne by (destruct (slots_apart t2 t2 k (VA_TO_VPN va 0)); auto; lia).
  rewrite load64_store64_ne by (destruct (slots_apart t2 t1 k (VA_TO_VPN va 1)); auto; lia).
  pose proof (vpn_slot t2 k Hk). rewrite load64_zero_page; [done|destruct Ht2; lia|lia].
Qed.

(** Another table is left alone. *)
Lemma one_page_keep m root' pg' :
  pt_ok m root' pg' → (∀ π q, pg' !! π = Some q → q ≠ root ∧ q ≠ t1 ∧ q ≠ t2) →
  pt_ok (one_page m) root' pg' ∧ (∀ x, lookup_pte (one_page m) pg' x = lookup_pte m pg' x) ∧
  ∀ π q b, pg' !! π = Some q → q ≤ b < q + PGSIZE → load8 (one_page m) b = load8 m b.
Proof using Hroot Ht1 Ht2.
  intros Hpt Hne. assert (∀ π q b, pg' !! π = Some q → q ≤ b < q + PGSIZE → load8 (one_page m) b = load8 m b) as Hm.
  { intros π q b Hq Hb. apply one_page_out. destruct (pt_page _ _ _ Hpt _ _ Hq) as ([Hqa _] & _).
    destruct (Hne π q Hq) as (? & ? & ?), Hroot as [Ha _], Ht1 as [Hb1 _], Ht2 as [Hb2 _].
    intros t [->|[-> | ->]]; [destruct (page_aligned_apart q root)|destruct (page_aligned_apart q t1)|destruct (page_aligned_apart q t2)];
      (clear H1 H2 H12 Hperm; done || lia). }
  destruct (pt_ok_ext m (one_page m) root' pg' Hm Hpt). done.
Qed.

Lemma one_page_zero m q i :
  table_page q → q ≠ root → q ≠ t1 → q ≠ t2 → vpn_ok i → load64 (one_page m) (q + 8 * i) = load64 m (q + 8 * i).
Proof using Hroot Ht1 Ht2.
  intros [Hq _] Hn Hn1 Hn2 Hi. apply load64_ext. intros b Hb. apply one_page_out. pose proof (vpn_slot q i Hi).
  destruct Hroot as [Ha _], Ht1 as [Hb1 _], Ht2 as [Hb2 _].
  intros t [->|[-> | ->]]; [destruct (page_aligned_apart q root)|destruct (page_aligned_apart q t1)|destruct (page_aligned_apart q t2)];
    (clear H1 H2 H12 Hperm; done || lia).
Qed.

End one_page.

Lemma alloc_pgtbl_fresh s q l ul :
  pmem_sync s → pmem_ok s (q :: l) ul →
  ∃ s1, alloc_pgtbl s = Ok (q, s1) ∧ vm_ok s1 q {[ [] := q ]} l ul ∧ vm_frame s s1 ∧
    ∀ va, lookup_pte (k_mem s1) {[ [] := q ]} va = 0.
Proof.
  intros Hsy Hpm.
  destruct (alloc_pgtbl_run s q l ul Hsy Hpm) as (r & Hr & Hsy1 & Hpm1 & Hq & Hnl & Hnu).
  eexists. split; [exact Hr|]. split; [|split; [apply vm_frame_set1|
    by intros va; unfold lookup_pte; rewrite lookup_singleton_ne]].
  split; [|done|done|].
  - apply pt_ok_root; [done|]. intros i Hi. simpl k_mem. pose proof (vpn_slot q i Hi).
    by rewrite load64_zero_page by (destruct Hq; lia).
  - by intros π p [_ <-]%lookup_singleton_Some.
Qed.

(** The allocator after boot on an image that leaves three user pages, and the
    first table. *)
Lemma vm_ok_boot :
  ∃ s root kl ul, vm_ok s root {[ [] := root ]} kl ul ∧ (length kl = 1023)%nat ∧
    (length ul = 3)%nat ∧ k_syms s = image_syms 3 ∧ r_begin (k_user s) = 0x87ffd000 ∧
    ∀ va, lookup_pte (k_mem s) {[ [] := root ]} va = 0.
Proof.
  destruct (pmem_init_run (zero_state (image_syms 3)) 3 ltac:(by right) eq_refl eq_refl)
    as (s & _ & Hs & Hy & Hb & Hp).
  pose proof (pages_down_length (ALLOC_BEGIN (k_syms (zero_state (image_syms 3))))
    (Z.to_nat KERNEL_PAGES)) as Hn.
  destruct (pages_down _ (Z.to_nat KERNEL_PAGES)) as [|q l] eqn:Hl in Hp, Hn; [by exfalso|].
  change (Z.to_nat KERNEL_PAGES) with 1024%nat in Hn. apply (f_equal Nat.pred) in Hn. simpl in Hn.
  destruct (alloc_pgtbl_fresh s q l _ Hs Hp) as (s1 & _ & Hok & Hf & Hz).
  eexists s1, q, l, _. split; [exact Hok|]. split; [done|]. split; [apply pages_down_length|].
  rewrite Hf. split; [exact Hy|]. split; [exact Hb|]. rewrite <- Hf. exact Hz.
Qed.

(** The same with a user page mapped at address 0x1000. *)
Lemma vm_ok_sample :
  ∃ s root pg kl ul, vm_ok s root pg kl ul ∧ (4 ≤ length kl)%nat ∧
    unmappable s pg 0x1000 ∧ releasable s pg ul (mapped_pa (k_mem s) pg 0x1000) ∧
    k_syms s = image_syms 3 ∧ r_begin (k_user s) = 0x87ffd000.
Proof.
  destruct vm_ok_boot as (s & root & kl & ul & Hok & Hkl & Hul & Hy & Hb & Hz).
  destruct ul as [|u ul]; [done|]. destruct Hok as [Hpt Hpm Hsy Hdj].
  destruct (pmem_alloc_some false s kl (u :: ul) u ul Hsy Hpm eq_refl)
    as (r & _ & Hrb & Hre & Hin & Hni & Hok). simpl in *.
  assert (table_page u) as Hu.
  { destruct Hin as [Ha Hr]. pose proof (ro_bounds _ _ _ (po_user _ _ _ Hok)) as Hbd. simpl in Hbd.
    unfold PHYSTOP, KERNEL_BASE in *. split; [done|lia]. }
  assert (vm_ok (set_user r s) root {[ [] := root ]} kl ul) as Hok1.
  { split; [done|done| |].
    - destruct Hsy as [? [??] [??]]. split; [done|by eexists..].
    - intros π p Hp. destruct (Hdj π p Hp) as [Hk Hq]. split; [done|]. intros Hp'. apply Hq. by right. }
  destruct (vm_map_loop_run 0 (set_user r s) root _ kl ul 0x1000 u 7 1 Hok1)
    as (s1 & pg1 & kl1 & _ & Hok2 & Hl2 & Hm); try done; try (unfold PGSIZE; lia).
  { destruct Hu. lia. }
  { unfold PGSIZE. destruct Hin as [_ Hr].
    pose proof (ro_bounds _ _ _ (po_user _ _ _ Hok)) as Hbd. simpl in Hbd.
    unfold PHYSTOP, KERNEL_BASE in *. lia. }
  assert (lookup_pte (k_mem s1) pg1 0x1000 = leaf_pte u 7) as Hlk.
  { rewrite (vm_look _ _ _ _ _ _ _ _ _ _ Hm) by done. rewrite decide_True by (unfold PGSIZE; lia).
    f_equal. unfold PGSIZE. change (0x1000 / 4096 * 4096) with 0x1000. lia. }
  assert (leaf_pte u 7 = Z.lor (PA_TO_PTE u) 7) as Hlp.
  { unfold leaf_pte, PTE_V. by rewrite <- Z.lor_assoc. }
  destruct (pte_roundtrip u 7 Hu ltac:(lia)) as (Hr1 & Hr2 & _).
  assert (k_syms s1 = k_syms s ∧ k_user s1 = r) as [Hsy1 Hus1]
    by (rewrite (vm_fr _ _ _ _ _ _ _ _ _ _ Hm); done).
  exists s1, root, pg1, kl1, ul. unfold unmappable, releasable, mapped_pa. rewrite Hlk, Hlp, Hr1, Hr2.
  split; [done|]. split; [lia|]. split; [|split; [|by rewrite Hsy1, Hus1, Hrb]].
  - split; [by apply pte_valid_lor|done].
  - rewrite Hus1. split; [done|]. split; [done|]. intros π p Hp ->.
    destruct (vm_from _ _ _ _ _ _ _ _ _ _ Hm π u Hp) as [Hx|Hx].
    + destruct (Hdj π u Hx) as [_ Hq]. apply Hq. by left.
    + by apply (page_in_other _ _ _ false u Hok Hin).
Qed.

(** ** Claims *)

(** the walk without allocation finds exactly the level-0 entry that the
    table holds for [va] (NULL when an intermediate table is missing) and changes
    nothing; with allocation, and two free kernel pages at hand, it always returns
    the address of that entry, growing the table by at most two cleared pages,
    without changing the entry of any address. *)
Theorem vm_getpte_correct (s : kstate) (root : Z) (pg : ptmap) (kl ul : list Z) (va : Z) :
  vm_ok s root pg kl ul → va < VA_MAX →
  vm_getpte root va false s =
    Ok (match pg !! va_path va with Some p => p + 8 * VA_TO_VPN va 0 | None => 0 end, s) ∧
  ((2 ≤ length kl)%nat →
   ∃ s1 pg1 kl1 p, vm_getpte root va true s = Ok (p + 8 * VA_TO_VPN va 0, s1) ∧
     pg1 !! va_path va = Some p ∧ vm_ok s1 root pg1 kl1 ul ∧ vm_grow 2 s pg kl s1 pg1 kl1).
Proof.
  intros Hok Hva. split; [apply vm_getpte_lookup; [apply Hok|done]|].
  intros Hk. by apply vm_getpte_alloc.
Qed.

(** C8: [vm_mappages] of [va, va+len) to [pa, pa+len): with enough free kernel
    pages for intermediate tables it terminates without panic; afterwards every page
    of the range is mapped to the corresponding physical page with the given
    permissions (valid bit added), every other address is mapped as before, and
    memory outside the table pages is unchanged. *)
Theorem vm_mappages_correct (s : kstate) (root : Z) (pg : ptmap) (kl ul : list Z)
    (va pa len perm : Z) (n : nat) :
  vm_ok s root pg kl ul → 0 ≤ va → 0 < len → va + len ≤ VA_MAX →
  0 ≤ pa → pa + Z.of_nat (S n) * PGSIZE ≤ 2^56 → 0 ≤ perm < 1024 →
  PG_ROUND_DOWN (va + len - 1) = PG_ROUND_DOWN va + Z.of_nat n * PGSIZE →
  (2 * S n ≤ length kl)%nat →
  ∃ s1 pg1 kl1, vm_mappages root va pa len perm s = Ok (tt, s1) ∧
    vm_ok s1 root pg1 kl1 ul ∧ (length kl ≤ length kl1 + 2 * S n)%nat ∧
    vm_mapped s pg kl s1 pg1 kl1 (PG_ROUND_DOWN va) pa perm (S n).
Proof.
  intros Hok Hva Hlen Hmax Hpa Hpm Hpf Hn Hk. unfold vm_mappages. mrun.
  rewrite (proj2 (Z.eqb_neq len 0)) by lia.
  unfold VA_MAX in Hmax. change (Z.shiftl 1 38) with (2^38) in Hmax.
  rewrite (u64_small (va + len - 1)) by lia. rewrite Hn.
  rewrite Z.add_simpl_l, u64_small, Z.div_mul, Nat2Z.id; try (unfold PGSIZE; lia).
  - pose proof (PG_ROUND_DOWN_range va). pose proof (PG_ROUND_DOWN_range (va + len - 1)).
    pose proof (PG_ROUND_DOWN_aligned va) as Hal. unfold PGSIZE in *.
    apply vm_map_loop_run; try done; try lia.
    + rewrite PG_ROUND_DOWN_spec. unfold PGSIZE. zdiv.
    + unfold VA_MAX, PGSIZE. change (Z.shiftl 1 38) with (2^38). zdiv.
  - pose proof (PG_ROUND_DOWN_range (va + len - 1)). pose proof (PG_ROUND_DOWN_range va).
    unfold PGSIZE in *. lia.
Qed.

(** C9: [vm_unmappages] of [n] mapped pages clears exactly their entries; with
    [freeit] every physical page behind them returns to the user pool, exactly
    once. *)
Theorem vm_unmappages_correct (s : kstate) (root : Z) (pg : ptmap) (kl ul : list Z)
    (a : Z) (freeit : bool) (N : nat) :
  vm_ok s root pg kl ul → a mod PGSIZE = 0 → 0 ≤ a → a + Z.of_nat N * PGSIZE ≤ VA_MAX →
  u64 (ALLOC_BEGIN (k_syms s) + KERNEL_PAGES * PGSIZE) ≤ r_begin (k_user s) →
  (∀ j, (j < N)%nat → unmappable s pg (a + Z.of_nat j * PGSIZE)) →
  (freeit = true → NoDup (mapped_down (k_mem s) pg a N) ∧
     ∀ j, (j < N)%nat → releasable s pg ul (mapped_pa (k_mem s) pg (a + Z.of_nat j * PGSIZE))) →
  ∃ s1, vm_unmappages root a (Z.of_nat N * PGSIZE) freeit s = Ok (tt, s1) ∧
    vm_unmapped s root pg kl ul a freeit N s1.
Proof. apply vm_unmappages_run. Qed.

Lemma vm_getpte_correct_witness :
  ∃ s root pg kl ul, vm_ok s root pg kl ul ∧
  vm_getpte root 0x3000 false s =
    Ok (match pg !! va_path 0x3000 with Some p => p + 8 * VA_TO_VPN 0x3000 0 | None => 0 end, s) ∧
  ((2 ≤ length kl)%nat →
   ∃ s1 pg1 kl1 p, vm_getpte root 0x3000 true s = Ok (p + 8 * VA_TO_VPN 0x3000 0, s1) ∧
     pg1 !! va_path 0x3000 = Some p ∧ vm_ok s1 root pg1 kl1 ul ∧ vm_grow 2 s pg kl s1 pg1 kl1).
Proof.
  destruct vm_ok_boot as (s & root & kl & ul & Hok & _).
  exists s, root, {[ [] := root ]}, kl, ul. split; [exact Hok|].
  apply (vm_getpte_correct s root _ kl ul 0x3000 Hok). reflexivity.
Defined.

Lemma vm_mappages_correct_witness :
  ∃ s root pg kl ul s1 pg1 kl1, vm_ok s root pg kl ul ∧
    vm_mappages root 0x1ff0 0x80100000 0x20 6 s = Ok (tt, s1) ∧
    vm_ok s1 root pg1 kl1 ul ∧ (length kl ≤ length kl1 + 2 * 2)%nat ∧
    vm_mapped s pg kl s1 pg1 kl1 (PG_ROUND_DOWN 0x1ff0) 0x80100000 6 2.
Proof.
  destruct vm_ok_boot as (s & root & kl & ul & Hok & Hkl & _).
  destruct (vm_mappages_correct s root _ kl ul 0x1ff0 0x80100000 0x20 6 1 Hok)
    as (s1 & pg1 & kl1 & H); [lia|lia|by vm_compute|lia|by vm_compute|lia|reflexivity|lia|].
  exists s, root, {[ [] := root ]}, kl, ul, s1, pg1, kl1. split; [exact Hok|exact H].
Defined.

Lemma vm_unmappages_correct_witness :
  ∃ s root pg kl ul s1, vm_ok s root pg kl ul ∧
    vm_unmappages root 0x1000 (Z.of_nat 1 * PGSIZE) true s = Ok (tt, s1) ∧
    vm_unmapped s root pg kl ul 0x1000 true 1 s1.
Proof.
  destruct vm_ok_sample as (s & root & pg & kl & ul & Hok & _ & Hun & Hre & Hy & Hb).
  destruct (vm_unmappages_correct s root pg kl ul 0x1000 true 1 Hok) as (s1 & H);
    [reflexivity|lia|by vm_compute|rewrite Hy, Hb; by vm_compute| | |].
  - intros [|j] Hj; [exact Hun|lia].
  - intros _. split; [apply NoDup_singleton|]. intros [|j] Hj; [exact Hre|lia].
  - exists s, root, pg, kl, ul, s1. split; [exact Hok|exact H].
Defined.
