(* ===== verification/Sched.v ===== *)
(** * Scheduling: sleep, wakeup, switch (kernel/proc/proc.c)

    The half of proc.c that the device drivers call: [proc_wakeup],
    [proc_sleep], [proc_sched], [proc_yield] and the scheduler's loop over the
    process table.  [swtch] is assembly; what happens between the switch out of a
    context and the switch back into it is the parameter [Switch]. *)

From S2P Require Import Prelude Bytes Kernel Lock.

(** What the rest of the machine does between [swtch(&p->ctx, &mycpu()->ctx)] and
    its return, and what process [i] does between [swtch(&c->ctx, &p->ctx)] and
    its return. *)
Class Switch := {
  swtch_to_cpu : nat → K unit;
  swtch_to_proc : nat → K unit }.

Definition get_proc (i : nat) : K proc :=
  ps ← gets (λ s, k_procs s); deref "procs" (ps !! i).

Definition upd_proc (i : nat) (f : proc → proc) : K unit :=
  modify (λ s, set_procs (alter f i (k_procs s)) s).

Definition set_state (st : proc_state) (p : proc) : proc :=
  mk_proc (pid p) st (parent p) (exit_state p) (sleep_space p) (pgtbl p) (heap_top p)
    (ustack_base p) (ustack_pages p) (p_mmap p) (tf p) (kstack p) (p_ctx p) (cwd p) (filelist p).

Definition set_sleep_space (c : chan) (p : proc) : proc :=
  mk_proc (pid p) (state p) (parent p) (exit_state p) c (pgtbl p) (heap_top p)
    (ustack_base p) (ustack_pages p) (p_mmap p) (tf p) (kstack p) (p_ctx p) (cwd p) (filelist p).

Definition asleep_on (c : chan) (p : proc) : bool :=
  bool_decide (state p = SLEEPING) && bool_decide (sleep_space p = c).

Definition wakeup_one (c : chan) (i : nat) : K unit :=
  me ← myproc;
  if bool_decide (me = Some i) then mret tt else
    spinlock_acquire (LkProc i);;
    p ← get_proc i;
    (if asleep_on c p then upd_proc i (set_state RUNNABLE) else mret tt);;
    spinlock_release (LkProc i).

Definition proc_wakeup (c : chan) : K unit := for_each (seq 0 NPROC) (wakeup_one c).

(** [myproc()] where the code dereferences the result. *)
Definition myproc_deref : K nat := me ← myproc; deref "myproc() is NULL" me.

Section switch.
  Context {Sw : Switch}.

Definition proc_sched : K unit :=
  i ← myproc_deref;
  h ← spinlock_holding (LkProc i);
  kassert h "proc_sched: lock";;
  c ← mycpu;
  kassert (0 <? h_noff c) "proc_sched: interrupts enabled";;
  p ← get_proc i;
  kassert (negb (bool_decide (state p = RUNNING))) "proc_sched: running";;
  swtch_to_cpu i.

Definition proc_sleep (c : chan) (lk : lockid) : K unit :=
  i ← myproc_deref;
  spinlock_acquire (LkProc i);;
  spinlock_release lk;;
  upd_proc i (set_sleep_space c);;
  upd_proc i (set_state SLEEPING);;
  proc_sched;;
  upd_proc i (set_sleep_space ChNull);;
  spinlock_release (LkProc i);;
  spinlock_acquire lk.

Definition proc_yield : K unit :=
  i ← myproc_deref;
  spinlock_acquire (LkProc i);;
  upd_proc i (set_state RUNNABLE);;
  proc_sched;;
  spinlock_release (LkProc i).

Definition set_cpu_proc (p : option nat) : K unit :=
  modify (λ s, set_hart (set_hproc p (k_hart s)) s).

Definition schedule_one (i : nat) : K unit :=
  spinlock_acquire (LkProc i);;
  p ← get_proc i;
  (if bool_decide (state p = RUNNABLE) then
     upd_proc i (set_state RUNNING);;
     set_cpu_proc (Some i);;
     swtch_to_proc i;;
     set_cpu_proc None
   else mret tt);;
  spinlock_release (LkProc i).

(** One round of the scheduler's endless loop. *)
Definition scheduler_round : K unit := intr_on;; for_each (seq 0 NPROC) schedule_one.

(** [proc_scheduler] never returns: [rounds] of its rounds. *)
Fixpoint scheduler_rounds (rounds : nat) : K unit :=
  match rounds with
  | O => no_fuel
  | S n => scheduler_round;; scheduler_rounds n
  end.

Definition proc_scheduler (rounds : nat) : K unit :=
  set_cpu_proc None;; scheduler_rounds rounds.

End switch.

(** ** Specifications *)

(** The process table after [proc_wakeup c] called by process [me]. *)
Definition wake (c : chan) (p : proc) : proc := if asleep_on c p then set_state RUNNABLE p else p.

Definition woken (c : chan) (me : option nat) (ps : list proc) : list proc :=
  imap (λ i p, if bool_decide (me = Some i) then p else wake c p) ps.

(** No process lock is held, and the hart is between critical sections or inside
    one of another component. *)
Record procs_quiet (s : kstate) : Prop := {
  pq_hart : hart_stable (k_hart s);
  pq_lock i : (i < NPROC)%nat → lock_idle (LkProc i) s;
  pq_len : length (k_procs s) = NPROC }.

(** ** Lemmas *)

Lemma get_proc_run i s p : k_procs s !! i = Some p → get_proc i s = Ok (p, s).
Proof. intros H. unfold get_proc. mrun. by rewrite H. Qed.

Lemma procs_quiet_frame s s' :
  procs_quiet s → same_sync s s' → length (k_procs s') = length (k_procs s) → procs_quiet s'.
Proof.
  intros [Hh Hl Hn] [Eh El] En. split.
  - by rewrite Eh.
  - intros i Hi. destruct (Hl i Hi) as [nm H]. exists nm. by rewrite El.
  - by rewrite En.
Qed.

Lemma wakeup_one_run c i s p :
  procs_quiet s → k_procs s !! i = Some p →
  wakeup_one c i s = Ok (tt, if bool_decide (h_proc (k_hart s) = Some i) then s
                              else set_procs (<[i := wake c p]> (k_procs s)) s).
Proof.
  intros Hq Hp. unfold wakeup_one. run (myproc_run s (pq_hart _ Hq)).
  case_bool_decide as Hme; [done|].
  assert (i < NPROC)%nat as Hi by (rewrite <- (pq_len _ Hq); by eapply lookup_lt_Some).
  destruct Hq as [Hh Hl _]. specialize (Hl i Hi).
  run (acquire_run (LkProc i) s (lock_idle_unlocked _ _ Hl)).
  run (get_proc_run i (acq (LkProc i) s) p Hp). unfold upd_proc, wake. mrun.
  destruct (asleep_on c p).
  - rewrite (release_after (LkProc i) s) by done.
    change (k_procs (acq (LkProc i) s)) with (k_procs s). by rewrite (alter_insert _ _ _ _ Hp).
  - rewrite (release_after (LkProc i) s) by done. by rewrite list_insert_id.
Qed.

(** The table after the first [n] entries were looked at. *)
Definition woken_upto (n : nat) (c : chan) (me : option nat) (ps : list proc) : list proc :=
  imap (λ i p, if bool_decide (i < n)%nat && negb (bool_decide (me = Some i)) then wake c p else p) ps.

Lemma woken_upto_S n c me ps p :
  ps !! n = Some p →
  woken_upto (S n) c me ps =
    if bool_decide (me = Some n) then woken_upto n c me ps
    else <[n := wake c p]> (woken_upto n c me ps).
Proof.
  intros Hp. apply list_eq. intros j. unfold woken_upto.
  assert (n < length ps)%nat by by eapply lookup_lt_Some.
  case_bool_decide as Hme.
  - rewrite !list_lookup_imap. destruct (ps !! j) as [q|]; [|done]. simpl. f_equal.
    destruct (decide (j = n)) as [->|]; [by rewrite (bool_decide_true (me = Some n)), !andb_false_r|].
    replace (bool_decide (j < S n)%nat) with (bool_decide (j < n)%nat); [done|].
    apply bool_decide_ext. lia.
  - destruct (decide (j = n)) as [->|Hj].
    + rewrite list_lookup_insert_eq by by rewrite length_imap. rewrite list_lookup_imap, Hp. simpl.
      by rewrite bool_decide_true, bool_decide_false by (done || lia).
    + rewrite list_lookup_insert_ne by done. rewrite !list_lookup_imap.
      destruct (ps !! j) as [q|]; [|done]. simpl. f_equal.
      replace (bool_decide (j < S n)%nat) with (bool_decide (j < n)%nat); [done|].
      apply bool_decide_ext. lia.
Qed.

Lemma proc_wakeup_run c s :
  procs_quiet s →
  proc_wakeup c s = Ok (tt, set_procs (woken c (h_proc (k_hart s)) (k_procs s)) s).
Proof.
  intros Hq. unfold proc_wakeup. set (me := h_proc (k_hart s)).
  destruct (for_seq_inv (λ n s1, s1 = set_procs (woken_upto n c me (k_procs s)) s)
    (wakeup_one c) NPROC s) as (s' & Hr & Hs').
  - replace (woken_upto 0 c me (k_procs s)) with (k_procs s); [done|].
    apply list_eq. intros i. unfold woken_upto. rewrite list_lookup_imap.
    by destruct (k_procs s !! i).
  - intros i s1 Hi ->. destruct (lookup_lt_is_Some_2 (k_procs s) i) as [p Hp].
    { by rewrite (pq_len _ Hq). }
    eexists. rewrite (woken_upto_S i c me _ p Hp).
    rewrite (wakeup_one_run c i _ p).
    + split; [reflexivity|]. simpl. fold me. by case_bool_decide.
    + eapply procs_quiet_frame; [exact Hq|done|]. by apply length_imap.
    + simpl. unfold woken_upto. rewrite list_lookup_imap, Hp. simpl.
      by rewrite bool_decide_false by lia.
  - rewrite Hr, Hs'. do 2 f_equal. f_equal. unfold woken, woken_upto.
    apply imap_ext. intros i p Hp. rewrite bool_decide_true.
    + simpl. fold me. by destruct (bool_decide (me = Some i)).
    + rewrite <- (pq_len _ Hq). by eapply lookup_lt_Some.
Qed.

Lemma myproc_deref_run i s :
  hart_stable (k_hart s) → h_proc (k_hart s) = Some i → myproc_deref s = Ok (i, s).
Proof. intros Hh Hi. unfold myproc_deref. run (myproc_run s Hh). by rewrite Hi. Qed.

Lemma holding_held lk s : lock_held lk s → spinlock_holding lk s = Ok (true, s).
Proof.
  intros [nm H]. rewrite spinlock_holding_run. unfold get_lock. rewrite H. simpl.
  by rewrite Z.eqb_refl.
Qed.

(** This hart runs process [i] inside a critical section. *)
Record running (i : nat) (s : kstate) : Prop := {
  ru_proc : h_proc (k_hart s) = Some i;
  ru_sie : h_sie (k_hart s) = false;
  ru_noff : 0 < h_noff (k_hart s) }.

Lemma running_stable i s : running i s → hart_stable (k_hart s).
Proof. intros [_ Hs Hn]. by left. Qed.

Lemma proc_sched_run {Sw : Switch} i s p :
  running i s → lock_held (LkProc i) s → k_procs s !! i = Some p → state p ≠ RUNNING →
  proc_sched s = swtch_to_cpu i s.
Proof.
  intros Hr Hl Hp Hst. unfold proc_sched.
  run (myproc_deref_run i s (running_stable i s Hr) (ru_proc _ _ Hr)).
  run (holding_held _ _ Hl). unfold mycpu. mrun.
  rewrite (proj2 (Z.ltb_lt 0 _) (ru_noff _ _ Hr)). run (get_proc_run i s p Hp). mrun.
  by rewrite bool_decide_false.
Qed.

(** The state in which [proc_sleep] gives up the hart. *)
Definition sleep_handoff (c : chan) (lk : lockid) (i : nat) (p : proc) (s : kstate) : kstate :=
  set_procs (<[i := set_state SLEEPING (set_sleep_space c p)]> (k_procs s))
    (rel lk (acq (LkProc i) s)).

Lemma sleep_handoff_running c lk i p s : running i s → running i (sleep_handoff c lk i p s).
Proof.
  intros [Hp Hs Hn]. split; simpl; [done| |lia].
  rewrite Z.add_simpl_r. by rewrite (proj2 (Z.eqb_neq _ _)) by lia.
Qed.

Lemma sleep_handoff_lock c lk i p s :
  lk ≠ LkProc i → k_locks (sleep_handoff c lk i p s) !! LkProc i =
    Some (mk_spinlock 1 (lk_name (get_lock (LkProc i) s)) (h_id (k_hart s))).
Proof. intros Hne. simpl. rewrite lookup_insert_ne by done. by rewrite lookup_insert_eq. Qed.

Lemma sleep_handoff_held c lk i p s :
  lk ≠ LkProc i → lock_held (LkProc i) (sleep_handoff c lk i p s).
Proof.
  intros Hne. exists (lk_name (get_lock (LkProc i) s)). exact (sleep_handoff_lock c lk i p s Hne).
Qed.

Lemma sleep_handoff_free c lk i p s : lock_idle lk (sleep_handoff c lk i p s).
Proof.
  exists (lk_name (get_lock lk (acq (LkProc i) s))). simpl. by rewrite lookup_insert_eq.
Qed.

(** Giving up the hart: until the switch. *)
Lemma proc_sleep_until {Sw : Switch} c lk i p s :
  running i s → lk ≠ LkProc i → lock_held lk s → lock_idle (LkProc i) s →
  k_procs s !! i = Some p →
  proc_sleep c lk s =
    (swtch_to_cpu i;; upd_proc i (set_sleep_space ChNull);; spinlock_release (LkProc i);;
     spinlock_acquire lk) (sleep_handoff c lk i p s).
Proof.
  intros Hr Hne Hlk Hid Hp. unfold proc_sleep.
  run (myproc_deref_run i s (running_stable i s Hr) (ru_proc _ _ Hr)).
  run (acquire_run (LkProc i) s (lock_idle_unlocked _ _ Hid)).
  assert (spinlock_release lk (acq (LkProc i) s) = Ok (tt, rel lk (acq (LkProc i) s))) as Hrel.
  { destruct Hlk as [nm Hlk]. apply release_run; [|done|].
    - exists nm. simpl. by rewrite lookup_insert_ne.
    - pose proof (ru_noff _ _ Hr). rewrite acq_noff. lia. }
  run Hrel. unfold upd_proc. mrun.
  set (s1 := set_procs _ _). assert (s1 = sleep_handoff c lk i p s) as ->.
  { unfold s1, sleep_handoff. simpl k_procs.
    by rewrite (alter_insert _ _ _ p Hp), (alter_insert _ _ _ (set_sleep_space c p)),
      list_insert_insert_eq by (apply list_lookup_insert_eq; by eapply lookup_lt_Some). }
  unfold mbind, M_bind at 1. rewrite (proc_sched_run i _ (set_state SLEEPING (set_sleep_space c p))).
  - done.
  - by apply sleep_handoff_running.
  - by apply sleep_handoff_held.
  - apply list_lookup_insert_eq. by eapply lookup_lt_Some.
  - done.
Qed.

(** A machine that resumes a process as soon as it has given up the hart: the
    scheduler finds it woken and marks it RUNNING. *)
Definition resume_at_once : Switch := {|
  swtch_to_cpu i := upd_proc i (set_state RUNNING);
  swtch_to_proc _ := mret tt |}.

Definition proc_locks : gmap lockid spinlock :=
  list_to_map ((λ i, (LkProc i, mk_spinlock 0 "proc" (-1))) <$> seq 0 NPROC).

Lemma proc_locks_lookup i :
  (i < NPROC)%nat → proc_locks !! LkProc i = Some (mk_spinlock 0 "proc" (-1)).
Proof.
  intros Hi. apply elem_of_list_to_map_1.
  - rewrite <- list_fmap_compose. apply NoDup_fmap_2; [by intros ?? [=]|apply NoDup_seq].
  - apply list_elem_of_fmap. exists i. split; [done|]. apply elem_of_seq. lia.
Qed.

(** Process 0 runs, with the timer lock held or free and every process lock free. *)
Definition sample_procs (timer : spinlock) (noff : Z) (p1 : proc) : kstate :=
  let s := zero_state (image_syms 3) in
  set_hart (set_noff noff (set_hproc (Some O) (k_hart s)))
    (set_locks (<[LkTimer := timer]> proc_locks)
    (set_procs (<[1%nat := p1]> (k_procs s)) s)).

Lemma sample_procs_idle timer noff p1 i :
  (i < NPROC)%nat → lock_idle (LkProc i) (sample_procs timer noff p1).
Proof.
  intros Hi. exists "proc". unfold sample_procs. cbn [k_locks set_hart set_locks].
  rewrite lookup_insert_ne by done. by apply proc_locks_lookup.
Qed.

(** ** Claims *)

(** [proc_wakeup] terminates and makes RUNNABLE exactly the processes, other
    than the caller, that sleep on the given address; it leaves every other field of
    every process, the locks and the interrupt state as they were. *)
Theorem proc_wakeup_correct (c : chan) (s : kstate) :
  procs_quiet s →
  proc_wakeup c s = Ok (tt, set_procs (woken c (h_proc (k_hart s)) (k_procs s)) s) ∧
  ∀ i p, k_procs s !! i = Some p →
    woken c (h_proc (k_hart s)) (k_procs s) !! i =
      Some (if bool_decide (h_proc (k_hart s) ≠ Some i ∧ state p = SLEEPING ∧ sleep_space p = c)
            then set_state RUNNABLE p else p).
Proof.
  intros Hq. split; [by apply proc_wakeup_run|]. intros i p Hp. unfold woken, wake, asleep_on.
  rewrite list_lookup_imap, Hp. simpl. f_equal.
  repeat case_bool_decide; simpl; naive_solver.
Qed.


(** [proc_sleep] called without holding the lock it is given panics in
    [spinlock_release]; [sys_sleep] calls it this way. *)
Theorem proc_sleep_unheld_panics {Sw : Switch} (c : chan) (lk : lockid) (i : nat) (s : kstate) :
  hart_stable (k_hart s) → h_proc (k_hart s) = Some i →
  lk ≠ LkProc i → lock_idle lk s → lock_idle (LkProc i) s →
  proc_sleep c lk s = Panic "release".
Proof.
  intros Hst Hp Hne Hlk Hid. unfold proc_sleep. run (myproc_deref_run i s Hst Hp).
  run (acquire_run (LkProc i) s (lock_idle_unlocked _ _ Hid)).
  apply bind_panic, release_not_held. left. by apply lock_idle_unlocked, acq_idle.
Qed.

Lemma proc_wakeup_correct_witness :
  let p1 := set_state SLEEPING (set_sleep_space ChTimer zero_proc) in
  let s := sample_procs (mk_spinlock 0 "sys_timer" (-1)) 0 p1 in
  procs_quiet s ∧
  proc_wakeup ChTimer s = Ok (tt, set_procs (woken ChTimer (Some O) (k_procs s)) s) ∧
  woken ChTimer (Some O) (k_procs s) !! 1%nat = Some (set_state RUNNABLE p1).
Proof.
  intros p1 s. assert (procs_quiet s) as Hq.
  { split; [by right|apply sample_procs_idle|reflexivity]. }
  destruct (proc_wakeup_correct ChTimer s Hq) as [Hr Hw].
  split; [exact Hq|]. split; [exact Hr|]. exact (Hw 1%nat p1 eq_refl).
Defined.


Lemma proc_sleep_unheld_panics_witness :
  @proc_sleep resume_at_once ChTimer LkTimer
    (sample_procs (mk_spinlock 0 "sys_timer" (-1)) 0 zero_proc) = Panic "release".
Proof.
  apply (@proc_sleep_unheld_panics resume_at_once ChTimer LkTimer 0).
  - by right.
  - done.
  - done.
  - by exists "sys_timer".
  - apply sample_procs_idle. unfold NPROC. lia.
Defined.
