(* ===== verification/Virtio.v ===== *)
(** * The virtio disk driver (kernel/dev/virtio.c)

    The descriptor table, the two rings and the driver's book-keeping as in
    [struct disk]; [virtio_disk_rw] with its sleeps and [virtio_disk_intr].  The
    device itself is not code of the kernel: it is the parameter [Device].  The
    file ends with the interface [BlockDevice] that the buffer cache is verified
    against, and the driver as its instance. *)

From S2P Require Import Prelude Bytes Kernel Lock Vm Sched.

Definition NUM : nat := 8.
Definition VRING_DESC_F_NEXT : Z := 1.
Definition VRING_DESC_F_WRITE : Z := 2.
Definition VIRTIO_BLK_T_IN : Z := 0.
Definition VIRTIO_BLK_T_OUT : Z := 1.

(** ** Field updates *)

Definition upd_vdisk (f : vdisk → vdisk) : K unit :=
  modify (λ s, set_vdisk (f (k_vdisk s)) s).

Definition vd_set_desc (f : list VRingDesc → list VRingDesc) (v : vdisk) : vdisk :=
  mk_vdisk (f (vd_desc v)) (vd_avail_idx v) (vd_avail v) (vd_used_ring_idx v) (vd_used v)
    (vd_free v) (vd_used_idx v) (vd_info v).
Definition vd_set_avail (idx : Z) (l : list Z) (v : vdisk) : vdisk :=
  mk_vdisk (vd_desc v) idx l (vd_used_ring_idx v) (vd_used v) (vd_free v) (vd_used_idx v) (vd_info v).
Definition vd_set_used_ring (idx : Z) (l : list Z) (v : vdisk) : vdisk :=
  mk_vdisk (vd_desc v) (vd_avail_idx v) (vd_avail v) idx l (vd_free v) (vd_used_idx v) (vd_info v).
Definition vd_set_free (f : list bool → list bool) (v : vdisk) : vdisk :=
  mk_vdisk (vd_desc v) (vd_avail_idx v) (vd_avail v) (vd_used_ring_idx v) (vd_used v)
    (f (vd_free v)) (vd_used_idx v) (vd_info v).
Definition vd_set_used_idx (idx : Z) (v : vdisk) : vdisk :=
  mk_vdisk (vd_desc v) (vd_avail_idx v) (vd_avail v) (vd_used_ring_idx v) (vd_used v)
    (vd_free v) idx (vd_info v).
Definition vd_set_info (f : list (option nat * Z) → list (option nat * Z)) (v : vdisk) : vdisk :=
  mk_vdisk (vd_desc v) (vd_avail_idx v) (vd_avail v) (vd_used_ring_idx v) (vd_used v)
    (vd_free v) (vd_used_idx v) (f (vd_info v)).

Definition get_buf (i : nat) : K buf :=
  l ← gets (λ s, k_bufs s); n ← deref "buf_cache" (l !! i); mret (bn_buf n).

Definition upd_buf (i : nat) (f : buf → buf) : K unit :=
  modify (λ s, set_bufs (alter (λ n, mk_buf_node (f (bn_buf n)) (bn_links n)) i (k_bufs s)) s).

Definition buf_set_disk (d : bool) (b : buf) : buf := mk_buf (block_num b) (data b) (buf_ref b) d.
Definition buf_set_data (l : list Z) (b : buf) : buf := mk_buf (block_num b) l (buf_ref b) (disk b).

(** ** Descriptors *)

Definition alloc_desc : K (option nat) :=
  for_return (seq 0 NUM) (λ i,
    v ← gets (λ s, k_vdisk s);
    f ← deref "disk.free" (vd_free v !! i);
    if f : bool then upd_vdisk (vd_set_free (<[i := false]>));; mret (Some i)
    else mret None).

Definition free_desc (i : nat) : K unit :=
  (if (NUM <=? i)%nat then panic "virtio_disk_intr 1" else mret tt);;
  v ← gets (λ s, k_vdisk s);
  f ← deref "disk.free" (vd_free v !! i);
  (if f : bool then panic "virtio_disk_intr 2" else mret tt);;
  upd_vdisk (vd_set_desc (alter (λ d, mk_desc DNull (vd_len d) (vd_flags d) (vd_next d)) i));;
  upd_vdisk (vd_set_free (<[i := true]>));;
  proc_wakeup ChDiskFree.

(** [free_desc] panics on a free descriptor, so the chain is walked at most [NUM]
    times before it ends or panics. *)
Fixpoint free_chain_loop (fuel : nat) (i : nat) : K unit :=
  match fuel with
  | O => no_fuel
  | S fuel =>
      free_desc i;;
      v ← gets (λ s, k_vdisk s);
      d ← deref "disk.desc" (vd_desc v !! i);
      if negb (Z.land (vd_flags d) VRING_DESC_F_NEXT =? 0)
      then free_chain_loop fuel (Z.to_nat (vd_next d)) else mret tt
  end.

Definition free_chain (i : nat) : K unit := free_chain_loop (S NUM) i.

(** [idx[0..2]], or [None] after giving back the descriptors already taken. *)
Definition alloc3_desc : K (option (nat * nat * nat)) :=
  a ← alloc_desc;
  match a with
  | None => mret None
  | Some a =>
      b ← alloc_desc;
      match b with
      | None => free_desc a;; mret None
      | Some b =>
          c ← alloc_desc;
          match c with
          | None => free_desc a;; free_desc b;; mret None
          | Some c => mret (Some (a, b, c))
          end
      end
  end.

(** ** Requests *)

(** Iterations of the two waiting loops of [virtio_disk_rw]. *)
Definition WAIT_FUEL : nat := 64.

(** The address of the local [buf0], on the stack the caller runs on. *)
Class Stack := { buf0_addr : Z }.

Section driver.
  Context {Sw : Switch} {St : Stack}.

Fixpoint wait_desc (fuel : nat) : K (nat * nat * nat) :=
  match fuel with
  | O => no_fuel
  | S fuel =>
      r ← alloc3_desc;
      match r with
      | Some idx => mret idx
      | None => proc_sleep ChDiskFree LkVdisk;; wait_desc fuel
      end
  end.

Fixpoint wait_done (fuel : nat) (i : nat) : K unit :=
  match fuel with
  | O => no_fuel
  | S fuel =>
      b ← get_buf i;
      if disk b then proc_sleep (ChBuf i) LkVdisk;; wait_done fuel i else mret tt
  end.

Definition set_desc (i : nat) (d : VRingDesc) : K unit := upd_vdisk (vd_set_desc (<[i := d]>)).

Definition virtio_disk_rw (i : nat) (write : bool) : K unit :=
  b ← get_buf i;
  let sector := u32 (block_num b * (BLOCK_SIZE / 512)) in
  spinlock_acquire LkVdisk;;
  idx ← wait_desc WAIT_FUEL;
  let '(i0, i1, i2) := idx in
  let type := if write then VIRTIO_BLK_T_OUT else VIRTIO_BLK_T_IN in
  let addr := PG_ROUND_DOWN buf0_addr in
  let off := buf0_addr mod PGSIZE in
  kp ← kvm_get_kernel_pgtbl;
  pte ← vm_getpte kp addr false;
  v ← (if pte =? 0 then fault "kernel stack not mapped" else read64 pte);
  set_desc i0 (mk_desc (DHdr (PTE_TO_PA v + off) type 0 sector) 16 VRING_DESC_F_NEXT (Z.of_nat i1));;
  set_desc i1 (mk_desc (DData i) BLOCK_SIZE
    (Z.lor (if write then 0 else VRING_DESC_F_WRITE) VRING_DESC_F_NEXT) (Z.of_nat i2));;
  upd_vdisk (vd_set_info (alter (λ e, (fst e, 0)) i0));;
  set_desc i2 (mk_desc (DStatus i0) 1 VRING_DESC_F_WRITE 0);;
  upd_buf i (buf_set_disk true);;
  upd_vdisk (vd_set_info (alter (λ e, (Some i, snd e)) i0));;
  upd_vdisk (λ v, vd_set_avail (vd_avail_idx v)
    (<[Z.to_nat (vd_avail_idx v mod Z.of_nat NUM) := Z.of_nat i0]> (vd_avail v)) v);;
  upd_vdisk (λ v, vd_set_avail (u16 (vd_avail_idx v + 1)) (vd_avail v) v);;
  wait_done WAIT_FUEL i;;
  upd_vdisk (vd_set_info (alter (λ e, (None, snd e)) i0));;
  free_chain i0;;
  spinlock_release LkVdisk.

End driver.

(** The loop of [virtio_disk_intr]; [fuel] counts the completions the device has
    reported. *)
Fixpoint disk_intr_loop (fuel : nat) : K unit :=
  v ← gets (λ s, k_vdisk s);
  if vd_used_idx v =? vd_used_ring_idx v then mret tt else
  match fuel with
  | O => no_fuel
  | S fuel =>
      id ← deref "disk.used" (vd_used v !! Z.to_nat (vd_used_idx v mod Z.of_nat NUM));
      e ← deref "disk.info" (vd_info v !! Z.to_nat id);
      (if snd e =? 0 then mret tt else panic "virtio_disk_intr status");;
      b ← deref "disk.info.b" (fst e);
      upd_buf b (buf_set_disk false);;
      proc_wakeup (ChBuf b);;
      upd_vdisk (λ v, vd_set_used_idx (u16 (vd_used_idx v + 1)) v);;
      disk_intr_loop fuel
  end.

Definition virtio_disk_intr : K unit :=
  spinlock_acquire LkVdisk;;
  v ← gets (λ s, k_vdisk s);
  disk_intr_loop (Z.to_nat (u16 (vd_used_ring_idx v - vd_used_idx v)));;
  spinlock_release LkVdisk.

(** Initialisation: [reg] reads the device's registers; the result lists the
    register writes in order.  [pages] is the address of [disk.pages]. *)
Definition VIRTIO_MMIO_STATUS : Z := 0x070.

Definition virtio_disk_init (reg : Z → Z) (pages : Z) : K (list (Z * Z)) :=
  spinlock_init LkVdisk "virtio_disk";;
  (if negb (reg 0x000 =? 0x74726976) || negb (reg 0x004 =? 1) || negb (reg 0x008 =? 2)
      || negb (reg 0x00c =? 0x554d4551)
   then panic "could not find virtio disk" else mret tt);;
  let st1 := Z.lor 0 1 in
  let st2 := Z.lor st1 2 in
  let clear f b := Z.land f (Z.lnot (Z.shiftl 1 b)) in
  let features := clear (clear (clear (clear (clear (clear (clear (reg 0x010) 5) 7) 11) 12) 27) 29) 28 in
  let st3 := Z.lor st2 8 in
  let st4 := Z.lor st3 4 in
  let max := reg 0x034 in
  (if max =? 0 then panic "virtio disk has no queue 0" else mret tt);;
  (if max <? Z.of_nat NUM then panic "virtio disk max queue too short" else mret tt);;
  upd_vdisk (λ v, mk_vdisk (replicate NUM (mk_desc DNull 0 0 0)) 0 (replicate NUM 0) 0
    (replicate NUM 0) (vd_free v) (vd_used_idx v) (vd_info v));;
  upd_vdisk (vd_set_free (λ _, replicate NUM true));;
  mret [(VIRTIO_MMIO_STATUS, st1); (VIRTIO_MMIO_STATUS, st2); (0x020, u32 features);
    (VIRTIO_MMIO_STATUS, st3); (VIRTIO_MMIO_STATUS, st4); (0x028, PGSIZE); (0x030, 0);
    (0x038, Z.of_nat NUM); (0x040, u32 (Z.shiftr pages 12))].

(** ** The device

    The virtio specification: for the next available chain of a request header, a
    data buffer and a status byte, the device transfers the block, writes status 0
    and appends the chain to the used ring. *)

Record pending (s : kstate) (i0 i1 i2 i : nat) (write : bool) (blk : Z) : Prop := {
  pe_idx : vd_avail_idx (k_vdisk s) = u16 (vd_used_ring_idx (k_vdisk s) + 1);
  pe_avail : vd_avail (k_vdisk s) !! Z.to_nat (vd_used_ring_idx (k_vdisk s) mod Z.of_nat NUM) =
    Some (Z.of_nat i0);
  pe_hdr : ∃ pa, vd_desc (k_vdisk s) !! i0 = Some (mk_desc
    (DHdr pa (if write then VIRTIO_BLK_T_OUT else VIRTIO_BLK_T_IN) 0 (2 * blk)) 16
    VRING_DESC_F_NEXT (Z.of_nat i1));
  pe_data : vd_desc (k_vdisk s) !! i1 = Some (mk_desc (DData i) BLOCK_SIZE
    (Z.lor (if write then 0 else VRING_DESC_F_WRITE) VRING_DESC_F_NEXT) (Z.of_nat i2));
  pe_status : vd_desc (k_vdisk s) !! i2 = Some (mk_desc (DStatus i0) 1 VRING_DESC_F_WRITE 0) }.

(** The transfer of block [blk], whose contents were [d], for buffer [i]. *)
Definition transfer (write : bool) (i : nat) (blk : Z) (n : buf_node) (d : list Z) (s : kstate) : kstate :=
  if write then set_disk (<[blk := data (bn_buf n)]> (k_disk s)) s
  else set_bufs (<[i := mk_buf_node (buf_set_data d (bn_buf n)) (bn_links n)]> (k_bufs s)) s.

Definition complete (i0 : nat) (s : kstate) : kstate :=
  let v := k_vdisk s in
  set_vdisk (vd_set_used_ring (u16 (vd_used_ring_idx v + 1))
    (<[Z.to_nat (vd_used_ring_idx v mod Z.of_nat NUM) := Z.of_nat i0]> (vd_used v))
    (vd_set_info (alter (λ e, (fst e, 0)) i0) v)) s.

Class Device := {
  device : K unit;
  device_serves s i0 i1 i2 i write blk n d :
    pending s i0 i1 i2 i write blk → 0 ≤ blk → k_bufs s !! i = Some n → k_disk s !! blk = Some d →
    device s = Ok (tt, complete i0 (transfer write i blk n d s)) }.

(** ** The interface of the block device *)

Definition dev_lock (lk : lockid) : Prop := lk = LkVdisk ∨ ∃ j, lk = LkProc j.

(** [s] after the transfer, with a new driver state and the buffer's [disk] flag
    clear. *)
Definition rw_done (write : bool) (i : nat) (n : buf_node) (d : list Z) (v : vdisk) (s : kstate) : kstate :=
  let b := bn_buf n in
  set_vdisk v (if write
    then set_disk (<[block_num b := data b]> (k_disk s))
           (set_bufs (<[i := mk_buf_node (buf_set_disk false b) (bn_links n)]> (k_bufs s)) s)
    else set_bufs (<[i := mk_buf_node (buf_set_disk false (buf_set_data d b)) (bn_links n)]> (k_bufs s)) s).

(** What the driver promises its clients: from an idle device, a request of a block
    of the disk completes, transfers exactly that block, and leaves the device idle;
    idleness depends only on the driver's own state, the process table and the
    kernel page table. *)
Class BlockDevice := {
  disk_rw : nat → bool → K unit;
  dev_idle : kstate → Prop;
  disk_rw_spec s i n d write :
    dev_idle s → h_sie (k_hart s) = false → 0 < h_noff (k_hart s) →
    k_bufs s !! i = Some n → 0 ≤ block_num (bn_buf n) < 2^31 →
    k_disk s !! block_num (bn_buf n) = Some d →
    ∃ v, disk_rw i write s = Ok (tt, rw_done write i n d v s) ∧ dev_idle (rw_done write i n d v s);
  dev_idle_frame s s' :
    dev_idle s → k_vdisk s' = k_vdisk s → k_procs s' = k_procs s → k_kpgtbl s' = k_kpgtbl s →
    k_mem s' = k_mem s → h_proc (k_hart s') = h_proc (k_hart s) →
    (∀ lk, dev_lock lk → k_locks s' !! lk = k_locks s !! lk) → dev_idle s' }.

(** ** The driver implements the interface *)

Section idle.
  Context {D : Device} {St : Stack}.

(** The rest of the machine while process [i] waits for the disk: the scheduler
    releases the process, the device finishes, its interrupt is handled, and the
    scheduler picks the process up again if it was woken. *)
Definition disk_turn (i : nat) : K unit :=
  set_cpu_proc None;;
  spinlock_release (LkProc i);;
  intr_on;; device;; intr_off;; virtio_disk_intr;; intr_on;;
  spinlock_acquire (LkProc i);;
  p ← get_proc i;
  (if bool_decide (state p = RUNNABLE) then upd_proc i (set_state RUNNING) else hang);;
  set_cpu_proc (Some i).

Definition disk_switch : Switch := {|
  swtch_to_cpu := disk_turn; swtch_to_proc := λ _, mret tt |}.

#[local] Existing Instance disk_switch.

Record vdisk_idle (v : vdisk) : Prop := {
  vi_free : vd_free v = replicate NUM true;
  vi_desc : length (vd_desc v) = NUM;
  vi_avail : length (vd_avail v) = NUM;
  vi_used : length (vd_used v) = NUM;
  vi_info : length (vd_info v) = NUM;
  vi_idx : vd_used_idx v = vd_used_ring_idx v;
  vi_ridx : vd_avail_idx v = vd_used_ring_idx v;
  vi_range : 0 ≤ vd_used_ring_idx v < 2^16 }.

(** No process waits for a transfer or a descriptor. *)
Definition no_disk_sleeper (ps : list proc) : Prop :=
  ∀ j p, ps !! j = Some p → state p = SLEEPING →
    sleep_space p ≠ ChDiskFree ∧ ∀ i, sleep_space p ≠ ChBuf i.

Record driver_idle (s : kstate) : Prop := {
  dr_me : ∃ me p, h_proc (k_hart s) = Some me ∧ k_procs s !! me = Some p ∧
    state p = RUNNING ∧ sleep_space p = ChNull;
  dr_len : length (k_procs s) = NPROC;
  dr_plock j : (j < NPROC)%nat → lock_idle (LkProc j) s;
  dr_vlock : lock_idle LkVdisk s;
  dr_quiet : no_disk_sleeper (k_procs s);
  dr_vd : vdisk_idle (k_vdisk s);
  dr_stack : ∃ pte, pte ≠ 0 ∧ ∀ s', k_mem s' = k_mem s →
    vm_getpte (k_kpgtbl s) (PG_ROUND_DOWN buf0_addr) false s' = Ok (pte, s') }.

Lemma woken_id c me ps :
  (∀ j p, ps !! j = Some p → state p = SLEEPING → sleep_space p ≠ c) → woken c me ps = ps.
Proof.
  intros H. apply list_eq. intros j. unfold woken. rewrite list_lookup_imap.
  destruct (ps !! j) as [p|] eqn:Hp; [|done]. simpl. f_equal.
  case_bool_decide; [done|]. unfold wake, asleep_on.
  case_bool_decide as Hs; [|done]. rewrite bool_decide_false; [done|]. by eapply H.
Qed.

Lemma alloc3_run s :
  vd_free (k_vdisk s) = replicate NUM true →
  alloc3_desc s = Ok (Some (0, 1, 2)%nat,
    set_vdisk (vd_set_free (λ _, replicate 3 false ++ replicate 5 true) (k_vdisk s)) s).
Proof.
  intros Hf.
  assert (∀ v, vd_free v = replicate NUM true → alloc3_desc (set_vdisk v s) =
    Ok (Some (0, 1, 2)%nat,
      set_vdisk (vd_set_free (λ _, replicate 3 false ++ replicate 5 true) v) s)) as Hv.
  { intros [????? fr ??]. simpl. by intros ->. }
  exact (Hv (k_vdisk s) Hf).
Qed.

Lemma free_desc_run i s :
  procs_quiet s → no_disk_sleeper (k_procs s) → (i < NUM)%nat → vd_free (k_vdisk s) !! i = Some false →
  free_desc i s = Ok (tt, set_vdisk (vd_set_free (<[i := true]>)
    (vd_set_desc (alter (λ d, mk_desc DNull (vd_len d) (vd_flags d) (vd_next d)) i) (k_vdisk s))) s).
Proof.
  intros Hq Hs Hi Hf. unfold free_desc, upd_vdisk. mrun.
  rewrite (proj2 (Nat.leb_gt NUM i)) by done. rewrite Hf. mrun.
  rewrite proc_wakeup_run by (eapply procs_quiet_frame; [exact Hq|done|done]).
  rewrite woken_id; [done|]. intros j p Hp Hsl. by apply (Hs j p).
Qed.

(** ** The interrupt handler *)

Lemma disk_intr_run s i0 i :
  procs_quiet s → lock_idle LkVdisk s →
  let v := k_vdisk s in
  vd_used_ring_idx v = u16 (vd_used_idx v + 1) → 0 ≤ vd_used_idx v < 2^16 →
  vd_used v !! Z.to_nat (vd_used_idx v mod Z.of_nat NUM) = Some (Z.of_nat i0) →
  vd_info v !! i0 = Some (Some i, 0) →
  virtio_disk_intr s = Ok (tt,
    set_procs (woken (ChBuf i) (h_proc (k_hart s)) (k_procs s))
     (set_bufs (alter (λ n, mk_buf_node (buf_set_disk false (bn_buf n)) (bn_links n)) i (k_bufs s))
       (set_vdisk (vd_set_used_idx (vd_used_ring_idx v) v) s))).
Proof.
  intros Hq Hl v Hri Hr Hu Hi. unfold virtio_disk_intr.
  run (acquire_run LkVdisk s (lock_idle_unlocked _ _ Hl)). mrun.
  change (k_vdisk (acq LkVdisk s)) with v.
  assert (Z.to_nat (u16 (vd_used_ring_idx v - vd_used_idx v)) = 1%nat) as ->.
  { rewrite Hri. unfold u16. rewrite Zminus_mod_idemp_l.
    replace (vd_used_idx v + 1 - vd_used_idx v) with 1 by lia. done. }
  simpl disk_intr_loop. unfold upd_buf, upd_vdisk. mrun.
  change (k_vdisk (acq LkVdisk s)) with v.
  rewrite (proj2 (Z.eqb_neq _ _)) by (rewrite Hri; unfold u16; zdiv).
  rewrite Hu. mrun. rewrite Nat2Z.id, Hi. mrun. simpl snd. simpl fst. mrun. simpl (0 =? 0).
  set (s1 := set_bufs _ _).
  assert (procs_quiet s1) as Hq1.
  { destruct Hq as [Hh Hk Hn]. split; [|intros j Hj; by apply (acq_idle LkVdisk), Hk|done].
    by apply hart_push_stable, hart_stable_noff. }
  run (proc_wakeup_run (ChBuf i) s1 Hq1). mrun.
  match goal with |- context [vd_used_idx ?a =? vd_used_ring_idx ?b] =>
    change (vd_used_idx a) with (u16 (vd_used_idx v + 1));
    change (vd_used_ring_idx b) with (vd_used_ring_idx v) end.
  rewrite <- Hri, Z.eqb_refl. mrun.
  rewrite (release_after LkVdisk s _ (pq_hart _ Hq) Hl) by (split; reflexivity).
  by rewrite Hri.
Qed.

(** ** Waiting for the transfer *)

(** Inside the driver: this process runs with the driver's lock held. *)
Record in_driver (me : nat) (p : proc) (s : kstate) : Prop := {
  in_run : running me s;
  in_noff : 1 < h_noff (k_hart s);
  in_held : lock_held LkVdisk s;
  in_proc : k_procs s !! me = Some p ∧ state p = RUNNING ∧ sleep_space p = ChNull;
  in_len : length (k_procs s) = NPROC;
  in_plock j : (j < NPROC)%nat → lock_idle (LkProc j) s;
  in_quiet : no_disk_sleeper (k_procs s) }.

Lemma turn_hart h :
  h_sie h = false → 1 < h_noff h →
  set_hproc (h_proc h) (hart_push (set_sie true (hart_pop (set_hproc None h)))) = h.
Proof.
  intros Hs Hn. destruct h as [id sie n o pr c csr]. simpl in *. subst sie.
  cbv -[Z.add Z.sub Z.eqb andb].
  rewrite (proj2 (Z.eqb_neq (n - 1) 0)) by lia. f_equal. lia.
Qed.

Lemma hart_push_pop h : h_sie h = false → 1 < h_noff h → hart_push (hart_pop h) = h.
Proof.
  intros Hs Hn. destruct h as [id sie n o pr c csr]. simpl in *. subst sie.
  cbv -[Z.add Z.sub Z.eqb andb].
  rewrite (proj2 (Z.eqb_neq (n - 1) 0)) by lia. f_equal. lia.
Qed.

(** The lock map is as it was once a held lock was released and taken again. *)
Lemma turn_locks lk nm id (ls : gmap lockid spinlock) l :
  ls !! lk = Some (mk_spinlock 1 nm id) → <[lk := mk_spinlock 1 nm id]> (<[lk := l]> ls) = ls.
Proof. intros H. by rewrite insert_insert_eq, insert_id. Qed.

Lemma woken_sleeper c me p ps :
  ps !! me = Some p → (∀ j q, ps !! j = Some q → state q = SLEEPING → sleep_space q ≠ c) →
  woken c None (<[me := set_state SLEEPING (set_sleep_space c p)]> ps) =
    <[me := set_state RUNNABLE (set_sleep_space c p)]> ps.
Proof.
  intros Hp H. apply list_eq. intros j. unfold woken. rewrite list_lookup_imap.
  assert (me < length ps)%nat by by eapply lookup_lt_Some.
  destruct (decide (j = me)) as [->|Hj].
  - rewrite !list_lookup_insert_eq by done. simpl. f_equal. unfold wake, asleep_on. simpl.
    by rewrite bool_decide_true.
  - rewrite !list_lookup_insert_ne by done. destruct (ps !! j) as [q|] eqn:Hq; [|done].
    simpl. f_equal. unfold wake, asleep_on.
    case_bool_decide as Hs; [|done]. rewrite bool_decide_false; [done|]. by eapply H.
Qed.

(** The request of buffer [i] in flight with chain [i0], and the driver's state when
    it is done. *)
Record in_flight (s : kstate) (i0 i1 i2 i : nat) (write : bool) (blk : Z) : Prop := {
  fl_pending : pending s i0 i1 i2 i write blk;
  fl_used : vd_used_idx (k_vdisk s) = vd_used_ring_idx (k_vdisk s);
  fl_range : 0 ≤ vd_used_ring_idx (k_vdisk s) < 2^16;
  fl_len : length (vd_used (k_vdisk s)) = NUM;
  fl_info : vd_info (k_vdisk s) !! i0 = Some (Some i, 0) }.

Definition landed (i0 i : nat) (write : bool) (blk : Z) (n : buf_node) (d : list Z) (s : kstate) : kstate :=
  let s1 := complete i0 (transfer write i blk n d s) in
  set_bufs (alter (λ n, mk_buf_node (buf_set_disk false (bn_buf n)) (bn_links n)) i (k_bufs s1))
    (set_vdisk (vd_set_used_idx (vd_used_ring_idx (k_vdisk s1)) (k_vdisk s1)) s1).

Lemma transfer_vdisk write i blk n d s : k_vdisk (transfer write i blk n d s) = k_vdisk s.
Proof. by destruct write. Qed.

Lemma disk_intr_landed s s0 i0 i1 i2 i write blk n d :
  k_vdisk s = k_vdisk s0 → in_flight s0 i0 i1 i2 i write blk →
  procs_quiet s → lock_idle LkVdisk s →
  let s1 := complete i0 (transfer write i blk n d s) in
  virtio_disk_intr s1 = Ok (tt,
    set_procs (woken (ChBuf i) (h_proc (k_hart s)) (k_procs s)) (landed i0 i write blk n d s)).
Proof.
  intros Hv [Hp Hu Hr Hn Hi] Hq Hl s1.
  assert (k_vdisk s1 = vd_set_used_ring (u16 (vd_used_ring_idx (k_vdisk s0) + 1))
    (<[Z.to_nat (vd_used_ring_idx (k_vdisk s0) mod Z.of_nat NUM) := Z.of_nat i0]> (vd_used (k_vdisk s0)))
    (vd_set_info (alter (λ e, (fst e, 0)) i0) (k_vdisk s0))) as Hv1.
  { unfold s1, complete. cbn [k_vdisk set_vdisk]. by rewrite transfer_vdisk, Hv. }
  rewrite (disk_intr_run s1 i0 i); try rewrite !Hv1; simpl; rewrite ?Hu.
  - unfold landed. fold s1. rewrite Hv1. by destruct write.
  - apply (procs_quiet_frame s); [done|by destruct write|by destruct write].
  - destruct Hl as [nm Hl]. exists nm. by destruct write.
  - done.
  - done.
  - apply list_lookup_insert_eq. rewrite Hn. unfold NUM. zdiv.
  - by rewrite list_lookup_alter_eq, Hi.
Qed.

Lemma pending_frame s s' i0 i1 i2 i write blk :
  k_vdisk s' = k_vdisk s → pending s i0 i1 i2 i write blk → pending s' i0 i1 i2 i write blk.
Proof. intros E []. split; by rewrite E. Qed.

Section wait.
  Context (me i0 i1 i2 i : nat) (write : bool) (blk : Z) (p : proc) (n : buf_node) (d : list Z).
  Context (s0 : kstate).
  Context (Hin : in_driver me p s0) (Hfl : in_flight s0 i0 i1 i2 i write blk) (Hblk : 0 ≤ blk).
  Context (Hbuf : k_bufs s0 !! i = Some n) (Hdisk : k_disk s0 !! blk = Some d).

(** The state the waiting process leaves behind, and the one in which the device
    has it while the process is off the hart. *)
#[local] Definition hand : kstate := sleep_handoff (ChBuf i) LkVdisk me p s0.
#[local] Definition away : kstate :=
  let s1 := rel (LkProc me) (set_hart (set_hproc None (k_hart hand)) hand) in
  set_hart (set_sie false (k_hart s1)) s1.

Lemma hand_noff : h_noff (k_hart hand) = h_noff (k_hart s0).
Proof. unfold hand, sleep_handoff, rel, acq. simpl. lia. Qed.

Lemma away_quiet : procs_quiet away ∧ lock_idle LkVdisk away.
Proof.
  destruct Hin as [Hr Hn Hh Hp Hl Hk Hq]. pose proof hand_noff as Hnf. split; [split|].
  - left. split; [|done]. change (0 < h_noff (k_hart hand) - 1). lia.
  - intros j Hj. destruct (decide (j = me)) as [->|Hne].
    + eexists. unfold away. cbn [k_locks set_hart]. unfold rel. cbn [k_locks set_locks].
      by rewrite lookup_insert_eq.
    + destruct (Hk j Hj) as [nm Hnm]. exists nm. unfold away, rel, hand, sleep_handoff, acq.
      cbn [k_locks set_locks set_hart set_procs rel].
      rewrite lookup_insert_ne by congruence. unfold rel. cbn [k_locks set_locks set_hart].
      by rewrite !lookup_insert_ne by congruence.
  - change (length (k_procs away)) with
      (length (<[me := set_state SLEEPING (set_sleep_space (ChBuf i) p)]> (k_procs s0))).
    by rewrite length_insert.
  - destruct (sleep_handoff_free (ChBuf i) LkVdisk me p s0) as [nm Hnm]. exists nm.
    change (k_locks away) with (k_locks (rel (LkProc me) (set_hart (set_hproc None (k_hart hand)) hand))).
    unfold rel. cbn [k_locks set_locks]. by rewrite lookup_insert_ne.
Qed.

Lemma disk_turn_run :
  disk_turn me hand = Ok (tt,
    set_procs (<[me := set_state RUNNING (set_sleep_space (ChBuf i) p)]> (k_procs s0))
      (set_hart (k_hart hand) (set_locks (k_locks hand) (landed i0 i write blk n d s0)))).
Proof.
  pose proof away_quiet as [Haq Hal]. pose proof hand_noff as Hnf.
  destruct Hin as [Hr Hn Hh [Hp [Hst Hsp]] Hl Hk Hq].
  pose proof (sleep_handoff_running (ChBuf i) LkVdisk me p s0 Hr) as [Hpr Hsie Hno]. fold hand in *.
  destruct (sleep_handoff_held (ChBuf i) LkVdisk me p s0 ltac:(done)) as [nm Hheld]. fold hand in Hheld.
  unfold disk_turn, set_cpu_proc, intr_on, intr_off, upd_proc. mrun.
  set (s1 := set_hart (set_hproc None (k_hart hand)) hand).
  assert (spinlock_release (LkProc me) s1 = Ok (tt, rel (LkProc me) s1)) as Hrel.
  { apply release_run; [by exists nm|done|done]. }
  run Hrel. mrun. set (s2 := set_hart (set_sie true _) _).
  assert (device s2 = Ok (tt, complete i0 (transfer write i blk n d s2))) as Hdev.
  { apply (device_serves s2 i0 i1 i2 i write blk n d); try done.
    by apply (pending_frame s0), (fl_pending _ _ _ _ _ _ _ Hfl). }
  run Hdev. mrun.
  pose proof (disk_intr_landed away s0 i0 i1 i2 i write blk n d eq_refl Hfl Haq Hal) as Hintr.
  cbv zeta in Hintr. set (s3 := set_hart (set_sie false _) _).
  assert (s3 = complete i0 (transfer write i blk n d away)) as -> by (unfold s3; by destruct write).
  change (h_proc (k_hart away)) with (@None nat) in Hintr.
  change (k_procs away) with
    (<[me := set_state SLEEPING (set_sleep_space (ChBuf i) p)]> (k_procs s0)) in Hintr.
  rewrite woken_sleeper in Hintr by (done || (intros j q Hj Hs; by apply (Hq j q))).
  run Hintr. mrun. set (s4 := set_hart (set_sie true _) _).
  assert (k_locks s4 = <[LkProc me := mk_spinlock 0 nm (-1)]> (k_locks hand)) as Hlk4.
  { assert (lk_name (get_lock (LkProc me) s1) = nm) as <-.
    { unfold get_lock. change (k_locks s1) with (k_locks hand). by rewrite Hheld. }
    unfold s4, landed. by destruct write. }
  assert (get_lock (LkProc me) s4 = mk_spinlock 0 nm (-1)) as Hg4.
  { unfold get_lock. by rewrite Hlk4, lookup_insert_eq. }
  assert (spinlock_acquire (LkProc me) s4 = Ok (tt, acq (LkProc me) s4)) as Hacq
    by (apply acquire_run; by rewrite Hg4).
  run Hacq.
  rewrite (bind_ok _ _ _ (set_state RUNNABLE (set_sleep_space (ChBuf i) p)) (acq (LkProc me) s4)).
  2:{ apply get_proc_run.
      change (k_procs (acq (LkProc me) s4)) with
        (<[me := set_state RUNNABLE (set_sleep_space (ChBuf i) p)]> (k_procs s0)).
      apply list_lookup_insert_eq. by eapply lookup_lt_Some. }
  rewrite bool_decide_true by done. mrun.
  assert (set_hproc (Some me) (k_hart (acq (LkProc me) s4)) = k_hart hand) as Hhart.
  { etrans; [|apply (turn_hart (k_hart hand) Hsie); lia]. rewrite Hpr. by destruct write. }
  assert (k_locks (acq (LkProc me) s4) = k_locks hand) as Hlocks.
  { unfold acq. cbn [k_locks set_locks set_hart]. rewrite Hg4, Hlk4. cbn [lk_name].
    apply turn_locks. rewrite Hheld. do 2 f_equal. by destruct write. }
  assert (alter (set_state RUNNING) me (k_procs (acq (LkProc me) s4)) =
    <[me := set_state RUNNING (set_sleep_space (ChBuf i) p)]> (k_procs s0)) as Hprocs.
  { change (k_procs (acq (LkProc me) s4)) with
      (<[me := set_state RUNNABLE (set_sleep_space (ChBuf i) p)]> (k_procs s0)).
    rewrite (alter_insert _ _ _ (set_state RUNNABLE (set_sleep_space (ChBuf i) p))).
    - by rewrite list_insert_insert_eq.
    - apply list_lookup_insert_eq. by eapply lookup_lt_Some. }
  rewrite Hprocs. do 2 f_equal. rewrite <- Hhart, <- Hlocks. by destruct write.
Qed.

(** One sleep in [wait_done] sees the transfer through. *)
Lemma driver_sleep_run :
  @proc_sleep disk_switch (ChBuf i) LkVdisk s0 = Ok (tt, landed i0 i write blk n d s0).
Proof.
  destruct Hin as [Hr Hn [nm Hh] [Hp [Hst Hsp]] Hl Hk Hq].
  assert (me < NPROC)%nat as Hme by (rewrite <- Hl; by eapply lookup_lt_Some).
  rewrite (proc_sleep_until (ChBuf i) LkVdisk me p s0); [|done|done|by exists nm|by apply Hk|done].
  fold hand. run disk_turn_run. unfold upd_proc. mrun.
  set (s5 := set_procs _ (set_procs _ _)).
  destruct (Hk me Hme) as [nmp Hpl].
  pose proof (sleep_handoff_lock (ChBuf i) LkVdisk me p s0 ltac:(done)) as Hheld.
  unfold get_lock in Hheld. rewrite Hpl in Hheld. cbn [default lk_name] in Hheld.
  pose proof (sleep_handoff_running (ChBuf i) LkVdisk me p s0 Hr) as [Hpr Hsie Hno].
  assert (spinlock_release (LkProc me) s5 = Ok (tt, rel (LkProc me) s5)) as Hrel.
  { apply release_run; [by exists nmp|done|done]. }
  run Hrel.
  assert (k_locks (rel (LkProc me) s5) =
    <[LkVdisk := mk_spinlock 0 nm (-1)]> (k_locks s0)) as Hlk5.
  { unfold rel. cbn [k_locks set_locks set_hart].
    change (k_locks s5) with (k_locks hand). unfold get_lock. change (k_locks s5) with (k_locks hand).
    fold hand in Hheld. rewrite Hheld. cbn [default lk_name]. unfold hand, sleep_handoff, rel, acq.
    cbn [k_locks set_locks set_hart set_procs]. unfold get_lock. cbn [k_locks set_locks set_hart].
    rewrite lookup_insert_ne, Hh by done. cbn [default lk_name].
    rewrite insert_insert_ne, insert_insert_eq by done. f_equal. by apply insert_id. }
  rewrite acquire_run by (unfold get_lock; by rewrite Hlk5, lookup_insert_eq).
  assert (k_locks (acq LkVdisk (rel (LkProc me) s5)) = k_locks s0) as Hlk6.
  { unfold acq. cbn [k_locks set_locks set_hart]. unfold get_lock. rewrite Hlk5, lookup_insert_eq.
    cbn [default lk_name]. apply turn_locks. by rewrite Hh. }
  assert (k_hart (acq LkVdisk (rel (LkProc me) s5)) = k_hart s0) as Hh6.
  { change (hart_push (hart_pop (hart_pop (hart_push (k_hart s0)))) = k_hart s0).
    rewrite hart_pop_push by by left; destruct Hr. apply hart_push_pop; [by destruct Hr|done]. }
  assert (k_procs (acq LkVdisk (rel (LkProc me) s5)) = k_procs s0) as Hp6.
  { change (k_procs (acq LkVdisk (rel (LkProc me) s5))) with
      (alter (set_sleep_space ChNull) me
        (<[me := set_state RUNNING (set_sleep_space (ChBuf i) p)]> (k_procs s0))).
    rewrite (alter_insert _ _ _ (set_state RUNNING (set_sleep_space (ChBuf i) p)))
      by (apply list_lookup_insert_eq; by eapply lookup_lt_Some).
    rewrite list_insert_insert_eq. apply list_insert_id. rewrite Hp. f_equal.
    destruct p; simpl in *. by subst. }
  do 2 f_equal. transitivity (set_procs (k_procs s0) (set_hart (k_hart s0)
    (set_locks (k_locks s0) (landed i0 i write blk n d s0)))); [|by destruct write].
  rewrite <- Hp6, <- Hh6, <- Hlk6. by destruct write.
Qed.

End wait.

(** ** The whole request *)

Definition clear_addr (d : VRingDesc) : VRingDesc := mk_desc DNull (vd_len d) (vd_flags d) (vd_next d).

Lemma free_chain_run s d0 d1 d2 :
  procs_quiet s → no_disk_sleeper (k_procs s) →
  vd_free (k_vdisk s) = replicate 3 false ++ replicate 5 true →
  vd_desc (k_vdisk s) !! 0%nat = Some d0 → vd_desc (k_vdisk s) !! 1%nat = Some d1 →
  vd_desc (k_vdisk s) !! 2%nat = Some d2 →
  Z.land (vd_flags d0) VRING_DESC_F_NEXT ≠ 0 → vd_next d0 = 1 →
  Z.land (vd_flags d1) VRING_DESC_F_NEXT ≠ 0 → vd_next d1 = 2 →
  Z.land (vd_flags d2) VRING_DESC_F_NEXT = 0 →
  ∃ v, free_chain 0 s = Ok (tt, set_vdisk v s) ∧ vd_free v = replicate NUM true ∧
    length (vd_desc v) = length (vd_desc (k_vdisk s)) ∧
    vd_avail v = vd_avail (k_vdisk s) ∧ vd_avail_idx v = vd_avail_idx (k_vdisk s) ∧
    vd_used v = vd_used (k_vdisk s) ∧ vd_used_ring_idx v = vd_used_ring_idx (k_vdisk s) ∧
    vd_used_idx v = vd_used_idx (k_vdisk s) ∧ vd_info v = vd_info (k_vdisk s).
Proof.
  intros Hq Hs Hf H0 H1 H2 F0 N0 F1 N1 F2. unfold free_chain.
  assert (∀ s', k_procs s' = k_procs s → same_sync s s' → procs_quiet s') as Hq'.
  { intros s' E Hsy. apply (procs_quiet_frame s); [done|done|by rewrite E]. }
  change (S NUM) with 9%nat. cbn [free_chain_loop].
  rewrite (bind_ok _ _ _ _ _ (free_desc_run 0 s Hq Hs ltac:(unfold NUM; lia) ltac:(by rewrite Hf))). mrun.
  set (s1 := set_vdisk _ s). assert (vd_desc (k_vdisk s1) !! 0%nat = Some (clear_addr d0)) as ->.
  { simpl. by rewrite list_lookup_alter_eq, H0. }
  mrun. cbn [vd_flags vd_next clear_addr]. rewrite (proj2 (Z.eqb_neq _ _) F0), N0. cbn [negb].
  change (Z.to_nat 1) with 1%nat.
  rewrite (bind_ok _ _ _ _ _ (free_desc_run 1 s1 (Hq' s1 eq_refl (conj eq_refl eq_refl)) Hs
    ltac:(unfold NUM; lia) ltac:(simpl; by rewrite Hf))). mrun.
  set (s2 := set_vdisk _ s1). assert (vd_desc (k_vdisk s2) !! 1%nat = Some (clear_addr d1)) as ->.
  { simpl. rewrite list_lookup_alter_eq, list_lookup_alter_ne by done. by rewrite H1. }
  mrun. cbn [vd_flags vd_next clear_addr]. rewrite (proj2 (Z.eqb_neq _ _) F1), N1. cbn [negb].
  change (Z.to_nat 2) with 2%nat.
  rewrite (bind_ok _ _ _ _ _ (free_desc_run 2 s2 (Hq' s2 eq_refl (conj eq_refl eq_refl)) Hs
    ltac:(unfold NUM; lia) ltac:(simpl; by rewrite Hf))). mrun.
  set (s3 := set_vdisk _ s2). assert (vd_desc (k_vdisk s3) !! 2%nat = Some (clear_addr d2)) as ->.
  { simpl. rewrite list_lookup_alter_eq, !list_lookup_alter_ne by done. by rewrite H2. }
  mrun. cbn [vd_flags vd_next clear_addr]. rewrite F2. cbn [negb Z.eqb].
  exists (k_vdisk s3). split; [done|]. simpl. rewrite !length_alter, Hf. done.
Qed.

Lemma get_buf_run i s n : k_bufs s !! i = Some n → get_buf i s = Ok (bn_buf n, s).
Proof. intros H. unfold get_buf. mrun. by rewrite H. Qed.

(** The driver's state with the request of buffer [i] queued on descriptors 0, 1
    and 2. *)
Definition queued (i : nat) (write : bool) (pa blk : Z) (v : vdisk) : vdisk :=
  mk_vdisk
    (<[2%nat := mk_desc (DStatus 0) 1 VRING_DESC_F_WRITE 0]>
    (<[1%nat := mk_desc (DData i) BLOCK_SIZE
        (Z.lor (if write then 0 else VRING_DESC_F_WRITE) VRING_DESC_F_NEXT) 2]>
    (<[0%nat := mk_desc (DHdr pa (if write then VIRTIO_BLK_T_OUT else VIRTIO_BLK_T_IN) 0 (2 * blk)) 16
        VRING_DESC_F_NEXT 1]> (vd_desc v))))
    (u16 (vd_avail_idx v + 1))
    (<[Z.to_nat (vd_avail_idx v mod Z.of_nat NUM) := 0]> (vd_avail v))
    (vd_used_ring_idx v) (vd_used v) (replicate 3 false ++ replicate 5 true) (vd_used_idx v)
    (<[0%nat := (Some i, 0)]> (vd_info v)).

Lemma queued_in_flight i write pa blk v s :
  vdisk_idle v → k_vdisk s = queued i write pa blk v → in_flight s 0 1 2 i write blk.
Proof.
  intros [Hf Hd Ha Hu Hi Hx Hr Hb] Hv. unfold NUM in *.
  split; [split|..]; rewrite ?Hv; simpl; unfold NUM; rewrite ?Hr.
  - done.
  - apply list_lookup_insert_eq. rewrite Ha. zdiv.
  - eexists. rewrite !list_lookup_insert_ne by done. apply list_lookup_insert_eq. lia.
  - rewrite list_lookup_insert_ne by done. apply list_lookup_insert_eq. rewrite length_insert. lia.
  - apply list_lookup_insert_eq. rewrite !length_insert. lia.
  - done.
  - done.
  - done.
  - apply list_lookup_insert_eq. lia.
Qed.

Definition set_node (n : buf_node) (f : buf → buf) : buf_node := mk_buf_node (f (bn_buf n)) (bn_links n).

(** [wait_done] sleeps once. *)
Lemma wait_done_run me p i write blk n d s :
  in_driver me p s → in_flight s 0 1 2 i write blk → 0 ≤ blk →
  k_bufs s !! i = Some n → disk (bn_buf n) = true → k_disk s !! blk = Some d →
  @wait_done disk_switch WAIT_FUEL i s = Ok (tt, landed 0 i write blk n d s).
Proof.
  intros Hin Hfl Hb Hn Hd Hk. change WAIT_FUEL with (S (S 62)). cbn [wait_done].
  run (get_buf_run i s n Hn). rewrite Hd.
  run (driver_sleep_run me 0 1 2 i write blk p n d s Hin Hfl Hb Hn Hk).
  set (n1 := if write then n else set_node n (buf_set_data d)).
  assert (k_bufs (complete 0 (transfer write i blk n d s)) !! i = Some n1) as Hn1.
  { destruct write; [done|]. apply list_lookup_insert_eq. by eapply lookup_lt_Some. }
  rewrite (bind_ok _ _ _ (bn_buf (set_node n1 (buf_set_disk false))) (landed 0 i write blk n d s)).
  - done.
  - apply get_buf_run. unfold landed. cbn [k_bufs set_bufs]. by rewrite list_lookup_alter_eq, Hn1.
Qed.

Lemma wait_desc_run s :
  vd_free (k_vdisk s) = replicate NUM true →
  @wait_desc disk_switch WAIT_FUEL s = Ok ((0, 1, 2)%nat,
    set_vdisk (vd_set_free (λ _, replicate 3 false ++ replicate 5 true) (k_vdisk s)) s).
Proof.
  intros Hf. change WAIT_FUEL with (S 63). cbn [wait_desc]. by run (alloc3_run s Hf).
Qed.

(** The driver until it waits. *)
Lemma request_run s i n write :
  driver_idle s → k_bufs s !! i = Some n → 0 ≤ block_num (bn_buf n) < 2^31 →
  ∃ pa,
  @virtio_disk_rw disk_switch St i write s =
    (@wait_done disk_switch WAIT_FUEL i;;
     upd_vdisk (vd_set_info (alter (λ e, (None, snd e)) 0%nat));;
     free_chain 0;;
     spinlock_release LkVdisk)
    (set_vdisk (queued i write pa (block_num (bn_buf n)) (k_vdisk s))
      (set_bufs (<[i := set_node n (buf_set_disk true)]> (k_bufs s)) (acq LkVdisk s))).
Proof.
  intros [(me & p & Hme & _) Hl Hk Hv Hq Hi (pte & Hpte & Hst)] Hn Hb.
  exists (PTE_TO_PA (load64 (k_mem s) pte) + buf0_addr mod PGSIZE).
  unfold virtio_disk_rw. run (get_buf_run i s n Hn).
  assert (u32 (block_num (bn_buf n) * (BLOCK_SIZE / 512)) = 2 * block_num (bn_buf n)) as ->.
  { unfold BLOCK_SIZE. change (1024 / 512) with 2. rewrite u32_small; lia. }
  cbv zeta. run (acquire_run LkVdisk s (lock_idle_unlocked _ _ Hv)).
  run (wait_desc_run (acq LkVdisk s) (vi_free _ Hi)). unfold kvm_get_kernel_pgtbl. mrun.
  set (s2 := set_vdisk _ _). change (k_kpgtbl s2) with (k_kpgtbl s).
  run (Hst s2 eq_refl). mrun. rewrite (proj2 (Z.eqb_neq _ _) Hpte). unfold read64. mrun.
  unfold set_desc, upd_vdisk, upd_buf. mrun.
  destruct (lookup_lt_is_Some_2 (vd_info (k_vdisk s)) 0) as [e He].
  { rewrite (vi_info _ Hi). unfold NUM. lia. }
  assert (alter (λ e : option nat * Z, (Some i, e.2)) 0%nat
    (alter (λ e : option nat * Z, (e.1, 0)) 0%nat (vd_info (k_vdisk s))) =
    <[0%nat := (Some i, 0)]> (vd_info (k_vdisk s))) as Hinfo.
  { rewrite (alter_insert _ _ _ e He), (alter_insert _ _ _ (e.1, 0)).
    - by rewrite list_insert_insert_eq.
    - apply list_lookup_insert_eq. rewrite (vi_info _ Hi). unfold NUM. lia. }
  unfold queued, set_node. rewrite <- Hinfo.
  by rewrite <- (alter_insert (λ n, mk_buf_node (buf_set_disk true (bn_buf n)) (bn_links n)) _ _ _ Hn).
Qed.

Lemma request_in_driver s i n write pa blk :
  driver_idle s → h_sie (k_hart s) = false → 0 < h_noff (k_hart s) →
  ∃ me p, in_driver me p (set_vdisk (queued i write pa blk (k_vdisk s))
    (set_bufs (<[i := n]> (k_bufs s)) (acq LkVdisk s))).
Proof.
  intros [(me & p & Hme & Hp & Hst & Hsp) Hl Hk Hv Hq Hi _] Hs Hn. exists me, p. split.
  - split; [done|done|simpl; lia].
  - simpl. lia.
  - destruct (acq_held LkVdisk s) as [nm H]. by exists nm.
  - done.
  - done.
  - intros j Hj. destruct (acq_idle LkVdisk (LkProc j) s ltac:(done) (Hk j Hj)) as [nm H]. by exists nm.
  - done.
Qed.

(** Freeing the chain of a finished request leaves the driver idle. *)
Lemma landed_chain s i write pa blk v0 :
  vdisk_idle v0 → procs_quiet s → no_disk_sleeper (k_procs s) →
  vd_desc (k_vdisk s) = vd_desc (queued i write pa blk v0) →
  vd_free (k_vdisk s) = vd_free (queued i write pa blk v0) →
  length (vd_avail (k_vdisk s)) = length (vd_avail (queued i write pa blk v0)) ∧
  length (vd_used (k_vdisk s)) = length (vd_used v0) ∧
  length (vd_info (k_vdisk s)) = length (vd_info v0) →
  vd_used_ring_idx (k_vdisk s) = u16 (vd_used_ring_idx v0 + 1) →
  vd_used_idx (k_vdisk s) = u16 (vd_used_ring_idx v0 + 1) →
  vd_avail_idx (k_vdisk s) = u16 (vd_avail_idx v0 + 1) →
  ∃ v, free_chain 0 s = Ok (tt, set_vdisk v s) ∧ vdisk_idle v.
Proof.
  intros [Hf Hde Ha Hu Hi Hx Hr Hb] Hq Hs Hd Hfr (La & Lu & Li) Hri Hui Hai. unfold NUM in *.
  destruct (free_chain_run s (mk_desc (DHdr pa (if write then VIRTIO_BLK_T_OUT else VIRTIO_BLK_T_IN) 0
      (2 * blk)) 16 VRING_DESC_F_NEXT 1) (mk_desc (DData i) BLOCK_SIZE
        (Z.lor (if write then 0 else VRING_DESC_F_WRITE) VRING_DESC_F_NEXT) 2)
      (mk_desc (DStatus 0) 1 VRING_DESC_F_WRITE 0))
    as (v & Hfc & Hfv & Hdv & Hav & Haiv & Huv & Hriv & Huiv & Hiv);
    [done|done|by rewrite Hfr|rewrite Hd; simpl..|done|done|by destruct write|done|done|].
  - rewrite !list_lookup_insert_ne by done. apply list_lookup_insert_eq. lia.
  - rewrite list_lookup_insert_ne by done. apply list_lookup_insert_eq. rewrite length_insert. lia.
  - apply list_lookup_insert_eq. rewrite !length_insert. lia.
  - exists v. split; [done|]. simpl in La. rewrite length_insert in La. split.
    + done.
    + rewrite Hdv, Hd. simpl. by rewrite !length_insert.
    + by rewrite Hav, La.
    + by rewrite Huv, Lu.
    + by rewrite Hiv, Li.
    + by rewrite Huiv, Hriv, Hui, Hri.
    + by rewrite Haiv, Hriv, Hai, Hri, Hr.
    + rewrite Hriv, Hri. by apply Z.mod_pos_bound.
Qed.

Lemma virtio_disk_rw_run s i n d write :
  driver_idle s → h_sie (k_hart s) = false → 0 < h_noff (k_hart s) →
  k_bufs s !! i = Some n → 0 ≤ block_num (bn_buf n) < 2^31 →
  k_disk s !! block_num (bn_buf n) = Some d →
  ∃ v, @virtio_disk_rw disk_switch St i write s = Ok (tt, rw_done write i n d v s) ∧ vdisk_idle v.
Proof.
  intros Hid Hsie Hnoff Hn Hb Hd.
  destruct (request_run s i n write Hid Hn Hb) as [pa ->].
  set (n1 := set_node n (buf_set_disk true)). set (blk := block_num (bn_buf n)) in *.
  set (s0 := set_vdisk _ _).
  destruct (request_in_driver s i n1 write pa blk Hid Hsie Hnoff) as (me & p & Hin). fold s0 in Hin.
  pose proof (queued_in_flight i write pa blk (k_vdisk s) s0 (dr_vd _ Hid) eq_refl) as Hfl.
  assert (k_bufs s0 !! i = Some n1) as Hn1 by (apply list_lookup_insert_eq; by eapply lookup_lt_Some).
  run (wait_done_run me p i write blk n1 d s0 Hin Hfl ltac:(lia) Hn1 eq_refl Hd).
  unfold upd_vdisk. mrun. set (s1 := set_vdisk _ _).
  assert (same_sync s0 s1 ∧ k_procs s1 = k_procs s0) as [Hsy Hps] by by destruct write.
  assert (procs_quiet s1) as Hq1.
  { apply (procs_quiet_frame s0); [|done|by rewrite Hps]. destruct Hin. split; [|done..].
    by eapply running_stable. }
  assert (no_disk_sleeper (k_procs s1)) as Hns by (rewrite Hps; by destruct Hin).
  destruct (landed_chain s1 i write pa blk (k_vdisk s) (dr_vd _ Hid)) as (v & Hfc & Hv);
    [done|done|by destruct write|by destruct write| |by destruct write..|].
  { destruct write; simpl; by rewrite ?length_insert, ?length_alter, ?length_insert. }
  exists v. split; [|done]. run Hfc.
  rewrite (release_after LkVdisk s); [|by left|apply Hid|by destruct write].
  do 2 f_equal. unfold rw_done. fold blk.
  transitivity (set_vdisk v (set_disk (if write then <[blk := data (bn_buf n)]> (k_disk s) else k_disk s)
    (set_bufs (k_bufs s1) s))); [by destruct write|].
  assert (k_bufs s1 = <[i := set_node (if write then n else set_node n (buf_set_data d))
    (buf_set_disk false)]> (k_bufs s)) as ->; [|by destruct write].
  assert (i < length (k_bufs s))%nat by by eapply lookup_lt_Some.
  destruct write.
  - change (k_bufs s1) with (alter (λ n, set_node n (buf_set_disk false)) i (<[i := n1]> (k_bufs s))).
    etrans; [apply (alter_insert _ _ _ n1 Hn1)|]. apply list_insert_insert_eq.
  - change (k_bufs s1) with (alter (λ n, set_node n (buf_set_disk false)) i
      (<[i := set_node n1 (buf_set_data d)]> (<[i := n1]> (k_bufs s)))).
    rewrite list_insert_insert_eq, (alter_insert _ _ _ (set_node n1 (buf_set_data d)))
      by by apply list_lookup_insert_eq.
    by rewrite list_insert_insert_eq.
Qed.

(** Idleness depends on the driver's state, the process table, the kernel page
    table and the locks of the two. *)
Lemma driver_idle_frame s s' :
  driver_idle s → vdisk_idle (k_vdisk s') → k_procs s' = k_procs s → k_kpgtbl s' = k_kpgtbl s →
  k_mem s' = k_mem s → h_proc (k_hart s') = h_proc (k_hart s) →
  (∀ lk, dev_lock lk → k_locks s' !! lk = k_locks s !! lk) → driver_idle s'.
Proof.
  intros [Hme Hl Hk Hv Hq Hi Hst] Hvi Ep Ek Em Eh El. split.
  - by rewrite Eh, Ep.
  - by rewrite Ep.
  - intros j Hj. destruct (Hk j Hj) as [nm H]. exists nm. rewrite El; [done|]. right. by exists j.
  - destruct Hv as [nm H]. exists nm. rewrite El; [done|]. by left.
  - by rewrite Ep.
  - done.
  - destruct Hst as (pte & Hne & Hst). exists pte. split; [done|]. intros s1 E1.
    rewrite Ek. apply Hst. by rewrite E1, Em.
Qed.

#[export] Instance virtio_block_device : BlockDevice.
Proof.
  refine {| disk_rw := @virtio_disk_rw disk_switch St; dev_idle := driver_idle |}.
  - intros s i n d write Hid Hs Hn Hb Hr Hd.
    destruct (virtio_disk_rw_run s i n d write Hid Hs Hn Hb Hr Hd) as (v & Hrun & Hv).
    exists v. split; [done|]. apply (driver_idle_frame s); [done|by destruct write..].
  - intros s s' Hid Ev Ep Ek Em Eh El. apply (driver_idle_frame s); try done. rewrite Ev. apply Hid.
Defined.

End idle.

(** ** A concrete device and a booted machine *)

(** A device that serves the next available request, if there is one. *)
Definition qemu_serve : K unit := λ s,
  let v := k_vdisk s in
  if vd_avail_idx v =? vd_used_ring_idx v then Ok (tt, s) else
  match vd_avail v !! Z.to_nat (vd_used_ring_idx v mod Z.of_nat NUM) with
  | Some id =>
      match vd_desc v !! Z.to_nat id with
      | Some (mk_desc (DHdr _ type _ sector) _ _ next) =>
          match vd_desc v !! Z.to_nat next with
          | Some (mk_desc (DData i) _ _ _) =>
              match k_bufs s !! i, k_disk s !! (sector / 2) with
              | Some n, Some d =>
                  Ok (tt, complete (Z.to_nat id) (transfer (type =? VIRTIO_BLK_T_OUT) i (sector / 2) n d s))
              | _, _ => Hang
              end
          | _ => Hang
          end
      | _ => Hang
      end
  | None => Hang
  end.

#[export] Instance qemu_device : Device.
Proof.
  refine {| device := qemu_serve |}.
  intros s i0 i1 i2 i write blk n d [Hi Ha [pa Hh] Hd _] Hb Hn Hk. unfold qemu_serve.
  rewrite (proj2 (Z.eqb_neq _ _)) by (rewrite Hi; unfold u16; zdiv).
  rewrite Ha, Nat2Z.id, Hh, Nat2Z.id, Hd.
  replace (2 * blk / 2) with blk by (rewrite Z.mul_comm, Z.div_mul; lia).
  rewrite Hn, Hk. by destruct write.
Defined.

(** The stack of process 0, and a kernel page table that maps it. *)
#[export] Instance boot_stack : Stack := {| buf0_addr := KSTACK 0 + 0x800 |}.

Definition boot_mem : mem :=
  store64 (store64 ∅ (0x87000000 + 8 * VA_TO_VPN (KSTACK 0) 2) (Z.lor (PA_TO_PTE 0x87001000) PTE_V))
    (0x87001000 + 8 * VA_TO_VPN (KSTACK 0) 1) (Z.lor (PA_TO_PTE 0x87002000) PTE_V).

(** Process 0 runs, all locks are free and the disk, with contents [d], is idle. *)
Definition boot_state (d : gmap Z (list Z)) (bufs : list buf_node) (noff : Z) : kstate :=
  let s := zero_state (image_syms 3) in
  set_hart (set_noff noff (set_hproc (Some O) (k_hart s)))
    (set_locks (<[LkVdisk := mk_spinlock 0 "virtio_disk" (-1)]> proc_locks)
    (set_procs (<[0%nat := set_state RUNNING zero_proc]> (k_procs s))
    (set_vdisk (vd_set_free (λ _, replicate NUM true) (k_vdisk s))
    (set_mem boot_mem (set_kpgtbl 0x87000000 (set_disk d (set_bufs bufs s))))))).

Lemma boot_idle d bufs noff : driver_idle (boot_state d bufs noff).
Proof.
  split.
  - by exists O, (set_state RUNNING zero_proc).
  - reflexivity.
  - intros j Hj. exists "proc". change (k_locks (boot_state d bufs noff)) with
      (<[LkVdisk := mk_spinlock 0 "virtio_disk" (-1)]> proc_locks).
    rewrite lookup_insert_ne by done. by apply proc_locks_lookup.
  - exists "virtio_disk". change (k_locks (boot_state d bufs noff)) with
      (<[LkVdisk := mk_spinlock 0 "virtio_disk" (-1)]> proc_locks). by rewrite lookup_insert_eq.
  - intros j p Hp. change (k_procs (boot_state d bufs noff)) with
      (<[0%nat := set_state RUNNING zero_proc]> (replicate NPROC zero_proc)) in Hp.
    apply list_lookup_insert_Some in Hp as [(<- & <- & _)|[_ Hp]]; [done|].
    by apply lookup_replicate in Hp as [-> _].
  - by split.
  - exists (0x87002000 + 8 * VA_TO_VPN (KSTACK 0) 0). split; [by vm_compute|]. intros s' Hm.
    change (k_mem (boot_state d bufs noff)) with boot_mem in Hm.
    unfold vm_getpte, vm_walk, read64. mrun. rewrite !Hm. by vm_compute.
Qed.

(** ** Claims *)


