(* ===== verification/Buf.v ===== *)
(** * The buffer cache (kernel/fs/buf.c)

    [N_BLOCK_BUF] buffers on a doubly linked ring through [head_buf], most
    recently released first.  The operations are written over the interface
    [BlockDevice] of the disk driver.  The theorems: [insert_head] implements
    move-to-front and move-to-back on the list the ring represents; [buf_read]
    returns the block as it is on the disk, from the cache or by replacing the
    least recently used free buffer; [buf_write] and [buf_release] keep the cache
    coherent with the disk. *)

From S2P Require Import Prelude Bytes Kernel Lock Sched Virtio.

Definition N_BLOCK_BUF : nat := 64.
Definition BLOCK_NUM_UNUSED : Z := 0xFFFFFFFF.

(** ** Link fields *)

Definition get_links (p : nptr) : K buf_links :=
  match p with
  | PNull => fault "buf_node_t: NULL"
  | PHead => gets (λ s, k_head_buf s)
  | PNode i => l ← gets (λ s, k_bufs s); n ← deref "buf_cache" (l !! i); mret (bn_links n)
  end.

Definition put_links (p : nptr) (f : buf_links → buf_links) : K unit :=
  match p with
  | PNull => fault "buf_node_t: NULL"
  | PHead => modify (λ s, set_head_buf (f (k_head_buf s)) s)
  | PNode i =>
      l ← gets (λ s, k_bufs s);
      n ← deref "buf_cache" (l !! i);
      modify (λ s, set_bufs (<[i := mk_buf_node (bn_buf n) (f (bn_links n))]> (k_bufs s)) s)
  end.

Definition node_next (p : nptr) : K nptr := l ← get_links p; mret (bl_next l).
Definition node_prev (p : nptr) : K nptr := l ← get_links p; mret (bl_prev l).
Definition put_next (p v : nptr) : K unit := put_links p (λ l, mk_links v (bl_prev l)).
Definition put_prev (p v : nptr) : K unit := put_links p (λ l, mk_links (bl_next l) v).

(** ** Operations *)

Definition insert_head (i : nat) (head_next : bool) : K unit :=
  nx ← node_next (PNode i);
  pv ← node_prev (PNode i);
  (if negb (bool_decide (nx = PNull)) && negb (bool_decide (pv = PNull)) then
     put_prev nx pv;;
     pv ← node_prev (PNode i);
     nx ← node_next (PNode i);
     put_next pv nx
   else mret tt);;
  if head_next then
    put_prev (PNode i) PHead;;
    hn ← node_next PHead;
    put_next (PNode i) hn;;
    hn ← node_next PHead;
    put_prev hn (PNode i);;
    put_next PHead (PNode i)
  else
    put_next (PNode i) PHead;;
    hp ← node_prev PHead;
    put_prev (PNode i) hp;;
    hp ← node_prev PHead;
    put_next hp (PNode i);;
    put_prev PHead (PNode i).

Definition buf_set_block (b : Z) (x : buf) : buf := mk_buf b (data x) (buf_ref x) (disk x).
Definition buf_set_ref (r : Z) (x : buf) : buf := mk_buf (block_num x) (data x) r (disk x).

Definition buf_init : K unit :=
  spinlock_init LkBufCache "buf_cache";;
  put_next PHead PHead;;
  put_prev PHead PHead;;
  for_each (seq 0 N_BLOCK_BUF) (λ i,
    spinlock_init (LkBuf i) "buffer";;
    upd_buf i (buf_set_block BLOCK_NUM_UNUSED);;
    upd_buf i (buf_set_ref 0);;
    upd_buf i (buf_set_disk false);;
    insert_head i false).

(** The loop [for(node = ...; node != &head_buf; node = node->next/prev)] that looks
    for a buffer; a ring of [N_BLOCK_BUF] nodes is left within as many steps. *)
Fixpoint ring_find (fuel : nat) (forward : bool) (p : nptr) (test : buf → bool) : K (option nat) :=
  if bool_decide (p = PHead) then mret None else
  match fuel, p with
  | O, _ => no_fuel
  | S fuel, PNode i =>
      b ← get_buf i;
      if test b then mret (Some i)
      else p ← (if forward then node_next p else node_prev p); ring_find fuel forward p test
  | S _, _ => fault "buf_node_t: NULL"
  end.

Section device.
  Context {B : BlockDevice}.

Definition buf_read (block : Z) : K nat :=
  spinlock_acquire LkBufCache;;
  p ← node_next PHead;
  r ← ring_find N_BLOCK_BUF true p (λ b, block_num b =? block);
  match r with
  | Some i =>
      b ← get_buf i;
      upd_buf i (buf_set_ref (u32 (buf_ref b + 1)));;
      spinlock_release LkBufCache;;
      spinlock_acquire (LkBuf i);;
      mret i
  | None =>
      p ← node_prev PHead;
      r ← ring_find N_BLOCK_BUF false p (λ b, buf_ref b =? 0);
      match r with
      | Some i =>
          upd_buf i (buf_set_block block);;
          upd_buf i (buf_set_ref 1);;
          upd_buf i (buf_set_disk false);;
          spinlock_release LkBufCache;;
          spinlock_acquire (LkBuf i);;
          disk_rw i false;;
          mret i
      | None => spinlock_release LkBufCache;; panic "buf_read: no buffers"
      end
  end.

Definition buf_write (i : nat) : K unit :=
  h ← spinlock_holding (LkBuf i);
  (if h : bool then mret tt else panic "buf_write: not holding lock");;
  disk_rw i true.

End device.

Definition buf_release (i : nat) : K unit :=
  h ← spinlock_holding (LkBuf i);
  (if h : bool then mret tt else panic "buf_release: not holding lock");;
  spinlock_release (LkBuf i);;
  spinlock_acquire LkBufCache;;
  b ← get_buf i;
  upd_buf i (buf_set_ref (u32 (buf_ref b - 1)));;
  b ← get_buf i;
  (if buf_ref b =? 0 then insert_head i true else mret tt);;
  spinlock_release LkBufCache.

Fixpoint buf_print_loop (fuel : nat) (p : nptr) : K unit :=
  if bool_decide (p = PHead) then mret tt else
  match fuel, p with
  | O, _ => no_fuel
  | S fuel, PNode i =>
      b ← get_buf i;
      printf "buf %d: ref = %d, block_num = %d\n" [Z.of_nat i; buf_ref b; block_num b];;
      for_each (seq 0 8) (λ k, v ← deref "data" (data b !! k); printf "%d " [v]);;
      printf "\n" [];;
      p ← node_next p; buf_print_loop fuel p
  | S _, _ => fault "buf_node_t: NULL"
  end.

Definition buf_print : K unit :=
  printf "\nbuf_cache:\n" [];;
  p ← node_next PHead;
  spinlock_acquire LkBufCache;;
  buf_print_loop N_BLOCK_BUF p;;
  spinlock_release LkBufCache.

(** ** Doubly linked paths

    [path f g a l b]: following [f] (next) from [a] visits the nodes [l] and ends in
    [b], and [g] (prev) is its inverse on the way. *)

Fixpoint path (f g : nptr → nptr) (a : nptr) (l : list nat) (b : nptr) : Prop :=
  match l with
  | [] => f a = b ∧ g b = a
  | x :: l => f a = PNode x ∧ g (PNode x) = a ∧ path f g (PNode x) l b
  end.

Definition upd (f : nptr → nptr) (p v : nptr) : nptr → nptr :=
  λ q, if decide (q = p) then v else f q.

Lemma elem_nodes x (l : list nat) : PNode x ∈ PNode <$> l ↔ x ∈ l.
Proof. rewrite list_elem_of_fmap. split; [by intros (w & [=->] & ?)|by exists x]. Qed.

Lemma head_nodes (l : list nat) : PHead ∉ PNode <$> l.
Proof. rewrite list_elem_of_fmap. by intros (w & [=] & _). Qed.

Lemma upd_eq f p v : upd f p v p = v.
Proof. unfold upd. by rewrite decide_True. Qed.

Lemma upd_ne f p v q : q ≠ p → upd f p v q = f q.
Proof. intros H. unfold upd. by rewrite decide_False. Qed.

Lemma path_ext f g f' g' a l b :
  (∀ q, q = a ∨ q ∈ PNode <$> l → f' q = f q) → (∀ q, q = b ∨ q ∈ PNode <$> l → g' q = g q) →
  path f g a l b → path f' g' a l b.
Proof.
  revert a. induction l as [|x l IH]; intros a Hf Hg; simpl.
  - intros [??]. rewrite Hf, Hg by auto. done.
  - intros (H1 & H2 & H3). rewrite Hf by auto. rewrite Hg by (right; apply list_elem_of_fmap; exists x; set_solver).
    split; [done|]. split; [done|]. apply IH; [| |done].
    + intros q [->|Hq]; apply Hf; right; set_solver.
    + intros q [->|Hq]; apply Hg; [by left|right; set_solver].
Qed.

Lemma path_app f g a l1 x l2 b :
  path f g a (l1 ++ x :: l2) b ↔ path f g a l1 (PNode x) ∧ path f g (PNode x) l2 b.
Proof.
  revert a. induction l1 as [|y l1 IH]; intros a; simpl; [tauto|]. rewrite IH. tauto.
Qed.

Lemma path_rev f g a l b : path f g a l b → path g f b (reverse l) a.
Proof.
  revert a. induction l as [|x l IH]; intros a; simpl; [tauto|].
  intros (H1 & H2 & H3). rewrite reverse_cons. apply path_app. split; [by apply IH|]. done.
Qed.

Lemma path_first f g a l b : path f g a l b → f a = b ∨ f a ∈ PNode <$> l.
Proof. destruct l as [|x l]; simpl; [tauto|]. intros (-> & _). right. set_solver. Qed.

Lemma path_last f g a l b : path f g a l b → g b = a ∨ g b ∈ PNode <$> l.
Proof.
  intros H. destruct (path_first g f b (reverse l) a) as [Hf|Hf].
  - by apply path_rev.
  - by left.
  - right. by rewrite fmap_reverse, elem_of_reverse in Hf.
Qed.

(** Unlinking [x]. *)
Lemma path_cut f g a l1 x l2 :
  path f g a (l1 ++ x :: l2) PHead → NoDup (l1 ++ x :: l2) → a ∉ PNode <$> (l1 ++ x :: l2) →
  path (upd f (g (PNode x)) (f (PNode x))) (upd g (f (PNode x)) (g (PNode x))) a (l1 ++ l2) PHead.
Proof.
  revert a. induction l1 as [|y l1 IH]; intros a; simpl.
  - intros (Ha & Hg & Hp) [Hx Hnd]%NoDup_cons Hna. rewrite Hg.
    destruct l2 as [|z l2]; simpl in *.
    + destruct Hp as [-> Hp]. by rewrite !upd_eq.
    + destruct Hp as (-> & Hz & Hp). rewrite !upd_eq. split; [done|]. split; [done|].
      apply NoDup_cons in Hnd as [Hz' Hnd].
      apply (path_ext f g); [| |done].
      * intros q Hq. apply upd_ne. set_solver.
      * intros q Hq. apply upd_ne. intros ->. destruct Hq as [|Hq]; [done|].
        by apply elem_nodes in Hq.
  - intros (Ha & Hg & Hp) [Hy Hnd]%NoDup_cons Hna.
    pose proof (proj1 (path_app f g (PNode y) l1 x l2 PHead) Hp) as [P1 P2].
    assert (a ≠ g (PNode x)) as Hag.
    { destruct (path_last _ _ _ _ _ P1) as [->|Hin]; [set_solver|]. intros ->. apply Hna.
      right. rewrite fmap_app. set_solver. }
    assert (PNode y ≠ f (PNode x)) as Hyf.
    { destruct (path_first _ _ _ _ _ P2) as [->|Hin]; [done|]. intros He. rewrite <- He in Hin.
      apply elem_nodes in Hin. set_solver. }
    rewrite !upd_ne by done. split; [done|]. split; [done|]. apply IH; [done|done|].
    by rewrite elem_nodes.
Qed.

(** Linking [x] in after the head. *)
Lemma path_push f g l x :
  path f g PHead l PHead → x ∉ l → NoDup l →
  path (upd (upd f (PNode x) (f PHead)) PHead (PNode x))
    (upd (upd g (PNode x) PHead) (f PHead) (PNode x)) PHead (x :: l) PHead.
Proof.
  intros Hp Hx Hnd. simpl. rewrite upd_eq. split; [done|].
  assert (f PHead ≠ PNode x) as Hf.
  { destruct (path_first _ _ _ _ _ Hp) as [->|Hin]; [done|]. intros He. rewrite He in Hin.
    by apply elem_nodes in Hin. }
  rewrite (upd_ne _ (f PHead)), upd_eq by congruence. split; [done|].
  destruct l as [|y l]; simpl in *.
  - destruct Hp as [Hp _]. rewrite upd_ne, upd_eq, Hp, upd_eq by done. done.
  - destruct Hp as (Hy & Hg & Hp). rewrite upd_ne, upd_eq, Hy, upd_eq by done. split; [done|]. split; [done|].
    apply NoDup_cons in Hnd as [Hy' Hnd].
    apply (path_ext f g); [| |done].
    + intros q Hq. assert (q ≠ PHead) by (intros ->; destruct Hq; [done|by eapply head_nodes]).
      rewrite !upd_ne; [done| |done]. intros ->. rewrite elem_nodes in Hq.
      destruct Hq as [[=]|Hq]; subst; apply Hx; [by left|by right].
    + intros q Hq. rewrite !upd_ne; [done| |]; intros ->; rewrite elem_nodes in Hq.
      * destruct Hq as [|Hq]; [done|]. apply Hx. by right.
      * by destruct Hq.
Qed.

(** ** The ring in the state *)

Definition links_of (s : kstate) (p : nptr) : buf_links :=
  match p with
  | PNull => mk_links PNull PNull
  | PHead => k_head_buf s
  | PNode i => default (mk_links PNull PNull) (bn_links <$> k_bufs s !! i)
  end.
Definition nxt (s : kstate) (p : nptr) : nptr := bl_next (links_of s p).
Definition prv (s : kstate) (p : nptr) : nptr := bl_prev (links_of s p).

Definition node_ok (s : kstate) (p : nptr) : Prop :=
  match p with PNull => False | PHead => True | PNode i => (i < length (k_bufs s))%nat end.

(** [s'] is [s] with other links; the contents of the buffers are the same. *)
Definition relinked (s s' : kstate) : Prop :=
  s' = set_bufs (k_bufs s') (set_head_buf (k_head_buf s') s) ∧
  bn_buf <$> k_bufs s' = bn_buf <$> k_bufs s.

Record linkeff (s : kstate) (f g : nptr → nptr) (s' : kstate) : Prop := {
  le_re : relinked s s';
  le_nxt q : nxt s' q = f q;
  le_prv q : prv s' q = g q }.

Lemma relinked_len s s' : relinked s s' → length (k_bufs s') = length (k_bufs s).
Proof. intros [_ H]. by rewrite <- (length_fmap bn_buf), H, length_fmap. Qed.

Lemma relinked_ok s s' p : relinked s s' → node_ok s p → node_ok s' p.
Proof. intros H. destruct p; simpl; [done|done|]. by rewrite (relinked_len _ _ H). Qed.

Lemma linkeff_refl s : linkeff s (nxt s) (prv s) s.
Proof. by split. Qed.

Lemma get_links_run s p : node_ok s p → get_links p s = Ok (links_of s p, s).
Proof.
  destruct p as [| |i]; [done|done|]. intros [n Hn]%lookup_lt_is_Some_2. simpl. mrun.
  by rewrite Hn.
Qed.

Lemma node_next_run s0 f g s p :
  linkeff s0 f g s → node_ok s0 p → node_next p s = Ok (f p, s).
Proof.
  intros He Hp. unfold node_next. run (get_links_run s p (relinked_ok _ _ _ (le_re _ _ _ _ He) Hp)).
  by rewrite <- (le_nxt _ _ _ _ He).
Qed.

Lemma node_prev_run s0 f g s p :
  linkeff s0 f g s → node_ok s0 p → node_prev p s = Ok (g p, s).
Proof.
  intros He Hp. unfold node_prev. run (get_links_run s p (relinked_ok _ _ _ (le_re _ _ _ _ He) Hp)).
  by rewrite <- (le_prv _ _ _ _ He).
Qed.

Lemma put_links_run s p h :
  node_ok s p → ∃ s', put_links p h s = Ok (tt, s') ∧ relinked s s' ∧
    (∀ q, links_of s' q = if decide (q = p) then h (links_of s p) else links_of s q).
Proof.
  destruct p as [| |i]; [done| |].
  - intros _. eexists. split; [reflexivity|]. split; [done|]. by intros [].
  - intros [n Hn]%lookup_lt_is_Some_2. simpl. mrun. rewrite Hn. mrun.
    eexists. split; [reflexivity|]. split.
    + split; [done|]. cbn [k_bufs set_bufs]. rewrite list_fmap_insert. cbn [bn_buf].
      apply list_insert_id. by rewrite list_lookup_fmap, Hn.
    + intros [| |j]; [done|done|]. simpl. destruct (decide (PNode j = PNode i)) as [[= ->]|Hne].
      * rewrite list_lookup_insert_eq by by eapply lookup_lt_Some. done.
      * by rewrite list_lookup_insert_ne by congruence.
Qed.

Lemma relinked_trans s1 s2 s3 : relinked s1 s2 → relinked s2 s3 → relinked s1 s3.
Proof. intros [E1 F1] [E2 F2]. split; [rewrite E2 at 1; by rewrite E1|congruence]. Qed.

Lemma put_next_run s0 f g s p v :
  linkeff s0 f g s → node_ok s0 p →
  ∃ s', put_next p v s = Ok (tt, s') ∧ linkeff s0 (upd f p v) g s'.
Proof.
  intros [Hr Hn Hp] Hok.
  destruct (put_links_run s p (λ l, mk_links v (bl_prev l)) (relinked_ok _ _ _ Hr Hok)) as (s' & Hs & Hr' & Hl).
  exists s'. split; [done|]. split; [by eapply relinked_trans|..].
  - intros q. unfold nxt, upd. rewrite Hl. by case_decide; [|apply Hn].
  - intros q. rewrite <- Hp. unfold prv. rewrite Hl. by case_decide; subst.
Qed.

Lemma put_prev_run s0 f g s p v :
  linkeff s0 f g s → node_ok s0 p →
  ∃ s', put_prev p v s = Ok (tt, s') ∧ linkeff s0 f (upd g p v) s'.
Proof.
  intros [Hr Hn Hp] Hok.
  destruct (put_links_run s p (λ l, mk_links (bl_next l) v) (relinked_ok _ _ _ Hr Hok)) as (s' & Hs & Hr' & Hl).
  exists s'. split; [done|]. split; [by eapply relinked_trans|..].
  - intros q. rewrite <- Hn. unfold nxt. rewrite Hl. by case_decide; subst.
  - intros q. unfold prv, upd. rewrite Hl. by case_decide; [|apply Hp].
Qed.

(** The ring holds the nodes [l], in this order from [head_buf.next]. *)
Record ring (s : kstate) (l : list nat) : Prop := {
  rg_path : path (nxt s) (prv s) PHead l PHead;
  rg_nodup : NoDup l;
  rg_ok i : i ∈ l → (i < length (k_bufs s))%nat }.

(** Linking node [i], not on the ring, at either end. *)
Lemma link_run s0 f g s l i (front : bool) :
  linkeff s0 f g s → path f g PHead l PHead → NoDup l → i ∉ l →
  (i < length (k_bufs s0))%nat → (∀ j, j ∈ l → (j < length (k_bufs s0))%nat) →
  ∃ s', (if front then
    put_prev (PNode i) PHead;; hn ← node_next PHead; put_next (PNode i) hn;;
    hn ← node_next PHead; put_prev hn (PNode i);; put_next PHead (PNode i)
  else
    put_next (PNode i) PHead;; hp ← node_prev PHead; put_prev (PNode i) hp;;
    hp ← node_prev PHead; put_next hp (PNode i);; put_prev PHead (PNode i)) s = Ok (tt, s') ∧
    relinked s0 s' ∧ ring s' (if front then i :: l else l ++ [i]) ∧
    ∀ j, j ≠ i → j ∉ l → nxt s' (PNode j) = f (PNode j).
Proof.
  intros He Hp Hnd Hi Hlt Hok.
  assert (∀ p, p = PHead ∨ p ∈ PNode <$> l → node_ok s0 p) as Hnok.
  { intros p [->|Hin]; [done|]. apply list_elem_of_fmap in Hin as (j & -> & Hj). by apply Hok. }
  destruct front.
  - destruct (put_prev_run _ _ _ _ (PNode i) PHead He Hlt) as (s1 & R1 & E1). run R1.
    run (node_next_run _ _ _ _ PHead E1 I).
    destruct (put_next_run _ _ _ _ (PNode i) (f PHead) E1 Hlt) as (s2 & R2 & E2). run R2.
    run (node_next_run _ _ _ _ PHead E2 I). rewrite upd_ne by done.
    destruct (put_prev_run _ _ _ _ (f PHead) (PNode i) E2 (Hnok _ (path_first _ _ _ _ _ Hp))) as (s3 & R3 & E3).
    run R3. destruct (put_next_run _ _ _ _ PHead (PNode i) E3 I) as (s4 & R4 & E4).
    exists s4. destruct E4 as [Hre Hn4 Hp4]. split; [done|]. split; [done|]. split; [split|].
    + eapply path_ext; [intros; apply Hn4|intros; apply Hp4|]. by apply path_push.
    + by apply NoDup_cons.
    + rewrite (relinked_len _ _ Hre). intros j [->|Hj]%elem_of_cons; auto.
    + intros j Hj _. rewrite Hn4, !upd_ne by congruence. done.
  - destruct (put_next_run _ _ _ _ (PNode i) PHead He Hlt) as (s1 & R1 & E1). run R1.
    run (node_prev_run _ _ _ _ PHead E1 I).
    destruct (put_prev_run _ _ _ _ (PNode i) (g PHead) E1 Hlt) as (s2 & R2 & E2). run R2.
    run (node_prev_run _ _ _ _ PHead E2 I). rewrite upd_ne by done.
    destruct (put_next_run _ _ _ _ (g PHead) (PNode i) E2 (Hnok _ (path_last _ _ _ _ _ Hp))) as (s3 & R3 & E3).
    run R3. destruct (put_prev_run _ _ _ _ PHead (PNode i) E3 I) as (s4 & R4 & E4).
    exists s4. destruct E4 as [Hre Hn4 Hp4]. split; [done|]. split; [done|]. split; [split|].
    + eapply path_ext; [intros; apply Hn4|intros; apply Hp4|].
      replace (l ++ [i]) with (reverse (i :: reverse l)) by by rewrite reverse_cons, reverse_involutive.
      apply path_rev, path_push; [by apply path_rev|by rewrite elem_of_reverse|by rewrite reverse_Permutation].
    + apply NoDup_app. split; [done|]. split; [set_solver|]. apply NoDup_singleton.
    + rewrite (relinked_len _ _ Hre). intros j [Hj|Hj]%elem_of_app; [by auto|].
      apply list_elem_of_singleton in Hj as ->. done.
    + intros j Hj Hjl. rewrite Hn4, !upd_ne; [done|congruence|]. intros Hg.
      destruct (path_last _ _ _ _ _ Hp) as [Hl|Hl]; [congruence|].
      rewrite <- Hg in Hl. by apply elem_nodes in Hl.
Qed.

Lemma ring_links s l i : ring s l → i ∈ l →
  node_ok s (nxt s (PNode i)) ∧ node_ok s (prv s (PNode i)) ∧
  nxt s (PNode i) ≠ PNode i ∧ nxt s (PNode i) ≠ PNull ∧ prv s (PNode i) ≠ PNull.
Proof.
  intros [Hp Hnd Hok] (l1 & l2 & ->)%list_elem_of_split.
  apply path_app in Hp as [P1 P2]. apply NoDup_app in Hnd as (_ & _ & [Hi _]%NoDup_cons).
  assert (∀ p, p = PHead ∨ p ∈ PNode <$> (l1 ++ i :: l2) → node_ok s p ∧ p ≠ PNull) as Hnok.
  { intros p [->|Hin]; [done|]. apply list_elem_of_fmap in Hin as (j & -> & Hj). split; [by apply Hok|done]. }
  rewrite fmap_app, fmap_cons in Hnok.
  pose proof (path_first _ _ _ _ _ P2) as Hn. pose proof (path_last _ _ _ _ _ P1) as Hl.
  destruct (Hnok (nxt s (PNode i))) as [? ?]; [set_solver|].
  destruct (Hnok (prv s (PNode i))) as [? ?]; [set_solver|].
  split; [done|]. split; [done|]. split; [|done].
  destruct Hn as [->|Hin]; [done|]. intros He. rewrite He in Hin. by apply elem_nodes in Hin.
Qed.

(** [insert_head] on a node of the ring moves it to the front or to the back. *)
Lemma insert_head_run s l1 i l2 (front : bool) :
  ring s (l1 ++ i :: l2) →
  ∃ s', insert_head i front s = Ok (tt, s') ∧ relinked s s' ∧
    ring s' (if front then i :: l1 ++ l2 else (l1 ++ l2) ++ [i]).
Proof.
  intros Hr. assert (i ∈ l1 ++ i :: l2) as Hin by set_solver.
  destruct (ring_links s _ i Hr Hin) as (Hnx & Hpv & Hne & Hn0 & Hp0).
  destruct Hr as [Hp Hnd Hok]. pose proof (Hok i Hin) as Hi.
  pose proof (linkeff_refl s) as E0. unfold insert_head.
  run (node_next_run _ _ _ _ (PNode i) E0 Hi). run (node_prev_run _ _ _ _ (PNode i) E0 Hi).
  rewrite !bool_decide_false by done. cbn [negb andb]. rewrite bind_assoc.
  destruct (put_prev_run _ _ _ _ _ (prv s (PNode i)) E0 Hnx) as (s1 & R1 & E1). run R1.
  rewrite bind_assoc. run (node_prev_run _ _ _ _ (PNode i) E1 Hi). rewrite upd_ne by done.
  rewrite bind_assoc. run (node_next_run _ _ _ _ (PNode i) E1 Hi).
  destruct (put_next_run _ _ _ _ _ (nxt s (PNode i)) E1 Hpv) as (s2 & R2 & E2). run R2.
  apply NoDup_app in Hnd as Hnd'. destruct Hnd' as (Hn1 & Hd & [Hi2 Hn2]%NoDup_cons).
  destruct (link_run s _ _ s2 (l1 ++ l2) i front E2) as (s3 & R3 & Hre & Hr & _); [..|by exists s3].
  - apply path_cut; [done|done|]. apply head_nodes.
  - apply NoDup_app. split; [done|]. split; [|done]. set_solver.
  - rewrite elem_of_app. intros [H1|H2]; [|done]. apply (Hd i H1). by left.
  - done.
  - intros j Hj. apply Hok. set_solver.
Qed.

(** [insert_head] on a node that was never linked adds it. *)
Lemma insert_head_new s l i :
  ring s l → i ∉ l → (i < length (k_bufs s))%nat → nxt s (PNode i) = PNull →
  ∃ s', insert_head i false s = Ok (tt, s') ∧ relinked s s' ∧ ring s' (l ++ [i]) ∧
    ∀ j, j ≠ i → j ∉ l → nxt s' (PNode j) = nxt s (PNode j).
Proof.
  intros [Hp Hnd Hok] Hil Hi Hn. pose proof (linkeff_refl s) as E0. unfold insert_head.
  run (node_next_run _ _ _ _ (PNode i) E0 Hi). run (node_prev_run _ _ _ _ (PNode i) E0 Hi).
  rewrite bool_decide_true by done. cbn [negb andb]. rewrite bind_ret.
  by apply (link_run s _ _ s l i false E0).
Qed.

(** Looking for a buffer along the ring. *)
Definition hit (s : kstate) (test : buf → bool) (i : nat) : bool :=
  from_option (test ∘ bn_buf) false (k_bufs s !! i).

Lemma ring_find_run s0 f g s test l a (fwd : bool) fuel :
  linkeff s0 f g s → path (if fwd then f else g) (if fwd then g else f) a l PHead →
  (∀ i, i ∈ l → (i < length (k_bufs s0))%nat) → (length l ≤ fuel)%nat →
  ring_find fuel fwd ((if fwd then f else g) a) test s = Ok (List.find (hit s test) l, s).
Proof.
  intros He. revert a fuel. induction l as [|i l IH]; intros a fuel Hp Hok Hf.
  - destruct Hp as [Hp _]. rewrite Hp. by destruct fuel.
  - destruct Hp as (Ha & _ & Hp). rewrite Ha. destruct fuel as [|fuel]; [simpl in Hf; lia|].
    assert (i < length (k_bufs s0))%nat as Hi by (apply Hok; by left).
    assert (node_ok s (PNode i)) as Hi' by by apply (relinked_ok _ _ _ (le_re _ _ _ _ He)).
    destruct (lookup_lt_is_Some_2 (k_bufs s) i Hi') as [n Hn].
    cbn [ring_find]. rewrite bool_decide_false by done. run (get_buf_run i s n Hn).
    cbn [List.find]. assert (hit s test i = test (bn_buf n)) as -> by (unfold hit; by rewrite Hn).
    destruct (test (bn_buf n)); [done|].
    assert ((if fwd then node_next (PNode i) else node_prev (PNode i)) s =
      Ok ((if fwd then f else g) (PNode i), s)) as Hnx.
    { destruct fwd; [by eapply node_next_run|by eapply node_prev_run]. }
    run Hnx. apply IH; [done|intros j Hj; apply Hok; by right|simpl in Hf; lia].
Qed.

(** ** The cache invariant

    [H] records the buffers the caller holds and their blocks.  A buffer nobody
    holds is unlocked, unreferenced, and unused or equal to its block of the disk;
    a held one is locked and referenced once; no block is cached twice.  [h0] is the
    hart as it was before the held buffers were locked. *)

Section cache.
  Context {B : BlockDevice}.

Definition buf_state_ok (s : kstate) (h : option Z) (i : nat) (b : buf) : Prop :=
  match h with
  | None => lock_idle (LkBuf i) s ∧ buf_ref b = 0 ∧
      (block_num b = BLOCK_NUM_UNUSED ∨ k_disk s !! block_num b = Some (data b))
  | Some blk => lock_held (LkBuf i) s ∧ buf_ref b = 1 ∧ block_num b = blk
  end.

Record bcache (h0 : hart) (H : gmap nat Z) (s : kstate) : Prop := {
  bc_stable : hart_stable h0;
  bc_hart : k_hart s = Nat.iter (size H) hart_push h0;
  bc_len : length (k_bufs s) = N_BLOCK_BUF;
  bc_ring : ∃ l, ring s l ∧ l ≡ₚ seq 0 N_BLOCK_BUF;
  bc_lock : lock_idle LkBufCache s;
  bc_buf i n : k_bufs s !! i = Some n → buf_state_ok s (H !! i) i (bn_buf n);
  bc_dom i b : H !! i = Some b → (i < N_BLOCK_BUF)%nat;
  bc_uniq i j ni nj : k_bufs s !! i = Some ni → k_bufs s !! j = Some nj →
    block_num (bn_buf ni) = block_num (bn_buf nj) → block_num (bn_buf ni) ≠ BLOCK_NUM_UNUSED → i = j;
  bc_dev : dev_idle s }.

(** What the operations leave alone. *)
Definition buf_frame (s s' : kstate) : Prop :=
  s' = set_hart (k_hart s') (set_locks (k_locks s') (set_vdisk (k_vdisk s') (set_disk (k_disk s')
         (set_bufs (k_bufs s') (set_head_buf (k_head_buf s') s))))) ∧
  ∀ lk, (∀ i, lk ≠ LkBuf i) → k_locks s' !! lk = k_locks s !! lk.

Lemma buf_frame_refl s : buf_frame s s.
Proof. done. Qed.

Lemma buf_frame_trans s1 s2 s3 : buf_frame s1 s2 → buf_frame s2 s3 → buf_frame s1 s3.
Proof.
  intros [E1 L1] [E2 L2]. split; [rewrite E2 at 1; by rewrite E1|].
  intros lk Hlk. by rewrite L2, L1.
Qed.

Lemma iter_push_stable n h : hart_stable h → hart_stable (Nat.iter n hart_push h).
Proof.
  intros Hh. destruct n as [|n]; [done|]. simpl. apply hart_push_stable.
  induction n as [|n IH]; simpl; [by apply hart_stable_noff|lia].
Qed.

Lemma iter_push_in n h : hart_stable h → (0 < n)%nat →
  h_sie (Nat.iter n hart_push h) = false ∧ 0 < h_noff (Nat.iter n hart_push h).
Proof.
  intros Hh. destruct n as [|n]; [lia|]. intros _. simpl. split; [done|].
  pose proof (hart_stable_noff _ (iter_push_stable n h Hh)). lia.
Qed.

Lemma bcache_stable h0 H s : bcache h0 H s → hart_stable (k_hart s).
Proof. intros Hc. rewrite (bc_hart _ _ _ Hc). apply iter_push_stable, Hc. Qed.

Lemma ring_same s s' l :
  (∀ p, links_of s' p = links_of s p) → length (k_bufs s') = length (k_bufs s) → ring s l → ring s' l.
Proof.
  intros Hl Hn [Hp Hnd Hok]. split; [|done|by rewrite Hn].
  eapply path_ext; [| |exact Hp]; intros q _; unfold nxt, prv; by rewrite Hl.
Qed.

Lemma links_update s i n b :
  k_bufs s !! i = Some n → ∀ s', k_head_buf s' = k_head_buf s →
  k_bufs s' = <[i := mk_buf_node b (bn_links n)]> (k_bufs s) → ∀ p, links_of s' p = links_of s p.
Proof.
  intros Hn s' Eh Eb [| |j]; [done|done|]. simpl. rewrite Eb.
  destruct (decide (j = i)) as [->|Hne].
  - rewrite list_lookup_insert_eq by by eapply lookup_lt_Some. by rewrite Hn.
  - by rewrite list_lookup_insert_ne.
Qed.

(** Taking a free buffer [i] for block [b]. *)
Lemma bcache_take h0 H s s' i n x b nm :
  bcache h0 H s → H !! i = None → k_bufs s !! i = Some n →
  (∀ j nj, k_bufs s !! j = Some nj → j ≠ i → block_num (bn_buf nj) ≠ b) →
  block_num x = b → buf_ref x = 1 →
  k_hart s' = hart_push (k_hart s) → k_locks s' = <[LkBuf i := mk_spinlock 1 nm (h_id (k_hart s))]> (k_locks s) →
  k_bufs s' = <[i := mk_buf_node x (bn_links n)]> (k_bufs s) → k_head_buf s' = k_head_buf s →
  k_disk s' = k_disk s → dev_idle s' → bcache h0 (<[i := b]> H) s'.
Proof.
  intros [Hst Hh Hl (l & Hr & Hpl) Hlk Hb Hd Hu Hdv] Hi Hn Huq Hxb Hxr Eh El Eb Ehd Ed Hdv'.
  assert (i < length (k_bufs s))%nat as Hlt by by eapply lookup_lt_Some.
  assert (∀ j nj, k_bufs s' !! j = Some nj →
    (j = i ∧ nj = mk_buf_node x (bn_links n)) ∨ (j ≠ i ∧ k_bufs s !! j = Some nj)) as Hcase.
  { intros j nj. rewrite Eb. intros [(-> & -> & _)|[? ?]]%list_lookup_insert_Some; auto. }
  assert (h_id (k_hart s') = h_id (k_hart s)) as Eid by by rewrite Eh.
  split.
  - done.
  - rewrite Eh, Hh, map_size_insert_None by done. done.
  - by rewrite Eb, length_insert.
  - exists l. split; [|done]. apply (ring_same s); [by eapply links_update|by rewrite Eb, length_insert|done].
  - destruct Hlk as [nm' Hlk]. exists nm'. by rewrite El, lookup_insert_ne.
  - intros j nj [(-> & ->)|[Hne Hj]]%Hcase.
    + rewrite lookup_insert_eq. simpl. split; [|done]. exists nm. by rewrite El, lookup_insert_eq, Eid.
    + rewrite lookup_insert_ne by done. specialize (Hb j nj Hj). unfold buf_state_ok, lock_idle, lock_held in *.
      rewrite El, Eid, Ed. destruct (H !! j); by rewrite lookup_insert_ne by congruence.
  - intros j b' Hj. destruct (decide (j = i)) as [->|Hne]; [by rewrite <- Hl|].
    rewrite lookup_insert_ne in Hj by done. by eapply Hd.
  - intros j k nj nk [(-> & ->)|[Hne Hj]]%Hcase [(-> & ->)|[Hne' Hk]]%Hcase; [done|..]; simpl.
    + intros E _. rewrite Hxb in E. by destruct (Huq k nk Hk Hne').
    + intros E _. rewrite Hxb in E. by destruct (Huq j nj Hj Hne).
    + by eapply Hu.
  - done.
Qed.

(** Searching the whole ring, from either end. *)
Lemma ring_search s l test (fwd : bool) :
  ring s l → l ≡ₚ seq 0 N_BLOCK_BUF →
  ((if fwd then node_next PHead else node_prev PHead) ≫=
    (λ p, ring_find N_BLOCK_BUF fwd p test)) s =
  Ok (List.find (hit s test) (if fwd then l else reverse l), s).
Proof.
  intros [Hp Hnd Hok] Hpl. pose proof (linkeff_refl s) as E0.
  assert (length l = N_BLOCK_BUF) as Hlen by by rewrite Hpl, length_seq.
  destruct fwd.
  - run (node_next_run _ _ _ _ PHead E0 I).
    apply (ring_find_run s (nxt s) (prv s) s test l PHead true); [done|done|done|lia].
  - run (node_prev_run _ _ _ _ PHead E0 I).
    apply (ring_find_run s (nxt s) (prv s) s test (reverse l) PHead false); [done|by apply path_rev| |].
    + intros i. rewrite elem_of_reverse. apply Hok.
    + rewrite length_reverse. lia.
Qed.

Lemma hit_inv s test i : hit s test i = true → ∃ n, k_bufs s !! i = Some n ∧ test (bn_buf n) = true.
Proof. unfold hit. destruct (k_bufs s !! i) as [n|]; [|done]. intros H. by exists n. Qed.

Lemma find_none_hit s test l i n :
  List.find (hit s test) l = None → i ∈ l → k_bufs s !! i = Some n → test (bn_buf n) = false.
Proof.
  intros Hf Hi Hn. pose proof (List.find_none _ _ Hf i ltac:(by apply list_elem_of_In)) as Hh.
  unfold hit in Hh. by rewrite Hn in Hh.
Qed.

(** The driver stays idle when buffer locks and the cache's own fields change. *)
Lemma dev_idle_buf s s' :
  dev_idle s → buf_frame s s' → k_vdisk s' = k_vdisk s → h_proc (k_hart s') = h_proc (k_hart s) → dev_idle s'.
Proof.
  intros Hd [E L] Ev Ep. apply (dev_idle_frame s); [done|done|by rewrite E..|done|].
  intros lk [->|[j ->]]; by apply L.
Qed.

(** The block is cached. *)
Lemma buf_read_hit h0 H s l b d i n :
  bcache h0 H s → (∀ j, H !! j ≠ Some b) → b ≠ BLOCK_NUM_UNUSED → k_disk s !! b = Some d →
  ring s l → l ≡ₚ seq 0 N_BLOCK_BUF →
  List.find (hit s (λ x, block_num x =? b)) l = Some i → k_bufs s !! i = Some n →
  ∃ s', buf_read b s = Ok (i, s') ∧ H !! i = None ∧ bcache h0 (<[i := b]> H) s' ∧
    k_bufs s' = <[i := set_node n (buf_set_ref 1)]> (k_bufs s) ∧ data (bn_buf n) = d ∧
    k_disk s' = k_disk s ∧ buf_frame s s'.
Proof.
  intros Hc HH Hbu Hd Hr Hpl Hf Hn.
  assert (block_num (bn_buf n) = b) as Hb.
  { apply List.find_some in Hf as [_ Hh]. destruct (hit_inv _ _ _ Hh) as (n' & Hn' & Ht).
    zbool. congruence. }
  pose proof (bc_buf _ _ _ Hc i n Hn) as Hbuf.
  assert (H !! i = None) as Hi.
  { destruct (H !! i) as [b'|] eqn:Hi; [|done]. destruct Hbuf as (_ & _ & Hb'). destruct (HH i). congruence. }
  rewrite Hi in Hbuf. destruct Hbuf as (Hlk & Href & [?|Hdat]); [congruence|].
  unfold buf_read. run (acquire_run LkBufCache s (lock_idle_unlocked _ _ (bc_lock _ _ _ Hc))).
  set (s1 := acq LkBufCache s).
  assert (ring s1 l) as Hr1 by (apply (ring_same s); [by intros []|done|done]).
  pose proof (ring_search s1 l (λ x, block_num x =? b) true Hr1 Hpl) as Hs. cbv match in Hs.
  rewrite <- bind_assoc. run Hs. change (hit s1) with (hit s). rewrite Hf.
  run (get_buf_run i s1 n Hn). unfold upd_buf. mrun. rewrite Href. change (u32 (0 + 1)) with 1.
  change (k_bufs s1) with (k_bufs s). rewrite (alter_insert _ _ _ n Hn).
  rewrite (release_bind LkBufCache s _ _ (bcache_stable _ _ _ Hc) (bc_lock _ _ _ Hc)) by done.
  set (s2 := set_hart _ _).
  run (acquire_run (LkBuf i) s2 (lock_idle_unlocked (LkBuf i) s Hlk)). mrun.
  eexists. split; [reflexivity|]. split; [done|].
  assert (buf_frame s (acq (LkBuf i) s2)) as Hfr.
  { split; [done|]. intros lk Hlk'. simpl. by rewrite lookup_insert_ne. }
  split; [|split; [done|split; [congruence|split; [done|done]]]].
  destruct Hlk as [nm Hlk].
  apply (bcache_take h0 H s _ i n (buf_set_ref 1 (bn_buf n)) b nm Hc Hi Hn); try done.
  - intros j nj Hj Hne He. apply Hne. eapply (bc_uniq _ _ _ Hc); [exact Hj|exact Hn|congruence|congruence].
  - by rewrite (acq_locks (LkBuf i) s2 _ Hlk).
  - by apply (dev_idle_buf s); [apply Hc|..].
Qed.

(** The block is not cached: the least recently used free buffer is replaced. *)
Lemma buf_read_miss h0 H s l b d :
  bcache h0 H s → (size H < N_BLOCK_BUF)%nat → 0 ≤ b < 2^31 → k_disk s !! b = Some d →
  ring s l → l ≡ₚ seq 0 N_BLOCK_BUF →
  List.find (hit s (λ x, block_num x =? b)) l = None →
  ∃ i n s', buf_read b s = Ok (i, s') ∧
    List.find (hit s (λ x, buf_ref x =? 0)) (reverse l) = Some i ∧ k_bufs s !! i = Some n ∧
    H !! i = None ∧ bcache h0 (<[i := b]> H) s' ∧
    k_bufs s' = <[i := mk_buf_node (mk_buf b d 1 false) (bn_links n)]> (k_bufs s) ∧
    k_disk s' = k_disk s ∧ buf_frame s s'.
Proof.
  intros Hc HH Hb Hd Hr Hpl Hf.
  destruct (List.find (hit s (λ x, buf_ref x =? 0)) (reverse l)) as [i|] eqn:Hf2; cycle 1.
  { exfalso. apply (Nat.lt_irrefl (size H)). eapply Nat.lt_le_trans; [exact HH|].
    rewrite <- (length_seq N_BLOCK_BUF 0), <- size_dom, <- (size_list_to_set (C := gset nat)) by apply NoDup_seq.
    apply subseteq_size. intros i Hi. apply elem_of_list_to_set in Hi.
    assert (i ∈ l) as Hil by by rewrite Hpl. apply elem_of_seq in Hi.
    destruct (lookup_lt_is_Some_2 (k_bufs s) i) as [n Hn]; [rewrite (bc_len _ _ _ Hc); lia|].
    pose proof (find_none_hit _ _ _ i n Hf2 ltac:(by rewrite elem_of_reverse) Hn) as Hne. simpl in Hne. zbool.
    pose proof (bc_buf _ _ _ Hc i n Hn) as Hbuf. destruct (H !! i) eqn:Hi'; [by eapply elem_of_dom_2|].
    destruct Hbuf as (_ & ? & _). lia. }
  assert (∃ n, k_bufs s !! i = Some n ∧ buf_ref (bn_buf n) = 0) as (n & Hn & Hz).
  { apply List.find_some in Hf2 as [_ Hh]. destruct (hit_inv _ _ _ Hh) as (n & Hn & Ht).
    simpl in Ht. zbool. by exists n. }
  exists i, n. pose proof (bc_buf _ _ _ Hc i n Hn) as Hbuf.
  destruct (H !! i) as [b'|] eqn:Hi; [destruct Hbuf as (_ & ? & _); lia|]. destruct Hbuf as ([nm Hlk] & _).
  unfold buf_read. run (acquire_run LkBufCache s (lock_idle_unlocked _ _ (bc_lock _ _ _ Hc))).
  set (s1 := acq LkBufCache s).
  assert (ring s1 l) as Hr1 by (apply (ring_same s); [by intros []|done|done]).
  pose proof (ring_search s1 l (λ x, block_num x =? b) true Hr1 Hpl) as Hs. cbv match in Hs.
  rewrite <- bind_assoc. run Hs. change (hit s1) with (hit s). rewrite Hf.
  pose proof (ring_search s1 l (λ x, buf_ref x =? 0) false Hr1 Hpl) as Hs'. cbv match in Hs'.
  rewrite <- bind_assoc. run Hs'. change (hit s1) with (hit s). rewrite Hf2. unfold upd_buf. mrun.
  set (x := mk_buf b (data (bn_buf n)) 1 false). set (nx := mk_buf_node x (bn_links n)).
  set (s1' := set_bufs _ _). assert (s1' = set_bufs (<[i := nx]> (k_bufs s)) s1) as ->.
  { unfold s1'. cbn [k_bufs set_bufs]. change (k_bufs s1) with (k_bufs s).
    by rewrite !alter_alter, (alter_insert _ _ _ n Hn). }
  rewrite (release_bind LkBufCache s _ _ (bcache_stable _ _ _ Hc) (bc_lock _ _ _ Hc)) by done.
  set (s2 := set_hart _ _).
  assert (locked (get_lock (LkBuf i) s2) = 0) as Hl0.
  { unfold get_lock. change (k_locks s2) with (k_locks s). by rewrite Hlk. }
  run (acquire_run (LkBuf i) s2 Hl0). set (s3 := acq (LkBuf i) s2).
  assert (buf_frame s s3) as Hfr3.
  { split; [done|]. intros lk Hlk'. simpl. by rewrite lookup_insert_ne. }
  assert (k_bufs s3 !! i = Some nx) as Hn3 by (apply list_lookup_insert_eq; by eapply lookup_lt_Some).
  pose proof (hart_stable_noff _ (bcache_stable _ _ _ Hc)) as Hno.
  destruct (disk_rw_spec s3 i nx d false) as (v & Hrw & Hdv); try done.
  { by apply (dev_idle_buf s); [apply Hc|..]. }
  { simpl. lia. }
  run Hrw. eexists. split; [reflexivity|]. split; [done|]. split; [done|]. split; [done|].
  assert (k_bufs (rw_done false i nx d v s3) =
    <[i := mk_buf_node (mk_buf b d 1 false) (bn_links n)]> (k_bufs s)) as Hb4.
  { simpl. by rewrite list_insert_insert_eq. }
  split; [|split; [done|split; [done|]]].
  - apply (bcache_take h0 H s _ i n (mk_buf b d 1 false) b nm Hc Hi Hn); try done.
    + intros j nj Hj Hne. assert (j ∈ l) as Hjl.
      { rewrite Hpl. apply elem_of_seq. split; [lia|]. apply lookup_lt_Some in Hj. by rewrite (bc_len _ _ _ Hc) in Hj. }
      pose proof (find_none_hit _ _ _ j nj Hf Hjl Hj) as Hx.
      simpl in Hx. by zbool.
    + exact (acq_locks (LkBuf i) s2 _ Hlk).
  - destruct Hfr3 as [E3 L3]. split; [done|]. intros lk Hlk'. by apply L3.
Qed.

(** Changing the data of a held buffer. *)
Lemma bcache_data h0 H s i n b x :
  bcache h0 H s → H !! i = Some b → k_bufs s !! i = Some n →
  block_num x = block_num (bn_buf n) → buf_ref x = buf_ref (bn_buf n) →
  bcache h0 H (set_bufs (<[i := mk_buf_node x (bn_links n)]> (k_bufs s)) s).
Proof.
  intros [Hst Hh Hl (l & Hr & Hpl) Hlk Hb Hd Hu Hdv] Hi Hn Hxb Hxr.
  assert (∀ j nj, <[i := mk_buf_node x (bn_links n)]> (k_bufs s) !! j = Some nj →
    ∃ nj', k_bufs s !! j = Some nj' ∧ block_num (bn_buf nj) = block_num (bn_buf nj') ∧
      buf_ref (bn_buf nj) = buf_ref (bn_buf nj') ∧ (j ≠ i → nj = nj')) as Hcase.
  { intros j nj [(-> & <- & _)|[? ?]]%list_lookup_insert_Some; [by exists n|by exists nj]. }
  split; try done.
  - simpl. by rewrite length_insert.
  - exists l. split; [|done]. apply (ring_same s); [by eapply links_update|simpl; by rewrite length_insert|done].
  - intros j nj (nj' & Hj & Eb & Er & Eq)%Hcase. specialize (Hb j nj' Hj).
    destruct (decide (j = i)) as [->|Hne]; [|by rewrite (Eq Hne)].
    rewrite Hi in *. destruct Hb as (? & ? & ?). split; [done|]. split; congruence.
  - intros j k nj nk (nj' & Hj & Ebj & _)%Hcase (nk' & Hk & Ebk & _)%Hcase. rewrite Ebj, Ebk. by apply Hu.
  - by apply (dev_idle_frame s).
Qed.

Lemma bcache_in h0 H s i b : bcache h0 H s → H !! i = Some b →
  h_sie (k_hart s) = false ∧ 0 < h_noff (k_hart s).
Proof.
  intros Hc Hi. rewrite (bc_hart _ _ _ Hc). apply iter_push_in; [apply Hc|].
  apply Nat.neq_0_lt_0, (map_size_ne_0_lookup_2 _ i). by exists b.
Qed.

(** Writing a held buffer through. *)
Lemma buf_write_run h0 H s i b n d0 :
  bcache h0 H s → H !! i = Some b → 0 ≤ b < 2^31 → k_bufs s !! i = Some n → k_disk s !! b = Some d0 →
  ∃ s', buf_write i s = Ok (tt, s') ∧ bcache h0 H s' ∧
    k_disk s' = <[b := data (bn_buf n)]> (k_disk s) ∧
    k_bufs s' = <[i := set_node n (buf_set_disk false)]> (k_bufs s) ∧ buf_frame s s'.
Proof.
  intros Hc Hi Hb Hn Hd. pose proof (bc_buf _ _ _ Hc i n Hn) as Hbuf. rewrite Hi in Hbuf.
  destruct Hbuf as (Hlk & Href & Hbn). unfold buf_write. run (holding_held _ _ Hlk). mrun.
  destruct (bcache_in _ _ _ _ _ Hc Hi) as [Hsie Hno].
  destruct (disk_rw_spec s i n d0 true) as (v & Hrw & Hdv); rewrite ?Hbn; try done; [apply Hc|].
  rewrite Hrw. eexists. split; [reflexivity|].
  assert (rw_done true i n d0 v s = set_vdisk v (set_disk (<[b := data (bn_buf n)]> (k_disk s))
    (set_bufs (<[i := set_node n (buf_set_disk false)]> (k_bufs s)) s))) as E by by rewrite <- Hbn.
  rewrite E in *. split; [|done].
  destruct (bcache_data h0 H s i n b (buf_set_disk false (bn_buf n)) Hc Hi Hn eq_refl eq_refl)
    as [Hst Hh Hl Hr Hlc Hbs Hd' Hu _].
  split; try done.
  { destruct Hr as (l & Hr & Hpl). exists l. split; [|done].
    eapply ring_same; [| |exact Hr]; [by intros []|done]. }
  intros j nj Hj. specialize (Hbs j nj Hj).
  destruct (H !! j) as [b'|] eqn:Hj'; [done|]. destruct Hbs as (Hlj & Hrj & Hcl). split; [done|]. split; [done|].
  destruct Hcl as [Hcl|Hcl]; [by left|]. right. simpl in *.
  rewrite lookup_insert_ne; [done|]. intros He.
  assert (j = i) as ->; [|congruence]. eapply (Hu j i nj (set_node n (buf_set_disk false))); [done| | |].
  - apply list_lookup_insert_eq. by eapply lookup_lt_Some.
  - simpl. congruence.
  - rewrite <- He. unfold BLOCK_NUM_UNUSED. lia.
Qed.

(** Giving back buffer [i]. *)
Lemma bcache_give h0 H s s' i b x nm :
  bcache h0 H s → H !! i = Some b →
  k_hart s' = Nat.iter (size (delete i H)) hart_push h0 →
  k_locks s' = <[LkBuf i := mk_spinlock 0 nm (-1)]> (k_locks s) →
  bn_buf <$> k_bufs s' = <[i := x]> (bn_buf <$> k_bufs s) →
  block_num x = b → buf_ref x = 0 → k_disk s !! b = Some (data x) → k_disk s' = k_disk s →
  (∃ l, ring s' l ∧ l ≡ₚ seq 0 N_BLOCK_BUF) → dev_idle s' → bcache h0 (delete i H) s'.
Proof.
  intros [Hst Hh Hl _ Hlk Hb Hd Hu Hdv] Hi Eh El Eb Hxb Hxr Hxd Ed Hr Hdv'.
  assert (∀ j nj, k_bufs s' !! j = Some nj → (j = i ∧ bn_buf nj = x) ∨
    (j ≠ i ∧ ∃ nj', k_bufs s !! j = Some nj' ∧ bn_buf nj = bn_buf nj')) as Hcase.
  { intros j nj Hj. assert ((bn_buf <$> k_bufs s') !! j = Some (bn_buf nj)) as Hj' by by rewrite list_lookup_fmap, Hj.
    rewrite Eb in Hj'. apply list_lookup_insert_Some in Hj' as [(-> & <- & _)|[Hne Hj']]; [by left|].
    right. split; [done|]. rewrite list_lookup_fmap in Hj'. destruct (k_bufs s !! j) as [nj'|]; [|done].
    exists nj'. by simplify_eq/=. }
  assert (h_id (k_hart s') = h_id (k_hart s)) as Eid.
  { rewrite Eh, Hh. clear. generalize (size H). induction (size (delete i H)) as [|m IH]; intros k; simpl; [|apply IH].
    induction k; simpl; [done|]. done. }
  destruct (lookup_lt_is_Some_2 (k_bufs s) i) as [n Hn]; [rewrite Hl; by eapply Hd|].
  assert (block_num (bn_buf n) = b) as Hnb.
  { pose proof (Hb i n Hn) as Hbn. rewrite Hi in Hbn. by destruct Hbn as (_ & _ & ?). }
  split; try done.
  - by rewrite <- (length_fmap bn_buf), Eb, length_insert, length_fmap.
  - destruct Hlk as [nm' Hlk]. exists nm'. by rewrite El, lookup_insert_ne.
  - intros j nj [(-> & ->)|(Hne & nj' & Hj & ->)]%Hcase.
    + rewrite lookup_delete_eq. split; [exists nm; by rewrite El, lookup_insert_eq|]. split; [done|].
      right. by rewrite Ed, Hxb.
    + rewrite lookup_delete_ne by done. specialize (Hb j nj' Hj). unfold buf_state_ok, lock_idle, lock_held in *.
      rewrite El, Eid, Ed. destruct (H !! j); by rewrite lookup_insert_ne by congruence.
  - intros j b' Hj. apply lookup_delete_Some in Hj as [_ Hj]. by eapply Hd.
  - intros j k nj nk [(-> & ->)|(Hne & nj' & Hj & ->)]%Hcase [(-> & ->)|(Hne' & nk' & Hk & ->)]%Hcase; [done|..].
    + intros E Hx. eapply (Hu i k n nk'); [done|done|congruence|congruence].
    + intros E Hx. eapply (Hu j i nj' n); [done|done|congruence|congruence].
    + by eapply Hu.
Qed.

(** Releasing a held buffer whose data are on the disk. *)
Lemma buf_release_run h0 H s i b n :
  bcache h0 H s → H !! i = Some b → k_bufs s !! i = Some n → k_disk s !! b = Some (data (bn_buf n)) →
  ∃ s', buf_release i s = Ok (tt, s') ∧ bcache h0 (delete i H) s' ∧ k_disk s' = k_disk s ∧
    bn_buf <$> k_bufs s' = <[i := buf_set_ref 0 (bn_buf n)]> (bn_buf <$> k_bufs s) ∧ buf_frame s s'.
Proof.
  intros Hc Hi Hn Hd. pose proof (bc_buf _ _ _ Hc i n Hn) as Hbuf. rewrite Hi in Hbuf.
  destruct Hbuf as (Hlk & Href & Hbn). unfold buf_release. run (holding_held _ _ Hlk). mrun.
  destruct (bcache_in _ _ _ _ _ Hc Hi) as [Hsie Hno].
  run (release_run (LkBuf i) s Hlk Hsie Hno). set (s1 := rel (LkBuf i) s).
  assert (k_hart s1 = Nat.iter (size (delete i H)) hart_push h0) as Hh1.
  { rewrite map_size_delete_Some by done. change (hart_pop (k_hart s) = Nat.iter (Nat.pred (size H)) hart_push h0).
    rewrite (bc_hart _ _ _ Hc). destruct (size H) as [|m] eqn:Hsz.
    - by apply (map_size_ne_0_lookup_2 H i) in Hsz.
    - simpl. apply hart_pop_push, iter_push_stable, Hc. }
  assert (hart_stable (k_hart s1)) as Hst1 by (rewrite Hh1; apply iter_push_stable, Hc).
  assert (lock_idle LkBufCache s1) as Hlc1.
  { destruct (bc_lock _ _ _ Hc) as [nm Hl]. exists nm. simpl. by rewrite lookup_insert_ne. }
  run (acquire_run LkBufCache s1 (lock_idle_unlocked _ _ Hlc1)). set (s2 := acq LkBufCache s1).
  run (get_buf_run i s2 n Hn). unfold upd_buf. mrun. rewrite Href. change (u32 (1 - 1)) with 0.
  change (k_bufs s2) with (k_bufs s). rewrite (alter_insert _ _ _ n Hn).
  set (n0 := mk_buf_node (buf_set_ref 0 (bn_buf n)) (bn_links n)). set (s3 := set_bufs _ s2).
  assert (k_bufs s3 !! i = Some n0) as Hn3 by (apply list_lookup_insert_eq; by eapply lookup_lt_Some).
  run (get_buf_run i s3 n0 Hn3). cbn [bn_buf n0 buf_set_ref buf_ref Z.eqb].
  destruct (bc_ring _ _ _ Hc) as (l & Hr & Hpl).
  assert (i ∈ l) as (l1 & l2 & Hl)%list_elem_of_split.
  { rewrite Hpl. apply elem_of_seq. pose proof (bc_dom _ _ _ Hc i b Hi). lia. }
  assert (ring s3 l) as Hr3.
  { apply (ring_same s); [by eapply links_update|simpl; by rewrite length_insert|done]. }
  rewrite Hl in Hr3. destruct (insert_head_run s3 l1 i l2 true Hr3) as (s4 & Hih & [E4 F4] & Hr4).
  run Hih.
  rewrite (release_after LkBufCache s1); [|done|done|by rewrite E4].
  eexists. split; [reflexivity|].
  assert (bn_buf <$> k_bufs s4 = <[i := buf_set_ref 0 (bn_buf n)]> (bn_buf <$> k_bufs s)) as F5.
  { rewrite F4. unfold s3. cbn [k_bufs set_bufs]. by rewrite list_fmap_insert. }
  set (s5 := set_hart _ _). assert (k_disk s5 = k_disk s) as Ed by (unfold s5; by rewrite E4).
  assert (k_locks s5 = <[LkBuf i := mk_spinlock 0 (lk_name (get_lock (LkBuf i) s)) (-1)]> (k_locks s)) as El by done.
  assert (buf_frame s s5) as Hfr.
  { split; [unfold s5; by rewrite E4|]. intros lk Hne. rewrite El. by rewrite lookup_insert_ne. }
  split; [|done]. eapply (bcache_give h0 H s s5 i b (buf_set_ref 0 (bn_buf n))); try done.
  - exists (i :: l1 ++ l2). split.
    + apply (ring_same s4); [by intros []|done|done].
    + rewrite <- Hpl, Hl. apply Permutation_middle.
  - apply (dev_idle_buf s); [apply Hc|done|unfold s5; by rewrite E4|done].
Qed.

(** ** Initialisation *)

(** After the first [k] buffers. *)
Record init_upto (s : kstate) (k : nat) (s1 : kstate) : Prop := {
  iu_frame : s1 = set_locks (k_locks s1) (set_bufs (k_bufs s1) (set_head_buf (k_head_buf s1) s));
  iu_other lk : lk ≠ LkBufCache → (∀ i, lk ≠ LkBuf i) → k_locks s1 !! lk = k_locks s !! lk;
  iu_cache : lock_idle LkBufCache s1;
  iu_lock j : (j < k)%nat → lock_idle (LkBuf j) s1;
  iu_len : length (k_bufs s1) = N_BLOCK_BUF;
  iu_ring : ring s1 (seq 0 k);
  iu_new j : (k ≤ j)%nat → nxt s1 (PNode j) = PNull;
  iu_buf j n : k_bufs s1 !! j = Some n → (j < k)%nat →
    block_num (bn_buf n) = BLOCK_NUM_UNUSED ∧ buf_ref (bn_buf n) = 0 }.

Lemma relinked_buf s s' j n : relinked s s' → k_bufs s' !! j = Some n →
  ∃ n', k_bufs s !! j = Some n' ∧ bn_buf n = bn_buf n'.
Proof.
  intros [_ E] Hj. assert ((bn_buf <$> k_bufs s') !! j = Some (bn_buf n)) as H
    by by rewrite list_lookup_fmap, Hj.
  rewrite E, list_lookup_fmap in H. destruct (k_bufs s !! j) as [n'|]; [|done].
  exists n'. by simplify_eq/=.
Qed.

Lemma init_step s k s1 :
  init_upto s k s1 → (k < N_BLOCK_BUF)%nat →
  ∃ s2, (spinlock_init (LkBuf k) "buffer";;
    upd_buf k (buf_set_block BLOCK_NUM_UNUSED);; upd_buf k (buf_set_ref 0);;
    upd_buf k (buf_set_disk false);; insert_head k false) s1 = Ok (tt, s2) ∧ init_upto s (S k) s2.
Proof.
  intros [E Ho Hlc Hlk Hn Hr Hnew Hb] Hk. unfold spinlock_init, put_lock, upd_buf. mrun.
  set (s1' := set_bufs _ _).
  assert (length (k_bufs s1') = N_BLOCK_BUF) as Hn' by (unfold s1'; simpl; by rewrite !length_alter).
  assert (∀ p, links_of s1' p = links_of s1 p) as Hli.
  { intros [| |j]; [done|done|]. unfold s1'. simpl. rewrite !alter_alter.
    destruct (decide (j = k)) as [->|]; [|by rewrite list_lookup_alter_ne].
    rewrite list_lookup_alter_eq. by destruct (k_bufs s1 !! k). }
  assert (ring s1' (seq 0 k)) as Hr' by (apply (ring_same s1); [done|by rewrite Hn'|done]).
  destruct (insert_head_new s1' (seq 0 k) k) as (s2 & Hih & Hre & Hr2 & Hn2).
  { done. } { rewrite elem_of_seq. lia. } { by rewrite Hn'. }
  { unfold nxt. rewrite Hli. by apply Hnew. }
  exists s2. split; [done|]. pose proof Hre as [E2 _].
  assert (k_locks s2 = <[LkBuf k := mk_spinlock 0 "buffer" (-1)]> (k_locks s1)) as El by by rewrite E2.
  split.
  - transitivity (set_bufs (k_bufs s2) (set_head_buf (k_head_buf s2) (set_locks (k_locks s2) s1))).
    + rewrite El. exact E2.
    + by rewrite E.
  - intros lk H1 H2. rewrite El, lookup_insert_ne by done. by apply Ho.
  - destruct Hlc as [nm Hlc]. exists nm. by rewrite El, lookup_insert_ne.
  - intros j Hj. destruct (decide (j = k)) as [->|Hne]; [exists "buffer"; by rewrite El, lookup_insert_eq|].
    destruct (Hlk j ltac:(lia)) as [nm Hl]. exists nm. by rewrite El, lookup_insert_ne by congruence.
  - by rewrite (relinked_len _ _ Hre).
  - by rewrite seq_S.
  - intros j Hj. rewrite Hn2 by (rewrite ?elem_of_seq; lia). unfold nxt. rewrite Hli. apply Hnew. lia.
  - intros j n Hj Hjk. destruct (relinked_buf _ _ _ _ Hre Hj) as (n' & Hj' & ->). unfold s1' in Hj'.
    simpl in Hj'. rewrite !alter_alter in Hj'. destruct (decide (j = k)) as [->|Hne].
    + rewrite list_lookup_alter_eq in Hj'. by destruct (k_bufs s1 !! k); simplify_eq/=.
    + rewrite list_lookup_alter_ne in Hj' by done. apply (Hb j n' Hj'). lia.
Qed.

(** On buffers that were never linked, with the disk idle. *)
Lemma buf_init_run s :
  length (k_bufs s) = N_BLOCK_BUF → (∀ j, nxt s (PNode j) = PNull) → hart_stable (k_hart s) → dev_idle s →
  ∃ s', buf_init s = Ok (tt, s') ∧ bcache (k_hart s) ∅ s' ∧ k_disk s' = k_disk s ∧
    s' = set_locks (k_locks s') (set_bufs (k_bufs s') (set_head_buf (k_head_buf s') s)) ∧
    (∀ lk, lk ≠ LkBufCache → (∀ i, lk ≠ LkBuf i) → k_locks s' !! lk = k_locks s !! lk) ∧
    (∀ i n, k_bufs s' !! i = Some n → block_num (bn_buf n) = BLOCK_NUM_UNUSED).
Proof.
  intros Hn Hl Hh Hd. unfold buf_init, put_next, put_prev. unfold spinlock_init at 1, put_lock at 1.
  unfold put_links. mrun.
  destruct (for_seq_inv (init_upto s) (λ i, spinlock_init (LkBuf i) "buffer";;
    upd_buf i (buf_set_block BLOCK_NUM_UNUSED);; upd_buf i (buf_set_ref 0);;
    upd_buf i (buf_set_disk false);; insert_head i false) N_BLOCK_BUF
    (set_head_buf (mk_links PHead PHead)
      (set_locks (<[LkBufCache := mk_spinlock 0 "buf_cache" (-1)]> (k_locks s)) s)))
    as (s' & Hr & [E Ho Hlc Hlk Hln Hri _ Hb]).
  - split; try done.
    + intros lk Hlk _. simpl. by rewrite lookup_insert_ne.
    + exists "buf_cache". simpl. by rewrite lookup_insert_eq.
    + lia.
    + split; [done|constructor|by intros j Hj%elem_of_nil].
    + intros j _. exact (Hl j).
    + lia.
  - intros k s1 Hk HI. by apply (init_step s k s1).
  - exists s'. split; [exact Hr|]. assert (k_disk s' = k_disk s) as Ed by by rewrite E.
    assert (∀ i n, k_bufs s' !! i = Some n → block_num (bn_buf n) = BLOCK_NUM_UNUSED) as Hu.
    { intros i n Hi. apply (Hb i n Hi). rewrite <- Hln. by eapply lookup_lt_Some. }
    split; [|done]. split; try done.
    + by rewrite E.
    + by exists (seq 0 N_BLOCK_BUF).
    + intros i n Hi. assert (i < N_BLOCK_BUF)%nat as Hlt by (rewrite <- Hln; by eapply lookup_lt_Some).
      destruct (Hb i n Hi Hlt). rewrite lookup_empty. split; [by apply Hlk|]. split; [done|by left].
    + intros i j ni nj Hi _ _ Hne. destruct Hne. by apply (Hu i).
    + apply (dev_idle_frame s); [done|by rewrite E..|]. intros lk [->|[j ->]]; by apply Ho.
Qed.


(** ** Reading, whichever way the block is found *)

Lemma buf_read_run h0 H s b d :
  bcache h0 H s → (∀ j, H !! j ≠ Some b) → (size H < N_BLOCK_BUF)%nat → 0 ≤ b < 2^31 →
  k_disk s !! b = Some d →
  ∃ i n s', buf_read b s = Ok (i, s') ∧ H !! i = None ∧ bcache h0 (<[i := b]> H) s' ∧
    k_bufs s' !! i = Some n ∧ data (bn_buf n) = d ∧ k_disk s' = k_disk s ∧
    (∀ j, j ≠ i → k_bufs s' !! j = k_bufs s !! j) ∧ buf_frame s s'.
Proof.
  intros Hc HH Hsz Hb Hd. destruct (bc_ring _ _ _ Hc) as (l & Hr & Hpl).
  destruct (List.find (hit s (λ x, block_num x =? b)) l) as [i|] eqn:Hf.
  - pose proof (List.find_some _ _ Hf) as [_ Hh]. destruct (hit_inv _ _ _ Hh) as (n & Hn & _).
    destruct (buf_read_hit h0 H s l b d i n) as (s' & Hrd & Hi & Hc' & Eb & Hdat & Ed & Hfr); try done.
    { unfold BLOCK_NUM_UNUSED. lia. }
    exists i, (set_node n (buf_set_ref 1)), s'. do 3 (split; [done|]).
    split; [rewrite Eb; apply list_lookup_insert_eq; by eapply lookup_lt_Some|].
    do 2 (split; [done|]). split; [|done]. intros j Hj. by rewrite Eb, list_lookup_insert_ne.
  - destruct (buf_read_miss h0 H s l b d) as (i & n & s' & Hrd & _ & Hn & Hi & Hc' & Eb & Ed & Hfr); try done.
    exists i, (mk_buf_node (mk_buf b d 1 false) (bn_links n)), s'. do 3 (split; [done|]).
    split; [rewrite Eb; apply list_lookup_insert_eq; by eapply lookup_lt_Some|].
    do 2 (split; [done|]). split; [|done]. intros j Hj. by rewrite Eb, list_lookup_insert_ne.
Qed.

(** ** Sessions: read a block, perhaps change it, release it *)

(** What file-system code built on the cache leaves alone. *)
Definition fs_frame (s s' : kstate) : Prop :=
  s' = set_log (k_log s') (set_hart (k_hart s') (set_locks (k_locks s') (set_vdisk (k_vdisk s')
         (set_disk (k_disk s') (set_bufs (k_bufs s') (set_head_buf (k_head_buf s') s)))))) ∧
  ∀ lk, (∀ i, lk ≠ LkBuf i) → k_locks s' !! lk = k_locks s !! lk.

Lemma fs_frame_refl s : fs_frame s s.
Proof. done. Qed.

Lemma fs_frame_trans s1 s2 s3 : fs_frame s1 s2 → fs_frame s2 s3 → fs_frame s1 s3.
Proof.
  intros [E1 L1] [E2 L2]. split; [rewrite E2 at 1; by rewrite E1|].
  intros lk Hlk. by rewrite L2, L1.
Qed.

Lemma buf_fs_frame s s' : buf_frame s s' → fs_frame s s'.
Proof. intros [E L]. split; [|done]. by rewrite E. Qed.

(** From [s] to [s'] with the same buffers held: the disk is now [D]. *)
Record fs_step (h0 : hart) (H : gmap nat Z) (s s' : kstate) (D : gmap Z (list Z)) : Prop := {
  fs_cache : bcache h0 H s';
  fs_disk : k_disk s' = D;
  fs_held j b : H !! j = Some b → bn_buf <$> k_bufs s' !! j = bn_buf <$> k_bufs s !! j;
  fs_rest : fs_frame s s' }.

Lemma fs_step_refl h0 H s : bcache h0 H s → fs_step h0 H s s (k_disk s).
Proof. by split. Qed.

Lemma fs_step_trans h0 H s1 s2 s3 D2 D3 :
  fs_step h0 H s1 s2 D2 → fs_step h0 H s2 s3 D3 → fs_step h0 H s1 s3 D3.
Proof.
  intros [C1 E1 H1 F1] [C2 E2 H2 F2]. split; [done|done| |by eapply fs_frame_trans].
  intros j b Hj. by rewrite (H2 j b), (H1 j b).
Qed.

Lemma bcache_log h0 H s l : bcache h0 H s → bcache h0 H (set_log l s).
Proof.
  intros [Hst Hh Hl (r & Hr & Hpl) Hlk Hb Hd Hu Hdv]. split; try done.
  - exists r. split; [|done]. apply (ring_same s); [by intros []|done|done].
  - by apply (dev_idle_frame s).
Qed.

(** Locks other than the cache's and the device's do not matter. *)
Lemma bcache_locks h0 H s lk l :
  (∀ i, lk ≠ LkBuf i) → lk ≠ LkBufCache → (¬ dev_lock lk) → bcache h0 H s →
  bcache h0 H (set_locks (<[lk := l]> (k_locks s)) s).
Proof.
  intros Hlb Hlc Hld [Hst Hh Hl (r & Hr & Hpl) [nm Hlk] Hb Hd Hu Hdv]. split; try done.
  - exists r. split; [|done]. apply (ring_same s); [by intros []|done|done].
  - exists nm. cbn [k_locks set_locks]. by rewrite lookup_insert_ne.
  - intros i n Hn. specialize (Hb i n Hn). unfold buf_state_ok in *.
    destruct (H !! i); [destruct Hb as ([nm' Hh'] & Hb)|destruct Hb as ([nm' Hh'] & Hb)];
      (split; [exists nm'; cbn [k_locks set_locks k_hart]; by rewrite lookup_insert_ne|exact Hb]).
  - apply (dev_idle_frame s); try done. intros lk' Hlk'. cbn [k_locks set_locks].
    rewrite lookup_insert_ne; [done|]. by intros ->.
Qed.

Lemma iter_push_id n h : h_id (Nat.iter n hart_push h) = h_id h.
Proof. induction n as [|n IH]; [done|exact IH]. Qed.

Lemma iter_push_proc n h : h_proc (Nat.iter n hart_push h) = h_proc h.
Proof. induction n as [|n IH]; [done|exact IH]. Qed.

(** The cache seen from another level of interrupt nesting. *)
Lemma bcache_hart h0 h1 H s :
  bcache h0 H s → hart_stable h1 → h_id h1 = h_id h0 → h_proc h1 = h_proc h0 →
  bcache h1 H (set_hart (Nat.iter (size H) hart_push h1) s).
Proof.
  intros [Hst Hh Hl (r & Hr & Hpl) Hlk Hb Hd Hu Hdv] Hs1 Hid Hpr. split; try done.
  - exists r. split; [|done]. apply (ring_same s); [by intros []|done|done].
  - intros i n Hn. specialize (Hb i n Hn). unfold buf_state_ok in *. destruct (H !! i); [|exact Hb].
    destruct Hb as ([nm Hl'] & Hb). split; [|exact Hb]. exists nm. cbn [k_locks k_hart set_hart].
    rewrite iter_push_id, Hid. by rewrite Hl', Hh, iter_push_id.
  - apply (dev_idle_frame s); try done. cbn [k_hart set_hart]. by rewrite Hh, !iter_push_proc.
Qed.

(** Locks of other components, taken and given back around the use of the cache. *)
Definition other_lock (lk : lockid) : Prop := (∀ i, lk ≠ LkBuf i) ∧ lk ≠ LkBufCache ∧ ¬ dev_lock lk.

Lemma bcache_acq h0 H s lk : other_lock lk → bcache h0 H s → bcache (hart_push h0) H (acq lk s).
Proof.
  intros (Hb & Hc & Hd) HC. unfold acq.
  assert (hart_push (k_hart s) = Nat.iter (size H) hart_push (hart_push h0)) as E
    by (rewrite Nat.iter_swap; by rewrite (bc_hart _ _ _ HC)).
  rewrite E. apply (bcache_locks _ H (set_hart (Nat.iter (size H) hart_push (hart_push h0)) s)); try done.
  apply (bcache_hart h0); try done. apply hart_push_stable, hart_stable_noff, HC.
Qed.

Lemma bcache_rel h0 H s lk :
  other_lock lk → hart_stable h0 → bcache (hart_push h0) H s → bcache h0 H (rel lk s).
Proof.
  intros (Hb & Hc & Hd) Hst HC. unfold rel.
  assert (hart_pop (k_hart s) = Nat.iter (size H) hart_push h0) as E.
  { rewrite (bc_hart _ _ _ HC), Nat.iter_swap. apply hart_pop_push. by apply iter_push_stable. }
  rewrite E. apply (bcache_locks _ H (set_hart (Nat.iter (size H) hart_push h0) s)); try done. by apply (bcache_hart (hart_push h0)).
Qed.

(** A section that runs file-system code under such a lock. *)
Lemma fs_step_section h0 H s s1 D lk :
  other_lock lk → bcache h0 H s → lock_idle lk s → fs_step (hart_push h0) H (acq lk s) s1 D →
  spinlock_release lk s1 = Ok (tt, rel lk s1) ∧ fs_step h0 H s (rel lk s1) D.
Proof.
  intros Hlk Hs [nm Hid] [HC HD HH [HF HL]]. pose proof (bc_stable _ _ _ Hs) as Hst.
  assert (k_hart s1 = hart_push (k_hart s)) as Eh
    by (by rewrite (bc_hart _ _ _ HC), Nat.iter_swap, (bc_hart _ _ _ Hs)).
  assert (k_locks s1 !! lk = Some (mk_spinlock 1 nm (h_id (k_hart s)))) as El.
  { rewrite HL by apply Hlk. cbn [k_locks acq set_locks]. rewrite lookup_insert_eq. unfold get_lock. by rewrite Hid. }
  assert (get_lock lk s1 = mk_spinlock 1 nm (h_id (k_hart s))) as Eg by (unfold get_lock; by rewrite El).
  split.
  - apply release_run; [exists nm; by rewrite El, Eh|by rewrite Eh|]. rewrite Eh. cbn [hart_push h_noff set_noff].
    pose proof (hart_stable_noff _ (bcache_stable _ _ _ Hs)). lia.
  - split; [by apply bcache_rel|done|exact HH|]. split.
    + rewrite HF at 1. done.
    + intros lk' Hlk'. unfold rel. cbn [k_locks set_locks]. destruct (decide (lk' = lk)) as [->|Hne].
      * rewrite lookup_insert_eq, Eg, Hid. done.
      * rewrite lookup_insert_ne by done. rewrite HL by done. unfold acq. cbn [k_locks set_locks]. by rewrite lookup_insert_ne.
Qed.

Lemma fs_step_printf h0 H s fmt args s' :
  printf fmt args s = Ok (tt, s') → bcache h0 H s → fs_step h0 H s s' (k_disk s).
Proof. intros [= <-] Hc. split; [by apply bcache_log|done|done|done]. Qed.

(** Buffer [i] was just read for block [b]. *)
Record opened (h0 : hart) (H : gmap nat Z) (s : kstate) (b : Z) (d : list Z) (i : nat) (n : buf_node)
    (s1 : kstate) : Prop := {
  op_new : H !! i = None;
  op_cache : bcache h0 (<[i := b]> H) s1;
  op_node : k_bufs s1 !! i = Some n;
  op_data : data (bn_buf n) = d;
  op_disk : k_disk s1 = k_disk s;
  op_held j b' : H !! j = Some b' → bn_buf <$> k_bufs s1 !! j = bn_buf <$> k_bufs s !! j;
  op_frame : fs_frame s s1 }.

Lemma buf_read_open h0 H s b d :
  bcache h0 H s → (∀ j, H !! j ≠ Some b) → (size H < N_BLOCK_BUF)%nat → 0 ≤ b < 2^31 →
  k_disk s !! b = Some d →
  ∃ i n s1, buf_read b s = Ok (i, s1) ∧ opened h0 H s b d i n s1.
Proof.
  intros. destruct (buf_read_run h0 H s b d) as (i & n & s1 & ? & ? & ? & ? & ? & ? & ? & ?); try done.
  exists i, n, s1. split; [done|]. split; try done; [|by apply buf_fs_frame].
  intros j b' Hj. assert (j ≠ i) by congruence. naive_solver congruence.
Qed.

Lemma opened_log h0 H s b d i n s1 l : opened h0 H s b d i n s1 → opened h0 H s b d i n (set_log l s1).
Proof.
  intros [Hi Hc Hn Hdat Ed Hs [E L]]. split; try done; [by apply bcache_log|].
  split; [|done]. by rewrite E.
Qed.

(** Other blocks are used while a buffer is open. *)
Lemma opened_step h0 H s b d i n s1 s2 :
  opened h0 H s b d i n s1 → fs_step h0 (<[i := b]> H) s1 s2 (k_disk s1) →
  ∃ n', opened h0 H s b d i n' s2.
Proof.
  intros [Hi Hc Hn Hdat Ed Hs Hf] [Hc2 Ed2 Hh2 Hf2].
  pose proof (Hh2 i b (lookup_insert_eq _ _ _)) as Hn2. rewrite Hn in Hn2.
  destruct (k_bufs s2 !! i) as [n'|] eqn:Hn'; [|done]. injection Hn2 as Hn2.
  exists n'. split; try done; [by rewrite Hn2|by rewrite Ed2| |by eapply fs_frame_trans].
  intros j b' Hj. rewrite (Hh2 j b'); [by apply (Hs j b')|]. rewrite lookup_insert_ne; [done|congruence].
Qed.

Lemma release_close h0 H s b i n s2 :
  H !! i = None → bcache h0 (<[i := b]> H) s2 → k_bufs s2 !! i = Some n →
  k_disk s2 !! b = Some (data (bn_buf n)) →
  (∀ j b', H !! j = Some b' → bn_buf <$> k_bufs s2 !! j = bn_buf <$> k_bufs s !! j) → fs_frame s s2 →
  ∃ s3, buf_release i s2 = Ok (tt, s3) ∧ fs_step h0 H s s3 (k_disk s2).
Proof.
  intros Hi Hc Hn Hd Hs Hf.
  destruct (buf_release_run h0 _ s2 i b n Hc) as (s3 & Hr & Hc3 & Ed3 & Eb & Hf3);
    [apply lookup_insert_eq|done|done|].
  exists s3. split; [done|]. rewrite delete_insert_id in Hc3 by done. split; [done|done| |].
  - intros j b' Hj. assert (j ≠ i) as Hne by congruence.
    rewrite <- (Hs j b' Hj), <- !list_lookup_fmap, Eb. by rewrite list_lookup_insert_ne.
  - eapply fs_frame_trans; [exact Hf|by apply buf_fs_frame].
Qed.

(** Releasing a buffer that was not changed. *)
Lemma close_clean h0 H s b d i n s1 :
  opened h0 H s b d i n s1 → k_disk s !! b = Some d →
  ∃ s2, buf_release i s1 = Ok (tt, s2) ∧ fs_step h0 H s s2 (k_disk s).
Proof.
  intros [Hi Hc Hn Hdat Ed Hs Hf] Hd. rewrite <- Ed.
  apply (release_close h0 H s b i n s1); try done. by rewrite Ed, Hdat.
Qed.

(** Changing the data of a buffer, writing it and releasing it. *)
Lemma close_write h0 H s b d i n s1 f :
  opened h0 H s b d i n s1 → 0 ≤ b < 2^31 → k_disk s !! b = Some d →
  (∀ x, block_num (f x) = block_num x) → (∀ x, buf_ref (f x) = buf_ref x) →
  ∃ s2, (upd_buf i f;; buf_write i;; buf_release i) s1 = Ok (tt, s2) ∧
    fs_step h0 H s s2 (<[b := data (f (bn_buf n))]> (k_disk s)).
Proof.
  intros [Hi Hc Hn Hdat Ed Hs Hf] Hb Hd Hfb Hfr. unfold upd_buf. mrun.
  rewrite (alter_insert _ _ _ n Hn).
  pose proof (bcache_data h0 _ s1 i n b (f (bn_buf n)) Hc (lookup_insert_eq _ _ _) Hn (Hfb _) (Hfr _)) as Hc1.
  set (s1' := set_bufs _ s1) in *. set (n1 := mk_buf_node (f (bn_buf n)) (bn_links n)) in *.
  assert (i < length (k_bufs s1))%nat as Hlt by by eapply lookup_lt_Some.
  assert (k_bufs s1' !! i = Some n1) as Hn1 by by apply list_lookup_insert_eq.
  destruct (buf_write_run h0 _ s1' i b n1 d Hc1) as (s2 & Hw & Hc2 & Ed2 & Eb2 & Hf2);
    [apply lookup_insert_eq|done|done|simpl; by rewrite Ed|].
  run Hw. destruct (release_close h0 H s b i (set_node n1 (buf_set_disk false)) s2) as (s3 & Hr & Hst).
  - done.
  - done.
  - rewrite Eb2. apply list_lookup_insert_eq. simpl. by rewrite length_insert.
  - by rewrite Ed2, lookup_insert_eq.
  - intros j b' Hj. assert (i ≠ j) by congruence. rewrite Eb2, list_lookup_insert_ne by done. simpl.
    rewrite list_lookup_insert_ne by done. by apply (Hs j b').
  - eapply fs_frame_trans; [exact Hf|]. apply buf_fs_frame. eapply buf_frame_trans; [|exact Hf2]. done.
  - exists s3. split; [done|]. rewrite <- Ed. by rewrite Ed2 in Hst.
Qed.

(** ** Claims *)

(** the pointer surgery of [insert_head] implements move-to-front and move-to-back:
    on a state whose ring represents the list [l1 ++ i :: l2] it terminates without a
    null access, and the ring then represents the list with [i] first (or last), the
    order of the others unchanged; no buffer's contents change. *)
Theorem insert_head_correct (s : kstate) (l1 l2 : list nat) (i : nat) (head_next : bool) :
  ring s (l1 ++ i :: l2) →
  ∃ s', insert_head i head_next s = Ok (tt, s') ∧
    ring s' (if head_next then i :: l1 ++ l2 else (l1 ++ l2) ++ [i]) ∧
    bn_buf <$> k_bufs s' = bn_buf <$> k_bufs s.
Proof.
  intros Hr. destruct (insert_head_run s l1 i l2 head_next Hr) as (s' & Hi & [_ E] & Hr').
  by exists s'.
Qed.

(** [buf_init] on buffers that were never linked builds the ring of all
    [N_BLOCK_BUF] buffers and establishes the cache invariant with nothing held. *)
Theorem buf_init_establishes (s : kstate) :
  length (k_bufs s) = N_BLOCK_BUF → (∀ j, nxt s (PNode j) = PNull) → hart_stable (k_hart s) → dev_idle s →
  ∃ s', buf_init s = Ok (tt, s') ∧ bcache (k_hart s) ∅ s' ∧ k_disk s' = k_disk s.
Proof.
  intros Hn Hl Hh Hd. destruct (buf_init_run s Hn Hl Hh Hd) as (s' & Hr & Hc & Ed & _). by exists s'.
Qed.

(** C29: with the invariant and a free buffer left, [buf_read] of a block of the disk
    that the caller does not hold returns a locked buffer with the contents the disk
    has for it, adds it to the held buffers, and changes no other buffer and no other
    part of the kernel (in particular not the disk). *)
Theorem buf_read_correct (h0 : hart) (H : gmap nat Z) (s : kstate) (b : Z) (d : list Z) :
  bcache h0 H s → (∀ j, H !! j ≠ Some b) → (size H < N_BLOCK_BUF)%nat → 0 ≤ b < 2^31 →
  k_disk s !! b = Some d →
  ∃ i n s', buf_read b s = Ok (i, s') ∧ H !! i = None ∧ bcache h0 (<[i := b]> H) s' ∧
    k_bufs s' !! i = Some n ∧ data (bn_buf n) = d ∧ k_disk s' = k_disk s ∧
    (∀ j, j ≠ i → k_bufs s' !! j = k_bufs s !! j) ∧ buf_frame s s'.
Proof. apply buf_read_run. Qed.

(** when the block is not cached, the buffer [buf_read] replaces is the first
    unreferenced one from the tail of the ring, that is the least recently released. *)
Theorem buf_read_lru (h0 : hart) (H : gmap nat Z) (s : kstate) (l : list nat) (b : Z) (d : list Z) :
  bcache h0 H s → (size H < N_BLOCK_BUF)%nat → 0 ≤ b < 2^31 → k_disk s !! b = Some d →
  ring s l → l ≡ₚ seq 0 N_BLOCK_BUF →
  List.find (hit s (λ x, block_num x =? b)) l = None →
  ∃ i s', buf_read b s = Ok (i, s') ∧ List.find (hit s (λ x, buf_ref x =? 0)) (reverse l) = Some i.
Proof.
  intros Hc Hsz Hb Hd Hr Hpl Hf.
  destruct (buf_read_miss h0 H s l b d) as (i & n & s' & Hrd & Hf' & _); try done. by exists i, s'.
Qed.

(** writing a held buffer and releasing it puts its data in its block of the disk,
    changes no other block, and keeps the cache coherent with one buffer less held. *)
Theorem buf_write_release_correct (h0 : hart) (H : gmap nat Z) (s : kstate) (i : nat) (b : Z)
    (n : buf_node) (d0 : list Z) :
  bcache h0 H s → H !! i = Some b → 0 ≤ b < 2^31 → k_bufs s !! i = Some n → k_disk s !! b = Some d0 →
  ∃ s', (buf_write i;; buf_release i) s = Ok (tt, s') ∧ bcache h0 (delete i H) s' ∧
    k_disk s' = <[b := data (bn_buf n)]> (k_disk s) ∧ buf_frame s s'.
Proof.
  intros Hc Hi Hb Hn Hd.
  destruct (buf_write_run h0 H s i b n d0) as (s1 & Hw & Hc1 & Ed1 & Eb1 & Hf1); try done. run Hw.
  assert (k_bufs s1 !! i = Some (set_node n (buf_set_disk false))) as Hn1.
  { rewrite Eb1. apply list_lookup_insert_eq. by eapply lookup_lt_Some. }
  destruct (buf_release_run h0 H s1 i b _ Hc1 Hi Hn1) as (s2 & Hr & Hc2 & Ed2 & _ & Hf2).
  { by rewrite Ed1, lookup_insert_eq. }
  exists s2. split; [done|]. split; [done|]. split; [by rewrite Ed2|]. by eapply buf_frame_trans.
Qed.

End cache.

(** ** The invariant holds after boot *)

Definition sample_disk : gmap Z (list Z) :=
  <[3 := replicate 1024 9]> (<[7 := replicate 1024 4]> ∅).

Definition sample_boot : kstate := boot_state sample_disk (replicate N_BLOCK_BUF zero_buf_node) 0.

Lemma sample_nxt j : nxt sample_boot (PNode j) = PNull.
Proof.
  unfold nxt, links_of. change (k_bufs sample_boot) with (replicate N_BLOCK_BUF zero_buf_node).
  destruct (replicate N_BLOCK_BUF zero_buf_node !! j) as [n|] eqn:Hj; [|done].
  by apply lookup_replicate in Hj as [-> _].
Qed.

Lemma sample_cache :
  ∃ s, @bcache virtio_block_device (k_hart sample_boot) ∅ s ∧ k_disk s = sample_disk.
Proof.
  destruct (@buf_init_run virtio_block_device sample_boot) as (s & _ & Hc & Ed & _).
  - reflexivity.
  - apply sample_nxt.
  - by right.
  - apply boot_idle.
  - by exists s.
Qed.

(** A booted machine with any disk and superblock. *)
Lemma booted_cache (d : gmap Z (list Z)) (sb : super_block) :
  ∃ s, @bcache virtio_block_device (k_hart sample_boot) ∅ s ∧ k_disk s = d ∧ k_sb s = sb.
Proof.
  destruct (@buf_init_run virtio_block_device
    (set_sb sb (boot_state d (replicate N_BLOCK_BUF zero_buf_node) 0))) as (s & _ & Hc & Ed & Es & _).
  - reflexivity.
  - apply sample_nxt.
  - by right.
  - apply (dev_idle_frame (boot_state d (replicate N_BLOCK_BUF zero_buf_node) 0)); [apply boot_idle|done..].
  - exists s. split; [exact Hc|]. split; [done|]. by rewrite Es.
Qed.

Lemma sample_held :
  ∃ s i n, @bcache virtio_block_device (k_hart sample_boot) {[ i := 3 ]} s ∧
    k_bufs s !! i = Some n ∧ data (bn_buf n) = replicate 1024 9 ∧ k_disk s = sample_disk.
Proof.
  destruct sample_cache as (s & Hc & Ed).
  destruct (@buf_read_run virtio_block_device _ ∅ s 3 (replicate 1024 9) Hc)
    as (i & n & s' & _ & _ & Hc' & Hn & Hdat & Ed' & _).
  - by intros j.
  - rewrite map_size_empty. unfold N_BLOCK_BUF. lia.
  - lia.
  - rewrite Ed. apply lookup_insert_eq.
  - exists s', i, n. split; [by rewrite <- insert_empty|]. split; [done|]. split; [done|]. congruence.
Qed.

Lemma insert_head_correct_witness :
  ∃ s s' l1 l2 i, ring s (l1 ++ i :: l2) ∧ insert_head i true s = Ok (tt, s') ∧
    ring s' (i :: l1 ++ l2) ∧ bn_buf <$> k_bufs s' = bn_buf <$> k_bufs s.
Proof.
  destruct sample_cache as (s & Hc & _). destruct (bc_ring _ _ _ Hc) as (l & Hr & Hpl).
  assert (5%nat ∈ l) as (l1 & l2 & ->)%list_elem_of_split
    by (rewrite Hpl; apply elem_of_seq; unfold N_BLOCK_BUF; lia).
  destruct (insert_head_correct s l1 l2 5 true Hr) as (s' & H).
  exists s, s', l1, l2, 5%nat. split; [exact Hr|exact H].
Defined.

Lemma buf_init_establishes_witness :
  ∃ s', buf_init sample_boot = Ok (tt, s') ∧
    @bcache virtio_block_device (k_hart sample_boot) ∅ s' ∧ k_disk s' = k_disk sample_boot.
Proof.
  apply (@buf_init_establishes virtio_block_device sample_boot).
  - reflexivity.
  - apply sample_nxt.
  - by right.
  - apply boot_idle.
Defined.

Lemma buf_read_correct_witness :
  ∃ s i n s', @buf_read virtio_block_device 7 s = Ok (i, s') ∧ k_bufs s' !! i = Some n ∧
    data (bn_buf n) = replicate 1024 4 ∧ k_disk s' = sample_disk.
Proof.
  destruct sample_cache as (s & Hc & Ed).
  destruct (@buf_read_correct virtio_block_device _ ∅ s 7 (replicate 1024 4) Hc)
    as (i & n & s' & Hr & _ & _ & Hn & Hdat & Ed' & _).
  - by intros j.
  - rewrite map_size_empty. unfold N_BLOCK_BUF. lia.
  - lia.
  - rewrite Ed. reflexivity.
  - exists s, i, n, s'. split; [exact Hr|]. split; [exact Hn|]. split; [exact Hdat|]. congruence.
Defined.

Lemma buf_read_lru_witness :
  ∃ s l i s', ring s l ∧ @buf_read virtio_block_device 7 s = Ok (i, s') ∧
    List.find (hit s (λ x, buf_ref x =? 0)) (reverse l) = Some i.
Proof.
  destruct (@buf_init_run virtio_block_device sample_boot) as (s & Hi & Hc & Ed & _ & _ & Hu).
  { reflexivity. } { apply sample_nxt. } { by right. } { apply boot_idle. }
  destruct (bc_ring _ _ _ Hc) as (l & Hr & Hpl).
  destruct (@buf_read_lru virtio_block_device _ ∅ s l 7 (replicate 1024 4) Hc) as (i & s' & H).
  - rewrite map_size_empty. unfold N_BLOCK_BUF. lia.
  - lia.
  - rewrite Ed. reflexivity.
  - exact Hr.
  - exact Hpl.
  - destruct (List.find _ l) as [i|] eqn:Hf; [|reflexivity]. exfalso.
    apply List.find_some in Hf as [_ Hh]. destruct (hit_inv _ _ _ Hh) as (n & Hn & Ht).
    rewrite (Hu i n Hn) in Ht. discriminate.
  - exists s, l, i, s'. split; [exact Hr|exact H].
Defined.

Lemma buf_write_release_correct_witness :
  ∃ s i s', (@buf_write virtio_block_device i;; buf_release i) s = Ok (tt, s') ∧
    k_disk s' = <[3 := replicate 1024 9]> sample_disk.
Proof.
  destruct sample_held as (s & i & n & Hc & Hn & Hdat & Ed).
  destruct (@buf_write_release_correct virtio_block_device _ _ s i 3 n (replicate 1024 9) Hc)
    as (s' & Hr & _ & Ed' & _).
  - apply lookup_singleton_eq.
  - lia.
  - exact Hn.
  - rewrite Ed. reflexivity.
  - exists s, i, s'. split; [exact Hr|]. by rewrite Ed', Hdat, Ed.
Defined.
