(* ===== verification/Bitmap.v ===== *)
(** * Block and inode bitmaps (kernel/fs/bitmap.c)

    One bitmap block each for the data blocks and the inodes, read and written
    through the buffer cache.  The theorems: allocation takes the least free bit and
    sets exactly that bit on the disk, or reports failure when none is free; freeing
    clears exactly the bit, and freeing a free bit changes nothing. *)

From S2P Require Import Prelude Bytes Kernel Lock Virtio Buf.

(** [buf->data[k]] *)
Definition get_data (i k : nat) : K Z := b ← get_buf i; deref "buf->data" (data b !! k).

Definition put_data (i k : nat) (v : Z) : K unit :=
  upd_buf i (λ b, buf_set_data (<[k := v]> (data b)) b).

Section bitmap.
  Context {B : BlockDevice}.

Definition bitmap_search_and_set (bitmap_block : Z) : K Z :=
  i ← buf_read bitmap_block;
  r ← for_return (seq 0 (Z.to_nat BLOCK_SIZE)) (λ byte,
        for_return (seq 0 8) (λ shift,
          let bit_cmp := u8 (Z.shiftl 1 (Z.of_nat shift)) in
          d ← get_data i byte;
          if Z.land bit_cmp d =? 0 then
            put_data i byte (Z.lor d bit_cmp);;
            buf_write i;;
            buf_release i;;
            mret (Some (u32 (Z.of_nat byte * 8 + Z.of_nat shift)))
          else mret None));
  match r with
  | Some bit => mret bit
  | None => buf_release i;; mret 0xFFFFFFFF
  end.

Definition bitmap_unset (bitmap_block num : Z) : K unit :=
  let byte := Z.to_nat (num / 8) in
  let bit_cmp := u8 (Z.shiftl 1 (num mod 8)) in
  i ← buf_read bitmap_block;
  d ← get_data i byte;
  if Z.land d bit_cmp =? 0 then
    printf "bitmap_unset: freeing free bit %d\n" [num];;
    buf_release i
  else
    put_data i byte (Z.land d (u8 (Z.lnot bit_cmp)));;
    buf_write i;;
    buf_release i.

Definition bitmap_alloc_block : K Z :=
  sb ← gets (λ s, k_sb s);
  bit ← bitmap_search_and_set (data_bitmap_start sb);
  if bit =? 0xFFFFFFFF then printf "bitmap_alloc_block: out of blocks\n" [];; mret 0
  else mret (u32 (bit + data_start sb)).

Definition bitmap_free_block (block_num : Z) : K unit :=
  sb ← gets (λ s, k_sb s);
  if block_num <? data_start sb then
    printf "bitmap_free_block: invalid block_num %d\n" [block_num]
  else bitmap_unset (data_bitmap_start sb) (u32 (block_num - data_start sb)).

Definition bitmap_alloc_inode : K Z :=
  sb ← gets (λ s, k_sb s);
  bit ← bitmap_search_and_set (inode_bitmap_start sb);
  if bit =? 0xFFFFFFFF then printf "bitmap_alloc_inode: out of inodes\n" [];; mret 0xFFFF
  else mret (u16 bit).

Definition bitmap_free_inode (inode_num : Z) : K unit :=
  sb ← gets (λ s, k_sb s); bitmap_unset (inode_bitmap_start sb) inode_num.

Definition bitmap_print (bitmap_block : Z) : K unit :=
  printf "\nbitmap:\n" [];;
  i ← buf_read bitmap_block;
  for_each (seq 0 (Z.to_nat BLOCK_SIZE)) (λ byte,
    for_each (seq 0 8) (λ shift,
      let bit_cmp := u8 (Z.shiftl 1 (Z.of_nat shift)) in
      d ← get_data i byte;
      if Z.land bit_cmp d =? 0 then mret tt
      else printf "bit %d is alloced\n" [u32 (Z.of_nat byte * 8 + Z.of_nat shift)]));;
  printf "over\n" [];;
  buf_release i.

End bitmap.

(** ** Bits of a block *)

Definition block_ok (d : list Z) : Prop := length d = Z.to_nat BLOCK_SIZE ∧ Forall byte_ok d.

Definition bit_of (d : list Z) (k : nat) : bool :=
  Z.testbit (default 0 (d !! (k / 8)%nat)) (Z.of_nat (k mod 8)).

Definition set_bit (d : list Z) (k : nat) : list Z :=
  <[(k / 8)%nat := Z.lor (default 0 (d !! (k / 8)%nat)) (2 ^ Z.of_nat (k mod 8))]> d.

Definition clear_bit (d : list Z) (k : nat) : list Z :=
  <[(k / 8)%nat := Z.ldiff (default 0 (d !! (k / 8)%nat)) (2 ^ Z.of_nat (k mod 8))]> d.

(** Number of bits of a bitmap block. *)
Definition NBITS : nat := Z.to_nat (8 * BLOCK_SIZE).

(** [k] is the least clear bit of [d]. *)
Definition least_clear (d : list Z) (k : nat) : Prop :=
  (k < NBITS)%nat ∧ bit_of d k = false ∧ ∀ j, (j < k)%nat → bit_of d j = true.

(** The bit masks of the source. *)
Lemma mask_bit k : (k < 8)%nat → u8 (Z.shiftl 1 (Z.of_nat k)) = 2 ^ Z.of_nat k.
Proof.
  intros H. rewrite Z.shiftl_1_l. apply u8_small. split; [lia|]. apply Z.pow_lt_mono_r; lia.
Qed.

Lemma land_pow2 x k : 0 ≤ k → (Z.land (2 ^ k) x =? 0) = negb (Z.testbit x k).
Proof.
  intros Hk. destruct (Z.testbit x k) eqn:Hb; simpl.
  - apply Z.eqb_neq. intros H. apply (f_equal (λ z, Z.testbit z k)) in H.
    rewrite Z.land_spec, Z.pow2_bits_true, Hb, Z.bits_0 in H by done. done.
  - apply Z.eqb_eq, Z.bits_inj_0. intros n. rewrite Z.land_spec.
    destruct (decide (n = k)) as [->|Hne]; [by rewrite Hb, andb_false_r|].
    by rewrite Z.pow2_bits_false.
Qed.

Lemma byte_lor a b : byte_ok a → byte_ok b → byte_ok (Z.lor a b).
Proof.
  unfold byte_ok. intros Ha Hb. rewrite <- (Z.mod_small a (2^8)), <- (Z.mod_small b (2^8)) by lia.
  rewrite <- !Z.land_ones, <- Z.land_lor_distr_l, Z.land_ones by lia.
  apply Z.mod_pos_bound. lia.
Qed.

Lemma byte_land a b : byte_ok a → byte_ok (Z.land a b).
Proof.
  unfold byte_ok. intros Ha. rewrite <- (Z.mod_small a (2^8)) by lia.
  rewrite <- !Z.land_ones, (Z.land_comm a), <- Z.land_assoc, Z.land_comm, Z.land_ones by lia.
  apply Z.mod_pos_bound. lia.
Qed.

Lemma bit_of_pos d byte shift :
  (shift < 8)%nat → bit_of d (byte * 8 + shift) = Z.testbit (default 0 (d !! byte)) (Z.of_nat shift).
Proof.
  intros H. unfold bit_of.
  replace ((byte * 8 + shift) / 8)%nat with byte by (rewrite Nat.div_add_l, Nat.div_small; lia).
  replace ((byte * 8 + shift) mod 8)%nat with shift; [done|].
  by rewrite Nat.add_comm, Nat.Div0.mod_add, Nat.mod_small.
Qed.

Lemma nat_div8 k : k = (k / 8 * 8 + k mod 8)%nat.
Proof. pose proof (Nat.div_mod k 8). lia. Qed.

Section proofs.
  Context {B : BlockDevice}.

(** Reading a byte of an open buffer. *)
Lemma get_data_run h0 H s b d i n s1 k x :
  opened h0 H s b d i n s1 → d !! k = Some x → get_data i k s1 = Ok (x, s1).
Proof.
  intros Ho Hk. unfold get_data. run (get_buf_run i s1 n (op_node _ _ _ _ _ _ _ _ Ho)).
  by rewrite (op_data _ _ _ _ _ _ _ _ Ho), Hk.
Qed.

(** The test of one bit in the search. *)
Lemma search_used h0 H s b d i n s1 byte shift :
  opened h0 H s b d i n s1 → block_ok d → (byte < 1024)%nat → (shift < 8)%nat →
  bit_of d (byte * 8 + shift) = true →
  (d ← get_data i byte;
   if Z.land (u8 (Z.shiftl 1 (Z.of_nat shift))) d =? 0 then
     put_data i byte (Z.lor d (u8 (Z.shiftl 1 (Z.of_nat shift))));;
     buf_write i;; buf_release i;; mret (Some (u32 (Z.of_nat byte * 8 + Z.of_nat shift)))
   else mret None) s1 = Ok (None, s1).
Proof.
  intros Ho [Hl _] Hb Hs Hbit. change (Z.to_nat BLOCK_SIZE) with 1024%nat in Hl.
  destruct (lookup_lt_is_Some_2 d byte) as [x Hx]; [lia|].
  run (get_data_run _ _ _ _ _ _ _ _ _ _ Ho Hx). rewrite bit_of_pos, Hx in Hbit by done. simpl in Hbit.
  by rewrite mask_bit, land_pow2, Hbit by lia.
Qed.

(** The search finds the least clear bit and sets it on the disk. *)
Lemma search_found h0 H s b d k :
  bcache h0 H s → (∀ j, H !! j ≠ Some b) → (size H < N_BLOCK_BUF)%nat → 0 ≤ b < 2^31 →
  k_disk s !! b = Some d → block_ok d → least_clear d k →
  ∃ s', bitmap_search_and_set b s = Ok (Z.of_nat k, s') ∧
    fs_step h0 H s s' (<[b := set_bit d k]> (k_disk s)).
Proof.
  intros Hc HH Hsz Hb Hd Hok (Hk & Hclr & Hlow). unfold NBITS, BLOCK_SIZE in Hk.
  destruct (buf_read_open h0 H s b d) as (i & n & s1 & Hr & Ho); try done.
  unfold bitmap_search_and_set. run Hr.
  set (byte := (k / 8)%nat). set (shift := (k mod 8)%nat).
  assert (byte < 1024)%nat as Hby by (apply Nat.Div0.div_lt_upper_bound; lia).
  assert (shift < 8)%nat as Hsh by (apply Nat.mod_upper_bound; lia).
  assert (k = byte * 8 + shift)%nat as Hks by apply nat_div8.
  destruct (lookup_lt_is_Some_2 d byte) as [x Hx]; [destruct Hok as [-> _]; by change (Z.to_nat BLOCK_SIZE) with 1024%nat|].
  destruct (close_write h0 H s b d i n s1 (λ y, buf_set_data (<[byte := Z.lor x (2 ^ Z.of_nat shift)]> (data y)) y))
    as (s2 & Hcw & Hst); try done.
  rewrite (bind_ok _ _ _ (Some (Z.of_nat k)) s2).
  - mrun. exists s2. split; [done|]. simpl in Hst. rewrite (op_data _ _ _ _ _ _ _ _ Ho) in Hst.
    unfold set_bit. fold byte shift. by rewrite Hx.
  - change (Z.to_nat BLOCK_SIZE) with 1024%nat. rewrite (seq_split 1024 byte Hby). apply for_return_some.
    + intros y Hy%elem_of_seq. apply for_return_none. intros z Hz%elem_of_seq.
      apply (search_used h0 H s b d i n s1 y z); try done; [lia|lia|]. apply Hlow. lia.
    + rewrite (seq_split 8 shift Hsh). apply for_return_some.
      * intros z Hz%elem_of_seq. apply (search_used h0 H s b d i n s1 byte z); try done; [lia|]. apply Hlow. lia.
      * cbv zeta. run (get_data_run _ _ _ _ _ _ _ _ _ _ Ho Hx).
        rewrite Hks, bit_of_pos, Hx in Hclr by done. simpl in Hclr.
        rewrite mask_bit, land_pow2, Hclr by lia. cbn [negb]. unfold put_data.
        rewrite (seq3_ok _ _ _ _ _ _ _ Hcw). mrun. do 3 f_equal. rewrite u32_small; lia.
Qed.

(** The search of a full bitmap. *)
Lemma search_full h0 H s b d :
  bcache h0 H s → (∀ j, H !! j ≠ Some b) → (size H < N_BLOCK_BUF)%nat → 0 ≤ b < 2^31 →
  k_disk s !! b = Some d → block_ok d → (∀ j, (j < NBITS)%nat → bit_of d j = true) →
  ∃ s', bitmap_search_and_set b s = Ok (0xFFFFFFFF, s') ∧ fs_step h0 H s s' (k_disk s).
Proof.
  intros Hc HH Hsz Hb Hd Hok Hall. unfold NBITS, BLOCK_SIZE in Hall.
  destruct (buf_read_open h0 H s b d) as (i & n & s1 & Hr & Ho); try done.
  unfold bitmap_search_and_set. run Hr. rewrite (bind_ok _ _ _ None s1).
  - destruct (close_clean h0 H s b d i n s1 Ho Hd) as (s2 & Hcl & Hst). run Hcl. mrun. by exists s2.
  - change (Z.to_nat BLOCK_SIZE) with 1024%nat. apply for_return_none. intros y Hy%elem_of_seq.
    apply for_return_none. intros z Hz%elem_of_seq.
    apply (search_used h0 H s b d i n s1 y z); try done; [lia|lia|]. apply Hall. lia.
Qed.

Lemma land_unset x k : byte_ok x → (k < 8)%nat →
  Z.land x (u8 (Z.lnot (2 ^ Z.of_nat k))) = Z.ldiff x (2 ^ Z.of_nat k).
Proof.
  intros Hx Hk. apply Z.bits_inj. intros m. rewrite Z.land_spec, Z.ldiff_spec. unfold u8.
  destruct (decide (m < 0)) as [Hm|Hm]; [by rewrite !Z.testbit_neg_r by lia|].
  destruct (decide (m < 8)) as [Hm8|Hm8].
  - rewrite Z.mod_pow2_bits_low, Z.lnot_spec by lia. done.
  - by rewrite (testbit_small x 8 m) by (unfold byte_ok in Hx; lia).
Qed.

(** Clearing a set bit, and a clear one. *)
Lemma bitmap_unset_run h0 H s b d k :
  bcache h0 H s → (∀ j, H !! j ≠ Some b) → (size H < N_BLOCK_BUF)%nat → 0 ≤ b < 2^31 →
  k_disk s !! b = Some d → block_ok d → (k < NBITS)%nat →
  ∃ s', bitmap_unset b (Z.of_nat k) s = Ok (tt, s') ∧
    fs_step h0 H s s' (if bit_of d k then <[b := clear_bit d k]> (k_disk s) else k_disk s).
Proof.
  intros Hc HH Hsz Hb Hd Hok Hk. unfold NBITS, BLOCK_SIZE in Hk.
  destruct (buf_read_open h0 H s b d) as (i & n & s1 & Hr & Ho); try done.
  unfold bitmap_unset. cbv zeta. run Hr.
  set (byte := (k / 8)%nat). set (shift := (k mod 8)%nat).
  assert (byte < 1024)%nat as Hby by (apply Nat.Div0.div_lt_upper_bound; lia).
  assert (shift < 8)%nat as Hsh by (apply Nat.mod_upper_bound; lia).
  replace (Z.to_nat (Z.of_nat k / 8)) with byte by (unfold byte; change 8 with (Z.of_nat 8); by rewrite <- Nat2Z.inj_div, Nat2Z.id).
  replace (Z.of_nat k mod 8) with (Z.of_nat shift) by (unfold shift; by rewrite Nat2Z.inj_mod).
  destruct Hok as [Hl Hby8]. change (Z.to_nat BLOCK_SIZE) with 1024%nat in Hl.
  destruct (lookup_lt_is_Some_2 d byte) as [x Hx]; [lia|].
  run (get_data_run _ _ _ _ _ _ _ _ _ _ Ho Hx).
  rewrite mask_bit, Z.land_comm, land_pow2 by lia.
  assert (bit_of d k = Z.testbit x (Z.of_nat shift)) as -> by (unfold bit_of; fold byte shift; by rewrite Hx).
  destruct (Z.testbit x (Z.of_nat shift)); cbn [negb].
  - unfold put_data.
    destruct (close_write h0 H s b d i n s1 (λ y, buf_set_data
      (<[byte := Z.land x (u8 (Z.lnot (2 ^ Z.of_nat shift)))]> (data y)) y)) as (s2 & Hcw & Hst); try done.
    exists s2. split; [exact Hcw|]. simpl in Hst. rewrite (op_data _ _ _ _ _ _ _ _ Ho) in Hst.
    unfold clear_bit. fold byte shift. rewrite Hx. simpl. rewrite land_unset in Hst; [done| |done].
    by eapply Forall_lookup_1 in Hby8.
  - unfold printf. mrun. by apply (close_clean h0 H s b d i n), Hd; apply opened_log.
Qed.

(** ** Bits after an update *)

Lemma bit_of_byte d k : bit_of d k = Z.testbit (default 0 (d !! (k / 8)%nat)) (Z.of_nat (k mod 8)).
Proof. done. Qed.

Lemma byte_update_bit d k f j :
  length d = Z.to_nat BLOCK_SIZE → (k < NBITS)%nat →
  bit_of (<[(k / 8)%nat := f (default 0 (d !! (k / 8)%nat))]> d) j =
    if decide (j / 8 = k / 8)%nat then Z.testbit (f (default 0 (d !! (k / 8)%nat))) (Z.of_nat (j mod 8))
    else bit_of d j.
Proof.
  intros Hl Hk. unfold bit_of. case_decide as E.
  - rewrite E, list_lookup_insert_eq; [done|]. rewrite Hl. unfold NBITS, BLOCK_SIZE in *.
    apply Nat.Div0.div_lt_upper_bound. lia.
  - by rewrite list_lookup_insert_ne.
Qed.

Lemma same_bit j k : (j / 8 = k / 8)%nat → (j mod 8 = k mod 8)%nat → j = k.
Proof. intros H1 H2. by rewrite (nat_div8 j), (nat_div8 k), H1, H2. Qed.

Lemma set_bit_bits d k j :
  block_ok d → (k < NBITS)%nat → bit_of (set_bit d k) j = bool_decide (j = k) || bit_of d j.
Proof.
  intros [Hl _] Hk. unfold set_bit.
  rewrite (byte_update_bit d k (λ x, Z.lor x (2 ^ Z.of_nat (k mod 8))) j Hl Hk).
  case_decide as E.
  - rewrite Z.lor_spec, <- E, <- bit_of_byte, orb_comm. f_equal.
    destruct (decide (j mod 8 = k mod 8)%nat) as [E'|E'].
    + rewrite (same_bit j k E E'), bool_decide_true, Z.pow2_bits_true by (done || lia). done.
    + rewrite bool_decide_false by congruence. apply Z.pow2_bits_false. lia.
  - by rewrite bool_decide_false by congruence.
Qed.

Lemma clear_bit_bits d k j :
  block_ok d → (k < NBITS)%nat → bit_of (clear_bit d k) j = negb (bool_decide (j = k)) && bit_of d j.
Proof.
  intros [Hl _] Hk. unfold clear_bit.
  rewrite (byte_update_bit d k (λ x, Z.ldiff x (2 ^ Z.of_nat (k mod 8))) j Hl Hk).
  case_decide as E.
  - rewrite Z.ldiff_spec, <- E, <- bit_of_byte, andb_comm. f_equal. f_equal.
    destruct (decide (j mod 8 = k mod 8)%nat) as [E'|E'].
    + rewrite (same_bit j k E E'), bool_decide_true, Z.pow2_bits_true by (done || lia). done.
    + rewrite bool_decide_false by congruence. apply Z.pow2_bits_false. lia.
  - by rewrite bool_decide_false by congruence.
Qed.

Lemma set_bit_ok d k : block_ok d → block_ok (set_bit d k).
Proof.
  intros [Hl Hb]. unfold set_bit. split; [by rewrite length_insert|]. apply Forall_insert; [done|].
  apply byte_lor.
  - destruct (d !! (k / 8)%nat) as [x|] eqn:Hx; [by eapply Forall_lookup_1 in Hb|]. by unfold byte_ok.
  - assert (k mod 8 < 8)%nat by (apply Nat.mod_upper_bound; lia). unfold byte_ok.
    split; [lia|]. change 256 with (2 ^ 8). apply Z.pow_lt_mono_r; lia.
Qed.

Lemma clear_set_bit d k :
  block_ok d → (k < NBITS)%nat → bit_of d k = false → clear_bit (set_bit d k) k = d.
Proof.
  intros [Hl _] Hk Hb. unfold clear_bit, set_bit.
  assert (k / 8 < length d)%nat as Hlt.
  { rewrite Hl. unfold NBITS, BLOCK_SIZE in *. apply Nat.Div0.div_lt_upper_bound. lia. }
  rewrite list_lookup_insert_eq by done. rewrite list_insert_insert_eq. cbn [from_option id].
  destruct (lookup_lt_is_Some_2 d (k / 8)%nat Hlt) as [x Hx]. unfold bit_of in Hb. rewrite Hx in *. cbn [from_option id] in *.
  apply list_insert_id. rewrite Hx. f_equal. apply Z.bits_inj. intros m.
  rewrite Z.ldiff_spec, Z.lor_spec. destruct (decide (m = Z.of_nat (k mod 8))) as [->|Hne].
  - by rewrite Hb, Z.pow2_bits_true by lia.
  - by rewrite Z.pow2_bits_false, orb_false_r, andb_true_r by lia.
Qed.

(** Every bitmap has a least clear bit or none. *)
Lemma least_clear_or_full d : (∃ k, least_clear d k) ∨ ∀ j, (j < NBITS)%nat → bit_of d j = true.
Proof.
  assert (∀ m, (m ≤ NBITS)%nat → (∃ k, least_clear d k) ∨ ∀ j, (j < m)%nat → bit_of d j = true) as H.
  { induction m as [|m IH]; intros Hm; [right; lia|]. destruct IH as [?|IH]; [lia|by left|].
    destruct (bit_of d m) eqn:Hb; [right|left; by exists m].
    intros j Hj. destruct (decide (j = m)) as [->|]; [done|]. apply IH. lia. }
  by apply H.
Qed.

(** ** The four operations on the file system's bitmaps *)

Lemma alloc_block_run h0 H s d k :
  let b := data_bitmap_start (k_sb s) in
  bcache h0 H s → (∀ j, H !! j ≠ Some b) → (size H < N_BLOCK_BUF)%nat → 0 ≤ b < 2^31 →
  k_disk s !! b = Some d → block_ok d → least_clear d k →
  0 ≤ data_start (k_sb s) → Z.of_nat k + data_start (k_sb s) < 2^32 →
  ∃ s', bitmap_alloc_block s = Ok (Z.of_nat k + data_start (k_sb s), s') ∧
    fs_step h0 H s s' (<[b := set_bit d k]> (k_disk s)).
Proof.
  intros b Hc HH Hsz Hb Hd Hok Hk Hds Hlt. unfold bitmap_alloc_block. mrun. fold b.
  destruct (search_found h0 H s b d k) as (s' & Hr & Hst); try done. run Hr.
  destruct Hk as [Hk _]. unfold NBITS, BLOCK_SIZE in Hk.
  rewrite (proj2 (Z.eqb_neq _ _)) by lia. mrun. exists s'. rewrite u32_small by lia. done.
Qed.

Lemma alloc_block_full h0 H s d :
  let b := data_bitmap_start (k_sb s) in
  bcache h0 H s → (∀ j, H !! j ≠ Some b) → (size H < N_BLOCK_BUF)%nat → 0 ≤ b < 2^31 →
  k_disk s !! b = Some d → block_ok d → (∀ j, (j < NBITS)%nat → bit_of d j = true) →
  ∃ s', bitmap_alloc_block s = Ok (0, s') ∧ fs_step h0 H s s' (k_disk s).
Proof.
  intros b Hc HH Hsz Hb Hd Hok Hall. unfold bitmap_alloc_block. mrun. fold b.
  destruct (search_full h0 H s b d) as (s1 & Hr & Hst); try done. run Hr.
  rewrite Z.eqb_refl. unfold printf. mrun. eexists. split; [reflexivity|].
  eapply fs_step_trans; [exact Hst|]. rewrite <- (fs_disk _ _ _ _ _ Hst).
  eapply fs_step_printf; [reflexivity|apply Hst].
Qed.

Lemma alloc_inode_run h0 H s d k :
  let b := inode_bitmap_start (k_sb s) in
  bcache h0 H s → (∀ j, H !! j ≠ Some b) → (size H < N_BLOCK_BUF)%nat → 0 ≤ b < 2^31 →
  k_disk s !! b = Some d → block_ok d → least_clear d k →
  ∃ s', bitmap_alloc_inode s = Ok (Z.of_nat k, s') ∧ fs_step h0 H s s' (<[b := set_bit d k]> (k_disk s)).
Proof.
  intros b Hc HH Hsz Hb Hd Hok Hk. unfold bitmap_alloc_inode. mrun. fold b.
  destruct (search_found h0 H s b d k) as (s' & Hr & Hst); try done. run Hr.
  destruct Hk as [Hk _]. unfold NBITS, BLOCK_SIZE in Hk.
  rewrite (proj2 (Z.eqb_neq _ _)) by lia. mrun. exists s'. rewrite u16_small by lia. done.
Qed.

Lemma alloc_inode_full h0 H s d :
  let b := inode_bitmap_start (k_sb s) in
  bcache h0 H s → (∀ j, H !! j ≠ Some b) → (size H < N_BLOCK_BUF)%nat → 0 ≤ b < 2^31 →
  k_disk s !! b = Some d → block_ok d → (∀ j, (j < NBITS)%nat → bit_of d j = true) →
  ∃ s', bitmap_alloc_inode s = Ok (0xFFFF, s') ∧ fs_step h0 H s s' (k_disk s).
Proof.
  intros b Hc HH Hsz Hb Hd Hok Hall. unfold bitmap_alloc_inode. mrun. fold b.
  destruct (search_full h0 H s b d) as (s1 & Hr & Hst); try done. run Hr.
  rewrite Z.eqb_refl. unfold printf. mrun. eexists. split; [reflexivity|].
  eapply fs_step_trans; [exact Hst|]. rewrite <- (fs_disk _ _ _ _ _ Hst).
  eapply fs_step_printf; [reflexivity|apply Hst].
Qed.

Lemma free_block_run h0 H s d k :
  let b := data_bitmap_start (k_sb s) in
  bcache h0 H s → (∀ j, H !! j ≠ Some b) → (size H < N_BLOCK_BUF)%nat → 0 ≤ b < 2^31 →
  k_disk s !! b = Some d → block_ok d → (k < NBITS)%nat → 0 ≤ data_start (k_sb s) →
  ∃ s', bitmap_free_block (Z.of_nat k + data_start (k_sb s)) s = Ok (tt, s') ∧
    fs_step h0 H s s' (if bit_of d k then <[b := clear_bit d k]> (k_disk s) else k_disk s).
Proof.
  intros b Hc HH Hsz Hb Hd Hok Hk Hds. unfold bitmap_free_block. mrun.
  rewrite (proj2 (Z.ltb_ge _ _)) by lia. rewrite Z.add_simpl_r, u32_small.
  - by apply (bitmap_unset_run h0 H s b d k).
  - unfold NBITS, BLOCK_SIZE in Hk. lia.
Qed.

(** ** Claims *)

(** [bitmap_alloc_block] with the data bitmap [d] on the disk: if a bit is clear it
    returns the block of the least clear bit and the bitmap on the disk then differs in
    exactly that bit; if none is clear it returns 0 and the disk is unchanged; one of the
    two is the case, and the cache stays coherent with the same buffers held. *)
Theorem bitmap_alloc_block_correct (h0 : hart) (H : gmap nat Z) (s : kstate) (d : list Z) :
  let b := data_bitmap_start (k_sb s) in
  bcache h0 H s → (∀ j, H !! j ≠ Some b) → (size H < N_BLOCK_BUF)%nat → 0 ≤ b < 2^31 →
  k_disk s !! b = Some d → block_ok d →
  0 ≤ data_start (k_sb s) → Z.of_nat NBITS + data_start (k_sb s) < 2^32 →
  (∃ k s' d', least_clear d k ∧
     bitmap_alloc_block s = Ok (Z.of_nat k + data_start (k_sb s), s') ∧
     fs_step h0 H s s' (<[b := d']> (k_disk s)) ∧ block_ok d' ∧
     ∀ j, bit_of d' j = bool_decide (j = k) || bit_of d j) ∨
  ((∀ j, (j < NBITS)%nat → bit_of d j = true) ∧
   ∃ s', bitmap_alloc_block s = Ok (0, s') ∧ fs_step h0 H s s' (k_disk s)).
Proof.
  intros b Hc HH Hsz Hb Hd Hok Hds Hlt. destruct (least_clear_or_full d) as [[k Hk]|Hall].
  - left. destruct (alloc_block_run h0 H s d k) as (s' & Hr & Hst); try done.
    { destruct Hk as [Hk _]. lia. }
    exists k, s', (set_bit d k). split; [done|]. split; [done|]. split; [done|].
    split; [by apply set_bit_ok|]. intros j. apply set_bit_bits; [done|apply Hk].
  - right. split; [done|]. by apply (alloc_block_full h0 H s d).
Qed.

(** freeing a block that is allocated clears exactly its bit; freeing it again only
    prints a warning and leaves the disk as it is. *)
Theorem bitmap_free_block_correct (h0 : hart) (H : gmap nat Z) (s : kstate) (d : list Z) (k : nat) :
  let b := data_bitmap_start (k_sb s) in
  bcache h0 H s → (∀ j, H !! j ≠ Some b) → (size H < N_BLOCK_BUF)%nat → 0 ≤ b < 2^31 →
  k_disk s !! b = Some d → block_ok d → (k < NBITS)%nat → 0 ≤ data_start (k_sb s) →
  ∃ s' d', bitmap_free_block (Z.of_nat k + data_start (k_sb s)) s = Ok (tt, s') ∧
    fs_step h0 H s s' (<[b := d']> (k_disk s)) ∧
    (∀ j, bit_of d' j = negb (bool_decide (j = k)) && bit_of d j) ∧
    (bit_of d k = false → d' = d).
Proof.
  intros b Hc HH Hsz Hb Hd Hok Hk Hds.
  destruct (free_block_run h0 H s d k) as (s' & Hr & Hst); try done.
  exists s', (if bit_of d k then clear_bit d k else d). split; [done|].
  destruct (bit_of d k) eqn:Hbit.
  - split; [done|]. split; [|done]. intros j. by apply clear_bit_bits.
  - split; [by rewrite insert_id|]. split; [|done]. intros j.
    case_bool_decide as E; [by subst|done].
Qed.

(** allocating a block and freeing it restores the disk. *)
Theorem bitmap_alloc_free_roundtrip (h0 : hart) (H : gmap nat Z) (s : kstate) (d : list Z) (k : nat) :
  let b := data_bitmap_start (k_sb s) in
  bcache h0 H s → (∀ j, H !! j ≠ Some b) → (size H < N_BLOCK_BUF)%nat → 0 ≤ b < 2^31 →
  k_disk s !! b = Some d → block_ok d → least_clear d k →
  0 ≤ data_start (k_sb s) → Z.of_nat NBITS + data_start (k_sb s) < 2^32 →
  ∃ s', (x ← bitmap_alloc_block; bitmap_free_block x) s = Ok (tt, s') ∧ fs_step h0 H s s' (k_disk s).
Proof.
  intros b Hc HH Hsz Hb Hd Hok Hk Hds Hlt.
  destruct (alloc_block_run h0 H s d k) as (s1 & Hr & Hst); try done.
  { destruct Hk as [Hk _]. lia. }
  run Hr. assert (k_sb s1 = k_sb s) as Esb by (destruct Hst as [_ _ _ [-> _]]; done).
  destruct Hk as (Hk & Hbit & Hlow). rewrite <- Esb in Hds |- *.
  destruct (free_block_run h0 H s1 (set_bit d k) k) as (s2 & Hf & Hst2); rewrite ?Esb; try done.
  - apply Hst.
  - rewrite (fs_disk _ _ _ _ _ Hst). apply lookup_insert_eq.
  - by apply set_bit_ok.
  - by rewrite <- Esb.
  - exists s2. split; [by rewrite <- Esb|]. eapply fs_step_trans; [exact Hst|].
    rewrite set_bit_bits, bool_decide_true, clear_set_bit, Esb, (fs_disk _ _ _ _ _ Hst) in Hst2 by done.
    cbn [orb] in Hst2. by rewrite insert_insert_eq, insert_id in Hst2.
Qed.

End proofs.

(** ** Witnesses: the first two data blocks are in use. *)

Definition sample_bitmap : list Z := 3 :: replicate 1023 0.

Definition sample_sb : super_block := mk_super_block 0x12345678 1024 1 2 3 4 8 1000 2000.

Lemma sample_bitmap_ok : block_ok sample_bitmap ∧ least_clear sample_bitmap 2.
Proof.
  split.
  - split; [reflexivity|]. apply Forall_cons. split; [by unfold byte_ok|].
    apply Forall_replicate. by unfold byte_ok.
  - split; [unfold NBITS, BLOCK_SIZE; lia|]. split; [reflexivity|]. intros [|[|j]] Hj; [reflexivity..|lia].
Qed.

Lemma bitmap_alloc_block_correct_witness :
  ∃ s s' d', block_ok d' ∧ k_disk s = {[ 3 := sample_bitmap ]} ∧
    @bitmap_alloc_block virtio_block_device s = Ok (6, s') ∧
    k_disk s' = <[3 := d']> (k_disk s) ∧ ∀ j, bit_of d' j = bool_decide (j = 2)%nat || bit_of sample_bitmap j.
Proof.
  destruct (booted_cache {[ 3 := sample_bitmap ]} sample_sb) as (s & Hc & Ed & Es).
  destruct sample_bitmap_ok as [Hok Hlc].
  destruct (@bitmap_alloc_block_correct virtio_block_device _ ∅ s sample_bitmap Hc)
    as [(k & s' & d' & Hk & Hr & Hst & Hok' & Hb)|[Hall _]].
  - by intros j.
  - rewrite map_size_empty. unfold N_BLOCK_BUF. lia.
  - rewrite Es. simpl. lia.
  - rewrite Es, Ed. reflexivity.
  - exact Hok.
  - rewrite Es. simpl. lia.
  - rewrite Es. unfold NBITS, BLOCK_SIZE. simpl. lia.
  - assert (k = 2%nat) as ->.
    { destruct Hk as (_ & H1 & H2). destruct Hlc as (_ & H3 & H4).
      destruct (Nat.lt_trichotomy k 2) as [Hl|[?|Hl]]; [|done|].
      - specialize (H4 k Hl). congruence.
      - specialize (H2 2%nat Hl). congruence. }
    exists s, s', d'. split; [exact Hok'|]. split; [exact Ed|]. rewrite Es in Hr, Hst. split; [exact Hr|].
    split; [by rewrite (fs_disk _ _ _ _ _ Hst)|exact Hb].
  - specialize (Hall 2%nat ltac:(unfold NBITS, BLOCK_SIZE; lia)). discriminate.
Defined.

Lemma bitmap_free_block_correct_witness :
  ∃ s s' d', @bitmap_free_block virtio_block_device 5 s = Ok (tt, s') ∧
    k_disk s' = <[3 := d']> (k_disk s) ∧
    ∀ j, bit_of d' j = negb (bool_decide (j = 1)%nat) && bit_of sample_bitmap j.
Proof.
  destruct (booted_cache {[ 3 := sample_bitmap ]} sample_sb) as (s & Hc & Ed & Es).
  destruct (@bitmap_free_block_correct virtio_block_device _ ∅ s sample_bitmap 1 Hc)
    as (s' & d' & Hr & Hst & Hb & _).
  - by intros j.
  - rewrite map_size_empty. unfold N_BLOCK_BUF. lia.
  - rewrite Es. simpl. lia.
  - rewrite Es, Ed. reflexivity.
  - apply sample_bitmap_ok.
  - unfold NBITS, BLOCK_SIZE. lia.
  - rewrite Es. simpl. lia.
  - exists s, s', d'. rewrite Es in Hr, Hst. split; [exact Hr|]. split; [|exact Hb].
    by rewrite (fs_disk _ _ _ _ _ Hst).
Defined.

Lemma bitmap_alloc_free_roundtrip_witness :
  ∃ s s', (x ← @bitmap_alloc_block virtio_block_device; bitmap_free_block x) s = Ok (tt, s') ∧
    k_disk s' = k_disk s.
Proof.
  destruct (booted_cache {[ 3 := sample_bitmap ]} sample_sb) as (s & Hc & Ed & Es).
  destruct (@bitmap_alloc_free_roundtrip virtio_block_device _ ∅ s sample_bitmap 2 Hc) as (s' & Hr & Hst).
  - by intros j.
  - rewrite map_size_empty. unfold N_BLOCK_BUF. lia.
  - rewrite Es. simpl. lia.
  - rewrite Es, Ed. reflexivity.
  - apply sample_bitmap_ok.
  - apply sample_bitmap_ok.
  - rewrite Es. simpl. lia.
  - rewrite Es. unfold NBITS, BLOCK_SIZE. simpl. lia.
  - exists s, s'. split; [exact Hr|]. apply (fs_disk _ _ _ _ _ Hst).
Defined.
