(* ===== verification/MmapPool.v ===== *)
(** * The pool of mmap regions (kernel/mem/mmap.c)

    [N_MMAP] nodes on a singly linked free list whose first node is a sentinel.
    The theorems: the pool behaves as a stack of distinct nodes; allocation never
    hands out the sentinel, panics exactly when the list is empty, and what it hands
    out is no longer on the list. *)

From S2P Require Import Prelude Bytes Kernel Lock.

Definition N_MMAP : nat := 256.

Definition mm_set_next (v : option nat) (n : mmap_node) : mmap_node :=
  mk_mmap_node (mm_begin n) (mm_npages n) v (mn_next n).
Definition mn_set_next (v : option nat) (n : mmap_node) : mmap_node :=
  mk_mmap_node (mm_begin n) (mm_npages n) (mm_next n) v.
Definition mm_set_range (b np : Z) (n : mmap_node) : mmap_node :=
  mk_mmap_node b np (mm_next n) (mn_next n).

Definition get_mmap (i : nat) : K mmap_node :=
  p ← gets (λ s, k_mmap s); deref "list_mmap_region_node" (mp_nodes p !! i).

Definition upd_mmap (i : nat) (f : mmap_node → mmap_node) : K unit :=
  modify (λ s, set_mmap (mk_mmap_pool (alter f i (mp_nodes (k_mmap s))) (mp_head (k_mmap s))) s).

(** [list_head] *)
Definition mmap_head : K nat := gets (λ s, mp_head (k_mmap s)).

Definition mmap_init : K unit :=
  spinlock_init LkMmapList "mmap_list";;
  modify (λ s, set_mmap (mk_mmap_pool (mp_nodes (k_mmap s)) 0) s);;
  for_each (seq 0 (N_MMAP - 1)) (λ i, upd_mmap i (mn_set_next (Some (S i))));;
  upd_mmap (N_MMAP - 1) (mn_set_next None).

Definition mmap_region_alloc : K nat :=
  spinlock_acquire LkMmapList;;
  h ← mmap_head;
  hn ← get_mmap h;
  match mn_next hn with
  | None => spinlock_release LkMmapList;; panic "mmap_region_alloc: out of mmap regions"
  | Some node =>
      n ← get_mmap node;
      upd_mmap h (mn_set_next (mn_next n));;
      spinlock_release LkMmapList;;
      mret node
  end.

Definition mmap_region_free (node : nat) : K unit :=
  spinlock_acquire LkMmapList;;
  h ← mmap_head;
  hn ← get_mmap h;
  upd_mmap node (mn_set_next (mn_next hn));;
  upd_mmap h (mn_set_next (Some node));;
  spinlock_release LkMmapList.

Fixpoint show_mmap_loop (fuel : nat) (tmp : option nat) (node : Z) : K unit :=
  match tmp with
  | None => mret tt
  | Some i =>
      match fuel with
      | O => no_fuel
      | S fuel =>
          h ← mmap_head;
          printf "node %d index = %d\n" [node; Z.of_nat i - Z.of_nat h];;
          n ← get_mmap i;
          show_mmap_loop fuel (mn_next n) (node + 1)
      end
  end.

Definition mmap_show_mmaplist : K unit :=
  spinlock_acquire LkMmapList;;
  h ← mmap_head;
  show_mmap_loop N_MMAP (Some h) 1;;
  spinlock_release LkMmapList.

(** ** The free list *)

Fixpoint chain (ns : list mmap_node) (h : nat) (l : list nat) : Prop :=
  match l with
  | [] => (mn_next <$> ns !! h) = Some None
  | x :: l => (mn_next <$> ns !! h) = Some (Some x) ∧ chain ns x l
  end.

(** The free nodes are [l]; the sentinel is node 0. *)
Record pool_ok (s : kstate) (l : list nat) : Prop := {
  po_head : mp_head (k_mmap s) = O;
  po_len : length (mp_nodes (k_mmap s)) = N_MMAP;
  po_chain : chain (mp_nodes (k_mmap s)) 0 l;
  po_nodup : NoDup (O :: l) }.

Record mmap_sync (s : kstate) : Prop := {
  ms_hart : hart_stable (k_hart s);
  ms_lock : lock_idle LkMmapList s }.

Lemma chain_alter ns h l i f :
  i ∉ h :: l → chain ns h l → chain (alter f i ns) h l.
Proof.
  revert h. induction l as [|x l IH]; intros h Hi; simpl.
  - by rewrite list_lookup_alter_ne by set_solver.
  - intros [H1 H2]. rewrite list_lookup_alter_ne by set_solver. split; [done|]. apply IH; [set_solver|done].
Qed.

Lemma chain_lt ns h l i : chain ns h l → i ∈ h :: l → (i < length ns)%nat.
Proof.
  revert h. induction l as [|x l IH]; intros h Hc Hi.
  - apply list_elem_of_singleton in Hi as ->. simpl in Hc. apply lookup_lt_is_Some_1.
    destruct (ns !! h); [by eexists|done].
  - destruct Hc as [H1 H2]. apply elem_of_cons in Hi as [->|Hi]; [|by eapply IH].
    apply lookup_lt_is_Some_1. destruct (ns !! h); [by eexists|done].
Qed.

Lemma get_mmap_run i s n : mp_nodes (k_mmap s) !! i = Some n → get_mmap i s = Ok (n, s).
Proof. intros H. unfold get_mmap. mrun. by rewrite H. Qed.

(** [s] with other nodes in the pool. *)
Definition with_nodes (ns : list mmap_node) (s : kstate) : kstate :=
  set_mmap (mk_mmap_pool ns (mp_head (k_mmap s))) s.

(** The [mmap_region_t] inside a node. *)
Definition region_of (n : mmap_node) : Z * Z * option nat := (mm_begin n, mm_npages n, mm_next n).

Lemma region_of_alter v (i : nat) (ns : list mmap_node) : region_of <$> alter (mn_set_next v) i ns = region_of <$> ns.
Proof. revert i. induction ns as [|n ns IH]; intros [|i]; simpl; [done..|]. f_equal. apply IH. Qed.

Lemma mmap_alloc_run s x l :
  pool_ok s (x :: l) → mmap_sync s →
  ∃ n0, mmap_region_alloc s = Ok (x, with_nodes (alter (mn_set_next n0) O (mp_nodes (k_mmap s))) s) ∧
    pool_ok (with_nodes (alter (mn_set_next n0) O (mp_nodes (k_mmap s))) s) l ∧ x ≠ O ∧ x ∉ l ∧ (x < N_MMAP)%nat.
Proof.
  intros [Hh Hl [H1 H2] Hnd] [Hst Hlk].
  destruct (mp_nodes (k_mmap s) !! O) as [h|] eqn:Eh; [|done]. simplify_eq/=.
  apply NoDup_cons in Hnd as [Hx0 Hnd]. apply NoDup_cons in Hnd as [Hxl Hnd].
  assert (x < N_MMAP)%nat as Hx by (rewrite <- Hl; eapply chain_lt; [exact H2|by left]).
  destruct (lookup_lt_is_Some_2 (mp_nodes (k_mmap s)) x) as [n Hn]; [by rewrite Hl|].
  exists (mn_next n). unfold mmap_region_alloc.
  run (acquire_run LkMmapList s (lock_idle_unlocked _ _ Hlk)). unfold mmap_head. mrun.
  change (k_mmap (acq LkMmapList s)) with (k_mmap s). rewrite Hh.
  run (get_mmap_run 0 (acq LkMmapList s) h Eh). rewrite H1.
  run (get_mmap_run x (acq LkMmapList s) n Hn). unfold upd_mmap. mrun.
  rewrite (release_bind LkMmapList s _ _ Hst Hlk) by done. mrun.
  split; [reflexivity|]. split; [|set_solver].
  split; simpl; [done|by rewrite length_alter| |by apply NoDup_cons; set_solver].
  destruct l as [|y l]; simpl in *; rewrite list_lookup_alter_eq, Eh; simpl.
  - rewrite Hn in H2. simpl in H2. congruence.
  - destruct H2 as [H2 H3]. rewrite Hn in H2. simpl in H2. split; [congruence|].
    apply chain_alter; [set_solver|done].
Qed.

Lemma mmap_alloc_empty s : pool_ok s [] → mmap_sync s →
  mmap_region_alloc s = Panic "mmap_region_alloc: out of mmap regions".
Proof.
  intros [Hh Hl H1 _] [Hst Hlk]. unfold mmap_region_alloc.
  destruct (mp_nodes (k_mmap s) !! O) as [h|] eqn:Eh; [|simpl in H1; by rewrite Eh in H1].
  simpl in H1. rewrite Eh in H1. simplify_eq/=.
  run (acquire_run LkMmapList s (lock_idle_unlocked _ _ Hlk)). unfold mmap_head. mrun.
  change (k_mmap (acq LkMmapList s)) with (k_mmap s). rewrite Hh.
  run (get_mmap_run 0 (acq LkMmapList s) h Eh). rewrite H1.
  by rewrite (release_bind LkMmapList s _ _ Hst Hlk).
Qed.

Lemma mmap_free_run s x l :
  pool_ok s l → mmap_sync s → (x < N_MMAP)%nat → x ≠ O → x ∉ l →
  ∃ ns, mmap_region_free x s = Ok (tt, with_nodes ns s) ∧ pool_ok (with_nodes ns s) (x :: l) ∧
    region_of <$> ns = region_of <$> mp_nodes (k_mmap s).
Proof.
  intros [Hh Hl Hc Hnd] [Hst Hlk] Hx Hx0 Hxl.
  assert (∃ h, mp_nodes (k_mmap s) !! O = Some h) as [h Eh].
  { apply lookup_lt_is_Some_2. rewrite Hl. unfold N_MMAP. lia. }
  eexists. unfold mmap_region_free.
  run (acquire_run LkMmapList s (lock_idle_unlocked _ _ Hlk)). unfold mmap_head. mrun.
  change (k_mmap (acq LkMmapList s)) with (k_mmap s). rewrite Hh.
  run (get_mmap_run 0 (acq LkMmapList s) h Eh). unfold upd_mmap. mrun.
  rewrite (release_after LkMmapList s) by done. split; [reflexivity|]. split.
  - destruct (lookup_lt_is_Some_2 (mp_nodes (k_mmap s)) x) as [n Hn]; [by rewrite Hl|].
    split; simpl; [done|by rewrite !length_alter| |idtac].
    + split.
      * by rewrite list_lookup_alter_eq, list_lookup_alter_ne, Eh by done.
      * destruct l as [|y l]; simpl in *.
        -- rewrite list_lookup_alter_ne, list_lookup_alter_eq, Hn by done. simpl. rewrite Eh in Hc. simpl in Hc. congruence.
        -- destruct Hc as [Hc1 Hc2]. rewrite list_lookup_alter_ne, list_lookup_alter_eq, Hn by done. simpl.
           rewrite Eh in Hc1. simpl in Hc1. split; [congruence|].
           apply NoDup_cons in Hnd as [H0 _].
           apply chain_alter; [done|]. by apply chain_alter.
    + apply NoDup_cons in Hnd as [H0 Hnd]. apply NoDup_cons. split; [|by apply NoDup_cons].
      rewrite elem_of_cons. intros [?|?]; congruence.
  - simpl. by rewrite !region_of_alter.
Qed.

(** The list that [mmap_init] builds. *)
Lemma chain_seq ns i n :
  (∀ j, (i ≤ j < i + n)%nat → (mn_next <$> ns !! j) = Some (Some (S j))) →
  (mn_next <$> ns !! (i + n)%nat) = Some None → chain ns i (seq (S i) n).
Proof.
  revert i. induction n as [|n IH]; intros i Hs He; simpl.
  - by rewrite Nat.add_0_r in He.
  - split; [apply Hs; lia|]. apply IH; [intros j Hj; apply Hs; lia|]. by rewrite <- Nat.add_succ_comm in He.
Qed.

Lemma mmap_init_run s :
  length (mp_nodes (k_mmap s)) = N_MMAP →
  ∃ s', mmap_init s = Ok (tt, s') ∧ pool_ok s' (seq 1 (N_MMAP - 1)) ∧ lock_idle LkMmapList s' ∧
    s' = set_mmap (k_mmap s') (set_locks (<[LkMmapList := mk_spinlock 0 "mmap_list" (-1)]> (k_locks s)) s).
Proof.
  intros Hl. unfold mmap_init, spinlock_init, put_lock. mrun.
  set (s0 := set_mmap _ _).
  destruct (for_seq_inv (λ k s1, s1 = with_nodes (mp_nodes (k_mmap s1)) s0 ∧
      length (mp_nodes (k_mmap s1)) = N_MMAP ∧
      ∀ j, (j < k)%nat → (mn_next <$> mp_nodes (k_mmap s1) !! j) = Some (Some (S j)))
    (λ i, upd_mmap i (mn_set_next (Some (S i)))) (N_MMAP - 1) s0) as (s1 & Hr & E1 & L1 & N1).
  - split; [done|]. split; [done|]. lia.
  - intros i s1 Hi (E & L & N). unfold upd_mmap. mrun. eexists. split; [reflexivity|].
    destruct (lookup_lt_is_Some_2 (mp_nodes (k_mmap s1)) i) as [n Hn]; [lia|].
    split; [by rewrite E|]. split; [simpl; by rewrite length_alter|].
    intros j Hj. simpl. destruct (decide (j = i)) as [->|Hne].
    + by rewrite list_lookup_alter_eq, Hn.
    + rewrite list_lookup_alter_ne by done. apply N. lia.
  - run Hr. unfold upd_mmap. mrun. eexists. split; [reflexivity|].
    destruct (lookup_lt_is_Some_2 (mp_nodes (k_mmap s1)) (N_MMAP - 1)) as [n Hn]; [unfold N_MMAP in *; lia|].
    split; [|split].
    + split; cbn [k_mmap set_mmap mp_head mp_nodes].
      * by rewrite E1.
      * by rewrite length_alter.
      * apply (chain_seq _ 0 255).
        -- intros j Hj. rewrite list_lookup_alter_ne by (unfold N_MMAP; lia). apply N1. unfold N_MMAP. lia.
        -- change (N_MMAP - 1)%nat with 255%nat in Hn |- *. simpl. by rewrite list_lookup_alter_eq, Hn.
      * apply NoDup_cons. split; [rewrite elem_of_seq; lia|apply NoDup_seq].
    + exists "mmap_list". rewrite E1. simpl. by rewrite lookup_insert_eq.
    + by rewrite E1.
Qed.

(** ** Claims *)

(** in a pool whose free list is [l],
    [mmap_region_alloc] takes the first free node (never the sentinel, never one that is
    still free afterwards) and panics when none is left, and [mmap_region_free] puts a
    node back in front without touching the region it describes. *)
Theorem mmap_pool_correct (s : kstate) (l : list nat) :
  pool_ok s l → mmap_sync s →
  match l with
  | [] => mmap_region_alloc s = Panic "mmap_region_alloc: out of mmap regions"
  | x :: l' => ∃ ns, mmap_region_alloc s = Ok (x, with_nodes ns s) ∧ pool_ok (with_nodes ns s) l' ∧
      x ≠ O ∧ x ∉ l'
  end ∧
  ∀ x, (x < N_MMAP)%nat → x ≠ O → x ∉ l →
    ∃ ns, mmap_region_free x s = Ok (tt, with_nodes ns s) ∧ pool_ok (with_nodes ns s) (x :: l) ∧
      region_of <$> ns = region_of <$> mp_nodes (k_mmap s).
Proof.
  intros Hp Hs. split.
  - destruct l as [|x l]; [by apply mmap_alloc_empty|].
    destruct (mmap_alloc_run s x l Hp Hs) as (n0 & Hr & Hp' & Hx & Hxl & _). eauto.
  - intros x Hx Hx0 Hxl. by apply mmap_free_run.
Qed.

Lemma mmap_pool_correct_witness :
  ∃ s ns, mmap_region_alloc s = Ok (1%nat, with_nodes ns s) ∧
    pool_ok (with_nodes ns s) (seq 2 254).
Proof.
  destruct (mmap_init_run (zero_state (image_syms 3)) eq_refl) as (s & _ & Hp & Hl & Es).
  change (seq 1 (N_MMAP - 1)) with (1%nat :: seq 2 254) in Hp.
  destruct (mmap_pool_correct s (1%nat :: seq 2 254) Hp) as [(ns & Hr & Hp' & _) _].
  { split; [|exact Hl]. rewrite Es. by right. }
  exists s, ns. split; [exact Hr|exact Hp'].
Defined.
