(* ===== verification/Uvm.v ===== *)
(** * User address spaces (kernel/mem/uvm.c)

    Copying between kernel and user memory, growing and shrinking the heap,
    mmap regions, and copying and destroying page tables.  A kernel-side buffer of
    a copy is a list of bytes.  The theorems: [uvm_copyout] and [uvm_copyin], which
    work page by page, agree with the byte-by-byte access through the page table,
    and reading back what was written gives it back; growing the heap maps exactly
    the new pages, cleared and with the right permissions; shrinking it returns
    exactly the pages above the new top. *)

From S2P Require Import Prelude Bytes Kernel Lock Str Pmem Vm Sched MmapPool.

(** ** Copies *)

(** Enough steps for a copy of [len] bytes: a partial page at either end. *)
Definition copy_fuel (len : Z) : nat := Z.to_nat (len / PGSIZE) + 2.

Fixpoint copyin_loop (fuel : nat) (pgtbl src len : Z) : K (list Z) :=
  if len =? 0 then mret [] else
  match fuel with
  | O => no_fuel
  | S fuel =>
      let va := PG_ROUND_DOWN src in
      pte ← vm_getpte pgtbl va false;
      kassert (negb (pte =? 0)) "uvm_copyin: pte is NULL";;
      e ← read64 pte;
      kassert (pte_valid e) "uvm_copyin: page not present";;
      let n := Z.min (PGSIZE - (src - va)) len in
      m ← gets (λ s, k_mem s);
      let chunk := load_bytes m (PTE_TO_PA e + (src - va)) (Z.to_nat n) in
      rest ← copyin_loop fuel pgtbl (u64 (src + n)) (len - n);
      mret (chunk ++ rest)
  end.

Definition uvm_copyin (pgtbl src len : Z) : K (list Z) := copyin_loop (copy_fuel len) pgtbl src len.

Fixpoint copyout_loop (fuel : nat) (pgtbl dst : Z) (src : list Z) : K unit :=
  if (length src =? 0)%nat then mret tt else
  match fuel with
  | O => no_fuel
  | S fuel =>
      let va := PG_ROUND_DOWN dst in
      pte ← vm_getpte pgtbl va false;
      kassert (negb (pte =? 0)) "uvm_copyout: pte is NULL";;
      e ← read64 pte;
      kassert (pte_valid e) "uvm_copyout: page not present";;
      let n := Z.min (PGSIZE - (dst - va)) (Z.of_nat (length src)) in
      modify (λ s, set_mem (store_bytes (k_mem s) (PTE_TO_PA e + (dst - va)) (take (Z.to_nat n) src)) s);;
      copyout_loop fuel pgtbl (u64 (dst + n)) (drop (Z.to_nat n) src)
  end.

(** [src] holds the [len] bytes to copy. *)
Definition uvm_copyout (pgtbl dst : Z) (src : list Z) : K unit :=
  copyout_loop (copy_fuel (Z.of_nat (length src))) pgtbl dst src.

(** At most [n] bytes from [a] up to and including a NUL, and whether it was found. *)
Fixpoint str_chunk (m : mem) (a : Z) (n : nat) : list Z * bool :=
  match n with
  | O => ([], false)
  | S n =>
      let c := load8 m a in
      if c =? 0 then ([c], true) else let '(l, f) := str_chunk m (a + 1) n in (c :: l, f)
  end.

Fixpoint copyin_str_loop (fuel : nat) (pgtbl src maxlen : Z) : K (list Z * bool) :=
  if maxlen =? 0 then mret ([], false) else
  match fuel with
  | O => no_fuel
  | S fuel =>
      let va := PG_ROUND_DOWN src in
      pte ← vm_getpte pgtbl va false;
      kassert (negb (pte =? 0)) "uvm_copyin_str: pte is NULL";;
      e ← read64 pte;
      kassert (pte_valid e) "uvm_copyin_str: page not present";;
      let n := Z.min (PGSIZE - (src - va)) maxlen in
      m ← gets (λ s, k_mem s);
      let '(chunk, found) := str_chunk m (PTE_TO_PA e + (src - va)) (Z.to_nat n) in
      if found : bool then mret (chunk, true)
      else
        r ← copyin_str_loop fuel pgtbl (u64 (src + n)) (maxlen - n);
        mret (chunk ++ fst r, snd r)
  end.

(** The bytes written to the kernel buffer.  When no NUL was found [maxlen] has been
    counted down to 0, and the code writes at [dst + 0 - 1], before the buffer. *)
Definition uvm_copyin_str (pgtbl src maxlen : Z) : K (list Z) :=
  r ← copyin_str_loop (copy_fuel maxlen) pgtbl src maxlen;
  if snd r : bool then mret (fst r) else fault "uvm_copyin_str: write before the buffer".

(** ** Heap *)

Fixpoint grow_loop (n : nat) (pgtbl base i : Z) : K unit :=
  match n with
  | O => mret tt
  | S n =>
      let va := u64 (base + u32 (i * PGSIZE)) in
      pa ← pmem_alloc false;
      kassert (negb (pa =? 0)) "uvm_heap_grow: out of memory";;
      modify (λ s, set_mem (memset (k_mem s) pa 0 PGSIZE) s);;
      vm_mappages pgtbl va pa PGSIZE (Z.lor (Z.lor PTE_R PTE_W) PTE_U);;
      grow_loop n pgtbl base (i + 1)
  end.

Definition uvm_heap_grow (pgtbl heap_top len : Z) : K Z :=
  let new_heap_top := u64 (heap_top + len) in
  kassert (new_heap_top <? TRAPFRAME) "uvm_heap_grow: heap grows too large";;
  let old_top_aligned := PG_ROUND_UP heap_top in
  let new_top_aligned := PG_ROUND_UP new_heap_top in
  (if old_top_aligned <? new_top_aligned then
     let npages := u32 ((new_top_aligned - old_top_aligned) / PGSIZE) in
     grow_loop (Z.to_nat npages) pgtbl old_top_aligned 0
   else mret tt);;
  mret new_heap_top.

Definition uvm_heap_ungrow (pgtbl heap_top len : Z) : K Z :=
  let new_heap_top := u64 (heap_top - len) in
  kassert (PGSIZE <=? new_heap_top) "uvm_heap_ungrow: heap shrinks too much";;
  let new_top_aligned := PG_ROUND_UP new_heap_top in
  let old_top_aligned := PG_ROUND_UP heap_top in
  (if new_top_aligned <? old_top_aligned then
     vm_unmappages pgtbl new_top_aligned (old_top_aligned - new_top_aligned) true
   else mret tt);;
  mret new_heap_top.

(** ** Copying and destroying page tables *)

(** One page of [copy_range]: the entry [e] of [va] is duplicated. *)
Definition copy_page (new va e : Z) : K unit :=
  page ← pmem_alloc false;
  modify (λ s, set_mem (memmove (k_mem s) page (PTE_TO_PA e) PGSIZE) s);;
  vm_mappages new va page PGSIZE (PTE_FLAGS e).

Fixpoint copy_range_loop (fuel : nat) (old new va end_ : Z) : K unit :=
  if negb (va <? end_) then mret tt else
  match fuel with
  | O => no_fuel
  | S fuel =>
      pte ← vm_getpte old va false;
      kassert (negb (pte =? 0)) "uvm_copy_pgtbl: pte == NULL";;
      e ← read64 pte;
      kassert (pte_valid e) "uvm_copy_pgtbl: pte not valid";;
      copy_page new va e;;
      copy_range_loop fuel old new (u64 (va + PGSIZE)) end_
  end.

Definition copy_range (old new begin end_ : Z) : K unit :=
  copy_range_loop (Z.to_nat ((end_ - begin + PGSIZE - 1) / PGSIZE)) old new begin end_.

Fixpoint copy_heap_loop (fuel : nat) (old new va end_ : Z) : K unit :=
  if negb (va <? end_) then mret tt else
  match fuel with
  | O => no_fuel
  | S fuel =>
      pte ← vm_getpte old va false;
      (if negb (pte =? 0) then
         e ← read64 pte;
         if pte_valid e then copy_page new va e else mret tt
       else mret tt);;
      copy_heap_loop fuel old new (u64 (va + PGSIZE)) end_
  end.

Fixpoint copy_mmap_loop (fuel : nat) (old new : Z) (tmp : option nat) : K unit :=
  match tmp with
  | None => mret tt
  | Some i =>
      match fuel with
      | O => no_fuel
      | S fuel =>
          n ← get_mmap i;
          copy_range old new (mm_begin n) (u64 (mm_begin n + u32 (mm_npages n * PGSIZE)));;
          n ← get_mmap i;
          copy_mmap_loop fuel old new (mm_next n)
      end
  end.

Definition uvm_copy_pgtbl (old new heap_top ustack_base ustack_pages : Z) (mmap : option nat) : K unit :=
  copy_range old new 0 PGSIZE;;
  let heap_start := PGSIZE in
  (if heap_start <? heap_top then
     copy_heap_loop (Z.to_nat (PG_ROUND_UP heap_top / PGSIZE)) old new heap_start (PG_ROUND_UP heap_top)
   else mret tt);;
  (if 0 <? ustack_pages then
     copy_range old new ustack_base (u64 (ustack_base + u32 (ustack_pages * PGSIZE)))
   else mret tt);;
  copy_mmap_loop N_MMAP old new mmap.

Fixpoint destroy_pgtbl (level : nat) (pgtbl : Z) : K unit :=
  match level with
  | S l =>
      for_each (seq 0 512) (λ i,
        pte ← read64 (pgtbl + 8 * Z.of_nat i);
        if pte_valid pte && PTE_CHECK pte then
          destroy_pgtbl l (PTE_TO_PA pte);;
          pmem_free (PTE_TO_PA pte) true
        else mret tt)
  | O =>
      for_each (seq 0 512) (λ i,
        pte ← read64 (pgtbl + 8 * Z.of_nat i);
        if pte_valid pte && negb (PTE_CHECK pte) then pmem_free (PTE_TO_PA pte) false else mret tt)
  end.

(** Clear the entry of [va], if there is one. *)
Definition drop_entry (pgtbl va : Z) : K unit :=
  pte ← vm_getpte pgtbl va false;
  if pte =? 0 then mret tt else write64 pte 0.

Definition uvm_destroy_pgtbl (pgtbl : Z) : K unit :=
  drop_entry pgtbl TRAMPOLINE;;
  drop_entry pgtbl TRAPFRAME;;
  destroy_pgtbl 2 pgtbl;;
  pmem_free pgtbl false.

(** ** Regions *)

Definition set_p_mmap (v : option nat) (p : proc) : proc :=
  mk_proc (pid p) (state p) (parent p) (exit_state p) (sleep_space p) (pgtbl p) (heap_top p)
    (ustack_base p) (ustack_pages p) v (tf p) (kstack p) (p_ctx p) (cwd p) (filelist p).

(** The current process, where the code asserts that there is one. *)
Definition current_proc (msg : string) : K nat :=
  me ← myproc;
  match me with None => panic msg | Some i => mret i end.

Fixpoint mmap_pages_loop (n : nat) (pgtbl begin i perm : Z) : K unit :=
  match n with
  | O => mret tt
  | S n =>
      let va := u64 (begin + u32 (i * PGSIZE)) in
      pa ← pmem_alloc false;
      kassert (negb (pa =? 0)) "uvm_mmap: out of memory";;
      vm_mappages pgtbl va pa PGSIZE (Z.lor perm PTE_U);;
      mmap_pages_loop n pgtbl begin (i + 1) perm
  end.

Definition uvm_mmap (begin npages perm : Z) : K unit :=
  if npages =? 0 then mret tt else
  kassert (begin mod PGSIZE =? 0) "uvm_mmap: begin not aligned";;
  i ← current_proc "uvm_mmap: no current process";
  p ← get_proc i;
  r ← mmap_region_alloc;
  upd_mmap r (λ n, mm_set_next (p_mmap p) (mm_set_range begin npages n));;
  upd_proc i (set_p_mmap (Some r));;
  mmap_pages_loop (Z.to_nat npages) (pgtbl p) begin 0 perm.

(** The place [*prev_ptr]: [p->mmap] of process [i], or the [next] field of a region. *)
Definition put_link (i : nat) (prev : option nat) (v : option nat) : K unit :=
  match prev with
  | None => upd_proc i (set_p_mmap v)
  | Some r => upd_mmap r (mm_set_next v)
  end.

Definition get_link (i : nat) (prev : option nat) : K (option nat) :=
  match prev with
  | None => p ← get_proc i; mret (p_mmap p)
  | Some r => n ← get_mmap r; mret (mm_next n)
  end.

(** The loop that removes [begin, end) from the regions of process [i]. *)
Fixpoint munmap_loop (fuel : nat) (i : nat) (begin end_ : Z) (prev curr : option nat) : K unit :=
  match curr with
  | None => mret tt
  | Some c =>
      match fuel with
      | O => no_fuel
      | S fuel =>
          n ← get_mmap c;
          let curr_begin := mm_begin n in
          let curr_end := u64 (curr_begin + u32 (mm_npages n * PGSIZE)) in
          if (curr_end <=? begin) || (end_ <=? curr_begin) then
            munmap_loop fuel i begin end_ (Some c) (mm_next n)
          else if (begin <=? curr_begin) && (curr_end <=? end_) then
            put_link i prev (mm_next n);;
            mmap_region_free c;;
            nx ← get_link i prev;
            munmap_loop fuel i begin end_ prev nx
          else if (curr_begin <? begin) && (end_ <? curr_end) then
            let npages_before := u32 ((begin - curr_begin) / PGSIZE) in
            let npages_after := u32 ((curr_end - end_) / PGSIZE) in
            upd_mmap c (mm_set_range curr_begin npages_before);;
            r ← mmap_region_alloc;
            n ← get_mmap c;
            upd_mmap r (λ x, mm_set_next (mm_next n) (mm_set_range end_ npages_after x));;
            upd_mmap c (mm_set_next (Some r));;
            x ← get_mmap r;
            munmap_loop fuel i begin end_ (Some r) (mm_next x)
          else if curr_begin <? begin then
            upd_mmap c (mm_set_range curr_begin (u32 ((begin - curr_begin) / PGSIZE)));;
            munmap_loop fuel i begin end_ (Some c) (mm_next n)
          else
            upd_mmap c (mm_set_range end_ (u32 ((curr_end - end_) / PGSIZE)));;
            munmap_loop fuel i begin end_ (Some c) (mm_next n)
      end
  end.

Definition mmap_merge (m1 m2 : nat) (keep_mmap_1 : bool) : K unit :=
  a ← get_mmap m1;
  b ← get_mmap m2;
  kassert (u64 (mm_begin a + u32 (mm_npages a * PGSIZE)) =? mm_begin b) "mmap_merge: check fail";;
  if keep_mmap_1 then
    upd_mmap m1 (mm_set_range (mm_begin a) (u32 (mm_npages a + mm_npages b)));;
    mmap_region_free m2
  else
    upd_mmap m2 (mm_set_range (u64 (mm_begin b - u32 (mm_npages a * PGSIZE)))
      (u32 (mm_npages b + mm_npages a)));;
    mmap_region_free m1.

(** The loop that merges adjacent regions. *)
Fixpoint merge_loop (fuel : nat) (curr : option nat) : K unit :=
  match curr with
  | None => mret tt
  | Some c =>
      n ← get_mmap c;
      match mm_next n with
      | None => mret tt
      | Some d =>
          match fuel with
          | O => no_fuel
          | S fuel =>
              x ← get_mmap d;
              if u64 (mm_begin n + u32 (mm_npages n * PGSIZE)) =? mm_begin x
              then mmap_merge c d true;; merge_loop fuel (Some c)
              else merge_loop fuel (Some d)
          end
      end
  end.

Definition uvm_munmap (begin npages : Z) : K unit :=
  if npages =? 0 then mret tt else
  kassert (begin mod PGSIZE =? 0) "uvm_munmap: begin not aligned";;
  i ← current_proc "uvm_munmap: no current process";
  p ← get_proc i;
  let end_ := u64 (begin + u32 (npages * PGSIZE)) in
  munmap_loop (2 * N_MMAP) i begin end_ None (p_mmap p);;
  p ← get_proc i;
  merge_loop (2 * N_MMAP) (p_mmap p);;
  vm_unmappages (pgtbl p) begin (u32 (npages * PGSIZE)) true.

Fixpoint show_regions (fuel : nat) (tmp : option nat) : K unit :=
  match tmp with
  | None => mret tt
  | Some i =>
      match fuel with
      | O => no_fuel
      | S fuel =>
          n ← get_mmap i;
          printf "allocable region: %p ~ %p\n" [mm_begin n; u64 (mm_begin n + u32 (mm_npages n * PGSIZE))];;
          show_regions fuel (mm_next n)
      end
  end.

Definition uvm_show_mmaplist (mmap : option nat) : K unit :=
  printf "\nmmap allocable area:\n" [];;
  match mmap with None => printf "NULL\n" [] | Some _ => mret tt end;;
  show_regions N_MMAP mmap.

(** ** Access through the page table, byte by byte *)

(** The physical address behind [va]. *)
Definition phys (m : mem) (pg : ptmap) (va : Z) : Z := mapped_pa m pg va + va mod PGSIZE.

(** The page of [va] is mapped. *)
Definition present (m : mem) (pg : ptmap) (va : Z) : Prop := pte_valid (lookup_pte m pg va) = true.

#[export] Instance present_dec m pg va : Decision (present m pg va).
Proof. unfold present. apply _. Defined.

Fixpoint user_load (tr : Z → Z) (m : mem) (va : Z) (n : nat) : list Z :=
  match n with
  | O => []
  | S n => load8 m (tr va) :: user_load tr m (va + 1) n
  end.

Fixpoint user_store (tr : Z → Z) (m : mem) (va : Z) (l : list Z) : mem :=
  match l with
  | [] => m
  | b :: l => user_store tr (<[tr va := b]> m) (va + 1) l
  end.

Lemma user_load_app tr m va n1 n2 :
  user_load tr m va (n1 + n2) = user_load tr m va n1 ++ user_load tr m (va + Z.of_nat n1) n2.
Proof.
  revert va. induction n1 as [|n1 IH]; intros va; simpl; [by rewrite Z.add_0_r|].
  f_equal. rewrite IH. do 2 f_equal. lia.
Qed.

Lemma user_store_app tr m va l1 l2 :
  user_store tr m va (l1 ++ l2) = user_store tr (user_store tr m va l1) (va + Z.of_nat (length l1)) l2.
Proof.
  revert m va. induction l1 as [|b l1 IH]; intros m va; simpl; [by rewrite Z.add_0_r|].
  rewrite IH. f_equal. lia.
Qed.

(** On a run of addresses that are physically contiguous. *)
Lemma user_load_run tr m va a n :
  (∀ i, 0 ≤ i < Z.of_nat n → tr (va + i) = a + i) → user_load tr m va n = load_bytes m a n.
Proof.
  revert va a. induction n as [|n IH]; intros va a Htr; simpl; [done|].
  f_equal; [f_equal; specialize (Htr 0); rewrite !Z.add_0_r in Htr; apply Htr; lia|].
  apply IH. intros i Hi. replace (va + 1 + i) with (va + (1 + i)) by lia. rewrite Htr; lia.
Qed.

Lemma user_store_run tr m va a l :
  (∀ i, 0 ≤ i < Z.of_nat (length l) → tr (va + i) = a + i) → user_store tr m va l = store_bytes m a l.
Proof.
  revert m va a. induction l as [|b l IH]; intros m va a Htr; simpl in *; [done|].
  assert (tr va = a) as -> by (specialize (Htr 0); rewrite !Z.add_0_r in Htr; apply Htr; lia).
  apply IH. intros i Hi. replace (va + 1 + i) with (va + (1 + i)) by lia. rewrite Htr; lia.
Qed.

(** ** Walking to a user page *)

Lemma round_down_page va : 0 ≤ va → PG_ROUND_DOWN va / PGSIZE = va / PGSIZE ∧ va - PG_ROUND_DOWN va = va mod PGSIZE.
Proof. intros H. rewrite PG_ROUND_DOWN_spec. unfold PGSIZE. split; zdiv. Qed.

Lemma lookup_pte_page m pg va va' :
  0 ≤ va → 0 ≤ va' → va' / PGSIZE = va / PGSIZE → lookup_pte m pg va' = lookup_pte m pg va.
Proof.
  intros H H' E. destruct (va_page_eq va' va H' H E) as [E1 E2]. unfold lookup_pte. by rewrite E1, E2.
Qed.

Lemma page_walk s root pg va :
  pt_ok (k_mem s) root pg → 0 ≤ va < VA_MAX → present (k_mem s) pg va →
  ∃ pte, vm_getpte root (PG_ROUND_DOWN va) false s = Ok (pte, s) ∧ pte ≠ 0 ∧
    read64 pte s = Ok (lookup_pte (k_mem s) pg va, s).
Proof.
  intros Hpt Hva Hpr. pose proof (PG_ROUND_DOWN_range va) as Hr. destruct (round_down_page va ltac:(lia)) as [Hpage _].
  assert (0 ≤ PG_ROUND_DOWN va < VA_MAX) as Hva'.
  { split; [|lia]. rewrite PG_ROUND_DOWN_spec. unfold PGSIZE. zdiv. }
  destruct (va_page_eq _ _ (proj1 Hva') (proj1 Hva) Hpage) as [E1 E2].
  rewrite (vm_getpte_lookup s root pg _ Hpt) by lia. unfold present, lookup_pte in *. rewrite E1, E2.
  destruct (pg !! va_path va) as [p|] eqn:Hp; [|done].
  eexists. split; [reflexivity|]. split; [|done].
  destruct (pt_page _ _ _ Hpt _ _ Hp) as ([_ ?] & _). pose proof (VA_TO_VPN_range va 0) as Hv.
  unfold vpn_ok in Hv. lia.
Qed.

(** Within the page of [va], addresses are physically contiguous. *)
Lemma phys_run m pg va i :
  0 ≤ va → 0 ≤ i → va mod PGSIZE + i < PGSIZE → phys m pg (va + i) = phys m pg va + i.
Proof.
  intros H0 H2 H3. unfold phys, mapped_pa.
  rewrite (lookup_pte_page m pg va (va + i)) by (unfold PGSIZE in *; zdiv).
  assert ((va + i) mod PGSIZE = va mod PGSIZE + i) as -> by (unfold PGSIZE in *; zdiv). lia.
Qed.

(** What one step of a copy moves, and what is left. *)
Lemma chunk_bounds off len fuel :
  0 ≤ off < PGSIZE → 0 < len → off + len ≤ Z.of_nat (S fuel) * PGSIZE →
  let n := Z.min (PGSIZE - off) len in
  0 < n ≤ len ∧ off + n ≤ PGSIZE ∧ (len - n = 0 ∨ (off + n = PGSIZE ∧ len - n ≤ Z.of_nat fuel * PGSIZE)).
Proof. unfold PGSIZE. lia. Qed.

Lemma copyin_loop_run fuel : ∀ s root pg src len,
  pt_ok (k_mem s) root pg → 0 ≤ src → 0 ≤ len → src + len ≤ VA_MAX →
  (∀ va, src ≤ va < src + len → present (k_mem s) pg va) →
  (len = 0 ∨ src mod PGSIZE + len ≤ Z.of_nat fuel * PGSIZE) →
  copyin_loop fuel root src len s = Ok (user_load (phys (k_mem s) pg) (k_mem s) src (Z.to_nat len), s).
Proof.
  induction fuel as [|fuel IH]; intros s root pg src len Hpt Hs Hl Hmax Hpr Hf.
  { assert (0 ≤ src mod PGSIZE) by (unfold PGSIZE; zdiv). assert (len = 0) as -> by lia. done. }
  cbn [copyin_loop]. destruct (len =? 0) eqn:Hz; zbool; [by subst|].
  assert (0 ≤ src < VA_MAX) as Hva by lia.
  destruct (page_walk s root pg src Hpt Hva (Hpr src ltac:(lia))) as (pte & Hg & Hn0 & Hr).
  run Hg. rewrite (proj2 (Z.eqb_neq _ _) Hn0). mrun. cbn [negb]. run Hr. mrun. rewrite (Hpr src) by lia.
  destruct (round_down_page src Hs) as [_ ->]. set (off := src mod PGSIZE) in *.
  assert (0 ≤ off < PGSIZE) as Hoff by (unfold off, PGSIZE; zdiv).
  destruct (chunk_bounds off len fuel Hoff ltac:(lia) ltac:(lia)) as (Hn & Hon & Hrest). cbv zeta in Hn, Hon, Hrest.
  set (n := Z.min (PGSIZE - off) len) in *. pose proof (eq_refl : VA_MAX = 2^38).
  rewrite u64_small by lia.
  rewrite (bind_ok _ _ _ _ _ (IH s root pg (src + n) (len - n) Hpt ltac:(lia) ltac:(lia) ltac:(lia)
    ltac:(intros va ?; apply Hpr; lia) ltac:(destruct Hrest as [?|[? ?]]; [by left|right;
      replace ((src + n) mod PGSIZE) with 0 by (unfold off, PGSIZE in *; zdiv); lia]))). mrun.
  do 2 f_equal. replace (Z.to_nat len) with (Z.to_nat n + Z.to_nat (len - n))%nat by lia.
  rewrite user_load_app, Z2Nat.id by lia. f_equal. symmetry. apply user_load_run.
  intros i Hi. rewrite phys_run by (unfold off in *; lia). unfold phys, mapped_pa. fold off. lia.
Qed.

Lemma PTE_TO_PA_aligned e : PTE_TO_PA e mod PGSIZE = 0.
Proof.
  unfold PTE_TO_PA, u64, PGSIZE. rewrite Z.shiftl_mul_pow2 by lia. change (2^12) with 4096.
  change (2^64) with (4503599627370496 * 4096). rewrite Z.mul_mod_distr_r by lia. apply Z.mod_mul. lia.
Qed.

(** The pages behind [va, va + len) are not pages of the table. *)
Definition off_table (m : mem) (pg : ptmap) (va len : Z) : Prop :=
  ∀ x π p, va ≤ x < va + len → pg !! π = Some p → mapped_pa m pg x ≠ p.

Lemma store_off_table m root pg q a l :
  pt_ok m root pg → q mod PGSIZE = 0 → q ≤ a → a + Z.of_nat (length l) ≤ q + PGSIZE →
  (∀ π p, pg !! π = Some p → q ≠ p) →
  pt_ok (store_bytes m a l) root pg ∧ ∀ va, lookup_pte (store_bytes m a l) pg va = lookup_pte m pg va.
Proof.
  intros Hpt Hq Ha Hl Hne. apply pt_ok_ext; [|done]. intros π p b Hp Hb.
  destruct (pt_page _ _ _ Hpt _ _ Hp) as ([Hal _] & _). specialize (Hne π p Hp).
  apply load8_store_bytes_out. unfold PGSIZE in *. zdiv.
Qed.

Lemma copyout_loop_run fuel : ∀ s m0 root pg dst l,
  pt_ok (k_mem s) root pg → (∀ va, lookup_pte (k_mem s) pg va = lookup_pte m0 pg va) →
  0 ≤ dst → dst + Z.of_nat (length l) ≤ VA_MAX →
  (∀ va, dst ≤ va < dst + Z.of_nat (length l) → present m0 pg va) →
  off_table m0 pg dst (Z.of_nat (length l)) →
  (l = [] ∨ dst mod PGSIZE + Z.of_nat (length l) ≤ Z.of_nat fuel * PGSIZE) →
  let m' := user_store (phys m0 pg) (k_mem s) dst l in
  copyout_loop fuel root dst l s = Ok (tt, set_mem m' s) ∧
    pt_ok m' root pg ∧ ∀ va, lookup_pte m' pg va = lookup_pte m0 pg va.
Proof.
  induction fuel as [|fuel IH]; intros s m0 root pg dst l Hpt Hlk Hs Hmax Hpr Hot Hf.
  { assert (0 ≤ dst mod PGSIZE) by (unfold PGSIZE; zdiv).
    assert (l = []) as -> by (destruct Hf; [done|]; destruct l; simpl in *; [done|lia]). done. }
  cbn [copyout_loop]. destruct (length l =? 0)%nat eqn:Hz.
  { apply Nat.eqb_eq in Hz. by destruct l. }
  apply Nat.eqb_neq in Hz. set (len := Z.of_nat (length l)) in *.
  assert (0 < len) as Hlen by (unfold len; lia). assert (0 ≤ dst < VA_MAX) as Hva by lia.
  assert (present (k_mem s) pg dst) as Hpr0 by (unfold present; rewrite Hlk; apply Hpr; lia).
  destruct (page_walk s root pg dst Hpt Hva Hpr0) as (pte & Hg & Hn0 & Hr).
  run Hg. rewrite (proj2 (Z.eqb_neq _ _) Hn0). mrun. cbn [negb]. run Hr. mrun.
  unfold present in Hpr0. rewrite Hpr0.
  destruct (round_down_page dst Hs) as [_ ->]. set (off := dst mod PGSIZE) in *.
  assert (0 ≤ off < PGSIZE) as Hoff by (unfold off, PGSIZE; zdiv).
  assert (l ≠ []) as Hnil by (by destruct l).
  destruct (chunk_bounds off len fuel Hoff Hlen ltac:(destruct Hf; [done|lia])) as (Hn & Hon & Hrest).
  cbv zeta in Hn, Hon, Hrest.
  set (n := Z.min (PGSIZE - off) len) in *. pose proof (eq_refl : VA_MAX = 2^38). rewrite u64_small by lia.
  assert (length (take (Z.to_nat n) l) = Z.to_nat n) as Htk by (rewrite length_take; unfold len in *; lia).
  rewrite Hlk. set (q := PTE_TO_PA (lookup_pte m0 pg dst)).
  destruct (store_off_table (k_mem s) root pg q (q + off) (take (Z.to_nat n) l) Hpt)
    as [Hpt1 Hlk1]; [apply PTE_TO_PA_aligned|lia|rewrite Htk; lia| |].
  { intros π p Hp. apply (Hot dst π p); [lia|done]. }
  set (m1 := store_bytes (k_mem s) (q + off) (take (Z.to_nat n) l)) in *.
  assert (m1 = user_store (phys m0 pg) (k_mem s) dst (take (Z.to_nat n) l)) as Hm1.
  { symmetry. apply user_store_run. rewrite Htk. intros i Hi.
    rewrite phys_run by (unfold off in *; lia). unfold phys, mapped_pa. fold off q. lia. }
  assert (user_store (phys m0 pg) (k_mem s) dst l =
    user_store (phys m0 pg) m1 (dst + n) (drop (Z.to_nat n) l)) as ->.
  { rewrite <- (take_drop (Z.to_nat n) l) at 1. rewrite user_store_app, Htk, <- Hm1. f_equal. lia. }
  destruct (IH (set_mem m1 s) m0 root pg (dst + n) (drop (Z.to_nat n) l)) as (Hr1 & Hpt2 & Hlk2);
    rewrite ?length_drop; try done.
  - intros va. by rewrite <- Hlk, <- Hlk1.
  - lia.
  - unfold len in *. lia.
  - intros va Hv. apply Hpr. unfold len in *. lia.
  - intros x π p Hx. apply Hot. unfold len in *. lia.
  - destruct Hrest as [He|[He Hle]].
    + left. apply drop_ge. unfold len in *. lia.
    + right. replace ((dst + n) mod PGSIZE) with 0 by (unfold off, PGSIZE in *; zdiv). unfold len in *. lia.
Qed.

(** ** New user pages *)

(** Mapping one page. *)
Lemma map_one s root pg kl ul va pa perm :
  vm_ok s root pg kl ul → va mod PGSIZE = 0 → 0 ≤ va → va + PGSIZE ≤ VA_MAX →
  0 ≤ pa → pa + PGSIZE ≤ 2^56 → 0 ≤ perm < 1024 → (2 ≤ length kl)%nat →
  ∃ s1 pg1 kl1, vm_mappages root va pa PGSIZE perm s = Ok (tt, s1) ∧
    vm_ok s1 root pg1 kl1 ul ∧ (length kl ≤ length kl1 + 2)%nat ∧ vm_mapped s pg kl s1 pg1 kl1 va pa perm 1.
Proof.
  intros Hok Hal H0 Hmax Hpa Hpm Hperm Hkl. pose proof (eq_refl : VA_MAX = 2^38).
  destruct (vm_map_loop_run 0 s root pg kl ul va pa perm 1 Hok) as (s1 & pg1 & kl1 & Hr & Hok1 & Hl1 & Hm);
    try done; try (unfold PGSIZE in *; lia).
  exists s1, pg1, kl1. split; [|split; [done|split; [lia|done]]].
  unfold vm_mappages. mrun. rewrite (proj2 (Z.eqb_neq PGSIZE 0)) by done.
  rewrite (u64_small (va + PGSIZE - 1)) by (unfold PGSIZE in *; lia).
  assert (PG_ROUND_DOWN (va + PGSIZE - 1) = va) as ->.
  { rewrite PG_ROUND_DOWN_spec. unfold PGSIZE in *. zdiv. }
  rewrite (PG_ROUND_DOWN_id va Hal), Z.sub_diag. change (Z.to_nat (u64 0 / PGSIZE)) with O.
  by rewrite Z.add_0_r in Hr.
Qed.

Lemma pools_disjoint s kl ul p : pmem_ok s kl ul → p ∈ kl → p ∉ ul.
Proof.
  intros Hok Hk. apply (page_in_other _ _ _ true p Hok). destruct Hok as [Hr _ _].
  pose proof (ro_pages _ _ _ Hr) as HF. rewrite Forall_forall in HF. by apply HF.
Qed.

(** Taking a user page. *)
Lemma user_page_alloc s root pg kl u ul :
  vm_ok s root pg kl (u :: ul) →
  ∃ r, pmem_alloc false s = Ok (u, set_user r s) ∧ vm_ok (set_user r s) root pg kl ul ∧ table_page u ∧
    page_apart pg kl ul u.
Proof.
  intros [Hpt Hpm Hsy Hdj].
  destruct (pmem_alloc_some false s kl (u :: ul) u ul Hsy Hpm eq_refl) as (r & Hr & Hb & He & Hin & Hni & Hok).
  simpl in *. exists r. split; [done|].
  assert (table_page u) as Hu.
  { destruct Hin as [Ha Hrng]. pose proof (ro_bounds _ _ _ (po_user _ _ _ Hpm)).
    unfold PHYSTOP, KERNEL_BASE in *. split; [done|lia]. }
  split; [|split; [done|]].
  - split; [done|done| |].
    + destruct Hsy as [? [??] [??]]. split; [done|by eexists..].
    + intros π p Hp. destruct (Hdj π p Hp) as [Hk Hq]. split; [done|]. intros Hp'. apply Hq. by right.
  - split; [apply Hu|]. split; [by apply (page_in_other _ _ _ false u Hok Hin)|]. split; [done|].
    intros π Hp. destruct (Hdj π u Hp) as [_ Hq]. apply Hq. by left.
Qed.

(** Taking a user page and filling it. *)
Lemma user_page_run s root pg kl u ul (fill : mem → mem) :
  vm_ok s root pg kl (u :: ul) →
  (∀ m b, ¬ (u ≤ b < u + PGSIZE) → load8 (fill m) b = load8 m b) →
  ∃ r, let s1 := set_mem (fill (k_mem s)) (set_user r s) in
    pmem_alloc false s = Ok (u, set_user r s) ∧ vm_ok s1 root pg kl ul ∧ table_page u ∧ (u ∉ ul) ∧
    (∀ va, lookup_pte (k_mem s1) pg va = lookup_pte (k_mem s) pg va).
Proof.
  intros Hok Hfill. destruct (user_page_alloc s root pg kl u ul Hok) as (r & Hr & Hok1 & Hu & Hap).
  exists r. cbv zeta. split; [done|].
  destruct (vm_ok_page _ _ _ _ _ u (fill (k_mem s)) Hok1 Hap) as [Hok2 Hlk]; [intros b Hb; by apply Hfill|].
  split; [done|]. split; [done|]. split; [apply Hap|done].
Qed.

(** A user page [u] was taken, filled to give memory [m] and mapped at [va]. *)
Record placed (s : kstate) (root : Z) (pg : ptmap) (kl : list Z) (u : Z) (ul : list Z) (va perm : Z) (m : mem)
    (s1 : kstate) (pg1 : ptmap) (kl1 : list Z) : Prop := {
  pl_ok : vm_ok s1 root pg1 kl1 ul;
  pl_kl : (length kl ≤ length kl1 + 2)%nat;
  pl_suffix : kl1 `suffix_of` kl;
  pl_from π p : pg1 !! π = Some p → pg !! π = Some p ∨ p ∈ kl;
  pl_look x : 0 ≤ x < VA_MAX → lookup_pte (k_mem s1) pg1 x =
    if decide (va ≤ x < va + PGSIZE) then leaf_pte u perm else lookup_pte (k_mem s) pg x;
  pl_page b : u ≤ b < u + PGSIZE → load8 (k_mem s1) b = load8 m b;
  pl_mem b : (∀ p, (∃ π, pg !! π = Some p) ∨ p ∈ kl ∨ p = u → ¬ (p ≤ b < p + PGSIZE)) →
    load8 (k_mem s1) b = load8 (k_mem s) b;
  pl_frame : s1 = set_mem (k_mem s1) (set_kern (k_kern s1) (set_user (k_user s1) s)) }.

Lemma place_run s root pg kl u ul va perm (fill : mem → mem) :
  vm_ok s root pg kl (u :: ul) → va mod PGSIZE = 0 → 0 ≤ va → va + PGSIZE ≤ VA_MAX → 0 ≤ perm < 1024 →
  (2 ≤ length kl)%nat → (∀ m b, ¬ (u ≤ b < u + PGSIZE) → load8 (fill m) b = load8 m b) →
  ∃ r s1 pg1 kl1, pmem_alloc false s = Ok (u, set_user r s) ∧ table_page u ∧
    vm_mappages root va u PGSIZE perm (set_mem (fill (k_mem s)) (set_user r s)) = Ok (tt, s1) ∧
    placed s root pg kl u ul va perm (fill (k_mem s)) s1 pg1 kl1.
Proof.
  intros Hok Hal H0 Hmax Hperm Hkl Hfill. destruct (user_page_run s root pg kl u ul fill Hok Hfill) as (r & Hr & Hok1 & Hu & Hni & Hlk).
  cbv zeta in Hok1, Hlk. set (s' := set_mem _ _) in *.
  assert (u + PGSIZE ≤ 2^56) as Hub by (destruct Hu; unfold PGSIZE in *; zdiv).
  destruct (map_one s' root pg kl ul va u perm Hok1 Hal H0 Hmax ltac:(destruct Hu; lia) Hub Hperm Hkl)
    as (s1 & pg1 & kl1 & Hm & Hok2 & Hl & [Hsub Hsuf Hfrom Hlk1 Hfr Hmem]).
  assert (∀ π p, pg1 !! π = Some p → p ≠ u) as Htab.
  { intros π p Hp ->. destruct (Hfrom π u Hp) as [Hp'|Hp'].
    - destruct (vo_disj _ _ _ _ _ Hok π u Hp') as [_ Hq]. apply Hq. by left.
    - eapply (pools_disjoint s kl (u :: ul) u); [apply Hok|done|by left]. }
  exists r, s1, pg1, kl1. split; [done|]. split; [done|]. split; [done|]. split; [done|lia|done|done| | | |].
  - intros x Hx. rewrite Hlk1 by done. rewrite Z.mul_1_l, Hlk. case_decide; [|done]. f_equal. unfold PGSIZE in *. zdiv.
  - intros b Hb. rewrite Hmem; [done|]. intros π p Hp Hpb. destruct (pt_page _ _ _ (vo_pt _ _ _ _ _ Hok2) _ _ Hp) as ([Hpa _] & _).
    destruct (page_aligned_apart p u Hpa (proj1 Hu) (Htab π p Hp)); lia.
  - intros b Hb. rewrite Hmem; [apply Hfill, Hb; tauto|]. intros π p Hp. apply Hb.
    destruct (Hfrom π p Hp) as [?|?]; [left; by exists π|by right; left].
  - unfold vm_frame in Hfr. rewrite Hfr. done.
Qed.

(** The permissions of heap pages. *)
Definition HEAP_PERM : Z := Z.lor (Z.lor PTE_R PTE_W) PTE_U.

(** After [k] of the pages [ul] were mapped from [base] on. *)
Record grown (s : kstate) (root : Z) (pg : ptmap) (kl ul : list Z) (base : Z) (k : nat)
    (s1 : kstate) (pg1 : ptmap) (kl1 : list Z) : Prop := {
  gr_ok : vm_ok s1 root pg1 kl1 (drop k ul);
  gr_kl : (length kl ≤ length kl1 + 2 * k)%nat;
  gr_suffix : kl1 `suffix_of` kl;
  gr_from π p : pg1 !! π = Some p → pg !! π = Some p ∨ p ∈ kl;
  gr_look va : 0 ≤ va < VA_MAX → lookup_pte (k_mem s1) pg1 va =
    if decide (base ≤ va < base + Z.of_nat k * PGSIZE)
    then leaf_pte (ul !!! Z.to_nat ((va - base) / PGSIZE)) HEAP_PERM else lookup_pte (k_mem s) pg va;
  gr_zero j u b : (j < k)%nat → ul !! j = Some u → u ≤ b < u + PGSIZE → load8 (k_mem s1) b = 0;
  gr_mem b : (∀ p, (∃ π, pg !! π = Some p) ∨ p ∈ kl ∨ p ∈ ul → ¬ (p ≤ b < p + PGSIZE)) →
    load8 (k_mem s1) b = load8 (k_mem s) b;
  gr_frame : s1 = set_mem (k_mem s1) (set_kern (k_kern s1) (set_user (k_user s1) s)) }.

Lemma grown_0 s root pg kl ul base : vm_ok s root pg kl ul → grown s root pg kl ul base 0 s pg kl.
Proof.
  intros Hok. split; [done|lia|done|by left| |lia|done|by destruct s].
  intros va _. by rewrite decide_False by lia.
Qed.

Lemma grown_step s root pg kl ul base k s1 pg1 kl1 u :
  vm_ok s root pg kl ul → grown s root pg kl ul base k s1 pg1 kl1 → ul !! k = Some u →
  base mod PGSIZE = 0 → 0 ≤ base → base + Z.of_nat (S k) * PGSIZE ≤ VA_MAX → (2 ≤ length kl1)%nat →
  ∃ s2 pg2 kl2,
    (pa ← pmem_alloc false;
     kassert (negb (pa =? 0)) "uvm_heap_grow: out of memory";;
     modify (λ s, set_mem (memset (k_mem s) pa 0 PGSIZE) s);;
     vm_mappages root (base + Z.of_nat k * PGSIZE) pa PGSIZE HEAP_PERM) s1 = Ok (tt, s2) ∧
    grown s root pg kl ul base (S k) s2 pg2 kl2.
Proof.
  intros Hok [Hok1 Hkl1 Hsuf Htab Hlook Hzero Hmem1 Hfr1] Hu Hal H0 Hmax Hk2. rewrite (drop_S ul u k Hu) in Hok1.
  set (va := base + Z.of_nat k * PGSIZE) in *.
  destruct (place_run s1 root pg1 kl1 u (drop (S k) ul) va HEAP_PERM (λ m, memset m u 0 PGSIZE) Hok1)
    as (r & s2 & pg2 & kl2 & Hr & Htp & Hm & [Pok Pkl Psuf Pfrom Plook Ppage Pmem Pfr]).
  { unfold va, PGSIZE in *. zdiv. } { unfold va, PGSIZE in *. lia. } { unfold va, PGSIZE in *. lia. } { done. } { done. }
  { intros m b. apply memset_page_out. }
  run Hr. rewrite (proj2 (Z.eqb_neq u 0)) by (destruct Htp; lia). mrun. cbn [negb].
  assert (∀ j x, ul !! j = Some x → x mod PGSIZE = 0) as Hua.
  { intros j x Hx. eapply pmem_page_aligned; [apply Hok|]. apply elem_of_app. right. by eapply list_elem_of_lookup_2. }
  exists s2, pg2, kl2. split; [done|]. split; [done|lia|by etrans| | | | |].
  - intros π p Hp. destruct (Pfrom π p Hp) as [Hp'|Hp']; [by apply Htab|right; by eapply elem_of_suffix].
  - intros x Hx. rewrite Plook by done. destruct (decide (va ≤ x < va + PGSIZE)) as [Hin|Hin].
    + rewrite decide_True by (unfold va, PGSIZE in *; lia).
      assert ((x - base) / PGSIZE = Z.of_nat k) as -> by (unfold va, PGSIZE in *; zdiv).
      by rewrite Nat2Z.id, (list_lookup_total_correct _ _ _ Hu).
    + rewrite Hlook by done. unfold va, PGSIZE in *.
      destruct (decide (base ≤ x < base + Z.of_nat k * 4096)) as [?|?];
        [rewrite decide_True by lia|rewrite decide_False by lia]; done.
  - intros j x b Hj Hx Hb. destruct (decide (x = u)) as [->|Hne].
    + rewrite Ppage by done. rewrite memset_bytes by (unfold PGSIZE; lia).
      replace b with (u + Z.of_nat (Z.to_nat (b - u))) by lia.
      apply load8_store_bytes_in. apply lookup_replicate. unfold PGSIZE in *. split; [done|lia].
    + assert (j < k)%nat as Hjk by (destruct (decide (j = k)) as [->|]; [congruence|lia]).
      rewrite Pmem; [by apply (Hzero j x b)|]. intros p Hp Hpb.
      assert (p mod PGSIZE = 0 ∧ p ≠ x) as [Hpa Hpx].
      { destruct Hp as [[π Hp]|[Hp| ->]].
        - split; [by destruct (pt_page _ _ _ (vo_pt _ _ _ _ _ Hok1) _ _ Hp) as ([? _] & _)|]. intros ->.
          destruct (Htab π x Hp) as [Hp'|Hp']; [destruct (vo_disj _ _ _ _ _ Hok π x Hp') as [_ Hq]; apply Hq|
            eapply (pools_disjoint s kl ul x); [apply Hok|done|]]; by eapply list_elem_of_lookup_2.
        - assert (p ∈ kl) as Hpk by (by eapply elem_of_suffix). split.
          + eapply pmem_page_aligned; [apply Hok|]. apply elem_of_app. by left.
          + intros ->. eapply (pools_disjoint s kl ul x); [apply Hok|done|by eapply list_elem_of_lookup_2].
        - split; [apply Htp|congruence]. }
      destruct (page_aligned_apart p x Hpa (Hua j x Hx) Hpx); lia.
  - intros b Hb. rewrite Pmem; [by apply Hmem1|]. intros p Hp. apply Hb. destruct Hp as [[π Hp]|[Hp| ->]].
    + destruct (Htab π p Hp) as [?|?]; [left; by exists π|by right; left].
    + right. left. by eapply elem_of_suffix.
    + right. right. by eapply list_elem_of_lookup_2.
  - rewrite Pfr. by rewrite Hfr1.
Qed.

Lemma grow_loop_run n : ∀ s root pg kl ul base k s1 pg1 kl1,
  vm_ok s root pg kl ul → grown s root pg kl ul base k s1 pg1 kl1 → (k + n ≤ length ul)%nat →
  base mod PGSIZE = 0 → 0 ≤ base → base + Z.of_nat (k + n) * PGSIZE ≤ VA_MAX →
  Z.of_nat (k + n) * PGSIZE < 2^32 → (2 * (k + n) ≤ length kl)%nat →
  ∃ s2 pg2 kl2, grow_loop n root base (Z.of_nat k) s1 = Ok (tt, s2) ∧
    grown s root pg kl ul base (k + n) s2 pg2 kl2.
Proof.
  induction n as [|n IH]; intros s root pg kl ul base k s1 pg1 kl1 Hok Hg Hul Hal H0 Hmax H32 Hkl.
  - rewrite Nat.add_0_r. by exists s1, pg1, kl1.
  - destruct (lookup_lt_is_Some_2 ul k) as [u Hu]; [lia|]. pose proof (eq_refl : VA_MAX = 2^38).
    pose proof (gr_kl _ _ _ _ _ _ _ _ _ _ Hg).
    destruct (grown_step s root pg kl ul base k s1 pg1 kl1 u) as (s2 & pg2 & kl2 & Hr & Hg2); try done.
    { unfold PGSIZE in *. lia. } { lia. }
    cbn [grow_loop]. rewrite (u32_small (Z.of_nat k * PGSIZE)) by (unfold PGSIZE in *; lia).
    rewrite (u64_small (base + _)) by (unfold PGSIZE in *; lia).
    destruct (IH s root pg kl ul base (S k) s2 pg2 kl2) as (s3 & pg3 & kl3 & Hr3 & Hg3); try done; try lia.
    exists s3, pg3, kl3. rewrite <- Nat.add_succ_comm. split; [|done].
    replace (Z.of_nat k + 1) with (Z.of_nat (S k)) by lia.
    rewrite <- Hr3. clear -Hr. unfold HEAP_PERM in Hr. revert Hr. unfold mbind, M_bind.
    destruct (pmem_alloc false s1) as [[pa t]| | | |]; try done.
    destruct (kassert _ _ t) as [[[] t']| | | |]; try done. unfold modify.
    by intros ->.
Qed.

(** ** Strings *)

(** The bytes of [l] through the first NUL, and whether there is one. *)
Fixpoint upto_nul (l : list Z) : list Z * bool :=
  match l with
  | [] => ([], false)
  | c :: l => if c =? 0 then ([c], true) else let '(r, f) := upto_nul l in (c :: r, f)
  end.

Lemma str_chunk_upto m a n : str_chunk m a n = upto_nul (load_bytes m a n).
Proof.
  revert a. induction n as [|n IH]; intros a; simpl; [done|]. by rewrite IH.
Qed.

Lemma upto_nul_app l1 l2 :
  upto_nul (l1 ++ l2) =
    if snd (upto_nul l1) then upto_nul l1 else (l1 ++ fst (upto_nul l2), snd (upto_nul l2)).
Proof.
  induction l1 as [|c l1 IH]; simpl; [by destruct (upto_nul l2)|].
  destruct (c =? 0); [done|]. rewrite IH. destruct (upto_nul l1) as [r []]; [done|].
  by destruct (upto_nul l2).
Qed.

Lemma upto_nul_none l : snd (upto_nul l) = false → fst (upto_nul l) = l.
Proof.
  induction l as [|c l IH]; simpl; [done|]. destruct (c =? 0); [done|].
  destruct (upto_nul l) as [r f]. simpl in *. intros ->. by rewrite IH.
Qed.

Lemma copyin_str_loop_run fuel : ∀ s root pg src len,
  pt_ok (k_mem s) root pg → 0 ≤ src → 0 ≤ len → src + len ≤ VA_MAX →
  (∀ va, src ≤ va < src + len → present (k_mem s) pg va) →
  (len = 0 ∨ src mod PGSIZE + len ≤ Z.of_nat fuel * PGSIZE) →
  copyin_str_loop fuel root src len s =
    Ok (upto_nul (user_load (phys (k_mem s) pg) (k_mem s) src (Z.to_nat len)), s).
Proof.
  induction fuel as [|fuel IH]; intros s root pg src len Hpt Hs Hl Hmax Hpr Hf.
  { assert (0 ≤ src mod PGSIZE) by (unfold PGSIZE; zdiv). assert (len = 0) as -> by lia. done. }
  cbn [copyin_str_loop]. destruct (len =? 0) eqn:Hz; zbool; [by subst|].
  destruct (page_walk s root pg src Hpt ltac:(lia) (Hpr src ltac:(lia))) as (pte & Hg & Hn0 & Hr).
  run Hg. rewrite (proj2 (Z.eqb_neq _ _) Hn0). mrun. cbn [negb]. run Hr. mrun. rewrite (Hpr src) by lia.
  destruct (round_down_page src Hs) as [_ ->]. set (off := src mod PGSIZE) in *.
  assert (0 ≤ off < PGSIZE) as Hoff by (unfold off, PGSIZE; zdiv).
  destruct (chunk_bounds off len fuel Hoff ltac:(lia) ltac:(lia)) as (Hn & Hon & Hrest). cbv zeta in Hn, Hon, Hrest.
  set (n := Z.min (PGSIZE - off) len) in *. pose proof (eq_refl : VA_MAX = 2^38).
  rewrite u64_small by lia. rewrite str_chunk_upto.
  replace (Z.to_nat len) with (Z.to_nat n + Z.to_nat (len - n))%nat by lia.
  rewrite user_load_app, Z2Nat.id, upto_nul_app by lia.
  rewrite (user_load_run _ (k_mem s) src (PTE_TO_PA (lookup_pte (k_mem s) pg src) + off)); cycle 1.
  { intros i Hi. rewrite phys_run by (unfold off in *; lia). unfold phys, mapped_pa. fold off. lia. }
  destruct (upto_nul (load_bytes _ _ _)) as [l []] eqn:Hu; [done|]. cbn [snd].
  pose proof (upto_nul_none (load_bytes (k_mem s) (PTE_TO_PA (lookup_pte (k_mem s) pg src) + off) (Z.to_nat n))) as Hl'.
  rewrite Hu in Hl'. rewrite <- (Hl' eq_refl). cbn [fst].
  rewrite (bind_ok _ _ _ _ _ (IH s root pg (src + n) (len - n) Hpt ltac:(lia) ltac:(lia) ltac:(lia)
    ltac:(intros va ?; apply Hpr; lia) ltac:(destruct Hrest as [?|[? ?]]; [by left|right;
      replace ((src + n) mod PGSIZE) with 0 by (unfold off, PGSIZE in *; zdiv); lia]))). done.
Qed.

Lemma copy_fuel_enough src len :
  0 ≤ len → src mod PGSIZE + len ≤ Z.of_nat (copy_fuel len) * PGSIZE.
Proof. intros H. unfold copy_fuel, PGSIZE. zdiv. Qed.

(** ** Reading back *)

Lemma user_store_other tr m va l a :
  (∀ i, 0 ≤ i < Z.of_nat (length l) → tr (va + i) ≠ a) → load8 (user_store tr m va l) a = load8 m a.
Proof.
  revert m va. induction l as [|b l IH]; intros m va Hne; simpl in *; [done|].
  rewrite IH.
  - apply load8_insert_ne. specialize (Hne 0). rewrite Z.add_0_r in Hne. apply Hne. lia.
  - intros i Hi. replace (va + 1 + i) with (va + (1 + i)) by lia. apply Hne. lia.
Qed.

Lemma user_load_store tr m va l :
  (∀ i j, 0 ≤ i < Z.of_nat (length l) → 0 ≤ j < Z.of_nat (length l) → tr (va + i) = tr (va + j) → i = j) →
  user_load tr (user_store tr m va l) va (length l) = l.
Proof.
  revert m va. induction l as [|b l IH]; intros m va Hinj; simpl; [done|]. f_equal.
  - rewrite user_store_other; [apply load8_insert_eq|]. intros i Hi He.
    simpl in Hinj. specialize (Hinj (1 + i) 0 ltac:(lia) ltac:(lia)). rewrite Z.add_0_r in Hinj.
    replace (va + (1 + i)) with (va + 1 + i) in Hinj by lia. specialize (Hinj He). lia.
  - apply IH. intros i j Hi Hj He. simpl in Hinj. specialize (Hinj (1 + i) (1 + j) ltac:(lia) ltac:(lia)).
    replace (va + (1 + i)) with (va + 1 + i) in Hinj by lia.
    replace (va + (1 + j)) with (va + 1 + j) in Hinj by lia. specialize (Hinj He). lia.
Qed.

Lemma user_load_ext tr tr' m va n :
  (∀ x, tr x = tr' x) → user_load tr m va n = user_load tr' m va n.
Proof. intros E. revert va. induction n as [|n IH]; intros va; simpl; [done|]. by rewrite E, IH. Qed.

(** ** Regions: the merge of adjacent regions *)

Lemma merge_run s l c d nc nd :
  pool_ok s l → mmap_sync s → mp_nodes (k_mmap s) !! c = Some nc → mp_nodes (k_mmap s) !! d = Some nd →
  c ≠ d → d ≠ O → d ∉ l → c ∉ O :: l → mm_next nc = Some d →
  u64 (mm_begin nc + u32 (mm_npages nc * PGSIZE)) = mm_begin nd →
  ∃ s', mmap_merge c d true s = Ok (tt, s') ∧ pool_ok s' (d :: l) ∧
    ∃ nc', mp_nodes (k_mmap s') !! c = Some nc' ∧ mm_next nc' = Some d ∧
      mm_npages nc' = u32 (mm_npages nc + mm_npages nd).
Proof.
  intros Hp [Hst Hlk] Hc Hd Hcd Hd0 Hdl Hcl Hnx Hadj. unfold mmap_merge.
  run (get_mmap_run c s nc Hc). run (get_mmap_run d s nd Hd). mrun. rewrite Hadj, Z.eqb_refl.
  unfold upd_mmap. mrun. set (s1 := set_mmap _ s).
  assert (pool_ok s1 l) as Hp1.
  { destruct Hp as [Hh Hn Hch Hnd]. split; simpl; [done|by rewrite length_alter| |done]. by apply chain_alter. }
  assert (d < N_MMAP)%nat as Hlt by (rewrite <- (po_len _ _ Hp); by eapply lookup_lt_Some).
  destruct (mmap_free_run s1 d l Hp1 (Build_mmap_sync s1 Hst Hlk) Hlt Hd0 Hdl) as (ns & Hf & Hp2 & Hreg).
  eexists. split; [exact Hf|]. split; [done|].
  assert ((region_of <$> ns) !! c = Some (region_of (mm_set_range (mm_begin nc) (u32 (mm_npages nc + mm_npages nd)) nc))) as Hrc.
  { rewrite Hreg. simpl. by rewrite list_lookup_fmap, list_lookup_alter_eq, Hc. }
  rewrite list_lookup_fmap in Hrc. destruct (ns !! c) as [nc'|] eqn:Hnc; [|done].
  exists nc'. split; [done|]. unfold region_of in Hrc. simpl in Hrc. injection Hrc as H1 H2 H3.
  by rewrite H2, H3.
Qed.

Lemma heap_grow_run (s : kstate) (root : Z) (pg : ptmap) (kl ul : list Z)
    (heap_top len : Z) (n : nat) :
  vm_ok s root pg kl ul → 0 ≤ heap_top → 0 ≤ len → heap_top + len < TRAPFRAME →
  PG_ROUND_UP (heap_top + len) = PG_ROUND_UP heap_top + Z.of_nat n * PGSIZE →
  Z.of_nat n * PGSIZE < 2^32 → (n ≤ length ul)%nat → (2 * n ≤ length kl)%nat →
  ∃ s1 pg1 kl1, uvm_heap_grow root heap_top len s = Ok (heap_top + len, s1) ∧
    grown s root pg kl ul (PG_ROUND_UP heap_top) n s1 pg1 kl1.
Proof.
  intros Hok Ht Hl Hlim Hn H32 Hul Hkl. pose proof (eq_refl : TRAPFRAME = 2^38 - 8192) as HT.
  pose proof (eq_refl : VA_MAX = 2^38).
  destruct (PG_ROUND_UP_spec heap_top) as [Hal Hrng]; [unfold PGSIZE; lia|].
  destruct (PG_ROUND_UP_spec (heap_top + len)) as [_ Hrng2]; [unfold PGSIZE; lia|].
  unfold uvm_heap_grow. cbv zeta. rewrite u64_small by lia. mrun.
  rewrite (proj2 (Z.ltb_lt _ _) Hlim), Hn.
  destruct (grow_loop_run n s root pg kl ul (PG_ROUND_UP heap_top) 0 s pg kl Hok (grown_0 _ _ _ _ _ _ Hok))
    as (s1 & pg1 & kl1 & Hr & Hg); try done; try lia.
  { simpl. unfold PGSIZE in *. lia. }
  exists s1, pg1, kl1. split; [|done]. destruct (decide (n = O)) as [->|Hn0].
  - simpl in *. rewrite Z.add_0_r, Z.ltb_irrefl. mrun. injection Hr as <-. done.
  - rewrite (proj2 (Z.ltb_lt _ _)) by (unfold PGSIZE; lia).
    rewrite Z.add_simpl_l, Z.div_mul, u32_small, Nat2Z.id by (unfold PGSIZE in *; lia).
    by run Hr.
Qed.

(** ** Claims *)

(** [uvm_copyin] of a mapped user range returns exactly the bytes that byte-by-byte
    access through the page table sees, and changes nothing. *)
Theorem uvm_copyin_correct (s : kstate) (root : Z) (pg : ptmap) (src len : Z) :
  pt_ok (k_mem s) root pg → 0 ≤ src → 0 ≤ len → src + len ≤ VA_MAX →
  (∀ va, src ≤ va < src + len → present (k_mem s) pg va) →
  uvm_copyin root src len s = Ok (user_load (phys (k_mem s) pg) (k_mem s) src (Z.to_nat len), s).
Proof.
  intros Hpt Hs Hl Hmax Hpr. apply copyin_loop_run; try done. right. by apply copy_fuel_enough.
Qed.

(** [uvm_copyout] to a mapped user range, none of whose pages is a page of the table
    itself, stores the bytes one by one through the page table; the table is intact
    afterwards and translates every address as before. *)
Theorem uvm_copyout_correct (s : kstate) (root : Z) (pg : ptmap) (dst : Z) (l : list Z) :
  pt_ok (k_mem s) root pg → 0 ≤ dst → dst + Z.of_nat (length l) ≤ VA_MAX →
  (∀ va, dst ≤ va < dst + Z.of_nat (length l) → present (k_mem s) pg va) →
  off_table (k_mem s) pg dst (Z.of_nat (length l)) →
  let m' := user_store (phys (k_mem s) pg) (k_mem s) dst l in
  uvm_copyout root dst l s = Ok (tt, set_mem m' s) ∧
    pt_ok m' root pg ∧ ∀ va, lookup_pte m' pg va = lookup_pte (k_mem s) pg va.
Proof.
  intros Hpt Hs Hmax Hpr Hot. apply copyout_loop_run; try done. right. apply copy_fuel_enough. lia.
Qed.

(** C37: what [uvm_copyout] wrote, [uvm_copyin] reads back, provided distinct addresses of
    the range are backed by distinct physical bytes. *)
Theorem uvm_copy_roundtrip (s : kstate) (root : Z) (pg : ptmap) (dst : Z) (l : list Z) :
  pt_ok (k_mem s) root pg → 0 ≤ dst → dst + Z.of_nat (length l) ≤ VA_MAX →
  (∀ va, dst ≤ va < dst + Z.of_nat (length l) → present (k_mem s) pg va) →
  off_table (k_mem s) pg dst (Z.of_nat (length l)) →
  (∀ i j, 0 ≤ i < Z.of_nat (length l) → 0 ≤ j < Z.of_nat (length l) →
    phys (k_mem s) pg (dst + i) = phys (k_mem s) pg (dst + j) → i = j) →
  ∃ s', uvm_copyout root dst l s = Ok (tt, s') ∧
    uvm_copyin root dst (Z.of_nat (length l)) s' = Ok (l, s').
Proof.
  intros Hpt Hs Hmax Hpr Hot Hinj.
  destruct (copyout_loop_run (copy_fuel (Z.of_nat (length l))) s (k_mem s) root pg dst l)
    as (Hr & Hpt' & Hlk); try done; [right; apply copy_fuel_enough; lia|].
  eexists. split; [exact Hr|]. set (m' := user_store _ _ _ _) in *.
  unfold uvm_copyin. rewrite (copyin_loop_run _ (set_mem m' s) root pg); try done; try lia.
  - cbn [k_mem set_mem]. rewrite Nat2Z.id.
    rewrite (user_load_ext _ (phys (k_mem s) pg)) by (intros x; unfold phys, mapped_pa; by rewrite Hlk).
    unfold m'. by rewrite user_load_store.
  - intros va Hva. unfold present. cbn [k_mem set_mem]. rewrite Hlk. by apply Hpr.
  - right. apply copy_fuel_enough. lia.
Qed.

(** [uvm_copyin_str] of a mapped range returns the string through its terminating NUL;
    when there is none among the [maxlen] bytes the code writes before the start of the
    kernel buffer. *)
Theorem uvm_copyin_str_correct (s : kstate) (root : Z) (pg : ptmap) (src maxlen : Z) :
  pt_ok (k_mem s) root pg → 0 ≤ src → 0 ≤ maxlen → src + maxlen ≤ VA_MAX →
  (∀ va, src ≤ va < src + maxlen → present (k_mem s) pg va) →
  let bytes := user_load (phys (k_mem s) pg) (k_mem s) src (Z.to_nat maxlen) in
  uvm_copyin_str root src maxlen s =
    if snd (upto_nul bytes) then Ok (fst (upto_nul bytes), s)
    else Fault "uvm_copyin_str: write before the buffer".
Proof.
  intros Hpt Hs Hl Hmax Hpr bytes. unfold uvm_copyin_str.
  rewrite (bind_ok _ _ _ _ _ (copyin_str_loop_run _ s root pg src maxlen Hpt Hs Hl Hmax Hpr
    ltac:(right; by apply copy_fuel_enough))). fold bytes. by destruct (snd (upto_nul bytes)).
Qed.

(** with enough free pages, [uvm_heap_grow] returns the new top and maps every page
    between the old and the new top (rounded up) to a fresh, cleared user page with
    permissions R, W and U, in the order of the free list; every other address is
    translated as before. *)
Theorem uvm_heap_grow_correct (s : kstate) (root : Z) (pg : ptmap) (kl ul : list Z)
    (heap_top len : Z) (n : nat) :
  vm_ok s root pg kl ul → 0 ≤ heap_top → 0 ≤ len → heap_top + len < TRAPFRAME →
  PG_ROUND_UP (heap_top + len) = PG_ROUND_UP heap_top + Z.of_nat n * PGSIZE →
  Z.of_nat n * PGSIZE < 2^32 → (n ≤ length ul)%nat → (2 * n ≤ length kl)%nat →
  ∃ s1 pg1 kl1, uvm_heap_grow root heap_top len s = Ok (heap_top + len, s1) ∧
    grown s root pg kl ul (PG_ROUND_UP heap_top) n s1 pg1 kl1.
Proof. apply heap_grow_run. Qed.

(** [uvm_heap_ungrow] returns the new top and unmaps exactly the pages between the
    new and the old top (rounded up), each of which goes back to the user pool once. *)
Theorem uvm_heap_ungrow_correct (s : kstate) (root : Z) (pg : ptmap) (kl ul : list Z)
    (heap_top len : Z) (n : nat) :
  let a := PG_ROUND_UP (heap_top - len) in
  vm_ok s root pg kl ul → 0 ≤ len → PGSIZE ≤ heap_top - len → heap_top < TRAPFRAME →
  PG_ROUND_UP heap_top = a + Z.of_nat n * PGSIZE →
  u64 (ALLOC_BEGIN (k_syms s) + KERNEL_PAGES * PGSIZE) ≤ r_begin (k_user s) →
  (∀ j, (j < n)%nat → unmappable s pg (a + Z.of_nat j * PGSIZE) ∧
     releasable s pg ul (mapped_pa (k_mem s) pg (a + Z.of_nat j * PGSIZE))) →
  NoDup (mapped_down (k_mem s) pg a n) →
  ∃ s1, uvm_heap_ungrow root heap_top len s = Ok (heap_top - len, s1) ∧
    vm_unmapped s root pg kl ul a true n s1.
Proof.
  intros a Hok Hl Hlow Hlim Hn Hk Hun Hnd. pose proof (eq_refl : TRAPFRAME = 2^38 - 8192) as HT.
  pose proof (eq_refl : VA_MAX = 2^38).
  destruct (PG_ROUND_UP_spec heap_top) as [_ Hrng]; [unfold PGSIZE in *; lia|].
  destruct (PG_ROUND_UP_spec (heap_top - len)) as [Hal Hrng2]; [unfold PGSIZE in *; lia|]. fold a in Hal, Hrng2.
  unfold uvm_heap_ungrow. cbv zeta. rewrite u64_small by (unfold PGSIZE in *; lia). mrun. fold a.
  rewrite (proj2 (Z.leb_le _ _) Hlow), Hn.
  rewrite Z.add_simpl_l. destruct (decide (n = O)) as [->|Hn0].
  { simpl in *. rewrite Z.add_0_r, Z.ltb_irrefl. mrun. exists s. split; [done|].
    by apply vm_unmapped_0. }
  rewrite (proj2 (Z.ltb_lt _ _)) by (unfold PGSIZE; lia).
  destruct (vm_unmappages_run s root pg kl ul a true n) as (s1 & Hr & Hu); try done.
  - unfold PGSIZE in *. lia.
  - unfold PGSIZE in *. lia.
  - intros j Hj. by apply Hun.
  - intros _. split; [done|]. intros j Hj. by apply Hun.
  - exists s1. split; [|done]. by run Hr.
Qed.

(** merging two adjacent regions of a process returns the second one to the pool but
    leaves it linked in the process's list: the region is then both free and in use. *)
Theorem mmap_merge_leaves_freed_region (s : kstate) (l : list nat) (c d : nat) (nc nd : mmap_node) :
  pool_ok s l → mmap_sync s → mp_nodes (k_mmap s) !! c = Some nc → mp_nodes (k_mmap s) !! d = Some nd →
  c ≠ d → d ≠ O → d ∉ l → c ∉ O :: l → mm_next nc = Some d →
  u64 (mm_begin nc + u32 (mm_npages nc * PGSIZE)) = mm_begin nd →
  ∃ s', mmap_merge c d true s = Ok (tt, s') ∧ pool_ok s' (d :: l) ∧
    ∃ nc', mp_nodes (k_mmap s') !! c = Some nc' ∧ mm_next nc' = Some d.
Proof.
  intros. destruct (merge_run s l c d nc nd) as (s' & Hr & Hp & nc' & Hc & Hn & _); try done.
  exists s'. eauto.
Qed.

(** ** Witnesses *)

(** A table with the user page at 0x1000 mapped. *)
Lemma user_page_sample :
  ∃ s root pg, pt_ok (k_mem s) root pg ∧
    (∀ va, 0x1000 ≤ va < 0x2000 → present (k_mem s) pg va) ∧
    (∀ x π p, 0x1000 ≤ x < 0x2000 → pg !! π = Some p → mapped_pa (k_mem s) pg x ≠ p) ∧
    (∀ x, 0x1000 ≤ x < 0x2000 → mapped_pa (k_mem s) pg x = mapped_pa (k_mem s) pg 0x1000).
Proof.
  destruct vm_ok_sample as (s & root & pg & kl & ul & Hok & _ & [Hun _] & (_ & _ & Hre) & _).
  assert (∀ x, 0x1000 ≤ x < 0x2000 → lookup_pte (k_mem s) pg x = lookup_pte (k_mem s) pg 0x1000) as E.
  { intros x Hx. apply lookup_pte_page; [lia..|]. unfold PGSIZE. zdiv. }
  exists s, root, pg. split; [apply Hok|].
  split; [|split]; intros x; [intros Hx|intros π p Hx Hp|intros Hx]; unfold present, mapped_pa; rewrite (E x Hx);
    [done| |done].
  intros Hq. by destruct (Hre π p Hp).
Qed.

Lemma uvm_copyin_correct_witness :
  ∃ s root pg, pt_ok (k_mem s) root pg ∧
    uvm_copyin root 0x1100 8 s = Ok (user_load (phys (k_mem s) pg) (k_mem s) 0x1100 8, s).
Proof.
  destruct user_page_sample as (s & root & pg & Hpt & Hpr & _). exists s, root, pg. split; [done|].
  apply (uvm_copyin_correct s root pg 0x1100 8 Hpt); [lia|lia|by vm_compute|].
  intros va Hva. apply Hpr. lia.
Defined.

Lemma uvm_copyout_correct_witness :
  ∃ s root pg, pt_ok (k_mem s) root pg ∧
    uvm_copyout root 0x1100 [1;2;3] s =
      Ok (tt, set_mem (user_store (phys (k_mem s) pg) (k_mem s) 0x1100 [1;2;3]) s).
Proof.
  destruct user_page_sample as (s & root & pg & Hpt & Hpr & Hot & _). exists s, root, pg. split; [done|].
  apply (uvm_copyout_correct s root pg 0x1100 [1;2;3] Hpt); [lia|by vm_compute| |]; cbn [length].
  - intros va Hva. apply Hpr. lia.
  - intros x π p Hx. apply Hot. lia.
Defined.

Lemma uvm_copy_roundtrip_witness :
  ∃ s root s', uvm_copyout root 0x1100 [1;2;3] s = Ok (tt, s') ∧ uvm_copyin root 0x1100 3 s' = Ok ([1;2;3], s').
Proof.
  destruct user_page_sample as (s & root & pg & Hpt & Hpr & Hot & Heq).
  destruct (uvm_copy_roundtrip s root pg 0x1100 [1;2;3] Hpt) as (s' & H1 & H2); cbn [length] in *.
  - lia.
  - by vm_compute.
  - intros va Hva. apply Hpr. lia.
  - intros x π p Hx. apply Hot. cbn [length] in Hx. lia.
  - intros i j Hi Hj. unfold phys, PGSIZE. rewrite (Heq (0x1100 + i)), (Heq (0x1100 + j)) by lia. intros He.
    assert (∀ k, 0 ≤ k < 3 → (0x1100 + k) mod 4096 = 0x100 + k) as Em by (intros k Hk; zdiv).
    rewrite !Em in He by lia. lia.
  - exists s, root, s'. split; [exact H1|exact H2].
Defined.

Lemma uvm_copyin_str_correct_witness :
  ∃ s root pg, pt_ok (k_mem s) root pg ∧
    let bytes := user_load (phys (k_mem s) pg) (k_mem s) 0x1100 16 in
    uvm_copyin_str root 0x1100 16 s =
      if snd (upto_nul bytes) then Ok (fst (upto_nul bytes), s)
      else Fault "uvm_copyin_str: write before the buffer".
Proof.
  destruct user_page_sample as (s & root & pg & Hpt & Hpr & _). exists s, root, pg. split; [done|].
  apply (uvm_copyin_str_correct s root pg 0x1100 16 Hpt); [lia|lia|by vm_compute|].
  intros va Hva. apply Hpr. lia.
Defined.

Lemma uvm_heap_grow_correct_witness :
  ∃ s root kl ul s1 pg1 kl1, vm_ok s root {[ [] := root ]} kl ul ∧
    uvm_heap_grow root 0x1800 0x1000 s = Ok (0x2800, s1) ∧
    grown s root {[ [] := root ]} kl ul 0x2000 1 s1 pg1 kl1.
Proof.
  destruct vm_ok_boot as (s & root & kl & ul & Hok & Hkl & Hul & _).
  destruct (uvm_heap_grow_correct s root {[ [] := root ]} kl ul 0x1800 0x1000 1 Hok) as (s1 & pg1 & kl1 & H);
    [lia|lia|by vm_compute|reflexivity|by vm_compute|lia|lia|].
  exists s, root, kl, ul, s1, pg1, kl1. split; [exact Hok|exact H].
Defined.

Lemma uvm_heap_ungrow_correct_witness :
  ∃ s root pg kl ul s1, vm_ok s root pg kl ul ∧
    uvm_heap_ungrow root 0x2000 0x1000 s = Ok (0x1000, s1) ∧
    vm_unmapped s root pg kl ul 0x1000 true 1 s1.
Proof.
  destruct vm_ok_sample as (s & root & pg & kl & ul & Hok & _ & Hun & Hre & Hy & Hb).
  destruct (uvm_heap_ungrow_correct s root pg kl ul 0x2000 0x1000 1 Hok) as (s1 & H);
    [lia|by vm_compute|by vm_compute|reflexivity|rewrite Hy, Hb; by vm_compute| | |].
  - intros [|j] Hj; [split; [exact Hun|exact Hre]|lia].
  - apply NoDup_singleton.
  - exists s, root, pg, kl, ul, s1. split; [exact Hok|exact H].
Defined.

(** Two adjacent one-page regions of one process, the pool empty. *)
Definition merge_nodes : list mmap_node :=
  mk_mmap_node 0 0 None None :: mk_mmap_node 0x1000 1 (Some 2%nat) None ::
  mk_mmap_node 0x2000 1 None None :: replicate 253 (mk_mmap_node 0 0 None None).

Lemma mmap_merge_leaves_freed_region_witness :
  ∃ s s', mmap_merge 1 2 true s = Ok (tt, s') ∧ pool_ok s' [2%nat] ∧
    ∃ nc', mp_nodes (k_mmap s') !! 1%nat = Some nc' ∧ mm_next nc' = Some 2%nat.
Proof.
  set (s0 := set_locks (<[LkMmapList := mk_spinlock 0 "mmap_list" (-1)]> (k_locks (zero_state (image_syms 3))))
     (zero_state (image_syms 3))).
  exists (with_nodes merge_nodes s0).
  apply (mmap_merge_leaves_freed_region (with_nodes merge_nodes s0) [] 1 2
    (mk_mmap_node 0x1000 1 (Some 2%nat) None) (mk_mmap_node 0x2000 1 None None)); try done; try (by apply not_elem_of_nil).
  3: set_solver.
  - split; [done|done|done|]. apply NoDup_singleton.
  - split; [by right|]. exists "mmap_list"%string. apply (lookup_insert_eq (M := gmap lockid)).
Defined.
