(* ===== verification/Clone.v ===== *)
(** * Copying an address space (uvm_copy_pgtbl of kernel/mem/uvm.c)

    What fork does to memory.  The theorem: [uvm_copy_pgtbl] gives the new page table a
    fresh page for every page of the code, the mapped part of the heap, the stack and the
    mmap regions of the old one, with the same bytes and permissions, and changes nothing
    of the old address space. *)

From S2P Require Import Prelude Bytes Kernel Lock Str Pmem Vm MmapPool Uvm.

(** The pages [vs] of the table [pgo] were copied, in this order, to the pages [ul] and
    mapped in the new table. *)
Record cloned (s : kstate) (pgo : ptmap) (new : Z) (pg : ptmap) (kl ul vs : list Z)
    (s1 : kstate) (pg1 : ptmap) (kl1 : list Z) : Prop := {
  cl_ok : vm_ok s1 new pg1 kl1 (drop (length vs) ul);
  cl_kl : (length kl ≤ length kl1 + 2 * length vs)%nat;
  cl_suffix : kl1 `suffix_of` kl;
  cl_from π p : pg1 !! π = Some p → pg !! π = Some p ∨ p ∈ kl;
  cl_else x : 0 ≤ x < VA_MAX → (∀ v, v ∈ vs → ¬ (v ≤ x < v + PGSIZE)) →
    lookup_pte (k_mem s1) pg1 x = lookup_pte (k_mem s) pg x;
  cl_copy i v u : vs !! i = Some v → ul !! i = Some u →
    (∀ x, v ≤ x < v + PGSIZE → lookup_pte (k_mem s1) pg1 x = leaf_pte u (PTE_FLAGS (lookup_pte (k_mem s) pgo v))) ∧
    ∀ k, 0 ≤ k < PGSIZE → load8 (k_mem s1) (u + k) = load8 (k_mem s) (mapped_pa (k_mem s) pgo v + k);
  cl_mem b : (∀ p, (∃ π, pg !! π = Some p) ∨ p ∈ kl ∨ p ∈ ul → ¬ (p ≤ b < p + PGSIZE)) →
    load8 (k_mem s1) b = load8 (k_mem s) b;
  cl_frame : s1 = set_mem (k_mem s1) (set_kern (k_kern s1) (set_user (k_user s1) s)) }.

Lemma cloned_nil s pgo new pg kl ul : vm_ok s new pg kl ul → cloned s pgo new pg kl ul [] s pg kl.
Proof. intros Hok. split; [done|lia|done|by left|done|done|done|by destruct s]. Qed.

(** A page that can be copied: aligned, in range, mapped in the old table to a page that
    neither is free nor belongs to the new table. *)
Record source (s : kstate) (pgo pg : ptmap) (kl ul : list Z) (v : Z) : Prop := {
  so_align : v mod PGSIZE = 0;
  so_range : 0 ≤ v ∧ v + PGSIZE ≤ VA_MAX;
  so_present : present (k_mem s) pgo v;
  so_apart : page_apart pg kl ul (mapped_pa (k_mem s) pgo v) }.

Section clone.
  Context (s : kstate) (old : Z) (pgo : ptmap) (new : Z) (pg : ptmap) (kl ul : list Z).
  Context (Hold : pt_ok (k_mem s) old pgo) (Hok : vm_ok s new pg kl ul).
  Context (Happ : ∀ π p, pgo !! π = Some p → page_apart pg kl ul p).

(** Pages of the two tables and the pools are whole pages. *)
Lemma own_aligned p : (∃ π, pg !! π = Some p) ∨ p ∈ kl ∨ p ∈ ul → p mod PGSIZE = 0.
Proof.
  intros [[π Hp]|Hp].
  - by destruct (pt_page _ _ _ (vo_pt _ _ _ _ _ Hok) _ _ Hp) as ([? _] & _).
  - eapply pmem_page_aligned; [apply Hok|]. by apply elem_of_app.
Qed.

(** A page apart from them keeps its bytes. *)
Lemma cloned_apart vs s1 pg1 kl1 t b :
  cloned s pgo new pg kl ul vs s1 pg1 kl1 → page_apart pg kl ul t → t ≤ b < t + PGSIZE →
  load8 (k_mem s1) b = load8 (k_mem s) b.
Proof.
  intros Hc (Hal & Hk & Hu & Hp) Hb. apply (cl_mem _ _ _ _ _ _ _ _ _ _ Hc). intros p Hp' Hpb.
  assert (p ≠ t) as Hne by (intros ->; destruct Hp' as [[π ?]|[?|?]]; [by apply (Hp π)|done|done]).
  destruct (page_aligned_apart p t (own_aligned p Hp') Hal Hne); lia.
Qed.

Lemma cloned_old vs s1 pg1 kl1 :
  cloned s pgo new pg kl ul vs s1 pg1 kl1 →
  pt_ok (k_mem s1) old pgo ∧ ∀ va, lookup_pte (k_mem s1) pgo va = lookup_pte (k_mem s) pgo va.
Proof.
  intros Hc. apply (pt_ok_ext (k_mem s)); [|done]. intros π p b Hp Hb. by apply (cloned_apart _ _ _ _ p b Hc (Happ π p Hp)).
Qed.

(** The pages in use of the new address space are not those of the old one, and no page
    is used twice. *)
Lemma used_page i u j w : ul !! i = Some u → ul !! j = Some w → i ≠ j → u + PGSIZE ≤ w ∨ w + PGSIZE ≤ u.
Proof.
  intros Hi Hj Hne. apply page_aligned_apart.
  - apply own_aligned. right. right. by eapply list_elem_of_lookup_2.
  - apply own_aligned. right. right. by eapply list_elem_of_lookup_2.
  - intros ->. apply Hne. pose proof (ro_nodup _ _ _ (po_user _ _ _ (vo_pmem _ _ _ _ _ Hok))) as Hn.
    by eapply NoDup_lookup.
Qed.

Lemma PTE_FLAGS_range e : 0 ≤ PTE_FLAGS e < 1024.
Proof. unfold PTE_FLAGS. change 0x3FF with (Z.ones 10). rewrite Z.land_ones by lia. by apply Z.mod_pos_bound. Qed.

Lemma memmove_page_out m u pa b : ¬ (u ≤ b < u + PGSIZE) → load8 (memmove m u pa PGSIZE) b = load8 m b.
Proof. intros Hb. rewrite load8_memmove by (unfold PGSIZE; lia). by rewrite decide_False. Qed.

(** A page that is given out stays clear of the tables and of the pages given out later. *)
Lemma given_apart vs s1 pg1 kl1 i u w p :
  cloned s pgo new pg kl ul vs s1 pg1 kl1 → ul !! i = Some u → ul !! length vs = Some w → (i < length vs)%nat →
  (∃ π, pg1 !! π = Some p) ∨ p ∈ kl1 ∨ p = w → p + PGSIZE ≤ u ∨ u + PGSIZE ≤ p.
Proof.
  intros Hc Hi Hw Hlt Hp. assert (u ∈ ul) as Hu by (by eapply list_elem_of_lookup_2).
  assert (p = w ∨ (∃ π, pg !! π = Some p) ∨ p ∈ kl) as [-> |Hp'].
  { destruct Hp as [[π Hp]|[Hp|Hp]]; [|right; right; eapply elem_of_suffix; [done|apply Hc]|by left].
    right. destruct (cl_from _ _ _ _ _ _ _ _ _ _ Hc π p Hp); [left; by exists π|by right]. }
  - destruct (used_page i u (length vs) w Hi Hw ltac:(lia)); lia.
  - apply page_aligned_apart; [apply own_aligned; tauto|apply own_aligned; tauto|]. intros ->. destruct Hp' as [[π Hp']|Hp'].
    + by destruct (vo_disj _ _ _ _ _ Hok π u Hp').
    + eapply pools_disjoint; [apply Hok|exact Hp'|done].
Qed.

Lemma copy_page_step vs s1 pg1 kl1 v u :
  cloned s pgo new pg kl ul vs s1 pg1 kl1 → source s pgo pg kl ul v → (v ∉ vs) → Forall (source s pgo pg kl ul) vs →
  ul !! length vs = Some u → (2 ≤ length kl1)%nat →
  ∃ s2 pg2 kl2, copy_page new v (lookup_pte (k_mem s) pgo v) s1 = Ok (tt, s2) ∧
    cloned s pgo new pg kl ul (vs ++ [v]) s2 pg2 kl2.
Proof.
  intros Hc [Hal [H0 Hmax] Hpr Hap] Hni Hvs Hu Hkl. pose proof (cl_ok _ _ _ _ _ _ _ _ _ _ Hc) as Hok1. rewrite (drop_S _ _ _ Hu) in Hok1.
  set (e := lookup_pte (k_mem s) pgo v) in *. set (pa := mapped_pa (k_mem s) pgo v) in *.
  destruct (place_run s1 new pg1 kl1 u (drop (S (length vs)) ul) v (PTE_FLAGS e) (λ m, memmove m u pa PGSIZE) Hok1)
    as (r & s2 & pg2 & kl2 & Hr & Htp & Hm & [Pok Pkl Psuf Pfrom Plook Ppage Pmem Pfr]);
    [done|lia|lia|apply PTE_FLAGS_range|done|intros m b; apply memmove_page_out|].
  exists s2, pg2, kl2. split; [unfold copy_page; run Hr; mrun; exact Hm|].
  pose proof Hc as [_ Ckl Csuf Cfrom Celse Ccopy Cmem Cfr]. rewrite Forall_forall in Hvs.
  assert (∀ i w, vs !! i = Some w → w + PGSIZE ≤ v ∨ v + PGSIZE ≤ w) as Hw.
  { intros i w Hi. apply list_elem_of_lookup_2 in Hi. apply page_aligned_apart; [by apply Hvs|done|by intros ->]. }
  assert (length (vs ++ [v]) = S (length vs)) as El by (rewrite length_app; simpl; lia).
  split; rewrite ?El; [done|lia|by etrans| | | | |].
  - intros π p Hp. destruct (Pfrom π p Hp) as [Hp'|Hp']; [by apply Cfrom|right; by eapply elem_of_suffix].
  - intros x Hx Hno. rewrite Plook by done. rewrite decide_False by (apply Hno; apply elem_of_app; right; by left).
    apply Celse; [done|]. intros w Hw'. apply Hno. apply elem_of_app. by left.
  - intros i w z Hi Hz. apply lookup_app_Some in Hi as [Hi|[Hge Hi]].
    + destruct (Ccopy i w z Hi Hz) as [Hl Hb]. split.
      * intros x Hx. destruct (so_range _ _ _ _ _ _ (Hvs w (list_elem_of_lookup_2 _ _ _ Hi))) as [Hw0 HwM].
        rewrite Plook, decide_False by (destruct (Hw i w Hi); unfold PGSIZE in *; lia). by apply Hl.
      * intros k Hk. rewrite <- Hb by done. apply Pmem. intros p Hp.
        pose proof (given_apart vs s1 pg1 kl1 i z u p Hc Hz Hu (lookup_lt_Some _ _ _ Hi) Hp). lia.
    + assert (i = length vs ∧ w = v) as [-> ->].
      { apply list_lookup_singleton_Some in Hi as [Hi ->]. split; [lia|done]. }
      assert (z = u) as -> by congruence. split.
      * intros x Hx. rewrite Plook by lia. by rewrite decide_True.
      * intros k Hk. rewrite Ppage by lia. rewrite load8_memmove, decide_True by (unfold PGSIZE in *; lia).
        replace (pa + (u + k - u)) with (pa + k) by lia. apply (cloned_apart vs s1 pg1 kl1 pa _ Hc Hap). lia.
  - intros b Hb. rewrite Pmem; [by apply Cmem|]. intros p Hp. apply Hb. destruct Hp as [[π Hp]|[Hp| ->]].
    + destruct (Cfrom π p Hp) as [?|?]; [left; by exists π|by right; left].
    + right. left. by eapply elem_of_suffix.
    + right. right. by eapply list_elem_of_lookup_2.
  - rewrite Pfr. by rewrite Cfr.
Qed.

(** ** Ranges of pages *)

Fixpoint page_seq (va : Z) (n : nat) : list Z :=
  match n with
  | O => []
  | S n => va :: page_seq (va + PGSIZE) n
  end.

(** The pages [ws] can be copied after [vs]. *)
Record copyable (vs ws : list Z) : Prop := {
  cp_source : Forall (source s pgo pg kl ul) (vs ++ ws);
  cp_nodup : NoDup (vs ++ ws);
  cp_user : (length (vs ++ ws) ≤ length ul)%nat;
  cp_kern : (2 * length (vs ++ ws) ≤ length kl)%nat }.

Lemma copyable_cons vs v ws :
  copyable vs (v :: ws) → copyable (vs ++ [v]) ws ∧ source s pgo pg kl ul v ∧ (v ∉ vs) ∧
    Forall (source s pgo pg kl ul) vs ∧ (∃ u, ul !! length vs = Some u) ∧ (2 * length vs + 2 ≤ length kl)%nat.
Proof.
  intros [Hs Hn Hu Hk]. split; [split; by rewrite <- app_assoc|]. apply Forall_app in Hs as [Hs1 Hs2].
  rewrite length_app in Hu, Hk. simpl in Hu, Hk.
  split; [by apply Forall_inv in Hs2|]. split; [|split; [done|split; [apply lookup_lt_is_Some_2; lia|lia]]].
  apply NoDup_app in Hn as (_ & Hd & _). intros Hv. apply (Hd v Hv). by left.
Qed.

Lemma copyable_app vs ws xs : copyable vs (ws ++ xs) → copyable vs ws ∧ copyable (vs ++ ws) xs.
Proof.
  intros [Hs Hn Hu Hk]. split; [|split; by rewrite <- app_assoc].
  rewrite app_assoc in *. rewrite (length_app _ xs) in Hu, Hk.
  split; [by apply Forall_app in Hs as [? _]|by apply NoDup_app in Hn as [? _]|lia|lia].
Qed.

(** Finding the entry of a page in the old table while the new one is being filled. *)
Lemma old_entry vs s1 pg1 kl1 v :
  cloned s pgo new pg kl ul vs s1 pg1 kl1 → v < VA_MAX →
  ∃ pte, vm_getpte old v false s1 = Ok (pte, s1) ∧
    if decide (present (k_mem s) pgo v) then pte ≠ 0 ∧ read64 pte s1 = Ok (lookup_pte (k_mem s) pgo v, s1)
    else pte = 0 ∨ ∃ e, read64 pte s1 = Ok (e, s1) ∧ pte_valid e = false.
Proof.
  intros Hc Hv. destruct (cloned_old _ _ _ _ Hc) as [Hpt Hlk]. eexists. split; [by apply vm_getpte_lookup|].
  specialize (Hlk v). destruct (decide (present (k_mem s) pgo v)) as [Hd|Hd]; unfold present in Hd;
    unfold lookup_pte in *; destruct (pgo !! va_path v) as [p|] eqn:Hp; try done; [| |by left].
  - unfold read64. mrun. destruct (pt_page _ _ _ Hpt _ _ Hp) as ([_ Hp0] & _). pose proof (VA_TO_VPN_range v 0) as Hr. unfold vpn_ok in Hr.
    split; [lia|by rewrite Hlk].
  - right. unfold read64. mrun. eexists. split; [done|]. rewrite Hlk. by apply not_true_is_false.
Qed.

Lemma copy_range_loop_run n : ∀ vs s1 pg1 kl1 va fuel,
  cloned s pgo new pg kl ul vs s1 pg1 kl1 → copyable vs (page_seq va n) → (n ≤ fuel)%nat →
  ∃ s2 pg2 kl2, copy_range_loop fuel old new va (va + Z.of_nat n * PGSIZE) s1 = Ok (tt, s2) ∧
    cloned s pgo new pg kl ul (vs ++ page_seq va n) s2 pg2 kl2.
Proof.
  induction n as [|n IH]; intros vs s1 pg1 kl1 va fuel Hc Hcp Hf.
  { exists s1, pg1, kl1. rewrite app_nil_r. split; [|done]. destruct fuel; simpl; by rewrite Z.add_0_r, Z.ltb_irrefl. }
  destruct fuel as [|fuel]; [lia|]. cbn [copy_range_loop page_seq] in *.
  destruct (copyable_cons _ _ _ Hcp) as (Hcp' & Hso & Hni & Hvs & [u Hu] & Hk). pose proof Hso as [Hal [H0 Hmax] Hpr Hap].
  rewrite (proj2 (Z.ltb_lt _ _)) by (unfold PGSIZE; lia). cbn [negb].
  destruct (old_entry vs s1 pg1 kl1 va Hc) as (pte & Hg & Hrd); [unfold PGSIZE in *; lia|]. rewrite decide_True in Hrd by done.
  destruct Hrd as [Hnz Hrd]. run Hg. rewrite (proj2 (Z.eqb_neq _ _) Hnz). mrun. run Hrd. unfold present in Hpr. rewrite Hpr. mrun.
  pose proof (cl_kl _ _ _ _ _ _ _ _ _ _ Hc).
  destruct (copy_page_step vs s1 pg1 kl1 va u Hc Hso Hni Hvs Hu ltac:(lia)) as (s2 & pg2 & kl2 & Hr & Hc2). run Hr.
  pose proof (eq_refl : VA_MAX = 2^38). rewrite u64_small by (unfold PGSIZE in *; lia).
  destruct (IH (vs ++ [va]) s2 pg2 kl2 (va + PGSIZE) fuel Hc2 Hcp' ltac:(lia)) as (s3 & pg3 & kl3 & Hr3 & Hc3).
  exists s3, pg3, kl3. rewrite <- app_assoc in Hc3. split; [|done]. rewrite <- Hr3. f_equal. lia.
Qed.

Lemma copy_range_run vs s1 pg1 kl1 va n :
  cloned s pgo new pg kl ul vs s1 pg1 kl1 → copyable vs (page_seq va n) →
  ∃ s2 pg2 kl2, copy_range old new va (va + Z.of_nat n * PGSIZE) s1 = Ok (tt, s2) ∧
    cloned s pgo new pg kl ul (vs ++ page_seq va n) s2 pg2 kl2.
Proof.
  intros Hc Hcp. apply copy_range_loop_run with (pg1 := pg1) (kl1 := kl1); [done|done|]. unfold PGSIZE. zdiv.
Qed.

(** The pages of a range that are mapped in the old table. *)
Definition mapped_pages (va : Z) (n : nat) : list Z := filter (present (k_mem s) pgo) (page_seq va n).

Lemma copy_heap_loop_run n : ∀ vs s1 pg1 kl1 va fuel,
  cloned s pgo new pg kl ul vs s1 pg1 kl1 → copyable vs (mapped_pages va n) → 0 ≤ va →
  va + Z.of_nat n * PGSIZE ≤ VA_MAX → (n ≤ fuel)%nat →
  ∃ s2 pg2 kl2, copy_heap_loop fuel old new va (va + Z.of_nat n * PGSIZE) s1 = Ok (tt, s2) ∧
    cloned s pgo new pg kl ul (vs ++ mapped_pages va n) s2 pg2 kl2.
Proof.
  induction n as [|n IH]; intros vs s1 pg1 kl1 va fuel Hc Hcp H0 Hmax Hf.
  { exists s1, pg1, kl1. rewrite app_nil_r. split; [|done]. destruct fuel; simpl; by rewrite Z.add_0_r, Z.ltb_irrefl. }
  destruct fuel as [|fuel]; [lia|]. cbn [copy_heap_loop]. rewrite (proj2 (Z.ltb_lt _ _)) by (unfold PGSIZE; lia). cbn [negb].
  pose proof (eq_refl : VA_MAX = 2^38). rewrite u64_small by (unfold PGSIZE in *; lia).
  replace (va + Z.of_nat (S n) * PGSIZE) with (va + PGSIZE + Z.of_nat n * PGSIZE) by lia.
  destruct (old_entry vs s1 pg1 kl1 va Hc) as (pte & Hg & Hrd); [unfold PGSIZE in *; lia|]. run Hg.
  unfold mapped_pages in *. cbn [page_seq] in *. rewrite filter_cons in *.
  destruct (decide (present (k_mem s) pgo va)) as [Hpr|Hpr].
  - destruct Hrd as [Hnz Hrd]. rewrite (proj2 (Z.eqb_neq _ _) Hnz). cbn [negb]. rewrite bind_assoc. run Hrd.
    unfold present in Hpr. rewrite Hpr. destruct (copyable_cons _ _ _ Hcp) as (Hcp' & Hso & Hni & Hvs & [u Hu] & Hk).
    pose proof (cl_kl _ _ _ _ _ _ _ _ _ _ Hc).
    destruct (copy_page_step vs s1 pg1 kl1 va u Hc Hso Hni Hvs Hu ltac:(lia)) as (s2 & pg2 & kl2 & Hr & Hc2). run Hr.
    destruct (IH (vs ++ [va]) s2 pg2 kl2 (va + PGSIZE) fuel Hc2 Hcp') as (s3 & pg3 & kl3 & Hr3 & Hc3); try (unfold PGSIZE in *; lia).
    exists s3, pg3, kl3. rewrite <- app_assoc in Hc3. by split.
  - destruct (IH vs s1 pg1 kl1 (va + PGSIZE) fuel Hc Hcp) as (s3 & pg3 & kl3 & Hr3 & Hc3); try (unfold PGSIZE in *; lia).
    exists s3, pg3, kl3. split; [|done]. destruct Hrd as [-> |(e & Hrd & He)]; [exact Hr3|].
    destruct (pte =? 0); cbn [negb]; [exact Hr3|]. rewrite bind_assoc. run Hrd. by rewrite He.
Qed.

(** The mmap regions of a process: a list of the nodes of the pool. *)
Fixpoint region_list (ns : list mmap_node) (tmp : option nat) (rs : list (Z * nat)) : Prop :=
  match rs with
  | [] => tmp = None
  | (b, n) :: rs => ∃ i nd, tmp = Some i ∧ ns !! i = Some nd ∧ mm_begin nd = b ∧ mm_npages nd = Z.of_nat n ∧
      region_list ns (mm_next nd) rs
  end.

Definition region_pages (rs : list (Z * nat)) : list Z := rs ≫= λ r, page_seq (fst r) (snd r).

Lemma copy_mmap_loop_run rs : ∀ vs s1 pg1 kl1 tmp fuel,
  cloned s pgo new pg kl ul vs s1 pg1 kl1 → region_list (mp_nodes (k_mmap s)) tmp rs →
  Forall (λ r, 0 ≤ fst r ∧ fst r + Z.of_nat (snd r) * PGSIZE < 2^64 ∧ Z.of_nat (snd r) * PGSIZE < 2^32) rs →
  copyable vs (region_pages rs) → (length rs ≤ fuel)%nat →
  ∃ s2 pg2 kl2, copy_mmap_loop fuel old new tmp s1 = Ok (tt, s2) ∧
    cloned s pgo new pg kl ul (vs ++ region_pages rs) s2 pg2 kl2.
Proof.
  induction rs as [|[b n] rs IH]; intros vs s1 pg1 kl1 tmp fuel Hc Hl Hrs Hcp Hf; simpl in Hl.
  { subst tmp. exists s1, pg1, kl1. unfold region_pages. simpl. rewrite app_nil_r. split; [by destruct fuel|done]. }
  destruct Hl as (i & nd & -> & Hi & Hb & Hn & Hl). inversion_clear Hrs as [|? ? (H0 & H64 & H32) Hrs']. cbn [fst snd] in *.
  destruct fuel as [|fuel]; [simpl in Hf; lia|]. cbn [copy_mmap_loop].
  assert (∀ s' vs' pg' kl', cloned s pgo new pg kl ul vs' s' pg' kl' → get_mmap i s' = Ok (nd, s')) as Hget.
  { intros s' vs' pg' kl' Hc'. assert (k_mmap s' = k_mmap s) as E by (by rewrite (cl_frame _ _ _ _ _ _ _ _ _ _ Hc')).
    unfold get_mmap. mrun. by rewrite E, Hi. }
  run (Hget _ _ _ _ Hc). rewrite Hb, Hn, u32_small, u64_small by (unfold PGSIZE in *; lia).
  unfold region_pages in *. rewrite bind_cons in *. cbn [fst snd] in *. apply copyable_app in Hcp as [Hcp1 Hcp2].
  destruct (copy_range_run vs s1 pg1 kl1 b n Hc Hcp1) as (s2 & pg2 & kl2 & Hr & Hc2). run Hr. run (Hget _ _ _ _ Hc2).
  destruct (IH (vs ++ page_seq b n) s2 pg2 kl2 (mm_next nd) fuel) as (s3 & pg3 & kl3 & Hr3 & Hc3); try done; [simpl in Hf; lia|].
  exists s3, pg3, kl3. rewrite <- app_assoc in Hc3. by split.
Qed.

(** ** The whole address space *)

Definition heap_pages (heap_top : Z) : list Z := mapped_pages PGSIZE (Z.to_nat (PG_ROUND_UP heap_top / PGSIZE) - 1).

Definition copied_pages (heap_top ustack_base : Z) (ustack_pages : nat) (rs : list (Z * nat)) : list Z :=
  [0] ++ heap_pages heap_top ++ page_seq ustack_base ustack_pages ++ region_pages rs.

Lemma copy_pgtbl_run heap_top ustack_base (n : nat) mmap rs :
  let vs := copied_pages heap_top ustack_base n rs in
  region_list (mp_nodes (k_mmap s)) mmap rs → (length rs ≤ N_MMAP)%nat →
  Forall (λ r, 0 ≤ fst r ∧ fst r + Z.of_nat (snd r) * PGSIZE < 2^64 ∧ Z.of_nat (snd r) * PGSIZE < 2^32) rs →
  0 ≤ heap_top ≤ VA_MAX - PGSIZE → 0 ≤ ustack_base → ustack_base + Z.of_nat n * PGSIZE < 2^64 → Z.of_nat n * PGSIZE < 2^32 →
  copyable [] vs →
  ∃ s1 pg1 kl1, uvm_copy_pgtbl old new heap_top ustack_base (Z.of_nat n) mmap s = Ok (tt, s1) ∧
    cloned s pgo new pg kl ul vs s1 pg1 kl1.
Proof.
  intros vs Hl Hlen Hrs Hht Hu0 Hu64 Hu32 Hcp. unfold vs, copied_pages in *. unfold uvm_copy_pgtbl.
  pose proof (eq_refl : VA_MAX = 2^38). destruct (PG_ROUND_UP_spec heap_top) as [Hra Hrr]; [unfold PGSIZE in *; lia|].
  apply copyable_app in Hcp as [Hcp1 Hcp]. apply copyable_app in Hcp as [Hcp2 Hcp]. apply copyable_app in Hcp as [Hcp3 Hcp4].
  destruct (copy_range_run [] s pg kl 0 1 (cloned_nil _ _ _ _ _ _ Hok) Hcp1) as (s1 & pg1 & kl1 & Hr1 & Hc1). run Hr1.
  change ([] ++ page_seq 0 1) with ([] ++ [0]) in Hc1. cbv zeta.
  assert (∃ s2 pg2 kl2,
    (if PGSIZE <? heap_top then
       copy_heap_loop (Z.to_nat (PG_ROUND_UP heap_top / PGSIZE)) old new PGSIZE (PG_ROUND_UP heap_top)
     else mret tt) s1 = Ok (tt, s2) ∧ cloned s pgo new pg kl ul (([] ++ [0]) ++ heap_pages heap_top) s2 pg2 kl2)
    as (s2 & pg2 & kl2 & Hr2 & Hc2).
  { destruct (PGSIZE <? heap_top) eqn:E; zbool.
    - set (k := (Z.to_nat (PG_ROUND_UP heap_top / PGSIZE) - 1)%nat) in *.
      destruct (copy_heap_loop_run k ([] ++ [0]) s1 pg1 kl1 PGSIZE (Z.to_nat (PG_ROUND_UP heap_top / PGSIZE)) Hc1 Hcp2) as (s2 & pg2 & kl2 & Hr2 & Hc2);
        try (unfold k, PGSIZE in *; zdiv).
      exists s2, pg2, kl2. split; [|done]. rewrite <- Hr2. f_equal. unfold k, PGSIZE in *. zdiv.
    - exists s1, pg1, kl1. split; [done|]. unfold heap_pages.
      replace (Z.to_nat (PG_ROUND_UP heap_top / PGSIZE) - 1)%nat with O; [by rewrite app_nil_r|]. unfold PGSIZE in *. zdiv. }
  run Hr2.
  assert (∃ s3 pg3 kl3,
    (if 0 <? Z.of_nat n then
       copy_range old new ustack_base (u64 (ustack_base + u32 (Z.of_nat n * PGSIZE)))
     else mret tt) s2 = Ok (tt, s3) ∧
    cloned s pgo new pg kl ul ((([] ++ [0]) ++ heap_pages heap_top) ++ page_seq ustack_base n) s3 pg3 kl3) as (s3 & pg3 & kl3 & Hr3 & Hc3).
  { destruct n as [|n]; [exists s2, pg2, kl2; split; [done|by rewrite app_nil_r]|].
    rewrite u32_small, u64_small by (unfold PGSIZE in *; lia). by apply (copy_range_run _ s2 pg2 kl2). }
  run Hr3. destruct (copy_mmap_loop_run rs _ s3 pg3 kl3 mmap N_MMAP Hc3 Hl Hrs Hcp4 Hlen) as (s4 & pg4 & kl4 & Hr4 & Hc4).
  exists s4, pg4, kl4. split; [exact Hr4|]. by rewrite <- !app_assoc in Hc4.
Qed.

(** ** What the two programs see *)

Lemma lor_odd f : Z.odd f = true → Z.lor f 1 = f.
Proof.
  intros Hf. apply Z.bits_inj'. intros n Hn. rewrite Z.lor_spec. destruct (decide (n = 0)) as [->|Hne].
  - by rewrite !Z.bit0_odd, Hf.
  - rewrite (Z.bits_above_log2 1 n) by (simpl; lia). apply orb_false_r.
Qed.

Lemma pool_page u : u ∈ ul → table_page u.
Proof.
  intros Hu. pose proof (po_user _ _ _ (vo_pmem _ _ _ _ _ Hok)) as Hr. pose proof (ro_pages _ _ _ Hr) as HF.
  rewrite Forall_forall in HF. destruct (HF u Hu) as [Ha Hb]. pose proof (ro_bounds _ _ _ Hr).
  unfold PHYSTOP, KERNEL_BASE in *. split; [done|lia].
Qed.

(** The page behind a copied address. *)
Lemma cloned_page vs s1 pg1 kl1 i v u va :
  cloned s pgo new pg kl ul vs s1 pg1 kl1 → Forall (source s pgo pg kl ul) vs → vs !! i = Some v → ul !! i = Some u →
  v ≤ va < v + PGSIZE → present (k_mem s1) pg1 va ∧ mapped_pa (k_mem s1) pg1 va = u ∧
  PTE_FLAGS (lookup_pte (k_mem s1) pg1 va) = PTE_FLAGS (lookup_pte (k_mem s) pgo v).
Proof.
  intros Hc Hs Hi Hu Hva. rewrite Forall_forall in Hs.
  destruct (Hs v (list_elem_of_lookup_2 _ _ _ Hi)) as [_ _ Hpr _].
  destruct (cl_copy _ _ _ _ _ _ _ _ _ _ Hc i v u Hi Hu) as [Hlk _].
  unfold mapped_pa, present in *. rewrite (Hlk va Hva). set (f := PTE_FLAGS (lookup_pte (k_mem s) pgo v)) in *.
  assert (Z.odd f = true) as Hodd.
  { rewrite pte_valid_odd in Hpr. unfold f, PTE_FLAGS. by rewrite <- Z.bit0_odd, Z.land_spec, Z.bit0_odd, Hpr. }
  assert (leaf_pte u f = Z.lor (PA_TO_PTE u) f) as -> by (unfold leaf_pte, PTE_V; by rewrite <- Z.lor_assoc, lor_odd).
  destruct (pte_roundtrip u f (pool_page u (list_elem_of_lookup_2 _ _ _ Hu)) (PTE_FLAGS_range _)) as (-> & -> & _).
  split; [by apply pte_valid_lor|done].
Qed.

(** No page is used for two of them. *)
Lemma cloned_inj vs s1 pg1 kl1 v w :
  cloned s pgo new pg kl ul vs s1 pg1 kl1 → copyable [] vs → v ∈ vs → w ∈ vs →
  mapped_pa (k_mem s1) pg1 v = mapped_pa (k_mem s1) pg1 w → v = w.
Proof.
  intros Hc [Hs _ Hlu _] [i Hi]%list_elem_of_lookup [j Hj]%list_elem_of_lookup.
  destruct (lookup_lt_is_Some_2 ul i) as [x Hx]; [apply lookup_lt_Some in Hi; simpl in Hlu; lia|].
  destruct (lookup_lt_is_Some_2 ul j) as [y Hy]; [apply lookup_lt_Some in Hj; simpl in Hlu; lia|].
  destruct (cloned_page vs s1 pg1 kl1 i v x v Hc Hs Hi Hx) as (_ & -> & _); [unfold PGSIZE; lia|].
  destruct (cloned_page vs s1 pg1 kl1 j w y w Hc Hs Hj Hy) as (_ & -> & _); [unfold PGSIZE; lia|].
  intros ->. pose proof (ro_nodup _ _ _ (po_user _ _ _ (vo_pmem _ _ _ _ _ Hok))) as Hn.
  assert (i = j) as -> by (by eapply NoDup_lookup). congruence.
Qed.

Lemma cloned_view vs s1 pg1 kl1 v va :
  cloned s pgo new pg kl ul vs s1 pg1 kl1 → copyable [] vs → v ∈ vs → v ≤ va < v + PGSIZE →
  present (k_mem s1) pg1 va ∧ mapped_pa (k_mem s1) pg1 va ∈ ul ∧
  PTE_FLAGS (lookup_pte (k_mem s1) pg1 va) = PTE_FLAGS (lookup_pte (k_mem s) pgo va) ∧
  load8 (k_mem s1) (phys (k_mem s1) pg1 va) = load8 (k_mem s) (phys (k_mem s) pgo va).
Proof.
  intros Hc [Hs _ Hlu _] [i Hi]%list_elem_of_lookup Hva. destruct (lookup_lt_is_Some_2 ul i) as [u Hu].
  { apply lookup_lt_Some in Hi. simpl in Hlu. lia. }
  destruct (cloned_page vs s1 pg1 kl1 i v u va Hc Hs Hi Hu Hva) as (Hp & Hpa & Hfl). rewrite Forall_forall in Hs.
  destruct (Hs v (list_elem_of_lookup_2 _ _ _ Hi)) as [Hal [H0 Hmax] _ _].
  split; [done|]. split; [rewrite Hpa; by eapply list_elem_of_lookup_2|].
  rewrite (same_page_lookup (k_mem s) pgo v va Hal H0 Hva). split; [done|]. unfold phys. rewrite Hpa. unfold mapped_pa.
  rewrite (same_page_lookup (k_mem s) pgo v va Hal H0 Hva).
  assert (va mod PGSIZE = va - v) as -> by (unfold PGSIZE in *; zdiv). apply (cl_copy _ _ _ _ _ _ _ _ _ _ Hc i v u Hi Hu). lia.
Qed.

End clone.

(** ** Claims *)

(** C38: fork's copy of an address space.  With every page of the code, stack and mmap
    regions mapped, and enough free pages, [uvm_copy_pgtbl] runs to its end; for exactly
    those pages and the mapped pages of the heap, the new table then maps every address,
    with the permissions of the old one, to a page of its own from the user pool that holds
    the same bytes; it translates all other addresses as before.  The old table and every
    page that was not free before keep their contents, and the page-table and allocator
    invariants hold for the new table. *)
Theorem uvm_copy_pgtbl_correct (s : kstate) (old : Z) (pgo : ptmap) (new : Z) (pg : ptmap) (kl ul : list Z)
    (heap_top ustack_base : Z) (n : nat) (mmap : option nat) (rs : list (Z * nat)) :
  let vs := copied_pages s pgo heap_top ustack_base n rs in
  pt_ok (k_mem s) old pgo → vm_ok s new pg kl ul → (∀ π p, pgo !! π = Some p → page_apart pg kl ul p) →
  region_list (mp_nodes (k_mmap s)) mmap rs → (length rs ≤ N_MMAP)%nat →
  Forall (λ r, 0 ≤ fst r ∧ fst r + Z.of_nat (snd r) * PGSIZE < 2^64 ∧ Z.of_nat (snd r) * PGSIZE < 2^32) rs →
  0 ≤ heap_top ≤ VA_MAX - PGSIZE → 0 ≤ ustack_base → ustack_base + Z.of_nat n * PGSIZE < 2^64 →
  Z.of_nat n * PGSIZE < 2^32 → copyable s pgo pg kl ul [] vs →
  ∃ s1 pg1 kl1, uvm_copy_pgtbl old new heap_top ustack_base (Z.of_nat n) mmap s = Ok (tt, s1) ∧
    vm_ok s1 new pg1 kl1 (drop (length vs) ul) ∧
    (∀ v va, v ∈ vs → v ≤ va < v + PGSIZE →
       present (k_mem s1) pg1 va ∧ mapped_pa (k_mem s1) pg1 va ∈ ul ∧
       PTE_FLAGS (lookup_pte (k_mem s1) pg1 va) = PTE_FLAGS (lookup_pte (k_mem s) pgo va) ∧
       load8 (k_mem s1) (phys (k_mem s1) pg1 va) = load8 (k_mem s) (phys (k_mem s) pgo va)) ∧
    (∀ va, 0 ≤ va < VA_MAX → (∀ v, v ∈ vs → ¬ (v ≤ va < v + PGSIZE)) →
       lookup_pte (k_mem s1) pg1 va = lookup_pte (k_mem s) pg va) ∧
    (∀ va, lookup_pte (k_mem s1) pgo va = lookup_pte (k_mem s) pgo va) ∧
    (∀ t b, page_apart pg kl ul t → t ≤ b < t + PGSIZE → load8 (k_mem s1) b = load8 (k_mem s) b).
Proof.
  intros vs Hold Hok Happ Hl Hlen Hrs Hht Hu0 Hu64 Hu32 Hcp.
  destruct (copy_pgtbl_run s old pgo new pg kl ul Hold Hok Happ heap_top ustack_base n mmap rs) as (s1 & pg1 & kl1 & Hr & Hc); try done.
  exists s1, pg1, kl1. split; [exact Hr|]. split; [apply Hc|]. split; [|split; [apply Hc|split]].
  - intros v va. by apply (cloned_view s pgo new pg kl ul Hok vs s1 pg1 kl1).
  - by eapply cloned_old.
  - intros t b. by eapply cloned_apart.
Qed.

(** ** Witness: a page with one byte set, mapped at address 0 *)

Definition clone_base : mem := store64 (store64 ∅ 0x80110000 0x80111000) 0x80201000 7.

Definition clone_pg : ptmap := one_pg 0x80200000 0x80100000 0x80101000 0.

Definition clone_old : mem := one_page 0x80200000 0x80100000 0x80101000 0 0x80201000 (PTE_R + PTE_U) clone_base.

Definition clone_mem : mem := memset clone_old 0x80120000 0 PGSIZE.

Definition clone_state : kstate :=
  set_locks (<[LkKernRegion := mk_spinlock 0 "kern" (-1)]> {[ LkUserRegion := mk_spinlock 0 "user" (-1) ]})
    (set_kern (mk_region 0x80100000 0x80121000 2 0x80110000) (set_user (mk_region 0x80200000 0x80211000 1 0x80210000)
       (set_mem clone_mem (zero_state (image_syms 3))))).

Lemma clone_state_mem : k_mem clone_state = clone_mem.
Proof. unfold clone_state. by cbn [k_mem set_locks set_kern set_user set_mem]. Qed.

Lemma clone_old_ok :
  pt_ok clone_mem 0x80200000 clone_pg ∧ ∀ va, lookup_pte clone_mem clone_pg va = lookup_pte clone_old clone_pg va.
Proof.
  apply (pt_ok_ext clone_old).
  - intros π p b Hp Hb. apply memset_page_out. destruct (one_pg_page _ _ _ _ _ _ Hp) as [[_ ->]|[_ [-> | ->]]]; unfold PGSIZE in *; lia.
  - apply one_page_ok; try done. intros i Hi.
    unfold clone_base, vpn_ok in *. by rewrite !load64_store64_ne by lia.
Qed.

Lemma clone_entry : lookup_pte clone_mem clone_pg 0 = leaf_pte 0x80201000 (PTE_R + PTE_U).
Proof.
  rewrite (proj2 clone_old_ok). by apply one_page_lookup.
Qed.

Lemma clone_ok : vm_ok clone_state 0x80120000 {[ [] := 0x80120000 ]} [0x80110000; 0x80111000] [0x80210000].
Proof.
  split.
  - rewrite clone_state_mem. apply pt_ok_root; [by split|]. intros i Hi. unfold vpn_ok, clone_mem in *.
    by rewrite load64_zero_page by (unfold PGSIZE; lia).
  - assert (load64 clone_mem 0x80110000 = 0x80111000 ∧ load64 clone_mem 0x80111000 = 0 ∧ load64 clone_mem 0x80210000 = 0)
      as (E1 & E2 & E3) by (by vm_compute).
    split; rewrite ?clone_state_mem; [| |clear E1 E2 E3; done]; (split; [| |clear E1 E2 E3; repeat (apply Forall_cons_2; [done|]); apply Forall_nil_2|reflexivity|clear E1 E2 E3; done]).
    + simpl. rewrite E1, E2. clear E1 E2 E3. done.
    + clear E1 E2 E3. apply NoDup_cons. split; [by intros ?%list_elem_of_singleton|apply NoDup_singleton].
    + simpl. rewrite E3. clear E1 E2 E3. done.
    + apply NoDup_singleton.
  - split; [by right|by eexists|by eexists].
  - intros π p [_ <-]%lookup_singleton_Some.
    rewrite !elem_of_cons. split; [intros [?|[?|?%not_elem_of_nil]]|intros [?|?%not_elem_of_nil]]; done.
Qed.

Lemma clone_apart p :
  p = 0x80200000 ∨ p = 0x80100000 ∨ p = 0x80101000 ∨ p = 0x80201000 →
  page_apart {[ [] := 0x80120000 ]} [0x80110000; 0x80111000] [0x80210000] p.
Proof.
  intros Hp. split; [by destruct Hp as [->|[->|[-> | ->]]]|]. rewrite !elem_of_cons. split; [|split].
  - intros [->|[->|?%not_elem_of_nil]]; lia.
  - intros [->|?%not_elem_of_nil]; lia.
  - intros π [_ <-]%lookup_singleton_Some. lia.
Qed.

Lemma clone_pages : copied_pages clone_state clone_pg 0 0 0 [] = [0].
Proof. reflexivity. Qed.

Lemma clone_pa : mapped_pa clone_mem clone_pg 0 = 0x80201000.
Proof. unfold mapped_pa. rewrite clone_entry. reflexivity. Qed.

Lemma clone_byte : load8 clone_mem (phys clone_mem clone_pg 0) = 7.
Proof. unfold phys. rewrite clone_pa. vm_compute. reflexivity. Qed.

Lemma uvm_copy_pgtbl_correct_witness :
  ∃ s1 pg1, uvm_copy_pgtbl 0x80200000 0x80120000 0 0 0 None clone_state = Ok (tt, s1) ∧
    present (k_mem s1) pg1 0 ∧ mapped_pa (k_mem s1) pg1 0 = 0x80210000 ∧
    load8 (k_mem s1) (phys (k_mem s1) pg1 0) = 7.
Proof.
  destruct (uvm_copy_pgtbl_correct clone_state 0x80200000 clone_pg 0x80120000 {[ [] := 0x80120000 ]}
    [0x80110000; 0x80111000] [0x80210000] 0 0 0 None []) as (s1 & pg1 & kl1 & Hr & _ & Hv & _).
  - rewrite clone_state_mem. apply clone_old_ok.
  - apply clone_ok.
  - intros π p [[_ ->]|[_ [-> | ->]]]%one_pg_page; apply clone_apart; tauto.
  - done.
  - simpl. lia.
  - constructor.
  - done.
  - done.
  - done.
  - done.
  - rewrite clone_pages. split; [|apply NoDup_singleton|done|done]. apply Forall_singleton.
    split; [done|done| |].
    + unfold present. by rewrite clone_state_mem, clone_entry.
    + rewrite clone_state_mem, clone_pa. apply clone_apart. tauto.
  - exists s1, pg1. split; [exact Hr|]. clear Hr. rewrite clone_pages in Hv.
    destruct (Hv 0 0) as (Hp & Hu & _ & Hb); [by left|done|]. split; [exact Hp|].
    split; [by apply list_elem_of_singleton|]. rewrite Hb, clone_state_mem. exact clone_byte.
Defined.
