(* ===== verification/Teardown.v ===== *)
(** * Destroying an address space (uvm_destroy_pgtbl of kernel/mem/uvm.c)

    The theorem: [uvm_destroy_pgtbl] returns every page of an address space to the pool it
    came from, each once: the tables below the root to the kernel pool, the root and all
    pages that leaf entries own to the user pool.  The pages behind the trampoline and the
    trapframe are not touched. *)

From S2P Require Import Prelude Bytes Kernel Lock Str Pmem Vm Uvm.

(** ** The pages of a table *)

Definition is_leaf (e : Z) : bool := pte_valid e && negb (PTE_CHECK e).

(** The pages behind the leaf entries of the table at [p]. *)
Definition leaves (m : mem) (p : Z) : list Z :=
  seq 0 512 ≫= λ k, let e := load64 m (p + 8 * Z.of_nat k) in if is_leaf e then [PTE_TO_PA e] else [].

(** The tables below the one at path [π], [l] levels of them, in the order they are freed. *)
Fixpoint sub_tables (l : nat) (pg : ptmap) (π : list Z) : list Z :=
  match l with
  | O => []
  | S l => seq 0 512 ≫= λ i,
      match pg !! (π ++ [Z.of_nat i]) with
      | Some q => sub_tables l pg (π ++ [Z.of_nat i]) ++ [q]
      | None => []
      end
  end.

(** The pages behind their leaf entries. *)
Fixpoint sub_leaves (l : nat) (m : mem) (pg : ptmap) (π : list Z) : list Z :=
  match l with
  | O => match pg !! π with Some p => leaves m p | None => [] end
  | S l => seq 0 512 ≫= λ i,
      match pg !! (π ++ [Z.of_nat i]) with
      | Some _ => sub_leaves l m pg (π ++ [Z.of_nat i])
      | None => []
      end
  end.

Lemma vpn_of_nat i : (i < 512)%nat → vpn_ok (Z.of_nat i).
Proof. unfold vpn_ok. lia. Qed.

Lemma elem_seq_512 i : i ∈ seq 0 512 → (i < 512)%nat.
Proof. intros Hi%elem_of_seq. lia. Qed.

(** ** Freeing one page after the other

    Since [s0], the pages [tl] went to the kernel pool and [ll] to the user pool. *)
Record freed (s0 : kstate) (kl ul tl ll : list Z) (s : kstate) : Prop := {
  fr_pmem : pmem_ok s (reverse tl ++ kl) (reverse ll ++ ul);
  fr_sync : pmem_sync s;
  fr_mem a : (∀ p, p ∈ tl ++ ll → ¬ (p ≤ a < p + PGSIZE)) → load8 (k_mem s) a = load8 (k_mem s0) a;
  fr_bounds k p : page_in (get_region k s) p ↔ page_in (get_region k s0) p;
  fr_frame : s = set_mem (k_mem s) (set_kern (k_kern s) (set_user (k_user s) s0)) }.

Lemma freed_nil s kl ul : pmem_ok s kl ul → pmem_sync s → freed s kl ul [] [] s.
Proof. intros Hp Hs. by split. Qed.

Lemma freed_push s0 kl ul tl ll s k p :
  freed s0 kl ul tl ll s → page_in (get_region k s0) p →
  p ∉ pick k (reverse tl ++ kl) (reverse ll ++ ul) →
  pmem_free p k s = Ok (tt, pushed k p s) ∧
  freed s0 kl ul (if k then tl ++ [p] else tl) (if k then ll else ll ++ [p]) (pushed k p s).
Proof.
  intros [Hp Hs Hm Hb Hf] Hin Hni. apply Hb in Hin as Hin'.
  split; [by apply pmem_free_some|]. pose proof (pmem_ok_push k s _ _ p Hp Hin' Hni) as Hp'. split.
  - destruct k; by rewrite reverse_snoc.
  - by apply pushed_sync.
  - intros a Ha. assert (load8 (k_mem (pushed k p s)) a = load8 (k_mem s) a) as ->.
    { assert (p ∈ (if k then tl ++ [p] else tl) ++ (if k then ll else ll ++ [p])) as Hpin
        by (destruct k; rewrite !elem_of_app, ?list_elem_of_singleton; tauto).
      specialize (Ha p Hpin). destruct k; simpl; apply load8_store64_out; unfold PGSIZE in *; lia. }
    apply Hm. intros q Hq. apply Ha. destruct k; rewrite !elem_of_app in *; tauto.
  - intros k' q. rewrite <- Hb. unfold page_in, pushed. by destruct k, k'.
  - rewrite Hf at 1. by destruct k.
Qed.

(** A page that was not freed reads as before. *)
Lemma freed_load s0 kl ul tl ll s p i :
  freed s0 kl ul tl ll s → p mod PGSIZE = 0 → Forall (λ q, q mod PGSIZE = 0) (tl ++ ll) → p ∉ tl ++ ll →
  vpn_ok i → load64 (k_mem s) (p + 8 * i) = load64 (k_mem s0) (p + 8 * i).
Proof.
  intros Hf Hp Hal Hni Hi. apply load64_ext. intros b Hb. apply (fr_mem _ _ _ _ _ _ Hf).
  intros q Hq. rewrite Forall_forall in Hal. pose proof (Hal q Hq) as Hqa. pose proof (vpn_slot p i Hi) as Hsl.
  assert (q ≠ p) as Hne by (by intros ->). pose proof (page_aligned_apart p q Hp Hqa ltac:(done)). lia.
Qed.

Lemma prefix_closed m root pg : pt_ok m root pg → ∀ σ π q, pg !! (π ++ σ) = Some q → is_Some (pg !! π).
Proof.
  intros Hpt. induction σ as [|i σ IH] using rev_ind; intros π q Hq; [rewrite app_nil_r in Hq; by eexists|].
  rewrite app_assoc in Hq. destruct (pt_prefix _ _ _ Hpt _ _ _ Hq) as [r Hr]. by eapply IH.
Qed.

Section destroy.
  Context (s0 : kstate) (kl ul : list Z) (root : Z) (pg : ptmap).
  Context (Hpt : pt_ok (k_mem s0) root pg).
  Context (Hkern : ∀ π p, π ≠ [] → pg !! π = Some p → page_in (k_kern s0) p ∧ (p ∉ kl)).

Definition inner_table (p : Z) : Prop := ∃ π, π ≠ [] ∧ pg !! π = Some p.

(** A page a leaf entry owns: of the user region, not free, and no table. *)
Definition own_page (pa : Z) : Prop :=
  page_in (k_user s0) pa ∧ (pa ∉ ul) ∧ ∀ π p, pg !! π = Some p → p ≠ pa.

(** Before the table at [p]: [tl] and [ll] are freed, [T] and [L] are to be. *)
Record ready (tl ll T L : list Z) (p : Z) : Prop := {
  rd_tables : NoDup (tl ++ T ++ [p]);
  rd_leaves : NoDup (ll ++ L);
  rd_inner : Forall inner_table tl;
  rd_own : Forall own_page (ll ++ L) }.

Lemma table_aligned π p : pg !! π = Some p → p mod PGSIZE = 0.
Proof. intros Hp. by destruct (pt_page _ _ _ Hpt _ _ Hp) as ([? _] & _). Qed.

Lemma ready_load tl ll T L π p s i :
  pg !! π = Some p → ready tl ll T L p → freed s0 kl ul tl ll s → vpn_ok i →
  load64 (k_mem s) (p + 8 * i) = load64 (k_mem s0) (p + 8 * i).
Proof.
  intros Hp [Ht _ Hi Ho] Hf Hv. apply Forall_app in Ho as [Ho _]. rewrite Forall_forall in Hi, Ho.
  eapply freed_load; [done|by eapply table_aligned| | |done].
  - apply Forall_forall. intros q [Hq|Hq]%elem_of_app.
    + destruct (Hi q Hq) as (ρ & _ & Hρ). by eapply table_aligned.
    + by destruct (Ho q Hq) as ([? _] & _).
  - intros [Hq|Hq]%elem_of_app.
    + apply NoDup_app in Ht as (_ & Hd & _). apply (Hd p Hq). apply elem_of_app. right. by left.
    + destruct (Ho p Hq) as (_ & _ & Hn). by apply (Hn π p).
Qed.

Lemma NoDup_front (l0 l1 l2 : list Z) : NoDup (l0 ++ l1 ++ l2) → NoDup (l0 ++ l1).
Proof. rewrite app_assoc. intros Hn. by apply NoDup_app in Hn as [? _]. Qed.

Lemma NoDup_last (l0 l1 : list Z) x : NoDup (l0 ++ l1 ++ [x]) → x ∉ l0 ++ l1.
Proof. rewrite app_assoc. intros (_ & Hd & _)%NoDup_app Hx. apply (Hd x Hx). by left. Qed.

Lemma leaf_table_run π p tl ll s :
  pg !! π = Some p → freed s0 kl ul tl ll s → ready tl ll [] (leaves (k_mem s0) p) p →
  ∃ s', destroy_pgtbl 0 p s = Ok (tt, s') ∧ freed s0 kl ul tl (ll ++ leaves (k_mem s0) p) s'.
Proof.
  intros Hp Hf Hr. cbn [destroy_pgtbl]. unfold leaves in *. set (f := λ k : nat, _ : list Z) in *.
  apply (for_each_inv (λ pre s1, freed s0 kl ul tl (ll ++ (pre ≫= f)) s1)).
  { cbn [mbind list_bind]. by rewrite app_nil_r. }
  intros pre i post s1 Hl Hf1. rewrite Hl, bind_app, bind_cons in Hr. destruct Hr as [Rt Rl Ri Ro].
  assert ((i < 512)%nat) as Hi by (apply elem_seq_512; rewrite Hl; apply elem_of_app; right; by left).
  assert (ready tl (ll ++ (pre ≫= f)) [] (f i ++ (post ≫= f)) p) as Hr1 by (split; rewrite <- ?app_assoc; done).
  unfold read64. mrun. rewrite (ready_load _ _ _ _ π p s1 _ Hp Hr1 Hf1 (vpn_of_nat i Hi)).
  rewrite bind_app, bind_cons, app_assoc. cbn [mbind list_bind]. rewrite app_nil_r.
  fold (is_leaf (load64 (k_mem s0) (p + 8 * Z.of_nat i))). unfold f at 2. cbv zeta.
  destruct (is_leaf _) eqn:E; [|rewrite app_nil_r; by exists s1].
  assert (f i = [PTE_TO_PA (load64 (k_mem s0) (p + 8 * Z.of_nat i))]) as Efi by (unfold f; by rewrite E).
  rewrite Efi in *. set (pa := PTE_TO_PA _) in *.
  assert (own_page pa) as (Hin & Hnu & _).
  { rewrite Forall_forall in Ro. apply Ro. rewrite !elem_of_app. right. right. left. by left. }
  destruct (freed_push s0 kl ul tl _ s1 false pa Hf1 Hin) as [Hfr Hf2]; [|by eexists].
  simpl. rewrite elem_of_app. intros [Hx|Hx]; [|done]. rewrite elem_of_reverse in Hx.
  rewrite (app_assoc ll) in Rl. apply NoDup_front in Rl. apply (NoDup_last _ [] _) in Rl. by rewrite app_nil_r in Rl.
Qed.

Lemma inner_entry π p i :
  pg !! π = Some p → (length π < 2)%nat → vpn_ok i →
  let e := load64 (k_mem s0) (p + 8 * i) in
  match pg !! (π ++ [i]) with
  | Some q => pte_valid e && PTE_CHECK e = true ∧ PTE_TO_PA e = q
  | None => pte_valid e && PTE_CHECK e = false
  end.
Proof.
  intros Hp Hl Hi e. pose proof (pt_entry _ _ _ Hpt π p i Hp Hl Hi) as He. fold e in He.
  destruct (pg !! (π ++ [i])) as [q|] eqn:Hq; [|by rewrite He].
  destruct (pt_page _ _ _ Hpt _ _ Hq) as (Htq & _). destruct (pte_roundtrip q PTE_V Htq ltac:(done)) as (E1 & E2 & _).
  rewrite <- He in E1, E2. split; [|done]. apply andb_true_iff. split; [rewrite He; by apply pte_valid_lor|].
  unfold PTE_CHECK. apply Z.eqb_eq. change (Z.lor (Z.lor PTE_R PTE_W) PTE_X) with (Z.land 0x3FF 14).
  rewrite Z.land_assoc. fold (PTE_FLAGS e). by rewrite E2.
Qed.

Lemma sub_tables_path l π q : q ∈ sub_tables l pg π → ∃ i σ, pg !! (π ++ i :: σ) = Some q.
Proof.
  revert π. induction l as [|l IH]; intros π; cbn [sub_tables]; [by intros ?%not_elem_of_nil|].
  intros (i & Hq & Hi)%list_elem_of_bind. destruct (pg !! (π ++ [Z.of_nat i])) as [r|] eqn:Hr; [|by apply not_elem_of_nil in Hq].
  apply elem_of_app in Hq as [Hq| ->%list_elem_of_singleton]; [|by eexists _, []].
  destruct (IH _ Hq) as (j & σ & Hj). rewrite <- app_assoc in Hj. by eexists _, _.
Qed.

Lemma sub_tables_inner l π : Forall inner_table (sub_tables l pg π).
Proof.
  apply Forall_forall. intros q Hq. destruct (sub_tables_path l π q Hq) as (i & σ & Hs). exists (π ++ i :: σ).
  split; [by destruct π|done].
Qed.

Lemma destroy_run l : ∀ π p tl ll s,
  pg !! π = Some p → (length π + l = 2)%nat → freed s0 kl ul tl ll s →
  ready tl ll (sub_tables l pg π) (sub_leaves l (k_mem s0) pg π) p →
  ∃ s', destroy_pgtbl l p s = Ok (tt, s') ∧
    freed s0 kl ul (tl ++ sub_tables l pg π) (ll ++ sub_leaves l (k_mem s0) pg π) s'.
Proof.
  induction l as [|l IH]; intros π p tl ll s Hp Hlen Hf Hr.
  { cbn [sub_tables sub_leaves] in *. rewrite Hp in *. rewrite app_nil_r. by eapply leaf_table_run. }
  pose proof (sub_tables_inner (S l) π) as Hinn.
  cbn [destroy_pgtbl sub_tables sub_leaves] in *.
  set (ft := λ i : nat, match pg !! (π ++ [Z.of_nat i]) with Some q => _ ++ [q] | None => [] end) in *.
  set (fl := λ i : nat, match pg !! (π ++ [Z.of_nat i]) with Some _ => sub_leaves l _ _ _ | None => [] end) in *.
  apply (for_each_inv (λ pre s1, freed s0 kl ul (tl ++ (pre ≫= ft)) (ll ++ (pre ≫= fl)) s1)).
  { cbn [mbind list_bind]. by rewrite !app_nil_r. }
  intros pre i post s1 Hsq Hf1. rewrite Hsq, !bind_app, !bind_cons in Hr. rewrite Hsq, bind_app in Hinn. destruct Hr as [Rt Rl Ri Ro].
  apply Forall_app in Hinn as [Hpre _].
  assert ((i < 512)%nat) as Hi by (apply elem_seq_512; rewrite Hsq; apply elem_of_app; right; by left).
  rewrite !bind_app, !bind_cons. cbn [mbind list_bind]. rewrite !app_nil_r.
  set (A := pre ≫= ft) in *. set (A' := pre ≫= fl) in *.
  assert (ready (tl ++ A) (ll ++ A') (ft i ++ (post ≫= ft)) (fl i ++ (post ≫= fl)) p) as Hr1.
  { split; [by rewrite <- !app_assoc in * |by rewrite <- !app_assoc|by apply Forall_app|by rewrite <- !app_assoc]. }
  unfold read64. mrun. rewrite (ready_load _ _ _ _ π p s1 _ Hp Hr1 Hf1 (vpn_of_nat i Hi)).
  pose proof (inner_entry π p (Z.of_nat i) Hp ltac:(lia) (vpn_of_nat i Hi)) as He. cbv zeta in He.
  rewrite (app_assoc tl), (app_assoc ll). destruct Hr1 as [Rt1 Rl1 Ri1 Ro1].
  assert (∃ T, ft i = T) as [T ET] by eauto. assert (∃ L, fl i = L) as [L EL] by eauto.
  rewrite ET, EL in *. unfold ft in ET. unfold fl in EL.
  destruct (pg !! (π ++ [Z.of_nat i])) as [q|] eqn:Hq; [|subst T L; rewrite He, !app_nil_r; by exists s1].
  destruct He as [-> ->]. subst T L. set (T := sub_tables l pg (π ++ [Z.of_nat i])) in *.
  set (L := sub_leaves l _ _ _) in *.
  destruct (IH (π ++ [Z.of_nat i]) q (tl ++ A) (ll ++ A') s1) as (s2 & Hd & Hf2); [done|rewrite length_app; simpl; lia|done| |].
  { split; [|by apply NoDup_front in Rl1|done|].
    - rewrite <- (app_assoc (T ++ [q])) in Rt1. by apply NoDup_front in Rt1.
    - rewrite app_assoc in Ro1. by apply Forall_app in Ro1 as [Ro1 _]. }
  run Hd. destruct (Hkern (π ++ [Z.of_nat i]) q) as [Hin Hnk]; [by destruct π|done|].
  destruct (freed_push s0 kl ul _ _ s2 true q Hf2 Hin) as [Hfr Hf3].
  { simpl. rewrite elem_of_app, elem_of_reverse. intros [Hx|Hx]; [|done].
    rewrite <- (app_assoc (T ++ [q])) in Rt1. by apply NoDup_front, NoDup_last in Rt1. }
  eexists. split; [exact Hfr|]. by rewrite (app_assoc (tl ++ A)).
Qed.

(** ** All tables, each once *)

Lemma path_inj π σ σ' q : pg !! (π ++ σ) = Some q → pg !! (π ++ σ') = Some q → σ = σ'.
Proof. intros H1 H2. by apply (app_inv_head π), (pt_inj _ _ _ Hpt _ _ q). Qed.

Lemma sub_tables_nodup l : ∀ π, NoDup (sub_tables l pg π).
Proof.
  induction l as [|l IH]; intros π; cbn [sub_tables]; [constructor|].
  set (ft := λ i : nat, _ : list Z).
  assert (∀ i q, q ∈ ft i → ∃ σ, pg !! (π ++ Z.of_nat i :: σ) = Some q) as Hft.
  { intros i q. unfold ft. destruct (pg !! (π ++ [Z.of_nat i])) as [r|] eqn:Hr; [|by intros ?%not_elem_of_nil].
    intros [Hq| ->%list_elem_of_singleton]%elem_of_app; [|by exists []].
    destruct (sub_tables_path _ _ _ Hq) as (j & σ & Hj). rewrite <- app_assoc in Hj. by eexists. }
  apply NoDup_bind; [| |apply NoDup_seq].
  - intros i j q _ _ Hi Hj. destruct (Hft i q Hi) as [σ Hs], (Hft j q Hj) as [σ' Hs'].
    pose proof (path_inj _ _ _ _ Hs Hs') as E. injection E as E _. lia.
  - intros i _. unfold ft. destruct (pg !! (π ++ [Z.of_nat i])) as [r|] eqn:Hr; [|constructor].
    apply NoDup_app. split; [apply IH|]. split; [|apply NoDup_singleton]. intros q Hq ->%list_elem_of_singleton.
    destruct (sub_tables_path _ _ _ Hq) as (j & σ & Hj). rewrite <- (app_nil_r (π ++ _)) in Hr.
    by pose proof (path_inj _ _ _ _ Hr Hj).
Qed.

Lemma vpn_nat i : vpn_ok i → ∃ k, i = Z.of_nat k ∧ k ∈ seq 0 512.
Proof. intros [H1 H2]. exists (Z.to_nat i). split; [lia|]. apply elem_of_seq. lia. Qed.

Lemma sub_tables_all l : ∀ π i σ q, pg !! (π ++ i :: σ) = Some q → (length σ < l)%nat → q ∈ sub_tables l pg π.
Proof.
  induction l as [|l IH]; intros π i σ q Hq Hl; [lia|]. cbn [sub_tables].
  destruct (pt_page _ _ _ Hpt _ _ Hq) as (_ & _ & HF). apply Forall_app in HF as [_ HF].
  apply Forall_inv in HF. destruct (vpn_nat i HF) as (k & -> & Hk). apply list_elem_of_bind. exists k. split; [|done].
  rewrite (cons_middle (Z.of_nat k)), app_assoc in Hq. destruct (prefix_closed _ _ _ Hpt σ _ _ Hq) as [r Hr]. rewrite Hr.
  apply elem_of_app. destruct σ as [|j σ].
  - right. rewrite app_nil_r in Hq. rewrite Hq in Hr. simplify_eq. by left.
  - left. apply (IH _ j σ); [done|]. simpl in Hl. lia.
Qed.

Lemma sub_tables_perm : sub_tables 2 pg [] ≡ₚ (map_to_list (delete [] pg)).*2.
Proof.
  apply NoDup_Permutation; [apply sub_tables_nodup| |].
  - apply NoDup_fmap_2_strong; [|apply NoDup_map_to_list]. intros [π p] [ρ q] H1 H2 E. simpl in E. subst q.
    apply elem_of_map_to_list, lookup_delete_Some in H1 as [_ H1], H2 as [_ H2]. f_equal. by apply (pt_inj _ _ _ Hpt _ _ p).
  - intros q. split.
    + intros Hq. destruct (sub_tables_path 2 [] q Hq) as (i & σ & Hs). apply list_elem_of_fmap. exists (i :: σ, q).
      split; [done|]. apply elem_of_map_to_list, lookup_delete_Some. by split.
    + intros ([π r] & -> & Hr)%list_elem_of_fmap. apply elem_of_map_to_list, lookup_delete_Some in Hr as [Hne Hr].
      destruct π as [|i σ]; [done|]. apply (sub_tables_all 2 [] i σ); [done|].
      destruct (pt_page _ _ _ Hpt _ _ Hr) as (_ & Hlen & _). simpl in Hlen. lia.
Qed.

End destroy.

(** ** The pages that leaf entries own *)

Definition slot_ok (σ : list Z * Z) : Prop := length (fst σ) = 2%nat ∧ vpn_ok (snd σ).

(** The page behind entry [k] of the level-0 table at path [π]. *)
Definition owned (m : mem) (pg : ptmap) (σ : list Z * Z) : option Z :=
  p ← pg !! fst σ; let e := load64 m (p + 8 * snd σ) in if is_leaf e then Some (PTE_TO_PA e) else None.

Definition slot_of (va : Z) : list Z * Z := (va_path va, VA_TO_VPN va 0).

(** The same without the two pages every address space shares with the kernel. *)
Definition user_owned (m : mem) (pg : ptmap) (σ : list Z * Z) : option Z :=
  if decide (σ = slot_of TRAMPOLINE ∨ σ = slot_of TRAPFRAME) then None else owned m pg σ.

Lemma sub_leaves_elem m pg l : ∀ π pa,
  pa ∈ sub_leaves l m pg π → ∃ σ k, length σ = l ∧ vpn_ok k ∧ owned m pg (π ++ σ, k) = Some pa.
Proof.
  induction l as [|l IH]; intros π pa; cbn [sub_leaves].
  - destruct (pg !! π) as [p|] eqn:Hp; [|by intros ?%not_elem_of_nil].
    intros (k & Hk & Hin)%list_elem_of_bind. exists [], (Z.of_nat k). split; [done|].
    split; [by apply vpn_of_nat, elem_seq_512|]. rewrite app_nil_r. unfold owned. cbn [fst snd]. rewrite Hp. cbn [mbind option_bind]. cbv zeta in Hk |- *.
    destruct (is_leaf _); [|by apply not_elem_of_nil in Hk]. apply list_elem_of_singleton in Hk. by subst.
  - intros (i & Hq & Hi)%list_elem_of_bind. destruct (pg !! (π ++ [Z.of_nat i])) as [r|]; [|by apply not_elem_of_nil in Hq].
    destruct (IH _ _ Hq) as (σ & k & Hl & Hk & Ho). exists (Z.of_nat i :: σ), k. rewrite <- app_assoc in Ho.
    split; [simpl; lia|done].
Qed.

(** With the leaf entries of [m] on distinct pages, no page comes up twice. *)
Lemma sub_leaves_nodup m pg l : ∀ π,
  (∀ σ σ' pa, slot_ok σ → slot_ok σ' → owned m pg σ = Some pa → owned m pg σ' = Some pa → σ = σ') →
  (length π + l = 2)%nat → NoDup (sub_leaves l m pg π).
Proof.
  intros π Hinj. revert π. induction l as [|l IH]; intros π Hlen; cbn [sub_leaves].
  - destruct (pg !! π) as [p|] eqn:Hp; [|constructor]. unfold leaves.
    assert (∀ k pa, (k < 512)%nat → pa ∈ (let e := load64 m (p + 8 * Z.of_nat k) in if is_leaf e then [PTE_TO_PA e] else []) →
      owned m pg (π, Z.of_nat k) = Some pa) as Hel.
    { intros k pa Hk. unfold owned. cbn [fst snd]. rewrite Hp. cbn [mbind option_bind]. cbv zeta.
      destruct (is_leaf _); [by intros ->%list_elem_of_singleton|by intros ?%not_elem_of_nil]. }
    apply NoDup_bind; [| |apply NoDup_seq].
    + intros i j pa Hi%elem_seq_512 Hj%elem_seq_512 H1 H2. apply Hel in H1, H2; [|done..].
      assert (∀ k, (k < 512)%nat → slot_ok (π, Z.of_nat k)) as Hsl by (intros k Hk; split; [simpl; lia|by apply vpn_of_nat]).
      pose proof (Hinj _ _ pa (Hsl i Hi) (Hsl j Hj) H1 H2) as E. injection E as E. lia.
    + intros k _. cbv zeta. destruct (is_leaf _); [apply NoDup_singleton|constructor].
  - apply NoDup_bind; [| |apply NoDup_seq].
    + intros i j pa Hi%elem_seq_512 Hj%elem_seq_512 H1 H2.
      assert (∀ k, pa ∈ match pg !! (π ++ [Z.of_nat k]) with Some _ => sub_leaves l m pg (π ++ [Z.of_nat k]) | None => [] end →
        ∃ σ e, slot_ok (π ++ Z.of_nat k :: σ, e) ∧ owned m pg (π ++ Z.of_nat k :: σ, e) = Some pa) as Hel.
      { intros k. destruct (pg !! (π ++ [Z.of_nat k])); [|by intros ?%not_elem_of_nil]. intros Hk.
        destruct (sub_leaves_elem m pg l _ _ Hk) as (σ & e & Hl & He & Ho). rewrite <- app_assoc in Ho. exists σ, e.
        split; [|done]. split; [|done]. cbn [fst]. rewrite length_app. simpl. lia. }
      destruct (Hel i H1) as (σ & e & Hs & Ho), (Hel j H2) as (σ' & e' & Hs' & Ho').
      pose proof (Hinj _ _ pa Hs Hs' Ho Ho') as E. injection E as E _. apply app_inv_head in E. injection E as E _. lia.
    + intros i _. destruct (pg !! _); [|constructor]. apply IH. rewrite length_app. simpl. lia.
Qed.

Lemma sub_leaves_all m root pg l : pt_ok m root pg → ∀ π σ k pa,
  owned m pg (π ++ σ, k) = Some pa → vpn_ok k → length σ = l → pa ∈ sub_leaves l m pg π.
Proof.
  intros Hpt. induction l as [|l IH]; intros π σ k pa Ho Hk Hl; cbn [sub_leaves].
  - destruct σ; [|done]. rewrite app_nil_r in Ho. unfold owned in Ho. cbn [fst snd] in Ho.
    destruct (pg !! π) as [p|]; [|done]. cbn [mbind option_bind] in Ho. cbv zeta in Ho.
    destruct (vpn_nat k Hk) as (n & -> & Hn). apply list_elem_of_bind. exists n. split; [|done]. cbv zeta.
    destruct (is_leaf _); [|done]. injection Ho as <-. by left.
  - destruct σ as [|i σ]; [done|]. assert (∃ q, pg !! (π ++ i :: σ) = Some q) as [q Hq].
    { unfold owned in Ho. cbn [fst] in Ho. destruct (pg !! (π ++ i :: σ)) as [q|]; [by exists q|done]. }
    destruct (pt_page _ _ _ Hpt _ _ Hq) as (_ & _ & HF). apply Forall_app in HF as [_ HF]. apply Forall_inv in HF.
    destruct (vpn_nat i HF) as (n & -> & Hn). apply list_elem_of_bind. exists n. split; [|done].
    rewrite (cons_middle (Z.of_nat n)), app_assoc in Hq, Ho. destruct (prefix_closed _ _ _ Hpt σ _ _ Hq) as [r Hr]. rewrite Hr.
    apply (IH _ σ k); [done|done|]. simpl in Hl. lia.
Qed.

(** ** Clearing the two shared entries *)

Lemma drop_entry_run s root pg kl ul va :
  vm_ok s root pg kl ul → 0 ≤ va < VA_MAX →
  ∃ m', drop_entry root va s = Ok (tt, set_mem m' s) ∧ vm_ok (set_mem m' s) root pg kl ul ∧
    mem_outside pg (k_mem s) m' ∧
    ∀ σ, slot_ok σ → owned m' pg σ = if decide (σ = slot_of va) then None else owned (k_mem s) pg σ.
Proof.
  intros Hok Hva. pose proof (vo_pt _ _ _ _ _ Hok) as Hpt. unfold drop_entry.
  run (vm_getpte_lookup s root pg va Hpt ltac:(lia)). destruct (pg !! va_path va) as [p|] eqn:Hp.
  - destruct (pt_page _ _ _ Hpt _ _ Hp) as (Htp & _). pose proof (VA_TO_VPN_range va 0) as Hv.
    pose proof (vpn_slot p _ Hv) as Hsl. pose proof Htp as [_ Hp0]. unfold vpn_ok in Hv.
    rewrite (proj2 (Z.eqb_neq _ 0)) by lia. unfold write64. mrun. eexists. split; [done|].
    split; [by apply vm_ok_write|]. split.
    + intros a Ha. apply load8_store64_out. specialize (Ha _ _ Hp). lia.
    + intros [π k] [Hl Hk]. unfold owned. cbn [fst snd] in *. destruct (pg !! π) as [q|] eqn:Hq; [|by case_decide].
      cbn [mbind option_bind]. cbv zeta. case_decide as E.
      * unfold slot_of in E. simplify_eq. by rewrite load64_store64_eq.
      * rewrite load64_store64_ne; [done|]. destruct (pt_page _ _ _ Hpt _ _ Hq) as (Htq & _).
        apply slots_apart; [done|done|done|done|]. destruct (decide (q = p)) as [->|]; [|by left]. right. intros ->.
        apply E. unfold slot_of. f_equal. by apply (pt_inj _ _ _ Hpt _ _ p).
  - exists (k_mem s). mrun. split; [by destruct s|]. split; [by destruct s|]. split; [done|].
    intros σ _. case_decide as E; [|done]. subst σ. unfold owned, slot_of. cbn [fst]. by rewrite Hp.
Qed.

Lemma drop_shared_run s root pg kl ul :
  vm_ok s root pg kl ul →
  ∃ m', (drop_entry root TRAMPOLINE;; drop_entry root TRAPFRAME) s = Ok (tt, set_mem m' s) ∧
    vm_ok (set_mem m' s) root pg kl ul ∧ mem_outside pg (k_mem s) m' ∧
    ∀ σ, slot_ok σ → owned m' pg σ = user_owned (k_mem s) pg σ.
Proof.
  intros Hok.
  destruct (drop_entry_run s root pg kl ul TRAMPOLINE Hok ltac:(done)) as (m1 & Hd1 & Hok1 & Ho1 & Hs1). run Hd1.
  destruct (drop_entry_run _ root pg kl ul TRAPFRAME Hok1 ltac:(done)) as (m2 & Hd2 & Hok2 & Ho2 & Hs2).
  exists m2. split; [exact Hd2|]. split; [exact Hok2|]. split.
  - intros a Ha. rewrite (Ho2 a Ha). by apply Ho1.
  - intros σ Hσ. rewrite Hs2, Hs1 by done. unfold user_owned. repeat case_decide; tauto.
Qed.

Lemma destroy_split root s :
  uvm_destroy_pgtbl root s =
    ((drop_entry root TRAMPOLINE;; drop_entry root TRAPFRAME);; destroy_pgtbl 2 root;; pmem_free root false) s.
Proof. by rewrite bind_assoc. Qed.

Lemma uvm_destroy_run (s : kstate) (root : Z) (pg : ptmap) (kl ul : list Z) :
  vm_ok s root pg kl ul → page_in (k_user s) root →
  (∀ π p, π ≠ [] → pg !! π = Some p → page_in (k_kern s) p) →
  (∀ σ pa, slot_ok σ → user_owned (k_mem s) pg σ = Some pa →
     page_in (k_user s) pa ∧ (pa ∉ ul) ∧ ∀ π p, pg !! π = Some p → p ≠ pa) →
  (∀ σ σ' pa, slot_ok σ → slot_ok σ' → user_owned (k_mem s) pg σ = Some pa →
     user_owned (k_mem s) pg σ' = Some pa → σ = σ') →
  ∃ s' tables pages, uvm_destroy_pgtbl root s = Ok (tt, s') ∧
    pmem_ok s' (tables ++ kl) (root :: pages ++ ul) ∧ pmem_sync s' ∧
    tables ≡ₚ (map_to_list (delete [] pg)).*2 ∧ NoDup pages ∧
    (∀ pa, pa ∈ pages ↔ ∃ σ, slot_ok σ ∧ user_owned (k_mem s) pg σ = Some pa) ∧
    (∀ a, (∀ p, p ∈ root :: tables ++ pages → ¬ (p ≤ a < p + PGSIZE)) → load8 (k_mem s') a = load8 (k_mem s) a) ∧
    (∀ k p, page_in (get_region k s') p ↔ page_in (get_region k s) p) ∧
    s' = set_mem (k_mem s') (set_kern (k_kern s') (set_user (k_user s') s)).
Proof.
  intros Hok Hroot Hkern Hown Hinj. rewrite (destroy_split root s).
  destruct (drop_shared_run s root pg kl ul Hok) as (m2 & Hd2 & Hok2 & Ho2 & Hus). run Hd2. set (s2 := set_mem m2 s) in *.
  pose proof (vo_pt _ _ _ _ _ Hok2) as Hpt. pose proof (pt_root _ _ _ Hpt) as Hr.
  set (T := sub_tables 2 pg []). set (L := sub_leaves 2 m2 pg []).
  assert (∀ pa, pa ∈ L ↔ ∃ σ, slot_ok σ ∧ user_owned (k_mem s) pg σ = Some pa) as HL.
  { intros pa. split.
    - intros (σ & k & Hl & Hk & Ho)%sub_leaves_elem. exists (σ, k). assert (slot_ok (σ, k)) as Hσ by done. by rewrite <- Hus.
    - intros ([π k] & Hσ & Ho). rewrite <- Hus in Ho by done. by apply (sub_leaves_all m2 root pg 2 Hpt [] π k); try apply Hσ. }
  assert (Forall (own_page s2 ul pg) L) as Hpages.
  { apply Forall_forall. intros pa Hpa. apply HL in Hpa as (σ & Hσ & Ho). by apply (Hown σ pa). }
  assert (NoDup L) as HLn.
  { apply sub_leaves_nodup; [|done]. intros σ σ' pa Hσ Hσ'. rewrite !Hus by done. by apply Hinj. }
  assert (root ∉ L) as HrL.
  { intros HrL. rewrite Forall_forall in Hpages. destruct (Hpages root HrL) as (_ & _ & Hn). by apply (Hn [] root). }
  assert (ready s2 ul pg [] [] T L root) as Hrdy.
  { split; [|done|constructor|done]. rewrite app_nil_l. apply NoDup_app. split; [by eapply sub_tables_nodup|].
    split; [|apply NoDup_singleton]. intros q Hq ->%list_elem_of_singleton.
    destruct (sub_tables_path pg 2 [] root Hq) as (i & σ & Hs). by pose proof (pt_inj _ _ _ Hpt _ _ _ Hr Hs). }
  destruct (destroy_run s2 kl ul root pg Hpt) with (l := 2%nat) (π := @nil Z) (p := root) (tl := @nil Z) (ll := @nil Z) (s := s2)
    as (s3 & Hd & Hf); [|done|done|by apply freed_nil; apply Hok2|done|].
  { intros π p Hne Hp. split; [by apply (Hkern π)|]. by apply (vo_disj _ _ _ _ _ Hok2 π p). }
  run Hd. fold T L in Hf. cbn [app] in Hf.
  destruct (freed_push s2 kl ul T L s3 false root Hf Hroot) as [Hfr Hf4].
  { simpl. rewrite elem_of_app, elem_of_reverse. intros [?|Hu]; [done|]. by apply (vo_disj _ _ _ _ _ Hok2 [] root). }
  destruct Hf4 as [Hpm Hsy Hm Hb Hfm]. cbn match in Hpm, Hm. rewrite reverse_snoc in Hpm.
  eexists _, (reverse T), (reverse L). split; [exact Hfr|]. split; [exact Hpm|]. split; [exact Hsy|].
  split; [rewrite reverse_Permutation; by eapply sub_tables_perm|]. split; [by rewrite reverse_Permutation|].
  split; [intros pa; rewrite elem_of_reverse; apply HL|]. split; [|split; [exact Hb|exact Hfm]].
  intros a Ha. assert (∀ π p, pg !! π = Some p → ¬ (p ≤ a < p + PGSIZE)) as Hout.
  { intros π p Hp. apply Ha. destruct π as [|i σ]; [rewrite Hr in Hp; simplify_eq; by left|]. right.
    apply elem_of_app. left. rewrite elem_of_reverse. destruct (pt_page _ _ _ Hpt _ _ Hp) as (_ & Hl & _).
    eapply (sub_tables_all _ _ _ Hpt 2 [] i σ); [done|simpl in Hl; lia]. }
  rewrite Hm; [|].
  - by apply Ho2.
  - intros p. rewrite !elem_of_app, list_elem_of_singleton. intros Hp. apply Ha.
    rewrite elem_of_cons, elem_of_app, !elem_of_reverse. tauto.
Qed.

(** ** Claims *)

(** C39: destroying an address space leaks nothing and frees nothing twice.  Of a page table
    whose inner tables are kernel pages, whose root is a user page and whose leaf entries,
    the trampoline's and the trapframe's apart, own distinct user pages that are not free,
    [uvm_destroy_pgtbl] returns exactly the inner tables to the kernel pool and exactly
    the root and the owned pages to the user pool, each once; the allocator's invariant
    holds afterwards and memory outside the returned pages is unchanged. *)
Theorem uvm_destroy_pgtbl_correct (s : kstate) (root : Z) (pg : ptmap) (kl ul : list Z) :
  vm_ok s root pg kl ul → page_in (k_user s) root →
  (∀ π p, π ≠ [] → pg !! π = Some p → page_in (k_kern s) p) →
  (∀ σ pa, slot_ok σ → user_owned (k_mem s) pg σ = Some pa →
     page_in (k_user s) pa ∧ (pa ∉ ul) ∧ ∀ π p, pg !! π = Some p → p ≠ pa) →
  (∀ σ σ' pa, slot_ok σ → slot_ok σ' → user_owned (k_mem s) pg σ = Some pa →
     user_owned (k_mem s) pg σ' = Some pa → σ = σ') →
  ∃ s' tables pages, uvm_destroy_pgtbl root s = Ok (tt, s') ∧
    pmem_ok s' (tables ++ kl) (root :: pages ++ ul) ∧ pmem_sync s' ∧
    tables ≡ₚ (map_to_list (delete [] pg)).*2 ∧ NoDup pages ∧
    (∀ pa, pa ∈ pages ↔ ∃ σ, slot_ok σ ∧ user_owned (k_mem s) pg σ = Some pa) ∧
    (∀ a, (∀ p, p ∈ root :: tables ++ pages → ¬ (p ≤ a < p + PGSIZE)) → load8 (k_mem s') a = load8 (k_mem s) a) ∧
    s' = set_mem (k_mem s') (set_kern (k_kern s') (set_user (k_user s') s)).
Proof.
  intros Hok Hroot Hkern Hown Hinj.
  destruct (uvm_destroy_run s root pg kl ul Hok Hroot Hkern Hown Hinj) as (s' & T & L & Hr & Hpm & Hsy & Ht & Hn & Hp & Hm & _ & Hf).
  by exists s', T, L.
Qed.

(** ** Witness: one user page mapped at address 0 *)

(** In a table with one page that page is the only one owned. *)
Lemma one_page_owned root t1 t2 va pa perm m σ x :
  table_page t1 → table_page t2 → t1 ≠ t2 → table_page pa → 0 ≤ perm < 1024 → slot_ok σ →
  owned (one_page root t1 t2 va pa perm m) (one_pg root t1 t2 va) σ = Some x → σ = slot_of va ∧ x = pa.
Proof.
  intros Ht1 Ht2 H12 Hpa Hperm. destruct σ as [π k]. intros [Hl Hk]. unfold owned. cbn [fst snd] in *.
  destruct (one_pg root t1 t2 va !! π) as [p|] eqn:Hp; [|done]. cbn [mbind option_bind]. cbv zeta.
  destruct (one_pg_leaf _ _ _ _ _ _ Hp Hl) as [-> ->]. destruct (decide (k = VA_TO_VPN va 0)) as [->|Hne].
  - pose proof (one_page_lookup root t1 t2 va pa perm Hperm m) as Hlk. unfold lookup_pte in Hlk. rewrite Hp in Hlk. rewrite Hlk.
    destruct (is_leaf _); [|done]. intros [= <-]. split; [done|].
    unfold leaf_pte. rewrite <- Z.lor_assoc. apply pte_roundtrip; [done|].
    apply lor_range with (n := 10); unfold PTE_V; lia.
  - by rewrite one_page_slot.
Qed.

Lemma one_page_own root t1 t2 va pa perm m :
  0 ≤ perm < 1024 → is_leaf (leaf_pte pa perm) = true →
  owned (one_page root t1 t2 va pa perm m) (one_pg root t1 t2 va) (slot_of va) = Some (PTE_TO_PA (leaf_pte pa perm)).
Proof.
  intros Hperm Hl. unfold owned, slot_of. cbn [fst snd].
  pose proof (one_page_lookup root t1 t2 va pa perm Hperm m) as Hlk. unfold lookup_pte in Hlk.
  destruct (one_pg root t1 t2 va !! va_path va) as [p|] eqn:Hp; [|unfold one_pg in Hp; by rewrite lookup_insert_eq in Hp].
  cbn [mbind option_bind]. by rewrite Hlk, Hl.
Qed.

Definition tear_pg : ptmap := one_pg 0x80200000 0x80100000 0x80101000 0.

Definition tear_mem : mem := one_page 0x80200000 0x80100000 0x80101000 0 0x80201000 (PTE_R + PTE_U) ∅.

Definition tear_state : kstate :=
  set_locks (<[LkKernRegion := mk_spinlock 0 "kern" (-1)]> {[ LkUserRegion := mk_spinlock 0 "user" (-1) ]})
    (set_kern (mk_region 0x80100000 0x80103000 0 0) (set_user (mk_region 0x80200000 0x80203000 0 0)
       (set_mem tear_mem (zero_state (image_syms 3))))).

Lemma tear_state_mem : k_mem tear_state = tear_mem.
Proof. unfold tear_state. by cbn [k_mem set_locks set_kern set_user set_mem]. Qed.

Lemma tear_owned σ pa : slot_ok σ → user_owned (k_mem tear_state) tear_pg σ = Some pa → σ = slot_of 0 ∧ pa = 0x80201000.
Proof.
  rewrite tear_state_mem. unfold user_owned. case_decide; [done|]. by apply one_page_owned.
Qed.

Lemma tear_own : user_owned (k_mem tear_state) tear_pg (slot_of 0) = Some 0x80201000.
Proof.
  rewrite tear_state_mem. unfold user_owned. rewrite decide_False by (by intros [?|?]). by apply one_page_own.
Qed.

Lemma tear_tables : (map_to_list (delete [] tear_pg)).*2 = [0x80101000; 0x80100000].
Proof. by vm_compute. Qed.

Lemma tear_ok : vm_ok tear_state 0x80200000 tear_pg [] [].
Proof.
  split.
  - rewrite tear_state_mem. by apply one_page_ok.
  - by repeat split; try constructor.
  - split; [by right|by eexists|by eexists].
  - intros π p _. split; apply not_elem_of_nil.
Qed.

Lemma uvm_destroy_pgtbl_correct_witness :
  ∃ s' tables pages, uvm_destroy_pgtbl 0x80200000 tear_state = Ok (tt, s') ∧
    pmem_ok s' (tables ++ []) (0x80200000 :: pages ++ []) ∧ tables ≡ₚ [0x80101000; 0x80100000] ∧
    ∀ pa, pa ∈ pages ↔ pa = 0x80201000.
Proof.
  destruct (uvm_destroy_pgtbl_correct tear_state 0x80200000 tear_pg [] []) as (s' & ts & ps & Hr & Hpm & _ & Ht & _ & Hp & _).
  - apply tear_ok.
  - done.
  - by intros π p Hne [[-> _]|[_ [-> | ->]]]%one_pg_page.
  - intros σ pa Hσ Ho. destruct (tear_owned σ pa Hσ Ho) as [_ ->]. split; [done|]. split; [apply not_elem_of_nil|].
    by intros π p [[_ ->]|[_ [-> | ->]]]%one_pg_page.
  - intros σ σ' pa Hσ Hσ' Ho Ho'. destruct (tear_owned σ pa Hσ Ho) as [-> _], (tear_owned σ' pa Hσ' Ho') as [-> _]. done.
  - exists s', ts, ps. split; [exact Hr|]. clear Hr. split; [exact Hpm|]. rewrite tear_tables in Ht. split; [exact Ht|].
    intros pa. rewrite Hp. split.
    + intros (σ & Hσ & Ho). by destruct (tear_owned σ pa Hσ Ho).
    + intros ->. exists (slot_of 0). split; [done|]. apply tear_own.
Defined.
