(* ===== verification/Inode.v ===== *)
(** * Inodes (kernel/fs/inode.c, include/fs/inode.h)

    The inode cache, the on-disk inode and its 64-byte encoding, the block map of
    direct, indirect and doubly indirect entries, and the reading, writing and
    freeing of the data an inode manages. *)

From S2P Require Import Prelude Bytes Kernel Lock Pmem Vm Sched Virtio Buf Bitmap Uvm.

(** ** Constants and the on-disk format *)

Definition INODE_ROOT : Z := 0.
Definition INODE_DISK_SIZE : Z := 64.
Definition INODE_PER_BLOCK : Z := BLOCK_SIZE / INODE_DISK_SIZE.
Definition N_ADDRS_1 : nat := 10.
Definition N_ADDRS_2 : nat := 2.
Definition N_ADDRS_3 : nat := 1.
Definition N_ADDRS : nat := N_ADDRS_1 + N_ADDRS_2 + N_ADDRS_3.
Definition ENTRY_PER_BLOCK : Z := BLOCK_SIZE / 4.
Definition INODE_MAXSIZE : Z :=
  (Z.of_nat N_ADDRS_1 + Z.of_nat N_ADDRS_2 * ENTRY_PER_BLOCK
   + Z.of_nat N_ADDRS_3 * ENTRY_PER_BLOCK * ENTRY_PER_BLOCK) * BLOCK_SIZE.
Definition FT_UNUSED : Z := 0.
Definition FT_DIR : Z := 1.
Definition FT_FILE : Z := 2.
Definition FT_DEVICE : Z := 3.
Definition INODE_NUM_UNUSED : Z := 0xFFFF.
Definition N_INODE : nat := 32.

(** The 64 bytes from [&ip->type] on. *)
Definition disk_inode (ip : inode) : list Z :=
  le_bytes 2 (i_type ip) ++ le_bytes 2 (i_major ip) ++ le_bytes 2 (i_minor ip) ++
  le_bytes 2 (i_nlink ip) ++ le_bytes 4 (i_size ip) ++ mjoin (le_bytes 4 <$> i_addrs ip).

(** The fields those bytes hold, the others of [ip] kept. *)
Definition load_inode (l : list Z) (ip : inode) : inode :=
  mk_inode (le_val (slice 0 2 l)) (le_val (slice 2 2 l)) (le_val (slice 4 2 l)) (le_val (slice 6 2 l))
    (le_val (slice 8 4 l)) ((λ k, le_val (slice (12 + 4 * k) 4 l)) <$> seq 0 N_ADDRS)
    (inode_num ip) (i_ref ip) (i_valid ip).

(** ** Access to the cache *)

Definition get_inode (i : nat) : K inode := l ← gets (λ s, k_icache s); deref "inode" (l !! i).

Definition upd_inode (i : nat) (f : inode → inode) : K unit :=
  modify (λ s, set_icache (alter f i (k_icache s)) s).

Definition i_set_meta (ty ma mi nl : Z) (x : inode) : inode :=
  mk_inode ty ma mi nl (i_size x) (i_addrs x) (inode_num x) (i_ref x) (i_valid x).
Definition i_set_type (v : Z) (x : inode) : inode := i_set_meta v (i_major x) (i_minor x) (i_nlink x) x.
Definition i_set_nlink (v : Z) (x : inode) : inode := i_set_meta (i_type x) (i_major x) (i_minor x) v x.
Definition i_set_size (v : Z) (x : inode) : inode :=
  mk_inode (i_type x) (i_major x) (i_minor x) (i_nlink x) v (i_addrs x) (inode_num x) (i_ref x) (i_valid x).
Definition i_set_addrs (v : list Z) (x : inode) : inode :=
  mk_inode (i_type x) (i_major x) (i_minor x) (i_nlink x) (i_size x) v (inode_num x) (i_ref x) (i_valid x).
Definition i_set_num (v : Z) (x : inode) : inode :=
  mk_inode (i_type x) (i_major x) (i_minor x) (i_nlink x) (i_size x) (i_addrs x) v (i_ref x) (i_valid x).
Definition i_set_ref (v : Z) (x : inode) : inode :=
  mk_inode (i_type x) (i_major x) (i_minor x) (i_nlink x) (i_size x) (i_addrs x) (inode_num x) v (i_valid x).
Definition i_set_valid (v : bool) (x : inode) : inode :=
  mk_inode (i_type x) (i_major x) (i_minor x) (i_nlink x) (i_size x) (i_addrs x) (inode_num x) (i_ref x) v.

(** ** Metadata *)

Definition inode_init : K unit :=
  spinlock_init LkIcache "icache";;
  for_each (seq 0 N_INODE) (λ i,
    spinlock_init (LkInode i) "inode";;
    upd_inode i (i_set_num INODE_NUM_UNUSED);;
    upd_inode i (i_set_ref 0);;
    upd_inode i (i_set_valid false)).

Section inode.
  Context {B : BlockDevice}.

Definition inode_rw (i : nat) (write : bool) : K unit :=
  ip ← get_inode i;
  sb ← gets (λ s, k_sb s);
  b ← buf_read (u32 (inode_num ip / INODE_PER_BLOCK + inode_start sb));
  let offset := Z.to_nat (inode_num ip mod INODE_PER_BLOCK * INODE_DISK_SIZE) in
  (if write then
     upd_buf b (λ x, buf_set_data (splice offset (disk_inode ip) (data x)) x);;
     buf_write b
   else
     x ← get_buf b;
     upd_inode i (load_inode (slice offset (Z.to_nat INODE_DISK_SIZE) (data x))));;
  buf_release b.

(** The loop of [inode_alloc]: the entry with the number, else the first free one. *)
Fixpoint icache_scan (l : list nat) (inum : Z) (empty : option nat) : K (option nat * bool) :=
  match l with
  | [] => mret (empty, false)
  | i :: l =>
      x ← get_inode i;
      if inode_num x =? inum then mret (Some i, true)
      else icache_scan l inum
             (match empty with None => if i_ref x =? 0 then Some i else None | Some _ => empty end)
  end.

Definition inode_alloc (inum : Z) : K nat :=
  spinlock_acquire LkIcache;;
  r ← icache_scan (seq 0 N_INODE) inum None;
  match r with
  | (Some i, true) =>
      upd_inode i (λ x, i_set_ref (u32 (i_ref x + 1)) x);;
      spinlock_release LkIcache;;
      mret i
  | (Some i, false) =>
      upd_inode i (i_set_num inum);;
      upd_inode i (i_set_ref 1);;
      upd_inode i (i_set_valid false);;
      spinlock_release LkIcache;;
      mret i
  | (None, _) =>
      spinlock_release LkIcache;;
      panic "inode_alloc: no inodes"
  end.

(** [None] is the null pointer. *)
Definition inode_create (type major minor : Z) : K (option nat) :=
  inum ← bitmap_alloc_inode;
  if inum =? 0xFFFF then mret None
  else
    i ← inode_alloc inum;
    spinlock_acquire (LkInode i);;
    upd_inode i (i_set_meta type major minor 1);;
    upd_inode i (i_set_size 0);;
    upd_inode i (i_set_addrs (replicate N_ADDRS 0));;
    upd_inode i (i_set_valid true);;
    inode_rw i true;;
    spinlock_release (LkInode i);;
    mret (Some i).

(** ** The block map *)

(** A [uint32*] to an entry: an element of [ip->addrs] or of the data of a buffer. *)
Inductive entry_ptr := EInode (i k : nat) | EBuf (b k : nat).

Definition get_entry (e : entry_ptr) : K Z :=
  match e with
  | EInode i k => ip ← get_inode i; deref "ip->addrs" (i_addrs ip !! k)
  | EBuf b k => x ← get_buf b; mret (le_val (slice (4 * k) 4 (data x)))
  end.

Definition put_entry (e : entry_ptr) (v : Z) : K unit :=
  match e with
  | EInode i k => upd_inode i (λ x, i_set_addrs (<[k := v]> (i_addrs x)) x)
  | EBuf b k => upd_buf b (λ x, buf_set_data (splice (4 * k) (le_bytes 4 v) (data x)) x)
  end.

(** The recursion divides [size], at most 256*256, by 256: three calls. *)
Fixpoint locate_block (fuel : nat) (e : entry_ptr) (bn size : Z) : K Z :=
  match fuel with
  | O => no_fuel
  | S fuel =>
      v ← get_entry e;
      (if v =? 0 then n ← bitmap_alloc_block; put_entry e n else mret tt);;
      if size =? 1 then get_entry e
      else
        let next_size := size / ENTRY_PER_BLOCK in
        let next_bn := bn mod next_size in
        v ← get_entry e;
        b ← buf_read v;
        ret ← locate_block fuel (EBuf b (Z.to_nat (bn / next_size))) next_bn next_size;
        buf_release b;;
        mret ret
  end.

Definition inode_locate_block (i : nat) (bn : Z) : K Z :=
  if bn <? Z.of_nat N_ADDRS_1 then locate_block 3 (EInode i (Z.to_nat bn)) bn 1
  else
    let bn := bn - Z.of_nat N_ADDRS_1 in
    if bn <? Z.of_nat N_ADDRS_2 * ENTRY_PER_BLOCK then
      let size := ENTRY_PER_BLOCK in
      locate_block 3 (EInode i (N_ADDRS_1 + Z.to_nat (bn / size))) (bn mod size) size
    else
      let bn := bn - Z.of_nat N_ADDRS_2 * ENTRY_PER_BLOCK in
      if bn <? Z.of_nat N_ADDRS_3 * ENTRY_PER_BLOCK * ENTRY_PER_BLOCK then
        let size := ENTRY_PER_BLOCK * ENTRY_PER_BLOCK in
        locate_block 3 (EInode i (N_ADDRS_1 + N_ADDRS_2 + Z.to_nat (bn / size))) (bn mod size) size
      else panic "inode_locate_block: overflow".

(** ** Data *)

(** Where read data goes: a user address, an address in the kernel's identity-mapped
    memory, or a local variable, whose new contents the read returns. *)
Inductive dest := DstUser (va : Z) | DstMem (pa : Z) | DstLocal.

(** Where written data comes from: a user address or kernel bytes. *)
Inductive source := SrcUser (va : Z) | SrcBytes (l : list Z).

Definition my_pgtbl : K Z := me ← myproc_deref; p ← get_proc me; mret (pgtbl p).

(** One block's worth to the destination, [total] bytes after its start. *)
Definition deliver (dst : dest) (total : Z) (bytes : list Z) : K (list Z) :=
  match dst with
  | DstUser va => pt ← my_pgtbl; uvm_copyout pt (u64 (va + total)) bytes;; mret []
  | DstMem pa => modify (λ s, set_mem (store_bytes (k_mem s) (pa + total) bytes) s);; mret []
  | DstLocal => mret bytes
  end.

Definition fetch (src : source) (total m : Z) : K (list Z) :=
  match src with
  | SrcUser va => pt ← my_pgtbl; uvm_copyin pt (u64 (va + total)) m
  | SrcBytes l => mret (slice (Z.to_nat total) (Z.to_nat m) l)
  end.

(** Every iteration but the first and the last handles a whole block. *)
Definition block_fuel (len : Z) : nat := Z.to_nat (len / BLOCK_SIZE) + 2.

Fixpoint read_data_loop (fuel : nat) (i : nat) (offset len total : Z) (dst : dest) : K (Z * list Z) :=
  if total <? len then
    match fuel with
    | O => no_fuel
    | S fuel =>
        let bn := offset / BLOCK_SIZE in
        let off := offset mod BLOCK_SIZE in
        block ← inode_locate_block i bn;
        b ← buf_read block;
        let m := if u32 (len - total) <? BLOCK_SIZE - off then u32 (len - total) else BLOCK_SIZE - off in
        x ← get_buf b;
        l1 ← deliver dst total (slice (Z.to_nat off) (Z.to_nat m) (data x));
        buf_release b;;
        r ← read_data_loop fuel i (u32 (offset + m)) len (u32 (total + m)) dst;
        mret (fst r, l1 ++ snd r)
    end
  else mret (total, []).

(** The count read, and the bytes when the destination is a local variable. *)
Definition inode_read_data (i : nat) (offset len : Z) (dst : dest) : K (Z * list Z) :=
  ip ← get_inode i;
  if i_size ip <? offset then mret (0, [])
  else
    let len := if i_size ip <? u32 (offset + len) then u32 (i_size ip - offset) else len in
    read_data_loop (block_fuel len) i offset len 0 dst.

Fixpoint write_data_loop (fuel : nat) (i : nat) (offset len total : Z) (src : source) : K (Z * Z) :=
  if total <? len then
    match fuel with
    | O => no_fuel
    | S fuel =>
        let bn := offset / BLOCK_SIZE in
        let off := offset mod BLOCK_SIZE in
        block ← inode_locate_block i bn;
        b ← buf_read block;
        let m := if u32 (len - total) <? BLOCK_SIZE - off then u32 (len - total) else BLOCK_SIZE - off in
        bytes ← fetch src total m;
        upd_buf b (λ x, buf_set_data (splice (Z.to_nat off) bytes (data x)) x);;
        buf_write b;;
        buf_release b;;
        write_data_loop fuel i (u32 (offset + m)) len (u32 (total + m)) src
    end
  else mret (total, offset).

Definition inode_write_data (i : nat) (offset len : Z) (src : source) : K Z :=
  if INODE_MAXSIZE <? u32 (offset + len) then mret 0
  else
    r ← write_data_loop (block_fuel len) i offset len 0 src;
    let '(total, offset) := r in
    ip ← get_inode i;
    (if i_size ip <? offset then
       upd_inode i (i_set_size offset);;
       inode_rw i true
     else mret tt);;
    mret total.

(** [for (...) { if(c) break; body }] over the entries of a block. *)
Fixpoint data_free (level : nat) (block_num : Z) : K unit :=
  kassert (negb (block_num =? 0)) "data_free: block_num = 0";;
  match level with
  | O => mret tt
  | S level =>
      b ← buf_read block_num;
      for_return (seq 0 (Z.to_nat ENTRY_PER_BLOCK)) (λ k,
        addr ← get_entry (EBuf b k);
        if addr =? 0 then mret (Some tt)
        else data_free level addr;; mret None);;
      buf_release b
  end;;
  bitmap_free_block block_num.

(** [if(ip->addrs[k]) { free it; ip->addrs[k] = 0; }] *)
Definition free_addr (i : nat) (free : Z → K unit) (k : nat) : K unit :=
  a ← get_entry (EInode i k);
  if a =? 0 then mret tt else free a;; put_entry (EInode i k) 0.

Definition inode_free_data (i : nat) : K unit :=
  for_each (seq 0 N_ADDRS_1) (free_addr i bitmap_free_block);;
  for_each (seq N_ADDRS_1 N_ADDRS_2) (free_addr i (data_free 1));;
  for_each (seq (N_ADDRS_1 + N_ADDRS_2) N_ADDRS_3) (free_addr i (data_free 2));;
  upd_inode i (i_set_size 0).

(** ** References and locks *)

Definition inode_destroy (i : nat) : K unit :=
  spinlock_acquire (LkInode i);;
  inode_free_data i;;
  upd_inode i (i_set_type FT_UNUSED);;
  upd_inode i (i_set_size 0);;
  upd_inode i (i_set_nlink 0);;
  inode_rw i true;;
  spinlock_release (LkInode i);;
  ip ← get_inode i;
  bitmap_free_inode (inode_num ip);;
  upd_inode i (i_set_num INODE_NUM_UNUSED);;
  upd_inode i (i_set_valid false).

Definition inode_free (i : nat) : K unit :=
  spinlock_acquire LkIcache;;
  upd_inode i (λ x, i_set_ref (u32 (i_ref x - 1)) x);;
  ip ← get_inode i;
  (if (i_ref ip =? 0) && (i_nlink ip =? 0) then inode_destroy i else mret tt);;
  spinlock_release LkIcache.

Definition inode_dup (i : nat) : K nat :=
  spinlock_acquire LkIcache;;
  upd_inode i (λ x, i_set_ref (u32 (i_ref x + 1)) x);;
  spinlock_release LkIcache;;
  mret i.

Definition inode_lock (i : nat) : K unit :=
  spinlock_acquire (LkInode i);;
  ip ← get_inode i;
  if i_valid ip then mret tt
  else inode_rw i false;; upd_inode i (i_set_valid true).

Definition inode_unlock (i : nat) : K unit := spinlock_release (LkInode i).

Definition inode_unlock_free (i : nat) : K unit := inode_unlock i;; inode_free i.

Definition inode_types : list string := ["INODE_UNUSED"; "INODE_DIR"; "INODE_FILE"; "INODE_DEVICE"]%string.

Definition inode_print (i : nat) : K unit :=
  h ← spinlock_holding (LkInode i);
  kassert h "inode_print: lk";;
  ip ← get_inode i;
  printf "\ninode information:\n" [];;
  printf "num = %d, ref = %d, valid = %d\n" [inode_num ip; i_ref ip; if i_valid ip then 1 else 0];;
  ty ← deref "inode_types" (inode_types !! Z.to_nat (i_type ip));
  printf ("type = " +:+ ty +:+ ", major = %d, minor = %d, nlink = %d\n") [i_major ip; i_minor ip; i_nlink ip];;
  printf "size = %d, addrs =" [i_size ip];;
  for_each (i_addrs ip) (λ a, printf " %d" [a]);;
  printf "\n" [].

End inode.

(** ** The encoding *)

Record inode_wf (ip : inode) : Prop := {
  iw_type : 0 ≤ i_type ip < 2^16;
  iw_major : 0 ≤ i_major ip < 2^16;
  iw_minor : 0 ≤ i_minor ip < 2^16;
  iw_nlink : 0 ≤ i_nlink ip < 2^16;
  iw_size : 0 ≤ i_size ip < 2^32;
  iw_len : length (i_addrs ip) = N_ADDRS;
  iw_addrs : Forall (λ a, 0 ≤ a < 2^32) (i_addrs ip) }.

Lemma length_disk_inode ip : length (i_addrs ip) = N_ADDRS → length (disk_inode ip) = Z.to_nat INODE_DISK_SIZE.
Proof.
  intros Hl. unfold disk_inode. rewrite !length_app, !length_le_bytes.
  assert (∀ l : list Z, length (mjoin (le_bytes 4 <$> l)) = (4 * length l)%nat) as E.
  { induction l as [|x l IH]; [done|]. rewrite fmap_cons.
    change (mjoin (le_bytes 4 x :: ?l)) with (le_bytes 4 x ++ mjoin l).
    rewrite length_app, length_le_bytes, IH. cbn [length]. lia. }
  rewrite E, Hl. reflexivity.
Qed.

Lemma disk_inode_ok ip : Forall byte_ok (disk_inode ip).
Proof.
  unfold disk_inode. rewrite !Forall_app. repeat split; try apply le_bytes_ok.
  induction (i_addrs ip) as [|x l IH]; [constructor|]. rewrite fmap_cons.
  change (mjoin (le_bytes 4 x :: ?l)) with (le_bytes 4 x ++ mjoin l). apply Forall_app. split; [apply le_bytes_ok|exact IH].
Qed.

(** Loading what was stored gives the fields back. *)
Lemma load_disk_inode ip ip' :
  inode_wf ip → load_inode (disk_inode ip) ip' =
    mk_inode (i_type ip) (i_major ip) (i_minor ip) (i_nlink ip) (i_size ip) (i_addrs ip)
      (inode_num ip') (i_ref ip') (i_valid ip').
Proof.
  intros [Ht Hma Hmi Hnl Hs Hlen Ha]. destruct ip as [ty ma mi nl sz addrs num r v]. simpl in *.
  do 13 (destruct addrs as [|? addrs]; [done|]). destruct addrs; [|done]. clear Hlen.
  repeat match goal with H : Forall _ (_ :: _) |- _ => apply Forall_cons in H as [? H] end.
  unfold load_inode, N_ADDRS, N_ADDRS_1, N_ADDRS_2, N_ADDRS_3. cbn [seq fmap list_fmap Nat.add Nat.mul].
  repeat f_equal;
    match goal with |- _ = ?x =>
      first [ by transitivity (le_val (le_bytes 2 x)); [reflexivity|apply le_val_bytes]
            | by transitivity (le_val (le_bytes 4 x)); [reflexivity|apply le_val_bytes] ]
    end.
Qed.

Section proofs.
  Context {B : BlockDevice}.

(** ** The buffer cache does not look at inodes *)

Lemma bcache_icache h0 H s l : bcache h0 H s → bcache h0 H (set_icache l s).
Proof.
  intros [Hst Hh Hl (r & Hr & Hpl) Hlk Hb Hd Hu Hdv]. split; try done.
  - exists r. split; [|done]. apply (ring_same s); [by intros []|done|done].
  - by apply (dev_idle_frame s).
Qed.

Lemma opened_icache h0 H s b d i n s1 l :
  opened h0 H s b d i n s1 → opened h0 H (set_icache l s) b d i n (set_icache l s1).
Proof.
  intros [Hi Hc Hn Hdat Ed Hs [E L]]. split; try done; [by apply bcache_icache|].
  split; [|done]. by rewrite E.
Qed.

Lemma inode_other i : other_lock (LkInode i).
Proof. split; [done|]. split; [done|]. by intros [?|[? ?]]. Qed.

Lemma fs_frame_icache s s' : fs_frame s s' → k_icache s' = k_icache s.
Proof. intros [-> _]. done. Qed.

Lemma fs_step_icache h0 H s s' D : fs_step h0 H s s' D → k_icache s' = k_icache s.
Proof. intros [_ _ _ F]. by apply fs_frame_icache. Qed.

Lemma fs_step_sb h0 H s s' D : fs_step h0 H s s' D → k_sb s' = k_sb s.
Proof. intros [_ _ _ [-> _]]. done. Qed.

Lemma get_inode_run i s ip : k_icache s !! i = Some ip → get_inode i s = Ok (ip, s).
Proof. intros Hi. unfold get_inode. mrun. by rewrite Hi. Qed.

(** A block the caller may read: it does not hold it and it is on the disk. *)
Record readable (H : gmap nat Z) (D : gmap Z (list Z)) (b : Z) (d : list Z) : Prop := {
  rd_free j : H !! j ≠ Some b;
  rd_range : 0 ≤ b < 2^31;
  rd_disk : D !! b = Some d }.

(** ** [inode_rw] *)

Definition inode_block (sb : super_block) (ip : inode) : Z := u32 (inode_num ip / INODE_PER_BLOCK + inode_start sb).
Definition inode_off (ip : inode) : nat := Z.to_nat (inode_num ip mod INODE_PER_BLOCK * INODE_DISK_SIZE).

Lemma inode_off_bound ip : (inode_off ip + Z.to_nat INODE_DISK_SIZE ≤ Z.to_nat BLOCK_SIZE)%nat.
Proof.
  unfold inode_off, INODE_PER_BLOCK, INODE_DISK_SIZE, BLOCK_SIZE.
  change (1024 / 64) with 16. pose proof (Z.mod_pos_bound (inode_num ip) 16). lia.
Qed.

Lemma inode_write_run h0 H s i ip d :
  bcache h0 H s → (size H < N_BLOCK_BUF)%nat → k_icache s !! i = Some ip →
  readable H (k_disk s) (inode_block (k_sb s) ip) d →
  ∃ s', inode_rw i true s = Ok (tt, s') ∧
    fs_step h0 H s s' (<[inode_block (k_sb s) ip := splice (inode_off ip) (disk_inode ip) d]> (k_disk s)).
Proof.
  intros Hc Hsz Hi [Hf Hr Hd]. unfold inode_rw. run (get_inode_run i s ip Hi). mrun. fold (inode_block (k_sb s) ip).
  destruct (buf_read_open h0 H s (inode_block (k_sb s) ip) d) as (b & n & s1 & Hrd & Ho); try done. run Hrd.
  fold (inode_off ip). mrun.
  destruct (close_write h0 H s (inode_block (k_sb s) ip) d b n s1
    (λ x, buf_set_data (splice (inode_off ip) (disk_inode ip) (data x)) x)) as (s2 & Hcw & Hst); try done.
  exists s2. split; [done|]. simpl in Hst. by rewrite (op_data _ _ _ _ _ _ _ _ Ho) in Hst.
Qed.

(** Reading the inode changes the entry of the cache of inodes and nothing else of it. *)
Lemma inode_read_run h0 H s i ip d :
  bcache h0 H s → (size H < N_BLOCK_BUF)%nat → k_icache s !! i = Some ip →
  readable H (k_disk s) (inode_block (k_sb s) ip) d →
  let l := <[i := load_inode (slice (inode_off ip) (Z.to_nat INODE_DISK_SIZE) d) ip]> (k_icache s) in
  ∃ s', inode_rw i false s = Ok (tt, s') ∧ fs_step h0 H (set_icache l s) s' (k_disk s).
Proof.
  intros Hc Hsz Hi [Hf Hr Hd] l. unfold inode_rw. run (get_inode_run i s ip Hi). mrun. fold (inode_block (k_sb s) ip).
  destruct (buf_read_open h0 H s (inode_block (k_sb s) ip) d) as (b & n & s1 & Hrd & Ho); try done. run Hrd.
  fold (inode_off ip). mrun. run (get_buf_run b s1 n (op_node _ _ _ _ _ _ _ _ Ho)).
  unfold upd_inode. mrun. rewrite (op_data _ _ _ _ _ _ _ _ Ho).
  rewrite (alter_insert _ _ _ ip) by (by rewrite (fs_frame_icache _ _ (op_frame _ _ _ _ _ _ _ _ Ho))).
  rewrite (fs_frame_icache _ _ (op_frame _ _ _ _ _ _ _ _ Ho)).
  apply (opened_icache _ _ _ _ _ _ _ _ l) in Ho.
  apply (close_clean h0 H (set_icache l s) _ d b n _ Ho Hd).
Qed.

(** ** The block map *)

Definition entry_at (d : list Z) (k : Z) : Z := le_val (slice (4 * Z.to_nat k) 4 d).

(** Following an entry [v] through [lvl] levels of indirect blocks to block [bn] of
    its range: the indirect blocks on the way and the block; [None] at a hole. *)
Fixpoint walk (lvl : nat) (D : gmap Z (list Z)) (v bn : Z) : option (list Z * Z) :=
  if v =? 0 then None
  else match lvl with
    | O => Some ([], v)
    | S lvl =>
        d ← D !! v;
        r ← walk lvl D (entry_at d (bn / ENTRY_PER_BLOCK ^ Z.of_nat lvl)) (bn mod ENTRY_PER_BLOCK ^ Z.of_nat lvl);
        Some (v :: fst r, snd r)
    end.

(** The element of [addrs] responsible for block [bn], its level, and the position in
    its range. *)
Definition bmap_root (bn : Z) : nat * nat * Z :=
  if bn <? 10 then (Z.to_nat bn, O, bn)
  else if bn <? 10 + 2 * 256 then ((10 + Z.to_nat ((bn - 10) / 256))%nat, 1%nat, (bn - 10) mod 256)
  else (12%nat, 2%nat, bn - 10 - 2 * 256).

Definition bmap (D : gmap Z (list Z)) (ip : inode) (bn : Z) : option (list Z * Z) :=
  let '(k, lvl, b) := bmap_root bn in v ← i_addrs ip !! k; walk lvl D v b.

(** Blocks that can be held together on top of [H]. *)
Definition holdable (H : gmap nat Z) (p : list Z) : Prop :=
  NoDup p ∧ Forall (λ x, (∀ j, H !! j ≠ Some x) ∧ 0 ≤ x < 2^31) p ∧ (size H + length p ≤ N_BLOCK_BUF)%nat.

Lemma holdable_cons H i x p : H !! i = None → holdable H (x :: p) → holdable (<[i := x]> H) p.
Proof.
  intros Hi (Hnd & Hf & Hsz). apply NoDup_cons in Hnd as [Hx Hnd]. apply Forall_cons in Hf as [_ Hf].
  split; [done|]. split; [|rewrite map_size_insert_None by done; simpl in Hsz; lia].
  rewrite Forall_forall in *. intros y Hy. destruct (Hf y Hy) as [Hj Hr]. split; [|done].
  intros j. destruct (decide (j = i)) as [->|Hne].
  - rewrite lookup_insert_eq. intros [= ->]. done.
  - by rewrite lookup_insert_ne.
Qed.

Lemma locate_block_run lvl : ∀ fuel h0 H s e v bn p blk,
  (lvl < fuel)%nat → bcache h0 H s → get_entry e s = Ok (v, s) →
  walk lvl (k_disk s) v bn = Some (p, blk) → holdable H p →
  ∃ s', locate_block fuel e bn (ENTRY_PER_BLOCK ^ Z.of_nat lvl) s = Ok (blk, s') ∧ fs_step h0 H s s' (k_disk s).
Proof.
  induction lvl as [|lvl IH]; intros [|fuel] h0 H s e v bn p blk Hfu Hc He Hw Hp; try lia;
    cbn [locate_block]; run He; cbn [walk] in Hw; destruct (v =? 0) eqn:Hv; try done; mrun.
  - simplify_eq. rewrite Z.eqb_refl. exists s. split; [done|by apply fs_step_refl].
  - assert (ENTRY_PER_BLOCK ^ Z.of_nat (S lvl) = ENTRY_PER_BLOCK * ENTRY_PER_BLOCK ^ Z.of_nat lvl) as Esz
      by (rewrite Nat2Z.inj_succ, Z.pow_succ_r by lia; done).
    assert (0 < ENTRY_PER_BLOCK ^ Z.of_nat lvl) as Hpos by (apply Z.pow_pos_nonneg; [done|lia]).
    assert (ENTRY_PER_BLOCK = 256) as HE by done.
    rewrite (proj2 (Z.eqb_neq _ 1)) by lia.
    destruct (k_disk s !! v) as [d|] eqn:Hd; [|done]. cbn [mbind option_bind] in Hw.
    destruct (walk lvl (k_disk s) _ _) as [[p1 b1]|] eqn:Hw1; [|done]. simpl in Hw. simplify_eq.
    rewrite Esz, (Z.mul_comm ENTRY_PER_BLOCK), Z.div_mul by lia. run He.
    destruct Hp as (Hnd & Hf & Hsz). pose proof (proj1 (Forall_cons _ _ _) Hf) as [[Hvh Hvr] _].
    destruct (buf_read_open h0 H s v d) as (b & n & s1 & Hr & Ho); try done; [simpl in Hsz; lia|]. run Hr.
    set (k := bn / _). destruct (IH fuel h0 (<[b := v]> H) s1 (EBuf b (Z.to_nat k)) (entry_at d k)
      (bn mod ENTRY_PER_BLOCK ^ Z.of_nat lvl) p1 blk) as (s2 & Hl & Hst).
    + lia.
    + apply Ho.
    + cbn [get_entry]. run (get_buf_run b s1 n (op_node _ _ _ _ _ _ _ _ Ho)). mrun.
      by rewrite (op_data _ _ _ _ _ _ _ _ Ho).
    + by rewrite (op_disk _ _ _ _ _ _ _ _ Ho).
    + apply holdable_cons; [apply Ho|done].
    + run Hl. destruct (opened_step _ _ _ _ _ _ _ _ _ Ho Hst) as [n' Ho2].
      destruct (close_clean _ _ _ _ _ _ _ _ Ho2 Hd) as (s3 & Hcl & Hst3). run Hcl. mrun. by exists s3.
Qed.

(** A mapped block is found, and nothing changes. *)
Lemma inode_locate_run h0 H s i ip bn p blk :
  bcache h0 H s → k_icache s !! i = Some ip → 0 ≤ bn < INODE_MAXSIZE / BLOCK_SIZE →
  bmap (k_disk s) ip bn = Some (p, blk) → holdable H p →
  ∃ s', inode_locate_block i bn s = Ok (blk, s') ∧ fs_step h0 H s s' (k_disk s).
Proof.
  intros Hc Hi Hbn Hm Hp. change (INODE_MAXSIZE / BLOCK_SIZE) with 66058 in Hbn.
  unfold inode_locate_block, bmap, bmap_root in *. change ENTRY_PER_BLOCK with 256.
  change (Z.of_nat N_ADDRS_1) with 10. change (Z.of_nat N_ADDRS_2 * 256) with 512.
  change (Z.of_nat N_ADDRS_3 * 256 * 256) with 65536. change (2 * 256) with 512 in Hm. cbv zeta.
  assert (∀ k v, i_addrs ip !! k = Some v → get_entry (EInode i k) s = Ok (v, s)) as He.
  { intros k v Hk. cbn [get_entry]. run (get_inode_run i s ip Hi). by rewrite Hk. }
  destruct (bn <? 10) eqn:H1; zbool.
  - destruct (i_addrs ip !! Z.to_nat bn) as [v|] eqn:Hv; [|done].
    by apply (locate_block_run 0 3 h0 H s _ v bn p blk ltac:(lia) Hc (He _ _ Hv)).
  - destruct (bn <? 10 + 512) eqn:H2; zbool.
    + rewrite (proj2 (Z.ltb_lt (bn - 10) 512)) by lia.
      destruct (i_addrs ip !! (10 + Z.to_nat ((bn - 10) / 256))%nat) as [v|] eqn:Hv; [|done].
      by apply (locate_block_run 1 3 h0 H s _ v _ p blk ltac:(lia) Hc (He _ _ Hv)).
    + rewrite (proj2 (Z.ltb_ge (bn - 10) 512)), (proj2 (Z.ltb_lt (bn - 10 - 512) 65536)) by lia.
      change (256 * 256) with 65536. rewrite Z.div_small, Z.mod_small by lia.
      destruct (i_addrs ip !! 12%nat) as [v|] eqn:Hv; [|done].
      by apply (locate_block_run 2 3 h0 H s _ v _ p blk ltac:(lia) Hc (He _ _ Hv)).
Qed.

(** ** The contents of a file *)

Definition block_of (D : gmap Z (list Z)) (ip : inode) (bn : Z) : Z := default 0 (snd <$> bmap D ip bn).

Definition byte_at (D : gmap Z (list Z)) (ip : inode) (pos : Z) : Z :=
  default 0 (default [] (D !! block_of D ip (pos / BLOCK_SIZE)) !! Z.to_nat (pos mod BLOCK_SIZE)).

Definition file_bytes (D : gmap Z (list Z)) (ip : inode) (off : Z) (n : nat) : list Z :=
  (λ k, byte_at D ip (off + Z.of_nat k)) <$> seq 0 n.

(** Block [bn] is mapped, and a caller holding [H] can reach it. *)
Record block_ready (H : gmap nat Z) (D : gmap Z (list Z)) (ip : inode) (bn : Z) (p : list Z) (blk : Z)
    (d : list Z) : Prop := {
  br_map : bmap D ip bn = Some (p, blk);
  br_path : holdable H p;
  br_read : readable H D blk d;
  br_len : length d = Z.to_nat BLOCK_SIZE }.

Definition file_ready (H : gmap nat Z) (D : gmap Z (list Z)) (ip : inode) (off len : Z) : Prop :=
  (size H < N_BLOCK_BUF)%nat ∧
  ∀ pos, off ≤ pos < off + len → ∃ p blk d, block_ready H D ip (pos / BLOCK_SIZE) p blk d.

Lemma length_file_bytes D ip off n : length (file_bytes D ip off n) = n.
Proof. unfold file_bytes. by rewrite length_fmap, length_seq. Qed.

Lemma lookup_file_bytes D ip off n k :
  (k < n)%nat → file_bytes D ip off n !! k = Some (byte_at D ip (off + Z.of_nat k)).
Proof. intros Hk. unfold file_bytes. by rewrite list_lookup_fmap, lookup_seq_lt. Qed.

Lemma file_bytes_app D ip off n1 n2 :
  file_bytes D ip off (n1 + n2) = file_bytes D ip off n1 ++ file_bytes D ip (off + Z.of_nat n1) n2.
Proof.
  unfold file_bytes. rewrite seq_app, fmap_app. f_equal. rewrite Nat.add_0_l.
  replace (seq n1 n2) with (Nat.add n1 <$> seq 0 n2) by (by rewrite fmap_add_seq, Nat.add_0_r).
  rewrite <- list_fmap_compose. apply list_fmap_ext. intros k x _. simpl. f_equal. lia.
Qed.

(** One block's share. *)
Lemma file_bytes_block H D ip off m p blk d :
  block_ready H D ip (off / BLOCK_SIZE) p blk d → 0 ≤ off → 0 ≤ m → off mod BLOCK_SIZE + m ≤ BLOCK_SIZE →
  slice (Z.to_nat (off mod BLOCK_SIZE)) (Z.to_nat m) d = file_bytes D ip off (Z.to_nat m).
Proof.
  intros [Hm _ [_ _ Hd] Hl] H0 Hm0 Hbd. apply list_eq. intros k. rewrite lookup_slice.
  pose proof (Z.mod_pos_bound off BLOCK_SIZE ltac:(done)) as Hmod.
  case_decide as Hk; [|symmetry; apply lookup_ge_None; rewrite length_file_bytes; lia].
  rewrite lookup_file_bytes by done. unfold byte_at, block_of.
  assert ((off + Z.of_nat k) / BLOCK_SIZE = off / BLOCK_SIZE ∧
    (off + Z.of_nat k) mod BLOCK_SIZE = off mod BLOCK_SIZE + Z.of_nat k) as [-> ->]
    by (unfold BLOCK_SIZE in *; split; zdiv).
  rewrite Hm. simpl. rewrite Hd. simpl. rewrite Z2Nat.inj_add, Nat2Z.id by lia.
  destruct (lookup_lt_is_Some_2 d (Z.to_nat (off mod BLOCK_SIZE) + k)%nat) as [x ->]; [lia|done].
Qed.

(** What one iteration of a data loop moves, and what is left. *)
Lemma block_chunk off len fuel :
  0 ≤ off < BLOCK_SIZE → 0 < len → off + len ≤ Z.of_nat (S fuel) * BLOCK_SIZE →
  let m := if len <? BLOCK_SIZE - off then len else BLOCK_SIZE - off in
  0 < m ≤ len ∧ off + m ≤ BLOCK_SIZE ∧
  (len - m = 0 ∨ (off + m = BLOCK_SIZE ∧ len - m ≤ Z.of_nat fuel * BLOCK_SIZE)).
Proof. unfold BLOCK_SIZE. intros. cbv zeta. destruct (len <? 1024 - off) eqn:E; zbool; lia. Qed.

Lemma block_fuel_enough off len : 0 ≤ len → off mod BLOCK_SIZE + len ≤ Z.of_nat (block_fuel len) * BLOCK_SIZE.
Proof. intros H. unfold block_fuel, BLOCK_SIZE. zdiv. Qed.

Lemma file_ready_sub H D ip off len m :
  file_ready H D ip off len → 0 ≤ m → file_ready H D ip (off + m) (len - m).
Proof. intros [Hs Hr] Hm. split; [done|]. intros pos Hp. apply Hr. lia. Qed.

(** Locating and opening a mapped block. *)
Lemma open_block_run h0 H s i ip bn p blk d :
  bcache h0 H s → (size H < N_BLOCK_BUF)%nat → k_icache s !! i = Some ip → 0 ≤ bn < INODE_MAXSIZE / BLOCK_SIZE →
  block_ready H (k_disk s) ip bn p blk d →
  ∃ s1 b n s2, inode_locate_block i bn s = Ok (blk, s1) ∧ buf_read blk s1 = Ok (b, s2) ∧
    fs_step h0 H s s1 (k_disk s) ∧ opened h0 H s1 blk d b n s2.
Proof.
  intros Hc Hsz Hi Hbn [Hm Hp [Hf Hr Hd] Hl].
  destruct (inode_locate_run h0 H s i ip bn p blk) as (s1 & Hloc & Hst); try done.
  destruct (buf_read_open h0 H s1 blk d) as (b & n & s2 & Hrd & Ho); try done.
  - apply Hst.
  - by rewrite (fs_disk _ _ _ _ _ Hst).
  - by exists s1, b, n, s2.
Qed.

Lemma read_loop_run fuel : ∀ h0 H s i ip off len total,
  bcache h0 H s → k_icache s !! i = Some ip → 0 ≤ total ≤ len → len < 2^32 → 0 ≤ off →
  off + (len - total) ≤ INODE_MAXSIZE → file_ready H (k_disk s) ip off (len - total) →
  (len - total = 0 ∨ off mod BLOCK_SIZE + (len - total) ≤ Z.of_nat fuel * BLOCK_SIZE) →
  ∃ s', read_data_loop fuel i off len total DstLocal s =
      Ok ((len, file_bytes (k_disk s) ip off (Z.to_nat (len - total))), s') ∧
    fs_step h0 H s s' (k_disk s).
Proof.
  induction fuel as [|fuel IH]; intros h0 H s i ip off len total Hc Hi Ht Hl Ho Hmax Hrdy Hf;
    pose proof (Z.mod_pos_bound off BLOCK_SIZE ltac:(done)) as Hmod; cbn [read_data_loop];
    destruct (total <? len) eqn:Htl; zbool;
    try (assert (total = len) as -> by lia; rewrite Z.sub_diag; exists s; split; [done|by apply fs_step_refl]).
  { lia. }
  assert (INODE_MAXSIZE = 67643392) as HM by done. assert (BLOCK_SIZE = 1024) as HB by done.
  rewrite (u32_small (len - total)) by lia.
  destruct (block_chunk (off mod BLOCK_SIZE) (len - total) fuel) as (Hm & Hbd & Hrest); [done|lia|lia|].
  set (m := if _ <? _ then _ else _) in *. destruct (proj2 Hrdy off ltac:(lia)) as (p & blk & d & Hrd).
  destruct (open_block_run h0 H s i ip (off / BLOCK_SIZE) p blk d) as (s1 & b & n & s2 & Hloc & Hbr & Hst & Hop);
    [done|apply Hrdy|done|change (INODE_MAXSIZE / BLOCK_SIZE) with 66058; rewrite HB; zdiv|done|].
  run Hloc. run Hbr. run (get_buf_run b s2 n (op_node _ _ _ _ _ _ _ _ Hop)). cbn [deliver]. mrun.
  pose proof (fs_disk _ _ _ _ _ Hst) as Ed1.
  destruct (close_clean _ _ _ _ _ _ _ _ Hop) as (s3 & Hcl & Hst3); [rewrite Ed1; apply Hrd|]. run Hcl.
  rewrite Ed1 in Hst3. pose proof (fs_step_trans _ _ _ _ _ _ _ Hst Hst3) as Hst13.
  rewrite !u32_small by lia.
  destruct (IH h0 H s3 i ip (off + m) len (total + m)) as (s4 & Hlp & Hst4).
  - apply Hst13.
  - by rewrite (fs_step_icache _ _ _ _ _ Hst13).
  - lia.
  - done.
  - lia.
  - lia.
  - rewrite (fs_disk _ _ _ _ _ Hst13). replace (len - (total + m)) with (len - total - m) by lia.
    apply file_ready_sub; [done|lia].
  - destruct Hrest as [?|[? ?]]; [left; lia|right]. replace ((off + m) mod BLOCK_SIZE) with 0 by (rewrite HB in *; zdiv). lia.
  - run Hlp. mrun. rewrite (fs_disk _ _ _ _ _ Hst13) in *. exists s4.
    split; [|by eapply fs_step_trans]. do 3 f_equal. cbn [snd]. rewrite (op_data _ _ _ _ _ _ _ _ Hop).
    rewrite (file_bytes_block H (k_disk s) ip off m p blk d) by (done || lia).
    replace (Z.to_nat (len - total)) with (Z.to_nat m + Z.to_nat (len - (total + m)))%nat by lia.
    by rewrite file_bytes_app, Z2Nat.id by lia.
Qed.

(** ** Writing *)

(** The first [nb] blocks of the file do not share blocks with each other or with the
    indirect blocks that lead to them. *)
Definition file_separate (D : gmap Z (list Z)) (ip : inode) (nb : Z) : Prop :=
  ∀ bn bn' p p' blk blk', 0 ≤ bn < nb → 0 ≤ bn' < nb →
    bmap D ip bn = Some (p, blk) → bmap D ip bn' = Some (p', blk') →
    (blk = blk' → bn = bn') ∧ blk ∉ p'.

(** [D'] is [D] after the bytes [l] were written at [off] of the file. *)
Record written (H : gmap nat Z) (D : gmap Z (list Z)) (ip : inode) (nb off : Z) (l : list Z)
    (D' : gmap Z (list Z)) : Prop := {
  wr_map bn : 0 ≤ bn < nb → bmap D' ip bn = bmap D ip bn;
  wr_ready : file_ready H D' ip 0 (nb * BLOCK_SIZE);
  wr_bytes pos : 0 ≤ pos < nb * BLOCK_SIZE → byte_at D' ip pos =
    if decide (off ≤ pos < off + Z.of_nat (length l)) then l !!! Z.to_nat (pos - off) else byte_at D ip pos;
  wr_other x : (∀ bn, 0 ≤ bn < nb → x ≠ block_of D ip bn) → D' !! x = D !! x }.

Lemma walk_insert lvl D v bn p blk x d :
  walk lvl D v bn = Some (p, blk) → x ∉ p → walk lvl (<[x := d]> D) v bn = Some (p, blk).
Proof.
  revert v bn p. induction lvl as [|lvl IH]; intros v bn p Hw Hx; simpl in *; destruct (v =? 0); try done.
  destruct (D !! v) as [d0|] eqn:Hd; [|done]. simpl in Hw.
  destruct (walk lvl D _ _) as [[p1 b1]|] eqn:Hw1; [|done]. simpl in Hw. simplify_eq.
  apply not_elem_of_cons in Hx as [Hne Hx]. rewrite lookup_insert_ne, Hd by done. simpl.
  by rewrite (IH _ _ _ Hw1 Hx).
Qed.

Lemma bmap_insert D ip bn p blk x d :
  bmap D ip bn = Some (p, blk) → x ∉ p → bmap (<[x := d]> D) ip bn = Some (p, blk).
Proof.
  unfold bmap. destruct (bmap_root bn) as [[k lvl] b]. destruct (i_addrs ip !! k) as [v|]; [|done].
  apply walk_insert.
Qed.

Lemma written_nil H D ip nb off :
  file_ready H D ip 0 (nb * BLOCK_SIZE) → written H D ip nb off [] D.
Proof. intros Hr. split; try done. intros pos Hp. rewrite decide_False; [done|]. simpl. lia. Qed.

Lemma file_separate_map D D' ip nb :
  (∀ bn, 0 ≤ bn < nb → bmap D' ip bn = bmap D ip bn) → file_separate D ip nb → file_separate D' ip nb.
Proof.
  intros E Hs bn bn' p p' blk blk' Hb Hb' H1 H2. rewrite E in H1, H2 by done. by apply (Hs bn bn' p p').
Qed.

Lemma written_app H D ip nb off l1 l2 D1 D2 :
  written H D ip nb off l1 D1 → written H D1 ip nb (off + Z.of_nat (length l1)) l2 D2 →
  written H D ip nb off (l1 ++ l2) D2.
Proof.
  intros [M1 R1 B1 O1] [M2 R2 B2 O2]. split; [intros; by rewrite M2, M1|done| |].
  - intros pos Hp. rewrite B2, B1 by done. rewrite length_app.
    destruct (decide (off + Z.of_nat (length l1) ≤ pos < off + Z.of_nat (length l1) + Z.of_nat (length l2))) as [H2|H2].
    + rewrite decide_True by lia. rewrite lookup_total_app_r by lia. f_equal. lia.
    + case_decide as H1; [rewrite decide_True by lia; by rewrite lookup_total_app_l by lia|].
      by rewrite decide_False by lia.
  - intros x Hx. rewrite O2, O1; [done|done|]. intros bn Hbn. unfold block_of. rewrite M1 by done. by apply Hx.
Qed.

(** Writing within one block. *)
Lemma written_block H D ip nb off l p blk d :
  file_ready H D ip 0 (nb * BLOCK_SIZE) → file_separate D ip nb →
  block_ready H D ip (off / BLOCK_SIZE) p blk d → 0 ≤ off → off / BLOCK_SIZE < nb →
  off mod BLOCK_SIZE + Z.of_nat (length l) ≤ BLOCK_SIZE →
  written H D ip nb off l (<[blk := splice (Z.to_nat (off mod BLOCK_SIZE)) l d]> D).
Proof.
  intros Hr Hsep Hb H0 Hnb Hbd. pose proof (Z.mod_pos_bound off BLOCK_SIZE ltac:(done)) as Hmod.
  set (o := Z.to_nat (off mod BLOCK_SIZE)). set (D' := <[blk := _]> D).
  assert (o + length l ≤ length d)%nat as Hlen by (rewrite (br_len _ _ _ _ _ _ _ Hb); unfold o; lia).
  assert (0 ≤ off / BLOCK_SIZE) as Hq by (apply Z.div_pos; [lia|done]).
  assert (∀ bn, 0 ≤ bn < nb → ∃ p' blk' d', block_ready H D ip bn p' blk' d') as Hall.
  { intros bn Hbn. destruct (proj2 Hr (bn * BLOCK_SIZE)) as (p' & b' & d' & H'); [unfold BLOCK_SIZE; lia|].
    rewrite Z.div_mul in H' by done. eauto. }
  assert (∀ bn, 0 ≤ bn < nb → bmap D' ip bn = bmap D ip bn) as Hmap.
  { intros bn Hbn. destruct (Hall bn Hbn) as (p' & b' & d' & H'). rewrite (br_map _ _ _ _ _ _ _ H').
    apply bmap_insert; [apply H'|]. eapply (Hsep (off / BLOCK_SIZE) bn); [lia|done|apply Hb|apply H']. }
  split; [done| | |].
  - split; [apply Hr|]. intros pos Hp. set (bn := pos / BLOCK_SIZE).
    assert (0 ≤ bn < nb) as Hbn by (unfold bn, BLOCK_SIZE in *; zdiv).
    destruct (Hall bn Hbn) as (p' & b' & d' & [Hm' Hp' [F' R' L'] Ln']).
    exists p', b', (if decide (b' = blk) then splice o l d else d').
    split; [by rewrite Hmap|done|split; [done|done|]|].
    + unfold D'. case_decide; [subst; apply lookup_insert_eq|]. by rewrite lookup_insert_ne by done.
    + case_decide; [|done]. rewrite length_splice by done. apply Hb.
  - intros pos Hp. unfold byte_at. set (bn := pos / BLOCK_SIZE).
    assert (0 ≤ bn < nb) as Hbn by (unfold bn, BLOCK_SIZE in *; zdiv).
    unfold block_of. rewrite Hmap by done.
    destruct (Hall bn Hbn) as (p' & b' & d' & H'). rewrite (br_map _ _ _ _ _ _ _ H'). simpl.
    pose proof (Hsep _ _ _ _ _ _ Hbn (conj Hq Hnb) (br_map _ _ _ _ _ _ _ H') (br_map _ _ _ _ _ _ _ Hb)) as [Hinj _].
    unfold D'. destruct (decide (b' = blk)) as [->|Hne].
    + specialize (Hinj eq_refl). rewrite lookup_insert_eq. simpl. rewrite lookup_splice by done.
      rewrite (rd_disk _ _ _ _ (br_read _ _ _ _ _ _ _ Hb)). simpl.
      assert (pos mod BLOCK_SIZE = pos - bn * BLOCK_SIZE ∧ off mod BLOCK_SIZE = off - bn * BLOCK_SIZE) as [E1 E2].
      { split; [unfold bn|rewrite Hinj]; unfold BLOCK_SIZE; zdiv. }
      unfold o. rewrite E1, E2. assert (0 ≤ pos - bn * BLOCK_SIZE) by (rewrite <- E1; apply Z.mod_pos_bound; done).
      destruct (decide (off ≤ pos < off + Z.of_nat (length l))) as [Hin|Hout].
      * rewrite decide_True by lia. replace (Z.to_nat _ - Z.to_nat _)%nat with (Z.to_nat (pos - off)) by lia.
        destruct (lookup_lt_is_Some_2 l (Z.to_nat (pos - off))) as [x Hx]; [lia|].
        by rewrite Hx, (list_lookup_total_correct _ _ _ Hx).
      * by rewrite decide_False by lia.
    + rewrite lookup_insert_ne by done. rewrite decide_False; [done|]. intros Hin. apply Hne.
      assert (bn = off / BLOCK_SIZE) as E by (unfold bn, BLOCK_SIZE in *; zdiv).
      pose proof (br_map _ _ _ _ _ _ _ H') as E1. rewrite E, (br_map _ _ _ _ _ _ _ Hb) in E1. by injection E1.
  - intros x Hx. unfold D'. rewrite lookup_insert_ne; [done|]. intros <-. apply (Hx (off / BLOCK_SIZE)); [lia|].
    unfold block_of. by rewrite (br_map _ _ _ _ _ _ _ Hb).
Qed.

Lemma write_loop_run fuel : ∀ h0 H s i ip nb l off total,
  bcache h0 H s → k_icache s !! i = Some ip → 0 ≤ total ≤ Z.of_nat (length l) → Z.of_nat (length l) < 2^32 →
  0 ≤ off → off + (Z.of_nat (length l) - total) ≤ nb * BLOCK_SIZE → nb * BLOCK_SIZE ≤ INODE_MAXSIZE →
  file_ready H (k_disk s) ip 0 (nb * BLOCK_SIZE) → file_separate (k_disk s) ip nb →
  (Z.of_nat (length l) - total = 0 ∨
   off mod BLOCK_SIZE + (Z.of_nat (length l) - total) ≤ Z.of_nat fuel * BLOCK_SIZE) →
  ∃ s' D', write_data_loop fuel i off (Z.of_nat (length l)) total (SrcBytes l) s =
      Ok ((Z.of_nat (length l), off + (Z.of_nat (length l) - total)), s') ∧
    fs_step h0 H s s' D' ∧ written H (k_disk s) ip nb off (drop (Z.to_nat total) l) D'.
Proof.
  induction fuel as [|fuel IH]; intros h0 H s i ip nb l off total Hc Hi Ht Hl Ho Hhi Hmax Hrdy Hsep Hf;
    pose proof (Z.mod_pos_bound off BLOCK_SIZE ltac:(done)) as Hmod; cbn [write_data_loop];
    destruct (total <? Z.of_nat (length l)) eqn:Htl; zbool;
    try (assert (total = Z.of_nat (length l)) as -> by lia; rewrite Z.sub_diag, Z.add_0_r, Nat2Z.id, drop_all;
         exists s, (k_disk s); split; [done|]; split; [by apply fs_step_refl|by apply written_nil]).
  { lia. }
  assert (INODE_MAXSIZE = 67643392) as HM by done. assert (BLOCK_SIZE = 1024) as HB by done.
  rewrite (u32_small (Z.of_nat (length l) - total)) by lia.
  destruct (block_chunk (off mod BLOCK_SIZE) (Z.of_nat (length l) - total) fuel) as (Hm & Hbd & Hrest); [done|lia|lia|].
  set (m := if _ <? _ then _ else _) in *. destruct (proj2 Hrdy off ltac:(lia)) as (p & blk & d & Hrd).
  destruct (open_block_run h0 H s i ip (off / BLOCK_SIZE) p blk d) as (s1 & b & n & s2 & Hloc & Hbr & Hst & Hop);
    [done|apply Hrdy|done|change (INODE_MAXSIZE / BLOCK_SIZE) with 66058; rewrite HB in *; zdiv|done|].
  run Hloc. run Hbr. cbn [fetch]. mrun. set (bytes := slice _ _ l).
  assert (length bytes = Z.to_nat m) as Hlb by (apply length_slice; lia).
  pose proof (fs_disk _ _ _ _ _ Hst) as Ed1.
  destruct (close_write _ _ _ _ _ _ _ _ (λ x, buf_set_data (splice (Z.to_nat (off mod BLOCK_SIZE)) bytes (data x)) x) Hop)
    as (s3 & Hcw & Hst3); [apply Hrd|rewrite Ed1; apply Hrd|done|done|].
  simpl in Hst3. rewrite (op_data _ _ _ _ _ _ _ _ Hop), Ed1 in Hst3.
  rewrite (seq3_ok _ _ _ _ _ _ _ Hcw).
  pose proof (fs_step_trans _ _ _ _ _ _ _ Hst Hst3) as Hst13. set (D1 := <[blk := _]> (k_disk s)) in *.
  assert (written H (k_disk s) ip nb off bytes D1) as Hw1.
  { apply (written_block H _ ip nb off bytes p blk d); try done; [rewrite HB in *; zdiv|lia]. }
  rewrite !u32_small by lia. pose proof (fs_disk _ _ _ _ _ Hst13) as Ed3.
  destruct (IH h0 H s3 i ip nb l (off + m) (total + m)) as (s4 & D' & Hlp & Hst4 & Hw4); try done; try lia.
  - apply Hst13.
  - by rewrite (fs_step_icache _ _ _ _ _ Hst13).
  - rewrite Ed3. apply Hw1.
  - rewrite Ed3. eapply file_separate_map; [|exact Hsep]. apply Hw1.
  - destruct Hrest as [?|[? ?]]; [left; lia|right]. replace ((off + m) mod BLOCK_SIZE) with 0 by (rewrite HB in *; zdiv). lia.
  - exists s4, D'. split; [rewrite Hlp; do 3 f_equal; lia|]. split; [by eapply fs_step_trans|].
    rewrite Ed3 in Hw4. replace (drop (Z.to_nat total) l) with (bytes ++ drop (Z.to_nat (total + m)) l).
    + eapply written_app; [exact Hw1|]. rewrite Hlb, Z2Nat.id by lia. exact Hw4.
    + replace (drop (Z.to_nat (total + m)) l) with (drop (Z.to_nat m) (drop (Z.to_nat total) l))
        by (rewrite drop_drop; f_equal; lia). apply take_drop.
Qed.

Lemma fs_step_set_icache h0 H s s' D l :
  fs_step h0 H s s' D → fs_step h0 H (set_icache l s) (set_icache l s') D.
Proof.
  intros [Hc Ed Hh [E L]]. split; [by apply bcache_icache|done|done|]. split; [|done]. by rewrite E.
Qed.

(** The inode's own block, [ib], is apart from the first [nb] blocks of the file. *)
Definition inode_apart (D : gmap Z (list Z)) (ip : inode) (nb ib : Z) : Prop :=
  ∀ bn p blk, 0 ≤ bn < nb → bmap D ip bn = Some (p, blk) → ib ≠ blk ∧ ib ∉ p.

(** The size after writing up to [end_]. *)
Definition grown_inode (end_ : Z) (ip : inode) : inode := i_set_size (Z.max (i_size ip) end_) ip.

(** [D'] is the disk after the write, the inode included. *)
Record file_updated (H : gmap nat Z) (D : gmap Z (list Z)) (ip : inode) (nb off : Z) (l : list Z) (ib : Z)
    (D' : gmap Z (list Z)) : Prop := {
  fu_map bn : 0 ≤ bn < nb → bmap D' ip bn = bmap D ip bn;
  fu_ready : file_ready H D' ip 0 (nb * BLOCK_SIZE);
  fu_bytes : file_bytes D' ip 0 (Z.to_nat (nb * BLOCK_SIZE)) =
    splice (Z.to_nat off) l (file_bytes D ip 0 (Z.to_nat (nb * BLOCK_SIZE)));
  fu_inode d : D !! ib = Some d → D' !! ib =
    Some (if i_size ip <? off + Z.of_nat (length l)
          then splice (inode_off ip) (disk_inode (grown_inode (off + Z.of_nat (length l)) ip)) d else d);
  fu_other x : x ≠ ib → (∀ bn, 0 ≤ bn < nb → x ≠ block_of D ip bn) → D' !! x = D !! x }.

Lemma file_bytes_written H D ip nb off l D' :
  written H D ip nb off l D' → 0 ≤ off → off + Z.of_nat (length l) ≤ nb * BLOCK_SIZE →
  file_bytes D' ip 0 (Z.to_nat (nb * BLOCK_SIZE)) =
    splice (Z.to_nat off) l (file_bytes D ip 0 (Z.to_nat (nb * BLOCK_SIZE))).
Proof.
  intros Hw Ho Hl. apply list_eq. intros k. rewrite lookup_splice by (rewrite length_file_bytes; lia).
  destruct (decide (k < Z.to_nat (nb * BLOCK_SIZE))%nat) as [Hk|Hk].
  - rewrite !lookup_file_bytes by done. rewrite (wr_bytes _ _ _ _ _ _ _ Hw) by lia.
    destruct (decide (Z.to_nat off ≤ k < Z.to_nat off + length l)%nat) as [Hin|Hout].
    + rewrite decide_True by lia. symmetry. replace (Z.to_nat (0 + Z.of_nat k - off)) with (k - Z.to_nat off)%nat by lia.
      apply list_lookup_lookup_total_lt. lia.
    + by rewrite decide_False by lia.
  - rewrite decide_False by lia. by rewrite !lookup_ge_None_2 by (rewrite length_file_bytes; lia).
Qed.

Lemma file_ready_insert H D ip nb ib d :
  inode_apart D ip nb ib → file_ready H D ip 0 (nb * BLOCK_SIZE) →
  (∀ bn, 0 ≤ bn < nb → bmap (<[ib := d]> D) ip bn = bmap D ip bn) ∧
  file_ready H (<[ib := d]> D) ip 0 (nb * BLOCK_SIZE) ∧
  file_bytes (<[ib := d]> D) ip 0 (Z.to_nat (nb * BLOCK_SIZE)) = file_bytes D ip 0 (Z.to_nat (nb * BLOCK_SIZE)).
Proof.
  intros Hap [Hsz Hr].
  assert (∀ pos, 0 ≤ pos < nb * BLOCK_SIZE → 0 ≤ pos / BLOCK_SIZE < nb) as Hdiv by (unfold BLOCK_SIZE; intros; zdiv).
  assert (∀ pos, 0 ≤ pos < nb * BLOCK_SIZE → ∃ p blk d', block_ready H D ip (pos / BLOCK_SIZE) p blk d' ∧
    bmap (<[ib := d]> D) ip (pos / BLOCK_SIZE) = Some (p, blk) ∧ ib ≠ blk) as Hall.
  { intros pos Hp. destruct (Hr pos Hp) as (p & blk & d' & Hb). exists p, blk, d'.
    destruct (Hap _ _ _ (Hdiv pos Hp) (br_map _ _ _ _ _ _ _ Hb)) as [Hne Hni]. split; [done|]. split; [|done].
    apply bmap_insert; [apply Hb|done]. }
  split; [|split].
  - intros bn Hbn. destruct (Hall (bn * BLOCK_SIZE)) as (p & blk & d' & Hb & Hm & _); [unfold BLOCK_SIZE; lia|].
    rewrite Z.div_mul in Hb, Hm by done. by rewrite Hm, (br_map _ _ _ _ _ _ _ Hb).
  - split; [done|]. intros pos Hp. destruct (Hall pos Hp) as (p & blk & d' & [? ? [? ? ?] ?] & Hm & Hne).
    exists p, blk, d'. split; try done. split; try done. by rewrite lookup_insert_ne.
  - apply list_fmap_ext. intros k x [-> Hk]%lookup_seq. unfold byte_at, block_of.
    destruct (Hall (0 + Z.of_nat (0 + k))) as (p & blk & d' & Hb & Hm & Hne); [lia|].
    rewrite Hm, (br_map _ _ _ _ _ _ _ Hb). simpl. by rewrite lookup_insert_ne.
Qed.

Lemma inode_write_data_run h0 H s i ip nb l off d :
  let len := Z.of_nat (length l) in let ib := inode_block (k_sb s) ip in
  bcache h0 H s → k_icache s !! i = Some ip → 0 ≤ off → off + len ≤ nb * BLOCK_SIZE →
  nb * BLOCK_SIZE ≤ INODE_MAXSIZE → file_ready H (k_disk s) ip 0 (nb * BLOCK_SIZE) →
  file_separate (k_disk s) ip nb → readable H (k_disk s) ib d → inode_apart (k_disk s) ip nb ib →
  ∃ s' D', inode_write_data i off len (SrcBytes l) s = Ok (len, s') ∧
    fs_step h0 H (set_icache (<[i := grown_inode (off + len) ip]> (k_icache s)) s) s' D' ∧
    file_updated H (k_disk s) ip nb off l ib D'.
Proof.
  intros len ib Hc Hi Ho Hhi Hmax Hrdy Hsep Hib Hap.
  assert (INODE_MAXSIZE = 67643392) as HM by done. unfold inode_write_data.
  rewrite u32_small by lia. rewrite (proj2 (Z.ltb_ge _ _)) by lia.
  destruct (write_loop_run (block_fuel len) h0 H s i ip nb l off 0) as (s1 & D1 & Hlp & Hst & Hw); try done; try lia.
  { right. rewrite Z.sub_0_r. apply block_fuel_enough. lia. }
  rewrite Z.sub_0_r in Hlp. run Hlp. cbn [drop Z.to_nat] in Hw.
  assert (k_icache s1 !! i = Some ip) as Hi1 by (by rewrite (fs_step_icache _ _ _ _ _ Hst)).
  run (get_inode_run i s1 ip Hi1). mrun. fold len.
  assert (D1 !! ib = Some d) as Hd1.
  { rewrite (wr_other _ _ _ _ _ _ _ Hw); [apply Hib|]. intros bn Hbn. unfold block_of.
    destruct (proj2 Hrdy (bn * BLOCK_SIZE)) as (p & blk & d' & Hb); [unfold BLOCK_SIZE; lia|].
    rewrite Z.div_mul in Hb by done. rewrite (br_map _ _ _ _ _ _ _ Hb). simpl. eapply Hap, Hb. done. }
  pose proof (file_bytes_written _ _ _ _ _ _ _ Hw Ho Hhi) as Hfb. fold len.
  destruct (i_size ip <? off + len) eqn:Hgr; zbool.
  - unfold upd_inode. mrun. set (ip' := grown_inode (off + len) ip).
    assert (i_set_size (off + len) ip = ip') as Eip by (unfold ip', grown_inode; f_equal; lia).
    rewrite (alter_insert _ _ _ ip), Eip by done. rewrite (fs_step_icache _ _ _ _ _ Hst).
    set (ic := <[i := ip']> (k_icache s)). pose proof (fs_step_set_icache _ _ _ _ _ ic Hst) as Hst'.
    assert (ib = inode_block (k_sb (set_icache ic s1)) ip') as Eib
      by (cbn [k_sb set_icache]; by rewrite (fs_step_sb _ _ _ _ _ Hst)).
    destruct (inode_write_run h0 H (set_icache ic s1) i ip' d) as (s2 & Hrw & Hst2).
    + apply Hst'.
    + apply Hrdy.
    + cbn [k_icache set_icache]. unfold ic. apply list_lookup_insert_eq. by eapply lookup_lt_Some.
    + rewrite <- Eib. cbn [k_disk set_icache]. rewrite (fs_disk _ _ _ _ _ Hst). destruct Hib. by split.
    + run Hrw. mrun. rewrite <- Eib in Hst2. cbn [k_disk set_icache] in Hst2. rewrite (fs_disk _ _ _ _ _ Hst) in Hst2.
      eexists s2, _. split; [done|]. split; [eapply fs_step_trans; [exact Hst'|exact Hst2]|].
      destruct (file_ready_insert H D1 ip nb ib (splice (inode_off ip') (disk_inode ip') d)) as (M & R & F).
      { intros bn p blk Hbn. rewrite (wr_map _ _ _ _ _ _ _ Hw) by done. by apply Hap. }
      { apply Hw. }
      split; [| |by rewrite F| |].
      * intros bn Hbn. by rewrite M, (wr_map _ _ _ _ _ _ _ Hw).
      * done.
      * intros d0 Hd0. fold len. rewrite (proj2 (Z.ltb_lt _ _) Hgr). rewrite lookup_insert_eq.
        rewrite (rd_disk _ _ _ _ Hib) in Hd0. by simplify_eq.
      * intros x Hx Hxb. rewrite lookup_insert_ne by done. by apply (wr_other _ _ _ _ _ _ _ Hw).
  - mrun. exists s1, D1. split; [done|].
    assert (grown_inode (off + len) ip = ip) as ->
      by (unfold grown_inode; rewrite Z.max_l by lia; by destruct ip).
    rewrite list_insert_id by done. split; [exact Hst|]. split; try apply Hw.
    + done.
    + intros d0 Hd0. fold len. rewrite (proj2 (Z.ltb_ge _ _) Hgr), Hd1. f_equal.
      rewrite (rd_disk _ _ _ _ Hib) in Hd0. by simplify_eq.
    + intros x _ Hx. by apply (wr_other _ _ _ _ _ _ _ Hw).
Qed.

Lemma inode_read_data_run h0 H s i ip off len :
  bcache h0 H s → k_icache s !! i = Some ip → 0 ≤ off → 0 ≤ len → off + len < 2^32 →
  0 ≤ i_size ip ≤ INODE_MAXSIZE →
  let n := Z.max 0 (Z.min len (i_size ip - off)) in
  file_ready H (k_disk s) ip off n →
  ∃ s', inode_read_data i off len DstLocal s = Ok ((n, file_bytes (k_disk s) ip off (Z.to_nat n)), s') ∧
    fs_step h0 H s s' (k_disk s).
Proof.
  intros Hc Hi Ho Hl H32 Hsz n Hrdy. unfold inode_read_data. run (get_inode_run i s ip Hi).
  assert (INODE_MAXSIZE = 67643392) as HM by done.
  destruct (i_size ip <? off) eqn:E; zbool.
  - exists s. replace n with 0 by (unfold n; lia). split; [done|by apply fs_step_refl].
  - rewrite (u32_small (off + len)), (u32_small (i_size ip - off)) by lia.
    replace (if _ <? _ then _ else len) with n by (destruct (i_size ip <? off + len) eqn:E2; zbool; unfold n; lia).
    destruct (read_loop_run (block_fuel n) h0 H s i ip off n 0) as (s' & Hr & Hst);
      rewrite ?Z.sub_0_r in *; try done; try (unfold n in *; lia).
    + right. apply block_fuel_enough. unfold n. lia.
    + exists s'. by split.
Qed.

(** ** The cache of inodes *)

(** Every inode has at most one entry. *)
Definition icache_unique (l : list inode) : Prop :=
  ∀ i j x y, l !! i = Some x → l !! j = Some y → inode_num x = inode_num y →
    inode_num x ≠ INODE_NUM_UNUSED → i = j.

Definition has_num (inum : Z) (x : inode) : Prop := inode_num x = inum.
Definition is_free (x : inode) : Prop := i_ref x = 0.

#[export] Instance has_num_dec inum x : Decision (has_num inum x) := decide (inode_num x = inum).
#[export] Instance is_free_dec x : Decision (is_free x) := decide (i_ref x = 0).

Lemma icache_scan_run s inum n : ∀ k empty,
  (k + n ≤ length (k_icache s))%nat →
  icache_scan (seq k n) inum empty s =
    Ok (match list_find (has_num inum) (take n (drop k (k_icache s))) with
        | Some (j, _) => (Some (k + j)%nat, true)
        | None => (match empty with
                   | Some e => Some e
                   | None => (λ p, (k + fst p)%nat) <$> list_find is_free (take n (drop k (k_icache s)))
                   end, false)
        end, s).
Proof.
  induction n as [|n IH]; intros k empty Hk; [by destruct empty|]. cbn [seq icache_scan].
  destruct (lookup_lt_is_Some_2 (k_icache s) k) as [x Hx]; [lia|].
  run (get_inode_run k s x Hx). rewrite (drop_S _ _ _ Hx). cbn [take list_find].
  destruct (inode_num x =? inum) eqn:E; zbool.
  - rewrite decide_True by done. mrun. do 3 f_equal. f_equal. lia.
  - rewrite decide_False by done. rewrite IH by lia. clear IH.
    destruct (list_find (has_num inum) _) as [[j y]|] eqn:Hf; simpl; [by rewrite Nat.add_succ_r|].
    do 3 f_equal. destruct empty as [e|]; [done|].
    destruct (i_ref x =? 0) eqn:E2; zbool.
    + rewrite (decide_True (P := is_free x)) by done. simpl. f_equal. lia.
    + rewrite (decide_False (P := is_free x)) by done. destruct (list_find is_free _) as [[j y]|]; simpl; [by rewrite Nat.add_succ_r|done].
Qed.

(** The entry [inode_alloc] sets up for an inode that is not cached. *)
Definition fresh_entry (inum : Z) (x : inode) : inode :=
  i_set_valid false (i_set_ref 1 (i_set_num inum x)).

(** The result of [inode_alloc]: the entry of the inode with one reference more, else
    the first free entry set up for it; without either, a panic. *)
Definition alloc_result (inum : Z) (s : kstate) : outcome (nat * kstate) :=
  match list_find (has_num inum) (k_icache s) with
  | Some (i, x) => Ok (i, set_icache (<[i := i_set_ref (u32 (i_ref x + 1)) x]> (k_icache s)) s)
  | None =>
      match list_find is_free (k_icache s) with
      | Some (i, x) => Ok (i, set_icache (<[i := fresh_entry inum x]> (k_icache s)) s)
      | None => Panic "inode_alloc: no inodes"
      end
  end.

Lemma inode_alloc_run s inum :
  hart_stable (k_hart s) → lock_idle LkIcache s → length (k_icache s) = N_INODE →
  inode_alloc inum s = alloc_result inum s.
Proof.
  intros Hst Hid Hl. unfold inode_alloc, alloc_result. run (acquire_run LkIcache s (lock_idle_unlocked _ _ Hid)).
  pose proof (icache_scan_run (acq LkIcache s) inum N_INODE 0 None) as Hs.
  change (k_icache (acq LkIcache s)) with (k_icache s) in Hs. rewrite drop_0, take_ge in Hs by lia.
  run (Hs ltac:(lia)). clear Hs. destruct (list_find (has_num inum) _) as [[i x]|] eqn:Hf; simpl.
  - apply list_find_Some in Hf as (Hx & _). unfold upd_inode. mrun.
    rewrite (release_bind LkIcache s) by done. mrun. by rewrite (alter_insert _ _ _ x Hx).
  - destruct (list_find is_free _) as [[i x]|] eqn:Hg; simpl.
    + apply list_find_Some in Hg as (Hx & _). unfold upd_inode. mrun.
      rewrite (release_bind LkIcache s) by done. mrun. cbn [k_icache set_icache].
      rewrite !alter_alter. change (k_icache (acq LkIcache s)) with (k_icache s).
      by rewrite (alter_insert _ _ _ x Hx).
    + by rewrite (release_bind LkIcache s).
Qed.

Lemma icache_unique_insert l i x :
  icache_unique l → (i < length l)%nat → (∀ j y, l !! j = Some y → j ≠ i → inode_num y ≠ inode_num x) →
  icache_unique (<[i := x]> l).
Proof.
  intros Hu Hi Hne j k y z Hj Hk He Hn.
  destruct (decide (j = i)) as [->|Hji], (decide (k = i)) as [->|Hki]; try done.
  - rewrite list_lookup_insert_eq in Hj by done. rewrite list_lookup_insert_ne in Hk by done. simplify_eq.
    by destruct (Hne k z Hk Hki).
  - rewrite list_lookup_insert_eq in Hk by done. rewrite list_lookup_insert_ne in Hj by done. simplify_eq.
    by destruct (Hne j y Hj Hji).
  - rewrite list_lookup_insert_ne in Hj, Hk by done. by apply (Hu j k y z).
Qed.

Lemma file_bytes_slice D ip off n N :
  (off + n ≤ N)%nat → file_bytes D ip (Z.of_nat off) n = slice off n (file_bytes D ip 0 N).
Proof.
  intros Hn. apply list_eq. intros k. rewrite lookup_slice. case_decide as Hk.
  - rewrite !lookup_file_bytes by lia. do 2 f_equal. lia.
  - apply lookup_ge_None. rewrite length_file_bytes. lia.
Qed.

(** The map and the contents do not depend on the size. *)
Lemma block_ready_grown H D ip e bn p blk d :
  block_ready H D ip bn p blk d → block_ready H D (grown_inode e ip) bn p blk d.
Proof. by intros [? ? ? ?]. Qed.

Lemma file_bytes_grown D ip e off n : file_bytes D (grown_inode e ip) off n = file_bytes D ip off n.
Proof. done. Qed.

(** What was written is there. *)
Lemma updated_bytes H D ip nb off l ib D' :
  file_updated H D ip nb off l ib D' → 0 ≤ off → off + Z.of_nat (length l) ≤ nb * BLOCK_SIZE →
  file_bytes D' ip off (length l) = l.
Proof.
  intros Hfu Ho Hhi. replace off with (Z.of_nat (Z.to_nat off)) by lia.
  rewrite (file_bytes_slice _ _ _ _ (Z.to_nat (nb * BLOCK_SIZE))), (fu_bytes _ _ _ _ _ _ _ _ Hfu) by lia.
  apply slice_splice. rewrite length_file_bytes. lia.
Qed.

(** ** Claims *)

(** what [inode_rw] writes for one entry it reads back into any entry with the same
    number: every on-disk field returns unchanged through the 64-byte encoding, the
    rest of that entry and all other entries stay, and the disk has changed in the
    inode's slot of its block only. *)
Theorem inode_rw_roundtrip (h0 : hart) (H : gmap nat Z) (s : kstate) (i j : nat) (ip jp : inode) (d : list Z) :
  bcache h0 H s → (size H < N_BLOCK_BUF)%nat → k_icache s !! i = Some ip → k_icache s !! j = Some jp →
  inode_num jp = inode_num ip → inode_wf ip → readable H (k_disk s) (inode_block (k_sb s) ip) d →
  length d = Z.to_nat BLOCK_SIZE →
  ∃ s', (inode_rw i true;; inode_rw j false) s = Ok (tt, s') ∧
    k_icache s' = <[j := mk_inode (i_type ip) (i_major ip) (i_minor ip) (i_nlink ip) (i_size ip) (i_addrs ip)
                          (inode_num jp) (i_ref jp) (i_valid jp)]> (k_icache s) ∧
    k_disk s' = <[inode_block (k_sb s) ip := splice (inode_off ip) (disk_inode ip) d]> (k_disk s) ∧
    bcache h0 H s'.
Proof.
  intros Hc Hsz Hi Hj Hnum Hwf Hrd Hl.
  destruct (inode_write_run h0 H s i ip d) as (s1 & Hw & Hst); try done. run Hw.
  pose proof (length_disk_inode ip (iw_len _ Hwf)) as Hlen. pose proof (inode_off_bound ip) as Hob.
  assert (inode_block (k_sb s1) jp = inode_block (k_sb s) ip) as Eb
    by (unfold inode_block; by rewrite (fs_step_sb _ _ _ _ _ Hst), Hnum).
  destruct (inode_read_run h0 H s1 j jp (splice (inode_off ip) (disk_inode ip) d)) as (s2 & Hr & Hst2).
  - apply Hst.
  - done.
  - by rewrite (fs_step_icache _ _ _ _ _ Hst).
  - rewrite Eb, (fs_disk _ _ _ _ _ Hst). destruct Hrd. split; try done. apply lookup_insert_eq.
  - exists s2. split; [done|]. split; [|split; [|apply Hst2]].
    + rewrite (fs_step_icache _ _ _ _ _ Hst2). cbn [k_icache set_icache]. rewrite (fs_step_icache _ _ _ _ _ Hst).
      f_equal. replace (inode_off jp) with (inode_off ip) by (unfold inode_off; by rewrite Hnum).
      rewrite <- Hlen, slice_splice by lia. by apply load_disk_inode.
    + by rewrite (fs_disk _ _ _ _ _ Hst2), (fs_disk _ _ _ _ _ Hst).
Qed.

(** [inode_alloc] returns the inode's cache entry with one reference more, else takes
    the first free entry for it with one reference and invalid contents, else panics;
    no other entry changes, and every inode keeps at most one entry. *)
Theorem inode_alloc_correct (s : kstate) (inum : Z) :
  hart_stable (k_hart s) → lock_idle LkIcache s → length (k_icache s) = N_INODE →
  icache_unique (k_icache s) →
  inode_alloc inum s = alloc_result inum s ∧
  ∀ i s', inode_alloc inum s = Ok (i, s') → icache_unique (k_icache s') ∧
    ∃ x, k_icache s' !! i = Some x ∧ inode_num x = inum.
Proof.
  intros Hst Hid Hl Hu. rewrite (inode_alloc_run s inum Hst Hid Hl). split; [done|]. intros i s'.
  unfold alloc_result. destruct (list_find (has_num inum) _) as [[k x]|] eqn:Hf.
  - intros [= <- <-]. cbn [k_icache set_icache]. apply list_find_Some in Hf as (Hx & Hn & _). pose proof (lookup_lt_Some _ _ _ Hx) as Hk.
    split; [|eexists; split; [by apply list_lookup_insert_eq|done]].
    destruct (decide (inum = INODE_NUM_UNUSED)) as [Hun|Hun].
    + intros a b y z Ha Hb He Hne. unfold has_num in Hn.
      destruct (decide (a = k)) as [->|Hak]; [rewrite list_lookup_insert_eq in Ha by done; simplify_eq/=; congruence|].
      destruct (decide (b = k)) as [->|Hbk]; [rewrite list_lookup_insert_eq in Hb by done; simplify_eq/=; congruence|].
      rewrite list_lookup_insert_ne in Ha, Hb by done. by apply (Hu a b y z).
    + apply icache_unique_insert; [done|done|]. intros j y Hj Hne He. simpl in He.
      apply Hne. symmetry. apply (Hu k j x y); try done. by rewrite Hn.
  - destruct (list_find is_free _) as [[k x]|] eqn:Hg; [|done]. intros [= <- <-].
    apply list_find_Some in Hg as (Hx & _). pose proof (lookup_lt_Some _ _ _ Hx) as Hk.
    split; [|eexists; split; [by apply list_lookup_insert_eq|done]].
    apply icache_unique_insert; [done|done|]. intros j y Hj _ He.
    apply list_find_None in Hf. rewrite Forall_forall in Hf. apply (Hf y); [|done]. by eapply list_elem_of_lookup_2.
Qed.

(** [inode_read_data] into a kernel variable reads exactly the bytes of the file from
    the offset on, through direct, indirect and doubly indirect blocks, cut at the end
    of the file (nothing past it), and changes neither the disk nor any held buffer. *)
Theorem inode_read_data_correct (h0 : hart) (H : gmap nat Z) (s : kstate) (i : nat) (ip : inode) (off len : Z) :
  bcache h0 H s → k_icache s !! i = Some ip → 0 ≤ off → 0 ≤ len → off + len < 2^32 →
  0 ≤ i_size ip ≤ INODE_MAXSIZE →
  let n := Z.max 0 (Z.min len (i_size ip - off)) in
  file_ready H (k_disk s) ip off n →
  ∃ s', inode_read_data i off len DstLocal s = Ok ((n, file_bytes (k_disk s) ip off (Z.to_nat n)), s') ∧
    fs_step h0 H s s' (k_disk s).
Proof. apply inode_read_data_run. Qed.

(** C15: [inode_write_data] within the mapped blocks of a file changes the contents exactly
    in the written range, extends the size when the range ends past it and then stores
    the inode in its slot, and touches no other block; reading the range back returns
    the bytes written. *)
Theorem inode_write_read_roundtrip (h0 : hart) (H : gmap nat Z) (s : kstate) (i : nat) (ip : inode)
    (nb off : Z) (l d : list Z) :
  let len := Z.of_nat (length l) in let ib := inode_block (k_sb s) ip in
  bcache h0 H s → k_icache s !! i = Some ip → 0 ≤ off → off + len ≤ nb * BLOCK_SIZE →
  nb * BLOCK_SIZE ≤ INODE_MAXSIZE → 0 ≤ i_size ip ≤ INODE_MAXSIZE →
  file_ready H (k_disk s) ip 0 (nb * BLOCK_SIZE) → file_separate (k_disk s) ip nb →
  readable H (k_disk s) ib d → inode_apart (k_disk s) ip nb ib →
  ∃ s1 s2 D', inode_write_data i off len (SrcBytes l) s = Ok (len, s1) ∧
    k_icache s1 = <[i := grown_inode (off + len) ip]> (k_icache s) ∧ k_disk s1 = D' ∧
    file_updated H (k_disk s) ip nb off l ib D' ∧
    inode_read_data i off len DstLocal s1 = Ok ((len, l), s2) ∧ bcache h0 H s2 ∧ k_disk s2 = D'.
Proof.
  intros len ib Hc Hi Ho Hhi Hmax Hsz Hrdy Hsep Hib Hap.
  destruct (inode_write_data_run h0 H s i ip nb l off d) as (s1 & D' & Hw & Hst & Hfu); try done.
  pose proof (fs_step_icache _ _ _ _ _ Hst) as Ei. cbn [k_icache set_icache] in Ei. fold len in Hw, Ei.
  pose proof (fs_disk _ _ _ _ _ Hst) as Ed. assert (INODE_MAXSIZE = 67643392) as HM by done.
  set (ip' := grown_inode (off + len) ip) in *.
  destruct (inode_read_data_run h0 H s1 i ip' off len) as (s2 & Hr & Hst2); try lia.
  - apply Hst.
  - rewrite Ei. apply list_lookup_insert_eq. by eapply lookup_lt_Some.
  - unfold ip'. simpl. lia.
  - replace (Z.max 0 _) with len by (unfold ip'; simpl; lia). rewrite Ed.
    destruct (fu_ready _ _ _ _ _ _ _ _ Hfu) as [Hs Hall]. split; [done|]. intros pos Hp.
    destruct (Hall pos) as (p & blk & d' & Hb); [lia|]. exists p, blk, d'. by apply block_ready_grown.
  - replace (Z.max 0 _) with len in Hr by (unfold ip'; simpl; lia). rewrite Ed in Hr, Hst2.
    assert (file_bytes D' ip' off (Z.to_nat len) = l) as El by (unfold ip'; rewrite file_bytes_grown;
      unfold len; rewrite Nat2Z.id; by apply (updated_bytes _ _ _ _ _ _ _ _ Hfu)).
    rewrite El in Hr. exists s1, s2, D'. repeat (split; [done|]). split; [apply Hst2|apply Hst2].
Qed.

End proofs.

(** ** Witnesses *)

(** Inode 3 of a small disk: block 0 of the file is disk block 5; block 10, the first of
    the indirect range, is disk block 7, reached through the indirect block 6. *)
Definition sample_file : inode :=
  mk_inode FT_FILE 0 0 1 11264 ([5] ++ replicate 9 0 ++ [6; 0; 0]) 3 1 true.

Definition sample_files : gmap Z (list Z) :=
  <[2 := replicate 1024 0]> (<[5 := replicate 1024 8]>
    (<[6 := le_bytes 4 7 ++ replicate 1020 0]> {[ 7 := replicate 1024 9 ]})).

Lemma sample_fs ip :
  ∃ s, @bcache virtio_block_device (k_hart sample_boot) ∅ s ∧ k_disk s = sample_files ∧ k_sb s = sample_sb ∧
    k_icache s = [ip].
Proof.
  destruct (booted_cache sample_files sample_sb) as (s & Hc & Ed & Es).
  exists (set_icache [ip] s). split; [by apply bcache_icache|done].
Qed.

Lemma sample_readable b d :
  sample_files !! b = Some d → 0 ≤ b < 2^31 → readable ∅ sample_files b d.
Proof. intros Hd Hb. by split. Qed.

Lemma sample_direct : block_ready ∅ sample_files sample_file 0 [] 5 (replicate 1024 8).
Proof.
  split; [reflexivity| |by apply sample_readable|reflexivity].
  split; [constructor|]. split; [constructor|]. rewrite map_size_empty. simpl. lia.
Qed.

Lemma sample_indirect : block_ready ∅ sample_files sample_file 10 [6] 7 (replicate 1024 9).
Proof.
  split; [reflexivity| |by apply sample_readable|reflexivity].
  split; [apply NoDup_singleton|]. rewrite map_size_empty. split; [by repeat constructor|].
  unfold N_BLOCK_BUF. simpl. lia.
Qed.

(** The first block of the sample file can be written. *)
Lemma sample_mapped :
  file_ready ∅ sample_files sample_file 0 (1 * BLOCK_SIZE) ∧ file_separate sample_files sample_file 1 ∧
  inode_apart sample_files sample_file 1 (inode_block sample_sb sample_file).
Proof.
  assert (∀ bn p blk, 0 ≤ bn < 1 → bmap sample_files sample_file bn = Some (p, blk) → bn = 0 ∧ p = [] ∧ blk = 5) as Hb.
  { intros bn p blk Hbn. assert (bn = 0) as -> by lia. change (Some ([], 5) = Some (p, blk) → 0 = 0 ∧ p = [] ∧ blk = 5).
    by intros [= <- <-]. }
  split; [|split].
  - split; [rewrite map_size_empty; unfold N_BLOCK_BUF; lia|]. intros pos Hp.
    replace (pos / BLOCK_SIZE) with 0 by (unfold BLOCK_SIZE in *; zdiv). eexists _, _, _. apply sample_direct.
  - intros bn bn' p p' blk blk' H1 H2 (-> & -> & ->)%Hb (-> & -> & ->)%Hb; [|done|done].
    split; [done|]. apply not_elem_of_nil.
  - intros bn p blk Hbn (-> & -> & ->)%Hb; [|done]. split; [done|]. apply not_elem_of_nil.
Qed.

Lemma inode_rw_roundtrip_witness :
  ∃ s s', k_icache s = [sample_file] ∧
    (@inode_rw virtio_block_device 0 true;; inode_rw 0 false) s = Ok (tt, s') ∧
    k_icache s' = [sample_file].
Proof.
  destruct (sample_fs sample_file) as (s & Hc & Ed & Es & Ei).
  destruct (@inode_rw_roundtrip virtio_block_device _ ∅ s 0 0 sample_file sample_file (replicate 1024 0) Hc)
    as (s' & Hr & Ei' & _).
  - rewrite map_size_empty. unfold N_BLOCK_BUF. lia.
  - by rewrite Ei.
  - by rewrite Ei.
  - done.
  - split; [done|done|done|done|done|reflexivity|by repeat constructor].
  - rewrite Es, Ed. by apply sample_readable.
  - reflexivity.
  - exists s, s'. split; [exact Ei|]. split; [exact Hr|]. rewrite Ei', Ei. reflexivity.
Defined.

Definition empty_icache : kstate :=
  set_icache (replicate N_INODE (i_set_num INODE_NUM_UNUSED zero_inode))
    (set_locks {[ LkIcache := mk_spinlock 0 "icache" (-1) ]} (zero_state (image_syms 3))).

Lemma inode_alloc_correct_witness :
  ∃ s', inode_alloc 7 empty_icache = Ok (0%nat, s') ∧ icache_unique (k_icache s').
Proof.
  destruct (inode_alloc_correct empty_icache 7) as [Hr Hu].
  - by right.
  - exists "icache"%string. apply (lookup_singleton_eq (M := gmap lockid)).
  - reflexivity.
  - intros i j x y Hi Hj He Hn. apply lookup_replicate in Hi as [-> _]. by destruct Hn.
  - eexists. split; [rewrite Hr; reflexivity|]. by eapply Hu, Hr.
Defined.

Lemma inode_read_data_correct_witness :
  ∃ s s', k_icache s = [sample_file] ∧
    @inode_read_data virtio_block_device 0 (10240 + 1000) 100 DstLocal s = Ok ((24, replicate 24 9), s').
Proof.
  destruct (sample_fs sample_file) as (s & Hc & Ed & Es & Ei).
  destruct (@inode_read_data_correct virtio_block_device _ ∅ s 0 sample_file (10240 + 1000) 100 Hc)
    as (s' & Hr & _).
  - by rewrite Ei.
  - lia.
  - lia.
  - lia.
  - split; [simpl; lia|by vm_compute].
  - rewrite Ed. change (Z.max 0 _) with 24. split; [rewrite map_size_empty; unfold N_BLOCK_BUF; lia|].
    intros pos Hp. replace (pos / BLOCK_SIZE) with 10 by (unfold BLOCK_SIZE; zdiv).
    eexists _, _, _. apply sample_indirect.
  - exists s, s'. split; [exact Ei|]. rewrite Hr, Ed. reflexivity.
Defined.

Lemma inode_write_read_roundtrip_witness :
  ∃ s s1 s2, @inode_write_data virtio_block_device 0 1000 (Z.of_nat 3) (SrcBytes [1; 2; 3]) s = Ok (Z.of_nat 3, s1) ∧
    @inode_read_data virtio_block_device 0 1000 (Z.of_nat 3) DstLocal s1 = Ok ((Z.of_nat 3, [1; 2; 3]), s2).
Proof.
  destruct (sample_fs sample_file) as (s & Hc & Ed & Es & Ei).
  destruct (@inode_write_read_roundtrip virtio_block_device _ ∅ s 0 sample_file 1 1000 [1; 2; 3] (replicate 1024 0) Hc)
    as (s1 & s2 & D' & Hw & _ & _ & _ & Hr & _).
  - by rewrite Ei.
  - lia.
  - by vm_compute.
  - by vm_compute.
  - split; [simpl; lia|by vm_compute].
  - rewrite Ed. apply sample_mapped.
  - rewrite Ed. apply sample_mapped.
  - rewrite Es, Ed. by apply sample_readable.
  - rewrite Es, Ed. apply sample_mapped.
  - exists s, s1, s2. split; [exact Hw|exact Hr].
Defined.
