(* ===== verification/Dir.v ===== *)
(** * Directories and paths (kernel/fs/dir.c, include/fs/dir.h)

    A directory is a file of 32-byte entries (inode number and name).  Searching,
    adding and deleting entries, the resolution of paths, and the creation, linking
    and unlinking of files by path. *)

From S2P Require Import Prelude Bytes Kernel Lock Str Pmem Vm Sched Virtio Buf Bitmap Uvm Inode.

Definition DIR_NAME_LEN : nat := 30.
Definition DIR_PATH_LEN : Z := 128.
Definition DIRENT_SIZE : Z := 32.

(** ** Directory entries as bytes *)

Definition de_bytes (de : dirent) : list Z := le_bytes 2 (d_inode_num de) ++ d_name de.
Definition de_of (l : list Z) : dirent := mk_dirent (le_val (take 2 l)) (drop 2 l).

(** [de.name[0]] *)
Definition de_first (de : dirent) : Z := nth 0 (d_name de) 0.

(** [-1] as a [uint32]. *)
Definition MINUS1 : Z := 0xFFFFFFFF.

(** Strings of the source as character arrays. *)
Definition bytes_of (s : string) : list Z :=
  (λ c, Z.of_N (Ascii.N_of_ascii c)) <$> String.list_ascii_of_string s ++ [Ascii.zero].

(** The characters [%s] prints for a pointer to [l]; in a call of [printf] they stand
    for the argument. *)
Definition c_chars (l : list Z) : option (list Z) := n ← strlen l; Some (take (Z.to_nat n) l).

Section dir.
  Context {B : BlockDevice}.

(** ** Entries *)

Definition dir_check (i : nat) (who : string) : K unit :=
  h ← spinlock_holding (LkInode i);
  kassert h (who +:+ ": lock");;
  ip ← get_inode i;
  kassert (i_type ip =? FT_DIR) (who +:+ ": not dir").

(** One entry read into a local [dirent_t]; the count read. *)
Definition read_dirent (i : nat) (offset : Z) : K (Z * dirent) :=
  r ← inode_read_data i offset DIRENT_SIZE DstLocal;
  mret (fst r, de_of (snd r)).

Definition write_dirent (i : nat) (offset : Z) (de : dirent) : K Z :=
  inode_write_data i offset DIRENT_SIZE (SrcBytes (de_bytes de)).

(** [de.name[0] != 0 && strncmp(name, de.name, DIR_NAME_LEN) == 0] *)
Definition de_matches (name : list Z) (de : dirent) : K bool :=
  if de_first de =? 0 then mret false
  else c ← deref "strncmp" (strncmp name (d_name de) DIR_NAME_LEN); mret (c =? 0).

(** The entries of a directory of size [size] are visited in at most this many steps. *)
Definition dir_fuel (size : Z) : nat := Z.to_nat (size / DIRENT_SIZE) + 2.

Fixpoint dir_search_loop (fuel : nat) (i : nat) (name : list Z) (offset : Z) : K Z :=
  ip ← get_inode i;
  if offset <? i_size ip then
    match fuel with
    | O => no_fuel
    | S fuel =>
        r ← read_dirent i offset;
        (if fst r =? DIRENT_SIZE then mret tt else panic "dir_search_entry: read failed");;
        m ← de_matches name (snd r);
        if m : bool then mret (d_inode_num (snd r))
        else dir_search_loop fuel i name (u32 (offset + DIRENT_SIZE))
    end
  else mret INODE_NUM_UNUSED.

Definition dir_search_entry (i : nat) (name : list Z) : K Z :=
  dir_check i "dir_search_entry";;
  ip ← get_inode i;
  dir_search_loop (dir_fuel (i_size ip)) i name 0.

(** The loop of [dir_add_entry]: the offset of the first unused entry. *)
Fixpoint dir_slot_loop (fuel : nat) (i : nat) (offset : Z) : K Z :=
  if offset <? BLOCK_SIZE then
    match fuel with
    | O => no_fuel
    | S fuel =>
        ip ← get_inode i;
        if offset <? i_size ip then
          r ← read_dirent i offset;
          (if fst r =? DIRENT_SIZE then mret tt else panic "dir_add_entry: read failed");;
          if de_first (snd r) =? 0 then mret offset
          else dir_slot_loop fuel i (u32 (offset + DIRENT_SIZE))
        else mret offset
    end
  else mret offset.

(** [strncpy(de.name, name, DIR_NAME_LEN - 1); de.name[DIR_NAME_LEN - 1] = 0;] on the
    30-byte array [old]. *)
Definition dirent_name (old name : list Z) : option (list Z) :=
  n ← strncpy old name (DIR_NAME_LEN - 1); Some (<[(DIR_NAME_LEN - 1)%nat := 0]> n).

Definition dir_add_entry (i : nat) (inum : Z) (name : list Z) : K Z :=
  dir_check i "dir_add_entry";;
  n ← deref "strlen" (strlen name);
  if Z.of_nat DIR_NAME_LEN <=? n then
    printf "dir_add_entry: name too long\n" [];; mret BLOCK_SIZE
  else
    found ← dir_search_entry i name;
    if negb (found =? INODE_NUM_UNUSED) then
      printf "dir_add_entry: name exists\n" [];; mret BLOCK_SIZE
    else
      offset ← dir_slot_loop (dir_fuel BLOCK_SIZE) i 0;
      if BLOCK_SIZE <=? offset then
        printf "dir_add_entry: directory full\n" [];; mret BLOCK_SIZE
      else
        nm ← deref "strncpy" (dirent_name (replicate DIR_NAME_LEN 0) name);
        w ← write_dirent i offset (mk_dirent inum nm);
        (if w =? DIRENT_SIZE then mret tt else panic "dir_add_entry: write failed");;
        mret offset.

Fixpoint dir_delete_loop (fuel : nat) (i : nat) (name : list Z) (offset : Z) : K Z :=
  ip ← get_inode i;
  if offset <? i_size ip then
    match fuel with
    | O => no_fuel
    | S fuel =>
        r ← read_dirent i offset;
        (if fst r =? DIRENT_SIZE then mret tt else panic "dir_delete_entry: read failed");;
        m ← de_matches name (snd r);
        if m : bool then
          w ← write_dirent i offset (mk_dirent 0 (replicate DIR_NAME_LEN 0));
          (if w =? DIRENT_SIZE then mret tt else panic "dir_delete_entry: write failed");;
          mret (d_inode_num (snd r))
        else dir_delete_loop fuel i name (u32 (offset + DIRENT_SIZE))
    end
  else mret INODE_NUM_UNUSED.

Definition dir_delete_entry (i : nat) (name : list Z) : K Z :=
  dir_check i "dir_delete_entry";;
  ip ← get_inode i;
  dir_delete_loop (dir_fuel (i_size ip)) i name 0.

(** The count, and the bytes when the destination is a local array. *)
Fixpoint dir_get_loop (fuel : nat) (i : nat) (offset total len : Z) (dst : dest) : K (Z * list Z) :=
  ip ← get_inode i;
  if (offset <? i_size ip) && (total + DIRENT_SIZE <=? len) then
    match fuel with
    | O => no_fuel
    | S fuel =>
        r ← read_dirent i offset;
        if fst r =? DIRENT_SIZE then
          if de_first (snd r) =? 0 then dir_get_loop fuel i (u32 (offset + DIRENT_SIZE)) total len dst
          else
            l1 ← deliver dst total (de_bytes (snd r));
            r2 ← dir_get_loop fuel i (u32 (offset + DIRENT_SIZE)) (u32 (total + DIRENT_SIZE)) len dst;
            mret (fst r2, l1 ++ snd r2)
        else mret (total, [])
    end
  else mret (total, []).

Definition dir_get_entries (i : nat) (len : Z) (dst : dest) : K (Z * list Z) :=
  dir_check i "dir_get_entries";;
  ip ← get_inode i;
  dir_get_loop (dir_fuel (i_size ip)) i 0 0 len dst.

Definition dir_print (i : nat) : K unit :=
  h ← spinlock_holding (LkInode i);
  kassert h "dir_print: lock";;
  ip ← get_inode i;
  printf "\ninode_num = %d dirents:\n" [inode_num ip];;
  a0 ← deref "addrs" (i_addrs ip !! O);
  b ← buf_read a0;
  for_each (seq 0 (Z.to_nat (BLOCK_SIZE / DIRENT_SIZE))) (λ k,
    x ← get_buf b;
    let de := drop (k * Z.to_nat DIRENT_SIZE) (data x) in
    if nth 2 de 0 =? 0 then mret tt
    else
      nm ← deref "%s" (c_chars (drop 2 de));
      printf "inum = %d dirent = %s\n" (le_val (take 2 de) :: nm));;
  buf_release b.

(** ** Paths *)

Definition SLASH : Z := 47.

(** A path is the array from the pointer on; [None] reads past its end. *)
Fixpoint skip_slashes (path : list Z) : option (list Z) :=
  match path with
  | [] => None
  | c :: path' => if c =? SLASH then skip_slashes path' else Some path
  end.

(** The element up to a slash or the end, and the rest. *)
Fixpoint path_element (path : list Z) : option (list Z * list Z) :=
  match path with
  | [] => None
  | c :: path' =>
      if (c =? SLASH) || (c =? 0) then Some ([], path)
      else r ← path_element path'; Some (c :: fst r, snd r)
  end.

(** The new path and the new contents of the array [name]; [Some None] is the null
    pointer. *)
Definition skip_element (path name : list Z) : option (option (list Z * list Z)) :=
  p ← skip_slashes path;
  if nth 0 p 0 =? 0 then Some None
  else
    r ← path_element p;
    let '(s, p) := r in
    let name := if (DIR_NAME_LEN <=? length s)%nat then splice 0 (take DIR_NAME_LEN s) name
                else splice 0 (s ++ [0]) name in
    p ← skip_slashes p;
    Some (Some (p, name)).

(** Every turn of the loop consumes a character of the path. *)
Fixpoint search_loop (fuel : nat) (i : nat) (path name : list Z) (find_parent : bool) :
    K (option nat * list Z) :=
  r ← deref "path" (skip_element path name);
  match r with
  | None =>
      if find_parent then inode_free i;; mret (None, name) else mret (Some i, name)
  | Some (path, name) =>
      match fuel with
      | O => no_fuel
      | S fuel =>
          inode_lock i;;
          ip ← get_inode i;
          if negb (i_type ip =? FT_DIR) then inode_unlock_free i;; mret (None, name)
          else if find_parent && (nth 0 path 0 =? 0) then inode_unlock i;; mret (Some i, name)
          else
            inum ← dir_search_entry i name;
            if inum =? INODE_NUM_UNUSED then inode_unlock_free i;; mret (None, name)
            else
              inode_unlock i;;
              next ← inode_alloc inum;
              inode_free i;;
              search_loop fuel next path name find_parent
      end
  end.

Definition search_inode (path name : list Z) (find_parent : bool) : K (option nat * list Z) :=
  c ← deref "path" (head path);
  i ← (if c =? SLASH then inode_alloc INODE_ROOT
       else
         me ← myproc_deref;
         p ← get_proc me;
         d ← deref "cwd" (cwd p);
         inode_dup d);
  search_loop (length path) i path name find_parent.

(** A local [char name[DIR_NAME_LEN]]: [skip_element] writes it before it is read. *)
Definition local_name : list Z := replicate DIR_NAME_LEN 0.

Definition path_to_inode (path : list Z) : K (option nat) :=
  r ← search_inode path local_name false; mret (fst r).

Definition path_to_pinode (path name : list Z) : K (option nat * list Z) :=
  search_inode path name true.

(** 0 or -1 *)
Definition dir_change (path : list Z) : K Z :=
  r ← path_to_inode path;
  match r with
  | None => mret MINUS1
  | Some i =>
      inode_lock i;;
      ip ← get_inode i;
      if negb (i_type ip =? FT_DIR) then inode_unlock_free i;; mret MINUS1
      else
        inode_unlock i;;
        me ← myproc_deref;
        p ← get_proc me;
        (match cwd p with Some d => inode_free d | None => mret tt end);;
        upd_proc me (λ p, mk_proc (pid p) (state p) (parent p) (exit_state p) (sleep_space p) (pgtbl p)
          (heap_top p) (ustack_base p) (ustack_pages p) (p_mmap p) (tf p) (kstack p) (p_ctx p) (Some i)
          (filelist p));;
        mret 0
  end.

(** [ip->nlink += n] on a [uint16]. *)
Definition add_nlink (i : nat) (n : Z) : K unit := upd_inode i (λ x, i_set_nlink (u16 (i_nlink x + n)) x).

Definition path_create_inode (path : list Z) (type major minor : Z) : K (option nat) :=
  r ← path_to_pinode path local_name;
  match r with
  | (None, _) => mret None
  | (Some pip, name) =>
      inode_lock pip;;
      inum ← dir_search_entry pip name;
      if negb (inum =? INODE_NUM_UNUSED) then
        inode_unlock pip;;
        inode_free pip;;
        i ← inode_alloc inum;
        mret (Some i)
      else
        r ← inode_create type major minor;
        match r with
        | None => inode_unlock_free pip;; mret None
        | Some i =>
            inode_lock i;;
            (if type =? FT_DIR then
               add_nlink i 1;;
               inode_rw i true;;
               ip ← get_inode i;
               r ← dir_add_entry i (inode_num ip) (bytes_of ".");
               (if r =? BLOCK_SIZE then panic "path_create_inode: . failed" else mret tt);;
               pp ← get_inode pip;
               r ← dir_add_entry i (inode_num pp) (bytes_of "..");
               (if r =? BLOCK_SIZE then panic "path_create_inode: .. failed" else mret tt)
             else mret tt);;
            ip ← get_inode i;
            r ← dir_add_entry pip (inode_num ip) name;
            if r =? BLOCK_SIZE then
              upd_inode i (i_set_nlink 0);;
              inode_unlock_free i;;
              inode_unlock_free pip;;
              mret None
            else
              (if type =? FT_DIR then add_nlink pip 1;; inode_rw pip true else mret tt);;
              inode_unlock_free pip;;
              inode_unlock i;;
              mret (Some i)
        end
  end.

(** The label [bad] of [path_link]. *)
Definition link_bad (i : nat) : K Z :=
  inode_lock i;;
  add_nlink i (-1);;
  inode_rw i true;;
  inode_unlock_free i;;
  mret MINUS1.

Definition path_link (old_path new_path : list Z) : K Z :=
  r ← path_to_inode old_path;
  match r with
  | None => mret MINUS1
  | Some i =>
      inode_lock i;;
      ip ← get_inode i;
      if i_type ip =? FT_DIR then inode_unlock_free i;; mret MINUS1
      else
        add_nlink i 1;;
        inode_rw i true;;
        inode_unlock i;;
        r ← path_to_pinode new_path local_name;
        match r with
        | (None, _) => link_bad i
        | (Some pip, name) =>
            inode_lock pip;;
            ip ← get_inode i;
            r ← dir_add_entry pip (inode_num ip) name;
            if r =? BLOCK_SIZE then
              inode_unlock_free pip;;
              link_bad i
            else
              inode_unlock_free pip;;
              inode_free i;;
              mret 0
        end
  end.

Definition check_unlink (i : nat) : K bool :=
  h ← spinlock_holding (LkInode i);
  kassert h "check_unlink: slk";;
  r ← dir_get_entries i (DIRENT_SIZE * 3) DstLocal;
  if fst r =? DIRENT_SIZE * 3 then mret false
  else if fst r =? DIRENT_SIZE * 2 then mret true
  else panic "check_unlink: read_len".

Definition path_unlink (path : list Z) : K Z :=
  r ← path_to_pinode path local_name;
  match r with
  | (None, _) => mret MINUS1
  | (Some pip, name) =>
      inode_lock pip;;
      c1 ← deref "strncmp" (strncmp name (bytes_of ".") DIR_NAME_LEN);
      c2 ← deref "strncmp" (strncmp name (bytes_of "..") DIR_NAME_LEN);
      if (c1 =? 0) || (c2 =? 0) then inode_unlock_free pip;; mret MINUS1
      else
        inum ← dir_search_entry pip name;
        if inum =? INODE_NUM_UNUSED then inode_unlock_free pip;; mret MINUS1
        else
          i ← inode_alloc inum;
          inode_lock i;;
          ip ← get_inode i;
          ok ← (if i_type ip =? FT_DIR then
                  c ← check_unlink i;
                  if c : bool then add_nlink pip (-1);; inode_rw pip true;; mret true
                  else mret false
                else mret true);
          if negb (ok : bool) then
            inode_unlock_free i;;
            inode_unlock_free pip;;
            mret MINUS1
          else
            r ← dir_delete_entry pip name;
            (if r =? INODE_NUM_UNUSED then panic "path_unlink: delete_entry failed" else mret tt);;
            inode_unlock_free pip;;
            add_nlink i (-1);;
            inode_rw i true;;
            inode_unlock_free i;;
            mret 0
  end.

End dir.

(** ** A directory in memory and on the disk *)

(** Entry [k] of a directory block. *)
Definition entry (d : list Z) (k : nat) : dirent := de_of (slice (32 * k) 32 d).

Definition entries (d : list Z) (n : nat) : list dirent := entry d <$> seq 0 n.

(** The name is a C string the routines can walk. *)
Definition name_ok (name : list Z) : Prop :=
  Forall byte_ok name ∧ ((DIR_NAME_LEN ≤ length name)%nat ∨ 0 ∈ name).

Definition named (name : list Z) (de : dirent) : Prop :=
  de_first de ≠ 0 ∧ cstr DIR_NAME_LEN name = cstr DIR_NAME_LEN (d_name de).

#[export] Instance named_dec name de : Decision (named name de).
Proof. unfold named. apply _. Defined.

Section proofs.
  Context {B : BlockDevice}.

(** The caller holds the lock of directory [i], whose single data block is [blk] with
    contents [d] and [n] entries. *)
Record dir_ok (h0 : hart) (H : gmap nat Z) (s : kstate) (i : nat) (ip : inode) (blk : Z) (d : list Z)
    (n : nat) : Prop := {
  do_cache : bcache h0 H s;
  do_room : (size H < N_BLOCK_BUF)%nat;
  do_inode : k_icache s !! i = Some ip;
  do_lock : lock_held (LkInode i) s;
  do_type : i_type ip = FT_DIR;
  do_n : i_size ip = 32 * Z.of_nat n ∧ (n ≤ 32)%nat;
  do_addr : i_addrs ip !! O = Some blk ∧ blk ≠ 0;
  do_read : readable H (k_disk s) blk d;
  do_data : block_ok d }.

Lemma dir_ok_step h0 H s s' i ip blk d n :
  dir_ok h0 H s i ip blk d n → fs_step h0 H s s' (k_disk s) → dir_ok h0 H s' i ip blk d n.
Proof.
  intros [Hc Hsz Hi [nm Hl] Ht Hn Ha Hr Hd] Hst. split; try done.
  - apply Hst.
  - by rewrite (fs_step_icache _ _ _ _ _ Hst).
  - exists nm. rewrite (bc_hart _ _ _ (fs_cache _ _ _ _ _ Hst)), <- (bc_hart _ _ _ Hc).
    rewrite (proj2 (fs_rest _ _ _ _ _ Hst)); [done|]. done.
  - by rewrite (fs_disk _ _ _ _ _ Hst).
Qed.

Lemma dir_block_ready h0 H s i ip blk d n :
  dir_ok h0 H s i ip blk d n → block_ready H (k_disk s) ip 0 [] blk d.
Proof.
  intros [Hc Hsz Hi _ _ _ [Ha Hb0] Hr [Hd _]]. split; [|split; [constructor|split; [constructor|simpl; lia]]|done|done].
  change (bmap (k_disk s) ip 0) with (i_addrs ip !! 0%nat ≫= λ v, walk 0 (k_disk s) v 0). rewrite Ha. simpl.
  by rewrite (proj2 (Z.eqb_neq _ _) Hb0).
Qed.

Lemma dir_ready h0 H s i ip blk d n off len :
  dir_ok h0 H s i ip blk d n → 0 ≤ off → off + len ≤ BLOCK_SIZE → file_ready H (k_disk s) ip off len.
Proof.
  intros Hd H0 Hl. split; [apply Hd|]. intros pos Hp. replace (pos / BLOCK_SIZE) with 0 by (unfold BLOCK_SIZE in *; zdiv).
  eexists _, _, _. by eapply dir_block_ready.
Qed.

Lemma dir_check_run h0 H s i ip blk d n who :
  dir_ok h0 H s i ip blk d n → dir_check i who s = Ok (tt, s).
Proof.
  intros Hd. unfold dir_check. destruct (do_lock _ _ _ _ _ _ _ _ Hd) as [nm Hl].
  run (spinlock_holding_run (LkInode i) s). unfold get_lock. rewrite Hl. simpl. rewrite Z.eqb_refl. mrun.
  run (get_inode_run i s ip (do_inode _ _ _ _ _ _ _ _ Hd)). by rewrite (do_type _ _ _ _ _ _ _ _ Hd).
Qed.

(** Reading one entry. *)
Lemma read_dirent_run h0 H s i ip blk d n k :
  dir_ok h0 H s i ip blk d n → (k < n)%nat →
  ∃ s', read_dirent i (32 * Z.of_nat k) s = Ok ((DIRENT_SIZE, entry d k), s') ∧ fs_step h0 H s s' (k_disk s).
Proof.
  intros Hd Hk. destruct (do_n _ _ _ _ _ _ _ _ Hd) as [Hn Hn32]. unfold read_dirent.
  assert (DIRENT_SIZE = 32) as HS by done. assert (BLOCK_SIZE = 1024) as HB by done.
  assert (INODE_MAXSIZE = 67643392) as HM by done.
  destruct (inode_read_data_run h0 H s i ip (32 * Z.of_nat k) DIRENT_SIZE) as (s' & Hr & Hst); try lia.
  - apply Hd.
  - apply Hd.
  - apply (dir_ready h0 H s i ip blk d n); [done|lia|lia].
  - replace (Z.max 0 _) with DIRENT_SIZE in Hr by lia. run Hr. mrun. exists s'. split; [|done].
    do 3 f_equal. cbn [snd]. unfold entry. f_equal.
    rewrite <- (file_bytes_block H (k_disk s) ip (32 * Z.of_nat k) DIRENT_SIZE [] blk d).
    + rewrite HB, Z.mod_small by lia. f_equal. lia.
    + replace (32 * Z.of_nat k / BLOCK_SIZE) with 0 by (rewrite HB; zdiv). by eapply dir_block_ready.
    + lia.
    + lia.
    + rewrite HB, Z.mod_small by lia. lia.
Qed.

Lemma entry_name d k : block_ok d → (k < 32)%nat → length (d_name (entry d k)) = DIR_NAME_LEN ∧ Forall byte_ok (d_name (entry d k)).
Proof.
  intros [Hl Hb] Hk. change (Z.to_nat BLOCK_SIZE) with 1024%nat in Hl. unfold entry, de_of. simpl. split.
  - rewrite length_drop, length_slice by lia. done.
  - apply Forall_drop. by apply slice_ok.
Qed.

Lemma de_matches_run name de s :
  name_ok name → length (d_name de) = DIR_NAME_LEN → Forall byte_ok (d_name de) →
  de_matches name de s = Ok (bool_decide (named name de), s).
Proof.
  intros [Hb Hl] Hd Hdb. unfold de_matches, named. destruct (de_first de =? 0) eqn:E; zbool.
  - rewrite bool_decide_false; [done|]. by intros [? _].
  - destruct (strncmp_total name (d_name de) DIR_NAME_LEN Hl) as [r Hr]; [lia|].
    rewrite Hr. mrun. do 2 f_equal. pose proof (strncmp_eq _ _ _ _ Hb Hdb Hr) as Heq.
    destruct (r =? 0) eqn:Er; zbool.
    + symmetry. apply bool_decide_true. tauto.
    + symmetry. apply bool_decide_false. tauto.
Qed.

(** ** The directory as a finite map *)

Definition used (de : dirent) : Prop := de_first de ≠ 0.

#[local] Instance used_dec de : Decision (used de).
Proof. unfold used. apply _. Defined.

Definition name_of (name : list Z) : list Z := cstr DIR_NAME_LEN name.

Definition dir_assoc (l : list dirent) : list (list Z * Z) :=
  (λ de, (name_of (d_name de), d_inode_num de)) <$> filter used l.

(** The map from names to inode numbers that a list of entries stands for. *)
Definition dir_map (l : list dirent) : gmap (list Z) Z := list_to_map (dir_assoc l).

Definition dir_find (name : list Z) (l : list dirent) : Z :=
  match list_find (named name) l with Some (_, de) => d_inode_num de | None => INODE_NUM_UNUSED end.

Lemma dir_find_cons name de l :
  dir_find name (de :: l) = if decide (named name de) then d_inode_num de else dir_find name l.
Proof.
  unfold dir_find. cbn [list_find]. case_decide; [done|]. by destruct (list_find (named name) l) as [[k x]|].
Qed.

Lemma dir_find_map name l : dir_find name l = default INODE_NUM_UNUSED (dir_map l !! name_of name).
Proof.
  induction l as [|de l IH]; [done|]. rewrite dir_find_cons. unfold dir_map, dir_assoc.
  rewrite filter_cons. case_decide as Hn; case_decide as Hu.
  - rewrite fmap_cons. cbn [list_to_map foldr]. destruct Hn as [_ Hn]. unfold name_of. rewrite Hn.
    simpl. by rewrite lookup_insert_eq.
  - by destruct Hn.
  - rewrite fmap_cons. simpl. rewrite lookup_insert_ne; [done|]. intros E. by apply Hn.
  - done.
Qed.

(** ** Searching *)

Lemma lookup_entries d n k : (k < n)%nat → entries d n !! k = Some (entry d k).
Proof. intros Hk. unfold entries. by rewrite list_lookup_fmap, lookup_seq_lt. Qed.

Lemma entries_S d n k : (k < n)%nat → drop k (entries d n) = entry d k :: drop (S k) (entries d n).
Proof.
  intros Hk. by apply drop_S, lookup_entries.
Qed.

Lemma dir_search_loop_run fuel : ∀ h0 H s i ip blk d n name k,
  dir_ok h0 H s i ip blk d n → name_ok name → (k ≤ n)%nat → (n - k ≤ fuel)%nat →
  ∃ s', dir_search_loop fuel i name (32 * Z.of_nat k) s = Ok (dir_find name (drop k (entries d n)), s') ∧
    fs_step h0 H s s' (k_disk s).
Proof.
  induction fuel as [|fuel IH]; intros h0 H s i ip blk d n name k Hd Hnm Hk Hf; cbn [dir_search_loop];
    run (get_inode_run i s ip (do_inode _ _ _ _ _ _ _ _ Hd));
    destruct (do_n _ _ _ _ _ _ _ _ Hd) as [Hn Hn32]; rewrite Hn;
    (destruct (32 * Z.of_nat k <? 32 * Z.of_nat n) eqn:E; zbool;
      [|assert (k = n) as -> by lia; rewrite drop_ge by (unfold entries; by rewrite length_fmap, length_seq);
        exists s; split; [done|]; apply fs_step_refl; apply Hd]); [lia|].
  destruct (read_dirent_run h0 H s i ip blk d n k Hd ltac:(lia)) as (s1 & Hr & Hst). run Hr.
  cbn [fst snd]. rewrite Z.eqb_refl. mrun.
  destruct (entry_name d k (do_data _ _ _ _ _ _ _ _ Hd) ltac:(lia)) as [El Eb].
  run (de_matches_run name (entry d k) s1 Hnm El Eb). rewrite entries_S, dir_find_cons by lia.
  case_bool_decide as Hm; [rewrite decide_True by done; by exists s1|]. rewrite decide_False by done.
  pose proof (dir_ok_step _ _ _ _ _ _ _ _ _ Hd Hst) as Hd1.
  rewrite u32_small by (unfold DIRENT_SIZE; lia).
  replace (32 * Z.of_nat k + DIRENT_SIZE) with (32 * Z.of_nat (S k)) by (unfold DIRENT_SIZE; lia).
  destruct (IH h0 H s1 i ip blk d n name (S k) Hd1 Hnm ltac:(lia) ltac:(lia)) as (s2 & Hr2 & Hst2).
  exists s2. split; [done|]. rewrite (fs_disk _ _ _ _ _ Hst) in Hst2. by eapply fs_step_trans.
Qed.

Lemma dir_search_run h0 H s i ip blk d n name :
  dir_ok h0 H s i ip blk d n → name_ok name →
  ∃ s', dir_search_entry i name s = Ok (dir_find name (entries d n), s') ∧ fs_step h0 H s s' (k_disk s).
Proof.
  intros Hd Hnm. unfold dir_search_entry. run (dir_check_run h0 H s i ip blk d n "dir_search_entry" Hd).
  run (get_inode_run i s ip (do_inode _ _ _ _ _ _ _ _ Hd)). destruct (do_n _ _ _ _ _ _ _ _ Hd) as [Hn _].
  destruct (dir_search_loop_run (dir_fuel (i_size ip)) h0 H s i ip blk d n name 0 Hd Hnm ltac:(lia))
    as (s' & Hr & Hst); [|by exists s'].
  unfold dir_fuel, DIRENT_SIZE. rewrite Hn, Z.mul_comm, Z.div_mul by lia. lia.
Qed.

(** ** Writing an entry *)

(** What a write of an entry needs besides: the inode's block. *)
Record dir_writable (H : gmap nat Z) (s : kstate) (ip : inode) (blk : Z) (di : list Z) : Prop := {
  dw_inode : readable H (k_disk s) (inode_block (k_sb s) ip) di;
  dw_apart : inode_block (k_sb s) ip ≠ blk }.

Lemma dirent_bytes de : length (d_name de) = DIR_NAME_LEN → length (de_bytes de) = 32%nat.
Proof. intros Hl. unfold de_bytes. rewrite length_app, length_le_bytes, Hl. done. Qed.

(** A file of one block is that block. *)
Lemma file_block H D ip blk y :
  block_ready H D ip 0 [] blk y → file_bytes D ip 0 (Z.to_nat BLOCK_SIZE) = y.
Proof.
  intros Hy. rewrite <- (file_bytes_block H D ip 0 BLOCK_SIZE [] blk y) by done.
  unfold slice. rewrite <- (br_len _ _ _ _ _ _ _ Hy), firstn_all. done.
Qed.

Lemma updated_block H D ip blk d off l ib D' :
  block_ready H D ip 0 [] blk d → file_updated H D ip 1 off l ib D' →
  D' !! blk = Some (splice (Z.to_nat off) l d).
Proof.
  intros Hb Hfu. destruct (proj2 (fu_ready _ _ _ _ _ _ _ _ Hfu) 0) as (p & b' & x & Hx); [done|].
  change (0 / BLOCK_SIZE) with 0 in Hx. pose proof (br_map _ _ _ _ _ _ _ Hx) as Hm.
  rewrite (fu_map _ _ _ _ _ _ _ _ Hfu), (br_map _ _ _ _ _ _ _ Hb) in Hm by lia. injection Hm as <- <-.
  pose proof (fu_bytes _ _ _ _ _ _ _ _ Hfu) as Hfb. change (1 * BLOCK_SIZE) with BLOCK_SIZE in Hfb.
  rewrite (file_block _ _ _ _ _ Hb), (file_block _ _ _ _ _ Hx) in Hfb. subst x. apply Hx.
Qed.

(** Writing entry [k ≤ n]: the block and the size change, nothing else of the directory. *)
(** The block of inode [ip] after a write of its data up to [e]. *)
Definition saved_inode (e : Z) (ip : inode) (di : list Z) : list Z :=
  if i_size ip <? e then splice (inode_off ip) (disk_inode (grown_inode e ip)) di else di.

Lemma write_dirent_run h0 H s i ip blk d di n k de :
  dir_ok h0 H s i ip blk d n → dir_writable H s ip blk di → (k ≤ n)%nat → (k < 32)%nat →
  length (d_name de) = DIR_NAME_LEN → Forall byte_ok (d_name de) →
  let n' := Nat.max n (S k) in let d' := splice (32 * k) (de_bytes de) d in
  let e := 32 * Z.of_nat k + 32 in let ip' := grown_inode e ip in
  ∃ s', write_dirent i (32 * Z.of_nat k) de s = Ok (DIRENT_SIZE, s') ∧ dir_ok h0 H s' i ip' blk d' n' ∧
    fs_step h0 H (set_icache (<[i := ip']> (k_icache s)) s) s'
      (<[inode_block (k_sb s) ip := saved_inode e ip di]> (<[blk := d']> (k_disk s))).
Proof.
  intros Hd [Hib Hap] Hk Hk32 Hdl Hdb n' d' e ip'. destruct (do_n _ _ _ _ _ _ _ _ Hd) as [Hn Hn32].
  pose proof (dirent_bytes de Hdl) as Hlb. pose proof (dir_block_ready _ _ _ _ _ _ _ _ Hd) as Hbr.
  assert (BLOCK_SIZE = 1024) as HB by done. assert (INODE_MAXSIZE = 67643392) as HM by done.
  assert (∀ bn p b', 0 ≤ bn < 1 → bmap (k_disk s) ip bn = Some (p, b') → bn = 0 ∧ p = [] ∧ b' = blk) as Hone.
  { intros bn p b' Hbn. assert (bn = 0) as -> by lia. rewrite (br_map _ _ _ _ _ _ _ Hbr). by intros [= <- <-]. }
  destruct (inode_write_data_run h0 H s i ip 1 (de_bytes de) (32 * Z.of_nat k) di) as (s' & D' & Hw & Hst & Hfu);
    rewrite ?Hlb; try lia; try apply Hd.
  - apply (dir_ready h0 H s i ip blk d n); [done|lia|lia].
  - intros bn bn' p p' b1 b2 H1 H2 (-> & -> & ->)%Hone (-> & -> & ->)%Hone; [|done|done].
    split; [done|]. apply not_elem_of_nil.
  - exact Hib.
  - intros bn p b1 H1 (-> & -> & ->)%Hone; [|done]. split; [done|]. apply not_elem_of_nil.
  - rewrite Hlb in Hw, Hst. unfold write_dirent. change DIRENT_SIZE with (Z.of_nat 32).
    change (grown_inode (32 * Z.of_nat k + Z.of_nat 32) ip) with ip' in *. exists s'. split; [exact Hw|].
    pose proof (fs_disk _ _ _ _ _ Hst) as Ed.
    assert (D' !! blk = Some d') as Hblk.
    { rewrite (updated_block _ _ _ _ _ _ _ _ _ Hbr Hfu). unfold d'. do 2 f_equal. lia. }
    split.
    + destruct (do_lock _ _ _ _ _ _ _ _ Hd) as [nm Hl]. split.
      * apply Hst.
      * apply Hd.
      * rewrite (fs_step_icache _ _ _ _ _ Hst). cbn [k_icache set_icache]. apply list_lookup_insert_eq.
        eapply lookup_lt_Some, Hd.
      * exists nm. rewrite (bc_hart _ _ _ (fs_cache _ _ _ _ _ Hst)), <- (bc_hart _ _ _ (do_cache _ _ _ _ _ _ _ _ Hd)).
        rewrite (proj2 (fs_rest _ _ _ _ _ Hst)); [done|done].
      * apply Hd.
      * unfold ip', n', e, grown_inode. simpl. rewrite Hn. lia.
      * apply Hd.
      * destruct (do_read _ _ _ _ _ _ _ _ Hd). split; [done|done|by rewrite Ed].
      * destruct (do_data _ _ _ _ _ _ _ _ Hd) as [Hl8 Hb8]. split.
        -- unfold d'. rewrite length_splice; [done|]. rewrite Hl8, Hlb, HB. lia.
        -- apply splice_ok; [|done]. apply Forall_app. split; [apply le_bytes_ok|done].
    + replace (<[_ := _]> _) with D'; [exact Hst|]. apply map_eq. intros x. rewrite !lookup_insert.
      case_decide as Hx; [subst x; rewrite (fu_inode _ _ _ _ _ _ _ _ Hfu di (rd_disk _ _ _ _ Hib)), Hlb; done|].
      case_decide as Hxb; [by subst x|]. apply (fu_other _ _ _ _ _ _ _ _ Hfu); [done|].
      intros bn Hbn. assert (bn = 0) as -> by lia. unfold block_of. rewrite (br_map _ _ _ _ _ _ _ Hbr). simpl. congruence.
Qed.

(** ** The effect of a write on the entries *)

Lemma de_of_bytes de : 0 ≤ d_inode_num de < 2^16 → de_of (de_bytes de) = de.
Proof.
  intros H. destruct de as [m nm]. unfold de_of, de_bytes. cbn [d_inode_num d_name] in *.
  rewrite take_app_length' by done. rewrite drop_app_length' by done. f_equal. by apply (le_val_bytes 2).
Qed.

Lemma entry_write d k de j :
  (32 * S k ≤ length d)%nat → length (d_name de) = DIR_NAME_LEN → 0 ≤ d_inode_num de < 2^16 →
  entry (splice (32 * k) (de_bytes de) d) j = if decide (j = k) then de else entry d j.
Proof.
  intros Hd Hl Hn. pose proof (dirent_bytes de Hl) as Hlb. unfold entry. case_decide as E.
  - subst. rewrite <- Hlb at 2. rewrite slice_splice by lia. by apply de_of_bytes.
  - f_equal. apply slice_splice_disjoint; lia.
Qed.

(** The entries before and after the write of entry [k]. *)
Lemma entries_split d n k de :
  (32 * S k ≤ length d)%nat → length (d_name de) = DIR_NAME_LEN → 0 ≤ d_inode_num de < 2^16 → (k ≤ n)%nat →
  ∃ l1 l2, length l1 = k ∧
    entries d n = l1 ++ (if decide (k < n)%nat then [entry d k] else []) ++ l2 ∧
    entries (splice (32 * k) (de_bytes de) d) (Nat.max n (S k)) = l1 ++ de :: l2.
Proof.
  intros Hd Hl Hn Hk. set (d' := splice _ _ _). exists (entry d <$> seq 0 k), (entry d <$> seq (S k) (n - S k)).
  assert (∀ a m, (∀ j, (a ≤ j < a + m)%nat → j ≠ k) → entry d' <$> seq a m = entry d <$> seq a m) as E.
  { intros a m Ha. apply list_fmap_ext. intros j x [-> Hj]%lookup_seq. unfold d'.
    rewrite entry_write by done. rewrite decide_False; [done|]. apply Ha. lia. }
  split; [by rewrite length_fmap, length_seq|]. unfold entries. split.
  - case_decide as Hkn.
    + replace n with (k + S (n - S k))%nat at 1 by lia. by rewrite seq_app, fmap_app.
    + replace n with k by lia. rewrite Nat.sub_succ_r, Nat.sub_diag. by rewrite !app_nil_r.
  - replace (Nat.max n (S k)) with (k + S (n - S k))%nat by lia. rewrite seq_app, fmap_app. cbn [seq].
    rewrite fmap_cons, (E 0%nat k), (E (S (0 + k)) (n - S k)%nat) by lia. f_equal. f_equal.
    unfold d'. rewrite entry_write by done. by rewrite decide_True.
Qed.

Definition dir_unique (l : list dirent) : Prop := NoDup (dir_assoc l).*1.

Lemma dir_assoc_app l1 l2 : dir_assoc (l1 ++ l2) = dir_assoc l1 ++ dir_assoc l2.
Proof. unfold dir_assoc. by rewrite filter_app, fmap_app. Qed.

Lemma dir_assoc_cons de l :
  dir_assoc (de :: l) = if decide (used de) then (name_of (d_name de), d_inode_num de) :: dir_assoc l else dir_assoc l.
Proof. unfold dir_assoc. rewrite filter_cons. by case_decide. Qed.

Lemma dir_map_app l1 l2 : dir_map (l1 ++ l2) = dir_map l1 ∪ dir_map l2.
Proof. unfold dir_map. rewrite dir_assoc_app. apply list_to_map_app. Qed.

Lemma dir_map_cons de l :
  dir_map (de :: l) = if decide (used de) then <[name_of (d_name de) := d_inode_num de]> (dir_map l) else dir_map l.
Proof. unfold dir_map. rewrite dir_assoc_cons. by case_decide. Qed.

Lemma dir_map_none nm l : dir_map l !! nm = None ↔ nm ∉ (dir_assoc l).*1.
Proof. symmetry. apply not_elem_of_list_to_map. Qed.

(** An entry put in an unused place adds its name. *)
Lemma dir_add_map l1 x l2 de :
  used de → Forall (λ y, ¬ used y) x → dir_unique (l1 ++ x ++ l2) →
  dir_map (l1 ++ x ++ l2) !! name_of (d_name de) = None →
  dir_map (l1 ++ de :: l2) = <[name_of (d_name de) := d_inode_num de]> (dir_map (l1 ++ x ++ l2)) ∧
  dir_unique (l1 ++ de :: l2).
Proof.
  intros Hu Hx Huq Hno.
  assert (dir_assoc (l1 ++ x ++ l2) = dir_assoc l1 ++ dir_assoc l2) as Ea.
  { rewrite !dir_assoc_app. f_equal. clear - Hx.
    induction Hx as [|y x Hy Hx IH]; [done|]. by rewrite dir_assoc_cons, decide_False. }
  unfold dir_unique in *. rewrite Ea in Huq. apply dir_map_none in Hno. rewrite Ea, fmap_app in Hno.
  apply not_elem_of_app in Hno as [Hn1 Hn2]. split.
  - unfold dir_map. rewrite Ea, dir_assoc_app, dir_assoc_cons, decide_True by done.
    rewrite !list_to_map_app. simpl. rewrite insert_union_r; [done|]. by apply not_elem_of_list_to_map.
  - rewrite dir_assoc_app, dir_assoc_cons, decide_True, fmap_app, fmap_cons by done.
    apply NoDup_ListNoDup. rewrite <- Permutation_middle. apply NoDup_ListNoDup.
    apply NoDup_cons. split; [by apply not_elem_of_app|]. by rewrite <- fmap_app.
Qed.

(** Clearing the only entry of a name removes it. *)
Lemma dir_delete_map l1 x l2 z :
  used x → ¬ used z → dir_unique (l1 ++ x :: l2) →
  dir_map (l1 ++ z :: l2) = delete (name_of (d_name x)) (dir_map (l1 ++ x :: l2)) ∧ dir_unique (l1 ++ z :: l2).
Proof.
  intros Hx Hz Huq. unfold dir_unique in *.
  rewrite dir_assoc_app, dir_assoc_cons, decide_True, fmap_app, fmap_cons in Huq by done.
  apply NoDup_app in Huq as (H1 & H12 & [Hx2 H2]%NoDup_cons).
  assert (name_of (d_name x) ∉ (dir_assoc l1).*1) as Hx1 by (intros Hin; eapply H12; [exact Hin|left]).
  split.
  - rewrite !dir_map_app, !dir_map_cons, (decide_False (P := used z)), decide_True by done.
    rewrite delete_union, delete_insert_eq, !delete_id; [done|by apply dir_map_none..].
  - rewrite dir_assoc_app, dir_assoc_cons, decide_False, fmap_app by done. apply NoDup_app.
    split; [done|]. split; [|done]. intros y Hy Hy2. eapply H12; [exact Hy|by right].
Qed.

(** ** Adding *)

Definition free_slot (l : list dirent) : nat :=
  match list_find (λ de, ¬ used de) l with Some (k, _) => k | None => length l end.

Lemma free_slot_cons de l : free_slot (de :: l) = if decide (used de) then S (free_slot l) else O.
Proof.
  unfold free_slot. cbn [list_find]. destruct (decide (used de)) as [Hu|Hu].
  - rewrite decide_False by tauto. by destruct (list_find (λ de, ¬ used de) l) as [[k x]|].
  - by rewrite decide_True.
Qed.

Lemma free_slot_split l : (free_slot l ≤ length l)%nat ∧
  ∀ x, l !! free_slot l = Some x → ¬ used x.
Proof.
  unfold free_slot. destruct (list_find _ l) as [[k x]|] eqn:E.
  - apply list_find_Some in E as (Hx & Hu & _). pose proof (lookup_lt_Some _ _ _ Hx).
    split; [lia|]. intros y Hy. by simplify_eq.
  - split; [done|]. intros x Hx%lookup_lt_Some. lia.
Qed.

Lemma length_entries d n : length (entries d n) = n.
Proof. unfold entries. by rewrite length_fmap, length_seq. Qed.

Lemma dir_slot_loop_run fuel : ∀ h0 H s i ip blk d n k,
  dir_ok h0 H s i ip blk d n → (k ≤ n)%nat → (n - k < fuel)%nat →
  ∃ s', dir_slot_loop fuel i (32 * Z.of_nat k) s =
      Ok (32 * Z.of_nat (k + free_slot (drop k (entries d n))), s') ∧ fs_step h0 H s s' (k_disk s).
Proof.
  induction fuel as [|fuel IH]; intros h0 H s i ip blk d n k Hd Hk Hf; [lia|]. cbn [dir_slot_loop].
  destruct (do_n _ _ _ _ _ _ _ _ Hd) as [Hn Hn32]. assert (BLOCK_SIZE = 1024) as HB by done.
  destruct (32 * Z.of_nat k <? BLOCK_SIZE) eqn:E; zbool.
  2:{ assert (k = n) as -> by lia. rewrite drop_ge by (by rewrite length_entries).
      exists s. rewrite Nat.add_0_r. split; [done|]. apply fs_step_refl, Hd. }
  run (get_inode_run i s ip (do_inode _ _ _ _ _ _ _ _ Hd)). rewrite Hn.
  destruct (32 * Z.of_nat k <? 32 * Z.of_nat n) eqn:E2; zbool.
  2:{ assert (k = n) as -> by lia. rewrite drop_ge by (by rewrite length_entries).
      exists s. rewrite Nat.add_0_r. split; [done|]. apply fs_step_refl, Hd. }
  destruct (read_dirent_run h0 H s i ip blk d n k Hd ltac:(lia)) as (s1 & Hr & Hst). run Hr.
  cbn [fst snd]. rewrite Z.eqb_refl. mrun. rewrite entries_S, free_slot_cons by lia.
  destruct (de_first (entry d k) =? 0) eqn:E3; zbool.
  - rewrite decide_False by (unfold used; tauto). rewrite Nat.add_0_r. by exists s1.
  - rewrite decide_True by done. pose proof (dir_ok_step _ _ _ _ _ _ _ _ _ Hd Hst) as Hd1.
    rewrite u32_small by (unfold DIRENT_SIZE; lia).
    replace (32 * Z.of_nat k + DIRENT_SIZE) with (32 * Z.of_nat (S k)) by (unfold DIRENT_SIZE; lia).
    destruct (IH h0 H s1 i ip blk d n (S k) Hd1 ltac:(lia) ltac:(lia)) as (s2 & Hr2 & Hst2).
    exists s2. rewrite (fs_disk _ _ _ _ _ Hst) in Hst2. split; [|by eapply fs_step_trans].
    rewrite Hr2. do 3 f_equal. lia.
Qed.

(** The name stored in a new entry. *)
Lemma cstr_no_nul n l : 0 ∉ cstr n l.
Proof.
  revert l. induction n as [|n IH]; intros [|c l]; simpl; [by apply not_elem_of_nil..|].
  destruct (c =? 0) eqn:E; [by apply not_elem_of_nil|]. zbool.
  apply not_elem_of_cons. split; [done|apply IH].
Qed.

Lemma cstr_pad n l k : 0 ∉ l → (length l < n)%nat → cstr n (l ++ replicate (S k) 0) = l.
Proof.
  revert l. induction n as [|n IH]; intros [|c l] Hz Hl; simpl in *; try lia; [done|].
  apply not_elem_of_cons in Hz as [Hc Hz]. rewrite (proj2 (Z.eqb_neq c 0)) by done.
  f_equal. apply IH; [done|lia].
Qed.

Lemma cstr_take n m l : (m ≤ n)%nat → cstr m l = take m (cstr n l).
Proof.
  revert m l. induction n as [|n IH]; intros [|m] [|c l] Hm; simpl in *; try lia; try done.
  destruct (c =? 0); [done|]. simpl. f_equal. apply IH. lia.
Qed.

Lemma cstr_enough a b l : (length l ≤ a)%nat → (length l ≤ b)%nat → cstr a l = cstr b l.
Proof.
  revert b l. induction a as [|a IH]; intros [|b] [|c l] Ha Hb; simpl in *; try lia; try done.
  destruct (c =? 0); [done|]. f_equal. apply IH; lia.
Qed.

Lemma cstr_ok n l : Forall byte_ok l → Forall byte_ok (cstr n l).
Proof.
  intros Hl. revert n. induction Hl as [|c l Hc Hl IH]; intros [|n]; simpl; try constructor.
  destruct (c =? 0); constructor; auto.
Qed.

Lemma strlen_cstr name n : strlen name = Some n → Z.of_nat DIR_NAME_LEN ≤ n ∨
  n = Z.of_nat (length (name_of name)).
Proof.
  intros Hs. destruct (decide (Z.of_nat DIR_NAME_LEN ≤ n)) as [|Hn]; [by left|right].
  destruct (strlen_spec name n Hs) as [Hr He]. unfold name_of.
  destruct (decide (DIR_NAME_LEN ≤ length name)%nat) as [Hl|Hl].
  - rewrite (cstr_take (length name)), length_take by done. lia.
  - by rewrite (cstr_enough DIR_NAME_LEN (length name)) by lia.
Qed.

Lemma dirent_name_run name n :
  strlen name = Some n → n < Z.of_nat DIR_NAME_LEN → 0 ∈ name →
  dirent_name (replicate DIR_NAME_LEN 0) name =
    Some (name_of name ++ replicate (S (29 - length (name_of name))) 0) ∧ (length (name_of name) ≤ 29)%nat.
Proof.
  intros Hs Hn Hz. destruct (strlen_cstr name n Hs) as [?|E]; [lia|].
  assert (length (name_of name) ≤ 29)%nat as Hl by (unfold DIR_NAME_LEN in *; lia). split; [|done].
  unfold dirent_name. rewrite strncpy_spec; [|simpl; lia|by right].
  rewrite (cstr_take DIR_NAME_LEN) by (unfold DIR_NAME_LEN; lia). fold (name_of name).
  rewrite take_ge by (simpl; lia). cbn [mbind option_bind]. f_equal.
  change (drop (DIR_NAME_LEN - 1) (replicate DIR_NAME_LEN 0)) with [0].
  rewrite <- replicate_cons_app. change (DIR_NAME_LEN - 1)%nat with 29%nat.
  apply list_insert_id. rewrite lookup_app_r by lia. apply lookup_replicate. split; [done|]. lia.
Qed.

(** The entry [dir_add_entry] writes. *)
Lemma new_entry name inum n :
  name_ok name → 0 ∈ name → strlen name = Some n → n < Z.of_nat DIR_NAME_LEN →
  ∃ nm, dirent_name (replicate DIR_NAME_LEN 0) name = Some nm ∧ length nm = DIR_NAME_LEN ∧ Forall byte_ok nm ∧
    name_of nm = name_of name ∧ (name_of name ≠ [] → used (mk_dirent inum nm)).
Proof.
  intros [Hb _] Hz Hs Hn. destruct (dirent_name_run name n Hs Hn Hz) as [E Hl].
  pose proof (cstr_no_nul DIR_NAME_LEN name) as Hnn. fold (name_of name) in Hnn.
  eexists. split; [exact E|]. split; [|split; [|split]].
  - rewrite length_app, length_replicate. unfold DIR_NAME_LEN. lia.
  - apply Forall_app. split; [by apply cstr_ok|]. apply Forall_replicate. by unfold byte_ok.
  - unfold name_of at 1. rewrite cstr_pad; [done|done|unfold DIR_NAME_LEN; lia].
  - intros Hne. unfold used, de_first. simpl. destruct (name_of name) as [|c l]; [done|]. simpl.
    apply not_elem_of_cons in Hnn as [? _]. congruence.
Qed.

Lemma strlen_nul l n : strlen l = Some n → 0 ∈ l.
Proof.
  revert n. induction l as [|c l IH]; intros n Hs; simpl in Hs; [done|].
  destruct (c =? 0) eqn:E; zbool; [subst; left|]. destruct (strlen l) as [k|]; [|done]. right. by eapply IH.
Qed.

(** Names are unique and no entry carries the number that means "none". *)
Definition dir_wf (l : list dirent) : Prop :=
  dir_unique l ∧ Forall (λ de, d_inode_num de ≠ INODE_NUM_UNUSED) l.

Lemma dir_find_none name l : dir_wf l → dir_find name l = INODE_NUM_UNUSED → dir_map l !! name_of name = None.
Proof.
  intros [_ Hf] E. rewrite dir_find_map in E. destruct (dir_map l !! name_of name) as [v|] eqn:Hv; [|done].
  exfalso. simpl in E. subst v. apply elem_of_list_to_map_2 in Hv. unfold dir_assoc in Hv.
  apply list_elem_of_fmap in Hv as (de & [= _ E] & Hde). apply list_elem_of_filter in Hde as [_ Hde].
  rewrite Forall_forall in Hf. by apply (Hf de Hde).
Qed.

(** The state after an entry was added or removed: the directory has the entries [l'], its
    inode has grown to the size [e] when the entry was appended, and of the disk only its
    data block and its inode's block, which was [di], have changed. *)
Definition dir_changed (h0 : hart) (H : gmap nat Z) (s : kstate) (i : nat) (ip : inode) (blk : Z) (di : list Z)
    (l' : list dirent) (s' : kstate) : Prop :=
  ∃ e d' n', let ip' := grown_inode e ip in
    dir_ok h0 H s' i ip' blk d' n' ∧ entries d' n' = l' ∧
    fs_step h0 H (set_icache (<[i := ip']> (k_icache s)) s) s'
      (<[inode_block (k_sb s) ip := saved_inode e ip di]> (<[blk := d']> (k_disk s))).

Lemma dir_changed_same h0 H s i ip blk d di n s' :
  dir_ok h0 H s i ip blk d n → dir_writable H s ip blk di → fs_step h0 H s s' (k_disk s) →
  dir_changed h0 H s i ip blk di (entries d n) s'.
Proof.
  intros Hd [Hw _] Hst. exists 0, d, n. destruct (do_n _ _ _ _ _ _ _ _ Hd) as [Hn _].
  assert (grown_inode 0 ip = ip) as -> by (unfold grown_inode; rewrite Z.max_l by lia; by destruct ip).
  split; [by eapply dir_ok_step|]. split; [done|]. rewrite list_insert_id by apply Hd.
  replace (set_icache (k_icache s) s) with s by (by destruct s). unfold saved_inode.
  rewrite (proj2 (Z.ltb_ge _ _)) by lia. rewrite (insert_id _ blk) by apply Hd. by rewrite insert_id by apply Hw.
Qed.

Lemma dir_writable_step h0 H s s' ip blk di :
  dir_writable H s ip blk di → fs_step h0 H s s' (k_disk s) → dir_writable H s' ip blk di.
Proof.
  intros [Hi Ha] Hst. split; rewrite (fs_step_sb _ _ _ _ _ Hst); [by rewrite (fs_disk _ _ _ _ _ Hst)|done].
Qed.

(** Putting entry [k]. *)
Lemma put_entry_run h0 H s0 s i ip blk d di n k de :
  dir_ok h0 H s0 i ip blk d n → dir_writable H s0 ip blk di → fs_step h0 H s0 s (k_disk s0) →
  (k ≤ n)%nat → (k < 32)%nat → length (d_name de) = DIR_NAME_LEN → Forall byte_ok (d_name de) →
  0 ≤ d_inode_num de < 2^16 →
  ∃ s' l1 l2, write_dirent i (32 * Z.of_nat k) de s = Ok (DIRENT_SIZE, s') ∧ length l1 = k ∧
    entries d n = l1 ++ (if decide (k < n)%nat then [entry d k] else []) ++ l2 ∧
    dir_changed h0 H s0 i ip blk di (l1 ++ de :: l2) s'.
Proof.
  intros Hd0 Hw0 Hst Hk Hk32 Hl Hb Hn.
  pose proof (dir_ok_step _ _ _ _ _ _ _ _ _ Hd0 Hst) as Hd. pose proof (dir_writable_step _ _ _ _ _ _ _ Hw0 Hst) as Hw.
  destruct (write_dirent_run h0 H s i ip blk d di n k de Hd Hw Hk Hk32 Hl Hb) as (s' & Hr & Hd' & Hst').
  destruct (entries_split d n k de) as (l1 & l2 & El & E1 & E2); try done.
  { destruct (do_data _ _ _ _ _ _ _ _ Hd) as [-> _]. change (Z.to_nat BLOCK_SIZE) with 1024%nat. lia. }
  exists s', l1, l2. split; [done|]. split; [done|]. split; [done|]. eexists _, _, _. split; [exact Hd'|]. split; [done|].
  rewrite (fs_disk _ _ _ _ _ Hst), (fs_step_sb _ _ _ _ _ Hst), (fs_step_icache _ _ _ _ _ Hst) in Hst'.
  eapply fs_step_trans; [by apply fs_step_set_icache|exact Hst'].
Qed.

Lemma dir_add_run h0 H s i ip blk d di n inum name len :
  dir_ok h0 H s i ip blk d n → dir_writable H s ip blk di → Forall byte_ok name → strlen name = Some len →
  name_of name ≠ [] → 0 ≤ inum < 2^16 → inum ≠ INODE_NUM_UNUSED → dir_wf (entries d n) →
  let l := entries d n in
  ∃ r s' l', dir_add_entry i inum name s = Ok (r, s') ∧ dir_changed h0 H s i ip blk di l' s' ∧ dir_wf l' ∧
    if decide (Z.of_nat DIR_NAME_LEN ≤ len ∨ dir_find name l ≠ INODE_NUM_UNUSED ∨ free_slot l = 32%nat)
    then r = BLOCK_SIZE ∧ l' = l ∧ fs_step h0 H s s' (k_disk s)
    else r = 32 * Z.of_nat (free_slot l) ∧ dir_map l' = <[name_of name := inum]> (dir_map l).
Proof.
  intros Hd Hw Hb Hlen Hne Hin Hun Hwf l. pose proof (strlen_nul _ _ Hlen) as Hz.
  assert (name_ok name) as Hnm by (split; [done|by right]).
  destruct (do_n _ _ _ _ _ _ _ _ Hd) as [Hn Hn32]. assert (BLOCK_SIZE = 1024) as HB by done.
  unfold dir_add_entry. run (dir_check_run h0 H s i ip blk d n "dir_add_entry" Hd). rewrite Hlen. mrun.
  assert (∀ s', fs_step h0 H s s' (k_disk s) → dir_changed h0 H s i ip blk di l s' ∧ dir_wf l ∧
    BLOCK_SIZE = BLOCK_SIZE ∧ l = l ∧ fs_step h0 H s s' (k_disk s)) as Hsame
    by (intros s' Hst; split; [by apply (dir_changed_same h0 H s i ip blk d di n)|done]).
  destruct (Z.of_nat DIR_NAME_LEN <=? len) eqn:E1; zbool.
  { unfold printf. mrun. eexists _, _, l. split; [done|]. rewrite decide_True by by left. apply Hsame.
    by eapply fs_step_printf, Hd. }
  destruct (dir_search_run h0 H s i ip blk d n name Hd Hnm) as (s1 & Hs & Hst1). run Hs. fold l.
  pose proof (dir_ok_step _ _ _ _ _ _ _ _ _ Hd Hst1) as Hd1.
  destruct (dir_find name l =? INODE_NUM_UNUSED) eqn:E2; zbool; cbn [negb].
  2:{ unfold printf. mrun. eexists _, _, l. split; [done|]. rewrite decide_True by (right; by left).
      apply Hsame. eapply fs_step_trans; [exact Hst1|].
      rewrite <- (fs_disk _ _ _ _ _ Hst1). by eapply fs_step_printf, Hd1. }
  destruct (dir_slot_loop_run (dir_fuel BLOCK_SIZE) h0 H s1 i ip blk d n 0 Hd1) as (s2 & Hsl & Hst2);
    [lia|change (dir_fuel BLOCK_SIZE) with 34%nat; lia|]. run Hsl. rewrite drop_0, Nat.add_0_l. fold l.
  rewrite (fs_disk _ _ _ _ _ Hst1) in Hst2. pose proof (fs_step_trans _ _ _ _ _ _ _ Hst1 Hst2) as Hst.
  destruct (free_slot_split l) as [Hle Hfree]. unfold l in Hle. rewrite length_entries in Hle. fold l in Hle.
  destruct (BLOCK_SIZE <=? 32 * Z.of_nat (free_slot l)) eqn:E3; zbool.
  { assert (free_slot l = 32%nat) as E32 by lia. unfold printf. mrun.
    eexists _, _, l. split; [done|]. rewrite decide_True by (right; by right). apply Hsame.
    eapply fs_step_trans; [exact Hst|]. rewrite <- (fs_disk _ _ _ _ _ Hst). by eapply fs_step_printf, Hst. }
  destruct (new_entry name inum len Hnm Hz Hlen ltac:(lia)) as (nm & Enm & Lnm & Bnm & Onm & Unm).
  rewrite Enm. mrun.
  destruct (put_entry_run h0 H s s2 i ip blk d di n (free_slot l) (mk_dirent inum nm) Hd Hw Hst)
    as (s3 & l1 & l2 & Hr & Hl1 & El & Hch); try done; [lia|]. run Hr. rewrite Z.eqb_refl. mrun.
  exists (32 * Z.of_nat (free_slot l)), s3, (l1 ++ mk_dirent inum nm :: l2). split; [done|]. split; [done|].
  rewrite decide_False by (intros [?|[?|?]]; [lia|done|lia]). fold l in El. set (x := if decide _ then _ else _) in El.
  assert (Forall (λ y, ¬ used y) x) as Hx.
  { unfold x. case_decide; [|constructor]. apply Forall_singleton. apply Hfree.
    by apply lookup_entries. }
  pose proof Hwf as [Huq Hnum]. fold l in Huq, Hnum. rewrite El in Huq.
  destruct (dir_add_map l1 x l2 (mk_dirent inum nm) (Unm Hne) Hx Huq) as [Hm Hu'].
  { cbn [d_name]. rewrite Onm, <- El. by apply dir_find_none. }
  cbn [d_name d_inode_num] in Hm. rewrite Onm, <- El in Hm. split; [|done]. split; [done|].
  rewrite El, !Forall_app in Hnum. destruct Hnum as (? & _ & ?). apply Forall_app. split; [done|by constructor].
Qed.

(** ** Deleting *)

(** The entries with the first one of that name cleared. *)
Definition cleared : dirent := mk_dirent 0 (replicate DIR_NAME_LEN 0).

Definition dir_erase (name : list Z) (l : list dirent) : list dirent :=
  match list_find (named name) l with Some (k, _) => <[k := cleared]> l | None => l end.

Lemma dir_delete_loop_run fuel : ∀ h0 H s0 s i ip blk d di n name k,
  dir_ok h0 H s0 i ip blk d n → dir_writable H s0 ip blk di → fs_step h0 H s0 s (k_disk s0) → name_ok name →
  (k ≤ n)%nat → (n - k ≤ fuel)%nat → Forall (λ de, ¬ named name de) (take k (entries d n)) →
  ∃ s', dir_delete_loop fuel i name (32 * Z.of_nat k) s = Ok (dir_find name (entries d n), s') ∧
    dir_changed h0 H s0 i ip blk di (dir_erase name (entries d n)) s'.
Proof.
  induction fuel as [|fuel IH]; intros h0 H s0 s i ip blk d di n name k Hd0 Hw Hst Hnm Hk Hf Hno;
    pose proof (dir_ok_step _ _ _ _ _ _ _ _ _ Hd0 Hst) as Hd; cbn [dir_delete_loop];
    run (get_inode_run i s ip (do_inode _ _ _ _ _ _ _ _ Hd));
    destruct (do_n _ _ _ _ _ _ _ _ Hd) as [Hn Hn32]; rewrite Hn;
    (destruct (32 * Z.of_nat k <? 32 * Z.of_nat n) eqn:E; zbool;
      [|assert (k = n) as -> by lia; rewrite take_ge in Hno by (by rewrite length_entries);
        assert (list_find (named name) (entries d n) = None) as E0 by (by apply list_find_None);
        exists s; unfold dir_find, dir_erase; rewrite E0; split; [done|]; by eapply dir_changed_same]); [lia|].
  destruct (read_dirent_run h0 H s i ip blk d n k Hd ltac:(lia)) as (s1 & Hr & Hst1). run Hr.
  cbn [fst snd]. rewrite Z.eqb_refl. mrun.
  destruct (entry_name d k (do_data _ _ _ _ _ _ _ _ Hd) ltac:(lia)) as [El Eb].
  run (de_matches_run name (entry d k) s1 Hnm El Eb). rewrite (fs_disk _ _ _ _ _ Hst) in Hst1.
  pose proof (fs_step_trans _ _ _ _ _ _ _ Hst Hst1) as Hst2.
  pose proof (lookup_entries d n k ltac:(lia)) as Hlk.
  case_bool_decide as Hm.
  - assert (list_find (named name) (entries d n) = Some (k, entry d k)) as E0.
    { apply list_find_Some. split; [done|]. split; [done|]. intros j y Hj Hjk.
      rewrite Forall_forall in Hno. apply Hno. apply list_elem_of_lookup. exists j. by rewrite lookup_take_lt. }
    destruct (put_entry_run h0 H s0 s1 i ip blk d di n k cleared Hd0 Hw Hst2)
      as (s3 & l1 & l2 & Hw3 & Hl1 & E1 & Hch); try done; try lia; [by repeat constructor|].
    unfold cleared in Hw3. run Hw3. rewrite Z.eqb_refl. mrun. exists s3. unfold dir_find, dir_erase. rewrite E0.
    split; [done|]. rewrite decide_True in E1 by lia. cbn [app] in E1. rewrite E1.
    by rewrite insert_app_r_alt, Hl1, Nat.sub_diag by lia.
  - rewrite u32_small by (unfold DIRENT_SIZE; lia).
    replace (32 * Z.of_nat k + DIRENT_SIZE) with (32 * Z.of_nat (S k)) by (unfold DIRENT_SIZE; lia).
    apply (IH h0 H s0 s1 i ip blk d di n name (S k)); try done; try lia.
    rewrite (take_S_r _ _ _ Hlk). apply Forall_app. split; [done|]. by constructor.
Qed.

Lemma dir_erase_map name l :
  dir_wf l → dir_map (dir_erase name l) = delete (name_of name) (dir_map l) ∧ dir_wf (dir_erase name l).
Proof.
  intros [Huq Hnum]. unfold dir_erase. destruct (list_find (named name) l) as [[k x]|] eqn:E.
  - apply list_find_Some in E as (Hx & [Hu Hnm] & _). rewrite <- (take_drop_middle _ _ _ Hx) in Huq.
    pose proof (lookup_lt_Some _ _ _ Hx) as Hlt.
    assert (<[k := cleared]> l = take k l ++ cleared :: drop (S k) l) as -> by by apply insert_take_drop.
    destruct (dir_delete_map (take k l) x (drop (S k) l) cleared) as [Hm Hu']; [done| |done|].
    { unfold used, de_first, cleared. simpl. tauto. }
    rewrite Hm, (take_drop_middle _ _ _ Hx). unfold name_of. rewrite <- Hnm. split; [done|]. split; [done|].
    apply Forall_app. split; [by apply Forall_take|]. constructor; [done|by apply Forall_drop].
  - split; [|done]. symmetry. apply delete_id. apply dir_map_none. intros Hin. unfold dir_assoc in Hin.
    apply list_elem_of_fmap in Hin as ([nm v] & Enm & Hin). apply list_elem_of_fmap in Hin as (de & [= Hnm Hv] & Hde).
    apply list_elem_of_filter in Hde as [Hu Hde]. apply list_find_None in E. rewrite Forall_forall in E.
    apply (E de Hde). split; [done|]. simpl in Enm. unfold name_of in *. congruence.
Qed.

Lemma dir_delete_run h0 H s i ip blk d di n name :
  dir_ok h0 H s i ip blk d n → dir_writable H s ip blk di → name_ok name → dir_wf (entries d n) →
  ∃ s' l', dir_delete_entry i name s =
      Ok (default INODE_NUM_UNUSED (dir_map (entries d n) !! name_of name), s') ∧
    dir_changed h0 H s i ip blk di l' s' ∧ dir_wf l' ∧
    dir_map l' = delete (name_of name) (dir_map (entries d n)).
Proof.
  intros Hd Hw Hn Hwf. rewrite <- dir_find_map. unfold dir_delete_entry.
  run (dir_check_run h0 H s i ip blk d n "dir_delete_entry" Hd).
  run (get_inode_run i s ip (do_inode _ _ _ _ _ _ _ _ Hd)). destruct (do_n _ _ _ _ _ _ _ _ Hd) as [Hsz _].
  destruct (dir_delete_loop_run (dir_fuel (i_size ip)) h0 H s s i ip blk d di n name 0 Hd Hw) as (s' & Hr & Hch);
    [apply fs_step_refl, Hd|done|lia| |constructor|].
  - unfold dir_fuel, DIRENT_SIZE. rewrite Hsz, Z.mul_comm, Z.div_mul by lia. lia.
  - exists s', (dir_erase name (entries d n)). split; [done|]. split; [done|].
    destruct (dir_erase_map name (entries d n) Hwf) as [Hm Hw']. by split.
Qed.

(** ** Claims *)

(** [dir_search_entry] is the lookup of the name in the map the directory's entries
    stand for (the number that means "none" when it is absent), and changes nothing. *)
Theorem dir_search_entry_correct (h0 : hart) (H : gmap nat Z) (s : kstate) (i : nat) (ip : inode) (blk : Z)
    (d : list Z) (n : nat) (name : list Z) :
  dir_ok h0 H s i ip blk d n → name_ok name →
  ∃ s', dir_search_entry i name s =
      Ok (default INODE_NUM_UNUSED (dir_map (entries d n) !! name_of name), s') ∧
    fs_step h0 H s s' (k_disk s).
Proof.
  intros Hd Hn. rewrite <- dir_find_map. by apply (dir_search_run h0 H s i ip blk d n name).
Qed.

(** C18: [dir_add_entry] refuses a name that is too long, already there, or for which
    there is no free slot among the 32 of the directory's block, changing nothing;
    otherwise it inserts the name in the map of the directory at the first free slot,
    whose offset it returns. Names stay unique, and no block but the directory's data
    and its inode's changes. *)
Theorem dir_add_entry_correct (h0 : hart) (H : gmap nat Z) (s : kstate) (i : nat) (ip : inode) (blk : Z)
    (d di : list Z) (n : nat) (inum : Z) (name : list Z) (len : Z) :
  dir_ok h0 H s i ip blk d n → dir_writable H s ip blk di → Forall byte_ok name → strlen name = Some len →
  name_of name ≠ [] → 0 ≤ inum < 2^16 → inum ≠ INODE_NUM_UNUSED → dir_wf (entries d n) →
  let l := entries d n in
  ∃ r s' l', dir_add_entry i inum name s = Ok (r, s') ∧ dir_changed h0 H s i ip blk di l' s' ∧ dir_wf l' ∧
    if decide (Z.of_nat DIR_NAME_LEN ≤ len ∨ dir_find name l ≠ INODE_NUM_UNUSED ∨ free_slot l = 32%nat)
    then r = BLOCK_SIZE ∧ l' = l ∧ fs_step h0 H s s' (k_disk s)
    else r = 32 * Z.of_nat (free_slot l) ∧ dir_map l' = <[name_of name := inum]> (dir_map l).
Proof. apply dir_add_run. Qed.

(** [dir_delete_entry] returns what [dir_search_entry] finds and removes the name from
    the map of the directory; the other names, and every block but the directory's
    data and its inode's, stay. *)
Theorem dir_delete_entry_correct (h0 : hart) (H : gmap nat Z) (s : kstate) (i : nat) (ip : inode) (blk : Z)
    (d di : list Z) (n : nat) (name : list Z) :
  dir_ok h0 H s i ip blk d n → dir_writable H s ip blk di → name_ok name → dir_wf (entries d n) →
  ∃ s' l', dir_delete_entry i name s =
      Ok (default INODE_NUM_UNUSED (dir_map (entries d n) !! name_of name), s') ∧
    dir_changed h0 H s i ip blk di l' s' ∧ dir_wf l' ∧
    dir_map l' = delete (name_of name) (dir_map (entries d n)).
Proof. apply dir_delete_run. Qed.

End proofs.

(** ** Paths as lists of components

    A path is some leading slashes and components, each followed by slashes (the last one
    possibly by none). *)

Definition path_char (c : Z) : Prop := c ≠ 0 ∧ c ≠ SLASH.

Fixpoint path_text (l : list (list Z * nat)) : list Z :=
  match l with
  | [] => [0]
  | (c, b) :: l => c ++ replicate b SLASH ++ path_text l
  end.

Fixpoint path_ok (l : list (list Z * nat)) : Prop :=
  match l with
  | [] => True
  | (c, b) :: l => c ≠ [] ∧ Forall path_char c ∧ (b = O → l = []) ∧ path_ok l
  end.

(** The names the loop of [search_inode] sees, one per turn. *)
Fixpoint path_names (fuel : nat) (path name : list Z) : option (list (list Z)) :=
  r ← skip_element path name;
  match r, fuel with
  | None, _ => Some []
  | Some _, O => None
  | Some (path, name), S fuel => ns ← path_names fuel path name; Some (cstr DIR_NAME_LEN name :: ns)
  end.

Lemma skip_slashes_run b c p : c ≠ SLASH → skip_slashes (replicate b SLASH ++ c :: p) = Some (c :: p).
Proof.
  intros Hc. induction b as [|b IH]; cbn [replicate app skip_slashes].
  - by rewrite (proj2 (Z.eqb_neq _ _) Hc).
  - by rewrite Z.eqb_refl.
Qed.

Lemma path_element_run c x p :
  Forall path_char c → x = SLASH ∨ x = 0 → path_element (c ++ x :: p) = Some (c, x :: p).
Proof.
  intros Hc Hx. induction Hc as [|y c [Hy0 Hys] _ IH]; cbn [app path_element].
  - by destruct Hx as [-> | ->].
  - rewrite (proj2 (Z.eqb_neq _ _) Hys), (proj2 (Z.eqb_neq _ _) Hy0). cbn [orb]. by rewrite IH.
Qed.

Lemma path_text_cons l : path_ok l → ∃ c p, path_text l = c :: p ∧ c ≠ SLASH ∧ (c = 0 ↔ l = []).
Proof.
  destruct l as [|[c b] l]; simpl.
  - intros _. by exists 0, [].
  - intros (Hne & Hc & _). destruct c as [|x c]; [done|]. inversion_clear Hc as [|? ? [Hx0 Hxs] _].
    exists x. eexists. split; [done|]. split; [done|]. split; [done|]. by intros.
Qed.

(** [name[len] = 0] when it fits, else the first bytes without a terminator. *)
Definition element_name (c name : list Z) : list Z :=
  if (DIR_NAME_LEN <=? length c)%nat then splice 0 (take DIR_NAME_LEN c) name else splice 0 (c ++ [0]) name.

Lemma cstr_of_chars n c l :
  Forall path_char c → (length c < n)%nat → cstr n (c ++ 0 :: l) = c.
Proof.
  intros Hc. revert n. induction Hc as [|x c [Hx _] _ IH]; intros [|n] Hl; simpl in *; try lia; [done|].
  rewrite (proj2 (Z.eqb_neq _ _) Hx). f_equal. apply IH. lia.
Qed.

Lemma cstr_all_chars n c : Forall path_char c → length c = n → cstr n c = c.
Proof.
  intros Hc <-. induction Hc as [|x c [Hx _] _ IH]; [done|]. cbn [length cstr].
  by rewrite (proj2 (Z.eqb_neq _ _) Hx), IH.
Qed.

Lemma element_name_spec c name :
  Forall path_char c → length name = DIR_NAME_LEN →
  length (element_name c name) = DIR_NAME_LEN ∧ cstr DIR_NAME_LEN (element_name c name) = take DIR_NAME_LEN c.
Proof.
  intros Hc Hn. unfold element_name, splice. rewrite take_0, Nat.add_0_l. cbn [app].
  destruct (Nat.leb_spec DIR_NAME_LEN (length c)) as [Hle|Hlt].
  - assert (length (take DIR_NAME_LEN c) = DIR_NAME_LEN) as Hl by (rewrite length_take; lia).
    rewrite Hl, drop_ge, app_nil_r by lia. split; [done|]. apply cstr_all_chars; [by apply Forall_take|done].
  - rewrite length_app. cbn [length]. rewrite <- app_assoc. cbn [app]. split.
    + rewrite length_app. cbn [length]. rewrite length_drop. lia.
    + rewrite cstr_of_chars by done. by rewrite take_ge by lia.
Qed.

Lemma skip_element_run a c b l name :
  path_ok ((c, b) :: l) →
  skip_element (replicate a SLASH ++ path_text ((c, b) :: l)) name = Some (Some (path_text l, element_name c name)).
Proof.
  intros (Hne & Hc & Hb & Hl). destruct (path_text_cons l Hl) as (y & p & Ey & Hys & Hy0).
  destruct c as [|x c]; [done|]. pose proof (Forall_inv Hc) as [Hx0 Hxs].
  assert (path_element ((x :: c) ++ replicate b SLASH ++ y :: p) = Some (x :: c, replicate b SLASH ++ y :: p)) as Hel.
  { destruct b as [|b]; [apply path_element_run; [done|right; by apply Hy0, Hb]|].
    apply (path_element_run _ SLASH); [done|by left]. }
  unfold skip_element. cbn [path_text]. rewrite Ey. change ((x :: c) ++ ?v) with (x :: (c ++ v)) in Hel |- *.
  rewrite skip_slashes_run by done. cbn [mbind option_bind nth].
  rewrite (proj2 (Z.eqb_neq _ _) Hx0), Hel. cbn [mbind option_bind]. by rewrite skip_slashes_run.
Qed.

Lemma path_names_run fuel a l name :
  path_ok l → length name = DIR_NAME_LEN → (length (path_text l) ≤ fuel)%nat →
  path_names fuel (replicate a SLASH ++ path_text l) name = Some (take DIR_NAME_LEN <$> l.*1).
Proof.
  revert a l name. induction fuel as [|fuel IH]; intros a [|[c b] l] name Hl Hn Hf.
  - simpl in Hf. lia.
  - destruct Hl as (Hne & _). destruct c; simpl in Hf; [done|lia].
  - cbn [path_names path_text]. unfold skip_element. by rewrite skip_slashes_run.
  - cbn [path_names]. rewrite skip_element_run by done. cbn [mbind option_bind].
    destruct Hl as (Hne & Hc & _ & Hl). destruct (element_name_spec c name Hc Hn) as [Hlen Hstr].
    change (path_text l) with (replicate 0 SLASH ++ path_text l) at 1. rewrite IH, Hstr; [done|done|done|].
    destruct c; [done|]. simpl in Hf. rewrite !length_app in Hf. lia.
Qed.

(** C27: however its components are separated, a path is taken apart into them, in order,
    each cut at [DIR_NAME_LEN] characters, until the null pointer ends the loop; the turns
    [search_inode] has fuel for are enough. *)
Theorem path_names_correct (a : nat) (l : list (list Z * nat)) (name : list Z) :
  path_ok l → length name = DIR_NAME_LEN →
  let path := replicate a SLASH ++ path_text l in
  path_names (length path) path name = Some (take DIR_NAME_LEN <$> l.*1).
Proof. intros Hl Hn path. apply path_names_run; [done|done|]. unfold path. rewrite length_app. lia. Qed.

(** ** Witnesses: a root directory with its two dot entries. *)

Definition sample_dir : inode := mk_inode FT_DIR 0 0 2 64 ([5] ++ replicate 12 0) 1 1 true.

Definition sample_dirents : list Z :=
  de_bytes (mk_dirent 1 (46 :: replicate 29 0)) ++ de_bytes (mk_dirent 1 (46 :: 46 :: replicate 28 0)) ++
  replicate 960 0.

Lemma sample_dir_ok :
  ∃ s, @dir_ok virtio_block_device (k_hart sample_boot) ∅ s 0 sample_dir 5 sample_dirents 2 ∧
    dir_writable ∅ s sample_dir 5 (replicate 1024 0).
Proof.
  destruct (booted_cache (<[2 := replicate 1024 0]> {[ 5 := sample_dirents ]}) sample_sb) as (s & Hc & Ed & Es).
  set (l := mk_spinlock 1 "inode" (h_id (k_hart s))).
  exists (set_icache [sample_dir] (set_locks (<[LkInode 0 := l]> (k_locks s)) s)). split.
  - split.
    + apply bcache_icache. apply bcache_locks; [done|done| |done]. by intros [?|[? ?]].
    + rewrite map_size_empty. unfold N_BLOCK_BUF. lia.
    + done.
    + exists "inode"%string. cbn [k_locks set_icache set_locks]. by rewrite lookup_insert_eq.
    + done.
    + split; [done|lia].
    + done.
    + cbn [k_disk set_icache set_locks]. rewrite Ed. by split.
    + split; [reflexivity|]. unfold sample_dirents.
      repeat first [apply Forall_app; split|apply Forall_replicate|apply le_bytes_ok|constructor|by unfold byte_ok].
  - cbn [k_disk k_sb set_icache set_locks]. split; cbn [k_disk k_sb set_icache set_locks]; rewrite Es; [|done].
    rewrite Ed. by split.
Qed.

Lemma sample_dir_wf : dir_wf (entries sample_dirents 2).
Proof.
  assert (entries sample_dirents 2 =
    [mk_dirent 1 (46 :: replicate 29 0); mk_dirent 1 (46 :: 46 :: replicate 28 0)]) as -> by reflexivity.
  split; [|by repeat constructor].
  unfold dir_unique. assert (∀ l : list (list Z), bool_decide (NoDup l) = true → NoDup l) as Hd
    by (intros l; apply bool_decide_eq_true). apply Hd. reflexivity.
Qed.

Lemma dir_search_entry_correct_witness :
  ∃ s s', @dir_search_entry virtio_block_device 0 (bytes_of "..") s = Ok (1, s').
Proof.
  destruct sample_dir_ok as (s & Hd & _).
  destruct (@dir_search_entry_correct virtio_block_device _ ∅ s 0 sample_dir 5 sample_dirents 2 (bytes_of "..") Hd)
    as (s' & Hr & _).
  - split; [by repeat constructor|]. right. by repeat constructor.
  - exists s, s'. rewrite Hr. reflexivity.
Defined.

Lemma dir_add_entry_correct_witness :
  ∃ s s', @dir_add_entry virtio_block_device 0 7 (bytes_of "a.txt") s = Ok (64, s').
Proof.
  destruct sample_dir_ok as (s & Hd & Hw).
  destruct (@dir_add_entry_correct virtio_block_device _ ∅ s 0 sample_dir 5 sample_dirents (replicate 1024 0) 2 7
    (bytes_of "a.txt") 5 Hd Hw) as (r & s' & l' & Hr & _ & _ & Hres).
  - by repeat constructor.
  - reflexivity.
  - done.
  - lia.
  - done.
  - apply sample_dir_wf.
  - rewrite decide_False in Hres.
    + destruct Hres as [-> _]. exists s, s'. rewrite Hr. reflexivity.
    + intros [?|[H|H]]; [unfold DIR_NAME_LEN in *; lia|by apply H|by vm_compute in H].
Defined.

Lemma dir_delete_entry_correct_witness :
  ∃ s s' l', @dir_delete_entry virtio_block_device 0 (bytes_of ".") s = Ok (1, s') ∧
    dir_map l' = delete [46] (dir_map (entries sample_dirents 2)).
Proof.
  destruct sample_dir_ok as (s & Hd & Hw).
  destruct (@dir_delete_entry_correct virtio_block_device _ ∅ s 0 sample_dir 5 sample_dirents (replicate 1024 0) 2
    (bytes_of ".") Hd Hw) as (s' & l' & Hr & _ & _ & Hm).
  - split; [by repeat constructor|]. right. by repeat constructor.
  - apply sample_dir_wf.
  - exists s, s', l'. split; [rewrite Hr; reflexivity|exact Hm].
Defined.

Lemma path_names_correct_witness :
  path_names (length (bytes_of "/user//sh.c/")) (bytes_of "/user//sh.c/") local_name =
    Some [take 4 (bytes_of "user"); take 4 (bytes_of "sh.c")].
Proof.
  apply (path_names_correct 1 [(take 4 (bytes_of "user"), 2%nat); (take 4 (bytes_of "sh.c"), 1%nat)] local_name).
  - repeat split; try done; repeat constructor; done.
  - done.
Defined.
