(* ===== verification/Path.v ===== *)
(** * Path resolution (search_inode of kernel/fs/dir.c over kernel/fs/inode.c)

    The abstract file system: the inodes the disk holds, the directories as finite maps,
    and the walk from a directory along a list of names.  The theorems: [path_to_inode]
    and [path_to_pinode], which work through the inode cache, the buffer cache and the
    locks, return the entry of the inode that the abstract walk reaches, or fail exactly
    when the walk does, and account for every reference they take. *)

From S2P Require Import Prelude Bytes Kernel Lock Str Pmem Vm Sched Virtio Buf Bitmap Uvm Inode Dir.

(** ** The file system on the disk *)

Definition stub (n : Z) : inode := mk_inode 0 0 0 0 0 [] n 0 true.

(** The inode [n] of the disk [D]. *)
Definition node (D : gmap Z (list Z)) (sb : super_block) (n : Z) : inode :=
  match D !! inode_block sb (stub n) with
  | Some d => load_inode (slice (inode_off (stub n)) (Z.to_nat INODE_DISK_SIZE) d) (stub n)
  | None => stub n
  end.

(** The entries of a directory, and its names. *)
Definition dir_entries (D : gmap Z (list Z)) (ip : inode) : list dirent :=
  match i_addrs ip !! O ≫= (D !!.) with
  | Some d => entries d (Z.to_nat (i_size ip / DIRENT_SIZE))
  | None => []
  end.

Definition names_of (D : gmap Z (list Z)) (ip : inode) : gmap (list Z) Z := dir_map (dir_entries D ip).

Lemma dir_entries_eq D ip blk d k :
  i_addrs ip !! O = Some blk → D !! blk = Some d → i_size ip = 32 * Z.of_nat k → dir_entries D ip = entries d k.
Proof.
  intros Ha Hd Hs. unfold dir_entries. rewrite Ha. cbn [mbind option_bind]. rewrite Hd, Hs. f_equal.
  unfold DIRENT_SIZE. rewrite Z.mul_comm, Z.div_mul by lia. lia.
Qed.

Definition is_dir (D : gmap Z (list Z)) (sb : super_block) (n : Z) : bool := i_type (node D sb n) =? FT_DIR.

Definition child (D : gmap Z (list Z)) (sb : super_block) (n : Z) (c : list Z) : option Z :=
  if is_dir D sb n then names_of D (node D sb n) !! c else None.

(** The walk from inode [n] along the names. *)
Fixpoint resolve (D : gmap Z (list Z)) (sb : super_block) (n : Z) (cs : list (list Z)) : option Z :=
  match cs with
  | [] => Some n
  | c :: cs => m ← child D sb n c; resolve D sb m cs
  end.

(** The directory the last name is to be looked up in. *)
Definition resolve_parent (D : gmap Z (list Z)) (sb : super_block) (n : Z) (cs : list (list Z)) : option Z :=
  m ← resolve D sb n (removelast cs); if is_dir D sb m then Some m else None.

(** The set [T] of inodes is a file system a walk can go through: numbers in range, inode
    blocks on the disk, links on every inode, directories of one block of whole entries,
    and every entry leads to an inode of the set. *)
Record tree_ok (H : gmap nat Z) (D : gmap Z (list Z)) (sb : super_block) (T : gset Z) : Prop := {
  to_num n : n ∈ T → 0 ≤ n < INODE_NUM_UNUSED;
  to_inode n : n ∈ T → ∃ d, readable H D (inode_block sb (stub n)) d;
  to_link n : n ∈ T → i_nlink (node D sb n) ≠ 0;
  to_dir n : n ∈ T → is_dir D sb n = true → ∃ blk d k,
    i_addrs (node D sb n) !! O = Some blk ∧ blk ≠ 0 ∧ i_size (node D sb n) = 32 * Z.of_nat k ∧ (k ≤ 32)%nat ∧
    readable H D blk d ∧ block_ok d;
  to_child n c m : n ∈ T → child D sb n c = Some m → m ∈ T }.

Lemma resolve_in H D sb T cs : ∀ n m, tree_ok H D sb T → n ∈ T → resolve D sb n cs = Some m → m ∈ T.
Proof.
  induction cs as [|c cs IH]; intros n m Ht Hn; cbn [resolve]; [by intros [= <-]|].
  destruct (child D sb n c) as [x|] eqn:E; [|done]. cbn [mbind option_bind]. apply IH; [done|].
  by eapply to_child.
Qed.

Lemma resolve_parent_in H D sb T n cs p :
  tree_ok H D sb T → n ∈ T → resolve_parent D sb n cs = Some p → p ∈ T ∧ is_dir D sb p = true.
Proof.
  intros Ht Hn Hp. unfold resolve_parent in Hp. destruct (resolve D sb n _) as [q|] eqn:E; [|done]. cbn [mbind option_bind] in Hp.
  destruct (is_dir D sb q) eqn:Hd; [|done]. injection Hp as <-. split; [by eapply resolve_in|done].
Qed.

(** ** The cache of inodes against the disk *)

(** What a cached entry holds once it is loaded. *)
Definition loaded (D : gmap Z (list Z)) (sb : super_block) (x : inode) : inode :=
  i_set_ref (i_ref x) (node D sb (inode_num x)).

Definition coherent (D : gmap Z (list Z)) (sb : super_block) (T : gset Z) (x : inode) : Prop :=
  i_valid x = true → inode_num x ∈ T → x = loaded D sb x.

Record icache_ok (D : gmap Z (list Z)) (sb : super_block) (T : gset Z) (l : list inode) : Prop := {
  ic_len : length l = N_INODE;
  ic_unique : icache_unique l;
  ic_coherent i x : l !! i = Some x → coherent D sb T x }.

(** The references of the slots, and one more or one fewer on slot [i]. *)
Definition refs (l : list inode) : list Z := i_ref <$> l.

Definition ref_up (i : nat) (r : list Z) : list Z := alter (λ v, v + 1) i r.

(** Slots in use keep their inode, and stay loaded. *)
Definition stays (x y : inode) : Prop := inode_num y = inode_num x ∧ (i_valid x = true → i_valid y = true).

Definition keeps (l l' : list inode) : Prop :=
  ∀ j x, l !! j = Some x → i_ref x ≠ 0 → ∃ y, l' !! j = Some y ∧ stays x y.

(** Room for two more entries, and counters that do not overflow. *)
Record ref_room (r : list Z) : Prop := {
  rr_range v : v ∈ r → 0 ≤ v < 2^32 - 2;
  rr_free : (2 ≤ length (filter (λ v : Z, v = 0%Z) r))%nat }.

Lemma node_num D sb n : inode_num (node D sb n) = n.
Proof. unfold node. by destruct (D !! _). Qed.

Lemma node_valid D sb n : i_valid (node D sb n) = true.
Proof. unfold node. by destruct (D !! _). Qed.

Lemma loaded_num D sb x : inode_num (loaded D sb x) = inode_num x.
Proof. unfold loaded. apply node_num. Qed.

Lemma loaded_loaded D sb x : loaded D sb (loaded D sb x) = loaded D sb x.
Proof. unfold loaded at 1. by rewrite loaded_num. Qed.

Lemma loaded_set_ref D sb x v : loaded D sb (i_set_ref v x) = i_set_ref v (loaded D sb x).
Proof. done. Qed.

Section proofs.
  Context {B : BlockDevice}.

(** The state between the steps of a walk. *)
Record walk_ok (h0 : hart) (H : gmap nat Z) (T : gset Z) (s : kstate) : Prop := {
  wk_cache : bcache h0 H s;
  wk_room : (size H < N_BLOCK_BUF)%nat;
  wk_ilock : lock_idle LkIcache s;
  wk_lock i : (i < N_INODE)%nat → lock_idle (LkInode i) s;
  wk_tree : tree_ok H (k_disk s) (k_sb s) T;
  wk_icache : icache_ok (k_disk s) (k_sb s) T (k_icache s) }.

(** A step of the walk: the slots are now [l], the disk and all else is as it was. *)
Definition walked (h0 : hart) (H : gmap nat Z) (s : kstate) (l : list inode) (s' : kstate) : Prop :=
  fs_step h0 H (set_icache l s) s' (k_disk s).

Lemma walked_icache h0 H s l s' : walked h0 H s l s' → k_icache s' = l.
Proof. intros Hw. by rewrite (fs_step_icache _ _ _ _ _ Hw). Qed.

Lemma walked_trans h0 H s1 l2 s2 l3 s3 : walked h0 H s1 l2 s2 → walked h0 H s2 l3 s3 → walked h0 H s1 l3 s3.
Proof.
  unfold walked. intros H1 H2. rewrite (fs_disk _ _ _ _ _ H1) in H2. eapply fs_step_trans; [|exact H2].
  exact (fs_step_set_icache _ _ _ _ _ l3 H1).
Qed.

Lemma walked_update h0 H s l : bcache h0 H s → walked h0 H s l (set_icache l s).
Proof. intros Hc. apply (fs_step_refl _ _ (set_icache l s)). by apply bcache_icache. Qed.

Lemma fs_frame_idle s s' lk : (∀ i, lk ≠ LkBuf i) → fs_frame s s' → lock_idle lk s → lock_idle lk s'.
Proof. intros Hlk [_ L] [nm Hid]. exists nm. by rewrite L. Qed.

(** A step that changes the disk to [D'] and the set of inodes to [T']. *)
Lemma walk_ok_grow h0 H T T' s l s' D' :
  walk_ok h0 H T s → fs_step h0 H (set_icache l s) s' D' → tree_ok H D' (k_sb s) T' → icache_ok D' (k_sb s) T' l →
  walk_ok h0 H T' s'.
Proof.
  intros [Hc Hsz Hil Hl Ht Hi] Hw Ht' Hi'. pose proof (fs_rest _ _ _ _ _ Hw) as Hf. split; try done.
  - apply Hw.
  - by apply (fs_frame_idle (set_icache l s)).
  - intros i Hlt. apply (fs_frame_idle (set_icache l s)); [done|done|by apply Hl].
  - by rewrite (fs_disk _ _ _ _ _ Hw), (fs_step_sb _ _ _ _ _ Hw).
  - by rewrite (fs_disk _ _ _ _ _ Hw), (fs_step_sb _ _ _ _ _ Hw), (fs_step_icache _ _ _ _ _ Hw).
Qed.

Lemma walk_ok_change h0 H T s l s' D' :
  walk_ok h0 H T s → fs_step h0 H (set_icache l s) s' D' → tree_ok H D' (k_sb s) T → icache_ok D' (k_sb s) T l →
  walk_ok h0 H T s'.
Proof. apply walk_ok_grow. Qed.

Lemma walk_ok_step h0 H T s l s' :
  walk_ok h0 H T s → walked h0 H s l s' → icache_ok (k_disk s) (k_sb s) T l → walk_ok h0 H T s'.
Proof. intros Hk Hw. apply (walk_ok_change h0 H T s l s' _ Hk Hw), Hk. Qed.

(** The same with some slots locked: all but the locks of the slots. *)
Record cache_ok (h0 : hart) (H : gmap nat Z) (T : gset Z) (s : kstate) : Prop := {
  co_cache : bcache h0 H s;
  co_room : (size H < N_BLOCK_BUF)%nat;
  co_ilock : lock_idle LkIcache s;
  co_tree : tree_ok H (k_disk s) (k_sb s) T;
  co_icache : icache_ok (k_disk s) (k_sb s) T (k_icache s) }.

Lemma walk_cache h0 H T s : walk_ok h0 H T s → cache_ok h0 H T s.
Proof. intros []. by split. Qed.

Lemma cache_ok_change h0 H T s l s' D' :
  cache_ok h0 H T s → fs_step h0 H (set_icache l s) s' D' → tree_ok H D' (k_sb s) T → icache_ok D' (k_sb s) T l →
  cache_ok h0 H T s'.
Proof.
  intros [Hc Hsz Hil Ht Hi] Hw Ht' Hi'. split; [apply Hw|done| | |].
  - by apply (fs_frame_idle (set_icache l s)), Hil; [done|apply Hw].
  - by rewrite (fs_disk _ _ _ _ _ Hw), (fs_step_sb _ _ _ _ _ Hw).
  - by rewrite (fs_disk _ _ _ _ _ Hw), (fs_step_sb _ _ _ _ _ Hw), (fs_step_icache _ _ _ _ _ Hw).
Qed.

Lemma cache_ok_acq h0 H T s i : cache_ok h0 H T s → cache_ok (hart_push h0) H T (acq (LkInode i) s).
Proof.
  intros [Hc Hsz Hil Ht Hi]. split; try done; [by apply bcache_acq; [apply inode_other|]|]. by apply acq_idle.
Qed.

(** ** Keeping the cache of inodes coherent *)

Lemma icache_unique_same l i x y :
  icache_unique l → l !! i = Some y → inode_num x = inode_num y → icache_unique (<[i := x]> l).
Proof.
  intros Hu Hi Hn j k a b Hj Hk He Hne.
  assert (∀ m z, <[i := x]> l !! m = Some z → ∃ z', l !! m = Some z' ∧ inode_num z' = inode_num z) as Hsame.
  { intros m z. destruct (decide (m = i)) as [->|Hmi].
    - rewrite list_lookup_insert_eq by (by eapply lookup_lt_Some). intros [= <-]. by exists y.
    - rewrite list_lookup_insert_ne by done. by exists z. }
  destruct (Hsame j a Hj) as (a' & Ha & Ea), (Hsame k b Hk) as (b' & Hb & Eb). apply (Hu j k a' b'); congruence.
Qed.

Lemma icache_ok_insert D sb T l i x y :
  icache_ok D sb T l → l !! i = Some y → coherent D sb T x →
  (inode_num x = inode_num y ∨ ∀ j z, l !! j = Some z → inode_num z ≠ inode_num x) →
  icache_ok D sb T (<[i := x]> l).
Proof.
  intros [Hl Hu Hc] Hi Hx Hn. pose proof (lookup_lt_Some _ _ _ Hi) as Hlt. split.
  - by rewrite length_insert.
  - destruct Hn as [Hn|Hn].
    + by apply (icache_unique_same _ _ _ y).
    + apply icache_unique_insert; [done|done|]. intros j z Hj _. by apply (Hn j).
  - intros j z. destruct (decide (j = i)) as [->|Hji].
    + rewrite list_lookup_insert_eq by done. by intros [= <-].
    + rewrite list_lookup_insert_ne by done. apply Hc.
Qed.

Lemma coherent_ref D sb T x v : coherent D sb T x → coherent D sb T (i_set_ref v x).
Proof. intros Hc Hv Hn. rewrite loaded_set_ref. by rewrite <- (Hc Hv Hn). Qed.

Lemma coherent_loaded D sb T x : coherent D sb T (loaded D sb x).
Proof. intros _ _. by rewrite loaded_loaded. Qed.

(** ** The operations of the walk *)

(** [inode_lock] makes sure that the entry holds what the disk does. *)
Lemma lock_load_idle h0 H T s i x :
  cache_ok h0 H T s → lock_idle (LkInode i) s → k_icache s !! i = Some x → inode_num x ∈ T →
  let l := <[i := loaded (k_disk s) (k_sb s) x]> (k_icache s) in
  ∃ s', inode_lock i s = Ok (tt, s') ∧ fs_step (hart_push h0) H (acq (LkInode i) (set_icache l s)) s' (k_disk s).
Proof.
  intros Hk Hid Hi HT l. pose proof (co_cache _ _ _ _ Hk) as Hc. pose proof (co_icache _ _ _ _ Hk) as Hic.
  unfold inode_lock. run (acquire_run (LkInode i) s (lock_idle_unlocked _ _ Hid)).
  set (sa := acq (LkInode i) s). run (get_inode_run i sa x Hi).
  pose proof (bcache_acq h0 H s (LkInode i) (inode_other i) Hc) as Hca. fold sa in Hca.
  destruct (i_valid x) eqn:Ev.
  - exists sa. split; [done|]. unfold l. rewrite <- (ic_coherent _ _ _ _ Hic i x Hi Ev HT), list_insert_id by done.
    replace (set_icache (k_icache s) s) with s by (by destruct s). exact (fs_step_refl _ _ sa Hca).
  - destruct (to_inode _ _ _ _ (co_tree _ _ _ _ Hk) _ HT) as [d Hd].
    destruct (inode_read_run (hart_push h0) H sa i x d) as (s1 & Hr & Hst); [done|apply Hk|done|exact Hd|].
    run Hr. unfold upd_inode. mrun. eexists. split; [done|].
    rewrite (fs_step_icache _ _ _ _ _ Hst). cbn [k_icache set_icache sa acq set_locks set_hart].
    erewrite alter_insert by (apply list_lookup_insert_eq; by eapply lookup_lt_Some). rewrite list_insert_insert_eq.
    apply (fs_step_set_icache _ _ _ _ _ l) in Hst.
    replace (<[i := i_set_valid true _]> (k_icache s)) with l; [exact Hst|].
    unfold l, loaded, node. change (inode_block (k_sb s) (stub (inode_num x))) with (inode_block (k_sb s) x) in *.
    by rewrite (rd_disk _ _ _ _ Hd).
Qed.

Lemma lock_load_run h0 H T s i x :
  walk_ok h0 H T s → k_icache s !! i = Some x → inode_num x ∈ T →
  let l := <[i := loaded (k_disk s) (k_sb s) x]> (k_icache s) in
  ∃ s', inode_lock i s = Ok (tt, s') ∧ fs_step (hart_push h0) H (acq (LkInode i) (set_icache l s)) s' (k_disk s).
Proof.
  intros Hk Hi HT. apply (lock_load_idle h0 H T s i x (walk_cache _ _ _ _ Hk)); [|done|done]. apply (wk_lock _ _ _ _ Hk).
  rewrite <- (ic_len _ _ _ _ (wk_icache _ _ _ _ Hk)). by eapply lookup_lt_Some.
Qed.

Lemma unlock_run h0 H T s i l s1 :
  walk_ok h0 H T s → (i < N_INODE)%nat →
  fs_step (hart_push h0) H (acq (LkInode i) (set_icache l s)) s1 (k_disk s) →
  inode_unlock i s1 = Ok (tt, rel (LkInode i) s1) ∧ walked h0 H s l (rel (LkInode i) s1).
Proof.
  intros Hk Hi Hst. apply (fs_step_section h0 H (set_icache l s)); [apply inode_other| | |exact Hst].
  - apply bcache_icache, Hk.
  - exact (wk_lock _ _ _ _ Hk i Hi).
Qed.

(** A directory whose slot is locked. *)
Lemma held_dir h0 H T s i r p :
  let x := i_set_ref r (node (k_disk s) (k_sb s) p) in
  bcache h0 H s → (size H < N_BLOCK_BUF)%nat → tree_ok H (k_disk s) (k_sb s) T → k_icache s !! i = Some x →
  lock_held (LkInode i) s → p ∈ T → is_dir (k_disk s) (k_sb s) p = true →
  ∃ blk d k, dir_ok h0 H s i x blk d k ∧ dir_entries (k_disk s) (node (k_disk s) (k_sb s) p) = entries d k.
Proof.
  intros x Hc Hsz Ht Hi Hl Hp Hdir. destruct (to_dir _ _ _ _ Ht _ Hp Hdir) as (blk & d & k & Ha & Hb & Hs & Hk32 & Hr & Hok).
  exists blk, d, k. split; [split; try done|].
  - by apply Z.eqb_eq.
  - apply (dir_entries_eq _ _ blk); [done|apply Hr|done].
Qed.

(** The lock is held after a step of its section. *)
Lemma section_held h0 H s s1 D i :
  bcache h0 H s → fs_step (hart_push h0) H (acq (LkInode i) s) s1 D → lock_held (LkInode i) s1.
Proof.
  intros Hc Hst. destruct (acq_held (LkInode i) s) as [nm Hh]. exists nm.
  destruct Hst as [Hc1 _ _ [_ L]]. rewrite L by done. rewrite Hh. do 2 f_equal.
  rewrite (bc_hart _ _ _ Hc1), iter_push_id. change (h_id (k_hart (acq (LkInode i) s))) with (h_id (k_hart s)).
  by rewrite (bc_hart _ _ _ Hc), iter_push_id.
Qed.

(** The directory behind the lock. *)
Lemma lock_dir_run h0 H T s i x :
  walk_ok h0 H T s → k_icache s !! i = Some x → inode_num x ∈ T → is_dir (k_disk s) (k_sb s) (inode_num x) = true →
  let x' := loaded (k_disk s) (k_sb s) x in
  ∃ s1 blk d k, inode_lock i s = Ok (tt, s1) ∧ dir_ok (hart_push h0) H s1 i x' blk d k ∧
    dir_entries (k_disk s) (node (k_disk s) (k_sb s) (inode_num x)) = entries d k ∧
    fs_step (hart_push h0) H (acq (LkInode i) (set_icache (<[i := x']> (k_icache s)) s)) s1 (k_disk s).
Proof.
  intros Hk Hi HT Hdir x'. destruct (lock_load_run h0 H T s i x Hk Hi HT) as (s1 & Hl & Hst). fold x' in Hst.
  set (sl := set_icache (<[i := x']> (k_icache s)) s) in *.
  assert (k_disk s1 = k_disk s) as Ed by exact (fs_disk _ _ _ _ _ Hst). assert (k_sb s1 = k_sb s) as Es by exact (fs_step_sb _ _ _ _ _ Hst).
  destruct (held_dir (hart_push h0) H T s1 i (i_ref x) (inode_num x)) as (blk & d & k & Hd & Ee); rewrite ?Ed, ?Es; try done.
  - apply Hst.
  - apply Hk.
  - apply Hk.
  - rewrite (fs_step_icache _ _ _ _ _ Hst). apply list_lookup_insert_eq. by eapply lookup_lt_Some.
  - apply (section_held h0 H sl s1 (k_disk s) i); [apply bcache_icache, Hk|done].
  - rewrite Ed, Es in Hd, Ee. by exists s1, blk, d, k.
Qed.

(** The entry behind the lock, and the lookup of a name in it. *)
Lemma lock_search_run h0 H T s i x name :
  walk_ok h0 H T s → k_icache s !! i = Some x → inode_num x ∈ T → is_dir (k_disk s) (k_sb s) (inode_num x) = true →
  name_ok name →
  let x' := loaded (k_disk s) (k_sb s) x in
  ∃ s1 s2, inode_lock i s = Ok (tt, s1) ∧ get_inode i s1 = Ok (x', s1) ∧
    dir_search_entry i name s1 =
      Ok (default INODE_NUM_UNUSED (child (k_disk s) (k_sb s) (inode_num x) (name_of name)), s2) ∧
    fs_step (hart_push h0) H (acq (LkInode i) (set_icache (<[i := x']> (k_icache s)) s)) s2 (k_disk s).
Proof.
  intros Hk Hi HT Hdir Hnm x'. destruct (lock_dir_run h0 H T s i x Hk Hi HT Hdir) as (s1 & blk & d & k & Hl & Hd & En & Hst).
  destruct (dir_search_run (hart_push h0) H s1 i x' blk d k name Hd Hnm) as (s2 & Hs & Hst2).
  exists s1, s2. split; [done|]. split; [apply get_inode_run, Hd|]. split.
  - rewrite Hs, dir_find_map. unfold child, names_of. by rewrite Hdir, En.
  - rewrite (fs_disk _ _ _ _ _ Hst) in Hst2. by eapply fs_step_trans.
Qed.

(** [inode_free] of an entry that has links only drops the reference. *)
Lemma inode_free_run s i x :
  hart_stable (k_hart s) → lock_idle LkIcache s → k_icache s !! i = Some x → i_nlink x ≠ 0 →
  inode_free i s = Ok (tt, set_icache (<[i := i_set_ref (u32 (i_ref x - 1)) x]> (k_icache s)) s).
Proof.
  intros Hst Hid Hi Hn. unfold inode_free. run (acquire_run LkIcache s (lock_idle_unlocked _ _ Hid)).
  unfold upd_inode. mrun. cbn [k_icache acq set_locks set_hart]. rewrite (alter_insert _ _ _ x Hi).
  set (l := <[i := _]> (k_icache s)).
  assert (get_inode i (set_icache l (acq LkIcache s)) =
    Ok (i_set_ref (u32 (i_ref x - 1)) x, set_icache l (acq LkIcache s))) as Hg.
  { apply get_inode_run. cbn [k_icache set_icache]. apply list_lookup_insert_eq. by eapply lookup_lt_Some. }
  run Hg. cbn [i_nlink i_set_ref]. rewrite (proj2 (Z.eqb_neq _ _) Hn), andb_false_r. mrun.
  rewrite (release_after LkIcache s) by done. by destruct s.
Qed.

(** ** References *)

Lemma refs_insert l i x : refs (<[i := x]> l) = <[i := i_ref x]> (refs l).
Proof. apply list_fmap_insert. Qed.

Lemma lookup_refs l i x : l !! i = Some x → refs l !! i = Some (i_ref x).
Proof. intros Hi. unfold refs. by rewrite list_lookup_fmap, Hi. Qed.

Lemma lookup_ref_up i r k : ref_up i r !! k = (λ v, if decide (k = i) then v + 1 else v) <$> r !! k.
Proof.
  unfold ref_up. destruct (decide (k = i)) as [->|Hne].
  - by rewrite list_lookup_alter_eq.
  - rewrite list_lookup_alter_ne by done. by destruct (r !! k).
Qed.

Lemma ref_up_free i r : (2 ≤ length (filter (λ v : Z, v = 0%Z) r))%nat → 0 ∈ ref_up i r.
Proof.
  revert i. induction r as [|v r IH]; intros i; rewrite ?filter_nil, ?filter_cons; simpl; [lia|].
  destruct i as [|i]; simpl.
  - intros Hf. right. assert (filter (λ v : Z, v = 0%Z) r ≠ []) as Hne by (intros E; rewrite E in Hf; case_decide; simpl in Hf; lia).
    apply last_is_Some in Hne as [w Hw]. apply last_Some_elem_of in Hw. by apply list_elem_of_filter in Hw as [-> ?].
  - case_decide as Hv; [subst; by left|]. intros Hf. right. by apply IH.
Qed.

(** One entry for inode [m], slot [j], was given out. *)
Record given (l : list inode) (j : nat) (m : Z) (l' : list inode) : Prop := {
  gv_refs : refs l' = ref_up j (refs l);
  gv_used k x : l !! k = Some x → i_ref x ≠ 0 → ∃ v, l' !! k = Some (i_set_ref v x);
  gv_entry : ∃ y, l' !! j = Some y ∧ inode_num y = m }.

Lemma given_insert l j y m z :
  l !! j = Some y → inode_num z = m → i_ref z = i_ref y + 1 → (i_ref y ≠ 0 → ∃ v, z = i_set_ref v y) →
  given l j m (<[j := z]> l).
Proof.
  intros Hj Hm Hr Hz. pose proof (lookup_lt_Some _ _ _ Hj) as Hlt. split.
  - rewrite refs_insert. unfold ref_up. rewrite (alter_insert _ _ _ _ (lookup_refs l j y Hj)). by rewrite Hr.
  - intros k x Hk Hx. destruct (decide (k = j)) as [->|Hne].
    + rewrite list_lookup_insert_eq by done. simplify_eq. destruct (Hz Hx) as [v ->]. by exists v.
    + rewrite list_lookup_insert_ne by done. exists (i_ref x). rewrite Hk. by destruct x.
  - exists z. by rewrite list_lookup_insert_eq.
Qed.

Lemma alloc_entry D sb T s m :
  hart_stable (k_hart s) → lock_idle LkIcache s → icache_ok D sb T (k_icache s) → 0 ∈ refs (k_icache s) → (∀ v, v ∈ refs (k_icache s) → 0 ≤ v < 2^32 - 1) →
  ∃ j l', inode_alloc m s = Ok (j, set_icache l' s) ∧ given (k_icache s) j m l' ∧
    icache_ok D sb T l'.
Proof.
  intros Hst Hid Hic Hz Hrg. rewrite inode_alloc_run; [|done|done|apply Hic]. unfold alloc_result.
  destruct (list_find (has_num m) _) as [[j y]|] eqn:Hf.
  - apply list_find_Some in Hf as (Hj & Hn & _). unfold has_num in Hn.
    assert (0 ≤ i_ref y < 2^32 - 1) as Hy by (apply Hrg; eapply list_elem_of_lookup_2, lookup_refs, Hj).
    eexists j, _. split; [done|]. rewrite u32_small by lia. split; [|].
    + apply (given_insert _ _ y); [done|done|done|]. intros _. by eexists.
    + eapply icache_ok_insert; [done|exact Hj| |by left]. eapply coherent_ref, Hic, Hj.
  - apply list_find_None in Hf. rewrite Forall_forall in Hf.
    destruct (list_find is_free _) as [[j y]|] eqn:Hg.
    + apply list_find_Some in Hg as (Hj & Hfr & _). unfold is_free in Hfr.
      eexists j, _. split; [done|]. split.
      * apply (given_insert _ _ y); [done|done|by rewrite Hfr|done].
      * eapply icache_ok_insert; [done|exact Hj|by intros ?|]. right. intros k z Hz' En.
        apply (Hf z); [by eapply list_elem_of_lookup_2|exact En].
    + exfalso. apply list_find_None in Hg. rewrite Forall_forall in Hg.
      apply list_elem_of_fmap in Hz as (x & Hx & Hin). by apply (Hg x Hin).
Qed.

Lemma alloc_cached h0 H T s m :
  cache_ok h0 H T s → 0 ∈ refs (k_icache s) → (∀ v, v ∈ refs (k_icache s) → 0 ≤ v < 2^32 - 1) →
  ∃ j l', inode_alloc m s = Ok (j, set_icache l' s) ∧ given (k_icache s) j m l' ∧
    icache_ok (k_disk s) (k_sb s) T l'.
Proof. intros Hk. apply alloc_entry; [apply (bcache_stable h0 H)|..]; apply Hk. Qed.

Lemma alloc_run h0 H T s m :
  walk_ok h0 H T s → 0 ∈ refs (k_icache s) → (∀ v, v ∈ refs (k_icache s) → 0 ≤ v < 2^32 - 1) →
  ∃ j l', inode_alloc m s = Ok (j, set_icache l' s) ∧ given (k_icache s) j m l' ∧
    icache_ok (k_disk s) (k_sb s) T l'.
Proof. intros Hk. by apply (alloc_cached h0 H T s m (walk_cache _ _ _ _ Hk)). Qed.

(** The slots [l] against the slots [l0] at the start: one reference more on slot [i],
    which holds inode [n]. *)
Record held (l0 l : list inode) (i : nat) (n : Z) : Prop := {
  hd_refs : refs l = ref_up i (refs l0);
  hd_keep : keeps l0 l;
  hd_entry : inode_num <$> l !! i = Some n }.

(** No reference is left over. *)
Record balanced (l0 l : list inode) : Prop := {
  bl_refs : refs l = refs l0;
  bl_keep : keeps l0 l }.

Lemma stays_trans x y z : stays x y → stays y z → stays x z.
Proof. intros [E1 V1] [E2 V2]. split; [congruence|tauto]. Qed.

Lemma keeps_insert l0 l i x y : keeps l0 l → l !! i = Some x → stays x y → keeps l0 (<[i := y]> l).
Proof.
  intros Hk Hi Hs j z Hj Hz. destruct (Hk j z Hj Hz) as (w & Hw & Hwz). destruct (decide (j = i)) as [->|Hne].
  - exists y. rewrite list_lookup_insert_eq by (by eapply lookup_lt_Some). split; [done|]. simplify_eq. by eapply stays_trans.
  - exists w. by rewrite list_lookup_insert_ne.
Qed.

Lemma num_insert (l : list inode) i x y j :
  l !! i = Some x → inode_num y = inode_num x → inode_num <$> <[i := y]> l !! j = inode_num <$> l !! j.
Proof.
  intros Hi Hn. destruct (decide (j = i)) as [->|Hne].
  - rewrite list_lookup_insert_eq by (by eapply lookup_lt_Some). rewrite Hi. simpl. by rewrite Hn.
  - by rewrite list_lookup_insert_ne.
Qed.

Lemma held_loaded l0 l i n x D sb :
  held l0 l i n → l !! i = Some x → held l0 (<[i := loaded D sb x]> l) i n.
Proof.
  intros [Hr Hk He] Hi. split.
  - rewrite refs_insert. rewrite <- Hr. apply list_insert_id, (lookup_refs l i x Hi).
  - apply (keeps_insert _ _ _ x); [done|done|]. split; [apply loaded_num|]. intros _. apply node_valid.
  - rewrite (num_insert _ _ x); [done|done|apply loaded_num].
Qed.

Lemma ref_up_comm i j r : ref_up i (ref_up j r) = ref_up j (ref_up i r).
Proof.
  apply list_eq. intros k. rewrite !lookup_ref_up. destruct (r !! k); [|done]. simpl. by repeat case_decide.
Qed.

Lemma ref_up_down i r w :
  (∀ v, v ∈ r → 0 ≤ v < 2^32) → ref_up i r !! i = Some w → <[i := u32 (w - 1)]> (ref_up i r) = r.
Proof.
  intros Hr Hw. rewrite lookup_ref_up in Hw. destruct (r !! i) as [v|] eqn:Ei; [|done].
  simpl in Hw. rewrite decide_True in Hw by done. injection Hw as <-. unfold ref_up. rewrite (alter_insert _ _ _ v Ei), list_insert_insert_eq.
  rewrite u32_small by (specialize (Hr v (list_elem_of_lookup_2 _ _ _ Ei)); lia).
  apply list_insert_id. rewrite Ei. f_equal. lia.
Qed.

Lemma ref_up_range i r hi : (∀ v, v ∈ r → 0 ≤ v < hi) → ∀ v, v ∈ ref_up i r → 0 ≤ v < hi + 1.
Proof.
  intros Hr v Hv. apply list_elem_of_lookup in Hv as [k Hk]. rewrite lookup_ref_up in Hk.
  destruct (r !! k) as [w|] eqn:Ew; [|done]. specialize (Hr w (list_elem_of_lookup_2 _ _ _ Ew)).
  simpl in Hk. case_decide; simplify_eq; lia.
Qed.

Lemma held_drop l0 l i n x :
  ref_room (refs l0) → held l0 l i n → l !! i = Some x →
  balanced l0 (<[i := i_set_ref (u32 (i_ref x - 1)) x]> l).
Proof.
  intros [Hrg _] [Hr Hk He] Hi. split.
  - rewrite refs_insert. cbn [i_ref i_set_ref]. pose proof (lookup_refs l i x Hi) as Hx. rewrite Hr in Hx |- *.
    apply ref_up_down; [|done]. intros v Hv. specialize (Hrg v Hv). lia.
  - by apply (keeps_insert _ _ _ x).
Qed.

Lemma held_keep_used l0 l i n k x :
  ref_room (refs l0) → held l0 l i n → l0 !! k = Some x → i_ref x ≠ 0 →
  ∃ y, l !! k = Some y ∧ stays x y ∧ i_ref y ≠ 0.
Proof.
  intros [Hrg _] [Hr Hk He] Hx Hnz. destruct (Hk k x Hx Hnz) as (y & Hy & Hn).
  exists y. split; [done|]. split; [done|]. pose proof (lookup_refs l k y Hy) as Ey.
  pose proof (lookup_refs l0 k x Hx) as Ex. rewrite Hr, lookup_ref_up, Ex in Ey. simpl in Ey.
  specialize (Hrg _ (list_elem_of_lookup_2 _ _ _ Ex)). case_decide; simplify_eq; lia.
Qed.

Lemma held_given l0 l i n j m l' x :
  ref_room (refs l0) → held l0 l i n → given l j m l' → l' !! i = Some x →
  held l0 (<[i := i_set_ref (u32 (i_ref x - 1)) x]> l') j m.
Proof.
  intros Hroom Hh [Gr Gu (y & Gy & Gn)] Hi. split.
  - rewrite refs_insert. cbn [i_ref i_set_ref]. pose proof (lookup_refs l' i x Hi) as Hx.
    rewrite Gr, (hd_refs _ _ _ _ Hh), ref_up_comm in Hx |- *. apply ref_up_down; [|done].
    intros v Hv. apply (ref_up_range j (refs l0) (2^32 - 2) (rr_range _ Hroom)) in Hv. lia.
  - intros k z Hz Hnz. destruct (held_keep_used l0 l i n k z Hroom Hh Hz Hnz) as (w & Hw & Hn & Hwz).
    destruct (Gu k w Hw Hwz) as [v Hv]. destruct (decide (k = i)) as [->|Hne].
    + eexists. rewrite list_lookup_insert_eq by (by eapply lookup_lt_Some). split; [done|]. simplify_eq. exact Hn.
    + exists (i_set_ref v w). rewrite list_lookup_insert_ne by done. by split.
  - rewrite (num_insert _ _ x) by done. by rewrite Gy, <- Gn.
Qed.

Lemma held_start l0 j m l : given l0 j m l → held l0 l j m.
Proof.
  intros [Gr Gu (y & Gy & Gn)]. split; [done| |by rewrite Gy, <- Gn].
  intros k x Hk Hx. destruct (Gu k x Hk Hx) as [v Hv]. by exists (i_set_ref v x).
Qed.

(** ** The walk *)

(** The outcome of a walk that started with the slots [l0]: at inode [m], with one
    reference more on the slot of [m]; or nowhere, with the references as they were. *)
Record walk_result (h0 : hart) (H : gmap nat Z) (T : gset Z) (l0 : list inode) (s : kstate) (r : option Z)
    (slot : option nat) (s' : kstate) : Prop := {
  wr_state : walk_ok h0 H T s';
  wr_walked : walked h0 H s (k_icache s') s';
  wr_slot : match r with
            | Some m => ∃ j, slot = Some j ∧ held l0 (k_icache s') j m
            | None => slot = None ∧ balanced l0 (k_icache s')
            end }.

Lemma walk_result_after h0 H T l0 s l s1 r slot s' :
  walked h0 H s l s1 → walk_result h0 H T l0 s1 r slot s' → walk_result h0 H T l0 s r slot s'.
Proof. intros Hw [H1 H2 H3]. split; [done|by eapply walked_trans|done]. Qed.

Section walk.
  Context (h0 : hart) (H : gmap nat Z) (T : gset Z) (l0 : list inode) (Hroom : ref_room (refs l0)).

(** A step that ends with slots [l]. *)
Lemma walk_result_step s l s' r slot :
  walk_ok h0 H T s → walked h0 H s l s' → icache_ok (k_disk s) (k_sb s) T l →
  match r with Some m => ∃ j, slot = Some j ∧ held l0 l j m | None => slot = None ∧ balanced l0 l end →
  walk_result h0 H T l0 s r slot s'.
Proof.
  intros Hk Hw Hic Hr. pose proof (walked_icache _ _ _ _ _ Hw) as E. split; [by eapply walk_ok_step|by rewrite E|by rewrite E].
Qed.

Lemma icache_ok_loaded D sb l i x :
  icache_ok D sb T l → l !! i = Some x → icache_ok D sb T (<[i := loaded D sb x]> l).
Proof.
  intros Hic Hi. eapply icache_ok_insert; [done|exact Hi|apply coherent_loaded|left; apply loaded_num].
Qed.

Lemma held_lookup l i n : held l0 l i n → ∃ x, l !! i = Some x ∧ inode_num x = n.
Proof. intros [_ _ He]. destruct (l !! i) as [x|]; [|done]. injection He as <-. by exists x. Qed.

(** [inode_unlock_free] of slot [i], after the section changed the slots to [l] and the
    disk to [D']. *)
Lemma unlock_free_step s i n x l s1 D' :
  walk_ok h0 H T s → held l0 l i n → l !! i = Some x → i_nlink x ≠ 0 →
  tree_ok H D' (k_sb s) T → icache_ok D' (k_sb s) T l →
  fs_step (hart_push h0) H (acq (LkInode i) (set_icache l s)) s1 D' →
  ∃ s', inode_unlock_free i s1 = Ok (tt, s') ∧ walk_ok h0 H T s' ∧ balanced l0 (k_icache s') ∧
    fs_step h0 H (set_icache (k_icache s') s) s' D'.
Proof.
  intros Hk Hh Hi Hnl Ht Hic Hst.
  assert (i < N_INODE)%nat as Hlt by (rewrite <- (ic_len _ _ _ _ Hic); by eapply lookup_lt_Some).
  destruct (fs_step_section h0 H (set_icache l s) s1 D' (LkInode i) (inode_other i)) as [Hu Hw];
    [apply bcache_icache, Hk|exact (wk_lock _ _ _ _ Hk i Hlt)|done|].
  pose proof (walk_ok_change h0 H T s l _ D' Hk Hw Ht Hic) as Hk2. pose proof (fs_step_icache _ _ _ _ _ Hw) as E2.
  set (s2 := rel (LkInode i) s1) in *. cbn [k_icache set_icache] in E2.
  unfold inode_unlock_free. rewrite (bind_ok _ _ _ tt s2 Hu).
  rewrite (inode_free_run s2 i x); [|apply (bcache_stable h0 H), Hk2|apply Hk2|by rewrite E2|done].
  rewrite E2. eexists. split; [done|]. cbn [k_icache set_icache].
  set (l' := <[i := i_set_ref (u32 (i_ref x - 1)) x]> l).
  assert (fs_step h0 H (set_icache l' s) (set_icache l' s2) D') as Hw' by exact (fs_step_set_icache _ _ _ _ _ l' Hw).
  split; [|split; [by apply (held_drop l0 l i n x)|exact Hw']]. apply (walk_ok_change h0 H T s l' _ D' Hk Hw' Ht).
  eapply icache_ok_insert; [exact Hic|exact Hi| |by left]. apply coherent_ref, (ic_coherent _ _ _ _ Hic i x Hi).
Qed.

(** [inode_unlock_free] on the way out. *)
Lemma unlock_free_run s i n x s1 :
  walk_ok h0 H T s → held l0 (k_icache s) i n → k_icache s !! i = Some x → n ∈ T →
  fs_step (hart_push h0) H (acq (LkInode i) (set_icache (<[i := loaded (k_disk s) (k_sb s) x]> (k_icache s)) s)) s1 (k_disk s) →
  ∃ s', inode_unlock_free i s1 = Ok (tt, s') ∧ walk_result h0 H T l0 s None None s'.
Proof.
  intros Hk Hh Hi HT Hst. set (x' := loaded (k_disk s) (k_sb s) x) in *.
  assert (inode_num x = n) as En by (destruct Hh as [_ _ He]; rewrite Hi in He; by injection He).
  destruct (unlock_free_step s i n x' (<[i := x']> (k_icache s)) s1 (k_disk s) Hk) as (s' & Hu & Hk' & Hb & Hw); try done.
  - by apply held_loaded.
  - apply list_lookup_insert_eq. by eapply lookup_lt_Some.
  - unfold x', loaded. cbn [i_nlink i_set_ref]. rewrite En. by apply (to_link _ _ _ _ (wk_tree _ _ _ _ Hk)).
  - apply Hk.
  - apply icache_ok_loaded; [apply Hk|done].
  - exists s'. split; [done|]. by split.
Qed.

(** Entry of the next inode, and release of this one. *)
Lemma advance_run s i n x m :
  walk_ok h0 H T s → held l0 (k_icache s) i n → k_icache s !! i = Some x → i_nlink x ≠ 0 → m ∈ T →
  ∃ j s1 s2, inode_alloc m s = Ok (j, s1) ∧ inode_free i s1 = Ok (tt, s2) ∧ held l0 (k_icache s2) j m ∧
    walk_ok h0 H T s2 ∧ walked h0 H s (k_icache s2) s2.
Proof.
  intros Hk Hh Hi Hnl Hm. destruct (alloc_run h0 H T s m Hk) as (j & l' & Ha & Hg & Hic).
  { rewrite (hd_refs _ _ _ _ Hh). by apply ref_up_free, Hroom. }
  { rewrite (hd_refs _ _ _ _ Hh). intros v Hv. apply (ref_up_range i (refs l0) (2^32 - 2) (rr_range _ Hroom)) in Hv. lia. }
  assert (i_ref x ≠ 0) as Hx0.
  { pose proof (lookup_refs _ _ _ Hi) as Ex. rewrite (hd_refs _ _ _ _ Hh), lookup_ref_up in Ex.
    destruct (refs l0 !! i) as [v|] eqn:Ev; [|done]. simpl in Ex. rewrite decide_True in Ex by done. injection Ex as Ex.
    pose proof (rr_range _ Hroom v (list_elem_of_lookup_2 _ _ _ Ev)). lia. }
  destruct (gv_used _ _ _ _ Hg i x Hi Hx0) as [v Hv].
  pose proof (wk_cache _ _ _ _ Hk) as Hc. pose proof (walked_update h0 H s l' Hc) as Hw.
  assert (walk_ok h0 H T (set_icache l' s)) as Hk1 by (by eapply walk_ok_step).
  assert (inode_free i (set_icache l' s) = Ok (tt, set_icache (<[i := i_set_ref (u32 (v - 1)) x]> l') s)) as Hf.
  { rewrite (inode_free_run _ i (i_set_ref v x)); [done|apply (bcache_stable h0 H), Hk1|apply Hk1|done|done]. }
  eexists j, _, _. split; [exact Ha|]. split; [exact Hf|]. cbn [k_icache set_icache].
  split; [by apply (held_given l0 (k_icache s) i n j m l' (i_set_ref v x))|].
  split; [|by apply walked_update].
  apply (walk_ok_step h0 H T s _ _ Hk (walked_update h0 H s _ Hc)).
  eapply icache_ok_insert; [exact Hic|exact Hv| |by left]. apply (coherent_ref _ _ _ (i_set_ref v x)), (ic_coherent _ _ _ _ Hic i _ Hv).
Qed.

(** Where the loop is to end, for both values of [find_parent]. *)
Definition target (D : gmap Z (list Z)) (sb : super_block) (find_parent : bool) (n : Z) (cs : list (list Z)) : option Z :=
  if find_parent then resolve_parent D sb n cs else resolve D sb n cs.

Lemma target_cons D sb fp n c cs :
  target D sb fp n (c :: cs) =
    if is_dir D sb n then
      if fp && bool_decide (cs = []) then Some n else m ← child D sb n c; target D sb fp m cs
    else None.
Proof.
  unfold target, resolve_parent. destruct fp; simpl; [|unfold child; by destruct (is_dir D sb n)].
  destruct cs as [|c' cs]; [done|]. rewrite bool_decide_false by done. cbn [resolve]. destruct (is_dir D sb n) eqn:E.
  - by destruct (child D sb n c).
  - unfold child at 1. by rewrite E.
Qed.

Definition components (l : list (list Z * nat)) : list (list Z) := take DIR_NAME_LEN <$> l.*1.

(** The name a walk to the parent leaves behind. *)
Definition last_name (l : list (list Z * nat)) (nm : list Z) : Prop :=
  last (components l) = Some (name_of nm) ∧ length nm = DIR_NAME_LEN ∧ Forall byte_ok nm.

Lemma path_text_end l : path_ok l → (nth 0 (path_text l) 0 =? 0) = bool_decide (l = []).
Proof.
  intros Hl. destruct (path_text_cons l Hl) as (c & p & -> & _ & Hc). cbn [nth].
  destruct (c =? 0) eqn:E; zbool; symmetry; [apply bool_decide_true|apply bool_decide_false]; tauto.
Qed.

Lemma element_name_ok c name :
  Forall byte_ok c → Forall byte_ok name → Forall byte_ok (element_name c name).
Proof.
  intros Hc Hn. assert (Forall byte_ok [0]) by (by repeat constructor).
  unfold element_name, splice. destruct (_ <=? _)%nat;
    repeat first [done|apply Forall_app; split|apply Forall_take|apply Forall_drop].
Qed.

(** One turn of the loop: it stops, or goes on from the child. *)
Lemma turn_run s i n nm (last_one : bool) (k : nat → K (option nat * list Z)) :
  walk_ok h0 H T s → held l0 (k_icache s) i n → n ∈ T → name_ok nm →
  let turn :=
    inode_lock i;;
    ip ← get_inode i;
    if negb (i_type ip =? FT_DIR) then inode_unlock_free i;; mret (None, nm)
    else if last_one then inode_unlock i;; mret (Some i, nm)
    else
      inum ← dir_search_entry i nm;
      if inum =? INODE_NUM_UNUSED then inode_unlock_free i;; mret (None, nm)
      else inode_unlock i;; next ← inode_alloc inum; inode_free i;; k next in
  let r := if is_dir (k_disk s) (k_sb s) n then
             if last_one then Some n else child (k_disk s) (k_sb s) n (name_of nm)
           else None in
  (last_one = true ∨ r = None) ∧ (∃ slot s', turn s = Ok ((slot, nm), s') ∧ walk_result h0 H T l0 s r slot s') ∨
  last_one = false ∧ ∃ m j s', r = Some m ∧ m ∈ T ∧ turn s = k j s' ∧ held l0 (k_icache s') j m ∧
    walk_ok h0 H T s' ∧ walked h0 H s (k_icache s') s'.
Proof.
  intros Hk Hh HT Hnm turn r. unfold turn. clear turn. destruct (held_lookup _ _ _ Hh) as (x & Hi & Hx). subst n.
  set (D := k_disk s) in *. set (sb := k_sb s) in *. set (x' := loaded D sb x). set (l := <[i := x']> (k_icache s)).
  assert ((i_type x' =? FT_DIR) = is_dir D sb (inode_num x)) as Ety by done.
  assert (i < N_INODE)%nat as Hlt by (rewrite <- (ic_len _ _ _ _ (wk_icache _ _ _ _ Hk)); by eapply lookup_lt_Some).
  assert (icache_ok D sb T l) as Hic by (apply icache_ok_loaded; [apply Hk|done]).
  assert (held l0 l i (inode_num x)) as Hhl by (by apply held_loaded).
  assert (l !! i = Some x') as Hil by (apply list_lookup_insert_eq; by eapply lookup_lt_Some).
  destruct (lock_load_run h0 H T s i x Hk Hi HT) as (s1 & Hl & Hst). fold D sb x' l in Hst.
  assert (get_inode i s1 = Ok (x', s1)) as Hg by (apply get_inode_run; by rewrite (fs_step_icache _ _ _ _ _ Hst)).
  destruct (is_dir D sb (inode_num x)) eqn:Hd; [destruct last_one|]; unfold r.
  - left. split; [by left|]. run Hl. run Hg. rewrite Ety. cbn [negb].
    destruct (unlock_run h0 H T s i l s1 Hk Hlt Hst) as [Hu Hw]. run Hu. eexists _, _. split; [done|].
    eapply walk_result_step; [done|exact Hw|done|by exists i].
  - clear s1 Hl Hst Hg. destruct (lock_search_run h0 H T s i x nm Hk Hi HT Hd Hnm) as (s1 & s2 & Hl & Hg & Hs & Hst).
    fold D sb x' l in Hg, Hs, Hst. run Hl. run Hg. rewrite Ety. cbn [negb]. run Hs.
    destruct (child D sb (inode_num x) (name_of nm)) as [m|] eqn:Hch; cbn [default from_option id].
    + right. split; [done|]. pose proof (wk_tree _ _ _ _ Hk) as Ht.
      assert (m ∈ T) as Hm by (by eapply to_child). pose proof (to_num _ _ _ _ Ht m Hm).
      rewrite (proj2 (Z.eqb_neq m INODE_NUM_UNUSED)) by lia. destruct (unlock_run h0 H T s i l s2 Hk Hlt Hst) as [Hu Hw]. run Hu.
      pose proof (walked_icache _ _ _ _ _ Hw) as E3. pose proof (walk_ok_step _ _ _ _ _ _ Hk Hw Hic) as Hk3.
      destruct (advance_run (rel (LkInode i) s2) i (inode_num x) x' m Hk3) as (j & s4 & s5 & Ha & Hf & Hh5 & Hk5 & Hw5);
        [by rewrite E3|by rewrite E3|by apply (to_link _ _ _ _ Ht)|done|].
      run Ha. run Hf. exists m, j, s5. do 5 (split; [done|]). by eapply walked_trans.
    + left. split; [by right|]. rewrite Z.eqb_refl.
      destruct (unlock_free_run s i (inode_num x) x s2 Hk Hh Hi HT Hst) as (s' & Hu & Hres). run Hu.
      by eexists _, _.
  - left. split; [by right|]. run Hl. run Hg. rewrite Ety. cbn [negb].
    destruct (unlock_free_run s i (inode_num x) x s1 Hk Hh Hi HT Hst) as (s' & Hu & Hres). run Hu. by eexists _, _.
Qed.

Lemma search_loop_run fp fuel : ∀ a l i n name s,
  walk_ok h0 H T s → held l0 (k_icache s) i n → n ∈ T → path_ok l → Forall (Forall byte_ok) l.*1 →
  length name = DIR_NAME_LEN → Forall byte_ok name → (length (path_text l) ≤ fuel)%nat → (fp = true → l ≠ []) →
  ∃ slot nm s', search_loop fuel i (replicate a SLASH ++ path_text l) name fp s = Ok ((slot, nm), s') ∧
    walk_result h0 H T l0 s (target (k_disk s) (k_sb s) fp n (components l)) slot s' ∧
    (fp = true → is_Some slot → last_name l nm).
Proof.
  induction fuel as [|fuel IH]; intros a [|[c b] l] i n name s Hk Hh HT Hl Hby Hn Hnb Hf Hfp.
  1: simpl in Hf; lia.
  1: destruct Hl as (Hne & _); destruct c; simpl in Hf; [done|lia].
  { destruct fp; [by destruct (Hfp eq_refl)|]. cbn [search_loop path_text]. unfold skip_element.
    rewrite skip_slashes_run by done. cbn [mbind option_bind nth]. rewrite Z.eqb_refl. mrun.
    eexists _, _, s. split; [done|]. split; [|done]. destruct s. split; [done|apply walked_update, Hk|by exists i]. }
  cbn [search_loop]. rewrite (skip_element_run a c b l name Hl). mrun.
  destruct Hl as (Hne & Hc & _ & Hl). inversion_clear Hby as [|? ? Hcb Hby'].
  destruct (element_name_spec c name Hc Hn) as [Hlen Hstr]. set (nm := element_name c name) in *.
  assert (Forall byte_ok nm) as Hnmb by (by apply element_name_ok).
  assert (name_ok nm) as Hnm by (split; [done|left; lia]).
  unfold components. cbn [fst fmap list_fmap]. fold (components l). rewrite target_cons.
  rewrite path_text_end by done. rewrite <- Hstr. fold (name_of nm).
  assert (bool_decide (components l = []) = bool_decide (l = [])) as Eb
    by (apply bool_decide_ext; by destruct l).
  rewrite Eb. set (last_one := fp && bool_decide (l = [])).
  destruct (turn_run s i n nm last_one (λ next, search_loop fuel next (path_text l) nm fp) Hk Hh HT Hnm)
    as [(Hstop & slot & s' & Hr & Hres)|(Hgo & m & j & s' & Hm & HmT & Hr & Hh' & Hk' & Hw)].
  - exists slot, nm, s'. split; [exact Hr|]. split.
    + destruct (is_dir (k_disk s) (k_sb s) n); [|done]. destruct last_one; [done|].
      destruct Hstop as [?|Hstop]; [done|]. rewrite Hstop in *. exact Hres.
    + intros -> Hs. split; [|done]. destruct last_one eqn:Elo.
      * apply bool_decide_eq_true in Elo as ->. simpl. unfold name_of. by rewrite Hstr.
      * destruct Hstop as [?|Hstop]; [done|]. destruct Hres as [_ _ Hsl]. destruct (is_dir _ _ n); rewrite ?Hstop in Hsl;
          destruct Hsl as [-> _]; by destruct Hs.
  - rewrite Hgo in *. destruct (is_dir (k_disk s) (k_sb s) n); [|done]. rewrite Hm. cbn [mbind option_bind].
    pose proof (fs_disk _ _ _ _ _ Hw) as ED. pose proof (fs_step_sb _ _ _ _ _ Hw) as ES.
    assert (fp = true → l ≠ []) as Hfp'.
    { intros -> ->. unfold last_one in Hgo. by rewrite bool_decide_true in Hgo. }
    destruct (IH 0%nat l j m nm s') as (slot & nm' & s2 & Hr2 & Hres & Hlast); try done.
    { destruct c; [done|]. simpl in Hf. rewrite !length_app in Hf. lia. }
    exists slot, nm', s2. split; [rewrite <- Hr2; exact Hr|]. split.
    + rewrite ED, ES in Hres. by eapply walk_result_after.
    + intros E Hs. destruct (Hlast E Hs) as [Hl1 Hl2]. split; [|done]. unfold components in Hl1 |- *. cbn [fst fmap list_fmap].
      destruct l as [|[c2 b2] l]; [by destruct (Hfp' E)|]. exact Hl1.
Qed.

(** ** Where a path starts *)

(** The root for a path with a leading slash, else the working directory of the process. *)
Definition origin (s : kstate) (a : nat) (n : Z) : Prop :=
  match a with
  | S _ => n = INODE_ROOT
  | O => ∃ me p d x, h_proc (k_hart s) = Some me ∧ k_procs s !! me = Some p ∧ cwd p = Some d ∧
           k_icache s !! d = Some x ∧ inode_num x = n ∧ i_ref x ≠ 0
  end.

Lemma inode_dup_run s i x :
  hart_stable (k_hart s) → lock_idle LkIcache s → k_icache s !! i = Some x →
  inode_dup i s = Ok (i, set_icache (<[i := i_set_ref (u32 (i_ref x + 1)) x]> (k_icache s)) s).
Proof.
  intros Hst Hid Hi. unfold inode_dup. run (acquire_run LkIcache s (lock_idle_unlocked _ _ Hid)).
  unfold upd_inode. mrun. rewrite (release_bind LkIcache s) by done. cbn [k_icache acq set_locks set_hart].
  rewrite (alter_insert _ _ _ x Hi). by destruct s.
Qed.

Lemma start_run s a l n :
  walk_ok h0 H T s → k_icache s = l0 → origin s a n → n ∈ T → path_ok l →
  ∃ i s1, (c ← deref "path" (head (replicate a SLASH ++ path_text l));
           if c =? SLASH then inode_alloc INODE_ROOT
           else me ← myproc_deref; p ← get_proc me; d ← deref "cwd" (cwd p); inode_dup d) s = Ok (i, s1) ∧
    held l0 (k_icache s1) i n ∧ walk_ok h0 H T s1 ∧ walked h0 H s (k_icache s1) s1.
Proof.
  intros Hk El0 Ho HT Hl. pose proof (wk_cache _ _ _ _ Hk) as Hc. pose proof (wk_icache _ _ _ _ Hk) as Hic.
  assert (∀ j l', given l0 j n l' → icache_ok (k_disk s) (k_sb s) T l' →
    held l0 (k_icache (set_icache l' s)) j n ∧ walk_ok h0 H T (set_icache l' s) ∧
    walked h0 H s (k_icache (set_icache l' s)) (set_icache l' s)) as Hend.
  { intros j l' Hg Hic'. pose proof (walked_update h0 H s l' Hc) as Hw. split; [by apply held_start|].
    split; [by eapply walk_ok_step|exact Hw]. }
  destruct a as [|a].
  - destruct Ho as (me & p & d & x & Hme & Hp & Hd & Hx & Hn & Hr). destruct (path_text_cons l Hl) as (c & q & E & Hc0 & _).
    cbn [replicate app]. rewrite E. cbn [head]. mrun. rewrite (proj2 (Z.eqb_neq c SLASH) Hc0).
    run (myproc_deref_run me s (bcache_stable _ _ _ Hc) Hme). unfold get_proc. mrun. rewrite Hp. mrun. rewrite Hd. mrun.
    rewrite (inode_dup_run s d x); [|by apply (bcache_stable h0 H)|apply Hk|done].
    pose proof (rr_range _ Hroom (i_ref x)) as Hrg. rewrite <- El0 in Hrg.
    specialize (Hrg (list_elem_of_lookup_2 _ _ _ (lookup_refs _ _ _ Hx))). rewrite u32_small by lia.
    eexists _, _. split; [done|]. rewrite El0 in *. apply Hend.
    + apply (given_insert _ _ x); [done|done|done|]. intros _. by eexists.
    + eapply icache_ok_insert; [done|exact Hx|apply coherent_ref, (ic_coherent _ _ _ _ Hic d x Hx)|by left].
  - simpl in Ho. subst n. cbn [replicate app head]. mrun. rewrite Z.eqb_refl.
    destruct (alloc_run h0 H T s INODE_ROOT Hk) as (j & l' & Ha & Hg & Hic').
    + rewrite El0. pose proof (rr_free _ Hroom) as Hf. destruct (filter _ (refs l0)) as [|v r] eqn:E; [simpl in Hf; lia|].
      assert (v ∈ filter (λ v : Z, v = 0) (refs l0)) as Hv by (rewrite E; by left).
      by apply list_elem_of_filter in Hv as [-> ?].
    + rewrite El0. intros v Hv. pose proof (rr_range _ Hroom v Hv). lia.
    + exists j. eexists. split; [exact Ha|]. rewrite El0 in Hg. by apply Hend.
Qed.

Lemma search_inode_run fp s a l n name :
  walk_ok h0 H T s → k_icache s = l0 → origin s a n → n ∈ T → path_ok l → Forall (Forall byte_ok) l.*1 →
  length name = DIR_NAME_LEN → Forall byte_ok name → (fp = true → l ≠ []) →
  ∃ slot nm s', search_inode (replicate a SLASH ++ path_text l) name fp s = Ok ((slot, nm), s') ∧
    walk_result h0 H T l0 s (target (k_disk s) (k_sb s) fp n (components l)) slot s' ∧
    (fp = true → is_Some slot → last_name l nm).
Proof.
  intros Hk El0 Ho HT Hl Hby Hn Hnb Hfp.
  destruct (start_run s a l n Hk El0 Ho HT Hl) as (i & s1 & Hs & Hh & Hk1 & Hw).
  unfold search_inode. rewrite <- bind_assoc. run Hs.
  destruct (search_loop_run fp (length (replicate a SLASH ++ path_text l)) a l i n name s1)
    as (slot & nm & s' & Hr & Hres & Hlast); try done; [rewrite length_app; lia|].
  exists slot, nm, s'. split; [done|]. split; [|done].
  rewrite (fs_disk _ _ _ _ _ Hw), (fs_step_sb _ _ _ _ _ Hw) in Hres. by eapply walk_result_after.
Qed.

End walk.

(** ** The start: [inode_init] *)

Definition blank (x : inode) : Prop := inode_num x = INODE_NUM_UNUSED ∧ i_ref x = 0 ∧ i_valid x = false.

Lemma icache_other : other_lock LkIcache.
Proof. split; [done|]. split; [done|]. by intros [?|[? ?]]. Qed.

Lemma bcache_other h0 H s lk l :
  other_lock lk → bcache h0 H s → bcache h0 H (set_locks (<[lk := l]> (k_locks s)) s).
Proof. intros (H1 & H2 & H3). by apply bcache_locks. Qed.

(** The slots below [n] are set up. *)
Record init_upto (h0 : hart) (H : gmap nat Z) (s0 : kstate) (n : nat) (s : kstate) : Prop := {
  iu_cache : bcache h0 H s;
  iu_disk : k_disk s = k_disk s0 ∧ k_sb s = k_sb s0 ∧ k_procs s = k_procs s0 ∧ k_hart s = k_hart s0;
  iu_ilock : lock_idle LkIcache s;
  iu_len : length (k_icache s) = N_INODE;
  iu_slot i : (i < n)%nat → lock_idle (LkInode i) s ∧ ∃ x, k_icache s !! i = Some x ∧ blank x }.

Lemma inode_init_run h0 H s :
  bcache h0 H s → length (k_icache s) = N_INODE →
  ∃ s', inode_init s = Ok (tt, s') ∧ init_upto h0 H s N_INODE s'.
Proof.
  intros Hc Hlen. unfold inode_init, spinlock_init, put_lock. mrun.
  apply for_seq_inv.
  - split; try done.
    + by apply (bcache_other _ _ _ _ _ icache_other).
    + exists "icache"%string. apply lookup_insert_eq.
    + intros i Hi. lia.
  - intros n s1 Hn [Hc1 Hd1 Hi1 Hl1 Hs1]. unfold upd_inode. mrun. eexists. split; [done|].
    cbn [k_icache set_icache set_locks k_locks]. rewrite !alter_alter. set (f := λ x, _). set (lk := mk_spinlock _ _ _). split; try done.
    + exact (bcache_icache _ _ (set_locks _ s1) _ (bcache_other _ _ s1 _ lk (inode_other n) Hc1)).
    + destruct Hi1 as [nm Hi1]. exists nm. cbn [k_locks set_icache set_locks]. by rewrite lookup_insert_ne.
    + cbn [k_icache set_icache]. by rewrite length_alter.
    + intros i Hi. unfold lock_idle. cbn [k_locks k_icache set_icache set_locks]. destruct (decide (i = n)) as [->|Hne].
      * rewrite lookup_insert_eq, list_lookup_alter_eq. destruct (lookup_lt_is_Some_2 (k_icache s1) n) as [x ->]; [lia|].
        split; [by eexists|]. by eexists.
      * destruct (Hs1 i) as [[nm Hk] Hx]; [lia|]. rewrite list_lookup_alter_ne, lookup_insert_ne by congruence.
        split; [by exists nm|done].
Qed.

Lemma init_walk_ok h0 H T s0 s :
  init_upto h0 H s0 N_INODE s → (size H < N_BLOCK_BUF)%nat → tree_ok H (k_disk s0) (k_sb s0) T →
  walk_ok h0 H T s ∧ refs (k_icache s) = replicate N_INODE 0.
Proof.
  intros [Hc (Ed & Es & _) Hi Hl Hs] Hsz Ht.
  assert (∀ i x, k_icache s !! i = Some x → blank x) as Hb.
  { intros i x Hx. destruct (Hs i) as [_ (y & Hy & Hbl)]; [rewrite <- Hl; by eapply lookup_lt_Some|]. by simplify_eq. }
  split.
  - split; try done; [by apply Hs|by rewrite Ed, Es|]. split; [done| |].
    + intros i j x y Hx _ _ Hn. by destruct (Hb i x Hx).
    + intros i x Hx Hv. destruct (Hb i x Hx) as (_ & _ & E). congruence.
  - symmetry. apply replicate_as_elem_of. split; [unfold refs; by rewrite length_fmap|]. intros v Hv.
    apply list_elem_of_fmap in Hv as (x & -> & Hin). apply list_elem_of_lookup in Hin as [i Hx]. by apply (Hb i x).
Qed.

Lemma path_to_inode_run h0 H T s a l n :
  walk_ok h0 H T s → ref_room (refs (k_icache s)) → origin s a n → n ∈ T →
  path_ok l → Forall (Forall byte_ok) l.*1 →
  ∃ slot s', path_to_inode (replicate a SLASH ++ path_text l) s = Ok (slot, s') ∧
    walk_result h0 H T (k_icache s) s (resolve (k_disk s) (k_sb s) n (components l)) slot s'.
Proof.
  intros Hk Hr Ho HT Hl Hb.
  destruct (search_inode_run h0 H T (k_icache s) Hr false s a l n local_name) as (slot & nm & s' & Hs & Hres & _); try done.
  { by apply Forall_replicate. }
  exists slot, s'. unfold path_to_inode. run Hs. by split.
Qed.

(** ** Claims *)

(** C19: [path_to_inode] walks the file system on the disk.  From the root, or from the
    working directory when the path has no leading slash, it follows the components of the
    path, each cut at [DIR_NAME_LEN] characters: it returns a slot of the inode the walk
    reaches, and NULL exactly when a name is missing or an inode on the way is no
    directory.  The slot returned has one reference more, every other slot as many as
    before; slots in use keep their inode; the disk, the locks and the interrupt state are
    as before, and the cache of inodes is still coherent with the disk. *)
Theorem path_to_inode_correct (h0 : hart) (H : gmap nat Z) (T : gset Z) (s : kstate) (a : nat)
    (l : list (list Z * nat)) (n : Z) :
  walk_ok h0 H T s → ref_room (refs (k_icache s)) → origin s a n → n ∈ T →
  path_ok l → Forall (Forall byte_ok) l.*1 →
  ∃ slot s', path_to_inode (replicate a SLASH ++ path_text l) s = Ok (slot, s') ∧
    walk_result h0 H T (k_icache s) s (resolve (k_disk s) (k_sb s) n (components l)) slot s'.
Proof. apply path_to_inode_run. Qed.

(** [path_to_pinode] on a path with a component returns a slot of the directory its
    last component is to be looked up in, and leaves that component, cut at
    [DIR_NAME_LEN], in the array the caller passed; it returns NULL exactly when the walk
    to that directory fails or ends at something else.  References, disk and locks are
    accounted for as by [path_to_inode]. *)
Theorem path_to_pinode_correct (h0 : hart) (H : gmap nat Z) (T : gset Z) (s : kstate) (a : nat)
    (l : list (list Z * nat)) (n : Z) (name : list Z) :
  walk_ok h0 H T s → ref_room (refs (k_icache s)) → origin s a n → n ∈ T →
  path_ok l → Forall (Forall byte_ok) l.*1 → l ≠ [] → length name = DIR_NAME_LEN → Forall byte_ok name →
  ∃ slot nm s', path_to_pinode (replicate a SLASH ++ path_text l) name s = Ok ((slot, nm), s') ∧
    walk_result h0 H T (k_icache s) s (resolve_parent (k_disk s) (k_sb s) n (components l)) slot s' ∧
    (is_Some slot → last_name l nm).
Proof.
  intros Hk Hr Ho HT Hl Hb Hne Hn Hnb.
  destruct (search_inode_run h0 H T (k_icache s) Hr true s a l n name) as (slot & nm & s' & Hs & Hres & Hla); try done.
  exists slot, nm, s'. split; [exact Hs|]. split; [done|by apply Hla].
Qed.

End proofs.

(** ** Witnesses: a root directory with the file "a" after boot *)

Definition tree_inodes : list Z :=
  disk_inode (mk_inode FT_DIR 0 0 2 96 ([5] ++ replicate 12 0) 0 0 false) ++
  disk_inode (mk_inode FT_FILE 0 0 1 0 (replicate 13 0) 1 0 false) ++ replicate 896 0.

Definition tree_root : list Z :=
  de_bytes (mk_dirent 0 (46 :: replicate 29 0)) ++ de_bytes (mk_dirent 0 (46 :: 46 :: replicate 28 0)) ++
  de_bytes (mk_dirent 1 (97 :: replicate 29 0)) ++ replicate 928 0.

Definition tree_disk : gmap Z (list Z) := <[2 := tree_inodes]> {[ 5 := tree_root ]}.

Lemma tree_names : names_of tree_disk (node tree_disk sample_sb 0) = list_to_map [([46], 0); ([46; 46], 0); ([97], 1)].
Proof. by vm_compute. Qed.

Lemma tree_disk_ok : tree_ok ∅ tree_disk sample_sb {[ 0; 1 ]}.
Proof.
  assert (∀ n, n ∈ ({[ 0; 1 ]} : gset Z) → n = 0 ∨ n = 1) as HT by set_solver. split.
  - intros n [-> | ->]%HT; done.
  - intros n [-> | ->]%HT; exists tree_inodes; by split.
  - intros n [-> | ->]%HT; by vm_compute.
  - intros n [-> | ->]%HT; [|by vm_compute]. intros _. exists 5, tree_root, 3%nat.
    do 2 (split; [by vm_compute|]). split; [by vm_compute|]. split; [lia|]. split; [by split|]. split; [by vm_compute|].
    unfold tree_root. repeat first [apply Forall_app; split|apply Forall_replicate|apply le_bytes_ok|constructor|by unfold byte_ok].
  - intros n c m [-> | ->]%HT; unfold child; [|by vm_compute].
    replace (is_dir tree_disk sample_sb 0) with true by (by vm_compute). rewrite tree_names.
    intros Hm%elem_of_list_to_map_2. do 3 (apply elem_of_cons in Hm as [[= _ ->]|Hm]; [set_solver|]).
    by apply not_elem_of_nil in Hm.
Qed.

(** The kernel after [buf_init] and [inode_init] over a disk with a tree. *)
Lemma booted_tree D sb T :
  tree_ok ∅ D sb T →
  ∃ s, @walk_ok virtio_block_device (k_hart sample_boot) ∅ T s ∧ refs (k_icache s) = replicate N_INODE 0 ∧ k_disk s = D ∧ k_sb s = sb.
Proof.
  intros Ht. destruct (booted_cache D sb) as (s0 & Hc & Ed & Es).
  set (s1 := set_icache (replicate N_INODE zero_inode) s0).
  destruct (@inode_init_run virtio_block_device (k_hart sample_boot) ∅ s1) as (s & _ & Hi); [by apply bcache_icache|done|].
  destruct (init_walk_ok _ ∅ T s1 s Hi) as [Hk Hr].
  - rewrite map_size_empty. unfold N_BLOCK_BUF. lia.
  - cbn [k_disk k_sb set_icache s1]. by rewrite Ed, Es.
  - destruct (iu_disk _ _ _ _ _ Hi) as (E1 & E2 & _). exists s. split; [exact Hk|]. by rewrite Hr, E1, E2.
Qed.

Lemma tree_booted_refs :
  ∃ s, @walk_ok virtio_block_device (k_hart sample_boot) ∅ {[ 0; 1 ]} s ∧ refs (k_icache s) = replicate N_INODE 0 ∧
    k_disk s = tree_disk ∧ k_sb s = sample_sb.
Proof. apply booted_tree, tree_disk_ok. Qed.

Lemma tree_booted :
  ∃ s, @walk_ok virtio_block_device (k_hart sample_boot) ∅ {[ 0; 1 ]} s ∧ ref_room (refs (k_icache s)) ∧
    k_disk s = tree_disk ∧ k_sb s = sample_sb.
Proof.
  destruct tree_booted_refs as (s & Hk & Hr & Ed). exists s. split; [done|]. split; [|done]. rewrite Hr. split.
  - intros v Hv. apply elem_of_replicate in Hv as [-> _]. lia.
  - vm_compute. lia.
Qed.

Lemma path_to_inode_correct_witness :
  ∃ s j s', @path_to_inode virtio_block_device (bytes_of "/a") s = Ok (Some j, s') ∧
    inode_num <$> k_icache s' !! j = Some 1.
Proof.
  destruct tree_booted as (s & Hk & Hr & Ed & Es).
  destruct (@path_to_inode_correct virtio_block_device _ ∅ {[ 0; 1 ]} s 1 [([97], 0%nat)] 0 Hk Hr) as (slot & s' & Hp & Hres).
  - done.
  - set_solver.
  - repeat split; try done; repeat constructor; done.
  - by repeat constructor.
  - destruct Hres as [_ _ Hs]. rewrite Ed, Es in Hs.
    assert (resolve tree_disk sample_sb 0 (components [([97], 0%nat)]) = Some 1) as E by (by vm_compute).
    rewrite E in Hs. destruct Hs as (j & -> & Hh). exists s, j, s'. split; [exact Hp|]. exact (hd_entry _ _ _ _ Hh).
Defined.

Lemma path_to_pinode_correct_witness :
  ∃ s j nm s', @path_to_pinode virtio_block_device (bytes_of "//new") local_name s = Ok ((Some j, nm), s') ∧
    inode_num <$> k_icache s' !! j = Some 0 ∧ name_of nm = take 3 (bytes_of "new").
Proof.
  destruct tree_booted as (s & Hk & Hr & Ed & Es).
  destruct (@path_to_pinode_correct virtio_block_device _ ∅ {[ 0; 1 ]} s 2 [(take 3 (bytes_of "new"), 0%nat)] 0 local_name Hk Hr)
    as (slot & nm & s' & Hp & Hres & Hl).
  - done.
  - set_solver.
  - repeat split; try done; repeat constructor; done.
  - by repeat constructor.
  - done.
  - done.
  - by apply Forall_replicate.
  - destruct Hres as [_ _ Hs]. rewrite Ed, Es in Hs.
    assert (resolve_parent tree_disk sample_sb 0 (components [(take 3 (bytes_of "new"), 0%nat)]) = Some 0) as E by (by vm_compute).
    rewrite E in Hs. destruct Hs as (j & -> & Hh). exists s, j, nm, s'. split; [exact Hp|].
    split; [exact (hd_entry _ _ _ _ Hh)|]. destruct Hl as [Hl _]; [done|]. by injection Hl.
Defined.
