(* ===== verification/Link.v ===== *)
(** * Changing the tree (path_link of kernel/fs/dir.c)

    Operations that change the file system on the disk of Path.v.  The theorem: linking a
    file under a second path inserts exactly that name in the directory the path leads to
    and counts the link, or fails and leaves the disk as it was; the invariant of the whole
    file system is kept, and every reference is accounted for. *)

From S2P Require Import Prelude Bytes Kernel Lock Str Pmem Vm Sched Virtio Buf Bitmap Uvm Inode Dir Path.

(** ** Inodes as bytes *)

Lemma slice_app a n m (l : list Z) : slice a n l ++ slice (a + n) m l = slice a (n + m) l.
Proof. unfold slice. rewrite <- (take_take_drop (drop a l) n m), drop_drop. done. Qed.

Section bytes.
  Context (l : list Z) (Hlen : length l = Z.to_nat INODE_DISK_SIZE) (Hb : Forall byte_ok l).

Lemma slice_field a n : (a + n ≤ 64)%nat → Forall byte_ok (slice a n l) ∧ length (slice a n l) = n.
Proof.
  intros Ha. split; [by apply Forall_take, Forall_drop|]. unfold slice. rewrite length_take, length_drop, Hlen.
  change (Z.to_nat INODE_DISK_SIZE) with 64%nat. lia.
Qed.

Lemma field_range a n : (a + n ≤ 64)%nat → 0 ≤ le_val (slice a n l) < 2^(8 * Z.of_nat n).
Proof. intros Ha. destruct (slice_field a n Ha) as [Hf E]. apply le_val_range in Hf. by rewrite E in Hf. Qed.

Lemma field_bytes a n : (a + n ≤ 64)%nat → le_bytes n (le_val (slice a n l)) = slice a n l.
Proof. intros Ha. destruct (slice_field a n Ha) as [Hf E]. apply le_bytes_val in Hf. by rewrite E in Hf. Qed.

Lemma load_wf y : inode_wf (load_inode l y).
Proof.
  split; simpl; try (apply (field_range _ 2); lia); [apply (field_range 8 4); lia|done|].
  repeat (apply Forall_cons_2; [apply (field_range _ 4); lia|]). apply Forall_nil_2.
Qed.

Lemma disk_load y : disk_inode (load_inode l y) = l.
Proof.
  unfold disk_inode, load_inode. cbn [i_type i_major i_minor i_nlink i_size i_addrs]. rewrite !field_bytes by lia.
  assert (le_bytes 4 <$> ((λ k, le_val (slice (12 + 4 * k) 4 l)) <$> seq 0 N_ADDRS) = (λ k, slice (12 + 4 * k) 4 l) <$> seq 0 N_ADDRS) as ->.
  { rewrite <- list_fmap_compose. apply list_fmap_ext. intros i k Hk%lookup_seq. unfold compose. apply field_bytes.
    unfold N_ADDRS, N_ADDRS_1, N_ADDRS_2, N_ADDRS_3 in Hk. lia. }
  change (seq 0 N_ADDRS) with [0; 1; 2; 3; 4; 5; 6; 7; 8; 9; 10; 11; 12]%nat. cbn [fmap list_fmap mjoin list_join].
  rewrite app_nil_r, (slice_app 56 4 4), (slice_app 52 4 8), (slice_app 48 4 12), (slice_app 44 4 16), (slice_app 40 4 20), (slice_app 36 4 24), (slice_app 32 4 28),
    (slice_app 28 4 32), (slice_app 24 4 36), (slice_app 20 4 40), (slice_app 16 4 44), (slice_app 12 4 48), (slice_app 8 4 52),
    (slice_app 6 2 56), (slice_app 4 2 58), (slice_app 2 2 60), (slice_app 0 2 62).
  apply take_ge. by rewrite Hlen.
Qed.

End bytes.

(** ** Rewriting one inode of the disk *)

Definition put_node (sb : super_block) (x : inode) (D : gmap Z (list Z)) : gmap Z (list Z) :=
  match D !! inode_block sb x with
  | Some d => <[inode_block sb x := splice (inode_off x) (disk_inode x) d]> D
  | None => D
  end.

(** What the disk holds of a cached inode. *)
Definition bare (x : inode) : inode := i_set_valid true (i_set_ref 0 x).

Lemma put_node_eq sb x D d :
  D !! inode_block sb x = Some d → put_node sb x D = <[inode_block sb x := splice (inode_off x) (disk_inode x) d]> D.
Proof. intros Hd. unfold put_node. by rewrite Hd. Qed.

Lemma inode_place sb x y :
  0 ≤ inode_num x < 2^16 → 0 ≤ inode_num y < 2^16 → inode_block sb x = inode_block sb y → inode_num x ≠ inode_num y →
  (inode_off x + 64 ≤ inode_off y ∨ inode_off y + 64 ≤ inode_off x)%nat.
Proof.
  unfold inode_block, inode_off, INODE_PER_BLOCK, INODE_DISK_SIZE, BLOCK_SIZE, u32. change (1024 / 64) with 16.
  intros Hx Hy Hb Hne. assert (inode_num x / 16 = inode_num y / 16) as E; zdiv.
Qed.

Lemma node_put sb x D d n :
  D !! inode_block sb x = Some d → length d = Z.to_nat BLOCK_SIZE → inode_wf x → 0 ≤ inode_num x < 2^16 → 0 ≤ n < 2^16 →
  node (put_node sb x D) sb n = if decide (n = inode_num x) then bare x else node D sb n.
Proof.
  intros Hd Hl Hw Hx Hn. rewrite (put_node_eq _ _ _ d Hd). pose proof (length_disk_inode x (iw_len _ Hw)) as Hdl.
  pose proof (inode_off_bound x) as Hob. unfold node. case_decide as E.
  - subst n. change (inode_block sb (stub (inode_num x))) with (inode_block sb x). rewrite lookup_insert_eq.
    change (inode_off (stub (inode_num x))) with (inode_off x). rewrite <- Hdl, slice_splice by lia.
    rewrite load_disk_inode by done. by destruct x.
  - rewrite lookup_insert. case_decide as Eb; [|done]. rewrite <- Eb, Hd. f_equal. apply slice_splice_disjoint; [lia|].
    rewrite Hdl. change (Z.to_nat INODE_DISK_SIZE) with 64%nat. assert (inode_num x ≠ inode_num (stub n)) as Hne by (intros E'; by apply E).
    destruct (inode_place sb x (stub n) Hx Hn Eb Hne); lia.
Qed.

Lemma dir_entries_insert D ip b d : i_addrs ip !! O ≠ Some b → dir_entries (<[b := d]> D) ip = dir_entries D ip.
Proof.
  intros Hn. unfold dir_entries. destruct (i_addrs ip !! O) as [a|]; [|done]. cbn [mbind option_bind].
  rewrite lookup_insert_ne; [done|congruence].
Qed.

(** ** The invariant of the file system *)

(** Inodes lie in whole blocks, directories have data blocks of their own, apart from those
    of the inodes, and their names are unique. *)
Record fs_ok (H : gmap nat Z) (D : gmap Z (list Z)) (sb : super_block) (T : gset Z) : Prop := {
  ft_tree : tree_ok H D sb T;
  ft_inode n : n ∈ T → ∃ d, D !! inode_block sb (stub n) = Some d ∧ block_ok d;
  ft_apart n m : n ∈ T → m ∈ T → is_dir D sb n = true → i_addrs (node D sb n) !! O ≠ Some (inode_block sb (stub m));
  ft_own n m : n ∈ T → m ∈ T → is_dir D sb n = true → is_dir D sb m = true →
    i_addrs (node D sb n) !! O = i_addrs (node D sb m) !! O → n = m;
  ft_wf n : n ∈ T → is_dir D sb n = true → dir_wf (dir_entries D (node D sb n)) }.

(** A change of inode [q], to [x], and of its data if it is a directory. *)
Record change (D : gmap Z (list Z)) (sb : super_block) (T : gset Z) (q : Z) (x : inode) (D' : gmap Z (list Z)) : Prop := {
  ch_in : q ∈ T;
  ch_kind : i_type x = i_type (node D sb q) ∧ i_addrs x = i_addrs (node D sb q) ∧ i_nlink x ≠ 0;
  ch_node n : n ∈ T → node D' sb n = if decide (n = q) then bare x else node D sb n;
  ch_inode n : n ∈ T → ∃ d, D' !! inode_block sb (stub n) = Some d ∧ block_ok d;
  ch_other b : b ≠ inode_block sb (stub q) → (is_dir D sb q = true → i_addrs (node D sb q) !! O ≠ Some b) → D' !! b = D !! b;
  ch_data n blk : n ∈ T → n ≠ q → is_dir D sb n = true → i_addrs (node D sb n) !! O = Some blk → D' !! blk = D !! blk;
  ch_dir : is_dir D sb q = true → ∃ blk d k, i_addrs x !! O = Some blk ∧ D' !! blk = Some d ∧ block_ok d ∧
    i_size x = 32 * Z.of_nat k ∧ (k ≤ 32)%nat ∧ dir_wf (entries d k) ∧ ∀ c m, dir_map (entries d k) !! c = Some m → m ∈ T }.

Section change.
  Context (H : gmap nat Z) (D : gmap Z (list Z)) (sb : super_block) (T : gset Z) (q : Z) (x : inode) (D' : gmap Z (list Z)).
  Context (Hok : fs_ok H D sb T) (Hch : change D sb T q x D').

Lemma change_is_dir n : n ∈ T → is_dir D' sb n = is_dir D sb n.
Proof.
  intros Hn. unfold is_dir. rewrite (ch_node _ _ _ _ _ _ Hch n Hn). case_decide as E; [|done]. subst n.
  cbn [i_type bare i_set_valid i_set_ref]. by rewrite (proj1 (ch_kind _ _ _ _ _ _ Hch)).
Qed.

Lemma change_addrs n : n ∈ T → i_addrs (node D' sb n) = i_addrs (node D sb n).
Proof.
  intros Hn. rewrite (ch_node _ _ _ _ _ _ Hch n Hn). case_decide as E; [|done]. subst n. by destruct (ch_kind _ _ _ _ _ _ Hch) as (_ & ? & _).
Qed.

(** Directories but [q] keep their entries. *)
Lemma change_entries n :
  n ∈ T → n ≠ q → is_dir D sb n = true → dir_entries D' (node D' sb n) = dir_entries D (node D sb n).
Proof.
  intros Hn Hne Hd. rewrite (ch_node _ _ _ _ _ _ Hch n Hn), decide_False by done. unfold dir_entries.
  destruct (i_addrs (node D sb n) !! O) as [blk|] eqn:E; [|done]. cbn [mbind option_bind].
  by rewrite (ch_data _ _ _ _ _ _ Hch n blk Hn Hne Hd E).
Qed.

Lemma change_child n c :
  n ∈ T → child D' sb n c = if decide (n = q) then (if is_dir D sb q then names_of D' (bare x) !! c else None) else child D sb n c.
Proof.
  intros Hn. unfold child. rewrite (change_is_dir n Hn). case_decide as E.
  - subst n. by rewrite (ch_node _ _ _ _ _ _ Hch q Hn), decide_True.
  - destruct (is_dir D sb n) eqn:Hd; [|done]. unfold names_of. by rewrite change_entries.
Qed.

Lemma change_ok : fs_ok H D' sb T.
Proof.
  pose proof (ft_tree _ _ _ _ Hok) as Ht. assert (∀ n, n ∈ T → is_dir D sb n = true → ∃ blk d k,
    i_addrs (node D' sb n) !! O = Some blk ∧ blk ≠ 0 ∧ i_size (node D' sb n) = 32 * Z.of_nat k ∧ (k ≤ 32)%nat ∧
    readable H D' blk d ∧ block_ok d ∧ dir_wf (dir_entries D' (node D' sb n))) as Hdir.
  { intros n Hn Hd. destruct (to_dir _ _ _ _ Ht n Hn Hd) as (blk & d & k & Ha & H0 & Hs & Hk & Hr & Hb). destruct (decide (n = q)) as [->|Hne].
    - destruct (ch_dir _ _ _ _ _ _ Hch Hd) as (blk' & d' & k' & Ha' & Hd' & Hb' & Hs' & Hk' & Hw' & _).
      rewrite <- (change_addrs q Hn) in Ha. assert (node D' sb q = bare x) as E by (by rewrite (ch_node _ _ _ _ _ _ Hch q Hn), decide_True).
      rewrite E in Ha |- *. assert (blk' = blk) as -> by (cbn in Ha; congruence). exists blk, d', k'. destruct Hr.
      rewrite (dir_entries_eq D' (bare x) blk d' k') by done. do 4 (split; [done|]). by split.
    - exists blk, d, k. pose proof (change_entries n Hn Hne Hd) as Ee. pose proof (ft_wf _ _ _ _ Hok n Hn Hd) as Hw. rewrite Ee.
      rewrite (ch_node _ _ _ _ _ _ Hch n Hn), decide_False by done. destruct Hr as [R1 R2 R3]. do 4 (split; [done|]). split; [|done].
      split; [done|done|]. by rewrite (ch_data _ _ _ _ _ _ Hch n blk). }
  split; [split| | | |].
  - apply Ht.
  - intros n Hn. destruct (to_inode _ _ _ _ Ht n Hn) as [d [R1 R2 _]]. destruct (ch_inode _ _ _ _ _ _ Hch n Hn) as (d' & Hd' & _). by exists d'.
  - intros n Hn. rewrite (ch_node _ _ _ _ _ _ Hch n Hn). case_decide; [|by apply (to_link _ _ _ _ Ht)]. by destruct (ch_kind _ _ _ _ _ _ Hch) as (_ & _ & ?).
  - intros n Hn Hd. rewrite (change_is_dir n Hn) in Hd. destruct (Hdir n Hn Hd) as (blk & d & k & ? & ? & ? & ? & ? & ? & _). by exists blk, d, k.
  - intros n c m Hn Hc. rewrite (change_child n c Hn) in Hc. case_decide as E; [|by eapply to_child]. subst n.
    destruct (is_dir D sb q) eqn:Hd; [|done]. destruct (ch_dir _ _ _ _ _ _ Hch Hd) as (blk & d & k & Ha & Hb & _ & Hs & _ & _ & Hm).
    apply (Hm c). unfold names_of in Hc. by rewrite (dir_entries_eq D' (bare x) blk d k) in Hc.
  - apply (ch_inode _ _ _ _ _ _ Hch).
  - intros n m Hn Hm Hd. rewrite (change_addrs n Hn). rewrite (change_is_dir n Hn) in Hd. by apply (ft_apart _ _ _ _ Hok).
  - intros n m Hn Hm Hd Hd'. rewrite (change_addrs n Hn), (change_addrs m Hm). rewrite (change_is_dir n Hn) in Hd. rewrite (change_is_dir m Hm) in Hd'.
    by apply (ft_own _ _ _ _ Hok).
  - intros n Hn Hd. rewrite (change_is_dir n Hn) in Hd. by destruct (Hdir n Hn Hd) as (blk & d & k & ? & ? & ? & ? & ? & ? & ?).
Qed.

End change.

Lemma splice_slice off n (l : list Z) : (off + n ≤ length l)%nat → splice off (slice off n l) l = l.
Proof.
  intros Hl. assert (length (slice off n l) = n) as Ls by (unfold slice; rewrite length_take, length_drop; lia).
  apply list_eq. intros i. rewrite lookup_splice by lia. case_decide; [|done].
  rewrite lookup_slice, decide_True by lia. f_equal. lia.
Qed.

Section inode_change.
  Context (H : gmap nat Z) (D : gmap Z (list Z)) (sb : super_block) (T : gset Z) (Hok : fs_ok H D sb T).

Lemma num_range n : n ∈ T → 0 ≤ n < 2^16.
Proof. intros Hn. pose proof (to_num _ _ _ _ (ft_tree _ _ _ _ Hok) n Hn). unfold INODE_NUM_UNUSED in *. lia. Qed.

(** An inode of the disk is well formed, and its bytes are those of its block. *)
Lemma node_bytes n d :
  n ∈ T → D !! inode_block sb (stub n) = Some d →
  block_ok d ∧ inode_wf (node D sb n) ∧ splice (inode_off (stub n)) (disk_inode (node D sb n)) d = d.
Proof.
  intros Hn Hd. destruct (ft_inode _ _ _ _ Hok n Hn) as (d' & Hd' & Hb). simplify_eq. split; [done|].
  destruct Hb as [Hl Hb]. pose proof (inode_off_bound (stub n)) as Ho. unfold node. rewrite Hd.
  set (l := slice (inode_off (stub n)) (Z.to_nat INODE_DISK_SIZE) d).
  assert (length l = Z.to_nat INODE_DISK_SIZE) as Ll by (unfold l, slice; rewrite length_take, length_drop; lia).
  assert (Forall byte_ok l) as Lb by (by apply Forall_take, Forall_drop).
  split; [by apply load_wf|]. rewrite disk_load by done. apply splice_slice. lia.
Qed.

Lemma node_wf n : n ∈ T → inode_wf (node D sb n).
Proof. intros Hn. destruct (ft_inode _ _ _ _ Hok n Hn) as (d & Hd & _). by destruct (node_bytes n d Hn Hd) as (_ & ? & _). Qed.

(** Rewriting the inode [x] with the kind and the data of the old one. *)
Lemma change_put q x :
  q ∈ T → inode_num x = q → inode_wf x → i_nlink x ≠ 0 → i_type x = i_type (node D sb q) →
  i_addrs x = i_addrs (node D sb q) → i_size x = i_size (node D sb q) → change D sb T q x (put_node sb x D).
Proof.
  intros Hq Hn Hw Hl Ht Ha Hs. destruct (ft_inode _ _ _ _ Hok q Hq) as (d & Hd & Hb).
  assert (inode_block sb x = inode_block sb (stub q)) as Eb by (unfold inode_block; by rewrite Hn). rewrite <- Eb in Hd.
  pose proof (num_range q Hq) as Hqr. pose proof (length_disk_inode x (iw_len _ Hw)) as Hdl. pose proof (inode_off_bound x) as Hob.
  rewrite (put_node_eq sb x D d Hd) by done.
  assert (∀ n, n ∈ T → is_dir D sb n = true → ∀ blk, i_addrs (node D sb n) !! O = Some blk → blk ≠ inode_block sb x) as Hne.
  { intros n Hnt Hdir blk Hblk ->. rewrite Eb in Hblk. by apply (ft_apart _ _ _ _ Hok n q). }
  split; [done|done| | | | |].
  - intros n Hnt. rewrite <- (put_node_eq sb x D d Hd), (node_put sb x D d) by (done || apply Hb || rewrite ?Hn; done || by apply num_range). by rewrite Hn.
  - intros n Hnt. rewrite lookup_insert. case_decide as E; [|by apply (ft_inode _ _ _ _ Hok)]. eexists. split; [done|].
    destruct Hb as [Hbl Hbb]. split; [rewrite length_splice by lia; done|]. apply splice_ok; [by apply disk_inode_ok|done].
  - intros b Hne' _. rewrite Eb. by apply lookup_insert_ne.
  - intros n blk Hnt _ Hdir Hblk. rewrite lookup_insert_ne; [done|]. intros E. by apply (Hne n Hnt Hdir blk Hblk).
  - intros Hdir. destruct (to_dir _ _ _ _ (ft_tree _ _ _ _ Hok) q Hq Hdir) as (blk & d' & k & Hblk & H0 & Hsz & Hk & Hr & Hb').
    exists blk, d', k. rewrite Ha, Hs. split; [done|]. split; [rewrite lookup_insert_ne; [apply Hr|]|].
    { intros E. by apply (Hne q Hq Hdir blk Hblk). }
    pose proof (dir_entries_eq D (node D sb q) blk d' k Hblk (rd_disk _ _ _ _ Hr) Hsz) as Ee.
    do 3 (split; [done|]). rewrite <- Ee. split; [by apply (ft_wf _ _ _ _ Hok)|]. intros c m Hm.
    apply (to_child _ _ _ _ (ft_tree _ _ _ _ Hok) q c); [done|]. unfold child. by rewrite Hdir.
Qed.

(** Rewriting the data block [blk] of directory [p], and its size. *)
Lemma change_dir p blk di e d' k :
  let x := node D sb p in
  p ∈ T → is_dir D sb p = true → i_addrs x !! O = Some blk → D !! inode_block sb (stub p) = Some di → block_ok d' →
  i_size (grown_inode e x) = 32 * Z.of_nat k → (k ≤ 32)%nat → dir_wf (entries d' k) →
  (∀ c m, dir_map (entries d' k) !! c = Some m → m ∈ T) →
  change D sb T p (grown_inode e x) (<[inode_block sb (stub p) := saved_inode e x di]> (<[blk := d']> D)).
Proof.
  intros x Hp Hdir Ha Hdi Hb' Hs Hk Hw Hv. destruct (node_bytes p di Hp Hdi) as (Hb & Hwf & Heq). fold x in Hwf, Heq.
  assert (inode_num x = p) as Hn by apply node_num.
  assert (inode_block sb x = inode_block sb (stub p)) as Eb by (unfold inode_block; by rewrite Hn).
  assert (inode_off x = inode_off (stub p)) as Eo by (unfold inode_off; by rewrite Hn).
  assert (∀ m, m ∈ T → blk ≠ inode_block sb (stub m)) as Hne.
  { intros m Hm ->. by apply (ft_apart _ _ _ _ Hok p m). }
  assert (saved_inode e x di = splice (inode_off x) (disk_inode (grown_inode e x)) di) as Es.
  { unfold saved_inode. destruct (i_size x <? e) eqn:E; zbool; [done|]. unfold grown_inode. rewrite Z.max_l by lia.
    assert (i_set_size (i_size x) x = x) as -> by (by destruct x). by rewrite Eo. }
  assert (inode_wf (grown_inode e x)) as Hwf'.
  { destruct Hwf. split; try done. rewrite Hs. lia. }
  set (D0 := <[blk := d']> D). assert (D0 !! inode_block sb (grown_inode e x) = Some di) as Hdi0.
  { unfold D0. change (inode_block sb (grown_inode e x)) with (inode_block sb x). rewrite Eb, lookup_insert_ne by (by apply Hne). done. }
  assert (∀ n, n ∈ T → node D0 sb n = node D sb n) as Hn0.
  { intros n Hnt. unfold node, D0. by rewrite lookup_insert_ne by (by apply Hne). }
  rewrite Es, <- Eb. change (<[inode_block sb x := _]> D0) with (<[inode_block sb (grown_inode e x) := splice (inode_off (grown_inode e x)) (disk_inode (grown_inode e x)) di]> D0).
  rewrite <- (put_node_eq sb (grown_inode e x) D0 di Hdi0). pose proof (num_range p Hp) as Hpr. split.
  - done.
  - split; [done|]. split; [done|]. apply (to_link _ _ _ _ (ft_tree _ _ _ _ Hok) p Hp).
  - intros n Hnt. change (inode_num x) with (inode_num (grown_inode e x)) in Hn. rewrite <- Hn in Hpr.
    rewrite (node_put sb _ D0 di) by (done || apply Hb || by apply num_range). rewrite Hn. case_decide; [done|by apply Hn0].
  - intros n Hnt. rewrite (put_node_eq _ _ _ di Hdi0), lookup_insert. case_decide as E.
    + eexists. split; [done|]. destruct Hb as [Hbl Hbb]. pose proof (length_disk_inode _ (iw_len _ Hwf')) as Hdl.
      pose proof (inode_off_bound (grown_inode e x)). split; [rewrite length_splice by lia; done|].
      apply splice_ok; [by apply disk_inode_ok|done].
    + unfold D0. rewrite lookup_insert_ne by (by apply Hne). by apply (ft_inode _ _ _ _ Hok).
  - intros b Hb1 Hb2. rewrite (put_node_eq _ _ _ di Hdi0). change (inode_block sb (grown_inode e x)) with (inode_block sb x). rewrite Eb.
    unfold D0. rewrite !lookup_insert_ne; [done| |congruence]. intros ->. by apply Hb2.
  - intros n b Hnt Hnp Hdn Hbn. rewrite (put_node_eq _ _ _ di Hdi0). rewrite lookup_insert_ne.
    + apply lookup_insert_ne. intros ->. apply Hnp. apply (ft_own _ _ _ _ Hok n p Hnt Hp Hdn Hdir). by rewrite Hbn.
    + change (inode_block sb (grown_inode e x)) with (inode_block sb x). rewrite Eb. intros <-.
      by apply (ft_apart _ _ _ _ Hok n p Hnt Hp Hdn).
  - intros _. exists blk, d', k. split; [done|]. split; [|done]. rewrite (put_node_eq _ _ _ di Hdi0), lookup_insert_ne; [apply lookup_insert_eq|].
    change (inode_block sb (grown_inode e x)) with (inode_block sb x). rewrite Eb. intros E. by apply (Hne p Hp).
Qed.

(** The cache of inodes after a change, with the new inode in slot [i]. *)
Lemma icache_ok_change q x D' l i y :
  icache_ok D sb T l → change D sb T q x D' → l !! i = Some y → inode_num y = q →
  icache_ok D' sb T (<[i := loaded D' sb y]> l).
Proof.
  intros [Hl Hu Hc] Hch Hi Hq. pose proof (lookup_lt_Some _ _ _ Hi) as Hlt.
  split; [by rewrite length_insert| |].
  - apply (icache_unique_same _ _ _ y); [done|done|apply loaded_num].
  - intros j z. destruct (decide (j = i)) as [->|Hne].
    + rewrite list_lookup_insert_eq by done. intros [= <-]. apply coherent_loaded.
    + rewrite list_lookup_insert_ne by done. intros Hz Hv Ht. rewrite (Hc j z Hz Hv Ht) at 1. unfold loaded. f_equal.
      rewrite (ch_node _ _ _ _ _ _ Hch _ Ht), decide_False; [done|]. intros E. apply Hne, (Hu j i z y Hz Hi); [congruence|].
      pose proof (to_num _ _ _ _ (ft_tree _ _ _ _ Hok) _ Ht). lia.
Qed.

(** Writing the old inode back. *)
Lemma put_node_undo q x y :
  q ∈ T → inode_num x = q → inode_wf x → inode_num y = q → disk_inode y = disk_inode (node D sb q) →
  put_node sb y (put_node sb x D) = D.
Proof.
  intros Hq Hx Hw Hy Ey. destruct (ft_inode _ _ _ _ Hok q Hq) as (d & Hd & _).
  destruct (node_bytes q d Hq Hd) as ([Hl _] & Hwq & Heq).
  assert (∀ z, inode_num z = q → inode_block sb z = inode_block sb (stub q) ∧ inode_off z = inode_off (stub q)) as Hz.
  { intros z Ez. unfold inode_block, inode_off. by rewrite Ez. }
  destruct (Hz x Hx) as [Bx Ox], (Hz y Hy) as [By Oy]. rewrite (put_node_eq sb x D d) by (by rewrite Bx). rewrite Bx, Ox.
  rewrite (put_node_eq sb y _ (splice (inode_off (stub q)) (disk_inode x) d)) by (rewrite By; apply lookup_insert_eq).
  pose proof (length_disk_inode x (iw_len _ Hw)) as Lx. pose proof (length_disk_inode _ (iw_len _ Hwq)) as Lq.
  pose proof (inode_off_bound (stub q)). rewrite By, Oy, insert_insert_eq, Ey, splice_splice, Heq by lia. by apply insert_id.
Qed.

End inode_change.

(** ** The tree before and after *)

Lemma resolve_grows H D D' sb T cs : ∀ n m,
  tree_ok H D sb T → (∀ n c v, n ∈ T → child D sb n c = Some v → child D' sb n c = Some v) → n ∈ T →
  resolve D sb n cs = Some m → resolve D' sb n cs = Some m.
Proof.
  induction cs as [|c cs IH]; intros n m Ht Hc Hn; cbn [resolve]; [done|].
  destruct (child D sb n c) as [x|] eqn:E; [|done]. cbn [mbind option_bind]. rewrite (Hc n c x Hn E). cbn [mbind option_bind].
  apply IH; [done|done|]. by eapply to_child.
Qed.

Lemma resolve_same H D D' sb T cs : ∀ n,
  tree_ok H D sb T → (∀ n c, n ∈ T → child D' sb n c = child D sb n c) → n ∈ T → resolve D' sb n cs = resolve D sb n cs.
Proof.
  induction cs as [|c cs IH]; intros n Ht Hc Hn; cbn [resolve]; [done|]. rewrite (Hc n c Hn).
  destruct (child D sb n c) as [x|] eqn:E; [|done]. cbn [mbind option_bind]. apply IH; [done|done|]. by eapply to_child.
Qed.

(** Where a new name goes: the directory and the name; [None] when the path has no directory
    to put the name in, the name is taken or the directory is full. *)
Definition name_place (D : gmap Z (list Z)) (sb : super_block) (n : Z) (cs : list (list Z)) : option (Z * list Z) :=
  p ← resolve_parent D sb n cs; c ← last cs;
  if decide (child D sb p c ≠ None ∨ free_slot (dir_entries D (node D sb p)) = 32%nat) then None else Some (p, c).

(** What linking is to do: the file, and the place of its new name; [None] also when the old
    path leads nowhere or to a directory. *)
Definition link_target (D : gmap Z (list Z)) (sb : super_block) (n1 : Z) (cs1 : list (list Z)) (n2 : Z) (cs2 : list (list Z)) :
    option (Z * (Z * list Z)) :=
  m ← resolve D sb n1 cs1;
  if is_dir D sb m then None else pc ← name_place D sb n2 cs2; Some (m, pc).

(** The tree [D'] is the tree [D] with the name [c] in [p] for the file [m]. *)
Record linked (H : gmap nat Z) (D : gmap Z (list Z)) (sb : super_block) (T : gset Z) (m p : Z) (c : list Z) (D' : gmap Z (list Z)) : Prop := {
  li_ok : fs_ok H D' sb T;
  li_file : node D' sb m = i_set_nlink (i_nlink (node D sb m) + 1) (node D sb m);
  li_dir : ∃ e, node D' sb p = grown_inode e (node D sb p);
  li_node n : n ∈ T → n ≠ m → n ≠ p → node D' sb n = node D sb n;
  li_child n c' : n ∈ T → child D' sb n c' = if decide (n = p ∧ c' = c) then Some m else child D sb n c' }.

Lemma bare_node D sb n f : (∀ y, i_ref (f y) = i_ref y ∧ i_valid (f y) = i_valid y) → bare (f (node D sb n)) = f (node D sb n).
Proof.
  intros Hf. destruct (Hf (node D sb n)) as [Er Ev]. rewrite (node_valid D sb n) in Ev.
  assert (i_ref (node D sb n) = 0) as E0 by (unfold node; by destruct (D !! _)). rewrite E0 in Er.
  unfold bare. destruct (f (node D sb n)). simpl in *. by subst.
Qed.

Lemma change_linked H D sb T m D1 p e c D' :
  let x := i_set_nlink (i_nlink (node D sb m) + 1) (node D sb m) in
  fs_ok H D sb T → is_dir D sb m = false → change D sb T m x D1 → is_dir D sb p = true →
  change D1 sb T p (grown_inode e (node D1 sb p)) D' →
  names_of D' (bare (grown_inode e (node D1 sb p))) = <[c := m]> (names_of D1 (node D1 sb p)) → linked H D sb T m p c D'.
Proof.
  intros x Hok Hm Hc1 Hp Hc2 Hn. assert (m ≠ p) as Hne by congruence. pose proof (ch_in _ _ _ _ _ _ Hc1) as HmT. pose proof (ch_in _ _ _ _ _ _ Hc2) as HpT.
  pose proof (change_ok H D sb T m x D1 Hok Hc1) as Hok1. pose proof (change_ok H D1 sb T p _ D' Hok1 Hc2) as Hok2.
  assert (is_dir D1 sb p = true) as Hp1 by (by rewrite (change_is_dir D sb T m x D1 Hc1)).
  assert (∀ n, n ∈ T → n ≠ m → node D1 sb n = node D sb n) as Hn1 by (intros n Hnt Hnm; by rewrite (ch_node _ _ _ _ _ _ Hc1 n Hnt), decide_False).
  split; [done| | | |].
  - rewrite (ch_node _ _ _ _ _ _ Hc2 m HmT), decide_False, (ch_node _ _ _ _ _ _ Hc1 m HmT), decide_True by done.
    by apply (bare_node D sb m (λ y, i_set_nlink (i_nlink (node D sb m) + 1) y)).
  - exists e. rewrite (ch_node _ _ _ _ _ _ Hc2 p HpT), decide_True, <- (Hn1 p HpT) by done. by apply (bare_node D1 sb p (grown_inode e)).
  - intros n Hnt Hnm Hnp. rewrite (ch_node _ _ _ _ _ _ Hc2 n Hnt), decide_False by done. by apply Hn1.
  - intros n c' Hnt. rewrite (change_child D1 sb T p _ D' Hc2 n c' Hnt), Hp1, Hn. destruct (decide (n = p)) as [->|Hnp].
    + rewrite lookup_insert. destruct (decide (c = c')) as [->|Hcc]; [by rewrite decide_True|]. rewrite decide_False by naive_solver.
      pose proof (change_child D sb T m x D1 Hc1 p c' Hnt) as E. rewrite decide_False in E by done. rewrite <- E. unfold child. by rewrite Hp1.
    + rewrite decide_False by tauto. rewrite (change_child D sb T m x D1 Hc1 n c' Hnt). case_decide; [|done]. subst n.
      rewrite Hm. unfold child. by rewrite Hm.
Qed.

Lemma resolve_snoc D sb cs c : ∀ n, resolve D sb n (cs ++ [c]) = m ← resolve D sb n cs; child D sb m c.
Proof.
  induction cs as [|d cs IH]; intros n; cbn [resolve app].
  - cbn [mbind option_bind]. by destruct (child D sb n c).
  - destruct (child D sb n d) as [x|]; [|done]. cbn [mbind option_bind]. apply IH.
Qed.

(** The new path leads to the file, and all old paths lead where they did. *)
Lemma linked_resolve H D sb T m p c D' n cs :
  fs_ok H D sb T → linked H D sb T m p c D' → n ∈ T → name_place D sb n cs = Some (p, c) →
  resolve D' sb n cs = Some m ∧ ∀ k ds v, k ∈ T → resolve D sb k ds = Some v → resolve D' sb k ds = Some v.
Proof.
  intros Hok Hl Hn Hpl. pose proof (ft_tree _ _ _ _ Hok) as Ht. unfold name_place, resolve_parent in Hpl.
  destruct (resolve D sb n (removelast cs)) as [p'|] eqn:Er; [|done]. cbn [mbind option_bind] in Hpl.
  destruct (is_dir D sb p'); [|done]. cbn [mbind option_bind] in Hpl. destruct (last cs) as [c'|] eqn:Ec; [|done].
  cbn [mbind option_bind] in Hpl. case_decide as Hd; [done|]. injection Hpl as -> ->.
  assert (∀ k d v, k ∈ T → child D sb k d = Some v → child D' sb k d = Some v) as Hg.
  { intros k d v Hk Hv. rewrite (li_child _ _ _ _ _ _ _ _ Hl k d Hk). case_decide as E; [|done]. destruct E as [-> ->].
    exfalso. apply Hd. left. by rewrite Hv. }
  split; [|intros k ds v Hk; by apply (resolve_grows H D D' sb T ds)].
  assert (cs = removelast cs ++ [c]) as Ecs.
  { destruct cs as [|d cs _] using rev_ind; [done|]. rewrite last_snoc in Ec. injection Ec as ->. by rewrite removelast_last. }
  rewrite Ecs, resolve_snoc, (resolve_grows H D D' sb T _ n p Ht Hg Hn Er). cbn [mbind option_bind].
  rewrite (li_child _ _ _ _ _ _ _ _ Hl) by (by eapply resolve_in). by rewrite decide_True.
Qed.

(** A change of a file does not move the place of a name. *)
Lemma name_place_change H D sb T m x D1 n cs :
  fs_ok H D sb T → change D sb T m x D1 → is_dir D sb m = false → n ∈ T →
  resolve_parent D1 sb n cs = resolve_parent D sb n cs ∧ name_place D1 sb n cs = name_place D sb n cs.
Proof.
  intros Hok Hc Hm Hn. pose proof (ft_tree _ _ _ _ Hok) as Ht.
  assert (∀ k c, k ∈ T → child D1 sb k c = child D sb k c) as Hch.
  { intros k c Hk. rewrite (change_child D sb T m x D1 Hc k c Hk). case_decide; [|done]. subst k. rewrite Hm. unfold child. by rewrite Hm. }
  assert (resolve_parent D1 sb n cs = resolve_parent D sb n cs) as Er.
  { unfold resolve_parent. rewrite (resolve_same H D D1 sb T) by done. destruct (resolve D sb n (removelast cs)) as [p|] eqn:E; [|done].
    cbn [mbind option_bind]. rewrite (change_is_dir D sb T m x D1 Hc); [done|]. by eapply resolve_in. }
  split; [done|]. unfold name_place. rewrite Er. unfold resolve_parent. destruct (resolve D sb n (removelast cs)) as [p|] eqn:E; [|done].
  cbn [mbind option_bind]. destruct (is_dir D sb p) eqn:Hd; [|done]. cbn [mbind option_bind]. destruct (last cs) as [c|]; [|done].
  cbn [mbind option_bind]. assert (p ∈ T) as Hp by (by eapply resolve_in).
  rewrite (Hch p c Hp), (change_entries D sb T m x D1 Hc p Hp) by (done || congruence). done.
Qed.

(** ** References *)

(** Room for one more reference than a walk needs. *)
Record ref_spare (r : list Z) : Prop := {
  rs_range v : v ∈ r → 0 ≤ v < 2^32 - 3;
  rs_free : (3 ≤ length (filter (λ v : Z, v = 0%Z) r))%nat }.

Lemma ref_spare_room r : ref_spare r → ref_room r.
Proof. intros [Hr Hf]. split; [|lia]. intros v Hv. specialize (Hr v Hv). lia. Qed.

Lemma ref_up_filter i (r : list Z) :
  (length (filter (λ v : Z, v = 0%Z) r) ≤ S (length (filter (λ v : Z, v = 0%Z) (ref_up i r))))%nat.
Proof.
  revert i. induction r as [|v r IH]; intros i; [simpl; lia|]. destruct i as [|i]; unfold ref_up in *; cbn [alter list_alter].
  - rewrite !filter_cons. repeat case_decide; simpl; lia.
  - rewrite !filter_cons. specialize (IH i). case_decide; simpl; lia.
Qed.

Lemma ref_up_room i r : ref_spare r → ref_room (ref_up i r).
Proof.
  intros [Hr Hf]. split.
  - intros v Hv. apply (ref_up_range i r (2^32 - 3) Hr) in Hv. lia.
  - pose proof (ref_up_filter i r). lia.
Qed.

Lemma held_used l0 l j m x : ref_spare (refs l0) → held l0 l j m → l !! j = Some x → i_ref x ≠ 0.
Proof.
  intros Hr [Er _ _] Hx. pose proof (lookup_refs _ _ _ Hx) as Ex. rewrite Er, lookup_ref_up in Ex.
  destruct (refs l0 !! j) as [v|] eqn:Ev; [|done]. simpl in Ex. rewrite decide_True in Ex by done. injection Ex as Ex.
  pose proof (rs_range _ Hr v (list_elem_of_lookup_2 _ _ _ Ev)). lia.
Qed.

Lemma held_balanced l0 l l' j m x :
  ref_spare (refs l0) → held l0 l j m → balanced l l' → l !! j = Some x → i_valid x = true →
  held l0 l' j m ∧ ∃ y, l' !! j = Some y ∧ i_valid y = true.
Proof.
  intros Hr Hh [Br Bk] Hx Hv. pose proof (held_used l0 l j m x Hr Hh Hx) as Hx0. destruct Hh as [Er Hk He].
  assert (∀ k z, l0 !! k = Some z → i_ref z ≠ 0 → ∃ w, l !! k = Some w ∧ stays z w ∧ i_ref w ≠ 0) as Hu.
  { intros k z. apply (held_keep_used l0 l j m k z (ref_spare_room _ Hr)). by split. }
  destruct (Bk j x Hx Hx0) as (y & Hy & Ey & Vy). split; [|exists y; split; [done|by apply Vy]]. split; [by rewrite Br| |].
  - intros k z Hz Hz0. destruct (Hu k z Hz Hz0) as (w & Hw & Hs & Hw0). destruct (Bk k w Hw Hw0) as (w' & Hw' & Hs').
    exists w'. split; [done|]. by eapply stays_trans.
  - rewrite Hx in He. rewrite Hy. simpl in *. congruence.
Qed.

Lemma strlen_name nm :
  length nm = DIR_NAME_LEN → (length (name_of nm) < DIR_NAME_LEN)%nat → strlen nm = Some (Z.of_nat (length (name_of nm))).
Proof.
  unfold name_of. generalize DIR_NAME_LEN as k. intros k. revert nm. induction k as [|k IH]; intros [|c nm]; simpl; try lia.
  intros [= Hl] Hlt. destruct (c =? 0); [done|]. simpl in Hlt. rewrite IH by (done || lia). cbn. f_equal. lia.
Qed.

Lemma components_ne l c : path_ok l → c ∈ components l → c ≠ [].
Proof.
  intros Hl (c0 & -> & Hc)%list_elem_of_fmap. induction l as [|[c1 b] l IH]; [by apply not_elem_of_nil in Hc|].
  destruct Hl as (Hne & _ & _ & Hl). apply elem_of_cons in Hc as [->|Hc]; [by destruct c1|by apply IH].
Qed.

Section ops.
  Context {B : BlockDevice} (h0 : hart) (H : gmap nat Z) (T : gset Z).

(** Changing the number of links of the locked slot [i], on the disk too. *)
Lemma nlink_write_run s D l i x s1 δ :
  let m := inode_num x in let sb := k_sb s in let v := u16 (i_nlink (node D sb m) + δ) in let z := i_set_nlink v (node D sb m) in
  (size H < N_BLOCK_BUF)%nat → fs_ok H D sb T → l !! i = Some (loaded D sb x) → m ∈ T →
  fs_step (hart_push h0) H (acq (LkInode i) (set_icache l s)) s1 D →
  ∃ s2 s3, add_nlink i δ s1 = Ok (tt, s2) ∧ inode_rw i true s2 = Ok (tt, s3) ∧
    fs_step (hart_push h0) H (acq (LkInode i) (set_icache (<[i := i_set_ref (i_ref x) z]> l) s)) s3 (put_node sb z D).
Proof.
  intros m sb v z Hsz Hok Hi Hm Hst. destruct (to_inode _ _ _ _ (ft_tree _ _ _ _ Hok) m Hm) as [d Hd].
  set (w := i_set_ref (i_ref x) z). assert (inode_num z = m) as Ez by exact (node_num D sb m).
  set (l' := <[i := w]> l). pose proof (fs_step_icache _ _ _ _ _ Hst) as Ei. cbn in Ei.
  assert (add_nlink i δ s1 = Ok (tt, set_icache l' s1)) as Ha by (unfold add_nlink, upd_inode; mrun; by rewrite Ei, (alter_insert _ _ _ _ Hi)).
  pose proof (fs_step_set_icache _ _ _ _ _ l' Hst) as Hst'. assert (k_sb s1 = sb) as Es by exact (fs_step_sb _ _ _ _ _ Hst).
  assert (inode_block sb w = inode_block sb (stub m)) as Eb by (unfold inode_block; by rewrite <- Ez).
  destruct (inode_write_run (hart_push h0) H (set_icache l' s1) i w d) as (s3 & Hw & Hst3).
  - apply Hst'.
  - done.
  - cbn. apply list_lookup_insert_eq. by eapply lookup_lt_Some.
  - cbn [k_disk k_sb set_icache]. by rewrite (fs_disk _ _ _ _ _ Hst), Es, Eb.
  - exists (set_icache l' s1), s3. split; [exact Ha|]. split; [exact Hw|]. cbn [k_disk k_sb set_icache] in Hst3. rewrite (fs_disk _ _ _ _ _ Hst), Es in Hst3.
    rewrite (put_node_eq sb z D d); [by eapply fs_step_trans|]. unfold inode_block. rewrite Ez. apply Hd.
Qed.

Lemma nlink_run s D l i x s1 δ :
  let m := inode_num x in let sb := k_sb s in let v := u16 (i_nlink (node D sb m) + δ) in
  let D' := put_node sb (i_set_nlink v (node D sb m)) D in
  (size H < N_BLOCK_BUF)%nat → fs_ok H D sb T → l !! i = Some (loaded D sb x) → m ∈ T → v ≠ 0 →
  fs_step (hart_push h0) H (acq (LkInode i) (set_icache l s)) s1 D →
  ∃ s2 s3, add_nlink i δ s1 = Ok (tt, s2) ∧ inode_rw i true s2 = Ok (tt, s3) ∧
    change D sb T m (i_set_nlink v (node D sb m)) D' ∧
    fs_step (hart_push h0) H (acq (LkInode i) (set_icache (<[i := loaded D' sb x]> l) s)) s3 D'.
Proof.
  intros m sb v D' Hsz Hok Hi Hm Hv Hst. destruct (nlink_write_run s D l i x s1 δ Hsz Hok Hi Hm Hst) as (s2 & s3 & Ha & Hw & Hst3).
  exists s2, s3. split; [done|]. split; [done|]. fold sb m v D' in Hst3.
  assert (change D sb T m (i_set_nlink v (node D sb m)) D') as Hch.
  { apply (change_put H); try done; [exact (node_num D sb m)|]. destruct (node_wf H D sb T Hok m Hm). split; try done. cbn. by apply Z.mod_pos_bound. }
  split; [done|]. replace (loaded D' sb x) with (i_set_ref (i_ref x) (i_set_nlink v (node D sb m))); [done|].
  unfold loaded. rewrite (ch_node _ _ _ _ _ _ Hch (inode_num x) Hm), decide_True by done.
  pose proof (node_valid D sb (inode_num x)) as Hva. unfold m in *. destruct (node D sb (inode_num x)). simpl in *. by subst.
Qed.

(** A directory whose entries became [l'] is a change of its inode. *)
Lemma dir_changed_change h s D i r p blk d di k l' s' :
  let sb := k_sb s in let x := node D sb p in
  k_disk s = D → fs_ok H D sb T → p ∈ T → is_dir D sb p = true →
  dir_ok h H s i (i_set_ref r x) blk d k → D !! inode_block sb (stub p) = Some di →
  dir_changed h H s i (i_set_ref r x) blk di l' s' → dir_wf l' → (∀ c v, dir_map l' !! c = Some v → v ∈ T) →
  ∃ D' e, fs_step h H (set_icache (<[i := i_set_ref r (grown_inode e x)]> (k_icache s)) s) s' D' ∧
    change D sb T p (grown_inode e x) D' ∧ names_of D' (bare (grown_inode e x)) = dir_map l' ∧
    node D' sb p = grown_inode e x.
Proof.
  intros sb x Ed Hok Hp Hdir Hd Hdi (e & d' & n' & Hd' & El' & Hst) Hwf' Hv. subst l'. destruct (do_addr _ _ _ _ _ _ _ _ Hd) as [Ha _].
  assert (inode_block sb (i_set_ref r x) = inode_block sb (stub p)) as Eb by (unfold inode_block; by rewrite <- (node_num D sb p)).
  fold sb in Hst. rewrite Ed, Eb in Hst. change (saved_inode e (i_set_ref r x) di) with (saved_inode e x di) in Hst.
  set (D' := <[inode_block sb (stub p) := _]> _) in Hst. destruct (do_n _ _ _ _ _ _ _ _ Hd') as [Hn' Hn32].
  assert (change D sb T p (grown_inode e x) D') as Hch
    by (apply (change_dir H D sb T Hok p blk di e d' n'); try done; apply Hd').
  exists D', e. split; [exact Hst|]. split; [done|]. split.
  - unfold names_of. rewrite (dir_entries_eq D' (bare (grown_inode e x)) blk d' n'); [done|done| |done].
    rewrite <- (fs_disk _ _ _ _ _ Hst). apply Hd'.
  - rewrite (ch_node _ _ _ _ _ _ Hch p Hp), decide_True by done. by apply (bare_node D sb p (grown_inode e)).
Qed.

Section links.
  Context (l0 : list inode) (Hroom : ref_room (refs l0)).

(** Counting one more link of the file in slot [j]. *)
Lemma link_count s j m :
  let D := k_disk s in let sb := k_sb s in let x := i_set_nlink (i_nlink (node D sb m) + 1) (node D sb m) in
  walk_ok h0 H T s → fs_ok H D sb T → held l0 (k_icache s) j m → m ∈ T → i_nlink (node D sb m) < 2^16 - 1 →
  ∃ s1 y, inode_lock j s = Ok (tt, s1) ∧ get_inode j s1 = Ok (y, s1) ∧ (i_type y =? FT_DIR) = is_dir D sb m ∧
    (is_dir D sb m = true → ∃ s2, inode_unlock_free j s1 = Ok (tt, s2) ∧ walk_result h0 H T l0 s None None s2) ∧
    ∃ s2 s3 s4, add_nlink j 1 s1 = Ok (tt, s2) ∧ inode_rw j true s2 = Ok (tt, s3) ∧ inode_unlock j s3 = Ok (tt, s4) ∧
      walk_ok h0 H T s4 ∧ fs_step h0 H (set_icache (k_icache s4) s) s4 (put_node sb x D) ∧
      change D sb T m x (put_node sb x D) ∧ held l0 (k_icache s4) j m ∧ ∃ z, k_icache s4 !! j = Some z ∧ i_valid z = true.
Proof.
  intros D sb x Hk Hok Hh Hm Hnl. destruct (held_lookup l0 _ _ _ Hh) as (y & Hy & Hn). subst m.
  pose proof (wk_icache _ _ _ _ Hk) as Hic.
  assert (j < N_INODE)%nat as Hlt by (rewrite <- (ic_len _ _ _ _ Hic); by eapply lookup_lt_Some).
  destruct (lock_load_run h0 H T s j y Hk Hy Hm) as (s1 & Hl & Hst). fold D sb in Hst. set (l := <[j := loaded D sb y]> (k_icache s)) in *.
  assert (l !! j = Some (loaded D sb y)) as Hlj by (apply list_lookup_insert_eq; by eapply lookup_lt_Some).
  exists s1, (loaded D sb y). split; [done|]. split; [apply get_inode_run; by rewrite (fs_step_icache _ _ _ _ _ Hst)|]. split; [done|].
  split; [intros _; by apply (unlock_free_run h0 H T l0 Hroom s j (inode_num y) y s1)|].
  pose proof (iw_nlink _ (node_wf H D sb T Hok _ Hm)) as Hnr.
  assert (u16 (i_nlink (node D sb (inode_num y)) + 1) = i_nlink (node D sb (inode_num y)) + 1) as Eu by (apply Z.mod_small; lia).
  destruct (nlink_run s D l j y s1 1) as (s2 & s3 & Ha & Hrw & Hch & Hst3); try done; [apply Hk|fold sb; rewrite Eu; lia|].
  fold sb in Hch, Hst3. rewrite Eu in Hch, Hst3. fold x in Hch, Hst3. set (D1 := put_node sb x D) in *. unfold l in Hst3. rewrite list_insert_insert_eq in Hst3.
  set (l1 := <[j := loaded D1 sb y]> (k_icache s)) in *.
  destruct (fs_step_section h0 H (set_icache l1 s) s3 D1 (LkInode j) (inode_other j)) as [Hu Hw];
    [apply bcache_icache, Hk|exact (wk_lock _ _ _ _ Hk j Hlt)|done|].
  pose proof (fs_step_icache _ _ _ _ _ Hw) as Ei. cbn [k_icache set_icache] in Ei.
  assert (icache_ok D1 sb T l1) as Hic1 by (by apply (icache_ok_change H D sb T Hok (inode_num y) x)).
  exists s2, s3, (rel (LkInode j) s3). split; [done|]. split; [done|]. split; [exact Hu|]. rewrite Ei.
  split; [|split; [done|split; [done|split; [by apply held_loaded|]]]].
  - apply (walk_ok_change h0 H T s l1 _ D1 Hk Hw); [|done]. apply (change_ok H D sb T (inode_num y) x D1 Hok Hch).
  - exists (loaded D1 sb y). split; [apply list_lookup_insert_eq; by eapply lookup_lt_Some|apply node_valid].
Qed.

(** Taking it back. *)
Lemma link_bad_run s D j m :
  let sb := k_sb s in let x := i_set_nlink (i_nlink (node D sb m) + 1) (node D sb m) in
  walk_ok h0 H T s → fs_ok H D sb T → held l0 (k_icache s) j m → m ∈ T → i_nlink (node D sb m) < 2^16 - 1 →
  k_disk s = put_node sb x D → change D sb T m x (put_node sb x D) →
  ∃ s', link_bad j s = Ok (MINUS1, s') ∧ walk_ok h0 H T s' ∧ balanced l0 (k_icache s') ∧
    fs_step h0 H (set_icache (k_icache s') s) s' D.
Proof.
  intros sb x Hk Hok Hh Hm Hnl ED Hch. destruct (held_lookup l0 _ _ _ Hh) as (y & Hy & Hn). subst m. set (D1 := put_node sb x D) in *.
  destruct (lock_load_run h0 H T s j y Hk Hy Hm) as (s1 & Hl & Hst). rewrite ED in Hst. fold sb in Hst.
  set (l := <[j := loaded D1 sb y]> (k_icache s)) in *.
  assert (l !! j = Some (loaded D1 sb y)) as Hlj by (apply list_lookup_insert_eq; by eapply lookup_lt_Some).
  pose proof (change_ok H D sb T _ x D1 Hok Hch) as Hok1. pose proof (node_wf H D sb T Hok _ Hm) as Hwf.
  pose proof (to_link _ _ _ _ (ft_tree _ _ _ _ Hok) _ Hm) as Hl0. pose proof (iw_nlink _ Hwf) as Hnr.
  pose proof (ch_node _ _ _ _ _ _ Hch _ Hm) as En. rewrite decide_True in En by done.
  assert (u16 (i_nlink (node D1 sb (inode_num y)) + -1) = i_nlink (node D sb (inode_num y))) as Eu.
  { rewrite En. change (i_nlink (bare x)) with (i_nlink (node D sb (inode_num y)) + 1). unfold u16. rewrite Z.mod_small by lia. lia. }
  destruct (nlink_run s D1 l j y s1 (-1)) as (s2 & s3 & Ha & Hrw & Hch2 & Hst3); try done; [apply Hk|fold sb; by rewrite Eu|].
  fold sb in Hch2, Hst3. rewrite Eu in Hch2, Hst3. set (z := i_set_nlink _ (node D1 sb (inode_num y))) in *.
  assert (put_node sb z D1 = D) as Eback.
  { unfold D1. apply (put_node_undo H D sb T Hok (inode_num y)); try done.
    - exact (node_num D sb (inode_num y)).
    - destruct Hwf. split; try done. cbn. lia.
    - exact (node_num D1 sb (inode_num y)).
    - unfold z. rewrite En. done. }
  rewrite Eback in Hch2, Hst3. unfold l in Hst3. rewrite list_insert_insert_eq in Hst3.
  destruct (unlock_free_step h0 H T l0 Hroom s j (inode_num y) (loaded D sb y) (<[j := loaded D sb y]> (k_icache s)) s3 D Hk)
    as (s' & Hu & Hk' & Hb & Hw); try done.
  - by apply held_loaded.
  - apply list_lookup_insert_eq. by eapply lookup_lt_Some.
  - apply Hok.
  - apply (icache_ok_change H D1 sb T Hok1 (inode_num y) z); try done. rewrite <- ED. apply Hk.
  - exists s'. split; [|done]. unfold link_bad. run Hl. run Ha. run Hrw. by run Hu.
Qed.

(** Leaving the directory in slot [i] after its entries became [l']. *)
Lemma dir_commit s i y blk d di k s1 s2 l' :
  let D := k_disk s in let sb := k_sb s in let p := inode_num y in let x := node D sb p in
  walk_ok h0 H T s → fs_ok H D sb T → held l0 (k_icache s) i p → k_icache s !! i = Some y → p ∈ T → is_dir D sb p = true →
  dir_ok (hart_push h0) H s1 i (loaded D sb y) blk d k → D !! inode_block sb (stub p) = Some di →
  fs_step (hart_push h0) H (acq (LkInode i) (set_icache (<[i := loaded D sb y]> (k_icache s)) s)) s1 D →
  dir_changed (hart_push h0) H s1 i (loaded D sb y) blk di l' s2 → dir_wf l' → (∀ c v, dir_map l' !! c = Some v → v ∈ T) →
  ∃ s3 D' e, inode_unlock_free i s2 = Ok (tt, s3) ∧ walk_ok h0 H T s3 ∧ balanced l0 (k_icache s3) ∧
    fs_step h0 H (set_icache (k_icache s3) s) s3 D' ∧ change D sb T p (grown_inode e x) D' ∧
    names_of D' (bare (grown_inode e x)) = dir_map l'.
Proof.
  intros D sb p x Hk Hok Hh Hy Hp Hdir Hd Hdi Hst Hchg Hwf' Hv.
  pose proof (fs_disk _ _ _ _ _ Hst) as Ed. pose proof (fs_step_sb _ _ _ _ _ Hst : k_sb s1 = sb) as Es.
  destruct (dir_changed_change (hart_push h0) s1 D i (i_ref y) p blk d di k l' s2) as (D' & e & Hst2 & Hch & Hnames & En);
    rewrite ?Es; try done. rewrite Es in Hst2, Hch, Hnames, En. fold x in Hst2, Hch, Hnames, En.
  rewrite (fs_step_icache _ _ _ _ _ Hst) in Hst2. cbn [k_icache acq set_locks set_hart set_icache] in Hst2. rewrite list_insert_insert_eq in Hst2.
  pose proof (change_ok H D sb T _ _ D' Hok Hch) as Hok'.
  assert (i_set_ref (i_ref y) (grown_inode e x) = loaded D' sb y) as Eg by (unfold loaded; fold p; by rewrite En).
  rewrite Eg in Hst2. set (l1 := <[i := loaded D' sb y]> (k_icache s)) in *.
  pose proof (fs_step_trans _ _ _ _ _ _ _ (fs_step_set_icache _ _ _ _ _ l1 Hst) Hst2) as Hst3.
  destruct (unlock_free_step h0 H T l0 Hroom s i p (loaded D' sb y) l1 s2 D' Hk) as (s3 & Hu & Hk3 & Hb3 & Hw3).
  - by apply held_loaded.
  - apply list_lookup_insert_eq. by eapply lookup_lt_Some.
  - exact (to_link _ _ _ _ (ft_tree _ _ _ _ Hok') _ Hp).
  - apply Hok'.
  - apply (icache_ok_change H D sb T Hok p (grown_inode e x)); try done. apply Hk.
  - exact Hst3.
  - by exists s3, D', e.
Qed.

(** Adding the name [c] for inode [m] to the directory [p] in slot [i], and leaving it. *)
Lemma link_add s i p nm m :
  let D := k_disk s in let sb := k_sb s in let x := node D sb p in let c := name_of nm in
  walk_ok h0 H T s → fs_ok H D sb T → held l0 (k_icache s) i p → p ∈ T → is_dir D sb p = true → m ∈ T →
  length nm = DIR_NAME_LEN → Forall byte_ok nm → c ≠ [] → (length c < DIR_NAME_LEN)%nat →
  ∃ s1 s2 s3 r D' e, inode_lock i s = Ok (tt, s1) ∧ dir_add_entry i m nm s1 = Ok (r, s2) ∧
    inode_unlock_free i s2 = Ok (tt, s3) ∧ (∀ j, inode_num <$> k_icache s1 !! j = inode_num <$> k_icache s !! j) ∧
    walk_ok h0 H T s3 ∧ balanced l0 (k_icache s3) ∧ fs_step h0 H (set_icache (k_icache s3) s) s3 D' ∧
    if decide (child D sb p c ≠ None ∨ free_slot (dir_entries D x) = 32%nat) then r = BLOCK_SIZE ∧ D' = D
    else r ≠ BLOCK_SIZE ∧ change D sb T p (grown_inode e x) D' ∧ names_of D' (bare (grown_inode e x)) = <[c := m]> (names_of D x).
Proof.
  intros D sb x c Hk Hok Hh Hp Hdir Hm Hnl Hnb Hc0 Hc. destruct (held_lookup l0 _ _ _ Hh) as (y & Hy & Hn). subst p.
  destruct (lock_dir_run h0 H T s i y Hk Hy Hp Hdir) as (s1 & blk & d & k & Hl & Hd & Ee & Hst). fold D sb x in Hd, Ee, Hst.
  set (y' := loaded D sb y) in *. set (l := <[i := y']> (k_icache s)) in *.
  pose proof (ft_tree _ _ _ _ Hok) as Ht. destruct (to_inode _ _ _ _ Ht _ Hp) as [di Hdi].
  assert (k_sb s1 = sb) as Es by exact (fs_step_sb _ _ _ _ _ Hst). assert (k_disk s1 = D) as Ed by exact (fs_disk _ _ _ _ _ Hst).
  destruct (do_addr _ _ _ _ _ _ _ _ Hd) as [Ha _].
  assert (inode_block sb y' = inode_block sb (stub (inode_num y))) as Eb by (unfold inode_block, y'; by rewrite loaded_num).
  assert (dir_writable H s1 y' blk di) as Hw.
  { split; rewrite Es, Eb; [by rewrite Ed|]. intros E. by apply (ft_apart _ _ _ _ Hok (inode_num y) (inode_num y)); [..|rewrite E]. }
  assert (strlen nm = Some (Z.of_nat (length c))) as Hlen by (by apply strlen_name).
  pose proof (to_num _ _ _ _ Ht m Hm) as Hmr.
  destruct (dir_add_run (hart_push h0) H s1 i y' blk d di k m nm (Z.of_nat (length c)) Hd Hw) as (r & s2 & l' & Hr & Hchg & Hwf' & Hres);
    try done; [unfold INODE_NUM_UNUSED in *; lia|lia|rewrite <- Ee; by apply (ft_wf _ _ _ _ Hok)|].
  assert (child D sb (inode_num y) c = dir_map (entries d k) !! c) as Ec by (unfold child, names_of; fold x; by rewrite Hdir, Ee).
  assert (∀ j, inode_num <$> k_icache s1 !! j = inode_num <$> k_icache s !! j) as Hnum.
  { intros j. rewrite (fs_step_icache _ _ _ _ _ Hst). cbn [k_icache acq set_locks set_hart set_icache]. apply (num_insert _ _ y); [done|apply loaded_num]. }
  rewrite <- Ee in Hres. destruct (decide (child D sb (inode_num y) c ≠ None ∨ free_slot (dir_entries D x) = 32%nat)) as [Hf|Hf].
  - rewrite decide_True in Hres.
    2:{ destruct Hf as [Hf|Hf]; [right; left|by right; right]. rewrite dir_find_map, Ee. fold c. rewrite <- Ec.
        destruct (child D sb (inode_num y) c) as [v|] eqn:Ev; [|done]. cbn.
        pose proof (to_num _ _ _ _ Ht v (to_child _ _ _ _ Ht _ _ _ Hp Ev)). lia. }
    destruct Hres as (-> & _ & Hst2). rewrite Ed in Hst2. pose proof (fs_step_trans _ _ _ _ _ _ _ Hst Hst2) as Hst'.
    destruct (unlock_free_run h0 H T l0 Hroom s i (inode_num y) y s2 Hk Hh Hy Hp Hst') as (s3 & Hu & [Hk3 Hw3 [_ Hb3]]).
    exists s1, s2, s3, BLOCK_SIZE, D, 0. done.
  - rewrite decide_False in Hres.
    2:{ intros [?|[Hx|?]]; [lia| |by apply Hf; right]. apply Hf. left. intros E. apply Hx.
        rewrite dir_find_map, Ee. fold c. by rewrite <- Ec, E. }
    destruct Hres as [-> Hmap]. rewrite Ee in Hmap. fold c in Hmap.
    destruct (dir_commit s i y blk d di k s1 s2 l' Hk Hok Hh Hy Hp Hdir Hd (rd_disk _ _ _ _ Hdi) Hst Hchg Hwf')
      as (s3 & D' & e & Hu & Hk3 & Hb3 & Hw3 & Hch & Hnames).
    + intros c' v. rewrite Hmap. intros [[_ <-]|[_ Hv]]%lookup_insert_Some; [done|]. apply (to_child _ _ _ _ Ht (inode_num y) c'); [done|].
      unfold child, names_of. fold x. by rewrite Hdir, Ee.
    + exists s1, s2, s3, (32 * Z.of_nat (free_slot (dir_entries D x))), D', e. do 7 (split; [done|]). split; [|split; [done|]].
      * intros E. apply Hf. right. unfold BLOCK_SIZE in E. lia.
      * etransitivity; [exact Hnames|]. rewrite Hmap. unfold names_of. by rewrite Ee.
Qed.

End links.

(** From [s] to [s'], with the disk [D']: the slots of the inode cache and the buffers aside,
    nothing else changed. *)
Definition moved (s s' : kstate) (D' : gmap Z (list Z)) : Prop := fs_step h0 H (set_icache (k_icache s') s) s' D'.

Lemma moved_trans s1 s2 s3 D2 D3 : moved s1 s2 D2 → moved s2 s3 D3 → moved s1 s3 D3.
Proof.
  unfold moved. intros H1 H2. eapply fs_step_trans; [|exact H2]. exact (fs_step_set_icache _ _ _ _ _ (k_icache s3) H1).
Qed.

Lemma origin_moved s s' D' a n j m :
  origin s a n → bcache h0 H s → moved s s' D' → ref_room (refs (k_icache s)) → held (k_icache s) (k_icache s') j m → origin s' a n.
Proof.
  intros Ho Hc Hm Hr Hh. destruct a as [|a]; [|done]. destruct Ho as (me & p & d & x & Hme & Hp & Hd & Hx & Hn & Hx0).
  destruct (held_keep_used _ _ _ _ _ _ Hr Hh Hx Hx0) as (y & Hy & [En _] & Hy0). exists me, p, d, y.
  rewrite (bc_hart _ _ _ (fs_cache _ _ _ _ _ Hm)), <- (bc_hart _ _ _ Hc), (proj1 (fs_rest _ _ _ _ _ Hm)). by rewrite En.
Qed.

(** Giving up the loaded entry in slot [j]. *)
Lemma drop_run l0 s j m y :
  ref_room (refs l0) → walk_ok h0 H T s → held l0 (k_icache s) j m → k_icache s !! j = Some y → i_valid y = true → m ∈ T →
  ∃ s', inode_free j s = Ok (tt, s') ∧ walk_ok h0 H T s' ∧ balanced l0 (k_icache s') ∧ moved s s' (k_disk s).
Proof.
  intros Hr Hk Hh Hy Hv Hm. pose proof (wk_icache _ _ _ _ Hk) as Hic. pose proof (wk_cache _ _ _ _ Hk) as Hc.
  assert (inode_num y = m) as Ey by (pose proof (hd_entry _ _ _ _ Hh) as He; rewrite Hy in He; by injection He).
  assert (i_nlink y ≠ 0) as Hyl.
  { rewrite (ic_coherent _ _ _ _ Hic j y Hy Hv) by (by rewrite Ey). apply (to_link _ _ _ _ (wk_tree _ _ _ _ Hk) (inode_num y)). by rewrite Ey. }
  rewrite (inode_free_run s j y (bcache_stable h0 H _ Hc) (wk_ilock _ _ _ _ Hk) Hy Hyl). eexists. split; [done|].
  pose proof (walked_update h0 H s (<[j := i_set_ref (u32 (i_ref y - 1)) y]> (k_icache s)) Hc) as Hw.
  split; [|split; [by apply (held_drop l0 (k_icache s) j m y Hr)|exact Hw]]. apply (walk_ok_step h0 H T s _ _ Hk Hw).
  eapply icache_ok_insert; [exact Hic|exact Hy| |by left]. apply coherent_ref, (ic_coherent _ _ _ _ Hic j y Hy).
Qed.

(** The second half of [path_link]: the file [m] in slot [j] has its link counted. *)
Lemma link_name_run l0 s D j m a l n :
  let sb := k_sb s in let x := i_set_nlink (i_nlink (node D sb m) + 1) (node D sb m) in
  ref_spare (refs l0) → walk_ok h0 H T s → fs_ok H D sb T → k_disk s = put_node sb x D → change D sb T m x (put_node sb x D) →
  m ∈ T → is_dir D sb m = false → i_nlink (node D sb m) < 2^16 - 1 → held l0 (k_icache s) j m →
  (∃ z, k_icache s !! j = Some z ∧ i_valid z = true) → origin s a n → n ∈ T → path_ok l → Forall (Forall byte_ok) l.*1 → l ≠ [] →
  (∀ c, last (components l) = Some c → (length c < DIR_NAME_LEN)%nat) →
  ∃ r s', (r ← path_to_pinode (replicate a SLASH ++ path_text l) local_name;
      match r with
      | (None, _) => link_bad j
      | (Some pip, name) =>
          inode_lock pip;;
          ip ← get_inode j;
          r ← dir_add_entry pip (inode_num ip) name;
          if r =? BLOCK_SIZE then inode_unlock_free pip;; link_bad j
          else inode_unlock_free pip;; inode_free j;; mret 0
      end) s = Ok (r, s') ∧ walk_ok h0 H T s' ∧ balanced l0 (k_icache s') ∧ moved s s' (k_disk s') ∧
    match name_place D sb n (components l) with
    | Some (p, c) => r = 0 ∧ linked H D sb T m p c (k_disk s')
    | None => r = MINUS1 ∧ k_disk s' = D
    end.
Proof.
  intros sb x Hr Hk Hok ED Hch Hm Hmd Hnl Hh (z & Hz & Hzv) Ho Hn Hl Hby Hne Hshort.
  pose proof (change_ok H D sb T m x _ Hok Hch) as Hok1. pose proof (ft_tree _ _ _ _ Hok) as Ht.
  destruct (name_place_change H D sb T m x _ n (components l) Hok Hch Hmd Hn) as [Epar Eplace]. rewrite <- Eplace, <- ED. rewrite <- ED in Hok1.
  assert (ref_room (refs (k_icache s))) as Hroom by (rewrite (hd_refs _ _ _ _ Hh); by apply ref_up_room).
  destruct (search_inode_run h0 H T (k_icache s) Hroom true s a l n local_name) as (slot & nm & s1 & Hs & [Hk1 Hw1 Hsl] & Hlast); try done;
    [by apply Forall_replicate|].
  assert (k_sb s1 = sb) as Es by exact (fs_step_sb _ _ _ _ _ Hw1). assert (k_disk s1 = k_disk s) as Ed by exact (fs_disk _ _ _ _ _ Hw1).
  assert (∀ s2, walk_ok h0 H T s2 → balanced (k_icache s) (k_icache s2) → moved s s2 (k_disk s) → ∃ s', link_bad j s2 = Ok (MINUS1, s') ∧
    walk_ok h0 H T s' ∧ balanced l0 (k_icache s') ∧ moved s s' (k_disk s') ∧ k_disk s' = D) as Hbad.
  { intros s2 Hk2 Hb2 Hw2. assert (k_sb s2 = sb) as Es2 by exact (fs_step_sb _ _ _ _ _ Hw2).
    destruct (held_balanced l0 _ _ j m z Hr Hh Hb2 Hz Hzv) as [Hh2 _].
    destruct (link_bad_run l0 (ref_spare_room _ Hr) s2 D j m) as (s' & Hrun & Hk' & Hb' & Hw'); rewrite ?Es2; try done;
      [by rewrite (fs_disk _ _ _ _ _ Hw2)|].
    exists s'. split; [done|]. split; [done|]. split; [done|]. rewrite (fs_disk _ _ _ _ _ Hw'). split; [by eapply moved_trans|done]. }
  unfold target in Hsl. unfold name_place. unfold path_to_pinode. run Hs. fold sb in Hsl.
  destruct (resolve_parent (k_disk s) sb n (components l)) as [p|] eqn:Ep; cbn [mbind option_bind].
  2:{ destruct Hsl as [-> Hb1]. destruct (Hbad s1 Hk1 Hb1 Hw1) as (s' & Hrun & ? & ? & ? & ?). by exists MINUS1, s'. }
  destruct Hsl as (i & -> & Hi). destruct (Hlast eq_refl ltac:(done)) as (Ela & Hnl1 & Hnb1). rewrite Ela. cbn [mbind option_bind].
  set (c := name_of nm) in *. destruct (resolve_parent_in H (k_disk s) sb T n (components l) p (ft_tree _ _ _ _ Hok1) Hn Ep) as [Hp Hpd].
  destruct (link_add (k_icache s) Hroom s1 i p nm m) as (s2 & s3 & s4 & r & D' & e & Hlk & Hadd & Hun & Hnum & Hk4 & Hb4 & Hw4 & Hres);
    rewrite ?Es, ?Ed; try done; [apply (components_ne l); [done|by apply last_Some_elem_of]|by apply Hshort|].
  rewrite Ed, Es in Hres. fold c in Hres. pose proof (moved_trans _ _ _ _ _ Hw1 Hw4) as Hw.
  assert (∃ ip, get_inode j s2 = Ok (ip, s2) ∧ inode_num ip = m) as (ip & Hg & Hip).
  { destruct (hd_keep _ _ _ _ Hi j z Hz (held_used _ _ _ _ _ Hr Hh Hz)) as (y & Hy & Ey & _). specialize (Hnum j). rewrite Hy in Hnum.
    destruct (k_icache s2 !! j) as [ip|] eqn:Eip; [|done]. exists ip. split; [by apply get_inode_run|].
    pose proof (hd_entry _ _ _ _ Hh) as He. rewrite Hz in He. simpl in *. congruence. }
  run Hlk. run Hg. rewrite Hip. run Hadd.
  destruct (decide (child (k_disk s) sb p c ≠ None ∨ free_slot (dir_entries (k_disk s) (node (k_disk s) sb p)) = 32%nat)) as [Hf|Hf].
  - destruct Hres as [-> ->]. rewrite Z.eqb_refl. run Hun.
    destruct (Hbad s4 Hk4 Hb4 Hw) as (s' & Hrun & ? & ? & ? & ?). by exists MINUS1, s'.
  - destruct Hres as (Hrb & Hch2 & Hnames). rewrite (proj2 (Z.eqb_neq _ _) Hrb). run Hun.
    destruct (held_balanced l0 _ _ j m z Hr Hh Hb4 Hz Hzv) as [Hh4 (y & Hy & Hyv)]. rewrite <- ED in Hch.
    destruct (drop_run l0 s4 j m y (ref_spare_room _ Hr) Hk4 Hh4 Hy Hyv Hm) as (s' & Hfree & Hk' & Hb' & Hw').
    exists 0, s'. split; [by run Hfree|]. split; [done|]. split; [done|]. rewrite (fs_disk _ _ _ _ _ Hw') at 2. rewrite (fs_disk _ _ _ _ _ Hw').
    rewrite (fs_disk _ _ _ _ _ Hw) in Hw' |- *. split; [by eapply moved_trans|]. split; [done|].
    apply (change_linked H D sb T m (k_disk s) p e c D'); try done. by rewrite <- (change_is_dir D sb T m x _ Hch p Hp).
Qed.

Lemma path_link_run s a1 l1 n1 a2 l2 n2 :
  let D := k_disk s in let sb := k_sb s in
  walk_ok h0 H T s → fs_ok H D sb T → ref_spare (refs (k_icache s)) →
  origin s a1 n1 → n1 ∈ T → path_ok l1 → Forall (Forall byte_ok) l1.*1 →
  origin s a2 n2 → n2 ∈ T → path_ok l2 → Forall (Forall byte_ok) l2.*1 → l2 ≠ [] →
  (∀ c, last (components l2) = Some c → (length c < DIR_NAME_LEN)%nat) →
  (∀ m, resolve D sb n1 (components l1) = Some m → i_nlink (node D sb m) < 2^16 - 1) →
  ∃ r s', path_link (replicate a1 SLASH ++ path_text l1) (replicate a2 SLASH ++ path_text l2) s = Ok (r, s') ∧
    walk_ok h0 H T s' ∧ balanced (k_icache s) (k_icache s') ∧ moved s s' (k_disk s') ∧
    match link_target D sb n1 (components l1) n2 (components l2) with
    | Some (m, (p, c)) => r = 0 ∧ linked H D sb T m p c (k_disk s')
    | None => r = MINUS1 ∧ k_disk s' = D
    end.
Proof.
  intros D sb Hk Hok Hr Ho1 Hn1 Hl1 Hb1 Ho2 Hn2 Hl2 Hb2 Hne Hshort Hnl. pose proof (ref_spare_room _ Hr) as Hroom.
  destruct (path_to_inode_run h0 H T s a1 l1 n1 Hk Hroom Ho1 Hn1 Hl1 Hb1) as (slot & s1 & Hp & [Hk1 Hw1 Hsl]). fold D sb in Hsl.
  assert (k_sb s1 = sb) as Es by exact (fs_step_sb _ _ _ _ _ Hw1). assert (k_disk s1 = D) as Ed by exact (fs_disk _ _ _ _ _ Hw1).
  unfold path_link, link_target. run Hp. destruct (resolve D sb n1 (components l1)) as [m|] eqn:Em; cbn [mbind option_bind].
  2:{ destruct Hsl as [-> Hb]. exists MINUS1, s1. rewrite Ed. done. }
  destruct Hsl as (j & -> & Hh). assert (m ∈ T) as Hm by (eapply resolve_in; [apply Hok|exact Hn1|exact Em]). specialize (Hnl m eq_refl).
  destruct (link_count (k_icache s) Hroom s1 j m) as (s2 & y & Hlk & Hg & Hty & Hdir & s3 & s4 & s5 & Ha & Hrw & Hu & Hk5 & Hw5 & Hch & Hh5 & Hz);
    rewrite ?Ed, ?Es; try done.
  rewrite Ed, Es in Hty, Hdir, Hw5, Hch. run Hlk. run Hg. rewrite Hty. destruct (is_dir D sb m) eqn:Hmd.
  - destruct (Hdir eq_refl) as (s6 & Hf & [Hk6 Hw6 [_ Hb6]]). run Hf. exists MINUS1, s6.
    assert (k_disk s6 = D) as Ed6 by (by rewrite (fs_disk _ _ _ _ _ Hw6)). rewrite Ed6. split; [done|]. split; [done|]. split; [done|].
    split; [|done]. rewrite <- Ed. by eapply moved_trans.
  - run Ha. run Hrw. run Hu. set (x := i_set_nlink _ _) in *. pose proof (moved_trans _ _ _ _ _ Hw1 Hw5) as Hw.
    assert (k_sb s5 = sb) as Es5 by exact (fs_step_sb _ _ _ _ _ Hw). assert (k_disk s5 = put_node sb x D) as Ed5 by exact (fs_disk _ _ _ _ _ Hw5).
    destruct (link_name_run (k_icache s) s5 D j m a2 l2 n2) as (r & s' & Hrun & Hk' & Hb' & Hw' & Hres); rewrite ?Es5; try done.
    { by eapply (origin_moved s); [|apply Hk|exact Hw|exact Hroom|exact Hh5]. }
    rewrite Es5 in Hres. exists r, s'. split; [exact Hrun|]. split; [done|]. split; [done|]. split; [by eapply moved_trans|].
    by destruct (name_place D sb n2 (components l2)) as [[p c]|].
Qed.

End ops.

(** ** Claims *)

(** C20: linking.  On a well-formed file system and for a new path whose last component is
    shorter than [DIR_NAME_LEN], [path_link] returns 0 exactly when the old path leads to a
    file, the new one to a directory with a free entry in which its last component is not
    yet a name.  Then the tree on the disk is the old one with exactly that name inserted and
    one more link counted: the new path leads to the file and every other path where it did.
    Otherwise it returns -1 and the disk is unchanged, also where the link had been counted
    already.  The file system stays well formed, the cache of inodes coherent with the disk,
    every reference taken is given back, and all locks are as before. *)
Theorem path_link_correct {B : BlockDevice} (h0 : hart) (H : gmap nat Z) (T : gset Z) (s : kstate)
    (a1 : nat) (l1 : list (list Z * nat)) (n1 : Z) (a2 : nat) (l2 : list (list Z * nat)) (n2 : Z) :
  let D := k_disk s in let sb := k_sb s in let cs1 := components l1 in let cs2 := components l2 in
  walk_ok h0 H T s → fs_ok H D sb T → ref_spare (refs (k_icache s)) →
  origin s a1 n1 → n1 ∈ T → path_ok l1 → Forall (Forall byte_ok) l1.*1 →
  origin s a2 n2 → n2 ∈ T → path_ok l2 → Forall (Forall byte_ok) l2.*1 → l2 ≠ [] →
  (∀ c, last cs2 = Some c → (length c < DIR_NAME_LEN)%nat) →
  (∀ m, resolve D sb n1 cs1 = Some m → i_nlink (node D sb m) < 2^16 - 1) →
  ∃ r s', path_link (replicate a1 SLASH ++ path_text l1) (replicate a2 SLASH ++ path_text l2) s = Ok (r, s') ∧
    walk_ok h0 H T s' ∧ fs_ok H (k_disk s') sb T ∧ balanced (k_icache s) (k_icache s') ∧ moved h0 H s s' (k_disk s') ∧
    match link_target D sb n1 cs1 n2 cs2 with
    | Some (m, (p, c)) => r = 0 ∧ linked H D sb T m p c (k_disk s') ∧ resolve (k_disk s') sb n2 cs2 = Some m ∧
        ∀ n cs v, n ∈ T → resolve D sb n cs = Some v → resolve (k_disk s') sb n cs = Some v
    | None => r = MINUS1 ∧ k_disk s' = D
    end.
Proof.
  intros D sb cs1 cs2 Hk Hok Hr Ho1 Hn1 Hl1 Hb1 Ho2 Hn2 Hl2 Hb2 Hne Hshort Hnl.
  destruct (path_link_run h0 H T s a1 l1 n1 a2 l2 n2 Hk Hok Hr Ho1 Hn1 Hl1 Hb1 Ho2 Hn2 Hl2 Hb2 Hne Hshort Hnl)
    as (r & s' & Hrun & Hk' & Hb' & Hw' & Hres). fold D sb cs1 cs2 in Hres.
  exists r, s'. split; [done|]. split; [done|].
  destruct (link_target D sb n1 cs1 n2 cs2) as [[m [p c]]|] eqn:Et.
  - destruct Hres as [-> Hl]. split; [apply Hl|]. split; [done|]. split; [done|]. split; [done|]. split; [done|].
    apply (linked_resolve H D sb T m p c); try done. unfold link_target in Et.
    destruct (resolve D sb n1 cs1) as [m'|]; [|done]. cbn [mbind option_bind] in Et. destruct (is_dir D sb m'); [done|].
    destruct (name_place D sb n2 cs2) as [pc|]; [|done]. by injection Et as -> ->.
  - destruct Hres as [-> E]. rewrite E in Hw' |- *. by split.
Qed.

(** ** Witness: the file "/a" of Path.v is linked as "/b" *)

Lemma tree_fs_ok : fs_ok ∅ tree_disk sample_sb {[ 0; 1 ]}.
Proof.
  assert (∀ n, n ∈ ({[ 0; 1 ]} : gset Z) → n = 0 ∨ n = 1) as HT by set_solver.
  assert (is_dir tree_disk sample_sb 1 = false) as H1 by (by vm_compute). split.
  - apply tree_disk_ok.
  - intros n Hn. exists tree_inodes. split; [by apply HT in Hn as [-> | ->]|]. split; [by vm_compute|].
    unfold tree_inodes, disk_inode. cbn [fmap list_fmap mjoin list_join i_addrs].
    repeat first [apply Forall_app; split|apply Forall_replicate|apply le_bytes_ok|by unfold byte_ok].
    all: apply Forall_join, Forall_fmap, Forall_true; intros v; apply le_bytes_ok.
  - intros n m [-> | ->]%HT [-> | ->]%HT; by vm_compute.
  - intros n m [-> | ->]%HT [-> | ->]%HT; try done; congruence.
  - intros n [-> | ->]%HT; [|by rewrite H1]. intros _.
    assert (dir_entries tree_disk (node tree_disk sample_sb 0) =
      [mk_dirent 0 (46 :: replicate 29 0); mk_dirent 0 (46 :: 46 :: replicate 28 0); mk_dirent 1 (97 :: replicate 29 0)]) as -> by (by vm_compute).
    split; [|by repeat constructor]. unfold dir_unique.
    assert (∀ l : list (list Z), bool_decide (NoDup l) = true → NoDup l) as Hd by (intros l; apply bool_decide_eq_true).
    apply Hd. by vm_compute.
Qed.

Lemma path_link_correct_witness :
  ∃ s s', @path_link virtio_block_device (bytes_of "/a") (bytes_of "/b") s = Ok (0, s') ∧
    i_nlink (node (k_disk s') sample_sb 1) = 2 ∧ resolve (k_disk s') sample_sb 0 [[98]] = Some 1 ∧
    resolve (k_disk s') sample_sb 0 [[97]] = Some 1.
Proof.
  destruct tree_booted_refs as (s & Hk & Hr & Ed & Es).
  destruct (@path_link_correct virtio_block_device _ ∅ {[ 0; 1 ]} s 1 [([97], 0%nat)] 0 1 [([98], 0%nat)] 0 Hk) as (r & s' & Hrun & _ & _ & _ & _ & Hres).
  - rewrite Ed, Es. apply tree_fs_ok.
  - rewrite Hr. split; [|vm_compute; lia]. intros v Hv. apply elem_of_replicate in Hv as [-> _]. lia.
  - done.
  - set_solver.
  - repeat split; try done; repeat constructor; done.
  - by repeat constructor.
  - done.
  - set_solver.
  - repeat split; try done; repeat constructor; done.
  - by repeat constructor.
  - done.
  - intros c [= <-]. unfold DIR_NAME_LEN. simpl. lia.
  - rewrite Ed, Es. intros m Hm. assert (resolve tree_disk sample_sb 0 (components [([97], 0%nat)]) = Some 1) as E by (by vm_compute).
    rewrite E in Hm. injection Hm as <-. by vm_compute.
  - rewrite Ed, Es in Hres.
    assert (link_target tree_disk sample_sb 0 (components [([97], 0%nat)]) 0 (components [([98], 0%nat)]) = Some (1, (0, [98]))) as E by (by vm_compute).
    rewrite E in Hres. destruct Hres as (-> & Hl & Hb & Hold). exists s, s'. split; [exact Hrun|]. split; [|split].
    + rewrite (li_file _ _ _ _ _ _ _ _ Hl). by vm_compute.
    + exact Hb.
    + apply (Hold 0 [[97]] 1); [set_solver|by vm_compute].
Defined.
