(* ===== verification/Destroy.v ===== *)
(** * Destroying an inode (inode_free_data, inode_destroy and inode_free of kernel/fs/inode.c)

    The blocks of a file, with the indirect blocks that lead to them, and the theorem that
    destroying its inode returns exactly these blocks to the bitmap of data blocks and the
    number of the inode to the bitmap of inodes. *)

From S2P Require Import Prelude Bytes Kernel Lock Str Pmem Vm Sched Virtio Buf Bitmap Uvm Inode Dir Path Link.

(** ** Access to a slot *)

Lemma upd_inode_run i f s x : k_icache s !! i = Some x → upd_inode i f s = Ok (tt, set_icache (<[i := f x]> (k_icache s)) s).
Proof. intros Hi. unfold upd_inode. mrun. by rewrite (alter_insert _ _ _ x Hi). Qed.

Lemma upd_slot_run i f l z s :
  (i < length l)%nat → upd_inode i f (set_icache (<[i := z]> l) s) = Ok (tt, set_icache (<[i := f z]> l) s).
Proof.
  intros Hi. rewrite (upd_inode_run i f _ z); cbn [k_icache set_icache]; [|by apply list_lookup_insert_eq].
  by rewrite list_insert_insert_eq.
Qed.

(** ** The blocks of a file *)

(** The addresses up to the first that is 0. *)
Fixpoint used (l : list Z) : list Z :=
  match l with
  | [] => []
  | a :: l => if a =? 0 then [] else a :: used l
  end.

Definition block_entries (d : list Z) : list Z := (λ k, entry_at d (Z.of_nat k)) <$> seq 0 (Z.to_nat ENTRY_PER_BLOCK).

(** The blocks below block [b], which is [level] steps above the data. *)
Fixpoint data_blocks (D : gmap Z (list Z)) (level : nat) (b : Z) : list Z :=
  match level with
  | O => [b]
  | S level => (used (block_entries (default [] (D !! b))) ≫= data_blocks D level) ++ [b]
  end.

Definition addr_level (k : nat) : nat :=
  if (k <? N_ADDRS_1)%nat then 0 else if (k <? N_ADDRS_1 + N_ADDRS_2)%nat then 1 else 2.

Definition addr_blocks (D : gmap Z (list Z)) (ip : inode) (k : nat) : list Z :=
  let a := default 0 (i_addrs ip !! k) in if a =? 0 then [] else data_blocks D (addr_level k) a.

Definition file_blocks (D : gmap Z (list Z)) (ip : inode) : list Z := seq 0 N_ADDRS ≫= addr_blocks D ip.

(** The bit of a block, and the bitmap without the bits of the blocks [bs]. *)
Definition data_bit (sb : super_block) (b : Z) : nat := Z.to_nat (b - data_start sb).

Definition freed_bit (sb : super_block) (d : list Z) (b : Z) : list Z :=
  let k := data_bit sb b in if bit_of d k then clear_bit d k else d.

Definition freed (sb : super_block) (d : list Z) (bs : list Z) : list Z := foldl (freed_bit sb) d bs.

(** The bitmap lies before the data, whose blocks all have a bit. *)
Record data_layout (sb : super_block) : Prop := {
  dl_map : 0 ≤ data_bitmap_start sb < data_start sb;
  dl_top : data_start sb + Z.of_nat NBITS ≤ 2^31 }.

Definition in_data (sb : super_block) (b : Z) : Prop := data_start sb ≤ b < data_start sb + Z.of_nat NBITS.

(** The blocks below [b] lie in the area of the data, and no block of a path occurs twice on
    it or in [av]. *)
Fixpoint data_ok (D : gmap Z (list Z)) (sb : super_block) (av : list Z) (level : nat) (b : Z) : Prop :=
  in_data sb b ∧
  match level with
  | O => True
  | S level => b ∉ av ∧ is_Some (D !! b) ∧ Forall (data_ok D sb (b :: av) level) (used (block_entries (default [] (D !! b))))
  end.

Definition file_ok (D : gmap Z (list Z)) (sb : super_block) (av : list Z) (ip : inode) : Prop :=
  length (i_addrs ip) = N_ADDRS ∧
  ∀ k a, i_addrs ip !! k = Some a → a ≠ 0 → data_ok D sb av (addr_level k) a.

Section bits.
  Context (sb : super_block).

Lemma data_bit_bound b : in_data sb b → (data_bit sb b < NBITS)%nat.
Proof. unfold in_data, data_bit. lia. Qed.

Lemma clear_bit_ok d k : block_ok d → block_ok (clear_bit d k).
Proof.
  intros [Hl Hb]. unfold clear_bit. split; [by rewrite length_insert|]. apply Forall_insert; [done|].
  destruct (d !! (k / 8)%nat) as [x|] eqn:Hx; cbn [default from_option id].
  - rewrite Z.ldiff_land. apply byte_land. by eapply Forall_lookup_1.
  - rewrite Z.ldiff_0_l. done.
Qed.

Lemma freed_app d bs bs' : freed sb d (bs ++ bs') = freed sb (freed sb d bs) bs'.
Proof. apply foldl_app. Qed.

Lemma freed_bit_ok d b : block_ok d → block_ok (freed_bit sb d b).
Proof. intros Hd. unfold freed_bit. destruct (bit_of d _); [by apply clear_bit_ok|done]. Qed.

Lemma freed_ok d bs : block_ok d → block_ok (freed sb d bs).
Proof. revert d. induction bs as [|b bs IH]; intros d Hd; [done|]. by apply (IH (freed_bit sb d b)), freed_bit_ok. Qed.

(** Exactly the bits of the blocks are cleared. *)
Lemma freed_bits d bs j :
  block_ok d → Forall (in_data sb) bs → bit_of (freed sb d bs) j = bit_of d j && negb (bool_decide (j ∈ data_bit sb <$> bs)).
Proof.
  revert d. induction bs as [|b bs IH]; intros d Hd Hf; [by rewrite andb_true_r|]. apply Forall_cons in Hf as [Hb Hf].
  change (freed sb d (b :: bs)) with (freed sb (freed_bit sb d b) bs). rewrite IH by (by try apply freed_bit_ok).
  pose proof (data_bit_bound b Hb) as Hk. set (k := data_bit sb b) in *.
  assert (bit_of (freed_bit sb d b) j = bit_of d j && negb (bool_decide (j = k))) as ->.
  { unfold freed_bit. fold k. destruct (bit_of d k) eqn:E; [rewrite clear_bit_bits by done; apply andb_comm|].
    destruct (decide (j = k)) as [Ej|Ej]; [rewrite Ej; by rewrite E|]. by rewrite bool_decide_false, andb_true_r. }
  rewrite fmap_cons. fold k. rewrite <- andb_assoc. f_equal. rewrite <- negb_orb. f_equal.
  rewrite <- bool_decide_or. apply bool_decide_ext. by rewrite elem_of_cons.
Qed.

End bits.

Section free.
  Context {B : BlockDevice} (D : gmap Z (list Z)) (sb : super_block) (Hlay : data_layout sb).

Notation bm := (data_bitmap_start sb).

(** The disk with the data bitmap [d]. *)
Definition with_map (d : list Z) : gmap Z (list Z) := <[bm := d]> D.

Lemma free_one h H s b d :
  bcache h H s → (∀ j, H !! j ≠ Some bm) → (size H < N_BLOCK_BUF)%nat → k_sb s = sb → k_disk s = with_map d → block_ok d → in_data sb b →
  ∃ s', bitmap_free_block b s = Ok (tt, s') ∧ fs_step h H s s' (with_map (freed_bit sb d b)).
Proof.
  intros Hc Hf Hsz Es Ed Hd Hb. pose proof (data_bit_bound sb b Hb) as Hk. destruct Hlay as [Hm Ht]. unfold in_data in Hb.
  destruct (free_block_run h H s d (data_bit sb b)) as (s' & Hr & Hst); rewrite ?Es, ?Ed; try done; try lia.
  { apply lookup_insert_eq. }
  rewrite Es in Hr. rewrite Es, Ed in Hst. unfold data_bit in Hr. rewrite Z2Nat.id, Z.sub_add in Hr by lia.
  exists s'. split; [done|]. unfold freed_bit. destruct (bit_of d (data_bit sb b)); [|done].
  unfold with_map in *. by rewrite insert_insert_eq in Hst.
Qed.

(** The blocks an entry of the open buffer [i] leads to, and those of the entries after it. *)
Lemma free_loop (free : Z → K unit) (blocks : Z → list Z) h H' s1 i n e ks : ∀ sx d,
  (∀ sx d a, a ∈ used (entry_at e <$> ks) → fs_step h H' s1 sx (with_map d) → block_ok d →
    ∃ s', free a sx = Ok (tt, s') ∧ fs_step h H' sx s' (with_map (freed sb d (blocks a)))) →
  is_Some (H' !! i) → k_bufs s1 !! i = Some n → data (bn_buf n) = e → fs_step h H' s1 sx (with_map d) → block_ok d →
  ∃ r s2, for_return (Z.to_nat <$> ks) (λ k, addr ← get_entry (EBuf i k); if addr =? 0 then mret (Some tt) else free addr;; mret None) sx = Ok (r, s2) ∧
    fs_step h H' s1 s2 (with_map (freed sb d (used (entry_at e <$> ks) ≫= blocks))).
Proof.
  induction ks as [|k ks IH]; intros sx d Hfree [b Hi] Hn He Hst Hd; cbn [fmap list_fmap for_return used]; [by exists None, sx|].
  assert (get_entry (EBuf i (Z.to_nat k)) sx = Ok (entry_at e k, sx)) as Hg.
  { cbn [get_entry]. pose proof (fs_held _ _ _ _ _ Hst i b Hi) as Hb. rewrite Hn in Hb. destruct (k_bufs sx !! i) as [n'|] eqn:Hn'; [|done].
    injection Hb as Hb. run (get_buf_run i sx n' Hn'). mrun. by rewrite Hb, He. }
  rewrite (bind_assoc (get_entry _)). run Hg. cbn [fmap list_fmap used] in Hfree. destruct (entry_at e k =? 0) eqn:E0; mrun; [by exists (Some tt), sx|].
  destruct (Hfree sx d (entry_at e k)) as (s' & Hr & Hst'); [by left|done|done|]. run Hr. mrun.
  pose proof (fs_step_trans _ _ _ _ _ _ _ Hst Hst') as Hst2. cbn [mbind list_bind]. rewrite freed_app.
  apply (IH s'); [|by eexists|done|done|done|by apply freed_ok]. intros sy d' a Ha. apply Hfree. by right.
Qed.

Lemma data_free_run level : ∀ h H av s b d,
  bcache h H s → (∀ j c, H !! j = Some c → c ∈ av) → bm ∉ av → (size H + level < N_BLOCK_BUF)%nat →
  k_sb s = sb → k_disk s = with_map d → block_ok d → data_ok D sb av level b →
  ∃ s', data_free level b s = Ok (tt, s') ∧ fs_step h H s s' (with_map (freed sb d (data_blocks D level b))).
Proof.
  induction level as [|level IH]; intros h H av s b d Hc Hav Hbm Hsz Es Ed Hd [Hb Hok].
  - cbn [data_free data_blocks]. destruct Hlay as [Hm Ht]. unfold in_data in Hb.
    rewrite (proj2 (Z.eqb_neq _ _)) by lia. mrun. apply free_one; try done; [|lia]. intros j Hj. by apply Hbm, (Hav j).
  - destruct Hok as (Hba & [e He] & Hsub). pose proof (dl_map _ Hlay) as Hm. pose proof (dl_top _ Hlay) as Ht. pose proof Hb as Hb'. unfold in_data in Hb'.
    assert (b ≠ bm) as Hne by lia. assert (∀ d', with_map d' !! b = Some e) as Hbe by (intros d'; unfold with_map; by rewrite lookup_insert_ne).
    cbn [data_free data_blocks]. rewrite He in Hsub |- *. cbn [default from_option id] in Hsub |- *. rewrite (proj2 (Z.eqb_neq _ _)) by lia. mrun.
    destruct (buf_read_open h H s b e) as (i & n & s1 & Hr & Ho); [done| |lia|lia|by rewrite Ed|]. { intros j Hj. by apply Hba, (Hav j). }
    run Hr. set (H' := <[i := b]> H). pose proof (op_frame _ _ _ _ _ _ _ _ Ho) as Hfr.
    assert (k_sb s1 = sb) as Es1 by (by rewrite (proj1 Hfr)). assert (k_disk s1 = with_map d) as Ed1 by (by rewrite (op_disk _ _ _ _ _ _ _ _ Ho)).
    set (N := Z.to_nat ENTRY_PER_BLOCK). assert (∃ ks, seq 0 N = Z.to_nat <$> ks ∧ block_entries e = entry_at e <$> ks) as (ks & Eseq & Eent).
    { exists (Z.of_nat <$> seq 0 N). split; [|by rewrite <- list_fmap_compose].
      rewrite <- list_fmap_compose, (list_fmap_ext _ id), list_fmap_id; [done|]. intros ? k _. apply Nat2Z.id. }
    rewrite Eseq, Eent. rewrite Eent in Hsub.
    destruct (free_loop (data_free level) (data_blocks D level) h H' s1 i n e ks s1 d) as (r & s2 & Hl & Hst2).
    + intros sx d' a Ha Hstx Hd'. apply (IH h H' (b :: av)).
      * apply Hstx.
      * intros j c [[_ <-]|[_ Hj]]%lookup_insert_Some; [by left|]. right. by apply (Hav j).
      * intros [?|?]%elem_of_cons; [congruence|done].
      * unfold H'. rewrite map_size_insert_None by apply Ho. lia.
      * by rewrite (fs_step_sb _ _ _ _ _ Hstx).
      * apply Hstx.
      * done.
      * by eapply Forall_forall in Hsub.
    + exists b. apply lookup_insert_eq.
    + apply Ho.
    + apply Ho.
    + rewrite <- Ed1. apply fs_step_refl, Ho.
    + done.
    + cbn [negb]. rewrite bind_assoc. run Hl. set (d2 := freed sb d (used (entry_at e <$> ks) ≫= data_blocks D level)) in *.
      assert (block_ok d2) as Hd2 by (by apply freed_ok). pose proof (fs_held _ _ _ _ _ Hst2 i b (lookup_insert_eq _ _ _)) as Hn2.
      rewrite (op_node _ _ _ _ _ _ _ _ Ho) in Hn2. destruct (k_bufs s2 !! i) as [n2|] eqn:En2; [|done]. injection Hn2 as Hn2.
      destruct (release_close h H s b i n2 s2) as (s3 & Hrl & Hst3).
      * apply Ho.
      * apply Hst2.
      * done.
      * by rewrite (fs_disk _ _ _ _ _ Hst2), Hn2, (op_data _ _ _ _ _ _ _ _ Ho).
      * intros j b' Hj. rewrite (fs_held _ _ _ _ _ Hst2 j b'); [by apply (op_held _ _ _ _ _ _ _ _ Ho j b')|].
        unfold H'. rewrite lookup_insert_ne; [done|]. intros ->. rewrite (op_new _ _ _ _ _ _ _ _ Ho) in Hj. done.
      * eapply fs_frame_trans; [apply Ho|apply Hst2].
      * run Hrl. rewrite (fs_disk _ _ _ _ _ Hst2) in Hst3.
        destruct (free_one h H s3 b d2) as (s4 & Hf & Hst4); try done; [apply Hst3| |lia|by rewrite (fs_step_sb _ _ _ _ _ Hst3)|apply Hst3|].
        { intros j Hj. by apply Hbm, (Hav j). }
        exists s4. split; [exact Hf|]. rewrite freed_app. by eapply fs_step_trans.
Qed.

(** ** The addresses of an inode *)

Section addrs.
  Context (h : hart) (H : gmap nat Z) (av : list Z) (Hav : ∀ j c, H !! j = Some c → c ∈ av) (Hbm : bm ∉ av).
  Context (Hsz : (size H + 2 < N_BLOCK_BUF)%nat) (s : kstate) (Hc : bcache h H s) (Es : k_sb s = sb).
  Context (d : list Z) (Ed : k_disk s = with_map d) (Hd : block_ok d).
  Context (i : nat) (ip : inode) (Hi : k_icache s !! i = Some ip) (Hok : file_ok D sb av ip).

(** The first [m] addresses are done. *)
Definition addrs_freed (m : nat) (sx : kstate) : Prop :=
  fs_step h H (set_icache (<[i := i_set_addrs (replicate m 0 ++ drop m (i_addrs ip)) ip]> (k_icache s)) s) sx
    (with_map (freed sb d (seq 0 m ≫= addr_blocks D ip))).

Lemma free_addr_run free m sx :
  (m < N_ADDRS)%nat →
  (∀ a t d', data_ok D sb av (addr_level m) a → bcache h H t → k_sb t = sb → k_disk t = with_map d' → block_ok d' →
    ∃ t', free a t = Ok (tt, t') ∧ fs_step h H t t' (with_map (freed sb d' (data_blocks D (addr_level m) a)))) →
  addrs_freed m sx → ∃ s', free_addr i free m sx = Ok (tt, s') ∧ addrs_freed (S m) s'.
Proof.
  intros Hm Hfree Hst. destruct Hok as [Hlen Hblk]. destruct (i_addrs ip !! m) as [a|] eqn:Ha.
  2:{ apply lookup_ge_None in Ha. lia. }
  set (l := i_addrs ip) in *. set (x := i_set_addrs (replicate m 0 ++ drop m l) ip).
  pose proof (lookup_lt_Some _ _ _ Hi) as Hil. pose proof (fs_step_icache _ _ _ _ _ Hst) as Ei. cbn [k_icache set_icache] in Ei. fold x in Ei.
  assert (k_icache sx !! i = Some x) as Hx by (rewrite Ei; by apply list_lookup_insert_eq).
  assert (get_entry (EInode i m) sx = Ok (a, sx)) as Hg.
  { cbn [get_entry]. run (get_inode_run i sx x Hx). cbn [i_addrs x i_set_addrs].
    rewrite lookup_app_r, length_replicate, Nat.sub_diag, lookup_drop, Nat.add_0_r, Ha by (rewrite length_replicate; lia). done. }
  assert (<[m := 0]> (replicate m 0 ++ drop m l) = replicate (S m) 0 ++ drop (S m) l) as Eadd.
  { rewrite (drop_S l a m Ha), insert_app_r_alt, length_replicate, Nat.sub_diag by (rewrite length_replicate; lia). cbn [insert list_insert].
    by rewrite replicate_S_end, <- app_assoc. }
  unfold addrs_freed. rewrite seq_S, bind_app. cbn [mbind list_bind Nat.add]. rewrite app_nil_r, freed_app.
  set (d1 := freed sb d (seq 0 m ≫= addr_blocks D ip)) in *. assert (block_ok d1) as Hd1 by (by apply freed_ok).
  unfold free_addr. run Hg. unfold addr_blocks. fold l. rewrite Ha. cbn [default from_option id]. destruct (a =? 0) eqn:E0; zbool; mrun.
  - exists sx. split; [done|]. rewrite <- Eadd, (list_insert_id _ m 0); [exact Hst|].
    rewrite lookup_app_r, length_replicate, Nat.sub_diag, lookup_drop, Nat.add_0_r by (rewrite length_replicate; lia). by rewrite Ha, E0.
  - destruct (Hfree a sx d1) as (t & Hr & Hst2); try done; [by apply (Hblk m)|apply Hst|by rewrite (fs_step_sb _ _ _ _ _ Hst)|apply Hst|].
    run Hr. cbn [put_entry]. unfold upd_inode. mrun. eexists. split; [done|].
    pose proof (fs_step_trans _ _ _ _ _ _ _ Hst Hst2) as Hst3. rewrite (fs_step_icache _ _ _ _ _ Hst3). cbn [k_icache set_icache].
    rewrite (alter_insert _ _ _ x) by (by apply list_lookup_insert_eq). rewrite list_insert_insert_eq. cbn [i_addrs x i_set_addrs]. rewrite Eadd.
    exact (fs_step_set_icache _ _ _ _ _ (<[i := i_set_addrs (replicate (S m) 0 ++ drop (S m) l) ip]> (k_icache s)) Hst3).
Qed.

Lemma free_addrs_run free a n : ∀ sx,
  (a + n ≤ N_ADDRS)%nat →
  (∀ m b t d', (a ≤ m < a + n)%nat → data_ok D sb av (addr_level m) b → bcache h H t → k_sb t = sb → k_disk t = with_map d' → block_ok d' →
    ∃ t', free b t = Ok (tt, t') ∧ fs_step h H t t' (with_map (freed sb d' (data_blocks D (addr_level m) b)))) →
  addrs_freed a sx → ∃ s', for_each (seq a n) (free_addr i free) sx = Ok (tt, s') ∧ addrs_freed (a + n) s'.
Proof.
  revert a. induction n as [|n IH]; intros a sx Hn Hfree Hst; cbn [seq for_each].
  - exists sx. by rewrite Nat.add_0_r.
  - destruct (free_addr_run free a sx) as (s1 & Hr & Hst1); [lia| |done|].
    { intros b t d'. apply Hfree. lia. }
    run Hr. destruct (IH (S a) s1) as (s2 & Hr2 & Hst2); [lia| |done|].
    + intros m b t d' Hm. apply Hfree. lia.
    + exists s2. split; [done|]. by rewrite Nat.add_succ_r.
Qed.

Lemma inode_free_data_run :
  ∃ s', inode_free_data i s = Ok (tt, s') ∧
    fs_step h H (set_icache (<[i := i_set_size 0 (i_set_addrs (replicate N_ADDRS 0) ip)]> (k_icache s)) s) s'
      (with_map (freed sb d (file_blocks D ip))).
Proof.
  assert (∀ level b t d', (level ≤ 2)%nat → data_ok D sb av level b → bcache h H t → k_sb t = sb → k_disk t = with_map d' → block_ok d' →
    ∃ t', data_free level b t = Ok (tt, t') ∧ fs_step h H t t' (with_map (freed sb d' (data_blocks D level b)))) as Hdf.
  { intros level b t d' Hl. intros. apply (data_free_run level h H av); try done. lia. }
  assert (addrs_freed 0 s) as H0.
  { unfold addrs_freed. change (replicate 0 0 ++ drop 0 (i_addrs ip)) with (i_addrs ip). change (freed sb d (seq 0 0 ≫= addr_blocks D ip)) with d. rewrite <- Ed.
    replace (i_set_addrs (i_addrs ip) ip) with ip by (by destruct ip). rewrite (list_insert_id _ _ _ Hi).
    replace (set_icache (k_icache s) s) with s by (by destruct s). by apply fs_step_refl. }
  unfold inode_free_data.
  destruct (free_addrs_run bitmap_free_block 0 N_ADDRS_1 s) as (s1 & Hr1 & H1); [unfold N_ADDRS; lia| |exact H0|].
  { intros m b t d' Hm. unfold addr_level. rewrite (proj2 (Nat.ltb_lt _ _)) by lia. intros [Hb _] Ht Et Dt Hd'.
    destruct (free_one h H t b d') as (t' & Hr & Hst); try done; [|lia|by exists t']. intros j Hj. by apply Hbm, (Hav j). }
  run Hr1. destruct (free_addrs_run (data_free 1) N_ADDRS_1 N_ADDRS_2 s1) as (s2 & Hr2 & H2); [unfold N_ADDRS; lia| |exact H1|].
  { intros m b t d' Hm. unfold addr_level. rewrite (proj2 (Nat.ltb_ge _ _)), (proj2 (Nat.ltb_lt _ _)) by lia. apply Hdf. lia. }
  run Hr2. destruct (free_addrs_run (data_free 2) (N_ADDRS_1 + N_ADDRS_2) N_ADDRS_3 s2) as (s3 & Hr3 & H3); [unfold N_ADDRS; lia| |exact H2|].
  { intros m b t d' Hm. unfold addr_level. rewrite (proj2 (Nat.ltb_ge _ _)), (proj2 (Nat.ltb_ge _ _)) by (unfold N_ADDRS_1, N_ADDRS_2 in *; lia). apply Hdf. lia. }
  run Hr3. change (N_ADDRS_1 + N_ADDRS_2 + N_ADDRS_3)%nat with N_ADDRS in H3. unfold addrs_freed in H3. fold (file_blocks D ip) in H3.
  rewrite drop_ge, app_nil_r in H3 by (destruct Hok as [-> _]; done). unfold upd_inode. mrun. eexists. split; [done|].
  rewrite (fs_step_icache _ _ _ _ _ H3). cbn [k_icache set_icache].
  rewrite (alter_insert _ _ _ (i_set_addrs (replicate N_ADDRS 0) ip)) by (apply list_lookup_insert_eq; by eapply lookup_lt_Some).
  rewrite list_insert_insert_eq. exact (fs_step_set_icache _ _ _ _ _ (<[i := i_set_size 0 (i_set_addrs (replicate N_ADDRS 0) ip)]> (k_icache s)) H3).
Qed.

End addrs.

(** ** Destroying *)

(** What is left of an inode on the disk. *)
Definition dead (ip : inode) : inode := i_set_nlink 0 (i_set_size 0 (i_set_type FT_UNUSED (i_set_addrs (replicate N_ADDRS 0) ip))).

(** The slot of it: free for another inode. *)
Definition dead_slot (ip : inode) : inode := i_set_valid false (i_set_num INODE_NUM_UNUSED (dead ip)).

(** The bitmap of inodes without number [k]. *)
Definition unset_inode (k : nat) (D' : gmap Z (list Z)) : gmap Z (list Z) :=
  match D' !! inode_bitmap_start sb with
  | Some m => if bit_of m k then <[inode_bitmap_start sb := clear_bit m k]> D' else D'
  | None => D'
  end.

(** The disk after inode [ip], of number [k], was destroyed. *)
Definition buried (d : list Z) (ip : inode) (k : nat) : gmap Z (list Z) :=
  unset_inode k (put_node sb (dead ip) (with_map (freed sb d (file_blocks D ip)))).

(** What destroying needs: the data of the file, its inode and the two bitmaps are on the
    disk, each in its own place, and none of it is in a buffer in use. *)
Record grave (H : gmap nat Z) (d : list Z) (ip : inode) (k : nat) : Prop := {
  gr_room : (size H + 2 < N_BLOCK_BUF)%nat;
  gr_file : file_ok D sb (map_to_list H).*2 ip;
  gr_num : inode_num ip = Z.of_nat k ∧ (k < NBITS)%nat;
  gr_data : readable H D bm d ∧ block_ok d;
  gr_inode : ∃ di, readable H D (inode_block sb ip) di ∧ block_ok di ∧ inode_block sb ip ≠ bm;
  gr_map : ∃ m, readable H D (inode_bitmap_start sb) m ∧ block_ok m ∧ inode_bitmap_start sb ≠ bm ∧ inode_bitmap_start sb ≠ inode_block sb ip }.

Lemma inode_destroy_run h H s i ip d k :
  bcache h H s → k_sb s = sb → k_disk s = D → lock_idle (LkInode i) s → k_icache s !! i = Some ip → grave H d ip k →
  ∃ s', inode_destroy i s = Ok (tt, s') ∧
    fs_step h H (set_icache (<[i := dead_slot ip]> (k_icache s)) s) s' (buried d ip k).
Proof.
  intros Hc Es Ed Hid Hi [Hsz Hfile [Hnum Hk] [[Rf Rr Rd] Hd] (di & [Qf Qr Qd] & Hqb & Hqm) (m & [Mf Mr Md] & Hmk & Hm1 & Hm2)].
  pose proof (lookup_lt_Some _ _ _ Hi) as Hil. unfold inode_destroy. run (acquire_run (LkInode i) s (lock_idle_unlocked _ _ Hid)).
  set (sa := acq (LkInode i) s). pose proof (bcache_acq h H s (LkInode i) (inode_other i) Hc) as Hca.
  assert (with_map d = D) as Ewm by (apply insert_id; done).
  destruct (inode_free_data_run (hart_push h) H (map_to_list H).*2) with (s := sa) (d := d) (i := i) (ip := ip) as (s1 & Hr1 & Hst1); try done.
  { intros j c Hj. apply list_elem_of_fmap. exists (j, c). split; [done|]. by apply elem_of_map_to_list. }
  { intros Hb. apply list_elem_of_fmap in Hb as ([j c] & Ebc & Hj). apply elem_of_map_to_list in Hj. apply (Rf j). by rewrite Hj, Ebc. }
  { by rewrite Ewm. }
  run Hr1. set (D1 := with_map (freed sb d (file_blocks D ip))) in *. change (k_icache sa) with (k_icache s) in Hst1.
  set (x0 := i_set_size 0 _) in Hst1. pose proof (fs_step_icache _ _ _ _ _ Hst1) as E1. cbn [k_icache set_icache] in E1.
  assert (∀ f z t, k_icache t = <[i := z]> (k_icache s) → upd_inode i f t = Ok (tt, set_icache (<[i := f z]> (k_icache s)) t)) as Hu.
  { intros f z t Et. rewrite (upd_inode_run i f t z), Et, list_insert_insert_eq; [done|]. rewrite Et. by apply list_lookup_insert_eq. }
  run (Hu (i_set_type FT_UNUSED) x0 s1 E1). do 2 (erewrite bind_ok by (exact (upd_slot_run i _ (k_icache s) _ s1 Hil))).
  match goal with |- context [set_icache (<[i := ?z]> _) s1] => change z with (dead ip) end. set (l := <[i := dead ip]> (k_icache s)).
  pose proof (fs_step_set_icache _ _ _ _ _ l Hst1) as Hst1'. change (set_icache l (set_icache _ sa)) with (set_icache l sa) in Hst1'.
  assert (k_sb s1 = sb) as Es1 by (by rewrite (fs_step_sb _ _ _ _ _ Hst1)).
  assert (inode_block sb (dead ip) = inode_block sb ip) as Eb by done.
  assert (D1 !! inode_block sb (dead ip) = Some di) as Hdi by (unfold D1, with_map; by rewrite Eb, lookup_insert_ne).
  destruct (inode_write_run (hart_push h) H (set_icache l s1) i (dead ip) di) as (s2 & Hr2 & Hst2).
  { apply Hst1'. } { lia. } { by apply list_lookup_insert_eq. }
  { cbn [k_disk k_sb set_icache]. rewrite Es1, (fs_disk _ _ _ _ _ Hst1). by split. }
  run Hr2. cbn [k_disk k_sb set_icache] in Hst2. rewrite Es1, (fs_disk _ _ _ _ _ Hst1), <- (put_node_eq _ _ _ _ Hdi) in Hst2.
  pose proof (fs_step_trans _ _ _ _ _ _ _ Hst1' Hst2) as Hst2'. set (D2 := put_node sb (dead ip) D1) in *.
  destruct (fs_step_section h H (set_icache l s) s2 D2 (LkInode i) (inode_other i)) as [Hrel Hst3]; [by apply bcache_icache|done|exact Hst2'|].
  run Hrel. set (s3 := rel (LkInode i) s2) in *. pose proof (fs_step_icache _ _ _ _ _ Hst3) as E3. cbn [k_icache set_icache] in E3.
  assert (k_icache s3 !! i = Some (dead ip)) as Hi3 by (rewrite E3; by apply list_lookup_insert_eq). run (get_inode_run i s3 _ Hi3).
  assert (k_sb s3 = sb) as Es3 by (by rewrite (fs_step_sb _ _ _ _ _ Hst3)).
  assert (D2 !! inode_bitmap_start sb = Some m) as Hm.
  { unfold D2. rewrite (put_node_eq _ _ _ _ Hdi), Eb, lookup_insert_ne by done. unfold D1, with_map. by rewrite lookup_insert_ne. }
  destruct (bitmap_unset_run h H s3 (inode_bitmap_start sb) m k) as (s4 & Hr4 & Hst4); try done; [apply Hst3|lia|by rewrite (fs_disk _ _ _ _ _ Hst3)|].
  assert (bitmap_free_inode (inode_num (dead ip)) s3 = Ok (tt, s4)) as Hr4'.
  { unfold bitmap_free_inode. mrun. rewrite Es3. change (inode_num (dead ip)) with (inode_num ip). by rewrite Hnum. }
  run Hr4'. rewrite (fs_disk _ _ _ _ _ Hst3) in Hst4. pose proof (fs_step_trans _ _ _ _ _ _ _ Hst3 Hst4) as Hst5.
  assert (k_icache s4 = l) as E4 by (by rewrite (fs_step_icache _ _ _ _ _ Hst5)). run (Hu (i_set_num INODE_NUM_UNUSED) _ s4 E4).
  rewrite (upd_slot_run i _ (k_icache s) _ s4 Hil). eexists. split; [done|].
  unfold buried, unset_inode. fold D1 D2. rewrite Hm. exact (fs_step_set_icache _ _ _ _ _ (<[i := dead_slot ip]> (k_icache s)) Hst5).
Qed.

(** Giving up the last reference to an inode without links. *)
Lemma inode_free_last_run h H s i ip d k :
  bcache h H s → k_sb s = sb → k_disk s = D → lock_idle LkIcache s → lock_idle (LkInode i) s → k_icache s !! i = Some ip →
  i_ref ip = 1 → i_nlink ip = 0 → grave H d (i_set_ref 0 ip) k →
  ∃ s', inode_free i s = Ok (tt, s') ∧
    fs_step h H (set_icache (<[i := dead_slot (i_set_ref 0 ip)]> (k_icache s)) s) s' (buried d (i_set_ref 0 ip) k).
Proof.
  intros Hc Es Ed Hid Hid' Hi Hr Hn Hg. pose proof (lookup_lt_Some _ _ _ Hi) as Hil. set (x := i_set_ref 0 ip) in *.
  unfold inode_free. run (acquire_run LkIcache s (lock_idle_unlocked _ _ Hid)).
  run (upd_inode_run i (λ x, i_set_ref (u32 (i_ref x - 1)) x) (acq LkIcache s) ip Hi). rewrite Hr. change (i_set_ref (u32 (1 - 1)) ip) with x.
  change (k_icache (acq LkIcache s)) with (k_icache s). set (s1 := set_icache (<[i := x]> (k_icache s)) (acq LkIcache s)).
  assert (k_icache s1 !! i = Some x) as Hx by (by apply list_lookup_insert_eq). run (get_inode_run i s1 x Hx).
  cbn [i_ref i_nlink x i_set_ref]. rewrite Hn, !Z.eqb_refl. cbn [andb].
  destruct (inode_destroy_run (hart_push h) H s1 i x d k) as (s2 & Hd & Hst); try done.
  { apply bcache_icache, bcache_acq; [apply icache_other|done]. } { by apply (acq_idle LkIcache (LkInode i) s). }
  run Hd. change (k_icache s1) with (<[i := x]> (k_icache s)) in Hst. rewrite list_insert_insert_eq in Hst.
  set (l := <[i := dead_slot x]> (k_icache s)) in *.
  destruct (fs_step_section h H (set_icache l s) s2 (buried d x k) LkIcache icache_other) as [Hrel Hst2]; [by apply bcache_icache|done|exact Hst|].
  exists (rel LkIcache s2). by split.
Qed.


(** The disk afterwards, block by block. *)
Section buried.
  Context (H : gmap nat Z) (d : list Z) (ip : inode) (k : nat) (Hg : grave H d ip k).

Notation im := (inode_bitmap_start sb).
Notation D' := (buried d ip k).

Lemma buried_eq : ∃ di m, D !! inode_block sb ip = Some di ∧ block_ok di ∧ D !! im = Some m ∧ block_ok m ∧
  D' = <[im := if bit_of m k then clear_bit m k else m]> (<[inode_block sb ip := splice (inode_off ip) (disk_inode (dead ip)) di]>
         (with_map (freed sb d (file_blocks D ip)))).
Proof.
  destruct Hg as [_ _ _ _ (di & [_ _ Qd] & Hqb & Hqm) (m & [_ _ Md] & Hmk & Hm1 & Hm2)]. exists di, m. do 4 (split; [done|]).
  unfold buried. set (D1 := with_map _). change (inode_block sb ip) with (inode_block sb (dead ip)) in *.
  assert (D1 !! inode_block sb (dead ip) = Some di) as Hdi by (unfold D1, with_map; by rewrite lookup_insert_ne).
  rewrite (put_node_eq _ _ _ _ Hdi). unfold unset_inode. rewrite lookup_insert_ne by done.
  assert (D1 !! im = Some m) as -> by (unfold D1, with_map; by rewrite lookup_insert_ne). destruct (bit_of m k); [done|].
  symmetry. apply insert_id. rewrite lookup_insert_ne by done. unfold D1, with_map. by rewrite lookup_insert_ne.
Qed.

Lemma buried_other b : b ≠ bm → b ≠ im → b ≠ inode_block sb ip → D' !! b = D !! b.
Proof.
  intros H1 H2 H3. destruct buried_eq as (di & m & _ & _ & _ & _ & ->). unfold with_map. by rewrite !lookup_insert_ne.
Qed.

Lemma data_blocks_in level : ∀ av b, data_ok D sb av level b → Forall (in_data sb) (data_blocks D level b).
Proof.
  induction level as [|level IH]; intros av b [Hb Hok]; cbn [data_blocks]; [by constructor|]. destruct Hok as (_ & _ & Hsub).
  apply Forall_app. split; [|by constructor]. apply Forall_bind. eapply Forall_impl; [exact Hsub|]. intros a. apply IH.
Qed.

Lemma file_blocks_in av : file_ok D sb av ip → Forall (in_data sb) (file_blocks D ip).
Proof.
  intros [_ Hok]. apply Forall_bind, Forall_true. intros n. unfold compose, addr_blocks. cbv zeta.
  destruct (default 0 (i_addrs ip !! n) =? 0) eqn:E; zbool; [by constructor|]. specialize (Hok n).
  destruct (i_addrs ip !! n) as [a|]; [|done]. by eapply data_blocks_in, Hok.
Qed.

(** The data bitmap has lost exactly the blocks of the file. *)
Lemma buried_data : ∃ d', D' !! bm = Some d' ∧ block_ok d' ∧
  ∀ j, bit_of d' j = bit_of d j && negb (bool_decide (j ∈ data_bit sb <$> file_blocks D ip)).
Proof.
  destruct Hg as [_ Hfile _ [_ Hd] (di & _ & _ & Hqm) (m & _ & _ & Hm1 & _)]. destruct buried_eq as (di' & m' & _ & _ & _ & _ & ->).
  exists (freed sb d (file_blocks D ip)). rewrite !lookup_insert_ne by done. split; [apply lookup_insert_eq|]. split; [by apply freed_ok|].
  intros j. apply freed_bits; [done|by eapply file_blocks_in].
Qed.

(** The bitmap of inodes has lost its number. *)
Lemma buried_inodes m : D !! im = Some m → ∃ m', D' !! im = Some m' ∧ block_ok m' ∧ ∀ j, bit_of m' j = bit_of m j && negb (bool_decide (j = k)).
Proof.
  intros Hm. destruct buried_eq as (di & m0 & _ & _ & Hm0 & Hb & ->). simplify_eq. destruct (gr_num _ _ _ _ Hg) as [_ Hk].
  eexists. split; [apply lookup_insert_eq|]. destruct (bit_of m k) eqn:E.
  - split; [by apply clear_bit_ok|]. intros j. rewrite clear_bit_bits by done. apply andb_comm.
  - split; [done|]. intros j. destruct (decide (j = k)) as [->|Hne]; [by rewrite E|]. by rewrite bool_decide_false, andb_true_r.
Qed.

(** Of the inodes only this one has changed. *)
Lemma buried_node n : inode_wf ip → 0 ≤ n < 2^16 → inode_block sb (stub n) ≠ im → inode_block sb (stub n) ≠ bm →
  node D' sb n = if decide (n = inode_num ip) then bare (dead ip) else node D sb n.
Proof.
  intros Hw Hn H1 H2. destruct (gr_num _ _ _ _ Hg) as [Hnum Hk]. destruct buried_eq as (di & m & Hdi & [Hl _] & _ & _ & ->).
  set (D1 := with_map _). unfold node at 1. rewrite lookup_insert_ne by done.
  assert (D1 !! inode_block sb (dead ip) = Some di) as Hdi1.
  { unfold D1, with_map. destruct (gr_inode _ _ _ _ Hg) as (? & _ & _ & Hne). by rewrite lookup_insert_ne. }
  change (<[inode_block sb ip := splice (inode_off ip) ?x di]> D1) with (<[inode_block sb (dead ip) := splice (inode_off (dead ip)) x di]> D1).
  rewrite <- (put_node_eq _ _ _ _ Hdi1). fold (node (put_node sb (dead ip) D1) sb n).
  assert (inode_wf (dead ip)) as Hw' by (destruct Hw; split; try done; by apply Forall_replicate).
  rewrite (node_put sb (dead ip) D1 di); [|done|done|done| |done].
  - change (inode_num (dead ip)) with (inode_num ip). case_decide; [done|]. unfold node, D1, with_map. by rewrite lookup_insert_ne.
  - change (inode_num (dead ip)) with (inode_num ip). rewrite Hnum. unfold NBITS, BLOCK_SIZE in Hk. lia.
Qed.

End buried.

End free.

(** ** Claims *)

(** C25: [inode_free] of the last reference to an inode without links.  The file may use all
    three kinds of addresses.  The call runs to its end, and afterwards the bitmap of data
    blocks has lost exactly the blocks that held the data of the file or led to it, the bitmap
    of inodes has lost exactly its number, the inode on the disk is marked unused, and no other
    block has changed; the slot can be used again, and all locks and the buffers held are as
    before. *)
Theorem inode_free_last_correct {B : BlockDevice} (h0 : hart) (H : gmap nat Z) (s : kstate) (i : nat) (ip : inode) (d m : list Z) (k : nat) :
  let D := k_disk s in let sb := k_sb s in let ip0 := i_set_ref 0 ip in
  data_layout sb → bcache h0 H s → lock_idle LkIcache s → lock_idle (LkInode i) s → k_icache s !! i = Some ip →
  i_ref ip = 1 → i_nlink ip = 0 → grave D sb H d ip0 k → inode_wf ip → D !! inode_bitmap_start sb = Some m →
  ∃ s' d' m', inode_free i s = Ok (tt, s') ∧
    fs_step h0 H (set_icache (<[i := dead_slot ip0]> (k_icache s)) s) s' (k_disk s') ∧
    k_disk s' !! data_bitmap_start sb = Some d' ∧
    (∀ j, bit_of d' j = bit_of d j && negb (bool_decide (j ∈ data_bit sb <$> file_blocks D ip))) ∧
    k_disk s' !! inode_bitmap_start sb = Some m' ∧
    (∀ j, bit_of m' j = bit_of m j && negb (bool_decide (j = k))) ∧
    node (k_disk s') sb (Z.of_nat k) = bare (dead ip) ∧
    ∀ b, b ≠ data_bitmap_start sb → b ≠ inode_bitmap_start sb → b ≠ inode_block sb ip → k_disk s' !! b = D !! b.
Proof.
  intros D sb ip0 Hlay Hc Hil Hid Hi Hr Hn Hg Hw Hm.
  destruct (inode_free_last_run D sb Hlay h0 H s i ip d k) as (s' & Hrun & Hst); try done. fold ip0 in Hst.
  destruct (buried_data D sb H d ip0 k Hg) as (d' & Hd' & _ & Hbits).
  destruct (buried_inodes D sb H d ip0 k Hg m Hm) as (m' & Hm' & _ & Hbits').
  destruct (gr_num _ _ _ _ _ _ Hg) as [Hnum Hk]. destruct (gr_inode _ _ _ _ _ _ Hg) as (_ & _ & _ & Hbm).
  destruct (gr_map _ _ _ _ _ _ Hg) as (_ & _ & _ & _ & Him).
  assert (∀ n, n = inode_num ip → inode_block sb (stub n) = inode_block sb ip) as Eb by (by intros n ->).
  exists s', d', m'. rewrite (fs_disk _ _ _ _ _ Hst). do 6 (split; [done|]). split; [|intros b; by apply (buried_other D sb H d ip0 k Hg)].
  rewrite (buried_node D sb H d ip0 k Hg), decide_True; [done|by rewrite <- Hnum|by destruct Hw|unfold NBITS, BLOCK_SIZE in Hk; lia| |];
    rewrite <- Hnum, Eb; [by apply not_eq_sym|done|done|done].
Qed.

(** ** Witness: a file with two direct blocks and an indirect one *)

Definition doomed_bits : list Z := 255 :: replicate 1023 0.

Definition doomed_indirect : list Z := le_bytes 4 8 ++ le_bytes 4 9 ++ replicate 1016 0.

Definition doomed_disk : gmap Z (list Z) :=
  <[1 := doomed_bits]> (<[2 := replicate 1024 0]> (<[3 := doomed_bits]> {[ 7 := doomed_indirect ]})).

Definition doomed_inode : inode := mk_inode FT_FILE 0 0 0 4096 [5; 6; 0; 0; 0; 0; 0; 0; 0; 0; 7; 0; 0] 1 1 true.

Lemma doomed_blocks : file_blocks doomed_disk doomed_inode = [5; 6; 8; 9; 7].
Proof. by vm_compute. Qed.

Lemma doomed_grave : grave doomed_disk sample_sb ∅ doomed_bits (i_set_ref 0 doomed_inode) 1.
Proof.
  assert (block_ok doomed_bits ∧ block_ok (replicate 1024 0)) as [Hb Hz].
  { split; (split; [done|]); [apply Forall_cons; split; [by unfold byte_ok|]|]; by apply Forall_replicate. }
  split.
  - rewrite map_size_empty. unfold N_BLOCK_BUF. lia.
  - assert (∀ b, 4 ≤ b < 100 → in_data sample_sb b) as Hin by (intros b Hb'; unfold in_data, NBITS, BLOCK_SIZE; cbn; lia).
    assert (data_ok doomed_disk sample_sb [] 1 7) as H7.
    { split; [by apply Hin|]. split; [by apply not_elem_of_nil|]. split; [by eexists|]. replace (used _) with [8; 9] by (by vm_compute).
      repeat constructor; by apply Hin. }
    split; [done|]. intros k a. change (map_to_list (∅ : gmap nat Z)).*2 with ([] : list Z).
    do 13 (destruct k as [|k]; [intros [= <-] Ha; first [done | exact H7 | split; [by apply Hin|done]]|]). done.
  - split; [done|]. unfold NBITS, BLOCK_SIZE. lia.
  - split; [|done]. by split.
  - exists (replicate 1024 0). split; [by split|]. by split.
  - exists doomed_bits. split; [by split|]. split; [done|]. by split.
Qed.

Lemma inode_free_last_correct_witness :
  ∃ s s' d', @inode_free virtio_block_device 0 s = Ok (tt, s') ∧ k_disk s' !! 3 = Some d' ∧ bit_of d' 3 = false ∧ bit_of d' 0 = true.
Proof.
  destruct (booted_cache doomed_disk sample_sb) as (s0 & Hc & Ed & Es).
  destruct (@inode_init_run virtio_block_device (k_hart sample_boot) ∅ (set_icache (replicate N_INODE zero_inode) s0)) as (s1 & _ & [Hc1 (Ed1 & Es1 & _) Hil Hlen Hs]);
    [by apply bcache_icache|done|].
  set (s := set_icache (<[0%nat := doomed_inode]> (k_icache s1)) s1). assert (k_disk s = doomed_disk) as Eds by (by rewrite <- Ed). 
  assert (k_sb s = sample_sb) as Ess by (by rewrite <- Es).
  destruct (@inode_free_last_correct virtio_block_device (k_hart sample_boot) ∅ s 0 doomed_inode doomed_bits doomed_bits 1) as (s' & d' & m' & Hrun & _ & Hd' & Hbits & _);
    rewrite ?Eds, ?Ess.
  - split; [done|]. cbn. unfold NBITS, BLOCK_SIZE. lia.
  - by apply bcache_icache.
  - exact Hil.
  - apply (Hs 0%nat). unfold N_INODE. lia.
  - cbn [k_icache s set_icache]. apply list_lookup_insert_eq. rewrite Hlen. unfold N_INODE. lia.
  - done.
  - done.
  - exact doomed_grave.
  - split; try done. repeat constructor; done.
  - done.
  - rewrite Ess in Hd'. rewrite Eds, Ess, doomed_blocks in Hbits. exists s, s', d'. split; [exact Hrun|]. split; [exact Hd'|]. by rewrite !Hbits.
Defined.
