(* ===== verification/Append.v ===== *)
(** * Writing that needs new blocks

    [inode_write_data] on a file whose blocks are direct, where the write may run into blocks
    the file does not have yet: each of them is taken from the data bitmap, entered into the
    inode and written, and the inode goes to the disk with the new size.  The contents of the
    file, as the sequence of its bytes, change as a sequence does when a range of it is
    overwritten and extended. *)

From S2P Require Import Prelude Bytes Kernel Lock Virtio Buf Bitmap Inode Destroy.

(** ** Files with direct blocks *)

(** Element [k] of [addrs]. *)
Definition addr (ip : inode) (k : nat) : Z := default 0 (i_addrs ip !! k).

Definition DIRECT_MAX : Z := Z.of_nat N_ADDRS_1 * BLOCK_SIZE.

(** The direct blocks of [ip] are blocks of the data area that the bitmap [d] has, each once;
    they and the free blocks are on the disk and not held by the caller. *)
Record direct (H : gmap nat Z) (D : gmap Z (list Z)) (sb : super_block) (ip : inode) (d : list Z) : Prop := {
  di_held : (size H < N_BLOCK_BUF)%nat;
  di_layout : data_layout sb;
  di_map : readable H D (data_bitmap_start sb) d;
  di_bits : block_ok d;
  di_len : length (i_addrs ip) = N_ADDRS;
  di_own k : (k < N_ADDRS_1)%nat → addr ip k ≠ 0 → ∃ j, (j < NBITS)%nat ∧ addr ip k = Z.of_nat j + data_start sb ∧ bit_of d j = true;
  di_inj k k' : (k < N_ADDRS_1)%nat → (k' < N_ADDRS_1)%nat → addr ip k ≠ 0 → addr ip k = addr ip k' → k = k';
  di_block j : (j < NBITS)%nat → bit_of d j = false ∨ (∃ k, (k < N_ADDRS_1)%nat ∧ addr ip k = Z.of_nat j + data_start sb) →
    ∃ e, readable H D (Z.of_nat j + data_start sb) e ∧ length e = Z.to_nat BLOCK_SIZE }.

Lemma block_of_direct D ip bn : 0 ≤ bn < Z.of_nat N_ADDRS_1 → block_of D ip bn = addr ip (Z.to_nat bn).
Proof.
  intros Hb. unfold block_of, bmap, bmap_root, addr. change (Z.of_nat N_ADDRS_1) with 10 in Hb. rewrite (proj2 (Z.ltb_lt bn 10)) by lia.
  destruct (i_addrs ip !! Z.to_nat bn) as [v|]; [|done]. simpl. by destruct (v =? 0) eqn:E; zbool; subst.
Qed.

Lemma bmap_direct D ip bn : 0 ≤ bn < Z.of_nat N_ADDRS_1 → addr ip (Z.to_nat bn) ≠ 0 → bmap D ip bn = Some ([], addr ip (Z.to_nat bn)).
Proof.
  intros Hb. unfold bmap, bmap_root, addr. change (Z.of_nat N_ADDRS_1) with 10 in Hb. rewrite (proj2 (Z.ltb_lt bn 10)) by lia.
  destruct (i_addrs ip !! Z.to_nat bn) as [v|]; [|done]. simpl. intros Hv. by rewrite (proj2 (Z.eqb_neq v 0)).
Qed.

(** ** Giving a file its block [bn] *)

Definition put_addr (k : nat) (v : Z) (ip : inode) : inode := i_set_addrs (<[k := v]> (i_addrs ip)) ip.

Lemma addr_put ip k v k' : (k < length (i_addrs ip))%nat → addr (put_addr k v ip) k' = if decide (k' = k) then v else addr ip k'.
Proof.
  intros Hk. unfold addr, put_addr. simpl. case_decide as E; [subst; by rewrite list_lookup_insert_eq|by rewrite list_lookup_insert_ne].
Qed.

(** The block is there, or the first free one is taken. *)
Inductive placed (sb : super_block) (ip : inode) (d : list Z) (bn : nat) : inode → list Z → Prop :=
  | placed_old : addr ip bn ≠ 0 → placed sb ip d bn ip d
  | placed_new k : addr ip bn = 0 → least_clear d k → placed sb ip d bn (put_addr bn (Z.of_nat k + data_start sb) ip) (set_bit d k).

Section placing.
  Context (H : gmap nat Z) (D : gmap Z (list Z)) (sb : super_block) (ip : inode) (d : list Z) (Hd : direct H D sb ip d).
  Context (bn : nat) (Hbn : (bn < N_ADDRS_1)%nat) (ip1 : inode) (d1 : list Z) (Hp : placed sb ip d bn ip1 d1).

Notation bm := (data_bitmap_start sb).

Lemma bn_addrs : (bn < length (i_addrs ip))%nat.
Proof. rewrite (di_len _ _ _ _ _ Hd). unfold N_ADDRS, N_ADDRS_1 in *. lia. Qed.

Lemma placed_pos : addr ip1 bn ≠ 0.
Proof.
  pose proof (di_layout _ _ _ _ _ Hd) as [Hm _]. destruct Hp as [E|k E (Hk & _)]; [done|]. rewrite addr_put by apply bn_addrs.
  rewrite decide_True by done. lia.
Qed.

Lemma placed_keep k : addr ip k ≠ 0 → addr ip1 k = addr ip k.
Proof. intros Hk. destruct Hp as [E|j E _]; [done|]. rewrite addr_put by apply bn_addrs. by rewrite decide_False by (by intros ->). Qed.

Lemma placed_else k : k ≠ bn → i_addrs ip1 !! k = i_addrs ip !! k.
Proof. intros Hk. destruct Hp as [E|j E _]; [done|]. simpl. by rewrite list_lookup_insert_ne. Qed.

Lemma placed_same : ip1 = i_set_addrs (i_addrs ip1) ip.
Proof. by destruct Hp, ip. Qed.

Lemma placed_bits j : (j < NBITS)%nat → bit_of d1 j = bit_of d j || bool_decide (addr ip1 bn = Z.of_nat j + data_start sb).
Proof.
  intros Hj. destruct Hp as [E|k E (Hk & _)].
  - case_bool_decide as Ej; [|by rewrite orb_false_r]. destruct (di_own _ _ _ _ _ Hd bn Hbn E) as (j' & _ & E' & Hb).
    assert (j = j') as -> by lia. by rewrite Hb.
  - rewrite set_bit_bits, orb_comm by (done || apply Hd). f_equal. apply bool_decide_ext. rewrite addr_put, decide_True by (done || apply bn_addrs). lia.
Qed.

(** The block was free, or the file's. *)
Lemma placed_block : ∃ j e, (j < NBITS)%nat ∧ addr ip1 bn = Z.of_nat j + data_start sb ∧ bit_of d1 j = true ∧
  readable H D (addr ip1 bn) e ∧ length e = Z.to_nat BLOCK_SIZE.
Proof.
  destruct Hp as [E|k E (Hk & Hc & _)].
  - destruct (di_own _ _ _ _ _ Hd bn Hbn E) as (j & Hj & Ej & Hb). destruct (di_block _ _ _ _ _ Hd j Hj) as (e & He & Hl); [right; by exists bn|].
    exists j, e. by rewrite Ej.
  - destruct (di_block _ _ _ _ _ Hd k Hk) as (e & He & Hl); [by left|]. exists k, e.
    rewrite addr_put, decide_True by (done || apply bn_addrs). do 2 (split; [done|]). split; [|done]. rewrite set_bit_bits by (done || apply Hd). by rewrite bool_decide_true.
Qed.

Lemma placed_free k j : addr ip k = 0 → addr ip1 k = Z.of_nat j + data_start sb → bit_of d j = false.
Proof.
  pose proof (di_layout _ _ _ _ _ Hd) as [Hm _]. intros E0. destruct Hp as [E|k' E (Hk & Hc & _)]; [lia|]. rewrite addr_put by apply bn_addrs.
  case_decide; [|lia]. intros Ej. assert (k' = j) as <- by lia. done.
Qed.

(** A block the file had is not the one it gets. *)
Lemma placed_fresh k : (k < N_ADDRS_1)%nat → k ≠ bn → addr ip k ≠ 0 → addr ip k ≠ addr ip1 bn.
Proof.
  intros Hk Hne Ha. destruct Hp as [E|j E (Hj & Hc & _)]; [intros Ek; apply Hne; by apply (di_inj _ _ _ _ _ Hd)|].
  rewrite addr_put, decide_True by (done || apply bn_addrs). destruct (di_own _ _ _ _ _ Hd k Hk Ha) as (j' & _ & -> & Hb). intros Ej. assert (j' = j) as -> by lia. congruence.
Qed.

Lemma data_not_map j : Z.of_nat j + data_start sb ≠ bm.
Proof. pose proof (di_layout _ _ _ _ _ Hd) as [Hm _]. lia. Qed.

Lemma placed_map_ok : block_ok d1.
Proof. destruct Hp; [apply Hd|apply set_bit_ok, Hd]. Qed.

(** The invariant holds of the file with the block, once the block has its new contents. *)
Lemma placed_direct e : length e = Z.to_nat BLOCK_SIZE → direct H (<[addr ip1 bn := e]> (<[bm := d1]> D)) sb ip1 d1.
Proof.
  intros He. destruct placed_block as (j & e0 & Hj & Ej & Hb & Hr & _). pose proof (data_not_map j) as Hm.
  split; [exact (di_held _ _ _ _ _ Hd)|exact (di_layout _ _ _ _ _ Hd)|..].
  - destruct (di_map _ _ _ _ _ Hd). split; [done|done|]. rewrite lookup_insert_ne by congruence. apply lookup_insert_eq.
  - apply placed_map_ok.
  - destruct Hp; simpl; rewrite ?length_insert; apply (di_len _ _ _ _ _ Hd).
  - intros k Hk Ha. destruct (decide (k = bn)) as [->|Hne]; [by exists j|].
    assert (addr ip1 k = addr ip k) as Ek by (unfold addr; by rewrite placed_else). rewrite Ek in *.
    destruct (di_own _ _ _ _ _ Hd k Hk Ha) as (j' & Hj' & Ej' & Hb'). exists j'. do 2 (split; [done|]). by rewrite placed_bits, Hb'.
  - assert (∀ k, k ≠ bn → addr ip1 k = addr ip k) as Ek by (intros k Hk; unfold addr; by rewrite placed_else).
    intros k k' Hk Hk' Ha E. destruct (decide (k = bn)) as [->|Hne], (decide (k' = bn)) as [->|Hne']; [done|..].
    + rewrite (Ek k') in E by done. destruct (placed_fresh k' Hk' Hne'); [by rewrite <- E|done].
    + rewrite (Ek k) in Ha, E by done. by destruct (placed_fresh k Hk Hne Ha).
    + rewrite (Ek k) in Ha, E by done. rewrite (Ek k') in E by done. by apply (di_inj _ _ _ _ _ Hd).
  - intros j' Hj' Hor. destruct (decide (Z.of_nat j' + data_start sb = addr ip1 bn)) as [->|Hne].
    + exists e. split; [|done]. destruct Hr. split; [done|done|apply lookup_insert_eq].
    + destruct (di_block _ _ _ _ _ Hd j' Hj') as (e' & [Hf Hra Hl] & Hlen).
      * destruct Hor as [Hc|(k & Hk & Ek)].
        -- left. rewrite placed_bits in Hc by done. by apply orb_false_elim in Hc as [? _].
        -- right. exists k. split; [done|]. destruct (decide (k = bn)) as [->|Hnb]; [by rewrite Ek in Hne|]. unfold addr in *. by rewrite placed_else in Ek.
      * exists e'. split; [|done]. split; [done|done|]. rewrite !lookup_insert_ne; [done|apply not_eq_sym, data_not_map|done].
Qed.

End placing.

(** ** A write *)

(** Block [k] has a byte of the range of [n] bytes at [off]. *)
Definition touches (off : Z) (n : nat) (k : nat) : Prop :=
  (0 < n)%nat ∧ Z.of_nat k * BLOCK_SIZE < off + Z.of_nat n ∧ off < (Z.of_nat k + 1) * BLOCK_SIZE.

Lemma touches_block off n k :
  0 ≤ off → (0 < n)%nat → off mod BLOCK_SIZE + Z.of_nat n ≤ BLOCK_SIZE → touches off n k ↔ k = Z.to_nat (off / BLOCK_SIZE).
Proof. unfold touches, BLOCK_SIZE. intros Ho Hn Hf. split; [intros (_ & ? & ?)|intros ->; split; [done|]]; zdiv. Qed.

Lemma touches_pos off n pos : 0 ≤ pos → off ≤ pos < off + Z.of_nat n → touches off n (Z.to_nat (pos / BLOCK_SIZE)).
Proof. unfold touches, BLOCK_SIZE. intros Hp Hin. split; [lia|]. zdiv. Qed.

(** Data block [j] is one of the direct blocks. *)
Definition owns (sb : super_block) (ip : inode) (j : nat) : bool :=
  existsb (λ k, addr ip k =? Z.of_nat j + data_start sb) (seq 0 N_ADDRS_1).

Lemma owns_true sb ip j : owns sb ip j = true ↔ ∃ k, (k < N_ADDRS_1)%nat ∧ addr ip k = Z.of_nat j + data_start sb.
Proof.
  unfold owns. rewrite existsb_exists. split.
  - intros (k & Hk & E). apply in_seq in Hk. exists k. zbool. split; [lia|done].
  - intros (k & Hk & E). exists k. rewrite in_seq. split; [lia|by apply Z.eqb_eq].
Qed.

(** [ip'], [d'] and [D'] are the inode, the bitmap and the disk after [l] was written at [off]. *)
Record stored (H : gmap nat Z) (sb : super_block) (D : gmap Z (list Z)) (ip : inode) (d : list Z) (off : Z) (l : list Z)
    (D' : gmap Z (list Z)) (ip' : inode) (d' : list Z) : Prop := {
  st_direct : direct H D' sb ip' d';
  st_same : ip' = i_set_addrs (i_addrs ip') ip;
  st_keep k : (k < N_ADDRS_1)%nat → addr ip k ≠ 0 → addr ip' k = addr ip k;
  st_touched k : (k < N_ADDRS_1)%nat → touches off (length l) k → addr ip' k ≠ 0;
  st_else k : ¬ touches off (length l) k → i_addrs ip' !! k = i_addrs ip !! k;
  st_bits j : (j < NBITS)%nat → bit_of d' j = bit_of d j || owns sb ip' j;
  st_free k j : (k < N_ADDRS_1)%nat → (j < NBITS)%nat → addr ip k = 0 → addr ip' k = Z.of_nat j + data_start sb → bit_of d j = false;
  st_bytes pos : 0 ≤ pos < DIRECT_MAX → addr ip' (Z.to_nat (pos / BLOCK_SIZE)) ≠ 0 →
    byte_at D' ip' pos = if decide (off ≤ pos < off + Z.of_nat (length l)) then l !!! Z.to_nat (pos - off) else byte_at D ip' pos;
  st_other x : x ≠ data_bitmap_start sb → (∀ k, (k < N_ADDRS_1)%nat → addr ip' k ≠ 0 → x ≠ addr ip' k) → D' !! x = D !! x }.

Lemma pos_block pos : 0 ≤ pos < DIRECT_MAX → 0 ≤ pos / BLOCK_SIZE < Z.of_nat N_ADDRS_1 ∧ (Z.to_nat (pos / BLOCK_SIZE) < N_ADDRS_1)%nat.
Proof. unfold DIRECT_MAX, BLOCK_SIZE. change (Z.of_nat N_ADDRS_1) with 10. unfold N_ADDRS_1. intros Hp. split; zdiv. Qed.

(** Bytes of the same block. *)
Lemma byte_at_ext D D' ip ip' pos :
  0 ≤ pos < DIRECT_MAX → addr ip' (Z.to_nat (pos / BLOCK_SIZE)) = addr ip (Z.to_nat (pos / BLOCK_SIZE)) →
  D' !! addr ip (Z.to_nat (pos / BLOCK_SIZE)) = D !! addr ip (Z.to_nat (pos / BLOCK_SIZE)) → byte_at D' ip' pos = byte_at D ip pos.
Proof. intros Hp Ea Ed. destruct (pos_block pos Hp) as [Hb _]. unfold byte_at. rewrite !block_of_direct, Ea by done. by rewrite Ed. Qed.

Lemma addr_data H D sb ip d k : direct H D sb ip d → (k < N_ADDRS_1)%nat → addr ip k ≠ 0 → addr ip k ≠ data_bitmap_start sb.
Proof. intros Hd Hk Ha. destruct (di_own _ _ _ _ _ Hd k Hk Ha) as (j & _ & -> & _). by eapply data_not_map. Qed.

Lemma stored_nil H sb D ip d off : direct H D sb ip d → stored H sb D ip d off [] D ip d.
Proof.
  intros Hd. split; try done.
  - by destruct ip.
  - intros k _ [? _]. simpl in *. lia.
  - intros j Hj. destruct (owns sb ip j) eqn:E; [|by rewrite orb_false_r]. apply owns_true in E as (k & Hk & Ek).
    assert (addr ip k ≠ 0) as Ha by (destruct (di_layout _ _ _ _ _ Hd) as [? _]; lia).
    destruct (di_own _ _ _ _ _ Hd k Hk Ha) as (j' & _ & Ej & Hb). assert (j' = j) as -> by lia. by rewrite Hb.
  - intros k j _ _ E0 E1. destruct (di_layout _ _ _ _ _ Hd) as [? _]. lia.
  - intros pos Hp Ha. rewrite decide_False; [done|]. simpl. lia.
Qed.

(** Two writes, one after the other. *)
Lemma stored_app H sb D ip d off l1 D1 ip1 d1 l2 D2 ip2 d2 :
  stored H sb D ip d off l1 D1 ip1 d1 → stored H sb D1 ip1 d1 (off + Z.of_nat (length l1)) l2 D2 ip2 d2 →
  stored H sb D ip d off (l1 ++ l2) D2 ip2 d2.
Proof.
  intros [A1 A2 A3 A4 A5 A6 A9 A7 A8] [B1 B2 B3 B4 B5 B6 B9 B7 B8].
  assert (∀ k, (k < N_ADDRS_1)%nat → addr ip1 k ≠ 0 → addr ip2 k ≠ 0) as Hpos by (intros k Hk Ha; by rewrite B3).
  split; [done|..].
  - rewrite B2, A2. done.
  - intros k Hk Ha. rewrite B3, A3 by (done || rewrite ?A3; done). done.
  - intros k Hk (Hn & Hlo & Hhi). rewrite length_app in *. destruct (decide (touches off (length l1) k)) as [Ht|Ht]; [by apply Hpos, A4|].
    apply B4; [done|]. unfold touches, BLOCK_SIZE in *. lia.
  - intros k Ht. rewrite B5, A5; [done|..]; intros (? & ? & ?); apply Ht; unfold touches, BLOCK_SIZE in *; rewrite length_app; lia.
  - intros j Hj. rewrite B6, A6 by done. destruct (owns sb ip1 j) eqn:E1; [|by rewrite orb_false_r].
    assert (owns sb ip2 j = true) as ->; [|by rewrite !orb_true_r]. apply owns_true in E1 as (k & Hk & Ek). apply owns_true. exists k. split; [done|].
    rewrite B3; [done|done|]. destruct (di_layout _ _ _ _ _ A1) as [? _]. lia.
  - intros k j Hk Hj E0 E2. destruct (decide (addr ip1 k = 0)) as [E1|E1]; [|apply (A9 k j); [done|done|done|by rewrite <- (B3 k Hk E1)]].
    pose proof (B9 k j Hk Hj E1 E2) as Hb. rewrite A6 in Hb by done. by apply orb_false_elim in Hb as [? _].
  - intros pos Hp Ha. rewrite B7 by done. destruct (pos_block pos Hp) as [Hb Hk]. set (k := Z.to_nat (pos / BLOCK_SIZE)) in *. rewrite length_app.
    destruct (decide (off + Z.of_nat (length l1) ≤ pos < off + Z.of_nat (length l1) + Z.of_nat (length l2))) as [H2|H2].
    { rewrite decide_True by lia. rewrite lookup_total_app_r by lia. f_equal. lia. }
    destruct (decide (addr ip1 k = 0)) as [E1|E1].
    + assert (¬ off ≤ pos < off + Z.of_nat (length l1)) as Hn.
      { intros Hin. apply (A4 k Hk); [|done]. apply touches_pos; [lia|done]. }
      rewrite decide_False by lia. apply byte_at_ext; [done|done|]. fold k. apply A8; [by eapply addr_data|].
      intros k' Hk' Ha' E. assert (k = k') as <-; [|done]. apply (di_inj _ _ _ _ _ B1); try done. by rewrite (B3 k').
    + rewrite (byte_at_ext D1 D1 ip1 ip2 pos), A7; [|done|done|done|by rewrite B3|done]. case_decide as H1.
      * rewrite decide_True by lia. by rewrite lookup_total_app_l by lia.
      * rewrite decide_False by lia. symmetry. apply byte_at_ext; [done|by apply B3|done].
  - intros x Hx Hk. rewrite B8, A8; [done|done| |done|done]. intros k Hk' Ha. specialize (Hk k Hk'). rewrite B3 in Hk by done. by apply Hk.
Qed.

(** A write within one block. *)
Lemma stored_block H sb D ip d off l ip1 d1 e :
  let bn := Z.to_nat (off / BLOCK_SIZE) in
  direct H D sb ip d → 0 ≤ off < DIRECT_MAX → (0 < length l)%nat → off mod BLOCK_SIZE + Z.of_nat (length l) ≤ BLOCK_SIZE →
  placed sb ip d bn ip1 d1 → readable H D (addr ip1 bn) e → length e = Z.to_nat BLOCK_SIZE →
  stored H sb D ip d off l (<[addr ip1 bn := splice (Z.to_nat (off mod BLOCK_SIZE)) l e]> (<[data_bitmap_start sb := d1]> D)) ip1 d1.
Proof.
  intros bn Hd Ho Hn Hfit Hp Hr Hl. destruct (pos_block off Ho) as [Hb Hbn]. fold bn in Hbn.
  pose proof (Z.mod_pos_bound off BLOCK_SIZE ltac:(done)) as Hmod. set (o := Z.to_nat (off mod BLOCK_SIZE)).
  assert (o + length l ≤ length e)%nat as Hle by (rewrite Hl; unfold o; lia).
  assert (Z.of_nat bn = off / BLOCK_SIZE) as Ebn by (unfold bn; lia).
  assert (∀ k, touches off (length l) k ↔ k = bn) as Ht.
  { intros k. apply touches_block; [lia|done|done]. }
  pose proof (placed_direct _ _ _ _ _ Hd bn Hbn ip1 d1 Hp (splice o l e)) as Hd1. rewrite length_splice in Hd1 by done. specialize (Hd1 Hl).
  pose proof (placed_pos _ _ _ _ _ Hd bn Hbn ip1 d1 Hp) as Hpos.
  split; [exact Hd1|..].
  - by eapply placed_same.
  - intros k Hk Ha. exact (placed_keep _ _ _ _ _ Hd bn Hbn ip1 d1 Hp k Ha).
  - intros k Hk ->%Ht. done.
  - intros k Hk. eapply placed_else; [done|]. intros ->. by apply Hk, Ht.
  - intros j Hj. rewrite (placed_bits _ _ _ _ _ Hd bn Hbn ip1 d1 Hp j Hj). destruct (owns sb ip1 j) eqn:E.
    + rewrite orb_true_r. apply owns_true in E as (k & Hk & Ek). destruct (decide (k = bn)) as [->|Hne]; [by rewrite bool_decide_true, orb_true_r|].
      assert (addr ip k = addr ip1 k) as Ea by (unfold addr; by rewrite (placed_else sb ip d bn ip1 d1 Hp k Hne)). rewrite <- Ea in Ek.
      destruct (di_own _ _ _ _ _ Hd k Hk) as (j' & _ & Ej & Hbt); [destruct (di_layout _ _ _ _ _ Hd) as [? _]; lia|]. assert (j' = j) as -> by lia. by rewrite Hbt.
    + rewrite bool_decide_false; [done|]. intros Ej. assert (owns sb ip1 j = true); [|congruence]. apply owns_true. by exists bn.
  - intros k j _ _. exact (placed_free _ _ _ _ _ Hd bn Hbn ip1 d1 Hp k j).
  - intros pos Hpos' Ha. destruct (pos_block pos Hpos') as [Hb' Hk]. set (k := Z.to_nat (pos / BLOCK_SIZE)) in *. destruct (decide (k = bn)) as [E|Hne].
    + unfold byte_at. rewrite !block_of_direct by done. fold k. rewrite E, lookup_insert_eq, (rd_disk _ _ _ _ Hr). simpl. rewrite lookup_splice by done.
      assert (pos / BLOCK_SIZE = off / BLOCK_SIZE) as Eq by lia.
      pose proof (Z.div_mod pos BLOCK_SIZE ltac:(done)) as E1. pose proof (Z.div_mod off BLOCK_SIZE ltac:(done)) as E2.
      pose proof (Z.mod_pos_bound pos BLOCK_SIZE ltac:(done)) as Hm'. rewrite Eq in E1.
      unfold o. destruct (decide (off ≤ pos < off + Z.of_nat (length l))) as [Hin|Hout].
      * rewrite decide_True by lia. replace (Z.to_nat _ - Z.to_nat _)%nat with (Z.to_nat (pos - off)) by lia.
        destruct (lookup_lt_is_Some_2 l (Z.to_nat (pos - off))) as [x Hx]; [lia|]. by rewrite Hx, (list_lookup_total_correct _ _ _ Hx).
      * by rewrite decide_False by lia.
    + rewrite decide_False by (intros Hin; apply Hne, Ht, touches_pos; [lia|done]).
      apply byte_at_ext; [done|done|]. fold k. rewrite lookup_insert_ne; [|intros E; apply Hne; symmetry; by apply (di_inj _ _ _ _ _ Hd1)].
      rewrite lookup_insert_ne; [done|]. apply not_eq_sym. by eapply addr_data.
  - intros x Hx Hk. rewrite lookup_insert_ne; [|apply not_eq_sym; by apply Hk]. by rewrite lookup_insert_ne.
Qed.

(** ** Enough free blocks *)

Definition clear_count (d : list Z) : nat := length (filter (λ k, bit_of d k = false) (seq 0 NBITS)).

(** Blocks the file does not have, of [n] from [a] on. *)
Definition holes (ip : inode) (a n : nat) : nat := length (filter (λ k, addr ip k = 0) (seq a n)).

Lemma filter_pos {A} (P : A → Prop) `{!∀ x, Decision (P x)} (l : list A) : (0 < length (filter P l))%nat → ∃ x, x ∈ l ∧ P x.
Proof.
  destruct (filter P l) as [|x m] eqn:E; simpl; [lia|]. intros _. exists x.
  assert (x ∈ filter P l) as [? ?]%list_elem_of_filter by (rewrite E; by left). done.
Qed.

Lemma clear_count_pos d : (0 < clear_count d)%nat → ∃ k, least_clear d k.
Proof.
  unfold clear_count. intros (k & [_ Hk]%elem_of_seq & Hc)%filter_pos. rewrite Nat.add_0_l in Hk.
  destruct (least_clear_or_full d) as [?|Hall]; [done|]. rewrite (Hall k Hk) in Hc. done.
Qed.

Lemma filter_same {A} (P Q : A → Prop) `{!∀ x, Decision (P x)} `{!∀ x, Decision (Q x)} (l : list A) : (∀ x, x ∈ l → P x ↔ Q x) → filter P l = filter Q l.
Proof.
  induction l as [|x l IH]; intros Hl; [done|]. rewrite !filter_cons, IH by (intros; apply Hl; by right).
  specialize (Hl x ltac:(by left)). repeat case_decide; tauto || done.
Qed.

Lemma filter_remove (P Q : nat → Prop) `{!∀ x, Decision (P x)} `{!∀ x, Decision (Q x)} n k :
  (k < n)%nat → P k → (∀ j, Q j ↔ P j ∧ j ≠ k) → length (filter P (seq 0 n)) = S (length (filter Q (seq 0 n))).
Proof.
  intros Hk HP HQ. rewrite (seq_split n k Hk), !filter_app, !filter_cons, !length_app.
  rewrite decide_True by done. rewrite decide_False by (rewrite HQ; tauto).
  assert (∀ l : list nat, k ∉ l → filter Q l = filter P l) as E.
  { intros l Hl. apply filter_same. intros j Hj. rewrite HQ. split; [tauto|]. intros HPj. split; [done|]. by intros ->. }
  rewrite !E by (rewrite elem_of_seq; lia). simpl. lia.
Qed.

Lemma clear_count_set d k : block_ok d → least_clear d k → clear_count d = S (clear_count (set_bit d k)).
Proof.
  intros Hd (Hk & Hc & _). unfold clear_count. apply (filter_remove _ _ NBITS k Hk Hc). intros j. rewrite set_bit_bits by done.
  rewrite orb_false_iff, bool_decide_eq_false. tauto.
Qed.

Lemma holes_cons ip a n : holes ip a (S n) = Nat.add (if decide (addr ip a = 0) then 1%nat else 0%nat) (holes ip (S a) n).
Proof. unfold holes. cbn [seq]. rewrite filter_cons. by case_decide. Qed.

Lemma holes_same ip ip' a n : (∀ k, (a ≤ k)%nat → addr ip' k = addr ip k) → holes ip' a n = holes ip a n.
Proof. intros E. unfold holes. f_equal. apply filter_same. intros k Hk%elem_of_seq. by rewrite E by lia. Qed.

(** What a placed block leaves of both. *)
Lemma placed_count sb ip d bn ip1 d1 n :
  block_ok d → placed sb ip d bn ip1 d1 → (holes ip bn (S n) ≤ clear_count d)%nat → (holes ip1 (S bn) n ≤ clear_count d1)%nat.
Proof.
  intros Hd Hp. rewrite holes_cons. assert (holes ip1 (S bn) n = holes ip (S bn) n) as ->.
  { apply holes_same. intros k Hk. unfold addr. rewrite (placed_else sb ip d bn ip1 d1 Hp) by lia. done. }
  destruct Hp as [E|k E Hk]; [case_decide; lia|]. rewrite decide_True by done. pose proof (clear_count_set d k Hd Hk). lia.
Qed.

(** ** Running the code *)

Lemma set_icache_same s i ip : k_icache s !! i = Some ip → set_icache (<[i := ip]> (k_icache s)) s = s.
Proof. intros Hi. by rewrite list_insert_id. Qed.

Section append.
  Context {B : BlockDevice} (h0 : hart) (H : gmap nat Z) (i : nat).

Lemma locate_direct_run s ip d bn :
  bcache h0 H s → k_icache s !! i = Some ip → direct H (k_disk s) (k_sb s) ip d → (bn < N_ADDRS_1)%nat →
  addr ip bn ≠ 0 ∨ (∃ k, least_clear d k) →
  ∃ ip1 d1 s1, placed (k_sb s) ip d bn ip1 d1 ∧ inode_locate_block i (Z.of_nat bn) s = Ok (addr ip1 bn, s1) ∧
    fs_step h0 H (set_icache (<[i := ip1]> (k_icache s)) s) s1 (<[data_bitmap_start (k_sb s) := d1]> (k_disk s)).
Proof.
  intros Hc Hi Hd Hbn Hor. pose proof (bn_addrs _ _ _ _ _ Hd bn Hbn) as Hlt. unfold inode_locate_block.
  rewrite (proj2 (Z.ltb_lt _ _)) by lia. cbn [locate_block]. rewrite Nat2Z.id. set (bm := data_bitmap_start (k_sb s)).
  assert (i_addrs ip !! bn = Some (addr ip bn)) as Ha by (unfold addr; by destruct (lookup_lt_is_Some_2 _ _ Hlt) as [v ->]).
  assert (∀ s' x, k_icache s' !! i = Some x → i_addrs x !! bn = Some (addr x bn) → get_entry (EInode i bn) s' = Ok (addr x bn, s')) as Hget.
  { intros s' x Hx Hv. cbn [get_entry]. run (get_inode_run i s' x Hx). by rewrite Hv. }
  run (Hget s ip Hi Ha). destruct (addr ip bn =? 0) eqn:E; zbool.
  - destruct Hor as [?|[k Hk]]; [done|]. destruct (di_map _ _ _ _ _ Hd) as [Hf Hr Hdk]. destruct (di_layout _ _ _ _ _ Hd) as [Hm Ht]. mrun.
    destruct (alloc_block_run h0 H s d k) as (s1 & Hal & Hst); try done; [apply Hd|apply Hd|lia|destruct Hk; lia|].
    run Hal. cbn [put_entry]. unfold upd_inode. mrun.
    set (v := Z.of_nat k + data_start (k_sb s)) in *. change (λ x, i_set_addrs (<[bn := v]> (i_addrs x)) x) with (put_addr bn v).
    assert (k_icache s1 = k_icache s) as Ei by apply (fs_step_icache _ _ _ _ _ Hst).
    rewrite (alter_insert _ _ _ ip) by (by rewrite Ei). rewrite Ei. set (l := <[i := put_addr bn v ip]> (k_icache s)).
    exists (put_addr bn v ip), (set_bit d k), (set_icache l s1). split; [by constructor|].
    assert (addr (put_addr bn v ip) bn = v) as Ev by (by rewrite addr_put, decide_True). split; [|by apply fs_step_set_icache].
    rewrite (proj2 (Z.eqb_eq 1 1)) by done. apply Hget.
    + unfold l. cbn [k_icache set_icache]. apply list_lookup_insert_eq. by eapply lookup_lt_Some.
    + simpl. rewrite list_lookup_insert_eq by done. by rewrite Ev.
  - mrun. exists ip, d, s. split; [by constructor|]. split; [by apply Hget|]. rewrite set_icache_same by done.
    rewrite insert_id by apply (di_map _ _ _ _ _ Hd). by apply fs_step_refl.
Qed.

(** One block of a write. *)
Lemma chunk_run s ip d bn off l :
  bcache h0 H s → k_icache s !! i = Some ip → direct H (k_disk s) (k_sb s) ip d → (bn < N_ADDRS_1)%nat →
  addr ip bn ≠ 0 ∨ (∃ k, least_clear d k) →
  ∃ ip1 d1 e s1 b s2 s3, placed (k_sb s) ip d bn ip1 d1 ∧ readable H (k_disk s) (addr ip1 bn) e ∧ length e = Z.to_nat BLOCK_SIZE ∧
    inode_locate_block i (Z.of_nat bn) s = Ok (addr ip1 bn, s1) ∧ buf_read (addr ip1 bn) s1 = Ok (b, s2) ∧
    (upd_buf b (λ x, buf_set_data (splice off l (data x)) x);; buf_write b;; buf_release b) s2 = Ok (tt, s3) ∧
    fs_step h0 H (set_icache (<[i := ip1]> (k_icache s)) s) s3 (<[addr ip1 bn := splice off l e]> (<[data_bitmap_start (k_sb s) := d1]> (k_disk s))).
Proof.
  intros Hc Hi Hd Hbn Hor. destruct (locate_direct_run s ip d bn) as (ip1 & d1 & s1 & Hp & Hloc & Hst); try done.
  destruct (placed_block _ _ _ _ _ Hd bn Hbn ip1 d1 Hp) as (j & e & Hj & Ej & _ & Hr & Hl). pose proof Hr as [Hf Hra Hdk].
  assert (k_disk s1 !! addr ip1 bn = Some e) as Hd1.
  { rewrite (fs_disk _ _ _ _ _ Hst), lookup_insert_ne; [done|]. rewrite Ej. apply not_eq_sym. by eapply data_not_map. }
  destruct (buf_read_open h0 H s1 (addr ip1 bn) e) as (b & n & s2 & Hrd & Ho); try done; [apply Hst|apply Hd|].
  destruct (close_write _ _ _ _ _ _ _ _ (λ x, buf_set_data (splice off l (data x)) x) Ho) as (s3 & Hcw & Hst3); try done.
  simpl in Hst3. rewrite (op_data _ _ _ _ _ _ _ _ Ho), (fs_disk _ _ _ _ _ Hst) in Hst3.
  exists ip1, d1, e, s1, b, s2, s3. do 6 (split; [done|]). by eapply fs_step_trans.
Qed.

Lemma append_loop_run fuel : ∀ s ip d off l total n,
  let len := Z.of_nat (length l) in
  bcache h0 H s → k_icache s !! i = Some ip → direct H (k_disk s) (k_sb s) ip d → 0 ≤ total ≤ len → len < 2^32 →
  0 ≤ off → off + (len - total) ≤ DIRECT_MAX →
  (len - total = 0 ∨ off mod BLOCK_SIZE + (len - total) ≤ Z.of_nat fuel * BLOCK_SIZE) →
  (len - total = 0 ∨ off mod BLOCK_SIZE + (len - total) ≤ Z.of_nat n * BLOCK_SIZE ∧
    (holes ip (Z.to_nat (off / BLOCK_SIZE)) n ≤ clear_count d)%nat) →
  ∃ s' D' ip' d', write_data_loop fuel i off len total (SrcBytes l) s = Ok ((len, off + (len - total)), s') ∧
    fs_step h0 H (set_icache (<[i := ip']> (k_icache s)) s) s' D' ∧
    stored H (k_sb s) (k_disk s) ip d off (drop (Z.to_nat total) l) D' ip' d'.
Proof.
  induction fuel as [|fuel IH]; intros s ip d off l total n len Hc Hi Hd Ht Hl Ho Hmax Hf Hn;
    pose proof (Z.mod_pos_bound off BLOCK_SIZE ltac:(done)) as Hmod; cbn [write_data_loop]; destruct (total <? len) eqn:Htl; zbool;
    try (assert (total = len) as -> by lia; unfold len; rewrite Z.sub_diag, Z.add_0_r, Nat2Z.id, drop_all; exists s, (k_disk s), ip, d;
         split; [done|]; split; [rewrite set_icache_same by done; by apply fs_step_refl|by apply stored_nil]).
  { lia. }
  destruct Hn as [?|[Hn Hh]]; [lia|]. destruct n as [|n]; [lia|]. assert (DIRECT_MAX = 10240) as HM by done. assert (BLOCK_SIZE = 1024) as HB by done.
  rewrite (u32_small (len - total)) by lia.
  destruct (block_chunk (off mod BLOCK_SIZE) (len - total) fuel) as (Hm & Hbd & Hrest); [done|lia|lia|].
  destruct (block_chunk (off mod BLOCK_SIZE) (len - total) n) as (_ & _ & Hrest'); [done|lia|lia|].
  set (m := if _ <? _ then _ else _) in *. destruct (pos_block off) as [Hbz Hbn]; [lia|]. set (bn := Z.to_nat (off / BLOCK_SIZE)) in *.
  set (bytes := slice (Z.to_nat total) (Z.to_nat m) l). assert (length bytes = Z.to_nat m) as Hlb by (apply length_slice; lia).
  destruct (chunk_run s ip d bn (Z.to_nat (off mod BLOCK_SIZE)) bytes) as (ip1 & d1 & e & s1 & b & s2 & s3 & Hp & Hr & Hle & Hloc & Hrd & Hcw & Hst); try done.
  { rewrite holes_cons in Hh. case_decide; [|by left]. right. apply clear_count_pos. lia. }
  assert (Z.of_nat bn = off / BLOCK_SIZE) as Ebn by (unfold bn; lia). rewrite Ebn in Hloc. run Hloc. run Hrd. cbn [fetch]. mrun. fold bytes.
  rewrite (seq3_ok _ _ _ _ _ _ _ Hcw). rewrite !u32_small by lia.
  pose proof (stored_block H (k_sb s) (k_disk s) ip d off bytes ip1 d1 e Hd ltac:(lia) ltac:(lia) ltac:(lia) Hp Hr Hle) as Hw. cbv zeta in Hw. fold bn in Hw.
  pose proof (fs_disk _ _ _ _ _ Hst) as Ed. pose proof (fs_step_sb _ _ _ _ _ Hst) as Es. pose proof (fs_step_icache _ _ _ _ _ Hst) as Ei.
  cbn [k_sb k_icache set_icache] in Es, Ei. set (D1 := <[addr ip1 bn := _]> _) in *.
  destruct (IH s3 ip1 d1 (off + m) l (total + m) n) as (s4 & D' & ip' & d' & Hlp & Hst4 & Hw4); try done; rewrite ?Ed, ?Es; try lia.
  - apply Hst.
  - rewrite Ei. apply list_lookup_insert_eq. by eapply lookup_lt_Some.
  - apply Hw.
  - destruct Hrest as [?|[? ?]]; [left; lia|right]. replace ((off + m) mod BLOCK_SIZE) with 0 by (rewrite HB in *; zdiv). lia.
  - destruct Hrest' as [?|[? ?]]; [left; lia|right]. split.
    + replace ((off + m) mod BLOCK_SIZE) with 0 by (rewrite HB in *; zdiv). lia.
    + replace (Z.to_nat ((off + m) / BLOCK_SIZE)) with (S bn) by (unfold bn; rewrite HB in *; zdiv). eapply placed_count; [apply Hd|done|done].
  - exists s4, D', ip', d'. fold len in Hlp. rewrite Hlp. split; [do 3 f_equal; lia|]. rewrite Ei, list_insert_insert_eq in Hst4. split.
    + eapply fs_step_trans; [|exact Hst4]. exact (fs_step_set_icache _ _ _ _ _ _ Hst).
    + rewrite Ed, Es in Hw4. replace (drop (Z.to_nat total) l) with (bytes ++ drop (Z.to_nat (total + m)) l).
      * eapply stored_app; [exact Hw|]. rewrite Hlb, Z2Nat.id by lia. exact Hw4.
      * replace (drop (Z.to_nat (total + m)) l) with (drop (Z.to_nat m) (drop (Z.to_nat total) l)) by (rewrite drop_drop; f_equal; lia). apply take_drop.
Qed.

(** ** The whole write *)

(** The contents of the file. *)
Definition contents (D : gmap Z (list Z)) (ip : inode) : list Z := file_bytes D ip 0 (Z.to_nat (i_size ip)).

(** The file has the blocks its size asks for. *)
Definition full (ip : inode) : Prop := ∀ k, (k < N_ADDRS_1)%nat → Z.of_nat k * BLOCK_SIZE < i_size ip → addr ip k ≠ 0.

(** Blocks of a file of [n] bytes. *)
Definition blocks (n : Z) : nat := Z.to_nat ((n + BLOCK_SIZE - 1) / BLOCK_SIZE).

(** The inode's block is neither the bitmap's nor one of the data area. *)
Definition inode_outside (sb : super_block) (ib : Z) : Prop :=
  ib ≠ data_bitmap_start sb ∧ ∀ j, (j < NBITS)%nat → ib ≠ Z.of_nat j + data_start sb.

Lemma direct_size D sb ip d e : direct H D sb ip d → direct H D sb (grown_inode e ip) d.
Proof. by intros []. Qed.

Lemma direct_insert D sb ip d ib x : inode_outside sb ib → direct H D sb ip d → direct H (<[ib := x]> D) sb ip d.
Proof.
  intros [Hm Hj] [C1 C2 [? ? ?] C4 C5 C6 C7 C8]. split; try done.
  - split; [done|done|]. by rewrite lookup_insert_ne.
  - intros j Hlt Hor. destruct (C8 j Hlt Hor) as (e & [? ? ?] & ?). exists e. split; [|done]. split; [done|done|].
    rewrite lookup_insert_ne; [done|by apply Hj].
Qed.

Lemma outside_addr D sb ip d ib k : direct H D sb ip d → inode_outside sb ib → (k < N_ADDRS_1)%nat → addr ip k ≠ 0 → ib ≠ addr ip k.
Proof. intros Hd [_ Hj] Hk Ha. destruct (di_own _ _ _ _ _ Hd k Hk Ha) as (j & Hlt & -> & _). by apply Hj. Qed.

(** Every mapped byte can be read. *)
Lemma direct_ready D sb ip d n :
  direct H D sb ip d → n ≤ DIRECT_MAX → (∀ k, (k < N_ADDRS_1)%nat → Z.of_nat k * BLOCK_SIZE < n → addr ip k ≠ 0) → file_ready H D ip 0 n.
Proof.
  intros Hd Hn Hall. split; [apply Hd|]. intros pos Hp. destruct (pos_block pos) as [Hb Hk]; [lia|]. set (k := Z.to_nat (pos / BLOCK_SIZE)) in *.
  assert (addr ip k ≠ 0) as Ha by (apply Hall; [done|]; unfold k, BLOCK_SIZE in *; zdiv).
  destruct (di_own _ _ _ _ _ Hd k Hk Ha) as (j & Hj & Ej & _). destruct (di_block _ _ _ _ _ Hd j Hj) as (e & He & Hl); [right; by exists k|].
  exists [], (addr ip k), e. split; [by apply bmap_direct| |by rewrite Ej|done].
  split; [constructor|]. split; [constructor|]. simpl. pose proof (di_held _ _ _ _ _ Hd). lia.
Qed.

Lemma holes_add ip a n : holes ip 0 (a + n) = (holes ip 0 a + holes ip a n)%nat.
Proof. unfold holes. by rewrite seq_app, filter_app, length_app. Qed.

Lemma holes_tail ip off len :
  0 ≤ off → 0 ≤ len → ∃ n, off mod BLOCK_SIZE + len ≤ Z.of_nat n * BLOCK_SIZE ∧
    (holes ip (Z.to_nat (off / BLOCK_SIZE)) n ≤ holes ip 0 (blocks (off + len)))%nat.
Proof.
  intros Ho Hl. exists (blocks (off + len) - Z.to_nat (off / BLOCK_SIZE))%nat. set (a := Z.to_nat (off / BLOCK_SIZE)). split.
  - unfold blocks, a, BLOCK_SIZE. zdiv.
  - destruct (decide (a ≤ blocks (off + len))%nat) as [Ha|Ha].
    + replace (blocks (off + len)) with (a + (blocks (off + len) - a))%nat at 2 by lia. rewrite holes_add. lia.
    + replace (blocks (off + len) - a)%nat with 0%nat by lia. unfold holes. simpl. lia.
Qed.

(** The contents with [l] over them from [off] on. *)
Definition overwrite (off : Z) (l c : list Z) : list Z := take (Z.to_nat off) c ++ l ++ drop (Z.to_nat off + length l) c.

Section contents.
  Context (sb : super_block) (D : gmap Z (list Z)) (ip : inode) (d : list Z) (off : Z) (l : list Z).
  Context (D' : gmap Z (list Z)) (ip' : inode) (d' : list Z) (Hw : stored H sb D ip d off l D' ip' d').
  Context (Hfull : full ip) (Hoff : 0 ≤ off ≤ i_size ip) (Hsz : i_size ip ≤ DIRECT_MAX) (Hmax : off + Z.of_nat (length l) ≤ DIRECT_MAX).

Let ipg := grown_inode (off + Z.of_nat (length l)) ip'.

Lemma grown_size : i_size ipg = Z.max (i_size ip) (off + Z.of_nat (length l)).
Proof. unfold ipg. simpl. by rewrite (st_same _ _ _ _ _ _ _ _ _ _ Hw). Qed.

Lemma grown_full : full ipg.
Proof.
  intros k Hk Hlt. rewrite grown_size in Hlt. change (addr ip' k ≠ 0).
  destruct (decide (Z.of_nat k * BLOCK_SIZE < i_size ip)) as [Hs|Hs]; [rewrite (st_keep _ _ _ _ _ _ _ _ _ _ Hw); auto|].
  apply (st_touched _ _ _ _ _ _ _ _ _ _ Hw); [done|]. unfold touches, BLOCK_SIZE in *. lia.
Qed.

Lemma grown_contents : contents D' ipg = overwrite off l (contents D ip).
Proof.
  assert (length (contents D ip) = Z.to_nat (i_size ip)) as Hlen by apply length_file_bytes.
  apply list_eq. intros k. unfold overwrite.
  destruct (decide (Z.of_nat k < i_size ipg)) as [Hk|Hk]; pose proof grown_size as Hg.
  - unfold contents at 1. rewrite lookup_file_bytes, Z.add_0_l by lia. set (pos := Z.of_nat k) in *.
    destruct (pos_block pos) as [_ Hb]; [lia|]. set (bn := Z.to_nat (pos / BLOCK_SIZE)) in *.
    assert (addr ip' bn ≠ 0) as Ha by (apply grown_full; [done|]; unfold bn, BLOCK_SIZE; zdiv).
    change (byte_at D' ipg pos) with (byte_at D' ip' pos). rewrite (st_bytes _ _ _ _ _ _ _ _ _ _ Hw) by (done || lia).
    destruct (decide (off ≤ pos < off + Z.of_nat (length l))) as [Hin|Hout].
    + rewrite lookup_app_r by (rewrite length_take; lia). rewrite length_take, lookup_app_l by lia.
      replace (k - _)%nat with (Z.to_nat (pos - off)) by lia. symmetry. apply list_lookup_lookup_total_lt. lia.
    + assert (pos < i_size ip) as Hp by lia.
      assert (addr ip bn ≠ 0) as Ha0 by (apply Hfull; [done|]; unfold bn, BLOCK_SIZE; zdiv).
      rewrite (byte_at_ext D D ip ip' pos); [|lia|by apply (st_keep _ _ _ _ _ _ _ _ _ _ Hw)|done].
      assert (contents D ip !! k = Some (byte_at D ip pos)) as Hc by (unfold contents; rewrite lookup_file_bytes by lia; done).
      destruct (decide (pos < off)) as [Hlo|Hhi].
      * rewrite lookup_app_l by (rewrite length_take; lia). rewrite lookup_take_lt by lia. by rewrite Hc.
      * rewrite lookup_app_r by (rewrite length_take; lia). rewrite length_take, lookup_app_r, lookup_drop by lia. rewrite <- Hc. f_equal. lia.
  - rewrite !lookup_ge_None_2; [done| |unfold contents; rewrite length_file_bytes; lia].
    rewrite !length_app, length_take, length_drop. lia.
Qed.

End contents.

(** The inode's slot after the write. *)
Definition saved (ip ip' : inode) (x : list Z) : list Z := if i_size ip <? i_size ip' then splice (inode_off ip) (disk_inode ip') x else x.

Lemma append_write_run s ip d off l x :
  let len := Z.of_nat (length l) in let sb := k_sb s in let ib := inode_block sb ip in
  bcache h0 H s → k_icache s !! i = Some ip → direct H (k_disk s) sb ip d → 0 ≤ off → 0 ≤ i_size ip → off + len ≤ DIRECT_MAX →
  (holes ip 0 (blocks (off + len)) ≤ clear_count d)%nat → readable H (k_disk s) ib x → inode_outside sb ib →
  ∃ s' D' ip' d', stored H sb (k_disk s) ip d off l D' ip' d' ∧
    let ipg := grown_inode (off + len) ip' in
    inode_write_data i off len (SrcBytes l) s = Ok (len, s') ∧
    fs_step h0 H (set_icache (<[i := ipg]> (k_icache s)) s) s' (<[ib := saved ip ipg x]> D').
Proof.
  intros len sb ib Hc Hi Hd Ho Hs0 Hmax Hh Hib Hout. assert (DIRECT_MAX = 10240 ∧ INODE_MAXSIZE = 67643392) as [HM HI] by done. unfold inode_write_data.
  rewrite u32_small by lia. rewrite (proj2 (Z.ltb_ge _ _)) by lia.
  destruct (holes_tail ip off len) as (n & Hn & Hle); [done|lia|].
  destruct (append_loop_run (block_fuel len) s ip d off l 0 n) as (s1 & D1 & ip1 & d1 & Hlp & Hst & Hw); try done; try lia.
  { right. rewrite Z.sub_0_r. apply block_fuel_enough. lia. }
  rewrite Z.sub_0_r in Hlp. fold len in Hlp. run Hlp. cbn [drop Z.to_nat] in Hw.
  pose proof (fs_step_icache _ _ _ _ _ Hst) as Ei. pose proof (fs_step_sb _ _ _ _ _ Hst) as Es. cbn [k_icache k_sb set_icache] in Ei, Es.
  assert (∀ z, k_icache (set_icache (<[i := z]> (k_icache s)) s1) !! i = Some z) as Hlk
    by (intros z; apply list_lookup_insert_eq; by eapply lookup_lt_Some).
  assert (k_icache s1 !! i = Some ip1) as Hi1 by (rewrite Ei; apply Hlk).
  run (get_inode_run i s1 ip1 Hi1). mrun. pose proof (st_same _ _ _ _ _ _ _ _ _ _ Hw) as Esame.
  assert (i_size ip1 = i_size ip ∧ inode_num ip1 = inode_num ip) as [Esz Enum] by (by rewrite Esame).
  assert (D1 !! ib = Some x) as Hx.
  { rewrite (st_other _ _ _ _ _ _ _ _ _ _ Hw); [apply Hib|apply Hout|]. intros k Hk Ha. eapply outside_addr; [apply Hw|done|done|done]. }
  set (ipg := grown_inode (off + len) ip1). pose proof (eq_refl : i_size ipg = Z.max (i_size ip1) (off + len)) as Eg.
  destruct (i_size ip1 <? off + len) eqn:Hgr; zbool.
  - unfold upd_inode. mrun.
    assert (i_set_size (off + len) ip1 = ipg) as Eip by (unfold ipg, grown_inode; f_equal; lia).
    rewrite (alter_insert _ _ _ ip1), Eip, Ei, list_insert_insert_eq by done.
    set (ic := <[i := ipg]> (k_icache s)). pose proof (fs_step_set_icache _ _ _ _ _ ic Hst) as Hst'.
    assert (inode_block (k_sb (set_icache ic s1)) ipg = ib) as Eib by (unfold inode_block; cbn [k_sb set_icache]; rewrite Es; simpl; by rewrite Enum).
    destruct (inode_write_run h0 H (set_icache ic s1) i ipg x) as (s2 & Hrw & Hst2); [apply Hst'|apply Hd|apply Hlk| |].
    { rewrite Eib. cbn [k_disk set_icache]. rewrite (fs_disk _ _ _ _ _ Hst). destruct Hib. by split. }
    run Hrw. mrun. rewrite Eib in Hst2. cbn [k_disk set_icache] in Hst2. rewrite (fs_disk _ _ _ _ _ Hst) in Hst2.
    exists s2, D1, ip1, d1. split; [done|]. split; [done|]. unfold saved. fold ipg. rewrite (proj2 (Z.ltb_lt _ _)) by lia.
    replace (inode_off ip) with (inode_off ipg) by (unfold inode_off; simpl; by rewrite Enum). eapply fs_step_trans; [exact Hst'|exact Hst2].
  - mrun. exists s1, D1, ip1, d1. split; [done|]. split; [done|]. unfold saved. fold ipg. rewrite (proj2 (Z.ltb_ge _ _)), insert_id by (done || lia).
    assert (ipg = ip1) as -> by (unfold ipg, grown_inode; rewrite Z.max_l by lia; by destruct ip1). exact Hst.
Qed.

Lemma contents_insert D sb ip d ib x :
  direct H D sb ip d → full ip → i_size ip ≤ DIRECT_MAX → inode_outside sb ib → contents (<[ib := x]> D) ip = contents D ip.
Proof.
  intros Hd Hf Hs Hout. apply list_fmap_ext. intros k y [-> Hk]%lookup_seq. destruct (pos_block (0 + Z.of_nat (0 + k))) as [_ Hb]; [lia|].
  apply byte_at_ext; [lia|done|]. rewrite lookup_insert_ne; [done|]. eapply outside_addr; [done|done|done|].
  apply Hf; [done|]. unfold BLOCK_SIZE. zdiv.
Qed.

(** Reading the whole file. *)
Lemma read_contents_run s ip d :
  bcache h0 H s → k_icache s !! i = Some ip → direct H (k_disk s) (k_sb s) ip d → full ip → 0 ≤ i_size ip ≤ DIRECT_MAX →
  ∃ s', inode_read_data i 0 (i_size ip) DstLocal s = Ok ((i_size ip, contents (k_disk s) ip), s') ∧ fs_step h0 H s s' (k_disk s).
Proof.
  intros Hc Hi Hd Hf Hs. assert (DIRECT_MAX = 10240 ∧ INODE_MAXSIZE = 67643392) as [HM HI] by done.
  assert (Z.max 0 (Z.min (i_size ip) (i_size ip - 0)) = i_size ip) as En by lia.
  destruct (inode_read_data_run h0 H s i ip 0 (i_size ip)) as (s' & Hr & Hst); try done; try lia; rewrite ?En in *.
  - eapply direct_ready; [done|lia|done].
  - by exists s'.
Qed.

(** ** A full disk *)

(** The allocation that fails is not noticed: the block located is block 0. *)
Lemma locate_full_run s ip d bn :
  bcache h0 H s → (size H < N_BLOCK_BUF)%nat → k_icache s !! i = Some ip → readable H (k_disk s) (data_bitmap_start (k_sb s)) d → block_ok d →
  (∀ j, (j < NBITS)%nat → bit_of d j = true) → (bn < N_ADDRS_1)%nat → i_addrs ip !! bn = Some 0 →
  ∃ s1, inode_locate_block i (Z.of_nat bn) s = Ok (0, s1) ∧ fs_step h0 H s s1 (k_disk s).
Proof.
  intros Hc Hsz Hi [Hf Hr Hd] Hok Hall Hbn Ha. unfold inode_locate_block. rewrite (proj2 (Z.ltb_lt _ _)) by lia. cbn [locate_block]. rewrite Nat2Z.id.
  assert (∀ s', k_icache s' !! i = Some ip → get_entry (EInode i bn) s' = Ok (0, s')) as Hget.
  { intros s' Hx. cbn [get_entry]. run (get_inode_run i s' ip Hx). by rewrite Ha. }
  run (Hget s Hi). mrun. destruct (alloc_block_full h0 H s d) as (s1 & Hal & Hst); try done.
  run Hal. cbn [put_entry]. unfold upd_inode. mrun. assert (k_icache s1 = k_icache s) as Ei by apply (fs_step_icache _ _ _ _ _ Hst).
  assert (k_icache s1 !! i = Some ip) as Hi1 by (by rewrite Ei). rewrite (alter_insert _ _ _ ip) by done.
  assert (i_set_addrs (<[bn := 0]> (i_addrs ip)) ip = ip) as -> by (rewrite list_insert_id by done; by destruct ip).
  rewrite set_icache_same by done. exists s1. split; [|done]. rewrite (proj2 (Z.eqb_eq 1 1)) by done. by apply Hget.
Qed.

(** ** Claims *)

(** C16: [inode_write_data] on a file of direct blocks, at an offset up to its end, with enough
    free blocks for the ones the file lacks: it writes everything; the contents are the old
    ones with the bytes over them, extended when they run past the end; each block of the
    range the file lacked is a block that was free, which the bitmap now has, and no other
    bit changes; blocks the file had stay its own, no block is in it twice; when the file
    grew, the inode with the new size and addresses is in its slot on the disk; no other
    block of the disk changes; and reading the file back returns the new contents. *)
Theorem append_write_correct (s : kstate) (ip : inode) (d : list Z) (off : Z) (l x : list Z) :
  let len := Z.of_nat (length l) in let sb := k_sb s in let ib := inode_block sb ip in let c := overwrite off l (contents (k_disk s) ip) in
  bcache h0 H s → k_icache s !! i = Some ip → direct H (k_disk s) sb ip d → full ip → 0 ≤ off ≤ i_size ip → i_size ip ≤ DIRECT_MAX →
  off + len ≤ DIRECT_MAX → (holes ip 0 (blocks (off + len)) ≤ clear_count d)%nat → readable H (k_disk s) ib x → inode_outside sb ib →
  ∃ s1 s2 ip' d', inode_write_data i off len (SrcBytes l) s = Ok (len, s1) ∧ bcache h0 H s1 ∧
    k_icache s1 = <[i := ip']> (k_icache s) ∧ i_size ip' = Z.max (i_size ip) (off + len) ∧
    contents (k_disk s1) ip' = c ∧ full ip' ∧ direct H (k_disk s1) sb ip' d' ∧
    (∀ k, (k < N_ADDRS_1)%nat → addr ip k ≠ 0 ∨ ¬ touches off (length l) k → addr ip' k = addr ip k) ∧
    (∀ j, (j < NBITS)%nat → bit_of d' j = bit_of d j || owns sb ip' j) ∧
    (∀ k j, (k < N_ADDRS_1)%nat → (j < NBITS)%nat → addr ip k = 0 → addr ip' k = Z.of_nat j + data_start sb → bit_of d j = false) ∧
    k_disk s1 !! ib = Some (saved ip ip' x) ∧
    (∀ y, y ≠ ib → y ≠ data_bitmap_start sb → (∀ k, (k < N_ADDRS_1)%nat → addr ip' k ≠ 0 → y ≠ addr ip' k) → k_disk s1 !! y = k_disk s !! y) ∧
    inode_read_data i 0 (i_size ip') DstLocal s1 = Ok ((i_size ip', c), s2) ∧ k_disk s2 = k_disk s1.
Proof.
  intros len sb ib c Hc Hi Hd Hf Ho Hs Hmax Hh Hib Hout.
  destruct (append_write_run s ip d off l x) as (s1 & D' & ip' & d' & Hw & Hwr & Hst); try done; try lia. fold len sb ib in Hw, Hwr, Hst.
  set (ipg := grown_inode (off + len) ip') in *. pose proof (fs_disk _ _ _ _ _ Hst) as Ed.
  pose proof (grown_size _ _ _ _ _ _ _ _ _ Hw) as Eg. pose proof (grown_full _ _ _ _ _ _ _ _ _ Hw Hf Ho) as Hfg.
  pose proof (grown_contents _ _ _ _ _ _ _ _ _ Hw Hf Ho Hs Hmax) as Hcg. fold len in Eg, Hfg, Hcg. fold ipg in Eg, Hfg, Hcg. fold c in Hcg.
  pose proof (direct_size _ _ _ _ (off + len) (st_direct _ _ _ _ _ _ _ _ _ _ Hw)) as Hdg. fold ipg in Hdg.
  assert (contents (k_disk s1) ipg = c) as Hc1 by (rewrite Ed, (contents_insert D' sb ipg d'); [done|done|done|lia|done]).
  assert (direct H (k_disk s1) sb ipg d') as Hd1 by (rewrite Ed; by apply direct_insert).
  pose proof (fs_step_icache _ _ _ _ _ Hst) as Ei. pose proof (fs_step_sb _ _ _ _ _ Hst) as Es. cbn [k_icache k_sb set_icache] in Ei, Es.
  destruct (read_contents_run s1 ipg d') as (s2 & Hr & Hst2); [apply Hst| |by rewrite Es|done|lia|].
  { rewrite Ei. apply list_lookup_insert_eq. by eapply lookup_lt_Some. }
  exists s1, s2, ipg, d'. rewrite Hc1 in Hr. split; [done|]. split; [apply Hst|]. do 5 (split; [done|]). split.
  { intros k Hk [Ha|Ht]; [by apply (st_keep _ _ _ _ _ _ _ _ _ _ Hw)|]. unfold addr. simpl. by rewrite (st_else _ _ _ _ _ _ _ _ _ _ Hw). }
  split; [apply Hw|]. split; [apply Hw|]. split; [rewrite Ed; apply lookup_insert_eq|]. split; [|split; [done|apply Hst2]].
  intros y Hy Hm Hk. rewrite Ed, lookup_insert_ne by done. by apply (st_other _ _ _ _ _ _ _ _ _ _ Hw).
Qed.

(** A write into a block the file lacks, on a disk whose bitmap is full: [inode_write_data]
    reports the whole length as written, and the bytes are in block 0 of the disk, the super
    block. *)
Theorem full_disk_overwrites_super_block (s : kstate) (ip : inode) (off : Z) (l d e x : list Z) :
  let len := Z.of_nat (length l) in let ib := inode_block (k_sb s) ip in
  bcache h0 H s → (size H < N_BLOCK_BUF)%nat → k_icache s !! i = Some ip → readable H (k_disk s) (data_bitmap_start (k_sb s)) d → block_ok d →
  (∀ j, (j < NBITS)%nat → bit_of d j = true) → 0 ≤ off < DIRECT_MAX → 0 < len → off mod BLOCK_SIZE + len ≤ BLOCK_SIZE →
  i_addrs ip !! Z.to_nat (off / BLOCK_SIZE) = Some 0 → readable H (k_disk s) 0 e → readable H (k_disk s) ib x → ib ≠ 0 →
  ∃ s', inode_write_data i off len (SrcBytes l) s = Ok (len, s') ∧ bcache h0 H s' ∧
    k_disk s' !! 0 = Some (splice (Z.to_nat (off mod BLOCK_SIZE)) l e).
Proof.
  intros len ib Hc Hsz Hi Hbm Hok Hall Ho Hl Hfit Ha [Hf0 Hr0 Hd0] Hib Hne.
  assert (DIRECT_MAX = 10240 ∧ INODE_MAXSIZE = 67643392 ∧ BLOCK_SIZE = 1024) as (HM & HI & HB) by done.
  pose proof (Z.mod_pos_bound off BLOCK_SIZE ltac:(done)) as Hmod. destruct (pos_block off Ho) as [Hb Hbn]. unfold inode_write_data.
  rewrite (u32_small (off + len)), (proj2 (Z.ltb_ge _ _)) by lia.
  destruct (locate_full_run s ip d (Z.to_nat (off / BLOCK_SIZE))) as (s1 & Hloc & Hst); try done. rewrite Z2Nat.id in Hloc by lia.
  destruct (buf_read_open h0 H s1 0 e) as (b & n & s2 & Hrd & Hop); try done; [apply Hst|by rewrite (fs_disk _ _ _ _ _ Hst)|].
  destruct (close_write _ _ _ _ _ _ _ _ (λ x, buf_set_data (splice (Z.to_nat (off mod BLOCK_SIZE)) l (data x)) x) Hop) as (s3 & Hcw & Hst3); try done; [by rewrite (fs_disk _ _ _ _ _ Hst)|].
  simpl in Hst3. rewrite (op_data _ _ _ _ _ _ _ _ Hop), (fs_disk _ _ _ _ _ Hst) in Hst3. set (D1 := <[0 := _]> _) in Hst3.
  assert (write_data_loop (block_fuel len) i off len 0 (SrcBytes l) s = Ok ((len, off + len), s3)) as Hlp.
  { destruct (block_fuel len) as [|fuel] eqn:Ef; [unfold block_fuel in Ef; lia|]. cbn [write_data_loop].
    rewrite (proj2 (Z.ltb_lt 0 len)) by lia. run Hloc. run Hrd. rewrite Z.sub_0_r, !(u32_small len) by lia.
    replace (if _ <? _ then _ else _) with len by (destruct (len <? _) eqn:E; zbool; lia). cbn [fetch]. mrun.
    assert (slice (Z.to_nat 0) (Z.to_nat len) l = l) as -> by (unfold slice, len; rewrite Nat2Z.id; by rewrite take_ge).
    rewrite (seq3_ok _ _ _ _ _ _ _ Hcw). rewrite Z.add_0_l, !u32_small by lia. destruct fuel; cbn [write_data_loop]; by rewrite Z.ltb_irrefl. }
  run Hlp. assert (k_icache s3 !! i = Some ip) as Hi3 by (by rewrite (fs_step_icache _ _ _ _ _ Hst3), (fs_step_icache _ _ _ _ _ Hst)).
  run (get_inode_run i s3 ip Hi3). mrun.
  assert (k_disk s3 !! 0 = Some (splice (Z.to_nat (off mod BLOCK_SIZE)) l e)) as H0 by (rewrite (fs_disk _ _ _ _ _ Hst3); apply lookup_insert_eq).
  destruct (i_size ip <? off + len); [|mrun; exists s3; split; [done|]; split; [apply Hst3|done]].
  unfold upd_inode. mrun. rewrite (alter_insert _ _ _ ip) by done. set (ip1 := i_set_size (off + len) ip). set (ic := <[i := ip1]> _).
  assert (inode_block (k_sb (set_icache ic s3)) ip1 = ib) as Eib
    by (unfold ib; cbn [k_sb set_icache]; by rewrite (fs_step_sb _ _ _ _ _ Hst3), (fs_step_sb _ _ _ _ _ Hst)).
  destruct (inode_write_run h0 H (set_icache ic s3) i ip1 x) as (s4 & Hrw & Hst4); [apply bcache_icache, Hst3|done| | |].
  - apply list_lookup_insert_eq. by eapply lookup_lt_Some.
  - rewrite Eib. cbn [k_disk set_icache]. rewrite (fs_disk _ _ _ _ _ Hst3). destruct Hib. split; [done|done|]. unfold D1. by rewrite lookup_insert_ne.
  - run Hrw. mrun. exists s4. split; [done|]. split; [apply Hst4|]. rewrite (fs_disk _ _ _ _ _ Hst4), Eib, lookup_insert_ne by done. exact H0.
Qed.

End append.

(** ** Witness *)

(** A file of 1000 bytes in data block 0; data block 1 is the only free one. *)
Definition short_file : inode := mk_inode FT_FILE 0 0 1 1000 (4 :: replicate 12 0) 3 1 true.

Definition tight_bits : list Z := 253 :: replicate 1023 255.

Definition append_disk : gmap Z (list Z) :=
  <[2 := replicate 1024 0]> (<[3 := tight_bits]> (<[4 := replicate 1024 7]> {[ 5 := replicate 1024 9 ]})).

Lemma bit_ff k : (k < 8)%nat → Z.testbit 255 (Z.of_nat k) = true.
Proof. intros Hk. do 8 (destruct k as [|k]; [done|]). lia. Qed.

Lemma full_bits j : (j < NBITS)%nat → bit_of (replicate 1024 255) j = true.
Proof.
  intros Hj. unfold NBITS in Hj. change (8 * BLOCK_SIZE) with 8192 in Hj. unfold bit_of.
  rewrite lookup_replicate_2 by (pose proof (Nat.Div0.div_mod j 8); lia). apply bit_ff. by apply Nat.mod_upper_bound.
Qed.

Lemma tight_clear j : (j < NBITS)%nat → bit_of tight_bits j = false → j = 1%nat.
Proof.
  intros Hj. unfold NBITS in Hj. change (8 * BLOCK_SIZE) with 8192 in Hj. unfold bit_of, tight_bits.
  destruct (decide (j < 8)%nat) as [Hlt|Hge]; [by do 8 (destruct j as [|j]; [vm_compute; done|]); lia|].
  destruct (j / 8)%nat as [|q] eqn:E; [apply Nat.div_small_iff in E; lia|].
  rewrite lookup_cons, lookup_replicate_2 by (pose proof (Nat.Div0.div_mod j 8); lia). cbn [default].
  by rewrite bit_ff by (by apply Nat.mod_upper_bound).
Qed.

Lemma tight_least : block_ok tight_bits ∧ least_clear tight_bits 1.
Proof.
  split; [split; [reflexivity|]; apply Forall_cons; split; [done|]; by apply Forall_replicate|].
  split; [unfold NBITS; change (8 * BLOCK_SIZE) with 8192; lia|]. split; [reflexivity|]. intros [|j] Hj; [reflexivity|lia].
Qed.

Lemma short_addr k : addr short_file k ≠ 0 → k = 0%nat ∧ addr short_file k = 4.
Proof. do 13 (destruct k as [|k]; [by vm_compute|]). done. Qed.

Lemma append_readable b e : append_disk !! b = Some e → 0 ≤ b < 2^31 → readable ∅ append_disk b e.
Proof. by split. Qed.

Lemma short_direct : direct ∅ append_disk sample_sb short_file tight_bits.
Proof.
  split.
  - rewrite map_size_empty. unfold N_BLOCK_BUF. lia.
  - by split.
  - by apply append_readable.
  - apply tight_least.
  - reflexivity.
  - intros k _ [-> E]%short_addr. exists 0%nat. rewrite E. split; [unfold NBITS, BLOCK_SIZE; lia|by split].
  - intros k k' _ _ H0 E. rewrite E in H0. apply short_addr in H0 as [-> E']. symmetry in E. rewrite E' in E. by destruct (short_addr k) as [-> _]; [rewrite <- E|].
  - intros j Hj [Hc|(k & _ & E)].
    + rewrite (tight_clear j Hj Hc). exists (replicate 1024 9). split; [by apply append_readable|reflexivity].
    + destruct (short_addr k) as [_ E4]; [rewrite E; change (data_start sample_sb) with 4; lia|]. exists (replicate 1024 7).
      rewrite <- E, E4. split; [by apply append_readable|reflexivity].
Qed.

Lemma append_write_correct_witness :
  ∃ s s1 s2 ip', @inode_write_data virtio_block_device 0 1000 (Z.of_nat 100) (SrcBytes (replicate 100 1)) s = Ok (Z.of_nat 100, s1) ∧
    k_icache s1 = [ip'] ∧ i_size ip' = 1100 ∧
    @inode_read_data virtio_block_device 0 0 (i_size ip') DstLocal s1 = Ok ((1100, replicate 1000 7 ++ replicate 100 1), s2).
Proof.
  destruct (booted_cache append_disk sample_sb) as (s0 & Hc & Ed & Es). set (s := set_icache [short_file] s0).
  destruct (@append_write_correct virtio_block_device (k_hart sample_boot) ∅ 0 s short_file tight_bits 1000 (replicate 100 1) (replicate 1024 0))
    as (s1 & s2 & ip' & d' & Hw & _ & Ei & Hs & _ & _ & _ & _ & _ & _ & _ & _ & Hr & _).
  - by apply bcache_icache.
  - reflexivity.
  - unfold s. cbn [k_disk k_sb set_icache]. rewrite Ed, Es. apply short_direct.
  - intros k _ Hk. destruct k as [|k]; [by vm_compute|]. unfold BLOCK_SIZE in Hk. simpl in Hk. lia.
  - simpl. lia.
  - by vm_compute.
  - by vm_compute.
  - rewrite (clear_count_set _ 1) by apply tight_least. change (holes _ _ _) with 1%nat. lia.
  - unfold s. cbn [k_disk k_sb set_icache]. rewrite Ed, Es. by apply append_readable.
  - unfold s. cbn [k_disk k_sb set_icache]. rewrite Es. change (inode_block _ _) with 2. split; [done|].
    intros j _. change (data_start sample_sb) with 4. lia.
  - exists s, s1, s2, ip'. split; [exact Hw|]. split; [exact Ei|]. assert (i_size ip' = 1100) as E by (rewrite Hs; reflexivity). split; [exact E|].
    rewrite Hr, E. unfold s. cbn [k_disk set_icache]. rewrite Ed. do 2 f_equal.
Defined.

Lemma full_disk_overwrites_super_block_witness :
  ∃ s s', k_disk s !! 0 = Some (replicate 1024 6) ∧
    @inode_write_data virtio_block_device 0 1024 (Z.of_nat 3) (SrcBytes [1; 2; 3]) s = Ok (Z.of_nat 3, s') ∧
    k_disk s' !! 0 = Some ([1; 2; 3] ++ replicate 1021 6).
Proof.
  set (D := <[0 := replicate 1024 6]> (<[3 := replicate 1024 255]> append_disk)).
  destruct (booted_cache D sample_sb) as (s0 & Hc & Ed & Es). set (s := set_icache [short_file] s0).
  assert (∀ b e, D !! b = Some e → 0 ≤ b < 2^31 → readable ∅ (k_disk s) b e) as Hrd
    by (intros b e Hb Hlt; split; [done|done|]; unfold s; cbn [k_disk set_icache]; by rewrite Ed).
  destruct (@full_disk_overwrites_super_block virtio_block_device (k_hart sample_boot) ∅ 0 s short_file 1024 [1; 2; 3]
    (replicate 1024 255) (replicate 1024 6) (replicate 1024 0)) as (s' & Hw & _ & H0).
  - by apply bcache_icache.
  - rewrite map_size_empty. unfold N_BLOCK_BUF. lia.
  - reflexivity.
  - unfold s at 2. cbn [k_sb set_icache]. rewrite Es. by apply Hrd.
  - split; [reflexivity|]. by apply Forall_replicate.
  - apply full_bits.
  - by split.
  - by vm_compute.
  - by vm_compute.
  - reflexivity.
  - by apply Hrd.
  - unfold s at 2. cbn [k_sb set_icache]. rewrite Es. by apply Hrd.
  - unfold s. cbn [k_sb set_icache]. by rewrite Es.
  - exists s, s'. split; [unfold s; cbn [k_disk set_icache]; by rewrite Ed|]. split; [exact Hw|]. rewrite H0. reflexivity.
Defined.
