(* ===== verification/Unlink.v ===== *)
(** * Removing a name (path_unlink of kernel/fs/dir.c)

    The theorem: unlinking a file that has further links removes exactly that name from the
    directory the path leads to and counts the link down, or fails and leaves the disk as it
    was.  [path_unlink] holds the locks of the directory and of the file at once and releases
    the directory first. *)

From S2P Require Import Prelude Bytes Kernel Lock Str Pmem Vm Sched Virtio Buf Bitmap Uvm Inode Dir Path Link.

(** ** Two locks *)

Lemma acq_comm lk lk' s : lk ≠ lk' → acq lk (acq lk' s) = acq lk' (acq lk s).
Proof.
  intros Hne. unfold acq, get_lock. cbn [k_locks k_hart set_locks set_hart]. rewrite !lookup_insert_ne by done.
  rewrite insert_insert_ne by done. done.
Qed.

Lemma strncmp_dots nm q :
  length nm = DIR_NAME_LEN → Forall byte_ok nm → Forall byte_ok q → 0 ∈ q →
  ∃ r, strncmp nm q DIR_NAME_LEN = Some r ∧ (r = 0 ↔ name_of nm = cstr DIR_NAME_LEN q).
Proof.
  intros Hl Hn Hq Hz. assert (∀ k p q', (k ≤ length p)%nat → 0 ∈ q' → is_Some (strncmp p q' k)) as Ht.
  { intros k. induction k as [|k IH]; intros p [|b q'] Hk Hz'; [destruct p; by eexists|destruct p; by eexists|by apply not_elem_of_nil in Hz'|].
    destruct p as [|a p]; simpl in *; [lia|]. destruct (negb (a =? 0) && (a =? b)) eqn:E; [|by eexists]. zbool.
    apply IH; [lia|]. apply elem_of_cons in Hz' as [?|?]; [congruence|done]. }
  destruct (Ht DIR_NAME_LEN nm q) as [r Hr]; [lia|done|]. exists r. split; [done|]. by apply (strncmp_eq nm q).
Qed.

(** ** The tree before and after *)

Definition dots : list (list Z) := [[46]; [46; 46]].

(** The file, the directory and the name of the entry to be removed. *)
Definition unlink_target (D : gmap Z (list Z)) (sb : super_block) (n : Z) (cs : list (list Z)) : option (Z * (Z * list Z)) :=
  p ← resolve_parent D sb n cs; c ← last cs;
  if decide (c ∈ dots) then None else m ← child D sb p c; Some (m, (p, c)).

Lemma unlink_child D sb n cs :
  match unlink_target D sb n cs with Some (m, (p, c)) => child D sb p c = Some m | None => True end.
Proof.
  unfold unlink_target. destruct (resolve_parent D sb n cs) as [p|]; [|done]. cbn [mbind option_bind]. destruct (last cs) as [c|]; [|done].
  cbn [mbind option_bind]. case_decide; [done|]. by destruct (child D sb p c) eqn:E.
Qed.

Record unlinked (H : gmap nat Z) (D : gmap Z (list Z)) (sb : super_block) (T : gset Z) (m p : Z) (c : list Z) (D' : gmap Z (list Z)) : Prop := {
  un_ok : fs_ok H D' sb T;
  un_file : node D' sb m = i_set_nlink (i_nlink (node D sb m) - 1) (node D sb m);
  un_dir : ∃ e, node D' sb p = grown_inode e (node D sb p);
  un_node n : n ∈ T → n ≠ m → n ≠ p → node D' sb n = node D sb n;
  un_child n c' : n ∈ T → child D' sb n c' = if decide (n = p ∧ c' = c) then None else child D sb n c' }.

Lemma change_unlinked H D sb T m p e c D1 D' :
  fs_ok H D sb T → is_dir D sb m = false → is_dir D sb p = true → change D sb T p (grown_inode e (node D sb p)) D1 →
  names_of D1 (bare (grown_inode e (node D sb p))) = delete c (names_of D (node D sb p)) →
  change D1 sb T m (i_set_nlink (i_nlink (node D sb m) - 1) (node D1 sb m)) D' → unlinked H D sb T m p c D'.
Proof.
  intros Hok Hm Hp Hc1 Hn Hc2. assert (m ≠ p) as Hne by congruence. pose proof (ch_in _ _ _ _ _ _ Hc2) as HmT. pose proof (ch_in _ _ _ _ _ _ Hc1) as HpT.
  pose proof (change_ok H D sb T p _ D1 Hok Hc1) as Hok1. pose proof (change_ok H D1 sb T m _ D' Hok1 Hc2) as Hok2.
  assert (∀ n, n ∈ T → n ≠ p → node D1 sb n = node D sb n) as Hn1 by (intros n Hnt Hnp; by rewrite (ch_node _ _ _ _ _ _ Hc1 n Hnt), decide_False).
  split; [done| | | |].
  - rewrite (ch_node _ _ _ _ _ _ Hc2 m HmT), decide_True, (Hn1 m HmT) by done.
    by apply (bare_node D sb m (λ y, i_set_nlink (i_nlink (node D sb m) - 1) y)).
  - exists e. rewrite (ch_node _ _ _ _ _ _ Hc2 p HpT), decide_False, (ch_node _ _ _ _ _ _ Hc1 p HpT), decide_True by done.
    by apply (bare_node D sb p (grown_inode e)).
  - intros n Hnt Hnm Hnp. rewrite (ch_node _ _ _ _ _ _ Hc2 n Hnt), decide_False by done. by apply Hn1.
  - intros n c' Hnt. rewrite (change_child D1 sb T m _ D' Hc2 n c' Hnt), (change_is_dir D sb T p _ D1 Hc1 m HmT), Hm.
    rewrite (change_child D sb T p _ D1 Hc1 n c' Hnt), Hp, Hn. destruct (decide (n = m)) as [->|Hnm].
    + rewrite decide_False by tauto. unfold child. by rewrite Hm.
    + destruct (decide (n = p)) as [->|Hnp]; [|by rewrite decide_False by tauto]. destruct (decide (c' = c)) as [->|Hcc].
      * by rewrite lookup_delete_eq, decide_True.
      * rewrite lookup_delete_ne, decide_False by naive_solver. unfold child. by rewrite Hp.
Qed.

(** ** References *)

Lemma held_insert l0 l j m k a b :
  held l0 l j m → l !! k = Some a → i_ref b = i_ref a → stays a b → held l0 (<[k := b]> l) j m.
Proof.
  intros [Hr Hk He] Ha Hb Hs. split.
  - rewrite refs_insert, Hb, <- Hr. apply list_insert_id, (lookup_refs l k a Ha).
  - by apply (keeps_insert _ _ _ a).
  - rewrite (num_insert _ _ a); [done|done|apply Hs].
Qed.

Section ops.
  Context {B : BlockDevice} (h0 : hart) (H : gmap nat Z) (T : gset Z).

(** A step inside a further section. *)
Lemma fs_step_acq h s s' D lk :
  other_lock lk → bcache h H s → fs_step h H s s' D → fs_step (hart_push h) H (acq lk s) (acq lk s') D.
Proof.
  intros Hlk Hc0 [Hc Ed Hh [E L]]. split; [by apply bcache_acq|done|done|]. split.
  - transitivity (set_locks (k_locks (acq lk s')) (set_hart (k_hart (acq lk s')) s')); [done|]. rewrite E at 3. done.
  - intros lk' Hlk'. unfold acq, get_lock. cbn [k_locks set_locks]. rewrite L by apply Hlk.
    rewrite (bc_hart _ _ _ Hc), <- (bc_hart _ _ _ Hc0). destruct (decide (lk = lk')) as [->|Hne].
    + by rewrite !lookup_insert_eq.
    + rewrite !lookup_insert_ne by done. by apply L.
Qed.

Section unlink.
  Context (l0 : list inode) (Hroom : ref_room (refs l0)).
  Context (s : kstate) (Hk : walk_ok h0 H T s) (Hok : fs_ok H (k_disk s) (k_sb s) T).
  Context (i : nat) (y : inode).
  Context (Hp : inode_num y ∈ T) (Hdir : is_dir (k_disk s) (k_sb s) (inode_num y) = true).

Notation D := (k_disk s).
Notation sb := (k_sb s).
Notation p := (inode_num y).
Notation y' := (loaded D sb y).

(** Inside the two sections, with the slots [l]: the directory in slot [i], the file [w] in
    slot [j]; giving the directory up leaves one reference, to the file. *)
Record two_locked (m : Z) (j : nat) (v : Z) (w : inode) (l : list inode) (s4 : kstate) : Prop := {
  tl_ne : i ≠ j;
  tl_held : held l0 (<[i := i_set_ref (u32 (v - 1)) y']> l) j m;
  tl_dir : l !! i = Some (i_set_ref v y');
  tl_file : l !! j = Some w ∧ inode_num w = m;
  tl_icache : icache_ok D sb T l;
  tl_step : fs_step (hart_push (hart_push h0)) H
    (acq (LkInode i) (acq (LkInode j) (set_icache (<[j := loaded D sb w]> l) s))) s4 D }.

Lemma lock_two nm m :
  k_icache s !! i = Some y → held l0 (k_icache s) i p → name_ok nm → child D sb p (name_of nm) = Some m → is_dir D sb m = false →
  ∃ s1 s2 s3 s4 j v w l, inode_lock i s = Ok (tt, s1) ∧ dir_search_entry i nm s1 = Ok (m, s2) ∧
    inode_alloc m s2 = Ok (j, s3) ∧ inode_lock j s3 = Ok (tt, s4) ∧ two_locked m j v w l s4.
Proof.
  intros Hy Hh Hnm Hc Hmd. pose proof (wk_tree _ _ _ _ Hk) as Ht. assert (m ∈ T) as Hm by (by eapply to_child).
  destruct (lock_search_run h0 H T s i y nm Hk Hy Hp Hdir Hnm) as (s1 & s2 & Hl & _ & Hs & Hst). rewrite Hc in Hs. cbn [default from_option id] in Hs.
  set (lA := <[i := y']> (k_icache s)) in *. pose proof (fs_step_icache _ _ _ _ _ Hst : k_icache s2 = lA) as Ei2.
  pose proof (fs_disk _ _ _ _ _ Hst) as Ed2. pose proof (fs_step_sb _ _ _ _ _ Hst : k_sb s2 = sb) as Es2.
  assert (icache_ok D sb T lA) as HicA by (apply (icache_ok_loaded T); [apply Hk|done]).
  assert (cache_ok (hart_push h0) H T s2) as Hk2.
  { apply (cache_ok_change _ H T (acq (LkInode i) s) lA s2 D); [by apply cache_ok_acq, walk_cache|exact Hst|done|done]. }
  assert (held l0 lA i p) as HhA by (by apply held_loaded).
  destruct (alloc_cached (hart_push h0) H T s2 m Hk2) as (j & l & Ha & Hg & Hic); rewrite ?Ei2, ?(hd_refs _ _ _ _ HhA).
  { by apply ref_up_free, Hroom. }
  { intros v Hv. apply (ref_up_range i (refs l0) (2^32 - 2) (rr_range _ Hroom)) in Hv. lia. }
  rewrite Ei2 in Hg. rewrite Ed2, Es2 in Hic. assert (lA !! i = Some y') as HiA by (apply list_lookup_insert_eq; by eapply lookup_lt_Some).
  destruct (gv_used _ _ _ _ Hg i y' HiA) as [v Hv].
  { pose proof (lookup_refs _ _ _ HiA) as Ex. rewrite (hd_refs _ _ _ _ HhA), lookup_ref_up in Ex. destruct (refs l0 !! i) as [r|] eqn:Er; [|done].
    simpl in Ex. rewrite decide_True in Ex by done. injection Ex as Ex. pose proof (rr_range _ Hroom r (list_elem_of_lookup_2 _ _ _ Er)). simpl. lia. }
  destruct (gv_entry _ _ _ _ Hg) as (w & Hw & Ewm).
  assert (i ≠ j) as Hne.
  { intros <-. rewrite Hv in Hw. injection Hw as <-. change (inode_num y' = m) in Ewm. rewrite loaded_num in Ewm. congruence. }
  set (s3 := set_icache l s2) in *.
  assert (cache_ok (hart_push h0) H T s3) as Hk3.
  { apply (cache_ok_change _ H T s2 l s3 D Hk2); [|by rewrite Es2|by rewrite Es2]. rewrite <- Ed2. apply (fs_step_refl _ _ (set_icache l s2)), bcache_icache, Hk2. }
  assert (lock_idle (LkInode j) s3) as Hidle.
  { apply (fs_frame_idle (acq (LkInode i) (set_icache lA s)) s2); [done|apply Hst|]. apply acq_idle; [congruence|]. apply (wk_lock _ _ _ _ Hk).
    rewrite <- (ic_len _ _ _ _ Hic). by eapply lookup_lt_Some. }
  destruct (lock_load_idle (hart_push h0) H T s3 j w Hk3 Hidle Hw) as (s4 & Hl4 & Hst4); [by rewrite Ewm|].
  exists s1, s2, s3, s4, j, v, w, l. do 4 (split; [done|]). split; try done; [exact (held_given l0 lA i p j m l _ Hroom HhA Hg Hv)|].
  change (k_disk s3) with (k_disk s2) in Hst4. change (k_sb s3) with (k_sb s2) in Hst4. rewrite Ed2, Es2 in Hst4.
  rewrite acq_comm by congruence. eapply fs_step_trans; [|exact Hst4]. apply fs_step_acq; [apply inode_other|by apply bcache_acq; [apply inode_other|apply bcache_icache, Hk]|].
  exact (fs_step_set_icache _ _ _ _ _ (<[j := loaded D sb w]> l) Hst).
Qed.

(** The slots between the two releases: the directory is given up, the file still held. *)
Lemma two_held m j v w l g w' :
  held l0 (<[i := i_set_ref (u32 (v - 1)) y']> l) j m → (i < length l)%nat → l !! j = Some w → i ≠ j → stays y' g → stays w w' → i_ref w' = i_ref w →
  held l0 (<[j := w']> (<[i := i_set_ref (u32 (v - 1)) g]> l)) j m.
Proof.
  intros Hb Hi Hj Hne Hs Hs' Hr. set (a := i_set_ref (u32 (v - 1)) y') in Hb.
  assert (held l0 (<[i := i_set_ref (u32 (v - 1)) g]> l) j m) as Hb'.
  { rewrite <- (list_insert_insert_eq l i _ a). apply (held_insert _ _ _ _ i a); [done|by apply list_lookup_insert_eq|done|done]. }
  apply (held_insert _ _ _ _ j w); [done|by rewrite list_lookup_insert_ne|done|done].
Qed.

Lemma two_bcache j l : bcache (hart_push h0) H (acq (LkInode j) (set_icache l s)).
Proof. apply bcache_acq; [apply inode_other|apply bcache_icache, Hk]. Qed.

(** The directory between the two locks. *)
Lemma two_locked_dir m j v w l s4 :
  two_locked m j v w l s4 →
  ∃ blk d di k, dir_ok (hart_push (hart_push h0)) H s4 i (i_set_ref v (node D sb p)) blk d k ∧
    dir_writable H s4 (i_set_ref v (node D sb p)) blk di ∧ D !! inode_block sb (stub p) = Some di ∧
    dir_entries D (node D sb p) = entries d k.
Proof.
  intros [Hne Hg Hi [Hj Ew] Hic Hst]. pose proof (ft_tree _ _ _ _ Hok) as Ht. set (x := node D sb p) in *.
  pose proof (fs_disk _ _ _ _ _ Hst) as Ed. pose proof (fs_step_sb _ _ _ _ _ Hst : k_sb s4 = sb) as Es.
  destruct (held_dir (hart_push (hart_push h0)) H T s4 i v p) as (blk & d & k & Hd & Ee); rewrite ?Ed, ?Es; try done.
  - apply Hst.
  - apply Hk.
  - rewrite (fs_step_icache _ _ _ _ _ Hst). cbn [k_icache acq set_locks set_hart set_icache]. by rewrite list_lookup_insert_ne.
  - eapply (section_held (hart_push h0)); [apply two_bcache|exact Hst].
  - rewrite Ed, Es in Hd, Ee. fold x in Hd, Ee. destruct (to_inode _ _ _ _ Ht p Hp) as [di Hdi].
    exists blk, d, di, k. split; [done|]. split; [|split; [apply Hdi|done]]. destruct (do_addr _ _ _ _ _ _ _ _ Hd) as [Ha _].
    assert (inode_block sb (i_set_ref v x) = inode_block sb (stub p)) as Eb by (unfold inode_block; by rewrite <- (node_num D sb p)).
    split; rewrite Es, Eb; [by rewrite Ed|]. intros E. by apply (ft_apart _ _ _ _ Hok p p); [..|rewrite E].
Qed.

(** Leaving the directory, while the file stays locked. *)
Lemma leave_dir m j v w l g s5 D' :
  i ≠ j → held l0 (<[i := i_set_ref (u32 (v - 1)) y']> l) j m → l !! i = Some (i_set_ref v y') → l !! j = Some w → icache_ok D sb T l → stays y' g →
  change D sb T p g D' → i_set_ref v g = loaded D' sb (i_set_ref v y') → inode_num w = m → m ∈ T → m ≠ p →
  fs_step (hart_push (hart_push h0)) H (acq (LkInode i) (acq (LkInode j) (set_icache (<[i := i_set_ref v g]> (<[j := loaded D sb w]> l)) s))) s5 D' →
  ∃ s6 l6, inode_unlock_free i s5 = Ok (tt, s6) ∧ l6 !! j = Some (loaded D' sb w) ∧ icache_ok D' sb T l6 ∧ held l0 l6 j m ∧
    fs_step (hart_push h0) H (acq (LkInode j) (set_icache l6 s)) s6 D'.
Proof.
  intros Hne Hg Hi Hj Hic Hs Hch Eg Ew Hm Hmp Hst. set (l5 := <[i := i_set_ref v g]> (<[j := loaded D sb w]> l)) in *.
  pose proof (lookup_lt_Some _ _ _ Hj) as Hjl. pose proof (lookup_lt_Some _ _ _ Hi) as Hil. pose proof (change_ok H D sb T _ _ D' Hok Hch) as Hok'.
  assert (loaded D sb w = loaded D' sb w) as Elw.
  { unfold loaded. rewrite Ew, (ch_node _ _ _ _ _ _ Hch m Hm), decide_False by done. done. }
  assert (i < N_INODE)%nat as Hlt by (by rewrite <- (ic_len _ _ _ _ Hic)).
  destruct (fs_step_section (hart_push h0) H (acq (LkInode j) (set_icache l5 s)) s5 D' (LkInode i) (inode_other i)) as [Hu Hw]; [apply two_bcache| |done|].
  { apply acq_idle; [congruence|]. exact (wk_lock _ _ _ _ Hk i Hlt). }
  pose proof (fs_step_icache _ _ _ _ _ Hw : k_icache (rel (LkInode i) s5) = l5) as Ei. set (s5' := rel (LkInode i) s5) in *.
  assert (l5 !! i = Some (i_set_ref v g)) as Hi5 by (apply list_lookup_insert_eq; by rewrite length_insert).
  assert (i_nlink (i_set_ref v g) ≠ 0) as Hnl by (exact (proj2 (proj2 (ch_kind _ _ _ _ _ _ Hch)))).
  assert (lock_idle LkIcache s5') as Hil5.
  { apply (fs_frame_idle (acq (LkInode j) (set_icache l5 s)) s5'); [done|apply Hw|]. apply acq_idle; [done|apply Hk]. }
  unfold inode_unlock_free. rewrite (bind_ok _ _ _ tt s5' Hu).
  rewrite (inode_free_run s5' i (i_set_ref v g)); [|apply (bcache_stable (hart_push h0) H), Hw|done|by rewrite Ei|done].
  rewrite Ei. set (g' := i_set_ref (u32 (i_ref (i_set_ref v g) - 1)) (i_set_ref v g)).
  assert (<[i := g']> l5 = <[j := loaded D' sb w]> (<[i := g']> l)) as El6.
  { unfold l5. rewrite list_insert_insert_eq, Elw. by apply list_insert_insert_ne. }
  rewrite El6. set (l6 := <[j := loaded D' sb w]> (<[i := g']> l)). eexists _, l6. split; [done|].
  assert (icache_ok D' sb T (<[i := g']> l)) as Hic'.
  { pose proof (icache_ok_change H D sb T Hok p g D' l i _ Hic Hch Hi (loaded_num D sb y)) as Hc1. rewrite <- Eg in Hc1.
    rewrite <- (list_insert_insert_eq l i g' (i_set_ref v g)). eapply icache_ok_insert; [exact Hc1|by apply list_lookup_insert_eq| |by left].
    apply (coherent_ref _ _ _ (i_set_ref v g)). rewrite Eg. apply coherent_loaded. }
  split; [apply list_lookup_insert_eq; by rewrite length_insert|]. split; [|split].
  - apply (icache_ok_loaded T); [done|]. by rewrite list_lookup_insert_ne.
  - apply (two_held m j v w l g); try done. split; [apply loaded_num|]. intros _. apply node_valid.
  - exact (fs_step_set_icache _ _ _ _ _ l6 Hw).
Qed.

(** Removing the entry and leaving the directory. *)
Lemma unlink_entry nm m j v w l s4 :
  two_locked m j v w l s4 → name_ok nm → child D sb p (name_of nm) = Some m → is_dir D sb m = false →
  ∃ s5 s6 D' e l6, dir_delete_entry i nm s4 = Ok (m, s5) ∧ inode_unlock_free i s5 = Ok (tt, s6) ∧
    change D sb T p (grown_inode e (node D sb p)) D' ∧
    names_of D' (bare (grown_inode e (node D sb p))) = delete (name_of nm) (names_of D (node D sb p)) ∧
    l6 !! j = Some (loaded D' sb w) ∧ icache_ok D' sb T l6 ∧ held l0 l6 j m ∧
    fs_step (hart_push h0) H (acq (LkInode j) (set_icache l6 s)) s6 D'.
Proof.
  intros Htl Hnm Hc Hmd. destruct (two_locked_dir m j v w l s4 Htl) as (blk & d & di & k & Hd & Hw & Hdi & Ee).
  pose proof Htl as [Hne Hg Hi [Hj Ew] Hic Hst]. pose proof (ft_tree _ _ _ _ Hok) as Ht. set (x := node D sb p) in *.
  assert (m ∈ T) as Hm by (by eapply to_child). assert (m ≠ p) as Hmp by congruence.
  pose proof (fs_disk _ _ _ _ _ Hst) as Ed. pose proof (fs_step_sb _ _ _ _ _ Hst : k_sb s4 = sb) as Es.
  assert (∀ c, child D sb p c = dir_map (entries d k) !! c) as Hchild by (intros c; unfold child, names_of; fold x; by rewrite Hdir, Ee).
  destruct (dir_delete_run (hart_push (hart_push h0)) H s4 i (i_set_ref v x) blk d di k nm Hd Hw Hnm) as (s5 & l' & Hdel & Hchg & Hwf' & Hmap).
  { rewrite <- Ee. by apply (ft_wf _ _ _ _ Hok). }
  rewrite <- Hchild, Hc in Hdel. cbn [default from_option id] in Hdel.
  destruct (dir_changed_change H T (hart_push (hart_push h0)) s4 D i v p blk d di k l' s5) as (D' & e & Hst5 & Hch & Hnames & En);
    rewrite ?Es; try done.
  { intros c u. rewrite Hmap. intros [_ Hu]%lookup_delete_Some. rewrite <- Hchild in Hu. exact (to_child _ _ _ _ Ht p c u Hp Hu). }
  rewrite Es in Hst5, Hch, Hnames, En. fold x in Hst5, Hch, Hnames, En. rewrite (fs_step_icache _ _ _ _ _ Hst) in Hst5.
  cbn [k_icache acq set_locks set_hart set_icache] in Hst5. set (l5 := <[i := _]> _) in Hst5.
  pose proof (fs_step_trans _ _ _ _ _ _ _ (fs_step_set_icache _ _ _ _ _ l5 Hst) Hst5) as Hst5'.
  destruct (leave_dir m j v w l (grown_inode e x) s5 D') as (s6 & l6 & Hu & Hj6 & Hic6 & Hh6 & Hst6); try done.
  { unfold loaded at 1. rewrite (loaded_num D sb y : inode_num (i_set_ref v y') = p), En. done. }
  exists s5, s6, D', e, l6. do 3 (split; [done|]). split; [|done]. etransitivity; [exact Hnames|]. rewrite Hmap. unfold names_of. by rewrite Ee.
Qed.

(** The whole of it, from the two locks on. *)
Lemma unlink_two nm m j v w l s4 :
  two_locked m j v w l s4 → name_ok nm → child D sb p (name_of nm) = Some m → is_dir D sb m = false → i_nlink (node D sb m) ≠ 1 →
  ∃ s5 s6 s7 s8 s', dir_delete_entry i nm s4 = Ok (m, s5) ∧ inode_unlock_free i s5 = Ok (tt, s6) ∧ add_nlink j (-1) s6 = Ok (tt, s7) ∧
    inode_rw j true s7 = Ok (tt, s8) ∧ inode_unlock_free j s8 = Ok (tt, s') ∧
    walk_ok h0 H T s' ∧ balanced l0 (k_icache s') ∧ moved h0 H s s' (k_disk s') ∧ unlinked H D sb T m p (name_of nm) (k_disk s').
Proof.
  intros Htl Hnm Hc Hmd Hnl. destruct (unlink_entry nm m j v w l s4 Htl Hnm Hc Hmd) as (s5 & s6 & D' & e & l6 & Hdel & Hu & Hch & Hnames & Hj6 & Hic6 & Hh6 & Hst6).
  pose proof (proj2 (tl_file _ _ _ _ _ _ Htl)) as Ew. pose proof (ft_tree _ _ _ _ Hok) as Ht. assert (m ∈ T) as Hm by (by eapply to_child).
  pose proof (change_ok H D sb T _ _ D' Hok Hch) as Hok'. pose proof (iw_nlink _ (node_wf H D sb T Hok m Hm)) as Hnr.
  pose proof (to_link _ _ _ _ Ht m Hm) as Hl0.
  assert (node D' sb m = node D sb m) as Enm by (rewrite (ch_node _ _ _ _ _ _ Hch m Hm), decide_False; [done|congruence]).
  assert (u16 (i_nlink (node D' sb (inode_num w)) + -1) = i_nlink (node D sb m) - 1) as Eu by (rewrite Ew, Enm; apply Z.mod_small; lia).
  destruct (nlink_run h0 H T s D' l6 j w s6 (-1)) as (s7 & s8 & Ha & Hrw & Hch2 & Hst8); try done; [apply Hk|by rewrite Ew|rewrite Eu; lia|].
  rewrite Eu, Ew in Hch2, Hst8. set (z := i_set_nlink _ _) in Hch2, Hst8. set (D2 := put_node sb z D') in *.
  pose proof (change_ok H D' sb T _ _ D2 Hok' Hch2) as Hok2. pose proof (lookup_lt_Some _ _ _ Hj6) as Hjl.
  assert (loaded D2 sb (loaded D' sb w) = loaded D2 sb w) as El by (unfold loaded at 1; by rewrite loaded_num).
  destruct (unlock_free_step h0 H T l0 Hroom s j m (loaded D2 sb w) (<[j := loaded D2 sb w]> l6) s8 D2 Hk) as (s' & Hf & Hk' & Hb' & Hw').
  - apply (held_insert _ _ _ _ j (loaded D' sb w)); [done|done|done|]. split; [by rewrite !loaded_num|]. intros _. apply node_valid.
  - by apply list_lookup_insert_eq.
  - unfold loaded. cbn [i_nlink i_set_ref]. rewrite Ew. by apply (to_link _ _ _ _ (ft_tree _ _ _ _ Hok2)).
  - apply Hok2.
  - rewrite <- El. apply (icache_ok_change H D' sb T Hok' m z); try done. by rewrite loaded_num.
  - done.
  - exists s5, s6, s7, s8, s'. do 7 (split; [done|]). rewrite (fs_disk _ _ _ _ _ Hw'). split; [done|].
    by apply (change_unlinked H D sb T m p e (name_of nm) D' D2).
Qed.

End unlink.

(** The two comparisons of [path_unlink]. *)
Lemma dots_run {A} nm (k1 k2 : K A) s :
  length nm = DIR_NAME_LEN → Forall byte_ok nm →
  (c1 ← deref "strncmp" (strncmp nm (bytes_of ".") DIR_NAME_LEN);
   c2 ← deref "strncmp" (strncmp nm (bytes_of "..") DIR_NAME_LEN);
   if (c1 =? 0) || (c2 =? 0) then k1 else k2) s = (if decide (name_of nm ∈ dots) then k1 else k2) s.
Proof.
  intros Hl Hb. destruct (strncmp_dots nm (bytes_of ".") Hl Hb) as (c1 & -> & H1); [by repeat constructor|right; by left|].
  destruct (strncmp_dots nm (bytes_of "..") Hl Hb) as (c2 & -> & H2); [by repeat constructor|do 2 right; by left|]. mrun.
  change (cstr DIR_NAME_LEN (bytes_of ".")) with [46] in H1. change (cstr DIR_NAME_LEN (bytes_of "..")) with [46; 46] in H2.
  unfold dots. case_decide as Hd; rewrite !elem_of_cons in Hd.
  - replace ((c1 =? 0) || (c2 =? 0)) with true; [done|]. symmetry. apply orb_true_iff.
    destruct Hd as [Hd|[Hd|Hd%not_elem_of_nil]]; [left|right|done]; apply Z.eqb_eq; tauto.
  - replace ((c1 =? 0) || (c2 =? 0)) with false; [done|]. symmetry. apply orb_false_iff. split; apply Z.eqb_neq; tauto.
Qed.

(** [path_unlink] from the two locks on. *)
Definition unlink_tail (i j : nat) (nm : list Z) : K Z :=
  r ← dir_delete_entry i nm;
  (if r =? INODE_NUM_UNUSED then panic "path_unlink: delete_entry failed" else mret tt);;
  inode_unlock_free i;; add_nlink j (-1);; inode_rw j true;; inode_unlock_free j;; mret 0.

Section reach.
  Context (s : kstate) (a : nat) (l : list (list Z * nat)) (n : Z).
  Context (Hk : walk_ok h0 H T s) (Hok : fs_ok H (k_disk s) (k_sb s) T) (Hroom : ref_room (refs (k_icache s))).
  Context (Ho : origin s a n) (Hn : n ∈ T) (Hl : path_ok l) (Hby : Forall (Forall byte_ok) l.*1) (Hne : l ≠ []).

Notation D := (k_disk s).
Notation sb := (k_sb s).

(** It gets there when there is a file to be unlinked, and otherwise fails. *)
Lemma unlink_reach :
  match unlink_target D sb n (components l) with
  | Some (m, (p, c)) => is_dir D sb m = false → ∃ i y nm s1 j v w l' s5,
      path_unlink (replicate a SLASH ++ path_text l) s = unlink_tail i j nm s5 ∧ moved h0 H s s1 D ∧ walk_ok h0 H T s1 ∧ k_disk s1 = D ∧ k_sb s1 = sb ∧
      p = inode_num y ∧ c = name_of nm ∧ name_ok nm ∧ inode_num y ∈ T ∧ is_dir D sb (inode_num y) = true ∧ m ≠ INODE_NUM_UNUSED ∧
      two_locked (k_icache s) s1 i y m j v w l' s5
  | None => ∃ s', path_unlink (replicate a SLASH ++ path_text l) s = Ok (MINUS1, s') ∧
      walk_ok h0 H T s' ∧ balanced (k_icache s) (k_icache s') ∧ moved h0 H s s' D
  end.
Proof.
  unfold path_unlink, path_to_pinode.
  destruct (search_inode_run h0 H T (k_icache s) Hroom true s a l n local_name) as (slot & nm & s1 & Hs & [Hk1 Hw1 Hsl] & Hlast); try done;
    [by apply Forall_replicate|].
  assert (k_sb s1 = sb) as Es by exact (fs_step_sb _ _ _ _ _ Hw1). assert (k_disk s1 = D) as Ed by exact (fs_disk _ _ _ _ _ Hw1).
  run Hs. unfold target in Hsl. unfold unlink_target.
  destruct (resolve_parent D sb n (components l)) as [p|] eqn:Ep; cbn [mbind option_bind].
  2:{ destruct Hsl as [-> Hb1]. by exists s1. }
  destruct Hsl as (i & -> & Hi). destruct (Hlast eq_refl ltac:(done)) as (Ela & Hnl1 & Hnb1). rewrite Ela. cbn [mbind option_bind].
  destruct (held_lookup _ _ _ _ Hi) as (y & Hy & Ey). subst p. assert (name_ok nm) as Hnm by (split; [done|left; lia]).
  destruct (resolve_parent_in H D sb T n (components l) (inode_num y) (ft_tree _ _ _ _ Hok) Hn Ep) as [Hp Hpd].
  assert (∀ s2, fs_step (hart_push h0) H (acq (LkInode i) (set_icache (<[i := loaded (k_disk s1) (k_sb s1) y]> (k_icache s1)) s1)) s2 (k_disk s1) →
    ∃ s', (inode_unlock_free i;; mret MINUS1) s2 = Ok (MINUS1, s') ∧ walk_ok h0 H T s' ∧ balanced (k_icache s) (k_icache s') ∧ moved h0 H s s' D) as Hout.
  { intros s2 Hst. destruct (unlock_free_run h0 H T _ Hroom s1 i _ y s2 Hk1 Hi Hy Hp Hst) as (s' & Hu & [Hk' Hw' [_ Hb']]).
    exists s'. split; [by run Hu|]. split; [done|]. split; [done|]. rewrite <- Ed. by eapply moved_trans. }
  rewrite <- Ed, <- Es in Hpd. destruct (lock_search_run h0 H T s1 i y nm Hk1 Hy Hp Hpd Hnm) as (s2 & s3 & Hlk & _ & Hse & Hst3).
  destruct (lock_load_run h0 H T s1 i y Hk1 Hy Hp) as (s2' & Hlk' & Hst2). rewrite Hlk in Hlk'. injection Hlk' as <-.
  run Hlk. rewrite dots_run by done. destruct (decide (name_of nm ∈ dots)) as [Hd|Hd]; [by apply Hout|].
  rewrite <- Ed, <- Es. destruct (child (k_disk s1) (k_sb s1) (inode_num y) (name_of nm)) as [m|] eqn:Hc; cbn [default from_option id mbind option_bind] in *.
  2:{ run Hse. rewrite Z.eqb_refl. rewrite Ed. by apply Hout. }
  clear s3 Hse Hst3 Hst2. intros Hmd. pose proof (wk_tree _ _ _ _ Hk1) as Ht. pose proof (to_num _ _ _ _ Ht m (to_child _ _ _ _ Ht _ _ _ Hp Hc)) as Hmr.
  destruct (lock_two (k_icache s) Hroom s1 Hk1 i y Hp Hpd nm m Hy Hi Hnm Hc Hmd) as (s2' & s3 & s4 & s5 & j & v & w & l' & Hlk' & Hse & Ha & Hlj & Htl).
  rewrite Hlk in Hlk'. injection Hlk' as <-. exists i, y, nm, s1, j, v, w, l', s5.
  split; [|rewrite Ed; do 4 (split; [done|]); split; [done|]; split; [done|]; split; [done|]; split; [done|]; split; [by rewrite <- Ed|]; split; [lia|done]].
  run Hse. rewrite (proj2 (Z.eqb_neq m INODE_NUM_UNUSED)) by lia. run Ha. run Hlj.
  assert (get_inode j s5 = Ok (loaded (k_disk s1) (k_sb s1) w, s5)) as Hg.
  { apply get_inode_run. rewrite (fs_step_icache _ _ _ _ _ (tl_step _ _ _ _ _ _ _ _ _ _ Htl)). apply list_lookup_insert_eq.
    eapply lookup_lt_Some, (tl_file _ _ _ _ _ _ _ _ _ _ Htl). }
  run Hg. assert ((i_type (loaded (k_disk s1) (k_sb s1) w) =? FT_DIR) = false) as ->.
  { rewrite <- Hmd, <- (proj2 (tl_file _ _ _ _ _ _ _ _ _ _ Htl)). done. }
  mrun. done.
Qed.

Lemma path_unlink_run :
  (∀ m pc, unlink_target D sb n (components l) = Some (m, pc) → is_dir D sb m = false ∧ i_nlink (node D sb m) ≠ 1) →
  ∃ r s', path_unlink (replicate a SLASH ++ path_text l) s = Ok (r, s') ∧
    walk_ok h0 H T s' ∧ balanced (k_icache s) (k_icache s') ∧ moved h0 H s s' (k_disk s') ∧
    match unlink_target D sb n (components l) with
    | Some (m, (p, c)) => r = 0 ∧ unlinked H D sb T m p c (k_disk s')
    | None => r = MINUS1 ∧ k_disk s' = D
    end.
Proof.
  intros Hfile. pose proof unlink_reach as Hreach. pose proof (unlink_child D sb n (components l)) as Hch.
  destruct (unlink_target D sb n (components l)) as [[m [p c]]|].
  - destruct (Hfile m _ eq_refl) as [Hmd Hnl]. destruct (Hreach Hmd) as (i & y & nm & s1 & j & v & w & l' & s5 & -> & Hw1 & Hk1 & Ed & Es & -> & -> & Hnm & Hp & Hpd & Hmu & Htl).
    rewrite <- Ed, <- Es in Hok, Hpd, Hmd, Hnl, Hch.
    destruct (unlink_two (k_icache s) Hroom s1 Hk1 Hok i y Hp Hpd nm m j v w l' s5 Htl Hnm Hch Hmd Hnl)
      as (s6 & s7 & s8 & s9 & s' & Hdel & Hu & Hadd & Hrw & Hf & Hk' & Hb' & Hw' & Hun). rewrite Ed, Es in Hun.
    exists 0, s'. unfold unlink_tail. run Hdel. rewrite (proj2 (Z.eqb_neq m INODE_NUM_UNUSED)) by done. mrun. run Hu. run Hadd. run Hrw. run Hf.
    do 3 (split; [done|]). split; [by eapply moved_trans|done].
  - destruct Hreach as (s' & Hrun & Hk' & Hb' & Hw'). pose proof (fs_disk _ _ _ _ _ Hw') as Ed. exists MINUS1, s'. by rewrite Ed.
Qed.

End reach.

(** A path starts where it did. *)
Lemma origin_balanced s s' D' a n :
  origin s a n → bcache h0 H s → moved h0 H s s' D' → balanced (k_icache s) (k_icache s') → origin s' a n.
Proof.
  intros Ho Hc Hm [Br Bk]. destruct a as [|a]; [|done]. destruct Ho as (me & p & d & x & Hme & Hp & Hd & Hx & Hn & Hx0).
  destruct (Bk d x Hx Hx0) as (y & Hy & En & _). exists me, p, d, y.
  rewrite (bc_hart _ _ _ (fs_cache _ _ _ _ _ Hm)), <- (bc_hart _ _ _ Hc), (proj1 (fs_rest _ _ _ _ _ Hm)). rewrite En.
  do 5 (split; [done|]). pose proof (lookup_refs _ _ _ Hy) as Ey. rewrite Br, (lookup_refs _ _ _ Hx) in Ey. congruence.
Qed.

Lemma balanced_trans (l1 l2 l3 : list inode) : balanced l1 l2 → balanced l2 l3 → balanced l1 l3.
Proof.
  intros [R1 K1] [R2 K2]. split; [congruence|]. intros j x Hx Hx0. destruct (K1 j x Hx Hx0) as (y & Hy & Hs).
  destruct (K2 j y Hy) as (z & Hz & Hs'); [|exists z; split; [done|by eapply stays_trans]].
  pose proof (lookup_refs _ _ _ Hy) as Ey. rewrite R1, (lookup_refs _ _ _ Hx) in Ey. congruence.
Qed.

(** After linking, the new name is one to be removed. *)
Lemma linked_target D sb m p c D' n cs :
  fs_ok H D sb T → linked H D sb T m p c D' → n ∈ T → is_dir D sb m = false → m ∈ T → name_place D sb n cs = Some (p, c) → c ∉ dots →
  unlink_target D' sb n cs = Some (m, (p, c)) ∧ is_dir D' sb m = false ∧ i_nlink (node D' sb m) = i_nlink (node D sb m) + 1.
Proof.
  intros Hok Hl Hn Hmd Hm Hpl Hd. destruct (linked_resolve H D sb T m p c D' n cs Hok Hl Hn Hpl) as [_ Hold].
  unfold name_place, resolve_parent in Hpl. destruct (resolve D sb n (removelast cs)) as [p'|] eqn:Er; [|done]. cbn [mbind option_bind] in Hpl.
  destruct (is_dir D sb p') eqn:Hpd; [|done]. cbn [mbind option_bind] in Hpl. destruct (last cs) as [c'|] eqn:Ec; [|done].
  cbn [mbind option_bind] in Hpl. case_decide as Hdec; [done|]. injection Hpl as -> ->.
  assert (p ∈ T) as Hp by (eapply resolve_in; [apply Hok|exact Hn|exact Er]).
  split; [|unfold is_dir; rewrite (li_file _ _ _ _ _ _ _ _ Hl); done].
  unfold unlink_target, resolve_parent. rewrite (Hold n _ _ Hn Er). cbn [mbind option_bind].
  assert (is_dir D' sb p = true) as -> by (destruct (li_dir _ _ _ _ _ _ _ _ Hl) as [e Ee]; unfold is_dir in *; by rewrite Ee).
  cbn [mbind option_bind]. rewrite Ec. cbn [mbind option_bind]. rewrite decide_False by done.
  rewrite (li_child _ _ _ _ _ _ _ _ Hl p c Hp), decide_True by done. done.
Qed.

End ops.

(** ** Claims *)

(** C21: unlinking.  When the path leads to a file with further links, and its last component
    is not "." or "..", [path_unlink] returns 0 and the tree on the disk is the old one with
    exactly that name removed and one link fewer counted.  When there is no such name, or it
    is "." or "..", it returns -1 and the disk is unchanged.  The file system stays well
    formed, the cache of inodes coherent with the disk, every reference taken is given back,
    and all locks are as before, although directory and file are locked at the same time and
    not released in the reverse order. *)
Theorem path_unlink_correct {B : BlockDevice} (h0 : hart) (H : gmap nat Z) (T : gset Z) (s : kstate)
    (a : nat) (l : list (list Z * nat)) (n : Z) :
  let D := k_disk s in let sb := k_sb s in
  walk_ok h0 H T s → fs_ok H D sb T → ref_room (refs (k_icache s)) →
  origin s a n → n ∈ T → path_ok l → Forall (Forall byte_ok) l.*1 → l ≠ [] →
  (∀ m pc, unlink_target D sb n (components l) = Some (m, pc) → is_dir D sb m = false ∧ i_nlink (node D sb m) ≠ 1) →
  ∃ r s', path_unlink (replicate a SLASH ++ path_text l) s = Ok (r, s') ∧
    walk_ok h0 H T s' ∧ fs_ok H (k_disk s') sb T ∧ balanced (k_icache s) (k_icache s') ∧ moved h0 H s s' (k_disk s') ∧
    match unlink_target D sb n (components l) with
    | Some (m, (p, c)) => r = 0 ∧ unlinked H D sb T m p c (k_disk s')
    | None => r = MINUS1 ∧ k_disk s' = D
    end.
Proof.
  intros D sb Hk Hok Hr Ho Hn Hl Hb Hne Hfile.
  destruct (path_unlink_run h0 H T s a l n Hk Hok Hr Ho Hn Hl Hb Hne Hfile) as (r & s' & Hrun & Hk' & Hb' & Hw' & Hres). fold D sb in Hres.
  exists r, s'. split; [done|]. split; [done|]. destruct (unlink_target D sb n (components l)) as [[m [p c]]|].
  - destruct Hres as [-> Hu]. split; [apply Hu|done].
  - destruct Hres as [-> E]. rewrite E in Hw' |- *. done.
Qed.

(** linking and unlinking.  Where [path_link] succeeds, [path_unlink] of the new path
    succeeds after it and takes back what it did: every name of every directory leads where
    it led before, and every inode but the directory, which may have grown by an entry that is
    free again, is as before. *)
Theorem link_unlink_roundtrip {B : BlockDevice} (h0 : hart) (H : gmap nat Z) (T : gset Z) (s : kstate)
    (a1 : nat) (l1 : list (list Z * nat)) (n1 : Z) (a2 : nat) (l2 : list (list Z * nat)) (n2 : Z) (m p : Z) (c : list Z) :
  let D := k_disk s in let sb := k_sb s in let cs1 := components l1 in let cs2 := components l2 in
  walk_ok h0 H T s → fs_ok H D sb T → ref_spare (refs (k_icache s)) →
  origin s a1 n1 → n1 ∈ T → path_ok l1 → Forall (Forall byte_ok) l1.*1 →
  origin s a2 n2 → n2 ∈ T → path_ok l2 → Forall (Forall byte_ok) l2.*1 → l2 ≠ [] →
  link_target D sb n1 cs1 n2 cs2 = Some (m, (p, c)) → (length c < DIR_NAME_LEN)%nat → (c ∉ dots) → i_nlink (node D sb m) < 2^16 - 1 →
  ∃ s1 s2, path_link (replicate a1 SLASH ++ path_text l1) (replicate a2 SLASH ++ path_text l2) s = Ok (0, s1) ∧
    resolve (k_disk s1) sb n2 cs2 = Some m ∧
    path_unlink (replicate a2 SLASH ++ path_text l2) s1 = Ok (0, s2) ∧
    (∀ n c, n ∈ T → child (k_disk s2) sb n c = child D sb n c) ∧
    (∀ n, n ∈ T → n ≠ p → node (k_disk s2) sb n = node D sb n) ∧
    walk_ok h0 H T s2 ∧ fs_ok H (k_disk s2) sb T ∧ balanced (k_icache s) (k_icache s2) ∧ moved h0 H s s2 (k_disk s2).
Proof.
  intros D sb cs1 cs2 Hk Hok Hr Ho1 Hn1 Hl1 Hb1 Ho2 Hn2 Hl2 Hb2 Hne Ht Hshort Hd Hnl. unfold link_target in Ht.
  destruct (resolve D sb n1 cs1) as [m'|] eqn:Em; [|done]. cbn [mbind option_bind] in Ht. destruct (is_dir D sb m') eqn:Hmd; [done|].
  destruct (name_place D sb n2 cs2) as [pc|] eqn:Epl; [|done]. injection Ht as -> ->.
  assert (m ∈ T) as Hm by (eapply resolve_in; [apply Hok|exact Hn1|exact Em]).
  destruct (path_link_run h0 H T s a1 l1 n1 a2 l2 n2) as (r & s1 & Hrun & Hk1 & Hb1' & Hw1 & Hres); try done.
  { intros c' Ec. change (last cs2 = Some c') in Ec. unfold name_place in Epl. destruct (resolve_parent D sb n2 cs2); [|done]. cbn [mbind option_bind] in Epl. rewrite Ec in Epl.
    cbn [mbind option_bind] in Epl. case_decide; [done|]. by injection Epl as _ ->. }
  { intros x Ex. change (resolve D sb n1 cs1 = Some x) in Ex. rewrite Em in Ex. by injection Ex as <-. }
  fold D sb cs1 cs2 in Hres. unfold link_target in Hres. rewrite Em in Hres. cbn [mbind option_bind] in Hres. rewrite Hmd, Epl in Hres. destruct Hres as [-> Hl].
  assert (k_sb s1 = sb) as Es by exact (fs_step_sb _ _ _ _ _ Hw1).
  destruct (linked_target H T D sb m p c (k_disk s1) n2 cs2 Hok Hl Hn2 Hmd Hm Epl Hd) as (Htar & Hmd1 & Hnl1).
  destruct (linked_resolve H D sb T m p c (k_disk s1) n2 cs2 Hok Hl Hn2 Epl) as [Hres _].
  pose proof (to_link _ _ _ _ (ft_tree _ _ _ _ Hok) m Hm) as Hl0. pose proof (iw_nlink _ (node_wf H D sb T Hok m Hm)) as Hnr.
  destruct (path_unlink_run h0 H T s1 a2 l2 n2) as (r & s2 & Hrun2 & Hk2 & Hb2' & Hw2 & Hres2); rewrite ?Es; try done.
  { apply Hl. } { rewrite (bl_refs _ _ Hb1'). by apply ref_spare_room. } { eapply origin_balanced; [exact Ho2|apply Hk|exact Hw1|done]. }
  { fold cs2. rewrite Htar. intros ? ? [= <- _]. split; [done|]. rewrite Hnl1. lia. }
  fold cs2 in Hres2. rewrite Es, Htar in Hres2. destruct Hres2 as [-> Hu]. exists s1, s2. do 3 (split; [done|]).
  pose proof (moved_trans h0 H _ _ _ _ _ Hw1 Hw2) as Hw. split; [|split; [|split; [done|split; [apply Hu|split; [by eapply balanced_trans|done]]]]].
  - intros n c' Hn. rewrite (un_child _ _ _ _ _ _ _ _ Hu n c' Hn), (li_child _ _ _ _ _ _ _ _ Hl n c' Hn). case_decide as E; [|done].
    destruct E as [-> ->]. unfold name_place in Epl. destruct (resolve_parent D sb n2 cs2); [|done]. cbn [mbind option_bind] in Epl.
    destruct (last cs2); [|done]. cbn [mbind option_bind] in Epl. case_decide as Hdec; [done|]. injection Epl as -> ->.
    destruct (child D sb p c); [|done]. exfalso. apply Hdec. by left.
  - intros n Hn Hnp. destruct (decide (n = m)) as [->|Hnm].
    + rewrite (un_file _ _ _ _ _ _ _ _ Hu), Hnl1, (li_file _ _ _ _ _ _ _ _ Hl). replace (i_nlink (node D sb m) + 1 - 1) with (i_nlink (node D sb m)) by lia.
      by destruct (node D sb m).
    + rewrite (un_node _ _ _ _ _ _ _ _ Hu) by done. by apply (li_node _ _ _ _ _ _ _ _ Hl).
Qed.

(** ** Witnesses: "/b" is made and removed again beside "/a" *)

Lemma tree_spare s : refs (k_icache s) = replicate N_INODE 0 → ref_spare (refs (k_icache s)).
Proof. intros ->. split; [|vm_compute; lia]. intros v Hv. apply elem_of_replicate in Hv as [-> _]. lia. Qed.

Lemma tree_target :
  link_target tree_disk sample_sb 0 (components [([97], 0%nat)]) 0 (components [([98], 0%nat)]) = Some (1, (0, [98])).
Proof. by vm_compute. Qed.

Lemma tree_zero : (0 : Z) ∈ ({[ 0; 1 ]} : gset Z).
Proof. set_solver. Qed.

Lemma tree_one : (1 : Z) ∈ ({[ 0; 1 ]} : gset Z).
Proof. set_solver. Qed.

Lemma tree_file : is_dir tree_disk sample_sb 1 = false.
Proof. by vm_compute. Qed.

Lemma tree_place : name_place tree_disk sample_sb 0 (components [([98], 0%nat)]) = Some (0, [98]).
Proof. by vm_compute. Qed.

Lemma tree_dots : [98] ∉ dots.
Proof. unfold dots. rewrite !elem_of_cons. intros [?|[?|?%not_elem_of_nil]]; done. Qed.

Lemma tree_count : i_nlink (node tree_disk sample_sb 1) + 1 = 2.
Proof. by vm_compute. Qed.

Lemma link_unlink_roundtrip_witness :
  ∃ s s1 s2, @path_link virtio_block_device (bytes_of "/a") (bytes_of "/b") s = Ok (0, s1) ∧
    @path_unlink virtio_block_device (bytes_of "/b") s1 = Ok (0, s2) ∧ child (k_disk s2) sample_sb 0 [98] = None ∧
    i_nlink (node (k_disk s2) sample_sb 1) = 1.
Proof.
  destruct tree_booted_refs as (s & Hk & Hr & Ed & Es).
  destruct (@link_unlink_roundtrip virtio_block_device _ ∅ {[ 0; 1 ]} s 1 [([97], 0%nat)] 0 1 [([98], 0%nat)] 0 1 0 [98] Hk)
    as (s1 & s2 & H1 & _ & H2 & Hc & Hn & _); rewrite ?Ed, ?Es.
  - apply tree_fs_ok.
  - by apply tree_spare.
  - done.
  - set_solver.
  - repeat split; try done; repeat constructor; done.
  - by repeat constructor.
  - done.
  - set_solver.
  - repeat split; try done; repeat constructor; done.
  - by repeat constructor.
  - done.
  - apply tree_target.
  - unfold DIR_NAME_LEN. simpl. lia.
  - exact tree_dots.
  - by vm_compute.
  - rewrite Ed, Es in Hc, Hn. exists s, s1, s2. split; [exact H1|]. split; [exact H2|]. split.
    + rewrite Hc by set_solver. by vm_compute.
    + rewrite Hn by (done || set_solver). by vm_compute.
Defined.

(** The state in which "/b" is a second name of the file. *)
Lemma tree_linked :
  ∃ s, @walk_ok virtio_block_device (k_hart sample_boot) ∅ {[ 0; 1 ]} s ∧ fs_ok ∅ (k_disk s) sample_sb {[ 0; 1 ]} ∧
    ref_room (refs (k_icache s)) ∧ k_sb s = sample_sb ∧ is_dir (k_disk s) sample_sb 1 = false ∧ i_nlink (node (k_disk s) sample_sb 1) = 2 ∧
    unlink_target (k_disk s) sample_sb 0 (components [([98], 0%nat)]) = Some (1, (0, [98])).
Proof.
  destruct tree_booted_refs as (s & Hk & Hr & Ed & Es).
  destruct (@path_link_run virtio_block_device (k_hart sample_boot) ∅ {[ 0; 1 ]} s 1 [([97], 0%nat)] 0 1 [([98], 0%nat)] 0 Hk)
    as (r & s1 & _ & Hk1 & Hb1 & Hw1 & Hres); rewrite ?Ed, ?Es; try done; try set_solver.
  - apply tree_fs_ok.
  - by apply tree_spare.
  - repeat split; try done; repeat constructor; done.
  - by repeat constructor.
  - repeat split; try done; repeat constructor; done.
  - by repeat constructor.
  - intros c [= <-]. unfold DIR_NAME_LEN. simpl. lia.
  - intros m Hm. assert (resolve tree_disk sample_sb 0 (components [([97], 0%nat)]) = Some 1) as E by (by vm_compute).
    rewrite E in Hm. injection Hm as <-. by vm_compute.
  - rewrite Ed, Es, tree_target in Hres. destruct Hres as [_ Hl].
    destruct (linked_target ∅ {[ 0; 1 ]} tree_disk sample_sb 1 0 [98] (k_disk s1) 0 (components [([98], 0%nat)]) tree_fs_ok Hl tree_zero tree_file
      tree_one tree_place tree_dots) as (Ht & Hd & Hn).
    exists s1. split; [exact Hk1|]. split; [apply Hl|]. split; [rewrite (bl_refs _ _ Hb1); by apply ref_spare_room, tree_spare|].
    split; [exact (eq_trans (fs_step_sb _ _ _ _ _ Hw1) Es)|]. split; [exact Hd|]. split; [|exact Ht]. rewrite Hn. exact tree_count.
Qed.

Lemma path_unlink_correct_witness :
  ∃ s s', @path_unlink virtio_block_device (bytes_of "/b") s = Ok (0, s') ∧ i_nlink (node (k_disk s) sample_sb 1) = 2 ∧
    i_nlink (node (k_disk s') sample_sb 1) = 1 ∧ child (k_disk s') sample_sb 0 [98] = None.
Proof.
  destruct tree_linked as (s & Hk & Hok & Hr & Es & Hd & Hnl & Ht).
  destruct (@path_unlink_correct virtio_block_device _ ∅ {[ 0; 1 ]} s 1 [([98], 0%nat)] 0 Hk) as (r & s' & Hrun & _ & _ & _ & _ & Hres); rewrite ?Es.
  - exact Hok.
  - exact Hr.
  - reflexivity.
  - set_solver.
  - repeat split; try done; repeat constructor; done.
  - by repeat constructor.
  - done.
  - rewrite Ht. intros m pc [= <- _]. split; [exact Hd|]. rewrite Hnl. lia.
  - rewrite Es, Ht in Hres. destruct Hres as [-> Hu]. exists s, s'. split; [exact Hrun|]. split; [exact Hnl|]. split.
    + rewrite (un_file _ _ _ _ _ _ _ _ Hu). change (i_nlink (node (k_disk s) sample_sb 1) - 1 = 1). rewrite Hnl. lia.
    + rewrite (un_child _ _ _ _ _ _ _ _ Hu) by set_solver. by rewrite decide_True.
Defined.
