(* ===== verification/Create.v ===== *)
(** * Creating a file (path_create_inode of kernel/fs/dir.c, inode_create of kernel/fs/inode.c)

    The theorem: creating a file takes the first free number of the bitmap of inodes, writes
    the new inode and inserts its name in the directory the path leads to; where the name is
    there already the call returns the inode it leads to.  The tree of Path.v grows by exactly
    one inode and one name. *)

From S2P Require Import Prelude Bytes Kernel Lock Str Pmem Vm Sched Virtio Buf Bitmap Uvm Inode Dir Path Link Destroy Unlink.

(** ** The bitmap of inodes *)

(** The place of inode [n], which is not in use: a block of inodes of its own. *)
Record free_place (H : gmap nat Z) (D : gmap Z (list Z)) (sb : super_block) (T : gset Z) (n : Z) : Prop := {
  fp_block : ∃ di, readable H D (inode_block sb (stub n)) di ∧ block_ok di;
  fp_map : inode_block sb (stub n) ≠ inode_bitmap_start sb;
  fp_data : inode_block sb (stub n) ≠ data_bitmap_start sb;
  fp_dir m : m ∈ T → is_dir D sb m = true → i_addrs (node D sb m) !! O ≠ Some (inode_block sb (stub n)) }.

(** The bits of the inodes in use are set, and every clear bit stands for a place. *)
Record inodes_ok (H : gmap nat Z) (D : gmap Z (list Z)) (sb : super_block) (T : gset Z) (d : list Z) : Prop := {
  ib_map : readable H D (inode_bitmap_start sb) d;
  ib_ok : block_ok d;
  ib_used n : n ∈ T → bit_of d (Z.to_nat n) = true ∧ inode_block sb (stub n) ≠ inode_bitmap_start sb;
  ib_dir n : n ∈ T → is_dir D sb n = true → i_addrs (node D sb n) !! O ≠ Some (inode_bitmap_start sb);
  ib_free k : (k < NBITS)%nat → bit_of d k = false → free_place H D sb T (Z.of_nat k) }.

(** The bitmap of the data blocks is apart from the tree. *)
Record data_map (H : gmap nat Z) (D : gmap Z (list Z)) (sb : super_block) (T : gset Z) (dd : list Z) : Prop := {
  dm_layout : data_layout sb;
  dm_map : readable H D (data_bitmap_start sb) dd;
  dm_ok : block_ok dd;
  dm_apart : inode_bitmap_start sb ≠ data_bitmap_start sb;
  dm_inode n : n ∈ T → inode_block sb (stub n) ≠ data_bitmap_start sb;
  dm_dir n : n ∈ T → is_dir D sb n = true → i_addrs (node D sb n) !! O ≠ Some (data_bitmap_start sb) }.

(** A new inode with one link and no data, and the disk with it. *)
Definition new_inode (ty ma mi n : Z) : inode := mk_inode ty ma mi 1 0 (replicate N_ADDRS 0) n 0 true.

Definition with_inode (sb : super_block) (d : list Z) (k : nat) (x : inode) (D : gmap Z (list Z)) : gmap Z (list Z) :=
  put_node sb x (<[inode_bitmap_start sb := set_bit d k]> D).

Section grow.
  Context (H : gmap nat Z) (D : gmap Z (list Z)) (sb : super_block) (T : gset Z) (d : list Z) (k : nat) (ty ma mi : Z).
  Context (Hok : fs_ok H D sb T) (Hib : inodes_ok H D sb T d) (Hlc : least_clear d k).
  Context (Hty : 0 ≤ ty < 2^16) (Hma : 0 ≤ ma < 2^16) (Hmi : 0 ≤ mi < 2^16) (Hfile : ty ≠ FT_DIR).

Notation n := (Z.of_nat k).
Notation x := (new_inode ty ma mi n).
Notation D1 := (with_inode sb d k x D).

Lemma new_range : 0 ≤ n < INODE_NUM_UNUSED.
Proof. destruct Hlc as [Hk _]. unfold NBITS, BLOCK_SIZE, INODE_NUM_UNUSED in *. lia. Qed.

Lemma new_not_in : n ∉ T.
Proof. intros Hn. destruct (ib_used _ _ _ _ _ Hib n Hn) as [Hb _]. rewrite Nat2Z.id in Hb. destruct Hlc as (_ & Hc & _). congruence. Qed.

Lemma new_place : free_place H D sb T n.
Proof. apply (ib_free _ _ _ _ _ Hib); apply Hlc. Qed.

Lemma new_wf : inode_wf x.
Proof. split; try done; [cbn; lia..|]. by apply Forall_replicate. Qed.

Lemma new_block : ∃ di, readable H D (inode_block sb x) di ∧ block_ok di ∧
  (<[inode_bitmap_start sb := set_bit d k]> D) !! inode_block sb x = Some di.
Proof.
  destruct (fp_block _ _ _ _ _ new_place) as (di & Hr & Hb). exists di. split; [done|]. split; [done|].
  rewrite lookup_insert_ne; [apply Hr|]. intros E. by apply (fp_map _ _ _ _ _ new_place).
Qed.

Lemma new_inode_block : ∃ di, D1 !! inode_block sb x = Some di ∧ block_ok di.
Proof.
  destruct new_block as (di & _ & [Hl Hb] & Hdi). unfold with_inode. rewrite (put_node_eq _ _ _ di Hdi), lookup_insert_eq.
  pose proof (length_disk_inode x (iw_len _ new_wf)). pose proof (inode_off_bound x). eexists. split; [done|]. split.
  - rewrite length_splice; [done|lia].
  - apply splice_ok; [apply disk_inode_ok|done].
Qed.

(** The disk elsewhere. *)
Lemma grow_other b : b ≠ inode_bitmap_start sb → b ≠ inode_block sb x → D1 !! b = D !! b.
Proof.
  intros H1 H2. unfold with_inode. destruct new_block as (di & _ & _ & Hdi).
  rewrite (put_node_eq _ _ _ di Hdi), !lookup_insert_ne by congruence. done.
Qed.

Lemma grow_node m : 0 ≤ m < 2^16 → inode_block sb (stub m) ≠ inode_bitmap_start sb →
  node D1 sb m = if decide (m = n) then x else node D sb m.
Proof.
  intros Hm Hb. destruct new_block as (di & _ & Hbk & Hdi). pose proof new_range. unfold INODE_NUM_UNUSED in *.
  unfold with_inode. rewrite (node_put sb x _ di m Hdi (proj1 Hbk) new_wf); [|cbn; lia|done].
  cbn [inode_num new_inode]. case_decide; [done|]. unfold node. by rewrite lookup_insert_ne.
Qed.

Lemma grow_old m : m ∈ T → node D1 sb m = node D sb m.
Proof.
  intros Hm. rewrite grow_node; [|by eapply num_range|by apply (ib_used _ _ _ _ _ Hib)].
  rewrite decide_False; [done|]. intros ->. by apply new_not_in.
Qed.

Lemma grow_new : node D1 sb n = x.
Proof.
  rewrite grow_node, decide_True; [done|done| |apply new_place]. pose proof new_range. unfold INODE_NUM_UNUSED in *. lia.
Qed.

Lemma grow_is_dir m : m ∈ {[ n ]} ∪ T → is_dir D1 sb m = true → m ∈ T ∧ is_dir D sb m = true.
Proof.
  unfold is_dir. intros [->%elem_of_singleton|Hm]%elem_of_union.
  - rewrite grow_new. cbn. intros E%Z.eqb_eq. done.
  - by rewrite grow_old.
Qed.

Lemma grow_data m blk : m ∈ T → is_dir D sb m = true → i_addrs (node D sb m) !! O = Some blk → D1 !! blk = D !! blk.
Proof.
  intros Hm Hd Hb. apply grow_other; intros ->.
  - by apply (ib_dir _ _ _ _ _ Hib m).
  - by apply (fp_dir _ _ _ _ _ new_place m).
Qed.

Lemma grow_entries m : m ∈ T → is_dir D sb m = true → dir_entries D1 (node D1 sb m) = dir_entries D (node D sb m).
Proof.
  intros Hm Hd. rewrite grow_old by done. unfold dir_entries. destruct (i_addrs (node D sb m) !! O) as [blk|] eqn:E; [|done].
  cbn [mbind option_bind]. by rewrite (grow_data m blk).
Qed.

Lemma grow_child m c : m ∈ T → child D1 sb m c = child D sb m c.
Proof.
  intros Hm. unfold child. assert (is_dir D1 sb m = is_dir D sb m) as -> by (unfold is_dir; by rewrite grow_old).
  destruct (is_dir D sb m) eqn:E; [|done]. unfold names_of. by rewrite grow_entries.
Qed.

Lemma grow_ok : fs_ok H D1 sb ({[ n ]} ∪ T).
Proof.
  pose proof (ft_tree _ _ _ _ Hok) as Ht.
  assert (∀ m, m ∈ {[ n ]} ∪ T → m = n ∨ m ∈ T) as Hcase by set_solver.
  assert (∀ m, m ∈ T → ∃ d', D1 !! inode_block sb (stub m) = Some d' ∧ block_ok d') as Hin.
  { intros m Hm. destruct (ft_inode _ _ _ _ Hok m Hm) as (d' & Hd' & Hb'). destruct (ib_used _ _ _ _ _ Hib m Hm) as [_ Hne].
    destruct (decide (inode_block sb (stub m) = inode_block sb x)) as [E|E]; [|exists d'; by rewrite grow_other].
    rewrite E. apply new_inode_block. }
  split; [split| | | |].
  - intros m [->|Hm]%Hcase; [apply new_range|by apply (to_num _ _ _ _ Ht)].
  - intros m [->|Hm]%Hcase.
    + destruct new_block as (di & [R1 R2 _] & _), new_inode_block as (d' & Hd' & _). by exists d'.
    + destruct (to_inode _ _ _ _ Ht m Hm) as [? [R1 R2 _]]. destruct (Hin m Hm) as (d' & Hd' & _). by exists d'.
  - intros m [->|Hm]%Hcase; [by rewrite grow_new|]. rewrite grow_old by done. by apply (to_link _ _ _ _ Ht).
  - intros m Hm Hd. apply grow_is_dir in Hd as [Hm' Hd]; [|done]. rewrite grow_old by done.
    destruct (to_dir _ _ _ _ Ht m Hm' Hd) as (blk & d' & k' & Ha & H0 & Hs & Hk & [R1 R2 R3] & Hb). exists blk, d', k'.
    do 4 (split; [done|]). split; [|done]. split; [done|done|]. by rewrite (grow_data m).
  - intros m c v Hm Hc. destruct (is_dir D1 sb m) eqn:Hd; [|unfold child in Hc; by rewrite Hd in Hc].
    apply grow_is_dir in Hd as [Hm' Hd]; [|done]. rewrite grow_child in Hc by done. pose proof (to_child _ _ _ _ Ht m c v Hm' Hc). set_solver.
  - intros m [->|Hm]%Hcase; [apply new_inode_block|by apply Hin].
  - intros m m' Hm Hm' Hd. apply grow_is_dir in Hd as [Hm1 Hd]; [|done]. rewrite grow_old by done. apply Hcase in Hm' as [->|Hm'].
    + by apply (fp_dir _ _ _ _ _ new_place).
    + by apply (ft_apart _ _ _ _ Hok).
  - intros m m' Hm Hm' Hd Hd'. apply grow_is_dir in Hd as [Hm1 Hd]; [|done]. apply grow_is_dir in Hd' as [Hm2 Hd']; [|done].
    rewrite !grow_old by done. by apply (ft_own _ _ _ _ Hok).
  - intros m Hm Hd. apply grow_is_dir in Hd as [Hm1 Hd]; [|done]. rewrite grow_entries by done. by apply (ft_wf _ _ _ _ Hok).
Qed.

Lemma grow_inodes : inodes_ok H D1 sb ({[ n ]} ∪ T) (set_bit d k).
Proof.
  assert (∀ m, m ∈ {[ n ]} ∪ T → m = n ∨ m ∈ T) as Hcase by set_solver.
  destruct (ib_map _ _ _ _ _ Hib) as [R1 R2 R3]. pose proof (ib_ok _ _ _ _ _ Hib) as Hb. destruct Hlc as (Hk & Hclr & _).
  destruct new_block as (di & _ & _ & Hdi). split.
  - split; [done|done|]. unfold with_inode. rewrite (put_node_eq _ _ _ di Hdi), lookup_insert_ne; [by apply lookup_insert_eq|apply new_place].
  - by apply set_bit_ok.
  - intros m [->|Hm]%Hcase; rewrite set_bit_bits by done.
    + rewrite Nat2Z.id, bool_decide_true by done. split; [done|apply new_place].
    + destruct (ib_used _ _ _ _ _ Hib m Hm) as [-> ?]. by rewrite orb_true_r.
  - intros m Hm Hd. apply grow_is_dir in Hd as [Hm1 Hd]; [|done]. rewrite grow_old by done. by apply (ib_dir _ _ _ _ _ Hib).
  - intros k' Hk'. rewrite set_bit_bits by done. intros [Hne Hc]%orb_false_iff. apply bool_decide_eq_false in Hne.
    destruct (ib_free _ _ _ _ _ Hib k' Hk' Hc) as [(d' & [Q1 Q2 Q3] & Hb') Hm' Hda Hd']. split; [|done|done|].
    + destruct (decide (inode_block sb (stub (Z.of_nat k')) = inode_block sb x)) as [E|E].
      * destruct new_inode_block as (d2 & Hd2 & Hb2). exists d2. split; [|done]. by split; [..|rewrite E].
      * exists d'. split; [|done]. split; [done|done|]. by rewrite grow_other.
    + intros m Hm Hd. apply grow_is_dir in Hd as [Hm1 Hd]; [|done]. rewrite grow_old by done. by apply Hd'.
Qed.

Lemma grow_data_map dd : data_map H D sb T dd → data_map H D1 sb ({[ n ]} ∪ T) dd.
Proof.
  intros [L [M1 M2 M3] Hb A I Dr]. pose proof (fp_data _ _ _ _ _ new_place) as Hda. split; [done| |done|done| |].
  - split; [done|done|]. rewrite grow_other; [done|by apply not_eq_sym|by apply not_eq_sym].
  - intros m [->%elem_of_singleton|Hm]%elem_of_union; [done|by apply I].
  - intros m Hm Hd. apply grow_is_dir in Hd as [Hm1 Hd]; [|done]. rewrite grow_old by done. by apply Dr.
Qed.

(** The cache of inodes, with the new inode in slot [j]. *)
Lemma grow_icache l j w r :
  icache_ok D sb T l → l !! j = Some w → inode_num w = n → icache_ok D1 sb ({[ n ]} ∪ T) (<[j := i_set_ref r x]> l).
Proof.
  intros [Hl Hu Hc] Hj Hw. pose proof (lookup_lt_Some _ _ _ Hj) as Hlt.
  assert (∀ m, m ∈ {[ n ]} ∪ T → m = n ∨ m ∈ T) as Hcase by set_solver. split.
  - by rewrite length_insert.
  - by apply (icache_unique_same _ _ _ w).
  - intros i z. destruct (decide (i = j)) as [->|Hne].
    + rewrite list_lookup_insert_eq by done. intros [= <-] _ _. unfold loaded. cbn [inode_num i_set_ref new_inode]. by rewrite grow_new.
    + rewrite list_lookup_insert_ne by done. intros Hz Hv [Hn|Hm]%Hcase.
      * exfalso. apply Hne, (Hu i j z w Hz Hj); [congruence|]. pose proof new_range. lia.
      * rewrite (Hc i z Hz Hv Hm) at 1. unfold loaded. by rewrite grow_old.
Qed.

(** Destroying it again leaves its bytes at a place that is not in use. *)
Lemma buried_new dd r :
  data_map H D sb T dd → (size H + 2 < N_BLOCK_BUF)%nat → let z := i_set_nlink 0 (i_set_ref r x) in
  grave D1 sb H dd z k ∧ buried D1 sb dd z k = put_node sb (dead x) D.
Proof.
  intros [_ [M1 M2 M3] Hdd Hap _ _] Hsz z. destruct new_block as (di & [Q1 Q2 Q3] & Hdi & Hb). destruct (ib_map _ _ _ _ _ Hib) as [R1 R2 R3].
  pose proof (fp_data _ _ _ _ _ new_place) as Hda. pose proof (fp_map _ _ _ _ _ new_place) as Hma'. destruct Hlc as (Hk & Hclr & _).
  change (inode_block sb (stub n)) with (inode_block sb x) in Hda, Hma'.
  assert (D1 !! data_bitmap_start sb = Some dd) as Hd1 by (rewrite grow_other by congruence; done).
  assert (D1 !! inode_bitmap_start sb = Some (set_bit d k)) as Hi1.
  { unfold with_inode. rewrite (put_node_eq _ _ _ di Hb), lookup_insert_ne by done. apply lookup_insert_eq. }
  destruct new_inode_block as (di1 & Hdi1 & Hok1).
  assert (grave D1 sb H dd z k) as Hg.
  { split; [done| |done|by split| |].
    - split; [done|]. intros k' a Ha. change (replicate N_ADDRS 0 !! k' = Some a) in Ha. apply lookup_replicate in Ha as [-> _]. done.
    - exists di1. by split; [split|].
    - exists (set_bit d k). split; [by split|]. split; [apply set_bit_ok, Hib|]. split; [done|]. by apply not_eq_sym. }
  split; [done|]. assert (file_blocks D1 z = []) as Efb by (by vm_compute).
  unfold buried. rewrite Efb. change (freed sb dd []) with dd. unfold with_map. rewrite (insert_id D1) by done.
  change (put_node sb (dead z) D1) with (put_node sb (dead x) D1).
  assert (put_node sb (dead x) D1 = <[inode_block sb x := splice (inode_off x) (disk_inode (dead x)) di]> (<[inode_bitmap_start sb := set_bit d k]> D)) as Ep.
  { rewrite (put_node_eq sb (dead x) D1 di1 Hdi1). unfold with_inode in Hdi1 |- *. rewrite (put_node_eq _ _ _ di Hb) in Hdi1 |- *. rewrite lookup_insert_eq in Hdi1. injection Hdi1 as <-.
    change (inode_block sb (dead x)) with (inode_block sb x). change (inode_off (dead x)) with (inode_off x). rewrite insert_insert_eq. f_equal.
    pose proof (inode_off_bound x). destruct Hdi as [Hl _]. apply splice_splice; rewrite !length_disk_inode by done; [done|lia]. }
  rewrite Ep. unfold unset_inode. rewrite lookup_insert_ne, lookup_insert_eq by done. rewrite set_bit_bits by (done || apply Hib).
  rewrite bool_decide_true by done. cbn [orb]. rewrite clear_set_bit by (done || apply Hib).
  rewrite (put_node_eq sb (dead x) D di) by done. rewrite insert_insert_ne by congruence. rewrite insert_insert_eq. f_equal. by apply insert_id.
Qed.

End grow.

(** A disk on which the inodes of the tree and the data of its directories are the same. *)
Record outside (D D' : gmap Z (list Z)) (sb : super_block) (T : gset Z) : Prop := {
  ou_node m : m ∈ T → node D' sb m = node D sb m;
  ou_inode m : m ∈ T → ∃ d, D' !! inode_block sb (stub m) = Some d ∧ block_ok d;
  ou_data m blk : m ∈ T → is_dir D sb m = true → i_addrs (node D sb m) !! O = Some blk → D' !! blk = D !! blk }.

Lemma outside_is_dir D D' sb T m : outside D D' sb T → m ∈ T → is_dir D' sb m = is_dir D sb m.
Proof. intros Ho Hm. unfold is_dir. by rewrite (ou_node _ _ _ _ Ho m Hm). Qed.

Lemma outside_child D D' sb T m c : outside D D' sb T → m ∈ T → child D' sb m c = child D sb m c.
Proof.
  intros Ho Hm. unfold child. rewrite (outside_is_dir D D' sb T m Ho Hm). destruct (is_dir D sb m) eqn:E; [|done].
  unfold names_of, dir_entries. rewrite (ou_node _ _ _ _ Ho m Hm). destruct (i_addrs (node D sb m) !! O) as [blk|] eqn:Ea; [|done].
  cbn [mbind option_bind]. by rewrite (ou_data _ _ _ _ Ho m blk).
Qed.

Lemma outside_ok H D D' sb T : fs_ok H D sb T → outside D D' sb T → fs_ok H D' sb T.
Proof.
  intros Hok Ho. pose proof (ft_tree _ _ _ _ Hok) as Ht. split; [split| | | |].
  - apply Ht.
  - intros m Hm. destruct (to_inode _ _ _ _ Ht m Hm) as [? [R1 R2 _]]. destruct (ou_inode _ _ _ _ Ho m Hm) as (d' & Hd' & _). by exists d'.
  - intros m Hm. rewrite (ou_node _ _ _ _ Ho m Hm). by apply (to_link _ _ _ _ Ht).
  - intros m Hm. rewrite (outside_is_dir D D' sb T m Ho Hm), (ou_node _ _ _ _ Ho m Hm). intros Hd.
    destruct (to_dir _ _ _ _ Ht m Hm Hd) as (blk & d & k & Ha & H0 & Hs & Hk & [R1 R2 R3] & Hb). exists blk, d, k.
    do 4 (split; [done|]). split; [|done]. split; [done|done|]. by rewrite (ou_data _ _ _ _ Ho m blk).
  - intros m c v Hm. rewrite (outside_child D D' sb T m c Ho Hm). by apply (to_child _ _ _ _ Ht).
  - apply Ho.
  - intros m m' Hm Hm'. rewrite (outside_is_dir D D' sb T m Ho Hm), (ou_node _ _ _ _ Ho m Hm). by apply (ft_apart _ _ _ _ Hok).
  - intros m m' Hm Hm'. rewrite !(outside_is_dir D D' sb T _ Ho), !(ou_node _ _ _ _ Ho) by done. by apply (ft_own _ _ _ _ Hok).
  - intros m Hm. rewrite (outside_is_dir D D' sb T m Ho Hm). intros Hd. unfold dir_entries. rewrite (ou_node _ _ _ _ Ho m Hm).
    pose proof (ft_wf _ _ _ _ Hok m Hm Hd) as Hw. unfold dir_entries in Hw. destruct (i_addrs (node D sb m) !! O) as [blk|] eqn:Ea; [|done].
    cbn [mbind option_bind] in *. by rewrite (ou_data _ _ _ _ Ho m blk).
Qed.

Lemma outside_icache D D' sb T l : outside D D' sb T → icache_ok D sb T l → icache_ok D' sb T l.
Proof.
  intros Ho [Hl Hu Hc]. split; [done|done|]. intros i x Hi Hv Hn. rewrite (Hc i x Hi Hv Hn) at 1. unfold loaded.
  by rewrite (ou_node _ _ _ _ Ho _ Hn).
Qed.

(** A slot is given up. *)
Lemma icache_ok_drop D D' sb T T' l j x :
  T' ⊆ T → (∀ m, m ∈ T' → node D' sb m = node D sb m) → icache_ok D sb T l → inode_num x = INODE_NUM_UNUSED → i_valid x = false →
  icache_ok D' sb T' (<[j := x]> l).
Proof.
  intros Hsub Hnode [Hl Hu Hc] Hx Hv. split; [by rewrite length_insert| |].
  - intros a b za zb Ha Hb E Hne. apply list_lookup_insert_Some in Ha as [(_ & <- & _)|[_ Ha]]; [done|].
    apply list_lookup_insert_Some in Hb as [(_ & <- & _)|[_ Hb]]; [congruence|]. by apply (Hu a b za zb).
  - intros a z Ha Hz Hn. apply list_lookup_insert_Some in Ha as [(_ & <- & _)|[_ Ha]]; [congruence|].
    rewrite (Hc a z Ha Hz) at 1 by set_solver. unfold loaded. by rewrite (Hnode _ Hn).
Qed.

Lemma outside_trans D1 D2 D3 sb T : outside D1 D2 sb T → outside D2 D3 sb T → outside D1 D3 sb T.
Proof.
  intros H1 H2. split.
  - intros m Hm. by rewrite (ou_node _ _ _ _ H2 m Hm), (ou_node _ _ _ _ H1 m Hm).
  - apply H2.
  - intros m blk Hm Hd Ha. rewrite (ou_data _ _ _ _ H2 m blk Hm); [by apply (ou_data _ _ _ _ H1 m)| |].
    + by rewrite (outside_is_dir D1 D2 sb T m H1 Hm).
    + by rewrite (ou_node _ _ _ _ H1 m Hm).
Qed.

(** Writing an inode at the place of one that is not in use. *)
Lemma outside_put H D sb T d x :
  fs_ok H D sb T → inode_num x ∉ T → 0 ≤ inode_num x < 2^16 → free_place H D sb T (inode_num x) → inodes_ok H D sb T d → inode_wf x →
  outside D (put_node sb x D) sb T ∧ inodes_ok H (put_node sb x D) sb T d.
Proof.
  intros Hok Hn Hr [(di & [Q1 Q2 Q3] & [Hdl Hdb]) Hfm _ Hfd] [[R1 R2 R3] Hb Hu Hd Hf] Hw.
  change (inode_block sb (stub (inode_num x))) with (inode_block sb x) in *. rewrite (put_node_eq sb x D di Q3).
  pose proof (length_disk_inode x (iw_len _ Hw)) as Hlx. pose proof (inode_off_bound x) as Hox.
  set (di' := splice (inode_off x) (disk_inode x) di). assert (block_ok di') as Hdi'.
  { split; [unfold di'; rewrite length_splice; lia|]. apply splice_ok; [apply disk_inode_ok|done]. }
  assert (outside D (<[inode_block sb x := di']> D) sb T) as Ho.
  { split.
    - intros m Hm. unfold di'. rewrite <- (put_node_eq sb x D di Q3), (node_put sb x D di m Q3 Hdl Hw Hr) by (by eapply num_range).
      rewrite decide_False; [done|]. by intros ->.
    - intros m Hm. rewrite lookup_insert. case_decide; [by exists di'|]. by apply (ft_inode _ _ _ _ Hok).
    - intros m blk Hm Hdm Ha. rewrite lookup_insert_ne; [done|]. intros <-. by apply (Hfd m). }
  split; [done|]. split; [split; [done|done|by rewrite lookup_insert_ne]|done|done| |].
  - intros m Hm. rewrite (outside_is_dir _ _ _ _ m Ho Hm), (ou_node _ _ _ _ Ho m Hm). by apply Hd.
  - intros k Hk Hc. destruct (Hf k Hk Hc) as [(dk & [P1 P2 P3] & Hdk) Hm Hda Hdir]. split; [|done|done|].
    + destruct (decide (inode_block sb (stub (Z.of_nat k)) = inode_block sb x)) as [E|E].
      * exists di'. split; [|done]. split; [done|done|]. rewrite E. apply lookup_insert_eq.
      * exists dk. split; [|done]. split; [done|done|]. by rewrite lookup_insert_ne.
    + intros m Hm'. rewrite (outside_is_dir _ _ _ _ m Ho Hm'), (ou_node _ _ _ _ Ho m Hm'). by apply Hdir.
Qed.

(** A change of the tree leaves the bitmap as it is. *)
Lemma inodes_ok_change H D sb T d q x D' :
  fs_ok H D sb T → inodes_ok H D sb T d → change D sb T q x D' → inodes_ok H D' sb T d.
Proof.
  intros Hok [[R1 R2 R3] Hb Hu Hd Hf] Hch. pose proof (ch_in _ _ _ _ _ _ Hch) as Hq. split.
  - split; [done|done|]. rewrite (ch_other _ _ _ _ _ _ Hch); [done| |by apply Hd]. intros E. by apply (Hu q Hq).
  - done.
  - done.
  - intros n Hn. rewrite (change_is_dir D sb T q x D' Hch n Hn), (change_addrs D sb T q x D' Hch n Hn). by apply Hd.
  - intros k Hk Hc. destruct (Hf k Hk Hc) as [(di & [Q1 Q2 Q3] & Hdi) Hm Hda Hdir]. split; [|done|done|].
    + destruct (decide (inode_block sb (stub (Z.of_nat k)) = inode_block sb (stub q))) as [E|E].
      * destruct (ch_inode _ _ _ _ _ _ Hch q Hq) as (d' & Hd' & Hb'). exists d'. split; [|done]. by split; [..|rewrite E].
      * exists di. split; [|done]. split; [done|done|]. rewrite (ch_other _ _ _ _ _ _ Hch); [done|done|]. intros Hqd. by apply Hdir.
    + intros n Hn. rewrite (change_is_dir D sb T q x D' Hch n Hn), (change_addrs D sb T q x D' Hch n Hn). by apply Hdir.
Qed.

Lemma data_map_change H D sb T dd q x D' : data_map H D sb T dd → change D sb T q x D' → data_map H D' sb T dd.
Proof.
  intros [L [M1 M2 M3] Hd A I Dr] Hch. pose proof (ch_in _ _ _ _ _ _ Hch) as Hq. split; [done| |done|done|done|].
  - split; [done|done|]. rewrite (ch_other _ _ _ _ _ _ Hch); [done| |by apply Dr]. by apply not_eq_sym, I.
  - intros n Hn. rewrite (change_is_dir D sb T q x D' Hch n Hn), (change_addrs D sb T q x D' Hch n Hn). by apply Dr.
Qed.

Section entry.
  Context {B : BlockDevice} (h0 : hart) (H : gmap nat Z) (T : gset Z) (l0 : list inode).
  Context (s : kstate) (Hk : walk_ok h0 H T s) (Hok : fs_ok H (k_disk s) (k_sb s) T).
  Context (i : nat) (y : inode) (Hp : inode_num y ∈ T) (Hdir : is_dir (k_disk s) (k_sb s) (inode_num y) = true).

Notation D := (k_disk s).
Notation sb := (k_sb s).
Notation p := (inode_num y).

(** Adding the name of the file in slot [j] to the directory in slot [i], both locked, and
    leaving the directory. *)
Lemma add_entry nm m j v w l s4 :
  two_locked h0 H T l0 s i y m j v w l s4 → length nm = DIR_NAME_LEN → Forall byte_ok nm → name_of nm ≠ [] →
  (length (name_of nm) < DIR_NAME_LEN)%nat → m ∈ T → m ≠ p → child D sb p (name_of nm) = None →
  let x := node D sb p in
  ∃ r s5, dir_add_entry i m nm s4 = Ok (r, s5) ∧
    if decide (free_slot (dir_entries D x) = 32%nat) then r = BLOCK_SIZE ∧ fs_step (hart_push (hart_push h0)) H s4 s5 D
    else r ≠ BLOCK_SIZE ∧ ∃ s6 D' e l6, inode_unlock_free i s5 = Ok (tt, s6) ∧ change D sb T p (grown_inode e x) D' ∧
      names_of D' (bare (grown_inode e x)) = <[name_of nm := m]> (names_of D x) ∧
      l6 !! j = Some (loaded D' sb w) ∧ icache_ok D' sb T l6 ∧ held l0 l6 j m ∧
      fs_step (hart_push h0) H (acq (LkInode j) (set_icache l6 s)) s6 D'.
Proof.
  intros Htl Hnl Hnb Hne Hlt Hm Hmp Hc x. destruct (two_locked_dir h0 H T l0 s Hk Hok i y Hp Hdir m j v w l s4 Htl) as (blk & d & di & k & Hd & Hw & Hdi & Ee).
  pose proof Htl as [Hij Hg Hi [Hj Ew] Hic Hst]. pose proof (ft_tree _ _ _ _ Hok) as Ht. fold x in Hd, Hw, Ee.
  pose proof (fs_disk _ _ _ _ _ Hst) as Ed. pose proof (fs_step_sb _ _ _ _ _ Hst : k_sb s4 = sb) as Es.
  assert (∀ c, child D sb p c = dir_map (entries d k) !! c) as Hchild by (intros c; unfold child, names_of; fold x; by rewrite Hdir, Ee).
  assert (strlen nm = Some (Z.of_nat (length (name_of nm)))) as Hlen by (by apply strlen_name).
  pose proof (to_num _ _ _ _ Ht m Hm) as Hmr. unfold INODE_NUM_UNUSED in Hmr.
  destruct (dir_add_run (hart_push (hart_push h0)) H s4 i (i_set_ref v x) blk d di k m nm (Z.of_nat (length (name_of nm))) Hd Hw Hnb Hlen Hne)
    as (r & s5 & l' & Hr & Hchg & Hwf' & Hres); [lia|unfold INODE_NUM_UNUSED; lia|rewrite <- Ee; by apply (ft_wf _ _ _ _ Hok)|].
  exists r, s5. split; [exact Hr|]. rewrite Ee. destruct (decide (free_slot (entries d k) = 32%nat)) as [Hf|Hf].
  { rewrite decide_True in Hres by tauto. destruct Hres as (-> & _ & Hst5). by rewrite Ed in Hst5. }
  rewrite decide_False in Hres.
  2:{ intros [?|[Hx|?]]; [lia| |done]. apply Hx. by rewrite dir_find_map, <- Hchild, Hc. }
  destruct Hres as [-> Hmap]. split; [unfold BLOCK_SIZE; lia|].
  destruct (dir_changed_change H T (hart_push (hart_push h0)) s4 D i v p blk d di k l' s5) as (D' & e & Hst5 & Hch & Hnames & En);
    rewrite ?Es; try done.
  { intros c u. rewrite Hmap. intros [[_ <-]|[_ Hu]]%lookup_insert_Some; [done|]. rewrite <- Hchild in Hu. exact (to_child _ _ _ _ Ht p c u Hp Hu). }
  rewrite Es in Hst5, Hch, Hnames, En. fold x in Hst5, Hch, Hnames, En. rewrite (fs_step_icache _ _ _ _ _ Hst) in Hst5.
  cbn [k_icache acq set_locks set_hart set_icache] in Hst5. set (l5 := <[i := _]> _) in Hst5.
  pose proof (fs_step_trans _ _ _ _ _ _ _ (fs_step_set_icache _ _ _ _ _ l5 Hst) Hst5) as Hst5'.
  destruct (leave_dir h0 H T l0 s Hk Hok i y m j v w l (grown_inode e x) s5 D') as (s6 & l6 & Hu & Hj6 & Hic6 & Hh6 & Hst6); try done.
  { unfold loaded at 1. rewrite (loaded_num D sb y : inode_num (i_set_ref v (loaded D sb y)) = p), En. done. }
  exists s6, D', e, l6. do 2 (split; [done|]). split; [|done]. etransitivity; [exact Hnames|]. rewrite Hmap. unfold names_of. by rewrite Ee.
Qed.

End entry.

Section ops.
  Context {B : BlockDevice} (h0 : hart) (H : gmap nat Z) (T : gset Z).

(** The slot that was given out was free or held the number already. *)
Lemma given_slot l j n l' : given l j n l' → ∃ z, l !! j = Some z ∧ (inode_num z = n ∨ i_ref z = 0).
Proof.
  intros [Gr Gu (y & Gy & Gn)]. assert (j < length l)%nat as Hlt.
  { pose proof (lookup_lt_Some _ _ _ Gy) as Hj. pose proof (f_equal length Gr) as E. unfold refs, ref_up in E.
    rewrite length_alter, !length_fmap in E. lia. }
  apply lookup_lt_is_Some in Hlt as [z Hz]. exists z. split; [done|]. destruct (decide (i_ref z = 0)) as [|Hne]; [by right|left].
  destruct (Gu j z Hz Hne) as [v Hv]. rewrite Hv in Gy. by injection Gy as <-.
Qed.

(** Filling the slot [j] of a new inode and writing it out. *)
Lemma create_fill_run h s j w di ty ma mi :
  let x := i_set_ref (i_ref w) (new_inode ty ma mi (inode_num w)) in
  bcache h H s → (size H < N_BLOCK_BUF)%nat → lock_idle (LkInode j) s → k_icache s !! j = Some w →
  readable H (k_disk s) (inode_block (k_sb s) w) di →
  ∃ s', (spinlock_acquire (LkInode j);;
    upd_inode j (i_set_meta ty ma mi 1);; upd_inode j (i_set_size 0);; upd_inode j (i_set_addrs (replicate N_ADDRS 0));;
    upd_inode j (i_set_valid true);; inode_rw j true;; spinlock_release (LkInode j);; mret (Some j)) s = Ok (Some j, s') ∧
    fs_step h H (set_icache (<[j := x]> (k_icache s)) s) s'
      (<[inode_block (k_sb s) w := splice (inode_off w) (disk_inode x) di]> (k_disk s)).
Proof.
  intros x Hc Hsz Hid Hw Hr. pose proof (lookup_lt_Some _ _ _ Hw) as Hlt.
  run (acquire_run (LkInode j) s (lock_idle_unlocked _ _ Hid)).
  set (sa := acq (LkInode j) s). run (upd_inode_run j (i_set_meta ty ma mi 1) sa w Hw).
  change (k_icache sa) with (k_icache s). do 3 (erewrite bind_ok by (exact (upd_slot_run j _ (k_icache s) _ sa Hlt))).
  match goal with |- context [set_icache (<[j := ?z]> _) sa] => change z with x end.
  set (l := <[j := x]> (k_icache s)).
  destruct (inode_write_run (hart_push h) H (set_icache l sa) j x di) as (s1 & Hrw & Hst).
  - apply bcache_icache, bcache_acq; [apply inode_other|done].
  - done.
  - by apply list_lookup_insert_eq.
  - exact Hr.
  - run Hrw. set (D' := <[_ := _]> (k_disk (set_icache l sa))) in Hst.
    destruct (fs_step_section h H (set_icache l s) s1 D' (LkInode j) (inode_other j)) as [Hrel Hst'];
      [by apply bcache_icache|done|exact Hst|]. run Hrel. mrun. eexists. split; [done|]. exact Hst'.
Qed.

Lemma inode_create_run h s d k ty ma mi :
  let D := k_disk s in let sb := k_sb s in let n := Z.of_nat k in let x := new_inode ty ma mi n in
  cache_ok h H T s → fs_ok H D sb T → inodes_ok H D sb T d → least_clear d k →
  0 ≤ ty < 2^16 → 0 ≤ ma < 2^16 → 0 ≤ mi < 2^16 →
  0 ∈ refs (k_icache s) → (∀ v, v ∈ refs (k_icache s) → 0 ≤ v < 2^32 - 1) →
  (∀ j z, k_icache s !! j = Some z → inode_num z = n ∨ i_ref z = 0 → lock_idle (LkInode j) s) →
  ∃ j l w s', inode_create ty ma mi s = Ok (Some j, s') ∧ given (k_icache s) j n l ∧ l !! j = Some w ∧ inode_num w = n ∧
    icache_ok D sb T l ∧ fs_step h H (set_icache (<[j := i_set_ref (i_ref w) x]> l) s) s' (with_inode sb d k x D).
Proof.
  intros D sb n x Hk Hok Hib Hlc Hty Hma Hmi Hz Hrg Hidle. destruct (ib_map _ _ _ _ _ Hib) as [R1 R2 R3].
  destruct (alloc_inode_run h H s d k) as (s1 & Ha & Hst1); try done; [apply Hk|apply Hk|apply Hib|].
  fold sb D in Hst1. set (Db := <[inode_bitmap_start sb := set_bit d k]> D) in *.
  assert (k_icache s1 = k_icache s) as Ei by exact (fs_step_icache _ _ _ _ _ Hst1). assert (k_sb s1 = sb) as Es by exact (fs_step_sb _ _ _ _ _ Hst1).
  assert (k_disk s1 = Db) as Ed by exact (fs_disk _ _ _ _ _ Hst1).
  destruct (alloc_entry D sb T s1 n) as (j & l & Hal & Hg & Hic); rewrite ?Ei; try done.
  { apply (bcache_stable h H), Hst1. } { apply (fs_frame_idle s); [done|apply Hst1|apply Hk]. } { apply Hk. }
  rewrite Ei in Hg. destruct (gv_entry _ _ _ _ Hg) as (w & Hw & Hwn). destruct (given_slot _ _ _ _ Hg) as (z & Hzj & Hzc).
  destruct (new_block H D sb T d k ty ma mi Hib Hlc) as (di & [Q1 Q2 _] & _ & Hdi). fold n x Db in Q1, Q2, Hdi.
  assert (inode_block sb w = inode_block sb x) as Eb by (unfold inode_block; by rewrite Hwn).
  destruct (create_fill_run h (set_icache l s1) j w di ty ma mi) as (s2 & Hf & Hst2); cbn [k_icache k_disk k_sb set_icache]; rewrite ?Es, ?Ed, ?Eb; try done.
  { apply bcache_icache, Hst1. } { apply Hk. } { assert (lock_idle (LkInode j) s1) as Hid; [|exact Hid].
    apply (fs_frame_idle s); [done|apply Hst1|by apply (Hidle j z)]. }
  exists j, l, w, s2. cbn [k_disk k_sb set_icache] in Hst2. rewrite Es, Ed, Eb, Hwn in Hst2. fold x in Hst2.
  split; [unfold inode_create; run Ha; rewrite (proj2 (Z.eqb_neq _ _)); [by run Hal|]|].
  { pose proof (new_range d k Hlc). unfold INODE_NUM_UNUSED in *. lia. }
  do 4 (split; [done|]). unfold with_inode. fold Db. rewrite (put_node_eq sb x _ di Hdi).
  assert (inode_off w = inode_off x) as <- by (unfold inode_off; by rewrite Hwn).
  change (disk_inode x) with (disk_inode (i_set_ref (i_ref w) x)).
  eapply fs_step_trans; [exact (fs_step_set_icache _ _ _ _ _ (<[j := i_set_ref (i_ref w) x]> l) Hst1)|exact Hst2].
Qed.

(** A state inside a section, seen from the state its end would lead to. *)
Lemma fs_step_reenter h s s3 D lk :
  other_lock lk → bcache h H s → lock_idle lk s → fs_step (hart_push h) H (acq lk s) s3 D →
  fs_step (hart_push h) H (acq lk (rel lk s3)) s3 D.
Proof.
  intros Hlk Hs Hid Hst. destruct (fs_step_section h H s s3 D lk Hlk Hs Hid Hst) as [_ Hr].
  pose proof Hst as [HC HD _ [_ HL]]. split; [done|done|done|]. split; [by destruct s3|].
  intros lk' Hlk'. pose proof (bc_hart _ _ _ (fs_cache _ _ _ _ _ Hr)) as E1. pose proof (bc_hart _ _ _ Hs) as E2.
  unfold acq at 1. cbn [k_locks set_locks]. destruct (decide (lk = lk')) as [<-|Hne].
  - rewrite lookup_insert_eq, HL by done. unfold acq. cbn [k_locks set_locks]. rewrite lookup_insert_eq. f_equal.
    destruct (fs_rest _ _ _ _ _ Hr) as [_ L]. rewrite E1, <- E2. unfold get_lock. by rewrite L.
  - rewrite lookup_insert_ne by done. unfold rel. cbn [k_locks set_locks]. by rewrite lookup_insert_ne.
Qed.

(** The first number that is not in use. *)
Definition free_inode (d : list Z) : option nat := fst <$> list_find (λ k, bit_of d k = false) (seq 0 NBITS).

Lemma free_inode_spec d :
  match free_inode d with Some k => least_clear d k | None => ∀ j, (j < NBITS)%nat → bit_of d j = true end.
Proof.
  unfold free_inode. destruct (list_find _ (seq 0 NBITS)) as [[k k']|] eqn:E; cbn [fmap option_fmap option_map fst].
  - apply list_find_Some in E as (Hk & Hb & Hl). apply lookup_seq in Hk as [-> Hk]. split; [lia|]. split; [done|].
    intros j Hj. destruct (bit_of d j) eqn:Ej; [done|]. by destruct (Hl j j); [apply lookup_seq; lia|lia|].
  - apply list_find_None in E. rewrite Forall_forall in E. intros j Hj. destruct (bit_of d j) eqn:Ej; [done|].
    by destruct (E j); [apply elem_of_seq; lia|].
Qed.

Lemma balanced_given l l1 j m l2 : balanced l l1 → given l1 j m l2 → held l l2 j m.
Proof.
  intros [Br Bk] [Gr Gu (y & Gy & Gn)]. split; [by rewrite Gr, Br| |by rewrite Gy, <- Gn].
  intros a x Ha Hx. destruct (Bk a x Ha Hx) as (z & Hz & Hs). destruct (Gu a z Hz) as [v Hv]; [|by exists (i_set_ref v z)].
  pose proof (lookup_refs _ _ _ Hz) as Ez. rewrite Br, (lookup_refs _ _ _ Ha) in Ez. congruence.
Qed.

(** A slot of inode [m], when no reference is left over. *)
Lemma alloc_balanced l0 s m :
  ref_room (refs l0) → walk_ok h0 H T s → balanced l0 (k_icache s) →
  ∃ j s', inode_alloc m s = Ok (j, s') ∧ walk_ok h0 H T s' ∧ held l0 (k_icache s') j m ∧ moved h0 H s s' (k_disk s) ∧ k_disk s' = k_disk s.
Proof.
  intros Hroom Hk Hb. destruct (alloc_run h0 H T s m Hk) as (j & l & Ha & Hg & Hic).
  - rewrite (bl_refs _ _ Hb). pose proof (rr_free _ Hroom) as Hf. destruct (filter _ (refs l0)) as [|v ?] eqn:Ef; [simpl in Hf; lia|].
    assert (v ∈ filter (λ v : Z, v = 0) (refs l0)) as Hv by (rewrite Ef; by left). by apply list_elem_of_filter in Hv as [-> ?].
  - rewrite (bl_refs _ _ Hb). intros v Hv. pose proof (rr_range _ Hroom v Hv). lia.
  - pose proof (walked_update h0 H s l (wk_cache _ _ _ _ Hk)) as Hw. exists j, (set_icache l s). split; [done|].
    split; [by apply (walk_ok_step h0 H T s l)|]. split; [by eapply balanced_given|done].
Qed.

Lemma outside_refl D sb : fs_ok H D sb T → outside D D sb T.
Proof. intros Hok. split; [done|apply (ft_inode _ _ _ _ Hok)|done]. Qed.

(** The slot holds what the disk does. *)
Definition slot_valid (l : list inode) (j : nat) : Prop := ∃ z, l !! j = Some z ∧ i_valid z = true.

(** What creating is to do: an inode that is there, or a new one and the place of its name. *)
Definition create_goal (D : gmap Z (list Z)) (sb : super_block) (d : list Z) (n : Z) (cs : list (list Z)) : option (Z + nat * (Z * list Z)) :=
  p ← resolve_parent D sb n cs; c ← last cs;
  match child D sb p c with
  | Some m => Some (inl m)
  | None => k ← free_inode d; if decide (free_slot (dir_entries D (node D sb p)) = 32%nat) then None else Some (inr (k, (p, c)))
  end.

(** The tree [D'] is the tree [D] with the new inode [x] under the name [c] in [p]. *)
Record created (D : gmap Z (list Z)) (sb : super_block) (d : list Z) (k : nat) (x : inode) (p : Z) (c : list Z) (D' : gmap Z (list Z)) : Prop := {
  cr_ok : fs_ok H D' sb ({[ Z.of_nat k ]} ∪ T);
  cr_map : inodes_ok H D' sb ({[ Z.of_nat k ]} ∪ T) (set_bit d k);
  cr_data dd : data_map H D sb T dd → data_map H D' sb ({[ Z.of_nat k ]} ∪ T) dd;
  cr_fresh : Z.of_nat k ∉ T;
  cr_new : node D' sb (Z.of_nat k) = x;
  cr_dir : ∃ e, node D' sb p = grown_inode e (node D sb p);
  cr_node m : m ∈ T → m ≠ p → node D' sb m = node D sb m;
  cr_child m c' : m ∈ T → child D' sb m c' = if decide (m = p ∧ c' = c) then Some (Z.of_nat k) else child D sb m c' }.

Lemma change_created D sb d k ty ma mi p e c D' :
  let n := Z.of_nat k in let x := new_inode ty ma mi n in let D1 := with_inode sb d k x D in
  fs_ok H D sb T → inodes_ok H D sb T d → least_clear d k → 0 ≤ ty < 2^16 → 0 ≤ ma < 2^16 → 0 ≤ mi < 2^16 → ty ≠ FT_DIR →
  p ∈ T → is_dir D sb p = true → change D1 sb ({[ n ]} ∪ T) p (grown_inode e (node D1 sb p)) D' →
  names_of D' (bare (grown_inode e (node D1 sb p))) = <[c := n]> (names_of D1 (node D1 sb p)) → created D sb d k x p c D'.
Proof.
  intros n x D1 Hok Hib Hlc Hty Hma Hmi Hf Hp Hd Hch Hn. assert (n ∉ T) as HnT by (by eapply new_not_in). assert (n ≠ p) as Hnp by congruence.
  assert (∀ m, m ∈ T → m ∈ {[ n ]} ∪ T) as Hsub by set_solver. assert (n ∈ {[ n ]} ∪ T) as Hnin by set_solver.
  assert (fs_ok H D1 sb ({[ n ]} ∪ T)) as Hok1 by (by apply grow_ok).
  assert (∀ m, m ∈ T → node D1 sb m = node D sb m) as Hold by (intros m Hm; by apply (grow_old H D sb T)).
  assert (is_dir D1 sb p = true) as Hd1 by (unfold is_dir; by rewrite Hold).
  split; [by eapply change_ok| | |done| | | |].
  - eapply inodes_ok_change; [exact Hok1|by apply grow_inodes|exact Hch].
  - intros dd Hdd. eapply data_map_change; [|exact Hch]. by apply grow_data_map.
  - fold n. rewrite (ch_node _ _ _ _ _ _ Hch n Hnin), decide_False by done. by apply (grow_new H D sb T).
  - exists e. rewrite (ch_node _ _ _ _ _ _ Hch p (Hsub p Hp)), decide_True by done. rewrite <- (Hold p Hp). by apply (bare_node D1 sb p (grown_inode e)).
  - intros m Hm Hmp. rewrite (ch_node _ _ _ _ _ _ Hch m (Hsub m Hm)), decide_False by done. by apply Hold.
  - intros m c' Hm. rewrite (change_child D1 sb _ p _ D' Hch m c' (Hsub m Hm)), Hd1, Hn. destruct (decide (m = p)) as [->|Hmp].
    + rewrite lookup_insert. destruct (decide (c = c')) as [->|Hcc]; [by rewrite decide_True|]. rewrite decide_False by naive_solver.
      rewrite <- (grow_child H D sb T d k ty ma mi Hok Hib Hlc Hty Hma Hmi p c' Hp). unfold child. fold n x D1. by rewrite Hd1.
    + rewrite decide_False by tauto. by apply (grow_child H D sb T).
Qed.

Section create.
  Context (l0 : list inode) (Hroom : ref_room (refs l0)).
  Context (s : kstate) (Hk : walk_ok h0 H T s) (Hok : fs_ok H (k_disk s) (k_sb s) T).
  Context (d : list Z) (Hib : inodes_ok H (k_disk s) (k_sb s) T d) (k : nat) (Hlc : least_clear d k).
  Context (ty ma mi : Z) (Hty : 0 ≤ ty < 2^16) (Hma : 0 ≤ ma < 2^16) (Hmi : 0 ≤ mi < 2^16) (Hfile : ty ≠ FT_DIR).
  Context (i : nat) (y : inode) (Hy : k_icache s !! i = Some y) (Hh : held l0 (k_icache s) i (inode_num y)).
  Context (Hp : inode_num y ∈ T).

Notation D := (k_disk s).
Notation sb := (k_sb s).
Notation p := (inode_num y).
Notation y' := (loaded D sb y).
Notation n := (Z.of_nat k).
Notation x := (new_inode ty ma mi n).
Notation D1 := (with_inode sb d k x D).
Notation T' := ({[ n ]} ∪ T).

(** With the directory in slot [i] locked a new inode is made in slot [j] and locked: what
    follows is as if the two had been locked one after the other in the state [s1]. *)
Record creating (s2 : kstate) (j : nat) (s3 s4 : kstate) (r v : Z) (s1 : kstate) (y1 : inode) : Prop := {
  cg_create : inode_create ty ma mi s2 = Ok (Some j, s3);
  cg_lock : inode_lock j s3 = Ok (tt, s4);
  cg_walk : walk_ok h0 H T' s1;
  cg_disk : k_disk s1 = D1;
  cg_moved : moved h0 H s s1 D1;
  cg_num : inode_num y1 = p;
  cg_two : two_locked h0 H T' l0 s1 i y1 n j v (i_set_ref r x) (k_icache s1) s4;
  cg_icache : k_icache s3 = k_icache s1;
  cg_dir : loaded D1 sb y1 = i_set_ref v (node D sb p);
  cg_ref : refs (k_icache s1) = ref_up j (ref_up i (refs l0));
  cg_keep : keeps l0 (k_icache s1);
  cg_old : ∃ z, k_icache s !! j = Some z ∧ (inode_num z = n ∨ i_ref z = 0);
  cg_idle : lock_idle (LkInode j) s3 ∧ lock_idle LkIcache s3;
  cg_step3 : fs_step (hart_push h0) H (acq (LkInode i) (set_icache (k_icache s1) s)) s3 D1;
  cg_step4 : fs_step (hart_push (hart_push h0)) H (acq (LkInode j) s3) s4 D1 }.

Lemma create_locked s2 :
  fs_step (hart_push h0) H (acq (LkInode i) (set_icache (<[i := y']> (k_icache s)) s)) s2 D →
  ∃ j s3 s4 r v s1 y1, creating s2 j s3 s4 r v s1 y1.
Proof.
  intros Hst. set (lA := <[i := y']> (k_icache s)) in *. pose proof (fs_step_icache _ _ _ _ _ Hst : k_icache s2 = lA) as Ei2.
  pose proof (fs_disk _ _ _ _ _ Hst) as Ed2. pose proof (fs_step_sb _ _ _ _ _ Hst : k_sb s2 = sb) as Es2.
  assert (icache_ok D sb T lA) as HicA by (apply (icache_ok_loaded T); [apply Hk|done]).
  assert (cache_ok (hart_push h0) H T s2) as Hk2.
  { apply (cache_ok_change _ H T (acq (LkInode i) s) lA s2 D); [by apply cache_ok_acq, walk_cache|exact Hst|apply Hk|done]. }
  assert (held l0 lA i p) as HhA by (by apply held_loaded). pose proof (lookup_lt_Some _ _ _ Hy) as Hil.
  assert (lA !! i = Some y') as HiA by (by apply list_lookup_insert_eq).
  assert (n ∉ T) as HnT by (by eapply new_not_in).
  assert (i_ref y ≠ 0) as Hy0.
  { pose proof (lookup_refs _ _ _ Hy) as Ex. rewrite (hd_refs _ _ _ _ Hh), lookup_ref_up in Ex. destruct (refs l0 !! i) as [r|] eqn:Er; [|done].
    simpl in Ex. rewrite decide_True in Ex by done. injection Ex as Ex. pose proof (rr_range _ Hroom r (list_elem_of_lookup_2 _ _ _ Er)). lia. }
  assert (∀ j z, lA !! j = Some z → inode_num z = n ∨ i_ref z = 0 → j ≠ i) as Hji.
  { intros j z Hz Hc ->. rewrite HiA in Hz. injection Hz as <-. destruct Hc as [Hc|Hc]; [rewrite loaded_num in Hc; congruence|done]. }
  assert (∀ j, (j < N_INODE)%nat → j ≠ i → lock_idle (LkInode j) s2) as Hidle.
  { intros j Hj Hne. apply (fs_frame_idle (acq (LkInode i) (set_icache lA s)) s2); [done|apply Hst|]. apply acq_idle; [congruence|].
    by apply (wk_lock _ _ _ _ Hk). }
  pose proof (ic_len _ _ _ _ HicA) as HlenA.
  destruct (inode_create_run (hart_push h0) s2 d k ty ma mi Hk2) as (j & l & w & s3 & Hcr & Hg & Hw & Hwn & Hic & Hst3);
    rewrite ?Ei2, ?Ed2, ?Es2; try done.
  { rewrite (hd_refs _ _ _ _ HhA). by apply ref_up_free, Hroom. }
  { rewrite (hd_refs _ _ _ _ HhA). intros v Hv. apply (ref_up_range i (refs l0) (2^32 - 2) (rr_range _ Hroom)) in Hv. lia. }
  { intros j z Hz Hc. apply Hidle; [rewrite <- HlenA; by eapply lookup_lt_Some|by eapply Hji]. }
  rewrite Ei2 in Hg. rewrite Ed2, Es2 in Hic, Hst3. set (x' := i_set_ref (i_ref w) x) in Hst3. set (l4 := <[j := x']> l) in Hst3.
  destruct (given_slot _ _ _ _ Hg) as (z & Hz & Hzc). pose proof (Hji j z Hz Hzc) as Hne.
  destruct (gv_used _ _ _ _ Hg i y' HiA Hy0) as [v Hv]. pose proof (lookup_lt_Some _ _ _ Hw) as Hjl.
  pose proof (fs_step_trans _ _ _ _ _ _ _ (fs_step_set_icache _ _ _ _ _ l4 Hst) Hst3) as Hst3'.
  assert (lock_idle (LkInode i) (set_icache l4 s)) as Hidi by (apply (wk_lock _ _ _ _ Hk); by rewrite <- (ic_len _ _ _ _ (wk_icache _ _ _ _ Hk))).
  destruct (fs_step_section h0 H (set_icache l4 s) s3 D1 (LkInode i) (inode_other i)) as [_ Hs1]; [apply bcache_icache, Hk|done|exact Hst3'|].
  pose proof (fs_step_reenter h0 (set_icache l4 s) s3 D1 (LkInode i) (inode_other i) (bcache_icache _ _ _ _ (wk_cache _ _ _ _ Hk)) Hidi Hst3') as Hre.
  set (s1 := rel (LkInode i) s3) in *. pose proof (fs_step_icache _ _ _ _ _ Hs1 : k_icache s1 = l4) as Ei1.
  pose proof (fs_disk _ _ _ _ _ Hs1) as Ed1. pose proof (fs_step_sb _ _ _ _ _ Hs1 : k_sb s1 = sb) as Es1.
  assert (icache_ok D1 sb T' l4) as Hic4 by (by eapply grow_icache).
  assert (fs_ok H D1 sb T') as Hok1 by (by apply grow_ok).
  assert (walk_ok h0 H T' s1) as Hk1 by (apply (walk_ok_grow h0 H T T' s l4 s1 D1 Hk Hs1); [apply Hok1|done]).
  assert (k_icache s3 = l4) as Ei3 by exact Ei1. assert (k_disk s3 = D1) as Ed3 by exact Ed1. assert (k_sb s3 = sb) as Es3 by exact Es1.
  assert (cache_ok (hart_push h0) H T' s3) as Hk3.
  { split; [apply Hre|apply Hk| |rewrite Ed3, Es3; apply Hok1|by rewrite Ed3, Es3, Ei3].
    apply (fs_frame_idle (set_icache l4 s2) s3); [done|exact (fs_rest _ _ _ _ _ Hst3)|exact (co_ilock _ _ _ _ Hk2)]. }
  assert (l4 !! j = Some x') as Hj4 by (by apply list_lookup_insert_eq).
  assert (loaded D1 sb x' = x') as Elx by (unfold loaded; cbn [inode_num x' i_set_ref new_inode]; by rewrite (grow_new H _ _ T)).
  destruct (lock_load_idle (hart_push h0) H T' s3 j x' Hk3) as (s4 & Hl4 & Hst4); rewrite ?Ei3; [|done|cbn; set_solver|].
  { apply (fs_frame_idle (set_icache l4 s2) s3); [done|exact (fs_rest _ _ _ _ _ Hst3)|]. apply (Hidle j); [|done].
    rewrite <- HlenA. by eapply lookup_lt_Some. }
  rewrite Ed3, Es3, Ei3, Elx, (list_insert_id l4 j x' Hj4), <- Ei3 in Hst4.
  replace (set_icache (k_icache s3) s3) with s3 in Hst4 by (by destruct s3).
  assert (loaded (k_disk s1) (k_sb s1) (i_set_ref v y') = i_set_ref v y') as Ely.
  { rewrite Ed1, Es1. unfold loaded at 1. cbn [inode_num i_set_ref]. rewrite loaded_num. unfold loaded. by rewrite (grow_old H _ _ T). }
  assert (held l0 (<[i := i_set_ref (u32 (v - 1)) y']> l4) j n) as Hh4.
  { unfold l4. rewrite list_insert_insert_ne by done. apply (held_insert _ _ _ _ j w); [|by rewrite list_lookup_insert_ne|done|by split].
    exact (held_given l0 lA i p j n l _ Hroom HhA Hg Hv). }
  assert (refs l4 = ref_up j (ref_up i (refs l0))) as Er4.
  { rewrite <- (hd_refs _ _ _ _ HhA), <- (gv_refs _ _ _ _ Hg). unfold l4. rewrite refs_insert. apply list_insert_id. exact (lookup_refs l j w Hw). }
  assert (l4 !! i = Some (i_set_ref v y')) as Hi4 by (unfold l4; by rewrite list_lookup_insert_ne).
  exists j, s3, s4, (i_ref w), v, s1, (i_set_ref v y'). split; try done.
  - unfold moved. by rewrite Ei1.
  - apply loaded_num.
  - split; rewrite ?Ely, ?Ei1, ?Ed1, ?Es1; try done. fold x'.
    rewrite Elx, (list_insert_id l4 j x' Hj4), <- Ei1. replace (set_icache (k_icache s1) s1) with s1 by (by destruct s1).
    rewrite acq_comm by congruence. eapply fs_step_trans; [|exact Hst4]. apply fs_step_acq; [apply inode_other| |exact Hre].
    apply bcache_acq; [apply inode_other|apply Hk1].
  - rewrite Ed1, Es1 in Ely. exact Ely.
  - by rewrite Ei1.
  - rewrite Ei1. intros j' z' Hz' Hz0. destruct (hd_keep _ _ _ _ Hh4 j' z' Hz' Hz0) as (u & Hu & Hs). destruct (decide (j' = i)) as [->|Hne'].
    + exists (i_set_ref v y'). split; [done|]. rewrite list_lookup_insert_eq in Hu; [by injection Hu as <-|by eapply lookup_lt_Some].
    + exists u. by rewrite list_lookup_insert_ne in Hu.
  - exists z. split; [|done]. unfold lA in Hz. by rewrite list_lookup_insert_ne in Hz.
  - split; [|exact (co_ilock _ _ _ _ Hk3)]. apply (fs_frame_idle (set_icache l4 s2) s3); [done|exact (fs_rest _ _ _ _ _ Hst3)|].
    apply (Hidle j); [|done]. rewrite <- HlenA. by eapply lookup_lt_Some.
  - by rewrite Ei1.
Qed.

(** Slots in use hold inodes of the tree. *)
Definition used_in (l : list inode) (T : gset Z) : Prop := ∀ j z, l !! j = Some z → i_ref z ≠ 0 → inode_num z ∈ T.

Section failed.
  Context (s2 : kstate) (j : nat) (s3 s4 : kstate) (r v : Z) (s1 : kstate) (y1 : inode) (Hcg : creating s2 j s3 s4 r v s1 y1).
  Context (Hused : used_in l0 T).

Notation l4 := (k_icache s1).

(** The new slot was free. *)
Lemma new_slot_free : refs l0 !! j = Some 0 ∧ r = 1.
Proof.
  destruct (cg_old _ _ _ _ _ _ _ _ Hcg) as (z & Hz & Hzc). destruct (cg_two _ _ _ _ _ _ _ _ Hcg) as [Hne _ _ [Hj _] _ _].
  pose proof (lookup_refs _ _ _ Hz) as Ez. rewrite (hd_refs _ _ _ _ Hh), lookup_ref_up in Ez.
  destruct (refs l0 !! j) as [a|] eqn:Ea; [|done]. cbn in Ez. rewrite decide_False in Ez by done. injection Ez as Ez.
  assert (a = 0) as ->.
  { destruct (decide (a = 0)) as [|Ha]; [done|exfalso]. destruct Hzc as [Hzc|Hzc]; [|congruence].
    unfold refs in Ea. rewrite list_lookup_fmap in Ea. destruct (l0 !! j) as [z0|] eqn:Hz0; [|done]. injection Ea as Ea.
    assert (i_ref z0 ≠ 0) as Hr0 by congruence. destruct (hd_keep _ _ _ _ Hh j z0 Hz0 Hr0) as (z' & Hz' & [En _]). simplify_eq.
    apply (new_not_in H D sb T d k Hib Hlc). rewrite <- Hzc, En. by apply (Hused j). }
  split; [done|]. pose proof (lookup_refs _ _ _ Hj) as Er. rewrite (cg_ref _ _ _ _ _ _ _ _ Hcg), !lookup_ref_up, Ea in Er.
  cbn in Er. rewrite (decide_True (P := j = j)), decide_False in Er by done. by injection Er as <-.
Qed.

Lemma create_fail s5 dd :
  data_map H D sb T dd → (size H + 2 < N_BLOCK_BUF)%nat → fs_step (hart_push (hart_push h0)) H s4 s5 D1 →
  ∃ s', (upd_inode j (i_set_nlink 0);; inode_unlock_free j;; inode_unlock_free i;; mret None) s5 = Ok (None : option nat, s') ∧
    walk_ok h0 H T s' ∧ balanced l0 (k_icache s') ∧ moved h0 H s s' (put_node sb (dead x) D).
Proof.
  intros Hdm Hsz Hst. pose proof Hcg as [_ _ Hk1 Ed1 Hm1 Hy1 [Hne Htl Hi4 [Hj4 _] Hic _] Ei3 Edir Eref Hkeep _ [Hid Hidi] Hst3 Hst4].
  destruct new_slot_free as [Hr0 ->]. pose proof (lookup_lt_Some _ _ _ Hj4) as Hjl.
  pose proof (fs_step_sb _ _ _ _ _ Hm1 : k_sb s1 = sb) as Es1. rewrite Ed1, Es1 in Hi4, Hic. rewrite Edir in Hi4.
  pose proof (fs_step_trans _ _ _ _ _ _ _ Hst4 Hst) as Hst5. set (ip := i_set_nlink 0 (i_set_ref 1 x)). set (z := i_set_nlink 0 (i_set_ref 0 x)).
  set (l5 := <[j := ip]> l4). set (l7 := <[j := dead_slot z]> l4).
  assert (k_icache s5 = l4) as Ei5 by (by rewrite (fs_step_icache _ _ _ _ _ Hst5)).
  assert (upd_inode j (i_set_nlink 0) s5 = Ok (tt, set_icache l5 s5)) as Hu by (rewrite (upd_inode_run j _ s5 (i_set_ref 1 x)), Ei5; [done|by rewrite Ei5]).
  run Hu. pose proof (fs_step_set_icache _ _ _ _ _ l5 Hst5) as Hst5'.
  destruct (fs_step_section (hart_push h0) H (set_icache l5 s3) (set_icache l5 s5) D1 (LkInode j) (inode_other j)) as [Hrel Hst6];
    [apply bcache_icache, Hst3|done|exact Hst5'|]. set (s6 := rel (LkInode j) (set_icache l5 s5)) in *.
  assert (k_icache s6 = l5) as Ei6 by exact (fs_step_icache _ _ _ _ _ Hst6).
  assert (∀ lk, (∀ b, lk ≠ LkBuf b) → lock_idle lk s3 → lock_idle lk s6) as Hidle.
  { intros lk Hlk Hl. apply (fs_frame_idle (set_icache l5 s3)); [done|apply Hst6|exact Hl]. }
  assert (k_sb s6 = sb) as Es6 by (rewrite (fs_step_sb _ _ _ _ _ Hst6); exact (fs_step_sb _ _ _ _ _ Hst3)).
  destruct (buried_new H D sb T d k ty ma mi Hib Hlc Hty Hma Hmi dd 0 Hdm Hsz) as [Hgr Ebur]. fold z in Hgr, Ebur.
  destruct (inode_free_last_run D1 sb (dm_layout _ _ _ _ _ Hdm) (hart_push h0) H s6 j ip dd k) as (s7 & Hf & Hst7); try done.
  { apply Hst6. } { apply Hst6. } { by apply Hidle. } { by apply Hidle. } { rewrite Ei6. by apply list_lookup_insert_eq. }
  change (i_set_ref 0 ip) with z in Hst7. rewrite Ebur, Ei6 in Hst7. unfold l5 in Hst7 at 1. rewrite list_insert_insert_eq in Hst7. fold l7 in Hst7.
  assert (inode_unlock_free j (set_icache l5 s5) = Ok (tt, s7)) as Hr7 by (unfold inode_unlock_free, inode_unlock; by run Hrel).
  run Hr7. set (D3 := put_node sb (dead x) D) in *.
  assert (fs_step (hart_push h0) H (acq (LkInode i) (set_icache l7 s)) s7 D3) as Hst8.
  { eapply fs_step_trans; [|exact Hst7]. eapply fs_step_trans; [exact (fs_step_set_icache _ _ _ _ _ l7 Hst3)|exact (fs_step_set_icache _ _ _ _ _ l7 Hst6)]. }
  pose proof (new_range d k Hlc) as Hnr. unfold INODE_NUM_UNUSED in Hnr.
  destruct (outside_put H D sb T d (dead x)) as [Ho3 _]; try done.
  { by eapply new_not_in. } { cbn. lia. } { exact (new_place H D sb T d k Hib Hlc). } { destruct (new_wf k ty ma mi Hty Hma Hmi). by split. }
  assert (l7 !! i = Some (i_set_ref v (node D sb p))) as Hi7 by (unfold l7; by rewrite list_lookup_insert_ne).
  destruct (unlock_free_step h0 H T l0 Hroom s i p (i_set_ref v (node D sb p)) l7 s7 D3 Hk) as (s' & Hf' & Hk' & Hb' & Hw').
  - split.
    + unfold l7. rewrite refs_insert, Eref. cbn [i_ref dead_slot dead i_set_valid i_set_num i_set_nlink i_set_size i_set_type i_set_addrs z i_set_ref i_set_meta].
      unfold ref_up at 1. assert (ref_up i (refs l0) !! j = Some 0) as Er by (rewrite lookup_ref_up, Hr0; cbn; by rewrite decide_False).
      rewrite (alter_insert _ _ _ 0 Er), list_insert_insert_eq. by apply list_insert_id.
    + intros j' z' Hz' Hz0. destruct (Hkeep j' z' Hz' Hz0) as (u & Hu' & Hs'). exists u. split; [|done]. unfold l7. rewrite list_lookup_insert_ne; [done|].
      intros <-. pose proof (lookup_refs _ _ _ Hz') as Ez. congruence.
    + rewrite Hi7. cbn. f_equal. apply node_num.
  - exact Hi7.
  - cbn. by apply (to_link _ _ _ _ (wk_tree _ _ _ _ Hk)).
  - apply (outside_ok H D D3 sb T Hok Ho3).
  - apply (icache_ok_drop D1 D3 sb T' T l4 j (dead_slot z)); try done; [set_solver|]. intros m Hm.
    rewrite (ou_node _ _ _ _ Ho3 m Hm : node D3 sb m = _). by rewrite (grow_old H _ _ T).
  - exact Hst8.
  - run Hf'. mrun. by exists s'.
Qed.

End failed.

(** The whole of it, from the lock of the directory on. *)
Lemma create_new s2 nm dd :
  fs_step (hart_push h0) H (acq (LkInode i) (set_icache (<[i := y']> (k_icache s)) s)) s2 D → is_dir D sb p = true →
  length nm = DIR_NAME_LEN → Forall byte_ok nm → name_of nm ≠ [] → (length (name_of nm) < DIR_NAME_LEN)%nat → child D sb p (name_of nm) = None →
  data_map H D sb T dd → (size H + 2 < N_BLOCK_BUF)%nat → used_in l0 T →
  ∃ j s3 s4 r s5 ip, inode_create ty ma mi s2 = Ok (Some j, s3) ∧ inode_lock j s3 = Ok (tt, s4) ∧
    get_inode j s4 = Ok (ip, s4) ∧ inode_num ip = n ∧ dir_add_entry i n nm s4 = Ok (r, s5) ∧
    if decide (free_slot (dir_entries D (node D sb p)) = 32%nat) then r = BLOCK_SIZE ∧
      ∃ s', (upd_inode j (i_set_nlink 0);; inode_unlock_free j;; inode_unlock_free i;; mret None) s5 = Ok (None : option nat, s') ∧
        walk_ok h0 H T s' ∧ balanced l0 (k_icache s') ∧ moved h0 H s s' (put_node sb (dead x) D)
    else r ≠ BLOCK_SIZE ∧
      ∃ s6 s', inode_unlock_free i s5 = Ok (tt, s6) ∧ inode_unlock j s6 = Ok (tt, s') ∧
        walk_ok h0 H T' s' ∧ held l0 (k_icache s') j n ∧ slot_valid (k_icache s') j ∧ moved h0 H s s' (k_disk s') ∧ created D sb d k x p (name_of nm) (k_disk s').
Proof.
  intros Hst Hdir Hnl Hnb Hne Hlt Hch Hdm Hsz Hused. destruct (create_locked s2 Hst) as (j & s3 & s4 & r & v & s1 & y1 & Hcg).
  pose proof Hcg as [Hcr Hlk Hk1 Ed1 Hm1 Hy1 Htl Ei3 Edir Eref Hkeep _ _ _ _]. pose proof (fs_step_sb _ _ _ _ _ Hm1 : k_sb s1 = sb) as Es1.
  assert (fs_ok H D1 sb T') as Hok1 by (by apply grow_ok). assert (n ∉ T) as HnT by (by eapply new_not_in).
  assert (∀ m, m ∈ T → node D1 sb m = node D sb m) as Hold by (intros m Hm; by apply (grow_old H D sb T)).
  assert (is_dir D1 sb p = true) as Hd1 by (unfold is_dir; by rewrite Hold).
  destruct (add_entry h0 H T' l0 s1 Hk1) with (i := i) (y := y1) (nm := nm) (m := n) (j := j) (v := v) (w := i_set_ref r x) (l := k_icache s1) (s4 := s4)
    as (ra & s5 & Hadd & Hres); rewrite ?Ed1, ?Es1, ?Hy1; try done; [set_solver|set_solver|congruence|by rewrite (grow_child H D sb T)|].
  rewrite Ed1, Es1, Hy1 in Hres.
  assert (get_inode j s4 = Ok (loaded D1 sb (i_set_ref r x), s4)) as Hg.
  { apply get_inode_run. destruct Htl as [_ _ _ [Hj _] _ Hst4]. rewrite (fs_step_icache _ _ _ _ _ Hst4). cbn [k_icache acq set_locks set_hart set_icache].
    rewrite Ed1, Es1. apply list_lookup_insert_eq. by eapply lookup_lt_Some. }
  exists j, s3, s4, ra, s5, (loaded D1 sb (i_set_ref r x)). do 3 (split; [done|]). split; [by rewrite loaded_num|]. split; [done|].
  rewrite (grow_entries H D sb T d k ty ma mi Hok Hib Hlc Hty Hma Hmi p Hp Hdir) in Hres. destruct (decide _) as [Hf|Hf].
  - destruct Hres as [-> Hst5]. split; [done|]. by apply (create_fail s2 j s3 s4 r v s1 y1 Hcg Hused s5 dd).
  - destruct Hres as (Hr & s6 & D2 & e & l6 & Hu & Hchg & Hnames & Hj6 & Hic6 & Hh6 & Hst6). split; [done|].
    assert (lock_idle (LkInode j) (set_icache l6 s1)) as Hid.
    { apply (wk_lock _ _ _ _ Hk1). rewrite <- (ic_len _ _ _ _ Hic6). by eapply lookup_lt_Some. }
    destruct (fs_step_section h0 H (set_icache l6 s1) s6 D2 (LkInode j) (inode_other j)) as [Hrel Hst7]; [apply bcache_icache, Hk1|done|done|].
    pose proof (fs_step_icache _ _ _ _ _ Hst7 : k_icache (rel (LkInode j) s6) = l6) as Ei7.
    exists s6, (rel (LkInode j) s6). split; [done|]. split; [exact Hrel|]. rewrite Ei7, (fs_disk _ _ _ _ _ Hst7). split; [|split; [done|split; [|split]]].
    + apply (walk_ok_change h0 H T' s1 l6 _ D2 Hk1 Hst7); rewrite Es1; [|done]. by eapply change_ok.
    + eexists. split; [exact Hj6|]. apply node_valid.
    + eapply moved_trans; [exact Hm1|]. unfold moved. by rewrite Ei7.
    + by apply (change_created D sb d k ty ma mi p e (name_of nm) D2).
Qed.

End create.

(** The outcome of creating, by what it was to do. *)
Definition create_outcome (s : kstate) (d : list Z) (ty ma mi : Z) (g : option (Z + nat * (Z * list Z))) (slot : option nat) (s' : kstate) : Prop :=
  let D := k_disk s in let sb := k_sb s in let D' := k_disk s' in moved h0 H s s' D' ∧
  match g with
  | Some (inr (k, (p, c))) => ∃ j, slot = Some j ∧ walk_ok h0 H ({[ Z.of_nat k ]} ∪ T) s' ∧ held (k_icache s) (k_icache s') j (Z.of_nat k) ∧
      slot_valid (k_icache s') j ∧ created D sb d k (new_inode ty ma mi (Z.of_nat k)) p c D'
  | Some (inl m) => ∃ j, slot = Some j ∧ walk_ok h0 H T s' ∧ held (k_icache s) (k_icache s') j m ∧ D' = D
  | None => slot = None ∧ walk_ok h0 H T s' ∧ balanced (k_icache s) (k_icache s') ∧ outside D D' sb T ∧ inodes_ok H D' sb T d
  end.

Lemma path_create_inode_run s a l n d dd ty ma mi :
  let D := k_disk s in let sb := k_sb s in
  walk_ok h0 H T s → fs_ok H D sb T → inodes_ok H D sb T d → data_map H D sb T dd → (size H + 2 < N_BLOCK_BUF)%nat →
  ref_room (refs (k_icache s)) → used_in (k_icache s) T → origin s a n → n ∈ T → path_ok l → Forall (Forall byte_ok) l.*1 → l ≠ [] →
  (∀ c, last (components l) = Some c → (length c < DIR_NAME_LEN)%nat) →
  0 ≤ ty < 2^16 → 0 ≤ ma < 2^16 → 0 ≤ mi < 2^16 → ty ≠ FT_DIR →
  ∃ slot s', path_create_inode (replicate a SLASH ++ path_text l) ty ma mi s = Ok (slot, s') ∧
    create_outcome s d ty ma mi (create_goal D sb d n (components l)) slot s'.
Proof.
  intros D sb Hk Hok Hib Hdm Hsz Hroom Hused Ho Hn Hl Hby Hne Hshort Hty Hma Hmi Hfile. unfold path_create_inode, path_to_pinode, create_outcome. fold D sb.
  destruct (search_inode_run h0 H T (k_icache s) Hroom true s a l n local_name) as (slot & nm & s1 & Hs & [Hk1 Hw1 Hsl] & Hlast); try done;
    [by apply Forall_replicate|].
  assert (k_sb s1 = sb) as Es by exact (fs_step_sb _ _ _ _ _ Hw1). assert (k_disk s1 = D) as Ed by exact (fs_disk _ _ _ _ _ Hw1).
  run Hs. unfold target in Hsl. fold D sb in Hsl. unfold create_goal. pose proof (outside_refl D sb Hok) as Hrefl.
  destruct (resolve_parent D sb n (components l)) as [p|] eqn:Ep; cbn [mbind option_bind] in *.
  2:{ destruct Hsl as [-> Hb1]. exists None, s1. by rewrite Ed. }
  destruct Hsl as (i & -> & Hi). destruct (Hlast eq_refl ltac:(done)) as (Ela & Hnl1 & Hnb1). rewrite Ela in *. cbn [mbind option_bind] in *.
  destruct (held_lookup _ _ _ _ Hi) as (y & Hy & Ey). subst p. assert (name_ok nm) as Hnm by (split; [done|left; lia]).
  destruct (resolve_parent_in H D sb T n (components l) (inode_num y) (ft_tree _ _ _ _ Hok) Hn Ep) as [Hp Hpd].
  rewrite <- Ed, <- Es in Hok, Hib, Hdm, Hpd.
  assert (∀ s2, fs_step (hart_push h0) H (acq (LkInode i) (set_icache (<[i := loaded (k_disk s1) (k_sb s1) y]> (k_icache s1)) s1)) s2 (k_disk s1) →
    ∃ s', inode_unlock_free i s2 = Ok (tt, s') ∧ walk_ok h0 H T s' ∧ balanced (k_icache s) (k_icache s') ∧ moved h0 H s s' D ∧ k_disk s' = D) as Hout.
  { intros s2 Hst. destruct (unlock_free_run h0 H T _ Hroom s1 i _ y s2 Hk1 Hi Hy Hp Hst) as (s' & Hu & [Hk' Hw' [_ Hb']]).
    pose proof (fs_disk _ _ _ _ _ Hw') as Ed'. rewrite Ed in Ed'. exists s'. do 3 (split; [done|]). split; [rewrite <- Ed; by eapply moved_trans|done]. }
  destruct (lock_search_run h0 H T s1 i y nm Hk1 Hy Hp) as (s2 & s3 & Hlk & _ & Hse & Hst3); [done|done|]. run Hlk. run Hse.
  rewrite Ed, Es in Hse. rewrite Ed, Es. destruct (child D sb (inode_num y) (name_of nm)) as [m|] eqn:Hc; cbn [default from_option id].
  - rewrite <- Ed, <- Es in Hc. pose proof (ft_tree _ _ _ _ Hok) as Ht. pose proof (to_child _ _ _ _ Ht _ _ _ Hp Hc) as Hm.
    pose proof (to_num _ _ _ _ Ht m Hm) as Hmr. rewrite (proj2 (Z.eqb_neq m INODE_NUM_UNUSED)) by lia. cbn [negb].
    destruct (Hout s3 Hst3) as (s4 & Hu & Hk4 & Hb4 & Hw4 & Ed4). unfold inode_unlock_free in Hu.
    rewrite <- bind_assoc. run Hu. destruct (alloc_balanced (k_icache s) s4 m Hroom Hk4 Hb4) as (j & s' & Ha & Hk' & Hh' & Hw' & Ed').
    run Ha. mrun. exists (Some j), s'. split; [done|]. rewrite Ed', Ed4. rewrite Ed4 in Hw'. split; [by eapply moved_trans|]. by exists j.
  - rewrite Z.eqb_refl. cbn [negb]. pose proof (free_inode_spec d) as Hfi. destruct (free_inode d) as [k|]; cbn [mbind option_bind].
    + rewrite <- Ed, <- Es in Hc |- *.
      destruct (create_new (k_icache s) Hroom s1 Hk1 Hok d Hib k Hfi ty ma mi Hty Hma Hmi Hfile i y Hy Hi Hp s3 nm dd)
        as (j & s4 & s5 & r & s6 & ip & Hcr & Hlj & Hg & Hip & Hadd & Hres); try done.
      { apply (components_ne l); [done|by apply last_Some_elem_of]. } { by apply Hshort. }
      run Hcr. run Hlj. rewrite (proj2 (Z.eqb_neq ty FT_DIR)) by done. mrun. run Hg. rewrite Hip. run Hadd. destruct (decide _) as [Hf|Hf].
      * destruct Hres as (-> & s' & Hrun & Hk' & Hb' & Hw'). rewrite Z.eqb_refl. exists None, s'. split; [exact Hrun|].
        rewrite (fs_disk _ _ _ _ _ Hw'). split; [by eapply moved_trans|]. do 3 (split; [done|]).
        pose proof (new_range d k Hfi) as Hnr. unfold INODE_NUM_UNUSED in Hnr. apply outside_put; try done.
        { by eapply new_not_in. } { cbn. lia. } { by eapply new_place. } { destruct (new_wf k ty ma mi Hty Hma Hmi). by split. }
      * destruct Hres as (Hr & s7 & s' & Hu & Hul & Hk' & Hh' & Hv' & Hw' & Hcr'). rewrite (proj2 (Z.eqb_neq r BLOCK_SIZE)) by done.
        mrun. run Hu. run Hul. mrun. exists (Some j), s'. split; [done|].
        split; [by eapply moved_trans|]. by exists j.
    + destruct (ib_map _ _ _ _ _ Hib) as [R1 R2 R3]. assert (k_sb s3 = k_sb s1) as Es3 by exact (fs_step_sb _ _ _ _ _ Hst3).
      destruct (alloc_inode_full (hart_push h0) H s3 d) as (s4 & Ha & Hst4); rewrite ?Es3, ?(fs_disk _ _ _ _ _ Hst3); try done; [apply Hst3|lia|apply Hib|].
      assert (inode_create ty ma mi s3 = Ok (None, s4)) as Hcr by (unfold inode_create; by run Ha). run Hcr.
      rewrite (fs_disk _ _ _ _ _ Hst3) in Hst4. destruct (Hout s4 (fs_step_trans _ _ _ _ _ _ _ Hst3 Hst4)) as (s' & Hu & Hk' & Hb' & Hw' & Ed').
      run Hu. mrun. exists None, s'. rewrite Ed'. split; [done|]. split; [done|]. do 4 (split; [done|]). by rewrite <- Ed, <- Es.
Qed.

End ops.

Lemma create_goal_new D sb d n cs k p c :
  create_goal D sb d n cs = Some (inr (k, (p, c))) →
  resolve D sb n (removelast cs) = Some p ∧ is_dir D sb p = true ∧ last cs = Some c ∧ child D sb p c = None ∧ free_inode d = Some k.
Proof.
  unfold create_goal, resolve_parent. destruct (resolve D sb n (removelast cs)) as [p'|]; [|done]. cbn [mbind option_bind].
  destruct (is_dir D sb p') eqn:Hd; [|done]. cbn [mbind option_bind]. destruct (last cs) as [c'|]; [|done].
  cbn [mbind option_bind]. destruct (child D sb p' c') eqn:Ech; [done|]. destruct (free_inode d); [|done]. cbn [mbind option_bind].
  case_decide; [done|]. by intros [= -> -> ->].
Qed.

(** The new path leads to the new inode, and all old paths lead where they did. *)
Lemma created_resolve H T D sb d k x p c D' n cs :
  fs_ok H D sb T → created H T D sb d k x p c D' → n ∈ T → create_goal D sb d n cs = Some (inr (k, (p, c))) →
  resolve D' sb n cs = Some (Z.of_nat k) ∧ ∀ m ds v, m ∈ T → resolve D sb m ds = Some v → resolve D' sb m ds = Some v.
Proof.
  intros Hok Hcr Hn Hg. pose proof (ft_tree _ _ _ _ Hok) as Ht. destruct (create_goal_new D sb d n cs k p c Hg) as (Er & _ & Ec & Ech & _).
  assert (∀ m e v, m ∈ T → child D sb m e = Some v → child D' sb m e = Some v) as Hgrow.
  { intros m e v Hm Hv. rewrite (cr_child _ _ _ _ _ _ _ _ _ _ Hcr m e Hm). case_decide as E; [|done]. destruct E as [-> ->]. congruence. }
  split; [|intros m ds v Hm; by apply (resolve_grows H D D' sb T ds)].
  assert (cs = removelast cs ++ [c]) as Ecs.
  { destruct cs as [|e cs _] using rev_ind; [done|]. rewrite last_snoc in Ec. injection Ec as ->. by rewrite removelast_last. }
  rewrite Ecs, resolve_snoc, (resolve_grows H D D' sb T _ n p Ht Hgrow Hn Er). cbn [mbind option_bind].
  rewrite (cr_child _ _ _ _ _ _ _ _ _ _ Hcr) by (by eapply resolve_in). by rewrite decide_True.
Qed.

(** ** Claims *)


(** ** Witness: "/new" is created beside "/a" *)

Definition create_bits : list Z := 251 :: replicate 1023 255.

Definition create_disk : gmap Z (list Z) := <[1 := create_bits]> (<[3 := create_bits]> tree_disk).

Lemma create_bits_ok : block_ok create_bits.
Proof. split; [done|]. apply Forall_cons. split; [by unfold byte_ok|]. by apply Forall_replicate. Qed.

Lemma create_bits_clear k : (k < NBITS)%nat → bit_of create_bits k = false → k = 2%nat.
Proof.
  intros Hk Hb. assert (forallb (λ k, bit_of create_bits k || (k =? 2)%nat) (seq 0 NBITS) = true) as E by (by vm_compute).
  rewrite forallb_forall in E. specialize (E k). rewrite Hb in E. apply Nat.eqb_eq, E, in_seq. lia.
Qed.

Lemma create_outside : outside tree_disk create_disk sample_sb {[ 0; 1 ]}.
Proof.
  assert (∀ n, n ∈ ({[ 0; 1 ]} : gset Z) → n = 0 ∨ n = 1) as HT by set_solver. split.
  - intros m [-> | ->]%HT; by vm_compute.
  - intros m [-> | ->]%HT; exact (ft_inode _ _ _ _ tree_fs_ok 0 ltac:(set_solver)).
  - intros m blk [-> | ->]%HT; [|by vm_compute]. intros _ Ha. assert (i_addrs (node tree_disk sample_sb 0) !! O = Some 5) as E by (by vm_compute).
    rewrite E in Ha. by injection Ha as <-.
Qed.

Lemma create_inodes : inodes_ok ∅ create_disk sample_sb {[ 0; 1 ]} create_bits.
Proof.
  assert (∀ n, n ∈ ({[ 0; 1 ]} : gset Z) → n = 0 ∨ n = 1) as HT by set_solver. split.
  - by split.
  - apply create_bits_ok.
  - intros n [-> | ->]%HT; by split.
  - intros n [-> | ->]%HT; by vm_compute.
  - intros k Hk Hb. rewrite (create_bits_clear k Hk Hb). split; [|done|done|].
    + exists tree_inodes. split; [by split|]. by destruct (ft_inode _ _ _ _ tree_fs_ok 0 ltac:(set_solver)) as (d & [= <-] & ?).
    + intros m [-> | ->]%HT; by vm_compute.
Qed.

Lemma create_data : data_map ∅ create_disk sample_sb {[ 0; 1 ]} create_bits.
Proof.
  assert (∀ n, n ∈ ({[ 0; 1 ]} : gset Z) → n = 0 ∨ n = 1) as HT by set_solver. split; [|by split|apply create_bits_ok|done| |].
  - split; [done|]. unfold NBITS, BLOCK_SIZE. cbn. lia.
  - by intros n [-> | ->]%HT.
  - intros n [-> | ->]%HT; by vm_compute.
Qed.

Lemma create_sample_goal :
  create_goal create_disk sample_sb create_bits 0 (components [(take 3 (bytes_of "new"), 0%nat)]) = Some (inr (2%nat, (0, take 3 (bytes_of "new")))).
Proof. by vm_compute. Qed.

