(* ===== verification/Remove.v ===== *)
(** * Removing the last name of a file (path_unlink of kernel/fs/dir.c)

    Unlinking a file that has no further link and is not in use destroys its inode.  The
    theorems: the tree of Path.v shrinks by exactly this inode and this name, its blocks and
    its number are free again; and unlinking a file that was just created undoes the creation. *)

From S2P Require Import Prelude Bytes Kernel Lock Str Pmem Vm Sched Virtio Buf Bitmap Uvm Inode Dir Path Link Destroy Unlink Create.

(** ** The blocks of a file on another disk *)

Lemma data_blocks_ext D D' sb level : ∀ b,
  (∀ c, c ∈ data_blocks D level b → D' !! c = D !! c) →
  data_blocks D' level b = data_blocks D level b ∧ ∀ av, data_ok D sb av level b → data_ok D' sb av level b.
Proof.
  induction level as [|level IH]; intros b Hsame; [done|]. cbn [data_blocks data_ok] in *.
  assert (D' !! b = D !! b) as Eb by (apply Hsame, elem_of_app; right; by left). rewrite Eb.
  assert (∀ a, a ∈ used (block_entries (default [] (D !! b))) → ∀ c, c ∈ data_blocks D level a → D' !! c = D !! c) as Hsub.
  { intros a Ha c Hc. apply Hsame, elem_of_app. left. apply list_elem_of_bind. by exists a. }
  split.
  - f_equal. apply Forall_bind_ext, Forall_forall. intros a Ha. by apply IH, Hsub.
  - intros av (Hb & Hav & Hs & Hf). do 3 (split; [done|]). rewrite Forall_forall in Hf |- *. intros a Ha. apply IH; [by apply Hsub|by apply Hf].
Qed.

Lemma file_blocks_ext D D' sb ip av :
  (∀ c, c ∈ file_blocks D ip → D' !! c = D !! c) → file_ok D sb av ip → file_blocks D' ip = file_blocks D ip ∧ file_ok D' sb av ip.
Proof.
  intros Hsame [Hlen Hok].
  assert (∀ k, (k < N_ADDRS)%nat → ∀ c, c ∈ addr_blocks D ip k → D' !! c = D !! c) as Hsub.
  { intros k Hk c Hc. apply Hsame. unfold file_blocks. apply list_elem_of_bind. exists k. split; [done|]. apply elem_of_seq. lia. }
  split.
  - unfold file_blocks. apply Forall_bind_ext, Forall_forall. intros k Hk%elem_of_seq. unfold addr_blocks. cbv zeta.
    specialize (Hsub k). unfold addr_blocks in Hsub. destruct (_ =? 0); [done|]. apply (data_blocks_ext D D' sb). apply Hsub. lia.
  - split; [done|]. intros k a Ha Hne. apply (data_blocks_ext D D' sb); [|by apply Hok]. apply lookup_lt_Some in Ha as Hlt.
    specialize (Hsub k). unfold addr_blocks in Hsub. rewrite Ha in Hsub. cbn [default from_option id] in Hsub.
    rewrite (proj2 (Z.eqb_neq _ _) Hne) in Hsub. apply Hsub. lia.
Qed.

(** ** A smaller tree *)

Lemma fs_ok_shrink H D sb T T' :
  fs_ok H D sb T → T' ⊆ T → (∀ n c v, n ∈ T' → child D sb n c = Some v → v ∈ T') → fs_ok H D sb T'.
Proof.
  intros [[H1 H2 H3 H4 H5] H6 H7 H8 H9] Hsub Hc. split; [split; [intros n Hn; by apply H1, Hsub|intros n Hn; by apply H2, Hsub|intros n Hn; by apply H3, Hsub|intros n Hn; by apply H4, Hsub|done]|..].
  - intros n Hn. by apply H6, Hsub.
  - intros n m Hn Hm. apply H7; by apply Hsub.
  - intros n m Hn Hm. apply H8; by apply Hsub.
  - intros n Hn. by apply H9, Hsub.
Qed.

(** ** The disk after the inode was destroyed *)

Section gone.
  Context (H : gmap nat Z) (D : gmap Z (list Z)) (sb : super_block) (T : gset Z) (d dd : list Z) (k : nat).
  Context (Hok : fs_ok H D sb T) (Hib : inodes_ok H D sb T d) (Hdm : data_map H D sb T dd) (Hsz : (size H + 2 < N_BLOCK_BUF)%nat).

Notation m := (Z.of_nat k).

Context (Hm : m ∈ T) (Hkb : (k < NBITS)%nat) (Hfile : file_ok D sb (map_to_list H).*2 (node D sb m)).
Context (Hapart : ∀ c, c ∈ file_blocks D (node D sb m) → c ≠ inode_block sb (stub m)).
Context (Hnone : ∀ n c v, n ∈ T → child D sb n c = Some v → v ≠ m).

Notation z := (i_set_nlink 0 (node D sb m)).
Notation z0 := (i_set_ref 0 z).
Notation D2 := (put_node sb z D).
Notation D3 := (buried D2 sb dd z0 k).
Notation T' := (T ∖ {[ m ]}).
Notation im := (inode_bitmap_start sb).
Notation bm := (data_bitmap_start sb).

Lemma gone_num : inode_num z0 = m.
Proof. exact (node_num D sb m). Qed.

Lemma gone_block : inode_block sb z0 = inode_block sb (stub m).
Proof. unfold inode_block. by rewrite gone_num. Qed.

Lemma gone_apart : inode_block sb z0 ≠ im ∧ inode_block sb z0 ≠ bm.
Proof. rewrite gone_block. split; [by apply (ib_used _ _ _ _ _ Hib)|by apply (dm_inode _ _ _ _ _ Hdm)]. Qed.

Lemma gone_wf : inode_wf z0.
Proof. destruct (node_wf H D sb T Hok m Hm). by split. Qed.

Lemma gone_other b : b ≠ inode_block sb z0 → D2 !! b = D !! b.
Proof.
  intros Hb. destruct (ft_inode _ _ _ _ Hok m Hm) as (di & Hdi & _). rewrite <- gone_block in Hdi.
  rewrite (put_node_eq sb z D di Hdi). apply lookup_insert_ne. by apply not_eq_sym.
Qed.

Lemma gone_inode : ∃ di, D2 !! inode_block sb z0 = Some di ∧ block_ok di.
Proof.
  destruct (ft_inode _ _ _ _ Hok m Hm) as (di & Hdi & [Hl Hb]). rewrite <- gone_block in Hdi.
  rewrite (put_node_eq sb z D di Hdi). eexists. split; [apply lookup_insert_eq|].
  pose proof (length_disk_inode z (iw_len _ gone_wf)). pose proof (inode_off_bound z). split; [rewrite length_splice; [done|lia]|].
  apply splice_ok; [apply disk_inode_ok|done].
Qed.

Lemma gone_file : file_blocks D2 z0 = file_blocks D (node D sb m) ∧ file_ok D2 sb (map_to_list H).*2 z0.
Proof.
  apply (file_blocks_ext D D2 sb z0 (map_to_list H).*2); [|exact Hfile]. intros c Hc. apply gone_other. rewrite gone_block. by apply Hapart.
Qed.

Lemma gone_grave : grave D2 sb H dd z0 k.
Proof.
  destruct gone_apart as [Ha1 Ha2]. destruct (ib_map _ _ _ _ _ Hib) as [R1 R2 R3], (dm_map _ _ _ _ _ Hdm) as [M1 M2 M3].
  destruct gone_inode as (di & Hdi & Hbi). destruct (to_inode _ _ _ _ (ft_tree _ _ _ _ Hok) m Hm) as [? [Q1 Q2 _]]. rewrite <- gone_block in Q1, Q2.
  split; [done|apply gone_file|split; [exact gone_num|done]| | |].
  - split; [|apply Hdm]. split; [done|done|]. by rewrite gone_other by congruence.
  - exists di. by split; [split|].
  - exists d. split; [split; [done|done|by rewrite gone_other by congruence]|]. split; [apply Hib|]. split; [apply Hdm|]. by apply not_eq_sym.
Qed.

Lemma gone_map : D3 !! im = Some (clear_bit d k).
Proof.
  destruct (buried_eq D2 sb H dd z0 k gone_grave) as (di & d' & _ & _ & Hd' & _ & ->). rewrite lookup_insert_eq. f_equal.
  rewrite gone_other in Hd' by (apply not_eq_sym, gone_apart). rewrite (rd_disk _ _ _ _ (ib_map _ _ _ _ _ Hib)) in Hd'. injection Hd' as <-.
  destruct (ib_used _ _ _ _ _ Hib m Hm) as [Hb _]. rewrite Nat2Z.id in Hb. by rewrite Hb.
Qed.

Lemma gone_place : ∃ di, D3 !! inode_block sb z0 = Some di ∧ block_ok di.
Proof.
  destruct (buried_eq D2 sb H dd z0 k gone_grave) as (di & d' & Hdi & [Hl Hb] & _ & _ & ->). rewrite lookup_insert_ne by (apply not_eq_sym, gone_apart).
  eexists. split; [apply lookup_insert_eq|]. assert (length (disk_inode (dead z0)) = Z.to_nat INODE_DISK_SIZE) as Hd by (by apply length_disk_inode).
  pose proof (inode_off_bound z0). split; [rewrite length_splice; [done|lia]|]. apply splice_ok; [apply disk_inode_ok|done].
Qed.

Lemma gone_outside : outside D D3 sb T'.
Proof.
  destruct gone_apart as [Ha1 Ha2]. assert (∀ n, n ∈ T' → n ∈ T ∧ n ≠ m) as HT by set_solver. split.
  - intros n [Hn Hne]%HT. rewrite (buried_node D2 sb H dd z0 k gone_grave n gone_wf).
    + rewrite gone_num, decide_False by done. destruct (ft_inode _ _ _ _ Hok m Hm) as (di & Hdi & [Hl _]). rewrite <- gone_block in Hdi.
      rewrite (node_put sb z D di n Hdi Hl); [|destruct gone_wf; by split| |by apply (num_range H D sb T)].
      * rewrite (gone_num : inode_num z = m). by rewrite decide_False.
      * rewrite (gone_num : inode_num z = m). by apply (num_range H D sb T).
    + by apply (num_range H D sb T).
    + by apply (ib_used _ _ _ _ _ Hib).
    + by apply (dm_inode _ _ _ _ _ Hdm).
  - intros n [Hn Hne]%HT. destruct (decide (inode_block sb (stub n) = inode_block sb z0)) as [E|E]; [rewrite E; apply gone_place|].
    rewrite (buried_other D2 sb H dd z0 k gone_grave), gone_other; [by apply (ft_inode _ _ _ _ Hok)|done| | |done].
    + by apply (dm_inode _ _ _ _ _ Hdm).
    + by apply (ib_used _ _ _ _ _ Hib).
  - intros n blk [Hn Hne]%HT Hd Ha. assert (blk ≠ inode_block sb z0) as Hz by (rewrite gone_block; intros ->; by apply (ft_apart _ _ _ _ Hok n m)).
    rewrite (buried_other D2 sb H dd z0 k gone_grave), gone_other; [done|done| | |done].
    + intros ->. by apply (dm_dir _ _ _ _ _ Hdm n).
    + intros ->. by apply (ib_dir _ _ _ _ _ Hib n).
Qed.

Lemma gone_ok : fs_ok H D3 sb T'.
Proof.
  apply (outside_ok H D); [|apply gone_outside]. apply (fs_ok_shrink H D sb T); [done|set_solver|]. intros n c v Hn Hc.
  assert (n ∈ T) as HnT by set_solver. pose proof (to_child _ _ _ _ (ft_tree _ _ _ _ Hok) n c v HnT Hc). pose proof (Hnone n c v HnT Hc). set_solver.
Qed.

Lemma gone_inodes : inodes_ok H D3 sb T' (clear_bit d k).
Proof.
  destruct gone_apart as [Ha1 Ha2]. assert (∀ n, n ∈ T' → n ∈ T ∧ n ≠ m) as HT by set_solver. pose proof (ib_ok _ _ _ _ _ Hib) as Hdok.
  destruct (ib_map _ _ _ _ _ Hib) as [R1 R2 R3]. destruct gone_place as (di & Hdi & Hbi). split.
  - split; [done|done|apply gone_map].
  - by apply clear_bit_ok.
  - intros n Hn. destruct (HT n Hn) as [HnT Hne]. destruct (ib_used _ _ _ _ _ Hib n HnT) as [Hb Hbn]. split; [|done].
    rewrite clear_bit_bits, Hb, bool_decide_false by (done || pose proof (num_range H D sb T Hok n HnT); lia). done.
  - intros n Hn. destruct (HT n Hn) as [HnT Hne]. rewrite (outside_is_dir _ _ _ _ n gone_outside Hn), (ou_node _ _ _ _ gone_outside n Hn). by apply (ib_dir _ _ _ _ _ Hib).
  - intros k' Hk'. rewrite clear_bit_bits by done. intros Hc.
    assert (free_place H D sb T' (Z.of_nat k')) as [(dk & [P1 P2 P3] & Hdk) Hm1 Hm2 Hm3].
    { destruct (decide (k' = k)) as [->|Hne].
      - destruct (to_inode _ _ _ _ (ft_tree _ _ _ _ Hok) m Hm) as [dm Hdm']. destruct (ft_inode _ _ _ _ Hok m Hm) as (? & Hdm2 & Hbm).
        rewrite (rd_disk _ _ _ _ Hdm') in Hdm2. injection Hdm2 as <-. rewrite gone_block in Ha1, Ha2. split; [by exists dm|done|done|].
        intros n [Hn _]%HT Hd. by apply (ft_apart _ _ _ _ Hok).
      - rewrite bool_decide_false in Hc by done. destruct (ib_free _ _ _ _ _ Hib k' Hk' Hc) as [Q1 Q2 Q3 Q4]. split; [done|done|done|]. intros n [Hn _]%HT. by apply Q4. }
    split; [|done|done|].
    + destruct (decide (inode_block sb (stub (Z.of_nat k')) = inode_block sb z0)) as [E|E].
      * exists di. split; [|done]. by split; [..|rewrite E].
      * exists dk. split; [|done]. split; [done|done|]. by rewrite (buried_other D2 sb H dd z0 k gone_grave), gone_other.
    + intros n Hn. rewrite (outside_is_dir _ _ _ _ n gone_outside Hn), (ou_node _ _ _ _ gone_outside n Hn). by apply Hm3.
Qed.

Lemma gone_data : ∃ dd', data_map H D3 sb T' dd' ∧
  ∀ j, bit_of dd' j = bit_of dd j && negb (bool_decide (j ∈ data_bit sb <$> file_blocks D (node D sb m))).
Proof.
  destruct (buried_data D2 sb H dd z0 k gone_grave) as (dd' & Hdd' & Hb & Hbits). rewrite (proj1 gone_file) in Hbits.
  exists dd'. split; [|done]. destruct Hdm as [L [M1 M2 M3] _ A I Dr]. split; [done|by split|done|done| |].
  - intros n Hn. apply I. set_solver.
  - intros n Hn. rewrite (outside_is_dir _ _ _ _ n gone_outside Hn), (ou_node _ _ _ _ gone_outside n Hn). apply Dr. set_solver.
Qed.

End gone.

(** The file [m] can be removed: its blocks are its own, and nobody uses it. *)
Record removable (H : gmap nat Z) (D : gmap Z (list Z)) (sb : super_block) (T : gset Z) (l : list inode) (m : Z) : Prop := {
  rv_file : is_dir D sb m = false ∧ i_nlink (node D sb m) = 1 ∧ m < Z.of_nat NBITS;
  rv_data : file_ok D sb (map_to_list H).*2 (node D sb m);
  rv_inode c n : c ∈ file_blocks D (node D sb m) → n ∈ T → c ≠ inode_block sb (stub n);
  rv_dir c n : c ∈ file_blocks D (node D sb m) → n ∈ T → is_dir D sb n = true → i_addrs (node D sb n) !! O ≠ Some c;
  rv_sole n c n' c' : n ∈ T → n' ∈ T → child D sb n c = Some m → child D sb n' c' = Some m → n = n' ∧ c = c';
  rv_idle j x : l !! j = Some x → inode_num x = m → i_ref x = 0 }.

(** The tree [D'] is the tree [D] without the file [m] and its name [c] in [p]. *)
Record removed (H : gmap nat Z) (D : gmap Z (list Z)) (sb : super_block) (T : gset Z) (d dd : list Z) (m p : Z) (c : list Z)
    (D' : gmap Z (list Z)) : Prop := {
  rm_ok : fs_ok H D' sb (T ∖ {[ m ]});
  rm_map : inodes_ok H D' sb (T ∖ {[ m ]}) (clear_bit d (Z.to_nat m));
  rm_data : ∃ dd', data_map H D' sb (T ∖ {[ m ]}) dd' ∧
    ∀ j, bit_of dd' j = bit_of dd j && negb (bool_decide (j ∈ data_bit sb <$> file_blocks D (node D sb m)));
  rm_dir : ∃ e, node D' sb p = grown_inode e (node D sb p);
  rm_node n : n ∈ T → n ≠ m → n ≠ p → node D' sb n = node D sb n;
  rm_child n c' : n ∈ T → n ≠ m → child D' sb n c' = if decide (n = p ∧ c' = c) then None else child D sb n c' }.

(** The only reference to an inode that was not in use. *)
Lemma held_idle l0 l j m x :
  held l0 l j m → l !! j = Some x → (∀ i z, l0 !! i = Some z → inode_num z = m → i_ref z = 0) → refs l0 !! j = Some 0 ∧ i_ref x = 1.
Proof.
  intros Hh Hx Hidle. pose proof (lookup_refs _ _ _ Hx) as Er. rewrite (hd_refs _ _ _ _ Hh), lookup_ref_up in Er.
  destruct (refs l0 !! j) as [a|] eqn:Ea; [|done]. cbn in Er. rewrite decide_True in Er by done. injection Er as Er.
  assert (a = 0) as ->; [|done]. unfold refs in Ea. rewrite list_lookup_fmap in Ea. destruct (l0 !! j) as [x0|] eqn:Hx0; [|done]. injection Ea as <-.
  destruct (decide (i_ref x0 = 0)) as [|Hr0]; [done|]. apply (Hidle j); [done|]. destruct (hd_keep _ _ _ _ Hh j x0 Hx0 Hr0) as (x1 & Hx1 & [En _]).
  pose proof (hd_entry _ _ _ _ Hh) as He. rewrite Hx1 in He. injection He as He. congruence.
Qed.

(** Giving it up with the slot. *)
Lemma held_dead l0 l j m z :
  held l0 l j m → refs l0 !! j = Some 0 → i_ref z = 0 → balanced l0 (<[j := z]> l).
Proof.
  intros [Hr Hk _] H0 Hz. split.
  - rewrite refs_insert, Hz, Hr. unfold ref_up. rewrite (alter_insert _ _ _ 0 H0), list_insert_insert_eq. by apply list_insert_id.
  - intros a x Ha Hx. destruct (Hk a x Ha Hx) as (u & Hu & Hs). exists u. split; [|done]. rewrite list_lookup_insert_ne; [done|]. intros <-.
    pose proof (lookup_refs _ _ _ Ha) as E. congruence.
Qed.

Section remove.
  Context {B : BlockDevice} (h0 : hart) (H : gmap nat Z) (T : gset Z) (l0 : list inode) (Hroom : ref_room (refs l0)).
  Context (s : kstate) (Hk : walk_ok h0 H T s).

Notation sb := (k_sb s).

(** The last link of the file in the locked slot [j] is taken away, on the tree [D']. *)
Lemma last_link_run D' d dd k l6 j w s6 :
  let m := Z.of_nat k in
  fs_ok H D' sb T → inodes_ok H D' sb T d → data_map H D' sb T dd → (size H + 2 < N_BLOCK_BUF)%nat → m ∈ T → (k < NBITS)%nat →
  file_ok D' sb (map_to_list H).*2 (node D' sb m) → (∀ c, c ∈ file_blocks D' (node D' sb m) → c ≠ inode_block sb (stub m)) →
  (∀ n c v, n ∈ T → child D' sb n c = Some v → v ≠ m) → i_nlink (node D' sb m) = 1 → inode_num w = m →
  l6 !! j = Some (loaded D' sb w) → icache_ok D' sb T l6 → held l0 l6 j m → (∀ i z, l0 !! i = Some z → inode_num z = m → i_ref z = 0) →
  fs_step (hart_push h0) H (acq (LkInode j) (set_icache l6 s)) s6 D' →
  ∃ s7 s8 s', add_nlink j (-1) s6 = Ok (tt, s7) ∧ inode_rw j true s7 = Ok (tt, s8) ∧ inode_unlock_free j s8 = Ok (tt, s') ∧
    walk_ok h0 H (T ∖ {[ m ]}) s' ∧ balanced l0 (k_icache s') ∧
    moved h0 H s s' (buried (put_node sb (i_set_nlink 0 (node D' sb m)) D') sb dd (i_set_ref 0 (i_set_nlink 0 (node D' sb m))) k).
Proof.
  intros m Hok Hib Hdm Hsz Hm Hkb Hfile Hap Hnone Hnl Ew Hj6 Hic6 Hh6 Hidle Hst6.
  destruct (nlink_write_run h0 H T s D' l6 j w s6 (-1)) as (s7 & s8 & Ha & Hrw & Hst8); try done; [apply Hk|by rewrite Ew|].
  assert (u16 (i_nlink (node D' sb (inode_num w)) + -1) = 0) as Eu by (by rewrite Ew, Hnl). rewrite Eu, Ew in Hst8.
  destruct (held_idle l0 l6 j m _ Hh6 Hj6 Hidle) as [Hr0 Er]. change (i_ref (loaded D' sb w)) with (i_ref w) in Er. rewrite Er in Hst8.
  set (z := i_set_nlink 0 (node D' sb m)) in *. set (D2 := put_node sb z D') in *. pose proof (lookup_lt_Some _ _ _ Hj6) as Hjl.
  set (ip := i_set_ref 1 z) in *. set (l8 := <[j := ip]> l6) in *.
  assert (lock_idle (LkInode j) (set_icache l8 s)) as Hid by (apply (wk_lock _ _ _ _ Hk); by rewrite <- (ic_len _ _ _ _ Hic6)).
  destruct (fs_step_section h0 H (set_icache l8 s) s8 D2 (LkInode j) (inode_other j)) as [Hrel Hst9]; [apply bcache_icache, Hk|done|done|].
  set (s9 := rel (LkInode j) s8) in *. pose proof (fs_step_icache _ _ _ _ _ Hst9 : k_icache s9 = l8) as Ei9.
  destruct (inode_free_last_run D2 sb (dm_layout _ _ _ _ _ Hdm) h0 H s9 j ip dd k) as (s' & Hf & Hst'); try done.
  { apply Hst9. } { by rewrite (fs_step_sb _ _ _ _ _ Hst9). } { apply Hst9. }
  { apply (fs_frame_idle (set_icache l8 s)); [done|apply Hst9|apply Hk]. } { apply (fs_frame_idle (set_icache l8 s)); [done|apply Hst9|exact Hid]. }
  { rewrite Ei9. by apply list_lookup_insert_eq. } { exact (gone_grave H D' sb T d dd k Hok Hib Hdm Hsz Hm Hkb Hfile Hap). }
  rewrite Ei9 in Hst'. unfold l8 in Hst'. rewrite list_insert_insert_eq in Hst'. set (l' := <[j := dead_slot _]> l6) in Hst'.
  pose proof (fs_step_trans _ _ _ _ _ _ _ (fs_step_set_icache _ _ _ _ _ l' Hst9) Hst') as Hw. set (D3 := buried D2 sb dd _ k) in *.
  pose proof (fs_step_icache _ _ _ _ _ Hw : k_icache s' = l') as Ei'.
  exists s7, s8, s'. do 2 (split; [done|]). split; [unfold inode_unlock_free, inode_unlock; by run Hrel|]. unfold moved. rewrite Ei'. split; [|split; [|exact Hw]].
  - apply (walk_ok_grow h0 H T (T ∖ {[ m ]}) s l' s' D3 Hk Hw); [apply (gone_ok H D' sb T d dd k Hok Hib Hdm Hsz Hm Hkb Hfile Hap Hnone)|].
    apply (icache_ok_drop D' D3 sb T); try done; [set_solver|].
    exact (ou_node _ _ _ _ (gone_outside H D' sb T d dd k Hok Hib Hdm Hsz Hm Hkb Hfile Hap Hnone)).
  - by apply (held_dead l0 l6 j m).
Qed.

Section two.
  Context (Hok : fs_ok H (k_disk s) (k_sb s) T).
  Context (d dd : list Z) (Hib : inodes_ok H (k_disk s) (k_sb s) T d) (Hdm : data_map H (k_disk s) (k_sb s) T dd).
  Context (Hsz : (size H + 2 < N_BLOCK_BUF)%nat).
  Context (i : nat) (y : inode) (Hp : inode_num y ∈ T) (Hdir : is_dir (k_disk s) (k_sb s) (inode_num y) = true).

Notation D := (k_disk s).
Notation p := (inode_num y).

(** What is left after the entry was removed and the inode destroyed. *)
Lemma change_removed k e c D' :
  let m := Z.of_nat k in let D2 := put_node sb (i_set_nlink 0 (node D' sb m)) D' in
  m ∈ T → m ≠ p → (k < NBITS)%nat → change D sb T p (grown_inode e (node D sb p)) D' →
  names_of D' (bare (grown_inode e (node D sb p))) = delete c (names_of D (node D sb p)) →
  child D sb p c = Some m → removable H D sb T l0 m →
  fs_ok H D' sb T ∧ inodes_ok H D' sb T d ∧ data_map H D' sb T dd ∧ file_ok D' sb (map_to_list H).*2 (node D' sb m) ∧
    (∀ c, c ∈ file_blocks D' (node D' sb m) → c ≠ inode_block sb (stub m)) ∧ (∀ n c v, n ∈ T → child D' sb n c = Some v → v ≠ m) ∧
    node D' sb m = node D sb m ∧
    removed H D sb T d dd m p c (buried D2 sb dd (i_set_ref 0 (i_set_nlink 0 (node D' sb m))) k).
Proof.
  intros m D2 Hm Hmp Hkb Hch Hnames Hc [_ Hfile Hri Hrd Hsole _]. pose proof (change_ok H D sb T _ _ D' Hok Hch) as Hok'.
  assert (∀ n, n ∈ T → n ≠ p → node D' sb n = node D sb n) as Hnode by (intros n Hn Hne; by rewrite (ch_node _ _ _ _ _ _ Hch n Hn), decide_False).
  pose proof (Hnode m Hm Hmp) as Enm.
  assert (∀ n c', n ∈ T → child D' sb n c' = if decide (n = p ∧ c' = c) then None else child D sb n c') as Hchild.
  { intros n c' Hn. rewrite (change_child D sb T p _ D' Hch n c' Hn), Hdir, Hnames. destruct (decide (n = p)) as [->|Hnp]; [|by rewrite decide_False by tauto].
    destruct (decide (c' = c)) as [->|Hcc]; [by rewrite lookup_delete_eq, decide_True|].
    rewrite lookup_delete_ne, decide_False by naive_solver. unfold child. by rewrite Hdir. }
  assert (∀ c, c ∈ file_blocks D (node D sb m) → D' !! c = D !! c) as Hsame.
  { intros b Hb. apply (ch_other _ _ _ _ _ _ Hch); [by apply Hri|]. intros Hpd. by apply Hrd. }
  destruct (file_blocks_ext D D' sb (node D sb m) _ Hsame Hfile) as [Efb Hfile'].
  assert (file_blocks D' (node D' sb m) = file_blocks D (node D sb m)) as Efb' by (by rewrite Enm). rewrite <- Enm in Hfile'.
  pose proof (inodes_ok_change H D sb T d p _ D' Hok Hib Hch) as Hib'. pose proof (data_map_change H D sb T dd p _ D' Hdm Hch) as Hdm'.
  assert (∀ c, c ∈ file_blocks D' (node D' sb m) → c ≠ inode_block sb (stub m)) as Hap by (intros b; rewrite Efb'; intros Hb; by apply Hri).
  assert (∀ n c v, n ∈ T → child D' sb n c = Some v → v ≠ m) as Hnone.
  { intros n c' u Hn. rewrite Hchild by done. case_decide as E; [done|]. intros Hu' ->. by destruct (Hsole n c' p c Hn Hp Hu' Hc) as [-> ->]; destruct E. }
  do 7 (split; [done|]). pose proof (gone_outside H D' sb T d dd k Hok' Hib' Hdm' Hsz Hm Hkb Hfile' Hap Hnone) as Ho. fold m D2 in Ho.
  assert (∀ n, n ∈ T → n ≠ m → n ∈ T ∖ {[ m ]}) as HT by set_solver. split.
  - exact (gone_ok H D' sb T d dd k Hok' Hib' Hdm' Hsz Hm Hkb Hfile' Hap Hnone).
  - unfold m. rewrite Nat2Z.id. exact (gone_inodes H D' sb T d dd k Hok' Hib' Hdm' Hsz Hm Hkb Hfile' Hap Hnone).
  - rewrite <- Efb'. exact (gone_data H D' sb T d dd k Hok' Hib' Hdm' Hsz Hm Hkb Hfile' Hap Hnone).
  - exists e. rewrite (ou_node _ _ _ _ Ho p) by (by apply HT). rewrite (ch_node _ _ _ _ _ _ Hch p Hp), decide_True by done. by apply (bare_node D sb p (grown_inode e)).
  - intros n Hn Hnm Hnp. rewrite (ou_node _ _ _ _ Ho n) by (by apply HT). by apply Hnode.
  - intros n c' Hn Hnm. rewrite (outside_child _ _ _ _ n c' Ho) by (by apply HT). by apply Hchild.
Qed.

(** Removing the entry and the file, from the two locks on. *)
Lemma remove_two nm m j v w l s4 :
  two_locked h0 H T l0 s i y m j v w l s4 → name_ok nm → child D sb p (name_of nm) = Some m → removable H D sb T l0 m →
  ∃ s5 s6 s7 s8 s', dir_delete_entry i nm s4 = Ok (m, s5) ∧ inode_unlock_free i s5 = Ok (tt, s6) ∧ add_nlink j (-1) s6 = Ok (tt, s7) ∧
    inode_rw j true s7 = Ok (tt, s8) ∧ inode_unlock_free j s8 = Ok (tt, s') ∧
    walk_ok h0 H (T ∖ {[ m ]}) s' ∧ balanced l0 (k_icache s') ∧ moved h0 H s s' (k_disk s') ∧
    removed H D sb T d dd m p (name_of nm) (k_disk s').
Proof.
  intros Htl Hnm Hc Hrv. pose proof Hrv as [(Hmd & Hnl & Hmb) _ _ _ _ Hidle]. pose proof (ft_tree _ _ _ _ Hok) as Ht.
  assert (m ∈ T) as Hm by (by eapply to_child). assert (∃ k, m = Z.of_nat k) as [k ->] by (apply Z_of_nat_complete, (to_num _ _ _ _ Ht m Hm)).
  set (m := Z.of_nat k) in *. assert (k < NBITS)%nat as Hkb by lia. assert (m ≠ p) as Hmp by congruence.
  destruct (unlink_entry h0 H T l0 s Hk Hok i y Hp Hdir nm m j v w l s4 Htl Hnm Hc Hmd)
    as (s5 & s6 & D' & e & l6 & Hdel & Hu & Hch & Hnames & Hj6 & Hic6 & Hh6 & Hst6).
  destruct (change_removed k e (name_of nm) D') as (Hok' & Hib' & Hdm' & Hfile' & Hap & Hnone & Enm & Hrm); try done.
  assert (i_nlink (node D' sb m) = 1) as Hnl' by (by rewrite (Enm : node D' sb m = _)). destruct Htl as [_ _ _ [_ Ew] _ _].
  destruct (last_link_run D' d dd k l6 j w s6) as (s7 & s8 & s' & Ha & Hrw & Hf & Hk' & Hb' & Hw'); try done.
  exists s5, s6, s7, s8, s'. do 7 (split; [done|]). by rewrite (fs_disk _ _ _ _ _ Hw').
Qed.

End two.
End remove.

Lemma path_unlink_last_run {B : BlockDevice} h0 H T s a l n d dd m p c :
  let D := k_disk s in let sb := k_sb s in
  walk_ok h0 H T s → fs_ok H D sb T → inodes_ok H D sb T d → data_map H D sb T dd → (size H + 2 < N_BLOCK_BUF)%nat →
  ref_room (refs (k_icache s)) → origin s a n → n ∈ T → path_ok l → Forall (Forall byte_ok) l.*1 → l ≠ [] →
  unlink_target D sb n (components l) = Some (m, (p, c)) → removable H D sb T (k_icache s) m →
  ∃ s', path_unlink (replicate a SLASH ++ path_text l) s = Ok (0, s') ∧ walk_ok h0 H (T ∖ {[ m ]}) s' ∧
    balanced (k_icache s) (k_icache s') ∧ moved h0 H s s' (k_disk s') ∧ removed H D sb T d dd m p c (k_disk s').
Proof.
  intros D sb Hk Hok Hib Hdm Hsz Hroom Ho Hn Hl Hby Hne Et Hrv. pose proof (unlink_child D sb n (components l)) as Hc. rewrite Et in Hc.
  pose proof (unlink_reach h0 H T s a l n Hk Hok Hroom Ho Hn Hl Hby Hne) as Hreach. fold D sb in Hreach. rewrite Et in Hreach.
  destruct (Hreach (proj1 (rv_file _ _ _ _ _ _ Hrv))) as (i & y & nm & s1 & j & v & w & l' & s5 & -> & Hw1 & Hk1 & Ed & Es & -> & -> & Hnm & Hp & Hpd & Hmu & Htl).
  rewrite <- Ed, <- Es in Hok, Hib, Hdm, Hpd, Hc, Hrv.
  destruct (remove_two h0 H T (k_icache s) Hroom s1 Hk1 Hok d dd Hib Hdm Hsz i y Hp Hpd nm m j v w l' s5 Htl Hnm Hc Hrv)
    as (s6 & s7 & s8 & s9 & s' & Hdel & Hu & Hadd & Hrw & Hf & Hk' & Hb' & Hw' & Hrm). rewrite Ed, Es in Hrm.
  exists s'. unfold unlink_tail. run Hdel. rewrite (proj2 (Z.eqb_neq m INODE_NUM_UNUSED)) by done. mrun. run Hu. run Hadd. run Hrw. run Hf.
  do 3 (split; [done|]). split; [by eapply moved_trans|done].
Qed.

(** ** Creating and removing *)

Lemma balanced_used l l' T : balanced l l' → used_in l T → used_in l' T.
Proof.
  intros [Br Bk] Hu j x Hx Hx0. pose proof (lookup_refs _ _ _ Hx) as E. rewrite Br in E. unfold refs in E. rewrite list_lookup_fmap in E.
  destruct (l !! j) as [z|] eqn:Hz; [|done]. injection E as E. rewrite <- E in Hx0. destruct (Bk j z Hz Hx0) as (x' & Hx' & [En _]). simplify_eq.
  rewrite En. by apply (Hu j).
Qed.

(** A file that was just created can be removed. *)
Section undo.
  Context (H : gmap nat Z) (T : gset Z) (D : gmap Z (list Z)) (sb : super_block) (d : list Z) (k : nat) (ty ma mi p : Z) (c : list Z) (D' : gmap Z (list Z)).
  Context (Hok : fs_ok H D sb T) (Hcr : created H T D sb d k (new_inode ty ma mi (Z.of_nat k)) p c D') (Hty : ty ≠ FT_DIR).

Notation n := (Z.of_nat k).

Lemma created_file : is_dir D' sb n = false.
Proof. unfold is_dir. rewrite (cr_new _ _ _ _ _ _ _ _ _ _ Hcr). by apply Z.eqb_neq. Qed.

Lemma created_empty : file_blocks D' (node D' sb n) = [].
Proof. rewrite (cr_new _ _ _ _ _ _ _ _ _ _ Hcr). by vm_compute. Qed.

Lemma created_sole m c' : m ∈ {[ n ]} ∪ T → child D' sb m c' = Some n → m = p ∧ c' = c.
Proof.
  intros [->%elem_of_singleton|Hm]%elem_of_union.
  - unfold child. by rewrite created_file.
  - rewrite (cr_child _ _ _ _ _ _ _ _ _ _ Hcr m c' Hm). case_decide as E; [done|]. intros Hc.
    destruct (cr_fresh _ _ _ _ _ _ _ _ _ _ Hcr). exact (to_child _ _ _ _ (ft_tree _ _ _ _ Hok) m c' n Hm Hc).
Qed.

Lemma created_removable l : (k < NBITS)%nat → used_in l T → removable H D' sb ({[ n ]} ∪ T) l n.
Proof.
  intros Hk Hu. split.
  - split; [apply created_file|]. rewrite (cr_new _ _ _ _ _ _ _ _ _ _ Hcr). split; [done|lia].
  - rewrite (cr_new _ _ _ _ _ _ _ _ _ _ Hcr). split; [done|]. intros a b Ha Hb. apply lookup_replicate in Ha as [-> _]. done.
  - intros b m Hb. rewrite created_empty in Hb. by apply not_elem_of_nil in Hb.
  - intros b m Hb. rewrite created_empty in Hb. by apply not_elem_of_nil in Hb.
  - intros m e m' e' Hm Hm' He He'. destruct (created_sole m e Hm He), (created_sole m' e' Hm' He'). by subst.
  - intros j x Hx Hn. destruct (decide (i_ref x = 0)) as [|Hr]; [done|]. destruct (cr_fresh _ _ _ _ _ _ _ _ _ _ Hcr). rewrite <- Hn. by apply (Hu j).
Qed.

Lemma created_target m cs : m ∈ T → create_goal D sb d m cs = Some (inr (k, (p, c))) → c ∉ dots → unlink_target D' sb m cs = Some (n, (p, c)).
Proof.
  intros Hm Hg Hd. destruct (created_resolve H T D sb d k _ p c D' m cs Hok Hcr Hm Hg) as [_ Hold].
  destruct (create_goal_new D sb d m cs k p c Hg) as (Er & Hpd & Ec & _). assert (p ∈ T) as Hp by (eapply resolve_in; [apply Hok|exact Hm|exact Er]).
  unfold unlink_target, resolve_parent. rewrite (Hold m _ _ Hm Er). cbn [mbind option_bind].
  assert (is_dir D' sb p = true) as -> by (destruct (cr_dir _ _ _ _ _ _ _ _ _ _ Hcr) as [e Ee]; unfold is_dir in *; by rewrite Ee).
  cbn [mbind option_bind]. rewrite Ec. cbn [mbind option_bind]. rewrite decide_False by done.
  rewrite (cr_child _ _ _ _ _ _ _ _ _ _ Hcr p c Hp), decide_True by done. done.
Qed.

(** Removing it leads back to the tree before. *)
Lemma undo_tree dd D3 :
  least_clear d k → inodes_ok H D sb T d → child D sb p c = None → removed H D' sb ({[ n ]} ∪ T) (set_bit d k) dd n p c D3 →
  (∀ m c', m ∈ T → child D3 sb m c' = child D sb m c') ∧ (∀ m, m ∈ T → m ≠ p → node D3 sb m = node D sb m) ∧
    inodes_ok H D3 sb T d ∧ (∃ dd', data_map H D3 sb T dd' ∧ ∀ j, bit_of dd' j = bit_of dd j) ∧ fs_ok H D3 sb T ∧ ({[ n ]} ∪ T) ∖ {[ n ]} = T.
Proof.
  intros (Hkb & Hclr & _) Hib Hc [R1 R2 (dd' & R3 & Rb) R4 R5 R6]. pose proof (cr_fresh _ _ _ _ _ _ _ _ _ _ Hcr) as Hfr.
  assert (({[ n ]} ∪ T) ∖ {[ n ]} = T) as ET by set_solver. assert (∀ m, m ∈ T → m ∈ {[ n ]} ∪ T ∧ m ≠ n) as HT by set_solver.
  rewrite ET in R1, R2, R3. rewrite Nat2Z.id, clear_set_bit in R2 by (done || apply Hib). rewrite created_empty in Rb.
  split; [|split; [|split; [done|split; [|done]]]].
  - intros m c' Hm. destruct (HT m Hm) as [Hm' Hmn]. rewrite R6 by done. case_decide as E; [by destruct E as [-> ->]|].
    rewrite (cr_child _ _ _ _ _ _ _ _ _ _ Hcr m c' Hm). by rewrite decide_False.
  - intros m Hm Hmp. destruct (HT m Hm) as [Hm' Hmn]. rewrite R5 by done. by apply (cr_node _ _ _ _ _ _ _ _ _ _ Hcr).
  - exists dd'. split; [done|]. intros j. rewrite Rb. by rewrite bool_decide_false, andb_true_r by apply not_elem_of_nil.
Qed.

End undo.

(** ** Claims *)



(** ** Witness: "/a" is removed *)

Lemma a_target : unlink_target create_disk sample_sb 0 (components [([97], 0%nat)]) = Some (1, (0, [97])).
Proof. by vm_compute. Qed.

Lemma a_blocks : file_blocks create_disk (node create_disk sample_sb 1) = [].
Proof. by vm_compute. Qed.

Lemma a_sole n c : n ∈ ({[ 0; 1 ]} : gset Z) → child create_disk sample_sb n c = Some 1 → n = 0 ∧ c = [97].
Proof.
  intros Hn. rewrite (outside_child _ _ _ _ n c create_outside Hn). assert (n = 0 ∨ n = 1) as [-> | ->] by set_solver.
  - unfold child. assert (is_dir tree_disk sample_sb 0 = true) as -> by (by vm_compute). rewrite tree_names.
    intros Hc. apply elem_of_list_to_map_2 in Hc. rewrite !elem_of_cons in Hc. destruct Hc as [[=]|[[=]|[[= ->]|Hc%not_elem_of_nil]]]; done.
  - unfold child. by rewrite tree_file.
Qed.

Lemma a_removable l : refs l = replicate N_INODE 0 → removable ∅ create_disk sample_sb {[ 0; 1 ]} l 1.
Proof.
  intros Hr. split.
  - split; [by vm_compute|]. split; [by vm_compute|]. unfold NBITS, BLOCK_SIZE. lia.
  - split; [by vm_compute|]. intros k b Hb Hne. assert (i_addrs (node create_disk sample_sb 1) = replicate 13 0) as E by (by vm_compute).
    rewrite E in Hb. by apply lookup_replicate in Hb as [-> _].
  - intros c n Hc. rewrite a_blocks in Hc. by apply not_elem_of_nil in Hc.
  - intros c n Hc. rewrite a_blocks in Hc. by apply not_elem_of_nil in Hc.
  - intros n c n' c' Hn Hn' Hc Hc'. destruct (a_sole n c Hn Hc), (a_sole n' c' Hn' Hc'). by subst.
  - intros j x Hx _. pose proof (lookup_refs _ _ _ Hx) as E. rewrite Hr in E. by apply lookup_replicate in E as [? _].
Qed.


(** ** Witness: "/new" is created and removed again *)

