(* ===== verification/File.v ===== *)
(** * Open files (kernel/fs/file.c, include/fs/file.h) and the file system's start
    (kernel/fs/fs.c)

    The table of open files with its reference counts, reading, writing and seeking
    through a file, the device table, and the initialisation of the file system. *)

From S2P Require Import Prelude Bytes Kernel Lock Str Pmem Vm Sched Virtio Buf Bitmap Uvm Inode Dir.

Definition FD_UNUSED : Z := 0.
Definition FD_DIR : Z := 1.
Definition FD_FILE : Z := 2.
Definition FD_DEVICE : Z := 3.
Definition MODE_CREATE : Z := 0x1.
Definition MODE_READ : Z := 0x2.
Definition MODE_WRITE : Z := 0x4.
Definition N_DEV : nat := 10.
Definition N_FILE : nat := 32.

(** ** Access to the table *)

Definition get_file (f : nat) : K file := l ← gets (λ s, k_ftable s); deref "file" (l !! f).

Definition upd_file (f : nat) (g : file → file) : K unit :=
  modify (λ s, set_ftable (alter g f (k_ftable s)) s).

Definition f_set_type (v : Z) (x : file) : file :=
  mk_file v (f_readable x) (f_writable x) (f_ref x) (f_major x) (f_offset x) (f_ip x).
Definition f_set_ref (v : Z) (x : file) : file :=
  mk_file (f_type x) (f_readable x) (f_writable x) v (f_major x) (f_offset x) (f_ip x).
Definition f_set_major (v : Z) (x : file) : file :=
  mk_file (f_type x) (f_readable x) (f_writable x) (f_ref x) v (f_offset x) (f_ip x).
Definition f_set_offset (v : Z) (x : file) : file :=
  mk_file (f_type x) (f_readable x) (f_writable x) (f_ref x) (f_major x) v (f_ip x).
(** The read and write permissions and the inode. *)
Definition f_set_open (r w : bool) (ip : option nat) (x : file) : file :=
  mk_file (f_type x) r w (f_ref x) (f_major x) (f_offset x) ip.

Definition file_init : K unit :=
  spinlock_init LkFtable "ftable";;
  for_each (seq 0 N_FILE) (λ i, upd_file i (f_set_ref 0);; upd_file i (f_set_type FD_UNUSED));;
  for_each (seq 0 N_DEV) (λ i, modify (λ s, set_devlist (<[i := mk_dev None None]> (k_devlist s)) s)).

Definition file_alloc : K nat :=
  spinlock_acquire LkFtable;;
  r ← for_return (seq 0 N_FILE) (λ i,
        x ← get_file i;
        if f_ref x =? 0 then
          upd_file i (f_set_ref 1);;
          spinlock_release LkFtable;;
          mret (Some i)
        else mret None);
  match r with
  | Some i => mret i
  | None => spinlock_release LkFtable;; panic "file_alloc: no free file"
  end.

Definition file_dup (f : nat) : K nat :=
  spinlock_acquire LkFtable;;
  x ← get_file f;
  kassert (0 <? f_ref x) "file_dup: ref";;
  upd_file f (λ x, f_set_ref (u32 (f_ref x + 1)) x);;
  spinlock_release LkFtable;;
  mret f.

Section file.
  Context {B : BlockDevice}.

(** The device functions the table [devlist] can point to. *)
Variable dev_read_fn : nat → Z → dest → K Z.
Variable dev_write_fn : nat → Z → source → K Z.

Definition file_create_dev (path : list Z) (major minor : Z) : K (option nat) :=
  r ← path_create_inode path FT_DEVICE major minor;
  match r with
  | None => mret None
  | Some ip =>
      f ← file_alloc;
      upd_file f (f_set_type FD_DEVICE);;
      upd_file f (f_set_major major);;
      upd_file f (f_set_offset 0);;
      upd_file f (f_set_open true true (Some ip));;
      mret (Some f)
  end.

Definition file_open (path : list Z) (open_mode : Z) : K (option nat) :=
  r ← (if negb (Z.land open_mode MODE_CREATE =? 0) then path_create_inode path FT_FILE 0 0
       else path_to_inode path);
  match r with
  | None => mret None
  | Some i =>
      inode_lock i;;
      f ← file_alloc;
      ip ← get_inode i;
      (if i_type ip =? FT_DIR then upd_file f (f_set_type FD_DIR)
       else if i_type ip =? FT_FILE then upd_file f (f_set_type FD_FILE)
       else if i_type ip =? FT_DEVICE then
         upd_file f (f_set_type FD_DEVICE);; upd_file f (f_set_major (i_major ip))
       else panic "file_open: unknown type");;
      upd_file f (f_set_offset 0);;
      upd_file f (f_set_open (negb (Z.land open_mode MODE_READ =? 0)) (negb (Z.land open_mode MODE_WRITE =? 0)) (Some i));;
      inode_unlock i;;
      mret (Some f)
  end.

Definition file_close (f : nat) : K unit :=
  spinlock_acquire LkFtable;;
  x ← get_file f;
  (if f_ref x <? 1 then panic "file_close: ref < 1" else mret tt);;
  upd_file f (λ x, f_set_ref (u32 (f_ref x - 1)) x);;
  x ← get_file f;
  if f_ref x =? 0 then
    upd_file f (f_set_type FD_UNUSED);;
    upd_file f (f_set_offset 0);;
    upd_file f (f_set_open false false None);;
    spinlock_release LkFtable;;
    if (f_type x =? FD_FILE) || (f_type x =? FD_DIR) || (f_type x =? FD_DEVICE) then
      ip ← deref "file->ip" (f_ip x); inode_free ip
    else mret tt
  else spinlock_release LkFtable.

Definition file_read (f : nat) (len : Z) (dst : dest) : K Z :=
  x ← get_file f;
  if negb (f_readable x) then mret MINUS1
  else if f_type x =? FD_DEVICE then
    if Z.of_nat N_DEV <=? f_major x then mret MINUS1
    else
      l ← gets (λ s, k_devlist s);
      d ← deref "devlist" (l !! Z.to_nat (f_major x));
      match dev_read d with
      | None => mret MINUS1
      | Some fn => dev_read_fn fn len dst
      end
  else if f_type x =? FD_FILE then
    ip ← deref "file->ip" (f_ip x);
    inode_lock ip;;
    r ← inode_read_data ip (f_offset x) len dst;
    upd_file f (λ x, f_set_offset (u32 (f_offset x + fst r)) x);;
    inode_unlock ip;;
    mret (fst r)
  else if f_type x =? FD_DIR then
    ip ← deref "file->ip" (f_ip x);
    inode_lock ip;;
    r ← dir_get_entries ip len dst;
    inode_unlock ip;;
    mret (fst r)
  else mret MINUS1.

Definition file_write (f : nat) (len : Z) (src : source) : K Z :=
  x ← get_file f;
  if negb (f_writable x) then mret MINUS1
  else if f_type x =? FD_DEVICE then
    if Z.of_nat N_DEV <=? f_major x then mret MINUS1
    else
      l ← gets (λ s, k_devlist s);
      d ← deref "devlist" (l !! Z.to_nat (f_major x));
      match dev_write d with
      | None => mret MINUS1
      | Some fn => dev_write_fn fn len src
      end
  else if f_type x =? FD_FILE then
    ip ← deref "file->ip" (f_ip x);
    inode_lock ip;;
    w ← inode_write_data ip (f_offset x) len src;
    upd_file f (λ x, f_set_offset (u32 (f_offset x + w)) x);;
    inode_unlock ip;;
    mret w
  else mret MINUS1.

Definition LSEEK_SET : Z := 0.
Definition LSEEK_ADD : Z := 1.
Definition LSEEK_SUB : Z := 2.

Definition file_lseek (f : nat) (offset flags : Z) : K Z :=
  x ← get_file f;
  if negb (f_type x =? FD_FILE) then mret MINUS1
  else
    i ← deref "file->ip" (f_ip x);
    inode_lock i;;
    x ← get_file f;
    let new_offset :=
      if flags =? LSEEK_SET then Some offset
      else if flags =? LSEEK_ADD then Some (u32 (f_offset x + offset))
      else if flags =? LSEEK_SUB then
        Some (if f_offset x <? offset then 0 else f_offset x - offset)
      else None in
    match new_offset with
    | None => inode_unlock i;; mret MINUS1
    | Some v =>
        ip ← get_inode i;
        if i_size ip <? v then inode_unlock i;; mret MINUS1
        else
          upd_file f (f_set_offset v);;
          inode_unlock i;;
          mret 0
    end.

(** The bytes of a [file_state_t]; [pad] are the two bytes of padding after [nlink]. *)
Definition file_state (ip : inode) (pad : list Z) : list Z :=
  le_bytes 2 (i_type ip) ++ le_bytes 2 (inode_num ip) ++ le_bytes 2 (i_nlink ip) ++ take 2 pad ++
  le_bytes 4 (i_size ip).

Definition file_stat (f : nat) (addr : Z) (pad : list Z) : K Z :=
  x ← get_file f;
  (if (f_type x =? FD_FILE) || (f_type x =? FD_DIR) then
     i ← deref "file->ip" (f_ip x);
     inode_lock i;;
     ip ← get_inode i;
     inode_unlock i;;
     pt ← my_pgtbl;
     uvm_copyout pt addr (file_state ip pad)
   else mret tt);;
  mret (-1).

(** ** The start of the file system (kernel/fs/fs.c) *)

Definition FS_MAGIC : Z := 0x12345678.
Definition SB_BLOCK_NUM : Z := 0.

Definition sb_print : K unit :=
  sb ← gets (λ s, k_sb s);
  printf "\nsuper block information:\n" [];;
  printf "magic = %x\n" [magic sb];;
  printf "block size = %d\n" [block_size sb];;
  printf "inode blocks = %d\n" [inode_blocks sb];;
  printf "data blocks = %d\n" [data_blocks sb];;
  printf "total blocks = %d\n" [total_blocks sb];;
  printf "inode bitmap start = %d\n" [inode_bitmap_start sb];;
  printf "inode start = %d\n" [inode_start sb];;
  printf "data bitmap start = %d\n" [data_bitmap_start sb];;
  printf "data start = %d\n" [data_start sb].

(** [memmove(&sb, buf->data, sizeof(sb))] *)
Definition sb_of (d : list Z) : super_block :=
  let w := λ k, le_val (slice (4 * k) 4 d) in
  mk_super_block (w 0%nat) (w 1%nat) (w 2%nat) (w 3%nat) (w 4%nat) (w 5%nat) (w 6%nat) (w 7%nat) (w 8%nat).

(** Up to the endless loop at its end. *)
Definition fs_setup : K unit :=
  buf_init;;
  b ← buf_read SB_BLOCK_NUM;
  x ← get_buf b;
  modify (set_sb (sb_of (data x)));;
  sb ← gets (λ s, k_sb s);
  kassert (magic sb =? FS_MAGIC) "fs_init: magic";;
  kassert (block_size sb =? BLOCK_SIZE) "fs_init: block size";;
  buf_release b;;
  sb_print;;
  inode_init;;
  printf "\nFile system initialized\n" [];;
  i ← inode_alloc INODE_ROOT;
  inode_lock i;;
  dir_print i;;
  dir_add_entry i 1 (bytes_of "a.txt");;
  dir_add_entry i 2 (bytes_of "b.txt");;
  dir_add_entry i 3 (bytes_of "c.txt");;
  dir_print i;;
  r ← dir_search_entry i (bytes_of "b.txt");
  kassert (r =? 2) "error-1";;
  dir_delete_entry i (bytes_of "a.txt");;
  dir_print i;;
  dir_add_entry i 1 (bytes_of "d.txt");;
  dir_print i;;
  r ← dir_add_entry i 4 (bytes_of "d.txt");
  kassert (r =? BLOCK_SIZE) "error-2";;
  inode_unlock i;;
  printf "over" [].

(** [while (1);] *)
Definition fs_init : K unit := fs_setup;; hang.

End file.

(** ** Theory *)

Section proofs.
  Context {B : BlockDevice}.
  Variable dev_write_fn : nat → Z → source → K Z.

(** Entry [f] of the table is an open regular file whose inode [ip], cached as [i], is
    loaded and not locked. *)
Record open_file (s : kstate) (f : nat) (x : file) (i : nat) (ip : inode) : Prop := {
  of_entry : k_ftable s !! f = Some x;
  of_type : f_type x = FD_FILE;
  of_ip : f_ip x = Some i;
  of_inode : k_icache s !! i = Some ip;
  of_valid : i_valid ip = true;
  of_lock : lock_idle (LkInode i) s }.

(** Where [file_lseek] moves to; [None] is refused. *)
Definition lseek_target (pos size offset flags : Z) : option Z :=
  v ← (if flags =? LSEEK_SET then Some offset
       else if flags =? LSEEK_ADD then Some ((pos + offset) mod 2^32)
       else if flags =? LSEEK_SUB then Some (Z.max 0 (pos - offset)) else None);
  if decide (v ≤ size) then Some v else None.

Lemma get_file_run f s x : k_ftable s !! f = Some x → get_file f s = Ok (x, s).
Proof. intros E. unfold get_file. mrun. by rewrite E. Qed.

Lemma inode_lock_run s f x i ip : open_file s f x i ip → inode_lock i s = Ok (tt, acq (LkInode i) s).
Proof.
  intros []. unfold inode_lock. run (acquire_run (LkInode i) s (lock_idle_unlocked _ _ of_lock0)).
  run (get_inode_run i (acq (LkInode i) s) ip of_inode0). by rewrite of_valid0.
Qed.

Lemma bcache_ftable h0 H s l : bcache h0 H s → bcache h0 H (set_ftable l s).
Proof.
  intros [Hst Hh Hl (r & Hr & Hpl) Hlk Hb Hd Hu Hdv]. split; try done.
  - exists r. split; [|done]. apply (ring_same s); [by intros []|done|done].
  - by apply (dev_idle_frame s).
Qed.

Lemma fs_step_ftable h0 H s s' D l : fs_step h0 H s s' D → fs_step h0 H (set_ftable l s) (set_ftable l s') D.
Proof. intros [Hc Hd Hh [E L]]. split; [by apply bcache_ftable|done|done|]. split; [by rewrite E at 1|done]. Qed.

Lemma fs_step_ftable_eq h0 H s s' D : fs_step h0 H s s' D → k_ftable s' = k_ftable s.
Proof. intros [_ _ _ [E _]]. by rewrite E. Qed.

Lemma file_lseek_run s f x i ip offset flags :
  hart_stable (k_hart s) → open_file s f x i ip →
  file_lseek f offset flags s =
    match lseek_target (f_offset x) (i_size ip) offset flags with
    | Some v => Ok (0, set_ftable (<[f := f_set_offset v x]> (k_ftable s)) s)
    | None => Ok (MINUS1, s)
    end.
Proof.
  intros Hst Ho. destruct Ho as [He Ht Hip Hi Hv Hid] eqn:EHo. unfold file_lseek, lseek_target.
  run (get_file_run f s x He). rewrite Ht. cbn [negb Z.eqb FD_FILE]. rewrite Hip. mrun.
  run (inode_lock_run s f x i ip Ho). run (get_file_run f (acq (LkInode i) s) x He).
  assert (∀ A (k : unit → K A), (inode_unlock i ≫= k) (acq (LkInode i) s) = k tt s) as Hun.
  { intros A k. unfold inode_unlock. rewrite (release_bind (LkInode i) s) by done. by destruct s. }
  replace (if f_offset x <? offset then 0 else f_offset x - offset) with (Z.max 0 (f_offset x - offset))
    by (destruct (f_offset x <? offset) eqn:E; zbool; lia).
  change (u32 ?v) with (v mod 2^32).
  destruct (if flags =? LSEEK_SET then _ else _) as [v|]; cbn [mbind option_bind]; [|by rewrite Hun].
  run (get_inode_run i (acq (LkInode i) s) ip Hi). destruct (i_size ip <? v) eqn:E; zbool.
  - rewrite decide_False by lia. by rewrite Hun.
  - rewrite decide_True by lia. unfold upd_file, inode_unlock. mrun. rewrite (release_bind (LkInode i) s) by done.
    mrun. do 2 f_equal. cbn [k_ftable acq set_locks set_hart]. rewrite (alter_insert _ _ _ x He). by destruct s.
Qed.

Lemma file_write_run h0 H s f x i ip nb l d :
  let off := f_offset x in let len := Z.of_nat (length l) in let ib := inode_block (k_sb s) ip in
  bcache h0 H s → open_file s f x i ip → f_writable x = true → 0 ≤ off → off + len ≤ nb * BLOCK_SIZE →
  nb * BLOCK_SIZE ≤ INODE_MAXSIZE → file_ready H (k_disk s) ip 0 (nb * BLOCK_SIZE) →
  file_separate (k_disk s) ip nb → readable H (k_disk s) ib d → inode_apart (k_disk s) ip nb ib →
  ∃ s', file_write dev_write_fn f len (SrcBytes l) s = Ok (len, s') ∧
    k_ftable s' = <[f := f_set_offset (off + len) x]> (k_ftable s) ∧
    open_file s' f (f_set_offset (off + len) x) i (grown_inode (off + len) ip) ∧
    file_updated H (k_disk s) ip nb off l ib (k_disk s') ∧ bcache h0 H s'.
Proof.
  intros off len ib Hc Ho Hw Ho0 Hhi Hmax Hrdy Hsep Hib Hap. destruct Ho as [He Ht Hip Hi Hv Hid] eqn:EHo.
  unfold file_write. run (get_file_run f s x He). rewrite Hw, Ht. cbn [negb Z.eqb FD_FILE FD_DEVICE]. rewrite Hip. mrun.
  run (inode_lock_run s f x i ip Ho). set (sa := acq (LkInode i) s).
  pose proof (bcache_acq h0 H s (LkInode i) (inode_other i) Hc) as Hca. fold sa in Hca.
  destruct (inode_write_data_run (hart_push h0) H sa i ip nb l off d) as (s1 & D' & Hwr & Hst & Hfu); try done.
  run Hwr. unfold upd_file. mrun. rewrite (fs_step_ftable_eq _ _ _ _ _ Hst).
  cbn [k_ftable set_icache sa acq set_locks set_hart]. rewrite (alter_insert _ _ _ x He).
  rewrite u32_small by (assert (INODE_MAXSIZE = 67643392) by done; fold off len; lia).
  set (ft := <[f := f_set_offset (off + len) x]> (k_ftable s)).
  set (ic := <[i := grown_inode (off + len) ip]> (k_icache s)).
  destruct (fs_step_section h0 H (set_ftable ft (set_icache ic s)) (set_ftable ft s1) D' (LkInode i)) as [Hr Hst2].
  - apply inode_other.
  - by apply bcache_ftable, bcache_icache.
  - exact Hid.
  - by apply (fs_step_ftable _ _ _ _ _ ft) in Hst.
  - unfold inode_unlock. run Hr. mrun. pose proof (fs_step_icache _ _ _ _ _ Hst2) as Ei.
    pose proof (fs_step_ftable_eq _ _ _ _ _ Hst2) as Ef. eexists. split; [done|]. split; [exact Ef|].
    rewrite (fs_disk _ _ _ _ _ Hst2). split; [|split; [exact Hfu|apply Hst2]].
    assert (∀ A (m : list A) k v, m !! k = Some v → ∀ w, <[k := w]> m !! k = Some w) as Hins
      by (intros A m k v Hm w; apply list_lookup_insert_eq; by eapply lookup_lt_Some).
    split; [by rewrite Ef; eapply Hins|done|done|by rewrite Ei; eapply Hins|done|].
    destruct Hid as [nm Hid]. exists nm. destruct Hst2 as [_ _ _ [_ L]]. by rewrite L.
Qed.

(** ** Claims *)

(** C28: [file_lseek] on an open file moves the offset to the place its flags ask for (set,
    forward modulo 2^32, back but not below 0) exactly when the flags are known and the
    place is not past the end of the file, and otherwise fails and changes nothing; the
    inode lock and the interrupt state are as before. *)
Theorem file_lseek_correct (s : kstate) (f : nat) (x : file) (i : nat) (ip : inode) (offset flags : Z) :
  hart_stable (k_hart s) → open_file s f x i ip → 0 ≤ offset →
  match lseek_target (f_offset x) (i_size ip) offset flags with
  | Some v => 0 ≤ v ≤ i_size ip ∧
      file_lseek f offset flags s = Ok (0, set_ftable (<[f := f_set_offset v x]> (k_ftable s)) s)
  | None => file_lseek f offset flags s = Ok (MINUS1, s)
  end.
Proof.
  intros Hst Ho H0. rewrite (file_lseek_run s f x i ip) by done.
  destruct (lseek_target _ _ _ _) as [v|] eqn:E; [|done]. split; [|done]. unfold lseek_target in E.
  destruct (flags =? LSEEK_SET); [|destruct (flags =? LSEEK_ADD); [|destruct (flags =? LSEEK_SUB)]];
    cbn [mbind option_bind] in E; try done; case_decide; simplify_eq; [lia| |lia].
  split; [|done]. by apply Z.mod_pos_bound.
Qed.

(** C17: [file_write] to an open file within its mapped blocks stores the bytes at the
    file's offset, advances the offset by their number and extends the size; seeking back
    by that number succeeds, restores the table, and leaves the written bytes where the
    offset points. *)
Theorem file_write_seek_back (h0 : hart) (H : gmap nat Z) (s : kstate) (f : nat) (x : file) (i : nat)
    (ip : inode) (nb : Z) (l d : list Z) :
  let off := f_offset x in let len := Z.of_nat (length l) in let ib := inode_block (k_sb s) ip in
  bcache h0 H s → open_file s f x i ip → f_writable x = true → 0 ≤ off → off + len ≤ nb * BLOCK_SIZE →
  nb * BLOCK_SIZE ≤ INODE_MAXSIZE → file_ready H (k_disk s) ip 0 (nb * BLOCK_SIZE) →
  file_separate (k_disk s) ip nb → readable H (k_disk s) ib d → inode_apart (k_disk s) ip nb ib →
  ∃ s1 s2, file_write dev_write_fn f len (SrcBytes l) s = Ok (len, s1) ∧
    open_file s1 f (f_set_offset (off + len) x) i (grown_inode (off + len) ip) ∧
    file_lseek f len LSEEK_SUB s1 = Ok (0, s2) ∧ k_ftable s2 = k_ftable s ∧ bcache h0 H s2 ∧
    file_updated H (k_disk s) ip nb off l ib (k_disk s2) ∧ file_bytes (k_disk s2) ip off (length l) = l.
Proof.
  intros off len ib Hc Ho Hw Ho0 Hhi Hmax Hrdy Hsep Hib Hap.
  destruct (file_write_run h0 H s f x i ip nb l d) as (s1 & Hr & Ef & Ho1 & Hfu & Hc1); try done.
  pose proof (file_lseek_run s1 _ _ _ _ len LSEEK_SUB (bcache_stable _ _ _ Hc1) Ho1) as Hls.
  assert (lseek_target (off + len) (Z.max (i_size ip) (off + len)) len LSEEK_SUB = Some off) as Et.
  { unfold lseek_target. simpl. rewrite decide_True by lia. f_equal. lia. }
  change (f_offset (f_set_offset ?v x)) with v in Hls. change (i_size (grown_inode ?v ip)) with (Z.max (i_size ip) v) in Hls.
  fold off len in Hls. rewrite Et in Hls.
  exists s1. eexists. split; [exact Hr|]. split; [exact Ho1|]. split; [exact Hls|].
  cbn [k_ftable k_disk set_ftable]. split; [|split; [by apply bcache_ftable|split; [done|by eapply updated_bytes]]].
  rewrite Ef, list_insert_insert_eq. apply list_insert_id. rewrite (of_entry _ _ _ _ _ Ho). by destruct x.
Qed.

End proofs.

(** ** Witnesses: descriptor 0 open on the sample file. *)

Definition sample_open : file := mk_file FD_FILE true true 1 0 1000 (Some 0%nat).

Lemma sample_open_ok :
  ∃ s, @bcache virtio_block_device (k_hart sample_boot) ∅ s ∧ k_disk s = sample_files ∧ k_sb s = sample_sb ∧
    k_ftable s = [sample_open] ∧ open_file s 0 sample_open 0 sample_file.
Proof.
  destruct (sample_fs sample_file) as (s & Hc & Ed & Es & Ei). set (l := mk_spinlock 0 "inode" (-1)).
  exists (set_ftable [sample_open] (set_locks (<[LkInode 0 := l]> (k_locks s)) s)).
  split; [|split; [exact Ed|split; [exact Es|split; [done|split; try done]]]].
  - apply bcache_ftable, bcache_locks; try done. by intros [?|[? ?]].
  - cbn [k_icache set_ftable set_locks]. by rewrite Ei.
  - exists "inode"%string. cbn [k_locks set_ftable set_locks]. apply lookup_insert_eq.
Qed.

Lemma file_lseek_correct_witness : ∃ s s', file_lseek 0 (2^32 - 1) LSEEK_ADD s = Ok (0, s') ∧
  k_ftable s' = [mk_file FD_FILE true true 1 0 999 (Some 0%nat)].
Proof.
  destruct sample_open_ok as (s & Hc & _ & _ & Ef & Ho).
  pose proof (file_lseek_correct s 0 sample_open 0 sample_file (2^32 - 1) LSEEK_ADD) as Hl.
  change (lseek_target _ _ _ _) with (Some 999) in Hl.
  destruct Hl as [_ Hl]; [by eapply bcache_stable|done|lia|].
  eexists s, _. split; [exact Hl|]. cbn [k_ftable set_ftable]. by rewrite Ef.
Defined.

Lemma file_write_seek_back_witness :
  ∃ s s1 s2, @file_write virtio_block_device (λ _ _ _, mret 0) 0 (Z.of_nat 3) (SrcBytes [1; 2; 3]) s =
      Ok (Z.of_nat 3, s1) ∧
    file_lseek 0 (Z.of_nat 3) LSEEK_SUB s1 = Ok (0, s2) ∧ file_bytes (k_disk s2) sample_file 1000 3 = [1; 2; 3].
Proof.
  destruct sample_open_ok as (s & Hc & Ed & Es & _ & Ho).
  destruct (@file_write_seek_back virtio_block_device (λ _ _ _, mret 0) _ ∅ s 0 sample_open 0 sample_file 1 [1; 2; 3]
    (replicate 1024 0) Hc Ho) as (s1 & s2 & Hw & _ & Hl & _ & _ & _ & Hb); rewrite ?Es, ?Ed.
  - done.
  - done.
  - by vm_compute.
  - by vm_compute.
  - apply sample_mapped.
  - apply sample_mapped.
  - by apply sample_readable.
  - apply sample_mapped.
  - exists s, s1, s2. split; [exact Hw|]. split; [exact Hl|exact Hb].
Defined.
