(* ===== verification/Open.v ===== *)
(** * Opening a file by path and closing it (file_open and file_close of kernel/fs/file.c)

    The file table over the walk of Path.v.  The theorem: [file_open] of a path that leads
    to an inode takes the first free entry of the table and describes that inode with it;
    [file_close] gives back the entry and the reference to the inode, so that nothing is
    held any more. *)

From S2P Require Import Prelude Bytes Kernel Lock Str Pmem Vm Sched Virtio Buf Bitmap Uvm Inode Dir Path File.

(** The type of an open file by the type of its inode. *)
Definition open_type (ip : inode) : option Z :=
  if i_type ip =? FT_DIR then Some FD_DIR
  else if i_type ip =? FT_FILE then Some FD_FILE
  else if i_type ip =? FT_DEVICE then Some FD_DEVICE
  else None.

(** What [file_open] writes into the free entry [y] for the inode [ip] in slot [j]. *)
Definition open_entry (ty : Z) (ip : inode) (j : nat) (mode : Z) (y : file) : file :=
  mk_file ty (negb (Z.land mode MODE_READ =? 0)) (negb (Z.land mode MODE_WRITE =? 0)) 1
    (if i_type ip =? FT_DEVICE then i_major ip else f_major y) 0 (Some j).

(** What [file_close] leaves of the entry. *)
Definition closed_entry (x : file) : file := mk_file FD_UNUSED false false 0 (f_major x) 0 None.

(** The first free entry. *)
Definition free_file (ft : list file) (f : nat) (y : file) : Prop :=
  ft !! f = Some y ∧ f_ref y = 0 ∧ ∀ g z, (g < f)%nat → ft !! g = Some z → f_ref z ≠ 0.

Section proofs.
  Context {B : BlockDevice}.

Lemma file_alloc_run s f y :
  hart_stable (k_hart s) → lock_idle LkFtable s → length (k_ftable s) = N_FILE → free_file (k_ftable s) f y →
  file_alloc s = Ok (f, set_ftable (<[f := f_set_ref 1 y]> (k_ftable s)) s).
Proof.
  intros Hst Hid Hlen (Hf & Hr & Hb). unfold file_alloc. run (acquire_run LkFtable s (lock_idle_unlocked _ _ Hid)).
  assert (f < N_FILE)%nat as Hlt by (rewrite <- Hlen; by eapply lookup_lt_Some).
  set (sa := acq LkFtable s). rewrite (seq_split N_FILE f Hlt).
  erewrite bind_ok; [|apply for_return_some with (r := f)].
  - mrun. reflexivity.
  - intros g Hg%elem_of_seq. destruct (lookup_lt_is_Some_2 (k_ftable s) g) as [z Hz]; [lia|].
    run (get_file_run g sa z Hz). by rewrite (proj2 (Z.eqb_neq _ _) (Hb g z ltac:(lia) Hz)).
  - run (get_file_run f sa y Hf). rewrite Hr, Z.eqb_refl. unfold upd_file. mrun.
    rewrite (release_bind LkFtable s) by done. mrun. do 2 f_equal. cbn [k_ftable sa acq set_locks set_hart].
    rewrite (alter_insert _ _ _ y Hf). by destruct s.
Qed.

Lemma walk_ok_ftable h0 H T s l : walk_ok h0 H T s → walk_ok h0 H T (set_ftable l s).
Proof. intros [Hc Hsz Hil Hl Ht Hi]. split; try done. by apply bcache_ftable. Qed.

(** After opening: entry [f] stands for inode [m] in slot [j], which has the reference. *)
Record file_opened (h0 : hart) (H : gmap nat Z) (T : gset Z) (s : kstate) (mode : Z) (f : nat) (y : file)
    (m : Z) (ty : Z) (j : nat) (s' : kstate) : Prop := {
  fo_walk : walk_ok h0 H T s';
  fo_held : held (k_icache s) (k_icache s') j m;
  fo_inode : ∃ r, k_icache s' !! j = Some (i_set_ref r (node (k_disk s) (k_sb s) m));
  fo_table : k_ftable s' = <[f := open_entry ty (node (k_disk s) (k_sb s) m) j mode y]> (k_ftable s);
  fo_idle : lock_idle LkFtable s';
  fo_rest : fs_step h0 H (set_ftable (k_ftable s') (set_icache (k_icache s') s)) s' (k_disk s) }.

(** The part of [file_open] between the two locks. *)
Lemma fill_entry_run {A} s j f mode y ip ty (k : K A) :
  k_icache s !! j = Some ip → k_ftable s !! f = Some (f_set_ref 1 y) → open_type ip = Some ty →
  (ip ← get_inode j;
   (if i_type ip =? FT_DIR then upd_file f (f_set_type FD_DIR)
    else if i_type ip =? FT_FILE then upd_file f (f_set_type FD_FILE)
    else if i_type ip =? FT_DEVICE then
      upd_file f (f_set_type FD_DEVICE);; upd_file f (f_set_major (i_major ip))
    else panic "file_open: unknown type");;
   upd_file f (f_set_offset 0);;
   upd_file f (f_set_open (negb (Z.land mode MODE_READ =? 0)) (negb (Z.land mode MODE_WRITE =? 0)) (Some j));; k) s =
  k (set_ftable (<[f := open_entry ty ip j mode y]> (k_ftable s)) s).
Proof.
  intros Hj Hf Ht. run (get_inode_run j s ip Hj). unfold upd_file, open_type, open_entry in *.
  destruct (i_type ip =? FT_DIR) eqn:E1; [|destruct (i_type ip =? FT_FILE) eqn:E2; [|destruct (i_type ip =? FT_DEVICE) eqn:E3]];
    simplify_eq; mrun; f_equal; cbn [k_ftable set_ftable]; rewrite !alter_alter, (alter_insert _ _ _ _ Hf); destruct s; try done;
    (replace (i_type ip =? FT_DEVICE) with false by (zbool; symmetry; apply Z.eqb_neq; unfold FT_DEVICE, FT_DIR, FT_FILE in *; lia)); done.
Qed.

(** [file_open] once it has the slot of the inode. *)
Lemma open_slot_run h0 H T s j x mode f y ty :
  walk_ok h0 H T s → k_icache s !! j = Some x → inode_num x ∈ T →
  lock_idle LkFtable s → length (k_ftable s) = N_FILE → free_file (k_ftable s) f y →
  let x' := loaded (k_disk s) (k_sb s) x in
  let ic := <[j := x']> (k_icache s) in
  let ft := <[f := open_entry ty x' j mode y]> (k_ftable s) in
  open_type x' = Some ty →
  ∃ s', (inode_lock j;;
         f ← file_alloc;
         ip ← get_inode j;
         (if i_type ip =? FT_DIR then upd_file f (f_set_type FD_DIR)
          else if i_type ip =? FT_FILE then upd_file f (f_set_type FD_FILE)
          else if i_type ip =? FT_DEVICE then
            upd_file f (f_set_type FD_DEVICE);; upd_file f (f_set_major (i_major ip))
          else panic "file_open: unknown type");;
         upd_file f (f_set_offset 0);;
         upd_file f (f_set_open (negb (Z.land mode MODE_READ =? 0)) (negb (Z.land mode MODE_WRITE =? 0)) (Some j));;
         inode_unlock j;;
         mret (Some f)) s = Ok (Some f, s') ∧
    walk_ok h0 H T s' ∧ fs_step h0 H (set_ftable ft (set_icache ic s)) s' (k_disk s).
Proof.
  intros Hk Hx HT Hid Hlen Hff x' ic ft Hty. destruct (lock_load_run h0 H T s j x Hk Hx HT) as (s2 & Hlk & Hst).
  fold x' ic in Hst. pose proof (fs_step_ftable_eq _ _ _ _ _ Hst) as EF. change (k_ftable (acq _ _)) with (k_ftable s) in EF.
  assert (lock_idle LkFtable s2) as Hid2.
  { apply (fs_frame_idle (acq (LkInode j) (set_icache ic s)) s2 LkFtable ltac:(done)); [apply Hst|by apply acq_idle]. }
  assert (f < length (k_ftable s))%nat as Hlt by (destruct Hff as [Hf _]; by eapply lookup_lt_Some).
  run Hlk. run (file_alloc_run s2 f y (bcache_stable _ _ _ (fs_cache _ _ _ _ _ Hst)) Hid2 ltac:(by rewrite EF) ltac:(by rewrite EF)).
  rewrite EF. set (s3 := set_ftable _ s2).
  rewrite (fill_entry_run s3 j f mode y x' ty); [| |cbn [k_ftable s3 set_ftable]; by apply list_lookup_insert_eq|done].
  2:{ cbn [k_icache s3 set_ftable]. rewrite (fs_step_icache _ _ _ _ _ Hst). apply list_lookup_insert_eq. by eapply lookup_lt_Some. }
  cbn [k_ftable s3 set_ftable]. rewrite list_insert_insert_eq. fold ft. change (set_ftable ft s3) with (set_ftable ft s2).
  assert (j < N_INODE)%nat as Hj by (rewrite <- (ic_len _ _ _ _ (wk_icache _ _ _ _ Hk)); by eapply lookup_lt_Some).
  destruct (fs_step_section h0 H (set_ftable ft (set_icache ic s)) (set_ftable ft s2) (k_disk s) (LkInode j)) as [Hu Hst4].
  - apply inode_other.
  - apply bcache_ftable, bcache_icache, Hk.
  - exact (wk_lock _ _ _ _ Hk j Hj).
  - exact (fs_step_ftable _ _ _ _ _ ft Hst).
  - unfold inode_unlock. run Hu. eexists. split; [done|]. split; [|exact Hst4].
    apply (walk_ok_step h0 H T (set_ftable ft s) ic); [by apply walk_ok_ftable|exact Hst4|].
    apply icache_ok_loaded; [apply Hk|done].
Qed.

Lemma file_open_run h0 H T s a l n mode f y m ty :
  walk_ok h0 H T s → ref_room (refs (k_icache s)) → origin s a n → n ∈ T → path_ok l → Forall (Forall byte_ok) l.*1 →
  lock_idle LkFtable s → length (k_ftable s) = N_FILE → free_file (k_ftable s) f y →
  Z.land mode MODE_CREATE = 0 → resolve (k_disk s) (k_sb s) n (components l) = Some m →
  open_type (node (k_disk s) (k_sb s) m) = Some ty →
  ∃ j s', file_open (replicate a SLASH ++ path_text l) mode s = Ok (Some f, s') ∧
    file_opened h0 H T s mode f y m ty j s'.
Proof.
  intros Hk Hroom Ho HT Hl Hb Hid Hlen Hff Hmode Hres Hty.
  destruct (path_to_inode_run h0 H T s a l n Hk Hroom Ho HT Hl Hb) as (slot & s1 & Hp & [Hk1 Hw1 Hs1]).
  rewrite Hres in Hs1. destruct Hs1 as (j & -> & Hh1). destruct (held_lookup _ _ _ _ Hh1) as (x & Hx & Hxm).
  assert (m ∈ T) as HmT by (eapply resolve_in; [apply Hk|exact HT|exact Hres]).
  assert (k_ftable s1 = k_ftable s) as EF by (by rewrite (fs_step_ftable_eq _ _ _ _ _ Hw1)).
  pose proof (fs_disk _ _ _ _ _ Hw1) as ED. pose proof (fs_step_sb _ _ _ _ _ Hw1) as ES. cbn [k_sb set_icache] in ES.
  assert (lock_idle LkFtable s1) as Hid1 by (by apply (fs_frame_idle (set_icache (k_icache s1) s) s1 LkFtable ltac:(done)), Hid; apply Hw1).
  assert (loaded (k_disk s1) (k_sb s1) x = i_set_ref (i_ref x) (node (k_disk s) (k_sb s) m)) as Ex
    by (unfold loaded; by rewrite ED, ES, Hxm).
  destruct (open_slot_run h0 H T s1 j x mode f y ty) as (s2 & Hr & Hk2 & Hst); try done; [by rewrite Hxm|by rewrite EF|by rewrite EF|by rewrite Ex|].
  rewrite Ex, EF in Hst. set (ic := <[j := _]> (k_icache s1)) in Hst. set (ft := <[f := _]> (k_ftable s)) in Hst.
  assert (k_icache s2 = ic) as Eic by (by rewrite (fs_step_icache _ _ _ _ _ Hst)).
  assert (k_ftable s2 = ft) as Eft by (by rewrite (fs_step_ftable_eq _ _ _ _ _ Hst)).
  exists j, s2. split; [unfold file_open; rewrite Hmode; cbn [Z.eqb negb]; run Hp; exact Hr|].
  split; rewrite ?Eic, ?Eft; [done| |exists (i_ref x); apply list_lookup_insert_eq; by eapply lookup_lt_Some|done| |].
  - unfold ic. rewrite <- Ex. by apply held_loaded.
  - by apply (fs_frame_idle (set_ftable ft (set_icache ic s1)) s2 LkFtable ltac:(done)), Hid1; apply Hst.
  - rewrite ED in Hst. eapply fs_step_trans; [|exact Hst]. exact (fs_step_ftable _ _ _ _ _ ft (fs_step_set_icache _ _ _ _ _ ic Hw1)).
Qed.

(** [file_close] of the only reference to an entry of an inode with links. *)
Lemma file_close_last s f x j ip :
  hart_stable (k_hart s) → lock_idle LkFtable s → lock_idle LkIcache s →
  k_ftable s !! f = Some x → f_ref x = 1 → f_type x ∈ [FD_FILE; FD_DIR; FD_DEVICE] → f_ip x = Some j →
  k_icache s !! j = Some ip → i_nlink ip ≠ 0 →
  file_close f s = Ok (tt, set_icache (<[j := i_set_ref (u32 (i_ref ip - 1)) ip]> (k_icache s))
    (set_ftable (<[f := closed_entry x]> (k_ftable s)) s)).
Proof.
  intros Hst Hid Hic Hf Hr Hty Hip Hj Hn. unfold file_close. run (acquire_run LkFtable s (lock_idle_unlocked _ _ Hid)).
  set (sa := acq LkFtable s). run (get_file_run f sa x Hf). rewrite Hr. cbn [Z.ltb Z.compare Pos.compare Pos.compare_cont]. mrun.
  unfold upd_file. mrun. cbn [k_ftable sa acq set_locks set_hart]. rewrite (alter_insert _ _ _ x Hf), Hr.
  change (u32 (1 - 1)) with 0. set (s1 := set_ftable _ _).
  assert (k_ftable s1 !! f = Some (f_set_ref 0 x)) as Hf1 by (apply list_lookup_insert_eq; by eapply lookup_lt_Some).
  run (get_file_run f s1 _ Hf1). cbn [f_ref f_set_ref f_type f_ip]. rewrite Z.eqb_refl. mrun. cbn [k_ftable set_ftable s1].
  rewrite !alter_alter. erewrite alter_insert by (apply list_lookup_insert_eq; by eapply lookup_lt_Some).
  rewrite list_insert_insert_eq. rewrite (release_bind LkFtable s) by done. set (ft := <[f := _]> (k_ftable s)).
  assert ((f_type x =? FD_FILE) || (f_type x =? FD_DIR) || (f_type x =? FD_DEVICE) = true) as ->.
  { rewrite !elem_of_cons, elem_of_nil in Hty. by destruct Hty as [-> |[-> |[-> |[]]]]. }
  rewrite Hip. mrun. set (s2 := set_hart _ _). rewrite (inode_free_run s2 j ip) by done. by destruct s.
Qed.

Lemma close_opened_run h0 H T s mode f y m ty j s1 :
  ref_room (refs (k_icache s)) → m ∈ T → i_nlink (node (k_disk s) (k_sb s) m) ≠ 0 → (f < length (k_ftable s))%nat →
  open_type (node (k_disk s) (k_sb s) m) = Some ty → file_opened h0 H T s mode f y m ty j s1 →
  ∃ s2, file_close f s1 = Ok (tt, s2) ∧ walk_ok h0 H T s2 ∧ balanced (k_icache s) (k_icache s2) ∧
    k_ftable s2 = <[f := closed_entry (open_entry ty (node (k_disk s) (k_sb s) m) j mode y)]> (k_ftable s) ∧
    fs_step h0 H (set_ftable (k_ftable s2) (set_icache (k_icache s2) s)) s2 (k_disk s).
Proof.
  intros Hroom HmT Hnl Hlt Hty [Hk1 Hh1 (r & Hj) Hft Hid1 Hst]. set (nd := node (k_disk s) (k_sb s) m) in *.
  set (x := open_entry ty nd j mode y) in *. pose proof (wk_icache _ _ _ _ Hk1) as Hic.
  assert (k_ftable s1 !! f = Some x) as Hx by (rewrite Hft; by apply list_lookup_insert_eq).
  pose proof (file_close_last s1 f x j (i_set_ref r nd)) as Hcl.
  eexists. split; [apply Hcl; try done|].
  - apply (bcache_stable h0 H), Hk1.
  - apply Hk1.
  - cbn [x open_entry f_type]. unfold open_type in Hty.
    repeat (destruct (_ =? _); [simplify_eq; rewrite !elem_of_cons; tauto|]). done.
  - clear Hcl. cbn [k_icache k_ftable set_icache set_ftable]. set (ic2 := <[j := _]> (k_icache s1)). split; [|split; [|split]].
    + apply (walk_ok_step h0 H T (set_ftable (<[f := closed_entry x]> (k_ftable s1)) s1) ic2);
        [by apply walk_ok_ftable|apply walked_update, bcache_ftable, Hk1|].
      eapply icache_ok_insert; [exact Hic|exact Hj| |by left]. apply (coherent_ref _ _ _ (i_set_ref r nd)), (ic_coherent _ _ _ _ Hic j _ Hj).
    + by apply (held_drop _ _ j m (i_set_ref r nd)).
    + by rewrite Hft, list_insert_insert_eq.
    + exact (fs_step_set_icache _ _ _ _ _ ic2 (fs_step_ftable _ _ _ _ _ (<[f := closed_entry x]> (k_ftable s1)) Hst)).
Qed.

(** ** Claims *)

(** C26: opening and closing.  [file_open] without the create flag, of a path the walk
    resolves to an inode of a known type, takes the first free entry of the file table for
    that inode: type, permissions and device number as inode and mode say, offset 0, one
    reference, and one reference on the inode's slot; of a path the walk does not resolve
    it returns NULL.  [file_close] of the new descriptor resets the entry and drops the
    reference: every slot of the inode cache has the references it had before, the disk,
    the other entries of the table and all locks are as before. *)
Theorem file_open_close (h0 : hart) (H : gmap nat Z) (T : gset Z) (s : kstate) (a : nat)
    (l : list (list Z * nat)) (n mode : Z) (f : nat) (y : file) :
  walk_ok h0 H T s → ref_room (refs (k_icache s)) → origin s a n → n ∈ T → path_ok l → Forall (Forall byte_ok) l.*1 →
  lock_idle LkFtable s → length (k_ftable s) = N_FILE → free_file (k_ftable s) f y → Z.land mode MODE_CREATE = 0 →
  let path := replicate a SLASH ++ path_text l in
  match resolve (k_disk s) (k_sb s) n (components l) with
  | None => ∃ s', file_open path mode s = Ok (None, s') ∧ balanced (k_icache s) (k_icache s')
  | Some m => ∀ ty, open_type (node (k_disk s) (k_sb s) m) = Some ty →
      ∃ j s1 s2, file_open path mode s = Ok (Some f, s1) ∧ file_opened h0 H T s mode f y m ty j s1 ∧
        file_close f s1 = Ok (tt, s2) ∧ walk_ok h0 H T s2 ∧ balanced (k_icache s) (k_icache s2) ∧
        k_ftable s2 = <[f := closed_entry (open_entry ty (node (k_disk s) (k_sb s) m) j mode y)]> (k_ftable s) ∧
        fs_step h0 H (set_ftable (k_ftable s2) (set_icache (k_icache s2) s)) s2 (k_disk s)
  end.
Proof.
  intros Hk Hroom Ho HT Hl Hb Hid Hlen Hff Hmode path. destruct (resolve _ _ n _) as [m|] eqn:Hres.
  - intros ty Hty. destruct (file_open_run h0 H T s a l n mode f y m ty) as (j & s1 & Hop & Hfo); try done.
    assert (m ∈ T) as HmT by (eapply resolve_in; [apply Hk|exact HT|exact Hres]).
    destruct (close_opened_run h0 H T s mode f y m ty j s1) as (s2 & Hcl); try done.
    + by apply (to_link _ _ _ _ (wk_tree _ _ _ _ Hk)).
    + destruct Hff as [Hf _]. by eapply lookup_lt_Some.
    + by exists j, s1, s2.
  - destruct (path_to_inode_run h0 H T s a l n Hk Hroom Ho HT Hl Hb) as (slot & s1 & Hp & [Hk1 Hw1 Hs1]).
    rewrite Hres in Hs1. destruct Hs1 as [-> Hbal]. exists s1. split; [|done].
    unfold file_open. rewrite Hmode. cbn [Z.eqb negb]. by run Hp.
Qed.

End proofs.

(** ** Witness: "/a" of the tree of Path.v *)

Definition table_booted (s : kstate) : kstate :=
  set_ftable (replicate N_FILE zero_file) (set_locks (<[LkFtable := mk_spinlock 0 "ftable" (-1)]> (k_locks s)) s).

Lemma walk_ok_table {B : BlockDevice} h0 H T s :
  other_lock LkFtable → walk_ok h0 H T s → walk_ok h0 H T (table_booted s).
Proof.
  intros Hlk [Hc Hsz [nm Hil] Hl Ht Hi]. apply walk_ok_ftable. split; try done.
  - by apply bcache_other.
  - exists nm. cbn [k_locks set_locks]. by rewrite lookup_insert_ne.
  - intros i Hlt. destruct (Hl i Hlt) as [nm' Hn]. exists nm'. cbn [k_locks set_locks]. by rewrite lookup_insert_ne.
Qed.

Lemma file_open_close_witness :
  ∃ s s1 s2, @file_open virtio_block_device (bytes_of "/a") MODE_READ s = Ok (Some 0%nat, s1) ∧
    @file_close virtio_block_device 0 s1 = Ok (tt, s2) ∧ refs (k_icache s2) = refs (k_icache s).
Proof.
  destruct tree_booted as (s & Hk & Hr & Ed & Es).
  pose proof (@file_open_close virtio_block_device (k_hart sample_boot) ∅ {[ 0; 1 ]} (table_booted s) 1 [([97], 0%nat)] 0 MODE_READ 0 zero_file) as Ho.
  cbn [k_disk k_sb table_booted set_ftable set_locks] in Ho. rewrite Ed, Es in Ho.
  assert (resolve tree_disk sample_sb 0 (components [([97], 0%nat)]) = Some 1) as E by (by vm_compute). rewrite E in Ho. clear E.
  destruct Ho with (ty := FD_FILE) as (j & s1 & s2 & H1 & _ & H2 & _ & Hb & _).
  - apply walk_ok_table, Hk. split; [done|]. split; [done|]. by intros [?|[? ?]].
  - exact Hr.
  - done.
  - set_solver.
  - repeat split; try done; repeat constructor; done.
  - by repeat constructor.
  - exists "ftable"%string. cbn [k_locks table_booted set_ftable set_locks]. by rewrite lookup_insert_eq.
  - done.
  - split; [done|]. split; [done|]. intros g z Hg. lia.
  - done.
  - by vm_compute.
  - exists (table_booted s), s1, s2. split; [exact H1|]. split; [exact H2|]. apply (bl_refs _ _ Hb).
Defined.
