(* ===== verification/Proc.v ===== *)
(** * Process life cycle (kernel/proc/proc.c)

    Allocation and release of process slots, the user page table of a process, the
    first process, fork, wait and exit.  Sleeping and scheduling are in Sched.v. *)

From S2P Require Import Prelude Bytes Kernel Lock Str Pmem Vm Sched MmapPool Uvm.

(** ** Fields *)

Definition set_pid (v : Z) (p : proc) : proc :=
  mk_proc v (state p) (parent p) (exit_state p) (sleep_space p) (pgtbl p) (heap_top p)
    (ustack_base p) (ustack_pages p) (p_mmap p) (tf p) (kstack p) (p_ctx p) (cwd p) (filelist p).
Definition set_parent (v : option nat) (p : proc) : proc :=
  mk_proc (pid p) (state p) v (exit_state p) (sleep_space p) (pgtbl p) (heap_top p)
    (ustack_base p) (ustack_pages p) (p_mmap p) (tf p) (kstack p) (p_ctx p) (cwd p) (filelist p).
Definition set_exit_state (v : Z) (p : proc) : proc :=
  mk_proc (pid p) (state p) (parent p) v (sleep_space p) (pgtbl p) (heap_top p)
    (ustack_base p) (ustack_pages p) (p_mmap p) (tf p) (kstack p) (p_ctx p) (cwd p) (filelist p).
Definition set_pgtbl (v : Z) (p : proc) : proc :=
  mk_proc (pid p) (state p) (parent p) (exit_state p) (sleep_space p) v (heap_top p)
    (ustack_base p) (ustack_pages p) (p_mmap p) (tf p) (kstack p) (p_ctx p) (cwd p) (filelist p).
(** [heap_top], [ustack_base] and [ustack_pages]. *)
Definition set_layout (h b n : Z) (p : proc) : proc :=
  mk_proc (pid p) (state p) (parent p) (exit_state p) (sleep_space p) (pgtbl p) h b n
    (p_mmap p) (tf p) (kstack p) (p_ctx p) (cwd p) (filelist p).
Definition set_tf (v : Z) (p : proc) : proc :=
  mk_proc (pid p) (state p) (parent p) (exit_state p) (sleep_space p) (pgtbl p) (heap_top p)
    (ustack_base p) (ustack_pages p) (p_mmap p) v (kstack p) (p_ctx p) (cwd p) (filelist p).
Definition set_kstack (v : Z) (p : proc) : proc :=
  mk_proc (pid p) (state p) (parent p) (exit_state p) (sleep_space p) (pgtbl p) (heap_top p)
    (ustack_base p) (ustack_pages p) (p_mmap p) (tf p) v (p_ctx p) (cwd p) (filelist p).
Definition set_ctx (v : context) (p : proc) : proc :=
  mk_proc (pid p) (state p) (parent p) (exit_state p) (sleep_space p) (pgtbl p) (heap_top p)
    (ustack_base p) (ustack_pages p) (p_mmap p) (tf p) (kstack p) v (cwd p) (filelist p).

(** ** The trapframe (struct trapframe, include/proc/proc.h): byte offsets *)

Definition TF_kernel_satp : Z := 0.
Definition TF_kernel_sp : Z := 8.
Definition TF_kernel_trap : Z := 16.
Definition TF_epc : Z := 24.
Definition TF_kernel_hartid : Z := 32.
Definition TF_sp : Z := 48.
Definition TF_a0 : Z := 112.
Definition TF_a7 : Z := 168.
Definition TF_SIZE : Z := 288.

(** ** Slots *)

Definition alloc_pid : K Z :=
  spinlock_acquire LkPid;;
  g ← gets (λ s, k_global_pid s);
  kassert (0 <=? g) "alloc_pid: overflow";;
  modify (set_global_pid (i32 (g + 1)));;
  spinlock_release LkPid;;
  mret g.

(** [memset(pa, 0, PGSIZE)] *)
Definition clear_page (pa : Z) : K unit := modify (λ s, set_mem (memset (k_mem s) pa 0 PGSIZE) s).

(** 0 is the null pointer. *)
Definition proc_pgtbl_init (trapframe : Z) : K Z :=
  pt ← pmem_alloc false;
  if pt =? 0 then mret 0
  else
    clear_page pt;;
    pte ← vm_getpte pt TRAMPOLINE true;
    if pte =? 0 then uvm_destroy_pgtbl pt;; mret 0
    else
      syms ← gets (λ s, k_syms s);
      vm_mappages pt TRAMPOLINE (trampoline syms) PGSIZE (Z.lor PTE_R PTE_X);;
      pte ← vm_getpte pt TRAPFRAME true;
      if pte =? 0 then
        vm_unmappages pt TRAMPOLINE PGSIZE false;;
        uvm_destroy_pgtbl pt;;
        mret 0
      else
        vm_mappages pt TRAPFRAME trapframe PGSIZE (Z.lor PTE_R PTE_W);;
        mret pt.

Definition proc_free (i : nat) : K unit :=
  p ← get_proc i;
  (if tf p =? 0 then mret tt else pmem_free (tf p) true);;
  upd_proc i (set_tf 0);;
  (if pgtbl p =? 0 then mret tt else uvm_destroy_pgtbl (pgtbl p));;
  upd_proc i (set_pgtbl 0);;
  (if kstack p =? 0 then mret tt
   else kpt ← kvm_get_kernel_pgtbl; vm_unmappages kpt (kstack p) PGSIZE true);;
  (match p_mmap p with None => mret tt | Some r => mmap_region_free r end);;
  upd_proc i (set_p_mmap None);;
  upd_proc i (set_pid 0);;
  upd_proc i (set_parent None);;
  upd_proc i (set_exit_state 0);;
  upd_proc i (set_sleep_space ChNull);;
  upd_proc i (set_layout 0 0 0);;
  upd_proc i (set_state UNUSED).

(** The search of [proc_alloc]: the first unused slot, its lock held. *)
Definition proc_find_unused : K (option nat) :=
  for_return (seq 0 NPROC) (λ i,
    spinlock_acquire (LkProc i);;
    p ← get_proc i;
    if bool_decide (state p = UNUSED) then mret (Some i)
    else spinlock_release (LkProc i);; mret None).

(** The error exit of [proc_alloc]. *)
Definition proc_alloc_fail (i : nat) : K (option nat) :=
  proc_free i;;
  spinlock_release (LkProc i);;
  mret None.

(** The slot's lock is held when a slot is returned. *)
Definition proc_alloc : K (option nat) :=
  r ← proc_find_unused;
  match r with
  | None => mret None
  | Some i =>
      n ← alloc_pid;
      upd_proc i (set_pid n);;
      upd_proc i (set_state RUNNABLE);;
      t ← pmem_alloc true;
      upd_proc i (set_tf t);;
      if t =? 0 then proc_alloc_fail i
      else
        pt ← proc_pgtbl_init t;
        upd_proc i (set_pgtbl pt);;
        if pt =? 0 then proc_alloc_fail i
        else
          kpa ← pmem_alloc true;
          if kpa =? 0 then proc_alloc_fail i
          else
            kpt ← kvm_get_kernel_pgtbl;
            p ← get_proc i;
            vm_mappages kpt (kstack p) kpa PGSIZE (Z.lor PTE_R PTE_W);;
            syms ← gets (λ s, k_syms s);
            upd_proc i (set_ctx (mk_context (fork_return_addr syms) (kstack p + PGSIZE) (replicate 12 0)));;
            mret (Some i)
  end.

Definition proc_init : K unit :=
  spinlock_init LkPid "nextpid";;
  spinlock_init LkWait "wait_lock";;
  for_each (seq 0 NPROC) (λ i,
    spinlock_init (LkProc i) "proc";;
    upd_proc i (set_state UNUSED);;
    upd_proc i (set_kstack (KSTACK (Z.of_nat i)))).

(** ** The first process *)

Section life.
  Context {Sw : Switch}.

(** [initcode] is the array of include/proc/initcode.h, a dump of the compiled
    user program, and [initcode_addr] its address. *)
Variable initcode : list Z.
Variable initcode_addr : Z.

Definition set_ctx_ra (v : Z) (p : proc) : proc :=
  set_ctx (mk_context v (ctx_sp (p_ctx p)) (ctx_s (p_ctx p))) p.

(** Everything [proc_make_first] does before it enters the scheduler. *)
Definition make_first_proc : K unit :=
  r ← proc_alloc;
  match r with
  | None => panic "proc_make_first: proc_alloc"
  | Some i =>
      modify (set_proczero (Some i));;
      syms ← gets (λ s, k_syms s);
      upd_proc i (set_ctx_ra (proc_forkret_addr syms));;
      pa ← pmem_alloc false;
      (if pa =? 0 then panic "proc_make_first: pmem_alloc" else mret tt);;
      clear_page pa;;
      p ← get_proc i;
      vm_mappages (pgtbl p) 0 pa PGSIZE (Z.lor (Z.lor (Z.lor PTE_R PTE_W) PTE_X) PTE_U);;
      modify (λ s, set_mem (store_bytes (k_mem s) pa initcode) s);;
      upd_proc i (set_layout PGSIZE 0x10000 1);;
      pa ← pmem_alloc false;
      (if pa =? 0 then panic "proc_make_first: pmem_alloc for stack" else mret tt);;
      clear_page pa;;
      vm_mappages (pgtbl p) 0x10000 pa PGSIZE (Z.lor (Z.lor PTE_R PTE_W) PTE_U);;
      printf "initcode:%p\n" [initcode_addr];;
      write64 (tf p + TF_epc) 0;;
      write64 (tf p + TF_sp) (0x10000 + PGSIZE);;
      upd_proc i (set_state RUNNABLE);;
      spinlock_release (LkProc i)
  end.

Definition proc_make_first (rounds : nat) : K unit := make_first_proc;; proc_scheduler rounds.

(** ** Fork *)

(** The copy of the list of regions: [dst_head] and [dst_tail] of the copy so far. The
    pool panics when it is empty, so the source's test for a null region never
    succeeds. *)
Fixpoint fork_mmap_loop (fuel : nat) (src head tail : option nat) : K (option nat) :=
  match src with
  | None => mret head
  | Some r =>
      match fuel with
      | O => no_fuel
      | S fuel =>
          new ← mmap_region_alloc;
          n ← get_mmap r;
          upd_mmap new (mm_set_range (mm_begin n) (mm_npages n));;
          upd_mmap new (mm_set_next None);;
          head ← (match head, tail with
                  | None, _ => mret (Some new)
                  | Some h, Some t => upd_mmap t (mm_set_next (Some new));; mret (Some h)
                  | Some h, None => fault "dst_tail"
                  end);
          n ← get_mmap r;
          fork_mmap_loop fuel (mm_next n) head (Some new)
      end
  end.

(** -1 or the pid of the child. *)
Definition proc_fork : K Z :=
  me ← myproc_deref;
  r ← proc_alloc;
  match r with
  | None => mret (-1)
  | Some np =>
      p ← get_proc me;
      q ← get_proc np;
      uvm_copy_pgtbl (pgtbl p) (pgtbl q) (heap_top p) (ustack_base p) (ustack_pages p) (p_mmap p);;
      upd_proc np (set_layout (heap_top p) (ustack_base p) (ustack_pages p));;
      head ← fork_mmap_loop (S N_MMAP) (p_mmap p) None None;
      upd_proc np (set_p_mmap head);;
      modify (λ s, set_mem (store_bytes (k_mem s) (tf q) (load_bytes (k_mem s) (tf p) (Z.to_nat TF_SIZE))) s);;
      write64 (tf q + TF_a0) 0;;
      upd_proc np (set_parent (Some me));;
      q ← get_proc np;
      upd_proc np (set_state RUNNABLE);;
      spinlock_release (LkProc np);;
      mret (pid q)
  end.

(** ** Wait and exit *)

(** One scan of the table by [proc_wait]: the pid of a reaped child, and whether the
    process has any child. *)
Fixpoint wait_scan (l : list nat) (me : nat) (p : proc) (addr : Z) (havekids : bool) : K (option Z * bool) :=
  match l with
  | [] => mret (None, havekids)
  | i :: l =>
      pp ← get_proc i;
      if bool_decide (parent pp = Some me) then
        spinlock_acquire (LkProc i);;
        pp ← get_proc i;
        printf "[WAIT] pid=%d found child pid=%d, state=%d\n"
          [pid p; pid pp; match state pp with UNUSED => 0 | RUNNABLE => 1 | RUNNING => 2 | SLEEPING => 3 | ZOMBIE => 4 end];;
        if bool_decide (state pp = ZOMBIE) then
          printf "[WAIT] pid=%d found zombie child pid=%d\n" [pid p; pid pp];;
          (if addr =? 0 then mret tt else uvm_copyout (pgtbl p) addr (le_bytes 4 (u32 (exit_state pp))));;
          proc_free i;;
          spinlock_release (LkProc i);;
          spinlock_release LkWait;;
          printf "[WAIT] pid=%d returning with child pid=%d\n" [pid p; pid pp];;
          mret (Some (pid pp), true)
        else
          spinlock_release (LkProc i);;
          wait_scan l me p addr true
      else wait_scan l me p addr havekids
  end.

(** The loop waits without bound for a child to exit: [rounds] of its rounds. *)
Fixpoint wait_loop (rounds : nat) (me : nat) (addr : Z) : K Z :=
  match rounds with
  | O => no_fuel
  | S rounds =>
      p ← get_proc me;
      r ← wait_scan (seq 0 NPROC) me p addr false;
      match r with
      | (Some n, _) => mret n
      | (None, false) =>
          printf "[WAIT] pid=%d no children, returning -1\n" [pid p];;
          spinlock_release LkWait;;
          mret (-1)
      | (None, true) =>
          printf "[WAIT] pid=%d going to sleep\n" [pid p];;
          proc_sleep (ChProc me) LkWait;;
          printf "[WAIT] pid=%d woke up, checking again\n" [pid p];;
          wait_loop rounds me addr
      end
  end.

Definition proc_wait (rounds : nat) (addr : Z) : K Z :=
  me ← myproc_deref;
  p ← get_proc me;
  printf "[WAIT] pid=%d entering wait\n" [pid p];;
  spinlock_acquire LkWait;;
  wait_loop rounds me addr.

(** The address of a process slot as a channel. *)
Definition chan_of (p : option nat) : chan := match p with Some i => ChProc i | None => ChNull end.

Definition reparent_one (me : nat) (i : nat) : K unit :=
  pp ← get_proc i;
  if bool_decide (parent pp = Some me) then
    z ← gets (λ s, k_proczero s);
    upd_proc i (set_parent z);;
    proc_wakeup (chan_of z)
  else mret tt.

Definition proc_reparent (me : nat) : K unit := for_each (seq 0 NPROC) (reparent_one me).

Definition proc_exit (code : Z) : K unit :=
  me ← myproc_deref;
  z ← gets (λ s, k_proczero s);
  kassert (negb (bool_decide (z = Some me))) "proc_exit: proczero exit";;
  spinlock_acquire LkWait;;
  proc_reparent me;;
  p ← get_proc me;
  proc_wakeup (chan_of (parent p));;
  spinlock_acquire (LkProc me);;
  upd_proc me (set_exit_state code);;
  upd_proc me (set_state ZOMBIE);;
  spinlock_release LkWait;;
  proc_sched;;
  panic "proc_exit: zombie exit".

End life.

(** ** Exit

    [proc_exit] as one change of the process table, up to the switch to the scheduler. *)

Section exit.
  Variable me : nat.
  Variable z : option nat.

Definition is_child (p : proc) : bool := bool_decide (parent p = Some me).

Definition adopt (p : proc) : proc := if is_child p then set_parent z p else p.

(** Entry [i] when the children among the first [n] entries have been handed over and,
    if there was one ([b]), the first process was woken. *)
Definition reparented_entry (n : nat) (b : bool) (i : nat) (p : proc) : proc :=
  let p := if bool_decide (i < n)%nat then adopt p else p in
  if b && negb (bool_decide (i = me)) then wake (chan_of z) p else p.

Definition reparented (n : nat) (ps : list proc) : list proc :=
  imap (reparented_entry n (existsb is_child (take n ps))) ps.

Lemma wake_wake c p : wake c (wake c p) = wake c p.
Proof. unfold wake. destruct (asleep_on c p) eqn:E; [|by rewrite E]. by unfold asleep_on. Qed.

Lemma wake_adopt c p : wake c (adopt p) = adopt (wake c p).
Proof.
  unfold wake, adopt, is_child. unfold asleep_on. destruct (bool_decide (parent p = Some me)) eqn:E; simpl.
  - destruct (bool_decide (state p = SLEEPING)), (bool_decide (sleep_space p = c)); simpl; by rewrite E.
  - destruct (bool_decide (state p = SLEEPING) && bool_decide (sleep_space p = c)); simpl; by rewrite E.
Qed.

Lemma wake_set_parent c p : wake c (set_parent z p) = set_parent z (wake c p).
Proof. unfold wake, asleep_on. simpl. by destruct (_ && _). Qed.

Lemma take_S_exists (ps : list proc) n p :
  ps !! n = Some p → existsb is_child (take (S n) ps) = existsb is_child (take n ps) || is_child p.
Proof. intros Hp. by rewrite (take_S_r _ _ _ Hp), existsb_app, (orb_false_r (is_child p) : existsb is_child [p] = _). Qed.

Lemma reparented_skip n ps p :
  ps !! n = Some p → is_child p = false → reparented (S n) ps = reparented n ps.
Proof.
  intros Hp Hc. unfold reparented. rewrite (take_S_exists _ _ _ Hp), Hc, orb_false_r. apply imap_ext. intros i q Hq.
  unfold reparented_entry. destruct (decide (i = n)) as [->|Hne].
  - rewrite (bool_decide_true (n < S n)%nat), (bool_decide_false (n < n)%nat) by lia. simplify_eq. unfold adopt. by rewrite Hc.
  - by replace (bool_decide (i < S n)%nat) with (bool_decide (i < n)%nat) by (apply bool_decide_ext; lia).
Qed.

Lemma reparented_child n ps p :
  ps !! n = Some p → is_child p = true →
  reparented (S n) ps = woken (chan_of z) (Some me) (alter (set_parent z) n (reparented n ps)).
Proof.
  intros Hp Hc. apply list_eq. intros i. unfold reparented, woken. rewrite !list_lookup_imap, (take_S_exists _ _ _ Hp), Hc, orb_true_r.
  destruct (decide (i = n)) as [->|Hne].
  - rewrite list_lookup_alter_eq, list_lookup_imap, Hp. simpl. f_equal. unfold reparented_entry.
    rewrite (bool_decide_true (n < S n)%nat), (bool_decide_false (n < n)%nat) by lia. unfold adopt. rewrite Hc.
    replace (bool_decide (Some me = Some n)) with (bool_decide (n = me)) by (apply bool_decide_ext; naive_solver).
    destruct (bool_decide (n = me)); cbn [negb andb]; rewrite ?andb_false_r, ?andb_true_r; [done|].
    destruct (existsb _ _); [|done]. by rewrite <- wake_set_parent, wake_wake.
  - rewrite list_lookup_alter_ne, list_lookup_imap by done. destruct (ps !! i) as [q|]; [|done]. simpl. f_equal.
    unfold reparented_entry. replace (bool_decide (i < S n)%nat) with (bool_decide (i < n)%nat) by (apply bool_decide_ext; lia).
    replace (bool_decide (Some me = Some i)) with (bool_decide (i = me)) by (apply bool_decide_ext; naive_solver).
    destruct (bool_decide (i = me)); cbn [negb andb]; rewrite ?andb_false_r, ?andb_true_r; [done|].
    destruct (existsb _ _); [by rewrite wake_wake|done].
Qed.

(** The hand-over of all children. *)
Lemma proc_reparent_run s :
  procs_quiet s → h_proc (k_hart s) = Some me → k_proczero s = z →
  proc_reparent me s = Ok (tt, set_procs (reparented NPROC (k_procs s)) s).
Proof.
  intros Hq Hme Hz. unfold proc_reparent.
  destruct (for_seq_inv (λ n s1, s1 = set_procs (reparented n (k_procs s)) s) (reparent_one me) NPROC s) as (s' & Hr & ->).
  - unfold reparented. replace (imap _ _) with (k_procs s); [by destruct s|]. apply list_eq. intros i.
    rewrite list_lookup_imap. by destruct (k_procs s !! i).
  - intros n s1 Hn ->. destruct (lookup_lt_is_Some_2 (k_procs s) n) as [p Hp]; [by rewrite (pq_len _ Hq)|].
    set (s1 := set_procs _ s). unfold reparent_one.
    assert (k_procs s1 !! n = Some (reparented_entry n (existsb is_child (take n (k_procs s))) n p)) as Hp1.
    { unfold s1. cbn [k_procs set_procs]. unfold reparented. by rewrite list_lookup_imap, Hp. }
    run (get_proc_run n s1 _ Hp1).
    assert (parent (reparented_entry n (existsb is_child (take n (k_procs s))) n p) = parent p) as ->.
    { unfold reparented_entry, wake. rewrite (bool_decide_false (n < n)%nat) by lia. destruct (_ && _); [|done]. by destruct (asleep_on _ p). }
    fold (is_child p). destruct (is_child p) eqn:Hc.
    + unfold upd_proc. mrun. eexists. rewrite (proc_wakeup_run (chan_of (k_proczero s))).
      * split; [done|]. rewrite (reparented_child n _ p Hp Hc). unfold s1. cbn [k_hart k_procs k_proczero set_procs].
        by rewrite Hme, Hz.
      * eapply procs_quiet_frame; [exact Hq|done|]. unfold s1, reparented. cbn [k_procs set_procs].
        by rewrite length_alter, length_imap.
    + exists s1. split; [done|]. by rewrite (reparented_skip n _ p Hp Hc).
  - by rewrite Hr.
Qed.

End exit.

(** The table when the exiting process gives up the hart for good. *)
Definition exit_table (me : nat) (z : option nat) (p : proc) (code : Z) (ps : list proc) : list proc :=
  <[me := set_state ZOMBIE (set_exit_state code p)]> (woken (chan_of (parent p)) (Some me) (reparented me z NPROC ps)).

Definition exit_handoff (me : nat) (p : proc) (code : Z) (s : kstate) : kstate :=
  set_procs (exit_table me (k_proczero s) p code (k_procs s)) (rel LkWait (acq (LkProc me) (acq LkWait s))).

(** The entry of another process. *)
Definition exit_entry (me : nat) (z : option nat) (p : proc) (orphans : bool) (q : proc) : proc :=
  let q' := adopt me z q in
  if bool_decide (state q = SLEEPING) &&
     (bool_decide (sleep_space q = chan_of (parent p)) || orphans && bool_decide (sleep_space q = chan_of z))
  then set_state RUNNABLE q' else q'.

Lemma asleep_adopt me z c q : asleep_on c (adopt me z q) = asleep_on c q.
Proof. unfold adopt. by destruct (is_child me q). Qed.

Lemma exit_table_other me z p code ps i q :
  ps !! i = Some q → i ≠ me → length ps = NPROC →
  exit_table me z p code ps !! i = Some (exit_entry me z p (existsb (is_child me) ps) q).
Proof.
  intros Hq Hne Hl. unfold exit_table. rewrite list_lookup_insert_ne by done. unfold woken, reparented.
  rewrite !list_lookup_imap, Hq. simpl. f_equal. rewrite bool_decide_false by congruence.
  unfold reparented_entry, exit_entry. rewrite take_ge by lia.
  rewrite (bool_decide_true (i < NPROC)%nat) by (rewrite <- Hl; by eapply lookup_lt_Some).
  rewrite (bool_decide_false (i = me)) by done. rewrite andb_true_r.
  unfold wake. destruct (existsb _ _); cbn [andb]; rewrite !asleep_adopt || idtac.
  - destruct (asleep_on (chan_of z) q) eqn:Ez; rewrite ?asleep_adopt.
    + unfold asleep_on in *. apply andb_true_iff in Ez as [-> ->]. rewrite orb_true_r. cbn [andb].
      rewrite (bool_decide_false (state (set_state RUNNABLE _) = SLEEPING)) by done. done.
    + unfold asleep_on in *. destruct (bool_decide (state q = SLEEPING)); [|done]. cbn [andb] in *. by rewrite Ez, orb_false_r.
  - rewrite orb_false_r. done.
Qed.

Lemma proc_exit_run {Sw : Switch} code me p s :
  procs_quiet s → lock_idle LkWait s → h_proc (k_hart s) = Some me → k_procs s !! me = Some p →
  k_proczero s ≠ Some me → parent p ≠ Some me →
  proc_exit code s = (swtch_to_cpu me;; panic "proc_exit: zombie exit") (exit_handoff me p code s).
Proof.
  intros Hq Hw Hme Hp Hz Hpa. pose proof Hq as [Hst Hlk Hlen]. unfold proc_exit.
  run (myproc_deref_run me s Hst Hme). mrun. rewrite bool_decide_false by done. cbn [negb]. mrun.
  run (acquire_run LkWait s (lock_idle_unlocked _ _ Hw)). set (sa := acq LkWait s).
  assert (procs_quiet sa) as Hqa.
  { split; [apply acq_stable, hart_stable_noff, Hst| |done]. intros i Hi. apply acq_idle; [done|by apply Hlk]. }
  run (proc_reparent_run me (k_proczero s) sa Hqa Hme eq_refl). change (k_procs sa) with (k_procs s).
  set (ps := reparented me (k_proczero s) NPROC (k_procs s)).
  assert (∃ p', ps !! me = Some p' ∧ p' = p) as (p' & Hp' & ->).
  { eexists. unfold ps, reparented. rewrite list_lookup_imap, Hp. split; [done|]. unfold reparented_entry.
    rewrite (bool_decide_true (me = me)), andb_false_r by done. unfold adopt, is_child.
    rewrite (bool_decide_false (parent p = Some me)) by done. by destruct (bool_decide _). }
  set (s1 := set_procs ps sa). run (get_proc_run me s1 p Hp').
  assert (length ps = NPROC) as Hlps by (unfold ps, reparented; by rewrite length_imap).
  assert (procs_quiet s1) as Hq1 by (eapply procs_quiet_frame; [exact Hqa|done|unfold s1; cbn [k_procs set_procs]; by rewrite Hlps]).
  run (proc_wakeup_run (chan_of (parent p)) s1 Hq1). set (ws := woken _ _ _).
  assert (ws = woken (chan_of (parent p)) (Some me) ps) as Ews by (unfold ws; by rewrite (Hme : h_proc (k_hart s1) = _)).
  assert (ws !! me = Some p) as Hpw.
  { rewrite Ews. unfold woken. rewrite list_lookup_imap, Hp'. simpl. by rewrite bool_decide_true. }
  assert (me < NPROC)%nat as Hlt by (rewrite <- Hlen; by eapply lookup_lt_Some).
  run (acquire_run (LkProc me) (set_procs ws s1) (lock_idle_unlocked (LkProc me) sa (pq_lock _ Hqa me Hlt))).
  unfold upd_proc. mrun. cbn [k_procs set_procs acq set_locks set_hart].
  rewrite (alter_insert _ _ _ p Hpw), (alter_insert _ _ _ (set_exit_state code p)), list_insert_insert_eq
    by (apply list_lookup_insert_eq; by eapply lookup_lt_Some).
  set (s2 := set_procs _ _). pose proof (hart_stable_noff _ Hst) as Hno.
  assert (spinlock_release LkWait s2 = Ok (tt, exit_handoff me p code s)) as Hrel.
  { rewrite release_run; [| |done|simpl; lia].
    2: { exists (lk_name (get_lock LkWait s)). simpl. rewrite lookup_insert_ne by done. by rewrite lookup_insert_eq. }
    unfold exit_handoff, exit_table. fold ps. by rewrite <- Ews. }
  run Hrel. unfold mbind, M_bind at 1.
  rewrite (proc_sched_run me _ (set_state ZOMBIE (set_exit_state code p))); [done| | | |done].
  - split; [done| |simpl; lia]. simpl. by rewrite (proj2 (Z.eqb_neq _ _)) by lia.
  - exists (lk_name (get_lock (LkProc me) sa)). simpl. rewrite lookup_insert_ne by done. by rewrite lookup_insert_eq.
  - unfold exit_handoff, exit_table. cbn [k_procs set_procs]. fold ps. rewrite <- Ews.
    apply list_lookup_insert_eq. by eapply lookup_lt_Some.
Qed.

(** ** Claims *)

(** C34: [proc_exit] of any process but the first runs to the switch to the scheduler, and
    to its final panic should the switch return.  At the switch the process is a ZOMBIE
    that holds its exit code, with its own lock held and the wait lock free; all its
    children have been handed to the first process; exactly the sleepers on its parent,
    and on the first process if there were children, have been made RUNNABLE; nothing
    else of any process has changed. *)
Theorem proc_exit_correct {Sw : Switch} (code : Z) (me : nat) (p : proc) (s : kstate) :
  procs_quiet s → lock_idle LkWait s → h_proc (k_hart s) = Some me → k_procs s !! me = Some p →
  k_proczero s ≠ Some me → parent p ≠ Some me →
  let s' := exit_handoff me p code s in
  proc_exit code s = (swtch_to_cpu me;; panic "proc_exit: zombie exit") s' ∧
  lock_idle LkWait s' ∧ lock_held (LkProc me) s' ∧
  k_procs s' !! me = Some (set_state ZOMBIE (set_exit_state code p)) ∧
  (∀ i q, i ≠ me → k_procs s !! i = Some q →
     k_procs s' !! i = Some (exit_entry me (k_proczero s) p (existsb (is_child me) (k_procs s)) q)) ∧
  ∀ i q, k_procs s' !! i = Some q → parent q ≠ Some me.
Proof.
  intros Hq Hw Hme Hp Hz Hpa s'. pose proof (pq_len _ Hq) as Hlen.
  assert (k_procs s' !! me = Some (set_state ZOMBIE (set_exit_state code p))) as Hms.
  { unfold s', exit_handoff, exit_table. cbn [k_procs set_procs]. apply list_lookup_insert_eq.
    unfold woken, reparented. rewrite !length_imap. by eapply lookup_lt_Some. }
  assert (∀ i q, i ≠ me → k_procs s !! i = Some q → k_procs s' !! i =
    Some (exit_entry me (k_proczero s) p (existsb (is_child me) (k_procs s)) q)) as Hot
    by (intros i q Hne Hi; by apply exit_table_other).
  split; [by apply proc_exit_run|]. split; [|split; [|split; [done|split; [done|]]]].
  - exists (lk_name (get_lock LkWait (acq (LkProc me) (acq LkWait s)))). simpl. by rewrite lookup_insert_eq.
  - exists (lk_name (get_lock (LkProc me) (acq LkWait s))). simpl. rewrite lookup_insert_ne by done. by rewrite lookup_insert_eq.
  - intros i q Hi. destruct (decide (i = me)) as [->|Hne]; [by simplify_eq|].
    destruct (k_procs s !! i) as [q0|] eqn:H0.
    + rewrite (Hot i q0 Hne H0) in Hi. injection Hi as <-. unfold exit_entry, adopt, is_child.
      destruct (decide (parent q0 = Some me)) as [E|E]; [rewrite (bool_decide_true _ E)|rewrite (bool_decide_false _ E)];
        by destruct (_ && _).
    + exfalso. apply lookup_ge_None in H0. apply lookup_lt_Some in Hi. unfold s', exit_handoff, exit_table, woken, reparented in Hi.
      cbn [k_procs set_procs] in Hi. rewrite length_insert, !length_imap in Hi. lia.
Qed.

(** ** Witness: process 0 exits, its parent 1 sleeps in wait, 2 is its child, 1 is also the
    first process. *)
Definition exit_sample : kstate :=
  let s := zero_state (image_syms 3) in
  set_proczero (Some 1%nat) (set_hart (set_hproc (Some O) (k_hart s))
    (set_locks (<[LkWait := mk_spinlock 0 "wait_lock" (-1)]> proc_locks)
    (set_procs (<[O := set_parent (Some 1%nat) (set_state RUNNING zero_proc)]>
      (<[1%nat := set_state SLEEPING (set_sleep_space (ChProc 1) zero_proc)]>
      (<[2%nat := set_parent (Some O) zero_proc]> (k_procs s)))) s))).

Lemma proc_exit_correct_witness :
  @proc_exit resume_at_once 7 exit_sample = Panic "proc_exit: zombie exit" ∧
  k_procs (exit_handoff 0 (set_parent (Some 1%nat) (set_state RUNNING zero_proc)) 7 exit_sample) !! 1%nat =
    Some (set_state RUNNABLE (set_sleep_space (ChProc 1) zero_proc)).
Proof.
  destruct (@proc_exit_correct resume_at_once 7 0 (set_parent (Some 1%nat) (set_state RUNNING zero_proc)) exit_sample)
    as (Hr & _ & _ & _ & Hot & _).
  - split; [by right| |reflexivity]. intros i Hi. exists "proc"%string. unfold exit_sample.
    cbn [k_locks set_proczero set_hart set_locks]. rewrite lookup_insert_ne by done. by apply proc_locks_lookup.
  - exists "wait_lock"%string. unfold exit_sample. cbn [k_locks set_proczero set_hart set_locks]. apply lookup_insert_eq.
  - reflexivity.
  - reflexivity.
  - done.
  - done.
  - split; [rewrite Hr; reflexivity|]. rewrite (Hot 1%nat (set_state SLEEPING (set_sleep_space (ChProc 1) zero_proc)));
      [reflexivity|done|reflexivity].
Defined.
