(* ===== verification/Reap.v ===== *)
(** * Releasing a process (proc_free and proc_wait of kernel/proc/proc.c)

    What happens to a process that has exited.  The theorems: [proc_free] returns every
    page the process held, its trapframe, its kernel stack, its page tables and its memory,
    to the pool it came from, each once; [proc_wait] hands the exit code of a child that is
    a ZOMBIE to its parent and releases the child in this way. *)

From S2P Require Import Prelude Bytes Kernel Lock Str Pmem Vm Sched MmapPool Uvm Teardown Proc.

(** ** A slot of the process table *)

Definition with_slot (i : nat) (q : proc) (s : kstate) : kstate := set_procs (<[i := q]> (k_procs s)) s.

Lemma upd_proc_run i f q s : k_procs s !! i = Some q → upd_proc i f s = Ok (tt, with_slot i (f q) s).
Proof. intros Hq. unfold upd_proc. mrun. by rewrite (alter_insert _ _ _ q Hq). Qed.

Lemma with_slot_twice i q q' s : with_slot i q' (with_slot i q s) = with_slot i q' s.
Proof. unfold with_slot. simpl. by rewrite list_insert_insert_eq. Qed.

Lemma with_slot_lookup i q p s : k_procs s !! i = Some p → k_procs (with_slot i q s) !! i = Some q.
Proof. intros Hp. apply list_lookup_insert_eq. by eapply lookup_lt_Some. Qed.

(** A released slot: the kernel stack's address, the context, the working directory and
    the open files are left as they were. *)
Definition vacant (p : proc) : proc :=
  mk_proc 0 UNUSED None 0 ChNull 0 0 0 0 None 0 (kstack p) (p_ctx p) (cwd p) (filelist p).

(** ** The pages of a process *)

(** A page of the kernel pool that is in use and no table. *)
Definition kernel_page (s : kstate) (pg kpg : ptmap) (kl : list Z) (q : Z) : Prop :=
  page_in (k_kern s) q ∧ (q ∉ kl) ∧ (∀ π t, pg !! π = Some t → t ≠ q) ∧ ∀ π t, kpg !! π = Some t → t ≠ q.

Definition stack_page (s : kstate) (kpg : ptmap) (p : proc) : Z := mapped_pa (k_mem s) kpg (kstack p).

(** Process [p] holds the address space [pg]; the kernel runs on the table [kpg]. *)
Record doomed (s : kstate) (p : proc) (pg kpg : ptmap) (kl ul : list Z) : Prop := {
  dm_space : vm_ok s (pgtbl p) pg kl ul;
  dm_kernel : vm_ok s (k_kpgtbl s) kpg kl ul;
  dm_root : page_in (k_user s) (pgtbl p);
  dm_inner π q : π ≠ [] → pg !! π = Some q → page_in (k_kern s) q;
  dm_tables π q : kpg !! π = Some q → page_in (k_kern s) q;
  dm_apart π ρ q : pg !! π = Some q → kpg !! ρ = Some q → False;
  dm_own σ pa : slot_ok σ → user_owned (k_mem s) pg σ = Some pa →
    page_in (k_user s) pa ∧ (pa ∉ ul) ∧ ∀ π q, pg !! π = Some q → q ≠ pa;
  dm_inj σ σ' pa : slot_ok σ → slot_ok σ' → user_owned (k_mem s) pg σ = Some pa →
    user_owned (k_mem s) pg σ' = Some pa → σ = σ';
  dm_tf : kernel_page s pg kpg kl (tf p);
  dm_stack : kernel_page s pg kpg kl (stack_page s kpg p) ∧ stack_page s kpg p ≠ tf p;
  dm_kstack : kstack p mod PGSIZE = 0 ∧ 0 < kstack p ∧ kstack p + PGSIZE ≤ VA_MAX ∧ unmappable s kpg (kstack p);
  dm_pools : ALLOC_BEGIN (k_syms s) = r_begin (k_kern s) ∧ r_end (k_kern s) = r_begin (k_kern s) + KERNEL_PAGES * PGSIZE }.

Lemma user_owned_ext m m' pg σ :
  (∀ π q b, pg !! π = Some q → q ≤ b < q + PGSIZE → load8 m' b = load8 m b) → slot_ok σ →
  user_owned m' pg σ = user_owned m pg σ.
Proof.
  intros Hm [_ Hk]. unfold user_owned, owned. case_decide; [done|]. destruct (pg !! fst σ) as [q|] eqn:Hq; [|done].
  cbn [mbind option_bind]. rewrite (load64_ext m m'); [done|]. intros b Hb. apply (Hm _ _ _ Hq).
  unfold vpn_ok, PGSIZE in *. lia.
Qed.

(** Freeing pages that are no tables of [kpg]. *)
Lemma vm_ok_released s s' root kpg kl ul ks us :
  vm_ok s root kpg kl ul → pmem_ok s' (ks ++ kl) (us ++ ul) → pmem_sync s' →
  (∀ π q, kpg !! π = Some q → q ∉ ks ++ us) →
  (∀ a, (∀ q, q ∈ ks ++ us → ¬ (q ≤ a < q + PGSIZE)) → load8 (k_mem s') a = load8 (k_mem s) a) →
  vm_ok s' root kpg (ks ++ kl) (us ++ ul) ∧ ∀ va, lookup_pte (k_mem s') kpg va = lookup_pte (k_mem s) kpg va.
Proof.
  intros [Hpt Hpm Hsy Hd] Hpm' Hsy' Hno Hm. destruct (pt_ok_ext (k_mem s) (k_mem s') root kpg) as [Hpt' Hlk]; [|done|].
  - intros π q b Hq Hb. apply Hm. intros t Ht Htb. destruct (pt_page _ _ _ Hpt _ _ Hq) as ([Hqa _] & _).
    assert (t mod PGSIZE = 0) as Hta.
    { eapply pmem_page_aligned; [exact Hpm'|]. rewrite !elem_of_app in *. tauto. }
    assert (q ≠ t) as Hne by (intros ->; by apply (Hno π t)). destruct (page_aligned_apart q t Hqa Hta Hne); lia.
  - split; [|done]. split; [done..|]. intros π q Hq. specialize (Hno π q Hq). destruct (Hd π q Hq).
    rewrite elem_of_app in Hno. rewrite !elem_of_app. tauto.
Qed.

(** Unmapping one page of the kernel pool. *)
Lemma unmap_kernel_page s root kpg kl ul va :
  let pa := mapped_pa (k_mem s) kpg va in
  vm_ok s root kpg kl ul → va mod PGSIZE = 0 → 0 ≤ va → va + PGSIZE ≤ VA_MAX → unmappable s kpg va →
  in_kernel_pool s pa = true → page_in (k_kern s) pa → (pa ∉ kl) → (∀ π q, kpg !! π = Some q → q ≠ pa) →
  ∃ s1, vm_unmappages root va PGSIZE true s = Ok (tt, s1) ∧ vm_ok s1 root kpg (pa :: kl) ul ∧
    (∀ x, 0 ≤ x < VA_MAX → lookup_pte (k_mem s1) kpg x =
       if decide (x / PGSIZE = va / PGSIZE) then 0 else lookup_pte (k_mem s) kpg x) ∧
    (∀ a, (∀ q, q = pa ∨ (∃ π, kpg !! π = Some q) → ¬ (q ≤ a < q + PGSIZE)) → load8 (k_mem s1) a = load8 (k_mem s) a) ∧
    s1 = set_mem (k_mem s1) (set_kern (k_kern s1) s).
Proof.
  intros pa Hok Hal H0 Hmax Hun Hpool Hin Hni Hnt. pose proof (eq_refl : VA_MAX = 2^38) as HM.
  destruct (unmap_one true s root kpg kl ul va true Hok) as (p & s1 & Hp & Hr & Hs1 & Hok1 & Hlk);
    [unfold PGSIZE in *; lia|done|done|].
  exists s1. split; [|split; [exact Hok1|split; [exact Hlk|split]]].
  - unfold vm_unmappages. rewrite Hal. mrun. change (Z.to_nat ((PGSIZE + PGSIZE - 1) / PGSIZE)) with 1%nat.
    rewrite u64_small by (unfold PGSIZE in *; lia). cbn [vm_unmap_loop].
    rewrite (proj2 (Z.ltb_lt va _)) by (unfold PGSIZE in *; lia). etransitivity; [apply Hr|].
    rewrite u64_small, Z.ltb_irrefl by (unfold PGSIZE in *; lia). done.
  - intros a Ha. rewrite Hs1. simpl. pose proof (Ha p ltac:(right; by eexists)). pose proof (Ha pa ltac:(by left)).
    pose proof (vpn_slot p _ (VA_TO_VPN_range va 0)). fold pa. rewrite !load8_store64_out; [done| |]; unfold PGSIZE in *; lia.
  - by rewrite Hs1.
Qed.

(** The pages the address space [pg] held. *)
Record returned (s : kstate) (pg : ptmap) (tables pages : list Z) : Prop := {
  rt_tables : tables ≡ₚ (map_to_list (delete [] pg)).*2;
  rt_nodup : NoDup pages;
  rt_pages pa : pa ∈ pages ↔ ∃ σ, slot_ok σ ∧ user_owned (k_mem s) pg σ = Some pa }.

Lemma returned_table s pg tables pages q : returned s pg tables pages → q ∈ tables → ∃ π, π ≠ [] ∧ pg !! π = Some q.
Proof.
  intros [Ht _ _] Hq. rewrite Ht in Hq. apply list_elem_of_fmap in Hq as ([π r] & -> & Hr).
  apply elem_of_map_to_list, lookup_delete_Some in Hr as [Hne Hr]. by exists π.
Qed.

Section release.
  Context (s : kstate) (i : nat) (p : proc) (pg kpg : ptmap) (kl ul : list Z).
  Context (Hp : k_procs s !! i = Some p) (Hd : doomed s p pg kpg kl ul).

(** The trapframe and the address space. *)
Lemma release_space :
  ∃ s2 tables pages,
    (∀ c : K unit, (pmem_free (tf p) true;; upd_proc i (set_tf 0);; uvm_destroy_pgtbl (pgtbl p);; c) s = c s2) ∧
    returned s pg tables pages ∧
    vm_ok s2 (k_kpgtbl s) kpg ((tables ++ [tf p]) ++ kl) ((pgtbl p :: pages) ++ ul) ∧
    (∀ va, lookup_pte (k_mem s2) kpg va = lookup_pte (k_mem s) kpg va) ∧
    (∀ a, (∀ q, q ∈ (tables ++ [tf p]) ++ pgtbl p :: pages → ¬ (q ≤ a < q + PGSIZE)) →
       load8 (k_mem s2) a = load8 (k_mem s) a) ∧
    (∀ k q, page_in (get_region k s2) q ↔ page_in (get_region k s) q) ∧
    s2 = set_mem (k_mem s2) (set_kern (k_kern s2) (set_user (k_user s2) (with_slot i (set_tf 0 p) s))).
Proof.
  destruct Hd as [Dsp Dke Dro Din Dta Dap Dow Dij (Tin & Tnk & Tpg & Tkp) _ _ _].
  pose proof (pmem_free_some true s (tf p) (vo_sync _ _ _ _ _ Dsp) Tin) as Hfree. set (s1 := pushed true (tf p) s) in *.
  set (s1' := with_slot i (set_tf 0 p) s1).
  destruct (vm_ok_push true s _ pg kl ul (tf p) Dsp Tin Tnk Tpg) as [Hsp1 _]. fold s1 in Hsp1.
  destruct (vm_ok_push true s _ kpg kl ul (tf p) Dke Tin Tnk Tkp) as [Hke1 Hlk1]. fold s1 in Hke1, Hlk1.
  assert (∀ a, ¬ (tf p ≤ a < tf p + PGSIZE) → load8 (k_mem s1) a = load8 (k_mem s) a) as Hm1.
  { intros a Ha. apply load8_store64_out. unfold PGSIZE in *. lia. }
  assert (∀ σ, slot_ok σ → user_owned (k_mem s1') pg σ = user_owned (k_mem s) pg σ) as Hou.
  { intros σ. apply user_owned_ext. intros π q b Hq Hb. apply Hm1.
    destruct (pt_page _ _ _ (vo_pt _ _ _ _ _ Dsp) _ _ Hq) as ([Hqa _] & _).
    destruct (page_aligned_apart q (tf p) Hqa (proj1 Tin) (Tpg π q Hq)); lia. }
  destruct (uvm_destroy_run s1' (pgtbl p) pg (tf p :: kl) ul) as (s2 & T & L & Hr & Hpm & Hsy & HT & HLn & HL & Hm & Hb & Hf).
  - by apply (vm_ok_frame _ _ _ _ _ _ Hsp1); try done; apply Hsp1.
  - exact Dro.
  - exact Din.
  - intros σ pa Hσ. rewrite Hou by done. by apply Dow.
  - intros σ σ' pa Hσ Hσ'. rewrite !Hou by done. by apply Dij.
  - assert (returned s pg T L) as Hret.
    { split; [done|done|]. intros pa. rewrite HL. split; intros (σ & Hσ & Ho); exists σ; (split; [done|]); by rewrite Hou in *. }
    assert (∀ π q, kpg !! π = Some q → q ∉ (T ++ pgtbl p :: L)) as Hno.
    { intros π q Hq. pose proof (po_sep _ _ _ (vo_pmem _ _ _ _ _ Dke)) as Hsep. destruct (Dta π q Hq) as [_ Hqk].
      rewrite elem_of_app, elem_of_cons. intros [Ht|[-> |Hl]].
      - destruct (returned_table _ _ _ _ _ Hret Ht) as (ρ & _ & Hρ). by apply (Dap ρ π q).
      - destruct Dro as [_ ?]. lia.
      - apply (rt_pages _ _ _ _ Hret) in Hl as (σ & Hσ & Ho). destruct (Dow σ q Hσ Ho) as ([_ ?] & _). lia. }
    destruct (vm_ok_released s1' s2 (k_kpgtbl s) kpg (tf p :: kl) ul T (pgtbl p :: L)) as [Hk2 Hlk2]; try done.
    { by apply (vm_ok_frame _ _ _ _ _ _ Hke1); try done; apply Hke1. }
    { intros a Ha. apply Hm. intros q Hq. apply Ha. rewrite elem_of_app, !elem_of_cons in *. rewrite elem_of_app in Hq. tauto. }
    exists s2, T, L. split; [intros c; run Hfree; run (upd_proc_run i (set_tf 0) p s1 Hp); by run Hr|]. split; [exact Hret|]. split; [by rewrite <- (app_assoc T)|].
    split; [intros va; rewrite Hlk2; apply Hlk1|]. split; [|split].
    + intros a Ha. rewrite Hm; [apply Hm1|]; [apply Ha|intros q Hq; apply Ha];
        rewrite !elem_of_app, ?elem_of_cons, ?elem_of_app in *; set_solver.
    + intros k q. rewrite Hb. by destruct k.
    + rewrite Hf. done.
Qed.

(** The kernel stack. *)
Lemma release_pages :
  ∃ s3 tables pages,
    (∀ c : K unit, (pmem_free (tf p) true;; upd_proc i (set_tf 0);; uvm_destroy_pgtbl (pgtbl p);; upd_proc i (set_pgtbl 0);;
      (kpt ← kvm_get_kernel_pgtbl; vm_unmappages kpt (kstack p) PGSIZE true);; c) s = c s3) ∧
    returned s pg tables pages ∧
    vm_ok s3 (k_kpgtbl s) kpg (stack_page s kpg p :: (tables ++ [tf p]) ++ kl) ((pgtbl p :: pages) ++ ul) ∧
    (∀ va, 0 ≤ va < VA_MAX → lookup_pte (k_mem s3) kpg va =
       if decide (va / PGSIZE = kstack p / PGSIZE) then 0 else lookup_pte (k_mem s) kpg va) ∧
    (∀ a, (∀ q, q ∈ stack_page s kpg p :: (tables ++ [tf p]) ++ pgtbl p :: pages ∨ (∃ π, kpg !! π = Some q) →
         ¬ (q ≤ a < q + PGSIZE)) → load8 (k_mem s3) a = load8 (k_mem s) a) ∧
    s3 = set_mem (k_mem s3) (set_kern (k_kern s3) (set_user (k_user s3) (with_slot i (set_pgtbl 0 (set_tf 0 p)) s))).
Proof.
  destruct release_space as (s2 & T & L & Hr & Hret & Hok2 & Hlk2 & Hm2 & Hb2 & Hf2).
  destruct Hd as [Dsp Dke Dro Din Dta Dap Dow Dij (Tin & Tnk & Tpg & Tkp) [(Sin & Snk & Spg & Skp) Sne] (Kal & K0 & Kmax & Kun) [Py Pe]].
  assert (k_procs s2 !! i = Some (set_tf 0 p)) as Hp2 by (rewrite Hf2; exact (with_slot_lookup i _ p s Hp)).
  set (s2' := with_slot i (set_pgtbl 0 (set_tf 0 p)) s2).
  assert (k_kpgtbl s2' = k_kpgtbl s) as Ekp by (unfold s2'; by rewrite Hf2).
  assert (mapped_pa (k_mem s2') kpg (kstack p) = stack_page s kpg p) as Epa
    by (unfold stack_page, mapped_pa; simpl; by rewrite Hlk2).
  destruct (unmap_kernel_page s2' (k_kpgtbl s) kpg ((T ++ [tf p]) ++ kl) ((pgtbl p :: L) ++ ul) (kstack p))
    as (s3 & Hr3 & Hok3 & Hlk3 & Hm3 & Hf3); try done; rewrite ?Epa.
  - by apply (vm_ok_frame _ _ _ _ _ _ Hok2); try done; apply Hok2.
  - lia.
  - unfold unmappable. simpl k_mem. by rewrite Hlk2.
  - unfold in_kernel_pool. assert (k_syms s2' = k_syms s) as -> by (unfold s2'; by rewrite Hf2).
    pose proof (ro_bounds _ _ _ (po_kern _ _ _ (vo_pmem _ _ _ _ _ Dke))) as Hbd. destruct Sin as [_ Sin].
    unfold PHYSTOP, KERNEL_BASE in *. rewrite Py, u64_small by lia. zdecide. done.
  - by apply (Hb2 true).
  - rewrite !elem_of_app, list_elem_of_singleton. intros [[Ht|?]|?]; [|done|done].
    destruct (returned_table _ _ _ _ _ Hret Ht) as (ρ & _ & Hρ). by apply (Spg ρ _ Hρ).
  - exact Skp.
  - rewrite Epa in *. exists s3, T, L. split.
    { intros c. rewrite Hr. run (upd_proc_run i (set_pgtbl 0) _ s2 Hp2). fold s2'. rewrite bind_assoc. unfold kvm_get_kernel_pgtbl. mrun.
      rewrite <- Ekp in Hr3. by run Hr3. }
    split; [exact Hret|]. split; [exact Hok3|]. split; [|split].
    + intros va Hva. rewrite Hlk3 by done. simpl k_mem. by rewrite Hlk2.
    + intros a Ha. rewrite Hm3; [apply Hm2; intros q Hq; apply Ha; left; by right|].
      intros q [->|Hq]; apply Ha; [left; by left|by right].
    + rewrite Hf3. unfold s2'. rewrite Hf2. unfold with_slot. simpl. by rewrite list_insert_insert_eq.
Qed.
End release.

(** ** The whole release *)

(** The first region of the process is a node in use. *)
Definition region_held (fl : list nat) (r : option nat) : Prop :=
  match r with Some r => (r < N_MMAP)%nat ∧ r ≠ O ∧ (r ∉ fl) | None => True end.

Definition give_back (fl : list nat) (r : option nat) : list nat := match r with Some r => r :: fl | None => fl end.

(** What [proc_free] leaves. *)
Record released (s : kstate) (i : nat) (p : proc) (pg kpg : ptmap) (kl ul : list Z) (fl : list nat)
    (tables pages : list Z) (s' : kstate) : Prop := {
  rl_pages : returned s pg tables pages;
  rl_ok : vm_ok s' (k_kpgtbl s) kpg (stack_page s kpg p :: (tables ++ [tf p]) ++ kl) ((pgtbl p :: pages) ++ ul);
  rl_kernel va : 0 ≤ va < VA_MAX → lookup_pte (k_mem s') kpg va =
    if decide (va / PGSIZE = kstack p / PGSIZE) then 0 else lookup_pte (k_mem s) kpg va;
  rl_mem a : (∀ q, q ∈ stack_page s kpg p :: (tables ++ [tf p]) ++ pgtbl p :: pages ∨ (∃ π, kpg !! π = Some q) →
    ¬ (q ≤ a < q + PGSIZE)) → load8 (k_mem s') a = load8 (k_mem s) a;
  rl_pool : pool_ok s' (give_back fl (p_mmap p));
  rl_regions : region_of <$> mp_nodes (k_mmap s') = region_of <$> mp_nodes (k_mmap s);
  rl_frame : s' = set_mem (k_mem s') (set_kern (k_kern s') (set_user (k_user s')
    (set_mmap (k_mmap s') (with_slot i (vacant p) s)))) }.

Lemma free_region_run s fl r :
  pool_ok s fl → mmap_sync s → region_held fl r →
  ∃ ns, (match r with None => mret tt | Some r => mmap_region_free r end) s = Ok (tt, with_nodes ns s) ∧
    pool_ok (with_nodes ns s) (give_back fl r) ∧ region_of <$> ns = region_of <$> mp_nodes (k_mmap s).
Proof.
  intros Hp Hs Hr. destruct r as [r|]; [destruct Hr as (? & ? & ?); by apply mmap_free_run|].
  exists (mp_nodes (k_mmap s)). assert (with_nodes (mp_nodes (k_mmap s)) s = s) as ->; [|done].
  unfold with_nodes. destruct s as []. simpl. by destruct k_mmap.
Qed.

(** The last assignments of [proc_free]. *)
Lemma clear_slot_run s i p :
  k_procs s !! i = Some (set_pgtbl 0 (set_tf 0 p)) →
  (upd_proc i (set_p_mmap None);; upd_proc i (set_pid 0);; upd_proc i (set_parent None);;
   upd_proc i (set_exit_state 0);; upd_proc i (set_sleep_space ChNull);; upd_proc i (set_layout 0 0 0);;
   upd_proc i (set_state UNUSED)) s = Ok (tt, with_slot i (vacant p) s).
Proof.
  intros Hp. repeat (erewrite bind_ok; [|eapply upd_proc_run; first [exact Hp|eapply with_slot_lookup; exact Hp]]; rewrite ?with_slot_twice).
  erewrite upd_proc_run by (eapply with_slot_lookup; exact Hp). by rewrite with_slot_twice.
Qed.

(** [proc_free] returns trapframe, kernel stack and inner tables to the kernel pool, the root
    table and every page its entries own to the user pool, each once, clears the kernel's
    entry for the stack and no other, and empties the slot. *)
Lemma proc_free_run s i p pg kpg kl ul fl :
  k_procs s !! i = Some p → doomed s p pg kpg kl ul → pool_ok s fl → lock_idle LkMmapList s → region_held fl (p_mmap p) →
  ∃ s' tables pages, proc_free i s = Ok (tt, s') ∧ released s i p pg kpg kl ul fl tables pages s'.
Proof.
  intros Hp Hd Hpool Hlk Hreg. pose proof Hd as [Dsp Dke Dro Din Dta Dap Dow Dij [Tin _] _ [_ [K0 _]] _].
  destruct (release_pages s i p pg kpg kl ul Hp Hd) as (s3 & T & L & Hr & Hret & Hok & Hlook & Hm & Hf).
  assert (k_mmap s3 = k_mmap s ∧ k_locks s3 = k_locks s ∧ k_hart s3 = k_hart s) as (Em & El & Eh) by (by rewrite Hf).
  destruct (free_region_run s3 fl (p_mmap p)) as (ns & Hfr & Hpool' & Hns); [|split|done|].
  { destruct Hpool. split; by rewrite ?Em. }
  { apply Hok. }
  { unfold lock_idle in *. by rewrite El. }
  assert (k_procs s3 !! i = Some (set_pgtbl 0 (set_tf 0 p))) as Hp3 by (rewrite Hf; exact (with_slot_lookup i _ p s Hp)).
  exists (with_slot i (vacant p) (with_nodes ns s3)), T, L. split.
  - unfold proc_free. run (get_proc_run i s p Hp).
    destruct Tin as [_ Tin]. pose proof (ro_bounds _ _ _ (po_kern _ _ _ (vo_pmem _ _ _ _ _ Dke))).
    pose proof (ro_bounds _ _ _ (po_user _ _ _ (vo_pmem _ _ _ _ _ Dke))). destruct Dro as [_ Dro].
    rewrite !(proj2 (Z.eqb_neq _ 0)) by lia. rewrite Hr. run Hfr. by apply clear_slot_run.
  - split; [done| |done|done|by destruct Hpool'; split|by rewrite <- Em|].
    + by apply (vm_ok_frame _ _ _ _ _ _ Hok); try done; apply Hok.
    + rewrite Hf. unfold with_slot. simpl. by rewrite list_insert_insert_eq.
Qed.

(** ** Changes elsewhere *)

Lemma doomed_ext s s' p pg kpg kl ul :
  doomed s p pg kpg kl ul → k_kern s' = k_kern s → k_user s' = k_user s → k_kpgtbl s' = k_kpgtbl s →
  k_syms s' = k_syms s → pmem_sync s' →
  (∀ q b, (∃ π, pg !! π = Some q) ∨ (∃ π, kpg !! π = Some q) ∨ q ∈ kl ++ ul → q ≤ b < q + PGSIZE →
     load8 (k_mem s') b = load8 (k_mem s) b) →
  doomed s' p pg kpg kl ul ∧ stack_page s' kpg p = stack_page s kpg p ∧
  (∀ σ, slot_ok σ → user_owned (k_mem s') pg σ = user_owned (k_mem s) pg σ) ∧
  ∀ va, lookup_pte (k_mem s') kpg va = lookup_pte (k_mem s) kpg va.
Proof.
  intros [Dsp Dke Dro Din Dta Dap Dow Dij Dtf Dst Dks Dpo] Ek Eu Ep Ey Hsy Hm.
  destruct (vm_ok_ext s s' (pgtbl p) pg kl ul Dsp Ek Eu Hsy) as [Hsp _]; [intros q b Hq; apply Hm; tauto|].
  destruct (vm_ok_ext s s' (k_kpgtbl s) kpg kl ul Dke Ek Eu Hsy) as [Hke Hlk]; [intros q b Hq; apply Hm; tauto|].
  assert (∀ σ, slot_ok σ → user_owned (k_mem s') pg σ = user_owned (k_mem s) pg σ) as Hou.
  { intros σ. apply user_owned_ext. intros π q b Hq. apply Hm. left. by exists π. }
  assert (stack_page s' kpg p = stack_page s kpg p) as Est by (unfold stack_page, mapped_pa; by rewrite Hlk).
  split; [|done]. unfold kernel_page in *.
  split; unfold kernel_page; rewrite ?Ek, ?Eu, ?Ep, ?Ey, ?Est; try done.
  - intros σ pa Hσ. rewrite Hou by done. by apply Dow.
  - intros σ σ' pa Hσ Hσ'. rewrite !Hou by done. by apply Dij.
  - unfold unmappable in *. by rewrite Hlk.
Qed.

(** ** The scan of [proc_wait] *)

Lemma printf_run fmt args s : printf fmt args s = Ok (tt, set_log (k_log s ++ [(fmt, args)]) s).
Proof. done. Qed.

Definition zombie_of (me : nat) (q : proc) : Prop := parent q = Some me ∧ state q = ZOMBIE.

(** Children that have not exited are looked at and passed by. *)
Lemma wait_scan_skip me p addr pre post : ∀ hk s,
  procs_quiet s → Forall (λ j, ∃ q, k_procs s !! j = Some q ∧ ¬ zombie_of me q) pre →
  ∃ lg hk', wait_scan (pre ++ post) me p addr hk s = wait_scan post me p addr hk' (set_log lg s).
Proof.
  induction pre as [|j pre IH]; intros hk s Hq Hf; [exists (k_log s), hk; by destruct s|].
  apply Forall_cons in Hf as [(q & Hj & Hz) Hf]. cbn [app wait_scan]. run (get_proc_run j s q Hj).
  destruct (decide (parent q = Some me)) as [Hc|Hc]; [rewrite bool_decide_true by done|rewrite bool_decide_false by done; by apply IH].
  assert (state q ≠ ZOMBIE) as Hn by (intros E; by apply Hz).
  pose proof (pq_hart _ Hq) as Hst. assert (lock_idle (LkProc j) s) as Hl
    by (apply (pq_lock _ Hq); rewrite <- (pq_len _ Hq); by eapply lookup_lt_Some).
  run (acquire_run (LkProc j) s (lock_idle_unlocked _ _ Hl)). run (get_proc_run j (acq (LkProc j) s) q Hj).
  unfold printf. mrun. rewrite bool_decide_false by done.
  rewrite (release_bind (LkProc j) s _ _ Hst Hl) by done.
  match goal with |- context [wait_scan _ _ _ _ _ ?t] => assert (∃ lg, t = set_log lg s) as [lg ->] by (eexists; by destruct s) end.
  destruct (IH true (set_log lg s)) as (lg' & hk' & Hr); [by eapply procs_quiet_frame|done|]. exists lg', hk'. by rewrite Hr.
Qed.

(** ** Pages the release touches, and all others *)

Section wait.
  Context (s : kstate) (c : proc) (pg kpg : ptmap) (kl ul : list Z).

Definition touched (q : Z) : Prop :=
  (∃ π, pg !! π = Some q) ∨ (∃ π, kpg !! π = Some q) ∨ q ∈ kl ++ ul ∨ q = tf c ∨ q = stack_page s kpg c ∨
  ∃ σ, slot_ok σ ∧ user_owned (k_mem s) pg σ = Some q.

Definition bystander (q : Z) : Prop := q mod PGSIZE = 0 ∧ ¬ touched q.

Context (Hd : doomed s c pg kpg kl ul).

Lemma touched_aligned q : touched q → q mod PGSIZE = 0.
Proof.
  destruct Hd as [Dsp Dke _ _ _ _ Dow _ ([Ht _] & _) [([Hs _] & _) _] _ _].
  intros [[π Hq]|[[π Hq]|[Hq|[-> |[-> |(σ & Hσ & Hq)]]]]]; [| | |done|done|].
  - by destruct (pt_page _ _ _ (vo_pt _ _ _ _ _ Dsp) _ _ Hq) as ([? _] & _).
  - by destruct (pt_page _ _ _ (vo_pt _ _ _ _ _ Dke) _ _ Hq) as ([? _] & _).
  - eapply pmem_page_aligned; [apply Dke|done].
  - by destruct (Dow σ q Hσ Hq) as ([? _] & _).
Qed.

Lemma bystander_apart q t b : bystander q → touched t → q ≤ b < q + PGSIZE → ¬ (t ≤ b < t + PGSIZE).
Proof.
  intros [Hq Hn] Ht Hb Hb'. assert (q ≠ t) as Hne by (by intros ->).
  destruct (page_aligned_apart q t Hq (touched_aligned t Ht) Hne); lia.
Qed.

Lemma returned_touched T L q :
  returned s pg T L → q ∈ stack_page s kpg c :: (T ++ [tf c]) ++ pgtbl c :: L ∨ (∃ π, kpg !! π = Some q) → touched q.
Proof.
  intros Hret [Hq|Hq]; [|by right; left]. unfold touched. rewrite elem_of_cons, !elem_of_app, list_elem_of_singleton, elem_of_cons in Hq.
  destruct Hq as [->|[[Hq|Hq]|[-> |Hq]]]; [tauto| |tauto| |].
  - destruct (returned_table _ _ _ _ _ Hret Hq) as (π & _ & Hπ). left. by exists π.
  - left. exists []. by apply (pt_root _ _ _ (vo_pt _ _ _ _ _ (dm_space _ _ _ _ _ _ Hd))).
  - apply (rt_pages _ _ _ _ Hret) in Hq. tauto.
Qed.

(** ** The exit code *)

(** Where the parent [p] wants the exit code. *)
Record status_target (p : proc) (ppg : ptmap) (addr : Z) : Prop := {
  st_table : pt_ok (k_mem s) (pgtbl p) ppg;
  st_range : 0 < addr ∧ addr + 4 ≤ VA_MAX;
  st_present va : addr ≤ va < addr + 4 → present (k_mem s) ppg va ∧ bystander (mapped_pa (k_mem s) ppg va);
  st_off : off_table (k_mem s) ppg addr 4;
  st_inj x y : 0 ≤ x < 4 → 0 ≤ y < 4 → phys (k_mem s) ppg (addr + x) = phys (k_mem s) ppg (addr + y) → x = y }.

Definition status_mem (ppg : ptmap) (addr : Z) : mem :=
  if addr =? 0 then k_mem s else user_store (phys (k_mem s) ppg) (k_mem s) addr (le_bytes 4 (u32 (exit_state c))).

Context (p : proc) (ppg : ptmap) (addr : Z) (Haddr : addr = 0 ∨ status_target p ppg addr).

Lemma status_byte va : addr ≠ 0 → addr ≤ va < addr + 4 → bystander (mapped_pa (k_mem s) ppg va) ∧
  mapped_pa (k_mem s) ppg va ≤ phys (k_mem s) ppg va < mapped_pa (k_mem s) ppg va + PGSIZE.
Proof.
  intros Hn Hva. destruct Haddr as [?|[_ _ Hp _ _]]; [done|]. destruct (Hp va Hva) as [_ Hb]. split; [done|].
  unfold phys, PGSIZE in *. zdiv.
Qed.

Lemma status_mem_other b :
  (addr ≠ 0 → ∀ va, addr ≤ va < addr + 4 → phys (k_mem s) ppg va ≠ b) → load8 (status_mem ppg addr) b = load8 (k_mem s) b.
Proof.
  intros Hb. unfold status_mem. destruct (addr =? 0) eqn:E; zbool; [done|]. apply user_store_other.
  rewrite length_le_bytes. intros x Hx. apply Hb; [done|lia].
Qed.

Lemma status_mem_touched q b : touched q → q ≤ b < q + PGSIZE → load8 (status_mem ppg addr) b = load8 (k_mem s) b.
Proof.
  intros Hq Hb. apply status_mem_other. intros Hn va Hva E. destruct (status_byte va Hn Hva) as [Hby Hr].
  apply (bystander_apart _ q b Hby Hq); [lia|done].
Qed.

Lemma status_run u :
  k_mem u = k_mem s →
  (if addr =? 0 then mret tt else uvm_copyout (pgtbl p) addr (le_bytes 4 (u32 (exit_state c)))) u =
    Ok (tt, set_mem (status_mem ppg addr) u).
Proof.
  intros Eu. unfold status_mem. destruct (addr =? 0) eqn:E; zbool; [rewrite <- Eu; by destruct u|].
  destruct Haddr as [?|[Ht [Hr0 Hr1] Hp Ho Hi]]; [done|]. rewrite <- Eu in *. apply copyout_loop_run; try rewrite length_le_bytes; try done; try lia.
  - intros va Hva. by apply Hp.
  - right. apply copy_fuel_enough. lia.
Qed.

(** What [proc_wait] leaves when it has released [c] of slot [i]. *)
Record reaped (i : nat) (fl : list nat) (T L : list Z) (s' : kstate) : Prop := {
  rp_pages : returned s pg T L;
  rp_ok : vm_ok s' (k_kpgtbl s) kpg (stack_page s kpg c :: (T ++ [tf c]) ++ kl) ((pgtbl c :: L) ++ ul);
  rp_kernel va : 0 ≤ va < VA_MAX → lookup_pte (k_mem s') kpg va =
    if decide (va / PGSIZE = kstack c / PGSIZE) then 0 else lookup_pte (k_mem s) kpg va;
  rp_slot : k_procs s' = <[i := vacant c]> (k_procs s);
  rp_pool : pool_ok s' (give_back fl (p_mmap c));
  rp_status : addr ≠ 0 → user_load (phys (k_mem s) ppg) (k_mem s') addr 4 = le_bytes 4 (u32 (exit_state c));
  rp_others q b : bystander q → q ≤ b < q + PGSIZE →
    (addr ≠ 0 → ∀ va, addr ≤ va < addr + 4 → phys (k_mem s) ppg va ≠ b) → load8 (k_mem s') b = load8 (k_mem s) b;
  rp_sync : same_sync s s' }.

(** The state in which the child is released. *)
Definition reap_state (i : nat) (lg : list (string * list Z)) : kstate :=
  set_mem (status_mem ppg addr) (set_log lg (acq (LkProc i) (acq LkWait s))).

Lemma reap_doomed i lg :
  doomed (reap_state i lg) c pg kpg kl ul ∧ stack_page (reap_state i lg) kpg c = stack_page s kpg c ∧
  (∀ σ, slot_ok σ → user_owned (status_mem ppg addr) pg σ = user_owned (k_mem s) pg σ) ∧
  ∀ va, lookup_pte (status_mem ppg addr) kpg va = lookup_pte (k_mem s) kpg va.
Proof.
  apply (doomed_ext s (reap_state i lg)); try done.
  - pose proof (vo_sync _ _ _ _ _ (dm_kernel _ _ _ _ _ _ Hd)) as [Hst Hk Hu].
    pose proof (hart_stable_noff _ Hst). split; [apply (acq_stable (LkProc i) (acq LkWait s)); simpl; lia| |].
    + by apply (acq_idle (LkProc i) _ (acq LkWait s)), acq_idle.
    + by apply (acq_idle (LkProc i) _ (acq LkWait s)), acq_idle.
  - intros q b Hq. apply status_mem_touched. unfold touched. tauto.
Qed.

Lemma user_load_mem tr m m' va n :
  (∀ x, va ≤ x < va + Z.of_nat n → load8 m' (tr x) = load8 m (tr x)) → user_load tr m' va n = user_load tr m va n.
Proof.
  revert va. induction n as [|n IH]; intros va Hm; cbn [user_load]; [done|]. rewrite Hm, IH; [done| |lia].
  intros x Hx. apply Hm. lia.
Qed.

(** From the release to the view of the caller. *)
Lemma released_reaped i fl T L lg s4 lg' :
  released (reap_state i lg) i c pg kpg kl ul fl T L s4 → hart_stable (k_hart s) →
  reaped i fl T L (set_log lg' (set_hart (k_hart s) (set_locks (k_locks s) s4))).
Proof.
  intros [Rpg Rok Rke Rm Rpo Rre Rf] Hst. destruct (reap_doomed i lg) as (_ & Est & Hou & Hlk). rewrite Est in *.
  assert (returned s pg T L) as Hret.
  { destruct Rpg as [Ht Hn Hp]. split; [done|done|]. intros pa. rewrite Hp.
    split; intros (σ & Hσ & Ho); exists σ; (split; [done|]); unfold reap_state in *; simpl in *; by rewrite Hou in *. }
  assert (∀ q b, bystander q → q ≤ b < q + PGSIZE → load8 (k_mem s4) b = load8 (status_mem ppg addr) b) as Hby.
  { intros q b Hq Hb. apply Rm. intros t Ht. apply (bystander_apart q t b Hq); [|done]. by apply (returned_touched T L). }
  split; [done| | | | | | |done].
  - destruct Rok as [Hpt Hpm _ Hdj]. pose proof (vo_sync _ _ _ _ _ (dm_kernel _ _ _ _ _ _ Hd)) as [_ Hk Hu].
    split; [exact Hpt|by destruct Hpm|by split|exact Hdj].
  - intros va Hva. simpl k_mem. rewrite Rke by done. case_decide; [done|]. apply Hlk.
  - by rewrite Rf.
  - by destruct Rpo.
  - intros Hn. simpl k_mem. rewrite (user_load_mem _ (status_mem ppg addr)).
    + unfold status_mem. rewrite (proj2 (Z.eqb_neq _ _) Hn). destruct Haddr as [?|[_ _ _ _ Hi]]; [done|].
      apply (user_load_store _ _ _ (le_bytes 4 (u32 (exit_state c)))). by rewrite length_le_bytes.
    + intros x Hx. destruct (status_byte x Hn Hx) as [Hb Hr]. by apply (Hby _ _ Hb).
  - intros q b Hq Hb Hne. simpl k_mem. rewrite (Hby q b Hq Hb). by apply status_mem_other.
Qed.

(** The turn of the scan that finds the child. *)
Lemma wait_scan_zombie i l me hk fl lg :
  procs_quiet s → lock_idle LkWait s → k_procs s !! i = Some c → zombie_of me c →
  pool_ok s fl → lock_idle LkMmapList s → region_held fl (p_mmap c) →
  ∃ s' T L, wait_scan (i :: l) me p addr hk (set_log lg (acq LkWait s)) = Ok ((Some (pid c), true), s') ∧
    reaped i fl T L s'.
Proof.
  intros Hq Hw Hi [Hpa Hz] Hpool Hml Hreg. pose proof (pq_hart _ Hq) as Hst. pose proof (hart_stable_noff _ Hst) as Hn.
  assert (lock_idle (LkProc i) s) as Hl by (apply (pq_lock _ Hq); rewrite <- (pq_len _ Hq); by eapply lookup_lt_Some).
  set (t := set_log lg (acq LkWait s)). assert (hart_stable (k_hart t)) as Hst1 by (by apply (acq_stable LkWait s)).
  assert (lock_idle (LkProc i) t) as Hl1 by (by apply (acq_idle LkWait _ s)).
  cbn [wait_scan]. run (get_proc_run i t c Hi). rewrite bool_decide_true by done.
  run (acquire_run (LkProc i) t (lock_idle_unlocked _ _ Hl1)). run (get_proc_run i (acq (LkProc i) t) c Hi).
  rewrite (bind_ok _ _ _ _ _ (printf_run _ _ _)). rewrite bool_decide_true by done. rewrite (bind_ok _ _ _ _ _ (printf_run _ _ _)).
  erewrite bind_ok; [|by apply status_run].
  match goal with |- context [set_mem _ (set_log ?x _)] => set (lg1 := x) end.
  destruct (proc_free_run (reap_state i lg1) i c pg kpg kl ul fl Hi (proj1 (reap_doomed i lg1))) as (s4 & T & L & Hr & Hrel);
    [by destruct Hpool|by apply (acq_idle (LkProc i) _ (acq LkWait s)), acq_idle|done|].
  rewrite (bind_ok _ _ _ _ _ (Hr : proc_free i (set_mem _ (set_log _ (set_log _ (acq (LkProc i) t)))) = _)).
  assert (same_sync (acq (LkProc i) t) s4) as Hs4 by (rewrite (rl_frame _ _ _ _ _ _ _ _ _ _ _ Hrel); done).
  rewrite (release_bind (LkProc i) t s4 _ Hst1 Hl1 Hs4). rewrite (release_bind LkWait s _ _ Hst Hw) by done.
  eexists _, T, L. split; [reflexivity|]. by apply (released_reaped i fl T L lg1 s4).
Qed.

End wait.

(** Up to the first look at the table. *)
Lemma proc_wait_start {Sw : Switch} rounds addr s me p :
  procs_quiet s → lock_idle LkWait s → h_proc (k_hart s) = Some me → k_procs s !! me = Some p →
  ∃ lg, proc_wait rounds addr s = wait_loop rounds me addr (set_log lg (acq LkWait s)).
Proof.
  intros Hq Hw Hme Hp. eexists. unfold proc_wait. run (myproc_deref_run me s (pq_hart _ Hq) Hme). run (get_proc_run me s p Hp).
  rewrite (bind_ok _ _ _ _ _ (printf_run _ _ _)).
  match goal with |- context [set_log ?x s] => run (acquire_run LkWait (set_log x s) (lock_idle_unlocked LkWait s Hw)) end.
  reflexivity.
Qed.

Lemma acq_wait_quiet s : procs_quiet s → ∀ lg, procs_quiet (set_log lg (acq LkWait s)).
Proof.
  intros [Hst Hl Hn] lg. split; [apply (acq_stable LkWait s), hart_stable_noff, Hst| |done].
  intros j Hj. apply (acq_idle LkWait _ s); [done|by apply Hl].
Qed.

(** ** Claims *)

(** C36: [proc_wait] with a child that has exited.  The first such child of the table, in slot
    [i], is released: [proc_wait] returns its pid, its slot is empty, and everything it held
    is back in the pools as after [proc_free].  The four bytes at [addr] in the memory of the
    parent, unless [addr] is 0, hold its exit code; every other byte of the pages the child
    had no part in, the page tables of the parent among them, is unchanged; and all locks
    are as they were. *)
Theorem proc_wait_reaps {Sw : Switch} (rounds : nat) (addr : Z) (s : kstate) (me i : nat) (p c : proc)
    (ppg pg kpg : ptmap) (kl ul : list Z) (fl : list nat) :
  procs_quiet s → lock_idle LkWait s → h_proc (k_hart s) = Some me → k_procs s !! me = Some p →
  k_procs s !! i = Some c → zombie_of me c →
  (∀ j q, (j < i)%nat → k_procs s !! j = Some q → ¬ zombie_of me q) →
  doomed s c pg kpg kl ul → pool_ok s fl → lock_idle LkMmapList s → region_held fl (p_mmap c) →
  addr = 0 ∨ status_target s c pg kpg kl ul p ppg addr →
  ∃ s' tables pages, proc_wait (S rounds) addr s = Ok (pid c, s') ∧
    reaped s c pg kpg kl ul ppg addr i fl tables pages s'.
Proof.
  intros Hq Hw Hme Hp Hi Hz Hfirst Hd Hpool Hml Hreg Haddr.
  destruct (proc_wait_start (S rounds) addr s me p Hq Hw Hme Hp) as [lg ->]. cbn [wait_loop].
  run (get_proc_run me (set_log lg (acq LkWait s)) p Hp).
  assert (i < NPROC)%nat as Hlt by (rewrite <- (pq_len _ Hq); by eapply lookup_lt_Some).
  rewrite (seq_split NPROC i Hlt).
  destruct (wait_scan_skip me p addr (seq 0 i) (i :: seq (S i) (NPROC - S i)) false (set_log lg (acq LkWait s))) as (lg' & hk & Hr).
  - by apply acq_wait_quiet.
  - apply Forall_forall. intros j Hj%elem_of_seq. destruct (lookup_lt_is_Some_2 (k_procs s) j) as [q Hj']; [rewrite (pq_len _ Hq); lia|].
    exists q. split; [done|]. apply (Hfirst j); [lia|done].
  - destruct (wait_scan_zombie s c pg kpg kl ul Hd p ppg addr Haddr i (seq (S i) (NPROC - S i)) me hk fl lg')
      as (s' & T & L & Hs & Hre); try done.
    exists s', T, L. split; [|done]. rewrite (bind_ok _ _ _ _ _ (eq_trans Hr Hs)). done.
Qed.

(** A process without children: [proc_wait] returns -1 at once and changes nothing but the
    console. *)
Theorem proc_wait_no_children {Sw : Switch} (rounds : nat) (addr : Z) (s : kstate) (me : nat) (p : proc) :
  procs_quiet s → lock_idle LkWait s → h_proc (k_hart s) = Some me → k_procs s !! me = Some p →
  (∀ j q, k_procs s !! j = Some q → parent q ≠ Some me) →
  ∃ lg, proc_wait (S rounds) addr s = Ok (-1, set_log lg s).
Proof.
  intros Hq Hw Hme Hp Hno. destruct (proc_wait_start (S rounds) addr s me p Hq Hw Hme Hp) as [lg ->]. cbn [wait_loop].
  run (get_proc_run me (set_log lg (acq LkWait s)) p Hp).
  assert (∀ l, Forall (λ j, (j < NPROC)%nat) l →
    wait_scan l me p addr false (set_log lg (acq LkWait s)) = Ok ((None, false), set_log lg (acq LkWait s))) as Hscan.
  { induction l as [|j l IH]; intros Hl; [done|]. apply Forall_cons in Hl as [Hj Hl].
    destruct (lookup_lt_is_Some_2 (k_procs s) j) as [q Hjq]; [by rewrite (pq_len _ Hq)|]. cbn [wait_scan].
    run (get_proc_run j (set_log lg (acq LkWait s)) q Hjq). rewrite bool_decide_false by (by apply (Hno j)). by apply IH. }
  run (Hscan (seq 0 NPROC) ltac:(apply Forall_forall; intros j Hj%elem_of_seq; lia)).
  rewrite (bind_ok _ _ _ _ _ (printf_run _ _ _)). rewrite (release_bind LkWait s _ _ (pq_hart _ Hq) Hw) by done.
  eexists. unfold mret, M_ret. by do 2 f_equal.
Qed.

(** ** Witness: process 2, a child of process 0, has exited with code 42 *)

Definition reap_pg : ptmap := one_pg 0x80500000 0x80100000 0x80101000 0.
Definition reap_kpg : ptmap := one_pg 0x80110000 0x80111000 0x80112000 (KSTACK 2).
Definition reap_ppg : ptmap := one_pg 0x80510000 0x80130000 0x80131000 0x1000.

Definition reap_mem1 : mem := one_page 0x80500000 0x80100000 0x80101000 0 0x80501000 (PTE_R + PTE_U) ∅.
Definition reap_mem2 : mem := one_page 0x80110000 0x80111000 0x80112000 (KSTACK 2) 0x80120000 (PTE_R + PTE_W) reap_mem1.
Definition reap_mem : mem := one_page 0x80510000 0x80130000 0x80131000 0x1000 0x80511000 (PTE_R + PTE_W + PTE_U) reap_mem2.

Definition reap_child : proc :=
  set_pid 7 (set_parent (Some O) (set_exit_state 42 (set_state ZOMBIE (set_pgtbl 0x80500000 (set_tf 0x80121000
    (set_kstack (KSTACK 2) zero_proc)))))).
Definition reap_parent : proc := set_pgtbl 0x80510000 (set_state RUNNING zero_proc).

Definition reap_sample : kstate :=
  let s := zero_state (image_syms 31488) in
  set_hart (set_hproc (Some O) (k_hart s))
    (set_locks (<[LkWait := mk_spinlock 0 "wait_lock" (-1)]> (<[LkMmapList := mk_spinlock 0 "mmap" (-1)]>
       (<[LkKernRegion := mk_spinlock 0 "kern" (-1)]> (<[LkUserRegion := mk_spinlock 0 "user" (-1)]> proc_locks))))
    (set_kpgtbl 0x80110000 (set_kern (mk_region 0x80100000 0x80500000 0 0) (set_user (mk_region 0x80500000 0x80600000 0 0)
    (set_procs (<[O := reap_parent]> (<[2%nat := reap_child]> (k_procs s))) (set_mem reap_mem s)))))).

Lemma reap_sample_mem : k_mem reap_sample = reap_mem.
Proof. reflexivity. Qed.

Lemma reap_mem1_eq : reap_mem1 = one_page 0x80500000 0x80100000 0x80101000 0 0x80501000 (PTE_R + PTE_U) ∅.
Proof. reflexivity. Qed.

Lemma reap_mem2_eq : reap_mem2 = one_page 0x80110000 0x80111000 0x80112000 (KSTACK 2) 0x80120000 (PTE_R + PTE_W) reap_mem1.
Proof. reflexivity. Qed.

Lemma reap_mem_eq : reap_mem = one_page 0x80510000 0x80130000 0x80131000 0x1000 0x80511000 (PTE_R + PTE_W + PTE_U) reap_mem2.
Proof. reflexivity. Qed.

#[local] Opaque reap_mem1 reap_mem2 reap_mem.

Ltac one_pg_cases H := apply one_pg_page in H as [[_ ->]|[_ [-> | ->]]].

Lemma reap_tables :
  pt_ok reap_mem 0x80500000 reap_pg ∧ pt_ok reap_mem 0x80110000 reap_kpg ∧ pt_ok reap_mem 0x80510000 reap_ppg ∧
  (∀ σ, slot_ok σ → user_owned reap_mem reap_pg σ = user_owned reap_mem1 reap_pg σ) ∧
  lookup_pte reap_mem reap_kpg (KSTACK 2) = leaf_pte 0x80120000 (PTE_R + PTE_W) ∧
  lookup_pte reap_mem reap_ppg 0x1000 = leaf_pte 0x80511000 (PTE_R + PTE_W + PTE_U).
Proof.
  assert (pt_ok reap_mem1 0x80500000 reap_pg) as H1 by (rewrite reap_mem1_eq; by apply one_page_ok).
  assert (pt_ok reap_mem2 0x80110000 reap_kpg) as H2.
  { clear H1. rewrite reap_mem2_eq. apply one_page_ok; [done..|]. intros i Hi. rewrite reap_mem1_eq. by rewrite one_page_zero. }
  assert (∀ π q, reap_pg !! π = Some q → q = 0x80500000 ∨ q = 0x80100000 ∨ q = 0x80101000) as Hp1
    by (clear; intros π q Hq; one_pg_cases Hq; tauto).
  assert (∀ π q, reap_kpg !! π = Some q → q = 0x80110000 ∨ q = 0x80111000 ∨ q = 0x80112000) as Hp2
    by (clear; intros π q Hq; one_pg_cases Hq; tauto).
  destruct (one_page_keep 0x80110000 0x80111000 0x80112000 (KSTACK 2) 0x80120000 (PTE_R + PTE_W)
    ltac:(clear; done) ltac:(clear; done) ltac:(clear; done) reap_mem1 _ _ H1) as (H1' & _ & M1); [intros π q Hq; specialize (Hp1 π q Hq); lia|].
  rewrite <- reap_mem2_eq in H1', M1. clear H1.
  destruct (one_page_keep 0x80510000 0x80130000 0x80131000 0x1000 0x80511000 (PTE_R + PTE_W + PTE_U)
    ltac:(clear; done) ltac:(clear; done) ltac:(clear; done) reap_mem2 _ _ H1') as (H1 & _ & M2); [intros π q Hq; specialize (Hp1 π q Hq); lia|].
  destruct (one_page_keep 0x80510000 0x80130000 0x80131000 0x1000 0x80511000 (PTE_R + PTE_W + PTE_U)
    ltac:(clear; done) ltac:(clear; done) ltac:(clear; done) reap_mem2 _ _ H2) as (H2' & L2 & _); [intros π q Hq; specialize (Hp2 π q Hq); lia|].
  rewrite <- reap_mem_eq in H1, H2'. split; [exact H1|]. split; [exact H2'|]. clear H1 H2 H1' H2'.
  split; [|split; [|split]].
  - clear. rewrite reap_mem_eq. apply one_page_ok; [done..|]. intros i Hi. rewrite reap_mem2_eq, reap_mem1_eq. by rewrite !one_page_zero.
  - intros σ. apply user_owned_ext. intros π q b Hq Hb. rewrite reap_mem_eq, (M2 π q b Hq Hb). exact (M1 π q b Hq Hb).
  - rewrite reap_mem_eq, L2, reap_mem2_eq. clear. by apply one_page_lookup.
  - rewrite reap_mem_eq. clear. by apply one_page_lookup.
Qed.

Lemma reap_vm_ok root pg : pt_ok reap_mem root pg → vm_ok reap_sample root pg [] [].
Proof.
  intros Hpt. split; [exact Hpt| |by split; [right|eexists|eexists]|intros π q _; split; apply not_elem_of_nil].
  clear Hpt. split; [..|done]; (split; [done|apply NoDup_nil_2|apply Forall_nil_2|done|done]).
Qed.

Lemma reap_stack : stack_page reap_sample reap_kpg reap_child = 0x80120000.
Proof.
  unfold stack_page, mapped_pa. rewrite reap_sample_mem. change (kstack reap_child) with (KSTACK 2).
  destruct reap_tables as (_ & _ & _ & _ & -> & _). reflexivity.
Qed.

Lemma reap_owned σ pa : slot_ok σ → user_owned reap_mem reap_pg σ = Some pa → σ = slot_of 0 ∧ pa = 0x80501000.
Proof.
  intros Hσ. destruct reap_tables as (_ & _ & _ & Ho & _). rewrite (Ho σ Hσ). clear Ho. unfold user_owned. case_decide; [done|].
  rewrite reap_mem1_eq. by apply one_page_owned.
Qed.

Lemma reap_sample_doomed : doomed reap_sample reap_child reap_pg reap_kpg [] [].
Proof.
  destruct reap_tables as (Hpt & Hkpt & _ & _ & Hlk & _).
  assert (∀ q, q = 0x80120000 ∨ q = 0x80121000 → kernel_page reap_sample reap_pg reap_kpg [] q) as Hk.
  { clear. intros q Hq. split; [destruct Hq as [-> | ->]; done|]. split; [apply not_elem_of_nil|].
    split; intros π t Ht; one_pg_cases Ht; lia. }
  split.
  - apply reap_vm_ok. exact Hpt.
  - apply reap_vm_ok. exact Hkpt.
  - by clear.
  - clear. intros π q Hne Hq. apply one_pg_page in Hq as [[-> _]|[_ [-> | ->]]]; done.
  - clear. intros π q Hq. one_pg_cases Hq; done.
  - clear. intros π ρ q Hq Hq'. one_pg_cases Hq; apply one_pg_page in Hq' as [[_ E]|[_ [E|E]]]; done.
  - intros σ pa Hσ Ho. destruct (reap_owned σ pa Hσ Ho) as [_ ->]. clear. split; [done|]. split; [apply not_elem_of_nil|].
    intros π q Hq. one_pg_cases Hq; done.
  - intros σ σ' pa Hσ Hσ' Ho Ho'. destruct (reap_owned σ pa Hσ Ho) as [-> _], (reap_owned σ' pa Hσ' Ho') as [-> _]. reflexivity.
  - apply Hk. by right.
  - rewrite reap_stack. split; [apply Hk; by left|by clear].
  - clear Hpt Hkpt Hk. split; [by clear|]. split; [by clear|]. split; [by clear|]. unfold unmappable. rewrite reap_sample_mem.
    change (kstack reap_child) with (KSTACK 2). rewrite Hlk. by clear.
  - by clear.
Qed.

Lemma reap_sample_pool : pool_ok reap_sample [].
Proof. by split; [..|apply NoDup_singleton]. Qed.

(** The page the parent reads the code in. *)
Lemma reap_parent_page va :
  0x1000 ≤ va < 0x2000 → present reap_mem reap_ppg va ∧ mapped_pa reap_mem reap_ppg va = 0x80511000.
Proof.
  intros Hva. destruct reap_tables as (_ & _ & _ & _ & _ & Hlk). unfold present, mapped_pa.
  rewrite (same_page_lookup reap_mem reap_ppg 0x1000 va), Hlk; [by clear|by clear|by clear|unfold PGSIZE; lia].
Qed.

Lemma reap_bystander : bystander reap_sample reap_child reap_pg reap_kpg [] [] 0x80511000.
Proof.
  split; [done|]. intros [[π Hq]|[[π Hq]|[Hq|[Hq|[Hq|(σ & Hσ & Hq)]]]]].
  - apply one_pg_page in Hq as [[_ E]|[_ [E|E]]]; done.
  - apply one_pg_page in Hq as [[_ E]|[_ [E|E]]]; done.
  - by apply not_elem_of_nil in Hq.
  - done.
  - by rewrite reap_stack in Hq.
  - by destruct (reap_owned _ _ Hσ Hq).
Qed.

Lemma reap_target : status_target reap_sample reap_child reap_pg reap_kpg [] [] reap_parent reap_ppg 0x1008.
Proof.
  split.
  - apply reap_tables.
  - done.
  - intros va Hva. rewrite reap_sample_mem. destruct (reap_parent_page va ltac:(lia)) as [Hp Hm]. split; [exact Hp|].
    rewrite Hm. apply reap_bystander.
  - intros x π q Hx Hq. rewrite reap_sample_mem. destruct (reap_parent_page x ltac:(lia)) as [_ ->]. one_pg_cases Hq; done.
  - intros x y Hx Hy. rewrite reap_sample_mem. unfold phys.
    destruct (reap_parent_page (0x1008 + x) ltac:(lia)) as [_ ->], (reap_parent_page (0x1008 + y) ltac:(lia)) as [_ ->].
    unfold PGSIZE. zdiv.
Qed.

Lemma proc_wait_reaps_witness :
  ∃ s', @proc_wait resume_at_once 1 0x1008 reap_sample = Ok (7, s') ∧
    k_procs s' !! 2%nat = Some (vacant reap_child) ∧ user_load (phys reap_mem reap_ppg) (k_mem s') 0x1008 4 = [42; 0; 0; 0].
Proof.
  destruct (@proc_wait_reaps resume_at_once 0 0x1008 reap_sample 0 2 reap_parent reap_child reap_ppg reap_pg reap_kpg [] [] [])
    as (s' & T & L & Hr & Hre).
  - split; [by right| |done]. intros i Hi. exists "proc"%string. unfold reap_sample. cbn [k_locks set_hart set_locks].
    rewrite !lookup_insert_ne by done. by apply proc_locks_lookup.
  - by eexists.
  - reflexivity.
  - reflexivity.
  - reflexivity.
  - done.
  - intros j q Hj Hq [Hp _]. destruct j as [|[|j]]; [| |lia]; injection Hq as <-; done.
  - apply reap_sample_doomed.
  - apply reap_sample_pool.
  - by eexists.
  - done.
  - right. apply reap_target.
  - exists s'. split; [exact Hr|]. clear Hr. destruct Hre as [_ _ _ Hs _ Hst _ _]. split; [by rewrite Hs|].
    rewrite reap_sample_mem in Hst. by apply Hst.
Defined.
