(* ===== verification/Fork.v ===== *)
(** * Creating a process (proc_alloc and proc_fork of kernel/proc/proc.c)

    What fork does, from the search of a slot to the release of its lock.  The theorems:
    [proc_fork] gives the child an address space of its own with the contents of the
    parent's, a copy of its trapframe in which a0 is 0, a copy of its list of mmap regions,
    a kernel stack and a fresh pid, and changes nothing of the parent; it returns -1 when no
    slot is free, and panics instead of failing when the kernel pool is empty. *)

From S2P Require Import Prelude Bytes Kernel Lock Str Pmem Vm Sched MmapPool Uvm Clone Teardown Proc Reap.

(** ** Two page tables over one pair of pools *)

Record tables (s : kstate) (root : Z) (pg : ptmap) (root' : Z) (pg' : ptmap) (kl ul : list Z) : Prop := {
  tb_fst : vm_ok s root pg kl ul;
  tb_snd : vm_ok s root' pg' kl ul;
  tb_apart π ρ q : pg !! π = Some q → pg' !! ρ = Some q → False }.

Lemma tables_sym s root pg root' pg' kl ul : tables s root pg root' pg' kl ul → tables s root' pg' root pg kl ul.
Proof. intros [H1 H2 H3]. split; [done|done|]. intros π ρ q Hq Hq'. by apply (H3 ρ π q). Qed.

(** The pages a step on the table [pg] may write. *)
Definition writable (pg : ptmap) (kl ul : list Z) (q : Z) : Prop := (∃ π, pg !! π = Some q) ∨ q ∈ kl ++ ul.

Definition only (X : Z → Prop) (m m' : mem) : Prop :=
  ∀ b, (∀ q, X q → ¬ (q ≤ b < q + PGSIZE)) → load8 m' b = load8 m b.

Lemma only_trans (X : Z → Prop) m1 m2 m3 : only X m1 m2 → only X m2 m3 → only X m1 m3.
Proof. intros H1 H2 b Hb. by rewrite H2, H1. Qed.

Lemma only_mono (X Y : Z → Prop) m m' : (∀ q, X q → Y q) → only X m m' → only Y m m'.
Proof. intros HXY H b Hb. apply H. intros q Hq. by apply Hb, HXY. Qed.

(** A page apart from all of them keeps its bytes. *)
Lemma only_apart (X : Z → Prop) m m' t b :
  only X m m' → (∀ q, X q → q mod PGSIZE = 0) → t mod PGSIZE = 0 → ¬ X t → t ≤ b < t + PGSIZE → load8 m' b = load8 m b.
Proof.
  intros Ho Hal Ht Hn Hb. apply Ho. intros q Hq Hqb. assert (q ≠ t) as Hne by (by intros ->).
  destruct (page_aligned_apart q t (Hal q Hq) Ht Hne); lia.
Qed.

Lemma writable_aligned s root pg kl ul q : vm_ok s root pg kl ul → writable pg kl ul q → q mod PGSIZE = 0.
Proof.
  intros Hok [[π Hq]|Hq].
  - by destruct (pt_page _ _ _ (vo_pt _ _ _ _ _ Hok) _ _ Hq) as ([? _] & _).
  - eapply pmem_page_aligned; [apply Hok|done].
Qed.

(** A step on the first table leaves the second one alone. *)
Lemma tables_step s s1 root pg pg1 root' pg' kl ul kl1 ul1 :
  tables s root pg root' pg' kl ul → vm_ok s1 root pg1 kl1 ul1 → kl1 `suffix_of` kl → ul1 `suffix_of` ul →
  (∀ π q, pg1 !! π = Some q → pg !! π = Some q ∨ q ∈ kl) → only (writable pg kl ul) (k_mem s) (k_mem s1) →
  tables s1 root pg1 root' pg' kl1 ul1 ∧ ∀ va, lookup_pte (k_mem s1) pg' va = lookup_pte (k_mem s) pg' va.
Proof.
  intros [H1 H2 Hap] Hok Hkl Hul Hfrom Hm. destruct (pt_ok_ext (k_mem s) (k_mem s1) root' pg') as [Hpt' Hlk].
  - intros π t b Ht Hb. pose proof (pt_page _ _ _ (vo_pt _ _ _ _ _ H2) _ _ Ht) as ([Hta _] & _).
    eapply only_apart; [exact Hm|intros q; by eapply writable_aligned|done| |done].
    intros [[ρ Hq]|Hq]; [by apply (Hap ρ π t)|]. destruct (vo_disj _ _ _ _ _ H2 π t Ht). by apply elem_of_app in Hq as [?|?].
  - apply H2.
  - split; [|done]. split; [done| |].
    + split; [done|apply Hok|apply Hok|]. intros π q Hq. destruct (vo_disj _ _ _ _ _ H2 π q Hq) as [Hk Hu].
      split; intros Hx; [apply Hk|apply Hu]; by eapply elem_of_suffix.
    + intros π ρ q Hq Hq'. destruct (Hfrom π q Hq) as [Hq0|Hq0]; [by apply (Hap π ρ q)|].
      by destruct (vo_disj _ _ _ _ _ H2 ρ q Hq').
Qed.

Lemma grown_only pg pg1 kl ul m m1 :
  (∀ π q, pg1 !! π = Some q → pg !! π = Some q ∨ q ∈ kl) → mem_outside pg1 m m1 → only (writable pg kl ul) m m1.
Proof.
  intros Hfrom Hm b Hb. apply Hm. intros π q Hq. apply Hb. unfold writable. rewrite elem_of_app.
  destruct (Hfrom π q Hq); [left; by exists π|tauto].
Qed.

(** What a step on the first table does: new tables are taken from the kernel pool. *)
Record advanced (n : nat) (s : kstate) (root : Z) (pg : ptmap) (root' : Z) (pg' : ptmap) (kl ul : list Z)
    (s1 : kstate) (pg1 : ptmap) (kl1 : list Z) : Prop := {
  av_tables : tables s1 root pg1 root' pg' kl1 ul;
  av_other va : lookup_pte (k_mem s1) pg' va = lookup_pte (k_mem s) pg' va;
  av_pool : (length kl ≤ length kl1 + n)%nat;
  av_suffix : kl1 `suffix_of` kl;
  av_from π q : pg1 !! π = Some q → pg !! π = Some q ∨ q ∈ kl;
  av_only : only (writable pg kl ul) (k_mem s) (k_mem s1);
  av_frame : vm_frame s s1 }.

Lemma advanced_trans n1 n2 s root pg root' pg' kl ul s1 pg1 kl1 s2 pg2 kl2 :
  advanced n1 s root pg root' pg' kl ul s1 pg1 kl1 → advanced n2 s1 root pg1 root' pg' kl1 ul s2 pg2 kl2 →
  advanced (n1 + n2) s root pg root' pg' kl ul s2 pg2 kl2.
Proof.
  intros [T1 O1 P1 U1 F1 M1 R1] [T2 O2 P2 U2 F2 M2 R2]. split; [done| |lia|by etrans| | |by eapply vm_frame_trans].
  - intros va. by rewrite O2.
  - intros π q Hq. destruct (F2 π q Hq) as [Hq'|Hq']; [by apply F1|right; by eapply elem_of_suffix].
  - eapply only_trans; [exact M1|]. eapply only_mono; [|exact M2]. intros q [[π Hq]|Hq].
    + destruct (F1 π q Hq); [left; by exists π|right; apply elem_of_app; by left].
    + right. apply elem_of_app in Hq as [Hq|Hq]; apply elem_of_app; [left; by eapply elem_of_suffix|by right].
Qed.

Lemma tables_grow s root pg root' pg' kl ul va :
  tables s root pg root' pg' kl ul → va < VA_MAX → (2 ≤ length kl)%nat →
  ∃ s1 pg1 kl1 pte, vm_getpte root va true s = Ok (pte, s1) ∧ pte ≠ 0 ∧
    advanced 2 s root pg root' pg' kl ul s1 pg1 kl1 ∧
    ∀ x, lookup_pte (k_mem s1) pg1 x = lookup_pte (k_mem s) pg x.
Proof.
  intros Ht Hva Hk. destruct (vm_getpte_alloc s root pg kl ul va (tb_fst _ _ _ _ _ _ _ Ht) Hva Hk)
    as (s1 & pg1 & kl1 & p & Hr & Hp & Hok & [Gs Gp Gu Go Gl Gf Gm]).
  destruct (tables_step s s1 root pg pg1 root' pg' kl ul kl1 ul Ht Hok Gu) as [Ht1 Ho]; [done|done|by eapply grown_only|].
  exists s1, pg1, kl1, (p + 8 * VA_TO_VPN va 0). split; [done|]. split.
  - destruct (pt_page _ _ _ (vo_pt _ _ _ _ _ Hok) _ _ Hp) as ([_ H0] & _). pose proof (VA_TO_VPN_range va 0) as Hv. unfold vpn_ok in Hv. lia.
  - split; [|done]. split; try done. by eapply grown_only.
Qed.

Definition phys_ok (pa : Z) : Prop := 0 ≤ pa ∧ pa + PGSIZE ≤ 2^56.

Definition page_va (va : Z) : Prop := va mod PGSIZE = 0 ∧ 0 ≤ va ∧ va + PGSIZE ≤ VA_MAX.

Lemma tables_map s root pg root' pg' kl ul va pa perm :
  tables s root pg root' pg' kl ul → page_va va → phys_ok pa → 0 ≤ perm < 1024 → (2 ≤ length kl)%nat →
  ∃ s1 pg1 kl1, vm_mappages root va pa PGSIZE perm s = Ok (tt, s1) ∧
    advanced 2 s root pg root' pg' kl ul s1 pg1 kl1 ∧
    ∀ x, 0 ≤ x < VA_MAX → lookup_pte (k_mem s1) pg1 x =
      if decide (va ≤ x < va + PGSIZE) then leaf_pte pa perm else lookup_pte (k_mem s) pg x.
Proof.
  intros Ht (Hal & H0 & Hmax) [Hpa Hpm] Hperm Hk.
  destruct (map_one s root pg kl ul va pa perm (tb_fst _ _ _ _ _ _ _ Ht)) as (s1 & pg1 & kl1 & Hr & Hok & Hl & [Ms Mu Mf Ml Mfr Mm]);
    try done.
  destruct (tables_step s s1 root pg pg1 root' pg' kl ul kl1 ul Ht Hok Mu) as [Ht1 Ho]; [done|done|by eapply grown_only|].
  exists s1, pg1, kl1. split; [done|]. split; [split; try done; by eapply grown_only|].
  intros x Hx. rewrite Ml by done. rewrite Z.mul_1_l. case_decide; [|done]. f_equal. unfold PGSIZE in *. zdiv.
Qed.

(** A fresh root from the user pool. *)
Lemma fresh_root_run s root' pg' kl u ul :
  vm_ok s root' pg' kl (u :: ul) →
  ∃ r, let s1 := set_mem (memset (k_mem s) u 0 PGSIZE) (set_user r s) in
    pmem_alloc false s = Ok (u, set_user r s) ∧ u ≠ 0 ∧ tables s1 u {[ [] := u ]} root' pg' kl ul ∧
    (∀ va, lookup_pte (k_mem s1) pg' va = lookup_pte (k_mem s) pg' va) ∧
    (∀ va, lookup_pte (k_mem s1) {[ [] := u ]} va = 0) ∧ only (λ q, q = u) (k_mem s) (k_mem s1).
Proof.
  intros Hok. destruct (user_page_alloc s root' pg' kl u ul Hok) as (r & Hr & Hok1 & Hu & (Hal & Hnk & Hnu & Hnt)).
  exists r. cbv zeta.
  destruct (vm_ok_page (set_user r s) root' pg' kl ul u (memset (k_mem s) u 0 PGSIZE) Hok1) as [Hok2 Hlk]; [done| |].
  { intros b. apply memset_page_out. }
  split; [done|]. split; [destruct Hu; lia|]. split; [|split; [done|split]].
  - split; [|done|].
    + split; [|apply Hok2|apply Hok2|by intros π q [_ <-]%lookup_singleton_Some].
      apply pt_ok_root; [done|]. intros i Hi. pose proof (vpn_slot u i Hi).
      cbn [k_mem set_mem]. by rewrite load64_zero_page by (destruct Hu; lia).
    + intros π ρ q [_ <-]%lookup_singleton_Some Hq. by apply (Hnt ρ).
  - intros va. unfold lookup_pte. by rewrite lookup_singleton_ne.
  - intros b Hb. apply memset_page_out. by apply Hb.
Qed.

(** ** The table of a new process *)

(** The entries every address space starts with. *)
Definition start_pte (syms : symbols) (trapframe va : Z) : Z :=
  if decide (TRAPFRAME ≤ va < TRAPFRAME + PGSIZE) then leaf_pte trapframe (Z.lor PTE_R PTE_W)
  else if decide (TRAMPOLINE ≤ va < TRAMPOLINE + PGSIZE) then leaf_pte (trampoline syms) (Z.lor PTE_R PTE_X)
  else 0.

Record started (s : kstate) (t u root' : Z) (pg' : ptmap) (kl ul : list Z) (s1 : kstate) (pg1 : ptmap) (kl1 : list Z) : Prop := {
  sd_tables : tables s1 u pg1 root' pg' kl1 ul;
  sd_other va : lookup_pte (k_mem s1) pg' va = lookup_pte (k_mem s) pg' va;
  sd_look va : 0 ≤ va < VA_MAX → lookup_pte (k_mem s1) pg1 va = start_pte (k_syms s) t va;
  sd_pool : (length kl ≤ length kl1 + 8)%nat;
  sd_suffix : kl1 `suffix_of` kl;
  sd_from π q : pg1 !! π = Some q → q = u ∨ q ∈ kl;
  sd_only : only (λ q, q ∈ kl ++ u :: ul) (k_mem s) (k_mem s1);
  sd_frame : s1 = set_mem (k_mem s1) (set_kern (k_kern s1) (set_user (k_user s1) s)) }.

Lemma shared_va : page_va TRAMPOLINE ∧ page_va TRAPFRAME.
Proof. by split. Qed.

Lemma proc_pgtbl_init_run s t root' pg' kl u ul :
  vm_ok s root' pg' kl (u :: ul) → (8 ≤ length kl)%nat → phys_ok t → phys_ok (trampoline (k_syms s)) →
  ∃ s1 pg1 kl1, proc_pgtbl_init t s = Ok (u, s1) ∧ started s t u root' pg' kl ul s1 pg1 kl1.
Proof.
  intros Hok Hkl Ht Htr. destruct (fresh_root_run s root' pg' kl u ul Hok) as (r & Hr & Hu0 & Htb & Hoth & Hnew & Hon).
  set (s0 := set_mem (memset (k_mem s) u 0 PGSIZE) (set_user r s)) in *. destruct shared_va as [Hva1 Hva2].
  destruct (tables_grow s0 u {[ [] := u ]} root' pg' kl ul TRAMPOLINE Htb) as (s1 & pg1 & kl1 & pte1 & Hr1 & Hp1 & Ha1 & Hl1); [by clear|lia|].
  pose proof (av_pool _ _ _ _ _ _ _ _ _ _ _ Ha1) as Hn1.
  destruct (tables_map s1 u pg1 root' pg' kl1 ul TRAMPOLINE (trampoline (k_syms s)) (Z.lor PTE_R PTE_X) (av_tables _ _ _ _ _ _ _ _ _ _ _ Ha1)
    Hva1 Htr) as (s2 & pg2 & kl2 & Hr2 & Ha2 & Hl2); [by clear|clear -Hn1 Hkl; lia|].
  pose proof (av_pool _ _ _ _ _ _ _ _ _ _ _ Ha2) as Hn2.
  destruct (tables_grow s2 u pg2 root' pg' kl2 ul TRAPFRAME (av_tables _ _ _ _ _ _ _ _ _ _ _ Ha2))
    as (s3 & pg3 & kl3 & pte3 & Hr3 & Hp3 & Ha3 & Hl3); [by clear|clear -Hn1 Hn2 Hkl; lia|].
  pose proof (av_pool _ _ _ _ _ _ _ _ _ _ _ Ha3) as Hn3.
  destruct (tables_map s3 u pg3 root' pg' kl3 ul TRAPFRAME t (Z.lor PTE_R PTE_W) (av_tables _ _ _ _ _ _ _ _ _ _ _ Ha3) Hva2 Ht)
    as (s4 & pg4 & kl4 & Hr4 & Ha4 & Hl4); [by clear|clear -Hn1 Hn2 Hn3 Hkl; lia|].
  pose proof (advanced_trans _ _ _ _ _ _ _ _ _ _ _ _ _ _ _ (advanced_trans _ _ _ _ _ _ _ _ _ _ _ _ _ _ _
    (advanced_trans _ _ _ _ _ _ _ _ _ _ _ _ _ _ _ Ha1 Ha2) Ha3) Ha4) as [T O P U F M R].
  exists s4, pg4, kl4. split.
  - unfold proc_pgtbl_init. run Hr. rewrite (proj2 (Z.eqb_neq _ _) Hu0). unfold clear_page. mrun.
    change (k_mem (set_user r s)) with (k_mem s). fold s0. run Hr1. rewrite (proj2 (Z.eqb_neq _ _) Hp1). mrun.
    assert (k_syms s1 = k_syms s) as -> by (by rewrite (av_frame _ _ _ _ _ _ _ _ _ _ _ Ha1)).
    run Hr2. run Hr3. rewrite (proj2 (Z.eqb_neq _ _) Hp3). by run Hr4.
  - split; [done| | |lia|done| | |].
    + intros va. by rewrite O.
    + intros va Hva. unfold start_pte. rewrite Hl4 by done. case_decide; [done|]. rewrite Hl3, Hl2 by done.
      case_decide; [done|]. by rewrite Hl1.
    + intros π q Hq. destruct (F π q Hq) as [[_ <-]%lookup_singleton_Some|?]; [by left|by right].
    + eapply only_trans; [eapply only_mono; [|exact Hon]|eapply only_mono; [|exact M]].
      * intros q ->. apply elem_of_app. right. by left.
      * intros q [[π [_ <-]%lookup_singleton_Some]|Hq]; rewrite elem_of_app, elem_of_cons in *; tauto.
    + rewrite R. done.
Qed.

(** ** A slot, a pid, pages of the kernel pool *)

Lemma proc_find_unused_run s np old :
  procs_quiet s → k_procs s !! np = Some old → state old = UNUSED →
  (∀ j q, (j < np)%nat → k_procs s !! j = Some q → state q ≠ UNUSED) →
  proc_find_unused s = Ok (Some np, acq (LkProc np) s).
Proof.
  intros Hq Hnp Hst Hfirst. pose proof (pq_hart _ Hq) as Hh.
  assert (np < NPROC)%nat as Hlt by (rewrite <- (pq_len _ Hq); by eapply lookup_lt_Some).
  unfold proc_find_unused. rewrite (seq_split NPROC np Hlt). apply for_return_some.
  - intros j Hj%elem_of_seq. destruct (lookup_lt_is_Some_2 (k_procs s) j) as [q Hjq]; [rewrite (pq_len _ Hq); lia|].
    pose proof (pq_lock _ Hq j ltac:(lia)) as Hl. run (acquire_run (LkProc j) s (lock_idle_unlocked _ _ Hl)).
    run (get_proc_run j (acq (LkProc j) s) q Hjq). rewrite bool_decide_false by (apply (Hfirst j); [lia|done]).
    rewrite (release_bind (LkProc j) s _ _ Hh Hl) by done. by destruct s.
  - run (acquire_run (LkProc np) s (lock_idle_unlocked _ _ (pq_lock _ Hq np Hlt))).
    run (get_proc_run np (acq (LkProc np) s) old Hnp). by rewrite bool_decide_true.
Qed.

Lemma proc_find_unused_none s :
  procs_quiet s → (∀ j q, k_procs s !! j = Some q → state q ≠ UNUSED) → proc_find_unused s = Ok (None, s).
Proof.
  intros Hq Hno. apply for_return_none. intros j Hj%elem_of_seq.
  destruct (lookup_lt_is_Some_2 (k_procs s) j) as [q Hjq]; [rewrite (pq_len _ Hq); lia|].
  pose proof (pq_lock _ Hq j ltac:(lia)) as Hl. run (acquire_run (LkProc j) s (lock_idle_unlocked _ _ Hl)).
  run (get_proc_run j (acq (LkProc j) s) q Hjq). rewrite bool_decide_false by (by apply (Hno j)).
  rewrite (release_bind (LkProc j) s _ _ (pq_hart _ Hq) Hl) by done. by destruct s.
Qed.

Lemma alloc_pid_run s :
  hart_stable (k_hart s) → lock_idle LkPid s → 0 ≤ k_global_pid s →
  alloc_pid s = Ok (k_global_pid s, set_global_pid (i32 (k_global_pid s + 1)) s).
Proof.
  intros Hst Hl H0. unfold alloc_pid. run (acquire_run LkPid s (lock_idle_unlocked _ _ Hl)). mrun.
  change (k_global_pid (acq LkPid s)) with (k_global_pid s). rewrite (proj2 (Z.leb_le 0 _) H0).
  rewrite (release_bind LkPid s _ _ Hst Hl) by done. done.
Qed.

Lemma kern_page_alloc s root pg q kl ul :
  vm_ok s root pg (q :: kl) ul →
  ∃ r, pmem_alloc true s = Ok (q, set_kern r s) ∧ vm_ok (set_kern r s) root pg kl ul ∧ table_page q ∧ page_apart pg kl ul q.
Proof.
  intros [Hpt Hpm Hsy Hdj].
  destruct (pmem_alloc_some true s (q :: kl) ul q kl Hsy Hpm eq_refl) as (r & Hr & Hb & He & Hin & Hni & Hok).
  simpl in *. exists r. split; [done|].
  assert (table_page q) as Hq.
  { destruct Hin as [Ha Hrng]. pose proof (ro_bounds _ _ _ (po_kern _ _ _ Hpm)).
    unfold PHYSTOP, KERNEL_BASE in *. split; [done|lia]. }
  split; [|split; [done|]].
  - split; [done|done| |].
    + destruct Hsy as [? [??] [??]]. split; [done|by eexists..].
    + intros π p Hp. destruct (Hdj π p Hp) as [Hk Hu]. split; [|done]. intros Hp'. apply Hk. by right.
  - split; [apply Hq|]. split; [done|]. split; [by apply (page_in_other _ _ _ true q Hok Hin)|].
    intros π Hp. destruct (Hdj π q Hp) as [Hk _]. apply Hk. by left.
Qed.

Lemma tables_kern_alloc s root pg root' pg' q kl ul :
  tables s root pg root' pg' (q :: kl) ul →
  ∃ r, pmem_alloc true s = Ok (q, set_kern r s) ∧ tables (set_kern r s) root pg root' pg' kl ul ∧ table_page q ∧
    page_apart pg kl ul q ∧ page_apart pg' kl ul q.
Proof.
  intros [H1 H2 Hap]. destruct (kern_page_alloc s root pg q kl ul H1) as (r & Hr & Hok & Hq & Ha).
  destruct (kern_page_alloc s root' pg' q kl ul H2) as (r' & Hr' & Hok' & _ & Ha').
  rewrite Hr in Hr'. injection Hr' as <-. exists r. split; [done|]. split; [|done]. by split.
Qed.

(** ** Allocation *)

Definition newborn (syms : symbols) (g t u : Z) (old : proc) : proc :=
  set_ctx (mk_context (fork_return_addr syms) (kstack old + PGSIZE) (replicate 12 0))
    (set_pgtbl u (set_tf t (set_state RUNNABLE (set_pid g old)))).

(** A page of the kernel pool that was taken: [q] is in use and no table. *)
Definition taken (q : Z) (pg pg' : ptmap) (kl ul kl1 ul1 : list Z) : Prop :=
  table_page q ∧ q ∈ kl ∧ page_apart pg kl1 ul1 q ∧ page_apart pg' kl1 ul1 q.

(** What [proc_alloc] has done to the state: slot [np] holds a process with trapframe [t],
    root table [u] and kernel stack [kp]. *)
Record born (s : kstate) (np : nat) (old : proc) (kpg : ptmap) (kl ul : list Z) (t u kp : Z)
    (s1 : kstate) (pg1 kpg1 : ptmap) (kl1 ul1 : list Z) : Prop := {
  bo_tables : tables s1 u pg1 (k_kpgtbl s) kpg1 kl1 ul1;
  bo_look va : 0 ≤ va < VA_MAX → lookup_pte (k_mem s1) pg1 va = start_pte (k_syms s) t va;
  bo_kernel va : 0 ≤ va < VA_MAX → lookup_pte (k_mem s1) kpg1 va =
    if decide (kstack old ≤ va < kstack old + PGSIZE) then leaf_pte kp (Z.lor PTE_R PTE_W) else lookup_pte (k_mem s) kpg va;
  bo_pool : (length kl ≤ length kl1 + 12)%nat;
  bo_suffix : kl1 `suffix_of` kl;
  bo_user : ul = u :: ul1;
  bo_from π q : pg1 !! π = Some q → q = u ∨ q ∈ kl;
  bo_kfrom π q : kpg1 !! π = Some q → kpg !! π = Some q ∨ q ∈ kl;
  bo_tf : taken t pg1 kpg1 kl ul kl1 ul1;
  bo_stack : taken kp pg1 kpg1 kl ul kl1 ul1 ∧ kp ≠ t;
  bo_only : only (writable kpg kl ul) (k_mem s) (k_mem s1);
  bo_frame : s1 = set_mem (k_mem s1) (set_kern (k_kern s1) (set_user (k_user s1)
    (set_global_pid (i32 (k_global_pid s + 1))
      (with_slot np (newborn (k_syms s) (k_global_pid s) t u old) (acq (LkProc np) s))))) }.

Lemma vm_ok_acq s root pg kl ul lk :
  vm_ok s root pg kl ul → lk ≠ LkKernRegion → lk ≠ LkUserRegion → vm_ok (acq lk s) root pg kl ul.
Proof.
  intros Hok H1 H2. apply (vm_ok_ext s (acq lk s)); try done. destruct Hok as [_ _ [Hst Hk Hu] _].
  split; [by apply acq_stable, hart_stable_noff|by apply acq_idle|by apply acq_idle].
Qed.

(** What [proc_alloc] needs: a free slot, a pid, and enough pages. *)
Record can_alloc (s : kstate) (np : nat) (old : proc) (kpg : ptmap) (kl ul : list Z) : Prop := {
  ca_quiet : procs_quiet s;
  ca_slot : k_procs s !! np = Some old ∧ state old = UNUSED;
  ca_first j q : (j < np)%nat → k_procs s !! j = Some q → state q ≠ UNUSED;
  ca_pid : lock_idle LkPid s ∧ 0 ≤ k_global_pid s;
  ca_kernel : vm_ok s (k_kpgtbl s) kpg kl ul;
  ca_pages : (12 ≤ length kl)%nat ∧ (1 ≤ length ul)%nat;
  ca_stack : page_va (kstack old);
  ca_tramp : phys_ok (trampoline (k_syms s)) }.

Lemma table_phys q : table_page q → phys_ok q.
Proof. intros [Ha Hb]. split; [lia|]. unfold PGSIZE in *. zdiv. Qed.

(** The trapframe and the table. *)
Lemma alloc_space_run s np q kroot kpg t kl u ul :
  vm_ok s kroot kpg (t :: kl) (u :: ul) → k_procs s !! np = Some q → (8 ≤ length kl)%nat →
  phys_ok (trampoline (k_syms s)) →
  ∃ s1 pg1 kl1, (∀ (fail : nat → K (option nat)) (k : K (option nat)),
      (t ← pmem_alloc true; upd_proc np (set_tf t);;
       if t =? 0 then fail np else
         pt ← proc_pgtbl_init t; upd_proc np (set_pgtbl pt);; if pt =? 0 then fail np else k) s = k s1) ∧
    tables s1 u pg1 kroot kpg kl1 ul ∧ (∀ va, lookup_pte (k_mem s1) kpg va = lookup_pte (k_mem s) kpg va) ∧
    (∀ va, 0 ≤ va < VA_MAX → lookup_pte (k_mem s1) pg1 va = start_pte (k_syms s) t va) ∧
    (length kl ≤ length kl1 + 8)%nat ∧ kl1 `suffix_of` kl ∧ (∀ π x, pg1 !! π = Some x → x = u ∨ x ∈ kl) ∧
    taken t pg1 kpg (t :: kl) (u :: ul) kl1 ul ∧ only (λ x, x ∈ kl ++ u :: ul) (k_mem s) (k_mem s1) ∧
    s1 = set_mem (k_mem s1) (set_kern (k_kern s1) (set_user (k_user s1) (with_slot np (set_pgtbl u (set_tf t q)) s))).
Proof.
  intros Hok Hq Hkl Htr. destruct (kern_page_alloc s kroot kpg t kl (u :: ul) Hok) as (r & Hr & Hok1 & Htp & (Tal & Tnk & Tnu & Tnt)).
  set (s1 := with_slot np (set_tf t q) (set_kern r s)).
  assert (vm_ok s1 kroot kpg kl (u :: ul)) as Hok1' by (apply (vm_ok_frame _ _ _ _ _ _ Hok1); try reflexivity; apply Hok1).
  destruct (proc_pgtbl_init_run s1 t kroot kpg kl u ul Hok1' Hkl (table_phys t Htp) Htr) as (s2 & pg2 & kl2 & Hr2 & [St So Sl Sp Su Sf Sm Sfr]).
  assert (k_procs s2 !! np = Some (set_tf t q)) as Hq2 by (rewrite Sfr; exact (with_slot_lookup np _ q (set_kern r s) Hq)).
  set (s3 := with_slot np (set_pgtbl u (set_tf t q)) s2).
  assert (∀ root pg, vm_ok s2 root pg kl2 ul → vm_ok s3 root pg kl2 ul) as Hfr.
  { intros root pg Hv. apply (vm_ok_frame _ _ _ _ _ _ Hv); try reflexivity. apply Hv. }
  assert (u ≠ t) as Hut by (intros ->; apply Tnu; by left).
  destruct St as [Ht1 Ht2 Hap]. pose proof (pt_root _ _ _ (vo_pt _ _ _ _ _ Ht1)) as Hroot.
  destruct (pt_page _ _ _ (vo_pt _ _ _ _ _ Ht1) _ _ Hroot) as ([_ Hu0] & _).
  assert ((t ∉ kl2) ∧ (t ∉ ul)) as [Tn2 Tnu'].
  { split; intros Hx; [apply Tnk; by eapply elem_of_suffix|apply Tnu; by right]. }
  exists s3, pg2, kl2. split; [|split; [split; [by apply Hfr|by apply Hfr|done]|]].
  - intros fail k. run Hr. run (upd_proc_run np (set_tf t) q (set_kern r s) Hq). fold s1.
    rewrite (proj2 (Z.eqb_neq t 0)) by (destruct Htp; lia). run Hr2. run (upd_proc_run np (set_pgtbl u) _ s2 Hq2). fold s3.
    by rewrite (proj2 (Z.eqb_neq u 0)) by lia.
  - split; [exact So|]. split; [exact Sl|]. split; [exact Sp|]. split; [exact Su|]. split; [exact Sf|]. split; [|split; [exact Sm|]].
    + split; [done|]. split; [by left|]. split; [|done]. split; [done|]. split; [done|]. split; [done|].
      intros π Hπ. destruct (Sf π t Hπ) as [->|?]; done.
    + unfold s3. rewrite Sfr. unfold s1, with_slot. simpl. by rewrite list_insert_insert_eq.
Qed.

(** The kernel stack, in the kernel's own table. *)
Lemma alloc_stack_run s np q u pg kroot kpg kp kl ul :
  tables s u pg kroot kpg (kp :: kl) ul → k_kpgtbl s = kroot → k_procs s !! np = Some q → page_va (kstack q) → (2 ≤ length kl)%nat →
  let q' := set_ctx (mk_context (fork_return_addr (k_syms s)) (kstack q + PGSIZE) (replicate 12 0)) q in
  ∃ s1 kpg1 kl1, (∀ fail : nat → K (option nat),
      (kpa ← pmem_alloc true;
       if kpa =? 0 then fail np else
         kpt ← kvm_get_kernel_pgtbl; p ← get_proc np;
         vm_mappages kpt (kstack p) kpa PGSIZE (Z.lor PTE_R PTE_W);;
         syms ← gets (λ s, k_syms s);
         upd_proc np (set_ctx (mk_context (fork_return_addr syms) (kstack p + PGSIZE) (replicate 12 0)));;
         mret (Some np)) s = Ok (Some np, s1)) ∧
    tables s1 u pg kroot kpg1 kl1 ul ∧ (∀ va, lookup_pte (k_mem s1) pg va = lookup_pte (k_mem s) pg va) ∧
    (∀ va, 0 ≤ va < VA_MAX → lookup_pte (k_mem s1) kpg1 va =
       if decide (kstack q ≤ va < kstack q + PGSIZE) then leaf_pte kp (Z.lor PTE_R PTE_W) else lookup_pte (k_mem s) kpg va) ∧
    (length kl ≤ length kl1 + 2)%nat ∧ kl1 `suffix_of` kl ∧ (∀ π x, kpg1 !! π = Some x → kpg !! π = Some x ∨ x ∈ kl) ∧
    taken kp pg kpg1 (kp :: kl) ul kl1 ul ∧ only (writable kpg kl ul) (k_mem s) (k_mem s1) ∧
    s1 = set_mem (k_mem s1) (set_kern (k_kern s1) (with_slot np q' s)).
Proof.
  intros Ht Hroot Hq Hva Hkl q'. destruct (tables_kern_alloc s u pg kroot kpg kp kl ul Ht) as (r & Hr & Ht1 & Hkp & Ha1 & Ha2).
  destruct (tables_map (set_kern r s) kroot kpg u pg kl ul (kstack q) kp (Z.lor PTE_R PTE_W) (tables_sym _ _ _ _ _ _ _ Ht1) Hva (table_phys kp Hkp))
    as (s2 & kpg2 & kl2 & Hr2 & [At Ao Ap Au Af Am Afr] & Hl2); [by clear|done|].
  assert (k_procs s2 !! np = Some q) as Hq2 by (by rewrite Afr).
  set (s3 := with_slot np q' s2). apply tables_sym in At as [At1 At2 Aap].
  assert (∀ root pg, vm_ok s2 root pg kl2 ul → vm_ok s3 root pg kl2 ul) as Hfr.
  { intros root g Hv. apply (vm_ok_frame _ _ _ _ _ _ Hv); try reflexivity. apply Hv. }
  exists s3, kpg2, kl2. split; [|split; [split; [by apply Hfr|by apply Hfr|done]|]].
  - intros fail. run Hr. rewrite (proj2 (Z.eqb_neq kp 0)) by (destruct Hkp; lia). unfold kvm_get_kernel_pgtbl. mrun.
    run (get_proc_run np (set_kern r s) q Hq). change (k_kpgtbl (set_kern r s)) with (k_kpgtbl s). rewrite Hroot. run Hr2. mrun.
    assert (k_syms s2 = k_syms s) as -> by (by rewrite Afr). fold q'.
    by rewrite (bind_ok _ _ _ _ _ (upd_proc_run np _ q s2 Hq2)).
  - split; [exact Ao|]. split; [exact Hl2|]. split; [exact Ap|]. split; [exact Au|]. split; [exact Af|]. split; [|split; [exact Am|]].
    + split; [done|]. split; [by left|]. destruct Ha1 as (Hal & Hnk & Hnu & Hnt), Ha2 as (_ & _ & _ & Hnt').
      assert (kp ∉ kl2) as Hn2 by (intros Hx; apply Hnk; by eapply elem_of_suffix).
      split; [by split|]. split; [done|]. split; [done|]. split; [done|].
      intros π Hπ. destruct (Af π kp Hπ) as [Hx|Hx]; [by apply (Hnt' π)|done].
    + unfold s3. rewrite Afr. done.
Qed.

Lemma proc_alloc_run s np old kpg kl ul :
  can_alloc s np old kpg kl ul →
  ∃ t u kp s1 pg1 kpg1 kl1 ul1, proc_alloc s = Ok (Some np, s1) ∧ born s np old kpg kl ul t u kp s1 pg1 kpg1 kl1 ul1.
Proof.
  intros [Cq [Cs Cst] Cf [Cl Cg] Ck [Cp1 Cp2] Cva Ctr].
  destruct kl as [|t kl]; [simpl in Cp1; lia|]. destruct ul as [|u ul]; [simpl in Cp2; lia|]. simpl in Cp1.
  set (sa := acq (LkProc np) s). pose proof (vm_ok_acq s _ _ _ _ (LkProc np) Ck ltac:(done) ltac:(done)) as Ha. fold sa in Ha.
  set (q0 := set_state RUNNABLE (set_pid (k_global_pid s) old)).
  set (sb := with_slot np q0 (set_global_pid (i32 (k_global_pid s + 1)) sa)).
  assert (vm_ok sb (k_kpgtbl s) kpg (t :: kl) (u :: ul)) as Hb by (apply (vm_ok_frame _ _ _ _ _ _ Ha); try reflexivity; apply Ha).
  destruct (alloc_space_run sb np q0 (k_kpgtbl s) kpg t kl u ul Hb) as (s1 & pg1 & kl1 & Hr1 & T1 & O1 & L1 & P1 & U1 & F1 & K1 & M1 & R1);
    [exact (with_slot_lookup np q0 old _ Cs)|lia|done|].
  destruct kl1 as [|kp kl1]; [simpl in P1; lia|]. simpl in P1.
  assert (k_procs s1 !! np = Some (set_pgtbl u (set_tf t q0))) as Hp1.
  { rewrite R1. refine (with_slot_lookup np _ q0 sb _). exact (with_slot_lookup np q0 old _ Cs). }
  destruct (alloc_stack_run s1 np (set_pgtbl u (set_tf t q0)) u pg1 (k_kpgtbl s) kpg kp kl1 ul T1) as (s2 & kpg2 & kl2 & Hr2 & T2 & O2 & L2 & P2 & U2 & F2 & K2 & M2 & R2);
    [by rewrite R1|exact Hp1|done|lia|].
  assert (k_syms s1 = k_syms s) as Ey by (by rewrite R1). rewrite Ey in R2.
  exists t, u, kp, s2, pg1, kpg2, kl2, ul. split.
  - unfold proc_alloc. run (proc_find_unused_run s np old Cq Cs Cst Cf). fold sa.
    run (alloc_pid_run sa (vo_sync _ _ _ _ _ Ha).(ps_hart _) (acq_idle (LkProc np) LkPid s ltac:(done) Cl) Cg).
    change (k_global_pid sa) with (k_global_pid s).
    rewrite (bind_ok _ _ _ _ _ (upd_proc_run np (set_pid (k_global_pid s)) old (set_global_pid _ sa) Cs)).
    rewrite (bind_ok _ _ _ _ _ (upd_proc_run np (set_state RUNNABLE) _ _ (with_slot_lookup np _ old (set_global_pid _ sa) Cs))).
    rewrite with_slot_twice. fold q0. change (with_slot np q0 _) with sb. rewrite Hr1. apply Hr2.
  - destruct K1 as (Ktp & Kin & Ka & Ka'), K2 as (Stp & Sin & Sa & Sa').
    assert (kp ∈ kl) as Hkp by (eapply elem_of_suffix; [by left|exact U1]).
    assert (kl1 `suffix_of` kl) as U1' by (destruct U1 as [l ->]; by exists (l ++ [kp]); rewrite <- app_assoc).
    pose proof (ro_nodup _ _ _ (po_kern _ _ _ (vo_pmem _ _ _ _ _ Ck))) as Hnd. apply NoDup_cons in Hnd as [Hnt _].
    assert (∀ x, x ∈ kl1 → x ∈ kl) as Hsub by (intros x Hx; by eapply elem_of_suffix).
    split; [done| |  | | |done| | | | | |].
    + intros va Hva. by rewrite O2, L1.
    + intros va Hva. rewrite L2 by done. by rewrite O1.
    + simpl. lia.
    + etrans; [exact U2|]. etrans; [exact U1'|]. by exists [t].
    + intros π x Hx. destruct (F1 π x Hx); [by left|right; by right].
    + intros π x Hx. destruct (F2 π x Hx); [by left|right; right; by apply Hsub].
    + split; [done|]. split; [done|]. destruct Ka as (Kal & Kk & Ku & Kt), Ka' as (_ & _ & _ & Kt').
      assert (t ∉ kl2) as Hn2 by (intros Hx; apply Hnt, Hsub; by eapply elem_of_suffix).
      split; [done|]. split; [done|]. split; [done|]. split; [done|]. intros π Hπ.
      destruct (F2 π t Hπ) as [Hx|Hx]; [by apply (Kt' π)|by apply Hnt, Hsub].
    + split; [|by intros ->]. split; [done|]. split; [by right|done].
    + eapply only_trans; [eapply only_mono; [|exact M1]|eapply only_mono; [|exact M2]].
      * intros x Hx. right. rewrite elem_of_app, elem_of_cons in *. rewrite elem_of_cons. tauto.
      * intros x [Hx|Hx]; [by left|right]. rewrite elem_of_app in *. rewrite !elem_of_cons.
        destruct Hx as [Hx|Hx]; [left; right; by apply Hsub|right; by right].
    + rewrite R2, R1. unfold newborn, sb, q0, with_slot. simpl. by rewrite !list_insert_insert_eq.
Qed.

(** ** Copying the list of regions *)

Notation region := (Z * Z * option nat)%type.

Definition regions (s : kstate) : list region := region_of <$> mp_nodes (k_mmap s).

(** The list of regions from [tmp] on: the nodes [js] and what they describe. *)
Fixpoint region_chain (R : list region) (tmp : option nat) (js : list nat) (rs : list (Z * nat)) : Prop :=
  match js, rs with
  | [], [] => tmp = None
  | j :: js, (b, n) :: rs => tmp = Some j ∧ ∃ nx, R !! j = Some (b, Z.of_nat n, nx) ∧ region_chain R nx js rs
  | _, _ => False
  end.

Lemma region_chain_list s tmp js rs : region_chain (regions s) tmp js rs → region_list (mp_nodes (k_mmap s)) tmp rs.
Proof.
  revert tmp rs. induction js as [|j js IH]; intros tmp [|[b n] rs]; simpl; try done.
  intros (-> & nx & Hj & Hc). unfold regions in Hj. rewrite list_lookup_fmap in Hj.
  destruct (mp_nodes (k_mmap s) !! j) as [nd|] eqn:Hnd; [|done]. injection Hj as <- Hn <-. exists j, nd. repeat split; try done. by apply IH.
Qed.

Lemma region_chain_ext R R' tmp js rs :
  (∀ j, j ∈ js → R' !! j = R !! j) → region_chain R tmp js rs → region_chain R' tmp js rs.
Proof.
  revert tmp rs. induction js as [|j js IH]; intros tmp [|[b n] rs] He; simpl; try done.
  intros (-> & nx & Hj & Hc). split; [done|]. exists nx. split; [rewrite He by (by left); done|].
  apply IH; [|done]. intros k Hk. apply He. by right.
Qed.

Lemma region_chain_length R tmp js rs : region_chain R tmp js rs → length js = length rs.
Proof.
  revert tmp rs. induction js as [|j js IH]; intros tmp [|[b n] rs]; simpl; try done.
  intros (_ & nx & _ & Hc). f_equal. by eapply IH.
Qed.

Definition link_to (x : nat) (r : region) : region := (fst r, Some x).

(** Appending a node behind the last one. *)
Lemma region_chain_snoc R tmp js t x b n rs :
  region_chain R tmp (js ++ [t]) rs → NoDup (js ++ [t]) → x ∉ js ++ [t] → R !! x = Some (b, Z.of_nat n, None) →
  region_chain (alter (link_to x) t R) tmp ((js ++ [t]) ++ [x]) (rs ++ [(b, n)]).
Proof.
  revert tmp rs. induction js as [|j js IH]; intros tmp [|[b0 n0] rs] Hc Hnd Hx HR; simpl in Hc; try done.
  - destruct Hc as (-> & nx & Ht & Hc). destruct rs as [|]; [|done]. simpl. split; [done|].
    exists (Some x). rewrite list_lookup_alter_eq, Ht. split; [done|]. split; [done|].
    exists None. rewrite list_lookup_alter_ne by (intros ->; apply Hx; by left). done.
  - destruct Hc as (-> & nx & Hj & Hc). apply NoDup_cons in Hnd as [Hjn Hnd]. cbn [app] in *. apply not_elem_of_cons in Hx as [Hxj Hx].
    simpl. split; [done|]. exists nx. rewrite list_lookup_alter_ne by (intros ->; apply Hjn, elem_of_app; right; by left).
    split; [done|]. by apply IH.
Qed.

Lemma region_chain_single R x b n : R !! x = Some (b, Z.of_nat n, None) → region_chain R (Some x) [x] [(b, n)].
Proof. intros Hx. simpl. split; [done|]. by exists None. Qed.

(** Writing the region of a node leaves the free list alone. *)
Lemma upd_region_run s fl x f (g : region → region) :
  pool_ok s fl → (∀ n, mn_next (f n) = mn_next n) → (∀ n, region_of (f n) = g (region_of n)) →
  ∃ s1, upd_mmap x f s = Ok (tt, s1) ∧ pool_ok s1 fl ∧ regions s1 = alter g x (regions s) ∧ s1 = set_mmap (k_mmap s1) s.
Proof.
  intros [Hh Hl Hc Hn] Hmn Hg. eexists. split; [reflexivity|]. split; [|split; [|done]].
  - split; [done|simpl; by rewrite length_alter| |done]. simpl.
    assert (∀ l h, chain (mp_nodes (k_mmap s)) h l → chain (alter f x (mp_nodes (k_mmap s))) h l) as Hch; [|by apply Hch].
    assert (∀ h, mn_next <$> alter f x (mp_nodes (k_mmap s)) !! h = mn_next <$> mp_nodes (k_mmap s) !! h) as E.
    { intros h. destruct (decide (h = x)) as [->|Hne]; [|by rewrite list_lookup_alter_ne].
      rewrite list_lookup_alter_eq. destruct (mp_nodes (k_mmap s) !! x); simpl; [by rewrite Hmn|done]. }
    induction l as [|y l IH]; intros h; simpl; rewrite E; [done|]. intros [? ?]. split; [done|by apply IH].
  - unfold regions. simpl. apply list_eq. intros j. rewrite list_lookup_fmap. destruct (decide (j = x)) as [->|Hne].
    + rewrite !list_lookup_alter_eq, list_lookup_fmap. destruct (mp_nodes (k_mmap s) !! x); simpl; [by rewrite Hg|done].
    + by rewrite !list_lookup_alter_ne, list_lookup_fmap.
Qed.

Lemma get_region_run s r b n nx :
  regions s !! r = Some (b, n, nx) →
  ∃ nd, get_mmap r s = Ok (nd, s) ∧ mm_begin nd = b ∧ mm_npages nd = n ∧ mm_next nd = nx.
Proof.
  unfold regions. rewrite list_lookup_fmap. intros H. destruct (mp_nodes (k_mmap s) !! r) as [nd|] eqn:Hnd; [|done].
  injection H as <- <- <-. exists nd. split; [by apply get_mmap_run|done].
Qed.

Lemma mmap_sync_set s m : mmap_sync s → mmap_sync (set_mmap m s).
Proof. intros [Hst [nm Hl]]. split; [done|by exists nm]. Qed.

(** The effect of one turn on the regions: node [x] becomes the last one of the copy. *)
Definition append_region (head tail : option nat) (x : nat) (b n : Z) (R : list region) : list region :=
  let R := <[x := (b, n, None)]> R in
  match head, tail with Some _, Some t => alter (link_to x) t R | _, _ => R end.

Definition tail_ok (head tail : option nat) (r x : nat) : Prop :=
  match head, tail with None, _ => True | Some _, Some t => t ≠ r ∧ t ≠ x | Some _, None => False end.

Lemma fork_region_step s fl x r b n nx head tail :
  pool_ok s (x :: fl) → mmap_sync s → regions s !! r = Some (b, n, nx) → r ≠ x → tail_ok head tail r x →
  ∃ s1, (∀ fuel, fork_mmap_loop (S fuel) (Some r) head tail s =
      fork_mmap_loop fuel nx (Some (default x head)) (Some x) s1) ∧
    pool_ok s1 fl ∧ regions s1 = append_region head tail x b n (regions s) ∧ s1 = set_mmap (k_mmap s1) s.
Proof.
  intros Hp Hs Hr Hne Ht. destruct (mmap_alloc_run s x fl Hp Hs) as (n0 & Ha & Hp1 & Hx0 & Hxl & Hxn).
  set (s1 := with_nodes _ s) in *.
  assert (regions s1 = regions s) as E1 by (unfold regions, s1; simpl; by rewrite region_of_alter).
  destruct (get_region_run s1 r b n nx) as (nd & Hg & Hb & Hn & Hnx); [by rewrite E1|].
  destruct (upd_region_run s1 fl x (mm_set_range b n) (λ y, (b, n, snd y)) Hp1) as (s2 & Hu2 & Hp2 & E2 & F2); [done|done|].
  destruct (upd_region_run s2 fl x (mm_set_next None) (λ y, (fst y, None)) Hp2) as (s3 & Hu3 & Hp3 & E3 & F3); [done|done|].
  assert (regions s3 = <[x := (b, n, None)]> (regions s)) as E3'.
  { destruct (lookup_lt_is_Some_2 (regions s) x) as [y Hy]; [unfold regions; by rewrite length_fmap, (po_len _ _ Hp)|].
    rewrite E3, E2, E1, alter_alter. by rewrite (alter_insert _ _ _ y Hy). }
  assert (∃ s4, (match head, tail with
      | None, _ => mret (Some x)
      | Some h, Some t => upd_mmap t (mm_set_next (Some x));; mret (Some h)
      | Some h, None => fault "dst_tail"
      end) s3 = Ok (Some (default x head), s4) ∧ pool_ok s4 fl ∧ regions s4 = append_region head tail x b n (regions s) ∧
      s4 = set_mmap (k_mmap s4) s3) as (s4 & Hu4 & Hp4 & E4 & F4).
  { unfold append_region. rewrite <- E3'. destruct head as [h|]; [|exists s3; by destruct s3]. destruct tail as [t|]; [|done].
    destruct (upd_region_run s3 fl t (mm_set_next (Some x)) (link_to x) Hp3) as (s4 & Hu4 & Hp4 & E4 & F4); [done|done|].
    exists s4. by run Hu4. }
  exists s4. split; [|split; [done|split; [done|]]].
  - intros fuel. cbn [fork_mmap_loop]. run Ha. fold s1. run Hg. rewrite Hb, Hn. run Hu2. run Hu3. run Hu4.
    destruct (get_region_run s4 r b n nx) as (nd' & Hg' & _ & _ & Hnx').
    + rewrite E4. unfold append_region. destruct head as [h|], tail as [t|]; try done; simpl in Ht;
        rewrite ?list_lookup_alter_ne, list_lookup_insert_ne by naive_solver; done.
    + run Hg'. by rewrite Hnx'.
  - rewrite F4, F3, F2. done.
Qed.

Lemma append_region_other head tail x b n R j :
  j ≠ x → tail ≠ Some j → append_region head tail x b n R !! j = R !! j.
Proof.
  intros Hx Ht. unfold append_region. destruct head as [h|]; [|by rewrite list_lookup_insert_ne].
  destruct tail as [t|]; [|by rewrite list_lookup_insert_ne].
  rewrite list_lookup_alter_ne, list_lookup_insert_ne; [done|done|congruence].
Qed.

(** The copy so far, [ds], grows by the new node. *)
Lemma append_region_chain head ds x b n rs R :
  region_chain R head ds rs → NoDup ds → x ∉ ds → (x < length R)%nat →
  region_chain (append_region head (last ds) x b (Z.of_nat n) R) (Some (default x head)) (ds ++ [x]) (rs ++ [(b, n)]).
Proof.
  intros Hc Hnd Hx Hlt. unfold append_region. assert (<[x := (b, Z.of_nat n, None)]> R !! x = Some (b, Z.of_nat n, None)) as Hl
    by (by apply list_lookup_insert_eq).
  destruct ds as [|d ds _] using rev_ind.
  - destruct rs; [|done]. simpl in Hc. subst head. by apply region_chain_single.
  - rewrite last_snoc. assert (∃ h, head = Some h) as [h ->].
    { destruct ds; simpl in Hc; destruct rs as [|[??] ?]; try done; destruct Hc as [-> _]; by eexists. }
    apply region_chain_snoc; [|done|done|done].
    eapply region_chain_ext; [|exact Hc]. intros j Hj. apply list_lookup_insert_ne. by intros ->.
Qed.

Lemma fork_mmap_loop_run rs : ∀ js s fl src head ds rs0 fuel,
  pool_ok s fl → mmap_sync s → region_chain (regions s) src js rs → (∀ j, j ∈ js → (j ∉ fl) ∧ (j ∉ ds)) →
  NoDup ds → (∀ d, d ∈ ds → d ∉ fl) → (length rs ≤ length fl)%nat → (length rs ≤ fuel)%nat →
  region_chain (regions s) head ds rs0 →
  ∃ s1 head1, fork_mmap_loop fuel src head (last ds) s = Ok (head1, s1) ∧ pool_ok s1 (drop (length rs) fl) ∧
    region_chain (regions s1) head1 (ds ++ take (length rs) fl) (rs0 ++ rs) ∧
    (∀ j, (j ∉ ds) → (j ∉ take (length rs) fl) → regions s1 !! j = regions s !! j) ∧ s1 = set_mmap (k_mmap s1) s.
Proof.
  induction rs as [|[b n] rs IH]; intros js s fl src head ds rs0 fuel Hp Hs Hsrc Hjs Hnd Hds Hlen Hf Hc.
  { destruct js as [|]; [|done]. simpl in Hsrc. subst src. exists s, head. rewrite !app_nil_r. simpl. rewrite drop_0.
    split; [by destruct fuel|]. split; [done|]. split; [done|]. split; [done|]. by destruct s. }
  destruct js as [|r js]; [done|]. destruct Hsrc as (-> & nx & Hr & Hsrc). destruct fl as [|x fl]; [simpl in Hlen; lia|].
  destruct fuel as [|fuel]; [simpl in Hf; lia|]. destruct (Hjs r ltac:(by left)) as [Hrf Hrd]. apply not_elem_of_cons in Hrf as [Hrx Hrf].
  assert (x ∉ ds) as Hxd by (intros Hx; apply (Hds x Hx); by left).
  assert (tail_ok head (last ds) r x) as Ht.
  { destruct ds as [|d ds _] using rev_ind; [by destruct rs0; simpl in Hc; subst|]. rewrite last_snoc.
    destruct head; [|done]. split; intros ->; [apply Hrd|apply Hxd]; apply elem_of_app; right; by left. }
  destruct (fork_region_step s fl x r b (Z.of_nat n) nx head (last ds) Hp Hs Hr Hrx Ht) as (s1 & Hstep & Hp1 & E1 & F1).
  pose proof (po_nodup _ _ Hp) as Hn. apply NoDup_cons in Hn as [_ Hn]. apply NoDup_cons in Hn as [Hxf _].
  assert (∀ j, (j ∉ ds) → j ≠ x → regions s1 !! j = regions s !! j) as Hoth.
  { intros j Hj Hjx. rewrite E1. apply append_region_other; [done|]. intros Hl. apply Hj. by apply last_Some_elem_of. }
  destruct (IH js s1 fl nx (Some (default x head)) (ds ++ [x]) (rs0 ++ [(b, n)]) fuel) as (s2 & h2 & Hr2 & Hp2 & Hc2 & Ho2 & F2).
  - done.
  - rewrite F1. by apply mmap_sync_set.
  - eapply region_chain_ext; [|exact Hsrc]. intros j Hj. destruct (Hjs j ltac:(by right)) as [Hjf Hjd].
    apply Hoth; [done|]. intros ->. apply Hjf. by left.
  - intros j Hj. destruct (Hjs j ltac:(by right)) as [Hjf Hjd]. apply not_elem_of_cons in Hjf as [Hjx Hjf].
    split; [done|]. rewrite elem_of_app, list_elem_of_singleton. tauto.
  - apply NoDup_app. split; [done|]. split; [|apply NoDup_singleton]. intros d Hd ->%list_elem_of_singleton. done.
  - intros d [Hd| ->%list_elem_of_singleton]%elem_of_app; [|done]. intros Hx. apply (Hds d Hd). by right.
  - simpl in Hlen. lia.
  - simpl in Hf. lia.
  - rewrite E1. apply append_region_chain; [done|done|done|]. unfold regions. rewrite length_fmap, (po_len _ _ Hp).
    rewrite <- (po_len _ _ Hp). eapply chain_lt; [apply (po_chain _ _ Hp)|]. right. by left.
  - exists s2, h2. rewrite Hstep. rewrite last_snoc in Hr2. split; [exact Hr2|]. split; [done|]. split.
    { by rewrite <- !app_assoc in Hc2. }
    split; [|rewrite F2, F1; done]. cbn [length take]. intros j Hj Hjt. apply not_elem_of_cons in Hjt as [Hjx Hjt].
    rewrite Ho2; [by apply Hoth| |done]. rewrite elem_of_app, list_elem_of_singleton. tauto.
Qed.

Lemma pool_length s fl : pool_ok s fl → (length fl < N_MMAP)%nat.
Proof.
  intros [_ Hl Hc Hn]. assert (length (O :: fl) ≤ length (seq 0 N_MMAP))%nat as Hle; [|rewrite length_seq in Hle; simpl in Hle; lia].
  apply submseteq_length, NoDup_submseteq; [done|]. intros j Hj. apply elem_of_seq. rewrite <- Hl. pose proof (chain_lt _ _ _ j Hc Hj). lia.
Qed.

(** ** Fork *)

(** A page that no table of the kernel and no pool holds is apart from what the new
    process was given. *)
Lemma born_apart s np old kpg kl ul t u kp s1 pg1 kpg1 kl1 ul1 q :
  born s np old kpg kl ul t u kp s1 pg1 kpg1 kl1 ul1 → page_apart kpg kl ul q →
  page_apart pg1 kl1 ul1 q ∧ page_apart kpg1 kl1 ul1 q.
Proof.
  intros [_ _ _ _ Bs Bu Bf Bk _ _ _ _] (Hal & Hk & Hu & Hp).
  assert (q ∉ kl1) as Hk1 by (intros Hx; apply Hk; by eapply elem_of_suffix).
  assert (q ∉ ul1) as Hu1 by (intros Hx; apply Hu; rewrite Bu; by right).
  split; (split; [done|split; [done|split; [done|]]]); intros π Hπ.
  - destruct (Bf π q Hπ) as [->|?]; [apply Hu; rewrite Bu; by left|done].
  - destruct (Bk π q Hπ) as [Hx|?]; [by apply (Hp π)|done].
Qed.

Lemma apart_unwritten pg kl ul q : page_apart pg kl ul q → ¬ writable pg kl ul q.
Proof. intros (_ & Hk & Hu & Hp) [[π Hq]|Hq]; [by apply (Hp π)|by apply elem_of_app in Hq as [?|?]]. Qed.

(** Bytes of such a page. *)
Lemma apart_bytes s root pg kl ul m' q b :
  vm_ok s root pg kl ul → only (writable pg kl ul) (k_mem s) m' → page_apart pg kl ul q → q ≤ b < q + PGSIZE →
  load8 m' b = load8 (k_mem s) b.
Proof.
  intros Hok Ho Hq Hb. eapply only_apart; [exact Ho|intros x; by eapply writable_aligned|apply Hq|by apply apart_unwritten|done].
Qed.

Lemma mapped_pages_ext s s1 pg va n :
  (∀ x, lookup_pte (k_mem s1) pg x = lookup_pte (k_mem s) pg x) → mapped_pages s1 pg va n = mapped_pages s pg va n.
Proof.
  intros E. unfold mapped_pages. revert va. induction n as [|n IH]; intros va; [done|]. cbn [page_seq]. rewrite !filter_cons, IH.
  unfold present. destruct (decide (pte_valid (lookup_pte (k_mem s1) pg va) = true)) as [H|H]; rewrite E in H;
    [by rewrite decide_True|by rewrite decide_False].
Qed.

(** ** The trapframe of the child *)

Definition tf_copy (m : mem) (t tfp : Z) : mem :=
  store64 (store_bytes m t (load_bytes m tfp (Z.to_nat TF_SIZE))) (t + TF_a0) 0.

Lemma tf_copy_out m t tfp b : ¬ (t ≤ b < t + PGSIZE) → load8 (tf_copy m t tfp) b = load8 m b.
Proof.
  intros Hb. unfold tf_copy, TF_a0, TF_SIZE, PGSIZE in *. rewrite load8_store64_out by lia. apply load8_store_bytes_out.
  rewrite length_load_bytes. lia.
Qed.

Lemma tf_copy_in m t tfp k :
  0 ≤ k < TF_SIZE → load8 (tf_copy m t tfp) (t + k) = if decide (TF_a0 ≤ k < TF_a0 + 8) then 0 else load8 m (tfp + k).
Proof.
  intros Hk. unfold tf_copy. case_decide as Hd.
  - replace (t + k) with (t + TF_a0 + Z.of_nat (Z.to_nat (k - TF_a0))) by lia. apply load8_store_bytes_in.
    assert (Z.to_nat (k - TF_a0) < 8)%nat as Hlt by lia. change (le_bytes 8 0) with (replicate 8 0). by apply lookup_replicate_2.
  - rewrite load8_store64_out by lia. replace (t + k) with (t + Z.of_nat (Z.to_nat k)) by lia.
    replace (tfp + k) with (tfp + Z.of_nat (Z.to_nat k)) by lia. apply load8_store_bytes_in, lookup_load_bytes. lia.
Qed.

Section fork.
  Context (s : kstate) (me np : nat) (p old : proc) (pgo kpg : ptmap) (kl ul : list Z).
  Context (n : nat) (js : list nat) (rs : list (Z * nat)) (fl : list nat).

(** The pages of the parent that are copied. *)
Definition fork_pages : list Z := copied_pages s pgo (heap_top p) (ustack_base p) n rs.

(** A parent [p] that can be forked into slot [np]. *)
Record forkable : Prop := {
  fk_alloc : can_alloc s np old kpg kl ul;
  fk_me : h_proc (k_hart s) = Some me ∧ k_procs s !! me = Some p ∧ state p ≠ UNUSED;
  fk_space : pt_ok (k_mem s) (pgtbl p) pgo ∧ ∀ π q, pgo !! π = Some q → page_apart kpg kl ul q;
  fk_tf : page_apart kpg kl ul (tf p);
  fk_heap : 0 ≤ heap_top p ≤ VA_MAX - PGSIZE;
  fk_stack : ustack_pages p = Z.of_nat n ∧ 0 ≤ ustack_base p ∧ ustack_base p + Z.of_nat n * PGSIZE < 2^64 ∧ Z.of_nat n * PGSIZE < 2^32;
  fk_pages : Forall (source s pgo kpg kl ul) fork_pages ∧ NoDup fork_pages;
  fk_room : (length fork_pages < length ul)%nat ∧ (12 + 2 * length fork_pages ≤ length kl)%nat;
  fk_regions : region_chain (regions s) (p_mmap p) js rs ∧ (∀ j, j ∈ js → j ∉ fl) ∧ (length rs ≤ length fl)%nat;
  fk_ranges : Forall (λ r, 0 ≤ fst r ∧ fst r + Z.of_nat (snd r) * PGSIZE < 2^64 ∧ Z.of_nat (snd r) * PGSIZE < 2^32) rs;
  fk_pool : pool_ok s fl ∧ lock_idle LkMmapList s }.

Context (Hf : forkable).

(** The copy of the address space, after the allocation. *)
Lemma fork_copy_run t u kp s1 pg1 kpg1 kl1 ul1 :
  born s np old kpg kl ul t u kp s1 pg1 kpg1 kl1 ul1 →
  (∀ va, lookup_pte (k_mem s1) pgo va = lookup_pte (k_mem s) pgo va) ∧
  ∃ s2 pg2 kl2, uvm_copy_pgtbl (pgtbl p) u (heap_top p) (ustack_base p) (ustack_pages p) (p_mmap p) s1 = Ok (tt, s2) ∧
    copyable s1 pgo pg1 kl1 ul1 [] fork_pages ∧ cloned s1 pgo u pg1 kl1 ul1 fork_pages s2 pg2 kl2.
Proof.
  intros Hb. destruct Hf as [Fa Fm [Fs Fsa] Ft Fh (Fn & Fu0 & Fu1 & Fu2) [Fp Fpn] [Fr1 Fr2] (Fc & Fd & Fl) Frs [Fpo _]].
  pose proof (ca_kernel _ _ _ _ _ _ Fa) as Hk. pose proof (bo_only _ _ _ _ _ _ _ _ _ _ _ _ _ _ Hb) as Ho.
  destruct (pt_ok_ext (k_mem s) (k_mem s1) (pgtbl p) pgo) as [Hpt Hlk]; [|done|].
  { intros π q b Hq Hqb. by apply (apart_bytes s _ kpg kl ul _ q b Hk Ho (Fsa π q Hq)). }
  split; [done|]. assert (k_mmap s1 = k_mmap s) as Em by (by rewrite (bo_frame _ _ _ _ _ _ _ _ _ _ _ _ _ _ Hb)).
  assert (copied_pages s1 pgo (heap_top p) (ustack_base p) n rs = fork_pages) as Ev
    by (unfold fork_pages, copied_pages, heap_pages; by rewrite (mapped_pages_ext s s1)).
  assert (copyable s1 pgo pg1 kl1 ul1 [] fork_pages) as Hcp.
  { split; [|done| |].
    - eapply Forall_impl; [exact Fp|]. intros v [Va Vr Vp Vs].
      unfold present, mapped_pa in *. split; [done|done| |]; unfold present, mapped_pa; rewrite Hlk; [done|].
      by destruct (born_apart _ _ _ _ _ _ _ _ _ _ _ _ _ _ _ Hb Vs).
    - rewrite (bo_user _ _ _ _ _ _ _ _ _ _ _ _ _ _ Hb) in Fr1. simpl in *. lia.
    - pose proof (bo_pool _ _ _ _ _ _ _ _ _ _ _ _ _ _ Hb). simpl in *. lia. }
  destruct (copy_pgtbl_run s1 (pgtbl p) pgo u pg1 kl1 ul1 Hpt (tb_fst _ _ _ _ _ _ _ (bo_tables _ _ _ _ _ _ _ _ _ _ _ _ _ _ Hb)))
    with (heap_top := heap_top p) (ustack_base := ustack_base p) (n := n) (mmap := p_mmap p) (rs := rs) as (s2 & pg2 & kl2 & Hr & Hc); try done.
  - intros π q Hq. by destruct (born_apart _ _ _ _ _ _ _ _ _ _ _ _ _ _ _ Hb (Fsa π q Hq)).
  - rewrite Em. by apply (region_chain_list s _ js).
  - pose proof (pool_length s fl Fpo). lia.
  - by rewrite Ev.
  - rewrite Ev in Hc. exists s2, pg2, kl2. by rewrite Fn.
Qed.

(** The child. *)
Definition child (t u : Z) (head : option nat) : proc :=
  mk_proc (k_global_pid s) RUNNABLE (Some me) (exit_state old) (sleep_space old) u (heap_top p) (ustack_base p) (ustack_pages p)
    head t (kstack old) (mk_context (fork_return_addr (k_syms s)) (kstack old + PGSIZE) (replicate 12 0)) (cwd old) (filelist old).

(** The memory of the child: it has trapframe [t], root table [u] and kernel stack [kp],
    all of them free before; [pg] is its table and [kpg1] the kernel's. *)
Record child_space (t u kp : Z) (s' : kstate) (pg kpg1 : ptmap) (kl1 : list Z) : Prop := {
  cs_tables : tables s' u pg (k_kpgtbl s) kpg1 kl1 (drop (S (length fork_pages)) ul);
  cs_copy v va : v ∈ fork_pages → v ≤ va < v + PGSIZE →
    present (k_mem s') pg va ∧ mapped_pa (k_mem s') pg va ∈ ul ∧
    PTE_FLAGS (lookup_pte (k_mem s') pg va) = PTE_FLAGS (lookup_pte (k_mem s) pgo va) ∧
    load8 (k_mem s') (phys (k_mem s') pg va) = load8 (k_mem s) (phys (k_mem s) pgo va);
  cs_own v w : v ∈ fork_pages → w ∈ fork_pages → mapped_pa (k_mem s') pg v = mapped_pa (k_mem s') pg w → v = w;
  cs_rest va : 0 ≤ va < VA_MAX → (∀ v, v ∈ fork_pages → ¬ (v ≤ va < v + PGSIZE)) →
    lookup_pte (k_mem s') pg va = start_pte (k_syms s) t va;
  cs_kernel va : 0 ≤ va < VA_MAX → lookup_pte (k_mem s') kpg1 va =
    if decide (kstack old ≤ va < kstack old + PGSIZE) then leaf_pte kp (Z.lor PTE_R PTE_W) else lookup_pte (k_mem s) kpg va;
  cs_fresh : t ∈ kl ∧ kp ∈ kl ∧ u ∈ ul ∧ kp ≠ t;
  cs_tf : page_apart pg kl1 (drop (S (length fork_pages)) ul) t ∧ page_apart kpg1 kl1 (drop (S (length fork_pages)) ul) t;
  cs_only : only (writable kpg kl ul) (k_mem s) (k_mem s') }.

(** What [proc_fork] leaves. *)
Record forked (t u kp : Z) (head : option nat) (s' : kstate) (pg kpg1 : ptmap) (kl1 : list Z) : Prop := {
  fo_space : child_space t u kp s' pg kpg1 kl1;
  fo_tf k : 0 ≤ k < TF_SIZE → load8 (k_mem s') (t + k) =
    if decide (TF_a0 ≤ k < TF_a0 + 8) then 0 else load8 (k_mem s) (tf p + k);
  fo_regions : region_chain (regions s') head (take (length rs) fl) rs ∧ region_chain (regions s') (p_mmap p) js rs;
  fo_pool : pool_ok s' (drop (length rs) fl);
  fo_frame : s' = set_mem (k_mem s') (set_kern (k_kern s') (set_user (k_user s') (set_mmap (k_mmap s')
    (set_global_pid (i32 (k_global_pid s + 1)) (with_slot np (child t u head) s))))) }.

Lemma fork_user_page x : x ∈ ul → x mod PGSIZE = 0.
Proof.
  intros Hx. eapply pmem_page_aligned; [apply (vo_pmem _ _ _ _ _ (ca_kernel _ _ _ _ _ _ (fk_alloc Hf)))|].
  apply elem_of_app. by right.
Qed.

(** Writing the trapframe page changes none of it. *)
Lemma child_space_tf t u kp s2 pg kpg1 kl1 s' :
  child_space t u kp s2 pg kpg1 kl1 → k_kern s' = k_kern s2 → k_user s' = k_user s2 → pmem_sync s' →
  (∀ b, ¬ (t ≤ b < t + PGSIZE) → load8 (k_mem s') b = load8 (k_mem s2) b) → child_space t u kp s' pg kpg1 kl1.
Proof.
  intros [[C1 C2 Cap] Ccp Cown Crest Ck (Ft & Fk & Fu & Fn) [Ca Ca'] Co] Ek Eu Hsy Hm.
  assert (∀ root g, vm_ok s2 root g kl1 (drop (S (length fork_pages)) ul) → page_apart g kl1 (drop (S (length fork_pages)) ul) t →
    vm_ok s' root g kl1 (drop (S (length fork_pages)) ul) ∧ ∀ va, lookup_pte (k_mem s') g va = lookup_pte (k_mem s2) g va) as Hst.
  { intros root g Hv Hg. apply (vm_ok_ext s2 s'); try done. intros q b Hq Hb. apply Hm. intros Htb.
    assert (q ≠ t) as Hne by (intros ->; by apply (apart_unwritten _ _ _ _ Hg)).
    destruct (page_aligned_apart q t (writable_aligned _ _ _ _ _ _ Hv Hq) (proj1 Hg) Hne); lia. }
  destruct (Hst _ _ C1 Ca) as [V1 L1], (Hst _ _ C2 Ca') as [V2 L2].
  split; [by split| | | | |done|done|].
  - intros v va Hv Hva. destruct (Ccp v va Hv Hva) as (Hp & Hu & Hfl & Hb). unfold phys, present, mapped_pa in *. rewrite L1.
    split; [done|]. split; [done|]. split; [done|]. rewrite Hm; [done|]. pose proof (fork_user_page _ Hu) as Hal. intros Hin.
    assert (PTE_TO_PA (lookup_pte (k_mem s2) pg va) ≠ t) as Hne.
    { intros E. rewrite E in Hu. by apply (pools_disjoint _ _ _ t (vo_pmem _ _ _ _ _ (ca_kernel _ _ _ _ _ _ (fk_alloc Hf)))). }
    pose proof (Z.mod_pos_bound va PGSIZE ltac:(by clear)). destruct (page_aligned_apart _ t Hal (proj1 Ca) Hne); lia.
  - intros v w. unfold mapped_pa. rewrite !L1. apply Cown.
  - intros va. rewrite L1. apply Crest.
  - intros va. rewrite L2. apply Ck.
  - intros b Hb. rewrite Hm; [by apply Co|]. apply Hb. right. apply elem_of_app. by left.
Qed.

(** The address space after the allocation and the copy. *)
Lemma child_space_copied t u kp s1 pg1 kpg1 kl1 ul1 s2 pg2 kl2 :
  born s np old kpg kl ul t u kp s1 pg1 kpg1 kl1 ul1 →
  (∀ va, lookup_pte (k_mem s1) pgo va = lookup_pte (k_mem s) pgo va) →
  copyable s1 pgo pg1 kl1 ul1 [] fork_pages → cloned s1 pgo u pg1 kl1 ul1 fork_pages s2 pg2 kl2 →
  child_space t u kp s2 pg2 kpg1 kl2.
Proof.
  intros Hb Hlk Hcp Hc. pose proof Hb as [Bt Bl Bk Bp Bs Bu Bf Bkf Btf [Bst Bne] Bo _].
  pose proof (ca_kernel _ _ _ _ _ _ (fk_alloc Hf)) as Hk. pose proof Hc as [Cok _ Csuf Cfrom Celse _ Cmem _].
  assert (drop (S (length fork_pages)) ul = drop (length fork_pages) ul1) as Ed by (by rewrite Bu).
  assert (only (writable pg1 kl1 ul1) (k_mem s1) (k_mem s2)) as Ho2.
  { intros b Hbb. apply Cmem. intros q Hq. apply Hbb. unfold writable. rewrite elem_of_app. tauto. }
  destruct (tables_step s1 s2 u pg1 pg2 (k_kpgtbl s) kpg1 kl1 ul1 kl2 (drop (length fork_pages) ul1) Bt Cok Csuf) as [Ht2 Hlk2];
    [by apply suffix_drop|done|done|].
  assert (∀ x, x ∈ kl1 → x ∈ kl) as Hkl by (intros x Hx; by eapply elem_of_suffix).
  assert (∀ x, x ∈ ul1 → x ∈ ul) as Hul by (intros x Hx; rewrite Bu; by right).
  split; rewrite ?Ed; [done| | | | | | |].
  - intros v va Hv Hva. destruct (cloned_view s1 pgo u pg1 kl1 ul1 (tb_fst _ _ _ _ _ _ _ Bt) fork_pages s2 pg2 kl2 v va Hc Hcp Hv Hva)
      as (H1 & H2 & H3 & H4). split; [done|]. split; [by apply Hul|]. rewrite Hlk in H3. split; [done|]. rewrite H4.
    unfold phys, mapped_pa. rewrite Hlk. apply (apart_bytes s _ kpg kl ul _ (mapped_pa (k_mem s) pgo v) _ Hk Bo).
    + destruct (fk_pages Hf) as [Fp _]. rewrite Forall_forall in Fp. apply (Fp v Hv).
    + destruct (fk_pages Hf) as [Fp _]. rewrite Forall_forall in Fp. destruct (Fp v Hv) as [Hal [H0 _] _ _].
      unfold mapped_pa. rewrite (same_page_lookup (k_mem s) pgo v va Hal H0 Hva). pose proof (Z.mod_pos_bound va PGSIZE ltac:(by clear)). lia.
  - intros v w. by apply (cloned_inj s1 pgo u pg1 kl1 ul1 (tb_fst _ _ _ _ _ _ _ Bt) fork_pages s2 pg2 kl2).
  - intros va Hva Hno. rewrite Celse by done. by apply Bl.
  - intros va Hva. rewrite Hlk2. by apply Bk.
  - destruct Btf as (_ & ? & _), Bst as (_ & ? & _). repeat split; try done. rewrite Bu. by left.
  - destruct Btf as (_ & _ & (Tal & Tk & Tu & Tp) & (_ & _ & _ & Tp')).
    assert (t ∉ kl2) as Hn by (intros Hx; apply Tk; by eapply elem_of_suffix).
    assert (t ∉ drop (length fork_pages) ul1) as Hn' by (intros Hx; apply Tu; eapply elem_of_suffix; [exact Hx|apply suffix_drop]).
    split; (split; [done|split; [done|split; [done|]]]); [|done]. intros π Hπ. destruct (Cfrom π t Hπ) as [Hx|Hx]; [by apply (Tp π)|done].
  - eapply only_trans; [exact Bo|]. eapply only_mono; [|exact Ho2]. intros q [[π Hq]|Hq]; right; apply elem_of_app.
    + destruct (Bf π q Hq) as [->|?]; [right; rewrite Bu; by left|by left].
    + apply elem_of_app in Hq as [?|?]; [left; by apply Hkl|right; by apply Hul].
Qed.

(** From the copied address space to the end. *)
Lemma fork_tail_run t u s2 :
  let q := newborn (k_syms s) (k_global_pid s) t u old in
  k_procs s2 !! np = Some q → k_mmap s2 = k_mmap s → same_sync (acq (LkProc np) s) s2 →
  ∃ head s', (upd_proc np (set_layout (heap_top p) (ustack_base p) (ustack_pages p));;
      head ← fork_mmap_loop (S N_MMAP) (p_mmap p) None None;
      upd_proc np (set_p_mmap head);;
      modify (λ s, set_mem (store_bytes (k_mem s) (tf q) (load_bytes (k_mem s) (tf p) (Z.to_nat TF_SIZE))) s);;
      write64 (tf q + TF_a0) 0;;
      upd_proc np (set_parent (Some me));;
      q ← get_proc np;
      upd_proc np (set_state RUNNABLE);;
      spinlock_release (LkProc np);;
      mret (pid q)) s2 = Ok (k_global_pid s, s') ∧
    region_chain (regions s') head (take (length rs) fl) rs ∧ region_chain (regions s') (p_mmap p) js rs ∧
    pool_ok s' (drop (length rs) fl) ∧ k_mem s' = tf_copy (k_mem s2) t (tf p) ∧
    s' = set_mem (k_mem s') (set_mmap (k_mmap s') (with_slot np (child t u head)
           (set_hart (k_hart s) (set_locks (k_locks s) s2)))).
Proof.
  intros q Hq Em Hsy. destruct (fk_regions Hf) as (Fc & Fd & Fl), (fk_pool Hf) as [Fpo Fli].
  pose proof (ca_quiet _ _ _ _ _ _ (fk_alloc Hf)) as Hqu. pose proof (pq_hart _ Hqu) as Hh.
  assert (np < NPROC)%nat as Hlt by (rewrite <- (pq_len _ Hqu); eapply lookup_lt_Some; apply (ca_slot _ _ _ _ _ _ (fk_alloc Hf))).
  set (s3 := with_slot np (set_layout (heap_top p) (ustack_base p) (ustack_pages p) q) s2).
  assert (regions s3 = regions s) as Er by (unfold regions, s3; simpl; by rewrite Em).
  assert (k_procs s3 !! np = Some (set_layout (heap_top p) (ustack_base p) (ustack_pages p) q)) as Hq3 by (by eapply with_slot_lookup).
  destruct (fork_mmap_loop_run rs js s3 fl (p_mmap p) None [] [] (S N_MMAP)) as (s4 & head & Hr4 & Hp4 & Hc4 & Ho4 & F4); try done.
  - destruct Fpo as [? ? ? ?]. split; simpl; by rewrite ?Em.
  - destruct Hsy as [Eh El]. split; [simpl; rewrite Eh; by apply acq_stable, hart_stable_noff|].
    destruct (acq_idle (LkProc np) LkMmapList s ltac:(done) Fli) as [nm Hnm]. exists nm. simpl. by rewrite El.
  - by rewrite Er.
  - intros j Hj. split; [by apply Fd|apply not_elem_of_nil].
  - apply NoDup_nil_2.
  - intros d []%not_elem_of_nil.
  - pose proof (pool_length s fl Fpo). lia.
  - assert (k_procs s4 !! np = Some (set_layout (heap_top p) (ustack_base p) (ustack_pages p) q)) as Hq4 by (by rewrite F4).
    set (s5 := with_slot np (set_p_mmap head (set_layout (heap_top p) (ustack_base p) (ustack_pages p) q)) s4).
    set (s6 := set_mem (tf_copy (k_mem s4) t (tf p)) s5).
    set (q6 := set_p_mmap head (set_layout (heap_top p) (ustack_base p) (ustack_pages p) q)). assert (k_procs s6 !! np = Some q6) as Hq6
      by (by eapply with_slot_lookup).
    set (s7 := with_slot np (child t u head) s6).
    exists head, (set_hart (k_hart s) (set_locks (k_locks s) s7)). split; [|split; [exact Hc4|split; [|split; [|split]]]].
    + run (upd_proc_run np (set_layout (heap_top p) (ustack_base p) (ustack_pages p)) q s2 Hq). fold s3. run Hr4.
      run (upd_proc_run np (set_p_mmap head) _ s4 Hq4). unfold write64. mrun.
      match goal with |- mbind _ _ ?st = _ => change st with s6 end.
      run (upd_proc_run np (set_parent (Some me)) _ s6 Hq6).
      run (get_proc_run np _ _ (with_slot_lookup np (set_parent (Some me) q6) _ s6 Hq6)).
      run (upd_proc_run np (set_state RUNNABLE) _ _ (with_slot_lookup np (set_parent (Some me) q6) _ s6 Hq6)).
      rewrite with_slot_twice. match goal with |- mbind _ _ ?st = _ => change st with s7 end.
      rewrite (release_bind (LkProc np) s s7 _ Hh (pq_lock _ Hqu np Hlt)); [done|].
      unfold s7, s6, s5. rewrite F4. exact Hsy.
    + eapply region_chain_ext; [|rewrite <- Er in Fc; exact Fc]. intros j Hj. apply Ho4; [apply not_elem_of_nil|].
      intros (i & Hi & _)%elem_of_take. apply (Fd j Hj). by eapply list_elem_of_lookup_2.
    + destruct Hp4. by split.
    + unfold s7, s6. rewrite F4. done.
    + unfold s7, s6, s5. rewrite F4. unfold with_slot. simpl. by rewrite !list_insert_insert_eq.
Qed.

Lemma proc_fork_run :
  ∃ t u kp head s' pg kpg1 kl1, proc_fork s = Ok (k_global_pid s, s') ∧ forked t u kp head s' pg kpg1 kl1.
Proof.
  destruct (fk_me Hf) as (Hme & Hp & Hst). pose proof (fk_alloc Hf) as Ha. destruct (ca_slot _ _ _ _ _ _ Ha) as [Hnp Hun].
  pose proof (ca_kernel _ _ _ _ _ _ Ha) as Hk. assert (me ≠ np) as Hne by (intros ->; congruence).
  destruct (proc_alloc_run s np old kpg kl ul Ha) as (t & u & kp & s1 & pg1 & kpg1 & kl1 & ul1 & Hr1 & Hb).
  pose proof (bo_frame _ _ _ _ _ _ _ _ _ _ _ _ _ _ Hb) as F1.
  destruct (fork_copy_run t u kp s1 pg1 kpg1 kl1 ul1 Hb) as (Hlk & s2 & pg2 & kl2 & Hr2 & Hcp & Hc).
  pose proof (child_space_copied t u kp s1 pg1 kpg1 kl1 ul1 s2 pg2 kl2 Hb Hlk Hcp Hc) as Hcs.
  pose proof (cl_frame _ _ _ _ _ _ _ _ _ _ Hc) as F2. set (q := newborn (k_syms s) (k_global_pid s) t u old).
  assert (k_procs s1 = <[np := q]> (k_procs s)) as P1 by (by rewrite F1).
  assert (k_procs s1 !! np = Some q) as Hq1 by (rewrite P1; by eapply (with_slot_lookup np q old s)).
  assert (k_procs s1 !! me = Some p) as Hp1 by (by rewrite P1, list_lookup_insert_ne).
  destruct (fork_tail_run t u s2) as (head & s' & Hr3 & Hc1 & Hc2 & Hpo & Em & F3);
    [by rewrite F2|by rewrite F2, F1|by rewrite F2, F1|].
  exists t, u, kp, head, s', pg2, kpg1, kl2. split.
  - unfold proc_fork. run (myproc_deref_run me s (pq_hart _ (ca_quiet _ _ _ _ _ _ Ha)) Hme). run Hr1.
    run (get_proc_run me s1 p Hp1). run (get_proc_run np s1 q Hq1). change (pgtbl q) with u. run Hr2. exact Hr3.
  - split; [|  |done|done|].
    + apply (child_space_tf t u kp s2 pg2 kpg1 kl2 s' Hcs); [by rewrite F3|by rewrite F3| |].
      * destruct (vo_sync _ _ _ _ _ Hk) as [Sh [n1 Sk] [n2 Su]]. rewrite F3. split; [done|by exists n1|by exists n2].
      * intros b Hbt. rewrite Em. by apply tf_copy_out.
    + intros k Hkr. rewrite Em, tf_copy_in by done. case_decide; [done|].
      apply (apart_bytes s _ kpg kl ul _ (tf p) _ Hk (cs_only _ _ _ _ _ _ _ Hcs) (fk_tf Hf)). unfold TF_SIZE, PGSIZE in *. lia.
    + rewrite F3, F2, F1. unfold with_slot. simpl. by rewrite list_insert_insert_eq.
Qed.

End fork.

(** ** No memory *)

Lemma unmap_missing s root pg va freeit :
  pt_ok (k_mem s) root pg → page_va va → ¬ present (k_mem s) pg va →
  ∃ msg, vm_unmappages root va PGSIZE freeit s = Panic msg.
Proof.
  intros Hpt (Hal & H0 & Hmax) Hno. unfold vm_unmappages. rewrite Hal. change (0 =? 0) with true. mrun.
  pose proof (eq_refl : VA_MAX = 2^38). rewrite u64_small by (unfold PGSIZE in *; lia). cbn [vm_unmap_loop].
  rewrite (proj2 (Z.ltb_lt _ _)) by (unfold PGSIZE; lia).
  run (vm_getpte_lookup s root pg va Hpt ltac:(unfold PGSIZE in *; lia)).
  unfold present, lookup_pte in Hno. destruct (pg !! va_path va) as [q|] eqn:Hq; [|by eexists].
  destruct (pt_page _ _ _ Hpt _ _ Hq) as ([_ Hq0] & _). pose proof (VA_TO_VPN_range va 0) as Hr. unfold vpn_ok in Hr.
  rewrite (proj2 (Z.eqb_neq _ 0)) by lia. unfold read64. mrun. rewrite (not_true_is_false _ Hno). by eexists.
Qed.

(** The failure path of [proc_alloc] frees what was never allocated. *)
Lemma proc_alloc_fail_panics s np q kpg :
  k_procs s !! np = Some q → tf q = 0 → pgtbl q = 0 → kstack q ≠ 0 → pt_ok (k_mem s) (k_kpgtbl s) kpg → page_va (kstack q) →
  ¬ present (k_mem s) kpg (kstack q) → ∃ msg, proc_alloc_fail np s = Panic msg.
Proof.
  intros Hq Htf Hpt Hks Hk Hva Hno. set (s1 := with_slot np (set_pgtbl 0 (set_tf 0 q)) s).
  destruct (unmap_missing s1 (k_kpgtbl s) kpg (kstack q) true Hk Hva Hno) as [msg Hu]. exists msg. unfold proc_alloc_fail.
  apply bind_panic. unfold proc_free. run (get_proc_run np s q Hq). rewrite Htf, Hpt. mrun.
  rewrite (bind_ok _ _ _ _ _ (upd_proc_run np (set_tf 0) q s Hq)). mrun.
  rewrite (bind_ok _ _ _ _ _ (upd_proc_run np (set_pgtbl 0) _ _ (with_slot_lookup np (set_tf 0 q) q s Hq))).
  rewrite with_slot_twice. fold s1. rewrite (proj2 (Z.eqb_neq _ _) Hks). unfold kvm_get_kernel_pgtbl. mrun. apply bind_panic. exact Hu.
Qed.

(** ** Claims *)

(** C10: fork.  With a free slot, enough free pages and a parent whose code, stack and mmap
    pages are mapped, [proc_fork] returns the next pid and fills the first free slot with a
    runnable child of the caller: the child has the parent's layout, a table of its own that
    maps every page of the parent's code, mapped heap, stack and mmap regions to a fresh page
    with the same bytes and permissions, and besides only the trampoline and its own
    trapframe; a trapframe that is the parent's except for a0, which is 0; a list of its own
    with the same mmap regions; and a kernel stack, the one change to the kernel's table.
    The parent, its table, its pages and its regions, every other slot, and every lock are as
    before, and the invariants of the tables and of all pools hold. *)
Theorem proc_fork_correct (s : kstate) (me np : nat) (p old : proc) (pgo kpg : ptmap) (kl ul : list Z)
    (n : nat) (js : list nat) (rs : list (Z * nat)) (fl : list nat) :
  forkable s me np p old pgo kpg kl ul n js rs fl →
  ∃ t u kp head s' pg kpg1 kl1, proc_fork s = Ok (k_global_pid s, s') ∧
    k_procs s' = <[np := child s me p old t u head]> (k_procs s) ∧ me ≠ np ∧
    child_space s p old pgo kpg kl ul n rs t u kp s' pg kpg1 kl1 ∧
    (∀ k, 0 ≤ k < TF_SIZE → load8 (k_mem s') (t + k) =
       if decide (TF_a0 ≤ k < TF_a0 + 8) then 0 else load8 (k_mem s) (tf p + k)) ∧
    region_chain (regions s') head (take (length rs) fl) rs ∧ region_chain (regions s') (p_mmap p) js rs ∧
    pool_ok s' (drop (length rs) fl) ∧
    (∀ va, lookup_pte (k_mem s') pgo va = lookup_pte (k_mem s) pgo va) ∧
    (∀ q b, page_apart kpg kl ul q → q ≤ b < q + PGSIZE → load8 (k_mem s') b = load8 (k_mem s) b) ∧
    s' = set_mem (k_mem s') (set_kern (k_kern s') (set_user (k_user s') (set_mmap (k_mmap s')
      (set_global_pid (i32 (k_global_pid s + 1)) (with_slot np (child s me p old t u head) s))))).
Proof.
  intros Hf. destruct (proc_fork_run _ _ _ _ _ _ _ _ _ _ _ _ _ Hf) as (t & u & kp & head & s' & pg & kpg1 & kl1 & Hr & [Hcs Htf [Hc Hc'] Hpo Hfr]).
  pose proof (ca_kernel _ _ _ _ _ _ (fk_alloc _ _ _ _ _ _ _ _ _ _ _ _ _ Hf)) as Hk. pose proof (cs_only _ _ _ _ _ _ _ _ _ _ _ _ _ _ _ _ Hcs) as Ho.
  exists t, u, kp, head, s', pg, kpg1, kl1. split; [exact Hr|]. split; [by rewrite Hfr|]. split.
  { destruct (fk_me _ _ _ _ _ _ _ _ _ _ _ _ _ Hf) as (_ & Hp & Hst), (ca_slot _ _ _ _ _ _ (fk_alloc _ _ _ _ _ _ _ _ _ _ _ _ _ Hf)). intros ->. congruence. }
  split; [done|]. split; [done|]. split; [done|]. split; [done|]. split; [done|]. split; [|split; [|done]].
  - destruct (fk_space _ _ _ _ _ _ _ _ _ _ _ _ _ Hf) as [Hpt Hap]. apply (pt_ok_ext (k_mem s) (k_mem s') (pgtbl p)); [|done].
    intros π q b Hq. by apply (apart_bytes s _ kpg kl ul _ q b Hk Ho), (Hap π).
  - intros q b Hq. by apply (apart_bytes s _ kpg kl ul _ q b Hk Ho).
Qed.

(** When every slot is in use, fork fails and changes nothing. *)
Theorem proc_fork_no_slot (s : kstate) (me : nat) :
  procs_quiet s → h_proc (k_hart s) = Some me → (∀ j q, k_procs s !! j = Some q → state q ≠ UNUSED) →
  proc_fork s = Ok (-1, s).
Proof.
  intros Hq Hme Hno. unfold proc_fork. run (myproc_deref_run me s (pq_hart _ Hq) Hme).
  assert (proc_alloc s = Ok (None, s)) as Ha by (unfold proc_alloc; by run (proc_find_unused_none s Hq Hno)). by run Ha.
Qed.

(** C35: fork without memory.  When the kernel pool is empty, a slot is free and the kernel
    stack of that slot is not mapped, [proc_fork] does not return -1: the error exit of
    [proc_alloc] frees the slot, which unmaps a stack that was never mapped, and panics. *)
Theorem proc_fork_no_memory (s : kstate) (me np : nat) (old : proc) (kpg : ptmap) (ul : list Z) :
  procs_quiet s → h_proc (k_hart s) = Some me → k_procs s !! np = Some old → state old = UNUSED →
  (∀ j q, (j < np)%nat → k_procs s !! j = Some q → state q ≠ UNUSED) →
  lock_idle LkPid s → 0 ≤ k_global_pid s → vm_ok s (k_kpgtbl s) kpg [] ul →
  pgtbl old = 0 → kstack old ≠ 0 → page_va (kstack old) → ¬ present (k_mem s) kpg (kstack old) →
  ∃ msg, proc_fork s = Panic msg.
Proof.
  intros Hq Hme Hnp Hst Hfirst Hl Hg Hk Hpt Hks Hva Hno. set (sa := acq (LkProc np) s).
  pose proof (vm_ok_acq s _ _ _ _ (LkProc np) Hk ltac:(done) ltac:(done)) as Ha. fold sa in Ha.
  set (q := set_tf 0 (set_state RUNNABLE (set_pid (k_global_pid s) old))).
  set (sb := with_slot np (set_state RUNNABLE (set_pid (k_global_pid s) old)) (set_global_pid (i32 (k_global_pid s + 1)) sa)).
  assert (vm_ok sb (k_kpgtbl s) kpg [] ul) as Hb by (apply (vm_ok_frame _ _ _ _ _ _ Ha); try reflexivity; apply Ha).
  assert (k_procs sb !! np = Some (set_state RUNNABLE (set_pid (k_global_pid s) old))) as Hpb by (by eapply (with_slot_lookup np _ old)).
  destruct (proc_alloc_fail_panics (with_slot np q sb) np q kpg) as [msg Hf]; try done.
  { exact (with_slot_lookup np q _ sb Hpb). }
  { apply Hk. }
  exists msg. unfold proc_fork. run (myproc_deref_run me s (pq_hart _ Hq) Hme). apply bind_panic.
  unfold proc_alloc. run (proc_find_unused_run s np old Hq Hnp Hst Hfirst). fold sa.
  run (alloc_pid_run sa (vo_sync _ _ _ _ _ Ha).(ps_hart _) (acq_idle (LkProc np) LkPid s ltac:(done) Hl) Hg).
  change (k_global_pid sa) with (k_global_pid s).
  rewrite (bind_ok _ _ _ _ _ (upd_proc_run np (set_pid (k_global_pid s)) old (set_global_pid _ sa) Hnp)).
  rewrite (bind_ok _ _ _ _ _ (upd_proc_run np (set_state RUNNABLE) _ _ (with_slot_lookup np _ old (set_global_pid _ sa) Hnp))).
  rewrite with_slot_twice. change (with_slot np _ _) with sb.
  run (pmem_alloc_none true sb [] ul (vo_sync _ _ _ _ _ Hb) (vo_pmem _ _ _ _ _ Hb) eq_refl).
  run (upd_proc_run np (set_tf 0) _ sb Hpb). exact Hf.
Qed.

(** ** Witness: process 0, with one page of code, forks into slot 1 *)

Definition fork_kl : list Z := (λ k, 0x80110000 + Z.of_nat k * PGSIZE) <$> seq 0 14.
Definition fork_ul : list Z := [0x80300000; 0x80301000].

(** The links of a free list. *)
Fixpoint link_free (l : list Z) (m : mem) : mem :=
  match l with
  | [] => m
  | p :: l => store64 (link_free l m) p (default 0 (head l))
  end.

Lemma link_free_out l m b : (∀ p, p ∈ l → ¬ (p ≤ b < p + 8)) → load8 (link_free l m) b = load8 m b.
Proof.
  induction l as [|p l IH]; intros Hb; [done|]. cbn [link_free]. pose proof (Hb p ltac:(by left)).
  rewrite load8_store64_out by lia. apply IH. intros q Hq. apply Hb. by right.
Qed.

Definition fork_base : mem := store64 (store64 (link_free fork_kl (link_free fork_ul ∅)) 0x80203000 7) 0x80140008 9.
Definition fork_old : mem := one_page 0x80200000 0x80201000 0x80202000 0 0x80203000 (PTE_R + PTE_U) fork_base.
Definition fork_pg : ptmap := one_pg 0x80200000 0x80201000 0x80202000 0.
Definition fork_mem : mem := memset fork_old 0x80130000 0 PGSIZE.

Definition fork_parent : proc := set_pgtbl 0x80200000 (set_tf 0x80140000 (set_state RUNNING zero_proc)).
Definition fork_slot : proc := set_kstack (KSTACK 1) zero_proc.

(** With [kl] the pages of the kernel pool. *)
Definition fork_sample (kl : list Z) : kstate :=
  let s := zero_state (image_syms 31488) in
  set_hart (set_hproc (Some O) (k_hart s))
    (set_locks (<[LkPid := mk_spinlock 0 "nextpid" (-1)]> (<[LkMmapList := mk_spinlock 0 "mmap" (-1)]>
       (<[LkKernRegion := mk_spinlock 0 "kern" (-1)]> (<[LkUserRegion := mk_spinlock 0 "user" (-1)]> proc_locks))))
    (set_kpgtbl 0x80130000 (set_kern (mk_region 0x80100000 0x80200000 (Z.of_nat (length kl)) (default 0 (head kl)))
    (set_user (mk_region 0x80200000 0x80400000 2 0x80300000)
    (set_procs (<[O := fork_parent]> (<[1%nat := fork_slot]> (k_procs s))) (set_mem fork_mem s)))))).

Lemma fork_sample_mem kl : k_mem (fork_sample kl) = fork_mem.
Proof. reflexivity. Qed.

Lemma fork_bytes : load8 fork_mem 0x80203000 = 7 ∧ load8 fork_mem 0x80140008 = 9.
Proof. by vm_compute. Qed.

Lemma fork_lists : free_list fork_mem 0x80110000 fork_kl ∧ free_list fork_mem 0x80300000 fork_ul.
Proof. by vm_compute. Qed.

Lemma fork_root : pt_ok fork_mem 0x80130000 {[ [] := 0x80130000 ]}.
Proof.
  apply pt_ok_root; [by split|]. intros i Hi. unfold vpn_ok, fork_mem in *. by rewrite load64_zero_page by (unfold PGSIZE; lia).
Qed.

Lemma fork_kl_in q : q ∈ fork_kl → q mod PGSIZE = 0 ∧ 0x80110000 ≤ q < 0x8011e000.
Proof. intros (k & -> & Hk%elem_of_seq)%list_elem_of_fmap. unfold PGSIZE. split; [|lia]. by rewrite Z.mod_add. Qed.

Lemma fork_ul_in q : q ∈ fork_ul → q = 0x80300000 ∨ q = 0x80301000.
Proof. unfold fork_ul. rewrite !elem_of_cons. intros [?|[?|?%not_elem_of_nil]]; tauto. Qed.

Lemma fork_old_ok :
  pt_ok fork_mem 0x80200000 fork_pg ∧ ∀ va, lookup_pte fork_mem fork_pg va = lookup_pte fork_old fork_pg va.
Proof.
  apply (pt_ok_ext fork_old).
  - intros π p b Hp Hb. apply memset_page_out. destruct (one_pg_page _ _ _ _ _ _ Hp) as [[_ ->]|[_ [-> | ->]]]; unfold PGSIZE in *; lia.
  - apply one_page_ok; try done. intros i Hi. unfold fork_base, vpn_ok in *. rewrite !load64_store64_ne by lia.
    rewrite (load64_ext ∅); [done|]. intros b Hb. rewrite !link_free_out; [done|..].
    + intros p Hp%fork_ul_in. lia.
    + intros p Hp%fork_kl_in. lia.
Qed.

Lemma fork_entry : lookup_pte fork_mem fork_pg 0 = leaf_pte 0x80203000 (PTE_R + PTE_U).
Proof. rewrite (proj2 fork_old_ok). by apply one_page_lookup. Qed.

Lemma fork_pa : mapped_pa fork_mem fork_pg 0 = 0x80203000.
Proof. unfold mapped_pa. rewrite fork_entry. reflexivity. Qed.

#[local] Opaque fork_mem fork_old.

Lemma fork_vm_ok kl : kl = fork_kl ∨ kl = [] → vm_ok (fork_sample kl) 0x80130000 {[ [] := 0x80130000 ]} kl fork_ul.
Proof.
  intros Hkl. destruct fork_lists as [Hk Hu].
  assert (∀ q, q ∈ kl → q mod PGSIZE = 0 ∧ 0x80110000 ≤ q < 0x8011e000) as Hin
    by (destruct Hkl as [-> | ->]; [apply fork_kl_in|by intros q []%not_elem_of_nil]).
  split.
  - apply fork_root.
  - split; [| |done].
    + split; [| | |done|done].
      * destruct Hkl as [-> | ->]; [exact Hk|done].
      * destruct Hkl as [-> | ->]; [|apply NoDup_nil_2]. clear. apply NoDup_fmap_2_strong; [|apply NoDup_seq].
        intros x y _ _. unfold PGSIZE. lia.
      * apply Forall_forall. intros q Hq%Hin. split; [apply Hq|simpl; lia].
    + split; [exact Hu| | |done|done].
      * clear. apply NoDup_cons. split; [by intros ?%list_elem_of_singleton|apply NoDup_singleton].
      * clear. repeat (apply Forall_cons_2; [done|]). apply Forall_nil_2.
  - clear. split; [by right|by eexists|by eexists].
  - intros π q [_ <-]%lookup_singleton_Some. split; [intros Hq%Hin|intros Hq%fork_ul_in]; lia.
Qed.

Lemma fork_apart q :
  q mod PGSIZE = 0 → q = 0x80140000 ∨ 0x80200000 ≤ q < 0x80300000 → page_apart {[ [] := 0x80130000 ]} fork_kl fork_ul q.
Proof.
  intros Ha Hq. split; [done|]. split; [intros H%fork_kl_in; lia|]. split; [intros H%fork_ul_in; lia|].
  intros π [_ <-]%lookup_singleton_Some. lia.
Qed.

Lemma fork_quiet kl : procs_quiet (fork_sample kl).
Proof.
  split; [by right| |done]. intros i Hi. exists "proc"%string. unfold fork_sample. cbn [k_locks set_hart set_locks].
  rewrite !lookup_insert_ne by done. by apply proc_locks_lookup.
Qed.

Lemma fork_first kl j q : (j < 1)%nat → k_procs (fork_sample kl) !! j = Some q → state q ≠ UNUSED.
Proof. intros Hj. assert (j = O) as -> by lia. by intros [= <-]. Qed.

Lemma fork_sample_forkable :
  forkable (fork_sample fork_kl) 0 1 fork_parent fork_slot fork_pg {[ [] := 0x80130000 ]} fork_kl fork_ul 0 [] [] [].
Proof.
  split.
  - split; [apply fork_quiet|done|apply fork_first|split; [by eexists|done]|apply fork_vm_ok; by left|simpl; lia|done|done].
  - done.
  - split; [apply fork_old_ok|]. intros π q Hq. apply fork_apart; one_pg_cases Hq; done || lia.
  - apply fork_apart; [done|by left].
  - done.
  - done.
  - split; [|apply NoDup_singleton]. apply Forall_singleton. split; [done|done| |].
    + unfold present. rewrite fork_sample_mem, fork_entry. done.
    + rewrite fork_sample_mem, fork_pa. apply fork_apart; [done|lia].
  - simpl. lia.
  - split; [done|]. split; [by intros j []%not_elem_of_nil|done].
  - apply Forall_nil_2.
  - split; [by split; [..|apply NoDup_singleton]|by eexists].
Qed.

Lemma proc_fork_correct_witness :
  ∃ s' q pg, proc_fork (fork_sample fork_kl) = Ok (1, s') ∧ k_procs s' !! 1%nat = Some q ∧
    (state q = RUNNABLE ∧ pid q = 1 ∧ parent q = Some O) ∧
    load8 (k_mem s') (phys (k_mem s') pg 0) = 7 ∧ load8 (k_mem s') (tf q + 8) = 9.
Proof.
  destruct (proc_fork_correct (fork_sample fork_kl) 0 1 fork_parent fork_slot fork_pg {[ [] := 0x80130000 ]} fork_kl fork_ul 0 [] [] []
    fork_sample_forkable) as (t & u & kp & head & s' & pg & kpg1 & kl1 & Hr & Hp & _ & Hcs & Htf & _).
  exists s', (child (fork_sample fork_kl) 0 fork_parent fork_slot t u head), pg. split; [exact Hr|]. clear Hr.
  destruct fork_bytes as [B1 B2]. split; [|split; [clear; done|split]].
  - rewrite Hp. apply list_lookup_insert_eq. rewrite (pq_len _ (fork_quiet fork_kl)). unfold NPROC. lia.
  - destruct (cs_copy _ _ _ _ _ _ _ _ _ _ _ _ _ _ _ _ Hcs 0 0) as (_ & _ & _ & ->); [by left|unfold PGSIZE; lia|].
    rewrite fork_sample_mem. unfold phys. rewrite fork_pa. exact B1.
  - change (tf (child _ _ _ _ t u head)) with t. rewrite Htf by (clear; done). rewrite decide_False by (clear; unfold TF_a0; lia).
    rewrite fork_sample_mem. exact B2.
Defined.

Lemma proc_fork_no_memory_witness : ∃ msg, proc_fork (fork_sample []) = Panic msg.
Proof.
  apply (proc_fork_no_memory (fork_sample []) 0 1 fork_slot {[ [] := 0x80130000 ]} fork_ul); try done.
  - apply fork_quiet.
  - apply fork_first.
  - by eexists.
  - apply fork_vm_ok. by right.
Defined.
