(* ===== verification/Syscall.v ===== *)
(** * System calls (kernel/syscall/)

    The dispatch on register a7 with the reading of arguments (syscall.c), the process
    and memory calls (sysfunc.c) and exec (sysproc.c).  The file calls are in SysFile.v. *)

From S2P Require Import Prelude Bytes Kernel Lock Str Pmem Vm Sched Virtio Buf Bitmap MmapPool Uvm Inode Dir File Proc.

(** -1 as a [uint64]. *)
Definition FAIL : Z := 2^64 - 1.

(** ** Arguments (syscall.c) *)

Definition my_tf : K Z := me ← myproc_deref; p ← get_proc me; mret (tf p).

Definition arg_raw (n : nat) : K Z :=
  t ← my_tf;
  if (n <? 6)%nat then read64 (t + TF_a0 + 8 * Z.of_nat n) else panic "arg_raw: illegal arg num".

Definition arg_uint32 (n : nat) : K Z := v ← arg_raw n; mret (u32 v).
Definition arg_uint64 (n : nat) : K Z := arg_raw n.

Definition arg_str (n : nat) (maxlen : Z) : K (list Z) :=
  pt ← my_pgtbl;
  addr ← arg_uint64 n;
  uvm_copyin_str pt addr maxlen.

(** ** Processes and memory (sysfunc.c) *)

Definition set_heap_top (v : Z) (p : proc) : proc := set_layout v (ustack_base p) (ustack_pages p) p.

Definition sys_brk : K Z :=
  new ← arg_uint64 0;
  me ← myproc_deref;
  p ← get_proc me;
  let old := heap_top p in
  if new =? 0 then mret old
  else if old <? new then
    r ← uvm_heap_grow (pgtbl p) old (u32 (new - old));
    if r =? 0 then mret FAIL
    else upd_proc me (set_heap_top r);; mret r
  else if new <? old then
    r ← uvm_heap_ungrow (pgtbl p) old (u32 (old - new));
    upd_proc me (set_heap_top r);;
    mret r
  else mret old.

Definition sys_mmap : K Z :=
  start ← arg_uint64 0;
  len ← arg_uint32 1;
  if negb (len mod PGSIZE =? 0) then mret FAIL
  else
    uvm_mmap start (len / PGSIZE) (Z.lor (Z.lor PTE_R PTE_W) PTE_U);;
    mret start.

Definition sys_munmap : K Z :=
  start ← arg_uint64 0;
  len ← arg_uint32 1;
  if negb (len mod PGSIZE =? 0) then mret FAIL
  else uvm_munmap start (len / PGSIZE);; mret 0.

Definition sys_print : K Z :=
  addr ← arg_uint64 0;
  pt ← my_pgtbl;
  b ← uvm_copyin_str pt addr 256;
  s ← deref "%s" (c_chars b);
  printf "%s" s;;
  mret 0.

Definition my_pid : K Z := me ← myproc_deref; p ← get_proc me; mret (pid p).

Definition sys_fork : K Z :=
  me ← my_pid;
  printf "DEBUG: sys_fork called, pid=%d\n" [me];;
  r ← proc_fork;
  me ← my_pid;
  printf "DEBUG: sys_fork returning, result=%d, parent_pid=%d\n" [u64 r; me];;
  mret (u64 r).

Section calls.
  Context {Sw : Switch} {B : BlockDevice}.

(** Bound on the turns of the loops that wait for other processes. *)
Variable rounds : nat.

Definition sys_wait : K Z :=
  addr ← arg_uint64 0;
  me ← my_pid;
  printf "DEBUG: sys_wait called, pid=%d, addr=%p\n" [me; addr];;
  r ← proc_wait rounds addr;
  printf "DEBUG: sys_wait returning, result=%d\n" [u64 r];;
  mret (u64 r).

Definition sys_exit : K Z :=
  code ← arg_uint32 0;
  proc_exit (i32 code);;
  mret 0.

Fixpoint sleep_loop (n : nat) (target : Z) : K unit :=
  t ← gets (λ s, k_ticks s);
  if t <? target then
    match n with
    | O => no_fuel
    | S n => proc_sleep ChTimer LkTimer;; sleep_loop n target
    end
  else mret tt.

Definition sys_sleep : K Z :=
  seconds ← arg_uint32 0;
  t ← gets (λ s, k_ticks s);
  sleep_loop rounds (u64 (t + seconds));;
  mret 0.

(** ** Exec (sysproc.c) *)

Definition ELF_MAGIC : Z := 0x464C457F.
Definition ELF_PROG_LOAD : Z := 1.
Definition ELF_PROG_FLAG_EXEC : Z := 1.
Definition ELF_PROG_FLAG_WRITE : Z := 2.
Definition ELF_PROG_FLAG_READ : Z := 4.
Definition ELF_MAXARGS : nat := 32.

Record elfhdr := mk_elfhdr { e_magic : Z; e_entry : Z; e_phoff : Z; e_phnum : Z }.

Definition elfhdr_size : Z := 64.
Definition elfhdr_of (l : list Z) : elfhdr :=
  mk_elfhdr (le_val (slice 0 4 l)) (le_val (slice 24 8 l)) (le_val (slice 32 8 l)) (le_val (slice 56 2 l)).

Record proghdr := mk_proghdr {
  ph_type : Z; ph_flags : Z; ph_off : Z; ph_vaddr : Z; ph_filesz : Z; ph_memsz : Z }.

Definition proghdr_size : Z := 56.
Definition proghdr_of (l : list Z) : proghdr :=
  mk_proghdr (le_val (slice 0 4 l)) (le_val (slice 4 4 l)) (le_val (slice 8 8 l)) (le_val (slice 16 8 l))
    (le_val (slice 32 8 l)) (le_val (slice 40 8 l)).

Definition flags2perm (flags : Z) : Z :=
  let perm := if Z.land flags ELF_PROG_FLAG_EXEC =? 0 then 0 else PTE_X in
  let perm := if Z.land flags ELF_PROG_FLAG_WRITE =? 0 then perm else Z.lor perm PTE_W in
  if Z.land flags ELF_PROG_FLAG_READ =? 0 then perm else Z.lor perm PTE_R.

(** Turns of a loop over the pages of [len] bytes. *)
Definition page_fuel (len : Z) : nat := Z.to_nat (len / PGSIZE) + 2.

(** [false] is the error return. *)
Fixpoint loadseg_loop (fuel : nat) (pt va : Z) (ip : nat) (offset sz i : Z) : K bool :=
  if i <? sz then
    match fuel with
    | O => no_fuel
    | S fuel =>
        pte ← vm_getpte pt (u64 (va + i)) false;
        if pte =? 0 then mret false
        else
          e ← read64 pte;
          if Z.land e PTE_V =? 0 then mret false
          else
            let n := if u32 (sz - i) <? PGSIZE then u32 (sz - i) else PGSIZE in
            r ← inode_read_data ip (u32 (offset + i)) n (DstMem (PTE_TO_PA e));
            if fst r =? n then loadseg_loop fuel pt va ip offset sz (u32 (i + PGSIZE)) else mret false
    end
  else mret true.

Definition loadseg (pt va : Z) (ip : nat) (offset sz : Z) : K bool :=
  loadseg_loop (page_fuel sz) pt va ip offset sz 0.

(** Fresh cleared pages for [va, end); [false] when there is none left. *)
Fixpoint segment_pages (fuel : nat) (pt va end_ perm : Z) : K bool :=
  if va <? end_ then
    match fuel with
    | O => no_fuel
    | S fuel =>
        pa ← pmem_alloc false;
        if pa =? 0 then mret false
        else
          clear_page pa;;
          vm_mappages pt va pa PGSIZE perm;;
          segment_pages fuel pt (u64 (va + PGSIZE)) end_ perm
    end
  else mret true.

(** The program headers from the [i]th on, with the end of the image so far; [None] is
    [goto bad]. *)
Fixpoint load_segments (n : nat) (i : Z) (pt : Z) (ip : nat) (elf : elfhdr) (sz : Z) : K (option Z) :=
  match n with
  | O => mret (Some sz)
  | S n =>
      r ← inode_read_data ip (u32 (e_phoff elf + i * proghdr_size)) proghdr_size DstLocal;
      if negb (fst r =? proghdr_size) then mret None
      else
        let ph := proghdr_of (snd r) in
        if negb (ph_type ph =? ELF_PROG_LOAD) then load_segments n (i + 1) pt ip elf sz
        else if ph_memsz ph <? ph_filesz ph then mret None
        else if u64 (ph_vaddr ph + ph_memsz ph) <? ph_vaddr ph then mret None
        else if negb (ph_vaddr ph mod PGSIZE =? 0) then mret None
        else
          let end_ := PG_ROUND_UP (u64 (ph_vaddr ph + ph_memsz ph)) in
          let va := PG_ROUND_DOWN (ph_vaddr ph) in
          ok ← segment_pages (page_fuel (end_ - va)) pt va end_ (Z.lor (flags2perm (ph_flags ph)) PTE_U);
          if negb (ok : bool) then mret None
          else
            ok ← loadseg pt (ph_vaddr ph) ip (u32 (ph_off ph)) (u32 (ph_filesz ph));
            if negb (ok : bool) then mret None
            else load_segments n (i + 1) pt ip elf end_
  end.

(** The argument strings, each in a page of its own; [None] when the pages run out. *)
Fixpoint exec_args (n : nat) (pt argv_addr : Z) (i : Z) : K (option (list Z)) :=
  match n with
  | O => mret (Some [])
  | S n =>
      b ← uvm_copyin pt (u64 (argv_addr + i * 8)) 8;
      if le_val b =? 0 then mret (Some [])
      else
        pa ← pmem_alloc false;
        if pa =? 0 then mret None
        else
          s ← uvm_copyin_str pt (le_val b) PGSIZE;
          modify (λ st, set_mem (store_bytes (k_mem st) pa s) st);;
          r ← exec_args n pt argv_addr (i + 1);
          mret (cons pa <$> r)
  end.

(** The string in a page. *)
Definition page_string (pa : Z) : K (list Z) :=
  l ← gets (λ s, load_bytes (k_mem s) pa (Z.to_nat PGSIZE));
  n ← deref "strlen" (strlen l);
  mret (take (Z.to_nat n + 1) l).

(** The strings pushed from the last to the first: the addresses, in order. *)
Fixpoint push_args (pt stackbase sp : Z) (rev_argv ustack : list Z) : K (option (Z * list Z)) :=
  match rev_argv with
  | [] => mret (Some (sp, ustack))
  | pa :: l =>
      s ← page_string pa;
      let sp := u64 (sp - Z.of_nat (length s)) in
      let sp := sp - sp mod 16 in
      if sp <? stackbase then mret None
      else
        uvm_copyout pt sp s;;
        push_args pt stackbase sp l (sp :: ustack)
  end.

(** The two stack pages above the image. *)
Fixpoint stack_pages (n : nat) (pt sz i : Z) : K bool :=
  match n with
  | O => mret true
  | S n =>
      pa ← pmem_alloc false;
      if pa =? 0 then mret false
      else
        clear_page pa;;
        vm_mappages pt (u64 (sz + i * PGSIZE)) pa PGSIZE (Z.lor (Z.lor PTE_W PTE_R) PTE_U);;
        stack_pages n pt sz (i + 1)
  end.

Definition free_args (argv : list Z) : K unit := for_each argv (λ pa, pmem_free pa false).

(** The label [bad]: [pt] and [ip] when they are set, and the argument pages counted in
    [argc]. *)
Definition exec_bad (pt : option Z) (ip : option nat) (argv : list Z) : K Z :=
  (match pt with Some pt => uvm_destroy_pgtbl pt | None => mret tt end);;
  (match ip with Some ip => inode_unlock_free ip | None => mret tt end);;
  free_args argv;;
  mret FAIL.

(** The new stack: the argument strings and the array of their addresses, which the
    code builds in a local array of [ELF_MAXARGS] elements. *)
Definition exec_stack (pt sz : Z) (argv : list Z) : K (option Z) :=
  let stackbase := u64 (sz + PGSIZE) in
  r ← push_args pt stackbase (u64 (sz + 2 * PGSIZE)) (reverse argv) [];
  match r with
  | None => mret None
  | Some (sp, ustack) =>
      (if (ELF_MAXARGS <=? length argv)%nat then fault "ustack[argc]" else mret tt);;
      let sp := u64 (sp - (Z.of_nat (length argv) + 1) * 8) in
      let sp := sp - sp mod 16 in
      if sp <? stackbase then mret None
      else
        uvm_copyout pt sp (mjoin (le_bytes 8 <$> ustack ++ [0]));;
        mret (Some sp)
  end.

(** The new image becomes the process. *)
Definition exec_commit (me : nat) (pt sz sp entry : Z) : K unit :=
  p ← get_proc me;
  write64 (tf p + TF_a0 + 8) sp;;
  upd_proc me (set_pgtbl pt);;
  upd_proc me (set_layout sz (u64 (sz + PGSIZE)) 1);;
  write64 (tf p + TF_epc) entry;;
  write64 (tf p + TF_sp) sp;;
  uvm_destroy_pgtbl (pgtbl p).

Definition sys_exec : K Z :=
  me ← myproc_deref;
  path ← arg_str 0 DIR_PATH_LEN;
  argv_addr ← arg_uint64 1;
  p ← get_proc me;
  r ← exec_args ELF_MAXARGS (pgtbl p) argv_addr 0;
  match r with
  | None => exec_bad None None []
  | Some argv =>
      r ← path_to_inode path;
      match r with
      | None => exec_bad None None argv
      | Some ip =>
          inode_lock ip;;
          r ← inode_read_data ip 0 elfhdr_size DstLocal;
          if negb (fst r =? elfhdr_size) then exec_bad None (Some ip) argv
          else
            let elf := elfhdr_of (snd r) in
            if negb (e_magic elf =? ELF_MAGIC) then exec_bad None (Some ip) argv
            else
              pt ← proc_pgtbl_init (tf p);
              if pt =? 0 then exec_bad None (Some ip) argv
              else
                r ← load_segments (Z.to_nat (e_phnum elf)) 0 pt ip elf 0;
                match r with
                | None => exec_bad (Some pt) (Some ip) argv
                | Some sz =>
                    inode_unlock_free ip;;
                    let sz := PG_ROUND_UP sz in
                    ok ← stack_pages 2 pt sz 0;
                    if negb (ok : bool) then exec_bad (Some pt) None argv
                    else
                      r ← exec_stack pt sz argv;
                      match r with
                      | None => exec_bad (Some pt) None argv
                      | Some sp =>
                          free_args argv;;
                          exec_commit me pt sz sp (e_entry elf);;
                          mret (Z.of_nat (length argv))
                      end
                end
      end
  end.

(** ** Dispatch (syscall.c, include/syscall/sysnum.h) *)

Definition SYS_MAX : Z := 8.

Definition syscalls (num : Z) : option (K Z) :=
  if num =? 0 then Some sys_print else if num =? 1 then Some sys_brk
  else if num =? 2 then Some sys_mmap else if num =? 3 then Some sys_munmap
  else if num =? 4 then Some sys_fork else if num =? 5 then Some sys_wait
  else if num =? 6 then Some sys_exit else if num =? 7 then Some sys_sleep
  else if num =? 8 then Some sys_exec else None.

Definition syscall : K unit :=
  me ← myproc_deref;
  p ← get_proc me;
  num ← read64 (tf p + TF_a7);
  match (if num <=? SYS_MAX then syscalls num else None) with
  | Some f =>
      r ← f;
      p ← get_proc me;
      write64 (tf p + TF_a0) r
  | None =>
      printf "syscall: unknown syscall number %d\n" [num];;
      write64 (tf p + TF_a0) FAIL
  end.

End calls.
