(* ===== verification/SysFile.v ===== *)
(** * File system calls (kernel/syscall/sysfile.c)

    The calls on descriptors and paths.  The dispatch table of syscall.c does not list
    them. *)

From S2P Require Import Prelude Bytes Kernel Lock Str Pmem Vm Sched Virtio Buf Bitmap MmapPool Uvm Inode Dir File Proc Syscall.

Definition FILE_PER_PROC : nat := 16.

Definition set_filelist (v : list (option nat)) (p : proc) : proc :=
  mk_proc (pid p) (state p) (parent p) (exit_state p) (sleep_space p) (pgtbl p) (heap_top p)
    (ustack_base p) (ustack_pages p) (p_mmap p) (tf p) (kstack p) (p_ctx p) (cwd p) v.

Definition put_fd (me fd : nat) (v : option nat) : K unit :=
  upd_proc me (λ p, set_filelist (<[fd := v]> (filelist p)) p).

(** The descriptor and its file; [None] is the error return. *)
Definition arg_fd (n : nat) : K (option (nat * nat)) :=
  v ← arg_uint32 n;
  let fd := i32 v in
  if (fd <? 0) || (Z.of_nat FILE_PER_PROC <=? fd) then mret None
  else
    me ← myproc_deref;
    p ← get_proc me;
    x ← deref "filelist" (filelist p !! Z.to_nat fd);
    mret ((λ f, (Z.to_nat fd, f)) <$> x).

(** The first free descriptor is set to [f]; [None] when there is none. *)
Definition fd_alloc (f : nat) : K (option nat) :=
  me ← myproc_deref;
  for_return (seq 0 FILE_PER_PROC) (λ fd,
    p ← get_proc me;
    x ← deref "filelist" (filelist p !! fd);
    match x with
    | None => put_fd me fd (Some f);; mret (Some fd)
    | Some _ => mret None
    end).

(** A descriptor as the result of a call. *)
Definition fd_ret (fd : option nat) : Z := match fd with Some fd => Z.of_nat fd | None => FAIL end.

(** [int] results widened to [uint64]. *)
Definition int_ret (v : Z) : Z := u64 v.

Section calls.
  Context {B : BlockDevice}.
Variable dev_read_fn : nat → Z → dest → K Z.
Variable dev_write_fn : nat → Z → source → K Z.

Definition sys_open : K Z :=
  path ← arg_str 0 DIR_PATH_LEN;
  open_mode ← arg_uint32 1;
  r ← file_open path open_mode;
  match r with
  | None => mret FAIL
  | Some f =>
      fd ← fd_alloc f;
      (match fd with None => file_close f | Some _ => mret tt end);;
      mret (fd_ret fd)
  end.

Definition sys_close : K Z :=
  r ← arg_fd 0;
  match r with
  | None => mret FAIL
  | Some (fd, f) =>
      me ← myproc_deref;
      put_fd me fd None;;
      file_close f;;
      mret 0
  end.

Definition sys_read : K Z :=
  r ← arg_fd 0;
  match r with
  | None => mret FAIL
  | Some (_, f) =>
      len ← arg_uint32 1;
      addr ← arg_uint64 2;
      file_read dev_read_fn f len (DstUser addr)
  end.

Definition sys_write : K Z :=
  r ← arg_fd 0;
  match r with
  | None => mret FAIL
  | Some (_, f) =>
      len ← arg_uint32 1;
      addr ← arg_uint64 2;
      file_write dev_write_fn f len (SrcUser addr)
  end.

Definition sys_lseek : K Z :=
  r ← arg_fd 0;
  match r with
  | None => mret FAIL
  | Some (_, f) =>
      offset ← arg_uint32 1;
      flags ← arg_uint32 2;
      file_lseek f offset (i32 flags)
  end.

Definition sys_dup : K Z :=
  r ← arg_fd 0;
  match r with
  | None => mret FAIL
  | Some (_, f) =>
      new_fd ← fd_alloc f;
      file_dup f;;
      mret (fd_ret new_fd)
  end.

(** [pad] is the padding of the local structure [file_stat] copies out. *)
Definition sys_fstat (pad : list Z) : K Z :=
  r ← arg_fd 0;
  match r with
  | None => mret FAIL
  | Some (_, f) =>
      addr ← arg_uint64 1;
      v ← file_stat f addr pad;
      mret (int_ret v)
  end.

Definition sys_getdir : K Z :=
  r ← arg_fd 0;
  match r with
  | None => mret FAIL
  | Some (_, f) =>
      addr ← arg_uint64 1;
      len ← arg_uint32 2;
      x ← get_file f;
      match f_ip x with
      | None => mret FAIL
      | Some ip =>
          if negb (f_type x =? FD_DIR) then mret FAIL
          else
            inode_lock ip;;
            r ← dir_get_entries ip len (DstUser addr);
            inode_unlock ip;;
            mret (fst r)
      end
  end.

Definition sys_mkdir : K Z :=
  path ← arg_str 0 DIR_PATH_LEN;
  r ← path_create_inode path FT_DIR 0 0;
  mret (match r with None => FAIL | Some _ => 0 end).

Definition sys_chdir : K Z := path ← arg_str 0 DIR_PATH_LEN; dir_change path.

Definition sys_link : K Z :=
  old_path ← arg_str 0 DIR_PATH_LEN;
  new_path ← arg_str 1 DIR_PATH_LEN;
  path_link old_path new_path.

Definition sys_unlink : K Z := path ← arg_str 0 DIR_PATH_LEN; path_unlink path.

End calls.
