(* ===== verification/Print.v ===== *)
(** * Console output (kernel/lib/print.c) and the UART driver (kernel/dev/uart.c)

    [printf] down to the characters the UART sends.  The rest of the development
    records a call of [printf] by its format and arguments; here is what the call
    does.  The variables [pr.locking] and [panicked] are a record of their own. *)

From S2P Require Import Prelude Bytes Kernel Lock.

(** ** The UART *)

Definition RHR : Z := 0.
Definition THR : Z := 0.
Definition IER : Z := 1.
Definition FCR : Z := 2.
Definition LCR : Z := 3.
Definition LSR : Z := 5.
Definition IER_TX_ENABLE : Z := 1.
Definition IER_RX_ENABLE : Z := 2.
Definition FCR_FIFO_ENABLE : Z := 1.
Definition FCR_FIFO_CLEAR : Z := Z.shiftl 3 1.
Definition LCR_EIGHT_BITS : Z := 3.
Definition LCR_BAUD_LATCH : Z := Z.shiftl 1 7.
Definition LSR_RX_READY : Z := 1.
Definition LSR_TX_IDLE : Z := Z.shiftl 1 5.

(** The register writes of [uart_init], in order. *)
Definition uart_init : list (Z * Z) :=
  [(IER, 0); (LCR, LCR_BAUD_LATCH); (0, 3); (1, 0); (LCR, LCR_EIGHT_BITS);
   (FCR, Z.lor FCR_FIFO_ENABLE FCR_FIFO_CLEAR); (IER, Z.lor IER_TX_ENABLE IER_RX_ENABLE)].

(** The line status register of a 16550 that sends a character before the next access. *)
Definition ReadLSR : K Z :=
  gets (λ s, Z.lor LSR_TX_IDLE (if uart_rx (k_uart s) is [] then 0 else LSR_RX_READY)).

Definition WriteTHR (c : Z) : K unit :=
  modify (λ s, set_uart (mk_uart (uart_rx (k_uart s)) (uart_tx (k_uart s) ++ [u8 c])) s).

Definition ReadRHR : K Z :=
  u ← gets (λ s, k_uart s);
  match uart_rx u with
  | [] => mret 0
  | c :: l => modify (set_uart (mk_uart l (uart_tx u)));; mret c
  end.

(** The globals of print.c. *)
Record print_vars := mk_print_vars { pr_locking : bool; panicked : bool }.

(** [while((ReadReg(LSR) & LSR_TX_IDLE) == 0);] *)
Fixpoint wait_tx (fuel : nat) : K unit :=
  v ← ReadLSR;
  if Z.land v LSR_TX_IDLE =? 0 then match fuel with O => no_fuel | S fuel => wait_tx fuel end else mret tt.

Definition uart_putc_sync (g : print_vars) (c : Z) : K unit :=
  push_off;;
  (if panicked g then hang else mret tt);;
  wait_tx 1;;
  WriteTHR c;;
  pop_off.

(** -1 when there is no character. *)
Definition uart_getc_sync : K Z :=
  v ← ReadLSR;
  if Z.land v 1 =? 0 then mret (-1) else ReadRHR.

Fixpoint uart_intr_loop (fuel : nat) (g : print_vars) : K unit :=
  match fuel with
  | O => no_fuel
  | S fuel =>
      c ← uart_getc_sync;
      if c =? -1 then mret tt else uart_putc_sync g c;; uart_intr_loop fuel g
  end.

(** The characters waiting bound the turns of the loop. *)
Definition uart_intr (g : print_vars) : K unit :=
  n ← gets (λ s, length (uart_rx (k_uart s)));
  uart_intr_loop (S n) g.

(** ** [printf] *)

(** Arguments: an [int], a [uint64], a string (the null pointer is [None]). *)
Inductive parg := AInt (v : Z) | APtr (v : Z) | AStr (s : option (list Z)).

Definition digits : list Z := [48; 49; 50; 51; 52; 53; 54; 55; 56; 57; 97; 98; 99; 100; 101; 102].
Definition digit (d : Z) : Z := nth (Z.to_nat d) digits 0.

Definition PERCENT : Z := 37.

(** [do { buf[j++] = digits[x % base]; } while ((x /= base) != 0);] *)
Fixpoint put_digits (fuel : nat) (x base : Z) : list Z :=
  match fuel with
  | O => []
  | S fuel => digit (x mod base) :: (if x / base =? 0 then [] else put_digits fuel (x / base) base)
  end.

(** The buffer of case 'd', as printed (from its end). *)
Definition int_chars (xx : Z) : list Z :=
  let x := if xx <? 0 then u32 (- xx) else u32 xx in
  reverse (put_digits 32 x 10 ++ (if xx <? 0 then [45] else [])).

Definition hex_chars (xx : Z) : list Z := reverse (put_digits 32 (u32 xx) 16).

Definition ptr_chars (x : Z) : list Z :=
  48 :: 120 :: ((λ j, digit (Z.shiftr (u64 (Z.shiftl x (4 * Z.of_nat j))) 60)) <$> seq 0 16).

Definition null_chars : list Z := [40; 110; 117; 108; 108; 41].

Section printf.
Variable g : print_vars.

Definition put_chars (l : list Z) : K unit := for_each l (uart_putc_sync g).

(** The format is the array from [&fmt[i]] on. *)
Fixpoint printf_loop (fmt : list Z) (ap : list parg) : K unit :=
  match fmt with
  | [] => fault "fmt"
  | c :: fmt =>
      if c =? 0 then mret tt
      else if negb (c =? PERCENT) then
        (if c =? 10 then uart_putc_sync g 13 else mret tt);;
        uart_putc_sync g c;;
        printf_loop fmt ap
      else
        match fmt with
        | [] => fault "fmt"
        | c :: fmt =>
            if c =? 0 then mret tt
            else if c =? 100 then
              match ap with
              | AInt xx :: ap => put_chars (int_chars xx);; printf_loop fmt ap
              | _ => fault "va_arg"
              end
            else if c =? 120 then
              match ap with
              | AInt xx :: ap => put_chars (hex_chars xx);; printf_loop fmt ap
              | _ => fault "va_arg"
              end
            else if c =? 112 then
              match ap with
              | APtr x :: ap => put_chars (ptr_chars x);; printf_loop fmt ap
              | _ => fault "va_arg"
              end
            else if c =? 115 then
              match ap with
              | AStr s :: ap => put_chars (default null_chars s);; printf_loop fmt ap
              | _ => fault "va_arg"
              end
            else if c =? PERCENT then uart_putc_sync g PERCENT;; printf_loop fmt ap
            else uart_putc_sync g PERCENT;; uart_putc_sync g c;; printf_loop fmt ap
        end
  end.

Definition kprintf (fmt : list Z) (ap : list parg) : K unit :=
  (if pr_locking g then spinlock_acquire LkPrint else mret tt);;
  printf_loop fmt ap;;
  (if pr_locking g then spinlock_release LkPrint else mret tt).

End printf.

Definition print_init : K print_vars :=
  spinlock_init LkPrint "print";;
  mret (mk_print_vars true false).

(** [panic] prints without the lock and then loops for ever. *)
Definition kpanic (s : list Z) : K unit :=
  let g := mk_print_vars false false in
  kprintf g [112; 97; 110; 105; 99; 58; 32; 0] [];;
  kprintf g s [];;
  kprintf g [10; 0] [];;
  hang.

Definition kernel_assert (condition : bool) (warning : list Z) : K unit :=
  if condition then mret tt else kpanic warning.

(** ** What is printed *)

(** The characters a format and its arguments stand for. *)
Fixpoint render (fmt : list Z) (ap : list parg) : option (list Z) :=
  match fmt with
  | [] => None
  | c :: fmt =>
      if c =? 0 then Some []
      else if negb (c =? PERCENT) then r ← render fmt ap; Some ((if c =? 10 then [13; 10] else [c]) ++ r)
      else
        match fmt with
        | [] => None
        | c :: fmt =>
            if c =? 0 then Some []
            else if c =? 100 then
              match ap with AInt x :: ap => r ← render fmt ap; Some (int_chars x ++ r) | _ => None end
            else if c =? 120 then
              match ap with AInt x :: ap => r ← render fmt ap; Some (hex_chars x ++ r) | _ => None end
            else if c =? 112 then
              match ap with APtr x :: ap => r ← render fmt ap; Some (ptr_chars x ++ r) | _ => None end
            else if c =? 115 then
              match ap with AStr s :: ap => r ← render fmt ap; Some (default null_chars s ++ r) | _ => None end
            else if c =? PERCENT then r ← render fmt ap; Some (PERCENT :: r)
            else r ← render fmt ap; Some (PERCENT :: c :: r)
        end
  end.

(** Reading a decimal numeral. *)
Definition dec_digits (l : list Z) : Z := foldl (λ v c, 10 * v + (c - 48)) 0 l.
Definition parse_int (l : list Z) : Z :=
  match l with c :: l' => if c =? 45 then - dec_digits l' else dec_digits l | [] => 0 end.

Definition sent (l : list Z) (s : kstate) : kstate :=
  set_uart (mk_uart (uart_rx (k_uart s)) (uart_tx (k_uart s) ++ (u8 <$> l))) s.

Lemma sent_app l1 l2 s : sent l2 (sent l1 s) = sent (l1 ++ l2) s.
Proof. unfold sent. cbn [k_uart set_uart uart_rx uart_tx]. by rewrite fmap_app, app_assoc. Qed.

Lemma sent_nil s : sent [] s = s.
Proof.
  unfold sent. cbn [fmap list_fmap]. rewrite app_nil_r. destruct (k_uart s) as [rx tx] eqn:E.
  cbn [uart_rx uart_tx]. rewrite <- E. reflexivity.
Qed.

(** ** Sending *)

Lemma wait_tx_run n s : wait_tx n s = Ok (tt, s).
Proof.
  assert (∀ b : bool, Z.land (Z.lor LSR_TX_IDLE (if b then 0 else LSR_RX_READY)) LSR_TX_IDLE =? 0 = false) as E
    by by intros [].
  destruct n; cbn [wait_tx]; unfold ReadLSR; mrun.
  all: destruct (uart_rx (k_uart s)); [rewrite (E true)|rewrite (E false)]; done.
Qed.

Lemma putc_run g c s :
  hart_stable (k_hart s) → panicked g = false → uart_putc_sync g c s = Ok (tt, sent [c] s).
Proof.
  intros Hst Hp. unfold uart_putc_sync. run (push_off_run s). rewrite Hp. mrun.
  run (wait_tx_run 1 (set_hart (hart_push (k_hart s)) s)). unfold WriteTHR. mrun.
  pose proof (hart_stable_noff _ Hst).
  rewrite pop_off_run; [|done|cbn; lia]. do 2 f_equal.
  cbn [k_hart set_uart set_hart]. by rewrite hart_pop_push.
Qed.

Lemma put_chars_run g l s :
  hart_stable (k_hart s) → panicked g = false → put_chars g l s = Ok (tt, sent l s).
Proof.
  intros Hst Hp. revert s Hst. induction l as [|c l IH]; intros s Hst; unfold put_chars in *; cbn [for_each].
  - mrun. by rewrite sent_nil.
  - run (putc_run g c s Hst Hp). rewrite IH by done. by rewrite sent_app.
Qed.

Lemma printf_loop_run g n : ∀ fmt ap out s,
  (length fmt ≤ n)%nat → hart_stable (k_hart s) → panicked g = false → render fmt ap = Some out →
  printf_loop g fmt ap s = Ok (tt, sent out s).
Proof.
  induction n as [|n IH]; intros fmt ap out s Hn Hst Hp Hr; destruct fmt as [|c fmt]; simpl in Hn; try lia; [done..|].
  assert (∀ l ap' out', render (drop 1 fmt) ap' = Some out' → (1 ≤ length fmt)%nat →
    (put_chars g l;; printf_loop g (drop 1 fmt) ap') s = Ok (tt, sent (l ++ out') s)) as Hput.
  { intros l ap' out' Hr' Hl. run (put_chars_run g l s Hst Hp).
    rewrite (IH (drop 1 fmt) ap' out') by (rewrite ?length_drop; done || lia). by rewrite sent_app. }
  cbn [printf_loop render] in *. destruct (c =? 0); [simplify_eq; mrun; by rewrite sent_nil|].
  destruct (c =? PERCENT); cbn [negb] in *.
  - destruct fmt as [|c2 fmt]; [done|]. cbn [drop] in Hput.
    destruct (c2 =? 0); [simplify_eq; mrun; by rewrite sent_nil|].
    repeat match goal with
      | H : context [if ?b then _ else _] |- _ => destruct b
      end;
      repeat match goal with
      | H : match ?ap with [] => _ | _ => _ end = Some _ |- _ => destruct ap as [|[?|?|?] ap]; try done
      end;
      (destruct (render fmt ap) as [r|] eqn:E; [|done]); cbn [mbind option_bind] in Hr; simplify_eq;
      try (apply Hput; [done|simpl; lia]).
    + run (putc_run g PERCENT s Hst Hp). rewrite (IH fmt ap r) by (done || simpl in Hn; lia). by rewrite sent_app.
    + run (putc_run g PERCENT s Hst Hp). run (putc_run g c2 (sent [PERCENT] s) Hst Hp).
      rewrite (IH fmt ap r) by (done || simpl in Hn; lia). by rewrite !sent_app.
  - destruct (render fmt ap) as [r|] eqn:E; [|done]. cbn [mbind option_bind] in Hr. simplify_eq.
    destruct (c =? 10) eqn:E10; zbool; mrun.
    + run (putc_run g 13 s Hst Hp). run (putc_run g c (sent [13] s) Hst Hp).
      rewrite (IH fmt ap r) by (done || lia). subst c. by rewrite !sent_app.
    + run (putc_run g c s Hst Hp). rewrite (IH fmt ap r) by (done || lia). by rewrite sent_app.
Qed.

(** ** Numerals *)

Lemma digit_dec d : 0 ≤ d < 10 → digit d = 48 + d.
Proof.
  intros H. assert (d ∈ [0;1;2;3;4;5;6;7;8;9]) as Hd.
  { rewrite <- (Z2Nat.id d) by lia. assert (Z.to_nat d < 10)%nat as Hn by lia. revert Hn.
    generalize (Z.to_nat d). intros n Hn. do 10 (destruct n as [|n]; [set_solver|]). lia. }
  repeat (apply elem_of_cons in Hd as [->|Hd]; [reflexivity|]). by apply elem_of_nil in Hd.
Qed.

Lemma dec_digits_snoc l c : dec_digits (l ++ [c]) = 10 * dec_digits l + (c - 48).
Proof. unfold dec_digits. by rewrite foldl_app. Qed.

(** Enough fuel: every digit divides the number by ten. *)
Lemma put_digits_value fuel x :
  0 ≤ x < 10 ^ Z.of_nat fuel → dec_digits (reverse (put_digits fuel x 10)) = x ∧
    (length (put_digits fuel x 10) ≤ fuel)%nat ∧ Forall (λ c, 48 ≤ c < 58) (put_digits fuel x 10).
Proof.
  revert x. induction fuel as [|fuel IH]; intros x Hx; cbn [put_digits].
  - change (10 ^ Z.of_nat 0) with 1 in Hx. split; [cbn; lia|]. by split.
  - rewrite Nat2Z.inj_succ, Z.pow_succ_r in Hx by lia. pose proof (Z.mod_pos_bound x 10 ltac:(lia)) as Hm.
    assert (0 ≤ x / 10 < 10 ^ Z.of_nat fuel) as Hd by (split; [apply Z.div_pos|apply Z.div_lt_upper_bound]; lia).
    rewrite digit_dec by done. pose proof (Z.div_mod x 10 ltac:(lia)). destruct (x / 10 =? 0) eqn:E; zbool.
    + split; [change (0 * 10 + (48 + x mod 10 - 48) = x)||cbn; lia|]. split; [simpl; lia|].
      constructor; [lia|constructor].
    + destruct (IH (x / 10) Hd) as (Hv & Hl & Hf). rewrite reverse_cons, dec_digits_snoc, Hv.
      split; [lia|]. split; [simpl; lia|]. constructor; [lia|done].
Qed.

Lemma put_digits_fuel n fuel x :
  0 ≤ x < 10 ^ Z.of_nat n → (0 < n ≤ fuel)%nat → put_digits fuel x 10 = put_digits n x 10.
Proof.
  revert fuel x. induction n as [|n IH]; intros [|fuel] x Hx Hf; try lia. cbn [put_digits].
  rewrite Nat2Z.inj_succ, Z.pow_succ_r in Hx by lia.
  destruct (x / 10 =? 0) eqn:E; zbool; [done|]. f_equal.
  assert (0 ≤ x / 10 < 10 ^ Z.of_nat n) as Hd by (split; [apply Z.div_pos|apply Z.div_lt_upper_bound]; lia).
  apply IH; [done|]. destruct n; [|lia]. change (10 ^ Z.of_nat 0) with 1 in Hd. lia.
Qed.

Lemma int_chars_value xx :
  - 2^31 ≤ xx < 2^31 → parse_int (int_chars xx) = xx ∧ (length (int_chars xx) ≤ 11)%nat.
Proof.
  intros H. unfold int_chars. cbv zeta. set (x := if xx <? 0 then u32 (- xx) else u32 xx).
  assert (x = Z.abs xx) as Hx by (unfold x; destruct (xx <? 0) eqn:E; zbool; rewrite u32_small; lia).
  assert (0 ≤ x < 10 ^ Z.of_nat 10) as Hr by (change (10 ^ Z.of_nat 10) with 10000000000; lia).
  rewrite (put_digits_fuel 10 32 x Hr) by lia. destruct (put_digits_value 10 x Hr) as (Hv & Hl & Hf).
  rewrite reverse_app, length_app, !length_reverse. destruct (xx <? 0) eqn:E; zbool.
  - change (reverse [45]) with [45]. cbn [app parse_int length]. rewrite Z.eqb_refl, Hv. lia.
  - change (reverse []) with (@nil Z). cbn [app length]. split; [|lia].
    apply Forall_reverse in Hf. destruct (reverse (put_digits 10 x 10)) as [|c l] eqn:Ed; [cbn in *; lia|].
    cbn [parse_int]. apply Forall_cons in Hf as [Hc _]. rewrite (proj2 (Z.eqb_neq c 45)) by lia. lia.
Qed.

(** ** Claims *)


