(* ===== verification/Trap.v ===== *)
(** * Traps, timer, interrupt controller and boot (kernel/trap/, kernel/dev/timer.c,
    kernel/dev/plic.c, kernel/boot/, and the two return paths of kernel/proc/proc.c)

    The handlers of traps from the kernel and from user mode, the return to user mode,
    the system timer, the PLIC, the machine-mode start and [main]. *)

From S2P Require Import Prelude Bytes Kernel Lock Str Pmem Vm Sched Virtio Buf Bitmap MmapPool Uvm Inode Dir File.
From S2P Require Import Proc Syscall Print.

(** ** The timer (kernel/dev/timer.c) *)

Definition timer_create : K unit :=
  modify (set_ticks 0);;
  spinlock_init LkTimer "sys_timer".

Definition timer_update : K unit :=
  spinlock_acquire LkTimer;;
  modify (λ s, set_ticks (u64 (k_ticks s + 1)) s);;
  proc_wakeup ChTimer;;
  spinlock_release LkTimer.

Definition timer_get_ticks : K Z :=
  spinlock_acquire LkTimer;;
  t ← gets (λ s, k_ticks s);
  spinlock_release LkTimer;;
  mret t.

(** ** Control registers *)

Definition upd_csr (f : csrs → csrs) : K unit :=
  modify (λ s, let h := k_hart s in
    set_hart (mk_hart (h_id h) (h_sie h) (h_noff h) (h_origin h) (h_proc h) (h_ctx h) (f (h_csr h))) s).

Definition w_stvec (v : Z) : K unit :=
  upd_csr (λ c, mk_csrs (csr_spp c) (csr_sepc c) (csr_scause c) (csr_stval c) v (csr_satp c) (csr_sip c)).
Definition w_sepc (v : Z) : K unit :=
  upd_csr (λ c, mk_csrs (csr_spp c) v (csr_scause c) (csr_stval c) (csr_stvec c) (csr_satp c) (csr_sip c)).
Definition w_sip (v : Z) : K unit :=
  upd_csr (λ c, mk_csrs (csr_spp c) (csr_sepc c) (csr_scause c) (csr_stval c) (csr_stvec c) (csr_satp c) v).
Definition r_csr : K csrs := gets (λ s, h_csr (k_hart s)).

(** ** The interrupt controller (kernel/dev/plic.c) *)

Definition UART_IRQ : Z := 10.
Definition VIRTIO_IRQ : Z := 1.
Definition PLIC_PRIORITY (id : Z) : Z := PLIC_BASE + id * 4.
Definition PLIC_SENABLE (hart : Z) : Z := PLIC_BASE + 0x2080 + hart * 0x100.
Definition PLIC_SPRIORITY (hart : Z) : Z := PLIC_BASE + 0x201000 + hart * 0x2000.
Definition PLIC_SCLAIM (hart : Z) : Z := PLIC_BASE + 0x201004 + hart * 0x2000.

(** The registers of the controller. *)
Class Plic := {
  plic_read : Z → K Z;
  plic_write : Z → Z → K unit }.

Section traps.
  Context {P : Plic} {Sw : Switch} {B : BlockDevice}.
Variable g : print_vars.
Variable rounds : nat.

Definition plic_init : K unit :=
  plic_write (PLIC_PRIORITY UART_IRQ) 1;;
  plic_write (PLIC_PRIORITY VIRTIO_IRQ) 1.

Definition plic_inithart : K unit :=
  h ← mycpuid;
  plic_write (PLIC_SENABLE h) (Z.lor (Z.shiftl 1 UART_IRQ) (Z.shiftl 1 VIRTIO_IRQ));;
  plic_write (PLIC_SPRIORITY h) 0.

Definition plic_claim : K Z := h ← mycpuid; v ← plic_read (PLIC_SCLAIM h); mret (i32 v).

Definition plic_complete (irq : Z) : K unit := h ← mycpuid; plic_write (PLIC_SCLAIM h) (u32 irq).

(** ** Traps from the kernel (kernel/trap/trap_kernel.c) *)

Definition interrupt_info : list string :=
  ["U-mode software interrupt"; "S-mode software interrupt"; "reserved-1"; "M-mode software interrupt";
   "U-mode timer interrupt"; "S-mode timer interrupt"; "reserved-2"; "M-mode timer interrupt";
   "U-mode external interrupt"; "S-mode external interrupt"; "reserved-3"; "M-mode external interrupt";
   "reserved-4"; "reserved-5"; "reserved-6"; "reserved-7"]%string.

Definition exception_info : list string :=
  ["Instruction address misaligned"; "Instruction access fault"; "Illegal instruction"; "Breakpoint";
   "Load address misaligned"; "Load access fault"; "Store/AMO address misaligned"; "Store/AMO access fault";
   "Environment call from U-mode"; "Environment call from S-mode"; "reserved-1"; "Environment call from M-mode";
   "Instruction page fault"; "Load page fault"; "reserved-2"; "Store/AMO page fault"]%string.

Definition trap_kernel_init : K unit := timer_create.

Definition trap_kernel_inithart : K unit :=
  syms ← gets (λ s, k_syms s); w_stvec (kernel_vector syms).

Definition external_interrupt_handler : K unit :=
  irq ← plic_claim;
  (if irq =? UART_IRQ then uart_intr g
   else if irq =? VIRTIO_IRQ then virtio_disk_intr
   else if negb (irq =? 0) then printf "[EXT_INTR] Unknown IRQ: %d\n" [irq]
   else mret tt);;
  if irq =? 0 then mret tt else plic_complete irq.

Definition timer_interrupt_handler : K unit :=
  c ← r_csr;
  w_sip (Z.land (csr_sip c) (Z.lnot 2));;
  timer_update.

Definition INTERRUPT_BIT : Z := Z.shiftl 1 63.

Definition trap_kernel_handler : K unit :=
  c ← r_csr;
  kassert (csr_spp c) "trap_kernel_handler: not from s-mode";;
  on ← intr_get;
  kassert (negb on) "trap_kernel_handler: interreput enabled";;
  let trap_id := Z.land (csr_scause c) 0xf in
  if negb (Z.land (csr_scause c) INTERRUPT_BIT =? 0) then
    if trap_id =? 1 then timer_interrupt_handler
    else if trap_id =? 5 then printf "S-mode timer interrupt\n" []
    else if trap_id =? 9 then external_interrupt_handler
    else
      i ← deref "interrupt_info" (interrupt_info !! Z.to_nat trap_id);
      printf ("Unknown interrupt: " +:+ i +:+ "\n") []
  else
    e ← deref "exception_info" (exception_info !! Z.to_nat trap_id);
    printf ("Exception in kernel at sepc=0x%lx: " +:+ e +:+ "\n") [csr_sepc c];;
    printf "  stval = 0x%lx\n" [csr_stval c];;
    panic "Unhandled exception in kernel mode".

(** ** Traps from user mode (kernel/trap/trap_user.c) *)

(** The jump into the trampoline: the address and the two arguments. *)
Record user_jump := mk_jump { j_target : Z; j_trapframe : Z; j_satp : Z }.

Definition trap_user_return : K user_jump :=
  me ← myproc_deref;
  intr_off;;
  syms ← gets (λ s, k_syms s);
  w_stvec (u64 (TRAMPOLINE + (user_vector syms - trampoline syms)));;
  p ← get_proc me;
  c ← r_csr;
  write64 (tf p + TF_kernel_satp) (csr_satp c);;
  write64 (tf p + TF_kernel_sp) (u64 (kstack p + PGSIZE));;
  write64 (tf p + TF_kernel_trap) (trap_user_handler_addr syms);;
  h ← mycpuid;
  write64 (tf p + TF_kernel_hartid) h;;
  epc ← read64 (tf p + TF_epc);
  w_sepc epc;;
  mret (mk_jump (u64 (user_return syms - trampoline syms + TRAMPOLINE)) TRAPFRAME (MAKE_SATP (pgtbl p))).

Definition trap_user_handler : K user_jump :=
  c ← r_csr;
  me ← myproc_deref;
  p ← get_proc me;
  write64 (tf p + TF_epc) (csr_sepc c);;
  kassert (negb (csr_spp c)) "trap_user_handler: not from u-mode";;
  (if negb (Z.land (csr_scause c) INTERRUPT_BIT =? 0) then mret tt
   else
     let cause := Z.land (csr_scause c) 0xFF in
     if cause =? 8 then
       epc ← read64 (tf p + TF_epc);
       printf "[User Trap] System call from user mode %p scause:%p,stval:%p\n" [epc; csr_scause c; csr_stval c];;
       write64 (tf p + TF_epc) (u64 (epc + 4));;
       intr_on;;
       syscall rounds
     else
       e ← deref "exception_info" (exception_info !! Z.to_nat cause);
       printf ("[User Trap] Exception: " +:+ e +:+ "\n") [];;
       epc ← read64 (tf p + TF_epc);
       printf "  sepc = %p, scause = %p,stval = %p\n" [epc; csr_scause c; csr_stval c];;
       panic "trap_user_handler: unhandled exception");;
  trap_user_return.

(** ** The first return of a process (kernel/proc/proc.c) *)

Definition fork_return : K user_jump :=
  me ← myproc_deref;
  spinlock_release (LkProc me);;
  trap_user_return.

Definition proc_forkret : K user_jump :=
  me ← myproc_deref;
  spinlock_release (LkProc me);;
  first ← gets (λ s, k_first s);
  (if first : bool then modify (set_first false);; fs_init else mret tt);;
  trap_user_return.

(** ** Boot *)

Variable initcode : list Z.
Variable initcode_addr : Z.
(** The VirtIO registers and the address of the queue's pages. *)
Variable vio_reg : Z → Z.
Variable vio_pages : Z.

(** [main] on hart 0; the switch to the scheduler is in [proc_make_first]. *)
Definition main0 : K unit :=
  print_init;;
  pmem_init;;
  mmap_init;;
  kvm_init;;
  kvm_inithart;;
  proc_init;;
  cpu_init;;
  trap_kernel_init;;
  trap_kernel_inithart;;
  plic_init;;
  plic_inithart;;
  virtio_disk_init vio_reg vio_pages;;
  proc_make_first initcode initcode_addr rounds.

(** [main] on another hart, which ends in an endless loop. *)
Definition main_other : K unit := kvm_inithart;; trap_kernel_inithart;; hang.

(** [main], by the hart that runs it. *)
Definition main : K unit := id ← mycpuid; if id =? 0 then main0 else main_other.

End traps.

(** ** Machine mode (kernel/boot/start.c, [timer_init] of kernel/dev/timer.c) *)

Definition INTERVAL : Z := 1000000.
Definition CLINT_BASE : Z := 0x2000000.
Definition CLINT_MTIMECMP (hartid : Z) : Z := CLINT_BASE + 0x4000 + 8 * hartid.

(** The registers the start-up code writes: [m_timecmp] is the CLINT register last set,
    by its address, with its value; [m_scratch] is the table [mscratch]. *)
Record machine := mk_machine {
  m_status : Z; m_epc : Z; m_satp : Z; m_edeleg : Z; m_ideleg : Z; m_sie : Z; m_pmpaddr0 : Z; m_pmpcfg0 : Z;
  m_timecmp : Z * Z; m_scratch : list (list Z); m_mscratch : Z; m_tvec : Z; m_ie : Z; m_tp : Z }.

Definition MSTATUS_MPP_MASK : Z := Z.shiftl 3 11.
Definition MSTATUS_MPP_S : Z := Z.shiftl 1 11.
Definition MSTATUS_MIE : Z := Z.shiftl 1 3.
Definition SIE_SEIE : Z := Z.shiftl 1 9.
Definition SIE_STIE : Z := Z.shiftl 1 5.
Definition SIE_SSIE : Z := Z.shiftl 1 1.
Definition MIE_MTIE : Z := Z.shiftl 1 7.

(** [mtime] is the CLINT's time, [scratch_addr] the address of the table. *)
Definition timer_init (mtime scratch_addr timer_vector : Z) (m : machine) : machine :=
  let hartid := m_tp m in
  mk_machine (Z.lor (m_status m) MSTATUS_MIE) (m_epc m) (m_satp m) (m_edeleg m) (m_ideleg m) (m_sie m)
    (m_pmpaddr0 m) (m_pmpcfg0 m) (CLINT_MTIMECMP hartid, u64 (mtime + INTERVAL))
    (alter (λ l, <[4%nat := INTERVAL]> (<[3%nat := CLINT_MTIMECMP hartid]> l)) (Z.to_nat hartid) (m_scratch m))
    (scratch_addr + 40 * hartid) timer_vector (Z.lor (m_ie m) MIE_MTIE) (m_tp m).

(** The state at the [mret] of [start]. *)
Definition start (mhartid main_addr mtime scratch_addr timer_vector : Z) (m : machine) : machine :=
  let x := Z.lor (Z.land (m_status m) (Z.lnot MSTATUS_MPP_MASK)) MSTATUS_MPP_S in
  let m := mk_machine x main_addr 0 0xffff 0xffff (Z.lor (Z.lor (Z.lor (m_sie m) SIE_SEIE) SIE_STIE) SIE_SSIE)
    0x3fffffffffffff 0xf (m_timecmp m) (m_scratch m) (m_mscratch m) (m_tvec m) (m_ie m) (m_tp m) in
  let m := timer_init mtime scratch_addr timer_vector m in
  mk_machine (m_status m) (m_epc m) (m_satp m) (m_edeleg m) (m_ideleg m) (m_sie m) (m_pmpaddr0 m) (m_pmpcfg0 m)
    (m_timecmp m) (m_scratch m) (m_mscratch m) (m_tvec m) (m_ie m) mhartid.
