(* ===== verification/KernelTrap.v ===== *)
(** * Traps taken in the kernel (kernel/trap/trap_kernel.c over kernel/dev/timer.c and
    kernel/proc/proc.c)

    The composition of the handler with the timer and the process table: what a tick does,
    wherever in the kernel it comes in, and that exceptions and handlers called in a wrong
    state stop the kernel. *)

From S2P Require Import Prelude Bytes Kernel Lock Sched Print Virtio Trap.

(** ** The hart at an interrupt

    An interrupt is only taken with interrupts on, hence outside every critical section,
    and the hardware turns them off; [origin] is what the last critical section left. *)
Record interrupted (s : kstate) : Prop := {
  it_noff : h_noff (k_hart s) = 0;
  it_sie : h_sie (k_hart s) = false;
  it_spp : csr_spp (h_csr (k_hart s)) = true }.

(** The hart after the handler of the timer: the pending bit is clear, [origin] holds the
    interrupt bit that the handler found. *)
Definition ticked_hart (h : hart) : hart :=
  let c := h_csr h in
  mk_hart (h_id h) false 0 false (h_proc h) (h_ctx h)
    (mk_csrs (csr_spp c) (csr_sepc c) (csr_scause c) (csr_stval c) (csr_stvec c) (csr_satp c)
       (Z.land (csr_sip c) (Z.lnot 2))).

Definition ticked (s : kstate) : kstate :=
  set_procs (woken ChTimer (h_proc (k_hart s)) (k_procs s))
    (set_ticks (u64 (k_ticks s + 1)) (set_hart (ticked_hart (k_hart s)) s)).

(** A critical section of a hart with interrupts off starts the same whatever [origin] is. *)
Lemma acq_origin lk s o : h_noff (k_hart s) = 0 → acq lk (set_hart (set_origin o (k_hart s)) s) = acq lk s.
Proof. intros Hn. unfold acq, hart_push, set_origin, set_noff, set_sie. simpl. by rewrite Hn. Qed.

Lemma timer_update_run s :
  hart_stable (k_hart s) → lock_idle LkTimer s → (∀ i, (i < NPROC)%nat → lock_idle (LkProc i) s) →
  length (k_procs s) = NPROC →
  timer_update s = Ok (tt, set_procs (woken ChTimer (h_proc (k_hart s)) (k_procs s)) (set_ticks (u64 (k_ticks s + 1)) s)).
Proof.
  intros Hst Hid Hpl Hlen. unfold timer_update. run (acquire_run LkTimer s (lock_idle_unlocked _ _ Hid)). mrun.
  set (s1 := set_ticks _ _).
  assert (procs_quiet s1) as Hq.
  { split; [apply acq_stable, hart_stable_noff, Hst| |done]. intros i Hi.
    destruct (acq_idle LkTimer (LkProc i) s ltac:(done) (Hpl i Hi)) as [nm Hn]. by exists nm. }
  run (proc_wakeup_run ChTimer s1 Hq). rewrite (release_after LkTimer s) by done. by destruct s.
Qed.

Lemma timer_update_origin s o :
  h_noff (k_hart s) = 0 → lock_idle LkTimer s → timer_update s = timer_update (set_hart (set_origin o (k_hart s)) s).
Proof.
  intros Hn Hid. unfold timer_update. rewrite (bind_ok _ _ _ _ _ (acquire_run LkTimer s (lock_idle_unlocked _ _ Hid))).
  set (s2 := set_hart _ s). rewrite (bind_ok _ _ _ _ _ (acquire_run LkTimer s2 (lock_idle_unlocked LkTimer s2 Hid))).
  unfold s2. by rewrite acq_origin.
Qed.

Section traps.
  Context {P : Plic}.
  Variable g : print_vars.

(** ** Claims *)

(** C14: a timer tick that interrupts the kernel runs to its end without panic or deadlock,
    counts one tick modulo 2^64, makes RUNNABLE exactly the processes that sleep on the
    timer, other than the interrupted one, and clears the pending bit; nothing else of the
    kernel state changes, and interrupts are off until the trap returns. *)
Theorem trap_kernel_timer_correct (s : kstate) :
  interrupted s → Z.land (csr_scause (h_csr (k_hart s))) INTERRUPT_BIT ≠ 0 →
  Z.land (csr_scause (h_csr (k_hart s))) 0xf = 1 → lock_idle LkTimer s →
  (∀ i, (i < NPROC)%nat → lock_idle (LkProc i) s) → length (k_procs s) = NPROC →
  trap_kernel_handler g s = Ok (tt, ticked s) ∧
  ∀ i p, k_procs s !! i = Some p →
    k_procs (ticked s) !! i =
      Some (if bool_decide (h_proc (k_hart s) ≠ Some i) && asleep_on ChTimer p then set_state RUNNABLE p else p).
Proof.
  intros [Hn Hs Hp] Hint Hid Hl Hpl Hlen. split.
  - unfold trap_kernel_handler, r_csr, intr_get. mrun. rewrite Hp. mrun. rewrite Hs. cbn [negb]. mrun.
    rewrite (proj2 (Z.eqb_neq _ _) Hint), Hid. cbn [negb Z.eqb Pos.eqb]. mrun. cbn [negb Z.eqb Pos.eqb].
    unfold timer_interrupt_handler, r_csr, w_sip, upd_csr. mrun.
    set (s1 := set_hart _ s).
    rewrite (timer_update_origin s1 false Hn Hl). rewrite timer_update_run; [|by right|exact Hl|exact Hpl|exact Hlen].
    do 2 f_equal. unfold ticked, ticked_hart, s1, set_origin. cbn [k_hart k_procs k_ticks set_hart h_id h_sie h_noff h_proc h_ctx h_csr].
    by rewrite Hs, Hn.
  - intros i p Hi. unfold ticked, woken. cbn [k_procs set_procs]. rewrite list_lookup_imap, Hi. simpl. f_equal.
    unfold wake. case_bool_decide as E1; case_bool_decide as E2; simpl; try done; by destruct (asleep_on ChTimer p).
Qed.

Lemma trap_id_bound x : (Z.to_nat (Z.land x 0xf) < 16)%nat.
Proof. change 0xf with (Z.ones 4). rewrite Z.land_ones by lia. pose proof (Z.mod_pos_bound x (2^4)). lia. Qed.

(** the other ways through the handler.  Called for a trap that did not come from
    supervisor mode, or with interrupts on, it panics; so does every exception, whatever its
    number; an interrupt that is neither a tick nor external adds one line to the log and
    changes nothing else.  The texts of all sixteen numbers are in the tables. *)
Theorem trap_kernel_other_traps (s : kstate) :
  (csr_spp (h_csr (k_hart s)) = false → trap_kernel_handler g s = Panic "trap_kernel_handler: not from s-mode") ∧
  (csr_spp (h_csr (k_hart s)) = true → h_sie (k_hart s) = true →
     trap_kernel_handler g s = Panic "trap_kernel_handler: interreput enabled") ∧
  (interrupted s → Z.land (csr_scause (h_csr (k_hart s))) INTERRUPT_BIT = 0 →
     trap_kernel_handler g s = Panic "Unhandled exception in kernel mode") ∧
  (interrupted s → Z.land (csr_scause (h_csr (k_hart s))) INTERRUPT_BIT ≠ 0 →
     Z.land (csr_scause (h_csr (k_hart s))) 0xf ∉ [1; 9] →
     ∃ msg, trap_kernel_handler g s = Ok (tt, set_log (k_log s ++ [(msg, [])]) s)).
Proof.
  unfold trap_kernel_handler, r_csr, intr_get. mrun. split; [by intros -> |]. split; [by intros -> -> |].
  set (id := Z.land _ 0xf). assert ((Z.to_nat id < 16)%nat) as Hb by apply trap_id_bound. split.
  - intros [_ -> ->] ->. mrun. destruct (lookup_lt_is_Some_2 exception_info (Z.to_nat id) Hb) as [e He].
    cbn [negb Z.eqb]. rewrite He. unfold printf. by mrun.
  - intros [_ -> ->] Hint Hid. mrun. rewrite (proj2 (Z.eqb_neq _ _) Hint). cbn [negb]. mrun. cbn [negb].
    rewrite !elem_of_cons, elem_of_nil in Hid. rewrite (proj2 (Z.eqb_neq id 1)), (proj2 (Z.eqb_neq id 9)) by tauto.
    destruct (id =? 5); [by eexists|]. destruct (lookup_lt_is_Some_2 interrupt_info (Z.to_nat id) Hb) as [e He].
    rewrite He. unfold printf. mrun. by eexists.
Qed.

End traps.

(** ** Witnesses: a tick while process 0 runs and process 1 sleeps on the timer *)

Definition idle_plic : Plic := {| plic_read := λ _, mret 0; plic_write := λ _ _, mret tt |}.

Definition tick_sleeper : proc := set_sleep_space ChTimer (set_state SLEEPING zero_proc).

Definition tick_state : kstate :=
  let s := sample_procs (mk_spinlock 0 "sys_timer" (-1)) 0 tick_sleeper in
  let h := k_hart s in
  set_hart (mk_hart (h_id h) false 0 true (h_proc h) (h_ctx h) (mk_csrs true 0 (INTERRUPT_BIT + 1) 0 0 0 2)) s.

Lemma trap_kernel_timer_correct_witness :
  ∃ s', @trap_kernel_handler idle_plic (mk_print_vars true false) tick_state = Ok (tt, s') ∧
    k_ticks s' = 1 ∧ csr_sip (h_csr (k_hart s')) = 0 ∧ state <$> k_procs s' !! 1%nat = Some RUNNABLE.
Proof.
  destruct (@trap_kernel_timer_correct idle_plic (mk_print_vars true false) tick_state) as [Hr Hp].
  - by split.
  - by vm_compute.
  - by vm_compute.
  - exists "sys_timer"%string. reflexivity.
  - apply (sample_procs_idle (mk_spinlock 0 "sys_timer" (-1)) 0 tick_sleeper).
  - reflexivity.
  - eexists. split; [exact Hr|]. clear Hr. split; [reflexivity|]. split; [reflexivity|].
    rewrite (Hp 1%nat tick_sleeper) by reflexivity. reflexivity.
Defined.
