(* ===== verification/UserTrap.v ===== *)
(** * Traps from user mode, end to end (kernel/trap/trap_user.c over kernel/syscall/,
    kernel/mem/ and kernel/proc/)

    The composition of the trap handler with the system calls: what a user program that
    executes [ecall] finds when it runs again.  The trapframe is seen as its 36 saved
    64-bit words. *)

From S2P Require Import Prelude Bytes Kernel Lock Str Pmem Vm Sched Virtio Buf Uvm Inode Proc Syscall Trap.

(** ** The hart between critical sections *)

(** [push_off] followed by [pop_off] outside every critical section: [origin] now holds
    the interrupt bit. *)
Definition settle (h : hart) : hart := set_origin (h_sie h) h.

Lemma myproc_settle i s :
  h_noff (k_hart s) = 0 → h_proc (k_hart s) = Some i →
  myproc_deref s = Ok (i, set_hart (settle (k_hart s)) s).
Proof.
  intros Hn Hp. unfold myproc_deref, myproc. rewrite bind_assoc. run (push_off_run s). unfold mycpu. mrun.
  rewrite (bind_ok _ _ _ tt (set_hart (hart_pop (hart_push (k_hart s))) s)).
  - mrun. cbn [k_hart set_hart hart_push set_noff set_origin set_sie h_proc]. rewrite Hp. mrun. do 2 f_equal.
    f_equal. unfold hart_pop, hart_push, settle. destruct (k_hart s) as [id sie n o pr c csr]. simpl in *. by subst.
  - rewrite pop_off_run; [done|done|]. simpl. lia.
Qed.

Lemma settle_stable h : h_noff h = 0 → hart_stable (settle h).
Proof. intros Hn. by right. Qed.

(** ** The trapframe as words *)

Definition tf_view (m : mem) (t : Z) (k : nat) : Z := load64 m (t + 8 * Z.of_nat k).

Definition tf_words : nat := 36.

Lemma tf_view_store m t k v j :
  0 ≤ v < 2^64 → tf_view (store64 m (t + 8 * Z.of_nat k) v) t j = if decide (j = k) then v else tf_view m t j.
Proof.
  intros Hv. unfold tf_view. destruct (decide (j = k)) as [->|Hne]; [by apply load64_store64_eq|].
  apply load64_store64_ne. lia.
Qed.

(** ** Process and registers at a trap *)

(** Process [me], described by [p], runs on the hart, outside every critical section; the
    register contents are 64-bit values. *)
Record user_context (s : kstate) (me : nat) (p : proc) : Prop := {
  uc_noff : h_noff (k_hart s) = 0;
  uc_me : h_proc (k_hart s) = Some me;
  uc_proc : k_procs s !! me = Some p;
  uc_id : 0 ≤ h_id (k_hart s) < 2^64;
  uc_satp : 0 ≤ csr_satp (h_csr (k_hart s)) < 2^64;
  uc_sepc : 0 ≤ csr_sepc (h_csr (k_hart s)) < 2^64;
  uc_handler : 0 ≤ trap_user_handler_addr (k_syms s) < 2^64 }.

Definition with_sie (b : bool) (s : kstate) : kstate := set_hart (set_sie b (k_hart s)) s.

(** The words [trap_user_return] stores. *)
Definition kernel_words (s : kstate) (p : proc) (f : nat → Z) (k : nat) : Z :=
  match k with
  | 0 => csr_satp (h_csr (k_hart s))
  | 1 => u64 (kstack p + PGSIZE)
  | 2 => trap_user_handler_addr (k_syms s)
  | 4 => h_id (k_hart s)
  | _ => f k
  end%nat.

(** The hart when the jump is taken: interrupts off, traps go to the trampoline. *)
Definition user_hart (s : kstate) (epc : Z) : hart :=
  let h := k_hart s in let c := h_csr h in let y := k_syms s in
  mk_hart (h_id h) false 0 (h_sie h) (h_proc h) (h_ctx h)
    (mk_csrs (csr_spp c) epc (csr_scause c) (csr_stval c) (u64 (TRAMPOLINE + (user_vector y - trampoline y)))
       (csr_satp c) (csr_sip c)).

Definition jump_of (s : kstate) (p : proc) : user_jump :=
  mk_jump (u64 (user_return (k_syms s) - trampoline (k_syms s) + TRAMPOLINE)) TRAPFRAME (MAKE_SATP (pgtbl p)).

(** The stores of [trap_user_return]. *)
Definition return_mem (s : kstate) (p : proc) : mem :=
  store64 (store64 (store64 (store64 (k_mem s) (tf p + 8 * Z.of_nat 0) (csr_satp (h_csr (k_hart s))))
    (tf p + 8 * Z.of_nat 1) (u64 (kstack p + PGSIZE)))
    (tf p + 8 * Z.of_nat 2) (trap_user_handler_addr (k_syms s)))
    (tf p + 8 * Z.of_nat 4) (h_id (k_hart s)).

Lemma return_mem_view s me p k :
  user_context s me p → (k < tf_words)%nat →
  tf_view (return_mem s p) (tf p) k = kernel_words s p (tf_view (k_mem s) (tf p)) k.
Proof.
  intros [Hn Hme Hp Hid Hsatp Hsepc Hh] Hk. assert (0 ≤ u64 (kstack p + PGSIZE) < 2^64) as Hu by (by apply Z.mod_pos_bound).
  unfold return_mem. rewrite !tf_view_store by done. unfold kernel_words.
  do 5 (destruct k as [|k]; [done|]). by rewrite !decide_False by lia.
Qed.

Lemma return_mem_out s p b :
  ¬ (tf p ≤ b < tf p + TF_SIZE) → load8 (return_mem s p) b = load8 (k_mem s) b.
Proof. intros Hb. unfold return_mem, TF_SIZE in *. rewrite !load8_store64_out by lia. done. Qed.

Lemma trap_user_return_run s me p :
  user_context s me p →
  trap_user_return s =
    Ok (jump_of s p, set_mem (return_mem s p) (set_hart (user_hart s (tf_view (k_mem s) (tf p) 3)) s)).
Proof.
  intros Hu. pose proof Hu as [Hn Hme Hp _ _ _ _]. unfold trap_user_return. run (myproc_settle me s Hn Hme).
  unfold intr_off, w_stvec, w_sepc, upd_csr, r_csr, mycpuid, get_proc, write64, read64. mrun.
  cbn [k_procs set_hart set_mem]. rewrite Hp. mrun. pose proof (return_mem_view s me p 3 Hu) as H3.
  cbn [kernel_words] in H3. rewrite <- H3 by (unfold tf_words; lia). do 2 f_equal.
  unfold user_hart. rewrite <- Hn. done.
Qed.

(** ** Memory management with interrupts on *)

(** The state as memory management sees it after the first [push_off]. *)
Definition settled (s : kstate) : kstate := set_hart (settle (k_hart s)) s.

Lemma grown_apart s root pg kl ul base k s1 pg1 kl1 t :
  vm_ok s root pg kl ul → grown s root pg kl ul base k s1 pg1 kl1 → page_apart pg kl ul t →
  page_apart pg1 kl1 (drop k ul) t ∧ ∀ b, t ≤ b < t + PGSIZE → load8 (k_mem s1) b = load8 (k_mem s) b.
Proof.
  intros Hok Hg (Hal & Hk & Hu & Hp). split.
  - split; [done|]. split; [intros Hin; apply Hk; eapply elem_of_suffix; [exact Hin|apply Hg]|].
    split; [intros Hin; apply Hu; rewrite <- (take_drop k ul); apply elem_of_app; by right|].
    intros π Hq. destruct (gr_from _ _ _ _ _ _ _ _ _ _ Hg π t Hq) as [?|?]; [by apply (Hp π)|done].
  - intros b Hb. apply (gr_mem _ _ _ _ _ _ _ _ _ _ Hg). intros q Hq Hqb.
    assert (q mod PGSIZE = 0) as Hqa.
    { destruct Hq as [[π Hq]|Hq]; [by destruct (pt_page _ _ _ (vo_pt _ _ _ _ _ Hok) _ _ Hq) as ([? _] & _)|].
      eapply pmem_page_aligned; [apply Hok|]. apply elem_of_app. destruct Hq; auto. }
    destruct (decide (q = t)) as [->|Hne]; [destruct Hq as [[π ?]|[?|?]]; [by apply (Hp π)|done|done]|].
    destruct (page_aligned_apart q t Hqa Hal Hne); lia.
Qed.

(** ** Entry *)

(** The trap is an [ecall] from user mode. *)
Record user_ecall (s : kstate) (me : nat) (p : proc) : Prop := {
  ue_context : user_context s me p;
  ue_mode : csr_spp (h_csr (k_hart s)) = false;
  ue_cause : csr_scause (h_csr (k_hart s)) = 8 }.

(** The state in which [syscall] is called: the return address is past the [ecall],
    interrupts are on. *)
Definition ecall_state (s : kstate) (p : proc) : kstate :=
  let c := h_csr (k_hart s) in
  set_hart (set_sie true (settle (k_hart s)))
    (set_mem (store64 (store64 (k_mem s) (tf p + 8 * Z.of_nat 3) (csr_sepc c)) (tf p + 8 * Z.of_nat 3)
                (u64 (csr_sepc c + 4)))
      (set_log (k_log s ++ [("[User Trap] System call from user mode %p scause:%p,stval:%p\n",
                             [csr_sepc c; csr_scause c; csr_stval c])]) s))%string.

Section ecall.
  Context {Sw : Switch} {B : BlockDevice}.
  Variable rounds : nat.

Lemma trap_ecall_run s me p :
  user_ecall s me p →
  trap_user_handler rounds s = (syscall rounds ≫= λ _, trap_user_return) (ecall_state s p).
Proof.
  intros [[Hn Hme Hp Hid Hsatp Hsepc Hh] Hm Hc]. unfold trap_user_handler, r_csr. mrun.
  run (myproc_settle me s Hn Hme). unfold get_proc, write64, read64, intr_on, printf. mrun. cbn [k_procs set_hart]. rewrite Hp. mrun.
  rewrite Hm, Hc. cbn [negb]. mrun. change (Z.land 8 INTERRUPT_BIT) with 0. cbn [Z.eqb negb].
  change (Z.land 8 0xFF =? 8) with true. cbv iota.
  cbn [k_mem set_mem set_hart]. change (tf p + TF_epc) with (tf p + 8 * Z.of_nat 3).
  rewrite !load64_store64_eq by done. unfold ecall_state. by rewrite Hc.
Qed.

Lemma ecall_view s me p k :
  user_ecall s me p →
  tf_view (k_mem (ecall_state s p)) (tf p) k =
    if decide (k = 3%nat) then u64 (csr_sepc (h_csr (k_hart s)) + 4) else tf_view (k_mem s) (tf p) k.
Proof.
  intros [[] _ _]. assert (∀ v, 0 ≤ u64 v < 2^64) as Hu by (intros; by apply Z.mod_pos_bound).
  unfold ecall_state. cbn [k_mem set_hart set_mem]. rewrite !tf_view_store by done. by destruct (decide (k = 3%nat)).
Qed.

Lemma ecall_context s me p : user_ecall s me p → user_context (ecall_state s p) me p.
Proof. intros [[Hn ?????] _ _]. by split. Qed.

Lemma ecall_out s p b :
  ¬ (tf p ≤ b < tf p + TF_SIZE) → load8 (k_mem (ecall_state s p)) b = load8 (k_mem s) b.
Proof. intros Hb. unfold ecall_state, TF_SIZE in *. cbn [k_mem set_hart set_mem]. rewrite !load8_store64_out by lia. done. Qed.

(** ** What the program finds *)

(** The saved words when the program resumes with [v] in a0: the return address is past
    the call, the words for the next trap are set, every other register is as it was. *)
Definition resumed_words (s : kstate) (p : proc) (v : Z) (k : nat) : Z :=
  if decide (k = 14%nat) then v
  else if decide (k = 3%nat) then u64 (csr_sepc (h_csr (k_hart s)) + 4)
  else kernel_words s p (tf_view (k_mem s) (tf p)) k.

Definition resumed_hart (s : kstate) : hart := user_hart (with_sie true s) (u64 (csr_sepc (h_csr (k_hart s)) + 4)).

Lemma syscall_unknown_run s me p :
  user_context s me p → SYS_MAX < tf_view (k_mem s) (tf p) 21 →
  syscall rounds s = Ok (tt, set_mem (store64 (k_mem s) (tf p + 8 * Z.of_nat 14) FAIL)
    (set_log (k_log s ++ [("syscall: unknown syscall number %d\n", [tf_view (k_mem s) (tf p) 21])]%string)
      (set_hart (settle (k_hart s)) s))).
Proof.
  intros [Hn Hme Hp _ _ _ _] Hnum. unfold syscall. run (myproc_settle me s Hn Hme).
  unfold get_proc, read64, write64, printf. mrun. cbn [k_procs set_hart]. rewrite Hp. mrun.
  change (load64 (k_mem _) (tf p + TF_a7)) with (tf_view (k_mem s) (tf p) 21).
  rewrite (proj2 (Z.leb_gt _ _) Hnum). by mrun.
Qed.

(** Argument [k] is the saved register a[k]. *)
Lemma arg_raw_run s me p k :
  hart_stable (k_hart s) → h_proc (k_hart s) = Some me → k_procs s !! me = Some p → (k < 6)%nat →
  arg_raw k s = Ok (tf_view (k_mem s) (tf p) (14 + k), s).
Proof.
  intros Hst Hme Hp Hk. unfold arg_raw, my_tf. rewrite bind_assoc. run (myproc_deref_run me s Hst Hme).
  rewrite bind_assoc. run (get_proc_run me s p Hp). mrun. rewrite (proj2 (Nat.ltb_lt _ _) Hk). unfold read64. mrun.
  unfold tf_view, TF_a0. do 3 f_equal. lia.
Qed.

(** The call of brk that grows the heap. *)
Lemma syscall_brk_run s me p root pg kl ul new n :
  user_context s me p → tf_view (k_mem s) (tf p) 21 = 1 → tf_view (k_mem s) (tf p) 14 = new →
  vm_ok (settled s) root pg kl ul → pgtbl p = root → page_apart pg kl ul (tf p) →
  0 ≤ heap_top p < new → new < TRAPFRAME → new - heap_top p < 2^32 →
  PG_ROUND_UP new = PG_ROUND_UP (heap_top p) + Z.of_nat n * PGSIZE → Z.of_nat n * PGSIZE < 2^32 →
  (n ≤ length ul)%nat → (2 * n ≤ length kl)%nat →
  ∃ g pg1 kl1, grown (settled s) root pg kl ul (PG_ROUND_UP (heap_top p)) n g pg1 kl1 ∧
    syscall rounds s = Ok (tt, set_mem (store64 (k_mem g) (tf p + 8 * Z.of_nat 14) new)
      (set_procs (<[me := set_heap_top new p]> (k_procs s)) g)).
Proof.
  intros [Hn Hme Hp _ _ _ _] H7 H0 Hok Hr Hap [Ht Hlt] Hlim H32 Hrnd Hn32 Hul Hkl.
  assert (hart_stable (k_hart (settled s))) as Hst by (by apply settle_stable).
  pose proof (myproc_deref_run me (settled s) Hst Hme) as Hmy.
  destruct (heap_grow_run (settled s) root pg kl ul (heap_top p) (new - heap_top p) n) as (g & pg1 & kl1 & Hgr & Hg);
    rewrite ?Zplus_minus; try done; try lia.
  rewrite Zplus_minus in Hgr. exists g, pg1, kl1. split; [done|].
  assert (k_procs g = k_procs s) as Eg by (rewrite (gr_frame _ _ _ _ _ _ _ _ _ _ Hg); done).
  unfold syscall. run (myproc_settle me s Hn Hme). fold (settled s). run (get_proc_run me (settled s) p Hp).
  unfold read64. mrun. change (load64 (k_mem _) (tf p + TF_a7)) with (tf_view (k_mem s) (tf p) 21). rewrite H7.
  cbn [Z.leb Z.compare SYS_MAX Pos.compare Pos.compare_cont syscalls Z.eqb Pos.eqb].
  rewrite (bind_ok _ _ _ new (set_procs (<[me := set_heap_top new p]> (k_procs s)) g)).
  - rewrite (bind_ok _ _ _ (set_heap_top new p) (set_procs (<[me := set_heap_top new p]> (k_procs s)) g)).
    + unfold write64. mrun. done.
    + unfold get_proc. mrun. cbn [k_procs set_procs]. rewrite list_lookup_insert_eq by (by eapply lookup_lt_Some). done.
  - unfold sys_brk, arg_uint64. run (arg_raw_run (settled s) me p 0 Hst Hme Hp ltac:(lia)).
    change (tf_view (k_mem (settled s)) (tf p) (14 + 0)) with (tf_view (k_mem s) (tf p) 14). rewrite H0. run Hmy.
    run (get_proc_run me (settled s) p Hp).
    rewrite (proj2 (Z.eqb_neq new 0)), (proj2 (Z.ltb_lt _ _) Hlt), u32_small by lia. rewrite Hr. run Hgr.
    rewrite (proj2 (Z.eqb_neq new 0)) by lia. unfold upd_proc. mrun. rewrite Eg. by rewrite (alter_insert _ _ _ p Hp).
Qed.

(** From the end of the call back to the program. *)
Lemma resume_run s me p s2 p2 v :
  user_ecall s me p → k_hart s2 = settle (k_hart (ecall_state s p)) → k_syms s2 = k_syms s →
  k_procs s2 !! me = Some p2 → tf p2 = tf p → kstack p2 = kstack p →
  (∀ k, (k < tf_words)%nat →
    tf_view (k_mem s2) (tf p) k = if decide (k = 14%nat) then v else tf_view (k_mem (ecall_state s p)) (tf p) k) →
  ∃ m', trap_user_return s2 = Ok (jump_of s p2, set_mem m' (set_hart (resumed_hart s) s2)) ∧
    (∀ k, (k < tf_words)%nat → tf_view m' (tf p) k = resumed_words s p v k) ∧
    (∀ b, ¬ (tf p ≤ b < tf p + TF_SIZE) → load8 m' b = load8 (k_mem s2) b).
Proof.
  intros Hu Eh Ey Hp2 Et Ek Hv. pose proof (ue_context _ _ _ Hu) as Hc.
  assert (user_context s2 me p2) as Hc2.
  { destruct Hc. split; rewrite ?Eh, ?Ey; done. }
  rewrite (trap_user_return_run s2 me p2 Hc2). exists (return_mem s2 p2). split; [|split].
  - rewrite Et, Hv, decide_False, (ecall_view s me p 3 Hu), decide_True by (done || (unfold tf_words; lia)).
    assert (jump_of s2 p2 = jump_of s p2) as -> by (unfold jump_of; by rewrite Ey).
    assert (user_hart s2 (u64 (csr_sepc (h_csr (k_hart s)) + 4)) = resumed_hart s) as -> by
      (unfold resumed_hart, user_hart; by rewrite Eh, Ey). done.
  - intros k Hk. rewrite <- Et. rewrite (return_mem_view s2 me p2 k Hc2 Hk), Et. unfold resumed_words, kernel_words.
    specialize (Hv k Hk). rewrite (ecall_view s me p _ Hu) in Hv. rewrite Eh, Ey, Ek.
    do 5 (destruct k as [|k]; [done|]). rewrite Hv. by destruct (decide _).
  - intros b Hb. rewrite <- Et in Hb. by apply return_mem_out.
Qed.

(** ** Claims *)

(** C12: an [ecall] with a number outside the table comes back to the program with -1 in
    a0 after the call; every other saved register, all memory outside the trapframe and
    the whole kernel state but the log and the hart's trap registers are unchanged, and
    the jump goes to the trampoline with interrupts off and traps directed there. *)
Theorem trap_unknown_syscall (s : kstate) (me : nat) (p : proc) :
  user_ecall s me p → SYS_MAX < tf_view (k_mem s) (tf p) 21 →
  ∃ m' l, trap_user_handler rounds s = Ok (jump_of s p, set_log l (set_mem m' (set_hart (resumed_hart s) s))) ∧
    (∀ k, (k < tf_words)%nat → tf_view m' (tf p) k = resumed_words s p FAIL k) ∧
    (∀ b, ¬ (tf p ≤ b < tf p + TF_SIZE) → load8 m' b = load8 (k_mem s) b).
Proof.
  intros Hu Hnum. rewrite (trap_ecall_run s me p Hu). pose proof (ecall_context s me p Hu) as He.
  set (e := ecall_state s p) in *. run (syscall_unknown_run e me p He ltac:(by unfold e; rewrite (ecall_view s me p 21 Hu))).
  set (e1 := set_mem _ _). destruct (resume_run s me p e1 p FAIL Hu) as (m' & Hr & Hw & Ho); try done.
  - apply He.
  - intros k _. unfold e1. cbn [k_mem set_mem]. by rewrite tf_view_store.
  - exists m'. eexists. split; [rewrite Hr; done|]. split; [done|]. intros b Hb. rewrite Ho by done.
    unfold e1. cbn [k_mem set_mem]. unfold TF_SIZE in *. rewrite load8_store64_out by lia. by apply ecall_out.
Qed.

(** C11: the brk system call from trap to return.  A program that executes [ecall] with
    SYS_brk and a new top above the old one, with enough free pages, resumes after the
    call with the new top in a0 and its other registers unchanged; the process records
    the new top; every page between the tops is mapped to a fresh user page of its own
    with permissions R, W and U, all other addresses are translated as before, and the
    page-table and allocator invariants hold. *)
Theorem trap_brk_grows (s : kstate) (me : nat) (p : proc) (pg : ptmap) (kl ul : list Z) (new : Z) (n : nat) :
  let base := PG_ROUND_UP (heap_top p) in
  user_ecall s me p → tf_view (k_mem s) (tf p) 21 = 1 → tf_view (k_mem s) (tf p) 14 = new →
  vm_ok (settled s) (pgtbl p) pg kl ul → page_apart pg kl ul (tf p) →
  0 ≤ heap_top p < new → new < TRAPFRAME → new - heap_top p < 2^32 →
  PG_ROUND_UP new = base + Z.of_nat n * PGSIZE → Z.of_nat n * PGSIZE < 2^32 →
  (n ≤ length ul)%nat → (2 * n ≤ length kl)%nat →
  ∃ s1 pg1 kl1, trap_user_handler rounds s = Ok (jump_of s p, s1) ∧
    (∀ k, (k < tf_words)%nat → tf_view (k_mem s1) (tf p) k = resumed_words s p new k) ∧
    k_procs s1 = <[me := set_heap_top new p]> (k_procs s) ∧ k_hart s1 = resumed_hart s ∧
    vm_ok (settled s1) (pgtbl p) pg1 kl1 (drop n ul) ∧
    ∀ va, 0 ≤ va < VA_MAX → lookup_pte (k_mem s1) pg1 va =
      if decide (base ≤ va < base + Z.of_nat n * PGSIZE)
      then leaf_pte (ul !!! Z.to_nat ((va - base) / PGSIZE)) HEAP_PERM else lookup_pte (k_mem s) pg va.
Proof.
  intros base Hu H7 H0 Hok Hap Ht Hlim H32 Hrnd Hn32 Hul Hkl. rewrite (trap_ecall_run s me p Hu).
  pose proof (ecall_context s me p Hu) as He. set (e := ecall_state s p) in *.
  assert (∀ b, ¬ (tf p ≤ b < tf p + PGSIZE) → load8 (k_mem e) b = load8 (k_mem s) b) as Heo.
  { intros b Hb. apply ecall_out. unfold TF_SIZE, PGSIZE in *. lia. }
  destruct (vm_ok_page (settled s) (pgtbl p) pg kl ul (tf p) (k_mem e) Hok Hap Heo) as [Hoke Hlke].
  assert (vm_ok (settled e) (pgtbl p) pg kl ul) as Hok'.
  { apply (vm_ok_frame _ _ _ _ _ _ Hoke); try done. apply settle_stable, He. }
  destruct (syscall_brk_run e me p (pgtbl p) pg kl ul new n) as (g & pg1 & kl1 & Hg & Hr); try done.
  { unfold e. by rewrite (ecall_view s me p 21 Hu). } { unfold e. by rewrite (ecall_view s me p 14 Hu). }
  run Hr. set (s2 := set_mem _ _). pose proof (gr_frame _ _ _ _ _ _ _ _ _ _ Hg) as Hfr.
  destruct (grown_apart _ _ _ _ _ _ _ _ _ _ (tf p) Hok' Hg Hap) as [Hap1 Hkeep].
  destruct (resume_run s me p s2 (set_heap_top new p) new Hu) as (m' & Hret & Hw & Hout); try done.
  - unfold s2. cbn [k_hart set_mem set_procs]. by rewrite Hfr.
  - unfold s2. cbn [k_syms set_mem set_procs]. by rewrite Hfr.
  - unfold s2. cbn [k_procs set_mem set_procs]. apply list_lookup_insert_eq. eapply lookup_lt_Some, He.
  - intros k Hk. unfold s2. cbn [k_mem set_mem]. rewrite tf_view_store by (pose proof (eq_refl : TRAPFRAME = 2^38 - 8192); lia).
    destruct (decide _); [done|]. apply load64_ext. intros b Hb. apply Hkeep. unfold tf_words, PGSIZE in *. lia.
  - set (s1 := set_mem m' (set_hart (resumed_hart s) s2)). exists s1, pg1, kl1. split; [exact Hret|]. split; [exact Hw|].
    split; [done|]. split; [done|].
    assert (∀ b, ¬ (tf p ≤ b < tf p + PGSIZE) → load8 m' b = load8 (k_mem g) b) as Hmo.
    { intros b Hb. rewrite Hout by (unfold TF_SIZE, PGSIZE in *; lia). unfold s2. cbn [k_mem set_mem].
      apply load8_store64_out. unfold PGSIZE in *. lia. }
    destruct (vm_ok_page g (pgtbl p) pg1 kl1 (drop n ul) (tf p) m' (gr_ok _ _ _ _ _ _ _ _ _ _ Hg) Hap1 Hmo) as [Hok1 Hlk1].
    split.
    + apply (vm_ok_frame _ _ _ _ _ _ Hok1); try done. by apply settle_stable.
    + intros va Hva. cbn [k_mem s1 set_mem]. rewrite Hlk1, (gr_look _ _ _ _ _ _ _ _ _ _ Hg va Hva).
      destruct (decide _); [done|]. apply Hlke.
Qed.

End ecall.

(** ** Witnesses: process 0 traps with a system call number and an argument. *)

Definition sample_proc (t root top : Z) : proc :=
  mk_proc 1 RUNNING None 0 ChNull root top 0 0 None t 0x3fffffa000 zero_context None (replicate 16 None).

Definition sample_hart : hart :=
  mk_hart 0 false 0 true (Some 0%nat) zero_context (mk_csrs false 0x1004 8 0 0x80006000 0x8000000000080001 0).

Definition sample_trap (t root top num arg : Z) (s : kstate) : kstate :=
  set_procs [sample_proc t root top] (set_hart sample_hart
    (set_mem (store64 (store64 (k_mem s) (t + 8 * Z.of_nat 21) num) (t + 8 * Z.of_nat 14) arg) s)).

Lemma sample_ecall t root top num arg s :
  k_syms s = image_syms 3 → user_ecall (sample_trap t root top num arg s) 0 (sample_proc t root top).
Proof. intros Ey. split; [|done|done]. split; try done. cbn [k_syms sample_trap set_procs set_hart set_mem]. by rewrite Ey. Qed.

Lemma sample_words t root top num arg s :
  0 ≤ num < 2^64 → 0 ≤ arg < 2^64 →
  tf_view (k_mem (sample_trap t root top num arg s)) t 21 = num ∧
  tf_view (k_mem (sample_trap t root top num arg s)) t 14 = arg.
Proof. intros Hn Ha. unfold sample_trap. cbn [k_mem set_procs set_hart set_mem]. by rewrite !tf_view_store. Qed.

Lemma trap_unknown_syscall_witness :
  let s := sample_trap 0x80100000 0x80200000 0x1000 99 0 (zero_state (image_syms 3)) in
  ∃ s1, @trap_user_handler resume_at_once virtio_block_device 1 s = Ok (jump_of s (sample_proc 0x80100000 0x80200000 0x1000), s1) ∧
    tf_view (k_mem s1) 0x80100000 14 = FAIL ∧ tf_view (k_mem s1) 0x80100000 3 = 0x1008.
Proof.
  intros s. destruct (@trap_unknown_syscall resume_at_once virtio_block_device 1 s 0
    (sample_proc 0x80100000 0x80200000 0x1000)) as (m' & l & Hr & Hw & _).
  - by apply sample_ecall.
  - unfold s. cbn [tf sample_proc].
    rewrite (proj1 (sample_words 0x80100000 0x80200000 0x1000 99 0 (zero_state (image_syms 3)) ltac:(lia) ltac:(lia))).
    unfold SYS_MAX. lia.
  - eexists. split; [exact Hr|]. cbn [k_mem set_log set_mem].
    split; [apply (Hw 14%nat)|apply (Hw 3%nat)]; unfold tf_words; lia.
Defined.

(** A page beside a fresh table and the free lists. *)
Lemma sample_apart s root kl ul :
  vm_ok s root {[ [] := root ]} kl ul → ∃ t, page_apart {[ [] := root ]} kl ul t ∧ 0 ≤ t < 2^63.
Proof.
  intros Hok. assert (∀ t, PHYSTOP ≤ t → t mod PGSIZE = 0 → t ≠ root → page_apart {[ [] := root ]} kl ul t) as Hpa.
  { intros t Ht Hal Hne. pose proof (vo_pmem _ _ _ _ _ Hok) as [Hk Hu _]. split; [done|].
    assert (∀ r l, region_ok (k_mem s) r l → t ∉ l) as Hni.
    { intros r l Hr Hin. pose proof (ro_pages _ _ _ Hr) as HF. rewrite Forall_forall in HF. destruct (HF t Hin) as [_ Hb].
      pose proof (ro_bounds _ _ _ Hr). lia. }
    split; [by eapply Hni|]. split; [by eapply Hni|]. intros π Hπ. destruct (decide (π = [])) as [->|Hn].
    - rewrite lookup_singleton_eq in Hπ. congruence.
    - by rewrite lookup_singleton_ne in Hπ. }
  destruct (decide (root = 0x90000000)) as [->|Hne].
  - exists 0x90001000. split; [apply Hpa; done|lia].
  - exists 0x90000000. split; [apply Hpa; done|lia].
Qed.

Lemma trap_brk_grows_witness :
  ∃ s t root s1, tf_view (k_mem s) t 21 = 1 ∧ tf_view (k_mem s) t 14 = 0x2800 ∧
    @trap_user_handler resume_at_once virtio_block_device 1 s = Ok (jump_of s (sample_proc t root 0x1800), s1) ∧
    k_procs s1 = [sample_proc t root 0x2800] ∧ tf_view (k_mem s1) t 14 = 0x2800.
Proof.
  destruct vm_ok_boot as (s0 & root & kl & ul & Hok & Hkl & Hul & Hy & _).
  destruct (sample_apart s0 root kl ul Hok) as (t & Hap & Ht).
  set (s := sample_trap t root 0x1800 1 0x2800 s0).
  destruct (sample_words t root 0x1800 1 0x2800 s0 ltac:(lia) ltac:(lia)) as [H7 H0].
  destruct (vm_ok_page s0 root {[ [] := root ]} kl ul t (k_mem s) Hok Hap) as [Hok1 _].
  { intros b Hb. unfold s, sample_trap. cbn [k_mem set_procs set_hart set_mem].
    unfold PGSIZE in *. by rewrite !load8_store64_out by lia. }
  destruct (@trap_brk_grows resume_at_once virtio_block_device 1 s 0 (sample_proc t root 0x1800)
    {[ [] := root ]} kl ul 0x2800 1) as (s1 & pg1 & kl1 & Hr & Hw & Hp & _).
  - by apply sample_ecall.
  - exact H7.
  - exact H0.
  - apply (vm_ok_frame _ _ _ _ _ _ Hok1); try done. by apply settle_stable.
  - exact Hap.
  - simpl. lia.
  - by vm_compute.
  - simpl. lia.
  - reflexivity.
  - by vm_compute.
  - lia.
  - lia.
  - exists s, t, root, s1. split; [exact H7|]. split; [exact H0|]. split; [exact Hr|]. split; [exact Hp|].
    apply (Hw 14%nat). unfold tf_words. lia.
Defined.
