(* ===== verification/Types.v ===== *)
(** * The types of the kernel's data, and the judgement that code keeps them

    The C types of the global tables, as an invariant of the state: every byte of the memory
    and of the disk is a byte, every block has its 1024 bytes, every table has the length it is
    declared with and every field the width of its type.  In the model a list can grow and an
    integer has no bound, so that an operation keeps the invariant says that it writes inside
    the arrays it is given and wraps where C does.

    [ensures P m]: from a typed state [m] returns, if it returns, a typed state and a value with
    [P].  The rules follow the constructs of the monad; one lemma per operation is declared to
    the hint database [typed], and the tactic [typing] runs through a body with them.  This
    file covers locks, memory, address spaces, scheduling and processes. *)

From S2P Require Import Prelude Bytes Kernel Lock Str Pmem Vm Sched Virtio Buf Bitmap MmapPool Uvm Inode Dir File Proc Syscall SysFile.

Create HintDb typed discriminated.
#[export] Hint Constants Opaque : typed.
#[export] Hint Projections Opaque : typed.

(** ** Types *)

Definition w16 (x : Z) : Prop := 0 ≤ x < 2^16.
Definition w32 (x : Z) : Prop := 0 ≤ x < 2^32.
Definition w64 (x : Z) : Prop := 0 ≤ x < 2^64.
Definition int32 (x : Z) : Prop := - 2^31 ≤ x < 2^31.

(** An array of [n] elements of a type. *)
Definition array {A} (n : nat) (P : A → Prop) (l : list A) : Prop := length l = n ∧ Forall P l.

Definition mem_typed (m : mem) : Prop := map_Forall (λ _ b, byte_ok b) m.

Record buf_typed (b : buf) : Prop := { bt_data : block_ok (data b); bt_ref : w32 (buf_ref b) }.

Record inode_typed (x : inode) : Prop := {
  it_type : w16 (i_type x); it_major : w16 (i_major x); it_minor : w16 (i_minor x); it_nlink : w16 (i_nlink x);
  it_size : w32 (i_size x); it_addrs : array N_ADDRS w32 (i_addrs x); it_num : w16 (inode_num x); it_ref : w32 (i_ref x) }.

Record file_typed (x : file) : Prop := {
  ft_ref : w32 (f_ref x); ft_major : w16 (f_major x); ft_offset : w32 (f_offset x) }.

Record proc_typed (p : proc) : Prop := {
  pt_pid : int32 (pid p); pt_exit : int32 (exit_state p); pt_heap : w64 (heap_top p); pt_stack : w64 (ustack_base p);
  pt_pages : w32 (ustack_pages p); pt_files : length (filelist p) = FILE_PER_PROC }.

Record node_typed (n : mmap_node) : Prop := { nt_begin : w64 (mm_begin n); nt_pages : w32 (mm_npages n) }.

Record vdisk_typed (v : vdisk) : Prop := {
  vt_desc : length (vd_desc v) = NUM; vt_avail : length (vd_avail v) = NUM; vt_used : length (vd_used v) = NUM;
  vt_free : length (vd_free v) = NUM; vt_info : length (vd_info v) = NUM;
  vt_idx : w16 (vd_avail_idx v) ∧ w16 (vd_used_ring_idx v) ∧ w16 (vd_used_idx v) }.

Record typed (s : kstate) : Prop := {
  ty_mem : mem_typed (k_mem s);
  ty_disk : map_Forall (λ _ d, block_ok d) (k_disk s);
  ty_bufs : array N_BLOCK_BUF (λ n, buf_typed (bn_buf n)) (k_bufs s);
  ty_icache : array N_INODE inode_typed (k_icache s);
  ty_ftable : array N_FILE file_typed (k_ftable s);
  ty_procs : array NPROC proc_typed (k_procs s);
  ty_mmap : array N_MMAP node_typed (mp_nodes (k_mmap s));
  ty_devlist : length (k_devlist s) = N_DEV;
  ty_vdisk : vdisk_typed (k_vdisk s);
  ty_pools : w32 (r_allocable (k_kern s)) ∧ w32 (r_allocable (k_user s));
  ty_pid : int32 (k_global_pid s);
  ty_ticks : w64 (k_ticks s) }.

(** ** The judgement *)

Definition ensures {A} (P : A → Prop) (m : K A) : Prop :=
  ∀ s, typed s → match m s with Ok (a, s') => typed s' ∧ P a | _ => True end.

(** Any value. *)
Definition any {A} (_ : A) : Prop := True.

Lemma t_weaken {A} (P Q : A → Prop) m : ensures P m → (∀ a, P a → Q a) → ensures Q m.
Proof. intros Hm H s Hs. specialize (Hm s Hs). destruct (m s) as [[a s']| | | |]; naive_solver. Qed.

Lemma t_any {A} (P : A → Prop) m : ensures P m → ensures any m.
Proof. intros H. by eapply t_weaken. Qed.

Lemma t_bind {A C} (P : A → Prop) (Q : C → Prop) m k : ensures P m → (∀ a, P a → ensures Q (k a)) → ensures Q (m ≫= k).
Proof.
  intros Hm Hk s Hs. specialize (Hm s Hs). unfold mbind, M_bind. destruct (m s) as [[a s']| | | |]; try done.
  destruct Hm as [Hs' Ha]. by apply Hk.
Qed.

Lemma t_ret {A} (P : A → Prop) a : P a → ensures P (mret a).
Proof. by intros H s Hs. Qed.

Lemma t_panic {A} (P : A → Prop) e : ensures P (panic e).
Proof. done. Qed.

Lemma t_fault {A} (P : A → Prop) e : ensures P (fault e).
Proof. done. Qed.

Lemma t_hang {A} (P : A → Prop) : ensures P hang.
Proof. done. Qed.

Lemma t_no_fuel {A} (P : A → Prop) : ensures P no_fuel.
Proof. done. Qed.

Lemma t_gets {A} (P : A → Prop) f : (∀ s, typed s → P (f s)) → ensures P (gets f).
Proof. intros H s Hs. split; [done|by apply H]. Qed.

Lemma t_read {A} (f : kstate → A) : ensures (λ a, ∃ s, typed s ∧ a = f s) (gets f).
Proof. apply t_gets. intros s Hs. by exists s. Qed.

Lemma t_modify f : (∀ s, typed s → typed (f s)) → ensures any (modify f).
Proof. intros H s Hs. split; [by apply H|done]. Qed.

Lemma t_assert c w : ensures (λ _, c = true) (kassert c w).
Proof. destruct c; done. Qed.

Lemma t_deref {A} (P : A → Prop) w o : (∀ a, o = Some a → P a) → ensures P (deref w o).
Proof. intros H. destruct o as [a|]; [|done]. intros s Hs. split; [done|by apply H]. Qed.

Lemma t_some {A} w (o : option A) : ensures (λ a, o = Some a) (deref w o).
Proof. by apply t_deref. Qed.

Lemma t_for_each {A} (l : list A) f : (∀ x, x ∈ l → ensures any (f x)) → ensures any (for_each l f).
Proof.
  induction l as [|x l IH]; intros H; [by apply t_ret|]. simpl. eapply t_bind; [apply H; left|]. intros [] _. apply IH. intros y Hy. apply H. by right.
Qed.

Lemma t_for_return {A C} (P : option C → Prop) (l : list A) f :
  P None → (∀ x, x ∈ l → ensures P (f x)) → ensures P (for_return l f).
Proof.
  intros HN. induction l as [|x l IH]; intros H; [by apply t_ret|]. simpl. eapply t_bind; [apply H; left|].
  intros [c|] Hc; [by apply t_ret|]. apply IH. intros y Hy. apply H. by right.
Qed.

(** ** Arrays *)

Lemma array_lookup {A} n (P : A → Prop) l i x : array n P l → l !! i = Some x → P x.
Proof. intros [_ H]. by apply Forall_lookup_1. Qed.

Lemma array_alter {A} n (P : A → Prop) (f : A → A) i l : (∀ x, P x → P (f x)) → array n P l → array n P (alter f i l).
Proof. intros Hf [Hl H]. split; [by rewrite length_alter|]. apply Forall_alter; [done|]. intros x _. apply Hf. Qed.

Lemma array_insert {A} n (P : A → Prop) i x l : P x → array n P l → array n P (<[i := x]> l).
Proof. intros Hx [Hl H]. split; [by rewrite length_insert|]. by apply Forall_insert. Qed.

Lemma array_replicate {A} n (P : A → Prop) x : P x → array n P (replicate n x).
Proof. intros Hx. split; [apply length_replicate|by apply Forall_replicate]. Qed.

(** ** Widths *)

Lemma w16_u16 x : w16 (u16 x).
Proof. by apply Z.mod_pos_bound. Qed.

Lemma w32_u32 x : w32 (u32 x).
Proof. by apply Z.mod_pos_bound. Qed.

Lemma w64_u64 x : w64 (u64 x).
Proof. by apply Z.mod_pos_bound. Qed.

Lemma int32_i32 x : int32 (i32 x).
Proof. unfold int32, i32. pose proof (Z.mod_pos_bound (x + 2^31) (2^32)). lia. Qed.

Lemma w32_w64 x : w32 x → w64 x.
Proof. unfold w32, w64. lia. Qed.

Lemma w16_w32 x : w16 x → w32 x.
Proof. unfold w16, w32. lia. Qed.

Lemma w64_round_up x : w64 (PG_ROUND_UP x).
Proof.
  unfold PG_ROUND_UP, w64. pose proof (u64_range (x + PGSIZE - 1)). change (Z.lnot (PGSIZE - 1)) with (Z.lnot (Z.ones 12)).
  rewrite <- Z.ldiff_land, Z.ldiff_ones_r, Z.shiftr_div_pow2, Z.shiftl_mul_pow2 by lia. change (2^12) with 4096. zdiv.
Qed.

Lemma w32_div x y : w32 x → 0 < y → w32 (x / y).
Proof. unfold w32. intros H Hy. split; [apply Z.div_pos; lia|]. apply Z.le_lt_trans with x; [apply Z.div_le_upper_bound; nia|lia]. Qed.

Lemma le_val_width l n : Forall byte_ok l → (length l ≤ n)%nat → 0 ≤ le_val l < 2^(8 * Z.of_nat n).
Proof.
  intros H Hn. pose proof (le_val_range l H) as [? ?]. split; [done|]. eapply Z.lt_le_trans; [done|]. apply Z.pow_le_mono_r; lia.
Qed.

(** The width of a number the source writes. *)
Ltac constant x := tryif first [has_evar x | match x with context [?v] => is_var v end] then fail else by vm_compute.

#[export] Hint Resolve w16_u16 w32_u32 w64_u64 int32_i32 w32_w64 w16_w32 w64_round_up : typed.
#[export] Hint Extern 1 (w16 ?x) => constant x : typed.
#[export] Hint Extern 1 (w32 ?x) => constant x : typed.
#[export] Hint Extern 1 (w64 ?x) => constant x : typed.
#[export] Hint Extern 1 (int32 ?x) => constant x : typed.
#[export] Hint Extern 0 (any _) => exact I : typed.

(** ** The state *)

Lemma typed_hart h s : typed s → typed (set_hart h s).
Proof. by intros []. Qed.
Lemma typed_locks l s : typed s → typed (set_locks l s).
Proof. by intros []. Qed.
Lemma typed_log l s : typed s → typed (set_log l s).
Proof. by intros []. Qed.
Lemma typed_kpgtbl v s : typed s → typed (set_kpgtbl v s).
Proof. by intros []. Qed.
Lemma typed_head v s : typed s → typed (set_head_buf v s).
Proof. by intros []. Qed.
Lemma typed_sb v s : typed s → typed (set_sb v s).
Proof. by intros []. Qed.
Lemma typed_proczero v s : typed s → typed (set_proczero v s).
Proof. by intros []. Qed.
Lemma typed_uart v s : typed s → typed (set_uart v s).
Proof. by intros []. Qed.
Lemma typed_first v s : typed s → typed (set_first v s).
Proof. by intros []. Qed.
Lemma typed_mem m s : mem_typed m → typed s → typed (set_mem m s).
Proof. intros H []. by split. Qed.
Lemma typed_bufs l s : array N_BLOCK_BUF (λ n, buf_typed (bn_buf n)) l → typed s → typed (set_bufs l s).
Proof. intros H []. by split. Qed.
Lemma typed_icache l s : array N_INODE inode_typed l → typed s → typed (set_icache l s).
Proof. intros H []. by split. Qed.
Lemma typed_ftable l s : array N_FILE file_typed l → typed s → typed (set_ftable l s).
Proof. intros H []. by split. Qed.
Lemma typed_procs l s : array NPROC proc_typed l → typed s → typed (set_procs l s).
Proof. intros H []. by split. Qed.
Lemma typed_mmap p s : array N_MMAP node_typed (mp_nodes p) → typed s → typed (set_mmap p s).
Proof. intros H []. by split. Qed.
Lemma typed_devlist l s : length l = N_DEV → typed s → typed (set_devlist l s).
Proof. intros H []. by split. Qed.
Lemma typed_vdisk v s : vdisk_typed v → typed s → typed (set_vdisk v s).
Proof. intros H []. by split. Qed.
Lemma typed_pid v s : int32 v → typed s → typed (set_global_pid v s).
Proof. intros H []. by split. Qed.
Lemma typed_ticks v s : w64 v → typed s → typed (set_ticks v s).
Proof. intros H []. by split. Qed.
Lemma typed_region k b e n h s : w32 n → typed s → typed (put_region k (mk_region b e n h) s).
Proof. intros H [????????? [] ??]. destruct k; by split. Qed.

#[export] Hint Resolve typed_hart typed_locks typed_log typed_kpgtbl typed_head typed_sb typed_proczero typed_uart typed_first
  typed_mem typed_bufs typed_icache typed_ftable typed_procs typed_mmap typed_devlist typed_vdisk typed_pid typed_ticks
  typed_region ty_mem ty_disk ty_bufs ty_icache ty_ftable ty_procs ty_mmap ty_devlist ty_vdisk ty_pid ty_ticks : typed.

(** ** Memory *)

Lemma load8_byte m a : mem_typed m → byte_ok (load8 m a).
Proof. intros H. unfold load8. destruct (m !! a) as [b|] eqn:E; [by apply (H a)|done]. Qed.

Lemma insert_byte m a b : byte_ok b → mem_typed m → mem_typed (<[a := b]> m).
Proof. intros Hb Hm. by apply map_Forall_insert_2. Qed.

Lemma load_bytes_typed m a n : mem_typed m → Forall byte_ok (load_bytes m a n).
Proof. intros H. revert a. induction n as [|n IH]; intros a; constructor; [by apply load8_byte|apply IH]. Qed.

Lemma store_bytes_typed m a l : Forall byte_ok l → mem_typed m → mem_typed (store_bytes m a l).
Proof. intros H. revert m a. induction H as [|b l Hb _ IH]; intros m a Hm; [done|]. by apply IH, insert_byte. Qed.

Lemma store64_typed m a v : mem_typed m → mem_typed (store64 m a v).
Proof. apply store_bytes_typed, le_bytes_ok. Qed.

Lemma memset_typed m a c n : mem_typed m → mem_typed (memset m a c n).
Proof.
  unfold memset. generalize (Z.to_nat (u32 n)). intros k. revert m a. induction k as [|k IH]; intros m a Hm; [done|]. apply IH, insert_byte; [|done]. apply u8_range.
Qed.

Lemma copy_forward_typed m d a n : mem_typed m → mem_typed (copy_forward m d a n).
Proof. revert m d a. induction n as [|n IH]; intros m d a Hm; [done|]. apply IH, insert_byte; [by apply load8_byte|done]. Qed.

Lemma copy_backward_typed m d a n : mem_typed m → mem_typed (copy_backward m d a n).
Proof. revert m d a. induction n as [|n IH]; intros m d a Hm; [done|]. apply IH, insert_byte; [by apply load8_byte|done]. Qed.

Lemma memmove_typed m d a n : mem_typed m → mem_typed (memmove m d a n).
Proof. intros Hm. unfold memmove. repeat case_match; [done|by apply copy_backward_typed|by apply copy_forward_typed]. Qed.

#[export] Hint Resolve load_bytes_typed store_bytes_typed store64_typed memset_typed memmove_typed le_bytes_ok : typed.

(** ** Running through a body *)

(** A command whose effect on the types is known. *)
Ltac known := first [ solve [eauto 6 with typed] | solve [eapply t_weaken; [solve [eauto 6 with typed]|cbv beta; intros ? ?; first [exact I | solve [eauto 4 with typed]]]] ].

Ltac typing_step :=
  lazymatch goal with
  | |- ensures _ (mret _) => apply t_ret
  | |- ensures _ (panic _) => apply t_panic
  | |- ensures _ (fault _) => apply t_fault
  | |- ensures _ hang => apply t_hang
  | |- ensures _ no_fuel => apply t_no_fuel
  | |- ensures _ (mbind _ (if _ then _ else _)) => eapply (t_bind any); [|intros ? _]
  | |- ensures _ (mbind _ (match _ with _ => _ end)) => eapply (t_bind any); [|intros ? _]
  | |- ensures _ (mbind _ (gets _)) => eapply t_bind; [apply t_read|cbv beta; intros ? (? & ? & ->)]
  | |- ensures _ (mbind _ (modify _)) => eapply (t_bind any); [|intros ? _]
  | |- ensures _ (mbind _ (deref _ _)) => eapply t_bind; [apply t_some|cbv beta; intros ? ?]
  | |- ensures _ (mbind _ (kassert _ _)) => eapply t_bind; [apply t_assert|cbv beta; intros ? ?]
  | |- ensures _ (mbind _ _) => first [eapply t_bind; [known|cbv beta; intros ? ?] | eapply (t_bind any); [|intros ? _]]
  | |- ensures _ (let _ := _ in _) => cbv zeta
  | |- ensures _ (if ?b then _ else _) => destruct b eqn:?
  | |- ensures _ (match ?x with _ => _ end) => destruct x eqn:?
  | |- ensures _ (modify _) => eapply t_weaken; [apply t_modify; intros ? ?; cbv zeta; solve [eauto 8 with typed]|done]
  | |- ensures _ (for_each _ _) => apply t_for_each; intros ? ?
  | |- ensures _ (kassert _ _) => eapply t_weaken; [apply t_assert|intros ? ?]
  | |- ensures _ (deref _ _) => apply t_deref; intros ? ?
  | |- ensures _ (gets _) => apply t_gets; intros ? ?
  | |- ensures _ _ => known
  end.

Ltac typing := repeat (cbv beta; typing_step); try solve [eauto 6 with typed].

(** ** Locks (Lock.v) *)

Lemma printf_typed f l : ensures any (printf f l).
Proof. apply t_modify. eauto with typed. Qed.

Lemma put_lock_typed lk l : ensures any (put_lock lk l).
Proof. apply t_modify. eauto with typed. Qed.

#[export] Hint Resolve printf_typed put_lock_typed : typed.

Lemma intr_on_typed : ensures any intr_on.
Proof. unfold intr_on. typing. Qed.
Lemma intr_off_typed : ensures any intr_off.
Proof. unfold intr_off. typing. Qed.
Lemma intr_get_typed : ensures any intr_get.
Proof. by apply t_gets. Qed.
Lemma mycpu_typed : ensures any mycpu.
Proof. by apply t_gets. Qed.
Lemma mycpuid_typed : ensures any mycpuid.
Proof. by apply t_gets. Qed.

#[export] Hint Resolve intr_on_typed intr_off_typed intr_get_typed mycpu_typed mycpuid_typed : typed.

Lemma push_off_typed : ensures any push_off.
Proof. unfold push_off. typing. Qed.
Lemma pop_off_typed : ensures any pop_off.
Proof. unfold pop_off. typing. Qed.

#[export] Hint Resolve push_off_typed pop_off_typed : typed.

Lemma cpu_init_typed : ensures any cpu_init.
Proof. unfold cpu_init. typing. Qed.
Lemma myproc_typed : ensures any myproc.
Proof. unfold myproc. typing. Qed.
Lemma holding_typed lk : ensures any (spinlock_holding lk).
Proof. unfold spinlock_holding. typing. Qed.
Lemma lock_init_typed lk n : ensures any (spinlock_init lk n).
Proof. unfold spinlock_init. typing. Qed.

#[export] Hint Resolve cpu_init_typed myproc_typed holding_typed lock_init_typed : typed.

Lemma acquire_typed lk : ensures any (spinlock_acquire lk).
Proof. unfold spinlock_acquire. typing. Qed.
Lemma release_typed lk : ensures any (spinlock_release lk).
Proof. unfold spinlock_release. typing. Qed.

#[export] Hint Resolve acquire_typed release_typed : typed.

(** ** Pages (Pmem.v, Vm.v) *)

Lemma free_page_typed k pa : ensures any (region_free_page k pa).
Proof. unfold region_free_page. typing. Qed.
Lemma pmem_alloc_typed k : ensures any (pmem_alloc k).
Proof. unfold pmem_alloc, region_alloc_page. typing. Qed.

#[export] Hint Resolve free_page_typed pmem_alloc_typed : typed.

Lemma pmem_free_typed pa k : ensures any (pmem_free pa k).
Proof. unfold pmem_free. typing. Qed.

Lemma freerange_from_typed fuel k p e : ensures any (freerange_from fuel k p e).
Proof. revert p. induction fuel as [|fuel IH]; intros p; simpl; typing. Qed.

Lemma freerange_typed k a b : ensures any (freerange_region k a b).
Proof. apply freerange_from_typed. Qed.

Lemma init_region_typed k a b n : ensures any (init_region k a b n).
Proof. unfold init_region. typing. Qed.

#[export] Hint Resolve pmem_free_typed freerange_typed init_region_typed : typed.

Lemma pmem_init_typed : ensures any pmem_init.
Proof. unfold pmem_init. typing. Qed.

Lemma read64_typed a : ensures w64 (read64 a).
Proof.
  apply t_gets. intros s Hs. unfold load64, w64. change (2^64) with (2^(8 * Z.of_nat 8)). apply le_val_width; [auto with typed|].
  by rewrite length_load_bytes.
Qed.
Lemma write64_typed a v : ensures any (write64 a v).
Proof. unfold write64. typing. Qed.
Lemma clear_page_typed pa : ensures any (clear_page pa).
Proof. unfold clear_page. typing. Qed.

#[export] Hint Resolve pmem_init_typed read64_typed write64_typed clear_page_typed : typed.

Lemma alloc_pgtbl_typed : ensures any alloc_pgtbl.
Proof. unfold alloc_pgtbl. typing. Qed.

#[export] Hint Resolve alloc_pgtbl_typed : typed.

Lemma vm_walk_typed l p va a : ensures any (vm_walk l p va a).
Proof. revert p. induction l as [|l IH]; intros p; simpl; typing. Qed.

#[export] Hint Resolve vm_walk_typed : typed.

Lemma getpte_typed p va a : ensures any (vm_getpte p va a).
Proof. unfold vm_getpte. typing. Qed.

#[export] Hint Resolve getpte_typed : typed.

Lemma map_loop_typed fuel p a l pa perm : ensures any (vm_map_loop fuel p a l pa perm).
Proof. revert a pa. induction fuel as [|fuel IH]; intros a pa; simpl; typing. Qed.

Lemma unmap_loop_typed fuel p a e f : ensures any (vm_unmap_loop fuel p a e f).
Proof. revert a. induction fuel as [|fuel IH]; intros a; simpl; typing. Qed.

#[export] Hint Resolve map_loop_typed unmap_loop_typed : typed.

Lemma mappages_typed p va pa len perm : ensures any (vm_mappages p va pa len perm).
Proof. unfold vm_mappages. typing. Qed.
Lemma unmappages_typed p va len f : ensures any (vm_unmappages p va len f).
Proof. unfold vm_unmappages. typing. Qed.
Lemma kernel_pgtbl_typed : ensures any kvm_get_kernel_pgtbl.
Proof. by apply t_gets. Qed.

#[export] Hint Resolve mappages_typed unmappages_typed kernel_pgtbl_typed : typed.

Lemma kvm_init_typed : ensures any kvm_init.
Proof. unfold kvm_init. typing. Qed.
Lemma kvm_inithart_typed : ensures any kvm_inithart.
Proof. unfold kvm_inithart. typing. Qed.

#[export] Hint Resolve kvm_init_typed kvm_inithart_typed : typed.

(** ** Regions of user memory (MmapPool.v) *)

Lemma get_mmap_typed i : ensures node_typed (get_mmap i).
Proof. unfold get_mmap. typing. eapply (array_lookup N_MMAP); [|done]. auto with typed. Qed.

Lemma upd_mmap_typed i f : (∀ n, node_typed n → node_typed (f n)) → ensures any (upd_mmap i f).
Proof. intros Hf. apply t_modify. intros s Hs. apply typed_mmap; [|done]. apply array_alter; [done|auto with typed]. Qed.

Lemma set_range_typed b np n : w64 b → w32 np → node_typed (mm_set_range b np n).
Proof. by split. Qed.
Lemma mm_next_typed v n : node_typed n → node_typed (mm_set_next v n).
Proof. by intros []. Qed.
Lemma mn_next_typed v n : node_typed n → node_typed (mn_set_next v n).
Proof. by intros []. Qed.
Lemma pool_typed p h : array N_MMAP node_typed (mp_nodes p) → array N_MMAP node_typed (mp_nodes (mk_mmap_pool (mp_nodes p) h)).
Proof. done. Qed.
Lemma mmap_head_typed : ensures any mmap_head.
Proof. by apply t_gets. Qed.

#[export] Hint Resolve get_mmap_typed upd_mmap_typed set_range_typed mm_next_typed mn_next_typed pool_typed mmap_head_typed nt_begin nt_pages : typed.

Lemma mmap_init_typed : ensures any mmap_init.
Proof. unfold mmap_init. typing. Qed.
Lemma region_alloc_typed : ensures any mmap_region_alloc.
Proof. unfold mmap_region_alloc. typing. Qed.
Lemma region_free_typed n : ensures any (mmap_region_free n).
Proof. unfold mmap_region_free. typing. Qed.

#[export] Hint Resolve mmap_init_typed region_alloc_typed region_free_typed : typed.

(** ** Sleep, wakeup and the scheduler (Sched.v) *)

Lemma get_proc_typed i : ensures proc_typed (get_proc i).
Proof. unfold get_proc. typing. eapply (array_lookup NPROC); [|done]. auto with typed. Qed.

Lemma upd_proc_typed i f : (∀ p, proc_typed p → proc_typed (f p)) → ensures any (upd_proc i f).
Proof. intros Hf. apply t_modify. intros s Hs. apply typed_procs; [|done]. apply array_alter; [done|auto with typed]. Qed.

Lemma set_state_typed v p : proc_typed p → proc_typed (set_state v p).
Proof. by intros []. Qed.
Lemma set_sleep_typed v p : proc_typed p → proc_typed (set_sleep_space v p).
Proof. by intros []. Qed.
Lemma set_p_mmap_typed v p : proc_typed p → proc_typed (set_p_mmap v p).
Proof. by intros []. Qed.
Lemma set_parent_typed v p : proc_typed p → proc_typed (set_parent v p).
Proof. by intros []. Qed.
Lemma set_pgtbl_typed v p : proc_typed p → proc_typed (set_pgtbl v p).
Proof. by intros []. Qed.
Lemma set_tf_typed v p : proc_typed p → proc_typed (set_tf v p).
Proof. by intros []. Qed.
Lemma set_kstack_typed v p : proc_typed p → proc_typed (set_kstack v p).
Proof. by intros []. Qed.
Lemma set_ctx_typed v p : proc_typed p → proc_typed (set_ctx v p).
Proof. by intros []. Qed.
Lemma set_pid_typed v p : int32 v → proc_typed p → proc_typed (set_pid v p).
Proof. intros H []. by split. Qed.
Lemma set_exit_typed v p : int32 v → proc_typed p → proc_typed (set_exit_state v p).
Proof. intros H []. by split. Qed.
Lemma set_layout_typed h b n p : w64 h → w64 b → w32 n → proc_typed p → proc_typed (set_layout h b n p).
Proof. intros ??? []. by split. Qed.

#[export] Hint Resolve get_proc_typed upd_proc_typed set_state_typed set_sleep_typed set_p_mmap_typed set_parent_typed
  set_pgtbl_typed set_tf_typed set_kstack_typed set_ctx_typed set_pid_typed set_exit_typed set_layout_typed
  pt_pid pt_exit pt_heap pt_stack pt_pages : typed.

(** The other side of a context switch keeps the types. *)
Class TypedSwitch (Sw : Switch) := {
  to_cpu_typed i : ensures any (@swtch_to_cpu Sw i);
  to_proc_typed i : ensures any (@swtch_to_proc Sw i) }.

#[export] Hint Resolve to_cpu_typed to_proc_typed : typed.

Lemma wakeup_one_typed c i : ensures any (wakeup_one c i).
Proof. unfold wakeup_one. typing. Qed.

#[export] Hint Resolve wakeup_one_typed : typed.

Lemma wakeup_typed c : ensures any (proc_wakeup c).
Proof. unfold proc_wakeup. typing. Qed.
Lemma set_cpu_typed p : ensures any (set_cpu_proc p).
Proof. unfold set_cpu_proc. typing. Qed.
Lemma me_typed : ensures any myproc_deref.
Proof. unfold myproc_deref. typing. Qed.

#[export] Hint Resolve wakeup_typed set_cpu_typed me_typed : typed.

Section switch.
  Context {Sw : Switch} {TS : TypedSwitch Sw}.

Lemma sched_typed : ensures any proc_sched.
Proof. unfold proc_sched. typing. Qed.

Local Hint Resolve sched_typed : typed.

Lemma sleep_typed c lk : ensures any (proc_sleep c lk).
Proof. unfold proc_sleep. typing. Qed.
Lemma yield_typed : ensures any proc_yield.
Proof. unfold proc_yield. typing. Qed.
Lemma schedule_one_typed i : ensures any (schedule_one i).
Proof. unfold schedule_one. typing. Qed.

Local Hint Resolve schedule_one_typed : typed.

Lemma round_typed : ensures any scheduler_round.
Proof. unfold scheduler_round. typing. Qed.

Lemma rounds_typed n : ensures any (scheduler_rounds n).
Proof. induction n as [|n IH]; simpl; [typing|]. eapply t_bind; [apply round_typed|done]. Qed.

Lemma scheduler_typed n : ensures any (proc_scheduler n).
Proof. unfold proc_scheduler. eapply t_bind; [eauto with typed|]. intros ? _. apply rounds_typed. Qed.

End switch.

#[export] Hint Resolve sched_typed sleep_typed yield_typed round_typed scheduler_typed : typed.

(** ** User address spaces (Uvm.v) *)

Definition bytes (n : nat) (l : list Z) : Prop := Forall byte_ok l ∧ (length l ≤ n)%nat.

Lemma bytes_nil n : bytes n [].
Proof. split; [constructor|simpl; lia]. Qed.
Lemma bytes_load n m a : mem_typed m → bytes n (load_bytes m a n).
Proof. intros H. split; [by apply load_bytes_typed|by rewrite length_load_bytes]. Qed.
Lemma bytes_app n m k l l' : bytes n l → bytes m l' → (n + m ≤ k)%nat → bytes k (l ++ l').
Proof. intros [H Hl] [H' Hl'] Hk. split; [by apply Forall_app|rewrite length_app; lia]. Qed.

#[export] Hint Resolve bytes_nil bytes_load Forall_take Forall_drop : typed.

Lemma copyin_loop_typed fuel p src len : ensures (bytes (Z.to_nat len)) (copyin_loop fuel p src len).
Proof.
  revert src len. induction fuel as [|fuel IH]; intros src len; simpl; [typing|]. destruct (len =? 0) eqn:E; typing.
  eapply bytes_app; [eauto with typed..|]. pose proof (PG_ROUND_DOWN_range src). zbool. lia.
Qed.

Lemma copyin_typed p src len : ensures (bytes (Z.to_nat len)) (uvm_copyin p src len).
Proof. apply copyin_loop_typed. Qed.

Lemma copyout_loop_typed fuel p dst l : Forall byte_ok l → ensures any (copyout_loop fuel p dst l).
Proof. revert dst l. induction fuel as [|fuel IH]; intros dst l Hl; simpl; typing. Qed.

Lemma copyout_typed p dst l : Forall byte_ok l → ensures any (uvm_copyout p dst l).
Proof. apply copyout_loop_typed. Qed.

#[export] Hint Resolve copyin_typed copyout_typed : typed.

Lemma str_chunk_typed m a n l f : mem_typed m → str_chunk m a n = (l, f) → Forall byte_ok l.
Proof.
  intros Hm. revert a l f. induction n as [|n IH]; intros a l f; simpl; [by intros [= <- _]|].
  pose proof (load8_byte m a Hm). case_match; [intros [= <- _]; constructor; [done|constructor]|].
  destruct (str_chunk m (a + 1) n) as [l' f'] eqn:E. intros [= <- _]. constructor; [done|by eapply IH].
Qed.

Lemma copyin_str_loop_typed fuel p src n : ensures (λ r, Forall byte_ok (fst r)) (copyin_str_loop fuel p src n).
Proof.
  revert src n. induction fuel as [|fuel IH]; intros src n; simpl; [typing; constructor|].
  destruct (n =? 0); [apply t_ret; constructor|]. typing.
  - simpl. eapply str_chunk_typed; [|done]. auto with typed.
  - simpl in *. apply Forall_app. split; [|done]. eapply str_chunk_typed; [|done]. auto with typed.
Qed.

#[export] Hint Resolve copyin_str_loop_typed : typed.

Lemma copyin_str_typed p src n : ensures (Forall byte_ok) (uvm_copyin_str p src n).
Proof. unfold uvm_copyin_str. typing. Qed.

Lemma grow_loop_typed n p b i : ensures any (grow_loop n p b i).
Proof. revert i. induction n as [|n IH]; intros i; simpl; typing. Qed.

#[export] Hint Resolve copyin_str_typed grow_loop_typed : typed.

Lemma heap_grow_typed p h len : ensures w64 (uvm_heap_grow p h len).
Proof. unfold uvm_heap_grow. typing. Qed.
Lemma heap_ungrow_typed p h len : ensures w64 (uvm_heap_ungrow p h len).
Proof. unfold uvm_heap_ungrow. typing. Qed.
Lemma copy_page_typed n va e : ensures any (copy_page n va e).
Proof. unfold copy_page. typing. Qed.

#[export] Hint Resolve heap_grow_typed heap_ungrow_typed copy_page_typed : typed.

Lemma copy_range_loop_typed fuel o n va e : ensures any (copy_range_loop fuel o n va e).
Proof. revert va. induction fuel as [|fuel IH]; intros va; simpl; typing. Qed.
Lemma copy_heap_loop_typed fuel o n va e : ensures any (copy_heap_loop fuel o n va e).
Proof. revert va. induction fuel as [|fuel IH]; intros va; simpl; typing. Qed.

#[export] Hint Resolve copy_range_loop_typed copy_heap_loop_typed : typed.

Lemma copy_range_typed o n b e : ensures any (copy_range o n b e).
Proof. unfold copy_range. typing. Qed.

#[export] Hint Resolve copy_range_typed : typed.

Lemma copy_mmap_loop_typed fuel o n t : ensures any (copy_mmap_loop fuel o n t).
Proof. revert t. induction fuel as [|fuel IH]; intros [t|]; simpl; typing. Qed.

#[export] Hint Resolve copy_mmap_loop_typed : typed.

Lemma copy_pgtbl_typed o n h b k m : ensures any (uvm_copy_pgtbl o n h b k m).
Proof. unfold uvm_copy_pgtbl. typing. Qed.

Lemma destroy_typed l p : ensures any (destroy_pgtbl l p).
Proof. revert p. induction l as [|l IH]; intros p; cbn [destroy_pgtbl]; typing. Qed.

Lemma drop_entry_typed p va : ensures any (drop_entry p va).
Proof. unfold drop_entry. typing. Qed.

#[export] Hint Resolve copy_pgtbl_typed destroy_typed drop_entry_typed : typed.

Lemma uvm_destroy_typed p : ensures any (uvm_destroy_pgtbl p).
Proof. unfold uvm_destroy_pgtbl. typing. Qed.
Lemma current_typed m : ensures any (current_proc m).
Proof. unfold current_proc. typing. Qed.
Lemma mmap_pages_typed n p b i perm : ensures any (mmap_pages_loop n p b i perm).
Proof. revert i. induction n as [|n IH]; intros i; simpl; typing. Qed.

#[export] Hint Resolve uvm_destroy_typed current_typed mmap_pages_typed : typed.

Lemma uvm_mmap_typed b n perm : w64 b → w32 n → ensures any (uvm_mmap b n perm).
Proof. intros Hb Hn. unfold uvm_mmap. typing. Qed.

Lemma put_link_typed i p v : ensures any (put_link i p v).
Proof. destruct p; simpl; typing. Qed.
Lemma get_link_typed i p : ensures any (get_link i p).
Proof. destruct p; simpl; typing. Qed.

#[export] Hint Resolve uvm_mmap_typed put_link_typed get_link_typed : typed.

Lemma munmap_loop_typed fuel i b e p c : w64 e → ensures any (munmap_loop fuel i b e p c).
Proof. intros He. revert p c. induction fuel as [|fuel IH]; intros p [c|]; simpl; typing. Qed.

Lemma merge_typed a b k : ensures any (mmap_merge a b k).
Proof. unfold mmap_merge. typing. Qed.

#[export] Hint Resolve munmap_loop_typed merge_typed : typed.

Lemma merge_loop_typed fuel c : ensures any (merge_loop fuel c).
Proof. revert c. induction fuel as [|fuel IH]; intros [c|]; simpl; typing. Qed.

#[export] Hint Resolve merge_loop_typed : typed.

Lemma uvm_munmap_typed b n : ensures any (uvm_munmap b n).
Proof. unfold uvm_munmap. typing. Qed.

#[export] Hint Resolve uvm_munmap_typed : typed.

(** ** Processes (Proc.v) *)

Lemma alloc_pid_typed : ensures int32 alloc_pid.
Proof. unfold alloc_pid. typing. Qed.
Lemma pgtbl_init_typed t : ensures any (proc_pgtbl_init t).
Proof. unfold proc_pgtbl_init. typing. Qed.
Lemma proc_free_typed i : ensures any (proc_free i).
Proof. unfold proc_free. typing. Qed.

#[export] Hint Resolve alloc_pid_typed pgtbl_init_typed proc_free_typed : typed.

Lemma find_unused_typed : ensures any proc_find_unused.
Proof. apply t_for_return; [done|]. intros i _. typing. Qed.
Lemma alloc_fail_typed i : ensures any (proc_alloc_fail i).
Proof. unfold proc_alloc_fail. typing. Qed.

#[export] Hint Resolve find_unused_typed alloc_fail_typed : typed.

Lemma proc_alloc_typed : ensures any proc_alloc.
Proof. unfold proc_alloc. typing. Qed.
Lemma proc_init_typed : ensures any proc_init.
Proof. unfold proc_init. typing. Qed.

#[export] Hint Resolve proc_alloc_typed proc_init_typed : typed.

Lemma set_ctx_ra_typed v p : proc_typed p → proc_typed (set_ctx_ra v p).
Proof. by intros []. Qed.

#[export] Hint Resolve set_ctx_ra_typed : typed.

Lemma make_first_typed code a : Forall byte_ok code → ensures any (make_first_proc code a).
Proof. intros Hc. unfold make_first_proc. typing. Qed.

Lemma fork_mmap_typed fuel r h t : ensures any (fork_mmap_loop fuel r h t).
Proof. revert r h t. induction fuel as [|fuel IH]; intros [r|] h t; simpl; typing. Qed.

#[export] Hint Resolve make_first_typed fork_mmap_typed : typed.

Lemma fork_typed : ensures int32 proc_fork.
Proof. unfold proc_fork. typing. Qed.
Lemma wait_scan_typed l me p a k : ensures (λ r, ∀ n, fst r = Some n → int32 n) (wait_scan l me p a k).
Proof. revert k. induction l as [|i l IH]; intros k; cbn [wait_scan]; typing. { done. } simpl. intros n [= <-]. eauto with typed. Qed.
Lemma reparent_one_typed me i : ensures any (reparent_one me i).
Proof. unfold reparent_one. typing. Qed.

#[export] Hint Resolve fork_typed wait_scan_typed reparent_one_typed : typed.

Lemma reparent_typed me : ensures any (proc_reparent me).
Proof. unfold proc_reparent. typing. Qed.

#[export] Hint Resolve reparent_typed : typed.

Section life.
  Context {Sw : Switch} {TS : TypedSwitch Sw}.

Lemma wait_loop_typed n me a : ensures int32 (wait_loop n me a).
Proof. induction n as [|n IH]; cbn [wait_loop]; typing. Qed.

Local Hint Resolve wait_loop_typed : typed.

Lemma wait_typed n a : ensures int32 (proc_wait n a).
Proof. unfold proc_wait. typing. Qed.
Lemma exit_typed c : int32 c → ensures any (proc_exit c).
Proof. intros Hc. unfold proc_exit. typing. Qed.
Lemma first_typed code a n : Forall byte_ok code → ensures any (proc_make_first code a n).
Proof. intros Hc. unfold proc_make_first. typing. Qed.

End life.

#[export] Hint Resolve wait_typed exit_typed first_typed : typed.
