(* ===== verification/FsTypes.v ===== *)
(** * The types of the file system's data

    The judgement of Types.v for the disk driver, buffers, bitmaps, inodes, directories, paths
    and open files: whatever the disk holds and whatever numbers its blocks contain, the code
    keeps every block at its length, every inode, buffer and file at the widths of its fields. *)

From S2P Require Import Prelude Bytes Kernel Lock Str Pmem Vm Sched Virtio Buf Bitmap MmapPool Uvm Inode Dir File Proc Syscall SysFile Types.

(** ** Buffers *)

Lemma get_buf_typed i : ensures buf_typed (get_buf i).
Proof.
  unfold get_buf. typing. unfold any in *. match goal with H : _ !! _ = Some _ |- _ => apply (array_lookup _ _ _ _ _ (ty_bufs _ ltac:(done)) H) end.
Qed.

Lemma upd_buf_typed i f : (∀ b, buf_typed b → buf_typed (f b)) → ensures any (upd_buf i f).
Proof. intros Hf. apply t_modify. intros s Hs. apply typed_bufs; [|done]. apply array_alter; [|auto with typed]. intros n. apply Hf. Qed.

Lemma set_disk_typed d b : buf_typed b → buf_typed (buf_set_disk d b).
Proof. by intros []. Qed.
Lemma set_block_typed n b : buf_typed b → buf_typed (buf_set_block n b).
Proof. by intros []. Qed.
Lemma set_buf_ref_typed r b : w32 r → buf_typed b → buf_typed (buf_set_ref r b).
Proof. intros H []. by split. Qed.
Lemma set_data_typed l b : block_ok l → buf_typed b → buf_typed (buf_set_data l b).
Proof. intros H []. by split. Qed.

#[export] Hint Resolve get_buf_typed upd_buf_typed set_disk_typed set_block_typed set_buf_ref_typed set_data_typed bt_data bt_ref : typed.

(** Writing inside a block. *)
Lemma block_splice off l d : Forall byte_ok l → (off + length l ≤ Z.to_nat BLOCK_SIZE)%nat → block_ok d → block_ok (splice off l d).
Proof.
  intros Hl Ho [Hd Hb]. split; [rewrite length_splice; [done|lia]|]. unfold splice. repeat apply Forall_app_2; [by apply Forall_take|done|by apply Forall_drop].
Qed.

Lemma block_insert k v d : byte_ok v → block_ok d → block_ok (<[k := v]> d).
Proof. intros Hv [Hd Hb]. split; [by rewrite length_insert|by apply Forall_insert]. Qed.

Lemma slice_bytes off n d : Forall byte_ok d → Forall byte_ok (slice off n d).
Proof. intros H. by apply Forall_take, Forall_drop. Qed.

Lemma length_slice_le off n (d : list Z) : (length (slice off n d) ≤ n)%nat.
Proof. unfold slice. rewrite length_take. lia. Qed.

Lemma bytes_slice off n d : Forall byte_ok d → bytes n (slice off n d).
Proof. intros H. split; [by apply slice_bytes|apply length_slice_le]. Qed.

Lemma slice_val off n d : Forall byte_ok d → 0 ≤ le_val (slice off n d) < 2^(8 * Z.of_nat n).
Proof. intros H. apply le_val_width; [by apply slice_bytes|apply length_slice_le]. Qed.

Lemma w16_slice off d : Forall byte_ok d → w16 (le_val (slice off 2 d)).
Proof. apply slice_val. Qed.
Lemma w32_slice off d : Forall byte_ok d → w32 (le_val (slice off 4 d)).
Proof. apply slice_val. Qed.
Lemma block_bytes d : block_ok d → Forall byte_ok d.
Proof. by intros []. Qed.

#[export] Hint Resolve block_insert slice_bytes bytes_slice w16_slice w32_slice block_bytes : typed.

(** ** The disk driver (Virtio.v) *)

Lemma vd_desc_typed f v : (∀ l, length (f l) = length l) → vdisk_typed v → vdisk_typed (vd_set_desc f v).
Proof. intros Hf []. split; simpl; rewrite ?Hf; done. Qed.
Lemma vd_free_typed f v : (∀ l, length (f l) = length l) → vdisk_typed v → vdisk_typed (vd_set_free f v).
Proof. intros Hf []. split; simpl; rewrite ?Hf; done. Qed.
Lemma vd_info_typed f v : (∀ l, length (f l) = length l) → vdisk_typed v → vdisk_typed (vd_set_info f v).
Proof. intros Hf []. split; simpl; rewrite ?Hf; done. Qed.
Lemma vd_avail_typed i l v : w16 i → length l = NUM → vdisk_typed v → vdisk_typed (vd_set_avail i l v).
Proof. intros Hi Hl [????? (?&?&?)]. by split. Qed.
Lemma vd_used_typed i l v : w16 i → length l = NUM → vdisk_typed v → vdisk_typed (vd_set_used_ring i l v).
Proof. intros Hi Hl [????? (?&?&?)]. by split. Qed.
Lemma vd_used_idx_typed i v : w16 i → vdisk_typed v → vdisk_typed (vd_set_used_idx i v).
Proof. intros Hi [????? (?&?&?)]. by split. Qed.

Lemma upd_vdisk_typed f : (∀ v, vdisk_typed v → vdisk_typed (f v)) → ensures any (upd_vdisk f).
Proof. intros Hf. apply t_modify. intros s Hs. apply typed_vdisk; [|done]. apply Hf. auto with typed. Qed.

#[export] Hint Resolve upd_vdisk_typed vd_desc_typed vd_free_typed vd_info_typed vd_avail_typed vd_used_typed vd_used_idx_typed
  length_insert length_alter vt_avail vt_used : typed.
#[export] Hint Extern 1 (∀ _ : list _, length (_ _) = length _) => intros ?; first [apply length_insert | apply length_alter] : typed.

Lemma avail_push_typed v : vdisk_typed v → vdisk_typed (vd_set_avail (u16 (vd_avail_idx v + 1)) (vd_avail v) v).
Proof. intros H. auto with typed. Qed.
Lemma avail_slot_typed k x v : vdisk_typed v → vdisk_typed (vd_set_avail (vd_avail_idx v) (<[k := x]> (vd_avail v)) v).
Proof. intros H. apply vd_avail_typed; [apply H|rewrite length_insert; apply H|done]. Qed.

#[export] Hint Resolve avail_push_typed avail_slot_typed : typed.

Lemma alloc_desc_typed : ensures any alloc_desc.
Proof. apply t_for_return; [done|]. intros i _. typing. Qed.
Lemma free_desc_typed i : ensures any (free_desc i).
Proof. unfold free_desc. typing. Qed.

#[export] Hint Resolve alloc_desc_typed free_desc_typed : typed.

Lemma free_chain_loop_typed fuel i : ensures any (free_chain_loop fuel i).
Proof. revert i. induction fuel as [|fuel IH]; intros i; simpl; typing. Qed.
Lemma alloc3_typed : ensures any alloc3_desc.
Proof. unfold alloc3_desc. typing. Qed.
Lemma set_desc_typed i d : ensures any (set_desc i d).
Proof. unfold set_desc. typing. Qed.
Lemma disk_intr_loop_typed fuel : ensures any (disk_intr_loop fuel).
Proof. induction fuel as [|fuel IH]; simpl; typing. Qed.

#[export] Hint Resolve free_chain_loop_typed alloc3_typed set_desc_typed disk_intr_loop_typed : typed.

Lemma free_chain_typed i : ensures any (free_chain i).
Proof. apply free_chain_loop_typed. Qed.
Lemma disk_intr_typed : ensures any virtio_disk_intr.
Proof. unfold virtio_disk_intr. typing. Qed.

#[export] Hint Resolve free_chain_typed disk_intr_typed : typed.

Section driver.
  Context {Sw : Switch} {TS : TypedSwitch Sw} {St : Stack}.

Lemma wait_desc_typed fuel : ensures any (wait_desc fuel).
Proof. induction fuel as [|fuel IH]; simpl; typing. Qed.
Lemma wait_done_typed fuel i : ensures any (wait_done fuel i).
Proof. induction fuel as [|fuel IH]; simpl; typing. Qed.

Local Hint Resolve wait_desc_typed wait_done_typed : typed.

Lemma virtio_rw_typed i w : ensures any (virtio_disk_rw i w).
Proof. unfold virtio_disk_rw. typing. Qed.

End driver.

Lemma virtio_init_typed reg pages : ensures any (virtio_disk_init reg pages).
Proof.
  unfold virtio_disk_init. typing.
  - apply upd_vdisk_typed. intros v [????? (?&?&?)]. by split.
  - apply upd_vdisk_typed. intros v [????? (?&?&?)]. by split.
Qed.

#[export] Hint Resolve virtio_init_typed : typed.

(** What the file system needs of the disk below it. *)
Class TypedDisk (B : BlockDevice) := {
  disk_rw_typed i w : ensures any (@disk_rw B i w) }.

#[export] Hint Resolve disk_rw_typed : typed.

(** The driver of Virtio.v has it over every device that keeps the types. *)
Section virtio.
  Context {D : Device} {St : Stack} (HD : ensures any device).

Lemma disk_switch_typed : TypedSwitch disk_switch.
Proof. split; [|intros i; by apply t_ret]. intros i. simpl. unfold disk_turn. typing. Qed.

Lemma virtio_typed : TypedDisk virtio_block_device.
Proof. split. intros i w. apply (@virtio_rw_typed disk_switch disk_switch_typed). Qed.

End virtio.

Lemma transfer_typed w i blk n d s : typed s → buf_typed (bn_buf n) → block_ok d → typed (transfer w i blk n d s).
Proof.
  intros Hs Hn Hd. destruct w; simpl.
  - destruct Hs. split; try done. apply map_Forall_insert_2; [apply Hn|done].
  - apply typed_bufs; [|done]. apply array_insert; [|auto with typed]. by apply set_data_typed.
Qed.

Lemma complete_typed i s : typed s → typed (complete i s).
Proof.
  intros Hs. pose proof (ty_vdisk _ Hs) as Hv. apply typed_vdisk; [|done]. apply vd_used_typed; [auto with typed|rewrite length_insert; apply Hv|]. auto with typed.
Qed.

Lemma qemu_typed : ensures any qemu_serve.
Proof.
  intros s Hs. unfold qemu_serve. repeat case_match; try done; simplify_eq/=; (split; [|done]); [done|]. apply complete_typed, transfer_typed; [done| |].
  - eapply (array_lookup _ (λ n, buf_typed (bn_buf n))); [apply Hs|done].
  - by eapply (ty_disk _ Hs).
Qed.

(** ** The buffer cache (Buf.v) *)

Lemma get_links_typed p : ensures any (get_links p).
Proof. destruct p; simpl; typing. Qed.

Lemma put_links_typed p f : ensures any (put_links p f).
Proof.
  destruct p as [| |i]; simpl; typing. apply t_modify. intros s Hs. apply typed_bufs; [|done]. apply array_insert; [|auto with typed].
  match goal with H : _ !! _ = Some _, Hx : typed _ |- _ => exact (array_lookup _ _ _ _ _ (ty_bufs _ Hx) H) end.
Qed.

#[export] Hint Resolve get_links_typed put_links_typed : typed.

Lemma next_typed p : ensures any (node_next p).
Proof. unfold node_next. typing. Qed.
Lemma prev_typed p : ensures any (node_prev p).
Proof. unfold node_prev. typing. Qed.
Lemma put_next_typed p v : ensures any (put_next p v).
Proof. apply put_links_typed. Qed.
Lemma put_prev_typed p v : ensures any (put_prev p v).
Proof. apply put_links_typed. Qed.

#[export] Hint Resolve next_typed prev_typed put_next_typed put_prev_typed : typed.

Lemma insert_head_typed i h : ensures any (insert_head i h).
Proof. unfold insert_head. typing. Qed.

#[export] Hint Resolve insert_head_typed : typed.

Lemma buf_init_typed : ensures any buf_init.
Proof. unfold buf_init. typing. Qed.
Lemma ring_find_typed fuel f p t : ensures any (ring_find fuel f p t).
Proof. revert p. induction fuel as [|fuel IH]; intros p; simpl; typing. Qed.
Lemma buf_release_typed i : ensures any (buf_release i).
Proof. unfold buf_release. typing. Qed.

#[export] Hint Resolve buf_init_typed ring_find_typed buf_release_typed : typed.

Lemma get_data_typed i k : ensures byte_ok (get_data i k).
Proof.
  unfold get_data. typing. eapply Forall_lookup_1; [|done]. auto with typed.
Qed.

Lemma put_data_typed i k v : byte_ok v → ensures any (put_data i k v).
Proof. intros Hv. unfold put_data. typing. Qed.

#[export] Hint Resolve get_data_typed put_data_typed : typed.

(** ** Bitmaps (Bitmap.v) *)

Lemma byte_u8 x : byte_ok (u8 x).
Proof. apply u8_range. Qed.

#[export] Hint Resolve byte_lor byte_land byte_u8 : typed.

Section disk.
  Context {B : BlockDevice} {TD : TypedDisk B}.

Lemma buf_read_typed b : ensures any (buf_read b).
Proof. unfold buf_read. typing. Qed.
Lemma buf_write_typed i : ensures any (buf_write i).
Proof. unfold buf_write. typing. Qed.

Local Hint Resolve buf_read_typed buf_write_typed : typed.

Lemma search_set_typed b : ensures w32 (bitmap_search_and_set b).
Proof.
  unfold bitmap_search_and_set. eapply t_bind; [known|]. intros i _.
  eapply (t_bind (λ r, ∀ n, r = Some n → w32 n)); [|intros [n|] Hn; typing].
  apply t_for_return; [done|]. intros byte _. apply t_for_return; [done|]. intros sh _. typing; [|done]. intros n [= <-]. auto with typed.
Qed.

Local Hint Resolve search_set_typed : typed.

Lemma unset_typed b n : ensures any (bitmap_unset b n).
Proof. unfold bitmap_unset. typing. Qed.

Local Hint Resolve unset_typed : typed.

Lemma alloc_block_typed : ensures w32 bitmap_alloc_block.
Proof. unfold bitmap_alloc_block. typing. Qed.
Lemma free_block_typed b : ensures any (bitmap_free_block b).
Proof. unfold bitmap_free_block. typing. Qed.
Lemma bitmap_alloc_inode_typed : ensures w16 bitmap_alloc_inode.
Proof. unfold bitmap_alloc_inode. typing. Qed.
Lemma bitmap_free_inode_typed n : ensures any (bitmap_free_inode n).
Proof. unfold bitmap_free_inode. typing. Qed.

End disk.

#[export] Hint Resolve buf_read_typed buf_write_typed alloc_block_typed free_block_typed bitmap_alloc_inode_typed bitmap_free_inode_typed : typed.

(** ** Inodes (Inode.v) *)

Lemma get_inode_typed i : ensures inode_typed (get_inode i).
Proof. unfold get_inode. typing. eapply (array_lookup N_INODE); [|done]. auto with typed. Qed.

Lemma upd_inode_typed i f : (∀ x, inode_typed x → inode_typed (f x)) → ensures any (upd_inode i f).
Proof. intros Hf. apply t_modify. intros s Hs. apply typed_icache; [|done]. apply array_alter; [done|auto with typed]. Qed.

Lemma i_meta_typed ty ma mi nl x : w16 ty → w16 ma → w16 mi → w16 nl → inode_typed x → inode_typed (i_set_meta ty ma mi nl x).
Proof. intros ???? []. by split. Qed.
Lemma i_type_typed v x : w16 v → inode_typed x → inode_typed (i_set_type v x).
Proof. intros H []. by split. Qed.
Lemma i_nlink_typed v x : w16 v → inode_typed x → inode_typed (i_set_nlink v x).
Proof. intros H []. by split. Qed.
Lemma i_size_typed v x : w32 v → inode_typed x → inode_typed (i_set_size v x).
Proof. intros H []. by split. Qed.
Lemma i_addrs_typed v x : array N_ADDRS w32 v → inode_typed x → inode_typed (i_set_addrs v x).
Proof. intros H []. by split. Qed.
Lemma i_num_typed v x : w16 v → inode_typed x → inode_typed (i_set_num v x).
Proof. intros H []. by split. Qed.
Lemma i_ref_typed v x : w32 v → inode_typed x → inode_typed (i_set_ref v x).
Proof. intros H []. by split. Qed.
Lemma i_valid_typed v x : inode_typed x → inode_typed (i_set_valid v x).
Proof. by intros []. Qed.

Lemma load_inode_typed l x : Forall byte_ok l → inode_typed x → inode_typed (load_inode l x).
Proof.
  intros Hl []. split; simpl; auto with typed. split; [done|]. repeat constructor; by apply w32_slice.
Qed.

#[export] Hint Resolve get_inode_typed upd_inode_typed i_meta_typed i_type_typed i_nlink_typed i_size_typed i_addrs_typed i_num_typed
  i_ref_typed i_valid_typed load_inode_typed it_type it_major it_minor it_nlink it_size it_addrs it_num it_ref
  array_insert array_replicate : typed.

Lemma inode_init_typed : ensures any inode_init.
Proof. unfold inode_init. typing. Qed.

Lemma icache_scan_typed l n e : ensures any (icache_scan l n e).
Proof. revert e. induction l as [|i l IH]; intros e; simpl; typing. Qed.

#[export] Hint Resolve inode_init_typed icache_scan_typed : typed.

Lemma inode_alloc_typed n : w16 n → ensures any (inode_alloc n).
Proof. intros Hn. unfold inode_alloc. typing. Qed.

#[export] Hint Resolve inode_alloc_typed : typed.

(** An entry that can be written: one of the inode, or of a block. *)
Inductive entry_typed : entry_ptr → Prop :=
  | TInode i k : entry_typed (EInode i k)
  | TBuf b k : Z.of_nat k < ENTRY_PER_BLOCK → entry_typed (EBuf b k).

Lemma get_entry_typed e : ensures w32 (get_entry e).
Proof.
  destruct e as [i k|b k]; simpl; typing. eapply array_lookup; [|done]. eauto with typed.
Qed.

Lemma put_entry_typed e v : entry_typed e → w32 v → ensures any (put_entry e v).
Proof.
  intros He Hv. destruct He as [i k|b k Hk]; cbn [put_entry]; [typing|]. apply upd_buf_typed. intros x Hx. apply set_data_typed; [|done].
  apply block_splice; [apply le_bytes_ok| |apply Hx]. rewrite length_le_bytes. change ENTRY_PER_BLOCK with 256 in Hk. unfold BLOCK_SIZE. lia.
Qed.

#[export] Hint Resolve get_entry_typed put_entry_typed : typed.

Lemma my_pgtbl_typed : ensures any my_pgtbl.
Proof. unfold my_pgtbl. typing. Qed.

#[export] Hint Resolve my_pgtbl_typed : typed.

Lemma deliver_typed dst total l : Forall byte_ok l → ensures (Forall byte_ok) (deliver dst total l).
Proof. intros Hl. destruct dst; simpl; typing; apply Forall_nil_2. Qed.

Definition source_typed (src : source) : Prop := match src with SrcUser _ => True | SrcBytes l => Forall byte_ok l end.

Lemma fetch_typed src total m : source_typed src → ensures (bytes (Z.to_nat m)) (fetch src total m).
Proof. intros Hs. destruct src; simpl; typing. Qed.

#[export] Hint Resolve deliver_typed fetch_typed : typed.

Section inode.
  Context {B : BlockDevice} {TD : TypedDisk B}.

Lemma inode_rw_typed i w : ensures any (inode_rw i w).
Proof.
  unfold inode_rw. eapply t_bind; [known|]. intros ip Hip. typing. apply upd_buf_typed. intros z Hz. apply set_data_typed; [|done].
  apply block_splice; [apply disk_inode_ok| |apply Hz]. rewrite length_disk_inode by apply Hip.
  change INODE_PER_BLOCK with 16. unfold INODE_DISK_SIZE, BLOCK_SIZE. pose proof (Z.mod_pos_bound (inode_num ip) 16). lia.
Qed.

Local Hint Resolve inode_rw_typed : typed.

Lemma inode_create_typed ty ma mi : w16 ty → w16 ma → w16 mi → ensures any (inode_create ty ma mi).
Proof. intros ???. unfold inode_create. typing. Qed.

Lemma fill_entry_typed e v : entry_typed e → ensures any (if v =? 0 then n ← bitmap_alloc_block; put_entry e n else mret tt).
Proof. intros He. typing. Qed.

(** The sizes the recursion of [locate_block] goes through. *)
Lemma locate_block_typed fuel e bn size :
  entry_typed e → size = 1 ∨ (size = 256 ∨ size = 256 * 256) ∧ 0 ≤ bn < size → ensures w32 (locate_block fuel e bn size).
Proof.
  revert e bn size. induction fuel as [|fuel IH]; intros e bn size He Hs; cbn [locate_block]; [typing|].
  eapply t_bind; [apply get_entry_typed|]. intros v _. eapply t_bind; [by apply fill_entry_typed|]. intros _ _.
  destruct (size =? 1) eqn:E; [apply get_entry_typed|]. cbv zeta.
  eapply t_bind; [apply get_entry_typed|]. intros w _. eapply t_bind; [apply buf_read_typed|]. intros b _. zbool.
  destruct Hs as [?|[Hs Hb]]; [done|]. change ENTRY_PER_BLOCK with 256 in *. eapply t_bind; [apply IH|].
  - constructor. change ENTRY_PER_BLOCK with 256. destruct Hs as [-> | ->].
    + change (256 / 256) with 1. rewrite Z.div_1_r. lia.
    + change (256 * 256 / 256) with 256. zdiv.
  - destruct Hs as [-> | ->]; [by left|]. right. split; [by left|]. by apply Z.mod_pos_bound.
  - intros r Hr. eapply t_bind; [apply buf_release_typed|]. intros _ _. by apply t_ret.
Qed.

Lemma inode_locate_typed i bn : ensures w32 (inode_locate_block i bn).
Proof.
  unfold inode_locate_block. cbv zeta. repeat match goal with |- ensures _ (if ?b then _ else _) => destruct b end; [..|typing].
  - apply locate_block_typed; [constructor|by left].
  - apply locate_block_typed; [constructor|]. right. split; [by left|by apply Z.mod_pos_bound].
  - apply locate_block_typed; [constructor|]. right. split; [by right|by apply Z.mod_pos_bound].
Qed.

Local Hint Resolve inode_create_typed inode_locate_typed : typed.

Lemma read_loop_typed fuel i off len total dst :
  w32 total → ensures (λ r, w32 (fst r) ∧ Forall byte_ok (snd r)) (read_data_loop fuel i off len total dst).
Proof.
  revert off total. induction fuel as [|fuel IH]; intros off total Ht; cbn [read_data_loop]; typing.
  all: match goal with Hr : _ ∧ _ |- _ => destruct Hr; split; [done|by apply Forall_app_2] | _ => split; [done|by apply Forall_nil_2] end.
Qed.

Local Hint Resolve read_loop_typed : typed.

Lemma read_data_typed i off len dst : ensures (λ r, w32 (fst r) ∧ Forall byte_ok (snd r)) (inode_read_data i off len dst).
Proof. unfold inode_read_data. typing. Qed.

(** What is written ends within the block, whatever [len] and [total] are. *)
Lemma chunk_fits offset r :
  let off := offset mod BLOCK_SIZE in let m := if r <? BLOCK_SIZE - off then r else BLOCK_SIZE - off in
  (Z.to_nat off + Z.to_nat m ≤ Z.to_nat BLOCK_SIZE)%nat.
Proof. intros off m. pose proof (Z.mod_pos_bound offset BLOCK_SIZE) as H. fold off in H. unfold m. unfold BLOCK_SIZE in *. destruct (_ <? _) eqn:E; zbool; lia. Qed.

Lemma write_chunk_typed b offset r l :
  let off := offset mod BLOCK_SIZE in let m := if r <? BLOCK_SIZE - off then r else BLOCK_SIZE - off in
  bytes (Z.to_nat m) l → ensures any (upd_buf b (λ x, buf_set_data (splice (Z.to_nat off) l (data x)) x)).
Proof.
  intros off m [Hl Hn]. apply upd_buf_typed. intros x Hx. apply set_data_typed; [|done]. apply block_splice; [done| |apply Hx].
  pose proof (chunk_fits offset r) as H. cbv zeta in H. unfold m, off in *. lia.
Qed.

Lemma write_loop_typed fuel i off len total src :
  source_typed src → w32 off → w32 total → ensures (λ r, w32 (fst r) ∧ w32 (snd r)) (write_data_loop fuel i off len total src).
Proof.
  intros Hs. revert off total. induction fuel as [|fuel IH]; intros off total Ho Ht; cbn [write_data_loop]; [typing|].
  destruct (total <? len); [|typing]. cbv zeta. eapply t_bind; [known|]. intros blk _. eapply t_bind; [known|]. intros b _. eapply t_bind; [known|].
  intros l Hl. eapply t_bind; [by eapply write_chunk_typed|]. intros _ _. typing.
Qed.

Local Hint Resolve write_loop_typed : typed.

Lemma write_data_typed i off len src : source_typed src → w32 off → ensures w32 (inode_write_data i off len src).
Proof.
  intros Hs Ho. unfold inode_write_data. destruct (_ <? _); [typing|]. eapply t_bind; [known|]. intros [t o] [Ht Ho']. simpl in *. typing.
Qed.

Lemma data_free_typed l b : ensures any (data_free l b).
Proof.
  revert b. induction l as [|l IH]; intros b; cbn [data_free]; typing. apply t_for_return; [done|]. intros k _. typing.
Qed.

Lemma free_addr_typed i f k : (∀ a, ensures any (f a)) → ensures any (free_addr i f k).
Proof. intros Hf. unfold free_addr. typing. apply put_entry_typed; [constructor|done]. Qed.

Local Hint Resolve data_free_typed free_addr_typed : typed.

Lemma free_data_typed i : ensures any (inode_free_data i).
Proof. unfold inode_free_data. typing. Qed.

Local Hint Resolve free_data_typed : typed.

Lemma destroy_inode_typed i : ensures any (inode_destroy i).
Proof. unfold inode_destroy. typing. Qed.

Local Hint Resolve destroy_inode_typed : typed.

Lemma inode_free_typed i : ensures any (inode_free i).
Proof. unfold inode_free. typing. Qed.
Lemma inode_lock_typed i : ensures any (inode_lock i).
Proof. unfold inode_lock. typing. Qed.

End inode.

Lemma inode_dup_typed i : ensures any (inode_dup i).
Proof. unfold inode_dup. typing. Qed.
Lemma inode_unlock_typed i : ensures any (inode_unlock i).
Proof. unfold inode_unlock. typing. Qed.

#[export] Hint Resolve inode_rw_typed inode_create_typed read_data_typed write_data_typed inode_free_typed inode_lock_typed
  inode_dup_typed inode_unlock_typed : typed.

(** ** Directories and paths (Dir.v) *)

Lemma byte_lookup l k b : Forall byte_ok l → l !! k = Some b → byte_ok b.
Proof. apply Forall_lookup_1. Qed.

Definition dirent_typed (de : dirent) : Prop := w16 (d_inode_num de) ∧ Forall byte_ok (d_name de).

Lemma de_of_typed l : Forall byte_ok l → dirent_typed (de_of l).
Proof. intros H. split; simpl; [|by apply Forall_drop]. apply (w16_slice 0). done. Qed.

Lemma de_bytes_typed de : Forall byte_ok (d_name de) → Forall byte_ok (de_bytes de).
Proof. intros H. apply Forall_app_2; [apply le_bytes_ok|done]. Qed.

Lemma zero_fill_bytes s n s' : Forall byte_ok s → zero_fill s n = Some s' → Forall byte_ok s'.
Proof.
  intros H. revert n s'. induction H as [|b s Hb Hs IH]; intros [|n] s' E; cbn in E; [by injection E as <-|done|injection E as <-; by constructor|].
  destruct (zero_fill s n) as [r|] eqn:Er; cbn in E; [|done]. injection E as <-. constructor; [done|by eapply IH].
Qed.

Lemma strncpy_bytes s t n s' : Forall byte_ok s → Forall byte_ok t → strncpy s t n = Some s' → Forall byte_ok s'.
Proof.
  revert s t s'. induction n as [|n IH]; intros s t s' Hs Ht E; [destruct s; by injection E as <-|].
  destruct Hs as [|a s _ Hs]; [done|]. destruct Ht as [|b t Hb Ht]; [done|]. cbn in E. destruct (b =? 0).
  - destruct (zero_fill s n) as [r|] eqn:Er; cbn in E; [|done]. injection E as <-. constructor; [done|exact (zero_fill_bytes s n r Hs Er)].
  - destruct (strncpy s t n) as [r|] eqn:Er; cbn in E; [|done]. injection E as <-. constructor; [done|exact (IH s t r Hs Ht Er)].
Qed.

Lemma dirent_name_bytes old name r : Forall byte_ok old → Forall byte_ok name → dirent_name old name = Some r → Forall byte_ok r.
Proof.
  intros Ho Hn. unfold dirent_name. destruct (strncpy old name _) as [l|] eqn:E; intros [= <-]. apply Forall_insert; [exact (strncpy_bytes _ _ _ _ Ho Hn E)|done].
Qed.

Lemma bytes_of_typed s : Forall byte_ok (bytes_of s).
Proof. unfold bytes_of. apply Forall_fmap, Forall_forall. intros c _. simpl. unfold byte_ok. pose proof (Ascii.N_ascii_bounded c). lia. Qed.

Lemma zero_bytes n : Forall byte_ok (replicate n 0).
Proof. by apply Forall_replicate. Qed.

Lemma name_bytes n l : Forall byte_ok l → Forall byte_ok (d_name (mk_dirent n l)).
Proof. done. Qed.

Lemma local_name_bytes : Forall byte_ok local_name.
Proof. apply zero_bytes. Qed.

#[export] Hint Resolve local_name_bytes name_bytes de_of_typed de_bytes_typed bytes_of_typed zero_bytes : typed.

Section dir.
  Context {B : BlockDevice} {TD : TypedDisk B}.

Lemma unlock_free_typed i : ensures any (inode_unlock_free i).
Proof. unfold inode_unlock_free. typing. Qed.
Lemma dir_check_typed i w : ensures any (dir_check i w).
Proof. unfold dir_check. typing. Qed.

Lemma read_dirent_typed i o : ensures (λ r, dirent_typed (snd r)) (read_dirent i o).
Proof. unfold read_dirent. typing. simpl. apply de_of_typed. naive_solver. Qed.

Lemma write_dirent_typed i o de : w32 o → Forall byte_ok (d_name de) → ensures w32 (write_dirent i o de).
Proof. intros Ho Hd. unfold write_dirent. apply write_data_typed; [by apply de_bytes_typed|done]. Qed.

Lemma de_matches_typed n de : ensures any (de_matches n de).
Proof. unfold de_matches. typing. Qed.

Local Hint Resolve unlock_free_typed dir_check_typed read_dirent_typed write_dirent_typed de_matches_typed : typed.

Lemma search_loop_typed0 fuel i n o : ensures w16 (dir_search_loop fuel i n o).
Proof. revert o. induction fuel as [|fuel IH]; intros o; cbn [dir_search_loop]; typing. match goal with H : dirent_typed _ |- _ => apply H end. Qed.

Lemma dir_search_typed i n : ensures w16 (dir_search_entry i n).
Proof. unfold dir_search_entry. eapply t_bind; [known|]. intros _ _. eapply t_bind; [known|]. intros ip _. apply search_loop_typed0. Qed.

Lemma slot_loop_typed fuel i o : w32 o → ensures w32 (dir_slot_loop fuel i o).
Proof. revert o. induction fuel as [|fuel IH]; intros o Ho; cbn [dir_slot_loop]; typing. Qed.

Local Hint Resolve dir_search_typed slot_loop_typed : typed.

Lemma dir_add_typed i n name : Forall byte_ok name → ensures any (dir_add_entry i n name).
Proof.
  intros Hn. unfold dir_add_entry. typing. match goal with H : dirent_name _ _ = Some _ |- _ => apply dirent_name_bytes in H; [|auto with typed..] end. typing.
Qed.

Lemma delete_loop_typed fuel i n o : w32 o → ensures w16 (dir_delete_loop fuel i n o).
Proof.
  revert o. induction fuel as [|fuel IH]; intros o Ho; cbn [dir_delete_loop]; typing. match goal with H : dirent_typed _ |- _ => apply H end.
Qed.

Local Hint Resolve dir_add_typed delete_loop_typed : typed.

Lemma dir_delete_typed i n : ensures w16 (dir_delete_entry i n).
Proof. unfold dir_delete_entry. typing. Qed.

Lemma get_loop_typed fuel i o t len dst : ensures any (dir_get_loop fuel i o t len dst).
Proof.
  revert o t. induction fuel as [|fuel IH]; intros o t; cbn [dir_get_loop]; typing.
  eapply t_any, deliver_typed, de_bytes_typed. match goal with H : dirent_typed _ |- _ => apply H end.
Qed.

Local Hint Resolve dir_delete_typed get_loop_typed : typed.

Lemma get_entries_typed i len dst : ensures any (dir_get_entries i len dst).
Proof. unfold dir_get_entries. typing. Qed.
Lemma dir_print_typed i : ensures any (dir_print i).
Proof. unfold dir_print. typing. Qed.

Local Hint Resolve get_entries_typed : typed.

Lemma skip_slashes_bytes p q : Forall byte_ok p → skip_slashes p = Some q → Forall byte_ok q.
Proof.
  intros Hp. induction Hp as [|c p Hc Hp IH]; intros E; cbn in E; [done|]. destruct (c =? SLASH); [by apply IH|]. injection E as <-. by constructor.
Qed.

Lemma path_element_bytes p e q : Forall byte_ok p → path_element p = Some (e, q) → Forall byte_ok e ∧ Forall byte_ok q.
Proof.
  intros Hp. revert e. induction Hp as [|c p Hc Hp IH]; intros e E; cbn in E; [done|]. destruct ((c =? SLASH) || (c =? 0)).
  - injection E as <- <-. split; [constructor|by constructor].
  - destruct (path_element p) as [[e' q']|] eqn:Er; cbn in E; [|done]. injection E as <- <-. destruct (IH e' eq_refl). split; [by constructor|done].
Qed.

Lemma splice_bytes off l d : Forall byte_ok l → Forall byte_ok d → Forall byte_ok (splice off l d).
Proof. intros Hl Hd. unfold splice. repeat apply Forall_app_2; [by apply Forall_take|done|by apply Forall_drop]. Qed.

Lemma skip_element_bytes p nm q nm' :
  Forall byte_ok p → Forall byte_ok nm → skip_element p nm = Some (Some (q, nm')) → Forall byte_ok q ∧ Forall byte_ok nm'.
Proof.
  intros Hp Hn. unfold skip_element. destruct (skip_slashes p) as [p1|] eqn:E1; cbn; [|done]. case_match; [done|].
  destruct (path_element p1) as [[e r]|] eqn:E2; cbn; [|done]. destruct (skip_slashes r) as [r'|] eqn:E3; cbn; [|done]. intros [= <- <-].
  pose proof (skip_slashes_bytes p p1 Hp E1) as H1. destruct (path_element_bytes p1 e r H1 E2) as [He Hr].
  split; [exact (skip_slashes_bytes r r' Hr E3)|]. case_match; apply splice_bytes; try done; [by apply Forall_take|]. apply Forall_app_2; [done|]. by constructor.
Qed.

Lemma walk_typed fuel i p nm f : Forall byte_ok p → Forall byte_ok nm → ensures (λ r, Forall byte_ok (snd r)) (search_loop fuel i p nm f).
Proof.
  revert i p nm. induction fuel as [|fuel IH]; intros i p nm Hp Hn; cbn [search_loop].
  - eapply t_bind; [apply t_some|]. intros [[q nm']|] E; typing.
  - eapply t_bind; [apply t_some|]. intros [[q nm']|] E; [|typing]. apply skip_element_bytes in E as [Hq Hn']; [|done..]. typing.
Qed.

Local Hint Resolve walk_typed : typed.

Lemma search_inode_typed p nm f : Forall byte_ok p → Forall byte_ok nm → ensures (λ r, Forall byte_ok (snd r)) (search_inode p nm f).
Proof. intros Hp Hn. unfold search_inode. typing. Qed.

Local Hint Resolve search_inode_typed : typed.

Lemma path_inode_typed p : Forall byte_ok p → ensures any (path_to_inode p).
Proof. intros Hp. unfold path_to_inode. typing. Qed.
Lemma path_pinode_typed p nm : Forall byte_ok p → Forall byte_ok nm → ensures (λ r, Forall byte_ok (snd r)) (path_to_pinode p nm).
Proof. intros Hp Hn. unfold path_to_pinode. typing. Qed.
Lemma add_nlink_typed i n : ensures any (add_nlink i n).
Proof. unfold add_nlink. typing. Qed.

Local Hint Resolve path_inode_typed path_pinode_typed add_nlink_typed : typed.

Lemma dir_change_typed p : Forall byte_ok p → ensures any (dir_change p).
Proof. intros Hp. unfold dir_change. typing. apply upd_proc_typed. by intros ? []. Qed.

Lemma path_create_typed p ty ma mi : Forall byte_ok p → w16 ty → w16 ma → w16 mi → ensures any (path_create_inode p ty ma mi).
Proof. intros Hp Hty Hma Hmi. unfold path_create_inode. typing. Qed.

Lemma link_bad_typed i : ensures any (link_bad i).
Proof. unfold link_bad. typing. Qed.

Local Hint Resolve link_bad_typed : typed.

Lemma path_link_typed p q : Forall byte_ok p → Forall byte_ok q → ensures any (path_link p q).
Proof. intros Hp Hq. unfold path_link. typing. Qed.
Lemma check_unlink_typed i : ensures any (check_unlink i).
Proof. unfold check_unlink. typing. Qed.

Local Hint Resolve check_unlink_typed : typed.

Lemma path_unlink_typed p : Forall byte_ok p → ensures any (path_unlink p).
Proof. intros Hp. unfold path_unlink. typing. Qed.

End dir.

#[export] Hint Resolve unlock_free_typed dir_search_typed dir_add_typed dir_delete_typed get_entries_typed dir_print_typed path_inode_typed
  dir_change_typed path_create_typed path_link_typed path_unlink_typed : typed.

(** ** Open files (File.v) *)

Lemma get_file_typed f : ensures file_typed (get_file f).
Proof. unfold get_file. typing. eapply (array_lookup N_FILE); [|done]. auto with typed. Qed.

Lemma upd_file_typed f g : (∀ x, file_typed x → file_typed (g x)) → ensures any (upd_file f g).
Proof. intros Hg. apply t_modify. intros s Hs. apply typed_ftable; [|done]. apply array_alter; [done|auto with typed]. Qed.

Lemma f_type_typed v x : file_typed x → file_typed (f_set_type v x).
Proof. by intros []. Qed.
Lemma f_open_typed r w i x : file_typed x → file_typed (f_set_open r w i x).
Proof. by intros []. Qed.
Lemma f_ref_typed v x : w32 v → file_typed x → file_typed (f_set_ref v x).
Proof. intros H []. by split. Qed.
Lemma f_major_typed v x : w16 v → file_typed x → file_typed (f_set_major v x).
Proof. intros H []. by split. Qed.
Lemma f_offset_typed v x : w32 v → file_typed x → file_typed (f_set_offset v x).
Proof. intros H []. by split. Qed.

#[export] Hint Resolve get_file_typed upd_file_typed f_type_typed f_open_typed f_ref_typed f_major_typed f_offset_typed
  ft_ref ft_major ft_offset : typed.

Lemma file_init_typed : ensures any file_init.
Proof. unfold file_init. typing. apply t_modify. intros s Hs. apply typed_devlist; [|done]. rewrite length_insert. apply Hs. Qed.
Lemma file_alloc_typed : ensures any file_alloc.
Proof. unfold file_alloc. typing. apply t_for_return; [done|]. intros i _. typing. Qed.
Lemma file_dup_typed f : ensures any (file_dup f).
Proof. unfold file_dup. typing. Qed.

#[export] Hint Resolve file_init_typed file_alloc_typed file_dup_typed : typed.

(** The read and write functions of character devices. *)
Class TypedFunctions (rd : nat → Z → dest → K Z) (wr : nat → Z → source → K Z) := {
  dev_read_typed k len dst : ensures any (rd k len dst);
  dev_write_typed k len src : source_typed src → ensures any (wr k len src) }.

Section file.
  Context {B : BlockDevice} {TD : TypedDisk B}.

Lemma create_dev_typed p ma mi : Forall byte_ok p → w16 ma → w16 mi → ensures any (file_create_dev p ma mi).
Proof. intros Hp Hma Hmi. unfold file_create_dev. typing. Qed.
Lemma file_open_typed p mode : Forall byte_ok p → ensures any (file_open p mode).
Proof. intros Hp. unfold file_open. typing. Qed.
Lemma file_close_typed f : ensures any (file_close f).
Proof. unfold file_close. typing. Qed.

(** The target of a seek, before it is compared with the size. *)
Lemma seek_target_typed k o old v : w32 o → w32 old →
  (if k =? LSEEK_SET then Some o else if k =? LSEEK_ADD then Some (u32 (old + o))
   else if k =? LSEEK_SUB then Some (if old <? o then 0 else old - o) else None) = Some v → w32 v.
Proof.
  intros Ho Hf. repeat case_match; intros [= <-]; try done; [apply w32_u32|]. zbool. unfold w32 in *. lia.
Qed.

Lemma file_lseek_typed f o k : w32 o → ensures any (file_lseek f o k).
Proof.
  intros Ho. unfold file_lseek. eapply t_bind; [known|]. intros x _. destruct (negb _); [typing|]. eapply t_bind; [apply t_some|]. intros i _.
  eapply t_bind; [known|]. intros _ _. eapply t_bind; [known|]. intros y Hy. cbv zeta.
  pose proof (λ v, seek_target_typed k o (f_offset y) v Ho (ft_offset _ Hy)) as Hv.
  match type of Hv with ∀ v, ?t = _ → _ => destruct t as [v|] end; [|typing]. specialize (Hv v eq_refl). typing.
Qed.

Section devices.
  Context (rd : nat → Z → dest → K Z) (wr : nat → Z → source → K Z) {TF : TypedFunctions rd wr}.

Lemma file_read_typed f len dst : ensures any (file_read rd f len dst).
Proof. unfold file_read. typing. eapply dev_read_typed. Qed.
Lemma file_write_typed f len src : source_typed src → ensures any (file_write wr f len src).
Proof. intros Hs. unfold file_write. typing. by eapply dev_write_typed. Qed.

End devices.

Lemma file_stat_typed f a pad : Forall byte_ok pad → ensures any (file_stat f a pad).
Proof.
  intros Hp. unfold file_stat. typing. apply copyout_typed. unfold file_state. repeat apply Forall_app_2; auto with typed.
Qed.

(** ** The start of the file system *)

Lemma sb_print_typed : ensures any sb_print.
Proof. unfold sb_print. typing. Qed.

Local Hint Resolve sb_print_typed : typed.

Lemma fs_init_typed : ensures any fs_init.
Proof. unfold fs_init, fs_setup. typing. Qed.

End file.

#[export] Hint Resolve create_dev_typed file_open_typed file_close_typed file_lseek_typed file_read_typed file_write_typed file_stat_typed fs_init_typed : typed.
