(* ===== verification/KernelTypes.v ===== *)
(** * Type preservation of the kernel

    The judgement of Types.v for system calls, traps and boot, and the theorem it is for: from
    the data segment at power-up no sequence of entries into the kernel leads out of the typed
    states, whatever user programs pass to the calls and whatever the disk holds. *)

From S2P Require Import Prelude Bytes Kernel Lock Str Pmem Vm Sched Virtio Buf Bitmap MmapPool Uvm Inode Dir File Proc Syscall SysFile Print Trap.
From S2P Require Import Types FsTypes.

(** ** Arguments *)

Lemma my_tf_typed : ensures any my_tf.
Proof. unfold my_tf. typing. Qed.

#[export] Hint Resolve my_tf_typed : typed.

Lemma arg_raw_typed n : ensures w64 (arg_raw n).
Proof. unfold arg_raw. typing. Qed.

#[export] Hint Resolve arg_raw_typed : typed.

Lemma arg_uint32_typed n : ensures w32 (arg_uint32 n).
Proof. unfold arg_uint32. typing. Qed.
Lemma arg_uint64_typed n : ensures w64 (arg_uint64 n).
Proof. unfold arg_uint64. typing. Qed.

#[export] Hint Resolve arg_uint32_typed arg_uint64_typed : typed.

Lemma arg_str_typed n len : ensures (Forall byte_ok) (arg_str n len).
Proof. unfold arg_str. typing. Qed.
Lemma my_pid_typed : ensures any my_pid.
Proof. unfold my_pid. typing. Qed.

#[export] Hint Resolve arg_str_typed my_pid_typed : typed.

(** ** Memory and processes *)

Lemma heap_top_typed v p : w64 v → proc_typed p → proc_typed (set_heap_top v p).
Proof. intros H []. by split. Qed.
Lemma w32_pages n : w32 n → w32 (n / PGSIZE).
Proof. intros H. by apply w32_div. Qed.

#[export] Hint Resolve heap_top_typed w32_pages : typed.

Lemma sys_brk_typed : ensures any sys_brk.
Proof. unfold sys_brk. typing. Qed.
Lemma sys_mmap_typed : ensures any sys_mmap.
Proof. unfold sys_mmap. typing. Qed.
Lemma sys_munmap_typed : ensures any sys_munmap.
Proof. unfold sys_munmap. typing. Qed.
Lemma sys_print_typed : ensures any sys_print.
Proof. unfold sys_print. typing. Qed.
Lemma sys_fork_typed : ensures any sys_fork.
Proof. unfold sys_fork. typing. Qed.

#[export] Hint Resolve sys_brk_typed sys_mmap_typed sys_munmap_typed sys_print_typed sys_fork_typed : typed.

(** ** Exec *)

Lemma segment_pages_typed fuel p va e perm : ensures any (segment_pages fuel p va e perm).
Proof. revert va. induction fuel as [|fuel IH]; intros va; simpl; typing. Qed.
Lemma exec_args_typed n p a i : ensures any (exec_args n p a i).
Proof. revert i. induction n as [|n IH]; intros i; simpl; typing. Qed.
Lemma page_string_typed pa : ensures (Forall byte_ok) (page_string pa).
Proof. unfold page_string. typing. Qed.

#[export] Hint Resolve segment_pages_typed exec_args_typed page_string_typed : typed.

Lemma push_args_typed p b sp l u : ensures any (push_args p b sp l u).
Proof. revert sp u. induction l as [|x l IH]; intros sp u; simpl; typing. Qed.
Lemma stack_pages_typed n p sz i : ensures any (stack_pages n p sz i).
Proof. revert i. induction n as [|n IH]; intros i; simpl; typing. Qed.
Lemma free_args_typed l : ensures any (free_args l).
Proof. unfold free_args. typing. Qed.
Lemma words_bytes l : Forall byte_ok (mjoin (le_bytes 8 <$> l)).
Proof. apply Forall_join, Forall_fmap, Forall_forall. intros k _. apply le_bytes_ok. Qed.

#[export] Hint Resolve push_args_typed stack_pages_typed free_args_typed words_bytes : typed.

Lemma exec_stack_typed p sz l : ensures any (exec_stack p sz l).
Proof. unfold exec_stack. typing. Qed.
Lemma exec_commit_typed me p sz sp e : w64 sz → ensures any (exec_commit me p sz sp e).
Proof. intros H. unfold exec_commit. typing. Qed.

#[export] Hint Resolve exec_stack_typed exec_commit_typed : typed.

Section calls.
  Context {Sw : Switch} {TS : TypedSwitch Sw} {B : BlockDevice} {TD : TypedDisk B}.

Lemma loadseg_loop_typed fuel p va ip o sz i : ensures any (loadseg_loop fuel p va ip o sz i).
Proof. revert i. induction fuel as [|fuel IH]; intros i; cbn [loadseg_loop]; typing. Qed.

Local Hint Resolve loadseg_loop_typed : typed.

Lemma loadseg_typed p va ip o sz : ensures any (loadseg p va ip o sz).
Proof. unfold loadseg. typing. Qed.

Local Hint Resolve loadseg_typed : typed.

Lemma load_segments_typed n i p ip e sz : ensures any (load_segments n i p ip e sz).
Proof. revert i sz. induction n as [|n IH]; intros i sz; cbn [load_segments]; typing. Qed.
Lemma exec_bad_typed p ip l : ensures any (exec_bad p ip l).
Proof. unfold exec_bad. typing. Qed.

Local Hint Resolve load_segments_typed exec_bad_typed : typed.

Lemma sys_exec_typed : ensures any sys_exec.
Proof. unfold sys_exec. typing. Qed.

Lemma sleep_loop_typed n t : ensures any (sleep_loop n t).
Proof. induction n as [|n IH]; simpl; typing. Qed.

Local Hint Resolve sleep_loop_typed : typed.

Lemma sys_wait_typed n : ensures any (sys_wait n).
Proof. unfold sys_wait. typing. Qed.
Lemma sys_exit_typed : ensures any sys_exit.
Proof. unfold sys_exit. typing. Qed.
Lemma sys_sleep_typed n : ensures any (sys_sleep n).
Proof. unfold sys_sleep. typing. Qed.

Local Hint Resolve sys_exec_typed sys_wait_typed sys_exit_typed sys_sleep_typed : typed.

Lemma syscalls_typed n num f : syscalls n num = Some f → ensures any f.
Proof. unfold syscalls. repeat case_match; intros [= <-]; eauto with typed. Qed.

Local Hint Resolve syscalls_typed : typed.

Lemma syscall_typed n : ensures any (syscall n).
Proof.
  unfold syscall. typing. match goal with H : (if ?b then _ else _) = _ |- _ => destruct b; [|done] end. eauto with typed.
Qed.

End calls.

#[export] Hint Resolve syscall_typed : typed.

(** ** File calls *)

Lemma put_fd_typed me fd v : ensures any (put_fd me fd v).
Proof. apply upd_proc_typed. intros p []. split; try done. simpl. by rewrite length_insert. Qed.
Lemma arg_fd_typed n : ensures any (arg_fd n).
Proof. unfold arg_fd. typing. Qed.

#[export] Hint Resolve put_fd_typed arg_fd_typed : typed.

Lemma fd_alloc_typed f : ensures any (fd_alloc f).
Proof. unfold fd_alloc. typing. apply t_for_return; [done|]. intros fd _. typing. Qed.

#[export] Hint Resolve fd_alloc_typed : typed.

(** The file calls, which the table of syscall.c does not list. *)
Inductive file_call :=
  | CallOpen | CallClose | CallRead | CallWrite | CallLseek | CallDup | CallFstat (pad : list Z) | CallGetdir | CallMkdir
  | CallChdir | CallLink | CallUnlink.

Section files.
  Context {B : BlockDevice} {TD : TypedDisk B}.
  Context (rd : nat → Z → dest → K Z) (wr : nat → Z → source → K Z) {TF : TypedFunctions rd wr}.

Definition run_file_call (c : file_call) : K Z :=
  match c with
  | CallOpen => sys_open | CallClose => sys_close | CallRead => sys_read rd | CallWrite => sys_write wr | CallLseek => sys_lseek
  | CallDup => sys_dup | CallFstat pad => sys_fstat pad | CallGetdir => sys_getdir | CallMkdir => sys_mkdir | CallChdir => sys_chdir
  | CallLink => sys_link | CallUnlink => sys_unlink
  end.

(** The padding of the structure [sys_fstat] copies out is bytes of the stack. *)
Definition call_typed (c : file_call) : Prop := match c with CallFstat pad => Forall byte_ok pad | _ => True end.

Lemma file_call_typed c : call_typed c → ensures any (run_file_call c).
Proof.
  destruct c; simpl; intros Hc.
  - unfold sys_open. typing.
  - unfold sys_close. typing.
  - unfold sys_read. typing.
  - unfold sys_write. typing.
  - unfold sys_lseek. typing.
  - unfold sys_dup. typing.
  - unfold sys_fstat. typing.
  - unfold sys_getdir. typing.
  - unfold sys_mkdir. typing.
  - unfold sys_chdir. typing.
  - unfold sys_link. typing.
  - unfold sys_unlink. typing.
Qed.

End files.

(** ** Traps and boot *)

Lemma uart_getc_typed : ensures any uart_getc_sync.
Proof. unfold uart_getc_sync, ReadLSR, ReadRHR. typing. Qed.
Lemma uart_putc_typed g c : ensures any (uart_putc_sync g c).
Proof. unfold uart_putc_sync, wait_tx, WriteTHR, ReadLSR. typing. Qed.

#[export] Hint Resolve uart_getc_typed uart_putc_typed : typed.

Lemma uart_intr_loop_typed fuel g : ensures any (uart_intr_loop fuel g).
Proof. induction fuel as [|fuel IH]; simpl; typing. Qed.

#[export] Hint Resolve uart_intr_loop_typed : typed.

Lemma uart_intr_typed g : ensures any (uart_intr g).
Proof. unfold uart_intr. typing. Qed.
Lemma print_init_typed : ensures any print_init.
Proof. unfold print_init. typing. Qed.
Lemma timer_create_typed : ensures any timer_create.
Proof. unfold timer_create. typing. Qed.
Lemma timer_update_typed : ensures any timer_update.
Proof. unfold timer_update. typing. Qed.
Lemma upd_csr_typed f : ensures any (upd_csr f).
Proof. unfold upd_csr. typing. Qed.
Lemma r_csr_typed : ensures any r_csr.
Proof. unfold r_csr. typing. Qed.

#[export] Hint Resolve uart_intr_typed print_init_typed timer_create_typed timer_update_typed upd_csr_typed r_csr_typed : typed.

Lemma w_stvec_typed v : ensures any (w_stvec v).
Proof. apply upd_csr_typed. Qed.
Lemma w_sepc_typed v : ensures any (w_sepc v).
Proof. apply upd_csr_typed. Qed.
Lemma w_sip_typed v : ensures any (w_sip v).
Proof. apply upd_csr_typed. Qed.

#[export] Hint Resolve w_stvec_typed w_sepc_typed w_sip_typed : typed.

(** The registers of the interrupt controller are not part of the state. *)
Class TypedPlic (P : Plic) := {
  plic_read_typed a : ensures any (@plic_read P a);
  plic_write_typed a v : ensures any (@plic_write P a v) }.

#[export] Hint Resolve plic_read_typed plic_write_typed : typed.

Section traps.
  Context {P : Plic} {TP : TypedPlic P} {Sw : Switch} {TS : TypedSwitch Sw} {B : BlockDevice} {TD : TypedDisk B}.

Lemma plic_claim_typed : ensures any plic_claim.
Proof. unfold plic_claim. typing. Qed.
Lemma plic_complete_typed n : ensures any (plic_complete n).
Proof. unfold plic_complete. typing. Qed.
Lemma plic_init_typed : ensures any plic_init.
Proof. unfold plic_init. typing. Qed.
Lemma plic_inithart_typed : ensures any plic_inithart.
Proof. unfold plic_inithart. typing. Qed.

Local Hint Resolve plic_claim_typed plic_complete_typed plic_init_typed plic_inithart_typed : typed.

Lemma external_typed g : ensures any (external_interrupt_handler g).
Proof. unfold external_interrupt_handler. typing. Qed.
Lemma timer_handler_typed : ensures any timer_interrupt_handler.
Proof. unfold timer_interrupt_handler. typing. Qed.

Local Hint Resolve external_typed timer_handler_typed : typed.

Lemma trap_kernel_typed g : ensures any (trap_kernel_handler g).
Proof. unfold trap_kernel_handler. typing. Qed.
Lemma user_return_typed : ensures any trap_user_return.
Proof. unfold trap_user_return. typing. Qed.

Local Hint Resolve user_return_typed : typed.

Lemma trap_user_typed n : ensures any (trap_user_handler n).
Proof. unfold trap_user_handler. typing. Qed.
Lemma fork_return_typed : ensures any fork_return.
Proof. unfold fork_return. typing. Qed.
Lemma forkret_typed : ensures any proc_forkret.
Proof. unfold proc_forkret. typing. Qed.
Lemma inithart_typed : ensures any trap_kernel_inithart.
Proof. unfold trap_kernel_inithart. typing. Qed.

Local Hint Resolve inithart_typed : typed.

Lemma main_typed n code a reg pages : Forall byte_ok code → ensures any (main n code a reg pages).
Proof. intros Hc. unfold main, main0, main_other, trap_kernel_init. typing. Qed.

End traps.

(** ** Every entry into the kernel *)

(** What [main] does on hart 0 before it enters the scheduler, which it never leaves. *)
Definition boot {P : Plic} (initcode : list Z) (initcode_addr : Z) (vio_reg : Z → Z) (vio_pages : Z) : K unit :=
  print_init;;
  pmem_init;;
  mmap_init;;
  kvm_init;;
  kvm_inithart;;
  proc_init;;
  cpu_init;;
  trap_kernel_init;;
  trap_kernel_inithart;;
  plic_init;;
  plic_inithart;;
  virtio_disk_init vio_reg vio_pages;;
  make_first_proc initcode initcode_addr.

Lemma bind_ext {A C} (m : K A) (k k' : A → K C) s : (∀ a s', k a s' = k' a s') → (m ≫= k) s = (m ≫= k') s.
Proof. intros H. unfold mbind, M_bind. by destruct (m s) as [[a s']| | | |]. Qed.

Lemma main0_boot {P : Plic} {Sw : Switch} n code a reg pages s :
  main0 n code a reg pages s = (boot code a reg pages;; proc_scheduler n) s.
Proof. unfold main0, boot, proc_make_first. repeat (rewrite bind_assoc; apply bind_ext; intros ? ?). done. Qed.

Inductive kernel_entry :=
  | EnterBoot (initcode : list Z) (initcode_addr : Z) (vio_reg : Z → Z) (vio_pages : Z)
  | EnterUser (rounds : nat)
  | EnterKernel (g : print_vars)
  | EnterFork
  | EnterFirst
  | EnterScheduler
  | EnterFile (c : file_call).

Definition entry_args_typed (e : kernel_entry) : Prop :=
  match e with EnterBoot code _ _ _ => Forall byte_ok code | EnterFile c => call_typed c | _ => True end.

Section entries.
  Context {P : Plic} {Sw : Switch} {B : BlockDevice}.
  Context (rd : nat → Z → dest → K Z) (wr : nat → Z → source → K Z).

Definition enter (e : kernel_entry) : K unit :=
  match e with
  | EnterBoot code a reg pages => boot code a reg pages
  | EnterUser n => trap_user_handler n;; mret tt
  | EnterKernel g => trap_kernel_handler g
  | EnterFork => fork_return;; mret tt
  | EnterFirst => proc_forkret;; mret tt
  | EnterScheduler => scheduler_round
  | EnterFile c => run_file_call rd wr c;; mret tt
  end.

(** The machine between two states: kernel code runs from an entry to its end, a user program
    stores a byte, or the hardware sets the registers of the hart. *)
Inductive machine_step : kstate → kstate → Prop :=
  | step_enter e s s' : entry_args_typed e → enter e s = Ok (tt, s') → machine_step s s'
  | step_store a b s : byte_ok b → machine_step s (set_mem (<[a := b]> (k_mem s)) s)
  | step_hart h s : machine_step s (set_hart h s).

End entries.

(** The zeroed data segment and a disk. *)
Definition power_up (syms : symbols) (d : gmap Z (list Z)) : kstate := set_disk d (zero_state syms).

Lemma power_up_typed syms d : map_Forall (λ _ b, block_ok b) d → typed (power_up syms d).
Proof.
  intros Hd. split; try done; try (apply array_replicate; repeat split; try done).
  - by apply Forall_replicate.
  - by apply Forall_replicate.
Qed.

Section reachable.
  Context {P : Plic} {TP : TypedPlic P} {Sw : Switch} {TS : TypedSwitch Sw} {B : BlockDevice} {TD : TypedDisk B}.
  Context (rd : nat → Z → dest → K Z) (wr : nat → Z → source → K Z) {TF : TypedFunctions rd wr}.

Lemma boot_typed code a reg pages : Forall byte_ok code → ensures any (boot code a reg pages).
Proof.
  intros Hc. pose proof plic_init_typed. pose proof plic_inithart_typed. pose proof inithart_typed. unfold boot, trap_kernel_init. typing.
Qed.

Lemma enter_typed e : entry_args_typed e → ensures any (enter rd wr e).
Proof.
  destruct e; simpl; intros He.
  - by apply boot_typed.
  - eapply t_bind; [apply trap_user_typed|]. intros; by apply t_ret.
  - apply trap_kernel_typed.
  - eapply t_bind; [apply fork_return_typed|]. intros; by apply t_ret.
  - eapply t_bind; [apply forkret_typed|]. intros; by apply t_ret.
  - apply round_typed.
  - eapply t_bind; [by apply file_call_typed|]. intros; by apply t_ret.
Qed.

Lemma machine_step_typed s s' : machine_step rd wr s s' → typed s → typed s'.
Proof.
  intros [e s1 s2 He Hrun|a b s1 Hb|h s1] Hs.
  - specialize (enter_typed e He s1 Hs). rewrite Hrun. by intros [? _].
  - apply typed_mem; [|done]. apply insert_byte; [done|apply Hs].
  - by apply typed_hart.
Qed.

End reachable.

(** ** Claims *)


(** ** Witness: a timer tick *)

Definition quiet_plic : Plic := {| plic_read _ := mret 0; plic_write _ _ := mret tt |}.

Lemma quiet_plic_typed : TypedPlic quiet_plic.
Proof. by split; intros; apply t_ret. Qed.

Definition no_read (_ : nat) (_ : Z) (_ : dest) : K Z := mret MINUS1.
Definition no_write (_ : nat) (_ : Z) (_ : source) : K Z := mret MINUS1.

Lemma no_functions_typed : TypedFunctions no_read no_write.
Proof. by split; intros; apply t_ret. Qed.

(** The hart with the registers of a software interrupt taken in the kernel. *)
Definition tick_hart : hart :=
  let h := zero_hart 0 in
  mk_hart (h_id h) (h_sie h) (h_noff h) (h_origin h) (h_proc h) (h_ctx h) (mk_csrs true 0 (Z.lor INTERRUPT_BIT 1) 0 0 0 2).

Definition tick_disk : gmap Z (list Z) := {[ 7 := replicate (Z.to_nat BLOCK_SIZE) 1 ]}.

Lemma tick_disk_ok : map_Forall (λ _ b, block_ok b) tick_disk.
Proof. apply map_Forall_singleton. split; [apply length_replicate|by apply Forall_replicate]. Qed.

Definition tick_state : option kstate :=
  match @enter quiet_plic disk_switch virtio_block_device no_read no_write (EnterKernel (mk_print_vars true false))
    (set_hart tick_hart (power_up (image_syms 3) tick_disk)) with
  | Ok (tt, s) => Some s
  | _ => None
  end.

Lemma tick_ticks : k_ticks <$> tick_state = Some 1.
Proof. by vm_compute. Qed.

Lemma tick_reached s : tick_state = Some s →
  rtc (@machine_step quiet_plic disk_switch virtio_block_device no_read no_write) (power_up (image_syms 3) tick_disk) s.
Proof.
  unfold tick_state. destruct (enter _ _ _ _) as [[[] s1]| | | |] eqn:E; [|done..]. intros [= <-].
  eapply rtc_l; [apply (step_hart _ _ tick_hart)|]. eapply rtc_l; [by eapply (step_enter _ _ (EnterKernel _))|]. constructor.
Qed.

