(* ===== verification/Mkfs.v ===== *)
(** * The image builder (mkfs/mkfs.c)

    The host program that writes the initial file system: superblock, bitmaps, the root
    directory and one file per user program.  The image is a map from block numbers to
    blocks; the host's file operations are taken to succeed. *)

From S2P Require Import Prelude Bytes Kernel Lock Str Pmem Vm Sched Virtio Buf Bitmap Uvm Inode Dir File.

Definition N_DATA_BLOCK : Z := 8192.
Definition N_INODE_BLOCK : Z := 128.
Definition N_BLOCK : Z := N_DATA_BLOCK + N_INODE_BLOCK + 3.

(** The image, and the superblock of the program. *)
Record image := mk_image { im_disk : gmap Z (list Z); im_sb : super_block }.

Abbreviation I := (M image).

(** On a little-endian host. *)
Definition xshort (x : Z) : Z := le_val (le_bytes 2 x).
Definition xint (x : Z) : Z := le_val (le_bytes 4 x).

Definition block_write (b : Z) (l : list Z) : I unit :=
  modify (λ m, mk_image (<[b := l]> (im_disk m)) (im_sb m)).

(** A read past the end of the image file fails and ends the program. *)
Definition block_read (b : Z) : I (list Z) :=
  d ← gets (λ m, im_disk m); match d !! b with Some l => mret l | None => panic "read" end.

(** The search of both allocators: the first clear bit of a bitmap block. *)
Definition bit_alloc (bitmap : Z) : I (option Z) :=
  buf ← block_read bitmap;
  for_return (seq 0 (Z.to_nat BLOCK_SIZE)) (λ byte,
    for_return (seq 0 8) (λ shift,
      let bit_cmp := u8 (Z.shiftl 1 (Z.of_nat shift)) in
      d ← deref "buf" (buf !! byte);
      if Z.land bit_cmp d =? 0 then
        block_write bitmap (<[byte := Z.lor d bit_cmp]> buf);;
        mret (Some (Z.of_nat byte * 8 + Z.of_nat shift))
      else mret None)).

(** [printf(...); while(1);] when no bit is left. *)
Definition block_alloc : I Z :=
  sb ← gets (λ m, im_sb m);
  r ← bit_alloc (data_bitmap_start sb);
  match r with Some k => mret (u32 (k + data_start sb)) | None => hang end.

Definition mk_inode_alloc : I Z :=
  sb ← gets (λ m, im_sb m);
  r ← bit_alloc (inode_bitmap_start sb);
  match r with Some k => mret (u16 k) | None => hang end.

(** [INODE_LOCATE_BLOCK(inum, sb)] *)
Definition INODE_LOCATE_BLOCK (inum : Z) (sb : super_block) : Z := u32 (inum / INODE_PER_BLOCK + inode_start sb).

(** [inode_disk_t] is the on-disk part of an inode. *)
Definition inode_read (inum : Z) : I inode :=
  sb ← gets (λ m, im_sb m);
  buf ← block_read (INODE_LOCATE_BLOCK inum sb);
  mret (load_inode (slice (Z.to_nat (inum mod INODE_PER_BLOCK * INODE_DISK_SIZE)) (Z.to_nat INODE_DISK_SIZE) buf)
          zero_inode).

Definition inode_write (inum : Z) (ip : inode) : I unit :=
  sb ← gets (λ m, im_sb m);
  buf ← block_read (INODE_LOCATE_BLOCK inum sb);
  block_write (INODE_LOCATE_BLOCK inum sb)
    (splice (Z.to_nat (inum mod INODE_PER_BLOCK * INODE_DISK_SIZE)) (disk_inode ip) buf).

Definition mk_inode_create (inum type : Z) : I inode :=
  let ip := mk_inode (xshort type) (xshort 0) (xshort 0) (xshort 1) (xint 0) (replicate N_ADDRS (xint 0)) 0 0 false in
  inode_write inum ip;;
  mret ip.

(** [strcpy] into the array [old]: the string with its NUL, the rest as it was. *)
Definition strcpy (old name : list Z) : option (list Z) :=
  n ← strlen name; Some (splice 0 (take (Z.to_nat n + 1) name) old).

Section mkfs.

(** What the uninitialised array [de.name] holds. *)
Variable stack_name : list Z.

Definition dirent_create (dir_block offset : Z) (name : list Z) (inum : Z) : I Z :=
  n ← deref "strlen" (strlen name);
  kassert (n <? 30) "strlen(name) < 30";;
  nm ← deref "strcpy" (strcpy stack_name name);
  dir_buf ← block_read dir_block;
  (if BLOCK_SIZE <? offset + DIRENT_SIZE then fault "dir_buf" else mret tt);;
  block_write dir_block (splice (Z.to_nat offset) (de_bytes (mk_dirent (u16 (xint inum)) nm)) dir_buf);;
  mret (offset + DIRENT_SIZE).

(** An index entry: an element of the inode's table, or of the local copy of an indirect
    block, which the code does not write back. The new value of the entry is returned
    with the block. *)
Fixpoint mk_locate_block (fuel : nat) (entry bn size : Z) : I (Z * Z) :=
  match fuel with
  | O => no_fuel
  | S fuel =>
      entry ← (if entry =? 0 then block_alloc else mret entry);
      if size =? 1 then mret (entry, entry)
      else
        let next_size := size / ENTRY_PER_BLOCK in
        buf ← block_read entry;
        r ← mk_locate_block fuel (entry_at buf (bn / next_size)) (bn mod next_size) next_size;
        mret (entry, snd r)
  end.

(** Entry [k] of the inode, updated, and the block. *)
Definition locate_addr (ip : inode) (k : nat) (bn size : Z) : I (inode * Z) :=
  a ← deref "addrs" (i_addrs ip !! k);
  r ← mk_locate_block 3 a bn size;
  mret (i_set_addrs (<[k := fst r]> (i_addrs ip)) ip, snd r).

Definition mk_inode_locate_block (ip : inode) (bn : Z) : I (inode * Z) :=
  if bn <? Z.of_nat N_ADDRS_1 then locate_addr ip (Z.to_nat bn) bn 1
  else
    let bn := bn - Z.of_nat N_ADDRS_1 in
    if bn <? Z.of_nat N_ADDRS_2 * ENTRY_PER_BLOCK then
      let size := ENTRY_PER_BLOCK in
      locate_addr ip (N_ADDRS_1 + Z.to_nat (bn / size)) (bn mod size) size
    else
      let bn := bn - Z.of_nat N_ADDRS_2 * ENTRY_PER_BLOCK in
      if bn <? Z.of_nat N_ADDRS_3 * ENTRY_PER_BLOCK * ENTRY_PER_BLOCK then
        let size := ENTRY_PER_BLOCK * ENTRY_PER_BLOCK in
        locate_addr ip (N_ADDRS_1 + N_ADDRS_2 + Z.to_nat (bn / size)) (bn mod size) size
      else hang.

(** The copy of a program of contents [src]: [bn] is the running block counter and [buf]
    the read buffer. *)
Fixpoint copy_file (fuel : nat) (ip : inode) (bn : Z) (buf src : list Z) : I (inode * Z * list Z) :=
  match fuel with
  | O => no_fuel
  | S fuel =>
      let read_len := Nat.min (length src) (Z.to_nat BLOCK_SIZE) in
      let buf := splice 0 (take read_len src) buf in
      r ← mk_inode_locate_block ip bn;
      let '(ip, block_num) := r in
      block_write block_num buf;;
      let ip := i_set_size (u32 (i_size ip + Z.of_nat read_len)) ip in
      if (read_len <? Z.to_nat BLOCK_SIZE)%nat then mret (ip, bn + 1, buf)
      else copy_file fuel ip (bn + 1) buf (drop read_len src)
  end.

(** Characters after the prefix "./user/", which must be an underscore and a name
    without slashes. *)
Definition shortname (arg : list Z) : I (list Z) :=
  match drop 7 arg with
  | c :: l =>
      kassert (c =? 95) "*shortname == '_'";;
      kassert (forallb (λ x, negb (x =? SLASH)) l) "index(shortname, '/') == 0";;
      mret l
  | [] => fault "argv"
  end.

(** One user program: its path and its contents. *)
Definition add_program (rooti_block : Z) (arg src : list Z) (st : Z * Z * list Z) : I (Z * Z * list Z) :=
  let '(offset, bn, buf) := st in
  nm ← shortname arg;
  inum ← mk_inode_alloc;
  ip ← mk_inode_create inum FT_FILE;
  offset ← dirent_create rooti_block offset nm inum;
  r ← copy_file (Z.to_nat (Z.of_nat (length src) / BLOCK_SIZE) + 1) ip bn buf src;
  let '(ip, bn, buf) := r in
  inode_write inum (i_set_size (xint (i_size ip)) (i_set_addrs (xint <$> i_addrs ip) ip));;
  mret (offset, bn, buf).

Fixpoint add_programs (rooti_block : Z) (progs : list (list Z * list Z)) (st : Z * Z * list Z) : I unit :=
  match progs with
  | [] => mret tt
  | (arg, src) :: progs => st ← add_program rooti_block arg src st; add_programs rooti_block progs st
  end.

(** The superblock. *)
Definition mkfs_sb : super_block :=
  mk_super_block FS_MAGIC (xint BLOCK_SIZE) (xint 1) (xint 2) (xint (2 + N_INODE_BLOCK)) (xint (3 + N_INODE_BLOCK))
    (xint N_INODE_BLOCK) (xint N_DATA_BLOCK) (xint N_BLOCK).

Definition sb_bytes (sb : super_block) : list Z :=
  mjoin (le_bytes 4 <$> [magic sb; block_size sb; inode_bitmap_start sb; inode_start sb; data_bitmap_start sb;
    data_start sb; inode_blocks sb; data_blocks sb; total_blocks sb]).

(** [main], with the programs of [argv[2]] on: [argc] is two more than their number. *)
Definition mkfs (progs : list (list Z * list Z)) : I unit :=
  let zero := replicate (Z.to_nat BLOCK_SIZE) 0 in
  modify (λ m, mk_image (im_disk m) mkfs_sb);;
  for_each (seqZ 0 N_BLOCK) (λ i, block_write i zero);;
  let buf := splice 0 (sb_bytes mkfs_sb) zero in
  block_write 0 buf;;
  root_inum ← mk_inode_alloc;
  rooti_block ← block_alloc;
  (if root_inum =? 0 then mret tt else hang);;
  rooti ← mk_inode_create root_inum FT_DIR;
  offset ← dirent_create rooti_block 0 (bytes_of ".") root_inum;
  offset ← dirent_create rooti_block offset (bytes_of "..") root_inum;
  add_programs rooti_block progs (offset, 0, buf);;
  inode_write root_inum
    (i_set_size (xint (DIRENT_SIZE * (2 + Z.of_nat (length progs))))
       (i_set_addrs (<[O := xint rooti_block]> (i_addrs rooti)) rooti)).

End mkfs.

(** The image of a run. *)
Definition disk_of (r : outcome (unit * image)) : option (gmap Z (list Z)) :=
  match r with Ok (_, m) => Some (im_disk m) | _ => None end.

Definition no_image : image := mk_image ∅ (mk_super_block 0 0 0 0 0 0 0 0 0).

Definition mkfs_disk (stack_name : list Z) (progs : list (list Z * list Z)) : option (gmap Z (list Z)) :=
  disk_of (mkfs stack_name progs no_image).

(** ** Theory *)

Definition zero_block : list Z := replicate (Z.to_nat BLOCK_SIZE) 0.

Definition on_disk (f : gmap Z (list Z) → gmap Z (list Z)) (m : image) : image := mk_image (f (im_disk m)) (im_sb m).

Lemma fill_run l z m :
  for_each l (λ i, block_write i z) m = Ok (tt, on_disk (λ d, foldl (λ d b, <[b := z]> d) d l) m).
Proof.
  revert m. induction l as [|b l IH]; intros m; [by destruct m|]. cbn [for_each].
  rewrite (bind_ok _ _ _ tt (on_disk (insert b z) m)) by done. by rewrite IH.
Qed.

Lemma fill_lookup l (z : list Z) d b :
  foldl (λ (d : gmap Z (list Z)) b, <[b := z]> d) d l !! b = if decide (b ∈ l) then Some z else d !! b.
Proof.
  revert d. induction l as [|c l IH]; intros d; cbn [foldl].
  - rewrite decide_False; [done|]. apply not_elem_of_nil.
  - rewrite IH. destruct (decide (b ∈ l)) as [Hl|Hl]; [by rewrite decide_True by (by right)|].
    destruct (decide (c = b)) as [->|Hne].
    + rewrite lookup_insert_eq, decide_True; [done|]. by left.
    + rewrite lookup_insert_ne, decide_False; [done| |done]. intros [->|?]%elem_of_cons; done.
Qed.

Lemma block_read_run b l m : im_disk m !! b = Some l → block_read b m = Ok (l, m).
Proof. intros E. unfold block_read. mrun. by rewrite E. Qed.

(** The first bit of an empty bitmap. *)
Lemma bit_alloc_zero b m :
  im_disk m !! b = Some zero_block →
  bit_alloc b m = Ok (Some 0, on_disk (insert b (1 :: replicate 1023 0)) m).
Proof.
  intros E. unfold bit_alloc. run (block_read_run b _ m E). done.
Qed.

Lemma mk_inode_write_run inum ip m d :
  im_disk m !! INODE_LOCATE_BLOCK inum (im_sb m) = Some d →
  inode_write inum ip m = Ok (tt, on_disk (insert (INODE_LOCATE_BLOCK inum (im_sb m))
    (splice (Z.to_nat (inum mod INODE_PER_BLOCK * INODE_DISK_SIZE)) (disk_inode ip) d)) m).
Proof. intros E. unfold inode_write. mrun. by run (block_read_run _ _ m E). Qed.

Lemma dirent_create_run junk b offset name n nm inum m d :
  strlen name = Some n → n < 30 → strcpy junk name = Some nm → offset + DIRENT_SIZE ≤ BLOCK_SIZE →
  im_disk m !! b = Some d →
  dirent_create junk b offset name inum m = Ok (offset + DIRENT_SIZE,
    on_disk (insert b (splice (Z.to_nat offset) (de_bytes (mk_dirent (u16 (xint inum)) nm)) d)) m).
Proof.
  intros Hn Hlt Hc Ho E. unfold dirent_create. rewrite Hn. mrun. rewrite (proj2 (Z.ltb_lt _ _) Hlt). mrun.
  rewrite Hc. mrun. run (block_read_run b _ m E). rewrite (proj2 (Z.ltb_ge _ _) Ho). by mrun.
Qed.

(** The blocks of an image without programs that are not zero. *)
Definition root_inode : inode := mk_inode FT_DIR 0 0 1 64 (131 :: replicate 12 0) 0 0 false.

Definition dot_name (junk : list Z) : list Z := splice 0 [46; 0] junk.
Definition dotdot_name (junk : list Z) : list Z := splice 0 [46; 46; 0] junk.

Definition root_dirents (junk : list Z) : list Z :=
  splice 32 (de_bytes (mk_dirent 0 (dotdot_name junk))) (splice 0 (de_bytes (mk_dirent 0 (dot_name junk))) zero_block).

(** Block [b] of the image. *)
Definition root_image (junk : list Z) (b : Z) : list Z :=
  if b =? 0 then splice 0 (sb_bytes mkfs_sb) zero_block
  else if b =? 1 then 1 :: replicate 1023 0
  else if b =? 2 then splice 0 (disk_inode root_inode) zero_block
  else if b =? 130 then 1 :: replicate 1023 0
  else if b =? 131 then root_dirents junk
  else zero_block.

(** The image holds block [g b] at [b] and has the builder's superblock. *)
Definition holds (g : Z → list Z) (m : image) : Prop :=
  im_sb m = mkfs_sb ∧ ∀ b, 0 ≤ b < N_BLOCK → im_disk m !! b = Some (g b).

Definition put (b : Z) (l : list Z) (g : Z → list Z) (x : Z) : list Z := if x =? b then l else g x.

Lemma holds_insert g m b l : holds g m → holds (put b l g) (on_disk (insert b l) m).
Proof.
  intros [Hs Hg]. split; [done|]. intros x Hx. cbn [im_disk on_disk]. unfold put.
  destruct (x =? b) eqn:E; zbool; [subst; apply lookup_insert_eq|]. by rewrite lookup_insert_ne, Hg.
Qed.

Lemma holds_alloc g m :
  holds g m → g 1 = zero_block →
  ∃ m', mk_inode_alloc m = Ok (0, m') ∧ holds (put 1 (1 :: replicate 1023 0) g) m'.
Proof.
  intros Hh Hg. eexists. split; [|by apply holds_insert]. destruct Hh as [Hs Hl]. unfold mk_inode_alloc. mrun. rewrite Hs.
  run (bit_alloc_zero 1 m ltac:(rewrite <- Hg; by apply Hl)). done.
Qed.

Lemma holds_block_alloc g m :
  holds g m → g 130 = zero_block →
  ∃ m', block_alloc m = Ok (131, m') ∧ holds (put 130 (1 :: replicate 1023 0) g) m'.
Proof.
  intros Hh Hg. eexists. split; [|by apply holds_insert]. destruct Hh as [Hs Hl]. unfold block_alloc. mrun. rewrite Hs.
  run (bit_alloc_zero 130 m ltac:(rewrite <- Hg; by apply Hl)). done.
Qed.

Lemma holds_inode_write g m ip :
  holds g m → ∃ m', inode_write 0 ip m = Ok (tt, m') ∧ holds (put 2 (splice 0 (disk_inode ip) (g 2)) g) m'.
Proof.
  intros Hh. eexists. split; [|by apply holds_insert]. destruct Hh as [Hs Hl].
  rewrite (mk_inode_write_run 0 ip m (g 2)); rewrite Hs; [done|by apply Hl].
Qed.

Lemma holds_dirent g m junk offset name n nm :
  holds g m → strlen name = Some n → n < 30 → strcpy junk name = Some nm → offset + DIRENT_SIZE ≤ BLOCK_SIZE →
  ∃ m', dirent_create junk 131 offset name 0 m = Ok (offset + DIRENT_SIZE, m') ∧
    holds (put 131 (splice (Z.to_nat offset) (de_bytes (mk_dirent 0 nm)) (g 131)) g) m'.
Proof.
  intros Hh Hn Hlt Hc Ho. eexists. split; [|by apply holds_insert]. destruct Hh as [Hs Hl].
  by rewrite (dirent_create_run junk 131 offset name n nm 0 m (g 131)); [|..|apply Hl].
Qed.

Lemma mkfs_empty_run junk :
  ∃ m, mkfs junk [] no_image = Ok (tt, m) ∧ holds (root_image junk) m.
Proof.
  unfold mkfs. mrun. fold zero_block.
  run (fill_run (seqZ 0 N_BLOCK) zero_block (mk_image (im_disk no_image) mkfs_sb)). set (m0 := on_disk _ _).
  assert (holds (λ _, zero_block) m0) as H0.
  { split; [done|]. intros b Hb. unfold m0. cbn [im_disk on_disk]. rewrite fill_lookup, decide_True; [done|].
    apply elem_of_seqZ. lia. }
  clearbody m0. set (sbb := splice 0 (sb_bytes mkfs_sb) zero_block). set (m1 := on_disk (insert 0 sbb) m0).
  rewrite (bind_ok _ _ _ tt m1) by done. pose proof (holds_insert _ _ 0 sbb H0) as H1. fold m1 in H1. clearbody m1.
  destruct (holds_alloc _ _ H1 ltac:(done)) as (m2 & R2 & H2). run R2.
  destruct (holds_block_alloc _ _ H2 ltac:(done)) as (m3 & R3 & H3). run R3. cbn [Z.eqb]. mrun. unfold mk_inode_create.
  destruct (holds_inode_write _ _ (mk_inode (xshort FT_DIR) (xshort 0) (xshort 0) (xshort 1) (xint 0)
    (replicate N_ADDRS (xint 0)) 0 0 false) H3) as (m4 & R4 & H4).
  rewrite bind_assoc. run R4. mrun.
  destruct (holds_dirent _ _ junk 0 (bytes_of ".") 1 (dot_name junk) H4 ltac:(done) ltac:(done) ltac:(done) ltac:(done))
    as (m5 & R5 & H5). run R5.
  destruct (holds_dirent _ _ junk (0 + DIRENT_SIZE) (bytes_of "..") 2 (dotdot_name junk) H5 ltac:(done) ltac:(done)
    ltac:(done) ltac:(done)) as (m6 & R6 & H6). run R6. cbn [add_programs]. mrun.
  destruct (holds_inode_write _ _ root_inode H6) as (m7 & R7 & H7). exists m7. split; [exact R7|].
  destruct H7 as [Hs Hl]. split; [done|]. intros b Hb. rewrite Hl by done. f_equal. unfold put, root_image.
  destruct (decide (b = 0)) as [->|N0]; [done|]. destruct (decide (b = 1)) as [->|N1]; [done|].
  destruct (decide (b = 2)) as [->|N2]; [by vm_compute|]. destruct (decide (b = 130)) as [->|N3]; [done|].
  destruct (decide (b = 131)) as [->|N4]; [done|]. by rewrite !(proj2 (Z.eqb_neq b _)).
Qed.

Lemma length_root_dirents junk : length junk = DIR_NAME_LEN → length (root_dirents junk) = Z.to_nat BLOCK_SIZE.
Proof. intros Hj. do 30 (destruct junk as [|? junk]; [done|]). by destruct junk. Qed.

Lemma root_image_length junk b : length junk = DIR_NAME_LEN → length (root_image junk b) = Z.to_nat BLOCK_SIZE.
Proof.
  intros Hj. unfold root_image. destruct (b =? 0); [done|]. destruct (b =? 1); [done|]. destruct (b =? 2); [done|].
  destruct (b =? 130); [done|]. destruct (b =? 131); [by apply length_root_dirents|done].
Qed.

Lemma first_bit_only k : (k < NBITS)%nat → bit_of (1 :: replicate 1023 0) k = bool_decide (k = O).
Proof.
  intros Hk. unfold bit_of. destruct (k / 8)%nat as [|n] eqn:E.
  - assert (k < 8)%nat by (apply Nat.div_small_iff in E; lia). by do 8 (destruct k as [|k]; [done|]); lia.
  - rewrite bool_decide_false by (by intros ->). cbn [lookup list_lookup].
    replace (default 0 _) with 0; [by rewrite Z.bits_0|]. destruct (replicate 1023 0 !! n) as [x|] eqn:Ex; [|done].
    by apply lookup_replicate in Ex as [-> _].
Qed.

Lemma root_dirents_map junk :
  length junk = DIR_NAME_LEN → dir_map (entries (root_dirents junk) 2) = <[[46] := 0]> {[ [46; 46] := 0 ]}.
Proof. intros Hj. do 30 (destruct junk as [|? junk]; [done|]). destruct junk; [|done]. by vm_compute. Qed.

(** ** The builder's allocator and the kernel's *)

(** The body of the search: one bit. *)
Definition bit_test (b : Z) (d : list Z) (byte shift : nat) : I (option Z) :=
  let bit_cmp := u8 (Z.shiftl 1 (Z.of_nat shift)) in
  v ← deref "buf" (d !! byte);
  if Z.land bit_cmp v =? 0 then
    block_write b (<[byte := Z.lor v bit_cmp]> d);; mret (Some (Z.of_nat byte * 8 + Z.of_nat shift))
  else mret None.

Lemma bit_test_run m b d byte shift x :
  d !! byte = Some x → (shift < 8)%nat →
  bit_test b d byte shift m =
  if bit_of d (byte * 8 + shift) then Ok (None, m)
  else Ok (Some (Z.of_nat (byte * 8 + shift)), on_disk (insert b (set_bit d (byte * 8 + shift))) m).
Proof.
  intros Hx Hs. unfold bit_test. cbv zeta. rewrite Hx. mrun. rewrite mask_bit, land_pow2 by lia. unfold set_bit.
  replace ((byte * 8 + shift) / 8)%nat with byte by (rewrite Nat.div_add_l, Nat.div_small; lia).
  replace ((byte * 8 + shift) mod 8)%nat with shift by (by rewrite Nat.add_comm, Nat.Div0.mod_add, Nat.mod_small).
  rewrite bit_of_pos, Hx by done. cbn [from_option id]. destruct (Z.testbit x _); [done|]. mrun.
  by replace (Z.of_nat (byte * 8 + shift)) with (Z.of_nat byte * 8 + Z.of_nat shift) by lia.
Qed.

Lemma bit_alloc_run b m d :
  im_disk m !! b = Some d → block_ok d →
  (∀ k, least_clear d k → bit_alloc b m = Ok (Some (Z.of_nat k), on_disk (insert b (set_bit d k)) m)) ∧
  ((∀ j, (j < NBITS)%nat → bit_of d j = true) → bit_alloc b m = Ok (None, m)).
Proof.
  intros E [Hl _]. change (Z.to_nat BLOCK_SIZE) with 1024%nat in Hl. unfold bit_alloc. split.
  - intros k (Hk & Hclr & Hlow). unfold NBITS, BLOCK_SIZE in Hk. run (block_read_run b _ m E).
    pose proof (nat_div8 k) as Hks. set (byte := (k / 8)%nat) in *. set (shift := (k mod 8)%nat) in *.
    assert (shift < 8)%nat as Hsh by (apply Nat.mod_upper_bound; lia). change (Z.to_nat BLOCK_SIZE) with 1024%nat.
    assert (∀ i j, (i * 8 + j < k)%nat → (i < 1024)%nat → (j < 8)%nat → bit_test b d i j m = Ok (None, m)) as Hno.
    { intros i j Hij Hi Hj. destruct (lookup_lt_is_Some_2 d i) as [x Hx]; [lia|].
      pose proof (bit_test_run m b d i j x Hx Hj) as Ht. rewrite (Hlow _ Hij) in Ht. exact Ht. }
    rewrite (seq_split 1024 byte) by lia. apply for_return_some.
    + intros i Hi. apply elem_of_seq in Hi. apply for_return_none. intros j Hj. apply elem_of_seq in Hj. apply (Hno i j); lia.
    + rewrite (seq_split 8 shift) by lia. apply for_return_some.
      * intros j Hj. apply elem_of_seq in Hj. apply (Hno byte j); lia.
      * destruct (lookup_lt_is_Some_2 d byte) as [x Hx]; [lia|]. pose proof (bit_test_run m b d byte shift x Hx Hsh) as Ht.
        rewrite <- Hks, Hclr in Ht. exact Ht.
  - intros Hall. run (block_read_run b _ m E). apply for_return_none. intros i Hi. apply elem_of_seq in Hi.
    change (Z.to_nat BLOCK_SIZE) with 1024%nat in Hi. apply for_return_none. intros j Hj. apply elem_of_seq in Hj.
    destruct (lookup_lt_is_Some_2 d i) as [x Hx]; [lia|]. pose proof (bit_test_run m b d i j x Hx ltac:(lia)) as Ht.
    rewrite Hall in Ht by (unfold NBITS, BLOCK_SIZE; lia). exact Ht.
Qed.

(** The image has 128 blocks of inodes, but the bitmap of inodes has room for 8192 numbers and the
    kernel's search for a free one goes through all of it.  Once the 2048 inodes of the image are
    taken the next number is 2048, and the place of that inode is the block of the data bitmap. *)
Lemma inode_area_overrun {B : BlockDevice} h0 H s d :
  k_sb s = mkfs_sb → bcache h0 H s → (∀ j, H !! j ≠ Some (inode_bitmap_start mkfs_sb)) → (size H < N_BLOCK_BUF)%nat →
  k_disk s !! inode_bitmap_start mkfs_sb = Some d → block_ok d → least_clear d 2048 →
  (∃ s', bitmap_alloc_inode s = Ok (2048, s')) ∧ INODE_LOCATE_BLOCK 2048 mkfs_sb = data_bitmap_start mkfs_sb.
Proof.
  intros Es Hb HH Hsz Hd Hok Hlc. split; [|by vm_compute].
  destruct (alloc_inode_run h0 H s d 2048) as (s' & Hrun & _); rewrite ?Es; try done. by exists s'.
Qed.

(** ** Claims *)

(** C31: the image without programs is the initial file system the kernel's own definitions
    read: every block is there with its full length, block 0 decodes to the superblock
    with the magic number and block size [fs_init] checks, both bitmaps have exactly their
    first bit set, inode 0 is a directory of two entries in the first data block, and the
    map of that directory sends "." and ".." to inode 0, whatever the stack held. *)
Theorem mkfs_root_correct (junk : list Z) :
  length junk = DIR_NAME_LEN →
  ∃ m, mkfs junk [] no_image = Ok (tt, m) ∧
    (∀ b, 0 ≤ b < N_BLOCK → length <$> im_disk m !! b = Some (Z.to_nat BLOCK_SIZE)) ∧
    sb_of <$> im_disk m !! SB_BLOCK_NUM = Some mkfs_sb ∧
    magic mkfs_sb = FS_MAGIC ∧ block_size mkfs_sb = BLOCK_SIZE ∧
    (∀ bm, bm = inode_bitmap_start mkfs_sb ∨ bm = data_bitmap_start mkfs_sb →
       ∃ d, im_disk m !! bm = Some d ∧ ∀ k, (k < NBITS)%nat → bit_of d k = bool_decide (k = O)) ∧
    (λ d, load_inode (slice 0 64 d) zero_inode) <$> im_disk m !! inode_start mkfs_sb =
      Some (mk_inode FT_DIR 0 0 1 64 (data_start mkfs_sb :: replicate 12 0) 0 0 false) ∧
    (λ d, dir_map (entries d 2)) <$> im_disk m !! data_start mkfs_sb =
      Some (<[[46] := 0]> {[ [46; 46] := 0 ]}).
Proof.
  intros Hj. destruct (mkfs_empty_run junk) as (m & Hr & Hs & Hl). exists m. split; [exact Hr|]. clear Hr.
  change (SB_BLOCK_NUM) with 0. change (inode_start mkfs_sb) with 2. change (data_start mkfs_sb) with 131.
  change (inode_bitmap_start mkfs_sb) with 1. change (data_bitmap_start mkfs_sb) with 130.
  rewrite (Hl 0), (Hl 2), (Hl 131) by done.
  split; [|split; [by vm_compute|split; [done|split; [by vm_compute|split; [|split; [by vm_compute|]]]]]].
  - intros b Hb. rewrite Hl by done. cbn [fmap option_fmap option_map]. f_equal. by apply root_image_length.
  - intros bm Hbm. exists (1 :: replicate 1023 0). split; [destruct Hbm as [-> | ->]; by rewrite Hl|].
    apply first_bit_only.
  - cbn [fmap option_fmap option_map]. f_equal. by apply root_dirents_map.
Qed.

(** C32: on the same disk and superblock the builder's [block_alloc] and the kernel's
    [bitmap_alloc_block] hand out the same block and leave the same disk; with no block
    left the builder stops in its endless loop and the kernel returns 0 and keeps the
    disk. *)
Theorem block_alloc_agrees {B : BlockDevice} (h0 : hart) (H : gmap nat Z) (s : kstate) (d : list Z) :
  let b := data_bitmap_start (k_sb s) in
  bcache h0 H s → (∀ j, H !! j ≠ Some b) → (size H < N_BLOCK_BUF)%nat → 0 ≤ b < 2^31 →
  k_disk s !! b = Some d → block_ok d → 0 ≤ data_start (k_sb s) → Z.of_nat NBITS + data_start (k_sb s) < 2^32 →
  (∃ n s' m', bitmap_alloc_block s = Ok (n, s') ∧ block_alloc (mk_image (k_disk s) (k_sb s)) = Ok (n, m') ∧
     im_disk m' = k_disk s' ∧ im_sb m' = k_sb s') ∨
  (∃ s', bitmap_alloc_block s = Ok (0, s') ∧ block_alloc (mk_image (k_disk s) (k_sb s)) = Hang ∧
     k_disk s' = k_disk s).
Proof.
  intros b Hc HH Hsz Hb Hd Hok Hds Hlt. set (m := mk_image (k_disk s) (k_sb s)).
  destruct (bit_alloc_run b m d Hd Hok) as [Hsome Hnone]. unfold block_alloc.
  destruct (least_clear_or_full d) as [[k Hk]|Hall].
  - left. destruct (alloc_block_run h0 H s d k) as (s' & Hr & Hst); try done; [destruct Hk; lia|].
    eexists _, s', _. split; [exact Hr|]. mrun. cbn [im_sb m]. fold b. run (Hsome k Hk).
    rewrite u32_small by (destruct Hk; lia). split; [done|]. split; [by rewrite (fs_disk _ _ _ _ _ Hst)|].
    by rewrite (fs_step_sb _ _ _ _ _ Hst).
  - right. destruct (alloc_block_full h0 H s d) as (s' & Hr & Hst); try done. exists s'. split; [exact Hr|].
    mrun. cbn [im_sb m]. fold b. run (Hnone Hall). split; [done|]. apply Hst.
Qed.

(** ** Witnesses and a divergence *)

Lemma mkfs_root_correct_witness : ∃ m, mkfs (replicate 30 7) [] no_image = Ok (tt, m) ∧
  sb_of <$> im_disk m !! 0 = Some mkfs_sb.
Proof.
  destruct (mkfs_root_correct (replicate 30 7)) as (m & Hr & _ & Hs & _); [done|]. exists m. split; [exact Hr|exact Hs].
Defined.

(** The block counter of [main] is not reset between programs: after the loop over two
    one-block programs, on the four blocks it works on, the second has its block at
    index 1 and no block at index 0. *)
Example mkfs_bn_not_reset :
  let progs := [(bytes_of "./user/_a", [1; 2; 3]); (bytes_of "./user/_b", [4; 5])] in
  let bits := 1 :: replicate 1023 0 in
  let m := mk_image (<[1 := bits]> (<[2 := zero_block]> (<[130 := bits]> {[ 131 := zero_block ]}))) mkfs_sb in
  let addrs k d := i_addrs (load_inode (slice (64 * k) 64 d) zero_inode) in
  (disk_of (add_programs (replicate 30 0) 131 progs (64, 0, zero_block) m) ≫=
     λ D, (λ d, (addrs 1%nat d, addrs 2%nat d)) <$> D !! 2) =
    Some (132 :: replicate 12 0, 0 :: 133 :: replicate 11 0).
Proof. vm_compute. reflexivity. Qed.

Lemma block_alloc_agrees_witness :
  ∃ s s' m', k_disk s = {[ 3 := sample_bitmap ]} ∧ @bitmap_alloc_block virtio_block_device s = Ok (6, s') ∧
    block_alloc (mk_image {[ 3 := sample_bitmap ]} sample_sb) = Ok (6, m') ∧ im_disk m' = k_disk s'.
Proof.
  destruct (booted_cache {[ 3 := sample_bitmap ]} sample_sb) as (s & Hc & Ed & Es).
  destruct (@block_alloc_agrees virtio_block_device _ ∅ s sample_bitmap Hc) as [(n & s' & m' & Hr & Hm & Hd & _)|(s' & _ & Hm & _)].
  - by intros j.
  - rewrite map_size_empty. unfold N_BLOCK_BUF. lia.
  - rewrite Es. simpl. lia.
  - rewrite Es, Ed. reflexivity.
  - apply sample_bitmap_ok.
  - rewrite Es. simpl. lia.
  - rewrite Es. simpl. unfold NBITS, BLOCK_SIZE. lia.
  - rewrite Es, Ed in Hm. assert (n = 6) as -> by (vm_compute in Hm; congruence).
    exists s, s', m'. split; [exact Ed|]. split; [exact Hr|]. split; [exact Hm|exact Hd].
  - rewrite Es, Ed in Hm. by vm_compute in Hm.
Defined.
